(* ===== verification/_CoqProject ===== *)
-Q . S2P
Prelude.v
CString.v
Bytes.v
CMonad.v
Json.v
Timer.v
Dll.v
LoopWorld.v
TaskQueue.v
Syncer.v
FdHandler.v
EventLoop.v
LoopLife.v
LoopTimers.v
Fips180.v
Sha1.v
Sha1Proofs.v
Nand.v
NandProofs.v
OtaPackage.v
Fstab.v
BootCmd.v
BootProofs.v
Mount.v
Unpack.v
UnpackProofs.v
OtaRun.v
Gesture.v
InputDev.v
InputHot.v
InputProofs.v
InputRead.v
InputLife.v
Power.v
PowerMgr.v
PowerProofs.v
PowerSpec.v
PowerLife.v
BatteryWorld.v
Battery.v
BatteryProofs.v
BatteryLife.v
BatteryPower.v
BtWorld.v
BtConfig.v
BtConfigProofs.v
BtCommon.v
BtHh.v
BtBle.v
BtBleProofs.v
BtBleClient.v
BtSource.v
BtSink.v
BtService.v
BtCore.v
BtRefine.v
BtInvariant.v
BtReady.v
BtDemo.v
NetEnv.v
Demo.v
ScanList.v
WpaCommand.v
WpaProofs.v
Hostapd.v
Eloop.v
Hal.v
Report.v
WifiEvent.v
LinkEvent.v
EventProofs.v
NetSwitch.v
NetSched.v
NetCtrl.v
NetMain.v
NetSpec.v
NetContract.v
CtrlProofs.v
NetSystem.v
NetLive.v
