(* ===== verification/Prelude.v ===== *)
(** * YodaOS system services: a verification development

    YodaOS is a distribution for voice devices.  This development models the C code
    of its framework that carries the system's own logic and proves what it does:

    - the network manager ([framework/services/networking/manager]), a daemon that
      owns the Wi-Fi, modem and Ethernet devices of a board: it executes the JSON
      commands other services send it over flora, watches the links, reports their
      state, and falls back from one network to another;
    - the wpa_supplicant client it uses ([framework/libs/wifi/wpa_command.c]), and the
      library's own switch to an access point ([hostapd_command.c]);
    - the event loop ([framework/libs/libeloop]) whose timers and task queue the
      services run on;
    - the over-the-air update ([framework/libs/ota], [framework/libs/vold]): building
      an image, hashing it, writing it to NAND flash from the recovery program, and
      the block in flash that carries the state of an update across reboots;
    - the key input library ([framework/libs/inputevent]): devices that come and go,
      key events, and the clicks they make;
    - the power manager ([framework/services/power], with its HAL
      [hardware/modules/power]): wakelocks, sleep and the idle state;
    - the battery service ([framework/services/battery]): what it reads from the power
      supplies and tells the others;
    - the Bluetooth service ([framework/services/bluetooth]): five profiles that share
      one stack, their commands, the devices to connect again, and messages over BLE.

    The parts meet where the code makes them meet: the manager runs on the timers of
    the loop, the unpacker reads what the packer writes and records its progress in
    the boot block through the flash code, reading keys drives the gesture machine, the
    power manager runs on a timer of the loop (the class [Timers], discharged by the
    heap model of the loop) and hears of the charger from the battery service, and the
    Bluetooth service runs on six more of these timers.

    ** How C is modelled

    A C function is a computation in the state monad [M] of [CMonad]: it takes
    the state of the process and returns a result and a new state, or stops
    with a [fault] when the C code has undefined behaviour (a NULL or freed
    pointer, a write or read past an array, a read of an uninitialised object) or
    when a loop runs past its fuel ([Hang]).  Each component has a state of its own:
    [NetEnv.globals] (the global variables of the manager, grouped by file),
    [LoopWorld.loop] (the heap, descriptors, pipes and epoll sets of the loop),
    [Nand.oworld] (descriptors and flash), [InputDev.input] (handles, device nodes and
    descriptors), [Power.pm] and [BatteryWorld.bat] (the variables of the services,
    the wakelock nodes, logs of what they wrote and sent), [BtWorld.bts] (the handle of the
    Bluetooth service with its profiles, the mutexes held, files, calls and messages).
    Functions without effects (hashing, parsing, the gesture machine) are plain
    functions, with [None] for an access outside a buffer.  An update image is the list of
    its bytes, where a cell that is not a byte cannot be read.  Pointers that may be NULL
    are options or the address 0, output parameters are results, C strings are [string]s without NUL, byte buffers lists of [Z], and an [int] is a [Z]
    whose wrap-around is written where it can matter ([wrapu32], [wraps32], and
    [wrapul], [wrapsl] for the types whose width is the class [ULong]).

    What is not in the sources is a parameter: the kernel, the devices,
    wpa_supplicant, flora, json-c, the shell.  A class has the calls ([NetEnv.Env],
    [JsonC], [LoopEnv], [OtaEnv], [InputEnv], [PowerEnv], [BatEnv], [BtEnv], [HostapdEnv]) and answers them from a state of its
    own; a theorem quantifies over all environments unless it names the laws it needs
    ([MallocFresh], [FdFresh], [WorkingFlash], [InputKernel], [Patient], [PowerKernel],
    [StaticFiles], [SysFiles], [DataBoard], [JsonText], [JsonValues], [reads_back] and so
    on), and a concrete environment shows that they can hold.  The examples and witnesses run
    on it.

    Threads.  Commands and the access-point callback hold [func_mutex], so they
    exclude each other.  The monitor threads and the callbacks of the connect, scan and
    modem timers do not, and run while a command waits: the environment chooses a
    sequence of [tstep]s at each wait ([NetSwitch.interleave], [wifi_wait_for_result]),
    each run to its end, so that no command is seen inside the restart of the modem.
    [NetSystem] interleaves commands, thread rounds, timer expiries and queued callbacks
    as a step relation, from the end of [main]'s initialisation: commands that arrive
    while it still runs are left out (one before the timers exist faults,
    [early_command_faults], and one during the choice of the first mode can leave the
    station started beside the access point, [early_ap_gets_station]).  A thread that loops for ever is modelled by one round of
    its loop.

    The byte behind [sha1sum[48]].  A sum with its NUL has 49 bytes, one more than the
    array of the unpacker: the room there is the parameter [Unpack.SumRoom].  The theorems
    on installing an image say that they need the byte, and without it the unpacker
    faults ([sum_overflows]).

    Fuel.  A loop without a structural bound takes fuel, and a theorem shows how much
    is enough: one round for an accepted ABORT_SCAN (and none when it is refused), the
    length of a buffer for [get_line_loop], the number of nodes for list traversals
    ([links_fuel], [devs_fuel], [locks_fuel]), the requests waiting for [drain_fuel] and the run of
    the queue, the pages of a partition for the flash loops ([page_fuel]), the bytes
    given for [update_loop], the length of a line for [parse_loop] and of the file for
    [switch_loop], the items of one [epoll_wait] for [pending_fuel], four passes per
    answer of [epoll_wait] for [read_loop], and the bytes of a message for the frames
    and chunks of BLE ([send_frames], [send_chunks]).  [BtService.bt_main] takes the
    number of attempts to open the stack, which the code repeats without an end.

    ** Files

    Shared: [Prelude] (flag words, integer widths, hint databases, case analysis),
    [CString] (the C string functions, decimal round trips), [Bytes] (little-endian
    integers, strings and fields in memory), [CMonad] (the monad, preservation
    [keeps] and weakest preconditions [wp]), [Json] (json-c), [Timer] (the timers that
    services take from the loop, with what it promises of them).

    Event loop: [Dll] ([list.c] and [olist.c]), [LoopWorld] (heap and kernel), [TaskQueue]
    ([tasks_queue.c]), [Syncer] ([syncer.c]), [FdHandler] ([fd.c]), [EventLoop]
    ([scheduler.c], [eloop.c]), [LoopLife] (creation, destruction and timers, concrete
    runs), [LoopTimers] (the loop discharges [Timer]).

    Update: [Fips180] (the standard), [Sha1] and [Sha1Proofs] ([sha1.c]), [Nand] and
    [NandProofs] (the world of the programs, flash access of [recovery.c]), [OtaPackage]
    ([rokid_package.h], [rokid_package.c]), [Fstab] (tables of partitions), [BootCmd] and
    [BootProofs] (the boot block), [Mount] (mounting and flushing, [vold_manager.c]),
    [Unpack] ([unpack.c], [ota_unpack.c]), [UnpackProofs] (reading what was packed,
    installing it), [OtaRun] (the recovery program from boot to reboot).

    Input: [Gesture] (the clicks), [InputDev] (state and device list), [InputHot]
    (the library), [InputProofs] (the invariant of an open handle), [InputRead] (what a
    read delivers), [InputLife] (creation and destruction, concrete runs); all of
    [input-event-hot.c].

    Power: [Power] (the state, [power.c], [power_hw.c]), [PowerMgr] ([flora_pm.c],
    [main.c]), [PowerProofs] (the wakelock list as a list of names), [PowerSpec] (the
    machine of names, charger and idle state, and the refinement of each request),
    [PowerLife] (the service from its start, concrete runs).

    Battery: [BatteryWorld], [Battery] ([battery_monitor.c], [flora_bat.c],
    [charger.c], [main.c]), [BatteryProofs] (changes, rounds, texts and times),
    [BatteryLife] (the theorems, concrete boards), [BatteryPower] (both services).

    Bluetooth: [BtWorld] (state, stack and messages), [BtConfig] ([config.c], with
    [BtConfigProofs] on the array and its file), [BtCommon] ([common.c],
    [ipc.c]), [BtHh] ([hh.c]), [BtBle] ([ble.c], with [BtBleProofs] on the frames),
    [BtBleClient] ([ble_client.c]), [BtSource] ([a2dpsource.c]), [BtSink] ([a2dpsink.c]),
    [BtService] (the command handlers, which call each other's profiles, [main.c] and
    [flora.c]).  [BtCore] is the abstract machine of the profiles; [BtRefine] shows that
    turning profiles on and off moves along it, [BtInvariant] that the whole service does
    and that closing returns, [BtReady] that a started service is ready for it and stays
    so; [BtDemo] has the concrete runs.

    Network manager:
    - [NetEnv]: the state, the calls, and footprints.  A preservation lemma of an
      operation is stated once, for every view of the state that ignores what
      the operation writes (classes [Ignores], [Quiet], [KeepsWev] and so on), and
      gives all frame conditions.  [Demo]: concrete environments.
    - [ScanList], [WpaCommand]: [wpa_command.c], that is lines of a reply,
      the scan list, the request texts, the reply analysis, and the API; theorems
      in [WpaProofs].  [Hostapd]: [hostapd_command.c] and its theorems.
    - [Eloop]: the timers of [scheduler.c] as the manager sees them.
    - [Hal]: [wifi_hal.c], [modem_hal.c], [etherent_hal.c].
    - [Report]: [network_report.c] and the sending half of [ipc/].
    - [WifiEvent]: [wifi_event.c]; [LinkEvent]: [modem_event.c], [etherent_event.c],
      [network_monitor.c] (modules [Modem], [Etherent], [Monitor]); theorems on
      these and on [Eloop] and [Hal] in [EventProofs].
    - [NetSwitch]: [network_switch.c] and the waits, [network_mode.c];
      [NetSched]: [network_sched.c]; [NetCtrl]: [network_ctrl.c]; [NetMain]: [main.c].
    - [NetSpec]: an abstraction of the state ([abs]: mode word, device flags,
      timers, replies) and a logic of abstract triples over it.
    - [NetContract]: the invariant [inv], the abstract contract of each command,
      and the proof that every handler of the table implements its contract.
    - [CtrlProofs]: theorems on single operations and on error paths.
    - [NetSystem]: the transition system, its invariant and its theorems.
    - [NetLive]: total correctness of the commands that only use the devices.

    ** What the theorems show

    - Commands: each of the 25 commands refines an abstract contract on the set
      of active modes and sends exactly one reply ([command_contract]); sixteen of
      them always complete, device failures included ([local_command_total]);
      each request reaches its own handler ([dispatch_exact]).
    - System invariants, over every interleaving: station and access point
      exclude each other and a mode implies the start flag of its device
      ([reachable_modes]), the timers are those created at start-up and that of the
      access point ([reachable_timers]), every status report
      stays inside its table ([reachable_states]); the scheduler keeps the modes
      consistent ([sched_keeps_modes]).
    - Connecting: the requests of a join ([wifi_join_network_spec]), the verdict of
      the events on a pending connect ([join_verdict_spec]), the state that
      follows the link ([link_follows_events]).
    - wpa_supplicant text: request sizes, line splitting, the scan list, status
      analysis, hardware addresses, GBK recognition ([WpaProofs]).
    - Access point: every sequence of calls returns and moves the mode along a machine
      ([hostapd_calls]); on a system that works it comes up in order
      ([access_point_comes_up]).
    - Monitors and timers: three failures in a row, twelve ticks without service,
      timer arithmetic, use after deletion ([EventProofs]).
    - Event loop: the lists refine plain lists ([list_ops_refine], [olist_spec],
      [tasks_queue_refines]); tasks run once, in the order of acceptance
      ([syncer_fifo], [syncer_runs_all]); a round delivers every event
      ([eloop_round_delivers]); creation, registration and timers release what they
      acquire ([eloop_init_exit], [watch_roundtrip], [timer_lifecycle]).
    - Update: the hash is that of FIPS 180-1, in whatever pieces ([sha1_stream_spec]);
      flash gives back what was written, around bad blocks ([nand_roundtrip]); images
      are read back as packed ([package_roundtrip]); the boot block
      refines an abstract machine ([block_machine]); the recovery program installs an
      image end to end ([ota_main_installs]) and settles when there is nothing to
      install ([ota_main_settles]).
    - Input: clicks are those of a reference definition ([clicks_spec]); a read returns
      and delivers exactly the events of the devices, within the caller's buffer, while
      devices come and go ([read_input_events_spec]); a handle releases what it
      acquired ([handle_lifecycle]).
    - Power: the service refines its machine on every sequence of messages and expiries
      that follows its start-up, the kernel's locks and the idle timer included ([power_service_refines]), and dies on unreadable texts only
      ([unreadable_message_faults]).
    - Battery: a round reports exactly the changes, with the values of the files
      ([battery_round_spec]); the search finds up to six chargers
      ([supply_search_spec]); the arithmetic of the times is exact
      ([use_time_report_spec]); values of sysfs and [strlcat] ([int_field_roundtrip],
      [strlcat_spec]); the charger's wakelock follows the charger through both services
      ([charger_lock_follows]).
    - Bluetooth: whatever comes, the status bits follow the states of the profiles (for
      BLE only one way), the stack is open under them, no mutex stays locked and none is waited for by its holder
      ([bt_service_invariant]), from the start of the process ([bt_main_invariant]);
      sleeping closes every profile and the stack, and returns ([sleep_closes_all]); a
      message sent in frames arrives as it was ([ble_message_roundtrip]), and exactly
      frames of 3 to 20 bytes are safe ([frame_bounds]); the history is the list of the
      last devices ([history_is_mru]) and survives its file ([history_roundtrip]).
    - Defects, stated as theorems about the code as it is: a queued callback on a
      freed timer ([ap_timer_race]) or descriptor ([stale_event_faults]), stopping an
      absent device ([absent_device_spec]), the scan list released twice
      ([wifilist_spec]), an image without parts ([empty_image_faults]), truncated writes
      reported as success ([nand_write_truncates]), a working device closed when the
      buffer is full ([full_buffer_closes_device]), a forced sleep with a lock held
      ([double_release_sleeps_locked]) or never again ([relock_blocks_sleep]), and others of [CtrlProofs],
      [WpaProofs], [LoopLife], [PowerLife], [BatteryLife] and [BtDemo].

    ** Bounds and assumptions

    A reply of wpa_supplicant shorter than 4095 bytes leaves the two NULs the
    line reader needs; a longer one is an [OutOfBounds] fault of
    [wifi_send_command].  In the model of the manager [eloop_init] is taken to succeed.
    The power manager's theorem is for fewer than 2^31 inputs, so that its counters stay
    in range.  Threads of the power and battery services run a handler or a round at a
    time; only the order of whole handlers and rounds is free.  So it is for the threads
    of flora, of the stack and of the loop in the Bluetooth service: the model runs one
    message, event or timer to its end before the next, and its mutexes matter for a
    handler that calls another.  Events of the stack come between inputs, and the answers
    of the stack are chosen freely.
    The manager's target has 8-byte pointers and [long]s.  Logging is left out.  The code
    under the undefined macros [WIFI_ROAMING], [OTA_AUTH] and [BT_SERVICE_HAVE_HFP] and under [#if 0] is not part
    of the program.

    ** Not modelled

    The stand-alone [wifi_monitor], which reports through a library that is not in the
    repository; the release of the Bluetooth service after [eloop_run], which does not return, its HFP
    profile and its zeromq variant, which the default configuration does not compile, and
    the stacks behind its HAL; the tools of the update ([rokid_unpack.c], [bootx]); the event dump tool of the input
    library; boot loader, drivers and third-party packages, which are not this
    project's code. *)

From Stdlib Require Import ZArith List Bool Lia Ascii String.
Import ListNotations.
Open Scope Z_scope.
Open Scope bool_scope.

(** ** Notation scope of the development *)

Declare Scope nm_scope.
Delimit Scope nm_scope with nm.

(** [mode & FLAG] used as a C condition: true when some bit is shared. *)
Definition has (m flag : Z) : bool := negb (Z.land m flag =? 0).

Notation "m '&?' f" := (has m f) (at level 55, no associativity) : nm_scope.
Open Scope nm_scope.

(** A step that may fail. *)
Notation "'let?' x := c 'in' k" := (match c with Some x => k | None => None end)
  (at level 200, x name, k at level 200) : nm_scope.
Notation "'let?' ' p := c 'in' k" := (match c with Some p => k | None => None end)
  (at level 200, p strict pattern, k at level 200) : nm_scope.

(** Wrap-around of the 32-bit integer types. *)
Definition wrapu32 (z : Z) : Z := z mod 2 ^ 32.

Definition wraps32 (z : Z) : Z := (z + 2 ^ 31) mod 2 ^ 32 - 2 ^ 31.

(** A value of [unsigned char]. *)
Definition byte (b : Z) : Prop := 0 <= b < 256.

(** The width of [long] and [unsigned long]. *)
Class ULong := { ulong_bits : Z; ulong_wide : 32 <= ulong_bits }.

Definition ilp32 : ULong := {| ulong_bits := 32; ulong_wide := Z.le_refl 32 |}.

Definition lp64 : ULong := {| ulong_bits := 64; ulong_wide := ltac:(discriminate) |}.

Definition wrapul {UL : ULong} (z : Z) : Z := z mod 2 ^ ulong_bits.

Definition wrapsl {UL : ULong} (z : Z) : Z :=
  (z + 2 ^ (ulong_bits - 1)) mod 2 ^ ulong_bits - 2 ^ (ulong_bits - 1).

(** The id no task, timer or descriptor has ([eloop.h]). *)
Definition INVALID_ID : Z := 0.

(** ** Hint databases *)

(** [keeps]: preservation lemmas of the operations of each component; [ok]: their
    termination and absence of faults. *)
Create HintDb keeps.
Create HintDb ok.

(** ** Case analysis on the conditions of a translated C function *)

Ltac break_match :=
  match goal with
  | |- context [match ?x with _ => _ end] =>
      lazymatch x with
      | context [match _ with _ => _ end] => fail
      | _ => destruct x eqn:?
      end
  end.

Ltac break_match_hyp H :=
  match type of H with
  | context [match ?x with _ => _ end] =>
      lazymatch x with
      | context [match _ with _ => _ end] => fail
      | _ => destruct x eqn:?
      end
  end.

Ltac bool_hyps :=
  repeat match goal with
  | H : _ && _ = true |- _ => apply andb_true_iff in H; destruct H
  | H : _ || _ = false |- _ => apply orb_false_iff in H; destruct H
  | H : negb _ = true |- _ => apply negb_true_iff in H
  | H : negb _ = false |- _ => apply negb_false_iff in H
  | H : (_ =? _) = true |- _ => apply Z.eqb_eq in H
  | H : (_ =? _) = false |- _ => apply Z.eqb_neq in H
  | H : (_ <? _) = true |- _ => apply Z.ltb_lt in H
  | H : (_ <? _) = false |- _ => apply Z.ltb_ge in H
  | H : (_ <=? _) = true |- _ => apply Z.leb_le in H
  | H : (_ <=? _) = false |- _ => apply Z.leb_gt in H
  | H : (_ =? _)%string = true |- _ => apply String.eqb_eq in H
  | H : (_ =? _)%string = false |- _ => apply String.eqb_neq in H
  end.

(** ** Flag words *)

Lemma has_testbit (m k : Z) : 0 <= k -> has m (2 ^ k) = Z.testbit m k.
Proof.
  intros Hk. unfold has.
  destruct (Z.testbit m k) eqn:E.
  - apply negb_true_iff, Z.eqb_neq. intros H0.
    assert (Z.testbit (Z.land m (2 ^ k)) k = true) as C
      by (rewrite Z.land_spec, E, Z.pow2_bits_true by lia; reflexivity).
    rewrite H0, Z.bits_0 in C. discriminate.
  - apply negb_false_iff, Z.eqb_eq, Z.bits_inj'. intros n Hn.
    rewrite Z.land_spec, Z.bits_0, Z.pow2_bits_eqb by lia.
    destruct (Z.eqb_spec k n) as [->|]; [rewrite E|rewrite andb_comm]; reflexivity.
Qed.

Lemma has_or (m f k : Z) :
  0 <= k -> has (Z.lor m f) (2 ^ k) = has m (2 ^ k) || has f (2 ^ k).
Proof. intros. rewrite !has_testbit by lia. apply Z.lor_spec. Qed.

Lemma has_andnot (m f k : Z) :
  0 <= k < 32 ->
  has (Z.land m (wrapu32 (Z.lnot f))) (2 ^ k) = has m (2 ^ k) && negb (has f (2 ^ k)).
Proof.
  intros. rewrite !has_testbit by lia. rewrite Z.land_spec. unfold wrapu32.
  rewrite Z.mod_pow2_bits_low by lia. rewrite Z.lnot_spec by lia. reflexivity.
Qed.

Lemma lor_range (a b k : Z) :
  0 <= k -> 0 <= a < 2 ^ k -> 0 <= b < 2 ^ k -> 0 <= Z.lor a b < 2 ^ k.
Proof.
  intros Hk Ha Hb.
  assert (Hge : 0 <= Z.lor a b) by (apply Z.lor_nonneg; lia).
  split; [exact Hge|].
  destruct (Z.eq_dec (Z.lor a b) 0) as [->|Hnz]; [apply Z.pow_pos_nonneg; lia|].
  apply Z.log2_lt_pow2; [lia|].
  rewrite Z.log2_lor by lia.
  apply Z.max_lub_lt.
  - destruct (Z.eq_dec a 0) as [->|]; [cbn|apply Z.log2_lt_pow2; lia].
    destruct (Z.eq_dec b 0) as [->|]; [rewrite Z.lor_0_r in Hnz; lia|].
    destruct (Z.eq_dec k 0) as [->|]; [cbn in Hb; lia|lia].
  - destruct (Z.eq_dec b 0) as [->|]; [cbn|apply Z.log2_lt_pow2; lia].
    destruct (Z.eq_dec a 0) as [->|]; [rewrite Z.lor_0_l in Hnz; lia|].
    destruct (Z.eq_dec k 0) as [->|]; [cbn in Ha; lia|lia].
Qed.

Lemma land_range (a b k : Z) :
  0 <= k -> 0 <= a < 2 ^ k -> 0 <= b -> 0 <= Z.land a b < 2 ^ k.
Proof.
  intros Hk Ha Hb.
  assert (Hge : 0 <= Z.land a b) by (apply Z.land_nonneg; lia).
  split; [exact Hge|].
  destruct (Z.eq_dec (Z.land a b) 0) as [->|Hnz]; [lia|].
  apply Z.log2_lt_pow2; [lia|].
  eapply Z.le_lt_trans; [apply Z.log2_land; lia|].
  destruct (Z.eq_dec a 0) as [->|]; [rewrite Z.land_0_l in Hnz; lia|].
  eapply Z.le_lt_trans; [apply Z.le_min_l|]. apply Z.log2_lt_pow2; lia.
Qed.

(** Joining a high part and a low part. *)
Lemma lor_add (a b k : Z) :
  0 <= k -> 0 <= b < 2 ^ k -> Z.lor (a * 2 ^ k) b = a * 2 ^ k + b.
Proof.
  intros Hk Hb. assert (E : Z.land (a * 2 ^ k) b = 0).
  { apply Z.bits_inj'. intros i Hi. rewrite Z.land_spec, Z.bits_0.
    destruct (Z.ltb_spec i k); [now rewrite Z.mul_pow2_bits_low by lia|].
    rewrite <- (Z.mod_small b (2 ^ k)), (Z.mod_pow2_bits_high b) by lia. apply andb_false_r. }
  rewrite <- Z.lxor_lor, Z.add_nocarry_lxor by exact E. reflexivity.
Qed.

Lemma wraps32_id (z : Z) : - 2 ^ 31 <= z < 2 ^ 31 -> wraps32 z = z.
Proof. intros. unfold wraps32. rewrite Z.mod_small; lia. Qed.

Lemma wraps32_range (z : Z) : - 2 ^ 31 <= wraps32 z < 2 ^ 31.
Proof. unfold wraps32. pose proof (Z.mod_pos_bound (z + 2 ^ 31) (2 ^ 32)). lia. Qed.

(** ** Lists *)

Lemma Forall_snoc {A} (P : A -> Prop) (l : list A) (x : A) :
  Forall P (l ++ [x]) <-> Forall P l /\ P x.
Proof.
  rewrite Forall_app. split; intros [H1 H2]; split; auto.
  now inversion H2.
Qed.

Lemma existsb_false_Forall {A} (f : A -> bool) (l : list A) :
  existsb f l = false <-> Forall (fun x => f x = false) l.
Proof.
  induction l as [|a l IH]; cbn; [split; auto|].
  rewrite orb_false_iff, IH. split.
  - intros [? ?]. now constructor.
  - now inversion 1.
Qed.

Lemma firstn_plus {T} (a b : nat) (l : list T) : firstn (a + b) l = firstn a l ++ firstn b (skipn a l).
Proof.
  revert l. induction a as [|a IH]; intros l; [reflexivity|].
  destruct l; cbn; [now rewrite firstn_nil|]. now rewrite IH.
Qed.

Lemma Forall_firstn {T} (Q : T -> Prop) (n : nat) (l : list T) : Forall Q l -> Forall Q (firstn n l).
Proof. intros H. rewrite <- (firstn_skipn n l) in H. now apply Forall_app in H. Qed.

Lemma Forall_skipn {T} (Q : T -> Prop) (n : nat) (l : list T) : Forall Q l -> Forall Q (skipn n l).
Proof. intros H. rewrite <- (firstn_skipn n l) in H. now apply Forall_app in H. Qed.

Lemma Forall2_right {A B} (R : A -> B -> Prop) (P : B -> Prop) (l : list A) (l' : list B) :
  Forall2 R l l' -> (forall a b, R a b -> P b) -> Forall P l'.
Proof. intros H HP. induction H; constructor; eauto. Qed.

Lemma Forall2_compose {A B C} (R : A -> B -> Prop) (S : B -> C -> Prop) (T : A -> C -> Prop) l l' l'' :
  Forall2 R l l' -> Forall2 S l' l'' -> (forall a b c, R a b -> S b c -> T a c) -> Forall2 T l l''.
Proof.
  intros H. revert l''. induction H; intros l'' H2 HT; inversion H2; subst; constructor; eauto.
Qed.

Lemma firstn_repeat {T} (x : T) (n m : nat) : firstn n (repeat x m) = repeat x (Nat.min n m).
Proof. revert m. induction n as [|n IH]; intros [|m]; cbn; auto. now rewrite IH. Qed.
