(* ===== verification/CString.v ===== *)
(** * C strings

    The [<string.h>] / [<stdlib.h>] functions the modelled sources use, on
    NUL-free strings: a [char] buffer is represented by its bytes up to the
    first NUL, and a pointer into it by the suffix it points to.  The decimal
    printer ([%d]) and [atoi] are proved inverse of each other. *)

From Stdlib Require Import ZArith List Bool Lia Ascii String.
From S2P Require Import Prelude.
Import ListNotations.
Open Scope string_scope.
Open Scope Z_scope.

Definition chr (z : Z) : ascii := ascii_of_nat (Z.to_nat z).
Definition ord (c : ascii) : Z := Z.of_nat (nat_of_ascii c).

Definition LF : ascii := "010"%char.
Definition CR : ascii := "013"%char.
Definition TAB : ascii := "009"%char.
Definition SPC : ascii := " "%char.
Definition DQUOTE : ascii := "034"%char.

Definition quote : string := String DQUOTE "".

(** [strlen] as a C integer. *)
Definition strlen (s : string) : Z := Z.of_nat (String.length s).

(** What [strncpy(dst, src, n)] leaves in a zeroed [dst]. *)
Definition strncpy (n : nat) (src : string) : string := substring 0 n src.

(** [strncmp(a, b, n) == 0]. *)
Fixpoint strncmp_eq (n : nat) (a b : string) : bool :=
  match n with
  | O => true
  | S n' =>
      match a, b with
      | EmptyString, EmptyString => true
      | String x a', String y b' => Ascii.eqb x y && strncmp_eq n' a' b'
      | _, _ => false
      end
  end.

(** [strstr(hay, needle)]: the suffix at the first occurrence. *)
Fixpoint strstr (hay needle : string) : option string :=
  if prefix needle hay then Some hay
  else match hay with
       | EmptyString => None
       | String _ hay' => strstr hay' needle
       end.

Definition strstr_b (hay needle : string) : bool :=
  match strstr hay needle with Some _ => true | None => false end.

(** [strchr(s, c)] for a non-NUL [c]. *)
Fixpoint strchr (s : string) (c : ascii) : option string :=
  match s with
  | EmptyString => None
  | String x s' => if Ascii.eqb x c then Some s else strchr s' c
  end.

(** Pointer arithmetic: [s + n]. *)
Fixpoint advance (n : nat) (s : string) : string :=
  match n, s with
  | O, _ => s
  | S n', String _ s' => advance n' s'
  | S _, EmptyString => EmptyString
  end.

(** The byte a pointer points to; [None] is the terminating NUL. *)
Definition deref (s : string) : option ascii :=
  match s with EmptyString => None | String c _ => Some c end.

Definition isspace (c : ascii) : bool :=
  let o := ord c in (o =? 32) || ((9 <=? o) && (o <=? 13)).

Definition isdigit (c : ascii) : bool :=
  let o := ord c in (48 <=? o) && (o <=? 57).

Fixpoint skip_space (s : string) : string :=
  match s with
  | String c s' => if isspace c then skip_space s' else s
  | EmptyString => EmptyString
  end.

(** Reads a run of digits; returns the value and what follows. *)
Fixpoint read_digits (acc : Z) (s : string) : Z * string :=
  match s with
  | String c s' =>
      if isdigit c then read_digits (10 * acc + (ord c - 48)) s' else (acc, s)
  | EmptyString => (acc, s)
  end.

(** Optional sign of a number. *)
Definition read_sign (s : string) : Z * string :=
  match s with
  | String c s' =>
      if Ascii.eqb c "-"%char then (-1, s')
      else if Ascii.eqb c "+"%char then (1, s') else (1, s)
  | EmptyString => (1, s)
  end.

(** [atoi]: out-of-range values, undefined in C, wrap to 32 bits. *)
Definition atoi (s : string) : Z :=
  let '(sg, s1) := read_sign (skip_space s) in
  wraps32 (sg * fst (read_digits 0 s1)).

Definition hexval (c : ascii) : option Z :=
  let o := ord c in
  if isdigit c then Some (o - 48)
  else if (97 <=? o) && (o <=? 102) then Some (o - 87)
  else if (65 <=? o) && (o <=? 70) then Some (o - 55)
  else None.

Fixpoint read_base (base acc : Z) (s : string) : Z :=
  match s with
  | String c s' =>
      match hexval c with
      | Some d => if d <? base then read_base base (base * acc + d) s' else acc
      | None => acc
      end
  | EmptyString => acc
  end.

(** [strtol(s, NULL, 0)]: the base comes from the prefix; the value saturates
    at the bounds of a 64-bit [long]. *)
Definition strtol0 (s : string) : Z :=
  let '(sg, s1) := read_sign (skip_space s) in
  let v :=
    match s1 with
    | String "0"%char (String x s2) =>
        if Ascii.eqb x "x"%char || Ascii.eqb x "X"%char
        then read_base 16 0 s2 else read_base 8 0 (String x s2)
    | _ => read_base 10 0 s1
    end in
  Z.max (- 2 ^ 63) (Z.min (2 ^ 63 - 1) (sg * v)).

(** [strtol(s, NULL, 16)]: the prefix is optional. *)
Definition strtol16 (s : string) : Z :=
  let '(sg, s1) := read_sign (skip_space s) in
  let v :=
    match s1 with
    | String "0"%char (String x s2) =>
        if Ascii.eqb x "x"%char || Ascii.eqb x "X"%char then read_base 16 0 s2 else read_base 16 0 s1
    | _ => read_base 16 0 s1
    end in
  Z.max (- 2 ^ 63) (Z.min (2 ^ 63 - 1) (sg * v)).

(** The lines [getline] returns, each with its newline. *)
Fixpoint getlines (s : string) : list string :=
  match s with
  | EmptyString => []
  | String c s' =>
      if Ascii.eqb c LF then String c "" :: getlines s'
      else match getlines s' with
           | [] => [String c ""]
           | l :: ls => String c l :: ls
           end
  end.

Definition digit (d : Z) : ascii := chr (48 + d).

Fixpoint print_nat (fuel : nat) (n : Z) : string :=
  match fuel with
  | O => ""
  | S f =>
      if n <? 10 then String (digit n) ""
      else print_nat f (n / 10) ++ String (digit (n mod 10)) ""
  end.

(** [%d]: 20 digits cover every integer type of the sources. *)
Definition itoa (z : Z) : string :=
  if z <? 0 then String "-"%char (print_nat 20 (- z)) else print_nat 20 z.

(** [%x] of a digit and [%02x] of a byte. *)
Definition hexdigit (v : Z) : ascii := if v <? 10 then chr (48 + v) else chr (87 + v).

Definition hexpair (b : Z) : string := String (hexdigit (b / 16)) (String (hexdigit (b mod 16)) "").

(** ** Basic facts *)

Lemma string_app_nil_r (s : string) : s ++ "" = s.
Proof. induction s; cbn; [|rewrite IHs]; reflexivity. Qed.

Lemma string_app_assoc (a b c : string) : (a ++ b) ++ c = a ++ b ++ c.
Proof. induction a; cbn; [|rewrite IHa]; reflexivity. Qed.

Lemma string_length_app (a b : string) :
  String.length (a ++ b) = (String.length a + String.length b)%nat.
Proof. induction a; cbn; [|rewrite IHa]; reflexivity. Qed.

Lemma substring_length_le (n : nat) (s : string) :
  (String.length (substring 0 n s) <= n)%nat.
Proof. revert s; induction n; intros [|c s]; cbn; try lia. specialize (IHn s). lia. Qed.

Lemma substring_all (n : nat) (s : string) :
  (String.length s <= n)%nat -> substring 0 n s = s.
Proof.
  revert s; induction n; intros [|c s] H; cbn in *; try reflexivity; try lia.
  f_equal. apply IHn. lia.
Qed.

Lemma substring_app (a b : string) : substring 0 (String.length a) (a ++ b) = a.
Proof. induction a; cbn; [destruct b|rewrite IHa]; reflexivity. Qed.

Lemma prefix_app (a b : string) : prefix a (a ++ b) = true.
Proof.
  induction a as [|c a IH]; [destruct b; reflexivity|]. cbn.
  destruct (ascii_dec c c); [exact IH|contradiction].
Qed.

Lemma prefix_spec (p s : string) : prefix p s = true <-> exists r, s = p ++ r.
Proof.
  split; [|intros [r ->]; apply prefix_app].
  revert s; induction p as [|c p IH]; intros s H; [exists s; reflexivity|].
  destruct s as [|d s]; [discriminate|]. cbn in H.
  destruct (ascii_dec c d) as [->|]; [|discriminate].
  destruct (IH _ H) as [r ->]. exists r. reflexivity.
Qed.

(** [strstr] finds a needle exactly when the haystack contains it. *)
Lemma strstr_b_spec (h n : string) :
  strstr_b h n = true <-> exists a b, h = a ++ n ++ b.
Proof.
  unfold strstr_b. split.
  - induction h as [|c h IH]; cbn [strstr].
    + destruct (prefix n "") eqn:E; [|intros H; discriminate H]. intros _.
      apply prefix_spec in E as [r E]. exists "", r. exact E.
    + destruct (prefix n (String c h)) eqn:E.
      * intros _. apply prefix_spec in E as [r E]. exists "", r. exact E.
      * intros H. destruct (IH H) as (a & b & ->). exists (String c a), b. reflexivity.
  - intros (a & b & ->). induction a as [|c a IH].
    + cbn [append]. destruct (n ++ b) eqn:E; cbn [strstr]; rewrite <- ?E, prefix_app; reflexivity.
    + cbn [append strstr]. destruct (prefix n (String c (a ++ n ++ b))); [reflexivity|exact IH].
Qed.

Lemma strncmp_prefix (p s : string) :
  strncmp_eq (String.length p) s p = prefix p s.
Proof.
  revert s; induction p as [|c p IH]; intros s; [destruct s; reflexivity|].
  cbn [String.length]. destruct s as [|d s]; cbn [strncmp_eq prefix]; [reflexivity|].
  rewrite IH.
  destruct (ascii_dec c d) as [->|N]; [rewrite Ascii.eqb_refl; reflexivity|].
  assert (Ascii.eqb d c = false) as -> by (apply Ascii.eqb_neq; congruence). reflexivity.
Qed.

Lemma advance_app (a b : string) : advance (String.length a) (a ++ b) = b.
Proof. induction a; cbn; [destruct b; reflexivity|exact IHa]. Qed.

(** ** Decimal printing and reading *)

Lemma ord_chr (z : Z) : 0 <= z < 256 -> ord (chr z) = z.
Proof. intros. unfold ord, chr. rewrite nat_ascii_embedding; lia. Qed.

Lemma digit_isdigit (d : Z) : 0 <= d < 10 -> isdigit (digit d) = true.
Proof.
  intros. unfold isdigit, digit. rewrite ord_chr by lia.
  apply andb_true_iff; split; apply Z.leb_le; lia.
Qed.

Lemma hexval_hexdigit v : 0 <= v < 16 -> hexval (hexdigit v) = Some v.
Proof.
  intros H.
  assert (Hv : In v (map Z.of_nat (seq 0 16))).
  { apply in_map_iff. exists (Z.to_nat v). split; [lia|]. apply in_seq. lia. }
  cbn in Hv. repeat destruct Hv as [<-|Hv]; try reflexivity. contradiction.
Qed.

Definition ends_number (s : string) : Prop :=
  match s with EmptyString => True | String c _ => isdigit c = false end.


Lemma read_print_nat (fuel : nat) (n acc : Z) (rest : string) :
  0 <= n < 10 ^ Z.of_nat fuel ->
  exists k, read_digits acc (print_nat fuel n ++ rest) = read_digits (acc * 10 ^ k + n) rest /\ 0 <= k.
Proof.
  revert n acc rest; induction fuel as [|f IH]; intros n acc rest Hn.
  - cbn in *. assert (n = 0) by lia. subst. exists 0. cbn. split; [|lia].
    replace (acc * 1 + 0) with acc by lia. reflexivity.
  - cbn [print_nat]. destruct (Z.ltb_spec n 10).
    + exists 1. split; [|lia]. cbn [append read_digits]. rewrite digit_isdigit by lia.
      unfold digit. rewrite ord_chr by lia. f_equal. lia.
    + rewrite string_app_assoc. cbn [append].
      rewrite Nat2Z.inj_succ, Z.pow_succ_r in Hn by lia.
      destruct (IH (n / 10) acc (String (digit (n mod 10)) rest)) as (k & Hk & Hk0).
      { split; [apply Z.div_pos; lia|]. apply Z.div_lt_upper_bound; lia. }
      exists (k + 1). split; [|lia]. rewrite Hk. cbn [read_digits].
      pose proof (Z.mod_pos_bound n 10 ltac:(lia)).
      rewrite digit_isdigit by lia. unfold digit. rewrite ord_chr by lia. f_equal.
      rewrite Z.pow_add_r by lia. pose proof (Z.div_mod n 10 ltac:(lia)). lia.
Qed.

Lemma print_nat_first (fuel : nat) (n : Z) :
  0 <= n -> (0 < fuel)%nat ->
  exists d s, print_nat fuel n = String (digit d) s /\ 0 <= d < 10.
Proof.
  revert n; induction fuel as [|f IH]; intros n Hn Hf; [lia|].
  cbn [print_nat]. destruct (Z.ltb_spec n 10); [exists n, ""; auto with zarith|].
  destruct f as [|f].
  - cbn. exists (n mod 10), "". split; [reflexivity|apply Z.mod_pos_bound; lia].
  - destruct (IH (n / 10)) as (d & s & E & Hd); [apply Z.div_pos; lia|lia|].
    rewrite E. exists d, (s ++ String (digit (n mod 10)) ""). auto.
Qed.

Lemma print_nat_length (fuel k : nat) (n : Z) :
  0 <= n < 10 ^ Z.of_nat k -> (1 <= k)%nat -> (String.length (print_nat fuel n) <= k)%nat.
Proof.
  revert k n; induction fuel as [|f IH]; intros k n Hn Hk; cbn [print_nat]; [cbn; lia|].
  destruct (Z.ltb_spec n 10); [cbn; lia|].
  rewrite string_length_app. cbn [String.length].
  destruct k as [|[|k]]; [lia|cbn in Hn; lia|].
  assert (String.length (print_nat f (n / 10)) <= S k)%nat; [|lia].
  apply IH; [|lia]. rewrite Nat2Z.inj_succ, Z.pow_succ_r in Hn by lia.
  split; [apply Z.div_pos; lia|apply Z.div_lt_upper_bound; lia].
Qed.

Lemma digit_not_space (d : Z) : 0 <= d < 10 -> isspace (digit d) = false.
Proof.
  intros. unfold isspace, digit. rewrite ord_chr by lia.
  apply orb_false_iff; split; [apply Z.eqb_neq; lia|].
  apply andb_false_iff. right. apply Z.leb_gt. lia.
Qed.

Lemma digit_not_sign (d : Z) : 0 <= d < 10 ->
  Ascii.eqb (digit d) "-"%char = false /\ Ascii.eqb (digit d) "+"%char = false.
Proof.
  intros. split; apply Ascii.eqb_neq; intros E;
    apply (f_equal ord) in E; unfold digit in E; rewrite ord_chr in E by lia;
    [change (ord "-"%char) with 45 in E|change (ord "+"%char) with 43 in E]; lia.
Qed.

Lemma int_digits (z : Z) : 0 <= z <= 2 ^ 31 -> 0 <= z < 10 ^ Z.of_nat 20.
Proof. intros. change (10 ^ Z.of_nat 20) with 100000000000000000000. lia. Qed.

(** Reading back a printed [int], whatever non-digit text follows. *)
Lemma atoi_itoa_app (z : Z) (rest : string) :
  - 2 ^ 31 <= z < 2 ^ 31 -> ends_number rest -> atoi (itoa z ++ rest) = z.
Proof.
  intros Hz Hr. unfold atoi, itoa.
  assert (Hrest : forall v, read_digits v rest = (v, rest)).
  { intros v. destruct rest as [|c r]; cbn in *; [|rewrite Hr]; reflexivity. }
  destruct (Z.ltb_spec z 0).
  - destruct (read_print_nat 20 (- z) 0 rest) as (k & E & _); [apply int_digits; lia|].
    revert E. generalize (print_nat 20 (- z)). intros p E. cbn -[read_digits wraps32].
    change (isspace "-"%char) with false. cbn -[read_digits wraps32 Z.mul].
    rewrite E, Hrest. cbn [fst]. rewrite Z.mul_0_l, Z.add_0_l.
    replace (-1 * - z) with z by lia. apply wraps32_id. lia.
  - destruct (print_nat_first 20 z) as (d & s & E & Hd); [lia|lia|].
    rewrite E. cbn [append skip_space]. rewrite digit_not_space by lia.
    cbn [read_sign]. destruct (digit_not_sign d Hd) as [-> ->].
    change (String (digit d) (s ++ rest)) with (String (digit d) s ++ rest). rewrite <- E.
    destruct (read_print_nat 20 z 0 rest) as (k & E2 & _); [apply int_digits; lia|].
    rewrite E2, Hrest. cbn [fst]. rewrite Z.mul_0_l, Z.add_0_l, Z.mul_1_l.
    apply wraps32_id. lia.
Qed.

Lemma atoi_itoa (z : Z) : - 2 ^ 31 <= z < 2 ^ 31 -> atoi (itoa z) = z.
Proof.
  intros. rewrite <- (string_app_nil_r (itoa z)). apply atoi_itoa_app; [lia|exact I].
Qed.

(** A printed [int] takes at most 11 characters. *)
Lemma itoa_length (z : Z) :
  - 2 ^ 31 <= z < 2 ^ 31 -> (String.length (itoa z) <= 11)%nat.
Proof.
  intros. unfold itoa. destruct (Z.ltb_spec z 0).
  - cbn [String.length]. apply le_n_S. apply print_nat_length; [cbn; lia|lia].
  - apply Nat.le_trans with 10%nat; [apply print_nat_length; [cbn; lia|lia]|lia].
Qed.

(** ** [strtol] reads back [%d] *)

Lemma read_base_10 (s : string) (acc : Z) : read_base 10 acc s = fst (read_digits acc s).
Proof.
  revert acc; induction s as [|c s IH]; intros acc; cbn [read_base read_digits]; [reflexivity|].
  unfold hexval. destruct (isdigit c) eqn:Ed.
  - assert (ord c - 48 <? 10 = true) as -> by (unfold isdigit in Ed; bool_hyps; apply Z.ltb_lt; lia).
    rewrite IH. reflexivity.
  - destruct ((97 <=? ord c) && (ord c <=? 102)) eqn:E1.
    + bool_hyps. rewrite (proj2 (Z.ltb_ge _ _)) by lia. reflexivity.
    + destruct ((65 <=? ord c) && (ord c <=? 70)) eqn:E2; [|reflexivity].
      bool_hyps. rewrite (proj2 (Z.ltb_ge _ _)) by lia. reflexivity.
Qed.

(** A printed number has no leading zero. *)
Lemma print_nat_lead (fuel : nat) (n : Z) :
  0 < n < 10 ^ Z.of_nat fuel -> exists d s, print_nat fuel n = String (digit d) s /\ 1 <= d < 10.
Proof.
  revert n; induction fuel as [|f IH]; intros n Hn; [cbn in Hn; lia|].
  cbn [print_nat]. destruct (Z.ltb_spec n 10); [exists n, ""; auto with zarith|].
  rewrite Nat2Z.inj_succ, Z.pow_succ_r in Hn by lia.
  destruct (IH (n / 10)) as (d & s & E & Hd).
  { split; [apply Z.div_str_pos; lia|apply Z.div_lt_upper_bound; lia]. }
  rewrite E. exists d, (s ++ String (digit (n mod 10)) ""). auto.
Qed.

(** Without a leading zero the base is 10. *)
Lemma strtol0_decimal (s1 : string) (d : Z) (s : string) :
  s1 = String (digit d) s -> 1 <= d < 10 ->
  match s1 with
  | String "0"%char (String x s2) =>
      if Ascii.eqb x "x"%char || Ascii.eqb x "X"%char then read_base 16 0 s2 else read_base 8 0 (String x s2)
  | _ => read_base 10 0 s1
  end = fst (read_digits 0 s1).
Proof.
  intros -> Hd. assert (Hc : forall c, c = digit d -> c <> "0"%char).
  { intros c -> E. apply (f_equal ord) in E. unfold digit in E. rewrite ord_chr in E by lia. change (ord "0"%char) with 48 in E. lia. }
  specialize (Hc _ eq_refl). rewrite <- read_base_10. generalize (digit d), Hc. intros c Hne.
  destruct c as [[] [] [] [] [] [] [] []]; try reflexivity. contradiction (Hne eq_refl).
Qed.

Lemma strtol0_itoa (z : Z) : - 2 ^ 31 <= z < 2 ^ 31 -> strtol0 (itoa z) = z.
Proof.
  intros Hz. destruct (Z.eq_dec z 0) as [->|Hnz]; [reflexivity|].
  unfold strtol0, itoa. destruct (Z.ltb_spec z 0).
  - destruct (print_nat_lead 20 (- z)) as (d & s & E & Hd); [pose proof (int_digits (- z)); lia|].
    destruct (read_print_nat 20 (- z) 0 "") as (k & E2 & _); [apply int_digits; lia|]. rewrite string_app_nil_r in E2.
    cbn [skip_space]. change (isspace "-"%char) with false. cbn [read_sign]. change (Ascii.eqb "-" "-") with true. cbv iota.
    rewrite (strtol0_decimal _ d s E Hd), E2. cbn [read_digits fst]. lia.
  - destruct (print_nat_lead 20 z) as (d & s & E & Hd); [pose proof (int_digits z); lia|].
    destruct (read_print_nat 20 z 0 "") as (k & E2 & _); [apply int_digits; lia|]. rewrite string_app_nil_r in E2.
    assert (read_sign (skip_space (print_nat 20 z)) = (1, print_nat 20 z)) as ->.
    { rewrite E. cbn [skip_space]. rewrite digit_not_space by lia. cbn [read_sign].
      destruct (digit_not_sign d ltac:(lia)) as [-> ->]. reflexivity. }
    rewrite (strtol0_decimal _ d s E Hd), E2. cbn [read_digits fst]. lia.
Qed.
