(* ===== verification/Bytes.v ===== *)
(** * Objects in memory as bytes

    Little-endian integers, strings in [char] arrays, and the fields of packed
    structures: what the image headers, the boot block and the kernel's inotify
    events are read with. *)

From Stdlib Require Import Ascii String ZArith List Bool Lia.
From S2P Require Import Prelude CString.
Import ListNotations.
Open Scope Z_scope.
Open Scope list_scope.

(** ** Integers and strings in memory *)

Fixpoint le (n : nat) (z : Z) : list Z :=
  match n with
  | O => []
  | S n' => z mod 256 :: le n' (z / 256)
  end.

Fixpoint unle (l : list Z) : Z :=
  match l with
  | [] => 0
  | b :: l' => b + 256 * unle l'
  end.

(** The C string in a [char] array: up to its first NUL. *)
Fixpoint cstr (a : list Z) : string :=
  match a with
  | [] => ""%string
  | b :: a' => if b =? 0 then ""%string else String (chr b) (cstr a')
  end.

Definition str_bytes (s : string) : list Z := map ord (list_ascii_of_string s).

(** [strncpy(dst, src, n)]; [None] past the end of the array. *)
Definition strncpy_arr (dst : list Z) (src : string) (n : nat) : option (list Z) :=
  if Nat.leb n (length dst)
  then Some (firstn n (str_bytes src ++ repeat 0 n) ++ skipn n dst)
  else None.

(** [n] bytes at offset [off]. *)
Definition field (off n : nat) (l : list Z) : list Z := firstn n (skipn off l).

(** ** Facts *)

Lemma length_le (n : nat) (z : Z) : length (le n z) = n.
Proof. revert z. induction n; intros z; cbn; auto. Qed.

Lemma le_bytes (n : nat) (z : Z) : Forall byte (le n z).
Proof. revert z. induction n; intros z; cbn; constructor; auto. apply Z.mod_pos_bound. lia. Qed.

Lemma unle_le (n : nat) (z : Z) : unle (le n z) = z mod 256 ^ Z.of_nat n.
Proof.
  revert z. induction n as [|n IH]; intros z; [cbn; now rewrite Z.mod_1_r|].
  cbn [le unle]. rewrite IH, Nat2Z.inj_succ, Z.pow_succ_r by lia.
  rewrite Z.rem_mul_r by (try apply Z.pow_nonzero; lia). lia.
Qed.

Lemma field_app (a b c : list Z) (off n : nat) :
  length a = off -> length b = n -> field off n (a ++ b ++ c) = b.
Proof.
  intros <- <-. unfold field. rewrite skipn_app, skipn_all, Nat.sub_diag. cbn [app skipn].
  rewrite firstn_app, firstn_all, Nat.sub_diag. apply app_nil_r.
Qed.

Lemma field_skip (a b : list Z) (off n : nat) :
  (length a <= off)%nat -> field off n (a ++ b) = field (off - length a) n b.
Proof. intros H. unfold field. now rewrite skipn_app, skipn_all2 by lia. Qed.

Lemma field_length (off n : nat) (l : list Z) : (off + n <= length l)%nat -> length (field off n l) = n.
Proof. intros H. unfold field. rewrite length_firstn, length_skipn. lia. Qed.

Lemma field_bytes (off n : nat) (l : list Z) : Forall byte l -> Forall byte (field off n l).
Proof. intros H. unfold field. auto using Forall_firstn, Forall_skipn. Qed.

Lemma field_all (n : nat) (l : list Z) : length l = n -> field 0 n l = l.
Proof. intros <-. apply firstn_all. Qed.

Lemma field_0 (b c : list Z) (n : nat) : length b = n -> field 0 n (b ++ c) = b.
Proof. intros H. now apply (field_app [] b c). Qed.

(** ** Strings in arrays *)

Fixpoint no_nul (s : string) : bool :=
  match s with
  | EmptyString => true
  | String c s' => negb (ord c =? 0) && no_nul s'
  end.

Lemma chr_ord (c : ascii) : chr (ord c) = c.
Proof. unfold chr, ord. rewrite Nat2Z.id. apply ascii_nat_embedding. Qed.

Lemma cstr_bytes (s : string) (rest : list Z) : no_nul s = true -> cstr (str_bytes s ++ 0 :: rest)%list = s.
Proof.
  induction s as [|c s IH]; intros H; [reflexivity|]. cbn in H |- *. bool_hyps.
  rewrite (proj2 (Z.eqb_neq _ _)) by assumption. rewrite chr_ord. f_equal. now apply IH.
Qed.

Lemma length_str_bytes (s : string) : length (str_bytes s) = String.length s.
Proof. unfold str_bytes. rewrite length_map. induction s; cbn; auto. Qed.

Lemma str_bytes_byte (s : string) : Forall byte (str_bytes s).
Proof.
  unfold str_bytes. apply Forall_map, Forall_forall. intros c _. unfold byte, ord.
  pose proof (nat_ascii_bounded c). lia.
Qed.
