(* ===== verification/CMonad.v ===== *)
(** * A state monad for C code

    A translated C function is a computation from a state [W]: it returns a
    value and a new state, or stops on undefined behaviour (or keeps running
    past its fuel).  The file also has the two program logics the components
    use: [keeps], preservation of a state predicate, and [wp], the weakest
    precondition of a result. *)

From Stdlib Require Import ZArith List Bool Lia.
From S2P Require Import Prelude.
Import ListNotations.
Open Scope Z_scope.

(** Why a computation has no result. *)
Inductive fault :=
| NullDeref        (* a NULL pointer is read or written through *)
| BufferOverflow   (* a write past the end of an array *)
| OutOfBounds      (* a read past the end of an array *)
| UninitRead       (* an uninitialised object is read *)
| UseAfterFree     (* a freed object is used *)
| AssertFailed     (* assert() stops the program *)
| Hang.            (* the loop did not end within its fuel *)

Inductive outcome (W A : Type) :=
| Ret (a : A) (w : W)
| Fault (f : fault).
Arguments Ret {W A} a w.
Arguments Fault {W A} f.

Definition M (W A : Type) := W -> outcome W A.

Section Monad.
Context {W : Type}.

Definition ret {A} (a : A) : M W A := fun w => Ret a w.

Definition bind {A B} (m : M W A) (k : A -> M W B) : M W B :=
  fun w => match m w with Ret a w' => k a w' | Fault f => Fault f end.

Definition stop {A} (f : fault) : M W A := fun _ => Fault f.

Definition gets {A} (f : W -> A) : M W A := fun w => Ret (f w) w.

Definition modify (f : W -> W) : M W unit := fun w => Ret tt (f w).

Definition when (b : bool) (m : M W unit) : M W unit :=
  if b then m else ret tt.

(** Runs a body on each element, in order. *)
Fixpoint for_each {A} (l : list A) (body : A -> M W unit) : M W unit :=
  match l with
  | [] => ret tt
  | a :: l' => bind (body a) (fun _ => for_each l' body)
  end.

(** [do { r = body } while (cond(r) && --n)]: at most [n] rounds. *)
Fixpoint retry {A} (n : nat) (body : M W A) (again : A -> bool) (last : A) : M W A :=
  match n with
  | O => ret last
  | S n' => bind body (fun r => if again r then retry n' body again r else ret r)
  end.
End Monad.

Notation "x <- c ;; k" := (bind c (fun x => k))
  (at level 100, c at next level, k at level 200, right associativity) : nm_scope.
Notation "' pat <- c ;; k" := (bind c (fun x => match x with pat => k end))
  (at level 100, pat pattern, c at next level, k at level 200, right associativity) : nm_scope.
Notation "c ;; k" := (bind c (fun _ => k))
  (at level 100, k at level 200, right associativity) : nm_scope.

(** ** Preservation *)

Section Keeps.
Context {W : Type}.

(** Every result of [m] from a state satisfying [I] satisfies [I]. *)
Definition keeps (I : W -> Prop) {A} (m : M W A) : Prop :=
  forall w, I w -> match m w with Ret _ w' => I w' | Fault _ => True end.

Lemma keeps_ret (I : W -> Prop) {A} (a : A) : keeps I (ret a).
Proof. intros w H. exact H. Qed.

Lemma keeps_stop (I : W -> Prop) {A} (f : fault) : keeps I (stop (A := A) f).
Proof. intros w _. exact Logic.I. Qed.

Lemma keeps_gets (I : W -> Prop) {A} (f : W -> A) : keeps I (gets f).
Proof. intros w H. exact H. Qed.

Lemma keeps_bind (I : W -> Prop) {A B} (m : M W A) (k : A -> M W B) :
  keeps I m -> (forall a, keeps I (k a)) -> keeps I (bind m k).
Proof.
  intros Hm Hk w Hw. unfold bind. specialize (Hm w Hw).
  destruct (m w) as [a w'|f]; [apply Hk, Hm|exact Logic.I].
Qed.

(** A read whose value the continuation's proof may use. *)
Lemma keeps_bind_gets (I : W -> Prop) {A B} (f : W -> A) (k : A -> M W B) :
  (forall w, I w -> match k (f w) w with Ret _ w' => I w' | Fault _ => True end) ->
  keeps I (bind (gets f) k).
Proof. intros H w Hw. apply H, Hw. Qed.

Lemma keeps_modify (I : W -> Prop) (f : W -> W) :
  (forall w, I w -> I (f w)) -> keeps I (modify f).
Proof. intros H w Hw. apply H, Hw. Qed.

Lemma keeps_when (I : W -> Prop) (b : bool) (m : M W unit) :
  keeps I m -> keeps I (when b m).
Proof. intros H. destruct b; [exact H|apply keeps_ret]. Qed.

Lemma keeps_for_each (I : W -> Prop) {A} (l : list A) (body : A -> M W unit) :
  (forall a, keeps I (body a)) -> keeps I (for_each l body).
Proof.
  intros H. induction l; cbn; [apply keeps_ret|].
  apply keeps_bind; auto.
Qed.

Lemma keeps_retry (I : W -> Prop) {A} n (body : M W A) again last :
  keeps I body -> keeps I (retry n body again last).
Proof.
  intros H. revert last. induction n; intros last; cbn; [apply keeps_ret|].
  apply keeps_bind; [exact H|]. intros r. destruct (again r); [apply IHn|apply keeps_ret].
Qed.

Lemma keeps_and (I J : W -> Prop) {A} (m : M W A) :
  keeps I m -> keeps J m -> keeps (fun w => I w /\ J w) m.
Proof.
  intros HI HJ w [Hw1 Hw2]. specialize (HI w Hw1). specialize (HJ w Hw2).
  destruct (m w); auto.
Qed.

Lemma keeps_impl (I J : W -> Prop) {A} (m : M W A) :
  (forall w, I w <-> J w) -> keeps I m -> keeps J m.
Proof.
  intros E H w Hw. apply E in Hw. specialize (H w Hw).
  destruct (m w); [apply E|]; exact H.
Qed.

Lemma keeps_Ret (I : W -> Prop) {A} (m : M W A) (w w' : W) (a : A) :
  keeps I m -> m w = Ret a w' -> I w -> I w'.
Proof. intros H E Hw. specialize (H w Hw). rewrite E in H. exact H. Qed.
End Keeps.

(** ** Weakest preconditions *)

Section WP.
Context {W : Type}.

(** [m] does not fault and its result satisfies [Q]. *)
Definition wp {A} (m : M W A) (Q : A -> W -> Prop) (w : W) : Prop :=
  match m w with Ret a w' => Q a w' | Fault _ => False end.

Lemma wp_ret {A} (a : A) (Q : A -> W -> Prop) (w : W) : Q a w -> wp (ret a) Q w.
Proof. exact (fun H => H). Qed.

(** A computation whose result is known. *)
Lemma wp_eq {A} (m : M W A) (a : A) (w : W) (Q : A -> W -> Prop) : m w = Ret a w -> Q a w -> wp m Q w.
Proof. intros E HQ. unfold wp. now rewrite E. Qed.

Lemma wp_bind {A B} (m : M W A) (k : A -> M W B) (Q : B -> W -> Prop) (w : W) :
  wp m (fun a => wp (k a) Q) w -> wp (bind m k) Q w.
Proof. unfold wp, bind. destruct (m w); auto. Qed.

(** Two statements may be taken together. *)
Lemma wp_assoc {A B C} (m : M W A) (k : A -> M W B) (f : B -> M W C) (Q : C -> W -> Prop) (w : W) :
  wp (bind (bind m k) f) Q w -> wp (bind m (fun a => bind (k a) f)) Q w.
Proof. unfold wp, bind. destruct (m w); exact (fun H => H). Qed.

Lemma wp_gets {A} (f : W -> A) (Q : A -> W -> Prop) (w : W) : Q (f w) w -> wp (gets f) Q w.
Proof. exact (fun H => H). Qed.

Lemma wp_modify (f : W -> W) (Q : unit -> W -> Prop) (w : W) :
  Q tt (f w) -> wp (modify f) Q w.
Proof. exact (fun H => H). Qed.

Lemma wp_mono {A} (m : M W A) (Q R : A -> W -> Prop) (w : W) :
  (forall a w', Q a w' -> R a w') -> wp m Q w -> wp m R w.
Proof. unfold wp. destruct (m w); auto. Qed.

Lemma wp_and {A} (m : M W A) (Q R : A -> W -> Prop) (w : W) :
  wp m Q w -> wp m R w -> wp m (fun a w' => Q a w' /\ R a w') w.
Proof. unfold wp. destruct (m w); auto. Qed.

(** A frame: what [m] keeps may be added to any postcondition. *)
Lemma wp_keeps {A} (I : W -> Prop) (m : M W A) (Q : A -> W -> Prop) (w : W) :
  keeps I m -> I w -> wp m Q w -> wp m (fun a w' => I w' /\ Q a w') w.
Proof. unfold wp. intros H Hw. specialize (H w Hw). destruct (m w); auto. Qed.

Lemma wp_for_each {A} (I : W -> Prop) (l : list A) (body : A -> M W unit) (w : W) :
  (forall a w, I w -> wp (body a) (fun _ => I) w) ->
  I w -> wp (for_each l body) (fun _ => I) w.
Proof.
  intros H. revert w. induction l as [|a l IH]; intros w Hw; cbn; [exact Hw|].
  apply wp_bind. eapply wp_mono; [|apply H, Hw]. intros ? w' Hw'. apply IH, Hw'.
Qed.
End WP.

(** ** Partial correctness *)

Section WLP.
Context {W : Type}.

(** If [m] returns, its result satisfies [Q]. *)
Definition wlp {A} (m : M W A) (Q : A -> W -> Prop) (w : W) : Prop :=
  match m w with Ret a w' => Q a w' | Fault _ => True end.

Lemma wp_wlp {A} (m : M W A) (Q : A -> W -> Prop) (w : W) : wp m Q w -> wlp m Q w.
Proof. unfold wp, wlp. destruct (m w); [exact (fun H => H)|contradiction]. Qed.

Lemma wlp_bind {A B} (m : M W A) (k : A -> M W B) (Q : B -> W -> Prop) (w : W) :
  wlp m (fun a => wlp (k a) Q) w -> wlp (bind m k) Q w.
Proof. unfold wlp, bind. destruct (m w); auto. Qed.

Lemma wlp_mono {A} (m : M W A) (Q R : A -> W -> Prop) (w : W) :
  (forall a w', Q a w' -> R a w') -> wlp m Q w -> wlp m R w.
Proof. unfold wlp. destruct (m w); auto. Qed.

(** The state before a computation does not matter to what holds after the rest. *)
Lemma wlp_skip {A B} (m : M W A) (k : A -> M W B) (Q : B -> W -> Prop) (w : W) :
  (forall a w', wlp (k a) Q w') -> wlp (bind m k) Q w.
Proof. intros H. apply wlp_bind. unfold wlp at 1. destruct (m w); [apply H|exact I]. Qed.

Lemma wp_wlp_and {A} (m : M W A) (Q R : A -> W -> Prop) (w : W) :
  wp m Q w -> wlp m R w -> wp m (fun a w' => Q a w' /\ R a w') w.
Proof. unfold wp, wlp. destruct (m w); auto. Qed.
End WLP.

(** Structural steps of a preservation proof; leaves are closed by the
    component lemmas registered in [keeps]. *)
Ltac keeps_step :=
  match goal with
  | |- keeps _ (ret _) => apply keeps_ret
  | |- keeps _ (stop _) => apply keeps_stop
  | |- keeps _ (gets _) => apply keeps_gets
  | |- keeps _ (bind _ _) => apply keeps_bind; [|intros ?]
  | |- keeps _ (when _ _) => apply keeps_when
  | |- keeps _ (for_each _ _) => apply keeps_for_each; intros ?
  | |- keeps _ (retry _ _ _ _) => apply keeps_retry
  | |- keeps _ (if ?b then _ else _) => destruct b
  | |- keeps _ (match ?x with _ => _ end) => destruct x
  | |- keeps _ (let '(_, _) := ?x in _) => destruct x
  end.

Ltac keeps := repeat (solve [auto with keeps nocore] || keeps_step).
