(* ===== verification/Json.v ===== *)
(** * json-c

    The library the services read and write their messages with: the trees they
    build, and the functions they read a received text with. *)

From Stdlib Require Import ZArith List String.
Import ListNotations.
Open Scope Z_scope.

(** Trees handed to [json_object_to_json_string]. *)
Inductive json :=
| JStr (s : string)
| JInt (z : Z)
| JBool (b : bool)
| JArr (l : list json)
| JObj (l : list (string * json)).

(** Reading; [None] is a NULL pointer. *)
Class JsonC := {
  jobj : Type;
  json_tokener_parse : string -> option jobj;
  json_object_object_get_ex : option jobj -> string -> option (option jobj);
  json_object_get_string : option jobj -> option string
}.

(** Reading values and arrays; an array function stops the program on another value. *)
Class JsonValues (J : JsonC) := {
  json_object_get_boolean : option jobj -> bool;
  json_object_get_int : option jobj -> Z;
  json_object_array_length : option jobj -> option Z;
  json_object_array_get_idx : option jobj -> Z -> option jobj;
  json_object_to_json_string : json -> string
}.

(** [json_object_object_add]: a key that is there keeps its place. *)
Fixpoint obj_add (key : string) (v : json) (l : list (string * json)) : list (string * json) :=
  match l with
  | [] => [(key, v)]
  | (k, x) :: l' => if String.eqb k key then (k, v) :: l' else (k, x) :: obj_add key v l'
  end.
