(* ===== verification/Timer.v ===== *)
(** * Timers as services take them from the event loop

    The interface between the services and the event loop: what they call, and what
    the loop promises of it. *)

From stdpp Require Import base list.
From S2P Require Import Prelude CMonad.
Open Scope Z_scope.

(** The operations over the state [T] of the loop. *)
Class Timers (T : Type) := {
  loop_init : M T Z;
  timer_add : Z -> Z -> Z -> M T Z;       (* the callback and the two delays *)
  timer_start : Z -> M T unit;
  timer_stop : Z -> M T unit;
}.

(** [timers_down t]: the loop is not initialised; [timers_up L t]: it is, and has the
    timers [L].  A live timer can be started and stopped any number of times. *)
Class TimersOk (T : Type) `{!Timers T} := {
  timers_down : T -> Prop;
  timers_up : list Z -> T -> Prop;
  loop_init_ok t : timers_down t -> wp loop_init (fun r t' => r = 0 -> timers_up [] t') t;
  timer_add_ok L t cb e p : timers_up L t ->
    wp (timer_add cb e p) (fun r t' => r = INVALID_ID /\ timers_up L t' \/
                                    r <> INVALID_ID /\ timers_up (L ++ [r]) t') t;
  timer_start_ok L t id : timers_up L t -> id ∈ L -> wp (timer_start id) (fun _ => timers_up L) t;
  timer_stop_ok L t id : timers_up L t -> id ∈ L -> wp (timer_stop id) (fun _ => timers_up L) t;
}.

(** The timers do not wait for one another. *)
Class TimersLive (T : Type) `{!Timers T} := {
  timer_start_live id t : timer_start id t <> Fault Hang;
  timer_stop_live id t : timer_stop id t <> Fault Hang;
}.
