(* ===== verification/Dll.v ===== *)
(** * Intrusive doubly linked lists

    [libs/libeloop/src/list.c] and the macros of [list.h]: circular lists
    threaded through the first field of the library's structs.  Memory maps an
    address to the [struct list_head] stored there; an address that is not
    mapped is not allocated.  [dlist m h l] says that in [m] the list with head
    node [h] holds the nodes [l] in order: the abstraction under which the
    operations are insertion into and removal from a list of addresses.

    [libs/libeloop/src/olist.c] and the macros of [olist.h]: a doubly linked
    list kept in the order of a comparison callback. *)

From stdpp Require Import base gmap list sorting.
From S2P Require Import Prelude CMonad.
Open Scope Z_scope.

(** ** A state seen through a larger one *)

(** Where a component's state [S] lives in the state [W] of its caller. *)
Class Lens (W S : Type) := {
  view_of : W -> S;
  put_view : S -> W -> W;
  view_put s w : view_of (put_view s w) = s;
  put_same w : put_view (view_of w) w = w;
}.

(** Runs a component's code in the caller's state. *)
Definition zoom {W S A} `{!Lens W S} (m : M S A) : M W A :=
  fun w => match m (view_of w) with
           | Ret a s => Ret a (put_view s w)
           | Fault f => Fault f
           end.

Lemma wp_zoom {W S A} `{!Lens W S} (m : M S A) (Q : A -> W -> Prop) (w : W) :
  wp m (fun a s => Q a (put_view s w)) (view_of w) -> wp (zoom m) Q w.
Proof. unfold wp, zoom. by destruct (m _). Qed.

(** ** Memory of list nodes *)

Record list_head := mk_list_head { next : Z; prev : Z }.

#[export] Instance list_head_eq_dec : EqDecision list_head.
Proof. solve_decision. Defined.

Notation links := (gmap Z list_head).

(** Access through a pointer that may be NULL or dangling. *)
Definition bad_pointer (a : Z) : fault := if a =? 0 then NullDeref else UseAfterFree.

Definition ld (a : Z) : M links list_head :=
  fun m => match m !! a with Some n => Ret n m | None => Fault (bad_pointer a) end.

Definition get_next (a : Z) : M links Z := n <- ld a ;; ret (next n).

Definition get_prev (a : Z) : M links Z := n <- ld a ;; ret (prev n).

Definition set_next (a v : Z) : M links unit :=
  n <- ld a ;; modify (fun m => <[a := mk_list_head v (prev n)]> m).

Definition set_prev (a v : Z) : M links unit :=
  n <- ld a ;; modify (fun m => <[a := mk_list_head (next n) v]> m).

(** ** [list.c] and [list.h] *)

Definition list_init (l : Z) : M links unit := set_next l l ;; set_prev l l.

Definition list_is_empty (l : Z) : M links bool := n <- get_next l ;; ret (n =? l).

Definition list_first (head : Z) : M links Z := get_next head.

Definition list_is_last (head item : Z) : M links bool := n <- get_next item ;; ret (n =? head).

Definition list_is_first (head item : Z) : M links bool := p <- get_prev item ;; ret (p =? head).

(** Inserts [item] before [head]; every access reads [head->prev] again. *)
Definition list_add (head item : Z) : M links unit :=
  p <- get_prev head ;; n <- get_next p ;; set_next item n ;;
  p <- get_prev head ;; set_next p item ;;
  p <- get_prev head ;; set_prev item p ;;
  set_prev head item.

Definition list_del (item : Z) : M links unit :=
  p <- get_prev item ;; n <- get_next item ;; set_next p n ;;
  n <- get_next item ;; p <- get_prev item ;; set_prev n p ;;
  set_next item item ;;
  set_prev item item.

Definition list_add_last (head item : Z) : M links unit := list_add head item.

Definition list_add_first (head item : Z) : M links unit :=
  n <- get_next head ;; list_add n item.

(** A list has at most as many nodes as the memory, so that much fuel lets a
    loop reach the end of any list. *)
Definition links_fuel (m : links) : nat := S (size m).

Section ForEach.
Context {W : Type} `{!Lens W links}.

(** [list_for_each] from [itr] on: the first node at which the body leaves the
    loop ([break]), or none. *)
Fixpoint list_find_from (fuel : nat) (head : Z) (leave : Z -> M W bool) (itr : Z)
  : M W (option Z) :=
  match fuel with
  | O => stop Hang
  | S fuel' =>
      if itr =? head then ret None
      else
        b <- leave itr ;;
        if b : bool then ret (Some itr)
        else n <- zoom (get_next itr) ;; list_find_from fuel' head leave n
  end.

Definition list_for_each (head : Z) (leave : Z -> M W bool) : M W (option Z) :=
  n <- zoom (get_next head) ;;
  k <- gets (fun w => links_fuel (view_of w)) ;;
  list_find_from k head leave n.

(** [list_for_each_safe]: the successor is read before the body runs. *)
Fixpoint list_each_safe_from (fuel : nat) (head : Z) (body : Z -> M W unit) (item itr : Z)
  : M W unit :=
  match fuel with
  | O => stop Hang
  | S fuel' =>
      if item =? head then ret tt
      else
        body item ;;
        n <- zoom (get_next itr) ;;
        list_each_safe_from fuel' head body itr n
  end.

Definition list_for_each_safe (head : Z) (body : Z -> M W unit) : M W unit :=
  item <- zoom (get_next head) ;;
  itr <- zoom (get_next item) ;;
  k <- gets (fun w => links_fuel (view_of w)) ;;
  list_each_safe_from k head body item itr.
End ForEach.

#[export] Program Instance links_lens : Lens links links :=
  {| view_of m := m; put_view m _ := m |}.
Solve All Obligations with done.

(** ** The list a head node stands for *)

Definition nxt (m : links) (a : Z) : option Z := next <$> m !! a.

Definition prv (m : links) (a : Z) : option Z := prev <$> m !! a.

Definition linked (m : links) (a b : Z) : Prop := nxt m a = Some b /\ prv m b = Some a.

(** Consecutive addresses of [L] are linked both ways. *)
Fixpoint seg (m : links) (L : list Z) : Prop :=
  match L with
  | a :: L' => match L' with [] => True | b :: _ => linked m a b /\ seg m L' end
  | [] => True
  end.

Definition dlist (m : links) (h : Z) (l : list Z) : Prop :=
  NoDup (h :: l) /\ seg m (h :: l ++ [h]).

(** What an operation on the nodes [S] leaves: the other nodes and the set of
    allocated nodes. *)
Definition only_touches (S : list Z) (m m' : links) : Prop :=
  dom m' = dom m /\ forall a, a ∉ S -> m' !! a = m !! a.

(** ** Steps of the memory *)

Lemma nxt_Some m a b : nxt m a = Some b -> exists n, m !! a = Some n /\ next n = b.
Proof. unfold nxt. destruct (m !! a) as [n|]; simpl; naive_solver. Qed.

Lemma prv_Some m a b : prv m a = Some b -> exists n, m !! a = Some n /\ prev n = b.
Proof. unfold prv. destruct (m !! a) as [n|]; simpl; naive_solver. Qed.

Lemma wp_get_next m a b (Q : Z -> links -> Prop) :
  nxt m a = Some b -> Q b m -> wp (get_next a) Q m.
Proof. intros (n & E & <-)%nxt_Some HQ. unfold wp, get_next, ld, bind. by rewrite E. Qed.

Lemma wp_get_prev m a b (Q : Z -> links -> Prop) :
  prv m a = Some b -> Q b m -> wp (get_prev a) Q m.
Proof. intros (n & E & <-)%prv_Some HQ. unfold wp, get_prev, ld, bind. by rewrite E. Qed.

Lemma nxt_insert m a n x : nxt (<[a := n]> m) x = if decide (x = a) then Some (next n) else nxt m x.
Proof.
  unfold nxt. case_decide as H; [subst; by rewrite lookup_insert_eq|].
  by rewrite lookup_insert_ne by congruence.
Qed.

Lemma prv_insert m a n x : prv (<[a := n]> m) x = if decide (x = a) then Some (prev n) else prv m x.
Proof.
  unfold prv. case_decide as H; [subst; by rewrite lookup_insert_eq|].
  by rewrite lookup_insert_ne by congruence.
Qed.

Lemma only_touches_insert m a n : is_Some (m !! a) -> only_touches [a] m (<[a := n]> m).
Proof.
  intros H. split; [by rewrite dom_insert_lookup_L|].
  intros x Hx. apply lookup_insert_ne. set_solver.
Qed.

(** A write changes one link of one node. *)
Lemma wp_set_next m a v (Q : unit -> links -> Prop) :
  is_Some (m !! a) ->
  (forall m', (forall x, nxt m' x = if decide (x = a) then Some v else nxt m x) ->
              (forall x, prv m' x = prv m x) ->
              only_touches [a] m m' -> Q tt m') ->
  wp (set_next a v) Q m.
Proof.
  intros [n E] HQ. unfold wp, set_next, ld, bind. rewrite E. simpl. apply HQ.
  - intros x. apply nxt_insert.
  - intros x. rewrite prv_insert. case_decide; subst; [unfold prv; by rewrite E|done].
  - by apply only_touches_insert.
Qed.

Lemma wp_set_prev m a v (Q : unit -> links -> Prop) :
  is_Some (m !! a) ->
  (forall m', (forall x, prv m' x = if decide (x = a) then Some v else prv m x) ->
              (forall x, nxt m' x = nxt m x) ->
              only_touches [a] m m' -> Q tt m') ->
  wp (set_prev a v) Q m.
Proof.
  intros [n E] HQ. unfold wp, set_prev, ld, bind. rewrite E. simpl. apply HQ.
  - intros x. apply prv_insert.
  - intros x. rewrite nxt_insert. case_decide; subst; [unfold nxt; by rewrite E|done].
  - by apply only_touches_insert.
Qed.

Lemma only_touches_trans S1 S2 m1 m2 m3 :
  only_touches S1 m1 m2 -> only_touches S2 m2 m3 -> only_touches (S1 ++ S2) m1 m3.
Proof.
  intros [D1 H1] [D2 H2]. split; [congruence|]. intros a Ha.
  rewrite H2 by set_solver. apply H1. set_solver.
Qed.

Lemma only_touches_weaken S1 S2 m1 m2 :
  S1 ⊆ S2 -> only_touches S1 m1 m2 -> only_touches S2 m1 m2.
Proof. intros HS [D H]. split; [done|]. intros a Ha. apply H. set_solver. Qed.

Lemma only_touches_is_Some S m m' a :
  only_touches S m m' -> is_Some (m !! a) -> is_Some (m' !! a).
Proof. intros [D _]. rewrite <-!elem_of_dom, D. done. Qed.

(** ** Segments *)

Lemma seg_app m L1 a L2 : seg m (L1 ++ a :: L2) <-> seg m (L1 ++ [a]) /\ seg m (a :: L2).
Proof.
  induction L1 as [|x L1 IH]; [simpl; tauto|].
  destruct L1 as [|y L1]; [simpl; tauto|].
  change ((x :: y :: L1) ++ a :: L2) with (x :: y :: (L1 ++ a :: L2)).
  change ((x :: y :: L1) ++ [a]) with (x :: y :: (L1 ++ [a])).
  simpl seg in IH |- *. tauto.
Qed.

(** A segment only depends on the forward links of all its nodes but the last
    and on the backward links of all but the first. *)
Lemma seg_frame m m' L :
  seg m L ->
  (forall a, a ∈ removelast L -> nxt m' a = nxt m a) ->
  (forall a, a ∈ tail L -> prv m' a = prv m a) ->
  seg m' L.
Proof.
  induction L as [|a [|b L] IH]; [done..|]. intros [[E1 E2] H] Hn Hp. split.
  - split; [rewrite Hn|rewrite Hp]; set_solver.
  - apply IH; [done| |]; intros x Hx; [apply Hn|apply Hp]; set_solver.
Qed.

(** A list only depends on its own nodes. *)
Lemma dlist_ext m m' h l :
  (forall a, a ∈ h :: l -> m' !! a = m !! a) -> dlist m h l -> dlist m' h l.
Proof.
  intros Hx [Hd Hs]. split; [done|].
  eapply seg_frame; [done| |]; intros a Ha; unfold nxt, prv; rewrite Hx; try done.
  - rewrite app_comm_cons, removelast_last in Ha. done.
  - simpl in Ha. set_solver.
Qed.

Lemma dlist_frame S m m' h l :
  only_touches S m m' -> (forall a, a ∈ h :: l -> a ∉ S) -> dlist m h l -> dlist m' h l.
Proof. intros [_ Ht] HS. apply dlist_ext. auto. Qed.

(** Where a list is cut: the node before and the node after the cut. *)
Lemma dlist_cut m h l1 l2 :
  dlist m h (l1 ++ l2) ->
  exists A p q B, h :: l1 = A ++ [p] /\ l2 ++ [h] = q :: B /\ q = hd h l2 /\
    seg m (A ++ [p]) /\ linked m p q /\ seg m (q :: B).
Proof.
  intros [_ Hs].
  destruct (@exists_last _ (h :: l1)) as (A & p & EA); [done|].
  destruct (l2 ++ [h]) as [|q B] eqn:EB; [by destruct l2|].
  exists A, p, q, B. rewrite <-app_assoc, EB, app_comm_cons, EA in Hs.
  rewrite <-app_assoc in Hs. apply seg_app in Hs as [H1 H2]. simpl in H2.
  rewrite EA. split_and!; try done; [|tauto..]. destruct l2; simpl in EB |- *; congruence.
Qed.

Lemma elem_of_tail {A} (x : A) L : x ∈ tail L -> x ∈ L.
Proof. destruct L; set_solver. Qed.

Lemma elem_of_removelast {A} (x : A) L : x ∈ removelast L -> x ∈ L.
Proof. induction L as [|a [|b L] IH]; set_solver. Qed.

(** The nodes at a cut do not occur elsewhere in the two halves. *)
Lemma cut_NoDup (h : Z) l1 l2 A p q B :
  NoDup (h :: l1 ++ l2) -> h :: l1 = A ++ [p] -> l2 ++ [h] = q :: B -> q = hd h l2 ->
  p ∉ A /\ q ∉ tail (A ++ [p]) /\ p ∉ removelast (q :: B) /\ q ∉ tail (q :: B).
Proof.
  intros Hnd EA EB ->. rewrite <-EB, <-EA, removelast_last. simpl tail.
  rewrite app_comm_cons, NoDup_app in Hnd. destruct Hnd as (H1 & H2 & H3).
  pose proof H1 as H1'. rewrite EA, NoDup_app in H1. destruct H1 as (_ & H1 & _).
  assert (Hp : p ∈ h :: l1) by (rewrite EA; set_solver).
  split_and!; [set_solver| | |].
  - destruct l2; simpl; [by apply NoDup_cons in H1' as [? _]|]. set_solver.
  - by apply H2.
  - destruct l2; simpl; [set_solver|]. rewrite NoDup_cons in H3. set_solver.
Qed.

(** ** The operations as operations on lists of addresses *)

(** Runs one step of a straight-line wp goal on the memory. *)
Ltac mem_step :=
  lazymatch goal with
  | |- wp (bind _ _) _ _ => apply wp_bind
  | |- wp (get_next _) _ _ => eapply wp_get_next; [try eassumption|]
  | |- wp (get_prev _) _ _ => eapply wp_get_prev; [try eassumption|]
  | |- wp (set_next _ _) _ _ => apply wp_set_next; [|intros ? ? ? ?]
  | |- wp (set_prev _ _) _ _ => apply wp_set_prev; [|intros ? ? ? ?]
  end.

Lemma linked_is_Some_l m a b : linked m a b -> is_Some (m !! a).
Proof. intros [(n & E & _)%nxt_Some _]. eauto. Qed.

Lemma linked_is_Some_r m a b : linked m a b -> is_Some (m !! b).
Proof. intros [_ (n & E & _)%prv_Some]. eauto. Qed.

Ltac mem_side :=
  try done;
  try solve [eauto using linked_is_Some_l, linked_is_Some_r, only_touches_is_Some];
  repeat match goal with H : forall x, nxt _ x = _ |- _ => rewrite H end;
  repeat match goal with H : forall x, prv _ x = _ |- _ => rewrite H end;
  repeat (case_decide; subst); try done; try congruence.

Ltac mem_run :=
  repeat (cbv beta; lazymatch goal with |- wp _ _ _ => mem_step | _ => by mem_side end).

(** The links [list_add] writes. *)
Lemma list_add_links m p q item (Q : unit -> links -> Prop) :
  linked m p q -> is_Some (m !! item) -> item <> p -> item <> q ->
  (forall m',
    (forall x, nxt m' x = if decide (x = item) then Some q else
                          if decide (x = p) then Some item else nxt m x) ->
    (forall x, prv m' x = if decide (x = item) then Some p else
                          if decide (x = q) then Some item else prv m x) ->
    only_touches [item; p; q] m m' -> Q tt m') ->
  wp (list_add q item) Q m.
Proof.
  intros Hl Hi Hp Hq HQ. pose proof Hl as [Hn Hv]. unfold list_add.
  mem_run. apply HQ.
  - intros x. mem_side.
  - intros x. mem_side.
  - eapply only_touches_weaken; [|eauto 6 using only_touches_trans]. set_solver.
Qed.

(** The links [list_del] writes. *)
Lemma list_del_links m p item q (Q : unit -> links -> Prop) :
  linked m p item -> linked m item q -> item <> p -> item <> q ->
  (forall m',
    (forall x, nxt m' x = if decide (x = item) then Some item else
                          if decide (x = p) then Some q else nxt m x) ->
    (forall x, prv m' x = if decide (x = item) then Some item else
                          if decide (x = q) then Some p else prv m x) ->
    only_touches [item; p; q] m m' -> Q tt m') ->
  wp (list_del item) Q m.
Proof.
  intros Hl Hr Hp Hq HQ. pose proof Hl as [Hn1 Hv1]. pose proof Hr as [Hn2 Hv2].
  unfold list_del. mem_run. apply HQ.
  - intros x. mem_side.
  - intros x. mem_side.
  - eapply only_touches_weaken; [|eauto 6 using only_touches_trans]. set_solver.
Qed.

(** Insertion before the node at a cut of the list. *)
Lemma list_add_dlist m h l1 l2 item (Q : unit -> links -> Prop) :
  dlist m h (l1 ++ l2) -> is_Some (m !! item) -> item ∉ h :: l1 ++ l2 ->
  (forall m', dlist m' h (l1 ++ item :: l2) -> only_touches (item :: h :: l1 ++ l2) m m' ->
              Q tt m') ->
  wp (list_add (hd h l2) item) Q m.
Proof.
  intros Hd Hi Hn HQ. pose proof Hd as [Hnd _].
  destruct (dlist_cut _ _ _ _ Hd) as (A & p & q & B & EA & EB & Eq & S1 & L & S2).
  rewrite <-Eq. destruct (cut_NoDup _ _ _ _ _ _ _ Hnd EA EB Eq) as (N1 & N2 & N3 & N4).
  assert (IA : item ∉ A ++ [p]) by (rewrite <-EA; set_solver).
  assert (IB : item ∉ q :: B) by (rewrite <-EB; set_solver).
  assert (Ip : item <> p) by (clear -IA; set_solver).
  assert (Iq : item <> q) by (clear -IB; set_solver).
  assert (Tp : p ∈ h :: l1) by (rewrite EA; clear; set_solver).
  assert (Tq : q ∈ l2 ++ [h]) by (rewrite EB; clear; set_solver).
  eapply list_add_links; [exact L|done|done..|]. intros m' N P T. apply HQ; last first.
  { eapply only_touches_weaken; [|exact T]. clear -Tp Tq. set_solver. }
  split; [rewrite app_comm_cons, <-Permutation_middle; by constructor|].
  replace (h :: (l1 ++ item :: l2) ++ [h]) with (A ++ p :: item :: q :: B)
    by (rewrite <-!app_assoc, <-!app_comm_cons, EB, app_comm_cons, EA, <-app_assoc; done).
  apply seg_app. split; [|split; [|split]].
  - eapply seg_frame; [exact S1| |]; intros x Hx; rewrite ?N, ?P.
    + pose proof (elem_of_removelast _ _ Hx). rewrite removelast_last in Hx.
      rewrite !decide_False; congruence.
    + pose proof (elem_of_tail _ _ Hx). rewrite !decide_False; congruence.
  - split; [rewrite N|rewrite P]; mem_side.
  - split; [rewrite N|rewrite P]; mem_side.
  - eapply seg_frame; [exact S2| |]; intros x Hx; rewrite ?N, ?P.
    + pose proof (elem_of_removelast _ _ Hx). rewrite !decide_False; congruence.
    + pose proof (elem_of_tail _ _ Hx). rewrite !decide_False; congruence.
Qed.

(** Removal of any node; the node is left as an empty list of its own. *)
Lemma list_del_dlist m h l1 item l2 (Q : unit -> links -> Prop) :
  dlist m h (l1 ++ item :: l2) ->
  (forall m', dlist m' h (l1 ++ l2) -> dlist m' item [] ->
              only_touches (item :: h :: l1 ++ l2) m m' -> Q tt m') ->
  wp (list_del item) Q m.
Proof.
  intros Hd HQ. pose proof Hd as [Hnd _].
  destruct (dlist_cut _ _ _ _ Hd) as (A & p & q & B & EA & EB & Eq & S1 & L1 & S2).
  simpl in EB, Eq. simplify_eq.
  destruct (l2 ++ [h]) as [|q B] eqn:EB; [by destruct l2|]. destruct S2 as [L2 S2].
  assert (Eq : q = hd h l2) by (destruct l2; simpl in EB |- *; congruence).
  rewrite app_comm_cons, <-Permutation_middle, NoDup_cons, <-app_comm_cons in Hnd.
  destruct Hnd as [Hn Hnd].
  destruct (cut_NoDup _ _ _ _ _ _ _ Hnd EA EB Eq) as (N1 & N2 & N3 & N4).
  assert (IA : item ∉ A ++ [p]) by (rewrite <-EA; set_solver).
  assert (IB : item ∉ q :: B) by (rewrite <-EB; set_solver).
  assert (Ip : item <> p) by (clear -IA; set_solver).
  assert (Iq : item <> q) by (clear -IB; set_solver).
  assert (Tp : p ∈ h :: l1) by (rewrite EA; clear; set_solver).
  assert (Tq : q ∈ l2 ++ [h]) by (rewrite EB; clear; set_solver).
  eapply list_del_links; [exact L1|exact L2|done..|]. intros m' N P T. apply HQ; [| |].
  - split; [done|].
    replace (h :: (l1 ++ l2) ++ [h]) with (A ++ p :: q :: B)
      by (rewrite <-!app_assoc, EB, app_comm_cons, EA, <-app_assoc; done).
    apply seg_app. split; [|split].
    + eapply seg_frame; [exact S1| |]; intros x Hx; rewrite ?N, ?P.
      * pose proof (elem_of_removelast _ _ Hx). rewrite removelast_last in Hx.
        rewrite !decide_False; congruence.
      * pose proof (elem_of_tail _ _ Hx). rewrite !decide_False; congruence.
    + split; [rewrite N|rewrite P]; mem_side.
    + eapply seg_frame; [exact S2| |]; intros x Hx; rewrite ?N, ?P.
      * pose proof (elem_of_removelast _ _ Hx). rewrite !decide_False; congruence.
      * pose proof (elem_of_tail _ _ Hx). rewrite !decide_False; congruence.
  - split; [apply NoDup_singleton|]. split; [|done]. split; [rewrite N|rewrite P]; mem_side.
  - eapply only_touches_weaken; [|exact T]. clear -Tp Tq. set_solver.
Qed.

(** A node set up by [list_init] is the head of an empty list. *)
Lemma list_init_dlist m h (Q : unit -> links -> Prop) :
  is_Some (m !! h) ->
  (forall m', dlist m' h [] -> only_touches [h] m m' -> Q tt m') ->
  wp (list_init h) Q m.
Proof.
  intros Hh HQ. unfold list_init. mem_run. apply HQ.
  - split; [apply NoDup_singleton|]. split; [|done]. split; mem_side.
  - eapply only_touches_weaken; [|eauto using only_touches_trans]. set_solver.
Qed.

(** The successor of the head. *)
Lemma dlist_first m h l : dlist m h l -> nxt m h = Some (hd h l).
Proof. intros [_ Hs]. destruct l; simpl in *; apply Hs. Qed.

(** The successor of any node of the list. *)
Lemma dlist_succ m h l1 a l2 : dlist m h (l1 ++ a :: l2) -> nxt m a = Some (hd h l2).
Proof.
  intros [_ Hs]. rewrite <-app_assoc, app_comm_cons in Hs.
  apply seg_app in Hs as [_ Hs]. destruct l2; simpl in *; apply Hs.
Qed.

Lemma dlist_hd_succ m h l : dlist m h l -> exists n, nxt m (hd h l) = Some n.
Proof.
  intros Hd. destruct l as [|a l]; eexists; [by apply (dlist_first _ _ [])|].
  by apply (dlist_succ _ h [] a l).
Qed.

(** ** Traversals *)

Lemma find_none_all (f : Z -> bool) l : Forall (fun a => f a = false) l -> List.find f l = None.
Proof. induction 1 as [|a l Ha _ IH]; simpl; [done|by rewrite Ha]. Qed.

Lemma find_split (P : Z -> bool) l a :
  List.find P l = Some a -> exists l1 l2, l = l1 ++ a :: l2 /\ Forall (fun b => P b = false) l1 /\ P a = true.
Proof.
  induction l as [|b l IH]; simpl; [done|]. destruct (P b) eqn:E; intros H.
  - simplify_eq. exists [], l. by split_and!.
  - destruct (IH H) as (l1 & l2 & -> & F & Ha). exists (b :: l1), l2. split_and!; [done|by constructor|done].
Qed.

Lemma seg_dom m L a : seg m L -> (2 <= length L)%nat -> a ∈ L -> a ∈ dom m.
Proof.
  induction L as [|x [|y L] IH]; simpl; intros Hs Hl Ha; [lia..|].
  destruct Hs as [Hxy Hs]. rewrite elem_of_cons in Ha. destruct Ha as [->|Ha].
  - apply elem_of_dom. eauto using linked_is_Some_l.
  - destruct L as [|z L]; [|apply IH; simpl; [done|lia|done]].
    apply list_elem_of_singleton in Ha as ->. apply elem_of_dom. eauto using linked_is_Some_r.
Qed.

Lemma dlist_dom m h l a : dlist m h l -> a ∈ h :: l -> a ∈ dom m.
Proof.
  intros [_ Hs] Ha. eapply seg_dom; [exact Hs|simpl; rewrite length_app; simpl; lia|set_solver].
Qed.

(** The fuel of a loop covers every list of the memory. *)
Lemma dlist_fuel m h l : dlist m h l -> (S (length l) < links_fuel m)%nat.
Proof.
  intros Hd. unfold links_fuel. apply le_n_S. rewrite <-size_dom.
  change (S (length l)) with (length (h :: l)).
  rewrite <-(size_list_to_set (C := gset Z)) by apply Hd.
  apply subseteq_size. intros a Ha. apply elem_of_list_to_set in Ha. eauto using dlist_dom.
Qed.

Section Traverse.
Context {W : Type} `{!Lens W links}.

Lemma zoom_get_next (w : W) a b : nxt (view_of w) a = Some b -> zoom (get_next a) w = Ret b w.
Proof.
  intros (n & E & <-)%nxt_Some. unfold zoom, get_next, ld, bind. rewrite E. simpl.
  by rewrite put_same.
Qed.

(** A loop whose test only reads finds the first node that passes it. *)
Lemma list_find_from_spec (w : W) (P : Z -> bool) h (leave : Z -> M W bool) l1 l2 fuel :
  dlist (view_of w) h (l1 ++ l2) ->
  (forall a, a ∈ l2 -> leave a w = Ret (P a) w) ->
  (length l2 < fuel)%nat ->
  list_find_from fuel h leave (hd h l2) w = Ret (List.find P l2) w.
Proof.
  revert l1 fuel. induction l2 as [|a l2 IH]; intros l1 [|fuel] Hd HP Hf; simpl in *; try lia.
  - by rewrite Z.eqb_refl.
  - assert (a <> h) as ->%Z.eqb_neq by (destruct Hd as [Hd _]; apply NoDup_cons in Hd; set_solver).
    unfold bind at 1. rewrite HP by set_solver. destruct (P a); [done|].
    unfold bind. erewrite zoom_get_next by (eapply dlist_succ; exact Hd).
    apply (IH (l1 ++ [a])); [by rewrite <-app_assoc|set_solver|lia].
Qed.

Lemma list_for_each_spec (w : W) (P : Z -> bool) h (leave : Z -> M W bool) l :
  dlist (view_of w) h l ->
  (forall a, a ∈ l -> leave a w = Ret (P a) w) ->
  list_for_each h leave w = Ret (List.find P l) w.
Proof.
  intros Hd HP. unfold list_for_each, bind, gets.
  erewrite zoom_get_next by eauto using dlist_first.
  apply (list_find_from_spec w P h leave []); [done..|]. apply dlist_fuel in Hd. lia.
Qed.

(** A loop whose body takes its item off the list empties the list, in order.
    [I l] describes the states in which [l] is left. *)
Lemma list_each_safe_from_wp (I : list Z -> W -> Prop) h (body : Z -> M W unit) :
  (forall l w, I l w -> dlist (view_of w) h l) ->
  (forall a l w, I (a :: l) w -> wp (body a) (fun _ => I l) w) ->
  forall l w fuel itr, I l w -> nxt (view_of w) (hd h l) = Some itr -> (length l < fuel)%nat ->
  wp (list_each_safe_from fuel h body (hd h l) itr) (fun _ => I []) w.
Proof.
  intros HI Hbody. induction l as [|a l IH]; intros w [|fuel] itr Hw Hn Hf; simpl in *; try lia.
  - rewrite Z.eqb_refl. by apply wp_ret.
  - pose proof (HI _ _ Hw) as Hd.
    assert (a <> h) as ->%Z.eqb_neq by (destruct Hd as [Hd _]; apply NoDup_cons in Hd; set_solver).
    pose proof (dlist_succ _ _ [] a l Hd) as Hs. rewrite Hn in Hs. simplify_eq.
    apply wp_bind. eapply wp_mono; [|by apply Hbody]. intros u w' Hw'.
    destruct (dlist_hd_succ _ _ _ (HI _ _ Hw')) as [n En].
    apply wp_bind. unfold wp at 1. rewrite (zoom_get_next _ _ _ En). apply IH; [done|done|lia].
Qed.

Lemma list_for_each_safe_wp (I : list Z -> W -> Prop) h (body : Z -> M W unit) l w :
  (forall l w, I l w -> dlist (view_of w) h l) ->
  (forall a l w, I (a :: l) w -> wp (body a) (fun _ => I l) w) ->
  I l w -> wp (list_for_each_safe h body) (fun _ => I []) w.
Proof.
  intros HI Hbody Hw. pose proof (HI _ _ Hw) as Hd.
  destruct (dlist_hd_succ _ _ _ Hd) as [n En].
  unfold list_for_each_safe. apply wp_bind. unfold wp at 1.
  rewrite (zoom_get_next _ _ _ (dlist_first _ _ _ Hd)).
  apply wp_bind. unfold wp at 1. rewrite (zoom_get_next _ _ _ En).
  apply wp_bind, wp_gets. eapply list_each_safe_from_wp; eauto.
  apply dlist_fuel in Hd. lia.
Qed.
End Traverse.

(** ** The contract of [list.c] *)

(** [list_add_last], [list_add_first] and [list_del] append, prepend and remove
    on the list of addresses a head node stands for, whatever else the memory
    holds: they never fault, allocate or free nothing, and write no node outside
    the list; a removed node is left as an empty list of its own. *)
Theorem list_ops_refine (m : links) (h item : Z) (l l1 l2 : list Z) :
  (dlist m h l -> is_Some (m !! item) -> item ∉ h :: l ->
   wp (list_add_last h item)
      (fun _ m' => dlist m' h (l ++ [item]) /\ only_touches (item :: h :: l) m m') m /\
   wp (list_add_first h item)
      (fun _ m' => dlist m' h (item :: l) /\ only_touches (item :: h :: l) m m') m) /\
  (dlist m h (l1 ++ item :: l2) ->
   wp (list_del item)
      (fun _ m' => dlist m' h (l1 ++ l2) /\ dlist m' item [] /\
                   only_touches (item :: h :: l1 ++ l2) m m') m).
Proof.
  split.
  - intros Hd Hi Hn. split.
    + apply (list_add_dlist m h l []); rewrite ?app_nil_r; auto.
    + apply wp_bind. eapply wp_get_next; [by apply dlist_first|].
      apply (list_add_dlist m h [] l); auto.
  - intros Hd. eapply list_del_dlist; eauto.
Qed.

(** Three nodes 1, 2, 3 in the list headed by 8. *)
Definition demo_links : links :=
  list_to_map [(8, mk_list_head 1 3); (1, mk_list_head 2 8); (2, mk_list_head 3 1);
               (3, mk_list_head 8 2); (5, mk_list_head 0 0)].

Lemma demo_links_dlist : dlist demo_links 8 [1; 2; 3].
Proof.
  split; [apply (bool_decide_unpack _); vm_compute; exact I|]. repeat split.
Qed.

Lemma list_ops_refine_witness :
  wp (list_add_last 8 5) (fun _ m' => dlist m' 8 [1; 2; 3; 5] /\
                                      only_touches [5; 8; 1; 2; 3] demo_links m') demo_links /\
  wp (list_del 2) (fun _ m' => dlist m' 8 [1; 3] /\ dlist m' 2 [] /\
                               only_touches [2; 8; 1; 3] demo_links m') demo_links.
Proof.
  destruct (list_ops_refine demo_links 8 5 [1; 2; 3] [] []) as [H1 _].
  destruct (list_ops_refine demo_links 8 2 [] [1] [3]) as [_ H2].
  split; [apply H1|apply H2; exact demo_links_dlist].
  - exact demo_links_dlist.
  - vm_compute. eauto.
  - apply (bool_decide_unpack _). vm_compute. exact I.
Defined.

(** * Key-ordered lists *)

(** The fields of [struct olist_head] after its list node; a key is an opaque
    pointer, the callback reads what it points to. *)
Record olist_data := mk_olist_data { okey : Z; cmp_cb : Z -> Z -> Z }.

Record omem := mk_omem { olinks : links; odata : gmap Z olist_data }.

#[export] Program Instance omem_lens : Lens omem links :=
  {| view_of := olinks; put_view l w := mk_omem l (odata w) |}.
Solve All Obligations with by intros [].

(** Access to the fields after the list node. *)
Definition ldo (a : Z) : M omem olist_data :=
  fun w => match odata w !! a with Some d => Ret d w | None => Fault (bad_pointer a) end.

Definition sto (a : Z) (d : olist_data) : M omem unit :=
  _ <- ldo a ;; modify (fun w => mk_omem (olinks w) (<[a := d]> (odata w))).

(** [head->cmp_cb(itr->key, key)] *)
Definition cmp_node (head key itr : Z) : M omem Z :=
  h <- ldo head ;; d <- ldo itr ;; ret (cmp_cb h (okey d) key).

Definition olist_init (olist : Z) (cb : Z -> Z -> Z) : M omem unit :=
  zoom (set_next olist olist) ;;
  zoom (set_prev olist olist) ;;
  d <- ldo olist ;; sto olist (mk_olist_data (okey d) cb).

Definition olist_is_empty (olist : Z) : M omem bool := zoom (list_is_empty olist).

Definition olist_for_each (head : Z) (leave : Z -> M omem bool) : M omem (option Z) :=
  list_for_each head leave.

Definition olist_add (head item key : Z) : M omem unit :=
  h <- ldo head ;;
  d <- ldo item ;;
  sto item (mk_olist_data (okey d) (cmp_cb h)) ;;
  d <- ldo item ;;
  sto item (mk_olist_data key (cmp_cb d)) ;;
  found <- olist_for_each head (fun itr => c <- cmp_node head key itr ;; ret (negb (c <? 0))) ;;
  match found with
  | Some itr => p <- zoom (get_prev itr) ;; zoom (list_add_first p item)
  | None => zoom (list_add_last head item)
  end.

(** The loop stops at the first key that is not smaller; it is the result when
    the keys are equal. *)
Definition olist_find (head key : Z) : M omem (option Z) :=
  found <- olist_for_each head (fun itr => c <- cmp_node head key itr ;; ret (negb (c <? 0))) ;;
  match found with
  | Some itr => c <- cmp_node head key itr ;; ret (if c =? 0 then Some itr else None)
  | None => ret None
  end.

Definition olist_del (item : Z) : M omem unit := zoom (list_del item).

Definition olist_del_by_key (head key : Z) : M omem (option Z) :=
  item <- olist_find head key ;;
  match item with
  | Some i => olist_del i ;; ret (Some i)
  | None => ret None
  end.

(** ** Ordered lists of nodes *)

(** What a comparison callback has to be: the sign of a total preorder. *)
Class CmpOrder (cmp : Z -> Z -> Z) : Prop := {
  cmp_flip a b : cmp a b < 0 <-> 0 < cmp b a;
  cmp_trans a b c : cmp a b <= 0 -> cmp b c <= 0 -> cmp a c <= 0;
}.

(** Insertion before the first key that is not smaller. *)
Fixpoint insert_by (smaller : Z -> bool) (x : Z) (l : list Z) : list Z :=
  match l with
  | [] => [x]
  | a :: l' => if smaller a then a :: insert_by smaller x l' else x :: l
  end.

Lemma insert_by_split smaller x l :
  exists l1 l2, l = l1 ++ l2 /\ insert_by smaller x l = l1 ++ x :: l2 /\
    Forall (fun a => smaller a = true) l1 /\
    List.find (fun a => negb (smaller a)) l = head l2.
Proof.
  induction l as [|a l (l1 & l2 & -> & E & F & HF)]; simpl; [by exists [], []|].
  destruct (smaller a) eqn:Ea; simpl.
  - exists (a :: l1), l2. simpl. rewrite E. split_and!; try done. by constructor.
  - exists [], (a :: l1 ++ l2). by split_and!.
Qed.

(** The ordered list [h] holds the nodes [l], whose keys are [K]. *)
Record olist (cmp : Z -> Z -> Z) (w : omem) (h : Z) (l : list Z) (K : Z -> Z) : Prop := {
  olist_dlist : dlist (olinks w) h l;
  olist_cmp : exists k, odata w !! h = Some (mk_olist_data k cmp);
  olist_keys : forall a, a ∈ l -> exists c, odata w !! a = Some (mk_olist_data (K a) c);
  olist_sorted : StronglySorted (fun a b => cmp (K a) (K b) <= 0) l;
}.

Section Proofs.
Context (cmp : Z -> Z -> Z) `{!CmpOrder cmp}.

Lemma cmp_refl a : cmp a a = 0.
Proof. pose proof (cmp_flip a a). lia. Qed.

Lemma cmp_node_spec w h l K key a :
  olist cmp w h l K -> a ∈ l -> cmp_node h key a w = Ret (cmp (K a) key) w.
Proof.
  intros [_ [k Hh] HK _] Ha. destruct (HK a Ha) as [c Hc].
  unfold cmp_node, bind, ldo. by rewrite Hh, Hc.
Qed.

(** The loop both operations share. *)
Lemma olist_scan_spec w h l K key :
  olist cmp w h l K ->
  olist_for_each h (fun itr => c <- cmp_node h key itr ;; ret (negb (c <? 0))) w
  = Ret (List.find (fun a => negb (cmp (K a) key <? 0)) l) w.
Proof.
  intros Ho. apply list_for_each_spec; [apply Ho|]. intros a Ha.
  unfold bind. by erewrite cmp_node_spec.
Qed.

Lemma insert_by_sorted K x l :
  StronglySorted (fun a b => cmp (K a) (K b) <= 0) l ->
  StronglySorted (fun a b => cmp (K a) (K b) <= 0)
                 (insert_by (fun a => cmp (K a) (K x) <? 0) x l).
Proof.
  induction 1 as [|a l Hs IH Ha]; simpl; [repeat constructor|].
  destruct (cmp (K a) (K x) <? 0) eqn:E; bool_hyps.
  - constructor; [done|].
    destruct (insert_by_split (fun a => cmp (K a) (K x) <? 0) x l) as (l1 & l2 & -> & -> & _).
    rewrite Forall_app, Forall_cons in *. naive_solver lia.
  - assert (cmp (K x) (K a) <= 0) by (pose proof (cmp_flip (K x) (K a)); pose proof (cmp_flip (K a) (K x)); lia).
    constructor; [by constructor|]. constructor; [done|].
    eapply Forall_impl; [exact Ha|]. simpl. eauto using cmp_trans.
Qed.

(** The successor of a node's predecessor is the node. *)
Lemma dlist_pred_succ m h l1 a l2 :
  dlist m h (l1 ++ a :: l2) -> exists p, prv m a = Some p /\ nxt m p = Some a.
Proof.
  intros Hd. destruct (dlist_cut _ _ _ _ Hd) as (A & p & q & B & _ & EB & Eq & _ & [L1 L2] & _).
  simpl in Eq. subst q. eauto.
Qed.

Definition set_key (K : Z -> Z) (item key : Z) : Z -> Z :=
  fun a => if decide (a = item) then key else K a.

Lemma sto_spec w a d (Q : unit -> omem -> Prop) :
  is_Some (odata w !! a) -> Q tt (mk_omem (olinks w) (<[a := d]> (odata w))) ->
  wp (sto a d) Q w.
Proof. intros [d' E] HQ. unfold wp, sto, bind, ldo. by rewrite E. Qed.

Lemma ldo_spec w a d (Q : olist_data -> omem -> Prop) :
  odata w !! a = Some d -> Q d w -> wp (ldo a) Q w.
Proof. intros E HQ. unfold wp, ldo. by rewrite E. Qed.

Lemma set_key_other K item key (l : list Z) a : item ∉ l -> a ∈ l -> set_key K item key a = K a.
Proof. intros Hn Ha. unfold set_key. rewrite decide_False; [done|congruence]. Qed.

Lemma insert_by_ext f g x l :
  (forall a, a ∈ l -> f a = g a) -> insert_by f x l = insert_by g x l.
Proof.
  induction l as [|a l IH]; simpl; intros H; [done|].
  rewrite H by set_solver. destruct (g a); [|done]. rewrite IH; [done|set_solver].
Qed.

Lemma StronglySorted_ext (R S : Z -> Z -> Prop) l :
  (forall a b, a ∈ l -> b ∈ l -> R a b -> S a b) -> StronglySorted R l -> StronglySorted S l.
Proof.
  intros H. induction 1 as [|a l Hs IH Ha]; constructor.
  - apply IH. set_solver.
  - rewrite Forall_forall in *. intros b Hb. apply H; set_solver.
Qed.

(** Linking a node whose fields are set, at the place of its key. *)
Lemma olist_inserted w h l K item key m' :
  olist cmp w h l K -> item ∉ h :: l -> odata w !! item = Some (mk_olist_data key cmp) ->
  dlist m' h (insert_by (fun a => cmp (K a) key <? 0) item l) ->
  olist cmp (mk_omem m' (odata w)) h (insert_by (fun a => cmp (K a) key <? 0) item l)
        (set_key K item key).
Proof.
  intros [_ Hh HK Hs] Hn Hi Hd. split; [done..| |].
  - intros a Ha. unfold set_key. case_decide as E; [subst; eauto|].
    destruct (insert_by_split (fun a => cmp (K a) key <? 0) item l) as (l1 & l2 & -> & EI & _).
    rewrite EI in Ha. apply HK. set_solver.
  - rewrite (insert_by_ext _ (fun a => cmp (set_key K item key a) (set_key K item key item) <? 0)).
    + apply insert_by_sorted. eapply StronglySorted_ext; [|exact Hs]. simpl. intros a b Ha Hb.
      rewrite !(set_key_other _ _ _ l); [done|set_solver..].
    + intros a Ha. rewrite (set_key_other K item key l a); [|set_solver|done].
      unfold set_key. by rewrite decide_True.
Qed.

(** The loop and the insertion of [olist_add], after the fields are written. *)
Lemma olist_link_wp w h l K item key :
  olist cmp w h l K -> is_Some (olinks w !! item) ->
  odata w !! item = Some (mk_olist_data key cmp) -> item ∉ h :: l ->
  wp (found <- olist_for_each h (fun itr => c <- cmp_node h key itr ;; ret (negb (c <? 0))) ;;
      match found with
      | Some itr => p <- zoom (get_prev itr) ;; zoom (list_add_first p item)
      | None => zoom (list_add_last h item)
      end)
     (fun _ w' => olist cmp w' h (insert_by (fun a => cmp (K a) key <? 0) item l)
                        (set_key K item key)) w.
Proof.
  intros Ho Hi Hkey Hn. pose proof (olist_inserted w h l K item key) as Hfin.
  apply wp_bind. unfold wp at 1. rewrite (olist_scan_spec _ _ _ _ _ Ho).
  destruct (insert_by_split (fun a => cmp (K a) key <? 0) item l) as (l1 & l2 & El & EI & Hsm & ->).
  rewrite EI in *. pose proof (olist_dlist _ _ _ _ _ Ho) as Hl. rewrite El in Hl. pose proof Hn as Hn'. rewrite El in Hn'.
  destruct l2 as [|a l2]; simpl.
  - apply wp_zoom. apply (list_add_dlist _ h l1 []); simpl; auto.
  - apply wp_bind, wp_zoom. destruct (dlist_pred_succ _ _ _ _ _ Hl) as (p & P1 & P2).
    eapply wp_get_prev; [exact P1|]. apply wp_zoom, wp_bind. rewrite put_same.
    eapply wp_get_next; [exact P2|].
    apply (list_add_dlist _ h l1 (a :: l2)); simpl; auto.
Qed.

Lemma olist_add_wp w h l K item key :
  olist cmp w h l K -> is_Some (olinks w !! item) -> is_Some (odata w !! item) ->
  item ∉ h :: l ->
  wp (olist_add h item key)
     (fun _ w' => olist cmp w' h (insert_by (fun a => cmp (K a) key <? 0) item l)
                        (set_key K item key)) w.
Proof.
  intros [Hl [k Hh] HK Hs] Hi [d Hd] Hn. assert (Hne : item <> h) by set_solver.
  unfold olist_add. apply wp_bind. eapply ldo_spec; [done|].
  apply wp_bind. eapply ldo_spec; [done|].
  apply wp_bind. apply sto_spec; [done|].
  apply wp_bind. eapply ldo_spec; [apply lookup_insert_eq|].
  apply wp_bind. apply sto_spec; [simpl; rewrite lookup_insert_eq; done|].
  simpl. rewrite insert_insert_eq. apply olist_link_wp; [|done|apply lookup_insert_eq|done].
  split; [done| |intros a Ha|done]; simpl; rewrite lookup_insert_ne; [eauto|done|auto|set_solver].
Qed.

(** In an ordered list the first key that is not smaller decides. *)
Lemma sorted_find (K : Z -> Z) key (l : list Z) :
  StronglySorted (fun a b => cmp (K a) (K b) <= 0) l ->
  match List.find (fun a => negb (cmp (K a) key <? 0)) l with
  | Some a => if cmp (K a) key =? 0 then Some a else None
  | None => None
  end = List.find (fun a => cmp (K a) key =? 0) l.
Proof.
  induction 1 as [|a l Hs IH Ha]; simpl; [done|].
  destruct (cmp (K a) key <? 0) eqn:E; bool_hyps; simpl.
  - destruct (cmp (K a) key =? 0) eqn:E0; bool_hyps; [lia|done].
  - destruct (cmp (K a) key =? 0) eqn:E0; bool_hyps; [done|].
    symmetry. apply find_none_all. eapply Forall_impl; [exact Ha|]. simpl. intros b Hab.
    apply Z.eqb_neq. intros Hb. pose proof (cmp_trans (K a) (K b) key Hab). lia.
Qed.

Lemma olist_find_spec w h l K key :
  olist cmp w h l K -> olist_find h key w = Ret (List.find (fun a => cmp (K a) key =? 0) l) w.
Proof.
  intros Ho. unfold olist_find, bind at 1. rewrite (olist_scan_spec _ _ _ _ _ Ho).
  rewrite <-(sorted_find K key l) by apply Ho.
  destruct (List.find _ l) as [a|] eqn:E; [|done].
  apply find_some in E as [Ha _]. apply list_elem_of_In in Ha.
  unfold bind. by erewrite cmp_node_spec.
Qed.

Lemma StronglySorted_middle (R : Z -> Z -> Prop) l1 a l2 :
  StronglySorted R (l1 ++ a :: l2) -> StronglySorted R (l1 ++ l2).
Proof.
  induction l1 as [|b l1 IH]; simpl; intros H; apply StronglySorted_inv in H as [H1 H2]; [done|].
  constructor; [auto|]. rewrite Forall_app, Forall_cons in *. tauto.
Qed.

Lemma olist_del_spec w h l1 a l2 K :
  olist cmp w h (l1 ++ a :: l2) K -> wp (olist_del a) (fun _ w' => olist cmp w' h (l1 ++ l2) K) w.
Proof.
  intros [Hl Hh HK Hs]. apply wp_zoom. eapply list_del_dlist; [exact Hl|].
  intros m' Hd _ _. split; [done..| |eauto using StronglySorted_middle].
  intros b Hb. apply HK. set_solver.
Qed.
End Proofs.

(** Under a comparison callback that is the sign of a total preorder,
    [olist_add] inserts the item before the first item whose key is not smaller
    and keeps the list ordered; [olist_find] returns the first item with an equal
    key and NULL exactly when there is none; [olist_del_by_key] removes that item
    and no other. *)
Theorem olist_spec (cmp : Z -> Z -> Z) (w : omem) (h : Z) (l : list Z) (K : Z -> Z) (item key : Z) :
  CmpOrder cmp -> olist cmp w h l K ->
  (is_Some (olinks w !! item) -> is_Some (odata w !! item) -> item ∉ h :: l ->
   wp (olist_add h item key)
      (fun _ w' => olist cmp w' h (insert_by (fun a => cmp (K a) key <? 0) item l)
                         (set_key K item key)) w) /\
  olist_find h key w = Ret (List.find (fun a => cmp (K a) key =? 0) l) w /\
  wp (olist_del_by_key h key)
     (fun r w' =>
        match r with
        | Some a => exists l1 l2, l = l1 ++ a :: l2 /\ cmp (K a) key = 0 /\
                      Forall (fun b => cmp (K b) key <> 0) l1 /\ olist cmp w' h (l1 ++ l2) K
        | None => w' = w /\ Forall (fun b => cmp (K b) key <> 0) l
        end) w.
Proof.
  intros Hc Ho. split; [by apply olist_add_wp|]. split; [by apply olist_find_spec|].
  unfold olist_del_by_key. apply wp_bind. unfold wp at 1. rewrite (olist_find_spec cmp w h l K key Ho).
  destruct (List.find _ l) as [a|] eqn:E.
  - apply find_split in E as (l1 & l2 & -> & F & Ha). apply wp_bind.
    eapply wp_mono; [|apply (olist_del_spec cmp), Ho]. simpl. intros u w' Hw'. apply wp_ret.
    exists l1, l2. split_and!; [done|by apply Z.eqb_eq| |done].
    eapply Forall_impl; [exact F|]. intros b. apply Z.eqb_neq.
  - split; [done|]. apply Forall_forall. intros b Hb%list_elem_of_In.
    pose proof (find_none _ _ E b Hb) as Hz. by apply Z.eqb_neq.
Qed.

(** Integers in the order of their values. *)
#[export] Instance sub_order : CmpOrder (fun a b => a - b).
Proof. split; lia. Qed.

Definition demo_omem : omem :=
  mk_omem demo_links
    (list_to_map [(8, mk_olist_data 0 (fun a b => a - b)); (1, mk_olist_data 10 (fun a b => a - b));
                  (2, mk_olist_data 20 (fun a b => a - b)); (3, mk_olist_data 30 (fun a b => a - b));
                  (5, mk_olist_data 0 (fun a b => a - b))]).

Lemma demo_olist : olist (fun a b => a - b) demo_omem 8 [1; 2; 3] (fun a => 10 * a).
Proof.
  split; [exact demo_links_dlist|by eexists| |].
  - intros a Ha. repeat (apply elem_of_cons in Ha as [->|Ha]; [by eexists|]). set_solver.
  - repeat (apply SSorted_cons || apply SSorted_nil || apply Forall_cons_2 || apply Forall_nil_2);
      lia.
Qed.

Lemma olist_spec_witness :
  wp (olist_add 8 5 20)
     (fun _ w' => olist (fun a b => a - b) w' 8 [1; 5; 2; 3] (set_key (fun a => 10 * a) 5 20)) demo_omem.
Proof.
  refine (proj1 (olist_spec _ _ _ _ _ 5 20 sub_order demo_olist) _ _ _).
  - vm_compute. eauto.
  - vm_compute. eauto.
  - apply (bool_decide_unpack _). vm_compute. exact I.
Defined.
