(* ===== verification/LoopWorld.v ===== *)
(** * The memory and the kernel objects of the event loop

    The state the sources of [libs/libeloop/src] share: the structs on the heap,
    the pipe of the syncer, the epoll set, and the answers of the system calls.
    A struct with a list node has it in [lmem] under the struct's address, which
    is what the casts of the code between a node and its struct amount to. *)

From stdpp Require Import base gmap list.
From S2P Require Import Prelude CMonad Dll.
Open Scope Z_scope.

(** ** Data *)

(** The values of type [task_cb_t]: the two callbacks of the library and the
    callbacks of its clients. *)
Inductive task_cb_t := fd_handler_sync_event_cb | schd_timer_sync_handler_cb | User_cb (f : Z).

#[export] Instance task_cb_t_eq_dec : EqDecision task_cb_t.
Proof. solve_decision. Defined.

Record task := mk_task { t_cb : task_cb_t; t_ctx : Z; t_id : Z }.

#[export] Instance task_eq_dec : EqDecision task.
Proof. solve_decision. Defined.

(** [struct request]: the type selects the member of the union. *)
Inductive request :=
| REQUEST_TYPE_ADD_TASK (t : task)
| REQUEST_TYPE_CANCEL_TASK (id : Z)
| REQUEST_TYPE_OTHER (type : Z).

(** The structs of the library, without their list nodes. *)
Inductive obj :=
| Uninit                                             (* fresh from malloc *)
| Task (t : task)
| TasksQueue (len : Z)
| Syncer (tasks comm_read comm_write : Z) (stop : bool)
| FdData (fd cb ctx : Z)
| FdHandler (syncer poll_fd max_events events_buffer : Z)
| EventsBuffer
| EventSyncCtx (fd_data event_mask : Z)
| SchdTimer (timeout_ms period_ms cb ctx : Z) (syncer : Z)
| Scheduler (syncer : Z).

(** What a descriptor is: an end of a pipe, an epoll set, or not the loop's. *)
Inductive fdesc := PipeRead (p : Z) | PipeWrite (p : Z) | EpollSet | OtherFd.

(** What the loop did that others observe. *)
Inductive levent :=
| Accepted (r : request)     (* a request entered the pipe *)
| Ran (t : task)             (* the callback of a task was called *)
| Dropped (t : task)         (* no memory for a task read from the pipe *)
| LostEvent (fd_data mask : Z)   (* an event of a descriptor was given up *)
| TimerSet (timer : Z) (armed : bool).

(** ** The operating system *)

(** Answers of the system calls, from a state [X] of the outside world.
    [os_malloc] gets the live blocks, [os_pipe2] and [os_epoll_create] the open
    descriptors; [os_epoll_wait] reports descriptors of the
    set with their events, at most as many as the caller's buffer holds. *)
Class LoopEnv (X : Type) := {
  os_malloc : gset Z -> X -> option (Z * list_head) * X;
  os_pipe2 : gset Z -> X -> option (Z * Z) * X;
  os_epoll_create : gset Z -> X -> Z * X;
  os_epoll_add : Z -> X -> Z * X;
  os_epoll_wait : gset Z -> X -> list (Z * Z) * X;
  os_timer_create : X -> Z * X;
  os_timer_settime : Z -> X -> Z * X;
  os_timer_delete : Z -> X -> Z * X;
  os_attr_init : X -> Z * X;
  os_attr_setdetach : X -> Z * X;
  os_attr_destroy : Z -> X -> Z * X;
  pipe_capacity : nat;       (* requests that fit in a pipe *)
}.

(** malloc returns a block that is not in use, and fails long before 2^32 blocks
    are. *)
Class MallocFresh (X : Type) `{!LoopEnv X} : Prop :=
  malloc_fresh S x a n x' : os_malloc S x = (Some (a, n), x') ->
    a ∉ S /\ a <> 0 /\ Z.of_nat (size S) + 1 < 2 ^ 32.

(** A new descriptor is one that is not open. *)
Class FdFresh (X : Type) `{!LoopEnv X} : Prop := {
  pipe2_fresh S x rd wr x' : os_pipe2 S x = (Some (rd, wr), x') -> rd ∉ S /\ wr ∉ S /\ rd <> wr;
  epoll_create_fresh S x p x' : os_epoll_create S x = (p, x') -> 0 <= p -> p ∉ S;
}.

(** The variable [eloop_ctx] of [eloop.c]. *)
Record eloop_ctx_t := mk_eloop_ctx {
  ec_syncer : Z; ec_scheduler : Z; ec_fd_handler : Z; ec_running : bool;
}.

Record loop (X : Type) := mk_loop {
  lmem : links;
  objs : gmap Z obj;
  fdtab : gmap Z fdesc;
  pipes : gmap Z (list request);
  epoll : gmap (Z * Z) Z;        (* (set, descriptor) -> data.ptr *)
  eloop_ctx : eloop_ctx_t;
  ltrace : list levent;
  lenv : X;
}.
Arguments mk_loop {X}.
Arguments lmem {X}.
Arguments objs {X}.
Arguments fdtab {X}.
Arguments pipes {X}.
Arguments epoll {X}.
Arguments eloop_ctx {X}.
Arguments ltrace {X}.
Arguments lenv {X}.

Section World.
Context {X : Type} `{!LoopEnv X}.
Local Notation W := (loop X).

Definition set_lmem m (w : W) : W := mk_loop m (objs w) (fdtab w) (pipes w) (epoll w) (eloop_ctx w) (ltrace w) (lenv w).
Definition set_objs o (w : W) : W := mk_loop (lmem w) o (fdtab w) (pipes w) (epoll w) (eloop_ctx w) (ltrace w) (lenv w).
Definition set_fdtab f (w : W) : W := mk_loop (lmem w) (objs w) f (pipes w) (epoll w) (eloop_ctx w) (ltrace w) (lenv w).
Definition set_pipes p (w : W) : W := mk_loop (lmem w) (objs w) (fdtab w) p (epoll w) (eloop_ctx w) (ltrace w) (lenv w).
Definition set_epoll e (w : W) : W := mk_loop (lmem w) (objs w) (fdtab w) (pipes w) e (eloop_ctx w) (ltrace w) (lenv w).
Definition set_ltrace t (w : W) : W := mk_loop (lmem w) (objs w) (fdtab w) (pipes w) (epoll w) (eloop_ctx w) t (lenv w).
Definition set_ctx c (w : W) : W := mk_loop (lmem w) (objs w) (fdtab w) (pipes w) (epoll w) c (ltrace w) (lenv w).
Definition set_lenv x (w : W) : W := mk_loop (lmem w) (objs w) (fdtab w) (pipes w) (epoll w) (eloop_ctx w) (ltrace w) x.

#[export] Program Instance loop_lens : Lens W links :=
  {| view_of := lmem; put_view := set_lmem |}.
Solve All Obligations with by intros [].

Definition emit (e : levent) : M W unit := modify (fun w => set_ltrace (ltrace w ++ [e]) w).

(** A system call that only answers. *)
Definition os_call {A} (f : X -> A * X) : M W A :=
  fun w => let '(a, x) := f (lenv w) in Ret a (set_lenv x w).

(** ** Heap *)

(** [malloc], NULL when memory is short. *)
Definition malloc : M W Z :=
  r <- (fun w => os_call (os_malloc (dom (objs w))) w) ;;
  match r with
  | Some (a, n) =>
      modify (fun w => set_objs (<[a := Uninit]> (objs w)) (set_lmem (<[a := n]> (lmem w)) w)) ;;
      ret a
  | None => ret 0
  end.

Definition ldobj (a : Z) : M W obj :=
  fun w => match objs w !! a with Some o => Ret o w | None => Fault (bad_pointer a) end.

(** The writes of the fields of a struct. *)
Definition stobj (a : Z) (o : obj) : M W unit :=
  _ <- ldobj a ;; modify (fun w => set_objs (<[a := o]> (objs w)) w).

Definition free (a : Z) : M W unit :=
  if a =? 0 then ret tt
  else
    _ <- ldobj a ;;
    modify (fun w => set_objs (delete a (objs w)) (set_lmem (delete a (lmem w)) w)).

(** Typed reads. *)
Definition ld_task (a : Z) : M W task :=
  o <- ldobj a ;; match o with Task t => ret t | _ => stop UninitRead end.

Definition ld_queue (a : Z) : M W Z :=
  o <- ldobj a ;; match o with TasksQueue n => ret n | _ => stop UninitRead end.

Definition ld_syncer (a : Z) : M W (Z * Z * Z * bool) :=
  o <- ldobj a ;; match o with Syncer t r p b => ret (t, r, p, b) | _ => stop UninitRead end.

Definition ld_fd_data (a : Z) : M W (Z * Z * Z) :=
  o <- ldobj a ;; match o with FdData fd cb ctx => ret (fd, cb, ctx) | _ => stop UninitRead end.

Definition ld_handler (a : Z) : M W (Z * Z * Z * Z) :=
  o <- ldobj a ;; match o with FdHandler s p n b => ret (s, p, n, b) | _ => stop UninitRead end.

Definition ld_event_ctx (a : Z) : M W (Z * Z) :=
  o <- ldobj a ;; match o with EventSyncCtx d e => ret (d, e) | _ => stop UninitRead end.

Definition ld_timer (a : Z) : M W (Z * Z * Z * Z * Z) :=
  o <- ldobj a ;; match o with SchdTimer e p cb ctx s => ret (e, p, cb, ctx, s) | _ => stop UninitRead end.

Definition ld_scheduler (a : Z) : M W Z :=
  o <- ldobj a ;; match o with Scheduler s => ret s | _ => stop UninitRead end.

(** ** Pipe *)

(** [sizeof(struct request)] on a 64-bit target; at most PIPE_BUF, so a write is
    all or nothing. *)
Definition sizeof_request : Z := 32.

(** [pipe2(comm, O_NONBLOCK)] *)
Definition pipe2 : M W (option (Z * Z)) :=
  r <- (fun w => os_call (os_pipe2 (dom (fdtab w))) w) ;;
  match r with
  | Some (rd, wr) =>
      modify (fun w => set_pipes (<[rd := []]> (pipes w))
                      (set_fdtab (<[wr := PipeWrite rd]> (<[rd := PipeRead rd]> (fdtab w))) w)) ;;
      ret (Some (rd, wr))
  | None => ret None
  end.

(** A whole request, or -1 when the pipe is full or the descriptor is not one. *)
Definition write_request (fd : Z) (r : request) : M W Z :=
  fun w =>
    match fdtab w !! fd with
    | Some (PipeWrite p) =>
        match pipes w !! p with
        | Some q =>
            if (length q <? pipe_capacity)%nat
            then Ret sizeof_request
                   (set_ltrace (ltrace w ++ [Accepted r]) (set_pipes (<[p := q ++ [r]]> (pipes w)) w))
            else Ret (-1) w
        | None => Ret (-1) w
        end
    | _ => Ret (-1) w
    end.

(** The oldest request, or nothing (EAGAIN). *)
Definition read_request (fd : Z) : M W (option request) :=
  fun w =>
    match fdtab w !! fd with
    | Some (PipeRead p) =>
        match pipes w !! p with
        | Some (r :: q) => Ret (Some r) (set_pipes (<[p := q]> (pipes w)) w)
        | _ => Ret None w
        end
    | _ => Ret None w
    end.

Definition close (fd : Z) : M W unit :=
  modify (fun w =>
    set_fdtab (delete fd (fdtab w))
      (match fdtab w !! fd with
       | Some (PipeRead p) => set_pipes (delete p (pipes w)) w
       | _ => w
       end)).
End World.

(** ** Rules of the heap *)

Section HeapRules.
Context {X : Type} `{!LoopEnv X} `{!MallocFresh X}.
Local Notation W := (loop X).

Lemma wp_malloc (w : W) (Q : Z -> W -> Prop) :
  (forall x, Q 0 (set_lenv x w)) ->
  (forall a n x, a <> 0 -> objs w !! a = None -> Z.of_nat (size (dom (objs w))) + 1 < 2 ^ 32 ->
     Q a (set_lenv x (set_objs (<[a := Uninit]> (objs w)) (set_lmem (<[a := n]> (lmem w)) w)))) ->
  wp malloc Q w.
Proof.
  intros H0 Ha. unfold wp, malloc, bind, os_call.
  destruct (os_malloc (dom (objs w)) (lenv w)) as [[[a n]|] x] eqn:E; simpl; [|apply H0].
  apply malloc_fresh in E as (E1 & E2 & E3). apply (Ha a n x E2); [by apply not_elem_of_dom|done].
Qed.

Lemma wp_ldobj (w : W) a o (Q : obj -> W -> Prop) :
  objs w !! a = Some o -> Q o w -> wp (ldobj a) Q w.
Proof. intros E HQ. unfold wp, ldobj. by rewrite E. Qed.

Lemma wp_stobj (w : W) a o (Q : unit -> W -> Prop) :
  is_Some (objs w !! a) -> Q tt (set_objs (<[a := o]> (objs w)) w) -> wp (stobj a o) Q w.
Proof. intros [o' E] HQ. unfold wp, stobj, bind, ldobj. by rewrite E. Qed.

Lemma wp_free (w : W) a (Q : unit -> W -> Prop) :
  a <> 0 -> is_Some (objs w !! a) ->
  Q tt (set_objs (delete a (objs w)) (set_lmem (delete a (lmem w)) w)) -> wp (free a) Q w.
Proof.
  intros Ha [o E] HQ. unfold wp, free. apply Z.eqb_neq in Ha. rewrite Ha.
  unfold bind, ldobj. by rewrite E.
Qed.

Lemma ld_task_eq (w : W) a t : objs w !! a = Some (Task t) -> ld_task a w = Ret t w.
Proof. intros E. unfold ld_task, bind, ldobj. by rewrite E. Qed.

Lemma ld_queue_eq (w : W) a n : objs w !! a = Some (TasksQueue n) -> ld_queue a w = Ret n w.
Proof. intros E. unfold ld_queue, bind, ldobj. by rewrite E. Qed.
End HeapRules.

(** ** A concrete operating system *)

(** Blocks are numbered upwards and memory never runs short before [os_limit];
    the events each call of epoll_wait reports are given. *)
Record demo_os := mk_demo_os { os_next : Z; os_limit : Z; os_events : list (list (Z * Z)) }.

#[export] Instance demo_loop_env : LoopEnv demo_os := {|
  os_malloc S x :=
    let a := os_next x in
    (if bool_decide (a ∈ S \/ a = 0 \/ os_limit x <= a \/ 2 ^ 32 <= Z.of_nat (size S) + 1) then None else Some (a, mk_list_head 77 77),
     mk_demo_os (a + 1) (os_limit x) (os_events x));
  os_pipe2 S x := (if bool_decide (11 ∈ S \/ 12 ∈ S) then None else Some (11, 12), x);
  os_epoll_create S x := (if bool_decide (13 ∈ S) then -1 else 13, x);
  os_epoll_add fd x := (0, x);
  os_epoll_wait S x :=
    (List.filter (fun p => bool_decide (fst p ∈ S)) (List.hd [] (os_events x)),
     mk_demo_os (os_next x) (os_limit x) (List.tl (os_events x)));
  os_timer_create x := (0, x);
  os_timer_settime t x := (0, x);
  os_timer_delete t x := (0, x);
  os_attr_init x := (0, x);
  os_attr_setdetach x := (0, x);
  os_attr_destroy t x := (0, x);
  pipe_capacity := 2048%nat;
|}.

#[export] Instance demo_malloc_fresh : MallocFresh demo_os.
Proof.
  intros S x a n x' E. simpl in E. case_bool_decide as H; simplify_eq.
  split; [|split]; [intros Ha; apply H; auto..|].
  apply Z.lt_nge. intros Ha. apply H. auto.
Qed.

#[export] Instance demo_fd_fresh : FdFresh demo_os.
Proof.
  split.
  - intros S x rd wr x' E. simpl in E. case_bool_decide as H; simplify_eq.
    split_and!; [intros Ha; apply H; auto..|done].
  - intros S x p x' E Hp. simpl in E. case_bool_decide as H; simplify_eq; [lia|done].
Qed.

Definition demo_loop (limit : Z) (evs : list (list (Z * Z))) : loop demo_os :=
  mk_loop ∅ ∅ ∅ ∅ ∅ (mk_eloop_ctx 0 0 0 false) [] (mk_demo_os 1 limit evs).
