(* ===== verification/TaskQueue.v ===== *)
(** * The queue of tasks

    [libs/libeloop/src/tasks_queue.c]: a linked list of heap-allocated tasks with
    a length.  [is_queue w qp q] says that the queue at [qp] holds the tasks [q]
    in order; every operation is a list operation under it. *)

From stdpp Require Import base gmap list.
From S2P Require Import Prelude CMonad Dll LoopWorld.
Open Scope Z_scope.

Section TasksQueue.
Context {X : Type} `{!LoopEnv X}.
Local Notation W := (loop X).

(** The call through a [task_cb_t]. *)
Context (call : task_cb_t -> Z -> M W unit).

Definition _execute_task (a : Z) : M W unit :=
  t <- ld_task a ;;
  emit (Ran t) ;;
  call (t_cb t) (t_ctx t).

Definition task_new (cb : task_cb_t) (ctx task_id : Z) : M W Z :=
  new_task <- malloc ;;
  if new_task =? 0 then ret 0
  else
    zoom (list_init new_task) ;;
    stobj new_task (Task (mk_task cb ctx task_id)) ;;
    ret new_task.

Definition task_delete (rem_task : Z) : M W unit :=
  zoom (list_del rem_task) ;;
  free rem_task.

Definition tasks_queue_new : M W Z :=
  queue <- malloc ;;
  if queue =? 0 then ret 0
  else
    zoom (list_init queue) ;;
    stobj queue (TasksQueue 0) ;;
    ret queue.

(** [queue->len += d] *)
Definition queue_len_add (queue d : Z) : M W unit :=
  n <- ld_queue queue ;; stobj queue (TasksQueue (wrapu32 (n + d))).

Definition tasks_queue_delete (queue : Z) (execute_all : bool) : M W unit :=
  list_for_each_safe queue (fun item =>
    when execute_all (_execute_task item) ;;
    task_delete item ;;
    queue_len_add queue (-1)) ;;
  free queue.

Definition tasks_queue_add (queue : Z) (cb : task_cb_t) (ctx task_id : Z) : M W Z :=
  new_task <- task_new cb ctx task_id ;;
  if new_task =? 0 then ret (-1)
  else
    zoom (list_add_last queue new_task) ;;
    queue_len_add queue 1 ;;
    ret 0.

Definition task_find (queue id : Z) : M W (option Z) :=
  list_for_each queue (fun itr => t <- ld_task itr ;; ret (t_id t =? id)).

Definition tasks_queue_remove (queue id : Z) : M W unit :=
  item <- task_find queue id ;;
  match item with
  | None => ret tt
  | Some item => task_delete item ;; queue_len_add queue (-1)
  end.

(** The callback runs while its task is still in the queue. *)
Definition tasks_queue_execute_next (queue : Z) : M W Z :=
  n <- ld_queue queue ;;
  if n =? 0 then ret 0
  else
    current_task <- zoom (get_next queue) ;;
    _execute_task current_task ;;
    t <- ld_task current_task ;;
    task_delete current_task ;;
    queue_len_add queue (-1) ;;
    ret (t_id t).

Definition tasks_queue_pending_tasks (queue : Z) : M W Z := ld_queue queue.
End TasksQueue.

(** ** The list of tasks a queue stands for *)

Section Repr.
Context {X : Type} `{!LoopEnv X}.
Local Notation W := (loop X).

Record is_queue_at (w : W) (qp : Z) (l : list Z) (q : list task) : Prop := {
  iq_dlist : dlist (lmem w) qp l;
  iq_len : objs w !! qp = Some (TasksQueue (Z.of_nat (length q)));
  iq_tasks : Forall2 (fun a t => objs w !! a = Some (Task t)) l q;
  iq_bound : Z.of_nat (length q) < 2 ^ 32;
  iq_nonnull : 0 ∉ qp :: l;
}.

Definition is_queue (w : W) (qp : Z) (q : list task) : Prop := exists l, is_queue_at w qp l q.

Definition is_queue_obj (o : obj) : bool :=
  match o with Task _ | TasksQueue _ => true | _ => false end.

(** The structs of some kinds, with their list nodes, are as before. *)
Definition preserves (P : obj -> bool) (w w' : W) : Prop :=
  forall b o, objs w !! b = Some o -> P o = true ->
              objs w' !! b = Some o /\ lmem w' !! b = lmem w !! b.

(** The kernel's side and the trace are as before. *)
Definition same_kernel (w w' : W) : Prop :=
  fdtab w' = fdtab w /\ pipes w' = pipes w /\ epoll w' = epoll w /\ ltrace w' = ltrace w /\
  eloop_ctx w' = eloop_ctx w.

(** The queue's operations leave the other structs and the kernel alone. *)
Definition queue_frame (w w' : W) : Prop :=
  preserves (fun o => negb (is_queue_obj o)) w w' /\ same_kernel w w'.

Lemma preserves_refl P w : preserves P w w.
Proof. by intros b o E HP. Qed.

Lemma preserves_trans P w1 w2 w3 : preserves P w1 w2 -> preserves P w2 w3 -> preserves P w1 w3.
Proof.
  intros H1 H2 b o E HP. destruct (H1 b o E HP) as [E2 L2].
  destruct (H2 b o E2 HP) as [E3 L3]. split; congruence.
Qed.

Lemma queue_frame_refl w : queue_frame w w.
Proof. split; [apply preserves_refl|]. by unfold same_kernel. Qed.

Lemma queue_frame_trans w1 w2 w3 : queue_frame w1 w2 -> queue_frame w2 w3 -> queue_frame w1 w3.
Proof.
  intros [P1 (? & ? & ? & ? & ?)] [P2 (? & ? & ? & ? & ?)]. split; [eauto using preserves_trans|].
  unfold same_kernel. split_and!; congruence.
Qed.

(** A queue only depends on its own structs. *)
Lemma is_queue_at_preserves w w' qp l q :
  preserves is_queue_obj w w' -> is_queue_at w qp l q -> is_queue_at w' qp l q.
Proof.
  intros HP [Hd Hn Ht Hb H0].
  assert (Hl : forall a, a ∈ qp :: l -> lmem w' !! a = lmem w !! a).
  { intros a [->|Ha]%elem_of_cons; [eapply HP; [exact Hn|done]|].
    apply list_elem_of_lookup in Ha as [i Hi].
    destruct (Forall2_lookup_l _ _ _ _ _ Ht Hi) as (t & _ & E). eapply HP; [exact E|done]. }
  split; [| |eapply Forall2_impl; [exact Ht|]|done|done].
  - eauto using dlist_ext.
  - eapply HP; [exact Hn|done].
  - intros a t E. eapply HP; [exact E|done].
Qed.

(** The nodes of a queue are its tasks, and the head is not one of them. *)
Lemma is_queue_at_task w qp l q a :
  is_queue_at w qp l q -> a ∈ l -> exists t, objs w !! a = Some (Task t).
Proof.
  intros Hq Ha. apply list_elem_of_lookup in Ha as [i Hi].
  destruct (Forall2_lookup_l _ _ _ _ _ (iq_tasks _ _ _ _ Hq) Hi) as (t & _ & E). eauto.
Qed.

Lemma is_queue_at_nodes w qp l q a :
  is_queue_at w qp l q -> a ∈ qp :: l -> exists o, objs w !! a = Some o /\ is_queue_obj o = true.
Proof.
  intros Hq [->|Ha]%elem_of_cons; [eexists; split; [apply Hq|done]|].
  destruct (is_queue_at_task _ _ _ _ _ Hq Ha) as [t E]. eauto.
Qed.

Lemma tasks_ext (o o' : gmap Z obj) l q :
  (forall a, a ∈ l -> o' !! a = o !! a) ->
  Forall2 (fun a t => o !! a = Some (Task t)) l q -> Forall2 (fun a t => o' !! a = Some (Task t)) l q.
Proof.
  intros H. induction 1 as [|a t l q E _ IH]; constructor.
  - rewrite H; [done|set_solver].
  - apply IH. set_solver.
Qed.

(** Its tasks and its head are as many live blocks. *)
Lemma is_queue_at_size w qp l q : is_queue_at w qp l q -> (S (length q) <= size (dom (objs w)))%nat.
Proof.
  intros Hq. rewrite <-(Forall2_length _ _ _ (iq_tasks _ _ _ _ Hq)).
  change (S (length l)) with (length (qp :: l)).
  rewrite <-(size_list_to_set (C := gset Z)) by apply (iq_dlist _ _ _ _ Hq).
  apply subseteq_size. intros a Ha. apply elem_of_list_to_set in Ha. apply elem_of_dom.
  destruct (is_queue_at_nodes _ _ _ _ _ Hq Ha) as (o & E & _). eauto.
Qed.

(** Writes to a fresh block, or to the nodes of the queue, are in its frame. *)
Lemma queue_frame_intro (w w' : W) (S : list Z) :
  (forall a, a ∉ S -> objs w' !! a = objs w !! a /\ lmem w' !! a = lmem w !! a) ->
  (forall a o, a ∈ S -> objs w !! a = Some o -> is_queue_obj o = true) ->
  same_kernel w w' -> queue_frame w w'.
Proof.
  intros H1 H2 Hk. split; [|done]. intros b o E Ho.
  destruct (decide (b ∈ S)) as [Hb|Hb].
  - rewrite (H2 b o Hb E) in Ho. done.
  - destruct (H1 b Hb) as [-> ->]. done.
Qed.

Lemma wp_queue_len_add w qp n d (Q : unit -> W -> Prop) :
  objs w !! qp = Some (TasksQueue n) ->
  Q tt (set_objs (<[qp := TasksQueue (wrapu32 (n + d))]> (objs w)) w) ->
  wp (queue_len_add qp d) Q w.
Proof.
  intros E HQ. apply wp_bind. eapply wp_eq; [by apply ld_queue_eq|].
  apply wp_stobj; [by rewrite E|done].
Qed.

Section Operations.
Context `{!MallocFresh X}.

(** A new struct whose list node is initialised: [task_new], [tasks_queue_new]. *)
Lemma new_node_spec w o (Q : Z -> W -> Prop) :
  (forall x, Q 0 (set_lenv x w)) ->
  (forall a w', a <> 0 -> objs w !! a = None -> objs w' = <[a := o]> (objs w) ->
     Z.of_nat (size (dom (objs w))) + 1 < 2 ^ 32 ->
     dlist (lmem w') a [] -> (forall b, b <> a -> lmem w' !! b = lmem w !! b) ->
     same_kernel w w' -> Q a w') ->
  wp (a <- malloc ;;
      if a =? 0 then ret 0 else zoom (list_init a) ;; stobj a o ;; ret a) Q w.
Proof.
  intros H0 HQ. apply wp_bind, wp_malloc; [intros x; apply H0|]. intros a n x Ha Hn Hsz.
  pose proof (proj2 (Z.eqb_neq a 0) Ha) as ->. apply wp_bind, wp_zoom. simpl.
  apply list_init_dlist; [rewrite lookup_insert_eq; eauto|]. intros m' Hd [_ Ht].
  apply wp_bind, wp_stobj; [simpl; rewrite lookup_insert_eq; eauto|]. apply wp_ret.
  apply HQ; try done; simpl.
  - by rewrite insert_insert_eq.
  - intros b Hb. rewrite Ht by set_solver. by apply lookup_insert_ne.
Qed.

(** A fresh address is not a node of the queue. *)
Lemma fresh_not_in_queue w qp l q a : is_queue_at w qp l q -> objs w !! a = None -> a ∉ qp :: l.
Proof. intros Hq Ha Hi. destruct (is_queue_at_nodes _ _ _ _ _ Hq Hi) as (o & E & _). congruence. Qed.

Lemma tasks_queue_add_wp w qp q cb ctx id :
  is_queue w qp q ->
  wp (tasks_queue_add qp cb ctx id)
     (fun r w' => queue_frame w w' /\
        (r = 0 /\ is_queue w' qp (q ++ [mk_task cb ctx id]) \/ r = -1 /\ is_queue w' qp q)) w.
Proof.
  intros (l & Hq). apply wp_bind, new_node_spec.
  - intros x. apply wp_ret. split; [|right; split; [done|by exists l; destruct Hq]].
    apply (queue_frame_intro _ _ []); [done|set_solver|done].
  - intros a w1 Ha Hn Ho Hsz Hd Hl Hk. pose proof (is_queue_at_size _ _ _ _ Hq) as Hb. pose proof (proj2 (Z.eqb_neq a 0) Ha) as ->.
    pose proof (fresh_not_in_queue _ _ _ _ _ Hq Hn) as Hni.
    pose proof Hq as [Hdl Hlen Ht Hbd H0].
    apply wp_bind, wp_zoom. change (list_add_last qp a) with (list_add (hd qp []) a).
    apply (list_add_dlist _ qp l []); rewrite ?app_nil_r.
    + eapply dlist_ext; [|exact Hdl]. intros b Hb'. apply Hl. congruence.
    + apply elem_of_dom. eapply dlist_dom; [exact Hd|]. set_solver.
    + done.
    + intros m2 Hd2 [_ Ht2]. apply wp_bind.
      assert (Hqa : qp <> a) by set_solver.
      eapply wp_queue_len_add; [simpl; rewrite Ho, lookup_insert_ne; done|]. apply wp_ret.
      split.
      * apply (queue_frame_intro _ _ (a :: qp :: l)).
        -- intros b Hb'. simpl. rewrite lookup_insert_ne, Ho, lookup_insert_ne by set_solver.
           rewrite Ht2 by done. split; [done|]. apply Hl. set_solver.
        -- intros b o [->|Hb']%elem_of_cons Eb; [congruence|].
           destruct (is_queue_at_nodes _ _ _ _ _ Hq Hb') as (o' & E' & ?). congruence.
        -- done.
      * left. split; [done|]. exists (l ++ [a]). split; simpl.
        -- done.
        -- rewrite lookup_insert_eq, length_app. do 2 f_equal. simpl.
           unfold wrapu32. rewrite Z.mod_small; lia.
        -- apply Forall2_app; [|constructor; [|done]].
           ++ eapply tasks_ext; [|exact Ht]. intros b Hb'.
              destruct Hdl as [[Hqp _]%NoDup_cons _].
              rewrite lookup_insert_ne, Ho, lookup_insert_ne; [done|set_solver..].
           ++ rewrite lookup_insert_ne, Ho, lookup_insert_eq; done.
        -- rewrite length_app; simpl; lia.
        -- set_solver.
Qed.

(** Unlinking a task: [task_delete] and the count. *)
Lemma unlink_task_wp w qp l1 a l2 q1 t q2 (Q : unit -> W -> Prop) :
  is_queue_at w qp (l1 ++ a :: l2) (q1 ++ t :: q2) -> length l1 = length q1 ->
  (forall w', is_queue_at w' qp (l1 ++ l2) (q1 ++ q2) -> queue_frame w w' ->
     objs w' !! a = None -> (forall b, b <> a -> b <> qp -> objs w' !! b = objs w !! b) ->
     (forall b, b ∉ a :: qp :: l1 ++ l2 -> lmem w' !! b = lmem w !! b) -> Q tt w') ->
  wp (task_delete a ;; queue_len_add qp (-1)) Q w.
Proof.
  intros Hq HL HQ. pose proof Hq as [Hd Hlen Ht Hb H0].
  pose proof Hd as [[Hqp Hnd]%NoDup_cons _].
  assert (Ha : a <> 0) by set_solver. assert (Hqa : qp <> a) by set_solver.
  assert (Hal : a ∉ l1 ++ l2) by
    (rewrite <-Permutation_middle, NoDup_cons in Hnd; apply Hnd).
  apply Forall2_app_inv in Ht as [Ht1 Ht2]; [|done].
  apply Forall2_cons in Ht2 as [Hat Ht2].
  apply wp_bind, wp_bind, wp_zoom. eapply list_del_dlist; [exact Hd|]. intros m1 Hd1 _ [_ T1].
  apply wp_free; [done|simpl; rewrite Hat; done|]. eapply wp_queue_len_add.
  { simpl. rewrite lookup_delete_ne by done. exact Hlen. }
  apply HQ.
  - split; simpl.
    + eapply dlist_ext; [|exact Hd1]. intros b Hb'. apply lookup_delete_ne. set_solver.
    + rewrite lookup_insert_eq, !length_app. do 2 f_equal.
      unfold wrapu32. rewrite Z.mod_small; rewrite ?length_app in *; simpl in *; lia.
    + apply (tasks_ext (objs w)); [|by apply Forall2_app].
      intros b Hb'. rewrite lookup_insert_ne by set_solver. apply lookup_delete_ne. set_solver.
    + rewrite length_app in *. simpl in Hb. lia.
    + set_solver.
  - apply (queue_frame_intro _ _ (a :: qp :: l1 ++ l2)); [| |done].
    + intros b Hb'. simpl. rewrite lookup_insert_ne, !lookup_delete_ne, T1 by set_solver. done.
    + intros b o Hb' Eb. destruct (is_queue_at_nodes _ _ _ _ b Hq) as (o' & E' & ?); [set_solver|congruence].
  - simpl. rewrite lookup_insert_ne by done. apply lookup_delete_eq.
  - intros b Hb1 Hb2. simpl. by rewrite lookup_insert_ne, lookup_delete_ne by done.
  - intros b Hb'. simpl. rewrite lookup_delete_ne by set_solver. by apply T1.
Qed.

(** [task_find] on the list of tasks. *)
Definition id_at (w : W) (id a : Z) : bool :=
  match objs w !! a with Some (Task t) => t_id t =? id | _ => false end.

Lemma task_find_eq w qp l q id :
  is_queue_at w qp l q -> task_find qp id w = Ret (List.find (id_at w id) l) w.
Proof.
  intros Hq. apply list_for_each_spec; [apply Hq|]. intros a Ha.
  destruct (is_queue_at_task _ _ _ _ _ Hq Ha) as [t E].
  unfold bind, id_at. by rewrite (ld_task_eq _ _ _ E), E.
Qed.

(** The first task with the id is dropped. *)
Fixpoint remove_first (id : Z) (q : list task) : list task :=
  match q with
  | [] => []
  | t :: q' => if t_id t =? id then q' else t :: remove_first id q'
  end.

Lemma find_task_split w id l q :
  Forall2 (fun a t => objs w !! a = Some (Task t)) l q ->
  match List.find (id_at w id) l with
  | Some a => exists l1 l2 q1 t q2, l = l1 ++ a :: l2 /\ q = q1 ++ t :: q2 /\
                length l1 = length q1 /\ remove_first id q = q1 ++ q2
  | None => remove_first id q = q
  end.
Proof.
  induction 1 as [|a t l q E _ IH]; simpl; [done|]. unfold id_at at 1. rewrite E.
  destruct (t_id t =? id); [by exists [], l, [], t, q|].
  destruct (List.find _ l) as [b|]; [|by rewrite IH].
  destruct IH as (l1 & l2 & q1 & t' & q2 & -> & -> & HL & ->).
  exists (a :: l1), l2, (t :: q1), t', q2. simpl. split_and!; auto.
Qed.

Lemma tasks_queue_remove_wp w qp q id :
  is_queue w qp q ->
  wp (tasks_queue_remove qp id) (fun _ w' => is_queue w' qp (remove_first id q) /\ queue_frame w w') w.
Proof.
  intros (l & Hq). apply wp_bind. eapply wp_eq; [by eapply task_find_eq|].
  pose proof (find_task_split w id l q (iq_tasks _ _ _ _ Hq)) as HF.
  destruct (List.find _ l) as [a|].
  - destruct HF as (l1 & l2 & q1 & t & q2 & -> & -> & HL & ->).
    eapply unlink_task_wp; [exact Hq|done|]. intros w' Hw' Hf _ _ _. split; [by exists (l1 ++ l2)|done].
  - rewrite HF. split; [by exists l|apply queue_frame_refl].
Qed.

Lemma tasks_queue_new_wp w :
  wp tasks_queue_new
     (fun qp w' => queue_frame w w' /\ (qp = 0 \/ objs w !! qp = None /\ is_queue w' qp [])) w.
Proof.
  apply new_node_spec.
  - intros x. split; [|by left]. apply (queue_frame_intro _ _ []); [done|set_solver|done].
  - intros a w' Ha Hn Ho _ Hd Hl Hk. split.
    + apply (queue_frame_intro _ _ [a]); [| |done].
      * intros b Hb. rewrite Ho, lookup_insert_ne by set_solver. split; [done|apply Hl; set_solver].
      * intros b o ->%list_elem_of_singleton Eb. congruence.
    + right. split; [done|]. exists []. split; simpl; [done|by rewrite Ho, lookup_insert_eq|constructor|lia|set_solver].
Qed.

(** The world in which the callback of a task runs. *)
Definition ran (t : task) (w : W) : W := set_ltrace (ltrace w ++ [Ran t]) w.

Lemma is_queue_at_ran w qp l q t : is_queue_at w qp l q -> is_queue_at (ran t w) qp l q.
Proof. by intros []. Qed.

(** A callback that leaves the queue's structs alone is run, then its task is
    removed. *)
Lemma execute_next_wp (call : task_cb_t -> Z -> M W unit) w qp l t q (Q : Z -> W -> Prop) :
  is_queue_at w qp l (t :: q) ->
  wp (call (t_cb t) (t_ctx t))
     (fun _ w1 => is_queue_at w1 qp l (t :: q) /\
        forall w2, is_queue w2 qp q -> queue_frame w1 w2 -> Q (t_id t) w2) (ran t w) ->
  wp (tasks_queue_execute_next call qp) Q w.
Proof.
  intros Hq Hc. pose proof Hq as [Hd Hlen Ht _ _]. destruct l as [|a l]; [by inversion Ht|].
  apply Forall2_cons in Ht as [Ha _].
  apply wp_bind. eapply wp_eq; [by apply ld_queue_eq|].
  assert (Z.of_nat (length (t :: q)) =? 0 = false) as -> by (apply Z.eqb_neq; simpl; lia).
  apply wp_bind. eapply wp_eq; [eapply zoom_get_next, dlist_first, Hd|].
  apply wp_bind, wp_bind. eapply wp_eq; [by apply ld_task_eq|].
  apply wp_bind, wp_modify. eapply wp_mono; [|exact Hc]. intros _ w1 [Hq1 HQ].
  pose proof (proj1 (proj1 (Forall2_cons _ _ _ _ _) (iq_tasks _ _ _ _ Hq1))) as Ha1.
  apply wp_bind. eapply wp_eq; [by apply ld_task_eq|].
  apply wp_assoc, wp_bind, (unlink_task_wp w1 qp [] a l [] t q); [done|done|].
  intros w2 Hq2 Hf _ _ _. apply wp_ret, HQ; [by exists l|done].
Qed.

(** The same for a callback that may fail. *)
Lemma execute_next_wlp (call : task_cb_t -> Z -> M W unit) w qp l t q (Q : Z -> W -> Prop) :
  is_queue_at w qp l (t :: q) ->
  wlp (call (t_cb t) (t_ctx t))
     (fun _ w1 => is_queue_at w1 qp l (t :: q) /\
        forall w2, is_queue w2 qp q -> queue_frame w1 w2 -> Q (t_id t) w2) (ran t w) ->
  wlp (tasks_queue_execute_next call qp) Q w.
Proof.
  intros Hq Hc. destruct (call (t_cb t) (t_ctx t) (ran t w)) as [u w1|f] eqn:E.
  - apply wp_wlp. eapply execute_next_wp; [exact Hq|]. unfold wp, wlp in *. by rewrite E in *.
  - pose proof Hq as [Hd Hlen Ht _ _]. destruct l as [|a l]; [by inversion Ht|].
    apply Forall2_cons in Ht as [Ha _].
    unfold wlp, tasks_queue_execute_next, _execute_task, bind. rewrite (ld_queue_eq _ _ _ Hlen).
    assert (Z.of_nat (length (t :: q)) =? 0 = false) as -> by (apply Z.eqb_neq; simpl; lia).
    rewrite (zoom_get_next (Lens0 := loop_lens) w _ _ (dlist_first _ _ _ Hd)). simpl. rewrite (ld_task_eq _ _ _ Ha).
    simpl. unfold ran in E. by rewrite E.
Qed.

(** The loop of [tasks_queue_delete]: what is left of the queue, and the blocks
    already released. *)
Definition deleting (w0 : W) (qp : Z) (l0 l : list Z) (w : W) : Prop :=
  (exists q, is_queue_at w qp l q) /\ same_kernel w0 w /\ l ⊆ l0 /\
  (forall a, a ∈ l0 -> a ∉ l -> objs w !! a = None) /\
  (forall a, a ∉ qp :: l0 -> objs w !! a = objs w0 !! a /\ lmem w !! a = lmem w0 !! a).

Lemma tasks_queue_delete_wp call w qp l q :
  is_queue_at w qp l q ->
  wp (tasks_queue_delete call qp false)
     (fun _ w' => same_kernel w w' /\ (forall a, a ∈ qp :: l -> objs w' !! a = None) /\
        forall a, a ∉ qp :: l -> objs w' !! a = objs w !! a /\ lmem w' !! a = lmem w !! a) w.
Proof.
  intros Hq. assert (Hw : deleting w qp l l w) by (split_and!; [eauto|done..|set_solver|done]).
  pose proof (iq_dlist _ _ _ _ Hq) as [[Hqp _]%NoDup_cons _].
  apply wp_bind. eapply wp_mono; [|eapply (list_for_each_safe_wp (deleting w qp l)); [| |exact Hw]].
  - intros _ w' ((q' & Hq') & Hk & Hsub & Hg & Hf). pose proof Hq' as [Hd Hn _ _ H0].
    apply wp_free; [set_solver|by rewrite Hn|]. simpl. split_and!; [by destruct Hk as (? & ? & ? & ? & ?)| |].
    + intros a [->|Ha]%elem_of_cons; [apply lookup_delete_eq|].
      destruct (decide (a = qp)) as [->|Hne]; [apply lookup_delete_eq|].
      rewrite lookup_delete_ne by done. apply Hg; set_solver.
    + intros a Ha. rewrite !lookup_delete_ne by set_solver. auto.
  - intros l' w' ((q' & Hq') & _). apply Hq'.
  - intros a l' w' ((q' & Hq') & Hk & Hsub & Hg & Hf).
    destruct q' as [|t q']; [by inversion Hq' as [_ _ Ht _ _]; inversion Ht|].
    unfold when. apply wp_bind, wp_ret. apply (unlink_task_wp w' qp [] a l' [] t q'); [done|done|].
    intros w2 Hq2 [_ Hk2] Hna Ho Hl. simpl in *.
    assert (Hal : a ∈ l) by set_solver. split_and!.
    + eauto.
    + destruct Hk as (? & ? & ? & ? & ?), Hk2 as (? & ? & ? & ? & ?). unfold same_kernel. split_and!; congruence.
    + set_solver.
    + intros b Hb1 Hb2. destruct (decide (b = a)) as [->|Hba]; [done|].
      rewrite Ho; [apply Hg; set_solver|done|congruence].
    + intros b Hb. destruct (Hf b Hb) as [<- <-].
      split; [apply Ho|apply Hl]; set_solver.
Qed.
End Operations.
End Repr.

(** C24: The linked list of heap tasks behaves as the list of its tasks.  [tasks_queue_add]
    appends, or reports -1 and changes nothing when memory is short; [tasks_queue_remove]
    drops the first task with the id; [tasks_queue_execute_next] runs the callback of the
    oldest task with its context and, when that returns and has left the structs of the
    queue alone, returns the id and removes the task from the state that the callback
    left, in which nothing but the queue changes; it returns 0 on an empty queue; the
    count is the length; [tasks_queue_delete] releases every block of the queue and no
    other.  No operation dereferences a freed block. *)
Theorem tasks_queue_refines {X : Type} {E : LoopEnv X} {MF : MallocFresh X}
    (call : task_cb_t -> Z -> M (loop X) unit) (w : loop X) (qp : Z) (l : list Z) (q : list task) :
  is_queue_at w qp l q ->
  (forall cb ctx id,
     wp (tasks_queue_add qp cb ctx id)
        (fun r w' => queue_frame w w' /\
           (r = 0 /\ is_queue w' qp (q ++ [mk_task cb ctx id]) \/ r = -1 /\ is_queue w' qp q)) w) /\
  (forall id, wp (tasks_queue_remove qp id)
        (fun _ w' => is_queue w' qp (remove_first id q) /\ queue_frame w w') w) /\
  tasks_queue_pending_tasks qp w = Ret (Z.of_nat (length q)) w /\
  match q with
  | [] => tasks_queue_execute_next call qp w = Ret 0 w
  | t :: q' =>
      forall w1, call (t_cb t) (t_ctx t) (ran t w) = Ret tt w1 -> is_queue_at w1 qp l q ->
      wp (tasks_queue_execute_next call qp)
         (fun r w' => r = t_id t /\ is_queue w' qp q' /\ queue_frame w1 w') w
  end /\
  wp (tasks_queue_delete call qp false)
     (fun _ w' => same_kernel w w' /\ (forall a, a ∈ qp :: l -> objs w' !! a = None) /\
        forall a, a ∉ qp :: l -> objs w' !! a = objs w !! a /\ lmem w' !! a = lmem w !! a) w.
Proof.
  intros Hq. assert (Hq' : is_queue w qp q) by (by exists l).
  split_and!.
  - intros cb ctx id. by apply tasks_queue_add_wp.
  - intros id. by apply tasks_queue_remove_wp.
  - eapply ld_queue_eq, Hq.
  - destruct q as [|t q].
    + unfold tasks_queue_execute_next, bind. by rewrite (ld_queue_eq _ _ _ (iq_len _ _ _ _ Hq)).
    + intros w1 Hc Hw1. eapply execute_next_wp; [exact Hq|]. unfold wp. rewrite Hc.
      split; [done|]. intros w2 Hw2 Hf. by split_and!.
  - by eapply tasks_queue_delete_wp.
Qed.

(** A queue at 1 with the tasks 2 and 3. *)
Definition demo_queue_world : loop demo_os :=
  mk_loop (list_to_map [(1, mk_list_head 2 3); (2, mk_list_head 3 1); (3, mk_list_head 1 2)])
          (list_to_map [(1, TasksQueue 2); (2, Task (mk_task (User_cb 7) 40 40));
                        (3, Task (mk_task (User_cb 8) 50 50))])
          ∅ ∅ ∅ (mk_eloop_ctx 0 0 0 false) [] (mk_demo_os 4 100 []).

Lemma demo_queue_is :
  is_queue_at demo_queue_world 1 [2; 3] [mk_task (User_cb 7) 40 40; mk_task (User_cb 8) 50 50].
Proof.
  split.
  - split; [apply (bool_decide_unpack _); vm_compute; exact I|]. repeat split.
  - reflexivity.
  - repeat constructor.
  - simpl. lia.
  - apply (bool_decide_unpack _). vm_compute. exact I.
Qed.

Lemma tasks_queue_refines_witness :
  wp (tasks_queue_execute_next (fun _ _ => ret tt) 1)
     (fun r w' => r = 40 /\ is_queue w' 1 [mk_task (User_cb 8) 50 50] /\
        queue_frame (ran (mk_task (User_cb 7) 40 40) demo_queue_world) w') demo_queue_world.
Proof.
  refine (proj1 (proj2 (proj2 (proj2
    (tasks_queue_refines (fun _ _ => ret tt) _ 1 [2; 3] _ demo_queue_is)))) _ eq_refl _).
  apply is_queue_at_ran. exact demo_queue_is.
Defined.
