(* ===== verification/Syncer.v ===== *)
(** * The syncer: requests of other threads, run by the loop's thread

    [libs/libeloop/src/syncer.c]: callers write requests into a pipe; the loop
    reads them into its queue and runs the tasks one by one. *)

From stdpp Require Import base gmap list.
From S2P Require Import Prelude CMonad Dll LoopWorld TaskQueue.
Open Scope Z_scope.

Section Syncer.
Context {X : Type} `{!LoopEnv X}.
Local Notation W := (loop X).
Context (call : task_cb_t -> Z -> M W unit).

(** The labels [err_pipe], [err_queue] and [err_alloc] are the three failure
    branches. *)
Definition syncer_new : M W Z :=
  syncer <- malloc ;;
  if syncer =? 0 then ret 0
  else
    stobj syncer (Syncer 0 0 0 false) ;;
    tasks <- tasks_queue_new ;;
    stobj syncer (Syncer tasks 0 0 false) ;;
    if tasks =? 0 then free syncer ;; ret 0
    else
      r <- pipe2 ;;
      match r with
      | None => tasks_queue_delete call tasks false ;; free syncer ;; ret 0
      | Some (rd, wr) => stobj syncer (Syncer tasks rd wr false) ;; ret syncer
      end.

Definition syncer_delete (syncer : Z) : M W unit :=
  if syncer =? 0 then ret tt
  else
    '(tasks, rd, wr, _) <- ld_syncer syncer ;;
    when (negb (rd =? 0) && negb (wr =? 0)) (close rd ;; close wr) ;;
    when (negb (tasks =? 0)) (tasks_queue_delete call tasks false) ;;
    free syncer.

Definition request_add (syncer : Z) (req : request) : M W Z :=
  '(_, _, wr, _) <- ld_syncer syncer ;;
  write_request wr req.

(** The result of [tasks_queue_add] is not looked at: without memory the task is
    gone. *)
Definition syncer_handle_add_task (syncer : Z) (t : task) : M W unit :=
  '(tasks, _, _, _) <- ld_syncer syncer ;;
  r <- tasks_queue_add tasks (t_cb t) (t_ctx t) (t_id t) ;;
  when (negb (r =? 0)) (emit (Dropped t)).

Definition syncer_handle_cancel_task (syncer task_id : Z) : M W unit :=
  '(tasks, _, _, _) <- ld_syncer syncer ;;
  tasks_queue_remove tasks task_id.

Definition syncer_handle_request (syncer : Z) (req : request) : M W unit :=
  match req with
  | REQUEST_TYPE_ADD_TASK t => syncer_handle_add_task syncer t
  | REQUEST_TYPE_CANCEL_TASK id => syncer_handle_cancel_task syncer id
  | REQUEST_TYPE_OTHER _ => stop AssertFailed
  end.

Definition syncer_read_request (syncer : Z) : M W (option request) :=
  '(_, rd, _, _) <- ld_syncer syncer ;;
  read_request rd.

Definition syncer_process_request (syncer : Z) : M W Z :=
  r <- syncer_read_request syncer ;;
  match r with
  | None => ret (-1)
  | Some req => syncer_handle_request syncer req ;; ret 0
  end.

(** [while (!syncer_process_request(syncer));] *)
Fixpoint syncer_drain (fuel : nat) (syncer : Z) : M W unit :=
  match fuel with
  | O => stop Hang
  | S fuel' =>
      r <- syncer_process_request syncer ;;
      if r =? 0 then syncer_drain fuel' syncer else ret tt
  end.

(** Every round of the loop above reads one request. *)
Definition drain_fuel (w : W) : nat := S (map_fold (fun _ q n => length q + n)%nat 0%nat (pipes w)).

(** The [while] of [syncer_process_queue]. *)
Fixpoint syncer_run_tasks (fuel : nat) (syncer : Z) : M W unit :=
  match fuel with
  | O => stop Hang
  | S fuel' =>
      '(tasks, _, _, stopped) <- ld_syncer syncer ;;
      n <- tasks_queue_pending_tasks tasks ;;
      if negb stopped && negb (n =? 0) then
        tasks_queue_execute_next call tasks ;;
        k <- gets drain_fuel ;;
        syncer_drain k syncer ;;
        syncer_run_tasks fuel' syncer
      else ret tt
  end.

(** [syncer->stop = b] *)
Definition set_stop (syncer : Z) (b : bool) : M W unit :=
  '(tasks, rd, wr, _) <- ld_syncer syncer ;;
  stobj syncer (Syncer tasks rd wr b).

Definition syncer_process_queue (fuel : nat) (syncer : Z) : M W unit :=
  set_stop syncer false ;;
  syncer_process_request syncer ;;
  syncer_run_tasks fuel syncer.

Definition syncer_stop (syncer : Z) : M W unit := set_stop syncer true.

(** The id of a task is its context pointer. *)
Definition syncer_task_add (syncer : Z) (cb : task_cb_t) (ctx : Z) : M W Z :=
  r <- request_add syncer (REQUEST_TYPE_ADD_TASK (mk_task cb ctx ctx)) ;;
  ret (if r <=? 0 then INVALID_ID else ctx).

Definition syncer_task_cancel (syncer task_id : Z) : M W Z :=
  request_add syncer (REQUEST_TYPE_CANCEL_TASK task_id).
End Syncer.

(** ** The state of a syncer *)

(** The tasks that entered the pipe, and those that ran, in order. *)
Definition accepted_tasks (tr : list levent) : list task :=
  omap (fun e => match e with Accepted (REQUEST_TYPE_ADD_TASK t) => Some t | _ => None end) tr.

Definition ran_tasks (tr : list levent) : list task :=
  omap (fun e => match e with Ran t => Some t | _ => None end) tr.

Definition tasks_of (reqs : list request) : list task :=
  omap (fun r => match r with REQUEST_TYPE_ADD_TASK t => Some t | _ => None end) reqs.

(** Nothing was given up for lack of memory or of room, nothing was cancelled. *)
Definition lossless (tr : list levent) : Prop :=
  Forall (fun e => match e with
                   | Dropped _ | LostEvent _ _ | Accepted (REQUEST_TYPE_CANCEL_TASK _) => False
                   | _ => True
                   end) tr.

Section State.
Context {X : Type} `{!LoopEnv X}.
Local Notation W := (loop X).

(** The syncer at [sp]: its queue at [qp] with nodes [l] and tasks [q], the ends of
    its pipe and the requests in it. *)
Record is_syncer (w : W) (sp qp rd wr : Z) (stopped : bool) (l : list Z) (q : list task)
    (reqs : list request) : Prop := {
  is_sp : objs w !! sp = Some (Syncer qp rd wr stopped);
  is_q : is_queue_at w qp l q;
  is_rd : fdtab w !! rd = Some (PipeRead rd);
  is_wr : fdtab w !! wr = Some (PipeWrite rd);
  is_pipe : pipes w !! rd = Some reqs;
  is_known : Forall (fun r => match r with REQUEST_TYPE_OTHER _ => False | _ => True end) reqs;
}.

(** The history of a syncer: what ran, then what is queued ([d] of it is already
    running), then what is in the pipe, comes from the accepted tasks in their
    order, and is all of them when nothing was lost. *)
Record history (d : nat) (tr : list levent) (q : list task) (reqs : list request) : Prop := {
  hist_order : ran_tasks tr ++ drop d q ++ tasks_of reqs `sublist_of` accepted_tasks tr;
  hist_all : lossless tr -> ran_tasks tr ++ drop d q ++ tasks_of reqs = accepted_tasks tr;
  hist_pipe : Forall (fun r => Accepted r ∈ tr) reqs;
}.

Lemma ld_syncer_eq (w : W) sp qp rd wr b :
  objs w !! sp = Some (Syncer qp rd wr b) -> ld_syncer sp w = Ret (qp, rd, wr, b) w.
Proof. intros E. unfold ld_syncer, bind, ldobj. by rewrite E. Qed.

(** The queue's operations keep the syncer and the kernel. *)
Lemma is_syncer_queue_frame w w' sp qp rd wr b l q reqs q' :
  is_syncer w sp qp rd wr b l q reqs -> queue_frame w w' -> is_queue w' qp q' ->
  exists l', is_syncer w' sp qp rd wr b l' q' reqs.
Proof.
  intros [Hsp Hq Hrd Hwr Hp Hkn] [HP (Kf & Kp & _)] [l' Hq']. exists l'.
  split; [by eapply HP|done|rewrite Kf; done|rewrite Kf; done|rewrite Kp; done|done].
Qed.
End State.

(** ** Steps of the history *)

Lemma lossless_app tr e : lossless (tr ++ [e]) -> lossless tr.
Proof. unfold lossless. rewrite Forall_app. tauto. Qed.

Lemma history_accept d tr q reqs r :
  history d tr q reqs -> history d (tr ++ [Accepted r]) q (reqs ++ [r]).
Proof.
  intros [Ho Ha Hp]. assert (Hr : ran_tasks (tr ++ [Accepted r]) = ran_tasks tr)
    by (unfold ran_tasks; rewrite omap_app; simpl; by rewrite app_nil_r).
  assert (Hacc : accepted_tasks (tr ++ [Accepted r]) = accepted_tasks tr ++ tasks_of [r])
    by (unfold accepted_tasks; rewrite omap_app; by destruct r).
  assert (Ht : tasks_of (reqs ++ [r]) = tasks_of reqs ++ tasks_of [r]) by apply omap_app.
  split; rewrite ?Hr, ?Hacc, ?Ht, ?app_assoc.
  - rewrite <-!app_assoc. rewrite !app_assoc. apply sublist_app; [|done]. by rewrite <-app_assoc.
  - intros Hl%lossless_app. rewrite <-Ha by done. by rewrite <-!app_assoc.
  - apply Forall_app. split; [|constructor; set_solver].
    eapply Forall_impl; [exact Hp|]. set_solver.
Qed.

(** A task read from the pipe joins the queue, or is dropped. *)
Lemma history_read_add tr q t reqs :
  history 0 tr q (REQUEST_TYPE_ADD_TASK t :: reqs) -> history 0 tr (q ++ [t]) reqs.
Proof.
  intros [Ho Ha Hp]. apply Forall_cons in Hp as [_ Hp].
  rewrite drop_0 in *. simpl in *. split; rewrite ?drop_0, <-?app_assoc; done.
Qed.

Lemma history_drop tr q t reqs :
  history 0 tr q (REQUEST_TYPE_ADD_TASK t :: reqs) -> history 0 (tr ++ [Dropped t]) q reqs.
Proof.
  intros [Ho Ha Hp]. apply Forall_cons in Hp as [_ Hp].
  split.
  - unfold ran_tasks, accepted_tasks in *. rewrite !omap_app. simpl in *. rewrite !app_nil_r.
    etrans; [|exact Ho]. do 2 (apply sublist_app; [done|]). by apply sublist_cons.
  - unfold lossless. rewrite Forall_app, Forall_singleton. tauto.
  - eapply Forall_impl; [exact Hp|]. set_solver.
Qed.

Lemma remove_first_sublist id q : remove_first id q `sublist_of` q.
Proof. induction q as [|t q IH]; simpl; [done|]. destruct (t_id t =? id); [by apply sublist_cons|by constructor]. Qed.

Lemma history_cancel tr q id reqs :
  history 0 tr q (REQUEST_TYPE_CANCEL_TASK id :: reqs) -> history 0 tr (remove_first id q) reqs.
Proof.
  intros [Ho Ha Hp]. apply Forall_cons in Hp as [Hin Hp]. split; [| |done].
  - etrans; [|exact Ho]. rewrite !drop_0. apply sublist_app; [done|].
    apply sublist_app; [apply remove_first_sublist|done].
  - intros Hl. unfold lossless in Hl. rewrite Forall_forall in Hl. by apply Hl in Hin.
Qed.

(** A callback starts with its task still queued; the task then leaves. *)
Lemma history_run tr t q reqs :
  history 0 tr (t :: q) reqs -> history 1 (tr ++ [Ran t]) (t :: q) reqs.
Proof.
  intros [Ho Ha Hp].
  assert (Hr : ran_tasks (tr ++ [Ran t]) = ran_tasks tr ++ [t])
    by (unfold ran_tasks; by rewrite omap_app).
  assert (Hacc : accepted_tasks (tr ++ [Ran t]) = accepted_tasks tr)
    by (unfold accepted_tasks; rewrite omap_app; simpl; by rewrite app_nil_r).
  split; rewrite ?Hr, ?Hacc, <-?app_assoc; simpl; rewrite ?drop_0.
  - exact Ho.
  - intros Hl%lossless_app. by apply Ha.
  - eapply Forall_impl; [exact Hp|]. set_solver.
Qed.

Lemma history_done tr t q reqs : history 1 tr (t :: q) reqs -> history 0 tr q reqs.
Proof. by intros [Ho Ha Hp]. Qed.

(** Events of other components. *)
Definition other_event (e : levent) : Prop :=
  match e with LostEvent _ _ | TimerSet _ _ => True | _ => False end.

Lemma history_other d tr q reqs e :
  other_event e -> history d tr q reqs -> history d (tr ++ [e]) q reqs.
Proof.
  intros He [Ho Ha Hp].
  assert (Hr : ran_tasks (tr ++ [e]) = ran_tasks tr)
    by (unfold ran_tasks; rewrite omap_app; destruct e; try done; apply app_nil_r).
  assert (Hacc : accepted_tasks (tr ++ [e]) = accepted_tasks tr)
    by (unfold accepted_tasks; rewrite omap_app; destruct e; try done; apply app_nil_r).
  split; rewrite ?Hr, ?Hacc; [done| |].
  - intros Hl%lossless_app. by apply Ha.
  - eapply Forall_impl; [exact Hp|]. set_solver.
Qed.

(** ** What the tasks that wait need from the rest of the state *)

Section Pending.
Context {X : Type}.
Local Notation W := (loop X).

Definition is_sync_obj (o : obj) : bool :=
  match o with Task _ | TasksQueue _ | Syncer _ _ _ _ => true | _ => false end.

(** The structs of the other components are as before. *)
Definition same_others (w w' : W) : Prop :=
  forall a o, objs w !! a = Some o -> is_sync_obj o = false -> objs w' !! a = Some o.

(** A condition on the waiting tasks that the syncer's own work keeps. *)
Class Pending (J : W -> list task -> Prop) : Prop := {
  pending_stable w w' ts : same_others w w' -> J w ts -> J w' ts;
  pending_sublist w ts ts' : ts' `sublist_of` ts -> J w ts -> J w ts';
}.

Lemma same_others_trans w1 w2 w3 : same_others w1 w2 -> same_others w2 w3 -> same_others w1 w3.
Proof. intros H1 H2 a o Ha Ho. auto. Qed.

Lemma queue_frame_others `{!LoopEnv X} w w' : queue_frame w w' -> same_others w w'.
Proof. intros [HP _] a o Ha Ho. eapply HP; [done|]. by destruct o. Qed.
End Pending.

(** ** The operations on a syncer's state *)

Section Operations.
Context {X : Type} `{!LoopEnv X} `{!MallocFresh X}.
Local Notation W := (loop X).
Context (sp qp rd wr : Z).

(** The state with its history; [d] counts the running task. *)
Definition sync_at (d : nat) (b : bool) (l : list Z) (q : list task) (reqs : list request) (w : W) : Prop :=
  is_syncer w sp qp rd wr b l q reqs /\ history d (ltrace w) q reqs.

Lemma process_request_wp w b l q reqs :
  sync_at 0 b l q reqs w ->
  wp (syncer_process_request sp)
     (fun r w' => match reqs with
                  | [] => r = -1 /\ w' = w
                  | _ :: reqs' => r = 0 /\ exists l' q', sync_at 0 b l' q' reqs' w' /\
                                    (length q' <= S (length q))%nat /\
                                    (lossless (ltrace w') -> q' <> []) /\
                                    same_others w w' /\
                                    q' ++ tasks_of reqs' `sublist_of` q ++ tasks_of reqs
                  end) w.
Proof.
  intros [Hs Hh]. pose proof Hs as [Hsp Hq Hrd Hwr Hp Hkn].
  apply wp_bind, wp_bind. eapply wp_eq; [by apply ld_syncer_eq|].
  unfold wp at 1, read_request. rewrite Hrd, Hp.
  destruct reqs as [|r reqs]; [by apply wp_ret|]. apply Forall_cons in Hkn as [Hk Hkn].
  set (w1 := set_pipes _ w).
  assert (Hs1 : is_syncer w1 sp qp rd wr b l q reqs)
    by (split; try done; [by destruct Hq|apply lookup_insert_eq]).
  assert (Hq1 : is_queue w1 qp q) by (exists l; apply Hs1).
  destruct r as [t|id|?]; [| |done].
  - apply wp_bind, wp_bind. eapply wp_eq; [by apply ld_syncer_eq|].
    apply wp_bind. eapply wp_mono; [|by apply tasks_queue_add_wp].
    intros r w2 [Hf Hr]. destruct Hf as [HP Hk2]. pose proof Hk2 as (_ & _ & _ & Htr & _).
    destruct Hr as [[-> Hq2]|[-> Hq2]]; simpl.
    + destruct (is_syncer_queue_frame _ _ _ _ _ _ _ _ _ _ _ Hs1 (conj HP Hk2) Hq2) as [l2 Hs2].
      split; [done|]. exists l2, (q ++ [t]).
      replace (mk_task (t_cb t) (t_ctx t) (t_id t)) with t in * by by destruct t.
      split; [split; [done|rewrite Htr; by apply history_read_add]|].
      split_and!; [rewrite length_app; simpl; lia|intros _; destruct q; discriminate| |].
      * exact (queue_frame_others _ _ (conj HP Hk2)).
      * by rewrite <-app_assoc.
    + destruct (is_syncer_queue_frame _ _ _ _ _ _ _ _ _ _ _ Hs1 (conj HP Hk2) Hq2) as [l2 Hs2].
      split; [done|]. exists l2, q. split; [split|split_and!; [lia| | |]].
      * destruct Hs2 as [? [] ? ? ? ?]. done.
      * simpl. rewrite Htr. simpl. by apply history_drop.
      * intros Hl. simpl in Hl. unfold lossless in Hl. rewrite Htr, Forall_app, Forall_singleton in Hl. tauto.
      * exact (queue_frame_others _ _ (conj HP Hk2)).
      * apply sublist_app; [done|]. by apply sublist_cons.
  - apply wp_bind, wp_bind. eapply wp_eq; [by apply ld_syncer_eq|].
    eapply wp_mono; [|by apply tasks_queue_remove_wp]. intros u w2 [Hq2 Hf].
    destruct (is_syncer_queue_frame _ _ _ _ _ _ _ _ _ _ _ Hs1 Hf Hq2) as [l2 Hs2].
    pose proof (queue_frame_others _ _ Hf) as Ho. destruct Hf as [_ (_ & _ & _ & Htr & _)].
    apply wp_ret. split; [done|]. exists l2, (remove_first id q). split; [split; [done|]|split_and!].
    + rewrite Htr. by eapply history_cancel.
    + pose proof (sublist_length _ _ (remove_first_sublist id q)). lia.
    + rewrite Htr. intros Hl. unfold lossless in Hl. rewrite Forall_forall in Hl.
      pose proof (Forall_inv (hist_pipe _ _ _ _ Hh)) as Hin. by apply Hl in Hin.
    + exact Ho.
    + apply sublist_app; [apply remove_first_sublist|done].
Qed.

Lemma syncer_drain_wp fuel w b l q reqs :
  sync_at 0 b l q reqs w -> (length reqs < fuel)%nat ->
  wp (syncer_drain fuel sp)
     (fun _ w' => exists l' q', sync_at 0 b l' q' [] w' /\ (length q' <= length q + length reqs)%nat /\
                    same_others w w' /\ q' `sublist_of` q ++ tasks_of reqs) w.
Proof.
  revert w l q reqs. induction fuel as [|fuel IH]; intros w l q reqs Hs Hf; [lia|].
  simpl. apply wp_bind. eapply wp_mono; [|by eapply process_request_wp].
  intros r w' H. destruct reqs as [|r0 reqs]; simpl in *.
  - destruct H as [-> ->]. apply wp_ret. exists l, q.
    split; [done|]. split_and!; [lia|by intros a o|by rewrite app_nil_r].
  - destruct H as [-> (l' & q' & Hs' & HL & _ & Ho & Hsub)]. simpl.
    eapply wp_mono; [|eapply IH; [exact Hs'|lia]].
    intros u w2 (l2 & q2 & Hs2 & HL2 & Ho2 & Hsub2). exists l2, q2. split; [done|]. simpl in *.
    split_and!; [lia|eauto using same_others_trans|by etrans].
Qed.

Lemma drain_fuel_enough (w : W) reqs : pipes w !! rd = Some reqs -> (length reqs < drain_fuel w)%nat.
Proof.
  intros E. unfold drain_fuel. rewrite (map_fold_delete_L _ _ rd reqs (pipes w)); [lia| |done].
  intros. lia.
Qed.

(** Writing a field of the syncer does not touch its queue. *)
Lemma is_queue_at_insert (w : W) l q a o o' :
  is_queue_at w qp l q -> objs w !! a = Some o -> is_queue_obj o = false ->
  is_queue_at (set_objs (<[a := o']> (objs w)) w) qp l q.
Proof.
  intros Hq Ha Ho.
  assert (Hne : forall b, b ∈ qp :: l -> b <> a).
  { intros b Hb ->. destruct (is_queue_at_nodes _ _ _ _ _ Hq Hb) as (o2 & E & H2). congruence. }
  destruct Hq as [Hd Hn Ht Hb H0]. split; simpl; try done.
  - rewrite lookup_insert_ne; [done|]. apply not_eq_sym, Hne. set_solver.
  - eapply tasks_ext; [|exact Ht]. intros b Hb'. apply lookup_insert_ne, not_eq_sym, Hne. set_solver.
Qed.

Lemma set_stop_wp d b b' l q reqs w (Q : unit -> W -> Prop) :
  sync_at d b l q reqs w ->
  (forall w', sync_at d b' l q reqs w' -> same_others w w' -> Q tt w') -> wp (set_stop sp b') Q w.
Proof.
  intros [[Hsp Hq Hrd Hwr Hp Hkn] Hh] HQ. apply wp_bind. eapply wp_eq; [by apply ld_syncer_eq|].
  apply wp_stobj; [by rewrite Hsp|]. apply HQ.
  - split; [|done]. split; try done; [apply lookup_insert_eq|]. by eapply is_queue_at_insert.
  - intros a o Ha Ho. simpl. rewrite lookup_insert_ne; [done|]. intros ->. by simplify_eq.
Qed.

(** Work on the structs of other components leaves the syncer as it is. *)
Lemma sync_at_frame d b l q reqs w w' :
  preserves is_sync_obj w w' -> fdtab w' = fdtab w -> pipes w' = pipes w -> ltrace w' = ltrace w ->
  sync_at d b l q reqs w -> sync_at d b l q reqs w'.
Proof.
  intros HP Hf Hp Ht [[Hsp Hq Hrd Hwr Hpi Hkn] Hh]. rewrite <-Ht in Hh. split; [|done].
  split; [by eapply HP| |rewrite Hf; done..|rewrite Hp; done|done].
  eapply is_queue_at_preserves; [|done]. intros a o Ha Ho. apply HP; [done|]. by destruct o.
Qed.

Lemma emit_other_wp d b l q reqs e w (Q : unit -> W -> Prop) :
  other_event e -> sync_at d b l q reqs w ->
  (sync_at d b l q reqs (set_ltrace (ltrace w ++ [e]) w) -> Q tt (set_ltrace (ltrace w ++ [e]) w)) ->
  wp (emit e) Q w.
Proof.
  intros He [[? [] ? ? ? ?] Hh] HQ. apply wp_modify, HQ. split; [done|]. by apply history_other.
Qed.

(** What a callback may do: anything that leaves the queue's structs alone and
    only adds requests to the pipe. *)
Class SyncClient (call : task_cb_t -> Z -> M W unit) : Prop :=
  client_ok t b l q reqs w : sync_at 1 b l (t :: q) reqs w ->
    wlp (call (t_cb t) (t_ctx t)) (fun _ w' => exists b' reqs', sync_at 1 b' l (t :: q) reqs' w') w.

(** A callback that requests nothing and returns where [J] holds of the waiting
    tasks. *)
Class QuietClient (J : W -> list task -> Prop) (call : task_cb_t -> Z -> M W unit) : Prop :=
  quiet_ok t b l q reqs w : sync_at 1 b l (t :: q) reqs w -> J w (t :: q ++ tasks_of reqs) ->
    wp (call (t_cb t) (t_ctx t))
       (fun _ w' => sync_at 1 b l (t :: q) reqs w' /\ J w' (q ++ tasks_of reqs)) w.

Lemma sync_at_queue d b l q reqs w : sync_at d b l q reqs w -> is_queue_at w qp l q.
Proof. by intros [[] _]. Qed.

Lemma sync_at_pipe d b l q reqs d' b' l' q' reqs' w :
  sync_at d b l q reqs w -> sync_at d' b' l' q' reqs' w -> reqs = reqs'.
Proof. intros [[_ _ _ _ H _] _] [[_ _ _ _ H' _] _]. congruence. Qed.

Lemma sync_at_run b l t q reqs w : sync_at 0 b l (t :: q) reqs w -> sync_at 1 b l (t :: q) reqs (ran t w).
Proof. intros [[? [] ? ? ? ?] Hh]. split; [done|]. by apply history_run. Qed.

Lemma sync_at_done b l t q reqs w1 w2 :
  sync_at 1 b l (t :: q) reqs w1 -> is_queue w2 qp q -> queue_frame w1 w2 ->
  exists l', sync_at 0 b l' q reqs w2.
Proof.
  intros [Hs Hh] Hq Hf. destruct (is_syncer_queue_frame _ _ _ _ _ _ _ _ _ _ _ Hs Hf Hq) as [l' Hs'].
  exists l'. split; [done|]. destruct Hf as [_ (_ & _ & _ & -> & _)]. by eapply history_done.
Qed.

Lemma execute_next_quiet J `{!Pending J} call `{!QuietClient J call} b l t q reqs w :
  sync_at 0 b l (t :: q) reqs w -> J w (t :: q ++ tasks_of reqs) ->
  wp (tasks_queue_execute_next call qp)
     (fun _ w' => exists l', sync_at 0 b l' q reqs w' /\ J w' (q ++ tasks_of reqs)) w.
Proof.
  intros Hs HJ. eapply execute_next_wp; [eapply sync_at_queue, Hs|].
  eapply wp_mono; [|eapply quiet_ok; [apply sync_at_run, Hs|]].
  - intros u w1 [Hw1 HJ1]. split; [eapply sync_at_queue, Hw1|]. intros w2 Hq Hf.
    destruct (sync_at_done _ _ _ _ _ _ _ Hw1 Hq Hf) as [l' Hs']. exists l'. split; [done|].
    eapply pending_stable; [by apply queue_frame_others|done].
  - eapply pending_stable; [|exact HJ]. by intros a o.
Qed.

Lemma execute_next_client call `{!SyncClient call} b l t q reqs w :
  sync_at 0 b l (t :: q) reqs w ->
  wlp (tasks_queue_execute_next call qp) (fun _ w' => exists b' l' reqs', sync_at 0 b' l' q reqs' w') w.
Proof.
  intros Hs. apply (execute_next_wlp call w qp l t q); [eapply sync_at_queue, Hs|].
  eapply wlp_mono; [|eapply client_ok, sync_at_run, Hs]. intros u w1 (b' & reqs' & Hw1).
  split; [eapply sync_at_queue, Hw1|]. intros w2 Hq Hf. exists b'.
  destruct (sync_at_done _ _ _ _ _ _ _ Hw1 Hq Hf) as [l' Hs']. eauto.
Qed.

(** The loop over the tasks, for any client. *)
Lemma run_tasks_client call `{!SyncClient call} fuel b l q reqs w :
  sync_at 0 b l q reqs w ->
  wlp (syncer_run_tasks call fuel sp) (fun _ w' => exists b' l' q' reqs', sync_at 0 b' l' q' reqs' w') w.
Proof.
  revert b l q reqs w. induction fuel as [|fuel IH]; intros b l q reqs w Hs; [done|].
  simpl. pose proof Hs as [[Hsp Hq _ _ _ _] _].
  apply wlp_bind, wp_wlp. eapply wp_eq; [by apply ld_syncer_eq|].
  apply wlp_bind, wp_wlp. eapply wp_eq; [apply ld_queue_eq, Hq|].
  destruct q as [|t q]; [rewrite andb_false_r; apply wp_wlp, wp_ret; eauto|].
  destruct b; [apply wp_wlp, wp_ret; eauto|]. simpl.
  apply wlp_bind. eapply wlp_mono; [|by eapply execute_next_client].
  intros u1 w1 (b1 & l1 & reqs1 & Hs1). apply wlp_bind, wp_wlp, wp_gets.
  apply wlp_bind, wp_wlp. eapply wp_mono; [|eapply syncer_drain_wp; [exact Hs1|]].
  - intros u2 w2 (l2 & q2 & Hs2 & _). by eapply IH.
  - apply drain_fuel_enough. apply Hs1.
Qed.

Lemma process_queue_client call `{!SyncClient call} fuel w :
  (exists b l q reqs, sync_at 0 b l q reqs w) ->
  wlp (syncer_process_queue call fuel sp)
      (fun _ w' => exists b l q reqs, sync_at 0 b l q reqs w') w.
Proof.
  intros (b & l & q & reqs & Hs). apply wlp_bind, wp_wlp. eapply set_stop_wp; [exact Hs|].
  intros w1 Hs1 _. apply wlp_bind, wp_wlp. eapply wp_mono; [|by eapply process_request_wp].
  intros r w2 H. destruct reqs as [|r0 reqs].
  - destruct H as [-> ->]. by eapply run_tasks_client.
  - destruct H as (_ & l2 & q2 & Hs2 & _). by eapply run_tasks_client.
Qed.

(** A client that requests nothing lets the loop run dry: every round runs one
    task, and the first round empties the pipe. *)
Lemma run_tasks_quiet J `{!Pending J} call `{!QuietClient J call} fuel l q reqs w :
  sync_at 0 false l q reqs w -> J w (q ++ tasks_of reqs) -> (length q + length reqs < fuel)%nat ->
  wp (syncer_run_tasks call fuel sp)
     (fun _ w' => exists l' reqs', sync_at 0 false l' [] reqs' w' /\
                    (reqs' = [] \/ q = [] /\ w' = w)) w.
Proof.
  revert l q reqs w. induction fuel as [|fuel IH]; intros l q reqs w Hs HJ Hf; [lia|].
  simpl. pose proof Hs as [[Hsp Hq _ _ _ _] _].
  apply wp_bind. eapply wp_eq; [by apply ld_syncer_eq|].
  apply wp_bind. eapply wp_eq; [apply ld_queue_eq, Hq|].
  destruct q as [|t q]; [apply wp_ret; eauto 6|]. simpl.
  apply wp_bind. eapply wp_mono; [|by eapply execute_next_quiet].
  intros u1 w1 (l1 & Hs1 & HJ1). apply wp_bind, wp_gets.
  apply wp_bind. eapply wp_mono; [|eapply syncer_drain_wp; [exact Hs1|]].
  - intros u2 w2 (l2 & q2 & Hs2 & HL & Ho & Hsub). simpl in Hf.
    eapply wp_mono; [|eapply IH; [exact Hs2| |simpl; lia]].
    + intros u3 w3 (l3 & reqs3 & Hs3 & H3). exists l3, reqs3. split; [done|]. left.
      destruct H3 as [->|[-> ->]]; [done|by eapply sync_at_pipe].
    + rewrite app_nil_r. eapply pending_stable; [exact Ho|]. by eapply pending_sublist.
  - apply drain_fuel_enough. apply Hs1.
Qed.

Lemma process_queue_quiet J `{!Pending J} call `{!QuietClient J call} fuel b l q reqs w :
  sync_at 0 b l q reqs w -> J w (q ++ tasks_of reqs) -> (length q + length reqs < fuel)%nat ->
  wp (syncer_process_queue call fuel sp)
     (fun _ w' => exists l' reqs', sync_at 0 false l' [] reqs' w' /\
                    (lossless (ltrace w') -> reqs' = [])) w.
Proof.
  intros Hs HJ Hf. apply wp_bind. eapply set_stop_wp; [exact Hs|].
  intros w1 Hs1 Ho1. assert (HJ1 : J w1 (q ++ tasks_of reqs)) by by eapply pending_stable.
  apply wp_bind. eapply wp_mono; [|by eapply process_request_wp].
  intros r w2 H. destruct reqs as [|r0 reqs].
  - destruct H as [-> ->]. eapply wp_mono; [|eapply run_tasks_quiet; [done|done|exact Hs1|done|simpl in *; lia]].
    intros u w3 (l3 & reqs3 & Hs3 & [->|[-> ->]]); [eauto|].
    exists l3, reqs3. split; [done|]. intros _. by eapply sync_at_pipe.
  - destruct H as (_ & l2 & q2 & Hs2 & HL & Hne & Ho2 & Hsub). simpl in Hf.
    eapply wp_mono; [|eapply run_tasks_quiet; [done|done|exact Hs2| |lia]].
    + intros u w3 (l3 & reqs3 & Hs3 & H3). exists l3, reqs3. split; [done|].
      intros Hl. destruct H3 as [->|[-> ->]]; [done|]. by apply Hne in Hl.
    + eapply pending_stable; [exact Ho2|]. by eapply pending_sublist.
Qed.

(** ** Requests *)

Definition known_request (r : request) : Prop :=
  match r with REQUEST_TYPE_OTHER _ => False | _ => True end.

(** Writing a request changes nothing but the pipe and the trace. *)
Definition only_pipe (r : request) (w w' : W) : Prop :=
  objs w' = objs w /\ lmem w' = lmem w /\ epoll w' = epoll w /\ eloop_ctx w' = eloop_ctx w /\
  ltrace w' = ltrace w ++ [Accepted r].

(** A request enters the pipe unless the pipe is full. *)
Lemma request_add_wp d b l q reqs r w :
  sync_at d b l q reqs w -> known_request r ->
  wp (request_add sp r)
     (fun z w' => if (length reqs <? pipe_capacity)%nat
                  then z = sizeof_request /\ sync_at d b l q (reqs ++ [r]) w' /\ only_pipe r w w'
                  else z = -1 /\ w' = w) w.
Proof.
  intros [Hs Hh] Hk. pose proof Hs as [Hsp Hq Hrd Hwr Hp Hkn].
  apply wp_bind. eapply wp_eq; [by apply ld_syncer_eq|].
  unfold wp, write_request. rewrite Hwr, Hp. destruct (length reqs <? pipe_capacity)%nat; [|done].
  split; [done|]. split; [|done]. split; [|by apply history_accept].
  split; try done; [by destruct Hq|apply lookup_insert_eq|]. apply Forall_app. by split; [|constructor].
Qed.

Lemma syncer_task_add_wp d b l q reqs cb ctx w :
  sync_at d b l q reqs w ->
  wp (syncer_task_add sp cb ctx)
     (fun id w' => if (length reqs <? pipe_capacity)%nat
                   then id = ctx /\
                        sync_at d b l q (reqs ++ [REQUEST_TYPE_ADD_TASK (mk_task cb ctx ctx)]) w' /\
                        only_pipe (REQUEST_TYPE_ADD_TASK (mk_task cb ctx ctx)) w w'
                   else id = INVALID_ID /\ w' = w) w.
Proof.
  intros Hs. apply wp_bind. eapply wp_mono; [|by eapply request_add_wp].
  intros z w' H. apply wp_ret. destruct (_ <? _)%nat; destruct H as [-> H]; done.
Qed.
End Operations.

(** A callback that asks for itself to be run again. *)
Definition requeue {X} `{!LoopEnv X} (sp : Z) : task_cb_t -> Z -> M (loop X) unit :=
  fun cb ctx => syncer_task_add sp cb ctx ;; ret tt.

#[export] Instance requeue_client {X} `{!LoopEnv X} sp qp rd wr : SyncClient sp qp rd wr (requeue (X := X) sp).
Proof.
  intros t b l q reqs w Hs. apply wp_wlp, wp_bind. eapply wp_mono; [|by eapply syncer_task_add_wp].
  intros id w' H. apply wp_ret. destruct (_ <? _)%nat; [destruct H as (_ & H & _)|destruct H as [_ ->]]; eauto.
Qed.

(** A callback that does nothing. *)
Definition idle {X} : task_cb_t -> Z -> M (loop X) unit := fun _ _ => ret tt.

Definition no_condition {X} : loop X -> list task -> Prop := fun _ _ => True.

#[export] Instance no_condition_pending {X} : Pending (no_condition (X := X)).
Proof. done. Qed.

#[export] Instance idle_client {X} `{!LoopEnv X} sp qp rd wr :
  QuietClient sp qp rd wr no_condition (idle (X := X)).
Proof. intros t b l q reqs w Hs _. by apply wp_ret. Qed.

Section Claims.
Context {X : Type} {E : LoopEnv X} {MF : MallocFresh X}.
Local Notation W := (loop X).

(** C15: Whatever callbacks do through the library's interface, a run of the queue
    keeps the order of requests: the tasks that ran, then the queued ones, then
    those in the pipe, are a subsequence of the accepted tasks in the order of
    acceptance (no task runs twice, out of turn or uninvited), and are all of them
    when none was cancelled or dropped for lack of memory. *)
Theorem syncer_fifo (sp qp rd wr : Z) (call : task_cb_t -> Z -> M W unit) (fuel : nat) (w w' : W) :
  SyncClient sp qp rd wr call ->
  (exists b l q reqs, sync_at sp qp rd wr 0 b l q reqs w) ->
  syncer_process_queue call fuel sp w = Ret tt w' ->
  exists b l q reqs, is_syncer w' sp qp rd wr b l q reqs /\
    ran_tasks (ltrace w') ++ q ++ tasks_of reqs `sublist_of` accepted_tasks (ltrace w') /\
    (lossless (ltrace w') -> ran_tasks (ltrace w') ++ q ++ tasks_of reqs = accepted_tasks (ltrace w')).
Proof.
  intros Hc Hs Hr. pose proof (process_queue_client sp qp rd wr call fuel w Hs) as H.
  unfold wlp in H. rewrite Hr in H. destruct H as (b & l & q & reqs & Hs' & [Ho Ha _]).
  exists b, l, q, reqs. by rewrite drop_0 in Ho, Ha.
Qed.

(** C28: When the callbacks return and request nothing themselves, as long as a
    condition [J] holds of the waiting tasks, a run of the queue returns (one round per queued or requested task is enough) with the queue empty, and
    every accepted task has then run, once and in the order of acceptance, unless
    some were cancelled or dropped. *)
Theorem syncer_runs_all (sp qp rd wr : Z) (J : W -> list task -> Prop)
    (call : task_cb_t -> Z -> M W unit) (fuel : nat)
    (b : bool) (l : list Z) (q : list task) (reqs : list request) (w : W) :
  Pending J -> QuietClient sp qp rd wr J call ->
  sync_at sp qp rd wr 0 b l q reqs w -> J w (q ++ tasks_of reqs) -> (length q + length reqs < fuel)%nat ->
  exists w' l' reqs', syncer_process_queue call fuel sp w = Ret tt w' /\
    is_syncer w' sp qp rd wr false l' [] reqs' /\
    (lossless (ltrace w') -> reqs' = [] /\ ran_tasks (ltrace w') = accepted_tasks (ltrace w')).
Proof.
  intros HP Hc Hs HJ Hf. pose proof (process_queue_quiet sp qp rd wr J call fuel b l q reqs w Hs HJ Hf) as H.
  unfold wp in H. destruct (syncer_process_queue call fuel sp w) as [[] w'|]; [|done].
  destruct H as (l' & reqs' & [Hs' Hh] & Hl). exists w', l', reqs'. split_and!; [done|done|].
  intros HL. pose proof (Hl HL) as ->. split; [done|].
  pose proof (hist_all _ _ _ _ Hh HL) as Ha. simpl in Ha. by rewrite app_nil_r in Ha.
Qed.
End Claims.

(** ** A syncer with two requests *)

Definition after {A} (m : M (loop demo_os) A) (w : loop demo_os) : loop demo_os :=
  match m w with Ret _ w' => w' | Fault _ => w end.

Definition demo_tasks : list task := [mk_task (User_cb 1) 100 100; mk_task (User_cb 2) 200 200].

Definition demo_sync : loop demo_os :=
  after (sp <- syncer_new idle ;;
         syncer_task_add sp (User_cb 1) 100 ;;
         syncer_task_add sp (User_cb 2) 200) (demo_loop 100 []).

Lemma demo_sync_at :
  sync_at 1 2 11 12 0 false [] [] (map REQUEST_TYPE_ADD_TASK demo_tasks) demo_sync.
Proof.
  split.
  - split; [vm_compute; reflexivity| |vm_compute; reflexivity..|repeat constructor].
    split; [|vm_compute; reflexivity|constructor|simpl; lia|].
    + split; [apply NoDup_singleton|]. vm_compute. repeat split.
    + apply (bool_decide_unpack _). vm_compute. exact I.
  - assert (ltrace demo_sync = map (fun t => Accepted (REQUEST_TYPE_ADD_TASK t)) demo_tasks) as ->
      by (vm_compute; reflexivity).
    split; [reflexivity|intros _; reflexivity|]. simpl. repeat (apply Forall_cons_2); set_solver.
Qed.

Lemma syncer_fifo_witness :
  exists w', syncer_process_queue idle 5 1 demo_sync = Ret tt w' /\
    exists b l q reqs, is_syncer w' 1 2 11 12 b l q reqs /\
    ran_tasks (ltrace w') ++ q ++ tasks_of reqs `sublist_of` accepted_tasks (ltrace w') /\
    (lossless (ltrace w') -> ran_tasks (ltrace w') ++ q ++ tasks_of reqs = accepted_tasks (ltrace w')).
Proof.
  eexists. split; [vm_compute; reflexivity|].
  eapply (syncer_fifo 1 2 11 12 idle 5 demo_sync).
  - intros t b l q reqs w Hs. apply wp_wlp, wp_ret. eauto.
  - do 4 eexists. exact demo_sync_at.
  - vm_compute. reflexivity.
Defined.

Lemma syncer_runs_all_witness :
  exists w' l' reqs', syncer_process_queue idle 5 1 demo_sync = Ret tt w' /\
    is_syncer w' 1 2 11 12 false l' [] reqs' /\
    (lossless (ltrace w') -> reqs' = [] /\ ran_tasks (ltrace w') = accepted_tasks (ltrace w')).
Proof.
  apply (syncer_runs_all 1 2 11 12 no_condition idle 5 false [] [] (map REQUEST_TYPE_ADD_TASK demo_tasks)).
  - apply no_condition_pending.
  - apply idle_client.
  - exact demo_sync_at.
  - exact I.
  - simpl. lia.
Defined.

Example demo_sync_runs :
  ran_tasks (ltrace (after (syncer_process_queue idle 5 1) demo_sync)) = demo_tasks.
Proof. vm_compute. reflexivity. Qed.
