(* ===== verification/FdHandler.v ===== *)
(** * Watched descriptors

    [libs/libeloop/src/fd.c]: descriptors registered with epoll, each with a
    callback; an event becomes a task of the syncer that calls it. *)

From stdpp Require Import base gmap list.
From S2P Require Import Prelude CMonad Dll LoopWorld TaskQueue Syncer.
Open Scope Z_scope.

Definition EPOLLIN : Z := 1.
Definition EPOLLOUT : Z := 4.
Definition EPOLLERR : Z := 8.
Definition EPOLLHUP : Z := 16.
Definition EPOLLRDHUP : Z := 8192.

Definition ELOOP_FD_EVENT_ERROR : Z := 1.
Definition ELOOP_FD_EVENT_HUP : Z := 2.
Definition ELOOP_FD_EVENT_READ : Z := 4.
Definition ELOOP_FD_EVENT_WRITE : Z := 8.

Definition epoll_event_to_fd_event (epoll_event : Z) : Z :=
  if epoll_event &? EPOLLERR then ELOOP_FD_EVENT_ERROR
  else if (epoll_event &? EPOLLHUP) || (epoll_event &? EPOLLRDHUP) then ELOOP_FD_EVENT_HUP
  else
    let event_mask := if epoll_event &? EPOLLIN then Z.lor 0 ELOOP_FD_EVENT_READ else 0 in
    if epoll_event &? EPOLLOUT then Z.lor event_mask ELOOP_FD_EVENT_WRITE else event_mask.

Section FdHandler.
Context {X : Type} `{!LoopEnv X}.
Local Notation W := (loop X).

Definition fd_data_new (handler fd cb ctx : Z) : M W Z :=
  fd_data <- malloc ;;
  if fd_data =? 0 then ret 0
  else
    zoom (list_add handler fd_data) ;;
    stobj fd_data (FdData fd cb ctx) ;;
    ret fd_data.

Definition fd_data_delete (fd_data : Z) : M W unit :=
  zoom (list_del fd_data) ;;
  free fd_data.

Definition fd_handler_new (syncer max_events : Z) : M W Z :=
  handler <- malloc ;;
  if handler =? 0 then ret 0
  else
    events_buffer <- malloc ;;
    if events_buffer =? 0 then free handler ;; ret 0
    else
      stobj events_buffer EventsBuffer ;;
      zoom (list_init handler) ;;
      poll_fd <- (fun w => os_call (os_epoll_create (dom (fdtab w))) w) ;;
      stobj handler (FdHandler syncer poll_fd max_events events_buffer) ;;
      if poll_fd <? 0 then free events_buffer ;; free handler ;; ret 0
      else modify (fun w => set_fdtab (<[poll_fd := EpollSet]> (fdtab w)) w) ;; ret handler.

(** [epoll_ctl(poll_fd, EPOLL_CTL_ADD, fd, {data.ptr = ptr})]: the set holds a
    descriptor once. *)
Definition epoll_ctl_add (poll_fd fd ptr : Z) : M W Z :=
  fun w =>
    match epoll w !! (poll_fd, fd) with
    | Some _ => Ret (-1) w
    | None =>
        let '(r, x) := os_epoll_add fd (lenv w) in
        if r <? 0 then Ret r (set_lenv x w)
        else Ret r (set_lenv x (set_epoll (<[(poll_fd, fd) := ptr]> (epoll w)) w))
    end.

(** The result of the removal is not looked at. *)
Definition epoll_ctl_del (poll_fd fd : Z) : M W unit :=
  modify (fun w => set_epoll (delete (poll_fd, fd) (epoll w)) w).

Definition fd_handler_add_fd (handler fd cb ctx : Z) : M W Z :=
  fd_data <- fd_data_new handler fd cb ctx ;;
  if fd_data =? 0 then ret INVALID_ID
  else
    '(_, poll_fd, _, _) <- ld_handler handler ;;
    '(fd', _, _) <- ld_fd_data fd_data ;;
    r <- epoll_ctl_add poll_fd fd' fd_data ;;
    if r <? 0 then fd_data_delete fd_data ;; ret INVALID_ID
    else ret fd_data.

Definition fd_handler_remove_fd (handler fd_id : Z) : M W unit :=
  '(_, poll_fd, _, _) <- ld_handler handler ;;
  '(fd, _, _) <- ld_fd_data fd_id ;;
  epoll_ctl_del poll_fd fd ;;
  fd_data_delete fd_id.

Definition fd_handler_delete (handler : Z) : M W unit :=
  list_for_each_safe handler (fun item => fd_handler_remove_fd handler item) ;;
  '(_, poll_fd, _, events_buffer) <- ld_handler handler ;;
  close poll_fd ;;
  free events_buffer ;;
  free handler.

Definition event_sync_ctx_new (fd_data event_mask : Z) : M W Z :=
  c <- malloc ;;
  if c =? 0 then ret 0 else stobj c (EventSyncCtx fd_data event_mask) ;; ret c.

Definition event_sync_ctx_delete (c : Z) : M W unit := free c.

(** The clients' callbacks of type [fd_cb_t]. *)
Context (user_fd : Z -> Z -> Z -> M W unit).

Definition fd_handler_sync_event (ctx : Z) : M W unit :=
  '(fd_data, event_mask) <- ld_event_ctx ctx ;;
  '(_, cb, fctx) <- ld_fd_data fd_data ;;
  user_fd cb fctx event_mask ;;
  event_sync_ctx_delete ctx.

(** [epoll_wait]: the registered pointers of the ready descriptors with their
    events, as many as fit in the buffer. *)
Definition epoll_wait (poll_fd max_events : Z) : M W (list (Z * Z)) :=
  fun w =>
    let watched := list_to_set (C := gset Z)
      (omap (fun kv => if fst (fst kv) =? poll_fd then Some (snd (fst kv)) else None)
            (map_to_list (epoll w))) in
    let '(ready, x) := os_epoll_wait watched (lenv w) in
    Ret (firstn (Z.to_nat max_events)
           (omap (fun p => match epoll w !! (poll_fd, fst p) with
                           | Some ptr => Some (ptr, snd p)
                           | None => None
                           end) ready))
        (set_lenv x w).

(** One round of the loop over the events.  Without memory the event is skipped;
    the result of [syncer_task_add] is not looked at. *)
Definition fd_handler_handle_event (handler : Z) (ev : Z * Z) : M W unit :=
  let event := epoll_event_to_fd_event (snd ev) in
  c <- event_sync_ctx_new (fst ev) event ;;
  if c =? 0 then emit (LostEvent (fst ev) event)
  else
    '(syncer, _, _, _) <- ld_handler handler ;;
    id <- syncer_task_add syncer fd_handler_sync_event_cb c ;;
    when (id =? INVALID_ID) (emit (LostEvent (fst ev) event)).

Definition fd_handler_handle_events (handler : Z) : M W unit :=
  '(_, poll_fd, max_events, _) <- ld_handler handler ;;
  events <- epoll_wait poll_fd max_events ;;
  for_each events (fd_handler_handle_event handler).
End FdHandler.

(** ** The set of watched descriptors *)

Section Watched.
Context {X : Type} `{!LoopEnv X}.
Local Notation W := (loop X).

(** The handler at [hp] watches the descriptors of the blocks [L]: they are
    linked in its list, and the kernel's set has exactly their addresses. *)
Record is_handler (w : W) (hp sp pfd maxe buf : Z) (L : list Z) : Prop := {
  ih_obj : objs w !! hp = Some (FdHandler sp pfd maxe buf);
  ih_list : dlist (lmem w) hp L;
  ih_data : forall a, a ∈ L ->
    exists fd cb ctx, objs w !! a = Some (FdData fd cb ctx) /\ epoll w !! (pfd, fd) = Some a;
  ih_epoll : forall fd a, epoll w !! (pfd, fd) = Some a ->
    a ∈ L /\ exists cb ctx, objs w !! a = Some (FdData fd cb ctx);
  ih_nonnull : 0 ∉ hp :: L;
}.

Definition is_fd_obj (o : obj) : bool :=
  match o with FdData _ _ _ | FdHandler _ _ _ _ => true | _ => false end.

(** What registering and removing descriptors leaves. *)
Definition fd_frame (w w' : W) : Prop :=
  preserves (fun o => negb (is_fd_obj o)) w w' /\
  fdtab w' = fdtab w /\ pipes w' = pipes w /\ ltrace w' = ltrace w.

Lemma ld_handler_eq (w : W) hp s p n b :
  objs w !! hp = Some (FdHandler s p n b) -> ld_handler hp w = Ret (s, p, n, b) w.
Proof. intros E. unfold ld_handler, bind, ldobj. by rewrite E. Qed.

Lemma ld_fd_data_eq (w : W) a fd cb ctx :
  objs w !! a = Some (FdData fd cb ctx) -> ld_fd_data a w = Ret (fd, cb, ctx) w.
Proof. intros E. unfold ld_fd_data, bind, ldobj. by rewrite E. Qed.

Lemma ld_event_ctx_eq (w : W) a d m :
  objs w !! a = Some (EventSyncCtx d m) -> ld_event_ctx a w = Ret (d, m) w.
Proof. intros E. unfold ld_event_ctx, bind, ldobj. by rewrite E. Qed.

Lemma is_handler_nodes w hp sp pfd maxe buf L a :
  is_handler w hp sp pfd maxe buf L -> a ∈ hp :: L ->
  exists o, objs w !! a = Some o /\ is_fd_obj o = true.
Proof.
  intros Hh [->|Ha]%elem_of_cons; [eexists; split; [apply Hh|done]|].
  destruct (ih_data _ _ _ _ _ _ _ Hh a Ha) as (fd & cb & ctx & E & _). eauto.
Qed.

(** Changes to a fresh block and to the handler's own nodes. *)
Lemma fd_frame_intro (w w' : W) (S : list Z) :
  (forall a, a ∉ S -> objs w' !! a = objs w !! a /\ lmem w' !! a = lmem w !! a) ->
  (forall a o, a ∈ S -> objs w !! a = Some o -> is_fd_obj o = true) ->
  fdtab w' = fdtab w -> pipes w' = pipes w -> ltrace w' = ltrace w -> fd_frame w w'.
Proof.
  intros H1 H2 Hf Hp Ht. split_and!; try done. intros b o E Ho.
  destruct (decide (b ∈ S)) as [Hb|Hb].
  - rewrite (H2 b o Hb E) in Ho. done.
  - destruct (H1 b Hb) as [-> ->]. done.
Qed.

(** Unlinking and releasing a watched block. *)
Lemma fd_data_delete_wp (w : W) hp L1 a L2 (Q : unit -> W -> Prop) :
  dlist (lmem w) hp (L1 ++ a :: L2) -> a <> 0 -> is_Some (objs w !! a) ->
  (forall m', dlist m' hp (L1 ++ L2) -> (forall b, b ∉ a :: hp :: L1 ++ L2 -> m' !! b = lmem w !! b) ->
     Q tt (set_objs (delete a (objs w)) (set_lmem m' w))) ->
  wp (fd_data_delete a) Q w.
Proof.
  intros Hd Ha Ho HQ. pose proof Hd as [Hnd _].
  apply wp_bind, wp_zoom. eapply list_del_dlist; [exact Hd|]. intros m1 Hd1 _ [_ T1].
  apply wp_free; [done|done|]. apply HQ.
  - eapply dlist_ext; [|exact Hd1]. intros b Hb. apply lookup_delete_ne.
    rewrite app_comm_cons, <-Permutation_middle, NoDup_cons in Hnd. simpl. set_solver.
  - intros b Hb. simpl. rewrite lookup_delete_ne by set_solver. by apply T1.
Qed.

Section Operations.
Context `{!MallocFresh X}.

Lemma fd_data_new_wp (w : W) hp sp pfd maxe buf L fd cb ctx (Q : Z -> W -> Prop) :
  is_handler w hp sp pfd maxe buf L ->
  (forall x, Q 0 (set_lenv x w)) ->
  (forall a m' x, a <> 0 -> objs w !! a = None -> a ∉ hp :: L -> dlist m' hp (L ++ [a]) ->
     (forall b, b ∉ a :: hp :: L -> m' !! b = lmem w !! b) ->
     Q a (set_lenv x (set_objs (<[a := FdData fd cb ctx]> (objs w)) (set_lmem m' w)))) ->
  wp (fd_data_new hp fd cb ctx) Q w.
Proof.
  intros Hh HQ0 HQ. apply wp_bind, wp_malloc; [intros x; apply HQ0|].
  intros a n x Ha Hn _. pose proof (proj2 (Z.eqb_neq a 0) Ha) as ->.
  assert (Hni : a ∉ hp :: L).
  { intros Hi. destruct (is_handler_nodes _ _ _ _ _ _ _ _ Hh Hi) as (o & E & _). congruence. }
  apply wp_bind, wp_zoom. change (list_add hp a) with (list_add (hd hp []) a).
  apply (list_add_dlist _ hp L []); simpl; rewrite ?app_nil_r; [|rewrite lookup_insert_eq; eauto|done|].
  { eapply dlist_ext; [|apply Hh]. intros b Hb. apply lookup_insert_ne. set_solver. }
  intros m' Hd' [_ T]. apply wp_bind, wp_stobj; [simpl; rewrite lookup_insert_eq; eauto|].
  apply wp_ret. simpl. rewrite insert_insert_eq. eapply (HQ a m' x); try done.
  intros b Hb. rewrite T by done. apply lookup_insert_ne. set_solver.
Qed.

(** Changes to the handler's nodes and to a block that was not allocated. *)
Lemma handler_frame (w w' : W) hp sp pfd maxe buf L a :
  is_handler w hp sp pfd maxe buf L -> objs w !! a = None ->
  (forall b, b ∉ a :: hp :: L -> objs w' !! b = objs w !! b /\ lmem w' !! b = lmem w !! b) ->
  fdtab w' = fdtab w -> pipes w' = pipes w -> ltrace w' = ltrace w -> fd_frame w w'.
Proof.
  intros Hh Hn Hx. apply (fd_frame_intro _ _ (a :: hp :: L)); [done|].
  intros b o [->|Hb]%elem_of_cons Eb; [congruence|].
  destruct (is_handler_nodes _ _ _ _ _ _ _ _ Hh Hb) as (o' & E' & ?). congruence.
Qed.

(** The failure path of [fd_handler_add_fd] puts everything back. *)
Lemma add_fd_undo (w w1 : W) hp sp pfd maxe buf L a o :
  is_handler w hp sp pfd maxe buf L -> objs w !! a = None -> a <> 0 ->
  objs w1 = <[a := o]> (objs w) -> dlist (lmem w1) hp (L ++ [a]) ->
  (forall b, b ∉ a :: hp :: L -> lmem w1 !! b = lmem w !! b) ->
  fdtab w1 = fdtab w -> pipes w1 = pipes w -> ltrace w1 = ltrace w -> epoll w1 = epoll w ->
  wp (fd_data_delete a ;; ret INVALID_ID)
     (fun r w' => fd_frame w w' /\ r = INVALID_ID /\ is_handler w' hp sp pfd maxe buf L /\
                  objs w' = objs w /\ epoll w' = epoll w) w1.
Proof.
  intros Hh Hn Ha Eo Hd1 T1 Ef Ep Et Ee. pose proof Hh as [Ho Hl Hd He H0].
  apply wp_bind. eapply (fd_data_delete_wp _ hp L a []); [done|done|by rewrite Eo, lookup_insert_eq|].
  intros m2 Hd2 T2. rewrite app_nil_r in *. apply wp_ret.
  assert (Eo2 : delete a (objs w1) = objs w) by (rewrite Eo, delete_insert_id; done).
  split; [eapply handler_frame; [exact Hh|exact Hn| |done..]|split_and!; simpl; try done].
  - intros b Hb. simpl. rewrite Eo2. split; [done|]. rewrite T2 by done. by apply T1.
  - split; simpl; rewrite ?Eo2, ?Ee; done.
Qed.

(** The success path. *)
Lemma is_handler_added (w : W) hp sp pfd maxe buf L a m' x fd cb ctx :
  is_handler w hp sp pfd maxe buf L -> a <> 0 -> a ∉ hp :: L ->
  epoll w !! (pfd, fd) = None -> dlist m' hp (L ++ [a]) ->
  is_handler (set_lenv x (set_epoll (<[(pfd, fd) := a]> (epoll w))
                (set_objs (<[a := FdData fd cb ctx]> (objs w)) (set_lmem m' w))))
             hp sp pfd maxe buf (L ++ [a]).
Proof.
  intros [Ho Hl Hd He H0] Ha Hni Ep Hd1. split; simpl.
  - rewrite lookup_insert_ne; [done|set_solver].
  - done.
  - intros b [Hb| ->%list_elem_of_singleton]%elem_of_app.
    + destruct (Hd b Hb) as (fd' & cb' & ctx' & E1 & E2). exists fd', cb', ctx'.
      rewrite !lookup_insert_ne; [done|congruence|set_solver].
    + exists fd, cb, ctx. by rewrite !lookup_insert_eq.
  - intros fd' b Hb. apply lookup_insert_Some in Hb as [[[= <-] <-]|[Hne Hb]].
    + split; [set_solver|]. exists cb, ctx. by rewrite lookup_insert_eq.
    + destruct (He _ _ Hb) as (Hin & cb' & ctx' & E). split; [set_solver|].
      exists cb', ctx'. rewrite lookup_insert_ne; [done|set_solver].
  - set_solver.
Qed.

(** Both outcomes of [fd_handler_add_fd]. *)
Lemma fd_handler_add_fd_wp (w : W) (hp sp pfd maxe buf fd cb ctx : Z) (L : list Z) :
  is_handler w hp sp pfd maxe buf L ->
  wp (fd_handler_add_fd hp fd cb ctx)
     (fun r w' => fd_frame w w' /\
        (r = INVALID_ID /\ is_handler w' hp sp pfd maxe buf L /\ objs w' = objs w /\ epoll w' = epoll w \/
         r <> INVALID_ID /\ objs w !! r = None /\ epoll w !! (pfd, fd) = None /\
         is_handler w' hp sp pfd maxe buf (L ++ [r]) /\
         objs w' = <[r := FdData fd cb ctx]> (objs w) /\ epoll w' = <[(pfd, fd) := r]> (epoll w))) w.
Proof.
  intros Hh. apply wp_bind. eapply fd_data_new_wp; [exact Hh| |].
  { intros x. apply wp_ret. split; [apply (fd_frame_intro _ _ []); [done|set_solver|done..]|].
    left. split; [done|]. by destruct Hh. }
  intros a m1 x Ha Hn Hni Hd1 T1. pose proof (proj2 (Z.eqb_neq a 0) Ha) as ->.
  apply wp_bind. eapply wp_eq;
    [apply ld_handler_eq; simpl; rewrite lookup_insert_ne; [apply Hh|set_solver]|].
  apply wp_bind. eapply wp_eq; [apply ld_fd_data_eq; simpl; apply lookup_insert_eq|].
  apply wp_bind. unfold wp at 1, epoll_ctl_add. simpl.
  destruct (epoll w !! (pfd, fd)) as [b|] eqn:Ep.
  { eapply wp_mono; [|eapply add_fd_undo; done]. simpl. tauto. }
  destruct (os_epoll_add fd x) as [r x'] eqn:Er. destruct (r <? 0) eqn:Er0; rewrite Er0.
  { eapply wp_mono; [|eapply add_fd_undo; done]. simpl. tauto. }
  apply wp_ret. split.
  - eapply handler_frame; [exact Hh|exact Hn| |done..]. simpl.
    intros b Hb. rewrite lookup_insert_ne by set_solver. split; [done|by apply T1].
  - right. split_and!; [done|done|done|by apply is_handler_added|done|done].
Qed.

(** Removing a watched descriptor. *)
Lemma fd_handler_remove_fd_wp (w : W) (hp sp pfd maxe buf : Z) (L1 : list Z) (a : Z) (L2 : list Z) :
  is_handler w hp sp pfd maxe buf (L1 ++ a :: L2) ->
  wp (fd_handler_remove_fd hp a)
     (fun _ w' => fd_frame w w' /\ is_handler w' hp sp pfd maxe buf (L1 ++ L2) /\
        objs w' = delete a (objs w) /\
        exists fd cb ctx, objs w !! a = Some (FdData fd cb ctx) /\
                          epoll w' = delete (pfd, fd) (epoll w)) w.
Proof.
  intros Hh. pose proof Hh as [Ho Hl Hd He H0].
  destruct (Hd a) as (fd & cb & ctx & Ea & Epa); [set_solver|].
  pose proof Hl as [Hnd _]. rewrite app_comm_cons, <-Permutation_middle, NoDup_cons in Hnd.
  destruct Hnd as [Hna _]. assert (Ha0 : a <> 0) by set_solver.
  apply wp_bind. eapply wp_eq; [by apply ld_handler_eq|].
  apply wp_bind. eapply wp_eq; [by apply ld_fd_data_eq|].
  apply wp_bind, wp_modify. eapply fd_data_delete_wp; [exact Hl|done|simpl; rewrite Ea; done|].
  simpl. intros m' Hd' T'. split_and!; [| |done|eauto 6].
  - apply (fd_frame_intro _ _ (a :: hp :: L1 ++ L2)); try done; simpl.
    + intros b Hb. rewrite lookup_delete_ne by set_solver. split; [done|by apply T'].
    + intros b o Hb Eb. destruct (is_handler_nodes _ _ _ _ _ _ _ b Hh) as (o' & E' & ?); [set_solver|congruence].
  - split; simpl.
    + rewrite lookup_delete_ne; [done|set_solver].
    + done.
    + intros b Hb. destruct (Hd b) as (fd' & cb' & ctx' & E1 & E2); [set_solver|].
      exists fd', cb', ctx'. rewrite !lookup_delete_ne; [done| |set_solver].
      intros [= <-]. simplify_eq. set_solver.
    + intros fd' b Hb. apply lookup_delete_Some in Hb as [Hne Hb].
      destruct (He _ _ Hb) as (Hin & cb' & ctx' & E). assert (b <> a) by congruence.
      split; [set_solver|]. exists cb', ctx'. rewrite lookup_delete_ne; done.
    + set_solver.
Qed.

(** ... and leaves the links of the other structs and [eloop_ctx]. *)
Lemma fd_handler_remove_fd_ctx (w : W) hp sp pfd maxe buf a L :
  is_handler w hp sp pfd maxe buf (a :: L) ->
  wp (fd_handler_remove_fd hp a)
     (fun _ w' => (forall b, b ∉ a :: hp :: L -> lmem w' !! b = lmem w !! b) /\
                  eloop_ctx w' = eloop_ctx w) w.
Proof.
  intros Hh. pose proof Hh as [Ho Hl Hd He H0].
  destruct (Hd a) as (fd & cb & ctx & Ea & _); [set_solver|].
  apply wp_bind. eapply wp_eq; [by apply ld_handler_eq|].
  apply wp_bind. eapply wp_eq; [by apply ld_fd_data_eq|].
  apply wp_bind, wp_modify. eapply (fd_data_delete_wp _ hp [] a L); [exact Hl|set_solver|simpl; by rewrite Ea|].
  simpl. intros m' _ T'. split; done.
Qed.

(** ** Events *)

(** The handler only depends on its own structs. *)
Lemma is_handler_frame (w w' : W) hp sp pfd maxe buf L :
  preserves is_fd_obj w w' -> epoll w' = epoll w ->
  is_handler w hp sp pfd maxe buf L -> is_handler w' hp sp pfd maxe buf L.
Proof.
  intros HP He Hh. pose proof Hh as [Ho Hl Hd Hep H0]. split; [by eapply HP| | | |done].
  - eapply dlist_ext; [|exact Hl]. intros a Ha.
    destruct (is_handler_nodes _ _ _ _ _ _ _ _ Hh Ha) as (o & E & Hfo). by eapply HP.
  - intros a Ha. destruct (Hd a Ha) as (fd & cb & ctx & E1 & E2). exists fd, cb, ctx.
    rewrite He. split; [by eapply HP|done].
  - intros fd a. rewrite He. intros Ha. destruct (Hep _ _ Ha) as (Hin & cb & ctx & E).
    split; [done|]. exists cb, ctx. by eapply HP.
Qed.

(** The task of an event can run: its context and the descriptor's block are
    live.  A timer's task needs the timer. *)
Definition task_ready (w : W) (t : task) : Prop :=
  match t_cb t with
  | fd_handler_sync_event_cb => t_ctx t <> 0 /\
      exists d m fd cb ctx, objs w !! t_ctx t = Some (EventSyncCtx d m) /\
                            objs w !! d = Some (FdData fd cb ctx)
  | schd_timer_sync_handler_cb =>
      exists e p cb ctx s, objs w !! t_ctx t = Some (SchdTimer e p cb ctx s)
  | User_cb _ => True
  end.

Definition event_ctxs (ts : list task) : list Z :=
  omap (fun t => match t_cb t with fd_handler_sync_event_cb => Some (t_ctx t) | _ => None end) ts.

Definition ready (w : W) (ts : list task) : Prop :=
  Forall (task_ready w) ts /\ NoDup (event_ctxs ts).

Lemma event_ctxs_sublist ts ts' : ts' `sublist_of` ts -> event_ctxs ts' `sublist_of` event_ctxs ts.
Proof.
  unfold event_ctxs. induction 1 as [|t ts' ts _ IH|t ts' ts _ IH]; simpl; [done|..];
    destruct (t_cb t); try done; [by constructor|by apply sublist_cons].
Qed.

#[export] Instance ready_pending : Pending ready.
Proof.
  split.
  - intros w w' ts Ho [Hr Hn]. split; [|done]. eapply Forall_impl; [exact Hr|].
    intros t. unfold task_ready. destruct (t_cb t); [| |done].
    + intros (H0 & d & m & fd & cb & ctx & E1 & E2). split; [done|]. exists d, m, fd, cb, ctx.
      split; eapply Ho; eauto.
    + intros (e & p & cb & ctx & s & E1). exists e, p, cb, ctx, s. eapply Ho; eauto.
  - intros w ts ts' Hs [Hr Hn]. split.
    { rewrite Forall_forall in *. intros t Ht. apply Hr. by eapply sublist_subseteq. }
    eapply sublist_NoDup; [done|by apply event_ctxs_sublist].
Qed.

(** The task that an event became. *)
Definition delivers (w : W) (t : task) (ev : Z * Z) : Prop :=
  t_cb t = fd_handler_sync_event_cb /\
  objs w !! t_ctx t = Some (EventSyncCtx (fst ev) (epoll_event_to_fd_event (snd ev))).

Section Deliver.
Context (sp qp rd wr : Z) (hp pfd maxe buf : Z) (L : list Z).
Context (d : nat) (b : bool) (l : list Z) (q : list task).

(** The loop between two callbacks: the syncer, the watched descriptors, and
    waiting tasks that can run. *)
Definition loop_at (reqs : list request) (w : W) : Prop :=
  sync_at sp qp rd wr d b l q reqs w /\ is_handler w hp sp pfd maxe buf L /\
  ready w (q ++ tasks_of reqs).

Lemma tasks_of_app r1 r2 : tasks_of (r1 ++ r2) = tasks_of r1 ++ tasks_of r2.
Proof. apply omap_app. Qed.

(** A new block disturbs nothing. *)
Lemma loop_at_alloc reqs w a o n x :
  loop_at reqs w -> objs w !! a = None ->
  loop_at reqs (set_lenv x (set_objs (<[a := o]> (objs w)) (set_lmem (<[a := n]> (lmem w)) w))).
Proof.
  intros (Hs & Hh & Hr) Hn.
  assert (HP : forall P, preserves P w
     (set_lenv x (set_objs (<[a := o]> (objs w)) (set_lmem (<[a := n]> (lmem w)) w)))).
  { intros P c o' Hc _. simpl. rewrite !lookup_insert_ne; [done|congruence..]. }
  split_and!.
  - eapply sync_at_frame; [apply HP|done..].
  - eapply is_handler_frame; [apply HP|done..].
  - eapply pending_stable; [|exact Hr]. intros c o' Hc _. by apply (HP (fun _ => true)).
Qed.

Lemma loop_at_other reqs w e :
  other_event e -> loop_at reqs w -> loop_at reqs (set_ltrace (ltrace w ++ [e]) w).
Proof.
  intros He ([[? [] ? ? ? ?] Hi] & [] & Hr). split_and!; [split; [done|by apply history_other]|done|].
  eapply pending_stable; [|exact Hr]. by intros c o.
Qed.

(** A fresh context is not the context of a waiting task. *)
Lemma ready_fresh w ts c : ready w ts -> objs w !! c = None -> c ∉ event_ctxs ts.
Proof.
  intros [Hr _] Hc Hin. unfold event_ctxs in Hin. apply list_elem_of_omap in Hin as (t & Ht & E).
  rewrite Forall_forall in Hr. specialize (Hr t Ht). unfold task_ready in Hr.
  destruct (t_cb t); simplify_eq. destruct Hr as (_ & ? & ? & ? & ? & ? & E1 & _). congruence.
Qed.

Lemma ready_snoc w ts t :
  ready w ts -> t_ctx t ∉ event_ctxs ts -> task_ready w t -> ready w (ts ++ [t]).
Proof.
  intros [Hr Hn] Hc Ht. split; [apply Forall_app; by split; [|constructor]|].
  unfold event_ctxs in *. rewrite omap_app. apply NoDup_app. split; [done|]. simpl.
  destruct (t_cb t); simpl; split_and!; try apply NoDup_singleton; try constructor; set_solver.
Qed.

Lemma lost_not_lossless tr x y : ~ lossless (tr ++ [LostEvent x y]).
Proof. unfold lossless. rewrite Forall_app, Forall_singleton. tauto. Qed.

Lemma accepted_lost tr x y : accepted_tasks (tr ++ [LostEvent x y]) = accepted_tasks tr.
Proof. unfold accepted_tasks. rewrite omap_app. apply app_nil_r. Qed.

Lemma accepted_app tr t :
  accepted_tasks (tr ++ [Accepted (REQUEST_TYPE_ADD_TASK t)]) = accepted_tasks tr ++ [t].
Proof. unfold accepted_tasks. by rewrite omap_app. Qed.

(** What handling events leaves: the other structs, the trace so far, [eloop_ctx]. *)
Definition ev_step (w w' : W) : Prop :=
  same_others w w' /\ ltrace w `prefix_of` ltrace w' /\ eloop_ctx w' = eloop_ctx w.

Lemma ev_step_refl w : ev_step w w.
Proof. split_and!; [by intros c o|done|done]. Qed.

Lemma ev_step_trans w1 w2 w3 : ev_step w1 w2 -> ev_step w2 w3 -> ev_step w1 w3.
Proof.
  intros (H1 & H2 & H3) (H4 & H5 & H6).
  split_and!; [eauto using same_others_trans|by etrans|congruence].
Qed.

(** One event: a task is requested, or the event is given up in the trace. *)
Lemma handle_event_wp reqs w ev :
  loop_at reqs w -> fst ev ∈ L ->
  wp (fd_handler_handle_event hp ev)
     (fun _ w' => ev_step w w' /\
        ((exists t, loop_at (reqs ++ [REQUEST_TYPE_ADD_TASK t]) w' /\ delivers w' t ev /\
            accepted_tasks (ltrace w') = accepted_tasks (ltrace w) ++ [t]) \/
         (loop_at reqs w' /\ ~ lossless (ltrace w') /\
            accepted_tasks (ltrace w') = accepted_tasks (ltrace w)))) w.
Proof.
  intros Hl Hev. apply wp_bind, wp_bind, wp_malloc.
  { intros x. apply wp_ret. apply wp_modify. split; [split_and!; [by intros c o|by eexists|done]|]. right.
    split; [|split; [apply lost_not_lossless|apply accepted_lost]].
    apply (loop_at_other reqs (set_lenv x w)); [done|].
    destruct Hl as ([[? [] ? ? ? ?] ?] & [] & ?). split_and!; done. }
  intros a n x Ha Hn _. pose proof (proj2 (Z.eqb_neq a 0) Ha) as Ea. rewrite Ea.
  apply wp_bind, wp_stobj; [simpl; rewrite lookup_insert_eq; eauto|]. apply wp_ret. rewrite Ea.
  simpl. rewrite insert_insert_eq.
  set (o := EventSyncCtx _ _). pose proof (loop_at_alloc reqs w a o n x Hl Hn) as Hl1.
  set (w1 := set_lenv _ _) in Hl1. match goal with |- wp _ _ ?w0 => change w0 with w1 end.
  assert (Ho1 : ev_step w w1).
  { split_and!; [|done|done]. intros c o' Hc _. subst w1. simpl. rewrite lookup_insert_ne; [done|congruence]. }
  assert (Et1 : ltrace w1 = ltrace w) by done.
  assert (Ea1 : objs w1 !! a = Some o) by (subst w1; simpl; apply lookup_insert_eq).
  pose proof Hl1 as (Hs1 & Hh1 & Hr1). pose proof Hl as (_ & _ & Hr).
  apply wp_bind. eapply wp_eq; [apply ld_handler_eq, Hh1|].
  apply wp_bind. eapply wp_mono; [|by eapply syncer_task_add_wp]. clearbody w1. simpl.
  intros id w2 H2. destruct (_ <? _)%nat.
  - destruct H2 as (-> & Hs2 & Eo2 & Em2 & Ep2 & Ec2 & Et2). unfold INVALID_ID. rewrite Ea. apply wp_ret.
    split; [eapply ev_step_trans; [exact Ho1|];
            split_and!; [intros c o' Hc Hx; by rewrite Eo2|rewrite Et2; by eexists|done]|]. left.
    exists (mk_task fd_handler_sync_event_cb a a).
    split; [split_and!|split; [split; [done|by rewrite Eo2]|by rewrite Et2, accepted_app, Et1]].
    + exact Hs2.
    + eapply is_handler_frame; [|exact Ep2|exact Hh1]. intros c o' Hc _. by rewrite Eo2, Em2.
    + rewrite tasks_of_app, app_assoc. apply ready_snoc; [|by apply (ready_fresh w)|].
      * eapply pending_stable; [|exact Hr1]. intros c o' Hc _. by rewrite Eo2.
      * split; [done|]. destruct (ih_data _ _ _ _ _ _ _ Hh1 _ Hev) as (fd & cb & ctx & E & _).
        rewrite Eo2. simpl. unfold o in Ea1. eauto 8.
  - destruct H2 as [-> ->]. apply wp_modify. simpl.
    split; [eapply ev_step_trans; [exact Ho1|]; split_and!; [by intros c o'|by eexists|done]|].
    right. split; [by apply loop_at_other|]. split; [apply lost_not_lossless|].
    by rewrite accepted_lost, Et1.
Qed.

Lemma delivers_stable w w' t ev : same_others w w' -> delivers w t ev -> delivers w' t ev.
Proof. intros Ho [Ht E]. split; [done|]. by eapply Ho. Qed.

Lemma lossless_prefix tr tr' : tr `prefix_of` tr' -> lossless tr' -> lossless tr.
Proof. intros [k ->]. unfold lossless. rewrite Forall_app. tauto. Qed.

Lemma handle_event_list_wp evs reqs w :
  loop_at reqs w -> Forall (fun ev => fst ev ∈ L) evs ->
  wp (for_each evs (fd_handler_handle_event hp))
     (fun _ w' => exists new, loop_at (reqs ++ map REQUEST_TYPE_ADD_TASK new) w' /\
        (length new <= length evs)%nat /\ ev_step w w' /\
        accepted_tasks (ltrace w') = accepted_tasks (ltrace w) ++ new /\
        (lossless (ltrace w') -> Forall2 (delivers w') new evs)) w.
Proof.
  revert reqs w. induction evs as [|ev evs IH]; intros reqs w Hl He; simpl.
  { apply wp_ret. exists []. simpl. rewrite app_nil_r. split; [done|].
    split_and!; [lia|apply ev_step_refl|by rewrite app_nil_r|done]. }
  apply Forall_cons in He as [Hev He].
  apply wp_bind. eapply wp_mono; [|by apply handle_event_wp].
  intros u w1 (Ho1 & [(t & Hl1 & Hd1 & Ha1)|(Hl1 & Hn1 & Ha1)]).
  - eapply wp_mono; [|by apply IH]. intros u2 w2 (new & Hl2 & HL2 & Ho2 & Ha2 & Hd2).
    exists (t :: new). simpl. rewrite <-app_assoc in Hl2. simpl in Hl2.
    split; [exact Hl2|].
    split_and!; [lia|eauto using ev_step_trans|by rewrite Ha2, Ha1, <-app_assoc|].
    intros Hll. constructor; [eapply delivers_stable; [apply Ho2|done]|auto].
  - eapply wp_mono; [|by apply IH]. intros u2 w2 (new & Hl2 & HL2 & Ho2 & Ha2 & Hd2).
    exists new. split; [exact Hl2|].
    split_and!; [lia|eauto using ev_step_trans|by rewrite Ha2, Ha1|].
    intros Hll. exfalso. apply Hn1. eapply lossless_prefix; [apply Ho2|done].
Qed.

(** The kernel reports registered pointers, no more than the buffer holds. *)
Lemma epoll_wait_wp reqs w (Q : list (Z * Z) -> W -> Prop) :
  loop_at reqs w ->
  (forall evs x, epoll_wait pfd maxe w = Ret evs (set_lenv x w) ->
     Forall (fun ev => fst ev ∈ L) evs -> (length evs <= Z.to_nat maxe)%nat ->
     Q evs (set_lenv x w)) ->
  wp (epoll_wait pfd maxe) Q w.
Proof.
  intros (_ & Hh & _) HQ. unfold wp. unfold epoll_wait in *.
  destruct (os_epoll_wait _ _) as [evs x]. apply HQ; [done| |rewrite length_firstn; lia].
  apply Forall_forall. intros [p m] Hin.
  apply (sublist_subseteq _ _ (sublist_take _ _)) in Hin.
  apply list_elem_of_omap in Hin as ([fd m'] & _ & E). simpl in E.
  destruct (epoll w !! (pfd, fd)) as [a|] eqn:Ea; simplify_eq. simpl. by eapply Hh.
Qed.

(** Waiting for events requests one task per reported event, in their order. *)
Lemma handle_events_wp reqs w :
  loop_at reqs w ->
  wp (fd_handler_handle_events hp)
     (fun _ w' => exists evs new, loop_at (reqs ++ map REQUEST_TYPE_ADD_TASK new) w' /\
        (length new <= Z.to_nat maxe)%nat /\ ev_step w w' /\
        (exists x, epoll_wait pfd maxe w = Ret evs (set_lenv x w)) /\
        accepted_tasks (ltrace w') = accepted_tasks (ltrace w) ++ new /\
        (lossless (ltrace w') -> Forall2 (delivers w') new evs)) w.
Proof.
  intros Hl. pose proof Hl as (_ & Hh & _).
  apply wp_bind. eapply wp_eq; [apply ld_handler_eq, Hh|].
  apply wp_bind. eapply epoll_wait_wp; [exact Hl|]. intros evs x Hw He HL.
  assert (Hl1 : loop_at reqs (set_lenv x w)).
  { destruct Hl as ([[? [] ? ? ? ?] ?] & [] & ?). split_and!; done. }
  eapply wp_mono; [|by apply handle_event_list_wp].
  intros u w' (new & Hl2 & HL2 & Ho & Ha & Hd). exists evs, new.
  split; [exact Hl2|]. split_and!; [lia|exact Ho|eauto|done|done].
Qed.
End Deliver.
End Operations.
End Watched.

(** C34: Registering a descriptor either returns [INVALID_ID] with the heap's blocks
    and the kernel's set as they were (no memory, a descriptor watched already, or
    a refusal of the kernel), or returns the address of a new block that is linked
    in the handler's list and registered in the kernel's set.  Registering and then
    removing a descriptor restores the blocks and the set. *)
Theorem watch_roundtrip {X : Type} {E : LoopEnv X} {MF : MallocFresh X} (w : loop X)
    (hp sp pfd maxe buf fd cb ctx : Z) (L : list Z) :
  is_handler w hp sp pfd maxe buf L ->
  wp (fd_handler_add_fd hp fd cb ctx)
     (fun r w' => fd_frame w w' /\
        (r = INVALID_ID /\ is_handler w' hp sp pfd maxe buf L /\ objs w' = objs w /\ epoll w' = epoll w \/
         r <> INVALID_ID /\ objs w !! r = None /\ epoll w !! (pfd, fd) = None /\
         is_handler w' hp sp pfd maxe buf (L ++ [r]) /\
         objs w' = <[r := FdData fd cb ctx]> (objs w) /\ epoll w' = <[(pfd, fd) := r]> (epoll w))) w /\
  wp (r <- fd_handler_add_fd hp fd cb ctx ;;
      when (negb (r =? INVALID_ID)) (fd_handler_remove_fd hp r))
     (fun _ w' => is_handler w' hp sp pfd maxe buf L /\ objs w' = objs w /\ epoll w' = epoll w) w.
Proof.
  intros Hh. split; [by apply fd_handler_add_fd_wp|].
  apply wp_bind. eapply wp_mono; [|by apply fd_handler_add_fd_wp].
  intros r w1 [_ [(-> & H1 & H2 & H3)|(Hr & Hn & Hp & H1 & H2 & H3)]]; [by apply wp_ret|].
  rewrite (proj2 (Z.eqb_neq r INVALID_ID) Hr). simpl.
  eapply wp_mono; [|apply fd_handler_remove_fd_wp; exact H1].
  intros u w2 (_ & Hh2 & Eo & fd' & cb' & ctx' & Er & Ee). rewrite app_nil_r in Hh2.
  rewrite H2, lookup_insert_eq in Er. simplify_eq.
  split; [done|]. rewrite Eo, H2, Ee, H3. by rewrite !delete_insert_id.
Qed.

(** An empty set of watched descriptors, at the blocks 1 and 2. *)
Definition demo_handler : loop demo_os :=
  mk_loop (list_to_map [(1, mk_list_head 1 1)])
          (list_to_map [(1, FdHandler 9 13 512 2); (2, EventsBuffer)])
          (list_to_map [(13, EpollSet)]) ∅ ∅ (mk_eloop_ctx 0 0 0 false) [] (mk_demo_os 3 100 []).

Lemma demo_handler_is : is_handler demo_handler 1 9 13 512 2 [].
Proof.
  split; [vm_compute; reflexivity| |set_solver| |set_solver].
  - split; [apply NoDup_singleton|]. vm_compute. repeat split.
  - intros fd a Ha. change (epoll demo_handler) with (∅ : gmap (Z * Z) Z) in Ha.
    by rewrite lookup_empty in Ha.
Qed.

Lemma watch_roundtrip_witness :
  wp (r <- fd_handler_add_fd 1 5 7 8 ;; when (negb (r =? INVALID_ID)) (fd_handler_remove_fd 1 r))
     (fun _ w' => is_handler w' 1 9 13 512 2 [] /\ objs w' = objs demo_handler /\
                  epoll w' = epoll demo_handler) demo_handler.
Proof. exact (proj2 (watch_roundtrip demo_handler 1 9 13 512 2 5 7 8 [] demo_handler_is)). Defined.

(** The translation of epoll's events: an error hides everything else, a hang-up
    (of either end) hides pending input and output, and otherwise READ and WRITE are
    exactly EPOLLIN and EPOLLOUT. *)
Theorem epoll_event_to_fd_event_spec (e k : Z) :
  0 <= k ->
  Z.testbit (epoll_event_to_fd_event e) k =
  let err := Z.testbit e 3 in
  let hup := Z.testbit e 4 || Z.testbit e 13 in
  ((k =? 0) && err) || ((k =? 1) && negb err && hup) ||
  ((k =? 2) && negb err && negb hup && Z.testbit e 0) ||
  ((k =? 3) && negb err && negb hup && Z.testbit e 2).
Proof.
  intros Hk. unfold epoll_event_to_fd_event.
  change (e &? EPOLLERR) with (has e (2 ^ 3)). change (e &? EPOLLHUP) with (has e (2 ^ 4)).
  change (e &? EPOLLRDHUP) with (has e (2 ^ 13)). change (e &? EPOLLIN) with (has e (2 ^ 0)).
  change (e &? EPOLLOUT) with (has e (2 ^ 2)). rewrite !has_testbit by lia. cbv zeta.
  assert (B : forall n, 0 <= n -> Z.testbit (2 ^ n) k = (k =? n))
    by (intros n Hn; rewrite Z.pow2_bits_eqb by lia; apply Z.eqb_sym).
  change ELOOP_FD_EVENT_ERROR with (2 ^ 0). change ELOOP_FD_EVENT_HUP with (2 ^ 1).
  change ELOOP_FD_EVENT_READ with (2 ^ 2). change ELOOP_FD_EVENT_WRITE with (2 ^ 3).
  destruct (Z.testbit e 3), (Z.testbit e 4), (Z.testbit e 13), (Z.testbit e 0), (Z.testbit e 2);
    cbn [orb andb negb]; rewrite ?Z.lor_spec, ?Z.bits_0, ?B by lia;
    destruct (k =? 0), (k =? 1), (k =? 2), (k =? 3); reflexivity.
Qed.
