(* ===== verification/EventLoop.v ===== *)
(** * The event loop and its timers

    [libs/libeloop/src/scheduler.c] with its list of timers in memory.  [Eloop]
    has the same operations over the network manager's state, where a timer is an
    entry of a list; here a timer is a block linked into the scheduler's list.

    [libs/libeloop/src/eloop.c]: one syncer, one scheduler and one set of watched
    descriptors behind global functions, and the loop that waits for events and
    runs the tasks they cause. *)

From stdpp Require Import base gmap list.
From S2P Require Import Prelude CMonad Dll LoopWorld TaskQueue Syncer FdHandler.
Open Scope Z_scope.

Section Scheduler.
Context {X : Type} `{!LoopEnv X}.
Local Notation W := (loop X).

(** [timer_settime] on the kernel timer of a [struct schd_timer]. *)
Definition timer_settime (timer val_ms : Z) : M W Z :=
  r <- os_call (os_timer_settime timer) ;;
  when (r =? 0) (emit (TimerSet timer (negb (val_ms =? 0)))) ;;
  ret r.

Definition scheduler_timer_start (timer_id : Z) : M W Z :=
  '(timeout_ms, _, _, _, _) <- ld_timer timer_id ;;
  timer_settime timer_id timeout_ms.

Definition scheduler_timer_stop (timer_id : Z) : M W Z :=
  '(_, _, _, _, _) <- ld_timer timer_id ;;
  timer_settime timer_id 0.

(** The clients' callbacks of type [task_cb_t]. *)
Context (user_task : Z -> Z -> M W unit).

Definition schd_timer_sync_handler (ctx : Z) : M W unit :=
  '(_, _, cb, tctx, _) <- ld_timer ctx ;;
  user_task cb tctx.

(** Runs in a thread of the kernel timer. *)
Definition schd_timer_handle_timeout (timer : Z) : M W unit :=
  '(_, _, _, _, syncer) <- ld_timer timer ;;
  syncer_task_add syncer schd_timer_sync_handler_cb timer ;;
  ret tt.

Definition schd_timer_init_system_timer : M W Z := os_call os_timer_create.

Definition schd_timer_init_system_timer_attr : M W Z :=
  r <- os_call os_attr_init ;;
  if negb (r =? 0) then ret (-1) else os_call os_attr_setdetach.

Definition schd_timer_destroy_system_timer_attr (timer : Z) : M W Z := os_call (os_attr_destroy timer).

(** A failed block is released on each path. *)
Definition scheduler_timer_new (schd cb ctx expires_ms period_ms : Z) : M W Z :=
  timer <- malloc ;;
  if timer =? 0 then ret INVALID_ID
  else
    syncer <- ld_scheduler schd ;;
    stobj timer (SchdTimer expires_ms period_ms cb ctx syncer) ;;
    a <- schd_timer_init_system_timer_attr ;;
    if negb (a =? 0) then free timer ;; ret INVALID_ID
    else
      r <- schd_timer_init_system_timer ;;
      if negb (r =? 0) then
        schd_timer_destroy_system_timer_attr timer ;; free timer ;; ret INVALID_ID
      else zoom (list_add schd timer) ;; ret timer.

Definition scheduler_timer_delete (timer_id : Z) : M W unit :=
  zoom (list_del timer_id) ;;
  _ <- ld_timer timer_id ;;
  os_call (os_timer_delete timer_id) ;;
  schd_timer_destroy_system_timer_attr timer_id ;;
  free timer_id.

Definition scheduler_new (syncer : Z) : M W Z :=
  schd <- malloc ;;
  if schd =? 0 then ret 0
  else
    zoom (list_init schd) ;;
    stobj schd (Scheduler syncer) ;;
    ret schd.

Definition scheduler_delete (schd : Z) : M W unit :=
  list_for_each_safe schd (fun item => scheduler_timer_delete item) ;;
  free schd.
End Scheduler.

(** * The event loop *)

Definition MAX_FD_EVENTS : Z := 512.

Section EventLoop.
Context {X : Type} `{!LoopEnv X}.
Local Notation W := (loop X).

(** The code of the library's clients. *)
Context (user_task : Z -> Z -> M W unit) (user_fd : Z -> Z -> Z -> M W unit).

(** A call through a [task_cb_t]. *)
Definition call (cb : task_cb_t) (ctx : Z) : M W unit :=
  match cb with
  | fd_handler_sync_event_cb => fd_handler_sync_event user_fd ctx
  | schd_timer_sync_handler_cb => schd_timer_sync_handler user_task ctx
  | User_cb f => user_task f ctx
  end.

Definition ctx_upd (f : eloop_ctx_t -> eloop_ctx_t) : M W unit :=
  modify (fun w => set_ctx (f (eloop_ctx w)) w).

Definition eloop_timer_add (cb ctx expires_ms period_ms : Z) : M W Z :=
  c <- gets eloop_ctx ;;
  scheduler_timer_new (ec_scheduler c) cb ctx (wrapu32 expires_ms) (wrapu32 period_ms).

Definition eloop_timer_delete (timer_id : Z) : M W unit := scheduler_timer_delete timer_id.

Definition eloop_timer_start (timer_id : Z) : M W unit := scheduler_timer_start timer_id ;; ret tt.

Definition eloop_timer_stop (timer_id : Z) : M W unit := scheduler_timer_stop timer_id ;; ret tt.

Definition eloop_handler_add_fd (fd cb ctx : Z) : M W Z :=
  c <- gets eloop_ctx ;;
  fd_handler_add_fd (ec_fd_handler c) fd cb ctx.

Definition eloop_handler_remove_fd (fd_id : Z) : M W unit :=
  c <- gets eloop_ctx ;;
  fd_handler_remove_fd (ec_fd_handler c) fd_id.

Definition eloop_init : M W Z :=
  ctx_upd (fun c => mk_eloop_ctx (ec_syncer c) (ec_scheduler c) (ec_fd_handler c) false) ;;
  syncer <- syncer_new call ;;
  ctx_upd (fun c => mk_eloop_ctx syncer (ec_scheduler c) (ec_fd_handler c) (ec_running c)) ;;
  if syncer =? 0 then ret (-1)
  else
    scheduler <- scheduler_new syncer ;;
    ctx_upd (fun c => mk_eloop_ctx (ec_syncer c) scheduler (ec_fd_handler c) (ec_running c)) ;;
    if scheduler =? 0 then syncer_delete call syncer ;; ret (-1)
    else
      fd_handler <- fd_handler_new syncer MAX_FD_EVENTS ;;
      ctx_upd (fun c => mk_eloop_ctx (ec_syncer c) (ec_scheduler c) fd_handler (ec_running c)) ;;
      if fd_handler =? 0 then
        scheduler_delete scheduler ;; syncer_delete call syncer ;; ret (-1)
      else
        ctx_upd (fun c => mk_eloop_ctx (ec_syncer c) (ec_scheduler c) (ec_fd_handler c) true) ;;
        ret 0.

Definition eloop_exit : M W unit :=
  c <- gets eloop_ctx ;;
  fd_handler_delete (ec_fd_handler c) ;;
  scheduler_delete (ec_scheduler c) ;;
  syncer_delete call (ec_syncer c).

(** One round of the loop; [fuel] bounds the run of the queue. *)
Definition eloop_round (fuel : nat) : M W unit :=
  c <- gets eloop_ctx ;;
  fd_handler_handle_events (ec_fd_handler c) ;;
  c <- gets eloop_ctx ;;
  syncer_process_queue call fuel (ec_syncer c).

(** [rounds] bounds the loop itself. *)
Fixpoint eloop_run (rounds fuel : nat) : M W unit :=
  match rounds with
  | O => stop Hang
  | S rounds' =>
      c <- gets eloop_ctx ;;
      if ec_running c then eloop_round fuel ;; eloop_run rounds' fuel else ret tt
  end.

Definition eloop_stop : M W unit :=
  ctx_upd (fun c => mk_eloop_ctx (ec_syncer c) (ec_scheduler c) (ec_fd_handler c) false).
End EventLoop.

(** ** A round of the loop *)

Section Round.
Context {X : Type} `{!LoopEnv X} `{!MallocFresh X}.
Local Notation W := (loop X).
Context (sp qp rd wr : Z).
Context (user_task : Z -> Z -> M W unit) (user_fd : Z -> Z -> Z -> M W unit).

(** Client code that returns, asks the loop for nothing and releases none of the
    blocks others use. *)
Class QuietUser : Prop := {
  quiet_task f ctx b l q reqs w : sync_at sp qp rd wr 1 b l q reqs w ->
    wp (user_task f ctx) (fun _ w' => sync_at sp qp rd wr 1 b l q reqs w' /\ same_others w w') w;
  quiet_fd f ctx m b l q reqs w : sync_at sp qp rd wr 1 b l q reqs w ->
    wp (user_fd f ctx m) (fun _ w' => sync_at sp qp rd wr 1 b l q reqs w' /\ same_others w w') w;
}.

(** Releasing the context of an event that ran leaves the other tasks ready. *)
Lemma ready_release (w : W) t d m ts :
  ready w (t :: ts) -> t_cb t = fd_handler_sync_event_cb ->
  objs w !! t_ctx t = Some (EventSyncCtx d m) ->
  ready (set_objs (delete (t_ctx t) (objs w)) (set_lmem (delete (t_ctx t) (lmem w)) w)) ts.
Proof.
  intros [Hr Hn] Ht Ec. apply Forall_cons in Hr as [_ Hr].
  unfold event_ctxs in Hn. simpl in Hn. rewrite Ht in Hn. apply NoDup_cons in Hn as [Hn Hnd].
  split; [|done]. rewrite Forall_forall in *. intros t' Hin. specialize (Hr t' Hin).
  unfold task_ready in *. simpl. destruct (t_cb t') eqn:Et'; [| |done].
  - destruct Hr as (H0 & d' & m' & fd & cb & ctx & E1 & E2). split; [done|].
    exists d', m', fd, cb, ctx. rewrite !lookup_delete_ne; [done|congruence|].
    intros Heq. apply Hn. apply list_elem_of_omap. exists t'. split; [done|]. rewrite Et'. congruence.
  - destruct Hr as (e & p & cb & ctx & s & E). exists e, p, cb, ctx, s.
    rewrite lookup_delete_ne; [done|congruence].
Qed.

#[export] Instance quiet_user_client `{!QuietUser} :
  QuietClient sp qp rd wr ready (call user_task user_fd).
Proof.
  intros t b l q reqs w Hs HJ. pose proof HJ as [Hr _]. apply Forall_cons in Hr as [Ht _].
  assert (Htl : forall w', same_others w w' -> ready w' (q ++ tasks_of reqs)).
  { intros w' Ho. eapply pending_stable; [exact Ho|]. eapply pending_sublist; [|exact HJ]. by apply sublist_cons. }
  unfold task_ready in Ht. unfold call. destruct (t_cb t) eqn:Et.
  - destruct Ht as (H0 & d & m & fd & cb & ctx & E1 & E2).
    apply wp_bind. eapply wp_eq; [by apply ld_event_ctx_eq|].
    apply wp_bind. eapply wp_eq; [by apply ld_fd_data_eq|].
    apply wp_bind. eapply wp_mono; [|by eapply quiet_fd]. intros u w1 [Hs1 Ho1].
    assert (Ec : objs w1 !! t_ctx t = Some (EventSyncCtx d m)) by by eapply Ho1.
    apply wp_free; [done|by rewrite Ec|]. split.
    + eapply (sync_at_frame _ _ _ _ _ _ _ _ _ w1); [|done..]. intros a o Ha Ho. simpl.
      assert (t_ctx t <> a) by (intros <-; by simplify_eq). by rewrite !lookup_delete_ne.
    + eapply ready_release; [|done|done]. by eapply pending_stable.
  - destruct Ht as (e & p & cb & ctx & s & E).
    apply wp_bind. eapply wp_eq; [unfold ld_timer, bind, ldobj; by rewrite E|].
    eapply wp_mono; [|by eapply quiet_task]. intros u w1 [Hs1 Ho1]. split; [done|auto].
  - eapply wp_mono; [|by eapply quiet_task]. intros u w1 [Hs1 Ho1]. split; [done|auto].
Qed.
End Round.

Section Claims.
Context {X : Type} {E : LoopEnv X} {MF : MallocFresh X}.
Local Notation W := (loop X).

(** C4: One round of the event loop, with client code that returns, requests nothing
    and releases none of the blocks others use: the round returns without a fault,
    whatever events the kernel reports and whenever memory or the pipe runs short.
    Unless an event or task was given up, every reported event has become a task
    that carries the descriptor's block and the translated event mask, in the order
    of the report, and all accepted tasks have run in the order they were accepted. *)
Theorem eloop_round_delivers (user_task : Z -> Z -> M W unit) (user_fd : Z -> Z -> Z -> M W unit)
    (sp qp rd wr hp pfd maxe buf : Z) (L : list Z) (b : bool) (l : list Z) (q : list task)
    (reqs : list request) (fuel : nat) (w : W) :
  QuietUser sp qp rd wr user_task user_fd ->
  ec_syncer (eloop_ctx w) = sp -> ec_fd_handler (eloop_ctx w) = hp ->
  loop_at sp qp rd wr hp pfd maxe buf L 0 b l q reqs w ->
  (length q + length reqs + Z.to_nat maxe < fuel)%nat ->
  exists w' w1 evs new l' reqs' x,
    epoll_wait pfd maxe w = Ret evs (set_lenv x w) /\
    fd_handler_handle_events hp w = Ret tt w1 /\
    eloop_round user_task user_fd fuel w = Ret tt w' /\
    is_syncer w' sp qp rd wr false l' [] reqs' /\
    accepted_tasks (ltrace w1) = accepted_tasks (ltrace w) ++ new /\
    (lossless (ltrace w1) -> Forall2 (delivers w1) new evs) /\
    (lossless (ltrace w') ->
       reqs' = [] /\ ran_tasks (ltrace w') = accepted_tasks (ltrace w')).
Proof.
  intros HU Esp Ehp Hl Hf.
  pose proof (handle_events_wp sp qp rd wr hp pfd maxe buf L 0 b l q reqs w Hl) as H1.
  unfold wp in H1. destruct (fd_handler_handle_events hp w) as [[] w1|] eqn:E1; [|done].
  destruct H1 as (evs & new & (Hs1 & _ & Hr1) & HL1 & (_ & _ & Ec1) & [x Hw] & Ha1 & Hd1).
  assert (Hf1 : (length q + length (reqs ++ map REQUEST_TYPE_ADD_TASK new) < fuel)%nat).
  { rewrite length_app, length_map. lia. }
  pose proof (process_queue_quiet sp qp rd wr ready _ fuel b l q _ w1 Hs1 Hr1 Hf1) as H2.
  unfold wp in H2. destruct (syncer_process_queue _ fuel sp w1) as [[] w'|] eqn:E2; [|done].
  destruct H2 as (l' & reqs' & [Hs2 Hh2] & Hl2). exists w', w1, evs, new, l', reqs', x.
  split_and!; [done|done| |done|done|done|].
  - unfold eloop_round, bind, gets. rewrite Ehp, E1, Ec1, Esp. exact E2.
  - intros HL. pose proof (Hl2 HL) as ->. split; [done|].
    pose proof (hist_all _ _ _ _ Hh2 HL) as Ha. simpl in Ha. by rewrite app_nil_r in Ha.
Qed.
End Claims.
