(* ===== verification/LoopLife.v ===== *)
(** * Creation and destruction of the event loop

    [eloop_init] and [eloop_exit] against the heap and the descriptor table:
    every failure of the first releases what it had acquired, and the second
    releases everything the loop owns. *)

From stdpp Require Import base gmap list.
From S2P Require Import Prelude CMonad Dll LoopWorld TaskQueue Syncer FdHandler EventLoop.
Open Scope Z_scope.

Section Life.
Context {X : Type} `{!LoopEnv X} `{!MallocFresh X} `{!FdFresh X}.
Local Notation W := (loop X).

(** The blocks [S] are released, the others untouched. *)
Definition released (S : list Z) (w w' : W) : Prop :=
  (forall a, a ∈ S -> objs w' !! a = None) /\
  (forall a, a ∉ S -> objs w' !! a = objs w !! a /\ lmem w' !! a = lmem w !! a) /\
  ltrace w' = ltrace w /\ eloop_ctx w' = eloop_ctx w.

Lemma released_trans S1 S2 w1 w2 w3 :
  released S1 w1 w2 -> released S2 w2 w3 -> released (S1 ++ S2) w1 w3.
Proof.
  intros (A1 & B1 & C1 & D1) (A2 & B2 & C2 & D2). split_and!; [| |congruence..].
  - intros a Ha. destruct (decide (a ∈ S2)) as [H2|H2]; [auto|].
    destruct (B2 a H2) as [-> _]. apply A1. set_solver.
  - intros a Ha. destruct (B1 a) as [<- <-]; [set_solver|]. apply B2. set_solver.
Qed.

Lemma released_weaken S w w' S' : S ≡ₚ S' -> released S w w' -> released S' w w'.
Proof. intros HS (A & B & C). split_and!; [| |apply C..]; intros a; rewrite <-HS; auto. Qed.

(** Releasing one block. *)
Lemma free_released w a (Q : unit -> W -> Prop) :
  a <> 0 -> is_Some (objs w !! a) ->
  (forall w', released [a] w w' -> fdtab w' = fdtab w -> pipes w' = pipes w -> epoll w' = epoll w ->
     Q tt w') -> wp (free a) Q w.
Proof.
  intros Ha Ho HQ. apply wp_free; [done|done|]. apply HQ; [|done..]. split_and!; [| |done..]; simpl.
  - intros b ->%list_elem_of_singleton. apply lookup_delete_eq.
  - intros b Hb. rewrite !lookup_delete_ne; [done|set_solver..].
Qed.

(** ** The timers' scheduler *)

(** The scheduler at [cp] with the timers [T]. *)
Record is_sched (w : W) (cp sp : Z) (T : list Z) : Prop := {
  ic_obj : objs w !! cp = Some (Scheduler sp);
  ic_list : dlist (lmem w) cp T;
  ic_timers : forall a, a ∈ T -> exists e p cb ctx s, objs w !! a = Some (SchdTimer e p cb ctx s);
  ic_nonnull : 0 ∉ cp :: T;
}.

Lemma is_sched_ext w w' cp sp T :
  (forall a, a ∈ cp :: T -> objs w' !! a = objs w !! a /\ lmem w' !! a = lmem w !! a) ->
  is_sched w cp sp T -> is_sched w' cp sp T.
Proof.
  intros Hx [Ho Hl Ht H0]. split; [|eapply dlist_ext; [|exact Hl]| |done].
  - destruct (Hx cp) as [-> _]; [set_solver|done].
  - intros a Ha. by apply Hx.
  - intros a Ha. destruct (Hx a) as [-> _]; [set_solver|auto].
Qed.

Lemma wp_os_call {A} (f : X -> A * X) w (Q : A -> W -> Prop) :
  (forall r x, Q r (set_lenv x w)) -> wp (os_call f) Q w.
Proof. intros HQ. unfold wp, os_call. destruct (f (lenv w)) as [r x]. apply HQ. Qed.

Lemma scheduler_timer_delete_wp w cp sp T1 a T2 (Q : unit -> W -> Prop) :
  is_sched w cp sp (T1 ++ a :: T2) ->
  (forall w', is_sched w' cp sp (T1 ++ T2) -> objs w' = delete a (objs w) ->
     (forall b, b ∉ a :: cp :: T1 ++ T2 -> lmem w' !! b = lmem w !! b) ->
     fdtab w' = fdtab w -> pipes w' = pipes w -> epoll w' = epoll w ->
     ltrace w' = ltrace w -> eloop_ctx w' = eloop_ctx w -> Q tt w') ->
  wp (scheduler_timer_delete a) Q w.
Proof.
  intros [Ho Hl Ht H0] HQ. destruct (Ht a) as (e & p & cb & ctx & s & Ea); [set_solver|].
  pose proof Hl as [Hnd _].
  apply wp_bind, wp_zoom. eapply (list_del_dlist _ cp T1 a T2); [exact Hl|]. intros m1 Hd1 _ [_ Tm].
  apply wp_bind. eapply wp_eq; [unfold ld_timer, bind, ldobj; simpl; by rewrite Ea|].
  apply wp_bind, wp_os_call. intros r1 x1. apply wp_bind, wp_os_call. intros r2 x2. simpl.
  assert (Hac : cp <> a /\ a ∉ T1 ++ T2).
  { rewrite app_comm_cons, <-Permutation_middle, NoDup_cons in Hnd. set_solver. }
  apply wp_free; [set_solver|simpl; by rewrite Ea|]. apply HQ; try done; simpl.
  - split; simpl.
    + rewrite lookup_delete_ne; [done|naive_solver].
    + eapply dlist_ext; [|exact Hd1]. intros b Hb. apply lookup_delete_ne. set_solver.
    + intros b Hb. destruct (Ht b) as (e' & p' & cb' & ctx' & s' & Eb); [set_solver|].
      exists e', p', cb', ctx', s'. rewrite lookup_delete_ne; [done|set_solver].
    + set_solver.
  - intros b Hb. rewrite lookup_delete_ne by set_solver. by apply Tm.
Qed.

(** A block for a timer, not linked yet. *)
Definition timer_block (w w1 : W) (a : Z) (n : list_head) (o : obj) : Prop :=
  objs w1 = <[a := o]> (objs w) /\ lmem w1 = <[a := n]> (lmem w) /\ same_kernel w w1.

Lemma timer_undo w w1 cp sp T a n o :
  is_sched w cp sp T -> timer_block w w1 a n o -> a <> 0 -> objs w !! a = None -> a ∉ cp :: T ->
  wp (free a ;; ret INVALID_ID)
     (fun r w' => same_kernel w w' /\ r = INVALID_ID /\ is_sched w' cp sp T /\ objs w' = objs w) w1.
Proof.
  intros Hc (Eo & El & Hk) Ha Hn Hni.
  apply wp_bind, wp_free; [done|rewrite Eo, lookup_insert_eq; eauto|]. apply wp_ret. simpl.
  split; [done|]. rewrite Eo, delete_insert_id by done. split_and!; [done| |done].
  eapply is_sched_ext; [|exact Hc]. intros b Hb. simpl. split; [done|].
  rewrite lookup_delete_ne, El, lookup_insert_ne; [done|set_solver..].
Qed.

Lemma timer_link w w1 cp sp T a n e p cb ctx :
  is_sched w cp sp T -> timer_block w w1 a n (SchdTimer e p cb ctx sp) -> a <> 0 ->
  objs w !! a = None -> a ∉ cp :: T ->
  wp (zoom (list_add cp a) ;; ret a)
     (fun r w' => same_kernel w w' /\ r <> INVALID_ID /\ objs w !! r = None /\
        is_sched w' cp sp (T ++ [r]) /\ objs w' = <[r := SchdTimer e p cb ctx sp]> (objs w)) w1.
Proof.
  intros [Ho Hl Ht H0] (Eo & El & Hk) Ha Hn Hni.
  apply wp_bind, wp_zoom. change (list_add cp a) with (list_add (hd cp []) a).
  apply (list_add_dlist _ cp T []); simpl; rewrite ?app_nil_r, ?El; [|rewrite lookup_insert_eq; eauto|done|].
  - eapply dlist_ext; [|exact Hl]. intros b Hb. apply lookup_insert_ne. set_solver.
  - intros m' Hd' _. apply wp_ret. split_and!; try done. split; simpl; rewrite ?Eo.
    + rewrite lookup_insert_ne; [done|set_solver].
    + done.
    + intros b [Hb| ->%list_elem_of_singleton]%elem_of_app.
      * destruct (Ht b Hb) as (e' & p' & cb' & ctx' & s' & E). exists e', p', cb', ctx', s'.
        rewrite lookup_insert_ne; [done|set_solver].
      * do 5 eexists. apply lookup_insert_eq.
    + set_solver.
Qed.

(** A timer with its callback is linked at the end of the scheduler's list, or
    nothing is left of the attempt. *)
Lemma scheduler_timer_new_wp w cp sp T cb ctx e p :
  is_sched w cp sp T ->
  wp (scheduler_timer_new cp cb ctx e p)
     (fun r w' => same_kernel w w' /\
        (r = INVALID_ID /\ is_sched w' cp sp T /\ objs w' = objs w \/
         r <> INVALID_ID /\ objs w !! r = None /\ is_sched w' cp sp (T ++ [r]) /\
         objs w' = <[r := SchdTimer e p cb ctx sp]> (objs w))) w.
Proof.
  intros Hc. pose proof Hc as [Ho Hl Ht H0]. apply wp_bind, wp_malloc.
  { intros x. apply wp_ret. split; [done|]. left. split; [done|]. by destruct Hc. }
  intros a n x Ha Hn _. rewrite (proj2 (Z.eqb_neq a 0) Ha).
  assert (Hni : a ∉ cp :: T).
  { intros [->|Hi]%elem_of_cons; [congruence|]. destruct (Ht a Hi) as (? & ? & ? & ? & ? & E). congruence. }
  apply wp_bind. eapply wp_eq;
    [unfold ld_scheduler, bind, ldobj; simpl; rewrite lookup_insert_ne, Ho by set_solver; done|].
  apply wp_bind, wp_stobj; [simpl; rewrite lookup_insert_eq; eauto|]. simpl. rewrite insert_insert_eq.
  set (w1 := set_objs _ _). assert (Hb : timer_block w w1 a n (SchdTimer e p cb ctx sp)) by done.
  clearbody w1.
  assert (Hb' : forall x', timer_block w (set_lenv x' w1) a n (SchdTimer e p cb ctx sp)) by done.
  assert (Hfail : forall w2, timer_block w w2 a n (SchdTimer e p cb ctx sp) ->
     wp (free a ;; ret INVALID_ID) (fun r w' => same_kernel w w' /\
        (r = INVALID_ID /\ is_sched w' cp sp T /\ objs w' = objs w \/
         r <> INVALID_ID /\ objs w !! r = None /\ is_sched w' cp sp (T ++ [r]) /\
         objs w' = <[r := SchdTimer e p cb ctx sp]> (objs w))) w2).
  { intros w2 H2. eapply wp_mono; [|by eapply timer_undo]. simpl. tauto. }
  apply wp_bind, wp_bind, wp_os_call. intros r1 x1.
  destruct (r1 =? 0); simpl; [apply wp_os_call; intros r2 x2|apply wp_ret; simpl; apply Hfail, Hb'].
  destruct (r2 =? 0); simpl; [|by apply Hfail, (Hb' x2)].
  apply wp_bind, wp_os_call. intros r3 x3. destruct (r3 =? 0); simpl;
    [|apply wp_bind, wp_os_call; intros r4 x4; simpl; by apply Hfail, (Hb' x4)].
  eapply wp_mono; [|eapply timer_link; [exact Hc|exact (Hb' x3)|done..]]. simpl. tauto.
Qed.

(** C33: Creating a timer either returns [INVALID_ID] with the heap's blocks as they
    were, whichever step failed, or the address of a new block that holds the given
    delays, callback and context and is last in the scheduler's list; deleting that
    timer again restores the blocks and the list. *)
Theorem timer_lifecycle (w : W) (cp sp : Z) (T : list Z) (cb ctx e p : Z) :
  is_sched w cp sp T ->
  wp (scheduler_timer_new cp cb ctx e p)
     (fun r w' => same_kernel w w' /\
        (r = INVALID_ID /\ is_sched w' cp sp T /\ objs w' = objs w \/
         r <> INVALID_ID /\ objs w !! r = None /\ is_sched w' cp sp (T ++ [r]) /\
         objs w' = <[r := SchdTimer e p cb ctx sp]> (objs w))) w /\
  wp (r <- scheduler_timer_new cp cb ctx e p ;;
      when (negb (r =? INVALID_ID)) (scheduler_timer_delete r))
     (fun _ w' => is_sched w' cp sp T /\ objs w' = objs w) w.
Proof.
  intros Hc. split; [by apply scheduler_timer_new_wp|].
  apply wp_bind. eapply wp_mono; [|by apply scheduler_timer_new_wp].
  intros r w1 [_ [(-> & H1 & H2)|(Hr & Hn & H1 & H2)]]; [by apply wp_ret|].
  rewrite (proj2 (Z.eqb_neq r INVALID_ID) Hr). simpl.
  eapply (scheduler_timer_delete_wp w1 cp sp T r []); [exact H1|].
  intros w2 Hc2 Eo _ _ _ _ _ _. rewrite app_nil_r in Hc2. split; [done|].
  by rewrite Eo, H2, delete_insert_id.
Qed.

(** What is left while [scheduler_delete] runs. *)
Definition sched_deleting (w0 : W) (cp sp : Z) (T0 T : list Z) (w : W) : Prop :=
  is_sched w cp sp T /\ T ⊆ T0 /\
  (forall a, a ∈ T0 -> a ∉ T -> objs w !! a = None) /\
  (forall a, a ∉ cp :: T0 -> objs w !! a = objs w0 !! a /\ lmem w !! a = lmem w0 !! a) /\
  same_kernel w0 w.

Lemma scheduler_delete_wp w cp sp T :
  is_sched w cp sp T ->
  wp (scheduler_delete cp)
     (fun _ w' => released (cp :: T) w w' /\ fdtab w' = fdtab w /\ pipes w' = pipes w /\ epoll w' = epoll w) w.
Proof.
  intros Hc. assert (Hw : sched_deleting w cp sp T T w) by (split_and!; [done|done|set_solver|done|done]).
  apply wp_bind. eapply wp_mono; [|eapply (list_for_each_safe_wp (sched_deleting w cp sp T)); [| |exact Hw]].
  - intros u w' (Hc' & _ & Hg & Hf & (Kf & Kp & Ke & Kt & Kc)). pose proof Hc' as [Ho _ _ H0].
    apply wp_free; [set_solver|by rewrite Ho|]. split_and!; try done. split_and!; [| |done..]; simpl.
    + intros a Ha. destruct (decide (a = cp)) as [->|Hne]; [apply lookup_delete_eq|].
      rewrite lookup_delete_ne by done. apply Hg; set_solver.
    + intros a Ha. rewrite !lookup_delete_ne by set_solver. auto.
  - intros T' w' [Hc' _]. apply Hc'.
  - intros a T' w' (Hc' & Hsub & Hg & Hf & (Kf & Kp & Ke & Kt & Kc)).
    apply (scheduler_timer_delete_wp w' cp sp [] a T'); [exact Hc'|]. simpl. intros w2 Hc2 Eo El Ef Ep Ee Et Ec.
    assert (Haw : a ∈ T) by set_solver. split; [done|]. split_and!; [set_solver| | |].
    + intros b Hb1 Hb2. rewrite Eo. destruct (decide (b = a)) as [->|Hba]; [apply lookup_delete_eq|].
      rewrite lookup_delete_ne by done. apply Hg; set_solver.
    + intros b Hb. destruct (Hf b Hb) as [<- <-]. rewrite Eo. split; [|apply El; set_solver].
      apply lookup_delete_ne. set_solver.
    + unfold same_kernel. split_and!; congruence.
Qed.

(** ** The watched descriptors *)

Lemma is_handler_ext (w w' : W) hp sp pfd maxe buf L :
  (forall a, a ∈ hp :: L -> objs w' !! a = objs w !! a /\ lmem w' !! a = lmem w !! a) ->
  epoll w' = epoll w ->
  is_handler w hp sp pfd maxe buf L -> is_handler w' hp sp pfd maxe buf L.
Proof.
  intros Hx He [Ho Hl Hd Hep H0]. split; [|eapply dlist_ext; [|exact Hl]| | |done].
  - destruct (Hx hp) as [-> _]; [set_solver|done].
  - intros a Ha. by apply Hx.
  - intros a Ha. destruct (Hx a) as [-> _]; [set_solver|]. rewrite He. auto.
  - intros fd a. rewrite He. intros Ha. destruct (Hep _ _ Ha) as (Hin & Hr). split; [done|].
    destruct (Hx a) as [-> _]; [set_solver|done].
Qed.

Definition handler_deleting (w0 : W) (hp sp pfd maxe buf : Z) (L0 L : list Z) (w : W) : Prop :=
  is_handler w hp sp pfd maxe buf L /\ L ⊆ L0 /\
  (forall a, a ∈ L0 -> a ∉ L -> objs w !! a = None) /\
  (forall a, a ∉ hp :: L0 -> objs w !! a = objs w0 !! a /\ lmem w !! a = lmem w0 !! a) /\
  fdtab w = fdtab w0 /\ pipes w = pipes w0 /\ ltrace w = ltrace w0 /\ eloop_ctx w = eloop_ctx w0 /\
  (forall p fd, p <> pfd -> epoll w !! (p, fd) = epoll w0 !! (p, fd)).

(** The body of the loop of [fd_handler_delete]. *)
Lemma handler_deleting_step w0 hp sp pfd maxe buf L0 a L w :
  handler_deleting w0 hp sp pfd maxe buf L0 (a :: L) w ->
  wp (fd_handler_remove_fd hp a) (fun _ => handler_deleting w0 hp sp pfd maxe buf L0 L) w.
Proof.
  intros (Hh & Hsub & Hg & Hf & Kf & Kp & Kt & Kc & Ke). pose proof Hh as [Ho Hl Hd He H0].
  destruct (Hd a) as (fd & cb & ctx & Ea & Epa); [set_solver|].
  assert (HaL : a ∈ L0) by set_solver.
  eapply wp_mono; [|eapply wp_and; [apply (fd_handler_remove_fd_wp w hp sp pfd maxe buf [] a L Hh)|
                                    apply (fd_handler_remove_fd_ctx w hp sp pfd maxe buf a L Hh)]].
  intros u w2 [((_ & Ef & Ep & Et) & Hh2 & Eo & fd' & cb' & ctx' & Ea' & Ee) (El & Ec)].
  split; [done|]. split_and!; try congruence; [set_solver| | |].
  - intros b Hb1 Hb2. rewrite Eo. destruct (decide (b = a)) as [->|Hba]; [apply lookup_delete_eq|].
    rewrite lookup_delete_ne by done. apply Hg; set_solver.
  - intros b Hb. destruct (Hf b Hb) as [<- <-]. rewrite Eo. split; [|apply El; set_solver].
    apply lookup_delete_ne. set_solver.
  - intros p fd2 Hp. rewrite Ee, lookup_delete_ne by congruence. auto.
Qed.

Lemma fd_handler_delete_wp w hp sp pfd maxe buf L :
  is_handler w hp sp pfd maxe buf L -> objs w !! buf = Some EventsBuffer -> buf <> 0 ->
  fdtab w !! pfd = Some EpollSet ->
  wp (fd_handler_delete hp)
     (fun _ w' => released (buf :: hp :: L) w w' /\ fdtab w' = delete pfd (fdtab w) /\
        pipes w' = pipes w /\ (forall p fd, p <> pfd -> epoll w' !! (p, fd) = epoll w !! (p, fd)) /\
        (forall fd, epoll w' !! (pfd, fd) = None)) w.
Proof.
  intros Hh Hb Hb0 Hpf.
  assert (Hw : handler_deleting w hp sp pfd maxe buf L L w) by (split; [done|split_and!; [done|set_solver|done..]]).
  apply wp_bind. eapply wp_mono;
    [|eapply (list_for_each_safe_wp (handler_deleting w hp sp pfd maxe buf L)); [| |exact Hw]].
  - intros u w' (Hh' & _ & Hg & Hf & Kf & Kp & Kt & Kc & Ke). pose proof Hh' as [Ho _ _ He H0].
    assert (HbL : buf ∉ hp :: L).
    { intros Hin. destruct (is_handler_nodes _ _ _ _ _ _ _ _ Hh Hin) as (o & E & Hfo). by simplify_eq. }
    apply wp_bind. eapply wp_eq; [by apply ld_handler_eq|].
    apply wp_bind, wp_modify. rewrite Kf, Hpf.
    apply wp_bind, free_released; [done|simpl; rewrite (proj1 (Hf buf HbL)), Hb; done|].
    intros w2 (A2 & B2 & C2 & D2) F2 P2 E2. simpl in *.
    destruct (B2 hp) as [Ehp _]; [set_solver|].
    apply free_released; [set_solver|rewrite Ehp; by rewrite Ho|].
    intros w3 (A3 & B3 & C3 & D3) F3 P3 E3. split_and!.
    + split_and!; [| |congruence..].
      * intros a Ha. destruct (decide (a = hp)) as [->|Hne]; [apply A3; set_solver|].
        destruct (B3 a) as [-> _]; [set_solver|]. destruct (decide (a = buf)) as [->|Hnb]; [apply A2; set_solver|].
        destruct (B2 a) as [-> _]; [set_solver|]. apply Hg; set_solver.
      * intros a Ha. destruct (B3 a) as [-> ->]; [set_solver|]. destruct (B2 a) as [-> ->]; [set_solver|].
        apply Hf. set_solver.
    + congruence.
    + congruence.
    + intros p fd Hp. rewrite E3, E2. auto.
    + intros fd. rewrite E3, E2. destruct (epoll w' !! (pfd, fd)) as [a|] eqn:Ea; [|done].
      destruct (He _ _ Ea) as [Hin _]. set_solver.
  - intros L' w' [Hh' _]. apply Hh'.
  - intros a L' w'. apply handler_deleting_step.
Qed.

(** ** The syncer *)

Lemma tasks_queue_delete_released cl w qp l q (Q : unit -> W -> Prop) :
  is_queue_at w qp l q ->
  (forall w', released (qp :: l) w w' -> fdtab w' = fdtab w -> pipes w' = pipes w -> epoll w' = epoll w ->
     Q tt w') -> wp (tasks_queue_delete cl qp false) Q w.
Proof.
  intros Hq HQ. eapply wp_mono; [|by eapply tasks_queue_delete_wp].
  intros [] w' ((Kf & Kp & Ke & Kt & Kc) & A & B). apply HQ; [|done..]. by split_and!.
Qed.

(** What a successful [syncer_new] adds. *)
Record new_syncer (w w' : W) (sp qp rd wr : Z) : Prop := {
  ns_objs : objs w' = <[sp := Syncer qp rd wr false]> (<[qp := TasksQueue 0]> (objs w));
  ns_fresh : objs w !! sp = None /\ objs w !! qp = None /\ sp <> qp /\ sp <> 0 /\ qp <> 0;
  ns_list : dlist (lmem w') qp [];
  ns_links : forall a, is_Some (objs w !! a) -> lmem w' !! a = lmem w !! a;
  ns_fdtab : fdtab w' = <[wr := PipeWrite rd]> (<[rd := PipeRead rd]> (fdtab w));
  ns_fds : fdtab w !! rd = None /\ fdtab w !! wr = None /\ rd <> wr;
  ns_pipes : pipes w' = <[rd := []]> (pipes w);
  ns_rest : epoll w' = epoll w /\ ltrace w' = ltrace w;
}.

(** Nothing is left of a failed attempt. *)
Definition restored (w w' : W) : Prop :=
  objs w' = objs w /\ (forall a, is_Some (objs w !! a) -> lmem w' !! a = lmem w !! a) /\
  fdtab w' = fdtab w /\ pipes w' = pipes w /\ epoll w' = epoll w /\ ltrace w' = ltrace w.

Lemma released_restored S (w w1 w' : W) :
  released S w1 w' -> (forall a, a ∈ S -> objs w !! a = None) ->
  (forall a, a ∉ S -> objs w1 !! a = objs w !! a) ->
  (forall a, is_Some (objs w !! a) -> lmem w1 !! a = lmem w !! a) ->
  objs w' = objs w /\ (forall a, is_Some (objs w !! a) -> lmem w' !! a = lmem w !! a) /\ ltrace w' = ltrace w1.
Proof.
  intros (A & B & C & _) HS HO HL. split_and!; [| |done].
  - apply map_eq. intros a. destruct (decide (a ∈ S)) as [Hin|Hin].
    + by rewrite A, HS.
    + destruct (B a Hin) as [-> _]. auto.
  - intros a Ha. destruct (decide (a ∈ S)) as [Hin|Hin]; [rewrite HS in Ha; [by destruct Ha|done]|].
    destruct (B a Hin) as [_ ->]. auto.
Qed.

Lemma wp_pipe2 w (Q : option (Z * Z) -> W -> Prop) :
  (forall x, Q None (set_lenv x w)) ->
  (forall rd wr x, fdtab w !! rd = None -> fdtab w !! wr = None -> rd <> wr ->
     Q (Some (rd, wr)) (set_lenv x (set_pipes (<[rd := []]> (pipes w))
        (set_fdtab (<[wr := PipeWrite rd]> (<[rd := PipeRead rd]> (fdtab w))) w)))) ->
  wp pipe2 Q w.
Proof.
  intros H0 HS. unfold wp, pipe2, bind, os_call.
  destruct (os_pipe2 (dom (fdtab w)) (lenv w)) as [[[rd wr]|] x] eqn:E; simpl; [|apply H0].
  apply pipe2_fresh in E as (E1 & E2 & E3). apply not_elem_of_dom in E1, E2. exact (HS rd wr x E1 E2 E3).
Qed.

(** ** The handler *)

Record new_handler (w w' : W) (sp hp pfd maxe buf : Z) : Prop := {
  nh_objs : objs w' = <[hp := FdHandler sp pfd maxe buf]> (<[buf := EventsBuffer]> (objs w));
  nh_fresh : objs w !! hp = None /\ objs w !! buf = None /\ hp <> buf /\ hp <> 0 /\ buf <> 0;
  nh_list : dlist (lmem w') hp [];
  nh_links : forall a, is_Some (objs w !! a) -> lmem w' !! a = lmem w !! a;
  nh_fdtab : fdtab w' = <[pfd := EpollSet]> (fdtab w);
  nh_fds : fdtab w !! pfd = None;
  nh_rest : pipes w' = pipes w /\ epoll w' = epoll w /\ ltrace w' = ltrace w /\ eloop_ctx w' = eloop_ctx w;
}.

Lemma fresh_live (o : gmap Z obj) a b : o !! a = None -> is_Some (o !! b) -> a <> b.
Proof. intros Ha [v Hb] ->. congruence. Qed.

Lemma fd_handler_new_wp w sp maxe :
  wp (fd_handler_new sp maxe)
     (fun r w' => r = 0 /\ restored w w' /\ eloop_ctx w' = eloop_ctx w \/
                  r <> 0 /\ exists pfd buf, new_handler w w' sp r pfd maxe buf) w.
Proof.
  apply wp_bind, wp_malloc; [intros x; apply wp_ret; left; by split_and!|].
  intros a n x Ha Hn _. rewrite (proj2 (Z.eqb_neq a 0) Ha).
  apply wp_bind, wp_malloc; simpl.
  { intros x2. apply wp_bind, free_released; [done|simpl; rewrite lookup_insert_eq; eauto|].
    intros w2 R2 F2 P2 E2. pose proof R2 as (_ & _ & _ & D2).
    destruct (released_restored [a] w _ w2 R2) as (H1 & H2 & H3); simpl.
    - intros b ->%list_elem_of_singleton. done.
    - intros b Hb. rewrite lookup_insert_ne by set_solver. done.
    - intros b Hb. apply lookup_insert_ne. by eapply fresh_live.
    - apply wp_ret. left. by split_and!. }
  intros c n2 x2 Hc Hcn _. simpl in Hcn. apply lookup_insert_None in Hcn as [Hcn Hac].
  rewrite (proj2 (Z.eqb_neq c 0) Hc).
  apply wp_bind, wp_stobj; [simpl; rewrite lookup_insert_eq; eauto|]. simpl.
  rewrite insert_insert_eq.
  apply wp_bind, wp_zoom. simpl. apply list_init_dlist.
  { rewrite lookup_insert_ne, lookup_insert_eq; eauto. }
  intros m' Hd' [_ T']. apply wp_bind. unfold wp at 1, os_call. simpl.
  destruct (os_epoll_create (dom (fdtab w)) x2) as [pfd x3] eqn:Ep.
  apply wp_bind, wp_stobj; [simpl; rewrite lookup_insert_ne, lookup_insert_eq; eauto|]. simpl.
  assert (HL : forall b, is_Some (objs w !! b) -> m' !! b = lmem w !! b).
  { intros b Hb. pose proof (fresh_live _ _ _ Hn Hb). pose proof (fresh_live _ _ _ Hcn Hb).
    rewrite T' by set_solver. by rewrite !lookup_insert_ne. }
  destruct (pfd <? 0) eqn:Epf.
  - apply wp_bind, free_released; [done|simpl; rewrite lookup_insert_ne, lookup_insert_eq; eauto|].
    intros w2 R2 F2 P2 E2. pose proof R2 as (_ & B2 & _ & D2). simpl in *.
    destruct (B2 a) as [Ea _]; [set_solver|]. rewrite lookup_insert_eq in Ea.
    apply wp_bind, free_released; [done|by rewrite Ea|]. intros w3 R3 F3 P3 E3.
    pose proof R3 as (_ & _ & _ & D3).
    pose proof (released_trans _ _ _ _ _ R2 R3) as R. simpl in R.
    destruct (released_restored _ w _ w3 R) as (H1 & H2 & H3); simpl.
    + intros b Hb. assert (b = c \/ b = a) as [->| ->] by set_solver; done.
    + intros b Hb. rewrite !lookup_insert_ne by set_solver. done.
    + done.
    + apply wp_ret. left. split; [done|]. split; [|congruence]. simpl in H3.
      split_and!; try done; congruence.
  - apply wp_bind, wp_modify, wp_ret. simpl. right. split; [done|]. exists pfd, c.
    split; simpl; try done.
    + rewrite (insert_insert_ne _ c a), insert_insert_eq; done.
    + bool_hyps. apply epoll_create_fresh in Ep; [|done]. by apply not_elem_of_dom.
Qed.

(** ** The whole loop *)

(** A loop after a successful [eloop_init] and any use of it: [l], [T] and [L] are
    the blocks of the queued tasks, the timers and the watched descriptors. *)
Record loop_up (w : W) (sp qp rd wr : Z) (l : list Z) (cp : Z) (T : list Z)
    (hp pfd maxe buf : Z) (L : list Z) : Prop := {
  lu_syncer : exists b q reqs, is_syncer w sp qp rd wr b l q reqs;
  lu_sched : is_sched w cp sp T;
  lu_handler : is_handler w hp sp pfd maxe buf L;
  lu_buf : objs w !! buf = Some EventsBuffer;
  lu_pfd : fdtab w !! pfd = Some EpollSet;
  lu_nonnull : sp <> 0 /\ buf <> 0 /\ rd <> 0 /\ wr <> 0;
  lu_ctx : ec_syncer (eloop_ctx w) = sp /\ ec_scheduler (eloop_ctx w) = cp /\
           ec_fd_handler (eloop_ctx w) = hp;
}.

(** Blocks of one kind are not among the blocks of another. *)
Lemma sched_not_released (w : W) cp sp T (S : list Z) :
  is_sched w cp sp T ->
  (forall a o, a ∈ S -> objs w !! a = Some o ->
     match o with Scheduler _ | SchdTimer _ _ _ _ _ => False | _ => True end) ->
  forall a, a ∈ cp :: T -> a ∉ S.
Proof.
  intros [Ho _ Ht _] HS a Ha Hin. apply elem_of_cons in Ha as [->|Ha]; [by apply (HS _ _ Hin Ho)|].
  destruct (Ht a Ha) as (e & p & cb & ctx & s & E). by apply (HS _ _ Hin E).
Qed.

Lemma is_syncer_ext (w w' : W) sp qp rd wr b l q reqs :
  (forall a, a ∈ sp :: qp :: l -> objs w' !! a = objs w !! a /\ lmem w' !! a = lmem w !! a) ->
  fdtab w' !! rd = fdtab w !! rd -> fdtab w' !! wr = fdtab w !! wr -> pipes w' = pipes w ->
  is_syncer w sp qp rd wr b l q reqs -> is_syncer w' sp qp rd wr b l q reqs.
Proof.
  intros Hx Hr Hw Hp [Hsp [Hd Hn Ht Hb H0] Hrd Hwr Hpi Hk].
  split; [destruct (Hx sp) as [-> _]; [set_solver|done]| |congruence..|done].
  split; [eapply dlist_ext; [|exact Hd]| |eapply tasks_ext; [|exact Ht]|done|done].
  - intros a Ha. apply Hx. set_solver.
  - destruct (Hx qp) as [-> _]; [set_solver|done].
  - intros a Ha. apply Hx. set_solver.
Qed.

(** ** [eloop_init] *)

(** Pipes and epoll sets belong to open descriptors. *)
Record fd_wf (w : W) : Prop := {
  fw_pipes : forall p, fdtab w !! p = None -> pipes w !! p = None;
  fw_epoll : forall p fd, fdtab w !! p = None -> epoll w !! (p, fd) = None;
}.

Lemma new_syncer_is w w' sp qp rd wr :
  new_syncer w w' sp qp rd wr -> is_syncer w' sp qp rd wr false [] [] [].
Proof.
  intros [Eo (Hs & Hq & Hne & Hs0 & Hq0) Hd _ Ef (Hr & Hw & Hrw) Ep _].
  split; [by rewrite Eo, lookup_insert_eq| | | |by rewrite Ep, lookup_insert_eq|constructor].
  - split; [done|rewrite Eo, lookup_insert_ne, lookup_insert_eq; done|constructor|simpl; lia|set_solver].
  - by rewrite Ef, lookup_insert_ne, lookup_insert_eq.
  - by rewrite Ef, lookup_insert_eq.
Qed.

(** Descriptor 0 is open, as in a process with a standard input. *)
Lemma new_syncer_nonzero w w' sp qp rd wr :
  new_syncer w w' sp qp rd wr -> is_Some (fdtab w !! 0) -> rd <> 0 /\ wr <> 0.
Proof. intros [_ _ _ _ _ (Hr & Hw & _) _ _] [v H0]. split; intros ->; congruence. Qed.

(** The descriptors of a syncer that is gone again. *)
Lemma new_syncer_fds w w' sp qp rd wr :
  fd_wf w -> new_syncer w w' sp qp rd wr ->
  delete wr (delete rd (fdtab w')) = fdtab w /\ delete rd (pipes w') = pipes w.
Proof.
  intros Hwf [_ _ _ _ -> (Hr & Hw & Hrw) -> _]. split.
  - rewrite delete_insert_ne by congruence. rewrite (delete_insert_id (fdtab w) rd) by done.
    by rewrite delete_insert_id.
  - rewrite delete_insert_id; [done|]. by apply Hwf.
Qed.

(** After a failure of the handler: the scheduler and the syncer go again. *)
Lemma undo_scheduler w1 w2 w3 cp sp :
  objs w1 !! cp = None -> cp <> 0 -> objs w2 = <[cp := Scheduler sp]> (objs w1) ->
  dlist (lmem w2) cp [] -> (forall b, b <> cp -> lmem w2 !! b = lmem w1 !! b) ->
  fdtab w2 = fdtab w1 -> pipes w2 = pipes w1 -> epoll w2 = epoll w1 -> ltrace w2 = ltrace w1 ->
  restored w2 w3 ->
  wp (scheduler_delete cp) (fun _ w' => restored w1 w' /\ eloop_ctx w' = eloop_ctx w3) w3.
Proof.
  intros Hn H0 Eo2 Hd El2 Ef2 Ep2 Ee2 Et2 (Eo & El & Ef & Ep & Ee & Et).
  eapply wp_mono; [|apply (scheduler_delete_wp w3 cp sp [])].
  - intros u w' (R & F & P & E). pose proof R as (_ & _ & _ & D).
    destruct (released_restored [cp] w1 w3 w' R) as (H1 & H2 & H3).
    + intros a ->%list_elem_of_singleton. done.
    + intros a Ha. rewrite Eo, Eo2, lookup_insert_ne by set_solver. done.
    + intros a Ha. pose proof (fresh_live _ _ _ Hn Ha). rewrite El; [by apply El2|].
      by rewrite Eo2, lookup_insert_ne.
    + split; [|done]. split_and!; try done; congruence.
  - split; [by rewrite Eo, Eo2, lookup_insert_eq| |set_solver|set_solver].
    eapply dlist_ext; [|exact Hd]. intros a ->%list_elem_of_singleton. apply El.
    by rewrite Eo2, lookup_insert_eq.
Qed.

(** The loop a successful [eloop_init] builds. *)
Lemma loop_up_new w w1 w1' w2 w2' w3 w3' sp qp rd wr cp hp pfd maxe buf :
  is_Some (fdtab w !! 0) -> fd_wf w1 ->
  new_syncer w w1 sp qp rd wr -> (exists c, w1' = set_ctx c w1) ->
  objs w1 !! cp = None -> cp <> 0 -> objs w2 = <[cp := Scheduler sp]> (objs w1) ->
  dlist (lmem w2) cp [] -> (forall b, b <> cp -> lmem w2 !! b = lmem w1 !! b) ->
  fdtab w2 = fdtab w1 -> pipes w2 = pipes w1 -> epoll w2 = epoll w1 ->
  (exists c, w2' = set_ctx c w2) -> new_handler w2' w3 sp hp pfd maxe buf ->
  (exists c, w3' = set_ctx c w3 /\ ec_syncer c = sp /\ ec_scheduler c = cp /\ ec_fd_handler c = hp) ->
  loop_up w3' sp qp rd wr [] cp [] hp pfd maxe buf [].
Proof.
  intros H0 Hwf Hn [c1 ->] Hcn Hc0 Eo2 Hd2 El2 Ef2 Ep2 Ee2 [c2 ->] Hh (c3 & -> & C1 & C2 & C3).
  pose proof (new_syncer_is _ _ _ _ _ _ Hn) as His.
  destruct (new_syncer_nonzero _ _ _ _ _ _ Hn H0) as [Hr0 Hw0].
  destruct Hn as [No (Hs & Hq & Hne & Hs0 & Hq0) Nd Nl Nf (Nr & Nw & Nrw) Np _].
  destruct Hh as [Ho (Hhn & Hbn & Hhb & Hh0 & Hb0) Hd Hl Hf Hfn (Hp & He & _ & _)]. simpl in *.
  assert (Hlive : forall a, a = sp \/ a = qp -> is_Some (objs w1 !! a)).
  { intros a [->| ->]; rewrite No; [by rewrite lookup_insert_eq|].
    by rewrite lookup_insert_ne, lookup_insert_eq. }
  assert (Hlive2 : forall a, a = sp \/ a = qp -> is_Some (objs w2 !! a) /\ objs w2 !! a = objs w1 !! a /\ a <> cp).
  { intros a Ha. specialize (Hlive a Ha). pose proof (fresh_live _ _ _ Hcn Hlive).
    by rewrite Eo2, lookup_insert_ne. }
  assert (Hobj : forall a, is_Some (objs w2 !! a) -> objs w3 !! a = objs w2 !! a /\ lmem w3 !! a = lmem w2 !! a).
  { intros a Ha. rewrite Ho, !lookup_insert_ne; [auto|by eapply fresh_live..]. }
  assert (Hcp : objs w2 !! cp = Some (Scheduler sp)) by (by rewrite Eo2, lookup_insert_eq).
  split.
  - exists false, [], []. eapply is_syncer_ext; [| | | |exact His]; simpl.
    + intros a Ha. destruct (Hlive2 a) as (L1 & L2 & L3); [set_solver|].
      destruct (Hobj a L1) as [-> ->]. auto.
    + rewrite Hf, lookup_insert_ne, Ef2; [done|]. intros ->. rewrite Ef2, Nf in Hfn.
      rewrite lookup_insert_ne, lookup_insert_eq in Hfn; done.
    + rewrite Hf, lookup_insert_ne, Ef2; [done|]. intros ->. by rewrite Ef2, Nf, lookup_insert_eq in Hfn.
    + congruence.
  - destruct (Hobj cp) as [E1 E2]; [by rewrite Hcp|]. split; simpl; [by rewrite E1| |set_solver|set_solver].
    eapply dlist_ext; [|exact Hd2]. by intros a ->%list_elem_of_singleton.
  - split; simpl; [by rewrite Ho, lookup_insert_eq|done|set_solver| |set_solver].
    intros fd a Ha. rewrite He, Ee2 in Ha. rewrite (fw_epoll _ Hwf) in Ha; [done|by rewrite <-Ef2].
  - simpl. rewrite Ho, lookup_insert_ne, lookup_insert_eq; done.
  - simpl. by rewrite Hf, lookup_insert_eq.
  - done.
  - done.
Qed.

Lemma new_syncer_wf w w1 sp qp rd wr : fd_wf w -> new_syncer w w1 sp qp rd wr -> fd_wf w1.
Proof.
  intros [W1 W2] [_ _ _ _ Ef _ Ep [Ee _]]. split.
  - intros p. rewrite Ef, Ep, !lookup_insert_None. intros [[H Hr] _]. auto.
  - intros p fd. rewrite Ef, Ee, !lookup_insert_None. intros [[H _] _]. auto.
Qed.

(** ** With the clients' code *)

Context (user_task : Z -> Z -> M W unit) (user_fd : Z -> Z -> Z -> M W unit).
Local Notation call := (call user_task user_fd).

Lemma syncer_delete_wp w sp qp rd wr b l q reqs :
  is_syncer w sp qp rd wr b l q reqs -> sp <> 0 -> rd <> 0 -> wr <> 0 -> rd <> wr ->
  wp (syncer_delete call sp)
     (fun _ w' => released (sp :: qp :: l) w w' /\ fdtab w' = delete wr (delete rd (fdtab w)) /\
        pipes w' = delete rd (pipes w) /\ epoll w' = epoll w) w.
Proof.
  intros [Hsp Hq Hrd Hwr Hp _] Hs0 Hr0 Hw0 Hne. unfold syncer_delete.
  rewrite (proj2 (Z.eqb_neq sp 0) Hs0).
  apply wp_bind. eapply wp_eq; [by apply ld_syncer_eq|].
  cbv beta iota. rewrite (proj2 (Z.eqb_neq rd 0) Hr0), (proj2 (Z.eqb_neq wr 0) Hw0). simpl.
  apply wp_bind, wp_bind, wp_modify, wp_modify. simpl. rewrite Hrd, lookup_delete_ne, Hwr by done. simpl.
  assert (Hqp : qp <> 0) by (pose proof (iq_nonnull _ _ _ _ Hq); set_solver).
  rewrite (proj2 (Z.eqb_neq qp 0) Hqp). simpl.
  assert (Hsq : sp ∉ qp :: l).
  { intros Hin. destruct (is_queue_at_nodes _ _ _ _ _ Hq Hin) as (o & E & Ho). by simplify_eq. }
  apply wp_bind. eapply (tasks_queue_delete_released _ _ qp l q); [by destruct Hq|].
  intros w1 R1 F1 P1 E1. pose proof R1 as (_ & B1 & _).
  apply free_released; [done|destruct (B1 sp Hsq) as [-> _]; simpl; by rewrite Hsp|].
  intros w2 R2 F2 P2 E2. split_and!; [|simpl in *; congruence..].
  eapply (released_weaken ((qp :: l) ++ [sp])); [by rewrite <-Permutation_cons_append|].
  by eapply released_trans.
Qed.

Lemma syncer_new_wp w :
  wp (syncer_new call)
     (fun r w' => r = 0 /\ restored w w' /\ eloop_ctx w' = eloop_ctx w \/
                  r <> 0 /\ eloop_ctx w' = eloop_ctx w /\ exists qp rd wr, new_syncer w w' r qp rd wr) w.
Proof.
  apply wp_bind, wp_malloc; [intros x; apply wp_ret; left; by split_and!|].
  intros a n x Ha Hn _. rewrite (proj2 (Z.eqb_neq a 0) Ha).
  apply wp_bind, wp_stobj; [simpl; rewrite lookup_insert_eq; eauto|]. simpl. rewrite insert_insert_eq.
  apply wp_bind, new_node_spec.
  { intros x'. apply wp_bind, wp_stobj; [simpl; rewrite lookup_insert_eq; eauto|]. simpl.
    apply wp_bind, free_released; [done|simpl; rewrite lookup_insert_eq; eauto|].
    intros w2 R2 F2 P2 E2. pose proof R2 as (_ & _ & _ & D2).
    destruct (released_restored [a] w _ w2 R2) as (H1 & H2 & H3); simpl.
    - intros b ->%list_elem_of_singleton. done.
    - intros b Hb. rewrite !lookup_insert_ne by set_solver. done.
    - intros b Hb. apply lookup_insert_ne. intros ->. rewrite Hn in Hb. by destruct Hb.
    - apply wp_ret. left. by split_and!. }
  intros qp w1 Hq0 Hqn Eo _ Hd Hl (Kf & Kp & Ke & Kt & Kc). simpl in Hqn, Eo, Hl, Kf, Kp, Ke, Kt, Kc.
  apply lookup_insert_None in Hqn as [Hqn Hqa].
  apply wp_bind, wp_stobj; [rewrite Eo, lookup_insert_ne, lookup_insert_eq; eauto|].
  rewrite (proj2 (Z.eqb_neq qp 0) Hq0).
  assert (HL : forall b, is_Some (objs w !! b) -> lmem w1 !! b = lmem w !! b).
  { intros b Hb. rewrite Hl by (intros ->; rewrite Hqn in Hb; by destruct Hb).
    apply lookup_insert_ne. intros ->. rewrite Hn in Hb. by destruct Hb. }
  apply wp_bind, wp_pipe2.
  - intros x2. apply wp_bind. eapply (tasks_queue_delete_released _ _ qp [] []).
    { split; simpl; [done|by rewrite Eo, lookup_insert_ne, lookup_insert_eq|constructor|lia|set_solver]. }
    intros w2 R2 F2 P2 E2. pose proof R2 as (_ & B2 & _ & D2). simpl in *.
    destruct (B2 a) as [Ea _]; [set_solver|]. rewrite lookup_insert_eq in Ea.
    apply wp_bind, free_released; [done|by rewrite Ea|]. intros w3 R3 F3 P3 E3.
    pose proof R3 as (_ & _ & _ & D3).
    pose proof (released_trans _ _ _ _ _ R2 R3) as R. simpl in R.
    destruct (released_restored _ w _ w3 R) as (H1 & H2 & H3); simpl.
    + intros b Hb. assert (b = qp \/ b = a) as [->| ->] by set_solver; done.
    + intros b Hb. rewrite lookup_insert_ne, Eo, !lookup_insert_ne by set_solver. done.
    + done.
    + apply wp_ret. left. split; [done|]. split; [|congruence]. simpl in H3.
      split_and!; try done; congruence.
  - intros rd wr x2 Hr Hw Hne. simpl in Hr, Hw. rewrite Kf in Hr, Hw.
    apply wp_bind, wp_stobj; [simpl; rewrite lookup_insert_eq; eauto|]. apply wp_ret. simpl.
    right. split; [done|]. split; [done|]. exists qp, rd, wr. split; simpl; try done.
    + rewrite insert_insert_eq, Eo, (insert_insert_ne _ qp a), insert_insert_eq; done.
    + by rewrite Kf.
    + by rewrite Kp.
Qed.

Lemma eloop_exit_wp w sp qp rd wr l cp T hp pfd maxe buf L :
  loop_up w sp qp rd wr l cp T hp pfd maxe buf L ->
  wp (eloop_exit user_task user_fd)
     (fun _ w' => released ((buf :: hp :: L) ++ (cp :: T) ++ sp :: qp :: l) w w' /\
        fdtab w' = delete wr (delete rd (delete pfd (fdtab w))) /\ pipes w' = delete rd (pipes w) /\
        (forall p fd, p <> pfd -> epoll w' !! (p, fd) = epoll w !! (p, fd)) /\
        (forall fd, epoll w' !! (pfd, fd) = None)) w.
Proof.
  intros [(b & q & reqs & Hs) Hc Hh Hb Hp (Hs0 & Hb0 & Hr0 & Hw0) (Es & Ec & Eh)].
  pose proof Hs as [Hsp Hq Hrd Hwr _ _]. apply wp_bind, wp_gets. rewrite Es, Ec, Eh.
  apply wp_bind. eapply wp_mono; [|by eapply fd_handler_delete_wp].
  intros u1 w1 (R1 & F1 & P1 & E1 & E1'). pose proof R1 as (_ & B1 & _).
  assert (N1 : forall a o, a ∈ buf :: hp :: L -> objs w !! a = Some o -> is_fd_obj o = true \/ o = EventsBuffer).
  { intros a o [->|Ha]%elem_of_cons Eo; [right; congruence|].
    destruct (is_handler_nodes _ _ _ _ _ _ _ _ Hh Ha) as (o' & E' & Ho'). left. congruence. }
  assert (Hc1 : forall a, a ∈ cp :: T -> a ∉ buf :: hp :: L).
  { eapply sched_not_released; [exact Hc|]. intros a o Ha Eo. destruct (N1 a o Ha Eo) as [H| ->]; [|done].
    by destruct o. }
  assert (Hs1 : forall a, a ∈ sp :: qp :: l -> a ∉ buf :: hp :: L).
  { intros a Ha Hin. apply elem_of_cons in Ha as [->|Ha].
    - destruct (N1 _ _ Hin Hsp) as [H|H]; done.
    - destruct (is_queue_at_nodes _ _ _ _ _ Hq Ha) as (o & Eo & Ho).
      destruct (N1 _ _ Hin Eo) as [H| ->]; [by destruct o|done]. }
  assert (Hrp : rd <> pfd) by congruence. assert (Hwp : wr <> pfd) by congruence.
  apply wp_bind. eapply wp_mono; [|eapply (scheduler_delete_wp w1 cp sp T), is_sched_ext; [|exact Hc]; auto].
  intros u2 w2 (R2 & F2 & P2 & E2). pose proof R2 as (_ & B2 & _).
  assert (Hs2 : forall a, a ∈ sp :: qp :: l -> a ∉ cp :: T).
  { intros a Ha Hin. revert Ha. eapply (sched_not_released w cp sp T (sp :: qp :: l)); [done| |done].
    intros c o Hc' Eo. apply elem_of_cons in Hc' as [->|Hc']; [by simplify_eq|].
    destruct (is_queue_at_nodes _ _ _ _ _ Hq Hc') as (o' & Eo' & Ho'). simplify_eq. by destruct o. }
  assert (Hsy : is_syncer w2 sp qp rd wr b l q reqs).
  { eapply is_syncer_ext; [| | | |exact Hs].
    - intros a Ha. destruct (B2 a) as [-> ->]; [auto|]. apply B1. auto.
    - by rewrite F2, F1, lookup_delete_ne.
    - by rewrite F2, F1, lookup_delete_ne.
    - congruence. }
  eapply wp_mono; [|eapply syncer_delete_wp; [exact Hsy|done..|congruence]].
  intros u3 w3 (R3 & F3 & P3 & E3). split_and!.
  - eapply released_trans; [exact R1|]. by eapply released_trans.
  - congruence.
  - congruence.
  - intros p fd Hne. rewrite E3, E2. auto.
  - intros fd. rewrite E3, E2. auto.
Qed.

(** [eloop_init] after a failure of the scheduler: the syncer goes again. *)
Lemma undo_syncer w w1 w2 sp qp rd wr :
  fd_wf w -> is_Some (fdtab w !! 0) -> new_syncer w w1 sp qp rd wr -> restored w1 w2 ->
  wp (syncer_delete call sp) (fun _ w' => restored w w' /\ eloop_ctx w' = eloop_ctx w2) w2.
Proof.
  intros Hwf H0 Hn (Eo & El & Ef & Ep & Ee & Et). pose proof (new_syncer_is _ _ _ _ _ _ Hn) as His.
  destruct (new_syncer_nonzero _ _ _ _ _ _ Hn H0) as [Hr0 Hw0].
  destruct (new_syncer_fds _ _ _ _ _ _ Hwf Hn) as [Hfd Hpi].
  destruct Hn as [No (Hs & Hq & Hne & Hs0 & Hq0) _ Nl _ (_ & _ & Hrw) _ (Ne & Nt)].
  eapply wp_mono; [|eapply (syncer_delete_wp w2 sp qp rd wr false [] [] []); [|done..]].
  - intros u w' (R & F & P & E). pose proof R as (_ & _ & _ & D).
    destruct (released_restored [sp; qp] w w2 w' R) as (H1 & H2 & H3).
    + intros a Ha. assert (a = sp \/ a = qp) as [->| ->] by set_solver; done.
    + intros a Ha. rewrite Eo, No, !lookup_insert_ne by set_solver. done.
    + intros a Ha. rewrite El; [by apply Nl|]. rewrite No.
      rewrite !lookup_insert_ne; [done|by eapply fresh_live..].
    + split; [|done]. split_and!; try done; congruence.
  - eapply is_syncer_ext; [|by rewrite Ef|by rewrite Ef|done|exact His].
    intros a Ha. rewrite Eo. split; [done|]. apply El. rewrite No.
    assert (a = sp \/ a = qp) as [->| ->] by set_solver; [by rewrite lookup_insert_eq|].
    by rewrite lookup_insert_ne, lookup_insert_eq.
Qed.

(** Everything the three constructors made is released by [eloop_exit]. *)
Lemma exit_restores w w1 w2 w2' w3 w3' sp qp rd wr cp hp pfd maxe buf :
  fd_wf w -> new_syncer w w1 sp qp rd wr ->
  objs w1 !! cp = None -> objs w2 = <[cp := Scheduler sp]> (objs w1) ->
  (forall b, b <> cp -> lmem w2 !! b = lmem w1 !! b) ->
  fdtab w2 = fdtab w1 -> pipes w2 = pipes w1 -> epoll w2 = epoll w1 -> ltrace w2 = ltrace w1 ->
  (exists c, w2' = set_ctx c w2) -> new_handler w2' w3 sp hp pfd maxe buf ->
  (exists c, w3' = set_ctx c w3) -> loop_up w3' sp qp rd wr [] cp [] hp pfd maxe buf [] ->
  wp (eloop_exit user_task user_fd) (fun _ w' => restored w w') w3'.
Proof.
  intros Hwf Hn Hcn Eo2 El2 Ef2 Ep2 Ee2 Et2 [c2 ->] Hh [c3 ->] Hup.
  destruct (new_syncer_fds _ _ _ _ _ _ Hwf Hn) as [Hfd Hpi].
  destruct Hn as [No (Hs & Hq & Hne & Hs0 & Hq0) Nd Nl Nf (Nr & Nw & Nrw) Np (Ne & Nt)].
  destruct Hh as [Ho (Hhn & Hbn & Hhb & Hh0 & Hb0) Hd Hl Hf Hfn (Hp & He & Ht & _)]. simpl in *.
  rewrite Eo2 in Hhn, Hbn. apply lookup_insert_None in Hhn as [Hhn Hhc], Hbn as [Hbn Hbc].
  pose proof Hcn as Hcn'. rewrite No in Hcn', Hhn, Hbn.
  apply lookup_insert_None in Hcn' as [[Hcw Hcq]%lookup_insert_None Hcs].
  apply lookup_insert_None in Hhn as [[Hhw Hhq]%lookup_insert_None Hhs].
  apply lookup_insert_None in Hbn as [[Hbw Hbq]%lookup_insert_None Hbs].
  eapply wp_mono; [|by eapply eloop_exit_wp]. intros u w' (R & F & P & E1 & E2). simpl in R, F, P, E1.
  destruct (released_restored _ w _ w' R) as (H1 & H2 & H3); simpl.
  - intros a Ha.
    assert (a = buf \/ a = hp \/ a = cp \/ a = sp \/ a = qp) as Ha' by set_solver.
    by destruct Ha' as [->|[->|[->|[->| ->]]]].
  - intros a Ha. rewrite Ho, !lookup_insert_ne, Eo2, lookup_insert_ne, No, !lookup_insert_ne by set_solver. done.
  - intros a Ha. pose proof (fresh_live _ _ _ Hcw Ha) as X1. pose proof (fresh_live _ _ _ Hs Ha) as X2.
    pose proof (fresh_live _ _ _ Hq Ha) as X3.
    rewrite Hl, El2 by (try rewrite Eo2, lookup_insert_ne, No, !lookup_insert_ne; congruence). by apply Nl.
  - split_and!; [done|done| | | |simpl in H3; congruence].
    + rewrite F, Hf, Ef2, delete_insert_id by (by rewrite <-Ef2). done.
    + rewrite P, Hp, Ep2. done.
    + apply map_eq. intros [p fd]. destruct (decide (p = pfd)) as [->|Hpne].
      * rewrite E2. symmetry. apply Hwf. rewrite Ef2, Nf in Hfn.
        apply lookup_insert_None in Hfn as [[Hfn _]%lookup_insert_None _]. done.
      * rewrite E1, He, Ee2, Ne; done.
Qed.
End Life.

Section Claims.
Context {X : Type} {E : LoopEnv X} {MF : MallocFresh X} {FF : FdFresh X}.
Local Notation W := (loop X).

(** Both ends of a loop's life. *)
Lemma eloop_init_exit_wp (user_task : Z -> Z -> M W unit) (user_fd : Z -> Z -> Z -> M W unit) (w : W) :
  fd_wf w -> is_Some (fdtab w !! 0) ->
  wp (eloop_init user_task user_fd)
     (fun r w' =>
        r = -1 /\ restored w w' /\ ec_running (eloop_ctx w') = false \/
        r = 0 /\ ec_running (eloop_ctx w') = true /\
        (exists sp qp rd wr cp hp pfd buf,
           loop_up w' sp qp rd wr [] cp [] hp pfd MAX_FD_EVENTS buf []) /\
        wp (eloop_exit user_task user_fd) (fun _ w'' => restored w w'') w') w.
Proof.
  intros Hwf H0. apply wp_bind, wp_modify. set (w0 := set_ctx _ w).
  assert (Hwf0 : fd_wf w0) by by destruct Hwf.
  apply wp_bind. eapply wp_mono; [|apply syncer_new_wp].
  intros sp w1 [(-> & Hr & Hc)|(Hsp & Ec1 & qp & rd & wr & Hn)].
  { apply wp_bind, wp_modify, wp_ret. left. simpl. rewrite Hc. done. }
  apply wp_bind, wp_modify. set (w1' := set_ctx _ w1). rewrite (proj2 (Z.eqb_neq sp 0) Hsp).
  apply wp_bind, new_node_spec.
  { intros x. apply wp_bind, wp_modify. simpl.
    apply wp_bind. eapply wp_mono; [|eapply (undo_syncer _ _ w0 w1 _ sp qp rd wr); [done|done|exact Hn|by split_and!]].
    intros u w2 [Hr Hc]. apply wp_ret. left. split; [done|]. split; [exact Hr|]. rewrite Hc. simpl. by rewrite Ec1. }
  intros cp w2 Hc0 Hcn Eo2 _ Hd2 El2 (Kf & Kp & Ke & Kt & Kc). simpl in Hcn, Eo2, El2, Kf, Kp, Ke, Kt, Kc.
  apply wp_bind, wp_modify. set (w2' := set_ctx _ w2). rewrite (proj2 (Z.eqb_neq cp 0) Hc0).
  apply wp_bind. eapply wp_mono; [|apply fd_handler_new_wp].
  intros hp w3 [(-> & Hr & Hc)|(Hh0 & pfd & buf & Hh)].
  { apply wp_bind, wp_modify. simpl.
    apply wp_bind. eapply wp_mono; [|eapply (undo_scheduler w1 w2 _ cp sp); try done].
    intros u w4 [Hr4 Hc4]. apply wp_bind.
    eapply wp_mono; [|eapply (undo_syncer _ _ w0 w1 w4 sp qp rd wr); [done|done|exact Hn|exact Hr4]].
    intros u2 w5 [Hr5 Hc5]. apply wp_ret. left. split; [done|]. split; [exact Hr5|].
    rewrite Hc5, Hc4. simpl. rewrite Hc. simpl. rewrite Kc. simpl. by rewrite Ec1. }
  apply wp_bind, wp_modify. set (w3' := set_ctx _ w3). rewrite (proj2 (Z.eqb_neq hp 0) Hh0).
  apply wp_bind, wp_modify, wp_ret. right. simpl. split; [done|]. split; [done|].
  pose proof (nh_rest _ _ _ _ _ _ _ Hh) as (_ & _ & _ & Ec3). simpl in Ec3.
  set (w4 := set_ctx _ w3').
  assert (Hup : loop_up w4 sp qp rd wr [] cp [] hp pfd MAX_FD_EVENTS buf []).
  { eapply (loop_up_new w0 w1 w1' w2 w2' w3); try done; [by eapply new_syncer_wf|by eexists|by eexists|].
    eexists. split; [reflexivity|]. simpl. rewrite Ec3. simpl. by rewrite Kc. }
  split; [do 8 eexists; exact Hup|].
  eapply (exit_restores user_task user_fd w0 w1 w2 w2' w3); try done; [by eexists|by eexists].
Qed.

End Claims.

(** ** A loop that runs *)

(** A process with its standard descriptors open. *)
Definition demo_boot (limit : Z) (evs : list (list (Z * Z))) : loop demo_os :=
  set_fdtab (list_to_map [(0, OtherFd); (1, OtherFd); (2, OtherFd)]) (demo_loop limit evs).

Lemma demo_boot_wf limit evs : fd_wf (demo_boot limit evs).
Proof. by split. Qed.


(** Both outcomes happen: with room for three blocks only, and with more. *)
Example demo_init_results :
  (match eloop_init (fun _ _ => ret tt) (fun _ _ _ => ret tt) (demo_boot 3 []) with
   | Ret r _ => r | Fault _ => 99 end,
   match eloop_init (fun _ _ => ret tt) (fun _ _ _ => ret tt) (demo_boot 50 []) with
   | Ret r _ => r | Fault _ => 99 end) = (-1, 0).
Proof. vm_compute. reflexivity. Qed.

(** Two descriptors, 5 and 6, ready in the first round; [user_fd] is the callback. *)
Definition demo_two_fds (user_fd : Z -> Z -> Z -> M (loop demo_os) unit) : loop demo_os :=
  after (eloop_init (fun _ _ => ret tt) user_fd ;;
         id <- eloop_handler_add_fd 6 2 0 ;;
         eloop_handler_add_fd 5 1 id) (demo_boot 50 [[(5, 1); (6, 8197)]]).

Definition idle_fd : Z -> Z -> Z -> M (loop demo_os) unit := fun _ _ _ => ret tt.

Lemma demo_loop_at : loop_at 1 2 11 12 4 13 512 5 [6; 7] 0 false [] [] [] (demo_two_fds idle_fd).
Proof.
  split; [|split].
  - split.
    + split; [vm_compute; reflexivity| |vm_compute; reflexivity..|constructor].
      split; [|vm_compute; reflexivity|constructor|simpl; lia|set_solver].
      split; [apply NoDup_singleton|]. vm_compute. repeat split.
    + assert (ltrace (demo_two_fds idle_fd) = []) as -> by (vm_compute; reflexivity). by split.
  - split.
    + vm_compute. reflexivity.
    + split; [apply (bool_decide_unpack _); vm_compute; exact I|]. vm_compute. repeat split.
    + intros a Ha. repeat (apply elem_of_cons in Ha as [->|Ha];
        [do 3 eexists; split; [vm_compute; reflexivity|vm_compute; reflexivity]|]). set_solver.
    + assert (epoll (demo_two_fds idle_fd) = list_to_map [((13, 6), 6); ((13, 5), 7)]) as ->
        by (apply map_eq_iff; intros k; vm_compute; reflexivity).
      simpl. intros fd a [[[= <-] <-]|[_ [[[= <-] <-]|[_ Ha]]%lookup_insert_Some]]%lookup_insert_Some;
        [..|by rewrite lookup_empty in Ha];
        (split; [set_solver|do 2 eexists; vm_compute; reflexivity]).
    + apply (bool_decide_unpack _). vm_compute. exact I.
  - split; [constructor|constructor].
Qed.

#[export] Instance idle_user sp qp rd wr :
  QuietUser sp qp rd wr (fun _ _ => ret tt) idle_fd.
Proof. split; intros; apply wp_ret; (split; [done|by intros a o]). Qed.

Lemma eloop_round_delivers_witness :
  exists w' w1 evs new l' reqs' x,
    epoll_wait 13 512 (demo_two_fds idle_fd) = Ret evs (set_lenv x (demo_two_fds idle_fd)) /\
    fd_handler_handle_events 4 (demo_two_fds idle_fd) = Ret tt w1 /\
    eloop_round (fun _ _ => ret tt) idle_fd 600 (demo_two_fds idle_fd) = Ret tt w' /\
    is_syncer w' 1 2 11 12 false l' [] reqs' /\
    accepted_tasks (ltrace w1) = accepted_tasks (ltrace (demo_two_fds idle_fd)) ++ new /\
    (lossless (ltrace w1) -> Forall2 (delivers w1) new evs) /\
    (lossless (ltrace w') -> reqs' = [] /\ ran_tasks (ltrace w') = accepted_tasks (ltrace w')).
Proof.
  apply (eloop_round_delivers (fun _ _ => ret tt) idle_fd 1 2 11 12 4 13 512 5 [6; 7] false [] [] []).
  - apply idle_user.
  - vm_compute. reflexivity.
  - vm_compute. reflexivity.
  - exact demo_loop_at.
  - apply Nat.ltb_lt. vm_compute. reflexivity.
Defined.

(** The masks the two callbacks get: READ for 5, HUP for 6 (whose peer sent data
    and closed: the READ is not reported). *)
Example demo_masks :
  omap (fun o => match o with EventSyncCtx d m => Some (d, m) | _ => None end)
       (map snd (map_to_list (objs (after (fd_handler_handle_events 4) (demo_two_fds idle_fd)))))
  = [(6, ELOOP_FD_EVENT_HUP); (7, ELOOP_FD_EVENT_READ)].
Proof. vm_compute. reflexivity. Qed.

(** The callback of descriptor 5 stops watching the descriptor it is given. *)
Definition remove_other : Z -> Z -> Z -> M (loop demo_os) unit :=
  fun f ctx m => if f =? 1 then eloop_handler_remove_fd ctx else ret tt.

(** A callback that stops watching a descriptor whose event waits in the queue
    makes the loop use the released block: both descriptors become ready in one
    round, the first callback removes the second descriptor, and the second event's
    task then reads the freed [struct fd_data]. *)
Theorem stale_event_faults :
  eloop_round (fun _ _ => ret tt) remove_other 600 (demo_two_fds remove_other) = Fault UseAfterFree.
Proof. vm_compute. reflexivity. Qed.

(** The same round with a callback that removes nothing returns. *)
Example live_event_runs :
  match eloop_round (fun _ _ => ret tt) idle_fd 600 (demo_two_fds idle_fd) with
  | Ret _ w => length (ran_tasks (ltrace w)) | Fault _ => 0%nat end = 2%nat.
Proof. vm_compute. reflexivity. Qed.

(** Events still in the pipe when the loop is destroyed: their contexts are never
    released, while everything else is. *)
Theorem exit_leaks_event_contexts :
  match (fd_handler_handle_events 4 ;; eloop_exit (fun _ _ => ret tt) idle_fd) (demo_two_fds idle_fd) with
  | Ret _ w => map snd (map_to_list (objs w))
  | Fault _ => []
  end = [EventSyncCtx 6 ELOOP_FD_EVENT_HUP; EventSyncCtx 7 ELOOP_FD_EVENT_READ].
Proof. vm_compute. reflexivity. Qed.

(** A process without a standard input: the pipe gets descriptor 0, and
    [syncer_delete], which takes 0 for "no pipe", leaves both ends open. *)
Record closed_stdin_os := mk_closed_stdin_os { cs_os : demo_os }.

#[export] Instance closed_stdin_env : LoopEnv closed_stdin_os := {|
  os_malloc S x := let '(r, y) := os_malloc S (cs_os x) in (r, mk_closed_stdin_os y);
  os_pipe2 S x := (if bool_decide (0 ∈ S \/ 3 ∈ S) then None else Some (0, 3), x);
  os_epoll_create S x := (if bool_decide (4 ∈ S) then -1 else 4, x);
  os_epoll_add fd x := (0, x);
  os_epoll_wait S x := ([], x);
  os_timer_create x := (0, x);
  os_timer_settime t x := (0, x);
  os_timer_delete t x := (0, x);
  os_attr_init x := (0, x);
  os_attr_setdetach x := (0, x);
  os_attr_destroy t x := (0, x);
  pipe_capacity := 2048%nat;
|}.

Definition closed_stdin_boot : loop closed_stdin_os :=
  mk_loop ∅ ∅ (list_to_map [(1, OtherFd); (2, OtherFd)]) ∅ ∅ (mk_eloop_ctx 0 0 0 false) []
          (mk_closed_stdin_os (mk_demo_os 1 50 [])).

Theorem closed_stdin_leaks :
  match (eloop_init (fun _ _ => ret tt) (fun _ _ _ => ret tt) ;;
         eloop_exit (fun _ _ => ret tt) (fun _ _ _ => ret tt)) closed_stdin_boot with
  | Ret _ w => (fdtab w !! 0, fdtab w !! 3, map_to_list (objs w))
  | Fault _ => (None, None, [])
  end = (Some (PipeRead 0), Some (PipeWrite 0), []).
Proof. vm_compute. reflexivity. Qed.

Lemma demo_sched : is_sched (demo_two_fds idle_fd) 3 1 [].
Proof.
  split; [vm_compute; reflexivity| |set_solver|set_solver].
  split; [apply NoDup_singleton|]. vm_compute. repeat split.
Qed.

Lemma timer_lifecycle_witness :
  wp (r <- scheduler_timer_new 3 9 10 1000 0 ;;
      when (negb (r =? INVALID_ID)) (scheduler_timer_delete r))
     (fun _ w' => is_sched w' 3 1 [] /\ objs w' = objs (demo_two_fds idle_fd)) (demo_two_fds idle_fd).
Proof. exact (proj2 (timer_lifecycle (demo_two_fds idle_fd) 3 1 [] 9 10 1000 0 demo_sched)). Defined.
