(* ===== verification/LoopTimers.v ===== *)
(** * The event loop's timers discharge the interface of the services

    The loop of [EventLoop], with its timers on the heap, is an instance of the timers
    that the power manager and the Bluetooth service run on. *)

From stdpp Require Import base gmap list.
From S2P Require Import Prelude CMonad Dll Timer LoopWorld EventLoop LoopLife.
Open Scope Z_scope.

Section LoopTimers.
Context {X : Type} {LE : LoopEnv X} {MF : MallocFresh X} {FF : FdFresh X}.
Context (user_task : Z -> Z -> M (loop X) unit) (user_fd : Z -> Z -> Z -> M (loop X) unit).

Definition loop_timers : Timers (loop X) := {|
  loop_init := eloop_init user_task user_fd;
  timer_add cb e p := EventLoop.eloop_timer_add cb 0 e p;
  timer_start id := EventLoop.eloop_timer_start id;
  timer_stop id := EventLoop.eloop_timer_stop id;
|}.

Definition sched_up (L : list Z) (w : loop X) : Prop := exists sp, is_sched w (ec_scheduler (eloop_ctx w)) sp L.

(** Starting or stopping a live timer. *)
Lemma timer_settime_up (w : loop X) L id ms :
  sched_up L w -> wp (timer_settime id ms) (fun _ => sched_up L) w.
Proof.
  intros (sp & H). apply wp_bind, wp_os_call. intros r x. apply wp_bind.
  assert (Hs : sched_up L (set_lenv x w)) by (exists sp; by destruct H).
  destruct (r =? 0); simpl; [apply wp_modify|apply wp_ret]; apply wp_ret; [|done].
  destruct Hs as (sp' & Hs). exists sp'. by destruct Hs.
Qed.

Lemma ld_timer_up (w : loop X) L id :
  sched_up L w -> id ∈ L -> exists t, ld_timer id w = Ret t w.
Proof.
  intros (sp & [_ _ Ht _]) Hin. destruct (Ht id Hin) as (e & p & cb & ctx & s & E).
  eexists. unfold ld_timer, bind, ldobj. by rewrite E.
Qed.

#[local] Existing Instance loop_timers.

Program Definition loop_timers_ok : TimersOk (loop X) := {|
  timers_down w := fd_wf w /\ is_Some (fdtab w !! 0);
  timers_up := sched_up;
|}.
Next Obligation.
  intros w [Hw H0]. eapply wp_mono; [|by apply eloop_init_exit_wp]. simpl.
  intros r w' [(-> & _)|(_ & _ & (sp & qp & rd & wr & cp & hp & pfd & buf & Hu) & _)] Hr; [done|].
  exists sp. destruct Hu as [_ Hs _ _ _ _ (_ & -> & _)]. exact Hs.
Qed.
Next Obligation.
  intros L w cb e p (sp & H). apply wp_bind, wp_gets. eapply wp_mono; [|by apply scheduler_timer_new_wp].
  simpl. intros r w' [(_ & _ & _ & _ & Kc) [(-> & H' & _)|(Hr & _ & H' & _)]]; [left|right]; (split; [done|]);
    exists sp; by rewrite Kc.
Qed.
Next Obligation.
  intros L w id Hw Hin. destruct (ld_timer_up w L id Hw Hin) as [[[[[e p] cb] ctx] s] E].
  apply wp_bind, wp_bind. eapply wp_eq; [done|]. eapply wp_mono; [|by apply timer_settime_up]. intros r w' Hw'. by apply wp_ret.
Qed.
Next Obligation.
  intros L w id Hw Hin. destruct (ld_timer_up w L id Hw Hin) as [[[[[e p] cb] ctx] s] E].
  apply wp_bind, wp_bind. eapply wp_eq; [done|]. eapply wp_mono; [|by apply timer_settime_up]. intros r w' Hw'. by apply wp_ret.
Qed.

Lemma bad_pointer_fault a : bad_pointer a <> Hang.
Proof. unfold bad_pointer. by destruct (a =? 0). Qed.

(** A timer's lookup does not wait. *)
Lemma ld_timer_live (w : loop X) id : ld_timer id w <> Fault Hang.
Proof.
  unfold ld_timer, bind, ldobj. pose proof (bad_pointer_fault id). destruct (objs w !! id) as [o|]; [by destruct o|congruence].
Qed.

Lemma timer_settime_live (w : loop X) id ms : timer_settime id ms w <> Fault Hang.
Proof.
  unfold timer_settime, bind, os_call. destruct (os_timer_settime id (lenv w)) as [r x]. simpl. by destruct (r =? 0).
Qed.

Lemma loop_start_live id (w : loop X) : timer_start id w <> Fault Hang.
Proof.
  cbn. unfold EventLoop.eloop_timer_start, scheduler_timer_start, bind. pose proof (ld_timer_live w id).
  destruct (ld_timer id w) as [[[[[e p] cb] ctx] s] w'|f]; [|congruence].
  pose proof (timer_settime_live w' id e). destruct (timer_settime id e w'); [done|intros [= ->]; done].
Qed.

Lemma loop_stop_live id (w : loop X) : timer_stop id w <> Fault Hang.
Proof.
  cbn. unfold EventLoop.eloop_timer_stop, scheduler_timer_stop, bind. pose proof (ld_timer_live w id).
  destruct (ld_timer id w) as [[[[[e p] cb] ctx] s] w'|f]; [|congruence].
  pose proof (timer_settime_live w' id 0). destruct (timer_settime id 0 w'); [done|intros [= ->]; done].
Qed.

Definition loop_timers_live : TimersLive (loop X) :=
  {| timer_start_live := loop_start_live; timer_stop_live := loop_stop_live |}.
End LoopTimers.

(** ** An example *)

Definition no_task : Z -> Z -> M (loop demo_os) unit := fun _ _ => ret tt.
Definition no_fd : Z -> Z -> Z -> M (loop demo_os) unit := fun _ _ _ => ret tt.

#[export] Instance demo_timers : Timers (loop demo_os) := loop_timers no_task no_fd.
#[export] Instance demo_timers_ok : TimersOk (loop demo_os) := loop_timers_ok no_task no_fd.
#[export] Instance demo_timers_live : TimersLive (loop demo_os) := loop_timers_live no_task no_fd.
