(* ===== verification/Fips180.v ===== *)
(** * SHA-1 as the standard defines it

    The hash of FIPS 180-1 on 32-bit words: the message schedule of eighty words,
    the round functions, the padding.  It is the reference of [Sha1Proofs]; none
    of it is taken from the code. *)

From Stdlib Require Import ZArith List Bool Lia.
From S2P Require Import Prelude.
Import ListNotations.
Open Scope Z_scope.

(** ** Words *)

Definition rotl (n x : Z) : Z := Z.lor (Z.shiftl x n mod 2 ^ 32) (Z.shiftr x (32 - n)).

Definition not32 (x : Z) : Z := 2 ^ 32 - 1 - x.

(** The word of four bytes, most significant first, and back. *)
Definition be_word (b0 b1 b2 b3 : Z) : Z := b0 * 2 ^ 24 + b1 * 2 ^ 16 + b2 * 2 ^ 8 + b3.

Definition be_bytes (x : Z) : list Z :=
  [x / 2 ^ 24 mod 256; x / 2 ^ 16 mod 256; x / 2 ^ 8 mod 256; x mod 256].

Definition block_word (block : list Z) (t : nat) : Z :=
  be_word (nth (4 * t) block 0) (nth (4 * t + 1) block 0)
          (nth (4 * t + 2) block 0) (nth (4 * t + 3) block 0).

(** ** The hash of a block *)

Definition f (t : nat) (x y z : Z) : Z :=
  if (t <? 20)%nat then Z.lor (Z.land x y) (Z.land (not32 x) z)
  else if (t <? 40)%nat then Z.lxor (Z.lxor x y) z
  else if (t <? 60)%nat then Z.lor (Z.lor (Z.land x y) (Z.land x z)) (Z.land y z)
  else Z.lxor (Z.lxor x y) z.

Definition K (t : nat) : Z :=
  if (t <? 20)%nat then 0x5A827999
  else if (t <? 40)%nat then 0x6ED9EBA1
  else if (t <? 60)%nat then 0x8F1BBCDC
  else 0xCA62C1D6.

(** [n] more words of a schedule. *)
Fixpoint extend (n : nat) (ws : list Z) : list Z :=
  match n with
  | O => ws
  | S n' =>
      let t := length ws in
      let w (k : nat) := nth (t - k) ws 0 in
      extend n' (ws ++ [rotl 1 (Z.lxor (Z.lxor (Z.lxor (w 3%nat) (w 8%nat)) (w 14%nat)) (w 16%nat))])
  end.

Definition schedule (block : list Z) : list Z :=
  extend 64 (map (block_word block) (seq 0 16)).

Record hash := mk_hash { ha : Z; hb : Z; hc : Z; hd : Z; he : Z }.

Definition round (h : hash) (tw : nat * Z) : hash :=
  let '(t, w) := tw in
  let '(mk_hash a b c d e) := h in
  mk_hash ((rotl 5 a + f t b c d + e + K t + w) mod 2 ^ 32) a (rotl 30 b) c d.

Definition add_hash (h g : hash) : hash :=
  mk_hash ((ha h + ha g) mod 2 ^ 32) ((hb h + hb g) mod 2 ^ 32) ((hc h + hc g) mod 2 ^ 32)
          ((hd h + hd g) mod 2 ^ 32) ((he h + he g) mod 2 ^ 32).

Definition compress (h : hash) (block : list Z) : hash :=
  add_hash h (fold_left round (combine (seq 0 80) (schedule block)) h).

(** ** The hash of a message *)

Definition H0 : hash := mk_hash 0x67452301 0xEFCDAB89 0x98BADCFE 0x10325476 0xC3D2E1F0.

Fixpoint chunks (n : nat) (m : list Z) : list (list Z) :=
  match n with
  | O => []
  | S n' => firstn 64 m :: chunks n' (skipn 64 m)
  end.

(** The whole blocks of a message. *)
Definition blocks (m : list Z) : list (list Z) := chunks (length m / 64) m.

Definition hash_blocks (m : list Z) : hash := fold_left compress (blocks m) H0.

(** A one, zeros up to 8 bytes before the end of a block, the length in bits. *)
Definition pad (m : list Z) : list Z :=
  let n := Z.of_nat (length m) in
  m ++ [0x80] ++ repeat 0 (Z.to_nat ((55 - n) mod 64))
    ++ be_bytes (8 * n / 2 ^ 32) ++ be_bytes (8 * n mod 2 ^ 32).

Definition digest (h : hash) : list Z :=
  be_bytes (ha h) ++ be_bytes (hb h) ++ be_bytes (hc h) ++ be_bytes (hd h) ++ be_bytes (he h).

Definition sha1 (m : list Z) : list Z := digest (hash_blocks (pad m)).

(** HMAC (RFC 2104) with a key of at most one block. *)
Definition hmac (key m : list Z) : list Z :=
  let k := key ++ repeat 0 (64 - length key) in
  sha1 (map (Z.lxor 0x5C) k ++ sha1 (map (Z.lxor 0x36) k ++ m)).

(** ** Facts *)

Definition word32 (x : Z) : Prop := 0 <= x < 2 ^ 32.

Lemma word32_mod (x : Z) : word32 (x mod 2 ^ 32).
Proof. apply Z.mod_pos_bound. lia. Qed.

Lemma rotl_word32 (n x : Z) : 0 <= n <= 32 -> word32 x -> word32 (rotl n x).
Proof.
  intros Hn Hx. apply lor_range; [lia|apply word32_mod|].
  rewrite Z.shiftr_div_pow2 by lia. unfold word32 in Hx. split.
  - apply Z.div_pos; [lia|]. apply Z.pow_pos_nonneg; lia.
  - apply Z.div_lt_upper_bound; [apply Z.pow_pos_nonneg; lia|].
    assert (1 <= 2 ^ (32 - n)) by (apply (Z.pow_le_mono_r 2 0); lia). nia.
Qed.

Lemma be_word_word32 (b0 b1 b2 b3 : Z) :
  byte b0 -> byte b1 -> byte b2 -> byte b3 -> word32 (be_word b0 b1 b2 b3).
Proof. unfold byte, word32, be_word. lia. Qed.

Lemma be_bytes_byte (x : Z) : Forall byte (be_bytes x).
Proof. repeat constructor; try (apply Z.mod_pos_bound; lia). Qed.

Lemma chunks_app (k : nat) (m m' : list Z) :
  length m = (64 * k)%nat -> forall n, chunks (k + n) (m ++ m') = chunks k m ++ chunks n m'.
Proof.
  revert m. induction k as [|k IH]; intros m Hm n.
  - destruct m; [reflexivity|cbn in Hm; lia].
  - cbn [Nat.add chunks app]. f_equal.
    + rewrite firstn_app, (proj2 (Nat.sub_0_le 64 (length m))) by lia. cbn. apply app_nil_r.
    + rewrite skipn_app, (proj2 (Nat.sub_0_le 64 (length m))) by lia.
      apply IH. rewrite length_skipn. lia.
Qed.

Lemma blocks_app (m m' : list Z) :
  (length m mod 64 = 0)%nat -> blocks (m ++ m') = blocks m ++ blocks m'.
Proof.
  intros H. unfold blocks.
  assert (E : length m = (64 * (length m / 64))%nat) by (pose proof (Nat.div_mod_eq (length m) 64); lia).
  rewrite length_app, <- chunks_app by exact E. f_equal.
  rewrite E at 1. rewrite Nat.mul_comm, Nat.div_add_l by lia. reflexivity.
Qed.

Lemma blocks_one (b : list Z) : length b = 64%nat -> blocks b = [b].
Proof. intros H. unfold blocks. rewrite H. cbn -[firstn]. now rewrite firstn_all2 by lia. Qed.

Lemma blocks_short (m : list Z) : (length m < 64)%nat -> blocks m = [].
Proof. intros H. unfold blocks. now rewrite Nat.div_small. Qed.

Lemma hash_blocks_snoc (m b : list Z) :
  (length m mod 64 = 0)%nat -> length b = 64%nat ->
  hash_blocks (m ++ b) = compress (hash_blocks m) b.
Proof.
  intros Hm Hb. unfold hash_blocks. now rewrite blocks_app, fold_left_app, (blocks_one b).
Qed.

Lemma hash_blocks_short (m b : list Z) :
  (length m mod 64 = 0)%nat -> (length b < 64)%nat -> hash_blocks (m ++ b) = hash_blocks m.
Proof.
  intros Hm Hb. unfold hash_blocks. rewrite blocks_app, (blocks_short b) by assumption.
  now rewrite app_nil_r.
Qed.

(** The words of a schedule. *)
Definition next_word (ws : list Z) (t : nat) : Z :=
  rotl 1 (Z.lxor (Z.lxor (Z.lxor (nth (t - 3) ws 0) (nth (t - 8) ws 0)) (nth (t - 14) ws 0))
                 (nth (t - 16) ws 0)).

Lemma extend_length (n : nat) (ws : list Z) : length (extend n ws) = (n + length ws)%nat.
Proof.
  revert ws. induction n as [|n IH]; intros ws; [reflexivity|].
  cbn [extend]. rewrite IH, length_app. cbn. lia.
Qed.

Lemma extend_prefix (n : nat) (ws : list Z) (t : nat) :
  (t < length ws)%nat -> nth t (extend n ws) 0 = nth t ws 0.
Proof.
  revert ws. induction n as [|n IH]; intros ws H; [reflexivity|].
  cbn [extend]. rewrite IH by (rewrite length_app; cbn; lia). now apply app_nth1.
Qed.

Lemma extend_next (n : nat) (ws : list Z) (t : nat) :
  (16 <= length ws <= t)%nat -> (t < n + length ws)%nat ->
  nth t (extend n ws) 0 = next_word (extend n ws) t.
Proof.
  revert ws. induction n as [|n IH]; intros ws Hw Ht; [lia|].
  cbn [extend]. set (x := rotl 1 _).
  assert (Hx : length (ws ++ [x]) = S (length ws)) by (rewrite length_app; cbn; lia).
  destruct (Nat.eq_dec t (length ws)) as [->|].
  - rewrite extend_prefix by lia. rewrite app_nth2, Nat.sub_diag by lia.
    unfold next_word. rewrite !extend_prefix by lia. rewrite !app_nth1 by lia. reflexivity.
  - apply IH; lia.
Qed.

Lemma schedule_length (block : list Z) : length (schedule block) = 80%nat.
Proof. unfold schedule. now rewrite extend_length, length_map, length_seq. Qed.

Lemma schedule_first (block : list Z) (t : nat) :
  (t < 16)%nat -> nth t (schedule block) 0 = block_word block t.
Proof.
  intros H. unfold schedule. rewrite extend_prefix by now rewrite length_map, length_seq.
  rewrite nth_indep with (d' := block_word block 0) by now rewrite length_map, length_seq.
  rewrite map_nth, seq_nth by lia. reflexivity.
Qed.

Lemma schedule_next (block : list Z) (t : nat) :
  (16 <= t < 80)%nat -> nth t (schedule block) 0 = next_word (schedule block) t.
Proof.
  intros H. unfold schedule. apply extend_next; rewrite length_map, length_seq; lia.
Qed.

Lemma nth_byte (l : list Z) (i : nat) : Forall byte l -> byte (nth i l 0).
Proof.
  intros H. destruct (nth_in_or_default i l 0) as [Hi| ->]; [|split; lia].
  now apply (proj1 (Forall_forall byte l) H).
Qed.

Lemma word32_high (x i : Z) : word32 x -> 32 <= i -> Z.testbit x i = false.
Proof.
  intros Hx Hi. rewrite <- (Z.mod_small x (2 ^ 32)) by exact Hx.
  apply Z.mod_pow2_bits_high. lia.
Qed.

Lemma word32_of_bits (x : Z) : (forall i, 32 <= i -> Z.testbit x i = false) -> word32 x.
Proof.
  intros H. replace x with (x mod 2 ^ 32); [apply word32_mod|].
  apply Z.bits_inj'. intros i Hi. destruct (Z.ltb_spec i 32).
  - apply Z.mod_pow2_bits_low. lia.
  - rewrite Z.mod_pow2_bits_high, H; lia || reflexivity.
Qed.

Lemma lxor_word32 (x y : Z) : word32 x -> word32 y -> word32 (Z.lxor x y).
Proof.
  intros Hx Hy. apply word32_of_bits. intros i Hi.
  now rewrite Z.lxor_spec, !word32_high.
Qed.

Lemma schedule_word32 (block : list Z) (t : nat) :
  Forall byte block -> word32 (nth t (schedule block) 0).
Proof.
  intros Hb. induction t as [t IH] using lt_wf_ind.
  destruct (Nat.lt_ge_cases t 16) as [H|H].
  { rewrite schedule_first by exact H. apply be_word_word32; now apply nth_byte. }
  destruct (Nat.lt_ge_cases t 80) as [H'|H'].
  - rewrite schedule_next by lia. apply rotl_word32; [lia|].
    apply lxor_word32; [apply lxor_word32; [apply lxor_word32|]|]; apply IH; lia.
  - rewrite nth_overflow by (rewrite schedule_length; lia). split; lia.
Qed.

(** The words of a hash are words of 32 bits. *)
Definition hash_ok (h : hash) : Prop :=
  word32 (ha h) /\ word32 (hb h) /\ word32 (hc h) /\ word32 (hd h) /\ word32 (he h).

Lemma hash_blocks_ok (m : list Z) : hash_ok (hash_blocks m).
Proof.
  unfold hash_blocks, hash_ok. generalize (blocks m). intros l.
  induction l as [|b l IH] using rev_ind; [repeat split; discriminate|].
  rewrite fold_left_app. cbn [fold_left]. unfold compress, add_hash.
  refine (conj _ (conj _ (conj _ (conj _ _)))); apply word32_mod.
Qed.

Lemma round_ok (h : hash) (tw : nat * Z) : hash_ok h -> hash_ok (round h tw).
Proof.
  destruct h as [a b c d e], tw as [t w]. unfold hash_ok. cbn [round ha hb hc hd he].
  intros (Ha & Hb & Hc & Hd & He).
  refine (conj _ (conj _ (conj _ (conj _ _)))); try assumption; [apply word32_mod|].
  apply rotl_word32; [lia|exact Hb].
Qed.
