(* ===== verification/Sha1.v ===== *)
(** * SHA-1 of the update images: the code

    [framework/libs/ota/sha1.c] and [sha1.h].  An [unsigned long] has 32 bits on
    the 32-bit boards and 64 on the others, where the upper halves of the words
    are never cleared; its width is the class [ULong].  A buffer is a list of
    bytes, and [None] is an access outside it. *)

From Stdlib Require Import Ascii String ZArith List Bool Lia.
From S2P Require Import Prelude CString.
Import ListNotations.
Open Scope Z_scope.
Open Scope list_scope.

(** [struct sha1_context]: total[2], state[5] and buffer[64]. *)
Record sha1_context := mk_sha1 {
  total0 : Z; total1 : Z; state : list Z; buffer : list Z }.

(** ** Buffers *)

(** [memcpy(dst + off, src, n)]: the buffer [dst] afterwards. *)
Definition memcpy (dst : list Z) (off : nat) (src : list Z) (n : nat) : option (list Z) :=
  if Nat.leb (off + n) (length dst) && Nat.leb n (length src)
  then Some (firstn off dst ++ firstn n src ++ skipn (off + n) dst)
  else None.

(** The 64 bytes at a pointer. *)
Definition block_at (p : list Z) : option (list Z) :=
  if Nat.leb 64 (length p) then Some (firstn 64 p) else None.

(** [a[i] = v] *)
Fixpoint upd (i : nat) (v : Z) (a : list Z) : list Z :=
  match i, a with
  | O, _ :: a' => v :: a'
  | S i', x :: a' => x :: upd i' v a'
  | _, [] => []
  end.

Section Sha1.
Context {UL : ULong}.

Definition GET_UINT32_BE (b : list Z) (i : nat) : Z :=
  Z.lor (Z.lor (Z.lor
    (wrapul (Z.shiftl (nth i b 0) 24)) (wrapul (Z.shiftl (nth (i + 1) b 0) 16)))
    (wrapul (Z.shiftl (nth (i + 2) b 0) 8))) (nth (i + 3) b 0).

(** The four bytes written at [b + i]. *)
Definition PUT_UINT32_BE (n : Z) : list Z :=
  [Z.shiftr n 24 mod 256; Z.shiftr n 16 mod 256; Z.shiftr n 8 mod 256; n mod 256].

Definition sha1_starts (ctx : sha1_context) : sha1_context :=
  mk_sha1 0 0 [0x67452301; 0xEFCDAB89; 0x98BADCFE; 0x10325476; 0xC3D2E1F0] (buffer ctx).

(** ** One block *)

(** The macro [S]. *)
Definition rot (x n : Z) : Z :=
  Z.lor (wrapul (Z.shiftl x n)) (Z.shiftr (Z.land x 0xFFFFFFFF) (32 - n)).

(** The local variables [A] to [E] of [sha1_process]. *)
Inductive reg := A | B | C | D | E.

Record vars := mk_vars { vA : Z; vB : Z; vC : Z; vD : Z; vE : Z }.

Definition get (r : reg) (v : vars) : Z :=
  match r with A => vA v | B => vB v | C => vC v | D => vD v | E => vE v end.

Definition set (r : reg) (z : Z) (v : vars) : vars :=
  let '(mk_vars a b c d e) := v in
  match r with
  | A => mk_vars z b c d e | B => mk_vars a z c d e | C => mk_vars a b z d e
  | D => mk_vars a b c z e | E => mk_vars a b c d z
  end.

(** The last argument of the macro [P]: [W[t]] or [R(t)]. *)
Inductive word := W_ (t : nat) | R (t : nat).

(** [W[t & 0x0F]] *)
Definition W_at (W : list Z) (t : Z) : Z := nth (Z.to_nat (Z.land t 0x0F)) W 0.

(** The value of the argument and the array [W] afterwards. *)
Definition eval_word (x : word) (W : list Z) : Z * list Z :=
  match x with
  | W_ t => (nth t W 0, W)
  | R t =>
      let t := Z.of_nat t in
      let temp := Z.lxor (Z.lxor (Z.lxor (W_at W (t - 3)) (W_at W (t - 8))) (W_at W (t - 14)))
                         (W_at W t) in
      let r := rot temp 1 in
      (r, upd (Z.to_nat (Z.land t 0x0F)) r W)
  end.

(** A use [P (a, b, c, d, e, x)] of the macro. *)
Inductive row := P (a b c d e : reg) (x : word).

Definition run_P (F : Z -> Z -> Z -> Z) (K : Z) (st : vars * list Z) (p : row) : vars * list Z :=
  let '(v, W) := st in
  let '(P a b c d e x) := p in
  let '(xv, W') := eval_word x W in
  let v := set e (wrapul (get e v + (rot (get a v) 5 + F (get b v) (get c v) (get d v) + K + xv))) v in
  (set b (rot (get b v) 30) v, W').

Definition F0 (x y z : Z) : Z := Z.lxor z (Z.land x (Z.lxor y z)).
Definition F20 (x y z : Z) : Z := Z.lxor (Z.lxor x y) z.
Definition F40 (x y z : Z) : Z := Z.lor (Z.land x y) (Z.land z (Z.lor x y)).
Definition F60 (x y z : Z) : Z := Z.lxor (Z.lxor x y) z.

Definition rounds0 : list row :=
  [P A B C D E (W_ 0); P E A B C D (W_ 1); P D E A B C (W_ 2); P C D E A B (W_ 3);
   P B C D E A (W_ 4); P A B C D E (W_ 5); P E A B C D (W_ 6); P D E A B C (W_ 7);
   P C D E A B (W_ 8); P B C D E A (W_ 9); P A B C D E (W_ 10); P E A B C D (W_ 11);
   P D E A B C (W_ 12); P C D E A B (W_ 13); P B C D E A (W_ 14); P A B C D E (W_ 15);
   P E A B C D (R 16); P D E A B C (R 17); P C D E A B (R 18); P B C D E A (R 19)].

Definition rounds20 : list row :=
  [P A B C D E (R 20); P E A B C D (R 21); P D E A B C (R 22); P C D E A B (R 23);
   P B C D E A (R 24); P A B C D E (R 25); P E A B C D (R 26); P D E A B C (R 27);
   P C D E A B (R 28); P B C D E A (R 29); P A B C D E (R 30); P E A B C D (R 31);
   P D E A B C (R 32); P C D E A B (R 33); P B C D E A (R 34); P A B C D E (R 35);
   P E A B C D (R 36); P D E A B C (R 37); P C D E A B (R 38); P B C D E A (R 39)].

Definition rounds40 : list row :=
  [P A B C D E (R 40); P E A B C D (R 41); P D E A B C (R 42); P C D E A B (R 43);
   P B C D E A (R 44); P A B C D E (R 45); P E A B C D (R 46); P D E A B C (R 47);
   P C D E A B (R 48); P B C D E A (R 49); P A B C D E (R 50); P E A B C D (R 51);
   P D E A B C (R 52); P C D E A B (R 53); P B C D E A (R 54); P A B C D E (R 55);
   P E A B C D (R 56); P D E A B C (R 57); P C D E A B (R 58); P B C D E A (R 59)].

Definition rounds60 : list row :=
  [P A B C D E (R 60); P E A B C D (R 61); P D E A B C (R 62); P C D E A B (R 63);
   P B C D E A (R 64); P A B C D E (R 65); P E A B C D (R 66); P D E A B C (R 67);
   P C D E A B (R 68); P B C D E A (R 69); P A B C D E (R 70); P E A B C D (R 71);
   P D E A B C (R 72); P C D E A B (R 73); P B C D E A (R 74); P A B C D E (R 75);
   P E A B C D (R 76); P D E A B C (R 77); P C D E A B (R 78); P B C D E A (R 79)].

Definition sha1_process (ctx : sha1_context) (data : list Z) : sha1_context :=
  let W := map (GET_UINT32_BE data) [0; 4; 8; 12; 16; 20; 24; 28; 32; 36; 40; 44; 48; 52; 56; 60]%nat in
  let st (i : nat) := nth i (state ctx) 0 in
  let s := (mk_vars (st 0%nat) (st 1%nat) (st 2%nat) (st 3%nat) (st 4%nat), W) in
  let s := fold_left (run_P F0 0x5A827999) rounds0 s in
  let s := fold_left (run_P F20 0x6ED9EBA1) rounds20 s in
  let s := fold_left (run_P F40 0x8F1BBCDC) rounds40 s in
  let '(v, _) := fold_left (run_P F60 0xCA62C1D6) rounds60 s in
  mk_sha1 (total0 ctx) (total1 ctx)
    [wrapul (st 0%nat + vA v); wrapul (st 1%nat + vB v); wrapul (st 2%nat + vC v);
     wrapul (st 3%nat + vD v); wrapul (st 4%nat + vE v)]
    (buffer ctx).

(** ** Streaming *)

(** [while (ilen >= 64)]: the context, the rest of the input and its length. *)
Fixpoint update_loop (fuel : nat) (ctx : sha1_context) (input : list Z) (ilen : Z)
  : option (sha1_context * list Z * Z) :=
  match fuel with
  | O => None
  | S fuel' =>
      if 64 <=? ilen then
        let? data := block_at input in
        update_loop fuel' (sha1_process ctx data) (skipn 64 input) (ilen - 64)
      else Some (ctx, input, ilen)
  end.

Definition with_total (t0 t1 : Z) (ctx : sha1_context) : sha1_context :=
  mk_sha1 t0 t1 (state ctx) (buffer ctx).

Definition with_buffer (b : list Z) (ctx : sha1_context) : sha1_context :=
  mk_sha1 (total0 ctx) (total1 ctx) (state ctx) b.

(** [if (left && ilen >= fill)]: completes the block in the buffer. *)
Definition update_fill (ctx : sha1_context) (input : list Z) (ilen left : Z)
  : option (sha1_context * list Z * Z * Z) :=
  let fill := 64 - left in
  if negb (left =? 0) && (fill <=? ilen) then
    let? b := memcpy (buffer ctx) (Z.to_nat left) input (Z.to_nat fill) in
    Some (sha1_process (with_buffer b ctx) b, skipn (Z.to_nat fill) input, ilen - fill, 0)
  else Some (ctx, input, ilen, left).

Definition sha1_update (ctx : sha1_context) (input : list Z) (ilen : Z) : option sha1_context :=
  if ilen <=? 0 then Some ctx
  else
    let left := Z.land (total0 ctx) 0x3F in
    let t0 := Z.land (wrapul (total0 ctx + ilen)) 0xFFFFFFFF in
    let t1 := if t0 <? ilen then wrapul (total1 ctx + 1) else total1 ctx in
    let ctx := with_total t0 t1 ctx in
    let? '(ctx, input, ilen, left) := update_fill ctx input ilen left in
    let? '(ctx, input, ilen) := update_loop (S (Z.to_nat (ilen / 64))) ctx input ilen in
    if 0 <? ilen then
      let? b := memcpy (buffer ctx) (Z.to_nat left) input (Z.to_nat ilen) in
      Some (with_buffer b ctx)
    else Some ctx.

Definition sha1_padding : list Z := 0x80 :: repeat 0 63.

(** The context afterwards and the 20 bytes of [output]. *)
Definition sha1_finish (ctx : sha1_context) : option (sha1_context * list Z) :=
  let high := Z.lor (Z.shiftr (total0 ctx) 29) (wrapul (Z.shiftl (total1 ctx) 3)) in
  let low := wrapul (Z.shiftl (total0 ctx) 3) in
  let msglen := PUT_UINT32_BE high ++ PUT_UINT32_BE low in
  let last := Z.land (total0 ctx) 0x3F in
  let padn := if last <? 56 then 56 - last else 120 - last in
  let? ctx := sha1_update ctx sha1_padding padn in
  let? ctx := sha1_update ctx msglen 8 in
  Some (ctx, flat_map PUT_UINT32_BE (state ctx)).

(** The local [sha1_context] of the functions below is not initialised: [junk] is
    what its 64 bytes of buffer hold. *)
Definition sha1_csum (junk : sha1_context) (input : list Z) (ilen : Z) : option (list Z) :=
  let ctx := sha1_starts junk in
  let? ctx := sha1_update ctx input ilen in
  let? '(_, output) := sha1_finish ctx in
  Some output.

(** Without a watchdog (no build of the repository configures one) [chunk_sz] is
    not used. *)
Definition sha1_csum_wd (junk : sha1_context) (input : list Z) (ilen chunk_sz : Z)
  : option (list Z) :=
  let ctx := sha1_starts junk in
  let? ctx := sha1_update ctx input ilen in
  let? '(_, output) := sha1_finish ctx in
  Some output.

(** The loop of [sha1_hmac] on one of the two pads: at most 64 bytes of the key. *)
Fixpoint xor_key (pad key : list Z) (keylen : nat) : option (list Z) :=
  match keylen, pad with
  | O, _ => Some pad
  | _, [] => Some []
  | S n, x :: pad' =>
      match key with
      | [] => None
      | k :: key' => let? r := xor_key pad' key' n in Some (Z.lxor x k :: r)
      end
  end.

Definition sha1_hmac (junk : sha1_context) (key : list Z) (keylen : Z) (input : list Z) (ilen : Z)
  : option (list Z) :=
  let? k_ipad := xor_key (repeat 0x36 64) key (Z.to_nat keylen) in
  let? k_opad := xor_key (repeat 0x5C 64) key (Z.to_nat keylen) in
  let ctx := sha1_starts junk in
  let? ctx := sha1_update ctx k_ipad 64 in
  let? ctx := sha1_update ctx input ilen in
  let? '(ctx, tmpbuf) := sha1_finish ctx in
  let ctx := sha1_starts ctx in
  let? ctx := sha1_update ctx k_opad 64 in
  let? ctx := sha1_update ctx tmpbuf 20 in
  let? '(_, output) := sha1_finish ctx in
  Some output.

(** Without [SELF_TEST]. *)
Definition sha1_self_test : Z := 0.

(** ** Digests as text *)

(** [sprintf(res, "%s%02x", res, v)] copies [res] onto itself and appends two
    digits: what glibc does, although the standard leaves overlapping arguments
    undefined. *)
Definition append_hex (res : string) (v : Z) : string := (res ++ hexpair v)%string.

Definition sum_text (sum : list Z) : string :=
  fold_left append_hex (tl sum) ("sha1sum " ++ hexpair (hd 0 sum))%string.

(** [size] is converted to the [int] parameter of [sha1_update]. *)
Definition calc_sha1sum (junk : sha1_context) (buf : list Z) (size : Z) : option string :=
  let ctx := sha1_starts junk in
  let? ctx := sha1_update ctx buf (wraps32 size) in
  let? '(_, genSumVal) := sha1_finish ctx in
  Some (sum_text genSumVal).

(** A file as [stat], [fopen] and [fread] show it: the size of [stat], whether it
    opens, and the bytes that can be read. *)
Record file_view := mk_file { st_size : Z; opens : bool; content : list Z }.

Definition BufSz : Z := Z.shiftl 2 20.

(** The [for] of [gen_sha1sum_verify], with [left] bytes to go: the hash of the
    bytes read in pieces, or the error of a short read. *)
Fixpoint hash_file (fuel : nat) (ctx : sha1_context) (rest : list Z) (left : Z)
  : option (Z + sha1_context) :=
  match fuel with
  | O => None
  | S fuel' =>
      if 0 <? left then
        let thisReadSz := if BufSz <? left then BufSz else wrapu32 left in
        let pBuf := firstn (Z.to_nat thisReadSz) rest in
        if negb (Z.of_nat (length pBuf) =? thisReadSz) then Some (inl 509)
        else
          let? ctx := sha1_update ctx pBuf thisReadSz in
          hash_file fuel' ctx (skipn (Z.to_nat thisReadSz) rest) (left - thisReadSz)
      else Some (inr ctx)
  end.

(** The result, a source line for most errors, and [verifyData]. *)
Definition gen_sha1sum_verify (junk : sha1_context) (malloc_ok : bool) (srFile : option file_view)
  : option (Z * option string) :=
  match srFile with
  | None => Some (-1, None)
  | Some fl =>
      if st_size fl =? 0 then Some (480, None)
      else if negb (opens fl) then Some (487, None)
      else if negb malloc_ok then Some (494, None)
      else
        let? r := hash_file (S (Z.to_nat (st_size fl))) (sha1_starts junk) (content fl) (st_size fl) in
        match r with
        | inl e => Some (e, None)
        | inr ctx =>
            let? '(_, genSumVal) := sha1_finish ctx in
            Some (0, Some (sum_text genSumVal))
        end
  end.
End Sha1.
