(* ===== verification/Sha1Proofs.v ===== *)
(** * SHA-1 of the update images: correctness

    The code of [Sha1] computes the hash of [Fips180] whatever the width of
    [unsigned long], however the message is cut into pieces. *)

From Stdlib Require Import Ascii String ZArith List Bool Lia Morphisms Setoid Permutation.
From S2P Require Import Prelude CString Fips180 Sha1.
Import ListNotations.
Open Scope Z_scope.
Open Scope list_scope.

(** ** Words with the same low half *)

Definition eq32 (x y : Z) : Prop := x mod 2 ^ 32 = y mod 2 ^ 32.

#[export] Instance eq32_equiv : Equivalence eq32.
Proof. split; red; unfold eq32; congruence. Qed.

Lemma eq32_bits (x y : Z) :
  eq32 x y <-> forall i, 0 <= i < 32 -> Z.testbit x i = Z.testbit y i.
Proof.
  split.
  - intros H i Hi. rewrite <- (Z.mod_pow2_bits_low x 32), <- (Z.mod_pow2_bits_low y 32) by lia.
    now rewrite H.
  - intros H. apply Z.bits_inj'. intros i Hi. destruct (Z.ltb_spec i 32).
    + rewrite !Z.mod_pow2_bits_low by lia. apply H. lia.
    + rewrite !Z.mod_pow2_bits_high by lia. reflexivity.
Qed.

#[export] Instance eq32_lxor : Proper (eq32 ==> eq32 ==> eq32) Z.lxor.
Proof.
  intros x x' Hx y y' Hy. rewrite eq32_bits in *. intros i Hi.
  now rewrite !Z.lxor_spec, Hx, Hy.
Qed.

#[export] Instance eq32_land : Proper (eq32 ==> eq32 ==> eq32) Z.land.
Proof.
  intros x x' Hx y y' Hy. rewrite eq32_bits in *. intros i Hi.
  now rewrite !Z.land_spec, Hx, Hy.
Qed.

#[export] Instance eq32_lor : Proper (eq32 ==> eq32 ==> eq32) Z.lor.
Proof.
  intros x x' Hx y y' Hy. rewrite eq32_bits in *. intros i Hi.
  now rewrite !Z.lor_spec, Hx, Hy.
Qed.

#[export] Instance eq32_add : Proper (eq32 ==> eq32 ==> eq32) Z.add.
Proof.
  intros x x' Hx y y' Hy. unfold eq32 in *. now rewrite Z.add_mod, Hx, Hy, <- Z.add_mod by lia.
Qed.

Lemma eq32_mod (x : Z) : eq32 (x mod 2 ^ 32) x.
Proof. unfold eq32. now rewrite Z.mod_mod by lia. Qed.

Lemma eq32_word (x y : Z) : eq32 x y -> word32 y -> x mod 2 ^ 32 = y.
Proof. intros H Hy. rewrite H. apply Z.mod_small, Hy. Qed.

Lemma not32_bit (x i : Z) : word32 x -> 0 <= i < 32 -> Z.testbit (not32 x) i = negb (Z.testbit x i).
Proof.
  intros Hx Hi. unfold not32. rewrite <- Z.lnot_spec by lia.
  replace (2 ^ 32 - 1 - x) with (Z.lnot x + 1 * 2 ^ 32) by (unfold Z.lnot; lia).
  rewrite <- (Z.mod_pow2_bits_low (Z.lnot x + 1 * 2 ^ 32) 32) by lia.
  rewrite Z.mod_add by lia. apply Z.mod_pow2_bits_low. lia.
Qed.

Section Words.
Context {UL : ULong}.

Lemma wrapul_eq32 (x : Z) : eq32 (wrapul x) x.
Proof.
  pose proof ulong_wide. apply eq32_bits. intros i Hi. apply Z.mod_pow2_bits_low. lia.
Qed.

#[export] Instance eq32_wrapul : Proper (eq32 ==> eq32) wrapul.
Proof. intros x y H. now rewrite !wrapul_eq32. Qed.

Lemma rot_rotl (n x y : Z) : 0 < n < 32 -> eq32 x y -> word32 y -> eq32 (rot x n) (rotl n y).
Proof.
  intros Hn Hxy Hy. unfold rot, rotl. rewrite wrapul_eq32, eq32_mod.
  rewrite eq32_bits in Hxy |- *. intros i Hi.
  rewrite !Z.lor_spec, !Z.shiftl_spec, !Z.shiftr_spec, Z.land_spec by lia. f_equal.
  - destruct (Z.ltb_spec i n); [now rewrite !Z.testbit_neg_r by lia|apply Hxy; lia].
  - change 0xFFFFFFFF with (Z.ones 32). rewrite Z.testbit_ones by lia.
    destruct (Z.ltb_spec (i + (32 - n)) 32).
    + rewrite Hxy by lia. destruct (Z.leb_spec 0 (i + (32 - n))); [apply andb_true_r|lia].
    + rewrite andb_false_r, (word32_high y) by (assumption || lia). apply andb_false_r.
Qed.

(** A word read from four bytes. *)
Lemma GET_be_word (b : list Z) (t : nat) :
  Forall byte b -> eq32 (GET_UINT32_BE b (4 * t)) (block_word b t).
Proof.
  intros Hb. unfold GET_UINT32_BE, block_word. rewrite !wrapul_eq32.
  assert (H : forall i, byte (nth i b 0)) by (intros; now apply nth_byte).
  generalize (H (4 * t)%nat) (H (4 * t + 1)%nat) (H (4 * t + 2)%nat) (H (4 * t + 3)%nat).
  generalize (nth (4 * t) b 0) (nth (4 * t + 1) b 0) (nth (4 * t + 2) b 0) (nth (4 * t + 3) b 0).
  intros b0 b1 b2 b3. unfold byte. intros H0 H1 H2 H3.
  rewrite <- !Z.lor_assoc, !Z.shiftl_mul_pow2 by lia.
  rewrite (lor_add b2 b3 8), (lor_add b1 _ 16), (lor_add b0 _ 24) by lia.
  unfold be_word. now replace (b0 * 2 ^ 24 + (b1 * 2 ^ 16 + (b2 * 2 ^ 8 + b3)))
    with (b0 * 2 ^ 24 + b1 * 2 ^ 16 + b2 * 2 ^ 8 + b3) by lia.
Qed.

(** The bytes of a word. *)
Lemma PUT_be_bytes (x y : Z) : eq32 x y -> PUT_UINT32_BE x = be_bytes y.
Proof.
  intros H. unfold PUT_UINT32_BE, be_bytes. rewrite <- !Z.shiftr_div_pow2 by lia.
  rewrite eq32_bits in H. change 256 with (2 ^ 8).
  assert (E : forall k, 0 <= k <= 24 -> Z.shiftr x k mod 2 ^ 8 = Z.shiftr y k mod 2 ^ 8).
  { intros k Hk. apply Z.bits_inj'. intros i Hi. destruct (Z.ltb_spec i 8).
    - rewrite !Z.mod_pow2_bits_low, !Z.shiftr_spec by lia. apply H. lia.
    - now rewrite !Z.mod_pow2_bits_high by lia. }
  rewrite !E by lia. specialize (E 0). rewrite !Z.shiftr_0_r in E. now rewrite E by lia.
Qed.

(** ** The round functions *)

Ltac by_bits :=
  rewrite eq32_bits in *; intros ? ?;
  repeat match goal with
  | H : forall i, 0 <= i < 32 -> Z.testbit _ i = _, Hi : 0 <= ?i < 32 |- _ => specialize (H i Hi)
  end;
  rewrite ?Z.lxor_spec, ?Z.lor_spec, ?Z.land_spec, ?not32_bit by assumption;
  rewrite ?Z.lxor_spec, ?Z.lor_spec, ?Z.land_spec;
  repeat match goal with H : Z.testbit _ _ = _ |- _ => rewrite H; clear H end;
  repeat match goal with |- context [Z.testbit ?x ?i] => destruct (Z.testbit x i) end; reflexivity.

(** The function and the constant of the code in round [t] are the standard's. *)
Definition round_fun (t : nat) (F : Z -> Z -> Z -> Z) (k : Z) : Prop :=
  k = K t /\
  forall x y z x' y' z', eq32 x x' -> eq32 y y' -> eq32 z z' -> word32 x' ->
    eq32 (F x y z) (f t x' y' z').

Lemma round_fun_0 (t : nat) : (t < 20)%nat -> round_fun t F0 0x5A827999.
Proof.
  intros Ht. unfold round_fun, f, K. rewrite (proj2 (Nat.ltb_lt t 20) Ht).
  split; [reflexivity|]. intros * Hx Hy Hz Hw. unfold F0. by_bits.
Qed.

Lemma round_fun_20 (t : nat) : (20 <= t < 40)%nat -> round_fun t F20 0x6ED9EBA1.
Proof.
  intros Ht. unfold round_fun, f, K.
  rewrite (proj2 (Nat.ltb_ge t 20)), (proj2 (Nat.ltb_lt t 40)) by lia.
  split; [reflexivity|]. intros * Hx Hy Hz Hw. unfold F20. by_bits.
Qed.

Lemma round_fun_40 (t : nat) : (40 <= t < 60)%nat -> round_fun t F40 0x8F1BBCDC.
Proof.
  intros Ht. unfold round_fun, f, K.
  rewrite (proj2 (Nat.ltb_ge t 20)), (proj2 (Nat.ltb_ge t 40)), (proj2 (Nat.ltb_lt t 60)) by lia.
  split; [reflexivity|]. intros * Hx Hy Hz Hw. unfold F40. by_bits.
Qed.

Lemma round_fun_60 (t : nat) : (60 <= t)%nat -> round_fun t F60 0xCA62C1D6.
Proof.
  intros Ht. unfold round_fun, f, K.
  rewrite (proj2 (Nat.ltb_ge t 20)), (proj2 (Nat.ltb_ge t 40)), (proj2 (Nat.ltb_ge t 60)) by lia.
  split; [reflexivity|]. intros * Hx Hy Hz Hw. unfold F60. by_bits.
Qed.
End Words.

(** ** A block *)

#[local] Opaque schedule.

Section Block.
Context {UL : ULong}.

(** The roles the five variables have in a round. *)
Record roles := mk_roles { ra : reg; rb : reg; rc : reg; rd : reg; re : reg }.

Definition turn (r : roles) : roles := mk_roles (re r) (ra r) (rb r) (rc r) (rd r).

Definition distinct (r : roles) : Prop := NoDup [ra r; rb r; rc r; rd r; re r].

(** The variables hold the hash, up to their upper halves. *)
Record holds (r : roles) (v : vars) (h : hash) : Prop := {
  holds_a : eq32 (get (ra r) v) (ha h);
  holds_b : eq32 (get (rb r) v) (hb h);
  holds_c : eq32 (get (rc r) v) (hc h);
  holds_d : eq32 (get (rd r) v) (Fips180.hd h);
  holds_e : eq32 (get (re r) v) (he h) }.

Lemma get_set_eq (r : reg) (z : Z) (v : vars) : get r (set r z v) = z.
Proof. now destruct r, v. Qed.

Lemma get_set_ne (r s : reg) (z : Z) (v : vars) : r <> s -> get r (set s z v) = get r v.
Proof. destruct r, s, v; intros H; try reflexivity; now contradiction H. Qed.

Lemma turn_distinct (r : roles) : distinct r -> distinct (turn r).
Proof.
  unfold distinct. cbn. intros H. apply (Permutation_NoDup (l := [ra r; rb r; rc r; rd r] ++ [re r])).
  - apply Permutation_sym, Permutation_cons_append.
  - exact H.
Qed.

Lemma run_P_round (F : Z -> Z -> Z -> Z) (k : Z) (t : nat) (r : roles) (v : vars) (W : list Z)
    (h : hash) (x : word) (w : Z) :
  round_fun t F k -> distinct r -> hash_ok h -> holds r v h ->
  eq32 (fst (eval_word x W)) w ->
  exists v',
    run_P F k (v, W) (P (ra r) (rb r) (rc r) (rd r) (re r) x) = (v', snd (eval_word x W)) /\
    holds (turn r) v' (round h (t, w)).
Proof.
  intros [Hk HF] Hd Ho Hh Hx. destruct r as [a b c d e], h as [h1 h2 h3 h4 h5].
  destruct Hh as [Ha Hb Hc Hd' He], Ho as (O1 & O2 & O3 & O4 & O5).
  cbn [ra rb rc rd re ha hb hc Fips180.hd he] in *.
  unfold distinct in Hd. cbn in Hd. repeat rewrite NoDup_cons_iff in Hd. cbn [In] in Hd.
  unfold run_P. destruct (eval_word x W) as [xv W'] eqn:Ex. cbn [fst snd] in *.
  eexists. split; [reflexivity|].
  split; cbn [turn ra rb rc rd re round ha hb hc Fips180.hd he];
    rewrite ?get_set_eq; repeat rewrite get_set_ne by (intros ->; tauto); rewrite ?get_set_eq;
    try assumption.
  - rewrite wrapul_eq32, eq32_mod, He, Hx, (rot_rotl 5 _ h1 ltac:(lia) Ha O1), Hk.
    rewrite (HF _ _ _ h2 h3 h4 Hb Hc Hd' O2).
    match goal with |- eq32 ?l ?r => replace l with r by lia end. reflexivity.
  - apply rot_rotl; [lia|exact Hb|exact O2].
Qed.
(** The circular array holds the last sixteen words of the schedule. *)
Definition window (ws W : list Z) (n : nat) : Prop :=
  length W = 16%nat /\
  forall i, (i < n <= i + 16)%nat -> eq32 (nth (i mod 16) W 0) (nth i ws 0).

Lemma length_upd (i : nat) (z : Z) (l : list Z) : length (upd i z l) = length l.
Proof. revert i. induction l as [|x l IH]; intros [|i]; cbn; auto. Qed.

Lemma nth_upd (i j : nat) (z : Z) (l : list Z) :
  (i < length l)%nat -> nth j (upd i z l) 0 = if Nat.eqb i j then z else nth j l 0.
Proof.
  revert i j. induction l as [|x l IH]; intros [|i] [|j] H; cbn in *; try lia; try reflexivity.
  apply IH. lia.
Qed.

Lemma land_15 (t : Z) : 0 <= t -> Z.to_nat (Z.land t 0x0F) = (Z.to_nat t mod 16)%nat.
Proof.
  intros H. change 0x0F with (Z.ones 4). rewrite Z.land_ones by lia.
  now rewrite Z2Nat.inj_mod by lia.
Qed.

Lemma W_at_window (ws W : list Z) (t k : nat) :
  window ws W t -> (1 <= k <= 16)%nat -> (16 <= t)%nat ->
  eq32 (W_at W (Z.of_nat t - Z.of_nat k)) (nth (t - k) ws 0).
Proof.
  intros [_ HW] Hk Ht. unfold W_at. rewrite land_15 by lia.
  replace (Z.to_nat (Z.of_nat t - Z.of_nat k)) with (t - k)%nat by lia. apply HW. lia.
Qed.

(** The argument [W[t]] or [R(t)] of round [t]. *)
Definition word_of (t : nat) : word := if (t <? 16)%nat then W_ t else R t.

Lemma eval_word_window (block W : list Z) (t : nat) :
  Forall byte block -> (t < 80)%nat -> window (schedule block) W (Nat.max 16 t) ->
  eq32 (fst (eval_word (word_of t) W)) (nth t (schedule block) 0) /\
  window (schedule block) (snd (eval_word (word_of t) W)) (Nat.max 16 (S t)).
Proof.
  intros Hb Ht HW. unfold word_of. destruct (Nat.ltb_spec t 16) as [H|H].
  { rewrite Nat.max_l in HW |- * by lia. split; [|exact HW].
    destruct HW as [_ HW]. cbn. rewrite <- (Nat.mod_small t 16) at 1 by lia. apply HW. lia. }
  rewrite Nat.max_r in HW |- * by lia. cbn [eval_word fst snd].
  set (r := rot _ 1).
  assert (Hr : eq32 r (nth t (schedule block) 0)).
  { rewrite schedule_next by lia. unfold r, next_word.
    assert (E : forall k, (1 <= k <= 16)%nat -> eq32 (W_at W (Z.of_nat t - Z.of_nat k))
                                            (nth (t - k) (schedule block) 0))
      by (intros; apply W_at_window; [exact HW|lia|lia]).
    pose proof (E 3%nat ltac:(lia)) as E3. pose proof (E 8%nat ltac:(lia)) as E8. pose proof (E 14%nat ltac:(lia)) as E14.
    assert (E16 : eq32 (W_at W (Z.of_nat t)) (nth (t - 16) (schedule block) 0)).
    { rewrite <- E by lia. unfold W_at. rewrite !land_15 by lia.
      replace (Z.to_nat (Z.of_nat t)) with (Z.to_nat (Z.of_nat t - Z.of_nat 16) + 1 * 16)%nat by lia.
      now rewrite Nat.Div0.mod_add. }
    apply rot_rotl; [lia| |].
    - now rewrite E3, E8, E14, E16.
    - apply lxor_word32; [apply lxor_word32; [apply lxor_word32|]|]; now apply schedule_word32. }
  split; [exact Hr|]. destruct HW as [HL HW]. rewrite land_15, Nat2Z.id by lia.
  pose proof (Nat.mod_upper_bound t 16).
  split; [now rewrite length_upd|]. intros i Hi. rewrite nth_upd by lia.
  destruct (Nat.eqb_spec (t mod 16) (i mod 16)) as [Em|Em].
  - replace i with t; [exact Hr|]. pose proof (Nat.div_mod_eq t 16). pose proof (Nat.div_mod_eq i 16). lia.
  - apply HW. destruct (Nat.eq_dec i t) as [->|]; [contradiction|lia].
Qed.

(** The uses of [P] are those of rounds [t] onwards, with the roles turning. *)
Fixpoint rows_ok (t : nat) (r : roles) (l : list row) (r' : roles) : Prop :=
  match l with
  | [] => r = r'
  | p :: l' => p = P (ra r) (rb r) (rc r) (rd r) (re r) (word_of t) /\ rows_ok (S t) (turn r) l' r'
  end.

Definition rounds (block : list Z) (t n : nat) (h : hash) : hash :=
  fold_left round (map (fun t => (t, nth t (schedule block) 0)) (seq t n)) h.

Lemma run_rows (F : Z -> Z -> Z -> Z) (k : Z) (block : list Z) (l : list row) :
  Forall byte block ->
  forall (t : nat) (r r' : roles) (v : vars) (W : list Z) (h : hash),
    rows_ok t r l r' -> distinct r -> (t + length l <= 80)%nat ->
    (forall t', (t <= t' < t + length l)%nat -> round_fun t' F k) ->
    hash_ok h -> holds r v h -> window (schedule block) W (Nat.max 16 t) ->
    exists v' W',
      fold_left (run_P F k) l (v, W) = (v', W') /\ hash_ok (rounds block t (length l) h) /\
      holds r' v' (rounds block t (length l) h) /\
      window (schedule block) W' (Nat.max 16 (t + length l)).
Proof.
  intros Hb. induction l as [|p l IH]; intros t r r' v W h Hr Hd Hn HF Ho Hh HW.
  { exists v, W. cbn in Hr |- *. subst r'. rewrite Nat.add_0_r. auto. }
  destruct Hr as [-> Hr]. cbn [length] in *.
  destruct (eval_word_window block W t Hb ltac:(lia) HW) as [Ex HW'].
  destruct (run_P_round F k t r v W h (word_of t) _ (HF t ltac:(lia)) Hd Ho Hh Ex) as (v1 & E1 & H1).
  destruct (IH (S t) (turn r) r' v1 _ _ Hr (turn_distinct r Hd) ltac:(lia)
              ltac:(intros; apply HF; lia) (round_ok _ _ Ho) H1 HW') as (v' & W' & E & O & H' & HW2).
  exists v', W'. cbn [fold_left]. rewrite E1, E.
  replace (t + S (length l))%nat with (S t + length l)%nat by lia. auto.
Qed.

(** The state words of a context are those of a hash. *)
Definition state_holds (st : list Z) (h : hash) : Prop :=
  Forall2 eq32 st [ha h; hb h; hc h; Fips180.hd h; he h].

Lemma combine_seq (ws : list Z) (s : nat) :
  combine (seq s (length ws)) ws = map (fun t => (t, nth (t - s) ws 0)) (seq s (length ws)).
Proof.
  revert s. induction ws as [|w ws IH]; intros s; [reflexivity|].
  cbn [length seq combine map]. rewrite Nat.sub_diag, IH. f_equal.
  apply map_ext_in. intros t Ht. apply in_seq in Ht. f_equal.
  now replace (t - s)%nat with (S (t - S s)) by lia.
Qed.

Lemma rounds_app (block : list Z) (n t m : nat) (h : hash) :
  rounds block (t + n) m (rounds block t n h) = rounds block t (n + m) h.
Proof. unfold rounds. now rewrite <- fold_left_app, <- map_app, <- seq_app. Qed.

Lemma compress_rounds (h : hash) (block : list Z) : compress h block = add_hash h (rounds block 0 80 h).
Proof.
  unfold compress, rounds. rewrite <- (schedule_length block), combine_seq.
  rewrite (map_ext _ (fun t => (t, nth t (schedule block) 0))); [reflexivity|].
  intros t. now rewrite Nat.sub_0_r.
Qed.

Lemma block_window (block : list Z) :
  Forall byte block ->
  window (schedule block)
    (map (GET_UINT32_BE block) [0; 4; 8; 12; 16; 20; 24; 28; 32; 36; 40; 44; 48; 52; 56; 60]%nat) 16.
Proof.
  intros Hb. split; [reflexivity|]. intros i Hi. rewrite Nat.mod_small by lia.
  rewrite schedule_first by lia. rewrite <- GET_be_word by exact Hb.
  change [0; 4; 8; 12; 16; 20; 24; 28; 32; 36; 40; 44; 48; 52; 56; 60]%nat
    with (map (Nat.mul 4) (seq 0 16)).
  rewrite map_map, nth_indep with (d' := GET_UINT32_BE block (4 * 0)) by (rewrite length_map, length_seq; lia).
  rewrite (map_nth (fun x => GET_UINT32_BE block (4 * x))), seq_nth by lia. reflexivity.
Qed.

Definition roles0 : roles := mk_roles A B C D E.

Lemma roles0_distinct : distinct roles0.
Proof. unfold distinct. cbn. repeat constructor; cbn; intuition discriminate. Qed.

Lemma rounds_rows :
  rows_ok 0 roles0 rounds0 roles0 /\ rows_ok 20 roles0 rounds20 roles0 /\
  rows_ok 40 roles0 rounds40 roles0 /\ rows_ok 60 roles0 rounds60 roles0.
Proof. repeat split. Qed.

(** Processing a block is the compression of the standard. *)
Lemma sha1_process_spec (ctx : sha1_context) (block : list Z) (h : hash) :
  Forall byte block -> hash_ok h -> state_holds (state ctx) h ->
  exists st, sha1_process ctx block = mk_sha1 (total0 ctx) (total1 ctx) st (buffer ctx) /\
    state_holds st (compress h block).
Proof.
  intros Hb Ho Hs. unfold sha1_process. destruct rounds_rows as (R0 & R1 & R2 & R3).
  pose proof roles0_distinct as Hd.
  unfold state_holds in Hs. do 5 (inversion Hs as [|? ? ? ? ?E ?Hs']; subst; clear Hs; rename Hs' into Hs).
  inversion Hs; subst. cbn [nth].
  match goal with |- context [mk_vars ?a ?b ?c ?d ?e] => set (v0 := mk_vars a b c d e) end.
  assert (Hh : holds roles0 v0 h) by (split; assumption).
  destruct (run_rows F0 _ block rounds0 Hb 0 _ _ v0 _ h R0 Hd ltac:(cbn; lia)
    ltac:(cbn [length rounds0]; intros; apply round_fun_0; lia) Ho Hh (block_window block Hb))
    as (v1 & W1 & -> & O1 & H1 & HW1).
  destruct (run_rows F20 _ block rounds20 Hb 20 _ _ v1 _ _ R1 Hd ltac:(cbn; lia)
    ltac:(cbn [length rounds20]; intros; apply round_fun_20; lia) O1 H1 HW1)
    as (v2 & W2 & -> & O2 & H2 & HW2).
  destruct (run_rows F40 _ block rounds40 Hb 40 _ _ v2 _ _ R2 Hd ltac:(cbn; lia)
    ltac:(cbn [length rounds40]; intros; apply round_fun_40; lia) O2 H2 HW2)
    as (v3 & W3 & -> & O3 & H3 & HW3).
  destruct (run_rows F60 _ block rounds60 Hb 60 _ _ v3 _ _ R3 Hd ltac:(cbn; lia)
    ltac:(cbn [length rounds60]; intros; apply round_fun_60; lia) O3 H3 HW3)
    as (v4 & W4 & -> & O4 & H4 & HW4).
  eexists. split; [reflexivity|]. rewrite compress_rounds.
  cbn [length rounds0 rounds20 rounds40 rounds60] in H4.
  rewrite (rounds_app block 20 0), (rounds_app block 40 0), (rounds_app block 60 0) in H4.
  destruct H4 as [Ha Hb' Hc Hd' He]. unfold state_holds, add_hash. cbn [ha hb hc Fips180.hd he].
  repeat constructor; rewrite wrapul_eq32, eq32_mod; now apply eq32_add.
Qed.
End Block.

(** ** Streaming *)

Section Streaming.
Context {UL : ULong}.

(** The context has hashed the whole blocks of [m] and keeps the rest. *)
Record absorbed (ctx : sha1_context) (m : list Z) : Prop := {
  abs_state : state_holds (state ctx) (hash_blocks m);
  abs_length : length (buffer ctx) = 64%nat;
  abs_tail : firstn (length m mod 64) (buffer ctx) = skipn (64 * (length m / 64)) m;
  abs_bytes : Forall byte m }.

Definition same_total (ctx ctx' : sha1_context) : Prop :=
  total0 ctx' = total0 ctx /\ total1 ctx' = total1 ctx.

(** A message is its whole blocks and a tail. *)
Lemma split_tail (m : list Z) :
  exists m0 tl, m = m0 ++ tl /\ (length m0 mod 64 = 0)%nat /\
    length tl = (length m mod 64)%nat /\ tl = skipn (64 * (length m / 64)) m.
Proof.
  pose proof (Nat.div_mod_eq (length m) 64) as E.
  exists (firstn (64 * (length m / 64)) m), (skipn (64 * (length m / 64)) m).
  rewrite firstn_skipn, length_firstn, length_skipn, Nat.min_l by lia.
  repeat split; [|lia]. rewrite Nat.mul_comm. apply Nat.Div0.mod_mul.
Qed.

Lemma aligned_tail (m : list Z) (b : list Z) :
  (length m mod 64 = 0)%nat -> firstn (length m mod 64) b = skipn (64 * (length m / 64)) m.
Proof.
  intros H. rewrite H. pose proof (Nat.div_mod_eq (length m) 64).
  now rewrite skipn_all2 by lia.
Qed.

(** Hashing the block that ends a message. *)
Lemma absorb_block (ctx ctx' : sha1_context) (m m0 tl data : list Z) :
  absorbed ctx m -> m = m0 ++ tl -> (length m0 mod 64 = 0)%nat -> (length tl < 64)%nat ->
  state ctx' = state ctx -> length (buffer ctx') = 64%nat ->
  length (tl ++ data) = 64%nat -> Forall byte data ->
  absorbed (sha1_process ctx' (tl ++ data)) (m ++ data) /\
  same_total ctx' (sha1_process ctx' (tl ++ data)) /\ (length (m ++ data) mod 64 = 0)%nat.
Proof.
  intros Ha Em H0 Ht Es Hb HL Hd. destruct Ha as [Hs _ _ Hm]. subst m.
  rewrite hash_blocks_short, <- Es in Hs by assumption.
  apply Forall_app in Hm. destruct Hm as [Hm0 Htl].
  assert (Hall : Forall byte (tl ++ data)) by now apply Forall_app.
  destruct (sha1_process_spec ctx' (tl ++ data) _ Hall (hash_blocks_ok m0) Hs) as (st & -> & Hst).
  rewrite <- app_assoc.
  assert (Hmod : (length (m0 ++ tl ++ data) mod 64 = 0)%nat).
  { rewrite length_app, HL. rewrite Nat.Div0.add_mod, H0. reflexivity. }
  repeat split; cbn [state buffer total0 total1]; auto.
  - rewrite hash_blocks_snoc by assumption. exact Hst.
  - now apply aligned_tail.
  - now apply Forall_app.
Qed.

Lemma memcpy_some (dst : list Z) (off : nat) (src : list Z) (n : nat) :
  (off + n <= length dst)%nat -> (n <= length src)%nat ->
  memcpy dst off src n = Some (firstn off dst ++ firstn n src ++ skipn (off + n) dst).
Proof.
  intros H1 H2. unfold memcpy. now rewrite (proj2 (Nat.leb_le _ _) H1), (proj2 (Nat.leb_le _ _) H2).
Qed.

(** Copying less than what the buffer misses. *)
Lemma absorb_tail (ctx : sha1_context) (m data : list Z) (b : list Z) :
  absorbed ctx m -> (length m mod 64 + length data < 64)%nat -> Forall byte data ->
  b = firstn (length m mod 64) (buffer ctx) ++ data ++ skipn (length m mod 64 + length data) (buffer ctx) ->
  absorbed (with_buffer b ctx) (m ++ data).
Proof.
  intros [Hs Hb Ht Hm] HL Hd ->. destruct (split_tail m) as (m0 & tl & Em & H0 & Hl & Etl).
  assert (Hk : (length m / 64 = length m0 / 64)%nat).
  { rewrite Em, length_app, Hl. pose proof (Nat.div_mod_eq (length m0) 64).
    symmetry. apply Nat.div_unique with (r := (length m mod 64)%nat); [apply Nat.mod_upper_bound; lia|lia]. }
  assert (Hmd : (length (m ++ data) / 64 = length m0 / 64)%nat).
  { rewrite length_app, Em, length_app. pose proof (Nat.div_mod_eq (length m0) 64).
    symmetry. apply Nat.div_unique with (r := (length tl + length data)%nat); lia. }
  assert (Hmm : (length (m ++ data) mod 64 = length tl + length data)%nat).
  { pose proof (Nat.div_mod_eq (length (m ++ data)) 64). pose proof (Nat.div_mod_eq (length m) 64).
    rewrite length_app in *. lia. }
  split; cbn [with_buffer state buffer].
  - rewrite Em in Hs |- *. rewrite <- app_assoc, hash_blocks_short in *; auto; rewrite ?length_app; lia.
  - rewrite !length_app, length_firstn, length_skipn. lia.
  - rewrite Hmm, Hmd, <- Hk, Ht, <- Etl, app_assoc, firstn_app.
    rewrite firstn_all2 by (rewrite length_app; lia).
    rewrite length_app, Nat.sub_diag. cbn [firstn]. rewrite app_nil_r.
    rewrite Etl at 1. rewrite skipn_app. f_equal.
    replace (64 * (length m / 64) - length m)%nat with 0%nat
      by (pose proof (Nat.div_mod_eq (length m) 64); lia).
    reflexivity.
  - now apply Forall_app.
Qed.
Lemma same_total_trans (a b c : sha1_context) : same_total a b -> same_total b c -> same_total a c.
Proof. unfold same_total. intuition congruence. Qed.

(** The loop hashes the whole blocks of the input, given a round per block. *)
Lemma update_loop_spec (fuel : nat) :
  forall (ctx : sha1_context) (m input : list Z) (n : nat),
    absorbed ctx m -> (length m mod 64 = 0)%nat -> Forall byte input ->
    (n <= length input)%nat -> (n / 64 < fuel)%nat ->
    exists ctx', let c := (64 * (n / 64))%nat in
      update_loop fuel ctx input (Z.of_nat n) = Some (ctx', skipn c input, Z.of_nat (n - c)) /\
      absorbed ctx' (m ++ firstn c input) /\ same_total ctx ctx' /\
      (length (m ++ firstn c input) mod 64 = 0)%nat.
Proof.
  induction fuel as [|fuel IH]; intros ctx m input n Ha Hm Hb Hn Hf; [lia|].
  cbn [update_loop]. destruct (Z.leb_spec 64 (Z.of_nat n)) as [H|H].
  - unfold block_at. rewrite (proj2 (Nat.leb_le _ _)) by lia.
    assert (HL : length (firstn 64 input) = 64%nat) by (rewrite length_firstn; lia).
    destruct (absorb_block ctx ctx m m [] (firstn 64 input) Ha (eq_sym (app_nil_r m)) Hm
                ltac:(cbn; lia) eq_refl (abs_length _ _ Ha) HL (Forall_firstn _ _ _ Hb))
      as (Ha' & Ht' & Hm'). cbn [app] in Ha', Ht'.
    assert (En : (n / 64 = S ((n - 64) / 64))%nat).
    { replace n with (n - 64 + 1 * 64)%nat at 1 by lia. rewrite Nat.div_add by lia. lia. }
    destruct (IH _ _ (skipn 64 input) (n - 64)%nat Ha' Hm' (Forall_skipn _ _ _ Hb)
                ltac:(rewrite length_skipn; lia) ltac:(lia)) as (ctx' & E & Ha2 & Ht2 & Hm2).
    replace (Z.of_nat n - 64) with (Z.of_nat (n - 64)) by lia.
    exists ctx'. cbv zeta. rewrite E, En.
    replace (64 * S ((n - 64) / 64))%nat with (64 + 64 * ((n - 64) / 64))%nat by lia.
    rewrite firstn_plus, app_assoc.
    rewrite skipn_skipn. rewrite (Nat.add_comm (64 * _) 64).
    replace (n - 64 - 64 * ((n - 64) / 64))%nat with (n - (64 + 64 * ((n - 64) / 64)))%nat by lia.
    eauto using same_total_trans.
  - exists ctx. cbv zeta. rewrite (Nat.div_small n 64) by lia. cbn [Nat.mul firstn skipn].
    rewrite Nat.sub_0_r, app_nil_r. repeat split; auto; apply Ha.
Qed.

Lemma absorbed_with_total (t0 t1 : Z) (ctx : sha1_context) (m : list Z) :
  absorbed ctx m -> absorbed (with_total t0 t1 ctx) m.
Proof. now intros [? ? ? ?]. Qed.

(** The block of the buffer is completed when the input has enough. *)
Lemma update_fill_spec (ctx : sha1_context) (m input : list Z) (n : nat) :
  absorbed ctx m -> Forall byte input -> (n <= length input)%nat ->
  exists ctx' c left', (c <= n)%nat /\
    update_fill ctx input (Z.of_nat n) (Z.of_nat (length m mod 64))
      = Some (ctx', skipn c input, Z.of_nat (n - c), Z.of_nat left') /\
    absorbed ctx' (m ++ firstn c input) /\ same_total ctx ctx' /\
    left' = (length (m ++ firstn c input) mod 64)%nat /\
    (left' = 0 \/ left' + (n - c) < 64)%nat.
Proof.
  intros Ha Hb Hn. unfold update_fill. pose proof (Nat.mod_upper_bound (length m) 64 ltac:(lia)) as Hu.
  destruct (Z.eqb_spec (Z.of_nat (length m mod 64)) 0) as [E0|E0]; cbn [negb andb].
  { exists ctx, 0%nat, (length m mod 64)%nat. rewrite Nat.sub_0_r, app_nil_r.
    repeat split; auto; try apply Ha; lia. }
  destruct (Z.leb_spec (64 - Z.of_nat (length m mod 64)) (Z.of_nat n)) as [H|H].
  2: { exists ctx, 0%nat, (length m mod 64)%nat. rewrite Nat.sub_0_r, app_nil_r.
       repeat split; auto; try apply Ha; lia. }
  replace (Z.to_nat (64 - Z.of_nat (length m mod 64))) with (64 - length m mod 64)%nat by lia.
  rewrite Nat2Z.id, memcpy_some by (rewrite ?(abs_length _ _ Ha); lia).
  destruct (split_tail m) as (m0 & tl & Em & H0 & Hl & Etl).
  set (c := (64 - length m mod 64)%nat) in *.
  set (b := firstn _ _ ++ _).
  assert (Eb : b = tl ++ firstn c input).
  { unfold b. rewrite (abs_tail _ _ Ha), <- Etl. f_equal.
    rewrite skipn_all2 by (rewrite (abs_length _ _ Ha); lia). apply app_nil_r. }
  assert (HL : length b = 64%nat) by (rewrite Eb, length_app, length_firstn; lia).
  destruct (absorb_block ctx (with_buffer b ctx) m m0 tl (firstn c input) Ha Em H0 ltac:(lia)
    eq_refl HL ltac:(rewrite <- Eb; exact HL) (Forall_firstn _ _ _ Hb)) as (Ha' & Ht' & Hm').
  rewrite <- Eb in Ha', Ht'. exists (sha1_process (with_buffer b ctx) b), c, 0%nat.
  repeat split; auto; try apply Ha'; try apply Ht'; try lia.
  now replace (Z.of_nat n - (64 - Z.of_nat (length m mod 64))) with (Z.of_nat (n - c)) by lia.
Qed.
(** The context has hashed [m]: its blocks, its tail and its length. *)
Record hashed (ctx : sha1_context) (m : list Z) : Prop := {
  hashed_absorbed : absorbed ctx m;
  hashed_total0 : total0 ctx = Z.of_nat (length m) mod 2 ^ 32;
  hashed_total1 : eq32 (total1 ctx) (Z.of_nat (length m) / 2 ^ 32) }.

Lemma hashed_left (ctx : sha1_context) (m : list Z) :
  hashed ctx m -> Z.land (total0 ctx) 0x3F = Z.of_nat (length m mod 64).
Proof.
  intros H. rewrite (hashed_total0 _ _ H). change 0x3F with (Z.ones 6). rewrite Z.land_ones by lia.
  change (2 ^ 32) with (2 ^ 6 * 2 ^ 26). rewrite Z.rem_mul_r by lia.
  rewrite Z.mul_comm, Z.mod_add, Z.mod_mod by lia. now rewrite Nat2Z.inj_mod.
Qed.

(** The two words of [total] count the bytes. *)
Lemma total_step (len n t1 : Z) :
  0 <= len -> 0 <= n < 2 ^ 32 -> eq32 t1 (len / 2 ^ 32) ->
  let t0' := Z.land (wrapul (len mod 2 ^ 32 + n)) 0xFFFFFFFF in
  t0' = (len + n) mod 2 ^ 32 /\
  eq32 (if t0' <? n then wrapul (t1 + 1) else t1) ((len + n) / 2 ^ 32).
Proof.
  intros Hl Hn H1 t0'.
  assert (E : t0' = (len + n) mod 2 ^ 32).
  { unfold t0'. change 0xFFFFFFFF with (Z.ones 32). rewrite Z.land_ones by lia.
    rewrite (wrapul_eq32 (len mod 2 ^ 32 + n)). now rewrite Z.add_mod_idemp_l by lia. }
  split; [exact E|]. rewrite E. clear t0' E.
  pose proof (Z.div_mod len (2 ^ 32) ltac:(lia)) as D. pose proof (Z.mod_pos_bound len (2 ^ 32) ltac:(lia)).
  destruct (Z.ltb_spec (len mod 2 ^ 32 + n) (2 ^ 32)).
  - rewrite <- (Z.div_unique (len + n) (2 ^ 32) (len / 2 ^ 32) (len mod 2 ^ 32 + n)) by lia.
    rewrite <- (Z.mod_unique (len + n) (2 ^ 32) (len / 2 ^ 32) (len mod 2 ^ 32 + n)) by lia.
    rewrite (proj2 (Z.ltb_ge _ _)) by lia. exact H1.
  - rewrite <- (Z.mod_unique (len + n) (2 ^ 32) (len / 2 ^ 32 + 1) (len mod 2 ^ 32 + n - 2 ^ 32)) by lia.
    rewrite <- (Z.div_unique (len + n) (2 ^ 32) (len / 2 ^ 32 + 1) (len mod 2 ^ 32 + n - 2 ^ 32)) by lia.
    rewrite (proj2 (Z.ltb_lt _ _)) by lia. rewrite wrapul_eq32, H1. reflexivity.
Qed.

(** What follows the first block: whole blocks when the buffer is empty, nothing
    when the input is short. *)
Lemma update_rest_spec (ctx : sha1_context) (m input : list Z) (n : nat) :
  absorbed ctx m -> Forall byte input -> (n <= length input)%nat ->
  (length m mod 64 = 0 \/ length m mod 64 + n < 64)%nat ->
  exists ctx' c, (c <= n)%nat /\
    update_loop (S (Z.to_nat (Z.of_nat n / 64))) ctx input (Z.of_nat n)
      = Some (ctx', skipn c input, Z.of_nat (n - c)) /\
    absorbed ctx' (m ++ firstn c input) /\ same_total ctx ctx' /\
    (length (m ++ firstn c input) mod 64 = length m mod 64)%nat /\ (length m mod 64 + (n - c) < 64)%nat.
Proof.
  intros Ha Hb Hn Hl.
  assert (Ef : Z.to_nat (Z.of_nat n / 64) = (n / 64)%nat)
    by (rewrite (Z2Nat.inj_div _ 64) by lia; now rewrite Nat2Z.id). rewrite Ef.
  destruct (Nat.eq_dec (length m mod 64) 0) as [El|El].
  - destruct (update_loop_spec (S (n / 64)) ctx m input n Ha El Hb Hn ltac:(lia))
      as (ctx2 & E & Ha2 & Ht2 & Hm2).
    pose proof (Nat.div_mod_eq n 64). pose proof (Nat.mod_upper_bound n 64).
    exists ctx2, (64 * (n / 64))%nat. repeat split; auto; try apply Ha2; try apply Ht2; lia.
  - exists ctx, 0%nat. cbn [update_loop]. rewrite (proj2 (Z.leb_gt _ _)) by lia. cbn [skipn firstn].
    rewrite app_nil_r, Nat.sub_0_r. repeat split; auto; try apply Ha; lia.
Qed.

(** Hashing [n] bytes more. *)
Lemma sha1_update_spec (ctx : sha1_context) (m input : list Z) (n : nat) :
  hashed ctx m -> Forall byte input -> (n <= length input)%nat -> Z.of_nat n < 2 ^ 31 ->
  exists ctx', sha1_update ctx input (Z.of_nat n) = Some ctx' /\ hashed ctx' (m ++ firstn n input).
Proof.
  intros H Hb Hn Hi. unfold sha1_update. destruct (Z.leb_spec (Z.of_nat n) 0).
  { exists ctx. replace n with 0%nat by lia. now rewrite app_nil_r. }
  rewrite (hashed_left _ _ H), (hashed_total0 _ _ H).
  destruct (total_step (Z.of_nat (length m)) (Z.of_nat n) (total1 ctx) ltac:(lia) ltac:(lia)
              (hashed_total1 _ _ H)) as [E0 E1].
  set (t0 := Z.land _ _) in *.
  match type of E1 with eq32 ?x _ => set (t1 := x) in * end.
  destruct (update_fill_spec (with_total t0 t1 ctx) m input n
              (absorbed_with_total _ _ _ _ (hashed_absorbed _ _ H)) Hb Hn)
    as (ctx1 & c & left' & Hc & -> & Ha1 & Ht1 & El & Hl).
  set (m1 := m ++ firstn c input) in *.
  destruct (update_rest_spec ctx1 m1 (skipn c input) (n - c) Ha1 (Forall_skipn _ _ _ Hb)
              ltac:(rewrite length_skipn; lia) ltac:(rewrite <- El; exact Hl))
    as (ctx2 & c2 & Hc2 & -> & Ha2 & Ht2 & El2 & Hl2).
  rewrite <- El in El2, Hl2.
  set (in2 := skipn c2 (skipn c input)) in *. set (k := (n - c - c2)%nat) in *.
  assert (Em : m ++ firstn n input = (m1 ++ firstn c2 (skipn c input)) ++ firstn k in2).
  { replace n with (c + (c2 + k))%nat by lia. unfold m1, in2. now rewrite !firstn_plus, <- !app_assoc. }
  assert (Hk : (k <= length in2)%nat) by (unfold in2; rewrite !length_skipn in *; lia).
  rewrite Em.
  assert (T : forall ctx3, same_total ctx2 ctx3 ->
    absorbed ctx3 ((m1 ++ firstn c2 (skipn c input)) ++ firstn k in2) ->
    hashed ctx3 ((m1 ++ firstn c2 (skipn c input)) ++ firstn k in2)).
  { intros ctx3 [T0 T1] Ha3. destruct Ht1 as [U0 U1], Ht2 as [V0 V1]. rewrite <- Em in Ha3 |- *.
    split; [exact Ha3| |]; rewrite ?T0, ?T1, ?V0, ?V1, ?U0, ?U1, length_app, length_firstn, Nat.min_l,
      Nat2Z.inj_add by lia; [exact E0|exact E1]. }
  destruct (Z.ltb_spec 0 (Z.of_nat k)).
  - rewrite !Nat2Z.id, memcpy_some by (rewrite ?(abs_length _ _ Ha2); lia).
    eexists. split; [reflexivity|]. apply T; [easy|].
    eapply absorb_tail; [exact Ha2| | |]; rewrite ?length_firstn, ?Nat.min_l by lia; [lia| |].
    + unfold in2. auto using Forall_firstn, Forall_skipn.
    + now rewrite <- El2.
  - exists ctx2. split; [reflexivity|]. apply T; [easy|]. replace k with 0%nat by lia.
    now rewrite app_nil_r.
Qed.
Lemma sha1_starts_hashed (junk : sha1_context) :
  length (buffer junk) = 64%nat -> hashed (sha1_starts junk) [].
Proof.
  intros H. split; [split|reflexivity|reflexivity].
  - repeat constructor; reflexivity.
  - exact H.
  - reflexivity.
  - constructor.
Qed.

Lemma length_be_bytes (x : Z) : length (be_bytes x) = 4%nat.
Proof. reflexivity. Qed.

(** The length words of the padding. *)
Lemma finish_high (ctx : sha1_context) (m : list Z) :
  hashed ctx m ->
  eq32 (Z.lor (Z.shiftr (total0 ctx) 29) (wrapul (Z.shiftl (total1 ctx) 3)))
       (8 * Z.of_nat (length m) / 2 ^ 32).
Proof.
  intros H. rewrite wrapul_eq32, Z.lor_comm, Z.shiftl_mul_pow2, Z.shiftr_div_pow2 by lia.
  assert (E : eq32 (total1 ctx * 2 ^ 3) (Z.of_nat (length m) / 2 ^ 32 * 2 ^ 3)).
  { pose proof (hashed_total1 _ _ H) as E. unfold eq32 in *. now rewrite Z.mul_mod, E, <- Z.mul_mod by lia. }
  rewrite E, (hashed_total0 _ _ H). set (n := Z.of_nat (length m)). assert (0 <= n) by lia.
  pose proof (Z.mod_pos_bound n (2 ^ 32) ltac:(lia)). pose proof (Z.div_mod n (2 ^ 32) ltac:(lia)).
  rewrite lor_add; [|lia|].
  2: { split; [apply Z.div_pos; lia|apply Z.div_lt_upper_bound; lia]. }
  replace (8 * n / 2 ^ 32) with (n / 2 ^ 32 * 2 ^ 3 + n mod 2 ^ 32 / 2 ^ 29); [reflexivity|].
  replace (8 * n) with (8 * (n mod 2 ^ 32) + (n / 2 ^ 32 * 2 ^ 3) * 2 ^ 32) by lia.
  rewrite Z.div_add by lia.
  replace (8 * (n mod 2 ^ 32) / 2 ^ 32) with (n mod 2 ^ 32 / 2 ^ 29); [lia|].
  symmetry. apply (Z.div_mul_cancel_l (n mod 2 ^ 32) (2 ^ 29) 8); lia.
Qed.

Lemma finish_low (ctx : sha1_context) (m : list Z) :
  hashed ctx m -> eq32 (wrapul (Z.shiftl (total0 ctx) 3)) (8 * Z.of_nat (length m) mod 2 ^ 32).
Proof.
  intros H. rewrite wrapul_eq32, eq32_mod, (hashed_total0 _ _ H), Z.shiftl_mul_pow2 by lia.
  unfold eq32. rewrite Z.mul_mod_idemp_l by lia. f_equal. lia.
Qed.

Lemma digest_state (st : list Z) (h : hash) : state_holds st h -> flat_map PUT_UINT32_BE st = digest h.
Proof.
  intros H. unfold state_holds in H. do 5 (inversion H as [|? ? ? ? E H']; subst; clear H; rename H' into H;
    cbn [flat_map]; rewrite (PUT_be_bytes _ _ E); clear E). inversion H. reflexivity.
Qed.

(** Finishing gives the hash of the standard. *)
Lemma sha1_finish_spec (ctx : sha1_context) (m : list Z) :
  hashed ctx m -> exists ctx', sha1_finish ctx = Some (ctx', sha1 m) /\ length (buffer ctx') = 64%nat.
Proof.
  intros H. unfold sha1_finish. rewrite (hashed_left _ _ H).
  rewrite (PUT_be_bytes _ _ (finish_high _ _ H)), (PUT_be_bytes _ _ (finish_low _ _ H)).
  set (n := length m). pose proof (Nat.mod_upper_bound n 64 ltac:(lia)) as Hu.
  set (padn := if Z.of_nat (n mod 64) <? 56 then (56 - n mod 64)%nat else (120 - n mod 64)%nat).
  replace (if Z.of_nat (n mod 64) <? 56 then _ else _) with (Z.of_nat padn)
    by (unfold padn; destruct (Z.ltb_spec (Z.of_nat (n mod 64)) 56); lia).
  assert (Hp : (1 <= padn <= 64)%nat) by (unfold padn; destruct (Z.ltb_spec (Z.of_nat (n mod 64)) 56); lia).
  assert (Ez : Z.to_nat ((55 - Z.of_nat n) mod 64) = (padn - 1)%nat).
  { assert (Em : Z.of_nat n mod 64 = Z.of_nat (n mod 64)) by now rewrite Nat2Z.inj_mod.
    rewrite Zminus_mod, Em. unfold padn. destruct (Z.ltb_spec (Z.of_nat (n mod 64)) 56).
    - rewrite Z.mod_small; [|rewrite Z.mod_small; lia]. rewrite Z.mod_small; lia.
    - change (55 mod 64) with 55.
      rewrite <- (Z.mod_unique (55 - Z.of_nat (n mod 64)) 64 (-1) (119 - Z.of_nat (n mod 64))); lia. }
  destruct (sha1_update_spec ctx m sha1_padding padn H) as (ctx1 & -> & H1); [|cbn [length sha1_padding]; rewrite repeat_length; lia|lia|].
  { constructor; [split; lia|]. apply Forall_forall. intros x Hx. apply repeat_spec in Hx. subst. split; lia. }
  set (msglen := be_bytes _ ++ be_bytes _).
  destruct (sha1_update_spec ctx1 _ msglen 8 H1) as (ctx2 & E2 & H2).
  { apply Forall_app. split; apply be_bytes_byte. }
  { unfold msglen. now rewrite length_app, !length_be_bytes. }
  { reflexivity. }
  change (Z.of_nat 8) with 8 in E2. rewrite E2. exists ctx2.
  rewrite (digest_state _ _ (abs_state _ _ (hashed_absorbed _ _ H2))).
  split; [|apply H2]. unfold sha1. do 4 f_equal. unfold pad. fold n. rewrite Ez, <- app_assoc. f_equal.
  destruct padn as [|p]; [lia|]. cbn [sha1_padding firstn app Nat.sub]. rewrite Nat.sub_0_r. f_equal.
  rewrite firstn_repeat, Nat.min_l by lia. reflexivity.
Qed.
End Streaming.

(** ** The hash of a message, however it is cut *)

Section Messages.
Context {UL : ULong}.

(** One [sha1_update] per piece. *)
Fixpoint update_all (ctx : sha1_context) (pieces : list (list Z)) : option sha1_context :=
  match pieces with
  | [] => Some ctx
  | p :: ps => let? ctx := sha1_update ctx p (Z.of_nat (length p)) in update_all ctx ps
  end.

Definition piece_ok (p : list Z) : Prop := Forall byte p /\ Z.of_nat (length p) < 2 ^ 31.

Lemma update_all_spec (pieces : list (list Z)) :
  forall (ctx : sha1_context) (m : list Z),
    hashed ctx m -> Forall piece_ok pieces ->
    exists ctx', update_all ctx pieces = Some ctx' /\ hashed ctx' (m ++ concat pieces).
Proof.
  induction pieces as [|p ps IH]; intros ctx m H Hp; cbn [update_all concat].
  { exists ctx. now rewrite app_nil_r. }
  inversion Hp as [|? ? [Hb Hl] Hps]; subst.
  destruct (sha1_update_spec ctx m p (length p) H Hb (le_n _) Hl) as (ctx1 & -> & H1).
  rewrite firstn_all in H1. rewrite app_assoc. now apply IH.
Qed.

(** The digest printed after "sha1sum ". *)
Definition hex_text (bytes : list Z) : string := String.concat "" (map hexpair bytes).

Lemma append_hex_spec (l : list Z) (s : string) :
  fold_left append_hex l s = (s ++ hex_text l)%string.
Proof.
  revert s. induction l as [|x l IH]; intros s; cbn [fold_left].
  { symmetry. apply string_app_nil_r. }
  rewrite IH. unfold append_hex. rewrite string_app_assoc. f_equal.
  unfold hex_text. cbn [map]. now destruct l.
Qed.

Lemma length_digest (h : hash) : length (digest h) = 20%nat.
Proof. reflexivity. Qed.

Lemma sum_text_spec (m : list Z) : sum_text (sha1 m) = ("sha1sum " ++ hex_text (sha1 m))%string.
Proof.
  unfold sum_text. rewrite append_hex_spec, string_app_assoc. reflexivity.
Qed.

Lemma hex_text_length (l : list Z) : String.length (hex_text l) = (2 * length l)%nat.
Proof.
  unfold hex_text. induction l as [|x l IH]; [reflexivity|]. cbn [map length].
  destruct l; [reflexivity|]. cbn [String.concat map] in *. cbn. cbn in IH. rewrite IH. lia.
Qed.

(** C13: Hashing a message in pieces - whatever the pieces, the width of
    [unsigned long] and the bytes the context's buffer held before - never
    accesses memory out of bounds and gives the hash FIPS 180-1 defines for the
    whole message. *)
Theorem sha1_stream_spec (junk : sha1_context) (pieces : list (list Z)) :
  length (buffer junk) = 64%nat -> Forall piece_ok pieces ->
  exists ctx ctx',
    update_all (sha1_starts junk) pieces = Some ctx /\
    sha1_finish ctx = Some (ctx', sha1 (concat pieces)).
Proof.
  intros Hj Hp.
  destruct (update_all_spec pieces _ _ (sha1_starts_hashed junk Hj) Hp) as (ctx & E & H).
  destruct (sha1_finish_spec ctx _ H) as (ctx' & E' & _). eauto.
Qed.

Lemma sha1_csum_hash (junk : sha1_context) (input : list Z) (n : nat) :
  length (buffer junk) = 64%nat -> Forall byte input -> (n <= length input)%nat -> Z.of_nat n < 2 ^ 31 ->
  sha1_csum junk input (Z.of_nat n) = Some (sha1 (firstn n input)).
Proof.
  intros Hj Hb Hn Hi. unfold sha1_csum.
  destruct (sha1_update_spec _ [] input n (sha1_starts_hashed junk Hj) Hb Hn Hi) as (ctx & -> & H).
  now destruct (sha1_finish_spec ctx _ H) as (ctx' & -> & _).
Qed.

Lemma calc_sha1sum_csum (junk : sha1_context) (buf : list Z) (size : Z) :
  calc_sha1sum junk buf size =
  let? sum := sha1_csum junk buf (wraps32 size) in Some (sum_text sum).
Proof.
  unfold calc_sha1sum, sha1_csum. destruct (sha1_update _ _ _); [|reflexivity].
  now destruct (sha1_finish _) as [[]|].
Qed.

Lemma calc_sha1sum_hash (junk : sha1_context) (buf : list Z) (size : Z) :
  length (buffer junk) = 64%nat -> Forall byte buf -> 0 <= size <= Z.of_nat (length buf) -> size < 2 ^ 31 ->
  calc_sha1sum junk buf size = Some ("sha1sum " ++ hex_text (sha1 (firstn (Z.to_nat size) buf)))%string.
Proof.
  intros Hj Hb Hs Hi. rewrite calc_sha1sum_csum, wraps32_id by lia.
  rewrite <- (Z2Nat.id size) at 1 by lia. rewrite sha1_csum_hash by (assumption || lia).
  now rewrite sum_text_spec.
Qed.

(** The text [calc_sha1sum] stores for a part of an image: up to 2 GiB it is
    the hash of the part; from 2 GiB to 4 GiB, where the size turns negative as an
    [int], it is the hash of the empty message whatever the part.  With its NUL it
    has 49 bytes, one more than the arrays [sha1sum] and [bin_sha1sum] of its
    callers. *)
Theorem calc_sha1sum_spec (junk : sha1_context) (buf : list Z) (size : Z) :
  length (buffer junk) = 64%nat -> Forall byte buf -> 0 <= size <= Z.of_nat (length buf) -> size < 2 ^ 32 ->
  exists text, calc_sha1sum junk buf size = Some text /\ String.length text = 48%nat /\
    let part := if size <? 2 ^ 31 then firstn (Z.to_nat size) buf else [] in
    text = ("sha1sum " ++ hex_text (sha1 part))%string.
Proof.
  intros Hj Hb Hs Hi. eexists. split; [|split; [|reflexivity]].
  2: { rewrite string_length_app, hex_text_length. reflexivity. }
  destruct (Z.ltb_spec size (2 ^ 31)); [now apply calc_sha1sum_hash|].
  rewrite calc_sha1sum_csum.
  assert (wraps32 size < 0) by (unfold wraps32; rewrite <- (Z.mod_unique (size + 2 ^ 31) (2 ^ 32) 1 (size - 2 ^ 31)); lia).
  replace (sha1_csum junk buf (wraps32 size)) with (sha1_csum junk [] (Z.of_nat 0)).
  - rewrite sha1_csum_hash by (assumption || constructor || lia). now rewrite sum_text_spec.
  - unfold sha1_csum, sha1_update. now rewrite (proj2 (Z.leb_le (wraps32 size) 0)) by lia.
Qed.
End Messages.

(** ** Files and keyed hashes *)

Section Files.
Context {UL : ULong}.

Lemma hash_file_spec (fuel : nat) :
  forall (ctx : sha1_context) (m rest : list Z) (left : nat),
    hashed ctx m -> Forall byte rest -> (left < fuel)%nat ->
    exists r, hash_file fuel ctx rest (Z.of_nat left) = Some r /\
      match r with
      | inl e => e = 509 /\ (length rest < left)%nat
      | inr ctx' => (left <= length rest)%nat /\ hashed ctx' (m ++ firstn left rest)
      end.
Proof.
  induction fuel as [|fuel IH]; intros ctx m rest left H Hb Hf; [lia|]. cbn [hash_file].
  destruct (Z.ltb_spec 0 (Z.of_nat left)).
  2: { exists (inr ctx). replace left with 0%nat by lia. rewrite app_nil_r. split; [reflexivity|].
       split; [lia|exact H]. }
  assert (E : exists c, (1 <= c <= left)%nat /\ Z.of_nat c <= BufSz /\
    (if BufSz <? Z.of_nat left then BufSz else wrapu32 (Z.of_nat left)) = Z.of_nat c).
  { exists (Nat.min (Z.to_nat BufSz) left). unfold wrapu32. change BufSz with 2097152.
    destruct (Z.ltb_spec 2097152 (Z.of_nat left)); [|rewrite Z.mod_small]; lia. }
  destruct E as (c & Hc & Hcb & ->). rewrite Nat2Z.id, length_firstn.
  destruct (Z.eqb_spec (Z.of_nat (Nat.min c (length rest))) (Z.of_nat c)) as [E|E]; cbn [negb].
  - change BufSz with 2097152 in Hcb.
    destruct (sha1_update_spec ctx m (firstn c rest) c H (Forall_firstn _ _ _ Hb)
                ltac:(rewrite length_firstn; lia) ltac:(lia)) as (ctx1 & -> & H1).
    rewrite firstn_firstn, Nat.min_id in H1.
    replace (Z.of_nat left - Z.of_nat c) with (Z.of_nat (left - c)) by lia.
    destruct (IH ctx1 _ (skipn c rest) (left - c)%nat H1 (Forall_skipn _ _ _ Hb) ltac:(lia)) as (r & -> & Hr).
    exists r. split; [reflexivity|]. rewrite length_skipn in Hr. destruct r as [e|ctx'].
    + lia.
    + replace left with (c + (left - c))%nat by lia. rewrite firstn_plus, app_assoc. split; [lia|apply Hr].
  - exists (inl 509). split; [reflexivity|]. lia.
Qed.

(** [gen_sha1sum_verify] on a file that opens: it ends without an access out
    of bounds; when the file still has the bytes [stat] announced, the text is the
    hash of those bytes, read in pieces of 2 MiB; when it has fewer, the function
    reports an error and writes no text. *)
Theorem gen_sha1sum_verify_spec (junk : sha1_context) (fl : file_view) :
  length (buffer junk) = 64%nat -> Forall byte (content fl) -> 0 < st_size fl -> opens fl = true ->
  gen_sha1sum_verify junk true (Some fl) =
  Some (if st_size fl <=? Z.of_nat (length (content fl))
        then (0, Some ("sha1sum " ++ hex_text (sha1 (firstn (Z.to_nat (st_size fl)) (content fl))))%string)
        else (509, None)).
Proof.
  intros Hj Hb Hs Ho. unfold gen_sha1sum_verify. rewrite Ho, (proj2 (Z.eqb_neq _ _)) by lia. cbn [negb].
  destruct (hash_file_spec (S (Z.to_nat (st_size fl))) (sha1_starts junk) [] (content fl)
              (Z.to_nat (st_size fl)) (sha1_starts_hashed junk Hj) Hb ltac:(lia)) as (r & E & Hr).
  rewrite Z2Nat.id in E by lia. rewrite E. destruct r as [e|ctx'].
  - destruct Hr as [-> Hr]. now rewrite (proj2 (Z.leb_gt _ _)) by lia.
  - destruct Hr as [Hl H]. rewrite (proj2 (Z.leb_le _ _)) by lia.
    destruct (sha1_finish_spec ctx' _ H) as (c & -> & _). now rewrite sum_text_spec.
Qed.

Lemma xor_key_spec (x : Z) (key : list Z) (n : nat) :
  forall keylen, (keylen <= length key)%nat ->
  xor_key (repeat x n) key keylen =
  Some (map (Z.lxor x) (firstn (Nat.min n keylen) key) ++ repeat x (n - Nat.min n keylen)).
Proof.
  revert key. induction n as [|n IH]; intros key [|keylen] Hk; try reflexivity.
  destruct key as [|k key]; [cbn in Hk; lia|]. cbn [repeat xor_key Nat.min].
  rewrite IH by (cbn in Hk; lia). reflexivity.
Qed.

Lemma map_lxor_byte (x : Z) (l : list Z) : byte x -> Forall byte l -> Forall byte (map (Z.lxor x) l).
Proof.
  intros Hx Hl. apply Forall_map. eapply Forall_impl; [|exact Hl]. unfold byte in *. intros y Hy.
  change 256 with (2 ^ 8) in *.
  assert (Hge : 0 <= Z.lxor x y) by (apply Z.lxor_nonneg; lia). split; [exact Hge|].
  destruct (Z.eq_dec (Z.lxor x y) 0) as [->|Hnz]; [lia|]. apply Z.log2_lt_pow2; [lia|].
  eapply Z.le_lt_trans; [apply Z.log2_lxor; lia|].
  destruct (Z.eq_dec x 0) as [->|], (Z.eq_dec y 0) as [->|]; cbn [Z.log2]; 
    try pose proof (Z.log2_lt_pow2 x 8); try pose proof (Z.log2_lt_pow2 y 8); lia.
Qed.
Lemma repeat_byte (x : Z) (n : nat) : byte x -> Forall byte (repeat x n).
Proof. intros H. apply Forall_forall. intros y Hy. apply repeat_spec in Hy. now subst. Qed.

Lemma sha1_bytes (m : list Z) : Forall byte (sha1 m).
Proof. unfold sha1, digest. repeat (apply Forall_app; split); apply be_bytes_byte. Qed.

(** One of the two hashes of [sha1_hmac]: the pad, then a message. *)
Lemma hmac_half (ctx : sha1_context) (pad m : list Z) (n : nat) :
  length (buffer ctx) = 64%nat -> Forall byte pad -> length pad = 64%nat ->
  Forall byte m -> (n <= length m)%nat -> Z.of_nat n < 2 ^ 31 ->
  exists c1 c2 c3, sha1_update (sha1_starts ctx) pad 64 = Some c1 /\
    sha1_update c1 m (Z.of_nat n) = Some c2 /\
    sha1_finish c2 = Some (c3, sha1 (pad ++ firstn n m)) /\ length (buffer c3) = 64%nat.
Proof.
  intros Hj Hp HL Hm Hn Hi.
  destruct (sha1_update_spec _ [] pad 64 (sha1_starts_hashed ctx Hj) Hp ltac:(lia) ltac:(lia)) as (c1 & E1 & H1).
  rewrite firstn_all2 in H1 by lia.
  destruct (sha1_update_spec c1 _ m n H1 Hm Hn Hi) as (c2 & E2 & H2).
  destruct (sha1_finish_spec c2 _ H2) as (c3 & E3 & H3). exists c1, c2, c3. auto.
Qed.

(** [sha1_hmac] computes HMAC-SHA-1 (RFC 2104) for a key of at most 64 bytes,
    without an access out of bounds; of a longer key it only uses the first 64
    bytes, where the RFC uses its hash. *)
Theorem sha1_hmac_spec (junk : sha1_context) (key : list Z) (keylen : nat) (input : list Z) (n : nat) :
  length (buffer junk) = 64%nat -> Forall byte key -> (keylen <= length key)%nat ->
  Forall byte input -> (n <= length input)%nat -> Z.of_nat n < 2 ^ 31 ->
  sha1_hmac junk key (Z.of_nat keylen) input (Z.of_nat n) =
  Some (hmac (firstn (Nat.min 64 keylen) key) (firstn n input)).
Proof.
  intros Hj Hk Hkl Hb Hn Hi. unfold sha1_hmac, hmac. rewrite Nat2Z.id, !xor_key_spec by exact Hkl.
  set (k := firstn (Nat.min 64 keylen) key).
  assert (HL : length k = Nat.min 64 keylen) by (unfold k; rewrite length_firstn; lia).
  assert (Hkb : Forall byte k) by now apply Forall_firstn.
  assert (Hpad : forall x, byte x ->
    map (Z.lxor x) (k ++ repeat 0 (64 - length k)) = map (Z.lxor x) k ++ repeat x (64 - Nat.min 64 keylen) /\
    Forall byte (map (Z.lxor x) k ++ repeat x (64 - Nat.min 64 keylen)) /\
    length (map (Z.lxor x) k ++ repeat x (64 - Nat.min 64 keylen)) = 64%nat).
  { intros x Hx. rewrite map_app, map_repeat, Z.lxor_0_r, HL, length_app, length_map, repeat_length, HL.
    repeat split; [|lia]. apply Forall_app. auto using map_lxor_byte, repeat_byte. }
  destruct (Hpad 0x36 ltac:(split; lia)) as (-> & Hib & HiL).
  destruct (Hpad 0x5C ltac:(split; lia)) as (-> & Hob & HoL).
  destruct (hmac_half junk _ input n Hj Hib HiL Hb Hn Hi) as (c1 & c2 & c3 & -> & -> & -> & H3).
  set (inner := sha1 _) in *.
  destruct (hmac_half c3 _ inner 20 H3 Hob HoL (sha1_bytes _) ltac:(cbn; lia) ltac:(lia))
    as (d1 & d2 & d3 & -> & E & E' & _).
  change (Z.of_nat 20) with 20 in E. rewrite E, E'. reflexivity.
Qed.
End Files.

(** ** Concrete hashes *)

(** The vectors of FIPS 180-1 and the first of RFC 2202: the reference is the
    published hash. *)
Definition bytes_of (s : string) : list Z := map ord (list_ascii_of_string s).

Example sha1_abc : hex_text (sha1 (bytes_of "abc")) = "a9993e364706816aba3e25717850c26c9cd0d89d"%string.
Proof. vm_compute. reflexivity. Qed.

Example sha1_two_blocks :
  hex_text (sha1 (bytes_of "abcdbcdecdefdefgefghfghighijhijkijkljklmklmnlmnomnopnopq"))
  = "84983e441c3bd26ebaae4aa1f95129e5e54670f1"%string.
Proof. vm_compute. reflexivity. Qed.

Example hmac_hi_there :
  hex_text (hmac (repeat 0x0b 20) (bytes_of "Hi There")) = "b617318655057264e28bc0b6fb378c8ef146be00"%string.
Proof. vm_compute. reflexivity. Qed.

(** A context as a stack frame leaves it. *)
Definition demo_ctx : sha1_context := mk_sha1 7 7 [] (repeat 170 64).

Lemma demo_pieces_ok : Forall piece_ok [bytes_of "ab"; bytes_of "c"].
Proof. repeat constructor; discriminate. Qed.

Lemma sha1_stream_spec_witness :
  exists ctx ctx', @update_all lp64 (sha1_starts demo_ctx) [bytes_of "ab"; bytes_of "c"] = Some ctx /\
    @sha1_finish lp64 ctx = Some (ctx', sha1 (bytes_of "abc")).
Proof. exact (@sha1_stream_spec lp64 demo_ctx [bytes_of "ab"; bytes_of "c"] eq_refl demo_pieces_ok). Defined.

Lemma calc_sha1sum_spec_witness :
  exists text, @calc_sha1sum ilp32 demo_ctx (bytes_of "abc") 3 = Some text /\ String.length text = 48%nat /\
    text = "sha1sum a9993e364706816aba3e25717850c26c9cd0d89d"%string.
Proof.
  destruct (@calc_sha1sum_spec ilp32 demo_ctx (bytes_of "abc") 3 eq_refl
    ltac:(repeat constructor; discriminate) ltac:(cbn; lia) ltac:(lia)) as (t & E & L & H).
  exists t. split; [exact E|]. split; [exact L|]. rewrite H. vm_compute. reflexivity.
Defined.

Lemma gen_sha1sum_verify_spec_witness :
  @gen_sha1sum_verify lp64 demo_ctx true (Some (mk_file 3 true (bytes_of "abc")))
  = Some (0, Some "sha1sum a9993e364706816aba3e25717850c26c9cd0d89d"%string).
Proof.
  rewrite (@gen_sha1sum_verify_spec lp64 demo_ctx (mk_file 3 true (bytes_of "abc")) eq_refl
    ltac:(repeat constructor; discriminate) ltac:(cbn; lia) eq_refl).
  vm_compute. reflexivity.
Defined.

Lemma sha1_hmac_spec_witness :
  @sha1_hmac lp64 demo_ctx (repeat 0x0b 20) 20 (bytes_of "Hi There") 8
  = Some (hmac (repeat 0x0b 20) (bytes_of "Hi There")).
Proof.
  exact (@sha1_hmac_spec lp64 demo_ctx (repeat 0x0b 20) 20 (bytes_of "Hi There") 8 eq_refl
    ltac:(repeat constructor; discriminate) (le_n _) ltac:(repeat constructor; discriminate) (le_n _) eq_refl).
Defined.
