(* ===== verification/Nand.v ===== *)
(** * Flash partitions and the world of the update programs

    What [framework/libs/ota] works on: flash partitions behind the MTD driver,
    files and devices, commands given to the shell.  The operating system is the
    class [OtaEnv] over a state [X] of the outside; the model keeps the events of
    a run and the number of open descriptors.

    [nand_read], [nand_write], [nand_erase], [nand_erase_part] and
    [next_good_eraseblock] of [framework/libs/ota/recovery/recovery.c], which
    work page by page around the bad blocks, and the plain [rawflash_read] and
    [rawflash_write]. *)

From Stdlib Require Import Ascii String ZArith List Bool Lia.
From S2P Require Import Prelude CString CMonad.
Import ListNotations.
Open Scope Z_scope.
Open Scope list_scope.

(** [mtd_info_t], as far as the sources read it. *)
Record mtd_info_t := mk_mtd { m_size : Z; m_erasesize : Z; m_writesize : Z }.

Inductive ota_event :=
| Erased (dev : string) (start : Z)               (* MEMERASE of a block *)
| Wrote (dev : string) (off : Z) (data : list Z)  (* bytes a write() accepted *)
| System (cmd : string).                          (* system() *)

(** The operating system.  Observers leave the outside as it is. *)
Class OtaEnv (X : Type) := {
  os_malloc : Z -> X -> bool * X;
  mtd_open : string -> X -> bool;                       (* open(dev) >= 0 *)
  mtd_is_chr : string -> X -> option bool;              (* fstat, S_ISCHR *)
  mtd_info : string -> X -> option mtd_info_t;          (* MEMGETINFO *)
  mtd_badblock : string -> Z -> X -> Z;                 (* MEMGETBADBLOCK *)
  mtd_unlock : string -> Z -> X -> X;                   (* MEMUNLOCK *)
  mtd_erase : string -> Z -> X -> Z * X;                (* MEMERASE *)
  dev_read : string -> Z -> Z -> X -> list Z;           (* lseek and read *)
  dev_write : string -> Z -> list Z -> X -> Z * X;      (* lseek and write *)
  os_file : string -> X -> option string;               (* the text of a file *)
  os_exists : string -> X -> bool;                      (* fopen of a device node *)
  os_image : string -> X -> option (list Z);            (* the bytes of an image *)
  os_dir : string -> X -> option (list string);         (* opendir, readdir *)
  os_system : string -> X -> Z * X;
  os_mount : string -> string -> string -> X -> Z * X;  (* mount(source, target, type) *)
}.

(** [FS_FORMAT], [struct partition_info] with its [struct mount_info]. *)
Inductive FS_FORMAT :=
| RAW_FS | UBI_FS | SQUASH_FS | EXT2_FS | EXT3_FS | EXT4_FS
| SQUASHFS_OVERLAY_UBIFS | UBIFS_OVERLAY_UBIFS | VOL_OVERLAY_UBIFS | UNKNOWN_FS.

Record partition_info := mk_partition {
  part_name : string; mount_point : string; mount_format : string; mount_path : string;
  mount_param : string; part_format : FS_FORMAT }.

(** [oparts] is the table [g_partition_info] of [recovery.c], filled once. *)
Record oworld (X : Type) := mk_oworld {
  oenv : X; otrace : list ota_event; ofds : Z; oparts : list partition_info }.
Arguments mk_oworld {X}.
Arguments oparts {X}.
Arguments oenv {X}.
Arguments otrace {X}.
Arguments ofds {X}.

Section World.
Context {X : Type} `{!OtaEnv X}.
Local Notation W := (oworld X).

Definition set_oenv (x : X) (w : W) : W := mk_oworld x (otrace w) (ofds w) (oparts w).

Definition add_fds (n : Z) (w : W) : W := mk_oworld (oenv w) (otrace w) (ofds w + n) (oparts w).

Definition set_oparts (l : list partition_info) (w : W) : W := mk_oworld (oenv w) (otrace w) (ofds w) l.

Definition emit (e : ota_event) : M W unit :=
  modify (fun w => mk_oworld (oenv w) (otrace w ++ [e]) (ofds w) (oparts w)).

Definition ask {A} (f : X -> A) : M W A := gets (fun w => f (oenv w)).

Definition tell {A} (f : X -> A * X) : M W A :=
  fun w => let '(a, x) := f (oenv w) in Ret a (set_oenv x w).

(** [open] of a device node, [close]. *)
Definition open_dev (dev : string) : M W bool :=
  ok <- ask (mtd_open dev) ;;
  (if ok : bool then modify (add_fds 1) else ret tt) ;;
  ret ok.

Definition close_dev : M W unit := modify (add_fds (-1)).

(** [lseek] and [write]: the accepted bytes are an event. *)
Definition write_dev (dev : string) (off : Z) (data : list Z) : M W Z :=
  n <- tell (dev_write dev off data) ;;
  when (0 <? n) (emit (Wrote dev off (firstn (Z.to_nat n) data))) ;;
  ret n.

Definition system (cmd : string) : M W Z := emit (System cmd) ;; tell (os_system cmd).
End World.

(** * Flash partitions: the code *)

(** A write into a buffer at position [k]. *)
Definition blit (buf : list Z) (k : nat) (data : list Z) : option (list Z) :=
  if Nat.leb (k + length data) (length buf)
  then Some (firstn k buf ++ data ++ skipn (k + length data) buf)
  else None.

Section Nand.
Context {X : Type} `{!OtaEnv X}.
Local Notation W := (oworld X).

Definition copy_into (buf : list Z) (k : nat) (data : list Z) : M W (list Z) :=
  match blit buf k data with Some b => ret b | None => stop BufferOverflow end.

(** [n] bytes of the caller's buffer. *)
Definition bytes_at (buf : list Z) (k n : nat) : M W (list Z) :=
  if Nat.leb (k + n) (length buf) then ret (firstn n (skipn k buf)) else stop OutOfBounds.

(** [offset & ~(erasesize - 1)] in unsigned arithmetic. *)
Definition block_of (i : mtd_info_t) (offset : Z) : Z :=
  Z.land (wrapu32 offset) (wrapu32 (Z.lnot (wrapu32 (m_erasesize i - 1)))).

(** [while (1)]: a round per block. *)
Fixpoint next_good_loop (fuel : nat) (dev : string) (i : mtd_info_t) (block_offset : Z) : M W Z :=
  match fuel with
  | O => stop Hang
  | S fuel' =>
      if m_size i <=? block_offset then ret block_offset
      else
        r <- ask (mtd_badblock dev block_offset) ;;
        if r =? 0 then ret block_offset
        else next_good_loop fuel' dev i (wrapu32 (block_offset + m_erasesize i))
  end.

Definition next_good_eraseblock (dev : string) (i : mtd_info_t) (block_offset : Z) : M W Z :=
  next_good_loop (S (Z.to_nat (m_size i / m_erasesize i))) dev i block_offset.

(** "if offset in a bad block, get next good block": before the loops. *)
Definition first_good (dev : string) (i : mtd_info_t) (offset : Z) : M W Z :=
  let blockstart := block_of i offset in
  if wrapu32 offset =? blockstart then ret offset
  else
    t <- next_good_eraseblock dev i blockstart ;;
    ret (if t =? blockstart then offset else wraps32 (t + offset - blockstart)).

(** At the start of a block the loops move on to the next good one; [None] when
    there is none. *)
Definition at_good_block (dev : string) (i : mtd_info_t) (offset : Z) : M W (option Z) :=
  let blockstart := block_of i offset in
  if blockstart =? wrapu32 offset then
    t <- next_good_eraseblock dev i blockstart ;;
    let offset := wraps32 t in
    ret (if m_size i <=? wrapu32 offset then None else Some offset)
  else ret (Some offset).

(** The rounds the loops below can make: one per page. *)
Definition page_fuel (i : mtd_info_t) : nat := S (Z.to_nat (m_size i / m_writesize i)).

(** [while(offset < limit)] of [nand_read]: [k] bytes of [buf] are filled, [len]
    are to go. *)
Fixpoint nand_read_loop (fuel : nat) (dev : string) (i : mtd_info_t) (offset : Z)
    (buf : list Z) (k : nat) (len : Z) : M W (Z * list Z) :=
  match fuel with
  | O => stop Hang
  | S fuel' =>
      if wrapu32 offset <? m_size i then
        o <- at_good_block dev i offset ;;
        match o with
        | None => close_dev ;; ret (-1, buf)
        | Some offset =>
            tmp <- ask (dev_read dev offset (m_writesize i)) ;;
            if negb (Z.of_nat (length tmp) =? m_writesize i) then close_dev ;; ret (-1, buf)
            else if len <? m_writesize i then
              b <- copy_into buf k (firstn (Z.to_nat len) tmp) ;;
              close_dev ;;
              ret (0, b)
            else
              b <- copy_into buf k tmp ;;
              nand_read_loop fuel' dev i (wraps32 (offset + m_writesize i)) b
                (k + length tmp) (len - m_writesize i)
        end
      else close_dev ;; ret (0, buf)
  end.

(** The result and the buffer [file_buf] afterwards. *)
Definition nand_read (dev : string) (mtd_offset : Z) (file_buf : list Z) (len : Z) : M W (Z * list Z) :=
  ok <- open_dev dev ;;
  if negb ok then ret (-1, file_buf)
  else
    meminfo <- ask (mtd_info dev) ;;
    match meminfo with
    | None => close_dev ;; ret (-1, file_buf)
    | Some i =>
        buf <- copy_into file_buf 0 (repeat 0 (Z.to_nat len)) ;;
        if wrapu32 mtd_offset &? (m_writesize i - 1) then close_dev ;; ret (-1, buf)
        else
          ok <- tell (os_malloc (m_writesize i)) ;;
          if negb ok then close_dev ;; ret (-1, buf)
          else
            offset <- first_good dev i mtd_offset ;;
            nand_read_loop (page_fuel i) dev i offset buf 0 len
    end.

(** [while(offset < limit)] of [nand_write]: [k] bytes of [file_buf] are written. *)
Fixpoint nand_write_loop (fuel : nat) (dev : string) (i : mtd_info_t) (offset : Z)
    (file_buf : list Z) (k : nat) (len : Z) : M W Z :=
  match fuel with
  | O => stop Hang
  | S fuel' =>
      if wrapu32 offset <? m_size i then
        o <- at_good_block dev i offset ;;
        match o with
        | None => close_dev ;; ret (-1)
        | Some offset =>
            let ws := m_writesize i in
            let n := if len <? ws then len else ws in
            data <- bytes_at file_buf k (Z.to_nat n) ;;
            size <- write_dev dev offset (data ++ repeat 255 (Z.to_nat (ws - n))) ;;
            if negb (size =? ws) then close_dev ;; ret (-1)
            else if len - n =? 0 then close_dev ;; ret 0
            else nand_write_loop fuel' dev i (wraps32 (offset + ws)) file_buf (k + Z.to_nat n) (len - n)
        end
      else close_dev ;; ret 0
  end.

Definition nand_write (dev : string) (mtd_offset : Z) (file_buf : list Z) (len : Z) : M W Z :=
  ok <- open_dev dev ;;
  if negb ok then ret (-1)
  else
    meminfo <- ask (mtd_info dev) ;;
    match meminfo with
    | None => close_dev ;; ret (-1)
    | Some i =>
        if wrapu32 mtd_offset &? (m_writesize i - 1) then close_dev ;; ret (-1)
        else
          ok <- tell (os_malloc (m_writesize i)) ;;
          if negb ok then close_dev ;; ret (-1)
          else
            offset <- first_good dev i mtd_offset ;;
            nand_write_loop (page_fuel i) dev i offset file_buf 0 len
    end.

(** The [for] of [nand_erase_part]: the last [ret] and [erase.start], or [None]
    after an error. *)
Fixpoint erase_loop (fuel : nat) (dev : string) (i : mtd_info_t) (erase_part bad_blocks start r : Z)
  : M W (option (Z * Z)) :=
  match fuel with
  | O => stop Hang
  | S fuel' =>
      if (start <? wrapu32 (erase_part + bad_blocks)) && (start <? m_size i) then
        r <- ask (mtd_badblock dev start) ;;
        if 0 <? r then
          erase_loop fuel' dev i erase_part (wraps32 (bad_blocks + m_erasesize i))
            (wrapu32 (start + m_erasesize i)) r
        else if r <? 0 then close_dev ;; ret None
        else
          modify (fun w => set_oenv (mtd_unlock dev start (oenv w)) w) ;;
          e <- tell (mtd_erase dev start) ;;
          if e <? 0 then close_dev ;; ret None
          else
            emit (Erased dev start) ;;
            erase_loop fuel' dev i erase_part bad_blocks (wrapu32 (start + m_erasesize i)) r
      else ret (Some (r, start))
  end.

(** The descriptor stays open when the offset is not a multiple of the block. *)
Definition nand_erase_part (dev : string) (offset size : Z) : M W Z :=
  ok <- open_dev dev ;;
  if negb ok then ret (-1)
  else
    chr <- ask (mtd_is_chr dev) ;;
    match chr with
    | None | Some false => close_dev ;; ret (-1)
    | Some true =>
        meminfo <- ask (mtd_info dev) ;;
        match meminfo with
        | None => close_dev ;; ret (-1)
        | Some i =>
            let len := m_erasesize i in
            if negb (wrapu32 offset mod len =? 0) then ret (-2)
            else
              let erase_part :=
                wraps32 (if wrapu32 size mod len =? 0 then offset + size
                         else (wrapu32 size / len + 1) * len + offset) in
              let erase_part :=
                if (m_size i <=? wrapu32 erase_part) || (size =? 0) then wraps32 (m_size i)
                else erase_part in
              res <- erase_loop (S (Z.to_nat (m_size i / len))) dev i erase_part 0 (wrapu32 offset) 0 ;;
              match res with
              | None => ret (-1)
              | Some (r, start) =>
                  close_dev ;;
                  ret (if m_size i <? start then -1 else r)
              end
        end
    end.

Definition nand_erase (dev : string) (offset : Z) : M W Z := nand_erase_part dev offset 0.

Definition rawflash_read (dev : string) (offset : Z) (file_buf : list Z) (len : Z) : M W (Z * list Z) :=
  ok <- open_dev dev ;;
  if negb ok then ret (-1, file_buf)
  else
    data <- ask (dev_read dev offset len) ;;
    b <- copy_into file_buf 0 data ;;
    close_dev ;;
    ret (if Z.of_nat (length data) =? len then 0 else -1, b).

Definition rawflash_write (dev : string) (offset : Z) (file_buf : list Z) (len : Z) : M W Z :=
  ok <- open_dev dev ;;
  if negb ok then ret (-1)
  else
    data <- bytes_at file_buf 0 (Z.to_nat len) ;;
    n <- write_dev dev offset data ;;
    close_dev ;;
    ret (if n =? len then 0 else -1).
End Nand.
