(* ===== verification/NandProofs.v ===== *)
(** * Flash partitions: correctness

    A partition whose good blocks work is, through [nand_read], [nand_write] and
    [nand_erase_part], a plain array of bytes: its good pages one after the other.
    What is written after an erase is what is read, wherever the bad blocks are. *)

From Stdlib Require Import Ascii String ZArith List Bool Lia.
From S2P Require Import Prelude CString CMonad Nand.
Import ListNotations.
Open Scope Z_scope.
Open Scope list_scope.

(** ** Partitions *)

(** The sizes of a partition: pages and blocks are powers of two, less than 2 GiB
    in all. *)
Record geometry (i : mtd_info_t) := {
  ws_log : Z; es_log : Z; blocks_num : Z;
  ws_pow : m_writesize i = 2 ^ ws_log;
  es_pow : m_erasesize i = 2 ^ es_log;
  ws_nonneg : 0 <= ws_log;
  ws_le_es : ws_log <= es_log;
  size_blocks : m_size i = blocks_num * 2 ^ es_log;
  blocks_pos : 0 < blocks_num;
  size_int : m_size i < 2 ^ 31 }.

(** The documented behaviour of a partition whose good blocks work and of a system
    that has memory; [page dev x p] is the page at [p]. *)
Class WorkingFlash {X : Type} `{!OtaEnv X} (dev : string) (i : mtd_info_t) (bad : Z -> bool)
    (page : string -> X -> Z -> list Z) := {
  wf_geometry : geometry i;
  wf_open x : mtd_open dev x = true;
  wf_chr x : mtd_is_chr dev x = Some true;
  wf_info x : mtd_info dev x = Some i;
  wf_bad x b : mtd_badblock dev b x = if bad b then 1 else 0;
  wf_page_length x p : Z.of_nat (length (page dev x p)) = m_writesize i;
  wf_read x p : 0 <= p < m_size i -> p mod m_writesize i = 0 -> bad (p - p mod m_erasesize i) = false ->
    dev_read dev p (m_writesize i) x = page dev x p;
  wf_malloc x n : exists x', os_malloc n x = (true, x') /\ forall d p, page d x' p = page d x p;
  wf_unlock x b d p : page d (mtd_unlock dev b x) p = page d x p;
  wf_erase x b : 0 <= b < m_size i -> b mod m_erasesize i = 0 -> bad b = false ->
    exists x', mtd_erase dev b x = (0, x') /\ forall d p,
      page d x' p =
      if String.eqb d dev && (p - p mod m_erasesize i =? b)
      then repeat 255 (Z.to_nat (m_writesize i)) else page d x p;
  wf_write x p data : 0 <= p < m_size i -> p mod m_writesize i = 0 ->
    bad (p - p mod m_erasesize i) = false ->
    page dev x p = repeat 255 (Z.to_nat (m_writesize i)) -> Z.of_nat (length data) = m_writesize i ->
    exists x', dev_write dev p data x = (m_writesize i, x') /\ forall d q,
      page d x' q = if String.eqb d dev && (q =? p) then data else page d x q }.

(** Between multiples of [m] there is room for [m]. *)
Lemma step_le (m p q : Z) : 0 < m -> p mod m = 0 -> q mod m = 0 -> p < q -> p + m <= q.
Proof.
  intros Hm Hp Hq Hlt. apply Z.mod_divide in Hp; [|lia]. apply Z.mod_divide in Hq; [|lia].
  destruct Hp as [u ->], Hq as [v ->]. assert (u < v) by nia. nia.
Qed.

Section Geometry.
Context (i : mtd_info_t) (G : geometry i).
Local Notation ws := (m_writesize i).
Local Notation es := (m_erasesize i).

Lemma ws_pos : 0 < ws.
Proof. destruct G. rewrite ws_pow0. apply Z.pow_pos_nonneg; lia. Qed.

Lemma es_ws : es = 2 ^ (es_log i G - ws_log i G) * ws.
Proof. destruct G; cbn. rewrite es_pow0, ws_pow0, <- Z.pow_add_r by lia. f_equal. lia. Qed.

Lemma es_pos : 0 < es.
Proof. destruct G. rewrite es_pow0. apply Z.pow_pos_nonneg; lia. Qed.

Lemma size_es : m_size i mod es = 0.
Proof. destruct G. rewrite size_blocks0, es_pow0. apply Z.mod_mul. pose proof (Z.pow_pos_nonneg 2 es_log0). lia. Qed.

Lemma size_pos : es <= m_size i.
Proof.
  destruct G. rewrite size_blocks0, es_pow0. assert (0 < 2 ^ es_log0) by (apply Z.pow_pos_nonneg; lia). nia.
Qed.

Lemma es_mod_ws (p : Z) : p mod es = 0 -> p mod ws = 0.
Proof.
  intros H. pose proof ws_pos. pose proof es_pos. apply Z.mod_divide in H; [|lia].
  apply Z.mod_divide; [lia|]. eapply Z.divide_trans; [|exact H]. rewrite es_ws. apply Z.divide_factor_r.
Qed.

Lemma size_ws : m_size i mod ws = 0.
Proof. apply es_mod_ws, size_es. Qed.

(** The C arithmetic on offsets. *)
Lemma block_of_spec (p : Z) : 0 <= p < 2 ^ 31 -> block_of i p = p - p mod es.
Proof.
  intros Hp. pose proof size_pos. destruct G. unfold block_of, wrapu32.
  rewrite (Z.mod_small p) by lia.
  assert (Hb : es_log0 <= 31).
  { destruct (Z.le_gt_cases es_log0 31) as [|H']; [assumption|]. exfalso.
    pose proof (Z.pow_lt_mono_r 2 31 es_log0). lia. }
  assert (He : 0 < 2 ^ es_log0) by (apply Z.pow_pos_nonneg; lia).
  rewrite es_pow0, (Z.mod_small (2 ^ es_log0 - 1)) by lia.
  replace (p - p mod 2 ^ es_log0) with (Z.shiftl (Z.shiftr p es_log0) es_log0).
  2: { rewrite Z.shiftl_mul_pow2, Z.shiftr_div_pow2 by lia. pose proof (Z.div_mod p (2 ^ es_log0)). lia. }
  rewrite <- Z.ldiff_ones_r by lia. rewrite Z.ones_equiv, <- Z.sub_1_r.
  apply Z.bits_inj'. intros n Hn. rewrite Z.land_spec, Z.ldiff_spec.
  destruct (Z.ltb_spec n 32).
  - now rewrite Z.mod_pow2_bits_low, Z.lnot_spec by lia.
  - rewrite <- (Z.mod_small p (2 ^ 32)) by lia. now rewrite Z.mod_pow2_bits_high by lia.
Qed.

Lemma aligned_test (p : Z) : 0 <= p < 2 ^ 31 -> (wrapu32 p &? (ws - 1)) = negb (p mod ws =? 0).
Proof.
  intros Hp. destruct G. unfold has, wrapu32. rewrite Z.mod_small by lia. do 2 f_equal.
  rewrite ws_pow0, Z.sub_1_r, <- Z.ones_equiv. apply Z.land_ones. lia.
Qed.

(** ** The good pages *)

Fixpoint pages (n : nat) (p : Z) : list Z :=
  match n with
  | O => []
  | S n' => p :: pages n' (p + ws)
  end.

Context (bad : Z -> bool).

Definition good (p : Z) : bool := negb (bad (p - p mod es)).

(** The pages of good blocks from [p] on. *)
Definition good_pages (p : Z) : list Z := filter good (pages (Z.to_nat ((m_size i - p) / ws)) p).

Lemma good_pages_end (p : Z) : m_size i <= p -> good_pages p = [].
Proof.
  intros H. unfold good_pages. pose proof ws_pos.
  assert ((m_size i - p) / ws <= 0) by (apply Z.div_le_upper_bound; lia).
  replace (Z.to_nat ((m_size i - p) / ws)) with 0%nat by lia. reflexivity.
Qed.

Lemma good_pages_cons (p : Z) :
  p mod ws = 0 -> 0 <= p < m_size i ->
  good_pages p = if good p then p :: good_pages (p + ws) else good_pages (p + ws).
Proof.
  intros Hp Hr. pose proof ws_pos. unfold good_pages.
  assert (Hle : p + ws <= m_size i) by (apply step_le; auto using size_ws; lia).
  replace (Z.to_nat ((m_size i - p) / ws)) with (S (Z.to_nat ((m_size i - (p + ws)) / ws))).
  2: { replace (m_size i - p) with (m_size i - (p + ws) + 1 * ws) by lia. rewrite Z.div_add by lia.
       assert (0 <= (m_size i - (p + ws)) / ws) by (apply Z.div_pos; lia). lia. }
  reflexivity.
Qed.
Lemma mod_add_small (p k : Z) : p mod es = 0 -> 0 <= k < es -> (p + k) mod es = k.
Proof.
  intros Hp Hk. pose proof es_pos. rewrite Z.add_mod, Hp, Z.add_0_l, Z.mod_mod by lia.
  apply Z.mod_small. lia.
Qed.

(** A bad block holds no good page. *)
Lemma good_pages_bad_block (p : Z) :
  p mod es = 0 -> 0 <= p < m_size i -> bad p = true -> good_pages p = good_pages (p + es).
Proof.
  intros Hp Hr Hb. pose proof ws_pos. pose proof es_pos.
  set (k := Z.to_nat (2 ^ (es_log i G - ws_log i G))).
  assert (Hk : 0 < 2 ^ (es_log i G - ws_log i G)) by (apply Z.pow_pos_nonneg; [lia|]; destruct G; cbn; lia).
  assert (Ek : es = Z.of_nat k * ws) by (unfold k; rewrite Z2Nat.id by lia; apply es_ws).
  assert (Hend : p + es <= m_size i) by (apply step_le; auto using size_es; lia).
  assert (H' : forall n, (n <= k)%nat -> good_pages p = good_pages (p + Z.of_nat n * ws)).
  { induction n as [|n IH]; intros Hn; [f_equal; lia|]. rewrite IH by lia.
    assert (Hlt : Z.of_nat n * ws < es) by (rewrite Ek; nia).
    rewrite good_pages_cons.
    - unfold good. rewrite mod_add_small by (assumption || nia).
      replace (p + Z.of_nat n * ws - Z.of_nat n * ws) with p by lia. rewrite Hb. cbn [negb].
      f_equal. lia.
    - rewrite Z.mod_add by lia. now apply es_mod_ws.
    - nia. }
  rewrite (H' k) by lia. f_equal. lia.
Qed.

Lemma good_pages_range (p q : Z) :
  p mod ws = 0 -> 0 <= p <= m_size i -> In q (good_pages p) ->
  p <= q < m_size i /\ q mod ws = 0 /\ bad (q - q mod es) = false.
Proof.
  pose proof ws_pos. intros Hp Hr. unfold good_pages. rewrite filter_In. intros [Hq Hg].
  apply negb_true_iff in Hg. rewrite <- and_assoc. split; [|exact Hg]. clear Hg.
  assert (Hn : Z.of_nat (Z.to_nat ((m_size i - p) / ws)) * ws <= m_size i - p).
  { rewrite Z2Nat.id by (apply Z.div_pos; lia). pose proof (Z.mul_div_le (m_size i - p) ws). lia. }
  set (n := Z.to_nat ((m_size i - p) / ws)) in *. clearbody n. revert p Hp Hr Hq Hn.
  induction n as [|n IH]; intros p Hp Hr Hq Hn; [contradiction|].
  destruct Hq as [->|Hq]; [split; [nia|exact Hp]|].
  assert (Hp' : (p + ws) mod ws = 0) by (rewrite <- (Z.mul_1_l ws) at 1; now rewrite Z.mod_add by lia).
  destruct (IH (p + ws) Hp' ltac:(nia) Hq ltac:(nia)) as [? ?]. split; [lia|assumption].
Qed.

Lemma good_pages_nodup (p : Z) : NoDup (good_pages p).
Proof.
  pose proof ws_pos. apply NoDup_filter. generalize (Z.to_nat ((m_size i - p) / ws)). intros n.
  revert p. induction n as [|n IH]; intros p; constructor; [|apply IH].
  assert (Hlt : forall q m, In q (pages m (p + ws)) -> p < q).
  { clear IH. intros q m. assert (Hp : p < p + ws) by lia. revert Hp. generalize (p + ws).
    induction m as [|m IH]; intros r Hr Hq; [contradiction|]. destruct Hq as [->|Hq]; [exact Hr|].
    apply (IH (r + ws)); [lia|exact Hq]. }
  intros Hin. apply Hlt in Hin. lia.
Qed.

(** Where the loops may stand: at the start of a page, in a good block unless at
    its start. *)
Definition standing (p : Z) : Prop :=
  0 <= p <= m_size i /\ p mod ws = 0 /\ (p mod es = 0 \/ bad (p - p mod es) = false).

Lemma good_pages_tail (n : nat) :
  forall p q rest, p mod ws = 0 -> 0 <= p -> m_size i - p <= Z.of_nat n * ws ->
  good_pages p = q :: rest -> rest = good_pages (q + ws).
Proof.
  pose proof ws_pos. induction n as [|n IH]; intros p q rest Hp Hr Hn E.
  { rewrite good_pages_end in E by lia. discriminate. }
  destruct (Z.le_gt_cases (m_size i) p) as [Hs|Hs]; [rewrite good_pages_end in E by lia; discriminate|].
  rewrite good_pages_cons in E by (assumption || lia). destruct (good p).
  - injection E as <- <-. reflexivity.
  - apply (IH (p + ws)); [|lia|nia|exact E].
    rewrite <- (Z.mul_1_l ws) at 1. now rewrite Z.mod_add by lia.
Qed.

Lemma standing_next (p q : Z) (rest : list Z) :
  standing p -> good_pages p = q :: rest -> standing (q + ws) /\ rest = good_pages (q + ws).
Proof.
  intros (Hr & Hp & _) E. pose proof ws_pos. pose proof es_pos.
  assert (Hq : In q (good_pages p)) by (rewrite E; now left).
  apply good_pages_range in Hq; [|assumption|lia]. destruct Hq as (Hq & Hqw & Hqb).
  assert (Hle : q + ws <= m_size i) by (apply step_le; auto using size_ws; lia).
  split; [|apply (good_pages_tail (Z.to_nat (m_size i)) p q rest); auto; nia].
  split; [lia|]. split; [rewrite <- (Z.mul_1_l ws) at 1; now rewrite Z.mod_add by lia|].
  set (b := q - q mod es). assert (Hb : b mod es = 0).
  { unfold b. rewrite Zminus_mod, Z.mod_mod, Z.sub_diag by lia. reflexivity. }
  pose proof (Z.mod_pos_bound q es ltac:(lia)).
  destruct (Z.eq_dec (q mod es + ws) es) as [E'|E'].
  - left. replace (q + ws) with (b + 1 * es) by lia. now rewrite Z.mod_add by lia.
  - right. assert (Hlt : q mod es + ws < es).
    { assert (q mod es + ws <= es); [|lia]. apply step_le; try lia.
      - apply Z.mod_divide in Hqw; [|lia]. apply Z.mod_divide; [lia|]. rewrite Z.mod_eq by lia.
        apply Z.divide_sub_r; [exact Hqw|]. apply Z.divide_mul_l. rewrite es_ws. apply Z.divide_factor_r.
      - apply es_mod_ws, Z.mod_same. lia. }
    replace (q + ws) with (b + (q mod es + ws)) by lia.
    rewrite mod_add_small by (assumption || lia). now replace (b + _ - _) with b by lia.
Qed.
End Geometry.

(** ** Reading and writing page by page *)

Section Pages.
Context {X : Type} `{!OtaEnv X} (dev : string) (i : mtd_info_t) (bad : Z -> bool)
  (page : string -> X -> Z -> list Z) {WF : WorkingFlash dev i bad page}.
Local Notation W := (oworld X).
Local Notation ws := (m_writesize i).
Local Notation es := (m_erasesize i).
Local Notation G := (wf_geometry (dev := dev) (i := i) (bad := bad) (page := page)).
Local Notation good_pages := (good_pages i bad).
Local Notation standing := (standing i bad).

Lemma wrapu32_id (z : Z) : 0 <= z < 2 ^ 32 -> wrapu32 z = z.
Proof. apply Z.mod_small. Qed.

(** The next good block, or the end of the partition. *)
Lemma next_good_spec (w : W) (fuel : nat) :
  forall p, p mod es = 0 -> 0 <= p <= m_size i -> (m_size i - p) / es < Z.of_nat fuel ->
  exists q, next_good_loop fuel dev i p w = Ret q w /\ p <= q <= m_size i /\ q mod es = 0 /\
    good_pages q = good_pages p /\ (q < m_size i -> bad q = false).
Proof.
  pose proof (es_pos i G) as He. pose proof (size_int i G) as Hs.
  induction fuel as [|fuel IH]; intros p Hp Hr Hf.
  { assert (0 <= (m_size i - p) / es) by (apply Z.div_pos; lia). lia. }
  cbn [next_good_loop]. destruct (Z.leb_spec (m_size i) p).
  { exists p. repeat split; auto; lia. }
  unfold bind, ask, gets. rewrite (wf_bad (oenv w) p). destruct (bad p) eqn:Hb; cbn [Z.eqb].
  2: { exists p. repeat split; auto; lia. }
  assert (Hle : p + es <= m_size i) by (apply step_le; lia || apply (size_es i G) || assumption).
  rewrite wrapu32_id by lia.
  assert (Hp' : (p + es) mod es = 0) by (rewrite <- (Z.mul_1_l es) at 1; now rewrite Z.mod_add by lia).
  destruct (IH (p + es) Hp' ltac:(lia)) as (q & E & Hq & Hqe & Hg & Hqb).
  { replace (m_size i - p) with (m_size i - (p + es) + 1 * es) in Hf by lia. rewrite Z.div_add in Hf by lia. lia. }
  exists q. repeat split; auto; try lia. rewrite Hg. symmetry. now apply (good_pages_bad_block i G).
Qed.

Lemma next_good_eraseblock_spec (w : W) (p : Z) :
  p mod es = 0 -> 0 <= p <= m_size i ->
  exists q, next_good_eraseblock dev i p w = Ret q w /\ p <= q <= m_size i /\ q mod es = 0 /\
    good_pages q = good_pages p /\ (q < m_size i -> bad q = false).
Proof.
  intros Hp Hr. apply next_good_spec; auto. pose proof (es_pos i G).
  assert (0 <= m_size i / es) by (apply Z.div_pos; lia).
  assert ((m_size i - p) / es <= m_size i / es) by (apply Z.div_le_mono; lia). lia.
Qed.

(** The loops find the first good page. *)
Lemma at_good_block_spec (w : W) (p : Z) :
  standing p -> p < m_size i -> at_good_block dev i p w = Ret (hd_error (good_pages p)) w.
Proof.
  intros (Hr & Hp & Hb) Hlt. pose proof (size_int i G). pose proof (es_pos i G).
  unfold at_good_block. rewrite (block_of_spec i G), wrapu32_id by lia.
  destruct (Z.eqb_spec (p - p mod es) p) as [E|E].
  - assert (Hpe : p mod es = 0) by lia. rewrite E. unfold bind.
    destruct (next_good_eraseblock_spec w p Hpe ltac:(lia)) as (q & -> & Hq & Hqe & <- & Hqb).
    unfold ret. rewrite wraps32_id, wrapu32_id by lia. destruct (Z.leb_spec (m_size i) q).
    + now rewrite (good_pages_end i G) by lia.
    + rewrite (good_pages_cons i G) by (lia || now apply (es_mod_ws i G)). unfold good.
      rewrite Hqe, Z.sub_0_r, Hqb by lia. reflexivity.
  - destruct Hb as [Hb|Hb]; [lia|]. rewrite (good_pages_cons i G) by (assumption || lia).
    unfold good. rewrite Hb. reflexivity.
Qed.

Lemma first_good_start (w : W) (p : Z) : p mod es = 0 -> 0 <= p < m_size i -> first_good dev i p w = Ret p w.
Proof.
  intros Hp Hr. pose proof (size_int i G). unfold first_good.
  rewrite (block_of_spec i G), wrapu32_id, Hp, Z.sub_0_r, Z.eqb_refl by lia. reflexivity.
Qed.

(** The bytes of the good pages from [p] on. *)
Definition view (x : X) (p : Z) : list Z := concat (map (page dev x) (good_pages p)).

Lemma page_size (x : X) (q : Z) : length (page dev x q) = Z.to_nat ws.
Proof. pose proof (wf_page_length x q). lia. Qed.

Lemma view_length (x : X) (p : Z) : length (view x p) = (length (good_pages p) * Z.to_nat ws)%nat.
Proof.
  unfold view. induction (good_pages p) as [|q l IH]; [reflexivity|].
  cbn [map concat length]. rewrite length_app, page_size, IH. lia.
Qed.

Lemma view_cons (x : X) (p q : Z) (rest : list Z) :
  standing p -> good_pages p = q :: rest -> view x p = page dev x q ++ view x (q + ws).
Proof.
  intros Hp E. unfold view. rewrite E. destruct (standing_next i G bad p q rest Hp E) as [_ ->]. reflexivity.
Qed.

Lemma page_rounds (p q : Z) : p <= q -> q + ws <= m_size i -> forall fuel : nat,
  (m_size i - p) / ws < Z.of_nat (S fuel) -> (m_size i - (q + ws)) / ws < Z.of_nat fuel.
Proof.
  intros Hpq Hq fuel Hf. pose proof (ws_pos i G).
  assert ((m_size i - q) / ws <= (m_size i - p) / ws) by (apply Z.div_le_mono; lia).
  replace (m_size i - q) with (m_size i - (q + ws) + 1 * ws) in * by lia.
  rewrite Z.div_add in * by lia. lia.
Qed.
Definition closed (w : W) : W := add_fds (-1) w.

Lemma blit_some (buf : list Z) (k : nat) (data : list Z) :
  (k + length data <= length buf)%nat ->
  blit buf k data = Some (firstn k buf ++ data ++ skipn (k + length data) buf).
Proof. intros H. unfold blit. now rewrite (proj2 (Nat.leb_le _ _) H). Qed.

(** Two consecutive copies are one. *)
Lemma blit_blit (buf a b : list Z) (k : nat) :
  (k + length a + length b <= length buf)%nat ->
  let buf' := firstn k buf ++ a ++ skipn (k + length a) buf in
  firstn (k + length a) buf' ++ b ++ skipn (k + length a + length b) buf' =
  firstn k buf ++ (a ++ b) ++ skipn (k + length (a ++ b)) buf.
Proof.
  intros H buf'. assert (Hl : length (firstn k buf ++ a) = (k + length a)%nat)
    by (rewrite length_app, length_firstn; lia).
  unfold buf'. rewrite (app_assoc (firstn k buf)).
  rewrite firstn_app, skipn_app, Hl, Nat.sub_diag. cbn [firstn].
  rewrite firstn_all2, (skipn_all2 (firstn k buf ++ a)), skipn_skipn by lia.
  rewrite app_nil_r, length_app, <- !app_assoc. cbn [app]. do 4 f_equal. lia.
Qed.

(** A page, then [n] bytes of what follows it. *)
Lemma blit_page (x : X) (buf v : list Z) (q : Z) (k n : nat) :
  (k + Z.to_nat ws + n <= length buf)%nat -> (n <= length v)%nat ->
  let buf' := firstn k buf ++ page dev x q ++ skipn (k + Z.to_nat ws) buf in
  firstn (k + Z.to_nat ws) buf' ++ firstn n v ++ skipn (k + Z.to_nat ws + n) buf' =
  firstn k buf ++ firstn (Z.to_nat ws + n) (page dev x q ++ v) ++ skipn (k + (Z.to_nat ws + n)) buf.
Proof.
  intros Hb Hn. assert (Hf : length (firstn n v) = n) by (rewrite length_firstn; lia).
  pose proof (blit_blit buf (page dev x q) (firstn n v) k) as B. cbv zeta in B |- *.
  rewrite Hf, page_size in B. rewrite B by lia.
  assert (E : firstn (Z.to_nat ws + n) (page dev x q ++ v) = page dev x q ++ firstn n v)
    by (rewrite <- (page_size x q) at 1; now rewrite firstn_app_2).
  rewrite E, length_app, page_size, Hf. reflexivity.
Qed.

(** Reading: the bytes of the good pages; the descriptor is closed. *)
Lemma read_loop_spec (w : W) (fuel : nat) :
  forall p buf k len, standing p -> (m_size i - p) / ws < Z.of_nat fuel -> 0 <= len ->
  (k + Z.to_nat len <= length buf)%nat -> (Z.to_nat len <= length (view (oenv w) p))%nat ->
  exists r, nand_read_loop fuel dev i p buf k len w =
    Ret (r, firstn k buf ++ firstn (Z.to_nat len) (view (oenv w) p) ++ skipn (k + Z.to_nat len) buf) (closed w) /\
    (len mod ws <> 0 \/ (Z.to_nat len < length (view (oenv w) p))%nat -> r = 0).
Proof.
  pose proof (ws_pos i G) as Hws. pose proof (size_int i G) as Hsz.
  induction fuel as [|fuel IH]; intros p buf k len Hp Hf Hlen Hk Hv.
  { destruct Hp as [Hp _]. assert (0 <= (m_size i - p) / ws) by (apply Z.div_pos; lia). lia. }
  assert (Hr : 0 <= p <= m_size i) by apply Hp.
  assert (Hzero : Z.to_nat len = 0%nat -> firstn k buf ++ firstn (Z.to_nat len) (view (oenv w) p) ++
    skipn (k + Z.to_nat len) buf = buf) by (intros ->; cbn [firstn app]; rewrite Nat.add_0_r; apply firstn_skipn).
  cbn [nand_read_loop]. rewrite wrapu32_id by lia. destruct (Z.ltb_spec p (m_size i)) as [Hlt|Hge].
  2: { exists 0. assert (E : view (oenv w) p = []) by (unfold view; now rewrite (good_pages_end i G) by lia).
       split; [|reflexivity]. rewrite E in Hv. rewrite Hzero by (cbn in Hv; lia). reflexivity. }
  unfold bind at 1. rewrite at_good_block_spec by assumption.
  destruct (good_pages p) as [|q rest] eqn:E; cbn [hd_error].
  { exists (-1). assert (Ev : view (oenv w) p = []) by (unfold view; now rewrite E).
    rewrite Ev in Hv. cbn in Hv. split; [now rewrite Hzero by lia|]. rewrite Ev. cbn [length].
    intros [Hm|Hm]; [|lia]. exfalso. apply Hm. replace len with 0 by lia. apply Z.mod_0_l. lia. }
  destruct (standing_next i G bad p q rest Hp E) as [Hq' _].
  assert (Hq : p <= q < m_size i /\ q mod ws = 0 /\ bad (q - q mod es) = false)
    by (apply (good_pages_range i G); [apply Hp|lia|rewrite E; now left]).
  unfold bind at 1, ask at 1, gets at 1. rewrite (wf_read (oenv w) q) by (apply Hq || lia).
  rewrite wf_page_length, Z.eqb_refl. cbn [negb].
  pose proof (view_cons (oenv w) p q rest Hp E) as Ev.
  destruct (Z.ltb_spec len ws) as [Hl|Hl].
  - exists 0. split; [|reflexivity]. unfold bind at 1, copy_into.
    assert (Hfl : length (firstn (Z.to_nat len) (page dev (oenv w) q)) = Z.to_nat len)
      by (rewrite length_firstn, page_size; lia).
    rewrite blit_some by lia. rewrite Hfl, Ev, firstn_app, page_size.
    replace (Z.to_nat len - Z.to_nat ws)%nat with 0%nat by lia. cbn [firstn]. rewrite app_nil_r. reflexivity.
  - unfold bind at 1, copy_into. rewrite blit_some by (rewrite page_size; lia). unfold ret at 1.
    assert (Hle : q + ws <= m_size i) by apply Hq'.
    rewrite wraps32_id by lia. rewrite page_size in *.
    set (buf' := firstn k buf ++ _).
    assert (Hb' : length buf' = length buf)
      by (unfold buf'; rewrite !length_app, length_firstn, length_skipn, page_size; lia).
    rewrite Ev, length_app, page_size in Hv.
    destruct (IH (q + ws) buf' (k + Z.to_nat ws)%nat (len - ws) Hq' (page_rounds p q ltac:(lia) Hle fuel Hf)
                ltac:(lia) ltac:(lia) ltac:(lia)) as (r & -> & Hr').
    exists r. split.
    + rewrite Ev. unfold buf'. rewrite blit_page by lia.
      now replace (Z.to_nat ws + Z.to_nat (len - ws))%nat with (Z.to_nat len) by lia.
    + intros H. apply Hr'. rewrite Ev, length_app, page_size in H. destruct H as [H|H]; [left|right; lia].
      now replace (len - ws) with (len + (-1) * ws) by lia; rewrite Z.mod_add by lia.
Qed.
(** The pages [n] that hold [d], the last one filled up with 0xff. *)
Fixpoint page_chunks (n : nat) (d : list Z) : list (list Z) :=
  match n with
  | O => []
  | S n' => (firstn (Z.to_nat ws) d ++ repeat 255 (Z.to_nat ws - length d)) :: page_chunks n' (skipn (Z.to_nat ws) d)
  end.

Lemma page_chunks_concat (n : nat) : forall d,
  (length d <= n * Z.to_nat ws)%nat ->
  concat (page_chunks n d) = d ++ repeat 255 (n * Z.to_nat ws - length d).
Proof.
  induction n as [|n IH]; intros d Hd.
  { destruct d; [reflexivity|cbn in Hd; lia]. }
  cbn [page_chunks concat]. rewrite IH by (rewrite length_skipn; lia). rewrite length_skipn.
  destruct (Nat.le_gt_cases (length d) (Z.to_nat ws)) as [H|H].
  - rewrite firstn_all2, skipn_all2, <- app_assoc by lia. cbn [app]. rewrite <- repeat_app. do 2 f_equal. lia.
  - replace (Z.to_nat ws - length d)%nat with 0%nat by lia. cbn [repeat]. rewrite app_nil_r, app_assoc, firstn_skipn.
    do 2 f_equal. lia.
Qed.

Lemma page_chunks_length (n : nat) (d : list Z) : length (page_chunks n d) = n.
Proof. revert d. induction n; intros d; cbn; auto. Qed.

Definition blank (x : X) (q : Z) : Prop := page dev x q = repeat 255 (Z.to_nat ws).

(** What a write does to the pages [ps], of which the first hold [chunks] after. *)
Definition pages_written (ps : list Z) (chunks : list (list Z)) (x x' : X) : Prop :=
  map (page dev x') ps = chunks ++ skipn (length chunks) (map (page dev x) ps) /\
  forall d q, d <> dev \/ ~ In q ps -> page d x' q = page d x q.

Lemma pages_written_cons (q : Z) (ps : list Z) (c : list Z) (cs : list (list Z)) (x x1 x' : X) :
  NoDup (q :: ps) ->
  (forall d r, page d x1 r = if String.eqb d dev && (r =? q) then c else page d x r) ->
  pages_written ps cs x1 x' -> pages_written (q :: ps) (c :: cs) x x'.
Proof.
  intros Hnd H1 [Hm Ho]. inversion Hnd as [|? ? Hq _]; subst. split.
  - cbn [map length skipn app]. f_equal.
    + rewrite Ho by now right. now rewrite H1, String.eqb_refl, Z.eqb_refl.
    + rewrite Hm. do 2 f_equal. apply map_ext_in. intros r Hr. rewrite H1.
      destruct (Z.eqb_spec r q) as [->|]; [contradiction|now rewrite andb_false_r].
  - intros d r Hd. rewrite Ho by (cbn in Hd; tauto). rewrite H1.
    destruct (String.eqb_spec d dev) as [->|]; [|reflexivity]. destruct (Z.eqb_spec r q) as [->|]; [|reflexivity].
    destruct Hd as [Hd|Hd]; [contradiction|]. cbn in Hd. tauto.
Qed.

(** The pages a length takes. *)
Definition page_count (len : Z) : nat := Z.to_nat ((len + ws - 1) / ws).

Lemma page_count_last (len : Z) : 0 < len <= ws -> page_count len = 1%nat.
Proof.
  intros H. unfold page_count. rewrite <- (Z.div_unique (len + ws - 1) ws 1 (len - 1)) by lia. reflexivity.
Qed.

Lemma page_count_step (len : Z) : ws < len -> page_count len = S (page_count (len - ws)).
Proof.
  intros H. unfold page_count. pose proof (ws_pos i G).
  replace (len + ws - 1) with (len - ws + ws - 1 + 1 * ws) by lia. rewrite Z.div_add by lia.
  assert (0 <= (len - ws + ws - 1) / ws) by (apply Z.div_pos; lia). lia.
Qed.

(** One page: [len] bytes of the data or a whole page of them. *)
Lemma chunk_spec (file_buf : list Z) (k : nat) (len m : Z) :
  0 < m <= ws -> m <= len -> m = len \/ m = ws -> (k + Z.to_nat len <= length file_buf)%nat ->
  let c := firstn (Z.to_nat m) (skipn k file_buf) ++ repeat 255 (Z.to_nat (ws - m)) in
  let d := firstn (Z.to_nat len) (skipn k file_buf) in
  Z.of_nat (length c) = ws /\ c = firstn (Z.to_nat ws) d ++ repeat 255 (Z.to_nat ws - length d).
Proof.
  intros Hm Hl Hor Hk c d.
  assert (Hd : length d = Z.to_nat len) by (unfold d; rewrite length_firstn, length_skipn; lia).
  split; [unfold c; rewrite length_app, length_firstn, length_skipn, repeat_length; lia|].
  unfold c. rewrite Hd. unfold d. rewrite firstn_firstn.
  replace (Nat.min (Z.to_nat ws) (Z.to_nat len)) with (Z.to_nat m) by lia.
  now replace (Z.to_nat ws - Z.to_nat len)%nat with (Z.to_nat (ws - m)) by lia.
Qed.

Lemma write_page_spec (w : W) (q : Z) (c : list Z) :
  0 <= q < m_size i -> q mod ws = 0 -> bad (q - q mod es) = false -> blank (oenv w) q ->
  Z.of_nat (length c) = ws ->
  exists w1, write_dev dev q c w = Ret ws w1 /\ ofds w1 = ofds w /\
    forall d r, page d (oenv w1) r = if String.eqb d dev && (r =? q) then c else page d (oenv w) r.
Proof.
  intros Hq Hqw Hqb Hb Hc. pose proof (ws_pos i G).
  destruct (wf_write (oenv w) q c Hq Hqw Hqb Hb Hc) as (x1 & Ew & H1).
  unfold write_dev, bind, tell. rewrite Ew, (proj2 (Z.ltb_lt 0 ws)) by lia.
  eexists. split; [reflexivity|]. split; [reflexivity|exact H1].
Qed.

(** Writing: the first good pages take the data; the descriptor is closed. *)
Lemma write_loop_spec (file_buf : list Z) (fuel : nat) :
  forall p k len (w : W), standing p -> (m_size i - p) / ws < Z.of_nat fuel -> 0 < len ->
  (k + Z.to_nat len <= length file_buf)%nat -> (page_count len <= length (good_pages p))%nat ->
  Forall (blank (oenv w)) (firstn (page_count len) (good_pages p)) ->
  exists w', nand_write_loop fuel dev i p file_buf k len w = Ret 0 w' /\ ofds w' = ofds w - 1 /\
    pages_written (good_pages p) (page_chunks (page_count len) (firstn (Z.to_nat len) (skipn k file_buf)))
      (oenv w) (oenv w').
Proof.
  pose proof (ws_pos i G) as Hws. pose proof (size_int i G) as Hsz.
  induction fuel as [|fuel IH]; intros p k len w Hp Hf Hlen Hk Hn Hbl.
  { destruct Hp as [Hp _]. assert (0 <= (m_size i - p) / ws) by (apply Z.div_pos; lia). lia. }
  assert (Hr : 0 <= p <= m_size i) by apply Hp.
  destruct (page_count len) as [|n] eqn:Ec.
  { destruct (Z.le_gt_cases len ws); [rewrite page_count_last in Ec by lia|rewrite page_count_step in Ec by lia]; discriminate. }
  destruct (good_pages p) as [|q rest] eqn:E; [cbn in Hn; lia|].
  destruct (standing_next i G bad p q rest Hp E) as [Hq' Er].
  assert (Hq : p <= q < m_size i /\ q mod ws = 0 /\ bad (q - q mod es) = false)
    by (apply (good_pages_range i G); [apply Hp|lia|rewrite E; now left]).
  assert (Hnd : NoDup (q :: rest)) by (rewrite <- E; apply (good_pages_nodup i G)).
  cbn [nand_write_loop]. rewrite wrapu32_id, (proj2 (Z.ltb_lt p (m_size i))) by lia.
  unfold bind at 1. rewrite at_good_block_spec, E by (assumption || lia). cbn [hd_error].
  set (m := if len <? ws then len else ws).
  assert (Hm : 0 < m <= ws /\ m <= len /\ (m = len \/ m = ws)) by (unfold m; destruct (Z.ltb_spec len ws); lia).
  clearbody m.
  unfold bind at 1, bytes_at. rewrite (proj2 (Nat.leb_le _ _)) by lia. unfold ret at 1.
  destruct (chunk_spec file_buf k len m ltac:(lia) ltac:(lia) ltac:(lia) Hk) as [Hc Ed].
  set (c := firstn (Z.to_nat m) _ ++ _) in *. set (d := firstn (Z.to_nat len) _) in *.
  cbn [firstn] in Hbl. apply Forall_cons_iff in Hbl. destruct Hbl as [Hb0 Hbl'].
  destruct (write_page_spec w q c ltac:(lia) (proj1 (proj2 Hq)) (proj2 (proj2 Hq)) Hb0 Hc) as (w1 & Ew & Hfd & H1).
  unfold bind at 1. rewrite Ew, Z.eqb_refl. cbn [negb].
  cbn [page_chunks]. rewrite <- Ed.
  destruct (Z.eqb_spec (len - m) 0) as [E0|E0].
  - eexists. split; [reflexivity|]. split; [cbn; lia|].
    assert (n = 0%nat) as -> by (rewrite page_count_last in Ec by lia; lia). cbn [page_chunks].
    eapply pages_written_cons; [exact Hnd|exact H1|]. split; [reflexivity|reflexivity].
  - assert (Em : m = ws) by lia. rewrite Em in *. rewrite page_count_step in Ec by lia. injection Ec as Ec.
    assert (Hle : q + ws <= m_size i) by apply Hq'. rewrite wraps32_id by lia.
    destruct (IH (q + ws) (k + Z.to_nat ws)%nat (len - ws) w1 Hq' (page_rounds p q ltac:(lia) Hle fuel Hf)
                ltac:(lia) ltac:(lia)) as (w' & -> & Hf' & Hw').
    + rewrite <- Er. cbn in Hn. lia.
    + rewrite Ec, <- Er. rewrite Forall_forall in Hbl' |- *. intros r Hr'. unfold blank. rewrite H1.
      destruct (Z.eqb_spec r q) as [->|]; [|rewrite andb_false_r; now apply Hbl'].
      exfalso. inversion Hnd as [|? ? Hnq _]. apply Hnq. rewrite <- (firstn_skipn n rest). apply in_or_app. now left.
    + exists w'. split; [reflexivity|]. split; [lia|].
      eapply pages_written_cons; [exact Hnd|exact H1|]. rewrite Er.
      replace (skipn (Z.to_nat ws) d) with (firstn (Z.to_nat (len - ws)) (skipn (k + Z.to_nat ws) file_buf)).
      * rewrite <- Ec. exact Hw'.
      * unfold d. rewrite skipn_firstn_comm, skipn_skipn. f_equal; [lia|f_equal; lia].
Qed.
(** ** Erasing *)

(** The pages of a block. *)
Definition block_pages : nat := Z.to_nat (es / ws).

Lemma es_pages : es = Z.of_nat block_pages * ws.
Proof.
  unfold block_pages. pose proof (ws_pos i G). rewrite (es_ws i G), Z.div_mul by lia.
  rewrite Z2Nat.id; [reflexivity|]. apply Z.pow_nonneg. lia.
Qed.

(** A good block holds all its pages. *)
Lemma good_pages_block (p : Z) :
  p mod es = 0 -> 0 <= p < m_size i -> bad p = false ->
  good_pages p = pages i block_pages p ++ good_pages (p + es).
Proof.
  intros Hp Hr Hb. pose proof (ws_pos i G). pose proof (es_pos i G). pose proof es_pages as Ek.
  assert (Hend : p + es <= m_size i) by (apply step_le; lia || apply (size_es i G) || assumption).
  assert (H' : forall n j, (n + j = block_pages)%nat ->
    good_pages (p + Z.of_nat j * ws) = pages i n (p + Z.of_nat j * ws) ++ good_pages (p + es)).
  { induction n as [|n IH]; intros j Hj; cbn [pages app]; [f_equal; nia|].
    assert (Hlt : Z.of_nat j * ws + ws <= es) by nia.
    rewrite (good_pages_cons i G).
    - unfold good. rewrite (mod_add_small i G) by (assumption || nia).
      replace (p + Z.of_nat j * ws - Z.of_nat j * ws) with p by lia. rewrite Hb. cbn [negb].
      f_equal. replace (p + Z.of_nat j * ws + ws) with (p + Z.of_nat (S j) * ws) by lia. apply IH. lia.
    - rewrite Z.mod_add by lia. now apply (es_mod_ws i G).
    - nia. }
  specialize (H' block_pages 0%nat ltac:(lia)). cbn [Z.of_nat] in H'. now rewrite Z.mul_0_l, Z.add_0_r in H'.
Qed.

Lemma pages_length (n : nat) (p : Z) : length (pages i n p) = n.
Proof. revert p. induction n as [|n IH]; intros p; cbn; auto. Qed.

Lemma pages_in_block (p q : Z) : p mod es = 0 -> In q (pages i block_pages p) -> q - q mod es = p.
Proof.
  intros Hp. pose proof (ws_pos i G). pose proof es_pages as Ek.
  assert (H' : forall n r, p <= r -> r + Z.of_nat n * ws <= p + es -> In q (pages i n r) -> p <= q < p + es).
  { induction n as [|n IH]; intros r Hr Hn Hq; [contradiction|]. destruct Hq as [->|Hq]; [nia|].
    apply (IH (r + ws)); [lia|nia|exact Hq]. }
  intros Hq. apply H' in Hq; [|lia|lia]. replace q with (p + (q - p)) at 2 by lia.
  rewrite (mod_add_small i G) by (assumption || lia). lia.
Qed.
Definition blank_page : list Z := repeat 255 (Z.to_nat ws).

(** The first [n] of the pages [ps] are blank after, the others as before. *)
Definition pages_erased (ps : list Z) (n : nat) (x x' : X) : Prop :=
  map (page dev x') ps = repeat blank_page (Nat.min n (length ps)) ++ skipn n (map (page dev x) ps).

(** Erasing one good block. *)
Lemma erase_block_spec (x : X) (p : Z) :
  p mod es = 0 -> 0 <= p < m_size i -> bad p = false ->
  exists x', mtd_erase dev p x = (0, x') /\
    map (page dev x') (pages i block_pages p) = repeat blank_page block_pages /\
    (forall d q, d <> dev \/ q < p \/ p + es <= q -> page d x' q = page d x q).
Proof.
  intros Hp Hr Hb. destruct (wf_erase x p Hr Hp Hb) as (x' & E & H'). pose proof (es_pos i G).
  exists x'. split; [exact E|]. split.
  - rewrite <- (pages_length block_pages p) at 2. assert (Hin : forall q, In q (pages i block_pages p) -> page dev x' q = blank_page).
    { intros q Hq. rewrite H', String.eqb_refl, (pages_in_block p q Hp Hq), Z.eqb_refl. reflexivity. }
    induction (pages i block_pages p) as [|q l IH]; [reflexivity|].
    cbn. rewrite Hin by now left. f_equal. apply IH. intros; apply Hin; now right.
  - intros d q Hq. rewrite H'. destruct (String.eqb_spec d dev) as [->|]; [|reflexivity].
    destruct (Z.eqb_spec (q - q mod es) p) as [E'|]; [|reflexivity].
    pose proof (Z.mod_pos_bound q es). destruct Hq as [Hq|Hq]; [contradiction|lia].
Qed.

Lemma pages_erased_block (s : Z) (n : nat) (x x1 x' : X) :
  s mod es = 0 -> 0 <= s < m_size i -> bad s = false ->
  map (page dev x1) (pages i block_pages s) = repeat blank_page block_pages ->
  (forall q, s + es <= q -> page dev x1 q = page dev x q) ->
  (forall d q, d <> dev \/ q < s + es -> page d x' q = page d x1 q) ->
  pages_erased (good_pages (s + es)) (n * block_pages) x1 x' ->
  pages_erased (good_pages s) (S n * block_pages) x x'.
Proof.
  intros Hs Hr Hb Hbl H1 Ho Hpg. unfold pages_erased in *. pose proof (es_pos i G).
  assert (Hs' : (s + es) mod es = 0) by (rewrite <- (Z.mul_1_l es) at 1; now rewrite Z.mod_add by lia).
  assert (Hend : s + es <= m_size i) by (apply step_le; lia || apply (size_es i G) || assumption).
  rewrite (good_pages_block s) by (assumption || lia).
  assert (Hpl : forall y, length (map (page dev y) (pages i block_pages s)) = block_pages)
    by (intros y; rewrite length_map; apply pages_length).
  rewrite !map_app, Hpg, length_app, pages_length, skipn_app, Hpl.
  rewrite (skipn_all2 (map (page dev x) (pages i block_pages s))) by (rewrite Hpl; lia). cbn [app].
  replace (Nat.min (S n * block_pages) (block_pages + length (good_pages (s + es))))
    with (block_pages + Nat.min (n * block_pages) (length (good_pages (s + es))))%nat by lia.
  rewrite repeat_app, <- app_assoc, <- Hbl. f_equal; [|f_equal].
  - apply map_ext_in. intros q Hq. apply Ho. right. pose proof (pages_in_block s q Hs Hq).
    pose proof (Z.mod_pos_bound q es). lia.
  - replace (S n * block_pages - block_pages)%nat with (n * block_pages)%nat by lia. f_equal.
    apply map_ext_in. intros q Hq.
    destruct (good_pages_range i G bad (s + es) q (es_mod_ws i G _ Hs') ltac:(lia) Hq) as [Hrg _].
    apply H1. lia.
Qed.

Lemma erase_loop_spec (ep : Z) (fuel : nat) :
  forall s (n : nat) bad_blocks r (w : W),
  s mod es = 0 -> 0 <= s <= m_size i -> (m_size i - s) / es < Z.of_nat fuel ->
  ep + bad_blocks = s + Z.of_nat n * es -> 0 <= bad_blocks <= s -> 0 <= ep <= m_size i -> 0 <= r ->
  exists r' s' w', erase_loop fuel dev i ep bad_blocks s r w = Ret (Some (r', s')) w' /\ s' <= m_size i /\
    0 <= r' /\ ofds w' = ofds w /\ pages_erased (good_pages s) (n * block_pages) (oenv w) (oenv w') /\
    (forall d q, d <> dev \/ q < s -> page d (oenv w') q = page d (oenv w) q).
Proof.
  pose proof (es_pos i G) as He. pose proof (size_int i G) as Hsz.
  induction fuel as [|fuel IH]; intros s n bb r w Hs Hr Hf Ht Hbb Hep Hr0.
  { assert (0 <= (m_size i - s) / es) by (apply Z.div_pos; lia). lia. }
  cbn [erase_loop]. rewrite wrapu32_id, Ht by lia.
  destruct (Z.ltb_spec s (m_size i)) as [Hlt|Hge]; [|rewrite andb_false_r].
  2: { exists r, s, w. unfold pages_erased. rewrite (good_pages_end i G) by lia.
       repeat split; auto; try lia. cbn [length map]. now destruct (n * block_pages)%nat. }
  destruct (Z.ltb_spec s (s + Z.of_nat n * es)) as [Hn|Hn]; cbn [andb].
  2: { exists r, s, w. replace n with 0%nat by nia. repeat split; auto; lia. }
  assert (Hend : s + es <= m_size i) by (apply step_le; lia || apply (size_es i G) || assumption).
  assert (Hs' : (s + es) mod es = 0) by (rewrite <- (Z.mul_1_l es) at 1; now rewrite Z.mod_add by lia).
  assert (Hf' : (m_size i - (s + es)) / es < Z.of_nat fuel).
  { replace (m_size i - s) with (m_size i - (s + es) + 1 * es) in Hf by lia. rewrite Z.div_add in Hf by lia. lia. }
  unfold bind at 1, ask, gets. rewrite wf_bad. rewrite (wrapu32_id (s + es)) by lia.
  destruct (bad s) eqn:Hb; cbn [Z.ltb Z.compare].
  - rewrite wraps32_id by lia.
    destruct (IH (s + es) n (bb + es) 1 w Hs' ltac:(lia) Hf' ltac:(lia) ltac:(lia) Hep ltac:(lia))
      as (r' & s' & w' & -> & Hs2 & Hr2 & Hfd & Hpg & Ho).
    exists r', s', w'. rewrite (good_pages_bad_block i G bad s) by (assumption || lia).
    repeat split; auto. intros d q [Hq|Hq]; apply Ho; [now left|right; lia].
  - unfold bind at 1, modify. unfold bind at 1, tell. cbn [set_oenv oenv].
    destruct (erase_block_spec (mtd_unlock dev s (oenv w)) s Hs ltac:(lia) Hb) as (x1 & -> & Hbl & Ho1).
    cbn [Z.ltb Z.compare]. unfold bind at 1, emit, modify. destruct n as [|n]; [lia|].
    match goal with |- context [erase_loop fuel dev i ep bb _ _ ?w0] => set (w1 := w0) end.
    destruct (IH (s + es) n bb 0 w1 Hs' ltac:(lia) Hf' ltac:(lia) ltac:(lia) Hep ltac:(lia))
      as (r' & s' & w' & -> & Hs2 & Hr2 & Hfd & Hpg & Ho).
    exists r', s', w'. split; [reflexivity|]. repeat split; auto.
    + apply pages_erased_block with (x1 := x1); auto; [lia|].
      intros q Hq. rewrite Ho1, wf_unlock by lia. reflexivity.
    + intros d q Hq. rewrite Ho by (destruct Hq; [left; assumption|right; lia]). cbn [oenv w1].
      rewrite Ho1, wf_unlock by tauto. reflexivity.
Qed.
(** ** The partition as an array of bytes *)

Lemma start_standing : standing 0.
Proof.
  pose proof (size_pos i G). pose proof (es_pos i G). pose proof (ws_pos i G).
  split; [lia|]. rewrite !Z.mod_0_l by lia. auto.
Qed.

Lemma page_fuel_ok : (m_size i - 0) / ws < Z.of_nat (page_fuel i).
Proof.
  pose proof (ws_pos i G). pose proof (size_pos i G). pose proof (es_pos i G). unfold page_fuel.
  assert (0 <= m_size i / ws) by (apply Z.div_pos; lia). rewrite Z.sub_0_r. lia.
Qed.

Lemma start_aligned : (wrapu32 0 &? (ws - 1)) = false.
Proof. pose proof (ws_pos i G). rewrite (aligned_test i G), Z.mod_0_l by lia. reflexivity. Qed.

Lemma view_ext (x x' : X) (p : Z) :
  (forall q, In q (good_pages p) -> page dev x' q = page dev x q) -> view x' p = view x p.
Proof. intros H. unfold view. f_equal. now apply map_ext_in. Qed.

Lemma open_dev_ok (w : W) : open_dev dev w = Ret true (add_fds 1 w).
Proof. unfold open_dev, bind, ask, gets. rewrite wf_open. reflexivity. Qed.

Lemma nand_read_view (w : W) (buf : list Z) (len : Z) :
  0 <= len -> length buf = Z.to_nat len -> (Z.to_nat len <= length (view (oenv w) 0))%nat ->
  exists r w', nand_read dev 0 buf len w = Ret (r, firstn (Z.to_nat len) (view (oenv w) 0)) w' /\
    (len mod ws <> 0 \/ (Z.to_nat len < length (view (oenv w) 0))%nat -> r = 0) /\ ofds w' = ofds w /\
    (forall d q, page d (oenv w') q = page d (oenv w) q).
Proof.
  intros Hl Hb Hv. unfold nand_read. unfold bind at 1. rewrite open_dev_ok. cbn [negb].
  unfold bind at 1, ask, gets. rewrite wf_info. unfold bind at 1, copy_into.
  rewrite blit_some by (rewrite repeat_length; lia).
  rewrite repeat_length, skipn_all2, app_nil_r by lia. cbn [firstn app]. unfold ret at 1. rewrite start_aligned.
  unfold bind at 1, tell. cbn [oenv add_fds]. destruct (wf_malloc (oenv w) ws) as (x1 & -> & H1). cbn [negb set_oenv add_fds oenv otrace ofds].
  unfold bind at 1. rewrite first_good_start.
  2: { apply Z.mod_0_l. pose proof (es_pos i G). lia. }
  2: { pose proof (size_pos i G). pose proof (es_pos i G). lia. }
  assert (Ev : view x1 0 = view (oenv w) 0) by (apply view_ext; intros; apply H1).
  match goal with |- context [nand_read_loop _ _ _ _ _ _ _ ?w0] => set (w1 := w0) end.
  assert (Ex : oenv w1 = x1) by reflexivity.
  pose proof (read_loop_spec w1 (page_fuel i) 0 (repeat 0 (Z.to_nat len)) 0 len start_standing page_fuel_ok Hl) as R.
  rewrite Ex, Ev, repeat_length in R. destruct (R ltac:(lia) Hv) as (r & -> & Hr). clear R.
  rewrite skipn_all2 by (rewrite repeat_length; lia). cbn [firstn app]. rewrite app_nil_r.
  exists r, (closed w1). split; [reflexivity|]. split; [exact Hr|]. split; [cbn; lia|].
  intros d q. apply H1.
Qed.

Lemma page_count_view (len : Z) (x : X) :
  0 <= len -> (Z.to_nat len <= length (view x 0))%nat -> (page_count len <= length (good_pages 0))%nat.
Proof.
  intros Hl Hv. rewrite view_length in Hv. pose proof (ws_pos i G). unfold page_count.
  assert ((len + ws - 1) / ws < Z.of_nat (length (good_pages 0)) + 1) by (apply Z.div_lt_upper_bound; nia). lia.
Qed.

Lemma nand_write_pages (w : W) (data : list Z) (len : Z) :
  0 < len -> length data = Z.to_nat len -> (Z.to_nat len <= length (view (oenv w) 0))%nat ->
  Forall (blank (oenv w)) (firstn (page_count len) (good_pages 0)) ->
  exists w', nand_write dev 0 data len w = Ret 0 w' /\ ofds w' = ofds w /\
    pages_written (good_pages 0) (page_chunks (page_count len) data) (oenv w) (oenv w').
Proof.
  intros Hl Hd Hv Hbl. unfold nand_write. unfold bind at 1. rewrite open_dev_ok. cbn [negb].
  unfold bind at 1, ask, gets. rewrite wf_info, start_aligned.
  unfold bind at 1, tell. cbn [oenv add_fds]. destruct (wf_malloc (oenv w) ws) as (x1 & -> & H1). cbn [negb set_oenv add_fds oenv otrace ofds].
  unfold bind at 1. rewrite first_good_start.
  2: { apply Z.mod_0_l. pose proof (es_pos i G). lia. }
  2: { pose proof (size_pos i G). pose proof (es_pos i G). lia. }
  match goal with |- context [nand_write_loop _ _ _ _ _ _ _ ?w0] => set (w1 := w0) end.
  destruct (write_loop_spec data (page_fuel i) 0 0 len w1 start_standing page_fuel_ok Hl) as (w' & -> & Hf & Hw).
  - lia.
  - eapply page_count_view; [lia|exact Hv].
  - eapply Forall_impl; [|exact Hbl]. unfold blank. intros q Hq. cbn [oenv w1]. now rewrite H1.
  - exists w'. split; [reflexivity|]. split; [cbn in Hf; lia|]. cbn [skipn] in Hw.
    rewrite firstn_all2 in Hw by lia. destruct Hw as [Hm Ho]. split.
    + rewrite Hm. do 2 f_equal. apply map_ext. intros q. apply H1.
    + intros d q Hq. rewrite Ho by exact Hq. apply H1.
Qed.
(** The range [nand_erase_part] computes: whole blocks that cover the size. *)
Definition erase_end (len : Z) : Z :=
  let e := wraps32 (if wrapu32 len mod es =? 0 then 0 + len else (wrapu32 len / es + 1) * es + 0) in
  if (m_size i <=? wrapu32 e) || (len =? 0) then wraps32 (m_size i) else e.

Lemma erase_end_spec (len : Z) :
  0 <= len <= m_size i ->
  exists n : nat, erase_end len = Z.of_nat n * es /\ len <= Z.of_nat n * es <= m_size i /\
    (len = 0 -> erase_end len = m_size i).
Proof.
  intros Hl. pose proof (es_pos i G) as He. pose proof (size_int i G). pose proof (size_es i G) as Hse.
  assert (Hm : exists k, 0 <= k /\ m_size i = k * es).
  { apply Z.mod_divide in Hse; [|lia]. destruct Hse as [k Hk]. exists k. split; [nia|exact Hk]. }
  destruct Hm as (k & Hk & Ek).
  assert (Hu : exists m, 0 <= m /\ len <= m * es <= m_size i /\
    (if len mod es =? 0 then 0 + len else (len / es + 1) * es + 0) = m * es).
  { pose proof (Z.div_mod len es ltac:(lia)). pose proof (Z.mod_pos_bound len es ltac:(lia)).
    destruct (Z.eqb_spec (len mod es) 0) as [E|E].
    - exists (len / es). assert (0 <= len / es) by (apply Z.div_pos; lia). repeat split; lia.
    - exists (len / es + 1). assert (0 <= len / es) by (apply Z.div_pos; lia).
      repeat split; try lia. assert (len / es < k) by (apply Z.div_lt_upper_bound; [lia|];
        assert (len <> m_size i) by (intros ->; rewrite Hse in E; lia); lia). nia. }
  destruct Hu as (m & Hm0 & Hm & Eu). unfold erase_end. rewrite (wrapu32_id len) by lia.
  rewrite Eu, (wraps32_id (m * es)), (wrapu32_id (m * es)), wraps32_id by lia.
  destruct (Z.leb_spec (m_size i) (m * es)); cbn [orb].
  - exists (Z.to_nat k). rewrite Z2Nat.id by lia. repeat split; lia.
  - destruct (Z.eqb_spec len 0).
    + exists (Z.to_nat k). rewrite Z2Nat.id by lia. repeat split; lia.
    + exists (Z.to_nat m). rewrite Z2Nat.id by lia. repeat split; lia.
Qed.

Lemma nand_erase_pages (w : W) (len : Z) :
  0 <= len <= m_size i ->
  exists r w' (n : nat), nand_erase_part dev 0 len w = Ret r w' /\ 0 <= r /\ ofds w' = ofds w /\
    len <= Z.of_nat n * es /\ (len = 0 -> Z.of_nat n * es = m_size i) /\
    pages_erased (good_pages 0) (n * block_pages) (oenv w) (oenv w') /\
    (forall d q, d <> dev -> page d (oenv w') q = page d (oenv w) q).
Proof.
  intros Hl. pose proof (es_pos i G) as He. pose proof (size_pos i G) as Hs0.
  destruct (erase_end_spec len Hl) as (n & En & Hn & Hz).
  unfold nand_erase_part. unfold bind at 1. rewrite open_dev_ok. cbn [negb].
  unfold bind at 1, ask, gets. rewrite wf_chr. unfold bind at 1. rewrite wf_info.
  change (wrapu32 0) with 0. rewrite Z.mod_0_l by lia. cbn [Z.eqb negb].
  fold (erase_end len). rewrite En. unfold bind at 1.
  match goal with |- context [erase_loop _ _ _ _ _ _ _ ?w0] => set (w1 := w0) end.
  destruct (erase_loop_spec (Z.of_nat n * es) (S (Z.to_nat (m_size i / es))) 0 n 0 0 w1)
    as (r & s' & w' & -> & Hs & Hr & Hf & Hp & Ho); try lia.
  { apply Z.mod_0_l. lia. }
  { assert (0 <= m_size i / es) by (apply Z.div_pos; lia). rewrite Z.sub_0_r. lia. }
  unfold bind. rewrite (proj2 (Z.ltb_ge _ _)) by lia.
  exists r, (closed w'), n. split; [reflexivity|]. split; [lia|]. split; [cbn in *; lia|].
  split; [lia|]. split; [lia|]. split; [exact Hp|]. intros d q Hd. apply Ho. now left.
Qed.

(** Erased pages are blank. *)
Lemma pages_erased_blank (ps : list Z) (n m : nat) (x x' : X) :
  pages_erased ps n x x' -> (m <= n)%nat -> Forall (blank x') (firstn m ps).
Proof.
  intros H Hm. apply Forall_forall. intros q Hq. unfold blank.
  assert (Hin : In (page dev x' q) (firstn n (map (page dev x') ps))).
  { rewrite firstn_map. apply in_map. rewrite <- (firstn_skipn m (firstn n ps)), firstn_firstn, Nat.min_l by lia.
    apply in_or_app. now left. }
  rewrite H, firstn_app, firstn_repeat, repeat_length in Hin. apply in_app_or in Hin.
  destruct Hin as [Hin|Hin]; [now apply repeat_spec in Hin|]. exfalso.
  destruct (Nat.le_gt_cases n (length ps)).
  - rewrite Nat.min_l, Nat.sub_diag in Hin by lia. contradiction.
  - rewrite skipn_all2, firstn_nil in Hin by (rewrite length_map; lia). contradiction.
Qed.

Lemma page_count_blocks (len : Z) (n : nat) :
  0 <= len <= Z.of_nat n * es -> (page_count len <= n * block_pages)%nat.
Proof.
  intros H. pose proof es_pages as Ek. pose proof (ws_pos i G). unfold page_count.
  assert ((len + ws - 1) / ws < Z.of_nat (n * block_pages) + 1) by (apply Z.div_lt_upper_bound; nia). lia.
Qed.

Lemma written_view (ps : list Z) (data : list Z) (n : nat) (x x' : X) :
  pages_written ps (page_chunks n data) x x' -> (length data <= n * Z.to_nat ws)%nat ->
  firstn (length data) (concat (map (page dev x') ps)) = data.
Proof.
  intros [H _] Hn. rewrite H, concat_app, page_chunks_concat, <- app_assoc by exact Hn.
  rewrite firstn_app, firstn_all, Nat.sub_diag. apply app_nil_r.
Qed.

Lemma page_count_covers (len : Z) : 0 <= len -> (Z.to_nat len <= page_count len * Z.to_nat ws)%nat.
Proof.
  intros H. pose proof (ws_pos i G). unfold page_count.
  pose proof (Z.div_mod (len + ws - 1) ws ltac:(lia)). pose proof (Z.mod_pos_bound (len + ws - 1) ws ltac:(lia)).
  assert (0 <= (len + ws - 1) / ws) by (apply Z.div_pos; lia). nia.
Qed.

Lemma good_pages_size (x : X) (len : Z) : (Z.to_nat len <= length (view x 0))%nat -> len <= m_size i.
Proof.
  intros Hv. pose proof (ws_pos i G). pose proof (size_pos i G). pose proof (es_pos i G).
  rewrite view_length in Hv.
  assert (Hf : (length (good_pages 0) <= length (pages i (Z.to_nat ((m_size i - 0) / ws)) 0))%nat)
    by apply filter_length_le.
  rewrite pages_length, Z.sub_0_r in Hf. assert (0 <= m_size i / ws) by (apply Z.div_pos; lia).
  pose proof (Z.mul_div_le (m_size i) ws). nia.
Qed.

(** Erasing and writing store the data at the start of the array. *)
Lemma nand_store (w : W) (data : list Z) (len size : Z) :
  0 < len -> length data = Z.to_nat len -> (Z.to_nat len <= length (view (oenv w) 0))%nat ->
  size = len \/ size = 0 ->
  exists r1 w1 w2,
    nand_erase_part dev 0 size w = Ret r1 w1 /\ 0 <= r1 /\
    nand_write dev 0 data len w1 = Ret 0 w2 /\
    firstn (Z.to_nat len) (view (oenv w2) 0) = data /\
    length (view (oenv w2) 0) = length (view (oenv w) 0) /\ ofds w2 = ofds w /\
    (forall d q, d <> dev -> page d (oenv w2) q = page d (oenv w) q).
Proof.
  intros Hl Hd Hv Hsz. pose proof (good_pages_size _ _ Hv).
  destruct (nand_erase_pages w size ltac:(lia)) as (r1 & w1 & n & E1 & Hr1 & F1 & Hn & Hz & P1 & O1).
  assert (V1 : length (view (oenv w1) 0) = length (view (oenv w) 0)) by now rewrite !view_length.
  destruct (nand_write_pages w1 data len Hl Hd ltac:(lia)) as (w2 & E2 & F2 & P2).
  { eapply pages_erased_blank; [exact P1|]. apply page_count_blocks. lia. }
  exists r1, w1, w2. repeat split; auto.
  - rewrite <- Hd. eapply written_view; [exact P2|]. rewrite Hd. apply page_count_covers. lia.
  - now rewrite !view_length.
  - congruence.
  - intros d q Hdq. destruct P2 as [_ O2]. rewrite O2 by now left. now apply O1.
Qed.

(** C14: Erasing, writing and reading a partition from its start: on a flash whose good
    blocks work, wherever the bad blocks are, data that fits in the good blocks is erased
    for and written with success and without an access out of bounds, reading the same
    length gives back exactly the data, every descriptor is closed and no other partition
    changes.  The read reports success too, unless the data ends with the last good page
    of the partition: its result is then left open, with the data complete all the
    same. *)
Theorem nand_roundtrip (w : W) (data buf : list Z) (len : Z) :
  0 < len -> length data = Z.to_nat len -> length buf = Z.to_nat len ->
  (Z.to_nat len <= length (view (oenv w) 0))%nat ->
  exists r1 w1 w2 r3 w3,
    nand_erase_part dev 0 len w = Ret r1 w1 /\ 0 <= r1 /\
    nand_write dev 0 data len w1 = Ret 0 w2 /\
    nand_read dev 0 buf len w2 = Ret (r3, data) w3 /\
    (len mod ws <> 0 \/ (Z.to_nat len < length (view (oenv w) 0))%nat -> r3 = 0) /\ ofds w3 = ofds w /\
    (forall d q, d <> dev -> page d (oenv w3) q = page d (oenv w) q).
Proof.
  intros Hl Hd Hb Hv.
  destruct (nand_store w data len len Hl Hd Hv (or_introl eq_refl)) as (r1 & w1 & w2 & E1 & Hr1 & E2 & Ed & V2 & F2 & O2).
  destruct (nand_read_view w2 buf len ltac:(lia) Hb ltac:(lia)) as (r3 & w3 & E3 & Hr3 & F3 & O3).
  rewrite Ed in E3. rewrite V2 in Hr3. exists r1, w1, w2, r3, w3. repeat split; auto; [congruence|].
  intros d q Hdq. rewrite O3. now apply O2.
Qed.
End Pages.

(** ** A flash in memory *)

(** The operations done on a flash, the latest first. *)
Inductive flash_op := DidErase (dev : string) (b : Z) | DidWrite (dev : string) (p : Z) (data : list Z).

Section Demo.
Context (i : mtd_info_t) (bad : Z -> bool) (file : string -> option string) (image : string -> option (list Z)).

Fixpoint demo_page (d : string) (x : list flash_op) (p : Z) : list Z :=
  match x with
  | [] => repeat 0 (Z.to_nat (m_writesize i))
  | DidErase d' b :: x' =>
      if String.eqb d d' && (p - p mod m_erasesize i =? b)
      then repeat 255 (Z.to_nat (m_writesize i)) else demo_page d x' p
  | DidWrite d' q data :: x' =>
      if String.eqb d d' && (p =? q) && (Z.of_nat (length data) =? m_writesize i) then data else demo_page d x' p
  end.

(** Partitions of the same shape behind every device, with given files. *)
Definition demo_env : OtaEnv (list flash_op) := {|
  os_malloc _ x := (true, x);
  mtd_open _ _ := true;
  mtd_is_chr _ _ := Some true;
  mtd_info _ _ := Some i;
  mtd_badblock _ b _ := if bad b then 1 else 0;
  mtd_unlock _ _ x := x;
  mtd_erase d b x := (0, DidErase d b :: x);
  dev_read d p n x := firstn (Z.to_nat n) (demo_page d x p);
  dev_write d p data x :=
    if Z.of_nat (length data) =? m_writesize i then (m_writesize i, DidWrite d p data :: x) else (0, x);
  os_file f _ := file f;
  os_exists _ _ := false;
  os_image f _ := image f;
  os_dir _ _ := None;
  os_system _ x := (0, x);
  os_mount _ _ _ x := (0, x) |}.

Lemma demo_page_length (d : string) (x : list flash_op) (p : Z) :
  0 <= m_writesize i -> Z.of_nat (length (demo_page d x p)) = m_writesize i.
Proof.
  intros Hw. induction x as [|[d' b|d' q data] x IH]; cbn [demo_page].
  - rewrite repeat_length. lia.
  - destruct (_ && _); [rewrite repeat_length; lia|exact IH].
  - destruct (String.eqb d d' && (p =? q)); cbn [andb]; [|exact IH].
    destruct (Z.eqb_spec (Z.of_nat (length data)) (m_writesize i)) as [E|]; [exact E|exact IH].
Qed.

Lemma demo_working (dev : string) :
  geometry i -> WorkingFlash (X := list flash_op) (OtaEnv0 := demo_env) dev i bad demo_page.
Proof.
  intros g. pose proof (ws_pos i g).
  refine (Build_WorkingFlash _ _ _ _ _ _ g _ _ _ _ _ _ _ _ _ _); try reflexivity.
  - intros x p. apply demo_page_length. lia.
  - intros x p _ _ _. cbn. apply firstn_all2. pose proof (demo_page_length dev x p). lia.
  - intros x n. now exists x.
  - intros x b _ _ _. eexists. split; reflexivity.
  - intros x p data _ _ _ _ Hd. cbn. rewrite Hd, Z.eqb_refl. eexists. split; [reflexivity|].
    intros d q. cbn [demo_page]. rewrite Hd, Z.eqb_refl, andb_true_r. reflexivity.
Defined.
End Demo.

(** A partition of four blocks of two pages of four bytes; the second block is bad. *)
Definition demo_info : mtd_info_t := mk_mtd 32 8 4.

Definition demo_bad (b : Z) : bool := b =? 8.

Definition demo_geometry : geometry demo_info.
Proof. refine (Build_geometry demo_info 2 3 4 _ _ _ _ _ _ _); cbn; lia. Defined.

#[export] Instance demo_flash : OtaEnv (list flash_op) :=
  demo_env demo_info demo_bad (fun _ => None) (fun _ => None).

#[export] Instance demo_flash_working : WorkingFlash "/dev/mtd2" demo_info demo_bad (demo_page demo_info) :=
  demo_working demo_info demo_bad _ _ "/dev/mtd2" demo_geometry.

Definition demo_flash_world : oworld (list flash_op) := mk_oworld [] [] 0 [].

Lemma nand_roundtrip_witness :
  exists r1 w1 w2 r3 w3,
    nand_erase_part "/dev/mtd2" 0 10 demo_flash_world = Ret r1 w1 /\
    nand_write "/dev/mtd2" 0 [1; 2; 3; 4; 5; 6; 7; 8; 9; 10] 10 w1 = Ret 0 w2 /\
    nand_read "/dev/mtd2" 0 (repeat 0 10) 10 w2 = Ret (r3, [1; 2; 3; 4; 5; 6; 7; 8; 9; 10]) w3 /\ r3 = 0.
Proof.
  destruct (nand_roundtrip "/dev/mtd2" demo_info demo_bad (demo_page demo_info) demo_flash_world
    [1; 2; 3; 4; 5; 6; 7; 8; 9; 10] (repeat 0 10) 10 ltac:(lia) eq_refl eq_refl ltac:(vm_compute; lia))
    as (r1 & w1 & w2 & r3 & w3 & E1 & _ & E2 & E3 & Hr & _).
  exists r1, w1, w2, r3, w3. repeat split; [exact E1|exact E2|exact E3|]. apply Hr. left. discriminate.
Defined.

(** An image larger than the good blocks of its partition is written as far as
    it fits and [nand_write] reports success. *)
Theorem nand_write_truncates :
  exists w1 w2,
    nand_erase_part "/dev/mtd2" 0 0 demo_flash_world = Ret 0 w1 /\
    nand_write "/dev/mtd2" 0 (repeat 7 28) 28 w1 = Ret 0 w2 /\
    view "/dev/mtd2" demo_info demo_bad (demo_page demo_info) (oenv w2) 0 = repeat 7 24.
Proof. do 2 eexists. split; [vm_compute; reflexivity|]. split; vm_compute; reflexivity. Qed.
