(* ===== verification/OtaPackage.v ===== *)
(** * Update images: layout and construction

    [framework/libs/ota/rokid_package.h]: an image is a [file_head] of 256 bytes,
    a [bin_head] of 512 bytes per part, then the parts.  The structures are packed
    and little-endian, as the hosts and the boards have them; a [char] array is a
    list of its bytes.

    [framework/libs/ota/rokid_package.c]: a configuration with a line per part is
    turned into an image.  The files of the host, its memory and the room for the
    image are parameters ([build_env]). *)

From Stdlib Require Import Ascii String ZArith List Bool Lia.
From S2P Require Import Prelude CString Bytes Fips180 Sha1.
Import ListNotations.
Open Scope Z_scope.
Open Scope list_scope.

(** ** The headers *)

Record file_head := mk_file_head {
  sum : Z; f_start_position : Z; file_size : Z; f_reserved : list Z }.

Record bin_head := mk_bin_head {
  id : Z; start_position : Z; bin_size : Z; flash_start_position : Z; flash_part_size : Z;
  sub_type : list Z; bin_sha1sum : list Z; bin_version : list Z; file_name : list Z;
  diff_pack_dev : list Z; ubi_dev : list Z; raw_dev : list Z; b_reserved : list Z }.

Definition sizeof_file_head : Z := 256.
Definition sizeof_bin_head : Z := 512.

Definition file_head_bytes (h : file_head) : list Z :=
  le 4 (sum h) ++ le 8 (f_start_position h) ++ le 8 (file_size h) ++ f_reserved h.

Definition bin_head_bytes (b : bin_head) : list Z :=
  le 4 (id b) ++ le 8 (start_position b) ++ le 8 (bin_size b) ++ le 8 (flash_start_position b) ++
  le 8 (flash_part_size b) ++ sub_type b ++ bin_sha1sum b ++ bin_version b ++ file_name b ++
  diff_pack_dev b ++ ubi_dev b ++ raw_dev b ++ b_reserved b.

Definition file_head_of (l : list Z) : file_head :=
  mk_file_head (wraps32 (unle (field 0 4 l))) (unle (field 4 8 l)) (unle (field 12 8 l)) (field 20 236 l).

Definition bin_head_of (l : list Z) : bin_head :=
  mk_bin_head (wraps32 (unle (field 0 4 l))) (unle (field 4 8 l)) (unle (field 12 8 l)) (unle (field 20 8 l))
    (unle (field 28 8 l)) (field 36 32 l) (field 68 48 l) (field 116 64 l) (field 180 128 l)
    (field 308 32 l) (field 340 32 l) (field 372 32 l) (field 404 108 l).

(** A structure whose fields are in the range of their types. *)
Definition chars (n : nat) (a : list Z) : Prop := length a = n /\ Forall byte a.

Definition u64 (z : Z) : Prop := 0 <= z < 2 ^ 64.

Definition file_head_ok (h : file_head) : Prop :=
  - 2 ^ 31 <= sum h < 2 ^ 31 /\ u64 (f_start_position h) /\ u64 (file_size h) /\ chars 236 (f_reserved h).

Definition bin_head_ok (b : bin_head) : Prop :=
  - 2 ^ 31 <= id b < 2 ^ 31 /\ u64 (start_position b) /\ u64 (bin_size b) /\
  u64 (flash_start_position b) /\ u64 (flash_part_size b) /\
  chars 32 (sub_type b) /\ chars 48 (bin_sha1sum b) /\ chars 64 (bin_version b) /\ chars 128 (file_name b) /\
  chars 32 (diff_pack_dev b) /\ chars 32 (ubi_dev b) /\ chars 32 (raw_dev b) /\ chars 108 (b_reserved b).

(** ** Facts *)

Lemma unle_le_u64 (z : Z) : u64 z -> unle (le 8 z) = z.
Proof. intros H. rewrite unle_le. now apply Z.mod_small. Qed.

Lemma unle_le_int (z : Z) : - 2 ^ 31 <= z < 2 ^ 31 -> wraps32 (unle (le 4 z)) = z.
Proof.
  intros H. rewrite unle_le. change (256 ^ Z.of_nat 4) with (2 ^ 32). unfold wraps32.
  rewrite Z.add_mod_idemp_l by lia. rewrite Z.mod_small; lia.
Qed.

Lemma file_head_length (h : file_head) : file_head_ok h -> length (file_head_bytes h) = 256%nat.
Proof. intros (_ & _ & _ & [Hl _]). unfold file_head_bytes. rewrite !length_app, !length_le, Hl. reflexivity. Qed.

Lemma bin_head_length (b : bin_head) : bin_head_ok b -> length (bin_head_bytes b) = 512%nat.
Proof.
  unfold bin_head_ok, chars. intros H. decompose [and] H. unfold bin_head_bytes.
  rewrite !length_app, !length_le. lia.
Qed.

Lemma file_head_roundtrip (h : file_head) : file_head_ok h -> file_head_of (file_head_bytes h) = h.
Proof.
  intros (Hs & H1 & H2 & [Hl _]). destruct h as [s p z r]. cbn [sum f_start_position file_size f_reserved] in *.
  unfold file_head_of, file_head_bytes. cbn [sum f_start_position file_size f_reserved].
  rewrite !(field_0 (le 4 s)) by apply length_le.
  rewrite !(field_skip (le 4 s)), length_le by (rewrite length_le; lia). cbn [Nat.sub].
  rewrite !(field_0 (le 8 p)) by apply length_le.
  rewrite !(field_skip (le 8 p)), length_le by (rewrite length_le; lia). cbn [Nat.sub].
  rewrite !(field_0 (le 8 z)) by apply length_le.
  rewrite !(field_skip (le 8 z)), length_le by (rewrite length_le; lia). cbn [Nat.sub].
  now rewrite field_all, unle_le_int, !unle_le_u64.
Qed.

Lemma bin_head_roundtrip (b : bin_head) : bin_head_ok b -> bin_head_of (bin_head_bytes b) = b.
Proof.
  destruct b as [f0 f1 f2 f3 f4 a1 a2 a3 a4 a5 a6 a7 a8]. unfold bin_head_ok, chars.
  cbn [id start_position bin_size flash_start_position flash_part_size sub_type bin_sha1sum bin_version
       file_name diff_pack_dev ubi_dev raw_dev b_reserved].
  intros H. decompose [and] H. clear H. unfold bin_head_of, bin_head_bytes.
  cbn [id start_position bin_size flash_start_position flash_part_size sub_type bin_sha1sum bin_version
       file_name diff_pack_dev ubi_dev raw_dev b_reserved].
  repeat (first [rewrite field_0 by (apply length_le || assumption)
                |rewrite field_skip by (rewrite ?length_le; lia); rewrite ?length_le;
                 repeat match goal with H : length ?a = _ |- context [(_ - length ?a)%nat] => rewrite H end;
                 cbn [Nat.sub]]).
  rewrite field_all by assumption. now rewrite unle_le_int, !unle_le_u64.
Qed.

Lemma file_head_byte (h : file_head) : file_head_ok h -> Forall byte (file_head_bytes h).
Proof.
  intros (_ & _ & _ & [_ Hb]). unfold file_head_bytes. rewrite !Forall_app. auto using le_bytes.
Qed.

Lemma bin_head_byte (b : bin_head) : bin_head_ok b -> Forall byte (bin_head_bytes b).
Proof.
  unfold bin_head_ok, chars. intros H. decompose [and] H. unfold bin_head_bytes.
  rewrite !Forall_app. auto 20 using le_bytes.
Qed.

(** * Building an update image *)

(** The files by name, whether an allocation of a size succeeds (also one of 0
    bytes), and the bytes the output
    file takes ([None]: it cannot be opened). *)
Record build_env := mk_build {
  files : string -> option (list Z); alloc : Z -> bool; out_room : option Z }.

(** [read(fd, buf, n)] at the start of a file: Linux transfers at most 0x7ffff000
    bytes. *)
Definition file_read (content : list Z) (n : Z) : list Z :=
  firstn (Z.to_nat (Z.min n 0x7ffff000)) content.

Definition judge_line_islegal (line : string) : Z :=
  if negb (strncmp_eq 9 line "file_name") then -2
  else if negb (strstr_b line "file_name=") || negb (strstr_b line "sub_type=") ||
          negb (strstr_b line "start_position=") || negb (strstr_b line "flash_partsize=") then -1
  else 0.

(** ** A line *)

(** The fields a line sets and the two local arrays. *)
Record line_state := mk_line { l_bin : bin_head; l_start : list Z; l_part : list Z }.

Definition with_strings (st ver fn dp ud rd sha : list Z) (b : bin_head) : bin_head :=
  mk_bin_head (id b) (start_position b) (bin_size b) (flash_start_position b) (flash_part_size b)
    st sha ver fn dp ud rd (b_reserved b).

Definition with_flash (start size : Z) (b : bin_head) : bin_head :=
  mk_bin_head (id b) (start_position b) (bin_size b) start size
    (sub_type b) (bin_sha1sum b) (bin_version b) (file_name b) (diff_pack_dev b) (ubi_dev b) (raw_dev b)
    (b_reserved b).

(** [strtol] of an array that has a NUL. *)
Definition number_in (a : list Z) : option Z :=
  if existsb (Z.eqb 0) a then Some (strtol16 (cstr a) mod 2 ^ 64) else None.

(** The value between the quotes goes to the first key the rest of the line names. *)
Definition set_key (line value : string) (s : line_state) : option line_state :=
  let n := String.length value in
  let b := l_bin s in
  let str (f : list Z) (k : list Z -> bin_head) :=
    let? a := strncpy_arr f value n in Some (mk_line (k a) (l_start s) (l_part s)) in
  if strstr_b line "file_name" then
    str (file_name b) (fun a => with_strings (sub_type b) (bin_version b) a (diff_pack_dev b) (ubi_dev b) (raw_dev b) (bin_sha1sum b) b)
  else if strstr_b line "sub_type" then
    str (sub_type b) (fun a => with_strings a (bin_version b) (file_name b) (diff_pack_dev b) (ubi_dev b) (raw_dev b) (bin_sha1sum b) b)
  else if strstr_b line "start_position" then
    let? a := strncpy_arr (l_start s) value n in
    let? v := number_in a in
    Some (mk_line (with_flash v (flash_part_size b) b) a (l_part s))
  else if strstr_b line "flash_partsize" then
    let? a := strncpy_arr (l_part s) value n in
    let? v := number_in a in
    Some (mk_line (with_flash (flash_start_position b) v b) (l_start s) a)
  else if strstr_b line "diff_pack_dev" then
    str (diff_pack_dev b) (fun a => with_strings (sub_type b) (bin_version b) (file_name b) a (ubi_dev b) (raw_dev b) (bin_sha1sum b) b)
  else if strstr_b line "ubi_dev" then
    str (ubi_dev b) (fun a => with_strings (sub_type b) (bin_version b) (file_name b) (diff_pack_dev b) a (raw_dev b) (bin_sha1sum b) b)
  else if strstr_b line "raw_dev" then
    str (raw_dev b) (fun a => with_strings (sub_type b) (bin_version b) (file_name b) (diff_pack_dev b) (ubi_dev b) a (bin_sha1sum b) b)
  else Some s.

(** [while (1)]: every round shortens the line. *)
Fixpoint parse_loop (fuel : nat) (line : string) (s : line_state) : option (Z * line_state) :=
  match fuel with
  | O => None
  | S fuel' =>
      match strstr line quote with
      | None => Some (0, s)
      | Some pos =>
          let from := advance 1 pos in
          match strstr from quote with
          | None => Some (-1, s)
          | Some end_ =>
              let value := substring 0 (String.length from - String.length end_) from in
              let? s := set_key line value s in
              parse_loop fuel' (advance 1 end_) s
          end
      end
  end.

Definition parse_line_to_bin (line : string) (bin : bin_head) : option (Z * bin_head) :=
  let? '(r, s) := parse_loop (S (String.length line)) line (mk_line bin (repeat 0 32) (repeat 0 32)) in
  Some (r, l_bin s).

(** ** A part *)

Section Build.
Context {UL : ULong} (e : build_env) (junk : sha1_context).

Definition with_size (n : Z) (b : bin_head) : bin_head :=
  mk_bin_head (id b) (start_position b) n (flash_start_position b) (flash_part_size b)
    (sub_type b) (bin_sha1sum b) (bin_version b) (file_name b) (diff_pack_dev b) (ubi_dev b) (raw_dev b)
    (b_reserved b).

Definition get_file_size (bin : bin_head) : Z * bin_head :=
  match files e (cstr (file_name bin)) with
  | None => (-1, bin)
  | Some content => (0, with_size (Z.of_nat (length content)) bin)
  end.

(** The text of the sum has 48 characters: its NUL goes into [bin_version]. *)
Definition store_sum (text : string) (b : bin_head) : bin_head :=
  with_strings (sub_type b) (0 :: tl (bin_version b)) (file_name b) (diff_pack_dev b) (ubi_dev b) (raw_dev b)
    (str_bytes text) b.

Definition calc_file_sha1sum (bin : bin_head) : option (Z * bin_head) :=
  if negb (alloc e (bin_size bin)) then Some (-1, bin)
  else
    match files e (cstr (file_name bin)) with
    | None => Some (-2, bin)
    | Some content =>
        let buf := file_read content (bin_size bin) in
        if negb (Z.of_nat (length buf) =? bin_size bin) then Some (-3, bin)
        else
          let? text := calc_sha1sum junk buf (bin_size bin) in
          Some (0, store_sum text bin)
    end.

(** ** The image *)

Definition with_start (p : Z) (b : bin_head) : bin_head :=
  mk_bin_head (id b) p (bin_size b) (flash_start_position b) (flash_part_size b)
    (sub_type b) (bin_sha1sum b) (bin_version b) (file_name b) (diff_pack_dev b) (ubi_dev b) (raw_dev b)
    (b_reserved b).

(** The first loop of [make_upgrade_bin]: the parts one after the other. *)
Fixpoint place_bins (bin_offset : Z) (bin : list bin_head) : list bin_head * Z :=
  match bin with
  | [] => ([], bin_offset)
  | b :: bs =>
      let '(bs', off) := place_bins ((bin_offset + bin_size b) mod 2 ^ 64) bs in
      (with_start bin_offset b :: bs', off)
  end.

(** The second loop: the contents of the files, or the error. *)
Fixpoint read_bins (bin : list bin_head) : Z + list Z :=
  match bin with
  | [] => inr []
  | b :: bs =>
      match files e (cstr (file_name b)) with
      | None => inl (-2)
      | Some content =>
          let data := file_read content (bin_size b) in
          if negb (Z.of_nat (length data) =? bin_size b) then inl (-3)
          else match read_bins bs with inl err => inl err | inr rest => inr (data ++ rest) end
      end
  end.

(** [write(fd, data, n)] to the image with [room] left. *)
Definition file_write (data : list Z) (room : Z) : list Z :=
  firstn (Z.to_nat (Z.min (Z.of_nat (length data)) (Z.min room 0x7ffff000))) data.

(** The result, the headers afterwards, and the bytes of the image file once it is
    created.  [bin] are the [file->sum] first headers. *)
Definition make_upgrade_bin (file : file_head) (bin : list bin_head)
  : Z * file_head * list bin_head * option (list Z) :=
  let file1 := mk_file_head (sum file) sizeof_file_head (file_size file) (f_reserved file) in
  if negb (alloc e (sum file * sizeof_bin_head)) then (-1, file1, bin, None)
  else
    let '(bin1, off) := place_bins (sizeof_file_head + sum file * sizeof_bin_head) bin in
    let size := (off - sizeof_file_head) mod 2 ^ 64 in
    let file2 := mk_file_head (sum file) sizeof_file_head size (f_reserved file) in
    if negb (alloc e size) then (-1, file2, bin1, None)
    else
      match read_bins bin1 with
      | inl err => (err, file2, bin1, None)
      | inr parts =>
          match out_room e with
          | None => (-4, file2, bin1, None)
          | Some room =>
              let w1 := file_write (file_head_bytes file2) room in
              if negb (Z.of_nat (length w1) =? sizeof_file_head) then (-5, file2, bin1, Some w1)
              else
                let buf := flat_map bin_head_bytes bin1 ++ parts in
                let w2 := file_write (firstn (Z.to_nat size) buf) (room - sizeof_file_head) in
                (if Z.of_nat (length w2) =? size then 0 else -6, file2, bin1, Some (w1 ++ w2))
          end
      end.

(** ** The configuration *)

Definition zero_bin : bin_head :=
  mk_bin_head 0 0 0 0 0 (repeat 0 32) (repeat 0 48) (repeat 0 64) (repeat 0 128) (repeat 0 32)
    (repeat 0 32) (repeat 0 32) (repeat 0 108).

Definition with_id (i : Z) (b : bin_head) : bin_head :=
  mk_bin_head i (start_position b) (bin_size b) (flash_start_position b) (flash_part_size b)
    (sub_type b) (bin_sha1sum b) (bin_version b) (file_name b) (diff_pack_dev b) (ubi_dev b) (raw_dev b)
    (b_reserved b).

(** What the loop of [main] does with a legal line; the errors of the three steps
    are not looked at. *)
Definition make_bin (i : Z) (line : string) : option bin_head :=
  let? '(_, b) := parse_line_to_bin line zero_bin in
  let '(_, b) := get_file_size b in
  let? '(_, b) := calc_file_sha1sum b in
  Some (with_id i b).

(** The loop over the lines: the headers of [bin_head[36]], and whether memory ran
    out. *)
Fixpoint read_config (lines : list string) (i : Z) : option (list bin_head * bool) :=
  match lines with
  | [] => Some ([], true)
  | line :: rest =>
      if judge_line_islegal line <? 0 then read_config rest i
      else if negb (alloc e sizeof_bin_head) then Some ([], false)
      else
        let? b := make_bin i line in
        if 36 <=? i then None
        else
          let? '(bs, ok) := read_config rest (i + 1) in
          Some (b :: bs, ok)
  end.

(** [main] after its options: the image, if one is written.  The exit status is 0
    whatever happens. *)
Definition package_main (config : option string) : option (option (list Z)) :=
  match config with
  | None => Some None
  | Some text =>
      let? '(bins, ok) := read_config (getlines text) 0 in
      if negb ok || negb (alloc e sizeof_file_head) then Some None
      else
        let '(_, _, _, image) :=
          make_upgrade_bin (mk_file_head (Z.of_nat (length bins)) 0 0 (repeat 0 236)) bins in
        Some image
  end.
End Build.
