(* ===== verification/Fstab.v ===== *)
(** * The partition table of the recovery system

    The part of [framework/libs/ota/recovery/recovery.c] that reads
    [/etc/yodabase.recovery.fstab], [/proc/partitions] and the UBI device nodes.
    A [char] array that receives a string has a capacity, and a longer string is
    an overflow. *)

From Stdlib Require Import Ascii String ZArith List Bool Lia.
From S2P Require Import Prelude CString CMonad Nand.
Import ListNotations.
Open Scope list_scope.
Open Scope string_scope.
Open Scope Z_scope.

Definition YODABASE_FSTAB : string := "/etc/yodabase.recovery.fstab".

Definition DATA_PARTNAME_POS : nat := 3.
Definition MISC_PARTNAME_POS : nat := 4.
Definition ENV_PARTNAME_POS : nat := 5.
Definition MAX_PARTITIONS_NUM : nat := 32.

(** [enum PARTITION_TYPE] *)
Definition MTD_AB_FORMAT : Z := 0.
Definition MTD_FORMAT : Z := 1.
Definition UBI_OVERLAY_FORMAT : Z := 2.
Definition RAW_FORMAT : Z := 3.

(** ** Text *)

(** The pieces [strsep] cuts, without the empty ones. *)
Fixpoint tokens_from (delim : ascii -> bool) (cur s : string) : list string :=
  match s with
  | EmptyString => if String.eqb cur "" then [] else [cur]
  | String c s' =>
      if delim c then
        (if String.eqb cur "" then [] else [cur]) ++ tokens_from delim "" s'
      else tokens_from delim (cur ++ String c "") s'
  end%list.

Definition tokens (delim : ascii -> bool) (s : string) : list string := tokens_from delim "" s.

(** The delimiters [" \t\n"], [" \t"] and [", \t\n"]. *)
Definition blank_nl (c : ascii) : bool := Ascii.eqb c SPC || Ascii.eqb c TAB || Ascii.eqb c LF.
Definition blank_sp (c : ascii) : bool := Ascii.eqb c SPC || Ascii.eqb c TAB.
Definition comma_nl (c : ascii) : bool := Ascii.eqb c ","%char || blank_nl c.

(** What precedes a suffix that [strchr] or [strstr] returned. *)
Definition before (s suffix : string) : string :=
  substring 0 (String.length s - String.length suffix) s.

Section Fstab.
Context {X : Type} `{!OtaEnv X}.
Local Notation W := (oworld X).

(** A string stored in a [char[cap]]. *)
Definition store (cap : nat) (s : string) : M W string :=
  if Nat.ltb (String.length s) cap then ret s else stop BufferOverflow.

Definition file_lines (path : string) : M W (option (list string)) :=
  t <- ask (os_file path) ;;
  ret (match t with Some s => Some (getlines s) | None => None end).

(** [while (getline ...)] of [get_mtd_name]. *)
Fixpoint mtd_name_loop (lines : list string) (part_name : string) (cap : nat) : M W (Z * string) :=
  match lines with
  | [] => ret (-1, "")
  | line :: rest =>
      if strstr_b line "#" then mtd_name_loop rest part_name cap
      else if strstr_b line part_name then
        match strchr line ":"%char with
        | None => ret (-2, "")
        | Some index =>
            mtd_name <- store 256 (before line index) ;;
            mtd_device <- store cap mtd_name ;;
            ret (0, mtd_device)
        end
      else mtd_name_loop rest part_name cap
  end.

(** The result and [mtd_device], an array of [cap] bytes. *)
Definition get_mtd_name (logic_name : string) (cap : nat) (fstab_file : string) : M W (Z * string) :=
  part_name <- store 64 (quote ++ logic_name ++ quote) ;;
  lines <- file_lines fstab_file ;;
  match lines with
  | None => ret (-1, "")
  | Some ls => mtd_name_loop ls part_name cap
  end.

Definition get_mtd_num (mtd_device : string) : Z :=
  match strstr mtd_device "/dev/mtdblock" with
  | Some s => atoi (advance 13 s)
  | None =>
      match strstr mtd_device "/dev/mtd" with
      | Some s => atoi (advance 8 s)
      | None => -1
      end
  end.

(** [strsep] cuts at the first underscore; the number is taken 8 bytes into what
    precedes it, wherever the prefix was found. *)
Definition get_dev_ubinum (ubi_device : string) : Z :=
  if strstr_b ubi_device "/dev/ubi" then
    let ubi_name := match strchr ubi_device "_"%char with Some r => before ubi_device r | None => ubi_device end in
    atoi (advance 8 ubi_name)
  else -1.

Fixpoint partition_type_loop (lines : list string) : Z :=
  match lines with
  | [] => MTD_AB_FORMAT
  | line :: rest =>
      if strstr_b line "#" then partition_type_loop rest
      else if strstr_b line "ubi_format" then UBI_OVERLAY_FORMAT
      else if strstr_b line "mtd_format" then MTD_FORMAT
      else if strstr_b line "raw_format" then RAW_FORMAT
      else partition_type_loop rest
  end.

Definition get_upgrade_partition_type (fstab_file : string) : M W Z :=
  lines <- file_lines fstab_file ;;
  ret (match lines with None => -1 | Some ls => partition_type_loop ls end).

(** The loop of [get_max_ubinum] and [get_max_ubivolnum] over the device nodes
    [path n]. *)
Fixpoint node_loop (left : nat) (path : Z -> string) (n : Z) : M W Z :=
  match left with
  | O => ret n
  | S left' =>
      ok <- ask (os_exists (path n)) ;;
      if ok : bool then node_loop left' path (n + 1) else ret (n - 1)
  end.

Definition get_max_ubinum : M W Z :=
  node_loop MAX_PARTITIONS_NUM (fun n => "/dev/ubi" ++ itoa n) 0.

Definition get_max_ubivolnum (ubi_num : Z) : M W Z :=
  node_loop MAX_PARTITIONS_NUM (fun n => "/dev/ubi" ++ itoa ubi_num ++ "_" ++ itoa n) 0.

Fixpoint partname_loop (lines : list string) (select_num : nat) : string :=
  match lines with
  | [] => ""
  | line :: rest =>
      if strstr_b line "#" then partname_loop rest select_num
      else if strstr_b line "block_type" then nth (select_num - 1) (tokens blank_nl line) ""
      else partname_loop rest select_num
  end.

(** The result and [part_name], an array of 32 bytes in every caller. *)
Definition select_partname (fstab_file : string) (select_num : nat) : M W (Z * string) :=
  lines <- file_lines fstab_file ;;
  match lines with
  | None => ret (-1, "")
  | Some ls =>
      name <- store 32 (partname_loop ls select_num) ;;
      ret (0, name)
  end.

Definition get_data_partname (fstab_file : string) : M W (Z * string) :=
  select_partname fstab_file DATA_PARTNAME_POS.

Definition get_misc_partname (fstab_file : string) : M W (Z * string) :=
  select_partname fstab_file MISC_PARTNAME_POS.

Definition get_env_partname (fstab_file : string) : M W (Z * string) :=
  select_partname fstab_file ENV_PARTNAME_POS.

(** ** Sizes *)

Fixpoint partition_size_loop (lines : list string) (name : string) : Z :=
  match lines with
  | [] => -1
  | line :: rest =>
      if strstr_b line name then
        match nth_error (tokens blank_sp line) 2 with Some t => atoi t | None => -1 end
      else partition_size_loop rest name
  end.

(** The name of a device in [/proc/partitions]. *)
Definition partitions_name (part_devname : string) : string :=
  let name := if strstr_b part_devname "/dev/" then advance 5 part_devname else part_devname in
  if strstr_b name "mtd" then
    if strstr_b name "mtdblock" then name else "mtdblock" ++ advance 3 name
  else name.

Definition get_partition_size (part_devname : string) : M W Z :=
  lines <- file_lines "/proc/partitions" ;;
  match lines with
  | None => ret (-1)
  | Some ls =>
      name <- store 256 (partitions_name part_devname) ;;
      let size := partition_size_loop ls name in
      ret (if size =? -1 then size else wraps32 (size * 1024))
  end.

(** ** The table *)

Definition format_of (s : string) : FS_FORMAT :=
  if String.eqb s "raw" || String.eqb s "" then RAW_FS
  else if String.eqb s "ubifs" then UBI_FS
  else if String.eqb s "squashfs" then SQUASH_FS
  else if String.eqb s "ext2" then EXT2_FS
  else if String.eqb s "ext3" then EXT3_FS
  else if String.eqb s "ext4" then EXT4_FS
  else if String.eqb s "squashfs_overlay_ubifs" then SQUASHFS_OVERLAY_UBIFS
  else if String.eqb s "ubifs_overlay_ubifs" then UBIFS_OVERLAY_UBIFS
  else if String.eqb s "volume_overlay_ubifs" then VOL_OVERLAY_UBIFS
  else UNKNOWN_FS.

(** One entry; the fields a line does not have stay empty, and its format raw. *)
Definition partition_line (line : string) : M W partition_info :=
  point <- store 256 (match strchr line ":"%char with Some i => before line i | None => "" end) ;;
  name <- store 64 (match strchr line DQUOTE with
                    | Some i =>
                        let from := advance 1 i in
                        match strchr from DQUOTE with Some e => before from e | None => "" end
                    | None => ""
                    end) ;;
  let toks := tokens blank_nl line in
  format <- store 64 (nth 2 toks "") ;;
  path <- store 64 (nth 3 toks "") ;;
  param <- store 128 (nth 4 toks "") ;;
  ret (mk_partition name point format path param (format_of format)).

Fixpoint partitions_loop (lines : list string) (left : nat) : M W (list partition_info) :=
  match lines, left with
  | [], _ | _, O => ret []
  | line :: rest, S left' =>
      if strstr_b line "block_type" then partitions_loop rest left
      else if strstr_b line "#" then partitions_loop rest left
      else
        p <- partition_line line ;;
        ps <- partitions_loop rest left' ;;
        ret (p :: ps)%list
  end.

(** The entries; [None] when the file cannot be opened. *)
Definition get_partitions_info (max_partition_num : nat) (fstab_file : string)
  : M W (option (list partition_info)) :=
  lines <- file_lines fstab_file ;;
  match lines with
  | None => ret None
  | Some ls => ps <- partitions_loop ls max_partition_num ;; ret (Some ps)
  end.

(** The table is read once; [None] is the error. *)
Definition get_rawflash_partition_info (logic_name : string) : M W (option partition_info) :=
  cached <- gets oparts ;;
  tab <- (match cached with
          | [] =>
              ps <- get_partitions_info MAX_PARTITIONS_NUM YODABASE_FSTAB ;;
              match ps with
              | None | Some [] => ret []
              | Some l => modify (set_oparts l) ;; ret l
              end
          | l => ret l
          end) ;;
  ret (find (fun p => String.eqb logic_name (part_name p)) tab).

(** The result and [device], an array of [cap] bytes. *)
Definition rawflash_get_name (logic_name : string) (cap : nat) : M W (Z * string) :=
  info <- get_rawflash_partition_info logic_name ;;
  match info with
  | None => ret (-1, "")
  | Some p => d <- store cap (mount_point p) ;; ret (0, d)
  end.
End Fstab.
