(* ===== verification/BootCmd.v ===== *)
(** * The command block of the recovery system

    [struct boot_cmd] of [framework/libs/ota/recovery/recovery.h], which the
    system, the boot loader and the recovery programs share in the misc partition,
    with its accessors in [recovery.c] (built for MTD storage, as
    [CMakeLists.txt] sets it) and the functions of [unpack.c] that move it from
    state to state. *)

From Stdlib Require Import Ascii String ZArith List Bool Lia.
From S2P Require Import Prelude CString CMonad Fips180 Nand Bytes OtaPackage Fstab.
Import ListNotations.
Open Scope list_scope.
Open Scope string_scope.
Open Scope Z_scope.

Definition BOOTMODE_RECOVERY : string := "boot_recovery".
Definition BOOTMODE_FLUSHDATA : string := "boot_flushdata".
Definition BOOTSTATE_READY : string := "recovery_ready".
Definition BOOTSTATE_RUN : string := "recovery_run".
Definition BOOTSTATE_OK : string := "recovery_ok".
Definition BOOTSTATE_ERROR : string := "recovery_error".
Definition RECOVERY_PART_A : string := "recovery_partition_a".
Definition RECOVERY_PART_B : string := "recovery_partition_b".
Definition RECOVERYA_END : string := "recoverya_end".
Definition RECOVERYB_START : string := "recoveryb_start".
Definition RECOVERYB_END : string := "recoveryb_end".

Definition BOOTSTATE_RES_OK : Z := 0.
Definition BOOTSTATE_RES_ERROR : Z := 1.
Definition FLASHED_PART_A : Z := 0.
Definition FLASHED_PART_B : Z := 1.
Definition OTA_UPDATE : Z := 0.
Definition DATA_FLUSHED : Z := 1.

Record boot_cmd := mk_boot_cmd {
  boot_mode : list Z; recovery_path : list Z; recovery_state : list Z; recovery_partition : list Z;
  uboot_status : list Z; recovery_status : list Z; version : list Z; reserve : list Z }.

Definition sizeof_boot_cmd : Z := 608.

Definition boot_cmd_bytes (c : boot_cmd) : list Z :=
  (boot_mode c ++ recovery_path c ++ recovery_state c ++ recovery_partition c ++ uboot_status c ++
   recovery_status c ++ version c ++ reserve c)%list.

Definition boot_cmd_of (l : list Z) : boot_cmd :=
  mk_boot_cmd (field 0 32 l) (field 32 256 l) (field 288 32 l) (field 320 32 l) (field 352 32 l)
    (field 384 32 l) (field 416 48 l) (field 464 144 l).

(** [memset(&cmd, 0, sizeof(cmd))] *)
Definition zero_cmd : boot_cmd := boot_cmd_of (repeat 0 608).

Definition boot_cmd_ok (c : boot_cmd) : Prop :=
  chars 32 (boot_mode c) /\ chars 256 (recovery_path c) /\ chars 32 (recovery_state c) /\
  chars 32 (recovery_partition c) /\ chars 32 (uboot_status c) /\ chars 32 (recovery_status c) /\
  chars 48 (version c) /\ chars 144 (reserve c).

Definition with_mode (a : list Z) (c : boot_cmd) : boot_cmd :=
  mk_boot_cmd a (recovery_path c) (recovery_state c) (recovery_partition c) (uboot_status c)
    (recovery_status c) (version c) (reserve c).

Definition with_state (a : list Z) (c : boot_cmd) : boot_cmd :=
  mk_boot_cmd (boot_mode c) (recovery_path c) a (recovery_partition c) (uboot_status c)
    (recovery_status c) (version c) (reserve c).

Definition with_partition (a : list Z) (c : boot_cmd) : boot_cmd :=
  mk_boot_cmd (boot_mode c) (recovery_path c) (recovery_state c) a (uboot_status c)
    (recovery_status c) (version c) (reserve c).

Definition with_status (a : list Z) (c : boot_cmd) : boot_cmd :=
  mk_boot_cmd (boot_mode c) (recovery_path c) (recovery_state c) (recovery_partition c) (uboot_status c)
    a (version c) (reserve c).

(** [strncmp(a, s, strlen(s)) == 0] *)
Definition starts (a : list Z) (s : string) : bool := strncmp_eq (String.length s) (cstr a) s.

Section BootCmd.
Context {X : Type} `{!OtaEnv X}.
Local Notation W := (oworld X).

(** [strncpy(a, s, n)] *)
Definition put_str (a : list Z) (s : string) (n : nat) : M W (list Z) :=
  match strncpy_arr a s n with Some b => ret b | None => stop BufferOverflow end.

(** ** Reading and writing the block *)

Definition get_recovery_cmd_status (cmd : boot_cmd) : M W (Z * boot_cmd) :=
  ptype <- get_upgrade_partition_type YODABASE_FSTAB ;;
  if ptype =? RAW_FORMAT then
    '(r, misc_partname) <- get_misc_partname YODABASE_FSTAB ;;
    if (r <? 0) || String.eqb misc_partname "" then ret (-1, cmd)
    else
      '(r, misc_device) <- rawflash_get_name misc_partname 32 ;;
      if negb (r =? 0) then ret (-1, cmd)
      else
        '(r, b) <- rawflash_read misc_device 0 (boot_cmd_bytes cmd) sizeof_boot_cmd ;;
        ret (if r =? 0 then 0 else -1, boot_cmd_of b)
  else
    '(r, misc_partname) <- get_misc_partname YODABASE_FSTAB ;;
    if (r <? 0) || String.eqb misc_partname "" then ret (-1, cmd)
    else
      '(r, misc_device) <- get_mtd_name misc_partname 32 YODABASE_FSTAB ;;
      if r <? 0 then ret (-2, cmd)
      else
        '(_, b) <- nand_read misc_device 0 (boot_cmd_bytes cmd) sizeof_boot_cmd ;;
        ret (0, boot_cmd_of b).

Definition erase_uboot_env_part : M W Z :=
  '(r, env_partname) <- get_env_partname YODABASE_FSTAB ;;
  if (r <? 0) || String.eqb env_partname "" then ret (-1)
  else
    '(r, env_device) <- get_mtd_name env_partname 32 YODABASE_FSTAB ;;
    if r <? 0 then ret r
    else if negb (strncmp_eq 5 env_device "/dev/") then ret 0
    else nand_erase env_device 0 ;; ret 0.

(** The command is changed in place: the flashed partition is A unless it is B. *)
Definition set_recovery_cmd_status (cmd : boot_cmd) : M W (Z * boot_cmd) :=
  ptype <- get_upgrade_partition_type YODABASE_FSTAB ;;
  if ptype =? RAW_FORMAT then
    '(r, misc_partname) <- get_misc_partname YODABASE_FSTAB ;;
    if (r <? 0) || String.eqb misc_partname "" then ret (-1, cmd)
    else
      '(r, misc_device) <- rawflash_get_name misc_partname 32 ;;
      if negb (r =? 0) then ret (-1, cmd)
      else
        r <- rawflash_write misc_device 0 (boot_cmd_bytes cmd) sizeof_boot_cmd ;;
        ret (if r =? 0 then 0 else -1, cmd)
  else
    '(r, misc_partname) <- get_misc_partname YODABASE_FSTAB ;;
    if (r <? 0) || String.eqb misc_partname "" then ret (-1, cmd)
    else
      '(r, misc_device) <- get_mtd_name misc_partname 32 YODABASE_FSTAB ;;
      if r <? 0 then ret (-2, cmd)
      else
        let part := if starts (recovery_partition cmd) RECOVERY_PART_B then RECOVERY_PART_B else RECOVERY_PART_A in
        a <- put_str (recovery_partition cmd) part (String.length part + 1) ;;
        let cmd := with_partition a cmd in
        nand_erase_part misc_device 0 sizeof_boot_cmd ;;
        nand_write misc_device 0 (boot_cmd_bytes cmd) sizeof_boot_cmd ;;
        erase_uboot_env_part ;;
        ret (0, cmd).

(** ** The states of an update *)

(** Reads the block, changes it, writes it back. *)
Definition update_cmd (change : boot_cmd -> M W boot_cmd) : M W Z :=
  '(r, cmd) <- get_recovery_cmd_status zero_cmd ;;
  if negb (r =? 0) then ret (-1)
  else
    cmd <- change cmd ;;
    '(r, _) <- set_recovery_cmd_status cmd ;;
    ret (if r =? 0 then 0 else -1).

Definition set_upgrade_statue (sta : Z) : M W Z :=
  update_cmd (fun cmd =>
    let s := if sta =? BOOTSTATE_RES_OK then BOOTSTATE_OK else BOOTSTATE_ERROR in
    a <- put_str (recovery_state cmd) s (String.length s + 1) ;;
    ret (with_state a cmd)).

Definition set_flashed_partition (status : Z) : M W Z :=
  update_cmd (fun cmd =>
    let s := if status =? FLASHED_PART_A then RECOVERY_PART_A else RECOVERY_PART_B in
    a <- put_str (recovery_partition cmd) s (String.length s + 1) ;;
    ret (with_partition a cmd)).

Definition set_recovery_end : M W Z :=
  update_cmd (fun cmd =>
    let s := if starts (recovery_status cmd) RECOVERYB_START then RECOVERYB_END else RECOVERYA_END in
    a <- put_str (recovery_status cmd) s (String.length s + 1) ;;
    ret (with_status a cmd)).

(** The choice and the path of the image, copied to an array of 256 bytes. *)
Definition judge_need_upgrade : M W (Z * string) :=
  '(r, cmd) <- get_recovery_cmd_status zero_cmd ;;
  if negb (r =? 0) then ret (-1, "")
  else if starts (boot_mode cmd) BOOTMODE_RECOVERY && starts (recovery_state cmd) BOOTSTATE_RUN then
    file <- store 256 (cstr (recovery_path cmd)) ;;
    ret (OTA_UPDATE, file)
  else if starts (boot_mode cmd) BOOTMODE_FLUSHDATA && starts (recovery_state cmd) BOOTSTATE_RUN then
    ret (DATA_FLUSHED, "")
  else ret (-1, "").

(** The result of the read is overwritten by that of the write. *)
Definition set_boot_flush_data : M W Z :=
  '(_, cmd) <- get_recovery_cmd_status zero_cmd ;;
  a <- put_str (boot_mode cmd) BOOTMODE_FLUSHDATA (String.length BOOTMODE_FLUSHDATA) ;;
  let cmd := with_mode a cmd in
  b <- put_str (recovery_state cmd) BOOTSTATE_READY (String.length BOOTSTATE_READY) ;;
  '(r, _) <- set_recovery_cmd_status (with_state b cmd) ;;
  ret r.

Definition get_boot_flush_data : M W Z :=
  '(r, cmd) <- get_recovery_cmd_status zero_cmd ;;
  ret (if starts (boot_mode cmd) BOOTMODE_FLUSHDATA && starts (recovery_state cmd) BOOTSTATE_OK then 0 else r).
End BootCmd.
