(* ===== verification/BootProofs.v ===== *)
(** * The command block: correctness

    On a board whose misc partition is a working flash, the functions that move
    an update from state to state implement an abstract machine on the texts of
    the block. *)

From Stdlib Require Import Ascii String ZArith List Bool Lia.
From S2P Require Import Prelude CString CMonad Fips180 Nand NandProofs Bytes OtaPackage Fstab BootCmd.
Import ListNotations.
Open Scope list_scope.
Open Scope string_scope.
Open Scope Z_scope.

(** ** Strings in arrays *)

(** [strncpy] of a string with its NUL. *)
Lemma strncpy_arr_spec (a : list Z) (s : string) (k : nat) :
  chars k a -> (String.length s < k)%nat -> no_nul s = true ->
  exists b, strncpy_arr a s (String.length s + 1) = Some b /\ chars k b /\ cstr b = s.
Proof.
  intros [Hl Hb] Hs Hn. unfold strncpy_arr. rewrite (proj2 (Nat.leb_le _ _)) by lia.
  eexists. split; [reflexivity|]. rewrite Nat.add_1_r.
  assert (E : firstn (S (String.length s)) (str_bytes s ++ repeat 0 (S (String.length s)))%list = (str_bytes s ++ [0])%list).
  { rewrite firstn_app, length_str_bytes, firstn_all2 by (rewrite length_str_bytes; lia).
    rewrite Nat.sub_succ_l, Nat.sub_diag by lia. reflexivity. }
  rewrite E. split; [split|].
  - rewrite !length_app, length_str_bytes, length_skipn. cbn. lia.
  - repeat (apply Forall_app; split); auto using str_bytes_byte, Forall_skipn. repeat constructor; lia.
  - rewrite <- app_assoc. now apply cstr_bytes.
Qed.

Lemma boot_cmd_length (c : boot_cmd) : boot_cmd_ok c -> length (boot_cmd_bytes c) = 608%nat.
Proof.
  unfold boot_cmd_ok, chars. intros H. decompose [and] H. unfold boot_cmd_bytes. rewrite !length_app. lia.
Qed.

Lemma boot_cmd_roundtrip (c : boot_cmd) : boot_cmd_ok c -> boot_cmd_of (boot_cmd_bytes c) = c.
Proof.
  destruct c as [a1 a2 a3 a4 a5 a6 a7 a8]. unfold boot_cmd_ok, chars.
  cbn [boot_mode recovery_path recovery_state recovery_partition uboot_status recovery_status version reserve].
  intros H. decompose [and] H. clear H. unfold boot_cmd_of, boot_cmd_bytes.
  cbn [boot_mode recovery_path recovery_state recovery_partition uboot_status recovery_status version reserve].
  repeat (first [rewrite field_0 by assumption
                |rewrite field_skip by lia;
                 repeat match goal with H : length ?a = _ |- context [(_ - length ?a)%nat] => rewrite H end;
                 cbn [Nat.sub]]).
  now rewrite field_all.
Qed.

Lemma zero_cmd_ok : boot_cmd_ok zero_cmd.
Proof.
  unfold boot_cmd_ok, zero_cmd, boot_cmd_of.
  cbn [boot_mode recovery_path recovery_state recovery_partition uboot_status recovery_status version reserve].
  assert (Hb : Forall byte (repeat 0 608)).
  { apply Forall_forall. intros x Hx. apply repeat_spec in Hx. subst. split; lia. }
  repeat apply conj; try (apply field_length; rewrite repeat_length; lia); now apply field_bytes.
Qed.

(** ** A board with its misc partition on flash *)

(** The configuration of the board: the misc and environment partitions are the
    MTD devices [misc] and [env]. *)
Class MtdBoard (X : Type) `{!OtaEnv X} (misc env : string) : Prop := {
  board_type (w : oworld X) : exists t, get_upgrade_partition_type YODABASE_FSTAB w = Ret t w /\ t <> RAW_FORMAT;
  board_misc : exists n, n <> "" /\ forall w : oworld X,
    get_misc_partname YODABASE_FSTAB w = Ret (0, n) w /\ get_mtd_name n 32 YODABASE_FSTAB w = Ret (0, misc) w;
  board_env : exists n, n <> "" /\ forall w : oworld X,
    get_env_partname YODABASE_FSTAB w = Ret (0, n) w /\ get_mtd_name n 32 YODABASE_FSTAB w = Ret (0, env) w;
  board_env_dev : strncmp_eq 5 env "/dev/" = true;
  board_distinct : env <> misc }.

Section Block.
Context {X : Type} `{!OtaEnv X} (misc env : string) `{!MtdBoard X misc env}
  (im ie : mtd_info_t) (bm be : Z -> bool) (page : string -> X -> Z -> list Z)
  {WM : WorkingFlash misc im bm page} {WE : WorkingFlash env ie be page}.
Local Notation W := (oworld X).

(** The misc partition holds the command. *)
Definition misc_holds (w : W) (c : boot_cmd) : Prop :=
  boot_cmd_ok c /\ (608 <= length (view misc im bm page (oenv w) 0%Z))%nat /\
  firstn 608 (view misc im bm page (oenv w) 0) = boot_cmd_bytes c.

(** Nothing but the misc and environment partitions changes, and no descriptor is
    left open. *)
Definition rest_same (w w' : W) : Prop :=
  ofds w' = ofds w /\ forall d q, d <> misc -> d <> env -> page d (oenv w') q = page d (oenv w) q.

Lemma get_cmd_spec (w : W) (c c0 : boot_cmd) :
  misc_holds w c -> boot_cmd_ok c0 ->
  exists w', get_recovery_cmd_status c0 w = Ret (0, c) w' /\ misc_holds w' c /\ rest_same w w'.
Proof.
  intros (Hc & Hl & Hv) H0. unfold get_recovery_cmd_status.
  destruct (board_type w) as (t & Et & Ht). unfold bind at 1. rewrite Et, (proj2 (Z.eqb_neq _ _) Ht).
  destruct board_misc as (n & Hn & Hm). unfold bind at 1. rewrite (proj1 (Hm w)).
  cbn [Z.ltb Z.compare orb]. rewrite (proj2 (String.eqb_neq _ _) Hn).
  unfold bind at 1. rewrite (proj2 (Hm w)). cbn [Z.ltb Z.compare].
  destruct (nand_read_view misc im bm page w (boot_cmd_bytes c0) 608 ltac:(lia)
              ltac:(now rewrite boot_cmd_length) ltac:(exact Hl)) as (r & w' & E & _ & F & O).
  change (Z.to_nat 608) with 608%nat in E. rewrite Hv in E.
  unfold bind, sizeof_boot_cmd. rewrite E. exists w'. rewrite boot_cmd_roundtrip by exact Hc.
  assert (Ev : view misc im bm page (oenv w') 0 = view misc im bm page (oenv w) 0) by (apply view_ext; auto).
  split; [reflexivity|]. unfold misc_holds. rewrite Ev. split; [now split|]. split; [exact F|]. auto.
Qed.

Lemma erase_env_spec (w : W) :
  exists w', erase_uboot_env_part w = Ret 0 w' /\ ofds w' = ofds w /\
    forall d q, d <> env -> page d (oenv w') q = page d (oenv w) q.
Proof.
  unfold erase_uboot_env_part. destruct board_env as (n & Hn & Hm). unfold bind at 1. rewrite (proj1 (Hm w)).
  cbn [Z.ltb Z.compare orb]. rewrite (proj2 (String.eqb_neq _ _) Hn).
  unfold bind at 1. rewrite (proj2 (Hm w)). cbn [Z.ltb Z.compare]. rewrite board_env_dev. cbn [negb].
  assert (Hs : 0 <= m_size ie).
  { pose proof (size_pos ie (wf_geometry (dev := env))). pose proof (es_pos ie (wf_geometry (dev := env))). lia. }
  destruct (nand_erase_pages env ie be page w 0 ltac:(lia)) as (r & w' & k & E & _ & F & _ & _ & _ & O).
  unfold bind, nand_erase. rewrite E. exists w'. repeat split; auto.
Qed.

(** The partition written is A unless the command says B. *)
Definition flashed_text (s : string) : string :=
  if strncmp_eq (String.length RECOVERY_PART_B) s RECOVERY_PART_B then RECOVERY_PART_B else RECOVERY_PART_A.

Lemma set_cmd_spec (w : W) (c : boot_cmd) :
  boot_cmd_ok c -> (608 <= length (view misc im bm page (oenv w) 0%Z))%nat ->
  exists a w', set_recovery_cmd_status c w = Ret (0, with_partition a c) w' /\
    misc_holds w' (with_partition a c) /\ cstr a = flashed_text (cstr (recovery_partition c)) /\ rest_same w w'.
Proof.
  intros Hc Hl. unfold set_recovery_cmd_status.
  destruct (board_type w) as (t & Et & Ht). unfold bind at 1. rewrite Et, (proj2 (Z.eqb_neq _ _) Ht).
  destruct board_misc as (n & Hn & Hm). unfold bind at 1. rewrite (proj1 (Hm w)).
  cbn [Z.ltb Z.compare orb]. rewrite (proj2 (String.eqb_neq _ _) Hn).
  unfold bind at 1. rewrite (proj2 (Hm w)). cbn [Z.ltb Z.compare].
  unfold starts. fold (flashed_text (cstr (recovery_partition c))).
  set (part := flashed_text _).
  assert (Hpart : (String.length part < 32)%nat /\ no_nul part = true)
    by (unfold part, flashed_text; destruct (strncmp_eq _ _ _); cbn; split; lia || reflexivity).
  assert (Hrp : chars 32 (recovery_partition c)) by apply Hc.
  destruct (strncpy_arr_spec (recovery_partition c) part 32 Hrp (proj1 Hpart) (proj2 Hpart)) as (a & Ea & Ha & Ca).
  unfold bind at 1, put_str. rewrite Ea. unfold ret at 1.
  set (c' := with_partition a c).
  assert (Hc' : boot_cmd_ok c') by (unfold boot_cmd_ok in *; cbn; intuition).
  destruct (nand_store misc im bm page w (boot_cmd_bytes c') 608 608 ltac:(lia)
              ltac:(now rewrite boot_cmd_length) Hl (or_introl eq_refl))
    as (r1 & w1 & w2 & E1 & _ & E2 & Ed & V & F & O).
  unfold sizeof_boot_cmd. unfold bind at 1. rewrite E1. unfold bind at 1. rewrite E2.
  destruct (erase_env_spec w2) as (w3 & E3 & F3 & O3). unfold bind at 1. rewrite E3.
  assert (Ev : view misc im bm page (oenv w3) 0 = view misc im bm page (oenv w2) 0).
  { apply view_ext. intros q _. apply O3. pose proof board_distinct. congruence. }
  exists a, w3. split; [reflexivity|]. unfold misc_holds. rewrite Ev, V. split; [now split|].
  split; [exact Ca|]. split; [congruence|]. intros d q Hd He. rewrite O3 by exact He. now apply O.
Qed.
(** ** The abstract machine *)

(** The texts of the block. *)
Record cmd_text := mk_text {
  t_mode : string; t_path : string; t_state : string; t_partition : string; t_status : string;
  t_version : string }.

Definition text_of (c : boot_cmd) : cmd_text :=
  mk_text (cstr (boot_mode c)) (cstr (recovery_path c)) (cstr (recovery_state c))
    (cstr (recovery_partition c)) (cstr (recovery_status c)) (cstr (version c)).

Inductive cmd_op := UpgradeStatus (sta : Z) | Flashed (status : Z) | RecoveryEnd.

Definition run_op (op : cmd_op) : M W Z :=
  match op with
  | UpgradeStatus sta => set_upgrade_statue sta
  | Flashed status => set_flashed_partition status
  | RecoveryEnd => set_recovery_end
  end.

(** What an operation does to the texts: every write also settles the partition. *)
Definition step_text (t : cmd_text) (op : cmd_op) : cmd_text :=
  match op with
  | UpgradeStatus sta =>
      mk_text (t_mode t) (t_path t) (if sta =? BOOTSTATE_RES_OK then BOOTSTATE_OK else BOOTSTATE_ERROR)
        (flashed_text (t_partition t)) (t_status t) (t_version t)
  | Flashed status =>
      mk_text (t_mode t) (t_path t) (t_state t)
        (if status =? FLASHED_PART_A then RECOVERY_PART_A else RECOVERY_PART_B) (t_status t) (t_version t)
  | RecoveryEnd =>
      mk_text (t_mode t) (t_path t) (t_state t) (flashed_text (t_partition t))
        (if strncmp_eq (String.length RECOVERYB_START) (t_status t) RECOVERYB_START
         then RECOVERYB_END else RECOVERYA_END) (t_version t)
  end.

(** The choice of the recovery program. *)
Definition judge_text (t : cmd_text) : Z * string :=
  let mode m := strncmp_eq (String.length m) (t_mode t) m in
  let run := strncmp_eq (String.length BOOTSTATE_RUN) (t_state t) BOOTSTATE_RUN in
  if mode BOOTMODE_RECOVERY && run then (OTA_UPDATE, t_path t)
  else if mode BOOTMODE_FLUSHDATA && run then (DATA_FLUSHED, "")
  else (-1, "").

Fixpoint run_ops (ops : list cmd_op) : M W (list Z) :=
  match ops with
  | [] => ret []
  | op :: rest => r <- run_op op ;; rs <- run_ops rest ;; ret (r :: rs)
  end.

(** Reading, changing and writing the block. *)
Lemma update_cmd_spec (w : W) (c c1 : boot_cmd) (change : boot_cmd -> M W boot_cmd) :
  misc_holds w c -> boot_cmd_ok c1 -> (forall w, change c w = Ret c1 w) ->
  exists a w', update_cmd change w = Ret 0 w' /\ misc_holds w' (with_partition a c1) /\
    cstr a = flashed_text (cstr (recovery_partition c1)) /\ rest_same w w'.
Proof.
  intros Hw Hc1 Hch. unfold update_cmd.
  destruct (get_cmd_spec w c zero_cmd Hw zero_cmd_ok) as (w1 & E1 & H1 & S1).
  unfold bind at 1. rewrite E1. cbn [Z.eqb negb]. unfold bind at 1. rewrite Hch.
  destruct (set_cmd_spec w1 c1 Hc1 (proj1 (proj2 H1))) as (a & w2 & E2 & H2 & Ca & S2).
  unfold bind at 1. rewrite E2. exists a, w2. split; [reflexivity|]. split; [exact H2|]. split; [exact Ca|].
  destruct S1 as [F1 O1], S2 as [F2 O2]. split; [congruence|]. intros d q Hd He. now rewrite O2, O1.
Qed.

(** An operation that replaces one array of 32 bytes by a short text. *)
Lemma update_field_spec (w : W) (c : boot_cmd) (s : string) (arr : list Z)
    (put : list Z -> boot_cmd -> boot_cmd) (change : boot_cmd -> M W boot_cmd) :
  misc_holds w c -> chars 32 arr -> Nat.ltb (String.length s) 32 && no_nul s = true ->
  (forall b, chars 32 b -> boot_cmd_ok (put b c)) ->
  (forall w, change c w = bind (put_str arr s (String.length s + 1)) (fun b => ret (put b c)) w) ->
  exists b a w', update_cmd change w = Ret 0 w' /\ misc_holds w' (with_partition a (put b c)) /\ cstr b = s /\
    cstr a = flashed_text (cstr (recovery_partition (put b c))) /\ rest_same w w'.
Proof.
  intros Hw Ha Hs Hput Hch. apply andb_true_iff in Hs. destruct Hs as [Hs1 Hs2]. apply Nat.ltb_lt in Hs1.
  destruct (strncpy_arr_spec arr s 32 Ha Hs1 Hs2) as (b & Eb & Hb & Cb).
  destruct (update_cmd_spec w c (put b c) change Hw (Hput b Hb)) as (a & w' & E & H' & Ca & S').
  - intros w0. rewrite Hch. unfold bind, put_str. now rewrite Eb.
  - exists b, a, w'. auto.
Qed.

Lemma run_op_spec (op : cmd_op) (w : W) (c : boot_cmd) :
  misc_holds w c ->
  exists c' w', run_op op w = Ret 0 w' /\ misc_holds w' c' /\
    text_of c' = step_text (text_of c) op /\ rest_same w w'.
Proof.
  intros Hw. pose proof (proj1 Hw) as Hc. unfold boot_cmd_ok in Hc.
  destruct op as [sta|status|]; cbn [run_op step_text]; unfold set_upgrade_statue, set_flashed_partition, set_recovery_end.
  - set (s := if sta =? BOOTSTATE_RES_OK then BOOTSTATE_OK else BOOTSTATE_ERROR).
    match goal with |- context [update_cmd ?ch] =>
      edestruct (update_field_spec w c s (recovery_state c) with_state ch) as (b & a & w' & E & H' & Cb & Ca & S') end;
      [exact Hw|tauto|unfold s; destruct (sta =? _); reflexivity|unfold boot_cmd_ok; cbn; tauto|intros; reflexivity|].
    exists (with_partition a (with_state b c)), w'. split; [exact E|]. split; [exact H'|]. split; [|exact S'].
    unfold text_of. cbn in Ca |- *. now rewrite Ca, Cb.
  - set (s := if status =? FLASHED_PART_A then RECOVERY_PART_A else RECOVERY_PART_B).
    match goal with |- context [update_cmd ?ch] =>
      edestruct (update_field_spec w c s (recovery_partition c) with_partition ch) as (b & a & w' & E & H' & Cb & Ca & S') end;
      [exact Hw|tauto|unfold s; destruct (status =? _); reflexivity|unfold boot_cmd_ok; cbn; tauto|intros; reflexivity|].
    exists (with_partition a (with_partition b c)), w'. split; [exact E|]. split; [exact H'|]. split; [|exact S'].
    unfold text_of. cbn in Ca |- *. rewrite Ca, Cb. unfold s. now destruct (status =? _).
  - set (s := if starts (recovery_status c) RECOVERYB_START then RECOVERYB_END else RECOVERYA_END).
    match goal with |- context [update_cmd ?ch] =>
      edestruct (update_field_spec w c s (recovery_status c) with_status ch) as (b & a & w' & E & H' & Cb & Ca & S') end;
      [exact Hw|tauto|unfold s; destruct (starts _ _); reflexivity|unfold boot_cmd_ok; cbn; tauto|intros; reflexivity|].
    exists (with_partition a (with_status b c)), w'. split; [exact E|]. split; [exact H'|]. split; [|exact S'].
    unfold text_of. cbn in Ca |- *. rewrite Ca, Cb. reflexivity.
Qed.

(** The recovery program chooses from the texts of the block. *)
Lemma judge_spec (w : W) (c : boot_cmd) :
  misc_holds w c -> (String.length (t_path (text_of c)) < 256)%nat ->
  exists w', judge_need_upgrade w = Ret (judge_text (text_of c)) w' /\ misc_holds w' c /\ rest_same w w'.
Proof.
  intros Hw Hp. unfold judge_need_upgrade.
  destruct (get_cmd_spec w c zero_cmd Hw zero_cmd_ok) as (w1 & E1 & H1 & S1).
  exists w1. split; [|split; [exact H1|exact S1]]. unfold bind at 1. rewrite E1. cbn [Z.eqb negb].
  unfold judge_text, starts, text_of in *. cbn [t_mode t_path t_state] in *.
  destruct (_ && _); [|destruct (_ && _); reflexivity].
  unfold bind, store. apply Nat.ltb_lt in Hp. now rewrite Hp.
Qed.

(** C12: On a board whose misc partition is a working flash, any sequence of the
    functions that record the progress of an update succeeds, and the block in
    flash then reads as the abstract machine on its texts says; the next boot
    chooses what to do from exactly those texts, and no other partition but the
    environment is touched. *)
Theorem block_machine (ops : list cmd_op) (w : W) (c : boot_cmd) :
  misc_holds w c -> (String.length (cstr (recovery_path c)) < 256)%nat ->
  exists w' c', run_ops ops w = Ret (map (fun _ => 0) ops) w' /\ misc_holds w' c' /\
    text_of c' = fold_left step_text ops (text_of c) /\ rest_same w w' /\
    exists w'', judge_need_upgrade w' = Ret (judge_text (text_of c')) w''.
Proof.
  intros Hw Hp. change (cstr (recovery_path c)) with (t_path (text_of c)) in Hp.
  revert w c Hw Hp. induction ops as [|op ops IH]; intros w c Hw Hp.
  - exists w, c. split; [reflexivity|]. split; [exact Hw|]. split; [reflexivity|]. split; [split; auto|].
    destruct (judge_spec w c Hw Hp) as (w1 & E1 & _). exists w1. exact E1.
  - destruct (run_op_spec op w c Hw) as (c1 & w1 & E1 & H1 & T1 & S1).
    destruct (IH w1 c1 H1) as (w' & c' & E & H' & T' & S' & J).
    { rewrite T1. destruct op; exact Hp. }
    exists w', c'. split; [cbn [run_ops map]; unfold bind; now rewrite E1, E|]. split; [exact H'|].
    split; [cbn [fold_left]; now rewrite T', T1|]. split; [|exact J].
    destruct S1 as [F1 O1], S' as [F2 O2]. split; [congruence|]. intros d q Hd He. now rewrite O2, O1.
Qed.
End Block.

(** ** A board *)

Definition demo_fstab : string :=
  "# block_type line: format, data, misc and environment partitions" ++ String LF
  ("block_type mtd_format data misc env" ++ String LF
  ("/dev/mtd1: " ++ quote ++ "misc" ++ quote ++ " raw" ++ String LF
  ("/dev/mtd2: " ++ quote ++ "env" ++ quote ++ " raw" ++ String LF
  ("/dev/mtd3: " ++ quote ++ "system" ++ quote ++ " raw" ++ String LF
  ("/dev/mtd4: " ++ quote ++ "data" ++ quote ++ " ubifs /data" ++ String LF "")))))%string.

(** Partitions of ten blocks of two pages of 64 bytes; the first block is bad. *)
Definition board_info : mtd_info_t := mk_mtd 1280 128 64.

Definition board_bad (b : Z) : bool := b =? 0.

Definition board_geometry : geometry board_info.
Proof. refine (Build_geometry board_info 6 7 10 _ _ _ _ _ _ _); cbn; lia. Defined.

Definition board_file (f : string) : option string :=
  if String.eqb f YODABASE_FSTAB then Some demo_fstab else None.

Definition board_os (image : string -> option (list Z)) : OtaEnv (list flash_op) :=
  demo_env board_info board_bad board_file image.

Lemma demo_board image : @MtdBoard _ (board_os image) "/dev/mtd1" "/dev/mtd2".
Proof.
  split.
  - intros w. eexists. split; [reflexivity|discriminate].
  - exists "misc". split; [discriminate|]. intros w. split; reflexivity.
  - exists "env". split; [discriminate|]. intros w. split; reflexivity.
  - reflexivity.
  - discriminate.
Defined.

#[local] Instance demo_os : OtaEnv (list flash_op) := board_os (fun _ => None).

#[local] Instance demo_os_board : MtdBoard (list flash_op) "/dev/mtd1" "/dev/mtd2" := demo_board _.

#[local] Instance demo_os_flash dev : WorkingFlash dev board_info board_bad (demo_page board_info) :=
  demo_working board_info board_bad _ _ dev board_geometry.

Definition demo_block : oworld (list flash_op) := mk_oworld [] [] 0 [].

Lemma demo_block_holds :
  misc_holds "/dev/mtd1" board_info board_bad (demo_page board_info) demo_block zero_cmd.
Proof. split; [exact zero_cmd_ok|]. split; [vm_compute; lia|vm_compute; reflexivity]. Qed.

Lemma block_machine_witness :
  exists w' c', run_ops [RecoveryEnd; Flashed FLASHED_PART_B; UpgradeStatus BOOTSTATE_RES_OK] demo_block
      = Ret [0; 0; 0] w' /\
    misc_holds "/dev/mtd1" board_info board_bad (demo_page board_info) w' c' /\
    text_of c' = mk_text "" "" "recovery_ok" "recovery_partition_b" "recoverya_end" "".
Proof.
  destruct (block_machine "/dev/mtd1" "/dev/mtd2" board_info board_info board_bad board_bad (demo_page board_info)
    [RecoveryEnd; Flashed FLASHED_PART_B; UpgradeStatus BOOTSTATE_RES_OK] demo_block zero_cmd demo_block_holds
    ltac:(vm_compute; lia)) as (w' & c' & E & H & T & _).
  exists w', c'. split; [exact E|]. split; [exact H|]. rewrite T. vm_compute. reflexivity.
Defined.
