(* ===== verification/Mount.v ===== *)
(** * Mounting and flushing partitions

    [flush_data], [mount_data], [mount_partitions] and [rawflash_format_userdata] of
    [framework/libs/ota/recovery/recovery.c], [flush_data_part] and [ubi_data_mount]
    of [unpack.c], and [vold_manager.c], which mounts everything at boot.  What they
    do to the system are commands given to the shell; a command of a 2048-byte
    array always fits, its pieces being fields of at most 255, 63, 63 and 127
    characters. *)

From Stdlib Require Import Ascii String ZArith List Bool Lia.
From S2P Require Import Prelude CString CMonad Nand Bytes OtaPackage Fstab BootCmd.
Import ListNotations.
Open Scope list_scope.
Open Scope string_scope.
Open Scope Z_scope.

(** The delimiters [",\n"]. *)
Definition comma_lf (c : ascii) : bool := Ascii.eqb c ","%char || Ascii.eqb c LF.

Definition DATA_FLUSH_PART_OFFSET : Z := 0.

Section Mount.
Context {X : Type} `{!OtaEnv X}.
Local Notation W := (oworld X).

Definition ubiattach (mtd_num : Z) : M W Z := system ("ubiattach /dev/ubi_ctrl -m " ++ itoa mtd_num).

(** Attaches a partition; it is formatted first when no UBI device has appeared.
    The number of the device. *)
Definition attach_or_format (mtd_num : Z) : M W Z :=
  ubi_num <- get_max_ubinum ;;
  ubiattach mtd_num ;;
  now <- get_max_ubinum ;;
  if ubi_num + 1 =? now then ret (ubi_num + 1)
  else
    system ("ubiformat /dev/mtd" ++ itoa mtd_num ++ " -y") ;;
    ubiattach mtd_num ;;
    get_max_ubinum.

(** The branch of the volume format: attaches the device of the volume if it is the
    next one.  The volume, or the result to return. *)
Definition attach_volume (point : string) : M W (Z + string) :=
  if String.eqb point "" then ret (inl 0)
  else
    match tokens comma_nl point with
    | p0 :: p1 :: _ =>
        ubi_dev <- store 32 p1 ;;
        ubi_num <- get_max_ubinum ;;
        let dev_ubinum := get_dev_ubinum ubi_dev in
        if dev_ubinum <? 0 then ret (inl (-1))
        else if ubi_num =? dev_ubinum - 1 then
          let mtd_num := get_mtd_num p0 in
          if mtd_num <? 0 then ret (inl (-1)) else ubiattach mtd_num ;; ret (inr p1)
        else if ubi_num <? dev_ubinum - 1 then ret (inl (-1))
        else ret (inr p1)
    | _ => ret (inl (-1))
    end.

(** [-1] when the command fails. *)
Definition checked (cmd : string) : M W Z :=
  r <- system cmd ;;
  ret (if r =? 0 then 0 else -1).

(** [mount] with or without options. *)
Definition mount_cmd (fs param what : string) : string :=
  if String.eqb param "" then "mount -t " ++ fs ++ " " ++ what
  else "mount -t " ++ fs ++ " -o " ++ param ++ " " ++ what.

(** ** Flushing the data partition *)

(** Empties a volume of a UBI partition, which needs [min_vol] volumes more than
    one. *)
Definition flush_ubi (p : partition_info) (min_vol : Z) (vol : string) : M W Z :=
  let mtd_num := get_mtd_num (mount_point p) in
  if mtd_num <? 0 then ret (-1)
  else
    ubiattach mtd_num ;;
    ubi_num <- get_max_ubinum ;;
    if ubi_num <? 0 then ret (-1)
    else
      ubivol_num <- get_max_ubivolnum ubi_num ;;
      if ubivol_num <? min_vol then ret (-1)
      else checked ("ubiupdatevol -t /dev/ubi" ++ itoa ubi_num ++ vol).

Definition flush_data (fstab_file : string) : M W Z :=
  '(r, data_partname) <- get_data_partname fstab_file ;;
  if negb (r =? 0) then ret r
  else
    info <- get_rawflash_partition_info data_partname ;;
    match info with
    | None => ret (-1)
    | Some p =>
        match part_format p with
        | SQUASHFS_OVERLAY_UBIFS | UBIFS_OVERLAY_UBIFS => flush_ubi p 1 "_1"
        | VOL_OVERLAY_UBIFS =>
            v <- attach_volume (mount_point p) ;;
            match v with
            | inl r => ret r
            | inr vol => checked ("ubiupdatevol -t " ++ vol)
            end
        | UBI_FS => flush_ubi p 0 "_0"
        | EXT2_FS | EXT3_FS | EXT4_FS =>
            system ("umount " ++ mount_point p) ;;
            checked ("mkfs." ++ mount_format p ++ " -F " ++ mount_point p)
        | _ => ret (-1)
        end
    end.

(** ** Mounting *)

(** The options without the two that stand for commands; [None] when none is left. *)
Definition other_options (param : string) : option string :=
  match filter (fun t => negb (String.eqb t "e2fsck") && negb (String.eqb t "resize2fs")) (tokens comma_lf param) with
  | [] => None
  | l => Some (String.concat "," l)
  end.

(** A partition of a plain file system, checked and resized on demand. *)
Definition mount_plain (p : partition_info) : M W Z :=
  let what := mount_point p ++ " " ++ mount_path p in
  let e2fsck := strstr_b (mount_param p) "e2fsck" in
  let resize := strstr_b (mount_param p) "resize2fs" in
  when e2fsck (system ("e2fsck -fy " ++ mount_point p) ;; ret tt) ;;
  when resize (system ("resize2fs " ++ mount_point p) ;; ret tt) ;;
  param <- (if e2fsck || resize then
              match other_options (mount_param p) with
              | None => ret ""
              | Some o => store 128 o
              end
            else ret (mount_param p)) ;;
  checked (mount_cmd (mount_format p) param what).

(** A UBI partition with one volume, which is made if there is none. *)
Definition mount_ubi (p : partition_info) (mtd_num : Z) : M W Z :=
  ubi_num <- attach_or_format mtd_num ;;
  if ubi_num <? 0 then ret (-1)
  else
    ubivol_num <- get_max_ubivolnum ubi_num ;;
    when (ubivol_num <? 0)
      (system ("ubimkvol /dev/ubi" ++ itoa ubi_num ++ " -N " ++ part_name p ++ " -m") ;; ret tt) ;;
    system "sync" ;;
    checked (mount_cmd "ubifs" (mount_param p) ("ubi" ++ itoa ubi_num ++ "_0 " ++ mount_path p)).

(** A UBI partition with two volumes, attached: the number of the device. *)
Definition attach_overlay (mtd_num : Z) : M W (option Z) :=
  ubi_num <- attach_or_format mtd_num ;;
  if ubi_num <? 0 then ret None
  else
    ubivol_num <- get_max_ubivolnum ubi_num ;;
    if ubivol_num <? 1 then ret None
    else system "sync" ;; ret (Some ubi_num).

Definition mount_volume (p : partition_info) : M W Z :=
  v <- attach_volume (mount_point p) ;;
  match v with
  | inl r => ret r
  | inr vol =>
      if String.eqb (mount_path p) "" then ret 0
      else checked (mount_cmd "ubifs" (mount_param p) (vol ++ " " ++ mount_path p))
  end.

(** Mounts the data partition unless its path is in the list of the mounts. *)
Definition mount_data (fstab_file : string) : M W Z :=
  '(r, data_partname) <- get_data_partname fstab_file ;;
  if negb (r =? 0) then ret r
  else
    info <- get_rawflash_partition_info data_partname ;;
    match info with
    | None => ret (-1)
    | Some p =>
        if String.eqb (mount_path p) "" then ret (-1)
        else
          r <- system "mount > /tmp/mount_info" ;;
          if negb (r =? 0) then ret r
          else
            lines <- file_lines "/tmp/mount_info" ;;
            match lines with
            | None => ret (-1)
            | Some ls =>
                if existsb (fun l => strstr_b l (mount_path p)) ls then ret 0
                else
                  match part_format p with
                  | SQUASHFS_OVERLAY_UBIFS | UBIFS_OVERLAY_UBIFS =>
                      let mtd_num := get_mtd_num (mount_point p) in
                      if mtd_num <? 0 then ret (-1)
                      else
                        u <- attach_overlay mtd_num ;;
                        match u, tokens comma_lf (mount_path p) with
                        | Some ubi_num, _ :: path1 :: _ =>
                            checked (mount_cmd "ubifs" (mount_param p)
                              ("ubi" ++ itoa ubi_num ++ ":" ++ path1 ++ " /" ++ path1))
                        | _, _ => ret (-1)
                        end
                  | UBI_FS =>
                      let mtd_num := get_mtd_num (mount_point p) in
                      if mtd_num <? 0 then ret (-1) else mount_ubi p mtd_num
                  | VOL_OVERLAY_UBIFS => mount_volume p
                  | _ => mount_plain p
                  end
            end
    end.

(** The body of the loop of [mount_partitions]: every failure goes on with the next
    partition.  [root] is the command that mounts the lower layer of an overlay. *)
Definition mount_overlay (p : partition_info) (root : Z -> string -> M W Z) : M W unit :=
  let mtd_num := get_mtd_num (mount_point p) in
  if mtd_num <? 0 then ret tt
  else
    match tokens comma_lf (mount_path p) with
    | path0 :: path1 :: _ =>
        u <- attach_overlay mtd_num ;;
        match u with
        | None => ret tt
        | Some ubi_num =>
            r <- root ubi_num path0 ;;
            if negb (r =? 0) then ret tt
            else
              checked (mount_cmd "ubifs" (mount_param p)
                ("ubi" ++ itoa ubi_num ++ ":" ++ path1 ++ " " ++ path0 ++ "/" ++ path1)) ;;
              ret tt
        end
    | _ => ret tt
    end.

Definition mount_partition (p : partition_info) : M W unit :=
  if String.eqb (part_name p) "" then ret tt
  else
    match part_format p with
    | RAW_FS => ret tt
    | UBI_FS =>
        let mtd_num := get_mtd_num (mount_point p) in
        if (mtd_num <? 0) || String.eqb (mount_path p) "" then ret tt
        else mount_ubi p mtd_num ;; ret tt
    | SQUASHFS_OVERLAY_UBIFS =>
        mount_overlay p (fun n path0 =>
          system ("ubiblock --create /dev/ubi" ++ itoa n ++ "_0") ;;
          checked ("mount -t squashfs -o ro /dev/ubiblock" ++ itoa n ++ "_0 " ++ path0))
    | UBIFS_OVERLAY_UBIFS =>
        mount_overlay p (fun n path0 => checked ("mount -t ubifs -o rw /dev/ubi" ++ itoa n ++ "_0 " ++ path0))
    | VOL_OVERLAY_UBIFS => mount_volume p ;; ret tt
    | _ =>
        if String.eqb (mount_point p) "" || String.eqb (mount_format p) "" || String.eqb (mount_path p) ""
        then ret tt else mount_plain p ;; ret tt
    end.

Definition mount_partitions (part_tab : list partition_info) : M W Z :=
  match part_tab with
  | [] => ret (-1)
  | _ => for_each part_tab mount_partition ;; ret 0
  end.

(** [main] of [vold_manager.c]. *)
Definition vold_main : M W Z :=
  fstab_type <- get_upgrade_partition_type YODABASE_FSTAB ;;
  if fstab_type <? 0 then ret (-1)
  else
    tab <- get_partitions_info MAX_PARTITIONS_NUM YODABASE_FSTAB ;;
    mount_partitions (match tab with Some l => l | None => [] end).

(** ** The older entry points *)

(** The commands are cut at 255 characters. *)
Definition rawflash_format_userdata : M W Z :=
  '(r, data_partname) <- get_data_partname YODABASE_FSTAB ;;
  if (r <? 0) || String.eqb data_partname "" then ret (-1)
  else
    info <- get_rawflash_partition_info data_partname ;;
    match info with
    | None => ret (-1)
    | Some p =>
        match part_format p with
        | EXT2_FS =>
            system (substring 0 255 ("umount " ++ mount_point p)) ;;
            system (substring 0 255 ("mkfs.ext2 -F " ++ mount_point p))
        | _ => ret r
        end
    end.

Definition flush_data_part : M W Z :=
  ptype <- get_upgrade_partition_type YODABASE_FSTAB ;;
  if ptype =? UBI_OVERLAY_FORMAT then
    system "ubiattach /dev/ubi_ctrl -m 5" ;;
    system "ubiupdatevol -t /dev/ubi0_1" ;;
    ret 0
  else if ptype =? RAW_FORMAT then
    r <- rawflash_format_userdata ;;
    ret (if r <? 0 then r else 0)
  else
    '(r, data_partname) <- get_data_partname YODABASE_FSTAB ;;
    if (r <? 0) || String.eqb data_partname "" then ret (-1)
    else
      '(r, data_device) <- get_mtd_name data_partname 32 YODABASE_FSTAB ;;
      if r <? 0 then ret r
      else nand_erase data_device DATA_FLUSH_PART_OFFSET ;; ret 0.

Definition ubi_data_mount : M W Z :=
  system "ubiattach /dev/ubi_ctrl -m 5" ;;
  r <- tell (os_mount "ubi0:data" "/data" "ubifs") ;;
  if r <? 0 then set_upgrade_statue BOOTSTATE_RES_ERROR ;; ret r
  else ret r.
End Mount.
