(* ===== verification/Unpack.v ===== *)
(** * Installing an update image

    [framework/libs/ota/unpack.c], built without [OTA_AUTH], and the recovery program
    [ota_unpack.c].  An open image is its cells: a cell that is no byte stands for
    one that cannot be read.  The positions of the headers are below 2 GiB, where
    [lseek] succeeds.  [calc_sha1sum] writes its text, 48 characters and the NUL, to
    [sha1sum[48]]: how much may be written there is a parameter, [sum_room]. *)

From Stdlib Require Import Ascii String ZArith List Bool Lia.
From S2P Require Import Prelude CString CMonad Fips180 Sha1 Nand Bytes OtaPackage Fstab BootCmd Mount.
Import ListNotations.
Open Scope list_scope.
Open Scope string_scope.
Open Scope Z_scope.

Definition MAX_BIN_SUM : Z := 12.
Definition MAX_BIN_SIZE : Z := 128 * 1024 * 1024.
Definition BIN_UBOOT : string := "uboot".
Definition BIN_RECOVERY : string := "recovery".
Definition UBOOT_A : string := "uboot_a".
Definition UBOOT_B : string := "uboot_b".
Definition RECOVERY_A : string := "recovery_a".
Definition RECOVERY_B : string := "recovery_b".

(** ** Headers *)

(** The [n] cells at [off]. *)
Definition img_read (img : list Z) (off n : Z) : list Z :=
  firstn (Z.to_nat (Z.min n 0x7ffff000)) (skipn (Z.to_nat off) img).

(** The cells before the first that cannot be read. *)
Fixpoint readable (l : list Z) : list Z :=
  match l with
  | c :: l' => if (0 <=? c) && (c <? 256) then c :: readable l' else []
  | [] => []
  end.

(** [lseek] to [off] and [read] of [n] bytes; [None] is [-1]: the first one cannot
    be read. *)
Definition sys_read (img : list Z) (off n : Z) : option (list Z) :=
  let d := img_read img off n in
  match d, readable d with
  | _ :: _, [] => None
  | _, r => Some r
  end.

Definition get_file_head (img : list Z) : Z * file_head :=
  match sys_read img 0 sizeof_file_head with
  | None => (-2, file_head_of [])
  | Some d =>
      let head := file_head_of d in
      if negb (Z.of_nat (length d) =? sizeof_file_head) then (-2, head)
      else if (MAX_BIN_SUM <? sum head) || (MAX_BIN_SIZE <? file_size head) then (-3, head)
      else (0, head)
  end.

(** [for (i = 0; i < head->sum; i++)] from a position; [None] is the short read.  The
    [-1] of a failed one is compared as a [size_t] and passes: the header stays as
    [calloc] made it, and the position where it was. *)
Fixpoint bin_head_loop (n : nat) (img : list Z) (pos : Z) : option (list bin_head) :=
  match n with
  | O => Some []
  | S n' =>
      match sys_read img pos sizeof_bin_head with
      | None => let? rest := bin_head_loop n' img pos in Some (zero_bin :: rest)
      | Some d =>
          if Z.of_nat (length d) <? sizeof_bin_head then None
          else
            let? rest := bin_head_loop n' img (pos + sizeof_bin_head) in
            Some (bin_head_of d :: rest)
      end
  end%list.

Definition get_bin_head (img : list Z) (head : file_head) : Z * list bin_head :=
  match bin_head_loop (Z.to_nat (sum head)) img sizeof_file_head with
  | None => (-3, [])
  | Some bins => (0, bins)
  end.

(** ** Differential packages *)

(** Drops leading spaces and cuts at the end of the line. *)
Fixpoint left_trim (s : string) : string :=
  match s with
  | String c s' => if Ascii.eqb c SPC then left_trim s' else s
  | EmptyString => EmptyString
  end.

Definition string_left_space_trim_oneline (s : string) : string :=
  let t := left_trim s in
  match strchr t LF with Some rest => before t rest | None => t end.

(** The bytes that may be written from [sha1sum] on without reaching another object:
    48 as the array is declared, more when the compiler leaves some behind it. *)
Class SumRoom := sum_room : Z.

Section Unpack.
Context {X : Type} `{!OtaEnv X} {SR : SumRoom} {UL : ULong} (junk : sha1_context).
Local Notation W := (oworld X).

(** [calc_sha1sum(buf, size, sha1sum)]: the text and its NUL. *)
Definition sum_of (buf : list Z) (size : Z) : M W string :=
  match calc_sha1sum junk buf size with
  | Some t => if sum_room <? Z.of_nat (String.length t) + 1 then stop BufferOverflow else ret t
  | None => stop OutOfBounds
  end.

(** [strncmp(sha1sum, bin->bin_sha1sum, sizeof(sha1sum)) == 0] *)
Definition sum_matches (text : string) (b : bin_head) : bool := strncmp_eq 48 text (cstr (bin_sha1sum b)).

(** The bytes of a part, or the error: memory, or a short read. *)
Definition read_part (img : list Z) (b : bin_head) (extra : Z) : M W (Z + list Z) :=
  ok <- tell (os_malloc (bin_size b + extra)) ;;
  if negb ok then ret (inl (-1))
  else
    ret (match sys_read img (start_position b) (bin_size b) with
         | Some buf => if Z.of_nat (length buf) =? bin_size b then inr buf else inl (-2)
         | None => inl (-2)
         end).

Definition rokid_check_diff_version (img : list Z) (b : bin_head) (cmd : boot_cmd) : M W Z :=
  r <- read_part img b 1 ;;
  match r with
  | inl _ => ret (-1)
  | inr buf =>
      text <- sum_of buf (bin_size b) ;;
      if negb (sum_matches text b) then ret (-1)
      else if negb (strstr_b (cstr buf) "TYPE=differ") then ret (-1)
      else
        match strstr (cstr buf) "BASE_VERSION=" with
        | None => ret (-1)
        | Some v =>
            let version := string_left_space_trim_oneline (advance 13 v) in
            ret (if String.eqb (cstr (BootCmd.version cmd)) version then 0 else -1)
        end
  end.

(** [while((de = readdir(dir)))] of [scan_dir_install]: the last result of
    [system], the packages and the installed ones. *)
Fixpoint install_loop (names : list string) (dirname : string) (r ipk_sum ipk_ok : Z) : M W (Z * Z * Z) :=
  match names with
  | [] => ret (r, ipk_sum, ipk_ok)
  | d_name :: rest =>
      if strstr_b d_name ".ipk" then
        r <- system ("opkg install -d ota " ++ dirname ++ "/" ++ d_name) ;;
        install_loop rest dirname r (ipk_sum + 1) (if r =? 0 then ipk_ok + 1 else ipk_ok)
      else install_loop rest dirname r ipk_sum ipk_ok
  end.

Definition scan_dir_install (dirname : string) : M W Z :=
  ok1 <- tell (os_malloc 1024) ;;
  if negb ok1 then ret (-1)
  else
    ok2 <- tell (os_malloc 2048) ;;
    dir <- ask (os_dir dirname) ;;
    match ok2, dir with
    | true, Some names =>
        '(r, ipk_sum, ipk_ok) <- install_loop names dirname (-1) 0 0 ;;
        ret (if r =? 0 then ipk_ok - ipk_sum else r)
    | _, _ => ret (-1)
    end.

(** Attaches the UBI device of [diff_pack_dev], if it is the next one; the device
    of the partition is [point]. *)
Definition attach_ubi (b : bin_head) (point : string) : M W Z :=
  dev <- store 32 (cstr (diff_pack_dev b)) ;;
  ubi_num <- get_max_ubinum ;;
  let dev_ubinum := get_dev_ubinum dev in
  if dev_ubinum <? 0 then ret (-1)
  else if ubi_num =? dev_ubinum - 1 then
    let mtd_num := get_mtd_num point in
    if mtd_num <? 0 then ret (-1)
    else system ("ubiattach /dev/ubi_ctrl -m " ++ itoa mtd_num) ;; ret 0
  else if ubi_num <? dev_ubinum - 1 then ret (-1)
  else ret 0.

(** The table entry is used without a test: a missing one leaves [part_info]
    uninitialised. *)
Definition diff_pack_install (b : bin_head) (buff : list Z) : M W Z :=
  info <- get_rawflash_partition_info (cstr (sub_type b)) ;;
  match info with
  | None => stop UninitRead
  | Some p =>
      let ubi_mount := "mount -t ubifs -o rw " ++ cstr (diff_pack_dev b) ++ " /mnt" in
      prepared <-
        (match part_format p with
         | RAW_FS | SQUASH_FS | SQUASHFS_OVERLAY_UBIFS | UNKNOWN_FS => ret None
         | UBIFS_OVERLAY_UBIFS | UBI_FS =>
             r <- attach_ubi b (mount_point p) ;;
             ret (if r <? 0 then None else Some ubi_mount)
         | VOL_OVERLAY_UBIFS =>
             match tokens comma_nl (mount_point p) with
             | p0 :: _ :: _ =>
                 r <- attach_ubi b p0 ;;
                 ret (if r <? 0 then None else Some ubi_mount)
             | _ => ret None
             end
         | _ => ret (Some ("mount -t " ++ mount_format p ++ " -o rw " ++ cstr (diff_pack_dev b) ++ " /mnt"))
         end) ;;
      match prepared with
      | None => ret (-1)
      | Some mount =>
          system mount ;;
          ok <- open_dev "/tmp/diff.tar.gz" ;;
          if negb ok then ret (-2)
          else
            n <- write_dev "/tmp/diff.tar.gz" 0 buff ;;
            close_dev ;;
            if negb (n =? bin_size b) then ret (-2)
            else
              system "cd /tmp && tar -zxvf  /tmp/diff.tar.gz" ;;
              scan_dir_install "/tmp/ota"
      end
  end.

(** ** Flashing the parts *)

(** On a board with two copies of the boot loader and of the recovery system the
    copy that is not in use is written: the name of the partition, and which of the
    two it is. *)
Definition ab_target (cmd : boot_cmd) (st : list Z) : M W (list Z * bool * bool) :=
  let used_b := starts (recovery_partition cmd) RECOVERY_PART_B in
  let uboot := if used_b then UBOOT_A else UBOOT_B in
  let recovery := if used_b then RECOVERY_A else RECOVERY_B in
  '(st, u) <- (if starts st BIN_UBOOT then
                 a <- put_str st uboot (String.length uboot) ;;
                 erase_uboot_env_part ;;
                 ret (a, true)
               else ret (st, false)) ;;
  if starts st BIN_RECOVERY then
    a <- put_str st recovery (String.length recovery) ;;
    ret (a, u, true)
  else ret (st, u, false).

(** The two ways a [continue] or the end of an iteration, and a [return], leave. *)
Inductive part_result := NextPart | Return (r : Z).

(** A part written to the MTD partition named by [st]. *)
Definition flash_mtd (st : list Z) (b : bin_head) (buf : list Z) (diff : bool) : M W part_result :=
  '(r, dev_name) <- get_mtd_name (cstr st) 256 YODABASE_FSTAB ;;
  if r <? 0 then ret NextPart
  else if diff && negb (String.eqb (cstr (diff_pack_dev b)) "") then
    diff_pack_install b buf ;; ret NextPart
  else
    nand_erase dev_name 0 ;;
    nand_write dev_name 0 buf (bin_size b) ;;
    ret NextPart.

(** [while(len < bin_size)]: blocks of 2048 bytes, the last one read past the end
    of the buffer unless the size is a multiple. *)
Fixpoint raw_dev_loop (fuel : nat) (dev : string) (buf : list Z) (len size : Z) : M W unit :=
  match fuel with
  | O => stop Hang
  | S fuel' =>
      if len <? size then
        data <- bytes_at buf (Z.to_nat len) 2048 ;;
        write_dev dev len data ;;
        raw_dev_loop fuel' dev buf (len + 2048) size
      else ret tt
  end.

Definition flash_ubi (st : list Z) (b : bin_head) (buf : list Z) (diff : bool) : M W part_result :=
  let ubi := cstr (ubi_dev b) in
  let raw := cstr (raw_dev b) in
  if negb (String.eqb ubi "") then
    if diff && negb (String.eqb (cstr (diff_pack_dev b)) "") then
      diff_pack_install b buf ;; ret NextPart
    else
      ok <- open_dev ubi ;;
      if negb ok then ret NextPart
      else write_dev ubi 0 buf ;; close_dev ;; ret NextPart
  else if negb (String.eqb raw "") then
    ok <- open_dev raw ;;
    if negb ok then stop NullDeref
    else raw_dev_loop (S (Z.to_nat (bin_size b))) raw buf 0 (bin_size b) ;; close_dev ;; ret NextPart
  else
    '(r, dev_name) <- get_mtd_name (cstr st) 256 YODABASE_FSTAB ;;
    if r <? 0 then ret NextPart
    else
      nand_erase dev_name 0 ;;
      nand_write dev_name 0 buf (bin_size b) ;;
      ret NextPart.

(** The size is compared as unsigned: an unknown one (-1) passes. *)
Definition flash_raw (st : list Z) (b : bin_head) (buf : list Z) (diff : bool) : M W part_result :=
  '(r, dev_name) <- rawflash_get_name (cstr st) 256 ;;
  if r <? 0 then ret NextPart
  else
    size <- get_partition_size dev_name ;;
    if size mod 2 ^ 64 <? bin_size b then ret (Return (-1))
    else if diff && negb (String.eqb (cstr (diff_pack_dev b)) "") then
      diff_pack_install b buf ;; ret NextPart
    else
      r <- rawflash_write dev_name 0 buf (bin_size b) ;;
      ret (if r =? 0 then NextPart else Return (-1)).

(** One iteration: the part is flashed only when its sum matches.  The flags say
    whether a boot loader and a recovery system were written. *)
Definition update_part (img : list Z) (ptype : Z) (cmd : boot_cmd) (diff : bool) (b : bin_head)
  : M W (part_result * bool * bool) :=
  r <- read_part img b 0 ;;
  match r with
  | inl e => ret (Return e, false, false)
  | inr buf =>
      text <- sum_of buf (bin_size b) ;;
      if negb (sum_matches text b) then ret (NextPart, false, false)
      else
        '(st, u, v) <- (if ptype =? MTD_AB_FORMAT then ab_target cmd (sub_type b)
                        else ret (sub_type b, false, false)) ;;
        res <- (if ptype =? UBI_OVERLAY_FORMAT then flash_ubi st b buf diff
                else if (ptype =? MTD_AB_FORMAT) || (ptype =? MTD_FORMAT) then flash_mtd st b buf diff
                else if ptype =? RAW_FORMAT then flash_raw st b buf diff
                else ret NextPart) ;;
        ret (res, u, v)
  end.

(** The [for] over the parts: the flags, or the result of a [return]. *)
Fixpoint update_parts (img : list Z) (ptype : Z) (cmd : boot_cmd) (diff : bool) (bins : list bin_head)
    (u v : bool) : M W (Z + bool * bool) :=
  match bins with
  | [] => ret (inr (u, v))
  | b :: rest =>
      '(res, u', v') <- update_part img ptype cmd diff b ;;
      match res with
      | Return r => ret (inl r)
      | NextPart => update_parts img ptype cmd diff rest (u || u') (v || v')
      end
  end.

Definition parse_update_bin (img : list Z) (bins : list bin_head) : M W Z :=
  '(r, cmd) <- get_recovery_cmd_status zero_cmd ;;
  if negb (r =? 0) then ret (-1)
  else
    ptype <- get_upgrade_partition_type YODABASE_FSTAB ;;
    match bins with
    | [] => stop NullDeref
    | b0 :: _ =>
        let diff := String.eqb (cstr (sub_type b0)) "version" in
        chk <- (if diff then rokid_check_diff_version img b0 cmd else ret 0) ;;
        if negb (chk =? 0) then ret (-1)
        else
          res <- update_parts img ptype cmd diff bins false false ;;
          match res with
          | inl r => ret r
          | inr (u, v) =>
              '(r, cmd) <- set_recovery_cmd_status cmd ;;
              if negb (r =? 0) then ret (-1)
              else
                when (u && v)
                  (set_flashed_partition
                     (if starts (recovery_partition cmd) RECOVERY_PART_B then FLASHED_PART_A else FLASHED_PART_B) ;;
                   ret tt) ;;
                ret 0
          end
    end.

(** ** The recovery program *)

(** [for (i = 0; i < file_head->sum; i++)]: a header is allocated per part. *)
Fixpoint alloc_heads (n : nat) : M W bool :=
  match n with
  | O => ret true
  | S n' =>
      ok <- tell (os_malloc sizeof_bin_head) ;;
      if negb ok then ret false else alloc_heads n'
  end.

(** How a branch of [main] goes on: it returns at once, jumps to [reboot], jumps to
    the labels that release the headers and close the image, or reaches the end of
    the update, with an image open or not. *)
Inductive ota_exit := ReturnNow | GotoReboot | GotoFree | FallThrough (opened : bool).

Definition upgrade_failed (e : ota_exit) : M W ota_exit :=
  set_upgrade_statue BOOTSTATE_RES_ERROR ;; ret e.

(** [open(file_name, O_RDONLY)] *)
Definition open_image (file_name : string) : M W (option (list Z)) :=
  img <- ask (os_image file_name) ;;
  (if img then modify (add_fds 1) else ret tt) ;;
  ret img.

(** The branch of [main] of [ota_unpack.c] for an update, after the data partition is
    mounted. *)
Definition apply_image (file_name : string) : M W ota_exit :=
  img <- open_image file_name ;;
  match img with
  | None => upgrade_failed GotoReboot
  | Some bytes =>
      ok <- tell (os_malloc sizeof_file_head) ;;
      if negb ok then ret ReturnNow
      else
        let '(r, head) := get_file_head bytes in
        if r <? 0 then upgrade_failed GotoFree
        else
          ok <- alloc_heads (Z.to_nat (sum head)) ;;
          if negb ok then upgrade_failed GotoFree
          else
            let '(r, bins) := get_bin_head bytes head in
            if r <? 0 then upgrade_failed GotoFree
            else
              r <- parse_update_bin bytes bins ;;
              if r <? 0 then upgrade_failed GotoFree else ret (FallThrough true)
  end.

(** The end of [main]: the label [reboot]. *)
Definition reboot : M W Z := system "busybox reboot" ;; ret 0.

(** What the choice asks for. *)
Definition ota_choice (choice : Z) (file_name : string) : M W ota_exit :=
  if choice =? DATA_FLUSHED then flush_data YODABASE_FSTAB ;; ret (FallThrough false)
  else if choice =? OTA_UPDATE then mount_data YODABASE_FSTAB ;; apply_image file_name
  else ret (FallThrough false).

(** From there to the end.  Without an image [close] is called with 0, the standard
    input, which is none of the descriptors counted. *)
Definition ota_finish (e : ota_exit) : M W Z :=
  match e with
  | ReturnNow => ret (-1)
  | GotoReboot => reboot
  | GotoFree => close_dev ;; reboot
  | FallThrough opened =>
      set_upgrade_statue BOOTSTATE_RES_OK ;;
      system "echo 1 > /sys/ota_light/ota_end" ;;
      system "echo 0 > /sys/devices/platform/led-stage/ota_ctl" ;;
      when opened close_dev ;;
      reboot
  end.

Definition ota_main : M W Z :=
  '(choice, file_name) <- judge_need_upgrade ;;
  if choice <? 0 then
    set_upgrade_statue BOOTSTATE_RES_ERROR ;; set_recovery_end ;; reboot
  else
    system "echo 1 > /sys/ota_light/ota_start" ;;
    system "echo 1 > /sys/devices/platform/led-stage/ota_ctl" ;;
    set_recovery_end ;;
    res <- ota_choice choice file_name ;;
    ota_finish res.
End Unpack.
