(* ===== verification/UnpackProofs.v ===== *)
(** * Building, reading and installing an image: correctness

    [rokid_package.c] writes what [unpack.c] reads: the headers of every part, and
    at the position each header names the bytes of its file, with a sum that the
    check accepts.

    On a board with one copy of each partition on MTD flash: what [apply_image]
    leaves in the partitions and in the command block, part by part. *)

From Stdlib Require Import Ascii String ZArith List Bool Lia.
From S2P Require Import Prelude CString Bytes CMonad Fips180 Sha1 Sha1Proofs Nand NandProofs OtaPackage Fstab BootCmd BootProofs Unpack.
Import ListNotations.
Open Scope list_scope.
Open Scope string_scope.
Open Scope Z_scope.

(** ** Lines keep the headers well-formed *)

Lemma strncpy_chars (k : nat) (a b : list Z) (s : string) (n : nat) :
  chars k a -> strncpy_arr a s n = Some b -> chars k b.
Proof.
  intros [Hl Hb]. unfold strncpy_arr. destruct (Nat.leb_spec n (length a)) as [Hn|]; [|discriminate].
  intros E. injection E as <-. split.
  - rewrite length_app, length_firstn, length_app, length_skipn, repeat_length. lia.
  - apply Forall_app. split; [|auto using Forall_skipn]. apply Forall_firstn, Forall_app.
    split; [apply str_bytes_byte|]. apply Forall_forall. intros x Hx. apply repeat_spec in Hx. subst. split; lia.
Qed.

Lemma number_in_u64 (a : list Z) (v : Z) : number_in a = Some v -> u64 v.
Proof.
  unfold number_in. destruct (existsb _ _); [|discriminate]. intros E. injection E as <-.
  apply Z.mod_pos_bound. lia.
Qed.

Lemma set_key_ok (line value : string) (s s' : line_state) :
  bin_head_ok (l_bin s) -> set_key line value s = Some s' -> bin_head_ok (l_bin s').
Proof.
  unfold set_key. intros H E. unfold bin_head_ok in *.
  repeat match goal with
  | E : (if ?c then _ else _) = Some _ |- _ => destruct c
  | E : match strncpy_arr ?a ?v ?n with _ => _ end = Some _ |- _ =>
      let N := fresh "N" in destruct (strncpy_arr a v n) eqn:N; [|discriminate]
  | E : match number_in ?a with _ => _ end = Some _ |- _ =>
      let N := fresh "N" in destruct (number_in a) eqn:N; [|discriminate]; apply number_in_u64 in N
  | E : Some _ = Some _ |- _ => injection E as <-
  end; cbn -[chars u64] in *; intuition (eauto using strncpy_chars).
Qed.

Lemma parse_loop_ok (fuel : nat) : forall line s r s',
  bin_head_ok (l_bin s) -> parse_loop fuel line s = Some (r, s') -> bin_head_ok (l_bin s').
Proof.
  induction fuel as [|fuel IH]; intros line s r s' H E; [discriminate|]. cbn [parse_loop] in E.
  destruct (strstr line quote) as [pos|]; [|now injection E as _ <-].
  destruct (strstr (advance 1 pos) quote) as [end_|]; [|now injection E as _ <-].
  destruct (set_key _ _ s) as [s1|] eqn:K; [|discriminate]. eapply IH; [|exact E]. eapply set_key_ok; eassumption.
Qed.

Lemma zeros_chars (n : nat) : chars n (repeat 0 n).
Proof.
  split; [apply repeat_length|]. apply Forall_forall. intros x Hx. apply repeat_spec in Hx. subst. split; lia.
Qed.

Lemma zero_bin_ok : bin_head_ok zero_bin.
Proof. unfold bin_head_ok, zero_bin, u64. cbn -[repeat chars]. intuition (lia || apply zeros_chars). Qed.

Lemma parse_line_ok (line : string) (r : Z) (b : bin_head) :
  parse_line_to_bin line zero_bin = Some (r, b) -> bin_head_ok b.
Proof.
  unfold parse_line_to_bin. destruct (parse_loop _ _ _) as [[r' s]|] eqn:E; [|discriminate].
  intros H. injection H as _ <-. eapply parse_loop_ok; [|exact E]. apply zero_bin_ok.
Qed.

Section Package.
Context {UL : ULong} (e : build_env) (junk : sha1_context).

(** ** The header of a part *)

Definition legal (line : string) : bool := negb (judge_line_islegal line <? 0).

(** The three steps of [main] for a line all report success. *)
Definition line_ok (line : string) : bool :=
  match parse_line_to_bin line zero_bin with
  | None => false
  | Some (r1, b1) =>
      let '(r2, b2) := get_file_size e b1 in
      match calc_file_sha1sum e junk b2 with
      | None => false
      | Some (r3, _) => (r1 =? 0) && (r2 =? 0) && (r3 =? 0)
      end
  end.

(** The header made for a line, before it is placed. *)
Definition made (i : Z) (b1 : bin_head) (content : list Z) (text : string) : bin_head :=
  with_id i (store_sum text (with_size (Z.of_nat (length content)) b1)).

(** What a line becomes: its fields, its file, and the sum of the file. *)
Definition built (line : string) (b : bin_head) : Prop :=
  exists i b1 content text,
    parse_line_to_bin line zero_bin = Some (0, b1) /\ files e (cstr (file_name b1)) = Some content /\
    Z.of_nat (length content) <= 0x7ffff000 /\ 0 <= i < 36 /\
    calc_sha1sum junk content (Z.of_nat (length content)) = Some text /\ b = made i b1 content text.

Lemma file_read_all (content : list Z) :
  Z.of_nat (length (file_read content (Z.of_nat (length content)))) = Z.of_nat (length content) ->
  Z.of_nat (length content) <= 0x7ffff000 /\ file_read content (Z.of_nat (length content)) = content.
Proof.
  unfold file_read. rewrite length_firstn. intros H. split; [lia|]. apply firstn_all2. lia.
Qed.

Lemma make_bin_built (i : Z) (line : string) (b : bin_head) :
  0 <= i < 36 -> line_ok line = true -> make_bin e junk i line = Some b -> built line b.
Proof.
  intros Hi. unfold line_ok, make_bin. destruct (parse_line_to_bin line zero_bin) as [[r1 b1]|] eqn:P; [|discriminate].
  unfold get_file_size. destruct (files e (cstr (file_name b1))) as [content|] eqn:F.
  2: { destruct (calc_file_sha1sum _ _ _) as [[]|]; rewrite ?andb_false_r; discriminate. }
  unfold calc_file_sha1sum. cbn [bin_size with_size file_name]. rewrite F.
  destruct (alloc e _); cbn [negb]; [|rewrite !andb_false_r; discriminate].
  destruct (Z.eqb_spec (Z.of_nat (length (file_read content (Z.of_nat (length content))))) (Z.of_nat (length content)))
    as [L|L]; cbn [negb]; [|rewrite !andb_false_r; discriminate].
  apply file_read_all in L. destruct L as [L ->].
  destruct (calc_sha1sum junk content _) as [text|] eqn:C; [|discriminate].
  intros Hok E. injection E as <-. rewrite !andb_true_r in Hok. apply Z.eqb_eq in Hok. subst r1.
  exists i, b1, content, text. repeat split; auto; lia.
Qed.

Lemma read_config_built (lines : list string) : forall i bins,
  0 <= i -> forallb line_ok (filter legal lines) = true -> read_config e junk lines i = Some (bins, true) ->
  Forall2 built (filter legal lines) bins /\ Z.of_nat (length bins) <= 36 - Z.min i 36.
Proof.
  induction lines as [|line lines IH]; intros i bins Hi Hok E; cbn [read_config filter] in *.
  { injection E as <-. split; [constructor|cbn [length]; lia]. }
  unfold legal at 1. unfold legal at 1 in Hok. destruct (judge_line_islegal line <? 0); cbn [negb] in *.
  { now apply IH. }
  destruct (alloc e _); [|discriminate]. cbn [negb forallb] in *. apply andb_true_iff in Hok. destruct Hok as [Hl Hok].
  destruct (make_bin e junk i line) as [b|] eqn:Mk; [|discriminate].
  destruct (Z.leb_spec 36 i); [discriminate|].
  destruct (read_config e junk lines (i + 1)) as [[bs ok]|] eqn:R; [|discriminate]. injection E as <- ->.
  destruct (IH (i + 1) bs ltac:(lia) Hok R) as [F L]. split.
  - constructor; [|exact F]. eapply make_bin_built; eauto.
  - cbn [length]. lia.
Qed.

(** ** The layout of the image *)

Lemma built_ok (Hj : length (buffer junk) = 64%nat) (Hf : forall f c, files e f = Some c -> Forall byte c)
    (line : string) (b : bin_head) : built line b -> bin_head_ok b.
Proof.
  intros (i & b1 & content & text & P & F & L & Hi & C & ->). apply parse_line_ok in P.
  assert (Ht : String.length text = 48%nat).
  { rewrite calc_sha1sum_hash in C by (eauto || lia).
    match type of C with Some ?t = _ => assert (text = t) as -> by congruence end.
    rewrite string_length_app, hex_text_length. reflexivity. }
  assert (Hv : chars 64 (0 :: tl (bin_version b1))).
  { assert (H : chars 64 (bin_version b1)) by apply P. destruct H as [Hl Hb].
    destruct (bin_version b1) as [|v vs]; [discriminate|]. inversion Hb; subst.
    split; [exact Hl|]. constructor; [split; lia|assumption]. }
  unfold bin_head_ok, u64 in *. cbn -[chars u64 tl] in *. intuition (try lia).
  split; [now rewrite length_str_bytes|apply str_bytes_byte].
Qed.

Definition total (bins : list bin_head) : Z := fold_right (fun b n => bin_size b + n) 0 bins.

Lemma total_nonneg (bins : list bin_head) : Forall (fun b => 0 <= bin_size b) bins -> 0 <= total bins.
Proof. induction 1; cbn [total fold_right]; unfold total in *; lia. Qed.

Lemma img_read_at (pre data post : list Z) (n : Z) :
  Z.of_nat (length data) = n -> n <= 0x7ffff000 ->
  img_read (pre ++ data ++ post) (Z.of_nat (length pre)) n = data.
Proof.
  intros <- Hn. unfold img_read. rewrite Nat2Z.id, skipn_app, skipn_all, Nat.sub_diag. cbn [skipn app].
  rewrite Z.min_l, Nat2Z.id, firstn_app, firstn_all, Nat.sub_diag by lia. apply app_nil_r.
Qed.

Lemma readable_all (l : list Z) : Forall byte l -> readable l = l.
Proof.
  induction 1 as [|c l Hc Hl IH]; [reflexivity|]. cbn [readable]. unfold byte in Hc.
  rewrite (proj2 (Z.leb_le 0 c)), (proj2 (Z.ltb_lt c 256)) by lia. cbn [andb]. now rewrite IH.
Qed.

(** Bytes are read. *)
Lemma sys_read_all (img : list Z) (off n : Z) (d : list Z) :
  img_read img off n = d -> Forall byte d ->
  sys_read img off n = Some d.
Proof.
  intros E0 Hb. unfold sys_read. rewrite E0. pose proof (readable_all d Hb) as E. cbv zeta.
  destruct d; [reflexivity|]. now rewrite E.
Qed.

Lemma sys_read_image (img : list Z) (off n : Z) : Forall byte img -> sys_read img off n = Some (img_read img off n).
Proof. intros H. apply sys_read_all; [reflexivity|]. apply Forall_firstn, Forall_skipn, H. Qed.

(** The parts lie one after the other, each at the position of its header. *)
Lemma placed_parts (bins : list bin_head) : forall off bins' off' parts pre,
  Forall (fun b => 0 <= bin_size b) bins -> 0 <= off -> off + total bins < 2 ^ 64 ->
  place_bins off bins = (bins', off') -> read_bins e bins' = inr parts -> Z.of_nat (length pre) = off ->
  off' = off + total bins /\ Z.of_nat (length parts) = total bins /\
  Forall2 (fun b b' => exists p, 0 <= p < 2 ^ 64 /\ b' = with_start p b /\
    exists content, files e (cstr (file_name b)) = Some content /\
      img_read (pre ++ parts)%list p (bin_size b) = file_read content (bin_size b)) bins bins'.
Proof.
  induction bins as [|b bins IH]; intros off bins' off' parts pre Hs Ho Ht P R Hp.
  { injection P as <- <-. injection R as <-. cbn. repeat split; try lia. constructor. }
  apply Forall_cons_iff in Hs. destruct Hs as [Hb Hs]. cbn [place_bins total fold_right] in *.
  pose proof (total_nonneg bins Hs) as Hn. unfold total in Hn, Ht. rewrite Z.mod_small in P by lia.
  destruct (place_bins (off + bin_size b) bins) as [bs o] eqn:Pl. injection P as <- <-.
  cbn [read_bins file_name with_start bin_size] in R.
  destruct (files e (cstr (file_name b))) as [content|] eqn:F; [|discriminate].
  destruct (Z.eqb_spec (Z.of_nat (length (file_read content (bin_size b)))) (bin_size b)) as [L|L]; [|discriminate].
  cbn [negb] in R. destruct (read_bins e bs) as [err|rest] eqn:R'; [discriminate|]. injection R as <-.
  set (data := file_read content (bin_size b)) in *.
  destruct (IH (off + bin_size b) bs o rest (pre ++ data)%list Hs ltac:(lia) ltac:(unfold total; lia) Pl R'
              ltac:(rewrite length_app; lia)) as (E1 & E2 & F2).
  unfold total in E1, E2. split; [lia|]. split; [rewrite length_app; lia|].
  rewrite <- app_assoc in F2. constructor; [|exact F2].
  exists off. split; [lia|]. split; [reflexivity|]. exists content. split; [exact F|].
  rewrite <- Hp. apply img_read_at; [exact L|]. unfold data, file_read in L. rewrite length_firstn in L. lia.
Qed.

Lemma bin_head_loop_spec (bins : list bin_head) : forall pre post,
  Forall bin_head_ok bins ->
  bin_head_loop (length bins) (pre ++ flat_map bin_head_bytes bins ++ post) (Z.of_nat (length pre)) = Some bins.
Proof.
  induction bins as [|b bins IH]; intros pre post H; [reflexivity|].
  apply Forall_cons_iff in H. destruct H as [Hb H]. pose proof (bin_head_length b Hb) as Hl.
  cbn [bin_head_loop flat_map length]. unfold sizeof_bin_head. rewrite <- app_assoc.
  rewrite (sys_read_all _ _ _ (bin_head_bytes b)) by (auto using bin_head_byte; apply img_read_at; rewrite ?Hl; lia).
  rewrite Hl. change (Z.of_nat 512 <? 512) with false. cbv iota.
  specialize (IH (pre ++ bin_head_bytes b)%list post H). rewrite length_app, Hl, Nat2Z.inj_add, <- app_assoc in IH.
  change (Z.of_nat 512) with 512 in IH. now rewrite IH, bin_head_roundtrip.
Qed.

(** What the unpacker gets for a line: the fields of the line, and at the position
    of the header the bytes of the file, which pass the check. *)
Definition delivers (img : list Z) (line : string) (b : bin_head) : Prop :=
  exists b1 content text,
    parse_line_to_bin line zero_bin = Some (0, b1) /\ files e (cstr (file_name b1)) = Some content /\
    file_name b = file_name b1 /\ sub_type b = sub_type b1 /\ diff_pack_dev b = diff_pack_dev b1 /\
    ubi_dev b = ubi_dev b1 /\ raw_dev b = raw_dev b1 /\
    flash_start_position b = flash_start_position b1 /\ flash_part_size b = flash_part_size b1 /\
    bin_size b = Z.of_nat (length content) /\ img_read img (start_position b) (bin_size b) = content /\
    calc_sha1sum junk content (bin_size b) = Some text /\ sum_matches text b = true.

Lemma strncmp_eq_refl (n : nat) (s : string) : strncmp_eq n s s = true.
Proof. revert s. induction n as [|n IH]; intros [|c s]; cbn; auto. rewrite Ascii.eqb_refl. apply IH. Qed.

Lemma cstr_str_bytes (s : string) : no_nul s = true -> cstr (str_bytes s) = s.
Proof.
  induction s as [|c s IH]; intros H; [reflexivity|]. cbn in H |- *. bool_hyps.
  rewrite (proj2 (Z.eqb_neq _ _)) by assumption. rewrite chr_ord. f_equal. now apply IH.
Qed.

Lemma no_nul_app (a b : string) : no_nul (a ++ b) = no_nul a && no_nul b.
Proof. induction a as [|c a IH]; [reflexivity|]. cbn. now rewrite IH, andb_assoc. Qed.

Lemma hexdigit_nonzero (v : Z) : 0 <= v < 16 -> (ord (hexdigit v) =? 0) = false.
Proof.
  intros H. assert (In v [0; 1; 2; 3; 4; 5; 6; 7; 8; 9; 10; 11; 12; 13; 14; 15]) as Hv by (cbn [In]; lia).
  repeat destruct Hv as [<-|Hv]; try reflexivity. contradiction.
Qed.

Lemma no_nul_hex (l : list Z) : Forall byte l -> no_nul (hex_text l) = true.
Proof.
  unfold hex_text. induction 1 as [|x l Hx Hl IH]; [reflexivity|]. cbn [map].
  assert (Hp : no_nul (hexpair x) = true).
  { unfold hexpair. cbn [no_nul]. rewrite !hexdigit_nonzero; [reflexivity| |].
    - apply Z.mod_pos_bound. lia.
    - unfold byte in Hx. split; [apply Z.div_pos; lia|apply Z.div_lt_upper_bound; lia]. }
  destruct (map hexpair l) as [|y ys] eqn:E; [exact Hp|].
  change (String.concat "" (hexpair x :: y :: ys)) with (hexpair x ++ String.concat "" (y :: ys)).
  now rewrite no_nul_app, Hp, IH.
Qed.

Lemma built_delivers (Hj : length (buffer junk) = 64%nat) (Hf : forall f c, files e f = Some c -> Forall byte c)
    (img : list Z) (line : string) (b : bin_head) (p : Z) (content : list Z) :
  built line b -> files e (cstr (file_name b)) = Some content ->
  img_read img p (bin_size b) = file_read content (bin_size b) -> delivers img line (with_start p b).
Proof.
  intros (i & b1 & content' & text & P & F & L & Hi & C & ->) F' R. cbn [file_name made with_id store_sum with_strings with_size] in F'.
  rewrite F in F'. injection F' as <-. cbn [bin_size made with_id store_sum with_strings with_size] in R.
  exists b1, content', text. do 10 (split; [reflexivity || assumption|]). split.
  { cbn [start_position bin_size with_start made with_id store_sum with_strings with_size]. rewrite R.
    unfold file_read. apply firstn_all2. lia. }
  split; [exact C|]. unfold sum_matches. cbn [bin_sha1sum with_start made with_id store_sum with_strings].
  rewrite cstr_str_bytes; [apply strncmp_eq_refl|]. rewrite calc_sha1sum_hash in C by (eauto || lia).
  match type of C with Some ?t = _ => assert (text = t) as -> by congruence end.
  rewrite no_nul_app, no_nul_hex by apply sha1_bytes. reflexivity.
Qed.

Lemma with_start_ok (p : Z) (b : bin_head) : 0 <= p < 2 ^ 64 -> bin_head_ok b -> bin_head_ok (with_start p b).
Proof. unfold bin_head_ok, u64. cbn -[chars]. intuition lia. Qed.

Lemma flat_map_heads (bins : list bin_head) :
  Forall bin_head_ok bins -> Z.of_nat (length (flat_map bin_head_bytes bins)) = Z.of_nat (length bins) * 512.
Proof.
  induction 1 as [|b l Hb Hl IH]; [reflexivity|]. cbn [flat_map length].
  rewrite length_app, bin_head_length by exact Hb. lia.
Qed.

Lemma file_write_all (data : list Z) (room : Z) :
  Z.of_nat (length data) <= Z.min room 0x7ffff000 -> file_write data room = data.
Proof. intros H. apply firstn_all2. lia. Qed.

(** The first header of an image. *)
Lemma get_file_head_of (h : file_head) (rest : list Z) :
  file_head_ok h ->
  get_file_head (file_head_bytes h ++ rest) =
    (if (MAX_BIN_SUM <? sum h) || (MAX_BIN_SIZE <? file_size h) then -3 else 0, h).
Proof.
  intros Hh. unfold get_file_head, sizeof_file_head. pose proof (file_head_length h Hh) as Hl.
  pose proof (img_read_at [] (file_head_bytes h) rest 256 ltac:(lia) ltac:(lia)) as E.
  cbn [app length Z.of_nat] in E. rewrite (sys_read_all _ _ _ _ E) by auto using file_head_byte.
  rewrite Hl, file_head_roundtrip by exact Hh. change (negb (Z.of_nat 256 =? 256)) with false. cbv iota.
  now destruct (_ || _).
Qed.

Lemma total_bound (bins : list bin_head) :
  Forall (fun b => bin_size b <= 0x7ffff000) bins -> total bins <= Z.of_nat (length bins) * 0x7ffff000.
Proof. induction 1; cbn [total fold_right length]; unfold total in *; lia. Qed.

Lemma place_bins_length (bins : list bin_head) : forall off bins' off',
  place_bins off bins = (bins', off') -> length bins' = length bins.
Proof.
  induction bins as [|b bins IH]; intros off bins' off' P; cbn [place_bins] in P; [now injection P as <- _|].
  destruct (place_bins _ bins) as [bs o] eqn:E. injection P as <- _. cbn. f_equal. eauto.
Qed.

Lemma place_bins_ok (bins : list bin_head) : forall off bins' off',
  Forall bin_head_ok bins -> 0 <= off < 2 ^ 64 -> place_bins off bins = (bins', off') -> Forall bin_head_ok bins'.
Proof.
  induction bins as [|b bins IH]; intros off bins' off' H Ho P; cbn [place_bins] in P; [now injection P as <- _|].
  apply Forall_cons_iff in H. destruct H as [Hb H].
  destruct (place_bins _ bins) as [bs o] eqn:E. injection P as <- _. constructor; [now apply with_start_ok|].
  eapply IH; [exact H| |exact E]. apply Z.mod_pos_bound. lia.
Qed.

(** The size of the files of the lines. *)
Definition part_length (line : string) : Z :=
  match parse_line_to_bin line zero_bin with
  | Some (_, b) => match files e (cstr (file_name b)) with Some c => Z.of_nat (length c) | None => 0 end
  | None => 0
  end.

Definition parts_length (lines : list string) : Z := fold_right (fun l n => part_length l + n) 0 lines.

Lemma built_total (lines : list string) (bins : list bin_head) :
  Forall2 built lines bins -> total bins = parts_length lines.
Proof.
  induction 1 as [|line b lines bins Hb Hl IH]; [reflexivity|]. cbn [total parts_length fold_right].
  unfold total, parts_length in IH. rewrite IH. f_equal.
  destruct Hb as (i & b1 & content & text & P & F & _ & _ & _ & ->). unfold part_length. now rewrite P, F.
Qed.

(** With memory and at most 36 lines, every header is made. *)
Lemma make_bin_total (i : Z) (line : string) : line_ok line = true -> exists b, make_bin e junk i line = Some b.
Proof.
  unfold line_ok, make_bin. destruct (parse_line_to_bin line zero_bin) as [[r1 b1]|]; [|discriminate].
  destruct (get_file_size e b1) as [r2 b2]. destruct (calc_file_sha1sum e junk b2) as [[r3 b3]|]; [|discriminate].
  eauto.
Qed.

Lemma read_config_total (lines : list string) : forall i,
  alloc e sizeof_bin_head = true -> forallb line_ok (filter legal lines) = true ->
  i + Z.of_nat (length (filter legal lines)) <= 36 -> exists bins, read_config e junk lines i = Some (bins, true).
Proof.
  induction lines as [|line lines IH]; intros i Ha Hok Hi; cbn [read_config filter] in *; [eauto|].
  unfold legal at 1 in Hok. unfold legal at 1 in Hi. destruct (judge_line_islegal line <? 0); cbn [negb] in *; [auto|].
  rewrite Ha. cbn [negb forallb length] in *. apply andb_true_iff in Hok. destruct Hok as [Hl Hok].
  destruct (make_bin_total i line Hl) as [b ->]. rewrite (proj2 (Z.leb_gt 36 i)) by lia.
  destruct (IH (i + 1) Ha Hok ltac:(lia)) as [bs ->]. eauto.
Qed.

Lemma read_bins_total (lines : list string) (bins : list bin_head) : Forall2 built lines bins ->
  forall off, exists parts, read_bins e (fst (place_bins off bins)) = inr parts.
Proof.
  induction 1 as [|line b lines bins Hb Hl IH]; intros off; cbn [place_bins]; [now exists []|].
  destruct (IH ((off + bin_size b) mod 2 ^ 64)) as [rest R]. destruct (place_bins _ bins) as [bs o].
  destruct Hb as (i & b1 & content & text & P & F & L & _ & _ & ->).
  cbn [fst read_bins file_name with_start bin_size made with_id store_sum with_strings with_size] in *.
  rewrite F, R. unfold file_read. rewrite Z.min_l, Nat2Z.id, firstn_all, Z.eqb_refl by lia. cbn [negb]. eauto.
Qed.

(** An image with room for it: the headers, then the parts. *)
Lemma make_upgrade_bin_layout (file : file_head) (lines : list string) (bins : list bin_head) (room : Z) :
  Forall2 built lines bins -> Forall bin_head_ok bins -> (forall n, 0 <= n <= MAX_BIN_SIZE -> alloc e n = true) ->
  Z.of_nat (length bins) * 512 + total bins <= MAX_BIN_SIZE ->
  sum file = Z.of_nat (length bins) -> sum file <= MAX_BIN_SUM -> chars 236 (f_reserved file) ->
  out_room e = Some room -> MAX_BIN_SIZE + sizeof_file_head <= room ->
  exists off parts f bins' head img, make_upgrade_bin e file bins = (0, f, bins', Some img) /\
    place_bins (256 + Z.of_nat (length bins) * 512) bins = (bins', off) /\
    read_bins e bins' = inr parts /\ img = (file_head_bytes head ++ flat_map bin_head_bytes bins' ++ parts)%list /\
    sum head = sum file /\ file_size head = off - 256 /\ file_head_ok head /\ get_file_head img = (0, head).
Proof.
  intros Hbuilt Hbs Ha Htot Hsum Hmax Hres Hroom Hbig.
  unfold make_upgrade_bin, sizeof_file_head, sizeof_bin_head, MAX_BIN_SIZE, MAX_BIN_SUM in *.
  assert (Hnn : Forall (fun b => 0 <= bin_size b) bins)
    by (eapply Forall_impl; [|exact Hbs]; intros b Hb; unfold bin_head_ok, u64 in Hb; lia).
  pose proof (total_nonneg bins Hnn). rewrite Hsum, Ha by lia. cbn [negb].
  destruct (read_bins_total _ _ Hbuilt (256 + Z.of_nat (length bins) * 512)) as [parts R].
  destruct (place_bins _ bins) as [bs off] eqn:P. cbn [fst] in R.
  destruct (placed_parts bins (256 + Z.of_nat (length bins) * 512) bs off parts
              (repeat 0 (Z.to_nat (256 + Z.of_nat (length bins) * 512))) Hnn ltac:(lia) ltac:(lia) P R
              ltac:(rewrite repeat_length; lia)) as (Eoff & Elen & F2).
  rewrite (Z.mod_small (off - 256)), Ha, R, Hroom by lia. cbn [negb]. set (h := mk_file_head _ _ _ _).
  assert (Hok : file_head_ok h) by (unfold file_head_ok, h, u64; cbn [sum f_start_position file_size f_reserved]; intuition lia).
  pose proof (file_head_length h Hok) as Hl.
  assert (Hbs' : Forall bin_head_ok bs) by (eapply place_bins_ok; [exact Hbs| |exact P]; lia).
  assert (Hlb : Z.of_nat (length (flat_map bin_head_bytes bs ++ parts)%list) = off - 256).
  { rewrite length_app, Nat2Z.inj_add, flat_map_heads, Elen, <- (Forall2_length F2) by exact Hbs'. lia. }
  rewrite (file_write_all (file_head_bytes h)), Hl by lia. change (negb (Z.of_nat 256 =? 256)) with false. cbv iota.
  rewrite (firstn_all2 (n := Z.to_nat (off - 256))) by lia.
  rewrite (file_write_all (flat_map bin_head_bytes bs ++ parts)%list), Hlb, Z.eqb_refl by lia.
  exists off, parts, h, bs, h. eexists. split; [reflexivity|]. split; [reflexivity|]. split; [exact R|].
  do 3 (split; [reflexivity|]). split; [exact Hok|].
  rewrite get_file_head_of by exact Hok. cbn [sum file_size h]. unfold MAX_BIN_SUM, MAX_BIN_SIZE.
  now rewrite (proj2 (Z.ltb_ge _ _)), (proj2 (Z.ltb_ge _ _)) by lia.
Qed.

End Package.

(** ** A package *)

Definition demo_files (f : string) : option (list Z) :=
  if String.eqb f "boot.img" then Some (bytes_of "boot code")
  else if String.eqb f "sys.img" then Some (bytes_of "system") else None.

Definition demo_build : build_env := mk_build demo_files (fun _ => true) (Some (2 ^ 30)).

Definition quoted (key value : string) : string := key ++ "=" ++ quote ++ value ++ quote ++ " ".

Definition demo_line (file part : string) : string :=
  quoted "file_name" file ++ quoted "sub_type" part ++ quoted "start_position" "0x0" ++
  quoted "flash_partsize" "0x100000" ++ String LF "".

Definition demo_config : string :=
  "# parts" ++ String LF (demo_line "boot.img" "boot" ++ demo_line "sys.img" "system").

Lemma demo_files_bytes (f : string) (c : list Z) : files demo_build f = Some c -> Forall byte c.
Proof.
  cbn [files demo_build]. unfold demo_files. intros H.
  repeat match type of H with (if ?t then _ else _) = _ => destruct t end;
    try discriminate; injection H as <-; apply str_bytes_byte.
Qed.


(** * Installing an image: correctness *)

(** The bytes of a part, and whether they have the sum of the header. *)
Definition part_data (img : list Z) (b : bin_head) : list Z := img_read img (start_position b) (bin_size b).

Definition intact (img : list Z) (b : bin_head) : bool :=
  sum_matches ("sha1sum " ++ hex_text (sha1 (part_data img b))) b.

Section Install.
Context {X : Type} `{!OtaEnv X} (misc env : string) `{!MtdBoard X misc env}
  (im ie : mtd_info_t) (bm be : Z -> bool) (page : string -> X -> Z -> list Z)
  {WM : WorkingFlash misc im bm page} {WE : WorkingFlash env ie be page}
  {SR : SumRoom} {UL : ULong} (junk : sha1_context) (Hj : length (buffer junk) = 64%nat)
  (dev : bin_head -> string) (info : string -> mtd_info_t) (bad : string -> Z -> bool)
  {WP : forall b, WorkingFlash (dev b) (info (dev b)) (bad (dev b)) page}.
Local Notation W := (oworld X).

(** The array of bytes of a device. *)
Definition dev_view (d : string) (x : X) : list Z := view d (info d) (bad d) page x 0.

(** A part that is for a partition of its own and fits there. *)
Record placed (img : list Z) (x : X) (b : bin_head) : Prop := {
  pl_dev w : get_mtd_name (cstr (sub_type b)) 256 YODABASE_FSTAB w = Ret (0, dev b) w;
  pl_other : dev b <> misc /\ dev b <> env;
  pl_read : Z.of_nat (length (part_data img b)) = bin_size b;
  pl_size : 0 < bin_size b;
  pl_fits : (Z.to_nat (bin_size b) <= length (dev_view (dev b) x))%nat }.

(** What the update leaves of a part: its bytes at the start of the partition, or
    the partition as it was. *)
Definition installed (img : list Z) (x x' : X) (b : bin_head) : Prop :=
  if intact img b then firstn (Z.to_nat (bin_size b)) (dev_view (dev b) x') = part_data img b
  else forall q, page (dev b) x' q = page (dev b) x q.

Lemma dev_view_ext (d : string) (x x' : X) :
  (forall q, page d x' q = page d x q) -> dev_view d x' = dev_view d x.
Proof. intros H. apply view_ext. auto. Qed.

(** The sum of bytes fits when there is a byte behind the array. *)
Lemma sum_of_spec (buf : list Z) (size : Z) (w : W) :
  49 <= sum_room -> Forall byte buf -> 0 <= size <= Z.of_nat (length buf) -> size < 2 ^ 31 ->
  sum_of junk buf size w = Ret ("sha1sum " ++ hex_text (sha1 (firstn (Z.to_nat size) buf))) w.
Proof.
  intros Hs Hb Hl Hi. unfold sum_of. rewrite calc_sha1sum_hash by (assumption || lia).
  rewrite string_length_app, hex_text_length. rewrite (proj2 (Z.ltb_ge _ _)); [reflexivity|exact Hs].
Qed.

Lemma update_part_spec (Hr : 49 <= sum_room) (img : list Z) (cmd : boot_cmd) (b : bin_head) (w : W) :
  Forall byte img -> placed img (oenv w) b ->
  exists w', update_part junk img MTD_FORMAT cmd false b w = Ret (NextPart, false, false) w' /\
    ofds w' = ofds w /\ installed img (oenv w) (oenv w') b /\
    (forall d q, d <> dev b -> page d (oenv w') q = page d (oenv w) q).
Proof.
  intros Hb [Hd Ho Hl Hs Hf]. unfold update_part, read_part.
  destruct (wf_malloc (dev := misc) (oenv w) (bin_size b + 0)) as (x1 & E1 & H1).
  unfold bind at 1. unfold bind at 1, tell. rewrite E1. cbn [negb].
  rewrite sys_read_image by exact Hb. fold (part_data img b). rewrite Hl, Z.eqb_refl. unfold ret at 1.
  assert (Hlt : bin_size b < 2 ^ 31).
  { pose proof (good_pages_size (dev b) (info (dev b)) (bad (dev b)) page _ _ Hf).
    pose proof (size_int (info (dev b)) (wf_geometry (WorkingFlash := WP b))). lia. }
  assert (Hpb : Forall byte (part_data img b)) by (apply Forall_firstn, Forall_skipn, Hb).
  unfold bind at 1. rewrite sum_of_spec by (assumption || lia).
  rewrite firstn_all2 by lia. fold (intact img b). unfold installed.
  destruct (intact img b) eqn:I; cbn [negb].
  2: { eexists. split; [reflexivity|]. split; [reflexivity|]. split; intros; apply H1. }
  change (MTD_FORMAT =? MTD_AB_FORMAT) with false. change (MTD_FORMAT =? UBI_OVERLAY_FORMAT) with false.
  change (MTD_FORMAT =? MTD_FORMAT) with true. cbn [orb]. unfold bind at 1, ret at 1.
  unfold flash_mtd, nand_erase. set (w1 := set_oenv x1 w).
  assert (V1 : dev_view (dev b) x1 = dev_view (dev b) (oenv w)) by (apply dev_view_ext; intros; apply H1).
  assert (Hlen : length (part_data img b) = Z.to_nat (bin_size b)) by lia.
  assert (Hf1 : (Z.to_nat (bin_size b) <= length (dev_view (dev b) x1))%nat) by now rewrite V1.
  destruct (nand_store (dev b) (info (dev b)) (bad (dev b)) page w1 (part_data img b) (bin_size b) 0 Hs Hlen Hf1 (or_intror eq_refl))
    as (r1 & w2 & w3 & E2 & _ & E3 & V3 & L3 & F3 & O3).
  unfold bind. rewrite Hd. cbn [Z.ltb Z.compare andb]. rewrite E2, E3. eexists. split; [reflexivity|].
  split; [exact F3|]. split; [exact V3|]. intros d q Hq. rewrite O3 by exact Hq. apply H1.
Qed.

Lemma update_parts_spec (Hr : 49 <= sum_room) (img : list Z) (cmd : boot_cmd) (Hb : Forall byte img) (bins : list bin_head) : forall w : W,
  Forall (placed img (oenv w)) bins -> NoDup (map dev bins) ->
  exists w', update_parts junk img MTD_FORMAT cmd false bins false false w = Ret (inr (false, false)) w' /\
    ofds w' = ofds w /\ Forall (installed img (oenv w) (oenv w')) bins /\
    (forall d q, ~ In d (map dev bins) -> page d (oenv w') q = page d (oenv w) q).
Proof.
  induction bins as [|b bins IH]; intros w Hp Hnd.
  { exists w. repeat split; constructor. }
  apply Forall_cons_iff in Hp. destruct Hp as [Hpb Hp]. cbn [map] in *. apply NoDup_cons_iff in Hnd. destruct Hnd as [Hnb Hnd].
  cbn [update_parts]. destruct (update_part_spec Hr img cmd b w Hb Hpb) as (w1 & E1 & F1 & I1 & O1).
  unfold bind. rewrite E1. cbn [orb].
  assert (Hdev : forall b', In b' bins -> dev b' <> dev b) by (intros b' Hin E; apply Hnb; rewrite <- E; now apply in_map).
  destruct (IH w1) as (w' & E2 & F2 & I2 & O2); [|exact Hnd|].
  { rewrite Forall_forall in *. intros b' Hin. destruct (Hp b' Hin) as [P1 P2 P3 P4 P5]. split; auto.
    rewrite (dev_view_ext (dev b') (oenv w)); [exact P5|]. auto. }
  exists w'. split; [exact E2|]. split; [congruence|]. split; [constructor|].
  - unfold installed in *. destruct (intact img b).
    + rewrite (dev_view_ext (dev b) (oenv w1)); auto.
    + intros q. rewrite O2 by exact Hnb. auto.
  - rewrite Forall_forall in *. intros b' Hin. specialize (I2 b' Hin). unfold installed in *.
    destruct (intact img b'); [exact I2|]. intros q. rewrite I2. auto.
  - intros d q Hd. cbn in Hd. rewrite O2, O1 by intuition. reflexivity.
Qed.

Lemma flashed_text_idem (s : string) : flashed_text (flashed_text s) = flashed_text s.
Proof. unfold flashed_text at 2 3. destruct (strncmp_eq _ s _); reflexivity. Qed.

Lemma misc_holds_ext (w w' : W) (c : boot_cmd) :
  (forall q, page misc (oenv w') q = page misc (oenv w) q) ->
  misc_holds misc im bm page w c -> misc_holds misc im bm page w' c.
Proof. intros H. unfold misc_holds. rewrite (view_ext misc im bm page (oenv w) (oenv w')); auto. Qed.

Lemma placed_ext (img : list Z) (x x' : X) (b : bin_head) :
  (forall d q, page d x' q = page d x q) -> placed img x b -> placed img x' b.
Proof. intros H [P1 P2 P3 P4 P5]. split; auto. now rewrite (dev_view_ext (dev b) x). Qed.

Lemma parse_update_bin_spec (Hr : 49 <= sum_room) (img : list Z) (bins : list bin_head) (c : boot_cmd) (w : W) :
  (forall w : W, get_upgrade_partition_type YODABASE_FSTAB w = Ret MTD_FORMAT w) -> Forall byte img ->
  Forall (placed img (oenv w)) bins -> NoDup (map dev bins) ->
  bins <> [] -> cstr (sub_type (List.hd zero_bin bins)) <> "version" -> misc_holds misc im bm page w c ->
  exists w' c', parse_update_bin junk img bins w = Ret 0 w' /\ Forall (installed img (oenv w) (oenv w')) bins /\
    (forall d q, ~ In d (map dev bins) -> d <> misc -> d <> env -> page d (oenv w') q = page d (oenv w) q) /\
    ofds w' = ofds w /\ misc_holds misc im bm page w' c' /\
    text_of c' = mk_text (t_mode (text_of c)) (t_path (text_of c)) (t_state (text_of c))
      (flashed_text (t_partition (text_of c))) (t_status (text_of c)) (t_version (text_of c)).
Proof.
  intros Ht Hb Hp Hnd Hne Hv Hc. unfold parse_update_bin.
  destruct (get_cmd_spec misc env im bm page w c zero_cmd Hc zero_cmd_ok) as (w1 & E1 & M1 & F1 & O1).
  unfold bind at 1. rewrite E1. cbn [Z.eqb negb]. unfold bind at 1. rewrite Ht.
  destruct bins as [|b0 rest]; [contradiction|]. cbn [List.hd] in Hv. rewrite (proj2 (String.eqb_neq _ _) Hv).
  unfold bind at 1, ret at 1. cbn [Z.eqb negb]. set (bins := b0 :: rest) in *.
  assert (Hd1 : forall b q, In b bins -> page (dev b) (oenv w1) q = page (dev b) (oenv w) q).
  { intros b q Hin. rewrite Forall_forall in Hp. destruct (pl_other _ _ _ (Hp b Hin)). now apply O1. }
  destruct (update_parts_spec Hr img c Hb bins w1) as (w2 & E2 & F2 & I2 & O2); [|exact Hnd|].
  { rewrite Forall_forall in *. intros b Hin. destruct (Hp b Hin) as [P1 P2 P3 P4 P5]. split; auto.
    rewrite (dev_view_ext (dev b) (oenv w)); auto. }
  unfold bind at 1. rewrite E2.
  assert (Hmisc : ~ In misc (map dev bins)).
  { intros Hin. apply in_map_iff in Hin. destruct Hin as (b & E & Hin). rewrite Forall_forall in Hp.
    now apply (proj1 (pl_other _ _ _ (Hp b Hin))). }
  assert (M2 : misc_holds misc im bm page w2 c) by (eapply misc_holds_ext; [|exact M1]; auto).
  destruct (set_cmd_spec misc env im ie bm be page w2 c (proj1 M2) (proj1 (proj2 M2))) as (a & w3 & E3 & M3 & Ca & F3 & O3).
  unfold bind at 1. rewrite E3. cbn [Z.eqb negb andb when]. unfold bind.
  exists w3, (with_partition a c). split; [reflexivity|]. split; [|split; [|split; [congruence|split; [exact M3|]]]].
  - rewrite Forall_forall in *. intros b Hin. specialize (I2 b Hin). destruct (pl_other _ _ _ (Hp b Hin)) as [Nm Ne].
    unfold installed in *. destruct (intact img b).
    + rewrite (dev_view_ext (dev b) (oenv w2)); auto.
    + intros q. now rewrite O3, I2, Hd1.
  - intros d q Hd Hm He. now rewrite O3, O2, O1.
  - unfold text_of. cbn. now rewrite Ca.
Qed.

Lemma alloc_heads_spec (n : nat) : forall w : W,
  exists x', alloc_heads n w = Ret true (set_oenv x' w) /\ forall d q, page d x' q = page d (oenv w) q.
Proof.
  induction n as [|n IH]; intros w; cbn [alloc_heads]; [exists (oenv w); now destruct w|].
  destruct (wf_malloc (dev := misc) (oenv w) sizeof_bin_head) as (x1 & E1 & H1).
  unfold bind, tell. rewrite E1. cbn [negb]. destruct (IH (set_oenv x1 w)) as (x' & -> & H').
  exists x'. split; [reflexivity|]. intros d q. rewrite H'. apply H1.
Qed.

Lemma open_image_some (path : string) (img : list Z) (w : W) :
  os_image path (oenv w) = Some img -> open_image path w = Ret (Some img) (add_fds 1 w).
Proof. intros H. unfold open_image, bind, ask, gets. rewrite H. reflexivity. Qed.

Lemma apply_image_spec (Hr : 49 <= sum_room) (path : string) (img : list Z) (head : file_head) (bins : list bin_head) (c : boot_cmd) (w : W) :
  (forall w : W, get_upgrade_partition_type YODABASE_FSTAB w = Ret MTD_FORMAT w) ->
  os_image path (oenv w) = Some img -> Forall byte img ->
  get_file_head img = (0, head) -> get_bin_head img head = (0, bins) ->
  Forall (placed img (oenv w)) bins -> NoDup (map dev bins) ->
  bins <> [] -> cstr (sub_type (List.hd zero_bin bins)) <> "version" ->
  misc_holds misc im bm page w c ->
  exists w' c', apply_image junk path w = Ret (FallThrough true) w' /\ Forall (installed img (oenv w) (oenv w')) bins /\
    (forall d q, ~ In d (map dev bins) -> d <> misc -> d <> env -> page d (oenv w') q = page d (oenv w) q) /\
    ofds w' = ofds w + 1 /\ misc_holds misc im bm page w' c' /\
    text_of c' = mk_text (t_mode (text_of c)) (t_path (text_of c)) (t_state (text_of c))
      (flashed_text (t_partition (text_of c))) (t_status (text_of c)) (t_version (text_of c)).
Proof.
  intros Ht Hi Hb Hh Hbh Hp Hnd Hne Hv Hc. unfold apply_image.
  unfold bind at 1. rewrite (open_image_some path img w Hi).
  destruct (wf_malloc (dev := misc) (oenv w) sizeof_file_head) as (x1 & E1 & H1).
  unfold bind at 1, tell. cbn [oenv add_fds]. rewrite E1, Hh. cbn [negb Z.ltb Z.compare].
  destruct (alloc_heads_spec (Z.to_nat (sum head)) (set_oenv x1 (add_fds 1 w))) as (x2 & E2 & H2).
  unfold bind at 1. rewrite E2, Hbh. cbn [negb Z.ltb Z.compare].
  set (w2 := set_oenv x2 _).
  assert (H2' : forall d q, page d (oenv w2) q = page d (oenv w) q)
    by (intros; cbn [oenv w2 set_oenv]; rewrite H2; apply H1).
  assert (Hc2 : misc_holds misc im bm page w2 c) by (eapply misc_holds_ext; [|exact Hc]; auto).
  destruct (parse_update_bin_spec Hr img bins c w2) as (w3 & c3 & E3 & I3 & O3 & F3 & M3 & T3); auto.
  { eapply Forall_impl; [|exact Hp]. intros b. apply placed_ext. auto. }
  unfold bind at 1. rewrite E3. cbn [Z.ltb Z.compare].
  exists w3, c3. split; [reflexivity|]. split; [|split; [|split; [|split]]]; auto.
  - eapply Forall_impl; [|exact I3]. intros b. unfold installed. destruct (intact img b); [auto|].
    intros I q. now rewrite I, H2'.
  - intros d q Hd Hm He. now rewrite O3, H2'.
Qed.

(** C40: An image whose first header counts no part, or a negative number of them, is
    accepted; the sub type of its first part is then read through a null pointer,
    where an error should be recorded. *)
Theorem empty_image_faults (path : string) (img : list Z) (head : file_head) (c : boot_cmd) (w : W) :
  os_image path (oenv w) = Some img -> get_file_head img = (0, head) -> sum head <= 0 ->
  misc_holds misc im bm page w c -> apply_image junk path w = Fault NullDeref.
Proof.
  clear Hj WP. intros Hi Hh Hs Hc. unfold apply_image, bind at 1. rewrite (open_image_some path img w Hi).
  destruct (wf_malloc (dev := misc) (oenv w) sizeof_file_head) as (x1 & E1 & H1).
  unfold bind at 1, tell. cbn [oenv add_fds]. rewrite E1, Hh. cbn [negb Z.ltb Z.compare].
  unfold get_bin_head. replace (Z.to_nat (sum head)) with 0%nat by lia.
  cbn [alloc_heads bin_head_loop]. unfold bind at 1, ret at 1. cbn [negb Z.ltb Z.compare].
  set (w2 := set_oenv x1 (add_fds 1 w)).
  assert (Hc2 : misc_holds misc im bm page w2 c) by (eapply misc_holds_ext; [|exact Hc]; intros; apply H1).
  destruct (get_cmd_spec misc env im bm page w2 c zero_cmd Hc2 zero_cmd_ok) as (w3 & E3 & _).
  unfold parse_update_bin, bind at 1. unfold bind at 1. rewrite E3. cbn [Z.eqb negb].
  destruct (board_type w3) as (t & Et & _). unfold bind at 1. now rewrite Et.
Qed.
End Install.

(** ** An update *)

Definition demo_path : string := "/data/update.img".

Definition system_config : string := demo_line "sys.img" "system".

Definition image_of (config : string) : list Z :=
  match @package_main ilp32 demo_build demo_ctx (Some config) with Some (Some i) => i | _ => [] end.

Definition system_image : list Z := Eval vm_compute in image_of system_config.

Definition system_head : file_head := Eval vm_compute in snd (get_file_head system_image).

Definition system_bins : list bin_head := Eval vm_compute in snd (get_bin_head system_image system_head).

(** A first header alone. *)
Definition empty_image : list Z := Eval vm_compute in file_head_bytes (mk_file_head 0 256 0 (repeat 0 236)).

Definition update_os (img : list Z) : OtaEnv (list flash_op) :=
  board_os (fun p => if String.eqb p demo_path then Some img else None).

Definition update_flash (img : list Z) (d : string) :
    @WorkingFlash _ (update_os img) d board_info board_bad (demo_page board_info) :=
  demo_working board_info board_bad _ _ d board_geometry.

Lemma empty_image_faults_witness :
  @apply_image _ (update_os empty_image) 48 ilp32 demo_ctx demo_path demo_block = Fault NullDeref.
Proof.
  exact (@empty_image_faults _ (update_os empty_image) "/dev/mtd1" "/dev/mtd2" (demo_board _)
    board_info board_bad (demo_page board_info) (update_flash _ _) 48 ilp32 demo_ctx
    demo_path empty_image (mk_file_head 0 256 0 (repeat 0 236)) zero_cmd demo_block
    eq_refl eq_refl ltac:(vm_compute; discriminate) demo_block_holds).
Defined.
