(* ===== verification/OtaRun.v ===== *)
(** * A run of the recovery program: correctness

    [main] of [ota_unpack.c] from the command block of a board to the reboot: what
    it installs, and that the next boot is not sent into recovery again. *)

From Stdlib Require Import Ascii String ZArith List Bool Lia.
From S2P Require Import Prelude CString CMonad Fips180 Sha1 Sha1Proofs Nand NandProofs Bytes OtaPackage Fstab BootCmd BootProofs Mount Unpack UnpackProofs.
Import ListNotations.
Open Scope list_scope.
Open Scope string_scope.
Open Scope Z_scope.

(** ** What the steps leave alone *)

(** Whatever holds of the state, the functions that only look at it keep it. *)
Section Observers.
Context {X : Type} `{!OtaEnv X} (I : oworld X -> Prop).

Lemma ask_keeps {A} (f : X -> A) : keeps I (ask f).
Proof. apply keeps_gets. Qed.

Hint Resolve ask_keeps : keeps.

Lemma copy_into_keeps buf k data : keeps I (copy_into buf k data).
Proof. unfold copy_into. keeps. Qed.

Lemma bytes_at_keeps buf k n : keeps I (bytes_at buf k n).
Proof. unfold bytes_at. keeps. Qed.

Lemma put_str_keeps a s n : keeps I (put_str a s n).
Proof. unfold put_str. keeps. Qed.

Lemma store_keeps cap s : keeps I (store cap s).
Proof. unfold store. keeps. Qed.

Lemma file_lines_keeps path : keeps I (file_lines path).
Proof. unfold file_lines. keeps. Qed.

Hint Resolve store_keeps file_lines_keeps : keeps.

Lemma mtd_name_loop_keeps part cap : forall lines, keeps I (mtd_name_loop lines part cap).
Proof. induction lines; cbn [mtd_name_loop]; keeps. Qed.

Hint Resolve mtd_name_loop_keeps : keeps.

Lemma get_mtd_name_keeps n cap f : keeps I (get_mtd_name n cap f).
Proof. unfold get_mtd_name. keeps. Qed.

Lemma select_partname_keeps f k : keeps I (select_partname f k).
Proof. unfold select_partname. keeps. Qed.

Lemma partition_type_keeps f : keeps I (get_upgrade_partition_type f).
Proof. unfold get_upgrade_partition_type. keeps. Qed.

Lemma node_loop_keeps path : forall left n, keeps I (node_loop left path n).
Proof. induction left; intros n; cbn [node_loop]; keeps. Qed.

Lemma partition_line_keeps line : keeps I (partition_line line).
Proof. unfold partition_line. keeps. Qed.

Hint Resolve partition_line_keeps : keeps.

Lemma partitions_loop_keeps : forall lines left, keeps I (partitions_loop lines left).
Proof. induction lines; intros left; destruct left; cbn [partitions_loop]; keeps. Qed.

Hint Resolve partitions_loop_keeps : keeps.

Lemma partitions_info_keeps n f : keeps I (get_partitions_info n f).
Proof. unfold get_partitions_info. keeps. Qed.
End Observers.

#[local] Hint Resolve ask_keeps copy_into_keeps bytes_at_keeps put_str_keeps store_keeps file_lines_keeps
  get_mtd_name_keeps select_partname_keeps partition_type_keeps node_loop_keeps partitions_info_keeps : keeps.

(** ** Mounting and flushing return *)

Section AlwaysReturns.
Context {W : Type}.

(** The computation faults in no state. *)
Definition returns {A} (m : M W A) : Prop := forall w, exists a w', m w = Ret a w'.

Lemma returns_ret {A} (a : A) : returns (ret a).
Proof. intros w. exists a, w. reflexivity. Qed.

Lemma returns_bind {A B} (m : M W A) (k : A -> M W B) : returns m -> (forall a, returns (k a)) -> returns (bind m k).
Proof. intros Hm Hk w. unfold bind. destruct (Hm w) as (a & w' & ->). apply Hk. Qed.

Lemma returns_when (b : bool) (m : M W unit) : returns m -> returns (when b m).
Proof. intros H. destruct b; [exact H|apply returns_ret]. Qed.
End AlwaysReturns.

Create HintDb returns.

(** Structural steps; the leaves are the lemmas registered in [returns]. *)
Ltac returns :=
  repeat (solve [auto with returns nocore] ||
    match goal with
    | |- returns (bind _ _) => apply returns_bind; [|intros ?]
    | |- returns (when _ _) => apply returns_when
    | |- returns (if ?b then _ else _) => destruct b
    | |- returns (match ?x with _ => _ end) => destruct x
    end).

Section Returns.
Context {X : Type} `{!OtaEnv X}.
Local Notation W := (oworld X).

Lemma returns_ask {A} (f : X -> A) : returns (ask f).
Proof. intros w. eexists. eexists. reflexivity. Qed.

Lemma returns_system (cmd : string) : returns (system cmd).
Proof.
  intros w. unfold system, bind, emit, modify, tell. cbn [oenv]. destruct (os_system cmd (oenv w)). eauto.
Qed.

Lemma returns_store (cap : nat) (s : string) : (String.length s <? cap)%nat = true -> returns (W := W) (store cap s).
Proof. intros H. unfold store. rewrite H. apply returns_ret. Qed.

Hint Resolve returns_ret returns_ask returns_system returns_store : returns.

Lemma returns_node_loop (path : Z -> string) : forall left n, returns (node_loop left path n).
Proof. induction left; intros n; cbn [node_loop]; returns. Qed.

Lemma returns_file_lines (path : string) : returns (file_lines path).
Proof. unfold file_lines. returns. Qed.

Lemma returns_checked (cmd : string) : returns (checked cmd).
Proof. unfold checked. returns. Qed.

Hint Resolve returns_node_loop returns_file_lines returns_checked : returns.

Lemma returns_ubinum : returns get_max_ubinum.
Proof. apply returns_node_loop. Qed.

Lemma returns_ubivolnum (n : Z) : returns (get_max_ubivolnum n).
Proof. apply returns_node_loop. Qed.

Lemma returns_ubiattach (n : Z) : returns (ubiattach n).
Proof. apply returns_system. Qed.

Hint Resolve returns_ubinum returns_ubivolnum returns_ubiattach : returns.

Lemma returns_attach_or_format (n : Z) : returns (attach_or_format n).
Proof. unfold attach_or_format. returns. Qed.

Hint Resolve returns_attach_or_format : returns.

(** An entry whose UBI device and whose mount options fit the arrays they are
    copied to. *)
Definition entry_fits (p : partition_info) : bool :=
  match tokens comma_nl (mount_point p) with
  | _ :: p1 :: _ => (String.length p1 <? 32)%nat
  | _ => true
  end &&
  match other_options (mount_param p) with
  | Some o => (String.length o <? 128)%nat
  | None => true
  end.

Context (p : partition_info) (Hp : entry_fits p = true).

Lemma returns_attach_volume : returns (attach_volume (mount_point p)).
Proof.
  apply andb_true_iff in Hp. destruct Hp as [H _]. unfold attach_volume.
  destruct (tokens comma_nl (mount_point p)) as [|p0 [|p1 l]]; returns.
Qed.

Lemma returns_mount_plain : returns (mount_plain p).
Proof.
  apply andb_true_iff in Hp. destruct Hp as [_ H]. unfold mount_plain.
  do 2 (apply returns_bind; [returns|intros ?]).
  destruct (other_options (mount_param p)); returns.
Qed.

Hint Resolve returns_attach_volume returns_mount_plain : returns.

Lemma returns_mount_ubi (n : Z) : returns (mount_ubi p n).
Proof. unfold mount_ubi. returns. Qed.

Lemma returns_attach_overlay (n : Z) : returns (attach_overlay n).
Proof. unfold attach_overlay. returns. Qed.

Lemma returns_mount_volume : returns (mount_volume p).
Proof. unfold mount_volume. returns. Qed.

Lemma returns_flush_ubi (n : Z) (vol : string) : returns (flush_ubi p n vol).
Proof. unfold flush_ubi. returns. Qed.
End Returns.

#[local] Hint Resolve returns_ret returns_ask returns_system returns_file_lines returns_checked
  returns_attach_volume returns_mount_plain returns_mount_ubi returns_attach_overlay returns_mount_volume
  returns_flush_ubi : returns.

(** The configuration of the data partition: the table of the board, whose entries
    and whose name of the data partition fit their arrays. *)
Class DataBoard (X : Type) `{!OtaEnv X} (tab : list partition_info) : Prop := {
  db_table (w : oworld X) : get_partitions_info MAX_PARTITIONS_NUM YODABASE_FSTAB w = Ret (Some tab) w;
  db_name (w : oworld X) : exists r n, get_data_partname YODABASE_FSTAB w = Ret (r, n) w;
  db_fits : forallb entry_fits tab = true }.

Section Table.
Context {X : Type} `{!OtaEnv X} (tab : list partition_info) {DB : DataBoard X tab}.
Local Notation W := (oworld X).

(** The table [recovery.c] keeps is empty until it is read. *)
Definition table_is (w : W) : Prop := oparts w = [] \/ oparts w = tab.

Lemma tell_table {A} (f : X -> A * X) : keeps table_is (tell f).
Proof. intros w H. unfold tell. destruct (f (oenv w)). exact H. Qed.

Lemma emit_table (ev : ota_event) : keeps table_is (emit ev).
Proof. intros w H. exact H. Qed.

Lemma close_table : keeps table_is close_dev.
Proof. intros w H. exact H. Qed.

Lemma open_table (dev : string) : keeps table_is (open_dev dev).
Proof. intros w H. unfold open_dev, bind, ask, gets. now destruct (mtd_open dev (oenv w)). Qed.

Hint Resolve tell_table emit_table close_table open_table : keeps.

Lemma write_dev_table dev off data : keeps table_is (write_dev dev off data).
Proof. unfold write_dev. keeps. Qed.

Lemma system_table cmd : keeps table_is (system cmd).
Proof. unfold system. keeps. Qed.

Lemma next_good_table fuel dev i : forall p, keeps table_is (next_good_loop fuel dev i p).
Proof. induction fuel; intros p; cbn [next_good_loop]; keeps. Qed.

Hint Resolve write_dev_table system_table next_good_table : keeps.

Lemma at_good_table dev i p : keeps table_is (at_good_block dev i p).
Proof. unfold at_good_block, next_good_eraseblock. keeps. Qed.

Lemma first_good_table dev i p : keeps table_is (first_good dev i p).
Proof. unfold first_good, next_good_eraseblock. keeps. Qed.

Hint Resolve at_good_table first_good_table : keeps.

Lemma read_loop_table fuel dev i : forall p buf k len, keeps table_is (nand_read_loop fuel dev i p buf k len).
Proof. induction fuel; intros; cbn [nand_read_loop]; keeps. Qed.

Lemma write_loop_table fuel dev i : forall p buf k len, keeps table_is (nand_write_loop fuel dev i p buf k len).
Proof. induction fuel; intros; cbn [nand_write_loop]; keeps. Qed.

Lemma erase_loop_table fuel dev i : forall a b s r, keeps table_is (erase_loop fuel dev i a b s r).
Proof. induction fuel; intros; cbn [erase_loop]; keeps. Qed.

Hint Resolve read_loop_table write_loop_table erase_loop_table : keeps.

Lemma nand_read_table dev off buf len : keeps table_is (nand_read dev off buf len).
Proof. unfold nand_read. keeps. Qed.

Lemma nand_write_table dev off buf len : keeps table_is (nand_write dev off buf len).
Proof. unfold nand_write. keeps. Qed.

Lemma nand_erase_part_table dev off size : keeps table_is (nand_erase_part dev off size).
Proof. unfold nand_erase_part. keeps. Qed.

Hint Resolve nand_read_table nand_write_table nand_erase_part_table : keeps.

Lemma partition_info_finds n (w : W) : table_is w ->
  exists w', get_rawflash_partition_info n w = Ret (find (fun p => String.eqb n (part_name p)) tab) w'.
Proof.
  intros Hw. unfold get_rawflash_partition_info, bind, gets. destruct Hw as [E|E]; rewrite E.
  - rewrite db_table. destruct tab as [|p l]; eexists; reflexivity.
  - destruct tab as [|p l] eqn:T; [|eexists; reflexivity]. rewrite db_table. eexists. reflexivity.
Qed.

Lemma found_fits n p : find (fun p => String.eqb n (part_name p)) tab = Some p -> entry_fits p = true.
Proof. intros H. apply find_some in H. exact (proj1 (forallb_forall _ _) db_fits p (proj1 H)). Qed.

Lemma mount_data_returns (w : W) : table_is w -> exists r w', mount_data YODABASE_FSTAB w = Ret r w'.
Proof.
  intros Hw. unfold mount_data, bind at 1. destruct (db_name w) as (r & n & ->). destruct (negb (r =? 0)); [unfold ret; eauto|].
  unfold bind at 1. destruct (partition_info_finds n w Hw) as (w' & ->).
  destruct (find _ tab) as [p|] eqn:F; [|unfold ret; eauto]. apply found_fits in F. revert w'.
  match goal with |- forall w, exists r w', ?m w = _ => change (returns m) end.
  returns.
Qed.

Lemma flush_data_returns (w : W) : table_is w -> exists r w', flush_data YODABASE_FSTAB w = Ret r w'.
Proof.
  intros Hw. unfold flush_data, bind at 1. destruct (db_name w) as (r & n & ->). destruct (negb (r =? 0)); [unfold ret; eauto|].
  unfold bind at 1. destruct (partition_info_finds n w Hw) as (w' & ->).
  destruct (find _ tab) as [p|] eqn:F; [|unfold ret; eauto]. apply found_fits in F. revert w'.
  match goal with |- forall w, exists r w', ?m w = _ => change (returns m) end.
  returns.
Qed.

Lemma partition_info_table n : keeps table_is (get_rawflash_partition_info n).
Proof.
  intros w Hw. unfold get_rawflash_partition_info, bind, gets. destruct (oparts w) as [|p l] eqn:E.
  - rewrite db_table. case_eq tab; [intros _; exact Hw|]. intros p l T. right. cbn. congruence.
  - unfold ret. exact Hw.
Qed.

Hint Resolve partition_info_table : keeps.

Lemma rawflash_get_name_table n cap : keeps table_is (rawflash_get_name n cap).
Proof. unfold rawflash_get_name. keeps. Qed.

Lemma rawflash_read_table dev off buf len : keeps table_is (rawflash_read dev off buf len).
Proof. unfold rawflash_read. keeps. Qed.

Lemma rawflash_write_table dev off buf len : keeps table_is (rawflash_write dev off buf len).
Proof. unfold rawflash_write. keeps. Qed.

Hint Resolve rawflash_get_name_table rawflash_read_table rawflash_write_table : keeps.

Lemma get_cmd_table c : keeps table_is (get_recovery_cmd_status c).
Proof. unfold get_recovery_cmd_status, get_misc_partname. keeps. Qed.

Lemma erase_env_table : keeps table_is erase_uboot_env_part.
Proof. unfold erase_uboot_env_part, get_env_partname, nand_erase. keeps. Qed.

Hint Resolve get_cmd_table erase_env_table : keeps.

Lemma set_cmd_table c : keeps table_is (set_recovery_cmd_status c).
Proof. unfold set_recovery_cmd_status, get_misc_partname. keeps. Qed.

Hint Resolve set_cmd_table : keeps.

Lemma judge_table : keeps table_is judge_need_upgrade.
Proof. unfold judge_need_upgrade. keeps. Qed.

Lemma recovery_end_table : keeps table_is set_recovery_end.
Proof. unfold set_recovery_end, update_cmd. keeps. Qed.
End Table.

(** ** Commands that leave the flash alone *)

(** The shell changes no page of the devices [kept]: those of the parts, the misc and
    the environment partitions, which are not mounted. *)
Class QuietShell {X : Type} `{!OtaEnv X} (page : string -> X -> Z -> list Z) (kept : string -> Prop) : Prop := {
  qs_system cmd x d q : kept d -> page d (snd (os_system cmd x)) q = page d x q }.

Section Quiet.
Context {X : Type} `{!OtaEnv X} (page : string -> X -> Z -> list Z) (kept : string -> Prop)
  {QS : QuietShell page kept} (x0 : X) (n0 : Z).
Local Notation W := (oworld X).

Definition steady (w : W) : Prop :=
  (forall d q, kept d -> page d (oenv w) q = page d x0 q) /\ ofds w = n0.

Lemma system_steady cmd : keeps steady (system cmd).
Proof.
  intros w [Hp Hf]. unfold system, bind, emit, modify, tell. cbn [oenv].
  destruct (os_system cmd (oenv w)) as [r x] eqn:E. split; [|exact Hf]. intros d q Hd. cbn [oenv set_oenv].
  pose proof (qs_system cmd (oenv w) d q Hd) as H. rewrite E in H. cbn in H. rewrite H. auto.
Qed.

Lemma checked_steady cmd : keeps steady (checked cmd).
Proof. unfold checked. apply keeps_bind; [apply system_steady|]. intros r. apply keeps_ret. Qed.

Lemma partition_info_steady n : keeps steady (get_rawflash_partition_info n).
Proof. unfold get_rawflash_partition_info. keeps. apply keeps_modify. auto. Qed.

Hint Resolve system_steady checked_steady partition_info_steady : keeps.

Lemma attach_volume_steady point : keeps steady (attach_volume point).
Proof. unfold attach_volume, ubiattach, get_max_ubinum. keeps. Qed.

Lemma attach_or_format_steady n : keeps steady (attach_or_format n).
Proof. unfold attach_or_format, ubiattach, get_max_ubinum. keeps. Qed.

Hint Resolve attach_volume_steady attach_or_format_steady : keeps.

Lemma flush_data_steady f : keeps steady (flush_data f).
Proof. unfold flush_data, get_data_partname, flush_ubi, ubiattach, get_max_ubinum, get_max_ubivolnum. keeps. Qed.

Lemma mount_data_steady f : keeps steady (mount_data f).
Proof.
  unfold mount_data, get_data_partname, attach_overlay, mount_ubi, mount_volume, mount_plain, get_max_ubinum,
    get_max_ubivolnum. keeps.
Qed.
End Quiet.

(** ** The run *)

Section Run.
Context {X : Type} `{!OtaEnv X} (misc env : string) `{!MtdBoard X misc env}
  (im ie : mtd_info_t) (bm be : Z -> bool) (page : string -> X -> Z -> list Z)
  {WM : WorkingFlash misc im bm page} {WE : WorkingFlash env ie be page}
  (tab : list partition_info) {DB : DataBoard X tab} (kept : string -> Prop) {QS : QuietShell page kept}
  {SR : SumRoom} {UL : ULong} (junk : sha1_context).
Local Notation W := (oworld X).
Local Notation misc_holds := (misc_holds misc im bm page).

(** The devices of the parts: kept by the shell, neither misc nor environment. *)
Definition apart (d : string) : Prop := kept d /\ d <> misc /\ d <> env.

(** Nothing but misc, environment and data has changed. *)
Definition undisturbed (w w' : W) : Prop :=
  ofds w' = ofds w /\ forall d q, apart d -> page d (oenv w') q = page d (oenv w) q.

(** The same, with [n] more descriptors open. *)
Definition shifted (n : Z) (w w' : W) : Prop :=
  ofds w' = ofds w + n /\ forall d q, apart d -> page d (oenv w') q = page d (oenv w) q.

Lemma shifted_trans (n m : Z) (w1 w2 w3 : W) : shifted n w1 w2 -> shifted m w2 w3 -> shifted (n + m) w1 w3.
Proof. intros [F1 O1] [F2 O2]. split; [lia|]. intros d q Hd. now rewrite O2, O1. Qed.

Lemma shifted_0 (w w' : W) : shifted 0 w w' <-> undisturbed w w'.
Proof. unfold shifted, undisturbed. rewrite Z.add_0_r. tauto. Qed.

Lemma undisturbed_trans (w1 w2 w3 : W) : undisturbed w1 w2 -> undisturbed w2 w3 -> undisturbed w1 w3.
Proof. intros [F1 O1] [F2 O2]. split; [congruence|]. intros d q Hd. now rewrite O2, O1. Qed.

Lemma undisturbed_same (w w' : W) : rest_same misc env page w w' -> undisturbed w w'.
Proof. intros [F O]. split; [exact F|]. intros d q (_ & Hm & He). auto. Qed.

Lemma steady_undisturbed (w w' : W) : steady page kept (oenv w) (ofds w) w' -> undisturbed w w'.
Proof. intros [Hp Hf]. split; [exact Hf|]. intros d q (Hd & _). auto. Qed.

Lemma steady_refl (w : W) : steady page kept (oenv w) (ofds w) w.
Proof. split; auto. Qed.

Context (Hkept : kept misc).

Lemma steady_holds (w w' : W) (c : boot_cmd) :
  steady page kept (oenv w) (ofds w) w' -> misc_holds w c -> misc_holds w' c.
Proof. intros [Hp _]. apply (misc_holds_ext misc im bm page). auto. Qed.

(** A step that keeps the block: a command, mounting, flushing. *)
Lemma steady_step {A} (m : M W A) (w : W) (c : boot_cmd) :
  (forall x0 n0, keeps (steady page kept x0 n0) m) -> misc_holds w c ->
  (exists a w', m w = Ret a w') -> exists a w', m w = Ret a w' /\ misc_holds w' c /\ undisturbed w w'.
Proof.
  intros Hm Hw (a & w' & E). exists a, w'.
  assert (S : steady page kept (oenv w) (ofds w) w') by (eapply keeps_Ret; [apply Hm|exact E|apply steady_refl]).
  split; [exact E|]. split; [eapply steady_holds; eassumption|now apply steady_undisturbed].
Qed.

Lemma system_step (cmd : string) (w : W) (c : boot_cmd) :
  misc_holds w c -> exists r w', system cmd w = Ret r w' /\ misc_holds w' c /\ undisturbed w w' /\
    oparts w' = oparts w /\ otrace w' = (otrace w ++ [System cmd])%list.
Proof.
  intros Hw. assert (Ht : exists r w', system cmd w = Ret r w' /\ oparts w' = oparts w /\
    otrace w' = (otrace w ++ [System cmd])%list).
  { unfold system, bind, emit, modify, tell. cbn [oenv]. destruct (os_system cmd (oenv w)) as [r x].
    exists r. eexists. split; [reflexivity|]. split; reflexivity. }
  destruct Ht as (r & w' & E & P & T).
  destruct (steady_step (system cmd) w c) as (r1 & w1 & E1 & H1 & U1);
    [intros; now apply system_steady|exact Hw|eauto|].
  rewrite E in E1. injection E1 as <- <-. exists r, w'. auto.
Qed.

Lemma op_step (op : cmd_op) (w : W) (c : boot_cmd) :
  misc_holds w c -> exists w' c', run_op op w = Ret 0 w' /\ misc_holds w' c' /\
    text_of c' = step_text (text_of c) op /\ undisturbed w w'.
Proof.
  intros Hw. destruct (run_op_spec misc env im ie bm be page op w c Hw) as (c' & w' & E & H & T & S).
  exists w', c'. split; [exact E|]. split; [exact H|]. split; [exact T|]. now apply undisturbed_same.
Qed.

Lemma reboot_step (w : W) (c : boot_cmd) :
  misc_holds w c -> exists w' t, reboot w = Ret 0 w' /\ misc_holds w' c /\ undisturbed w w' /\
    otrace w' = (t ++ [System "busybox reboot"])%list.
Proof.
  intros Hw. destruct (system_step "busybox reboot" w c Hw) as (r & w' & E & H & U & _ & T).
  exists w', (otrace w). unfold reboot, bind. rewrite E. auto.
Qed.

(** The descriptor a branch holds when it is left. *)
Definition held (e : ota_exit) : Z :=
  match e with GotoFree | FallThrough true => 1 | _ => 0 end.

Lemma close_step (w : W) (c : boot_cmd) : misc_holds w c ->
  exists w', close_dev w = Ret tt w' /\ misc_holds w' c /\ shifted (-1) w w'.
Proof. intros Hw. exists (add_fds (-1) w). split; [reflexivity|]. split; [exact Hw|]. now split. Qed.

Lemma closed_reboot (b : bool) (w : W) (c : boot_cmd) : misc_holds w c ->
  exists w' t, bind (when b close_dev) (fun _ => reboot) w = Ret 0 w' /\ misc_holds w' c /\
    shifted (if b then -1 else 0) w w' /\ otrace w' = (t ++ [System "busybox reboot"])%list.
Proof.
  intros Hw. unfold when, bind. destruct b.
  - destruct (close_step w c Hw) as (w1 & E1 & H1 & U1). destruct (reboot_step w1 c H1) as (w' & t & E & H & U & T).
    exists w', t. rewrite E1, E. split; [reflexivity|]. split; [exact H|]. split; [|exact T].
    apply shifted_0 in U. exact (shifted_trans _ _ _ _ _ U1 U).
  - destruct (reboot_step w c Hw) as (w' & t & E & H & U & T). exists w', t. unfold ret. rewrite E.
    apply shifted_0 in U. auto.
Qed.

(** What [main] does after the branch. *)
Lemma finish_step (e : ota_exit) (w : W) (c : boot_cmd) :
  misc_holds w c -> e <> ReturnNow -> exists w' c' t, ota_finish e w = Ret 0 w' /\ misc_holds w' c' /\
    text_of c' = (match e with FallThrough _ => step_text (text_of c) (UpgradeStatus BOOTSTATE_RES_OK) | _ => text_of c end) /\
    shifted (- held e) w w' /\ otrace w' = (t ++ [System "busybox reboot"])%list.
Proof.
  intros Hw Hne. unfold ota_finish. destruct e as [| | |o]; [contradiction| | |].
  - destruct (closed_reboot false w c Hw) as (w' & t & E & H & U & T). exists w', c, t. auto.
  - destruct (closed_reboot true w c Hw) as (w' & t & E & H & U & T). exists w', c, t. auto.
  - destruct (op_step (UpgradeStatus BOOTSTATE_RES_OK) w c Hw) as (w1 & c1 & E1 & H1 & T1 & U1). cbn [run_op] in E1.
    destruct (system_step "echo 1 > /sys/ota_light/ota_end" w1 c1 H1) as (r2 & w2 & E2 & H2 & U2 & _).
    destruct (system_step "echo 0 > /sys/devices/platform/led-stage/ota_ctl" w2 c1 H2) as (r3 & w3 & E3 & H3 & U3 & _).
    destruct (closed_reboot o w3 c1 H3) as (w' & t & E & H & U & T). exists w', c1, t.
    unfold bind at 1. rewrite E1. unfold bind at 1. rewrite E2. unfold bind at 1. rewrite E3.
    split; [exact E|]. split; [exact H|]. split; [exact T1|]. split; [|exact T].
    assert (U13 : undisturbed w w3) by eauto using undisturbed_trans. apply shifted_0 in U13.
    destruct o; exact (shifted_trans _ _ _ _ _ U13 U).
Qed.

(** The start of a run that has something to do. *)
Lemma start_step (choice : Z) (path : string) (w : W) (c : boot_cmd) :
  misc_holds w c -> table_is tab w -> (String.length (t_path (text_of c)) < 256)%nat ->
  judge_text (text_of c) = (choice, path) -> 0 <= choice ->
  exists w' c', ota_main junk w = bind (ota_choice junk choice path) ota_finish w' /\ misc_holds w' c' /\
    text_of c' = step_text (text_of c) RecoveryEnd /\ undisturbed w w' /\ table_is tab w'.
Proof.
  intros Hw Ht Hp Hj Hc. unfold ota_main.
  destruct (judge_spec misc env im bm page w c Hw Hp) as (w1 & E1 & H1 & S1). rewrite Hj in E1.
  assert (T1 : table_is tab w1) by exact (keeps_Ret _ _ _ _ _ (judge_table tab) E1 Ht).
  unfold bind at 1. rewrite E1, (proj2 (Z.ltb_ge _ _)) by lia.
  destruct (system_step "echo 1 > /sys/ota_light/ota_start" w1 c H1) as (r2 & w2 & E2 & H2 & U2 & P2 & _).
  unfold bind at 1. rewrite E2.
  destruct (system_step "echo 1 > /sys/devices/platform/led-stage/ota_ctl" w2 c H2) as (r3 & w3 & E3 & H3 & U3 & P3 & _).
  unfold bind at 1. rewrite E3.
  destruct (op_step RecoveryEnd w3 c H3) as (w4 & c4 & E4 & H4 & T4 & U4). cbn [run_op] in E4.
  unfold bind at 1. rewrite E4. exists w4, c4. split; [reflexivity|]. split; [exact H4|]. split; [exact T4|]. split.
  - eapply undisturbed_trans; [apply undisturbed_same; exact S1|]. eauto using undisturbed_trans.
  - apply (keeps_Ret _ _ _ _ _ (recovery_end_table tab) E4). unfold table_is in *. now rewrite P3, P2.
Qed.

(** A finished state is not taken for one to run. *)
Lemma judge_done (t : cmd_text) : t_state t = BOOTSTATE_OK \/ t_state t = BOOTSTATE_ERROR -> judge_text t = (-1, "").
Proof.
  intros H. unfold judge_text. replace (strncmp_eq _ (t_state t) BOOTSTATE_RUN) with false
    by now destruct H as [->| ->]. now rewrite !andb_false_r.
Qed.

Lemma idle_step (choice : Z) (path : string) (w : W) (c : boot_cmd) :
  misc_holds w c -> (String.length (t_path (text_of c)) < 256)%nat ->
  judge_text (text_of c) = (choice, path) -> choice < 0 ->
  exists w' c' t, ota_main junk w = Ret 0 w' /\ misc_holds w' c' /\
    text_of c' = fold_left step_text [UpgradeStatus BOOTSTATE_RES_ERROR; RecoveryEnd] (text_of c) /\
    undisturbed w w' /\ otrace w' = (t ++ [System "busybox reboot"])%list.
Proof.
  intros Hw Hp Hj Hneg. unfold ota_main.
  destruct (judge_spec misc env im bm page w c Hw Hp) as (w1 & E1 & H1 & S1). rewrite Hj in E1.
  unfold bind at 1. rewrite E1, (proj2 (Z.ltb_lt _ _)) by lia.
  destruct (op_step (UpgradeStatus BOOTSTATE_RES_ERROR) w1 c H1) as (w2 & c2 & E2 & H2 & T2 & U2).
  destruct (op_step RecoveryEnd w2 c2 H2) as (w3 & c3 & E3 & H3 & T3 & U3). cbn [run_op] in E2, E3.
  destruct (reboot_step w3 c3 H3) as (w' & t & E & H & U & R).
  exists w', c3, t. unfold bind. rewrite E2, E3, E. cbn [fold_left]. rewrite T3, T2.
  split; [reflexivity|]. split; [exact H|]. split; [reflexivity|]. split; [|exact R].
  eapply undisturbed_trans; [apply undisturbed_same; exact S1|]. eauto using undisturbed_trans.
Qed.

Lemma failed_step (e : ota_exit) (w : W) (c : boot_cmd) :
  misc_holds w c -> exists w' c', upgrade_failed e w = Ret e w' /\ misc_holds w' c' /\
    text_of c' = step_text (text_of c) (UpgradeStatus BOOTSTATE_RES_ERROR) /\ undisturbed w w'.
Proof.
  intros Hw. destruct (op_step (UpgradeStatus BOOTSTATE_RES_ERROR) w c Hw) as (w' & c' & E & H & T & U).
  exists w', c'. unfold upgrade_failed, bind. cbn [run_op] in E. rewrite E. auto.
Qed.

(** An image that is refused for its first header or for the headers of its parts. *)
Definition refused (img : list Z) : Prop :=
  fst (get_file_head img) < 0 \/ fst (get_bin_head img (snd (get_file_head img))) < 0.

Lemma refused_step (path : string) (img : list Z) (w : W) (c : boot_cmd) :
  misc_holds w c -> os_image path (oenv w) = Some img -> refused img ->
  exists w' c', apply_image junk path w = Ret GotoFree w' /\ misc_holds w' c' /\
    text_of c' = step_text (text_of c) (UpgradeStatus BOOTSTATE_RES_ERROR) /\ shifted 1 w w'.
Proof.
  intros Hw Hi Hbad. unfold apply_image, bind at 1. rewrite (open_image_some path img w Hi).
  destruct (wf_malloc (dev := misc) (oenv w) sizeof_file_head) as (x1 & E1 & P1).
  unfold bind at 1, tell. cbn [oenv add_fds]. rewrite E1. cbn [negb].
  assert (Hend : forall x2, (forall d q, page d x2 q = page d (oenv w) q) ->
    exists w' c', upgrade_failed GotoFree (set_oenv x2 (add_fds 1 w)) = Ret GotoFree w' /\ misc_holds w' c' /\
      text_of c' = step_text (text_of c) (UpgradeStatus BOOTSTATE_RES_ERROR) /\ shifted 1 w w').
  { intros x2 P2. destruct (failed_step GotoFree (set_oenv x2 (add_fds 1 w)) c) as (w' & c' & E & H & T & [F O]).
    { eapply misc_holds_ext; [|exact Hw]. intros q. apply P2. }
    exists w', c'. split; [exact E|]. split; [exact H|]. split; [exact T|]. split; [exact F|].
    intros d q Hd. rewrite O by exact Hd. apply P2. }
  unfold refused in Hbad. destruct (get_file_head img) as [r2 head]. cbn [fst snd] in Hbad.
  destruct (Z.ltb_spec r2 0) as [_|Hr2]; [apply Hend; intros; apply P1|].
  destruct (alloc_heads_spec misc im bm page (Z.to_nat (sum head)) (set_oenv x1 (add_fds 1 w))) as (x2 & E2 & P2).
  unfold bind at 1. cbn [set_oenv] in *. rewrite E2. cbn [negb].
  destruct (get_bin_head img head) as [r3 bins]. cbn [fst] in Hbad.
  rewrite (proj2 (Z.ltb_lt r3 0)) by lia. apply Hend. intros d q. rewrite P2. apply P1.
Qed.

(** How a run with nothing to install leaves the branch. *)
Definition nothing_installed (choice : Z) (path : string) : Prop :=
  choice <> OTA_UPDATE \/ (forall x, os_image path x = None) \/
  (exists img, (forall x, os_image path x = Some img) /\ refused img).

Lemma choice_step (choice : Z) (path : string) (w : W) (c : boot_cmd) :
  misc_holds w c -> table_is tab w -> nothing_installed choice path ->
  choice = OTA_UPDATE \/ choice = DATA_FLUSHED \/ choice = -1 -> 0 <= choice ->
  exists e w' c', ota_choice junk choice path w = Ret e w' /\ misc_holds w' c' /\ e <> ReturnNow /\
    (e = if choice =? DATA_FLUSHED then FallThrough false else if 0 <? held e then GotoFree else GotoReboot) /\
    text_of c' = (if choice =? DATA_FLUSHED then text_of c
                  else step_text (text_of c) (UpgradeStatus BOOTSTATE_RES_ERROR)) /\ shifted (held e) w w'.
Proof.
  intros Hw Ht Hcase Hch Hpos. unfold ota_choice, bind at 1.
  destruct Hch as [->|[->|]]; [| |lia].
  - change (OTA_UPDATE =? DATA_FLUSHED) with false. change (OTA_UPDATE =? OTA_UPDATE) with true. cbv iota.
    destruct (steady_step (mount_data YODABASE_FSTAB) w c) as (r & w1 & E1 & H1 & U1);
      [intros; now apply mount_data_steady|exact Hw|now apply (mount_data_returns tab)|].
    unfold bind at 1. rewrite E1. apply shifted_0 in U1.
    destruct Hcase as [Hn|[Hn|(img & Hi & Hbad)]]; [now contradiction Hn| |].
    + unfold apply_image, open_image, bind at 1. unfold bind at 1, ask, gets. rewrite Hn. unfold bind at 1, ret at 1 2.
      destruct (failed_step GotoReboot w1 c H1) as (w' & c' & E & H & T & U).
      apply shifted_0 in U. exists GotoReboot, w', c'.
      split; [exact E|]. do 2 (split; [discriminate || assumption|]). split; [reflexivity|]. split; [exact T|].
      exact (shifted_trans _ _ _ _ _ U1 U).
    + destruct (refused_step path img w1 c H1 (Hi _) Hbad) as (w' & c' & E & H & T & U). exists GotoFree, w', c'.
      split; [exact E|]. do 2 (split; [discriminate || assumption|]). split; [reflexivity|]. split; [exact T|].
      exact (shifted_trans _ _ _ _ _ U1 U).
  - change (DATA_FLUSHED =? DATA_FLUSHED) with true. cbv iota.
    destruct (steady_step (flush_data YODABASE_FSTAB) w c) as (r & w1 & E1 & H1 & U1);
      [intros; now apply flush_data_steady|exact Hw|now apply (flush_data_returns tab)|].
    rewrite E1. apply shifted_0 in U1. exists (FallThrough false), w1, c.
    split; [reflexivity|]. split; [exact H1|]. split; [discriminate|]. auto.
Qed.


End Run.

(** ** A board that runs an update *)

Definition run_os : OtaEnv (list flash_op) := update_os system_image.

Definition demo_table : list partition_info :=
  Eval vm_compute in
    match @get_partitions_info _ run_os MAX_PARTITIONS_NUM YODABASE_FSTAB demo_block with
    | Ret (Some l) _ => l
    | _ => []
    end.

#[local] Instance run_data : @DataBoard _ run_os demo_table.
Proof.
  split; [intros [x tr n parts]; reflexivity|intros [x tr n parts]; eexists; eexists; vm_compute; reflexivity|reflexivity].
Defined.

#[local] Instance run_quiet : @QuietShell _ run_os (demo_page board_info) (fun _ => True).
Proof. split. reflexivity. Defined.

(** A command in a block otherwise empty. *)
Definition arr (n : nat) (s : string) : list Z := firstn n (str_bytes s ++ repeat 0 n).

Definition armed_cmd (mode state path : string) : boot_cmd :=
  mk_boot_cmd (arr 32 mode) (arr 256 path) (arr 32 state) (arr 32 RECOVERY_PART_A) (arr 32 "") (arr 32 "")
    (arr 48 "") (arr 144 "").

Definition armed (mode : string) : oworld (list flash_op) :=
  match @set_recovery_cmd_status _ run_os (armed_cmd mode BOOTSTATE_RUN demo_path) demo_block with
  | Ret _ w => mk_oworld (oenv w) [] 0 []
  | Fault _ => demo_block
  end.

Definition update_block : oworld (list flash_op) := Eval vm_compute in armed BOOTMODE_RECOVERY.

Definition flush_block : oworld (list flash_op) := Eval vm_compute in armed BOOTMODE_FLUSHDATA.

Lemma arr_chars (n : nat) (s : string) : chars n (arr n s).
Proof.
  split; [unfold arr; rewrite length_firstn, length_app, repeat_length; lia|].
  apply Forall_firstn, Forall_app. split; [apply str_bytes_byte|apply zeros_chars].
Qed.

Lemma armed_ok (mode : string) : boot_cmd_ok (armed_cmd mode BOOTSTATE_RUN demo_path).
Proof. unfold boot_cmd_ok, armed_cmd. cbn -[chars arr]. auto 10 using arr_chars. Qed.



(** ** What goes wrong *)

(** The text of a sum needs 49 bytes: with the 48 of its array alone the first part
    of an update overflows it. *)
Lemma sum_overflows : @ota_main _ run_os 48 ilp32 demo_ctx update_block = Fault BufferOverflow.
Proof. vm_compute. reflexivity. Qed.

(** An image whose part headers cannot be read: the failed read passes for a
    complete one, nothing is installed and the update is recorded as successful. *)
Definition unreadable_image : list Z := (firstn 256 system_image ++ (-1) :: skipn 257 system_image)%list.

Lemma unreadable_headers_pass :
  get_bin_head unreadable_image system_head = (0, [zero_bin]) /\
  match @apply_image _ (update_os unreadable_image) 49 ilp32 demo_ctx demo_path update_block with
  | Ret e w => e = FallThrough true /\
      firstn 6 (view "/dev/mtd3" board_info board_bad (demo_page board_info) (oenv w) 0) =
      firstn 6 (view "/dev/mtd3" board_info board_bad (demo_page board_info) (oenv update_block) 0)
  | Fault _ => False
  end.
Proof. vm_compute. repeat split; reflexivity. Qed.
