(* ===== verification/Gesture.v ===== *)
(** * Clicks: the gesture machine of the input library

    [click_event] of [framework/libs/inputevent/src/input-event-hot.c], which turns
    presses, repeats and releases of keys into single, double and long clicks, and
    the records it works on.  Times are [long]s of the width [ULong]: the sources
    compute them in milliseconds, where a 32-bit [long] wraps every 49 days; the
    theorem shows that the classification does not depend on it. *)

From Stdlib Require Import ZArith List Bool Lia.
From S2P Require Import Prelude.
Import ListNotations.
Open Scope Z_scope.

(** ** Data *)

Definition EV_KEY : Z := 1.
Definition EV_SW : Z := 5.
Definition ACTION_SINGLE_CLICK : Z := 1.
Definition ACTION_DOUBLE_CLICK : Z := 2.
Definition ACTION_LONG_CLICK : Z := 3.

Record click_gesture := mk_click { use : bool; cg_type : Z; cg_key_code : Z; cg_key_value : Z; downtime : Z }.

Record gesture := mk_gesture {
  new_action : bool; action : Z; g_type : Z; g_key_code : Z; slide_value : Z; long_press_time : Z }.

Record keyevent := mk_keyevent { e_type : Z; key_code : Z; value : Z; key_time : Z }.

Section Click.
Context {UL : ULong}.

(** The assignments to the caller's gesture. *)
Definition clicked (act code : Z) (ge : gesture) : gesture :=
  mk_gesture true act EV_KEY code (slide_value ge) (long_press_time ge).

Definition long_clicked (code time : Z) (ge : gesture) : gesture :=
  mk_gesture true ACTION_LONG_CLICK EV_KEY code (slide_value ge) time.

Definition set_use (b : bool) (g : click_gesture) : click_gesture :=
  mk_click b (cg_type g) (cg_key_code g) (cg_key_value g) (downtime g).

Definition set_value (v : Z) (g : click_gesture) : click_gesture :=
  mk_click (use g) (cg_type g) (cg_key_code g) v (downtime g).

(** The event replaces what is cached; [downtime] is an [unsigned long]. *)
Definition cache (ev : keyevent) (g : click_gesture) : click_gesture :=
  mk_click true (cg_type g) (key_code ev) (value ev) (wrapul (key_time ev)).

(** [(event->key_time - downtime) > double_click_timeout], in [unsigned long]. *)
Definition is_late (timeout : Z) (ev : keyevent) (g : click_gesture) : bool :=
  wrapul timeout <? wrapul (key_time ev - downtime g).

Definition held_time (ev : keyevent) (g : click_gesture) : Z := wrapsl (key_time ev - downtime g).

Definition key_press (timeout : Z) (ev : keyevent) (g : click_gesture) (ge : gesture)
  : click_gesture * gesture :=
  if negb (use g) then (cache ev g, ge)
  else if key_code ev =? cg_key_code g then
    if is_late timeout ev g then
      (mk_click true (cg_type g) (cg_key_code g) (value ev) (wrapul (key_time ev)),
       clicked ACTION_SINGLE_CLICK (key_code ev) ge)
    else (set_use false g, clicked ACTION_DOUBLE_CLICK (key_code ev) ge)
  else
    (cache ev g,
     if cg_key_value g =? 2 then long_clicked (cg_key_code g) (held_time ev g) ge
     else clicked ACTION_SINGLE_CLICK (cg_key_code g) ge).

Definition key_up (timeout : Z) (ev : keyevent) (g : click_gesture) (ge : gesture)
  : click_gesture * gesture :=
  if use g && (key_code ev =? cg_key_code g) then
    if cg_key_value g =? 2 then
      (set_value (value ev) (set_use false g), long_clicked (cg_key_code g) (held_time ev g) ge)
    else if is_late timeout ev g then
      (set_value (value ev) (set_use false g), clicked ACTION_SINGLE_CLICK (cg_key_code g) ge)
    else (set_value (value ev) g, ge)
  else (g, ge).

Definition key_repeat (ev : keyevent) (g : click_gesture) (ge : gesture) : click_gesture * gesture :=
  if use g && (cg_key_code g =? key_code ev) then
    (set_value (value ev) g, long_clicked (cg_key_code g) (held_time ev g) ge)
  else
    (cache ev g,
     if use g && (cg_key_value g =? 0) then clicked ACTION_SINGLE_CLICK (cg_key_code g) ge else ge).

(** No event is the timeout of [epoll_wait]. *)
Definition click_event (timeout : Z) (event : option keyevent) (g : click_gesture) (ge : gesture)
  : click_gesture * gesture * bool :=
  let '(g', ge') :=
    match event with
    | None =>
        if use g && (cg_key_value g =? 0)
        then (set_use false g, clicked ACTION_SINGLE_CLICK (cg_key_code g) ge)
        else (g, ge)
    | Some ev =>
        if value ev =? 1 then key_press timeout ev g ge
        else if value ev =? 0 then key_up timeout ev g ge
        else if value ev =? 2 then key_repeat ev g ge
        else (g, ge)
    end in
  (g', ge', new_action ge').

(** ** Reports *)

Inductive report := Single (key : Z) | Double (key : Z) | Long (key time : Z).

(** What a caller finds in its gesture. *)
Definition report_of (ge : gesture) : list report :=
  if new_action ge then
    [if action ge =? ACTION_SINGLE_CLICK then Single (g_key_code ge)
     else if action ge =? ACTION_DOUBLE_CLICK then Double (g_key_code ge)
     else Long (g_key_code ge) (long_press_time ge)]
  else [].

Definition no_gesture : gesture := mk_gesture false 0 0 0 0 0.

(** The machine on a sequence of events, each with a gesture of its own. *)
Fixpoint click_run (timeout : Z) (evs : list (option keyevent)) (g : click_gesture)
  : click_gesture * list report :=
  match evs with
  | [] => (g, [])
  | ev :: evs' =>
      let '(g1, ge, _) := click_event timeout ev g no_gesture in
      let '(g2, out) := click_run timeout evs' g1 in
      (g2, report_of ge ++ out)
  end.

(** ** Strokes *)

(** A key goes down, is perhaps held long enough to repeat, and goes up; times are
    exact milliseconds.  The two flags tell whether the reader timed out while the
    key was down, and after it went up. *)
Record stroke := mk_stroke {
  s_key : Z; s_down : Z; s_idle_down : bool; s_repeats : list Z; s_up : Z; s_idle_up : bool }.

Definition event_at (key v t : Z) : option keyevent := Some (mk_keyevent EV_KEY key v (wrapsl t)).

Definition idle (b : bool) : list (option keyevent) := if b then [None] else [].

(** The events after the press. *)
Definition rest_events (s : stroke) : list (option keyevent) :=
  idle (s_idle_down s) ++ map (event_at (s_key s) 2) (s_repeats s) ++
  event_at (s_key s) 0 (s_up s) :: idle (s_idle_up s).

Definition stroke_events (s : stroke) : list (option keyevent) :=
  event_at (s_key s) 1 (s_down s) :: rest_events s.

(** The reports a user expects of a sequence of strokes.  A key that repeats is a
    long click, told at each repeat and at the release.  Two strokes of a key that
    begin within the timeout are a double click; if the second is held, its repeats
    after the first count from that one. *)
Definition longs (key since : Z) (times : list Z) (up : Z) : list report :=
  map (fun t => Long key (t - since)) (times ++ [up]).

Definition tail_longs (s : stroke) : list report :=
  match s_repeats s with [] => [] | r :: rs => longs (s_key s) r rs (s_up s) end.

Fixpoint gestures_of (timeout : Z) (l : list stroke) : list report :=
  match l with
  | [] => []
  | s :: l' =>
      match s_repeats s, l' with
      | [], s' :: l'' =>
          if (s_key s' =? s_key s) && (s_down s' - s_down s <=? timeout)
          then Double (s_key s) :: tail_longs s' ++ gestures_of timeout l''
          else Single (s_key s) :: gestures_of timeout l'
      | [], [] => [Single (s_key s)]
      | _, _ => longs (s_key s) (s_down s) (s_repeats s) (s_up s) ++ gestures_of timeout l'
      end
  end.

(** A stroke is shorter than half the range of [long]; the reader only times out
    after a release when the next stroke begins later than the timeout, and
    otherwise the next stroke begins within the range of [unsigned long]. *)
Definition held_ok (s : stroke) : Prop :=
  Forall (fun r => s_down s <= r <= s_up s) (s_repeats s) /\ s_down s <= s_up s /\
  s_up s - s_down s < 2 ^ (ulong_bits - 1).

Definition follows (timeout : Z) (s s' : stroke) : Prop :=
  s_up s <= s_down s' /\
  if s_idle_up s then timeout < s_down s' - s_down s else s_down s' - s_down s < 2 ^ ulong_bits.

Fixpoint strokes_ok (timeout : Z) (l : list stroke) : Prop :=
  match l with
  | [] => True
  | s :: l' =>
      held_ok s /\ match l' with [] => True | s' :: _ => follows timeout s s' end /\
      strokes_ok timeout l'
  end.
End Click.

(** ** The arithmetic of times *)

Section Times.
Context {UL : ULong}.

Lemma ulong_pos : 0 < 2 ^ ulong_bits.
Proof. pose proof ulong_wide. apply Z.pow_pos_nonneg; lia. Qed.

Lemma ulong_half : 2 ^ ulong_bits = 2 * 2 ^ (ulong_bits - 1).
Proof. pose proof ulong_wide. rewrite <- Z.pow_succ_r by lia. f_equal. lia. Qed.

Lemma wrapul_mod_eq (a b : Z) : a mod 2 ^ ulong_bits = b mod 2 ^ ulong_bits -> wrapul a = wrapul b.
Proof. exact (fun H => H). Qed.

Lemma wrapsl_mod (t : Z) : wrapsl t mod 2 ^ ulong_bits = t mod 2 ^ ulong_bits.
Proof.
  unfold wrapsl. rewrite Zminus_mod_idemp_l. f_equal. lia.
Qed.

Lemma wrapsl_mod_eq (a b : Z) : a mod 2 ^ ulong_bits = b mod 2 ^ ulong_bits -> wrapsl a = wrapsl b.
Proof.
  intros E. unfold wrapsl. f_equal. rewrite <- Zplus_mod_idemp_l, E, Zplus_mod_idemp_l. reflexivity.
Qed.

(** A difference of two wrapped times is the wrapped difference. *)
Lemma sub_mod (t d : Z) :
  (wrapsl t - wrapul (wrapsl d)) mod 2 ^ ulong_bits = (t - d) mod 2 ^ ulong_bits.
Proof.
  unfold wrapul. rewrite Zminus_mod_idemp_r, <- Zminus_mod_idemp_l, <- Zminus_mod_idemp_r, !wrapsl_mod.
  rewrite Zminus_mod_idemp_l, Zminus_mod_idemp_r. reflexivity.
Qed.

Lemma late_exact (timeout key v t : Z) (g : click_gesture) (d : Z) :
  0 <= timeout < 2 ^ 31 -> downtime g = wrapul (wrapsl d) -> 0 <= t - d < 2 ^ ulong_bits ->
  is_late timeout (mk_keyevent EV_KEY key v (wrapsl t)) g = (timeout <? t - d).
Proof.
  intros HT Hg Ht. unfold is_late. cbn [key_time]. rewrite Hg.
  rewrite (wrapul_mod_eq _ _ (sub_mod t d)). unfold wrapul.
  pose proof ulong_wide. assert (2 ^ 31 <= 2 ^ ulong_bits) by (apply Z.pow_le_mono_r; lia).
  rewrite !Z.mod_small by lia. reflexivity.
Qed.

Lemma held_exact (key v t : Z) (g : click_gesture) (d : Z) :
  downtime g = wrapul (wrapsl d) -> - 2 ^ (ulong_bits - 1) <= t - d < 2 ^ (ulong_bits - 1) ->
  held_time (mk_keyevent EV_KEY key v (wrapsl t)) g = t - d.
Proof.
  intros Hg Ht. unfold held_time. cbn [key_time]. rewrite Hg.
  rewrite (wrapsl_mod_eq _ _ (sub_mod t d)). unfold wrapsl.
  pose proof ulong_half. rewrite Z.mod_small; lia.
Qed.
End Times.

(** ** The machine on strokes *)

Section Strokes.
Context {UL : ULong} (T : Z) (HT : 0 <= T < 2 ^ 31).

(** The three kinds of events. *)
Lemma on_press (k t : Z) (g : click_gesture) (ge : gesture) :
  click_event T (event_at k 1 t) g ge =
  let r := key_press T (mk_keyevent EV_KEY k 1 (wrapsl t)) g ge in (fst r, snd r, new_action (snd r)).
Proof. unfold click_event, event_at. cbn [value]. now destruct (key_press _ _ _ _). Qed.

Lemma on_up (k t : Z) (g : click_gesture) (ge : gesture) :
  click_event T (event_at k 0 t) g ge =
  let r := key_up T (mk_keyevent EV_KEY k 0 (wrapsl t)) g ge in (fst r, snd r, new_action (snd r)).
Proof. unfold click_event, event_at. cbn [value]. now destruct (key_up _ _ _ _). Qed.

Lemma on_repeat (k t : Z) (g : click_gesture) (ge : gesture) :
  click_event T (event_at k 2 t) g ge =
  let r := key_repeat (mk_keyevent EV_KEY k 2 (wrapsl t)) g ge in (fst r, snd r, new_action (snd r)).
Proof. unfold click_event, event_at. cbn [value]. now destruct (key_repeat _ _ _). Qed.

(** Runs compose. *)
Lemma click_run_app (a b : list (option keyevent)) (g g1 g2 : click_gesture) (o1 o2 : list report) :
  click_run T a g = (g1, o1) -> click_run T b g1 = (g2, o2) -> click_run T (a ++ b) g = (g2, o1 ++ o2).
Proof.
  revert g o1. induction a as [|ev a IH]; intros g o1 H1 H2; cbn in *; [now injection H1 as -> <-|].
  destruct (click_event T ev g no_gesture) as [[gm ge] bm].
  destruct (click_run T a gm) as [gn on] eqn:E. injection H1 as -> <-.
  rewrite (IH _ _ E H2). now rewrite app_assoc.
Qed.

Lemma click_run_one (ev : option keyevent) (g g' : click_gesture) (ge : gesture) (b : bool) :
  click_event T ev g no_gesture = (g', ge, b) -> click_run T [ev] g = (g', report_of ge).
Proof. intros E. cbn. rewrite E. now rewrite app_nil_r. Qed.

(** The key [k] is down (or repeats, for value 2) since [d]; the machine waits for a
    second stroke of it; the machine waits for nothing. *)
Definition holds (v k d : Z) (g : click_gesture) : Prop :=
  use g = true /\ cg_key_value g = v /\ cg_key_code g = k /\ downtime g = wrapul (wrapsl d).

Definition clear (g : click_gesture) : Prop := use g = false.

Lemma idle_none (b : bool) (g : click_gesture) :
  use g = false \/ cg_key_value g <> 0 -> click_run T (idle b) g = (g, []).
Proof.
  intros H. destruct b; [|reflexivity]. cbn [idle click_run]. unfold click_event.
  assert (E : use g && (cg_key_value g =? 0) = false)
    by (destruct H as [->|H]; [reflexivity|]; apply andb_false_iff; right; now apply Z.eqb_neq).
  now rewrite E.
Qed.

(** Repeats of the key that is down. *)
Lemma repeats_run (v k d : Z) (rs : list Z) (g : click_gesture) :
  holds v k d g -> Forall (fun r => - 2 ^ (ulong_bits - 1) <= r - d < 2 ^ (ulong_bits - 1)) rs ->
  exists g', click_run T (map (event_at k 2) rs) g = (g', map (fun t => Long k (t - d)) rs) /\
    holds (match rs with [] => v | _ => 2 end) k d g'.
Proof.
  intros Hg Hr. revert v g Hg. induction Hr as [|r rs Hr1 Hr IH]; intros v g (U & V & K & D).
  - exists g. repeat split; auto.
  - destruct (IH 2 (set_value 2 g)) as (g' & E & H'); [now repeat split|].
    exists g'. split; [|destruct rs; exact H'].
    cbn [map click_run]. rewrite on_repeat. unfold key_repeat. cbn [key_code value].
    rewrite U, K, Z.eqb_refl, (held_exact _ _ _ _ _ D Hr1). cbn [andb fst snd].
    rewrite E. reflexivity.
Qed.

(** The release that ends a long press. *)
Lemma up_long (k d t : Z) (g : click_gesture) :
  holds 2 k d g -> - 2 ^ (ulong_bits - 1) <= t - d < 2 ^ (ulong_bits - 1) ->
  exists g', click_run T [event_at k 0 t] g = (g', [Long k (t - d)]) /\ clear g'.
Proof.
  intros (U & V & K & D) Ht. eexists. split; [|shelve].
  cbn [click_run]. rewrite on_up. unfold key_up. cbn [key_code value].
  rewrite U, K, Z.eqb_refl, V, (held_exact _ _ _ _ _ D Ht). reflexivity.
  Unshelve. reflexivity.
Qed.

(** A long press from a state in which the key is down, to its end. *)
Lemma long_run (v k d : Z) (rs : list Z) (up : Z) (b : bool) (g : click_gesture) :
  holds v k d g -> v = 2 \/ rs <> [] ->
  Forall (fun r => - 2 ^ (ulong_bits - 1) <= r - d < 2 ^ (ulong_bits - 1)) (rs ++ [up]) ->
  exists g', click_run T (map (event_at k 2) rs ++ event_at k 0 up :: idle b) g =
               (g', longs k d rs up) /\ clear g'.
Proof.
  intros Hg Hv Hr. apply Forall_app in Hr as [Hr Hu]. apply Forall_inv in Hu.
  destruct (repeats_run v k d rs g Hg Hr) as (g1 & E1 & H1).
  assert (H2 : holds 2 k d g1) by (destruct rs, Hv as [->|]; congruence || exact H1).
  destruct (up_long k d up g1 H2 Hu) as (g2 & E2 & C2). exists g2. split; [|exact C2].
  refine (eq_trans (click_run_app _ _ _ _ _ _ _ E1
             (click_run_app [_] _ _ _ _ _ _ E2 (idle_none b g2 (or_introl C2)))) _).
  unfold longs. rewrite map_app. reflexivity.
Qed.

(** A short stroke, from its press: the single click is told at once when the key was
    held longer than the timeout, or at the timeout of the reader; otherwise the
    machine waits. *)
Lemma short_run (s : stroke) (g : click_gesture) :
  holds 1 (s_key s) (s_down s) g -> held_ok s -> s_repeats s = [] ->
  exists g' out, click_run T (rest_events s) g = (g', out) /\
    (out = [Single (s_key s)] /\ clear g' /\ (T < s_up s - s_down s \/ s_idle_up s = true) \/
     out = [] /\ holds 0 (s_key s) (s_down s) g' /\ s_idle_up s = false).
Proof.
  intros (U & V & K & D) (_ & Hu & Hl) Hr. unfold rest_events. rewrite Hr. cbn [map app].
  pose proof ulong_half. pose proof ulong_pos.
  assert (E0 : click_run T (idle (s_idle_down s)) g = (g, [])) by (apply idle_none; right; lia).
  assert (Eu : click_event T (event_at (s_key s) 0 (s_up s)) g no_gesture =
    if T <? s_up s - s_down s
    then (set_value 0 (set_use false g), clicked ACTION_SINGLE_CLICK (s_key s) no_gesture, true)
    else (set_value 0 g, no_gesture, false)).
  { rewrite on_up. unfold key_up. cbn [key_code value].
    rewrite U, K, Z.eqb_refl, V, (late_exact _ _ _ _ _ _ HT D) by lia. now destruct (T <? _). }
  destruct (Z.ltb_spec T (s_up s - s_down s)) as [Hlate|Hin].
  - eexists _, _. split; [|left; split; [reflexivity|split; [|auto]]].
    + refine (click_run_app _ _ _ _ _ _ _ E0 (click_run_app [_] _ _ _ _ _ _
               (click_run_one _ _ _ _ _ Eu) (idle_none _ _ _))). left. reflexivity.
    + reflexivity.
  - destruct (s_idle_up s) eqn:Ei.
    + eexists _, _. split; [|left; split; [reflexivity|split; [|auto]]].
      * refine (click_run_app _ _ _ _ _ _ _ E0 (click_run_app [_] _ _ _ _ _ _
                 (click_run_one _ _ _ _ _ Eu) (click_run_one None _ _
                   (clicked ACTION_SINGLE_CLICK (s_key s) no_gesture) true _))).
        unfold click_event, set_value. cbn [use cg_key_value Z.eqb]. rewrite U, K. reflexivity.
      * reflexivity.
    + eexists _, _. split; [|right; split; [reflexivity|split; [|auto]]].
      * refine (click_run_app _ _ _ _ _ _ _ E0 (click_run_app [_] _ _ _ _ _ _
                 (click_run_one _ _ _ _ _ Eu) (eq_refl : click_run T (idle false) _ = (_, [])))).
      * now repeat split.
Qed.

(** The rest of the second stroke of a double click. *)
Lemma tail_run (s : stroke) (g : click_gesture) :
  clear g -> held_ok s ->
  exists g', click_run T (rest_events s) g = (g', tail_longs s) /\ clear g'.
Proof.
  intros C (Hr & Hu & Hl). unfold rest_events, tail_longs.
  pose proof (idle_none (s_idle_down s) g (or_introl C)) as E0.
  destruct (s_repeats s) as [|r rs]; cbn [map app].
  - exists g. split; [|exact C].
    assert (Eu : click_event T (event_at (s_key s) 0 (s_up s)) g no_gesture = (g, no_gesture, false))
      by (rewrite on_up; unfold key_up; rewrite C; reflexivity).
    exact (click_run_app _ _ _ _ _ _ _ E0 (click_run_app [_] _ _ _ _ _ _
             (click_run_one _ _ _ _ _ Eu) (idle_none _ _ (or_introl C)))).
  - apply Forall_cons_iff in Hr as [Hr1 Hr].
    assert (Ec : click_event T (event_at (s_key s) 2 r) g no_gesture =
                 (cache (mk_keyevent EV_KEY (s_key s) 2 (wrapsl r)) g, no_gesture, false))
      by (rewrite on_repeat; unfold key_repeat; rewrite C; reflexivity).
    destruct (long_run 2 (s_key s) r rs (s_up s) (s_idle_up s)
                (cache (mk_keyevent EV_KEY (s_key s) 2 (wrapsl r)) g)) as (g' & E & C').
    { now repeat split. }
    { now left. }
    { apply Forall_app. split; [|repeat constructor; lia].
      eapply Forall_impl; [|exact Hr]. cbn. intros a Ha. lia. }
    exists g'. split; [|exact C'].
    exact (click_run_app _ _ _ _ _ _ _ E0 (click_run_app [_] _ _ _ _ _ _
             (click_run_one _ _ _ _ _ Ec) E)).
Qed.

(** The effect of a press. *)
Lemma press_clear (k t : Z) (g : click_gesture) :
  clear g -> exists g', click_run T [event_at k 1 t] g = (g', []) /\ holds 1 k t g'.
Proof.
  intros C. eexists. split.
  - cbn [click_run]. rewrite on_press. unfold key_press. rewrite C. reflexivity.
  - now repeat split.
Qed.

Lemma press_waiting (k t k0 d : Z) (g : click_gesture) :
  holds 0 k0 d g -> 0 <= t - d < 2 ^ ulong_bits ->
  exists g', if (k =? k0) && (t - d <=? T)
    then click_run T [event_at k 1 t] g = (g', [Double k0]) /\ clear g'
    else click_run T [event_at k 1 t] g = (g', [Single k0]) /\ holds 1 k t g'.
Proof.
  intros (U & V & K & D) Ht. cbn [click_run]. rewrite on_press. unfold key_press.
  cbn [key_code value]. rewrite U, K, V. cbn [negb].
  rewrite (late_exact _ _ _ _ _ _ HT D Ht), Z.leb_antisym.
  destruct (Z.eqb_spec k k0) as [->|]; [destruct (T <? t - d)|]; cbn [andb negb];
    eexists; (split; [reflexivity|now repeat split]).
Qed.

(** A stroke from its press on, with those that follow. *)
Definition flushed (l : list stroke) : list (option keyevent) := flat_map stroke_events l ++ [None].

Lemma from_press (s : stroke) (l : list stroke) (g : click_gesture) :
  holds 1 (s_key s) (s_down s) g -> strokes_ok T (s :: l) ->
  (forall g', clear g' -> snd (click_run T (flushed l) g') = gestures_of T l) ->
  (forall s0 g', holds 0 (s_key s0) (s_down s0) g' -> s_repeats s0 = [] -> strokes_ok T (s0 :: l) ->
     s_idle_up s0 = false -> snd (click_run T (flushed l) g') = gestures_of T (s0 :: l)) ->
  snd (click_run T (rest_events s ++ flushed l) g) = gestures_of T (s :: l).
Proof.
  intros Hg (Hs & Hf & Hl) IHc IHp. destruct (s_repeats s) as [|r rs] eqn:Er.
  - destruct (short_run s g Hg Hs Er) as (g1 & out & E1 & [(-> & C & Hlate)|(-> & H1 & Hi)]);
      destruct (click_run T (flushed l) g1) as [g2 o2] eqn:E2;
      rewrite (click_run_app _ _ _ _ _ _ _ E1 E2); cbn [snd].
    + pose proof (IHc g1 C) as E. rewrite E2 in E. cbn [snd] in E. subst o2.
      cbn [gestures_of app]. rewrite Er. destruct l as [|s' l']; [reflexivity|].
      assert (Hb : (s_down s' - s_down s <=? T) = false).
      { apply Z.leb_gt. destruct Hf as [Hf1 Hf2], Hlate as [|Hi]; [lia|]. now rewrite Hi in Hf2. }
      now rewrite Hb, andb_false_r.
    + rewrite <- (IHp s g1 H1 Er (conj Hs (conj Hf Hl)) Hi), E2. reflexivity.
  - destruct (long_run 1 (s_key s) (s_down s) (r :: rs) (s_up s) (s_idle_up s) g Hg) as (g1 & E1 & C1).
    { now right. }
    { destruct Hs as (Hr & Hu & Hlen). rewrite Er in Hr. apply Forall_app.
      split; [|repeat constructor; lia]. eapply Forall_impl; [|exact Hr]. cbn. intros a Ha. lia. }
    assert (E0 : click_run T (idle (s_idle_down s)) g = (g, []))
      by (apply idle_none; right; destruct Hg as (_ & -> & _); discriminate).
    assert (E : click_run T (rest_events s) g = (g1, longs (s_key s) (s_down s) (r :: rs) (s_up s)))
      by (unfold rest_events; rewrite Er; exact (click_run_app _ _ _ _ _ _ _ E0 E1)).
    destruct (click_run T (flushed l) g1) as [g2 o2] eqn:E2.
    rewrite (click_run_app _ _ _ _ _ _ _ E E2). cbn [snd gestures_of]. rewrite Er.
    rewrite <- (IHc g1 C1), E2. now destruct l.
Qed.

(** Both states of the machine between strokes. *)
Lemma strokes_run (n : nat) (l : list stroke) :
  (length l <= n)%nat ->
  (forall g, clear g -> strokes_ok T l -> snd (click_run T (flushed l) g) = gestures_of T l) /\
  (forall s g, holds 0 (s_key s) (s_down s) g -> s_repeats s = [] -> strokes_ok T (s :: l) ->
     s_idle_up s = false -> snd (click_run T (flushed l) g) = gestures_of T (s :: l)).
Proof.
  revert l. induction n as [|n IH]; intros [|s' l] Hn; try (cbn in Hn; lia).
  1,2: split; [intros g C _|intros s g (U & V & K & D) Er _ _];
       cbn [flushed flat_map app click_run]; unfold click_event;
       [rewrite C|rewrite U, V; cbn [gestures_of]; rewrite Er, K]; reflexivity.
  cbn [length] in Hn.
  assert (IHl : forall l', (length l' <= n)%nat -> _) by exact IH.
  assert (Hev : flushed (s' :: l) = [event_at (s_key s') 1 (s_down s')] ++ rest_events s' ++ flushed l)
    by (unfold flushed; cbn [flat_map stroke_events app]; now rewrite <- app_assoc).
  rewrite Hev. split.
  - intros g C Hok. destruct (press_clear (s_key s') (s_down s') g C) as (g1 & E1 & H1).
    destruct (click_run T (rest_events s' ++ flushed l) g1) as [g2 o2] eqn:E2.
    rewrite (click_run_app _ _ _ _ _ _ _ E1 E2). cbn [snd app].
    rewrite <- (from_press s' l g1 H1 Hok), E2; [reflexivity|..].
    + intros g' C'. apply (IHl l); [lia|exact C'|apply Hok].
    + intros s0 g' H0 R0 K0 I0. apply (IHl l); [lia|assumption..].
  - intros s g Hg Er (Hs & Hf & Hok) Hi.
    assert (Ht : 0 <= s_down s' - s_down s < 2 ^ ulong_bits)
      by (destruct Hf as [Hf1 Hf2], Hs as (_ & Hs1 & _); rewrite Hi in Hf2; lia).
    destruct (press_waiting (s_key s') (s_down s') _ _ g Hg Ht) as (g1 & E1).
    cbn [gestures_of]. rewrite Er.
    destruct ((s_key s' =? s_key s) && (s_down s' - s_down s <=? T)) eqn:Eb.
    + destruct E1 as [E1 C1]. destruct (tail_run s' g1 C1 (proj1 Hok)) as (g2 & E2 & C2).
      destruct (click_run T (flushed l) g2) as [g3 o3] eqn:E3.
      rewrite (click_run_app _ _ _ _ _ _ _ E1 (click_run_app _ _ _ _ _ _ _ E2 E3)). cbn [snd app].
      rewrite <- (proj1 (IHl l ltac:(lia)) g2 C2 (proj2 (proj2 Hok))), E3. reflexivity.
    + destruct E1 as [E1 H1].
      destruct (click_run T (rest_events s' ++ flushed l) g1) as [g2 o2] eqn:E2.
      rewrite (click_run_app _ _ _ _ _ _ _ E1 E2). cbn [snd app]. f_equal.
      change (snd (g2, o2) = gestures_of T (s' :: l)). rewrite <- E2.
      apply (from_press s' l g1 H1 Hok).
      * intros g' C'. apply (IHl l); [lia|exact C'|apply Hok].
      * intros s0 g' H0 R0 K0 I0. apply (IHl l); [lia|assumption..].
Qed.
End Strokes.

(** C19: On any sequence of strokes, from a machine that waits for nothing, the events
    of the strokes followed by a timeout of the reader make [click_event] report
    exactly the gestures of the strokes, in order, although the times it sees have
    wrapped around: a double click for two strokes of a key that begin within the
    timeout, paired from the first, long clicks with their exact durations for keys
    that repeat, and a single click for every other stroke. *)
Theorem clicks_spec {UL : ULong} (T : Z) (l : list stroke) (g : click_gesture) :
  0 <= T < 2 ^ 31 -> use g = false -> strokes_ok T l ->
  snd (click_run T (flat_map stroke_events l ++ [None]) g) = gestures_of T l.
Proof. intros HT C Hl. now apply (strokes_run T HT (length l) l). Qed.

(** A double click across the wrap-around of a 32-bit [long], a long press of another
    key and a late third stroke. *)
Definition demo_strokes : list stroke :=
  [mk_stroke 113 (2 ^ 31 - 100) false [] (2 ^ 31 - 20) false;
   mk_stroke 113 (2 ^ 31 + 200) true [] (2 ^ 31 + 260) false;
   mk_stroke 116 (2 ^ 31 + 400) false [2 ^ 31 + 900; 2 ^ 31 + 1000] (2 ^ 31 + 1050) true;
   mk_stroke 113 (2 ^ 31 + 9000) false [] (2 ^ 31 + 9050) false].

Lemma clicks_spec_witness :
  snd (@click_run ilp32 400 (flat_map (@stroke_events ilp32) demo_strokes ++ [None])
         (mk_click false 0 0 0 0)) =
  [Double 113; Long 116 500; Long 116 600; Long 116 650; Single 113].
Proof.
  rewrite (@clicks_spec ilp32 400 demo_strokes (mk_click false 0 0 0 0));
    [reflexivity|lia|reflexivity|].
  cbn. unfold held_ok, follows. cbn. repeat split; repeat constructor; lia.
Defined.
