(* ===== verification/InputDev.v ===== *)
(** * The memory, the kernel and the device list of the input library

    The state of [framework/libs/inputevent/src/input-event-hot.c]: the handles and
    the device nodes on the heap, the open descriptors, and the answers of the
    system calls.  The node [dev_list] inside a handle has the handle's address.

    The NULL-terminated list of open devices of [input-event-hot.c], with the node
    inside the handle as its head: the operations, and their refinement to a plain
    list of entries. *)

From Stdlib Require Import Ascii String.
From stdpp Require Import base gmap list.
From S2P Require Import Prelude CString Bytes CMonad Dll Gesture.
Open Scope list_scope.
Open Scope Z_scope.

(** ** Data *)

Record input_device := mk_device { dv_fd : Z; dv_name : option string; dv_pre : Z; dv_next : Z }.

Definition MAX_SW_KEY : Z := 8.
Definition EPOLL_MAX_EVENTS : Z := 16.
Definition DEVICE_PATH : string := "/dev/input".

(** [struct input_event_handle] without its [dev_list]; an item of the pending ones
    is the pair of [data.u32] and [events]. *)
Record input_event_handle := mk_handle {
  have_slide_key : bool;
  slide_timeout : Z;
  double_click_timeout : Z;
  mUsingEpollWakeup : bool;
  mEpollFd : Z;
  mINotifyFd : Z;
  wd : Z;
  sw_keycode : list Z;
  sw_keyvalue : list Z;
  sw_keynumber : Z;
  gesture_key : click_gesture;
  mPendingEventItems : list (Z * Z);
  mPendingEventCount : Z;
  mPendingEventIndex : Z;
  mPendingINotify : bool;
}.

(** [struct input_event] of the kernel. *)
Record input_event := mk_input_event { tv_sec : Z; tv_usec : Z; i_type : Z; i_code : Z; i_value : Z }.

(** What [read] of a device returns: an errno, or whole events and a number of bytes
    more. *)
Inductive read_result := ReadError (errno : Z) | ReadEvents (evs : list input_event) (extra : Z).

Definition EINTR : Z := 4.
Definition EAGAIN : Z := 11.
Definition ENODEV : Z := 19.
Definition EPOLLIN : Z := 1.
Definition EPOLLHUP : Z := 16.
Definition EPOLLWAKEUP : Z := 2 ^ 29.
Definition IN_CREATE : Z := 256.

(** ** The operating system *)

(** Answers of the calls, from a state [X] of the outside world.  The calls that
    allocate get the live blocks or the open descriptors. *)
Class InputEnv (X : Type) := {
  io_calloc : gset Z -> X -> option Z * X;
  io_malloc_name : string -> X -> bool * X;
  io_open : string -> gset Z -> X -> Z * X;
  io_epoll_create : gset Z -> X -> Z * X;
  io_inotify_init : gset Z -> X -> Z * X;
  io_inotify_add_watch : Z -> X -> Z * X;
  io_epoll_add : Z -> Z -> X -> Z * X;                 (* descriptor, events *)
  io_epoll_del : Z -> X -> Z * X;
  io_uname : X -> option string * X;                   (* the release *)
  io_readdir : string -> X -> option (list string) * X;
  io_read : Z -> Z -> X -> read_result * X;            (* descriptor, events asked *)
  io_read_byte : Z -> X -> option Z * X;
  io_read_notify : Z -> X -> option (list Z) * X;      (* up to 512 bytes *)
  io_epoll_wait : Z -> X -> (Z + list (Z * Z)) * X;    (* an errno, or the items *)
  io_gettimeofday : X -> (Z * Z) * X;
  io_fopen : string -> gset Z -> X -> option (Z * string) * X;  (* descriptor and content *)
}.

(** [ilog] is a record of the events that [read] has returned so far. *)
Record input (X : Type) := mk_input {
  handles : gmap Z input_event_handle;
  devs : gmap Z input_device;
  ifds : gset Z;
  ilog : list input_event;
  ienv : X;
}.
Arguments mk_input {X}.
Arguments handles {X}.
Arguments devs {X}.
Arguments ifds {X}.
Arguments ilog {X}.
Arguments ienv {X}.

Section World.
Context {X : Type} {E : InputEnv X}.
Local Notation W := (input X).

Definition set_handles h (w : W) : W := mk_input h (devs w) (ifds w) (ilog w) (ienv w).
Definition set_devs d (w : W) : W := mk_input (handles w) d (ifds w) (ilog w) (ienv w).
Definition set_ifds f (w : W) : W := mk_input (handles w) (devs w) f (ilog w) (ienv w).
Definition set_ilog l (w : W) : W := mk_input (handles w) (devs w) (ifds w) l (ienv w).
Definition set_ienv x (w : W) : W := mk_input (handles w) (devs w) (ifds w) (ilog w) x.

(** A system call that only answers. *)
Definition io {A} (f : X -> A * X) : M W A :=
  fun w => let '(a, x) := f (ienv w) in Ret a (set_ienv x w).

(** A call that opens a descriptor, or fails. *)
Definition io_new_fd (f : gset Z -> X -> Z * X) : M W Z :=
  fd <- (fun w => io (f (ifds w)) w) ;;
  (if 0 <=? fd then modify (fun w => set_ifds ({[fd]} ∪ ifds w) w) else ret tt) ;;
  ret fd.

Definition close (fd : Z) : M W unit := modify (fun w => set_ifds (ifds w ∖ {[fd]}) w).

(** [read] of a device, for at most [n] events. *)
Definition read_events (fd n : Z) : M W read_result :=
  r <- io (io_read fd n) ;;
  match r with
  | ReadEvents evs _ => modify (fun w => set_ilog (ilog w ++ evs) w) ;; ret r
  | ReadError _ => ret r
  end.

(** [calloc]: the address, NULL when memory is short. *)
Definition calloc : M W Z :=
  r <- (fun w => io (io_calloc (dom (handles w) ∪ dom (devs w))) w) ;;
  ret (default 0 r).

Definition ld_dev (a : Z) : M W input_device :=
  fun w => match devs w !! a with Some d => Ret d w | None => Fault (bad_pointer a) end.

Definition st_dev (a : Z) (f : input_device -> input_device) : M W unit :=
  d <- ld_dev a ;; modify (fun w => set_devs (<[a := f d]> (devs w)) w).

Definition ld_handle (p : Z) : M W input_event_handle :=
  fun w => match handles w !! p with Some h => Ret h w | None => Fault (bad_pointer p) end.

Definition st_handle (p : Z) (f : input_event_handle -> input_event_handle) : M W unit :=
  h <- ld_handle p ;; modify (fun w => set_handles (<[p := f h]> (handles w)) w).
End World.

Definition dv_set_next (n : Z) (d : input_device) : input_device := mk_device (dv_fd d) (dv_name d) (dv_pre d) n.
Definition dv_set_pre (p : Z) (d : input_device) : input_device := mk_device (dv_fd d) (dv_name d) p (dv_next d).

(** ** Assignments to the fields of a handle *)

Definition h_set_fds (ep ino w : Z) (h : input_event_handle) : input_event_handle :=
  mk_handle (have_slide_key h) (slide_timeout h) (double_click_timeout h) (mUsingEpollWakeup h) ep ino w
    (sw_keycode h) (sw_keyvalue h) (sw_keynumber h) (gesture_key h) (mPendingEventItems h)
    (mPendingEventCount h) (mPendingEventIndex h) (mPendingINotify h).

Definition h_set_wakeup (b : bool) (h : input_event_handle) : input_event_handle :=
  mk_handle (have_slide_key h) (slide_timeout h) (double_click_timeout h) b (mEpollFd h) (mINotifyFd h) (wd h)
    (sw_keycode h) (sw_keyvalue h) (sw_keynumber h) (gesture_key h) (mPendingEventItems h)
    (mPendingEventCount h) (mPendingEventIndex h) (mPendingINotify h).

Definition h_set_sw (codes values : list Z) (n : Z) (h : input_event_handle) : input_event_handle :=
  mk_handle (have_slide_key h) (slide_timeout h) (double_click_timeout h) (mUsingEpollWakeup h) (mEpollFd h)
    (mINotifyFd h) (wd h) codes values n (gesture_key h) (mPendingEventItems h)
    (mPendingEventCount h) (mPendingEventIndex h) (mPendingINotify h).

Definition h_set_gesture (g : click_gesture) (h : input_event_handle) : input_event_handle :=
  mk_handle (have_slide_key h) (slide_timeout h) (double_click_timeout h) (mUsingEpollWakeup h) (mEpollFd h)
    (mINotifyFd h) (wd h) (sw_keycode h) (sw_keyvalue h) (sw_keynumber h) g (mPendingEventItems h)
    (mPendingEventCount h) (mPendingEventIndex h) (mPendingINotify h).

Definition h_set_pending (items : list (Z * Z)) (count index : Z) (h : input_event_handle) : input_event_handle :=
  mk_handle (have_slide_key h) (slide_timeout h) (double_click_timeout h) (mUsingEpollWakeup h) (mEpollFd h)
    (mINotifyFd h) (wd h) (sw_keycode h) (sw_keyvalue h) (sw_keynumber h) (gesture_key h) items count index
    (mPendingINotify h).

Definition h_set_index (index : Z) (h : input_event_handle) : input_event_handle :=
  h_set_pending (mPendingEventItems h) (mPendingEventCount h) index h.

Definition h_set_notify (b : bool) (h : input_event_handle) : input_event_handle :=
  mk_handle (have_slide_key h) (slide_timeout h) (double_click_timeout h) (mUsingEpollWakeup h) (mEpollFd h)
    (mINotifyFd h) (wd h) (sw_keycode h) (sw_keyvalue h) (sw_keynumber h) (gesture_key h) (mPendingEventItems h)
    (mPendingEventCount h) (mPendingEventIndex h) b.

(** ** Laws of the system calls *)

(** [struct inotify_event]: the name is padded with NULs, and absent when the event is
    the directory's own. *)
Record inotify := mk_inotify { in_wd : Z; in_mask : Z; in_cookie : Z; in_name : string; in_pad : nat }.

Definition name_field (e : inotify) : list Z := str_bytes (in_name e) ++ repeat 0 (in_pad e).

Definition inotify_bytes (e : inotify) : list Z :=
  le 4 (in_wd e) ++ le 4 (in_mask e) ++ le 4 (in_cookie e) ++ le 4 (Z.of_nat (length (name_field e))) ++
  name_field e.

Definition inotify_ok (e : inotify) : Prop :=
  0 <= in_mask e < 2 ^ 32 /\ no_nul (in_name e) = true /\
  (in_name e = EmptyString /\ in_pad e = 0%nat \/ in_name e <> EmptyString /\ in_pad e <> 0%nat).

(** Memory is available and new blocks are fresh; new descriptors are not open; a
    read of a device returns whole events, at most those asked for, and one of the
    notifications whole ones within the 512 bytes; [epoll_wait] fills at most the
    array. *)
Class InputKernel (X : Type) `{!InputEnv X} : Prop := {
  calloc_fresh S x r x' : io_calloc S x = (r, x') -> exists a, r = Some a /\ a ∉ S /\ a <> 0;
  name_fits s x : fst (io_malloc_name s x) = true;
  open_fresh path S x fd x' : io_open path S x = (fd, x') -> 0 <= fd -> fd ∉ S;
  epoll_fresh S x fd x' : io_epoll_create S x = (fd, x') -> 0 <= fd -> fd ∉ S;
  inotify_fresh S x fd x' : io_inotify_init S x = (fd, x') -> 0 <= fd -> fd ∉ S;
  fopen_fresh path S x fd text x' : io_fopen path S x = (Some (fd, text), x') -> fd ∉ S /\ 0 <= fd;
  read_bounded fd n x evs extra x' :
    0 <= n -> io_read fd n x = (ReadEvents evs extra, x') -> Z.of_nat (length evs) <= n /\ extra = 0;
  notify_whole fd x buf x' : io_read_notify fd x = (Some buf, x') ->
    exists evs, Forall inotify_ok evs /\ buf = concat (map inotify_bytes evs) /\ (length buf <= 512)%nat;
  wait_bounded t x items x' :
    io_epoll_wait t x = (inr items, x') -> Z.of_nat (length items) <= EPOLL_MAX_EVENTS;
}.

(** * The device list of the input library *)

Section Dev.
Context {X : Type}.
Local Notation W := (input X).

(** The traversals: every node is visited at most once, so that one step per node of
    the heap is enough. *)
Definition devs_fuel (w : W) : nat := S (size (devs w)).

Fixpoint last_dev (fuel : nat) (pos : Z) : M W Z :=
  match fuel with
  | O => stop Hang
  | S fuel' =>
      d <- ld_dev pos ;;
      if dv_next d =? 0 then ret pos else last_dev fuel' (dv_next d)
  end.

Definition add_to_dev_list (list device : Z) : M W Z :=
  pos <- (fun w => last_dev (devs_fuel w) list w) ;;
  st_dev pos (dv_set_next device) ;;
  st_dev device (dv_set_pre pos) ;;
  st_dev device (dv_set_next 0) ;;
  ret 0.

(** The name and the node are released together. *)
Definition del_from_dev_list (device : Z) : M W Z :=
  d <- ld_dev device ;;
  when (negb (dv_pre d =? 0)) (st_dev (dv_pre d) (dv_set_next (dv_next d))) ;;
  when (negb (dv_next d =? 0)) (st_dev (dv_next d) (dv_set_pre (dv_pre d))) ;;
  modify (fun w => set_devs (delete device (devs w)) w) ;;
  ret 0.

(** [while (pos) { if (...) return pos; pos = pos->next; } return NULL] *)
Fixpoint find_dev (fuel : nat) (test : input_device -> M W bool) (pos : Z) : M W Z :=
  match fuel with
  | O => stop Hang
  | S fuel' =>
      if pos =? 0 then ret 0
      else
        d <- ld_dev pos ;;
        b <- test d ;;
        if b then ret pos else find_dev fuel' test (dv_next d)
  end.

(** [strcmp] with a name that may be NULL. *)
Definition same_path (path : string) (d : input_device) : M W bool :=
  match dv_name d with
  | None => stop NullDeref
  | Some n => ret (String.eqb n path)
  end.

Definition getDeviceByPathLocked (list : Z) (devicePath : string) : M W Z :=
  d <- ld_dev list ;;
  (fun w => find_dev (devs_fuel w) (same_path devicePath) (dv_next d) w).

Definition getDeviceByFd (list fd : Z) : M W Z :=
  d <- ld_dev list ;;
  (fun w => find_dev (devs_fuel w) (fun d => ret (dv_fd d =? fd)) (dv_next d) w).
End Dev.

(** ** Lists of entries *)

(** An open device: its node, descriptor and name. *)
Record entry := mk_entry { en_addr : Z; en_fd : Z; en_name : string }.

#[export] Instance entry_eq_dec : EqDecision entry.
Proof. solve_decision. Defined.

(** The nodes from [a] on, whose first has [p] before it and whose last, [q], has [n]
    after it. *)
Fixpoint dlseg (m : gmap Z input_device) (p a : Z) (l : list entry) (q n : Z) : Prop :=
  match l with
  | [] => a = n /\ p = q
  | e :: l' =>
      a = en_addr e /\ exists x, m !! a = Some (mk_device (en_fd e) (Some (en_name e)) p x) /\ dlseg m a x l' q n
  end.

Definition addrs (l : list entry) : list Z := map en_addr l.

(** The list of a handle: its head node, then the devices. *)
Definition devlist (m : gmap Z input_device) (h : Z) (l : list entry) : Prop :=
  exists hd q, m !! h = Some hd /\ dlseg m h (dv_next hd) l q 0 /\ NoDup (h :: addrs l) /\ 0 ∉ h :: addrs l.

Lemma dlseg_app (m : gmap Z input_device) p a l1 l2 q n :
  dlseg m p a (l1 ++ l2) q n <-> exists q1 n1, dlseg m p a l1 q1 n1 /\ dlseg m q1 n1 l2 q n.
Proof.
  revert p a. induction l1 as [|e l1 IH]; intros p a; simpl.
  - split; [|by intros (q1 & n1 & [-> ->] & H)]. intros H. by exists p, a.
  - split.
    + intros (-> & x & E & H). apply IH in H as (q1 & n1 & H1 & H2).
      exists q1, n1. split; [|done]. split; [done|]. by exists x.
    + intros (q1 & n1 & (-> & x & E & H1) & H2). split; [done|]. exists x. split; [done|].
      apply IH. by exists q1, n1.
Qed.

Lemma dlseg_frame (m m' : gmap Z input_device) p a l q n :
  (forall b, b ∈ addrs l -> m' !! b = m !! b) -> dlseg m p a l q n -> dlseg m' p a l q n.
Proof.
  revert p a. induction l as [|e l IH]; intros p a Hm; simpl; [done|].
  intros (-> & x & E & H). split; [done|]. exists x. split.
  - rewrite Hm; [done|]. simpl. set_solver.
  - apply IH; [|done]. intros b Hb. apply Hm. simpl. set_solver.
Qed.

(** The last node, seen from the left. *)
Lemma dlseg_snoc (m : gmap Z input_device) p a l e q n :
  dlseg m p a (l ++ [e]) q n <->
  exists p1, q = en_addr e /\ dlseg m p a l p1 q /\
    m !! q = Some (mk_device (en_fd e) (Some (en_name e)) p1 n).
Proof.
  rewrite dlseg_app. split.
  - intros (q1 & n1 & H1 & (-> & x & Ex & [-> <-])). by exists q1.
  - intros (p1 & -> & H1 & Ex). exists p1, (en_addr e). split; [done|]. simpl. split; [done|]. by exists n.
Qed.

(** Lists keep their entries when only other nodes change. *)
Lemma devlist_frame (m m' : gmap Z input_device) h l :
  (forall b, b ∈ h :: addrs l -> m' !! b = m !! b) -> devlist m h l -> devlist m' h l.
Proof.
  intros Hm (hd & q & Eh & Hs & Hn). exists hd, q. split; [rewrite Hm; [done|set_solver]|].
  split; [|done]. eapply dlseg_frame; [|done]. intros b Hb. apply Hm. set_solver.
Qed.

Lemma devlist_head (m : gmap Z input_device) h l : devlist m h l -> exists d, m !! h = Some d.
Proof. intros (hd & q & Eh & _). by exists hd. Qed.

Lemma dlseg_in (m : gmap Z input_device) p a l q n e :
  dlseg m p a l q n -> e ∈ l -> exists p' n', m !! en_addr e = Some (mk_device (en_fd e) (Some (en_name e)) p' n').
Proof.
  revert p a. induction l as [|e' l IH]; intros p a H He; [set_solver|].
  destruct H as (-> & x & E & H). apply elem_of_cons in He as [->|He]; eauto.
Qed.

Lemma devlist_in (m : gmap Z input_device) h l e :
  devlist m h l -> e ∈ l -> exists p n, m !! en_addr e = Some (mk_device (en_fd e) (Some (en_name e)) p n).
Proof. intros (hd & q & _ & Hs & _). by eapply dlseg_in. Qed.

(** The fuel of a traversal. *)
Lemma dlseg_dom (m : gmap Z input_device) p a l q n b : dlseg m p a l q n -> b ∈ addrs l -> b ∈ dom m.
Proof.
  intros H Hb. apply list_elem_of_fmap in Hb as (e & -> & He).
  destruct (dlseg_in _ _ _ _ _ _ _ H He) as (p' & n' & E). by apply elem_of_dom_2 in E.
Qed.

Lemma devlist_size (m : gmap Z input_device) h l : devlist m h l -> (S (length l) <= size m)%nat.
Proof.
  intros (hd & q & Eh & Hs & Hn & _).
  assert (Hsub : list_to_set (h :: addrs l) ⊆@{gset Z} dom m).
  { intros b Hb. apply elem_of_list_to_set, elem_of_cons in Hb as [->|Hb].
    - by apply elem_of_dom_2 in Eh.
    - by eapply dlseg_dom. }
  apply subseteq_size in Hsub. rewrite size_list_to_set, size_dom in Hsub by done.
  simpl in Hsub. unfold addrs in Hsub. by rewrite length_map in Hsub.
Qed.

(** ** Rules of the primitive operations *)

Section Rules.
Context {X : Type}.
Local Notation W := (input X).

Lemma wp_ld_dev (w : W) a d (Q : input_device -> W -> Prop) :
  devs w !! a = Some d -> Q d w -> wp (ld_dev a) Q w.
Proof. intros E HQ. unfold wp, ld_dev. by rewrite E. Qed.

Lemma wp_st_dev (w : W) a f d (Q : unit -> W -> Prop) :
  devs w !! a = Some d -> Q tt (set_devs (<[a := f d]> (devs w)) w) -> wp (st_dev a f) Q w.
Proof. intros E HQ. unfold wp, st_dev, bind, ld_dev. by rewrite E. Qed.

Lemma last_dev_seg (w : W) p a l q (fuel : nat) :
  dlseg (devs w) p a l q 0 -> 0 ∉ addrs l -> (length l <= fuel)%nat ->
  forall d, devs w !! p = Some d -> dv_next d = a -> last_dev (S fuel) p w = Ret q w.
Proof.
  revert p a fuel. induction l as [|e l IH]; intros p a fuel H H0 Hf d Ed En;
    cbn [last_dev]; unfold bind at 1, ld_dev; rewrite Ed, En.
  - destruct H as [-> ->]. done.
  - destruct H as (-> & x & Ex & H). destruct (Z.eqb_spec (en_addr e) 0) as [E0|_]; [set_solver|].
    destruct fuel as [|fuel]; [simpl in Hf; lia|].
    eapply (IH _ x); [done|set_solver|simpl in Hf; lia|done|done].
Qed.

Lemma find_dev_seg (w : W) (test : input_device -> M W bool) (P : entry -> bool) p a l q (fuel : nat) :
  (forall e p n, e ∈ l -> test (mk_device (en_fd e) (Some (en_name e)) p n) w = Ret (P e) w) ->
  dlseg (devs w) p a l q 0 -> 0 ∉ addrs l -> (length l <= fuel)%nat ->
  find_dev (S fuel) test a w = Ret (match List.find P l with Some e => en_addr e | None => 0 end) w.
Proof.
  revert p a fuel. induction l as [|e l IH]; intros p a fuel HP H H0 Hf; cbn [find_dev].
  - destruct H as [-> _]. done.
  - destruct H as (-> & x & Ex & H). destruct (Z.eqb_spec (en_addr e) 0) as [E0|_]; [set_solver|].
    unfold bind at 1, ld_dev. rewrite Ex. unfold bind at 1. rewrite HP by set_solver. cbn [List.find dv_next].
    destruct (P e); [done|]. destruct fuel as [|fuel]; [simpl in Hf; lia|].
    apply (IH _ _ fuel) in H; [done| |set_solver|simpl in Hf; lia].
    intros e' p' n' He'. apply HP. set_solver.
Qed.
End Rules.

(** ** Relinking *)

(** The head and the first nodes of a list, up to [q], whose successor is [n]. *)
Definition hseg (m : gmap Z input_device) (h : Z) (l : list entry) (q n : Z) : Prop :=
  exists hd, m !! h = Some hd /\ dlseg m h (dv_next hd) l q n.

Lemma hseg_last (m : gmap Z input_device) h l q n :
  hseg m h l q n -> q ∈ h :: addrs l /\ exists d, m !! q = Some d /\ dv_next d = n.
Proof.
  intros (hd & Eh & H). destruct l as [|e l' _] using rev_ind.
  - destruct H as [Hn <-]. split; [set_solver|]. by exists hd.
  - apply dlseg_snoc in H as (p1 & -> & H & Ex). split.
    + unfold addrs. rewrite map_app. set_solver.
    + by eexists.
Qed.

Lemma hseg_frame (m m' : gmap Z input_device) h l q n :
  (forall b, b ∈ h :: addrs l -> m' !! b = m !! b) -> hseg m h l q n -> hseg m' h l q n.
Proof.
  intros Hm (hd & Eh & H). exists hd. split; [rewrite Hm; [done|set_solver]|].
  eapply dlseg_frame; [|done]. intros b Hb. apply Hm. set_solver.
Qed.

Lemma hseg_set_next (m : gmap Z input_device) h l q n n' d :
  hseg m h l q n -> NoDup (h :: addrs l) -> m !! q = Some d ->
  hseg (<[q := dv_set_next n' d]> m) h l q n'.
Proof.
  intros (hd & Eh & H) Hn Ed. destruct l as [|e l' _] using rev_ind.
  - destruct H as [Hx <-]. rewrite Eh in Ed. injection Ed as <-. exists (dv_set_next n' hd). by rewrite lookup_insert_eq.
  - apply dlseg_snoc in H as (p1 & -> & H & Ex). rewrite Ed in Ex. injection Ex as ->.
    unfold addrs in Hn. rewrite map_app in Hn. simpl in Hn.
    apply NoDup_cons in Hn as [Hh Hn]. apply NoDup_app in Hn as (Hn1 & Hn2 & _).
    exists hd. split; [rewrite lookup_insert_ne; [done|set_solver]|].
    apply dlseg_snoc. exists p1. split; [done|]. split; [|by rewrite lookup_insert_eq].
    eapply dlseg_frame; [|done]. intros b Hb. apply lookup_insert_ne. intros <-. apply (Hn2 _ Hb). set_solver.
Qed.

Lemma dlseg_set_pre (m : gmap Z input_device) p p' a e l q n d :
  dlseg m p a (e :: l) q n -> NoDup (addrs (e :: l)) -> m !! a = Some d ->
  dlseg (<[a := dv_set_pre p' d]> m) p' a (e :: l) q n.
Proof.
  intros (-> & x & Ex & H) Hn Ed. rewrite Ed in Ex. injection Ex as ->. simpl in *.
  apply NoDup_cons in Hn as [Hne _]. split; [done|]. exists x. split; [by rewrite lookup_insert_eq|].
  eapply dlseg_frame; [|done]. intros b Hb. apply lookup_insert_ne. by intros <-.
Qed.

Section Refine.
Context {X : Type}.
Local Notation W := (input X).

(** What an operation on the list leaves: the nodes outside, and the rest of the
    state. *)
Definition dev_frame (S : list Z) (w w' : W) : Prop :=
  handles w' = handles w /\ ifds w' = ifds w /\ ilog w' = ilog w /\ ienv w' = ienv w /\
  forall b, b ∉ S -> devs w' !! b = devs w !! b.

Lemma add_to_dev_list_ok (w : W) (h : Z) (l : list entry) (e : entry) (p n : Z) :
  devlist (devs w) h l ->
  devs w !! en_addr e = Some (mk_device (en_fd e) (Some (en_name e)) p n) ->
  en_addr e ∉ h :: addrs l -> en_addr e <> 0 ->
  wp (add_to_dev_list h (en_addr e))
     (fun _ w' => devlist (devs w') h (l ++ [e]) /\ dev_frame (en_addr e :: h :: addrs l) w w') w.
Proof.
  intros Hl Ee Hne H0. pose proof Hl as (hd & q & Eh & Hs & Hn & Hz).
  assert (Hh : hseg (devs w) h l q 0) by by exists hd.
  destruct (hseg_last _ _ _ _ _ Hh) as (Hq & d & Ed & En).
  assert (Hqe : q <> en_addr e) by set_solver.
  unfold add_to_dev_list. apply wp_bind. eapply wp_eq.
  { eapply last_dev_seg; [done|set_solver|apply Nat.lt_le_incl, (devlist_size _ _ _ Hl)|done|done]. }
  apply wp_bind. eapply wp_st_dev; [exact Ed|].
  apply wp_bind. eapply wp_st_dev; [simpl; by rewrite lookup_insert_ne by done|].
  apply wp_bind. eapply wp_st_dev; [simpl; by rewrite lookup_insert_eq|].
  apply wp_ret. simpl.
  rewrite insert_insert_eq. split.
  - apply (hseg_set_next _ _ _ _ _ (en_addr e) d) in Hh as Hh'; [|done|done].
    apply (hseg_frame _ (<[en_addr e := mk_device (en_fd e) (Some (en_name e)) q 0]>
                          (<[q := dv_set_next (en_addr e) d]> (devs w)))) in Hh' as (hd' & Eh' & Hs').
    2: { intros b Hb. apply lookup_insert_ne. set_solver. }
    exists hd', (en_addr e). split; [exact Eh'|]. split.
    + apply dlseg_snoc. exists q. split; [done|]. split; [exact Hs'|]. by rewrite lookup_insert_eq.
    + unfold addrs in *. rewrite map_app. simpl. split; [|set_solver].
      rewrite app_comm_cons. apply NoDup_app. split; [done|]. split; [set_solver|]. apply NoDup_singleton.
  - split_and!; [done..|]. intros b Hb. simpl. rewrite !lookup_insert_ne by set_solver. done.
Qed.

Lemma del_from_dev_list_ok (w : W) (h : Z) (l1 l2 : list entry) (e : entry) :
  devlist (devs w) h (l1 ++ e :: l2) ->
  wp (del_from_dev_list (en_addr e))
     (fun _ w' => devlist (devs w') h (l1 ++ l2) /\ devs w' !! en_addr e = None /\
                  dev_frame (h :: addrs (l1 ++ e :: l2)) w w') w.
Proof.
  intros (hd & q & Eh & Hs & Hn & Hz).
  apply dlseg_app in Hs as (q1 & n1 & Hs1 & (-> & x & Ex & Hs2)).
  assert (Hh : hseg (devs w) h l1 q1 (en_addr e)) by by exists hd.
  destruct (hseg_last _ _ _ _ _ Hh) as (Hq & d & Ed & En).
  unfold addrs in Hn, Hz. rewrite map_app in Hn, Hz. simpl in Hn, Hz. fold (addrs l1) (addrs l2) in Hn, Hz.
  rewrite app_comm_cons in Hn, Hz. apply NoDup_app in Hn as (Hn1 & Hn12 & Hn2).
  apply NoDup_cons in Hn2 as [Hne Hn2].
  assert (Hq0 : q1 <> 0) by set_solver. assert (Hqe : q1 <> en_addr e) by set_solver.
  assert (HeS : en_addr e ∉ h :: addrs l1) by set_solver.
  assert (HN : NoDup ((h :: addrs l1) ++ addrs l2)).
  { apply NoDup_app. split_and!; [done| |done]. clear -Hn12. intros b Hb. specialize (Hn12 b Hb). set_solver. }
  assert (H0 : 0 ∉ (h :: addrs l1) ++ addrs l2) by (clear -Hz; set_solver).
  unfold del_from_dev_list. apply wp_bind. eapply wp_ld_dev; [exact Ex|]. simpl.
  apply Z.eqb_neq in Hq0 as ->. simpl. apply wp_bind. eapply wp_st_dev; [exact Ed|].
  set (m1 := <[q1 := dv_set_next x d]> (devs w)).
  assert (Hh1 : hseg m1 h l1 q1 x) by (eapply hseg_set_next; done).
  assert (Hs1' : dlseg m1 (en_addr e) x l2 q 0).
  { eapply dlseg_frame; [|exact Hs2]. intros b Hb. apply lookup_insert_ne. set_solver. }
  assert (Hm : forall m2 : gmap Z input_device,
    (forall b, b ∈ h :: addrs l1 -> m2 !! b = m1 !! b) -> dlseg m2 q1 x l2 (match l2 with [] => q1 | _ => q end) 0 ->
    (forall b, b ∉ h :: addrs l1 ++ addrs l2 -> m2 !! b = m1 !! b) ->
    devlist (delete (en_addr e) m2) h (l1 ++ l2) /\ delete (en_addr e) m2 !! en_addr e = None /\
    forall b, b ∉ h :: addrs (l1 ++ e :: l2) -> delete (en_addr e) m2 !! b = devs w !! b).
  { intros m2 HmL Hs3 HmO. split; [|split; [by rewrite lookup_delete_eq|]].
    - apply (hseg_frame _ (delete (en_addr e) m2)) in Hh1 as (hd' & Eh' & Hs').
      2: { intros b Hb. rewrite lookup_delete_ne by set_solver. by apply HmL. }
      exists hd', (match l2 with [] => q1 | _ => q end). split; [done|]. split.
      + apply dlseg_app. exists q1, x. split; [done|]. eapply dlseg_frame; [|exact Hs3].
        intros b Hb. apply lookup_delete_ne. set_solver.
      + unfold addrs. rewrite map_app. fold (addrs l1) (addrs l2). rewrite app_comm_cons. by split.
    - intros b Hb. unfold addrs in Hb. rewrite map_app in Hb. simpl in Hb. fold (addrs l1) (addrs l2) in Hb.
      rewrite lookup_delete_ne, HmO by set_solver. apply lookup_insert_ne. set_solver. }
  destruct l2 as [|e2 l2].
  - destruct Hs1' as [-> <-]. simpl. apply wp_bind, wp_ret. apply wp_bind, wp_modify, wp_ret. simpl.
    destruct (Hm m1) as (H1 & H2 & H3); [done|done|done|]. by split_and!.
  - assert (Hx : x = en_addr e2) by by destruct Hs1'. assert (Hx0 : x <> 0) by (rewrite Hx; set_solver).
    pose proof Hs1' as (_ & x2 & Ex2 & _).
    apply Z.eqb_neq in Hx0 as ->. simpl. apply wp_bind. eapply wp_st_dev; [exact Ex2|].
    apply wp_bind, wp_modify, wp_ret. cbn [devs set_devs].
    destruct (Hm (<[x := dv_set_pre q1 (mk_device (en_fd e2) (Some (en_name e2)) (en_addr e) x2)]> m1)) as (H1 & H2 & H3).
    + intros b Hb. apply lookup_insert_ne. rewrite Hx. set_solver.
    + eapply dlseg_set_pre; [exact Hs1'|done|done].
    + intros b Hb. apply lookup_insert_ne. rewrite Hx. set_solver.
    + by split_and!.
Qed.

(** The searches return the first entry that matches. *)
Lemma getDeviceByPathLocked_ok (w : W) (h : Z) (l : list entry) (path : string) :
  devlist (devs w) h l ->
  getDeviceByPathLocked h path w =
  Ret (match List.find (fun e => String.eqb (en_name e) path) l with Some e => en_addr e | None => 0 end) w.
Proof.
  intros Hl. pose proof Hl as (hd & q & Eh & Hs & Hn & Hz).
  unfold getDeviceByPathLocked, bind at 1, ld_dev. rewrite Eh.
  pose proof (devlist_size _ _ _ Hl). unfold devs_fuel.
  eapply (find_dev_seg _ _ (fun e => String.eqb (en_name e) path)); [done|exact Hs|set_solver|lia].
Qed.

Lemma getDeviceByFd_ok (w : W) (h : Z) (l : list entry) (fd : Z) :
  devlist (devs w) h l ->
  getDeviceByFd h fd w =
  Ret (match List.find (fun e => en_fd e =? fd) l with Some e => en_addr e | None => 0 end) w.
Proof.
  intros Hl. pose proof Hl as (hd & q & Eh & Hs & Hn & Hz).
  unfold getDeviceByFd, bind at 1, ld_dev. rewrite Eh.
  pose proof (devlist_size _ _ _ Hl). unfold devs_fuel.
  eapply (find_dev_seg _ _ (fun e => en_fd e =? fd)); [done|exact Hs|set_solver|lia].
Qed.
End Refine.
