(* ===== verification/InputHot.v ===== *)
(** * Reading keys: the input library

    [framework/libs/inputevent/src/input-event-hot.c]: opening and closing the devices
    of [/dev/input] as they come and go, the switches of [/etc/gpio.config], and
    [read_input_events], which delivers key events and the gesture they make. *)

From Stdlib Require Import Ascii String.
From stdpp Require Import base gmap list.
From S2P Require Import Prelude CString Bytes CMonad Dll Gesture InputDev.
Open Scope string_scope.
Open Scope list_scope.
Open Scope Z_scope.

Section Hot.
Context {UL : ULong} {X : Type} {E : InputEnv X}.
Local Notation W := (input X).

(** ** Devices *)

Definition openDeviceLocked (p : Z) (devicePath : string) : M W Z :=
  fd <- io_new_fd (io_open devicePath) ;;
  if fd <? 0 then ret (-1)
  else
    device <- calloc ;;
    if device =? 0 then stop NullDeref
    else
      modify (fun w => set_devs (<[device := mk_device fd None 0 0]> (devs w)) w) ;;
      ok <- io (io_malloc_name devicePath) ;;
      if negb ok then stop NullDeref
      else
        st_dev device (fun d => mk_device (dv_fd d) (Some devicePath) (dv_pre d) (dv_next d)) ;;
        add_to_dev_list p device ;;
        h <- ld_handle p ;;
        let events := if mUsingEpollWakeup h then Z.lor EPOLLIN EPOLLWAKEUP else EPOLLIN in
        r <- io (io_epoll_add fd events) ;;
        ret (if r =? 0 then 0 else -1).

Definition closeDeviceLocked (p device : Z) : M W Z :=
  if device =? 0 then ret 0
  else
    d <- ld_dev device ;;
    io (io_epoll_del (dv_fd d)) ;;
    when (0 <=? dv_fd d) (close (dv_fd d)) ;;
    del_from_dev_list device ;;
    ret 0.

(** The successor is read before the node is released. *)
Fixpoint close_from (fuel : nat) (p pos : Z) : M W unit :=
  match fuel with
  | O => stop Hang
  | S fuel' =>
      if pos =? 0 then ret tt
      else
        d <- ld_dev pos ;;
        closeDeviceLocked p pos ;;
        close_from fuel' p (dv_next d)
  end.

Definition closeAllDeviceLocked (p : Z) : M W Z :=
  hd <- ld_dev p ;;
  (fun w => close_from (devs_fuel w) p (dv_next hd) w) ;;
  ret 0.

Definition closeDeviceLockedbyPath (p : Z) (devicePath : string) : M W Z :=
  device <- getDeviceByPathLocked p devicePath ;;
  if device =? 0 then ret (-1) else closeDeviceLocked p device.

Definition is_dot (name : string) : bool := String.eqb name "." || String.eqb name "..".

Definition scanDirLocked (p : Z) (dirname : string) : M W Z :=
  dir <- io (io_readdir dirname) ;;
  match dir with
  | None => ret (-1)
  | Some names =>
      for_each names (fun name =>
        when (negb (is_dot name)) (openDeviceLocked p (dirname ++ "/" ++ name)%string ;; ret tt)) ;;
      ret 0
  end.

(** ** Devices that come and go *)

Definition sizeof_inotify_event : Z := 16.

(** One event: its mask, its name and the bytes of both; the name is a string inside
    the bytes that were read. *)
Definition notify_event (p : Z) (buf : list Z) : M W Z :=
  let mask := unle (field 4 4 buf) in
  let len := unle (field 12 4 buf) in
  (if len =? 0 then ret tt
   else
     let name := skipn 16 buf in
     if bool_decide (0 ∈ name) then
       let devname := (DEVICE_PATH ++ "/" ++ cstr name)%string in
       if mask &? IN_CREATE then openDeviceLocked p devname ;; ret tt
       else closeDeviceLockedbyPath p devname ;; ret tt
     else stop UninitRead) ;;
  ret (sizeof_inotify_event + len).

Fixpoint notify_loop (fuel : nat) (p : Z) (buf : list Z) : M W unit :=
  match fuel with
  | O => stop Hang
  | S fuel' =>
      if sizeof_inotify_event <=? Z.of_nat (length buf) then
        n <- notify_event p buf ;;
        notify_loop fuel' p (skipn (Z.to_nat n) buf)
      else ret tt
  end.

Definition readNotifyLocked (p : Z) : M W Z :=
  h <- ld_handle p ;;
  r <- io (io_read_notify (mINotifyFd h)) ;;
  match r with
  | None => ret (-1)
  | Some buf =>
      if Z.of_nat (length buf) <? sizeof_inotify_event then ret (-1)
      else notify_loop 33 p buf ;; ret 0
  end.

(** ** The switches of [/etc/gpio.config] *)

Definition SW_CONFIG : string := "/etc/gpio.config".

(** [fgets(line, n + 1, fp)]: what it read, the rest of the file, and whether it hit
    the end. *)
Fixpoint fgets (n : nat) (s : string) : string * string * bool :=
  match n, s with
  | O, _ => ("", s, false)
  | _, "" => ("", "", true)
  | S n', String c s' =>
      if Ascii.eqb c LF then (String c "", s', false)
      else let '(l, r, e) := fgets n' s' in (String c l, r, e)
  end.

(** [if(line[strlen(line)-1] == '\n') line[strlen(line)-1] = '\0'] *)
Fixpoint chomp (s : string) : string :=
  match s with
  | "" => ""
  | String c "" => if Ascii.eqb c LF then "" else s
  | String c s' => String c (chomp s')
  end.

Fixpoint to_slash (s : string) : string :=
  match s with
  | "" => ""
  | String c s' => if Ascii.eqb c "/"%char then s else to_slash s'
  end.

(** The text before the first occurrence of [c]. *)
Fixpoint before_char (s : string) (c : ascii) : string :=
  match s with
  | "" => ""
  | String d s' => if Ascii.eqb d c then "" else String d (before_char s' c)
  end.

(** A line that names a device: [j] and the arrays afterwards; [None] ends the loop. *)
Definition switch_line (line gpio : string) (j : Z) (codes values : list Z)
  : M W (option (Z * list Z * list Z)) :=
  fd <- io_new_fd (io_open gpio) ;;
  if fd <? 0 then ret (Some (j, codes, values))
  else if MAX_SW_KEY <=? j then ret None
  else
    b <- io (io_read_byte fd) ;;
    match b with
    | None => ret (Some (j, codes, values))
    | Some keyvalue =>
        let codes' := <[Z.to_nat j := atoi line]> codes in
        if keyvalue =? ord "0"%char then ret (Some (j + 1, codes', <[Z.to_nat j := 0]> values))
        else if keyvalue =? ord "1"%char then ret (Some (j + 1, codes', <[Z.to_nat j := 1]> values))
        else ret (Some (j, codes', values))
    end.

(** The loop on [feof]: [line] keeps what [fgets] left in it, [None] before the first
    line.  An empty line has no last character. *)
Fixpoint switch_loop (fuel : nat) (rest : string) (eof : bool) (line : option string) (j : Z)
    (codes values : list Z) : M W (Z * list Z * list Z) :=
  match fuel with
  | O => stop Hang
  | S fuel' =>
      if eof then ret (j, codes, values)
      else
        let '(got, rest, eof) := fgets 1023 rest in
        match (if String.eqb got "" then line else Some got) with
        | None => stop UninitRead
        | Some "" => stop OutOfBounds
        | Some l =>
            let l := chomp l in
            if String.eqb l "" || Ascii.eqb (default LF (deref l)) CR
            then switch_loop fuel' rest eof (Some l) j codes values
            else
              match strchr l ":" with
              | None => switch_loop fuel' rest eof (Some l) j codes values
              | Some colon =>
                  let l := before_char l ":" in
                  let gpio := to_slash (advance 1 colon) in
                  if String.eqb gpio "" then switch_loop fuel' rest eof (Some l) j codes values
                  else
                    r <- switch_line l gpio j codes values ;;
                    match r with
                    | None => ret (j, codes, values)
                    | Some (j, codes, values) => switch_loop fuel' rest eof (Some l) j codes values
                    end
              end
        end
  end.

(** The stream and the descriptors of the switches stay open. *)
Definition parse_switch_config (p : Z) : M W Z :=
  h <- ld_handle p ;;
  r <- (fun w => io (io_fopen SW_CONFIG (ifds w)) w) ;;
  match r with
  | None => ret 0
  | Some (fd, text) =>
      modify (fun w => set_ifds ({[fd]} ∪ ifds w) w) ;;
      '(j, codes, values) <- switch_loop (S (S (String.length text))) text false None 0
                               (sw_keycode h) (sw_keyvalue h) ;;
      st_handle p (h_set_sw codes values (sw_keynumber h)) ;;
      ret j
  end.

(** ** Creation and destruction *)

(** A number of [sscanf], and what follows it. *)
Definition scan_int (s : string) : option (Z * string) :=
  let '(sg, s1) := read_sign (skip_space s) in
  match s1 with
  | String c _ => if isdigit c then let '(v, r) := read_digits 0 s1 in Some (sg * v, r) else None
  | "" => None
  end.

(** [sscanf(release, "%d.%d", ...)]: the second number is not stored when it does not
    follow. *)
Definition scan_release (s : string) : option (Z * option Z) :=
  match scan_int s with
  | None => None
  | Some (major, r) =>
      match r with
      | String c r' => if Ascii.eqb c "." then Some (major, option_map fst (scan_int r')) else Some (major, None)
      | "" => Some (major, None)
      end
  end.

Definition getLinuxRelease : M W (Z * option Z) :=
  r <- io io_uname ;;
  ret (match r with
       | None => (0, Some 0)
       | Some release => default (0, Some 0) (scan_release release)
       end).

Definition input_event_open (p : Z) : M W Z :=
  ep <- io_new_fd io_epoll_create ;;
  st_handle p (fun h => h_set_fds ep (mINotifyFd h) (wd h) h) ;;
  if ep <? 0 then ret (-1)
  else
    ino <- io_new_fd io_inotify_init ;;
    st_handle p (fun h => h_set_fds (mEpollFd h) ino (wd h) h) ;;
    if ino <? 0 then ret (-1)
    else
      w <- io (io_inotify_add_watch ino) ;;
      st_handle p (fun h => h_set_fds (mEpollFd h) (mINotifyFd h) w h) ;;
      if w <? 0 then ret (-1)
      else
        io (io_epoll_add ino EPOLLIN) ;;
        '(major, minor) <- getLinuxRelease ;;
        b <- (if 3 <? major then ret true
              else if major =? 3 then match minor with None => stop UninitRead | Some m => ret (5 <=? m) end
              else ret false) ;;
        st_handle p (h_set_wakeup b) ;;
        scanDirLocked p DEVICE_PATH.

Definition input_event_destroy (p : Z) : M W Z :=
  if p =? 0 then ret 0
  else
    closeAllDeviceLocked p ;;
    h <- ld_handle p ;;
    when (0 <=? mINotifyFd h)
      (io (io_epoll_del (mINotifyFd h)) ;;
       close (mINotifyFd h) ;;
       st_handle p (fun h => h_set_fds (mEpollFd h) (-1) (wd h) h)) ;;
    when (0 <=? mEpollFd h)
      (close (mEpollFd h) ;;
       st_handle p (fun h => h_set_fds (-1) (mINotifyFd h) (wd h) h)) ;;
    modify (fun w => set_devs (delete p (devs w)) (set_handles (delete p (handles w)) w)) ;;
    ret 0.

(** The handle as [calloc] and the assignments leave it. *)
Definition new_handle (slide : bool) (double_click slide_to : Z) : input_event_handle :=
  mk_handle slide slide_to double_click false (-1) (-1) (-1) (repeat 0 8) (repeat 0 8) 0
    (mk_click false 0 0 0 0) [] 0 0 false.

Definition input_event_create (slide : bool) (double_click slide_to : Z) : M W Z :=
  p <- calloc ;;
  if p =? 0 then ret 0
  else
    modify (fun w => set_devs (<[p := mk_device 0 None 0 0]> (devs w))
                       (set_handles (<[p := new_handle slide double_click slide_to]> (handles w)) w)) ;;
    r <- input_event_open p ;;
    if negb (r =? 0) then input_event_destroy p ;; ret 0
    else
      n <- parse_switch_config p ;;
      st_handle p (fun h => h_set_sw (sw_keycode h) (sw_keyvalue h) n h) ;;
      ret p.

(** ** Reading *)

(** The locals of [read_input_events]: the events stored in the caller's buffer, the
    room left, the caller's gesture, and [deviceChanged]. *)
Record reading := mk_reading {
  r_out : list keyevent; r_capacity : Z; r_gest : gesture; r_changed : bool }.

Definition set_changed (b : bool) (r : reading) : reading :=
  mk_reading (r_out r) (r_capacity r) (r_gest r) b.

(** [*event = ev; event += 1; capacity -= 1] *)
Definition store_event (buffersize : Z) (ev : keyevent) (ge : gesture) (r : reading) : M W reading :=
  if Z.of_nat (length (r_out r)) <? buffersize
  then ret (mk_reading (r_out r ++ [ev]) (r_capacity r - 1) ge (r_changed r))
  else stop BufferOverflow.

(** [tv_sec * 1000 + tv_usec / 1000], a [long]. *)
Definition ms_of (sec usec : Z) : Z := wrapsl (sec * 1000 + Z.quot usec 1000).

Definition key_of (iev : input_event) : keyevent :=
  mk_keyevent (i_type iev) (i_code iev) (i_value iev) (ms_of (tv_sec iev) (tv_usec iev)).

Definition take_event (p buffersize : Z) (iev : input_event) (r : reading) : M W reading :=
  if (i_type iev =? EV_SW) || (i_type iev =? EV_KEY) then
    ge <- (if i_type iev =? EV_KEY then
             h <- ld_handle p ;;
             let '(g, ge, _) := click_event (double_click_timeout h) (Some (key_of iev)) (gesture_key h) (r_gest r) in
             st_handle p (h_set_gesture g) ;;
             ret ge
           else ret (r_gest r)) ;;
    store_event buffersize (key_of iev) ge r
  else ret r.

Fixpoint take_events (p buffersize : Z) (evs : list input_event) (r : reading) : M W reading :=
  match evs with
  | [] => ret r
  | iev :: evs' => r <- take_event p buffersize iev r ;; take_events p buffersize evs' r
  end.

(** A readable device; the second result tells that the buffer is full. *)
Definition read_device (p buffersize device : Z) (r : reading) : M W (reading * bool) :=
  d <- ld_dev device ;;
  res <- read_events (dv_fd d) (r_capacity r) ;;
  match res with
  | ReadError errno =>
      if errno =? ENODEV then closeDeviceLocked p device ;; ret (set_changed true r, false)
      else ret (r, false)
  | ReadEvents evs extra =>
      if (Z.of_nat (length evs) =? 0) && (extra =? 0) then
        closeDeviceLocked p device ;; ret (set_changed true r, false)
      else if negb (extra =? 0) then ret (r, false)
      else
        r <- take_events p buffersize evs r ;;
        ret (r, r_capacity r =? 0)
  end.

Definition handle_item (p buffersize : Z) (item : Z * Z) (r : reading) : M W (reading * bool) :=
  h <- ld_handle p ;;
  if fst item =? wrapu32 (mINotifyFd h) then
    when (snd item &? EPOLLIN) (st_handle p (h_set_notify true)) ;;
    ret (r, false)
  else
    device <- getDeviceByFd p (wraps32 (fst item)) ;;
    if device =? 0 then ret (r, false)
    else if snd item &? EPOLLIN then read_device p buffersize device r
    else if snd item &? EPOLLHUP then
      closeDeviceLocked p device ;; ret (set_changed true r, false)
    else ret (r, false).

(** [while (mPendingEventIndex < mPendingEventCount)] *)
Fixpoint pending_loop (fuel : nat) (p buffersize : Z) (r : reading) : M W reading :=
  match fuel with
  | O => stop Hang
  | S fuel' =>
      h <- ld_handle p ;;
      let i := mPendingEventIndex h in
      if i <? mPendingEventCount h then
        match mPendingEventItems h !! Z.to_nat i with
        | None => stop OutOfBounds
        | Some item =>
            st_handle p (h_set_index (i + 1)) ;;
            '(r, full) <- handle_item p buffersize item r ;;
            if full then st_handle p (fun h => h_set_index (mPendingEventIndex h - 1) h) ;; ret r
            else pending_loop fuel' p buffersize r
        end
      else ret r
  end.

Definition pending_fuel : nat := 17.

(** The pass over the pending items and over the notifications. *)
Definition one_pass (p buffersize : Z) (r : reading) : M W reading :=
  r <- pending_loop pending_fuel p buffersize (set_changed false r) ;;
  h <- ld_handle p ;;
  if mPendingINotify h && (mPendingEventCount h <=? mPendingEventIndex h) then
    st_handle p (h_set_notify false) ;;
    readNotifyLocked p ;;
    ret (set_changed true r)
  else ret r.

Fixpoint read_loop (fuel : nat) (p buffersize : Z) (r : reading) : M W reading :=
  match fuel with
  | O => stop Hang
  | S fuel' =>
      r <- one_pass p buffersize r ;;
      if r_changed r then read_loop fuel' p buffersize r
      else if negb (Nat.eqb (length (r_out r)) 0) then ret r
      else
        h <- ld_handle p ;;
        a <- io (io_epoll_wait (double_click_timeout h)) ;;
        match a with
        | inl _ =>
            st_handle p (fun h => h_set_pending (mPendingEventItems h) 0 0 h) ;;
            read_loop fuel' p buffersize r
        | inr items =>
            st_handle p (h_set_pending items (Z.of_nat (length items)) 0) ;;
            if Nat.eqb (length items) 0 then
              let '(g, ge, _) := click_event (double_click_timeout h) None (gesture_key h) (r_gest r) in
              st_handle p (h_set_gesture g) ;;
              ret (mk_reading (r_out r) (r_capacity r) ge (r_changed r))
            else read_loop fuel' p buffersize r
        end
  end.

(** The switches are reported once, from the last to the first. *)
Fixpoint report_switches (cap : nat) (time : Z) (h : input_event_handle) : M W (list keyevent * Z) :=
  match cap with
  | O => ret ([], sw_keynumber h)
  | S cap' =>
      let n := sw_keynumber h in
      if n =? 0 then ret ([], n)
      else
        match sw_keycode h !! Z.to_nat (n - 1), sw_keyvalue h !! Z.to_nat (n - 1) with
        | Some c, Some v =>
            '(l, n') <- report_switches cap' time (h_set_sw (sw_keycode h) (sw_keyvalue h) (n - 1) h) ;;
            ret (mk_keyevent EV_SW c v time :: l, n')
        | _, _ => stop OutOfBounds
        end
  end.

Definition no_action (ge : gesture) : gesture :=
  mk_gesture false (action ge) (g_type ge) (g_key_code ge) (slide_value ge) (long_press_time ge).

(** The events stored in the buffer and the gesture; the result of the function is
    the number of events.  An array of no size is undefined. *)
Definition read_input_events (fuel : nat) (p buffersize : Z) (gest : gesture)
  : M W (list keyevent * gesture) :=
  let gest := no_action gest in
  if buffersize <=? 0 then stop BufferOverflow
  else if p =? 0 then ret ([], gest)
  else
    h <- ld_handle p ;;
    if 0 <? sw_keynumber h then
      '(sec, usec) <- io io_gettimeofday ;;
      '(evs, n) <- report_switches (Z.to_nat buffersize) (ms_of sec usec) h ;;
      st_handle p (fun h => h_set_sw (sw_keycode h) (sw_keyvalue h) n h) ;;
      ret (evs, gest)
    else
      r <- read_loop fuel p buffersize (mk_reading [] buffersize gest false) ;;
      ret (r_out r, r_gest r).
End Hot.
