(* ===== verification/InputProofs.v ===== *)
(** * The input library: invariant of an open handle

    The state of an open handle ([opened]): its device list, the descriptors it owns
    and the memory it uses.  Every operation keeps it; what each does to the list is
    said by its lemma. *)

From Stdlib Require Import Ascii String.
From stdpp Require Import base gmap list.
From S2P Require Import Prelude CString Bytes CMonad Dll Gesture InputDev InputHot.
Open Scope string_scope.
Open Scope list_scope.
Open Scope Z_scope.

(** ** The state *)

(** What the process had before the handle was created. *)
Record base := mk_base {
  b_handles : gmap Z input_event_handle; b_devs : gmap Z input_device; b_fds : gset Z }.

(** The descriptors of a handle. *)
Definition owned (fd : Z) : list Z := if 0 <=? fd then [fd] else [].

Definition own (h : input_event_handle) (l : list entry) : list Z :=
  owned (mEpollFd h) ++ owned (mINotifyFd h) ++ map en_fd l.

Record fds_ok (F0 F : gset Z) (h : input_event_handle) (l : list entry) : Prop := {
  fds_are : F = F0 ∪ list_to_set (own h l);
  fds_nodup : NoDup (own h l);
  fds_new : forall x, x ∈ own h l -> x ∉ F0;
  fds_pos : Forall (fun e => 0 <= en_fd e) l;
}.

Record opened {X} (B : base) (p : Z) (h : input_event_handle) (l : list entry) (w : input X) : Prop := {
  op_handle : handles w = <[p := h]> (b_handles B);
  op_new : b_handles B !! p = None;
  op_list : devlist (devs w) p l;
  op_rest : forall a, a ∉ p :: addrs l -> devs w !! a = b_devs B !! a;
  op_fresh : forall a, a ∈ p :: addrs l -> b_devs B !! a = None;
  op_fds : fds_ok (b_fds B) (ifds w) h l;
}.

(** [budget] bounds how often [epoll_wait] can still answer with anything but a
    timeout; no other call raises it. *)
Class Quiet {X} `{!InputEnv X} (budget : X -> nat) : Prop := {
  q_calloc S x : (budget (snd (io_calloc S x)) <= budget x)%nat;
  q_name s x : (budget (snd (io_malloc_name s x)) <= budget x)%nat;
  q_open path S x : (budget (snd (io_open path S x)) <= budget x)%nat;
  q_add fd e x : (budget (snd (io_epoll_add fd e x)) <= budget x)%nat;
  q_del fd x : (budget (snd (io_epoll_del fd x)) <= budget x)%nat;
  q_readdir s x : (budget (snd (io_readdir s x)) <= budget x)%nat;
  q_read fd n x : (budget (snd (io_read fd n x)) <= budget x)%nat;
  q_notify fd x : (budget (snd (io_read_notify fd x)) <= budget x)%nat;
}.

Section Ops.
Context {UL : ULong} {X : Type} {E : InputEnv X} {K : InputKernel X} (budget : X -> nat) {Q : Quiet budget}.
Local Notation W := (input X).

(** What the operations on devices leave as it was. *)
Definition calm (w w' : W) : Prop := ilog w' = ilog w /\ (budget (ienv w') <= budget (ienv w))%nat.

Lemma calm_refl (w : W) : calm w w.
Proof. by split. Qed.

Lemma calm_trans (w1 w2 w3 : W) : calm w1 w2 -> calm w2 w3 -> calm w1 w3.
Proof. intros [? ?] [? ?]. split; [congruence|lia]. Qed.

Lemma calm_env (w : W) x : (budget x <= budget (ienv w))%nat -> calm w (set_ienv x w).
Proof. by split. Qed.

Lemma wp_io {A} (f : X -> A * X) (w : W) (R : A -> W -> Prop) :
  R (fst (f (ienv w))) (set_ienv (snd (f (ienv w))) w) -> wp (io f) R w.
Proof. intros H. unfold wp, io. by destruct (f (ienv w)). Qed.

(** A computation that looks at the state it starts from. *)
Lemma wp_self {A} (m : W -> M W A) (w : W) (R : A -> W -> Prop) : wp (m w) R w -> wp (fun w => m w w) R w.
Proof. exact (fun H => H). Qed.

Lemma opened_env B p h l (w : W) x : opened B p h l w -> opened B p h l (set_ienv x w).
Proof. by intros [H1 H2 H3 H4 H5 H6]; split. Qed.

(** Access to the handle. *)
Lemma wp_ld_handle B p h l (w : W) (R : input_event_handle -> W -> Prop) :
  opened B p h l w -> R h w -> wp (ld_handle p) R w.
Proof. intros H HR. unfold wp, ld_handle. by rewrite (op_handle _ _ _ _ _ H), lookup_insert_eq. Qed.

(** Assignments that keep the descriptors of the handle. *)
Lemma wp_st_handle B p h l f (w : W) (R : unit -> W -> Prop) :
  opened B p h l w -> mEpollFd (f h) = mEpollFd h -> mINotifyFd (f h) = mINotifyFd h ->
  (forall w', opened B p (f h) l w' -> calm w w' -> ifds w' = ifds w -> ienv w' = ienv w -> R tt w') ->
  wp (st_handle p f) R w.
Proof.
  intros H E1 E2 HR. unfold wp, st_handle, bind, ld_handle. rewrite (op_handle _ _ _ _ _ H), lookup_insert_eq.
  apply HR; try done. destruct H as [H1 H2 H3 H4 H5 [F1 F2 F3 F4]]. split; simpl; try done.
  - rewrite H1. apply insert_insert_eq.
  - unfold own in *. by split; unfold own; rewrite ?E1, ?E2.
Qed.

(** A new descriptor is not open; a failed call opens none. *)
Lemma wp_new_fd (f : gset Z -> X -> Z * X) (w : W) (R : Z -> W -> Prop) :
  (forall S x fd x', f S x = (fd, x') -> 0 <= fd -> fd ∉ S) ->
  (forall fd x, f (ifds w) (ienv w) = (fd, x) -> fd < 0 -> R fd (set_ienv x w)) ->
  (forall fd x, f (ifds w) (ienv w) = (fd, x) -> 0 <= fd -> fd ∉ ifds w ->
     R fd (set_ifds ({[fd]} ∪ ifds w) (set_ienv x w))) ->
  wp (io_new_fd f) R w.
Proof.
  intros Hf Hneg Hpos. unfold io_new_fd, wp, bind, io.
  destruct (f (ifds w) (ienv w)) as [fd x] eqn:Ef. destruct (Z.leb_spec 0 fd) as [H0|H0]; simpl.
  - apply Hpos; [done..|]. by apply (Hf _ _ _ _ Ef).
  - by apply Hneg.
Qed.

Lemma wp_calloc (w : W) (R : Z -> W -> Prop) :
  (forall a x, io_calloc (dom (handles w) ∪ dom (devs w)) (ienv w) = (Some a, x) ->
     a <> 0 -> handles w !! a = None -> devs w !! a = None -> R a (set_ienv x w)) ->
  wp calloc R w.
Proof.
  intros H. unfold calloc, wp, bind, io.
  destruct (io_calloc (dom (handles w) ∪ dom (devs w)) (ienv w)) as [r x] eqn:Ec.
  destruct (calloc_fresh _ _ _ _ Ec) as (a & -> & Ha & H0). apply not_elem_of_union in Ha as [Ha1 Ha2].
  apply (H a x); [done..| |]; by apply not_elem_of_dom.
Qed.

(** ** Opening and closing a device *)

Lemma fds_add F0 F h l e :
  fds_ok F0 F h l -> en_fd e ∉ F -> 0 <= en_fd e -> fds_ok F0 ({[en_fd e]} ∪ F) h (l ++ [e]).
Proof.
  intros [F1 F2 F3 F4] Hn Hr. assert (Ho : own h (l ++ [e]) = own h l ++ [en_fd e])
    by (unfold own; by rewrite map_app, !app_assoc).
  assert (Hn0 : en_fd e ∉ F0 /\ en_fd e ∉ own h l).
  { subst F. split; [set_solver|]. intros Hx. apply Hn, elem_of_union. right. by apply elem_of_list_to_set. }
  split; rewrite ?Ho.
  - rewrite list_to_set_app_L, F1. set_solver.
  - apply NoDup_app. split; [done|]. split; [|apply NoDup_singleton]. intros x Hx Hx'.
    apply list_elem_of_singleton in Hx' as ->. by apply Hn0.
  - intros x [Hx|Hx]%elem_of_app; [by apply F3|]. apply list_elem_of_singleton in Hx as ->. apply Hn0.
  - apply Forall_app. split; [done|]. by apply Forall_singleton.
Qed.

Lemma fds_remove F0 F h l1 l2 e :
  fds_ok F0 F h (l1 ++ e :: l2) -> fds_ok F0 (F ∖ {[en_fd e]}) h (l1 ++ l2).
Proof.
  intros [F1 F2 F3 F4].
  set (A := owned (mEpollFd h) ++ owned (mINotifyFd h) ++ map en_fd l1).
  assert (Ho : own h (l1 ++ e :: l2) = A ++ en_fd e :: map en_fd l2)
    by (unfold own, A; by rewrite map_app, !app_assoc).
  assert (Ho' : own h (l1 ++ l2) = A ++ map en_fd l2) by (unfold own, A; by rewrite map_app, !app_assoc).
  rewrite Ho in F1, F2, F3. apply NoDup_app in F2 as (N1 & N2 & N3). apply NoDup_cons in N3 as [N3 N4].
  assert (HeA : en_fd e ∉ A) by (intros Hx; apply (N2 _ Hx); set_solver).
  split; rewrite ?Ho'.
  - subst F. rewrite !list_to_set_app_L, list_to_set_cons.
    assert (en_fd e ∉ F0) by (apply F3; set_solver).
    assert (en_fd e ∉ list_to_set (C := gset Z) A) by by rewrite elem_of_list_to_set.
    assert (en_fd e ∉ list_to_set (C := gset Z) (map en_fd l2)) by by rewrite elem_of_list_to_set.
    clear -H H0 H1. set_solver.
  - apply NoDup_app. split; [done|]. split; [|done]. intros x Hx Hx'. apply (N2 _ Hx). set_solver.
  - intros x Hx. apply F3. clear -Hx. set_solver.
  - apply Forall_app in F4 as [F4 F5]. apply Forall_cons in F5 as [_ F5]. by apply Forall_app.
Qed.

(** A new device is appended, unless the file cannot be opened. *)
Lemma openDeviceLocked_ok B p h l (w : W) path :
  opened B p h l w ->
  wp (openDeviceLocked p path)
     (fun _ w' => exists l', opened B p h l' w' /\ calm w w' /\
        (l' = l \/ exists e, l' = l ++ [e] /\ en_name e = path)) w.
Proof.
  intros H. unfold openDeviceLocked. apply wp_bind, (wp_new_fd _ _ _ (open_fresh path)).
  { intros fd x Ef Hn. rewrite (proj2 (Z.ltb_lt _ _)) by lia. apply wp_ret.
    exists l. split; [by apply opened_env|]. split; [|by left]. apply calm_env.
    pose proof (q_open path (ifds w) (ienv w)) as Hb. by rewrite Ef in Hb. }
  intros fd x Ef Hint Hfresh. rewrite (proj2 (Z.ltb_ge _ _)) by lia.
  pose proof (q_open path (ifds w) (ienv w)) as Hb. rewrite Ef in Hb. simpl in Hb.
  apply wp_bind, wp_calloc. intros a x2 Ec Ha0 _ Hda. rewrite (proj2 (Z.eqb_neq a 0) Ha0). simpl in Hda, Ec.
  pose proof (q_calloc (dom (handles w) ∪ dom (devs w)) x) as Hb2. rewrite Ec in Hb2. simpl in Hb2.
  apply wp_bind, wp_modify. set (w2 := set_devs _ _).
  apply wp_bind, wp_io. rewrite name_fits. cbn [negb].
  pose proof (q_name path (ienv w2)) as Hb3. set (w3 := set_ienv _ w2).
  apply wp_bind. eapply wp_st_dev; [apply lookup_insert_eq|].
  set (w4 := set_devs _ w3). set (e := mk_entry a fd path).
  pose proof H as [O1 O2 O3 O4 O5 O6].
  assert (Hal : a ∉ p :: addrs l).
  { intros Ha. destruct O3 as (hd & q & Eh & Hs & _). apply elem_of_cons in Ha as [->|Ha]; [congruence|].
    apply (dlseg_dom _ _ _ _ _ _ _ Hs) in Ha. by apply not_elem_of_dom in Hda. }
  assert (Hdevs : forall b, b <> a -> devs w4 !! b = devs w !! b).
  { intros b Hb'. simpl. by rewrite !lookup_insert_ne. }
  apply wp_bind. eapply wp_mono; [|apply (add_to_dev_list_ok w4 p l e 0 0)].
  2: { eapply devlist_frame; [|exact O3]. intros b Hb'. apply Hdevs. by intros ->. }
  2: { simpl. by rewrite lookup_insert_eq. }
  2,3: done.
  intros _ w5 (L5 & F1 & F2 & F3 & F4 & F5). cbn beta.
  assert (H5 : opened B p h (l ++ [e]) w5).
  { assert (Haddr : addrs (l ++ [e]) = addrs l ++ [a]) by (unfold addrs; by rewrite map_app).
    split; [by rewrite F1|done|done|..].
    - intros b Hb'. rewrite Haddr in Hb'. rewrite F5 by set_solver. rewrite Hdevs by set_solver.
      apply O4. set_solver.
    - intros b Hb'. rewrite Haddr in Hb'. rewrite app_comm_cons in Hb'. apply elem_of_app in Hb' as [Hb'|Hb'].
      + by apply O5.
      + apply list_elem_of_singleton in Hb' as ->. by rewrite <- O4.
    - rewrite F2. by apply (fds_add _ _ _ _ e). }
  apply wp_bind. eapply wp_ld_handle; [exact H5|].
  apply wp_bind, wp_io, wp_ret. exists (l ++ [e]). split; [by apply opened_env|]. split.
  - split; [simpl; by rewrite F3|]. simpl. etrans; [apply q_add|]. rewrite F4. simpl. simpl in Hb3. lia.
  - right. by exists e.
Qed.

Lemma closeDeviceLocked_ok B p h l1 l2 e (w : W) :
  opened B p h (l1 ++ e :: l2) w ->
  wp (closeDeviceLocked p (en_addr e))
     (fun _ w' => opened B p h (l1 ++ l2) w' /\ calm w w') w.
Proof.
  intros H. pose proof H as [O1 O2 O3 O4 O5 O6].
  assert (Ha0 : en_addr e <> 0).
  { destruct O3 as (hd & q & _ & _ & _ & Hz). intros E0. apply Hz. rewrite <- E0.
    unfold addrs. rewrite map_app. set_solver. }
  unfold closeDeviceLocked. apply Z.eqb_neq in Ha0 as ->.
  destruct (devlist_in _ _ _ e O3) as (pr & nx & Ed); [set_solver|].
  apply wp_bind. eapply wp_ld_dev; [exact Ed|]. cbn [dv_fd].
  apply wp_bind, wp_io. pose proof (q_del (en_fd e) (ienv w)) as Hb.
  pose proof (fds_pos _ _ _ _ O6) as Hi. apply Forall_app in Hi as [_ Hi]. apply Forall_cons in Hi as [Hi _].
  rewrite (proj2 (Z.leb_le _ _)) by lia. cbn [when]. unfold close. apply wp_bind, wp_modify.
  set (w1 := set_ifds _ _). apply wp_bind.
  eapply wp_mono; [|apply (del_from_dev_list_ok w1 p l1 l2 e); exact O3].
  intros _ w2 (L2 & N2 & F1 & F2 & F3 & F4 & F5). apply wp_ret. split.
  - assert (Haddr : addrs (l1 ++ e :: l2) = addrs l1 ++ en_addr e :: addrs l2) by (unfold addrs; by rewrite map_app).
    assert (Haddr' : addrs (l1 ++ l2) = addrs l1 ++ addrs l2) by (unfold addrs; by rewrite map_app).
    split; [by rewrite F1|done|done|..].
    + intros b Hb'. rewrite Haddr' in Hb'. destruct (decide (b = en_addr e)) as [->|Hne].
      * rewrite N2. symmetry. apply O5. rewrite Haddr. set_solver.
      * rewrite F5 by (rewrite Haddr; set_solver). apply O4. rewrite Haddr. set_solver.
    + intros b Hb'. apply O5. rewrite Haddr. rewrite Haddr' in Hb'. set_solver.
    + rewrite F2. simpl. by apply fds_remove.
  - split; [by rewrite F3|]. rewrite F4. done.
Qed.

(** ** All devices, and devices by name *)

Definition head_addr (l : list entry) : Z := match l with [] => 0 | e :: _ => en_addr e end.

Lemma dlseg_head (m : gmap Z input_device) p a l q : dlseg m p a l q 0 -> a = head_addr l.
Proof. destruct l; [by intros [-> _]|by intros [-> _]]. Qed.

Lemma close_from_ok B p h l (w : W) (fuel : nat) :
  opened B p h l w -> (length l <= fuel)%nat ->
  wp (close_from (S fuel) p (head_addr l)) (fun _ w' => opened B p h [] w' /\ calm w w') w.
Proof.
  revert l w. induction fuel as [|fuel IH]; intros l w H Hf; destruct l as [|e l]; try (simpl in Hf; lia).
  1,2: cbn [close_from head_addr Z.eqb]; apply wp_ret; by split.
  pose proof (op_list _ _ _ _ _ H) as (hd & q & Eh & (Ea & x & Ex & Hs) & Hn & Hz).
  apply dlseg_head in Hs as ->.
  cbn [close_from]. rewrite (proj2 (Z.eqb_neq _ _)) by (simpl in *; set_solver).
  apply wp_bind. rewrite Ea in Ex. eapply wp_ld_dev; [exact Ex|]. cbn [dv_next].
  apply wp_bind. eapply wp_mono; [|apply (closeDeviceLocked_ok B p h [] l e w H)].
  intros _ w1 [H1 C1]. eapply wp_mono; [|apply (IH l w1 H1); simpl in Hf; lia].
  intros _ w2 [H2 C2]. split; [done|]. by eapply calm_trans.
Qed.

Lemma closeAllDeviceLocked_ok B p h l (w : W) :
  opened B p h l w -> wp (closeAllDeviceLocked p) (fun _ w' => opened B p h [] w' /\ calm w w') w.
Proof.
  intros H. pose proof (op_list _ _ _ _ _ H) as Hl. pose proof Hl as (hd & q & Eh & Hs & _).
  unfold closeAllDeviceLocked. apply wp_bind. eapply wp_ld_dev; [exact Eh|].
  apply dlseg_head in Hs as ->. apply wp_bind.
  apply (wp_self (fun w => close_from (devs_fuel w) p (head_addr l))).
  eapply wp_mono; [|apply (close_from_ok B p h l w); [done|]].
  - intros ? w' H'. by apply wp_ret.
  - pose proof (devlist_size _ _ _ Hl). lia.
Qed.

(** The first device of a name is removed. *)
Fixpoint remove_path (path : string) (l : list entry) : list entry :=
  match l with
  | [] => []
  | e :: l' => if String.eqb (en_name e) path then l' else e :: remove_path path l'
  end.

Lemma find_remove_path path l :
  match List.find (fun e => String.eqb (en_name e) path) l with
  | Some e => exists l1 l2, l = l1 ++ e :: l2 /\ remove_path path l = l1 ++ l2
  | None => remove_path path l = l
  end.
Proof.
  induction l as [|e l IH]; simpl; [done|]. destruct (String.eqb (en_name e) path).
  - by exists [], l.
  - destruct (List.find _ l); [|by rewrite IH]. destruct IH as (l1 & l2 & -> & ->). by exists (e :: l1), l2.
Qed.

Lemma closeDeviceLockedbyPath_ok B p h l (w : W) path :
  opened B p h l w ->
  wp (closeDeviceLockedbyPath p path)
     (fun _ w' => opened B p h (remove_path path l) w' /\ calm w w') w.
Proof.
  intros H. pose proof (op_list _ _ _ _ _ H) as Hl. unfold closeDeviceLockedbyPath. apply wp_bind.
  eapply wp_eq; [by apply getDeviceByPathLocked_ok|]. pose proof (find_remove_path path l) as Hf.
  destruct (List.find _ l) as [e|].
  - destruct Hf as (l1 & l2 & -> & ->). destruct Hl as (hd & q & _ & _ & _ & Hz).
    rewrite (proj2 (Z.eqb_neq _ _)).
    + by apply closeDeviceLocked_ok.
    + intros E0. apply Hz. rewrite <- E0. unfold addrs. rewrite map_app. set_solver.
  - rewrite Hf. apply wp_ret. by split.
Qed.

(** [scanDirLocked] only appends devices of the directory. *)
Lemma scanDirLocked_ok B p h l (w : W) dir :
  opened B p h l w ->
  wp (scanDirLocked p dir) (fun _ w' => exists l', opened B p h (l ++ l') w' /\ calm w w') w.
Proof.
  intros H. unfold scanDirLocked. apply wp_bind, wp_io.
  set (w1 := set_ienv _ w). assert (C1 : calm w w1) by (apply calm_env, q_readdir).
  assert (H1 : opened B p h l w1) by by apply opened_env.
  destruct (fst _) as [names|].
  - apply wp_bind.
    eapply wp_mono; [|apply (wp_for_each (fun w' => exists l', opened B p h (l ++ l') w' /\ calm w w'))].
    + intros ? w' H'. by apply wp_ret.
    + intros name w2 (l2 & H2 & C2). destruct (is_dot name); cbn [negb when].
      * apply wp_ret. by exists l2.
      * apply wp_bind. eapply wp_mono; [|apply (openDeviceLocked_ok B p h _ w2 _ H2)].
        intros _ w3 (l3 & H3 & C3 & [->|(e & -> & _)]); apply wp_ret.
        -- exists l2. split; [done|]. by eapply calm_trans.
        -- exists (l2 ++ [e]). rewrite app_assoc. split; [done|]. by eapply calm_trans.
    + exists []. rewrite app_nil_r. by split.
  - apply wp_ret. exists []. rewrite app_nil_r. by split.
Qed.

(** ** Notifications *)

(** What a notification does to the list of devices. *)
Definition notified (ev : inotify) (l l' : list entry) : Prop :=
  let path := (DEVICE_PATH ++ "/" ++ in_name ev)%string in
  if String.eqb (in_name ev) "" then l' = l
  else if in_mask ev &? IN_CREATE then l' = l \/ exists e, l' = l ++ [e] /\ en_name e = path
  else l' = remove_path path l.

Inductive notified_all : list inotify -> list entry -> list entry -> Prop :=
| notified_nil l : notified_all [] l l
| notified_cons ev evs l l1 l2 : notified ev l l1 -> notified_all evs l1 l2 -> notified_all (ev :: evs) l l2.

Lemma length_inotify (ev : inotify) : length (inotify_bytes ev) = (16 + length (name_field ev))%nat.
Proof. unfold inotify_bytes. rewrite !length_app, !length_le. lia. Qed.

(** The fields are read where the kernel wrote them. *)
Lemma inotify_fields (ev : inotify) (rest : list Z) :
  inotify_ok ev -> Z.of_nat (length (name_field ev)) < 2 ^ 32 ->
  let buf := inotify_bytes ev ++ rest in
  unle (field 4 4 buf) = in_mask ev /\
  unle (field 12 4 buf) = Z.of_nat (length (name_field ev)) /\
  skipn 16 buf = name_field ev ++ rest.
Proof.
  intros (Hm & _) Hn buf. unfold buf, inotify_bytes. rewrite <- !app_assoc.
  assert (Hu : forall z, 0 <= z < 2 ^ 32 -> unle (le 4 z) = z)
    by (intros z Hz; rewrite unle_le; by apply Z.mod_small).
  split; [|split].
  - rewrite field_skip by (rewrite length_le; lia). rewrite length_le. rewrite field_0 by apply length_le.
    by apply Hu.
  - do 3 (rewrite field_skip by (rewrite length_le; lia); rewrite length_le).
    rewrite field_0 by apply length_le. apply Hu. lia.
  - do 4 (rewrite skipn_app, skipn_all2 by (rewrite length_le; lia); rewrite length_le; cbn [app Nat.sub]).
    done.
Qed.

Lemma notify_event_ok B p h l (w : W) ev rest :
  opened B p h l w -> inotify_ok ev -> Z.of_nat (length (name_field ev)) < 2 ^ 32 ->
  wp (notify_event p (inotify_bytes ev ++ rest))
     (fun n w' => n = Z.of_nat (length (inotify_bytes ev)) /\
        exists l', opened B p h l' w' /\ calm w w' /\ notified ev l l') w.
Proof.
  intros H Hok Hlen. destruct (inotify_fields ev rest Hok Hlen) as (E1 & E2 & E3).
  unfold notify_event. rewrite E1, E2, E3. rewrite length_inotify.
  destruct Hok as (_ & Hnul & Hname). unfold notified.
  apply wp_bind. unfold name_field in *.
  destruct Hname as [[En Ep]|[En Ep]].
  - rewrite En, Ep. cbn [length app repeat str_bytes list_ascii_of_string map].
    rewrite Z.eqb_refl, String.eqb_refl. apply wp_ret, wp_ret. split; [done|]. by exists l.
  - destruct (in_pad ev) as [|pad]; [done|].
    rewrite (proj2 (Z.eqb_neq _ _)) by (rewrite length_app, repeat_length; lia).
    rewrite (proj2 (String.eqb_neq _ _)) by done. rewrite bool_decide_true by (cbn [repeat]; set_solver).
    assert (Ec : cstr ((str_bytes (in_name ev) ++ repeat 0 (S pad)) ++ rest) = in_name ev)
      by (rewrite <- app_assoc; cbn [repeat app]; by apply cstr_bytes).
    rewrite Ec. destruct (in_mask ev &? IN_CREATE); apply wp_bind.
    + eapply wp_mono; [|by apply openDeviceLocked_ok]. intros _ w1 (l' & H1 & C1 & Hl'). apply wp_ret, wp_ret.
      split; [unfold sizeof_inotify_event; lia|]. by exists l'.
    + eapply wp_mono; [|by apply closeDeviceLockedbyPath_ok]. intros _ w1 (H1 & C1). apply wp_ret, wp_ret.
      split; [unfold sizeof_inotify_event; lia|]. by eexists.
Qed.

Lemma notify_loop_ok B p h evs l (w : W) (fuel : nat) :
  opened B p h l w -> Forall inotify_ok evs -> (length evs < fuel)%nat ->
  Z.of_nat (length (concat (map inotify_bytes evs))) < 2 ^ 32 ->
  wp (notify_loop fuel p (concat (map inotify_bytes evs)))
     (fun _ w' => exists l', opened B p h l' w' /\ calm w w' /\ notified_all evs l l') w.
Proof.
  intros H Hok. revert l w fuel H. induction Hok as [|ev evs Hev Hok IH]; intros l w fuel H Hf Hlen;
    (destruct fuel as [|fuel]; [simpl in Hf; lia|]); cbn [notify_loop map concat].
  - apply wp_ret. exists l. split; [done|]. split; [done|]. constructor.
  - cbn [map concat] in Hlen. rewrite length_app in Hlen. pose proof (length_inotify ev).
    rewrite (proj2 (Z.leb_le _ _)) by (rewrite length_app; unfold sizeof_inotify_event; lia).
    apply wp_bind. eapply wp_mono; [|apply (notify_event_ok B p h l w ev); [done..|lia]].
    intros n w1 (-> & l1 & H1 & C1 & N1). rewrite Nat2Z.id, skipn_app, skipn_all, Nat.sub_diag. cbn [app skipn].
    eapply wp_mono; [|apply (IH l1 w1 fuel H1); [simpl in Hf; lia|lia]].
    intros _ w2 (l2 & H2 & C2 & N2). exists l2. split; [done|]. split; [by eapply calm_trans|].
    by eapply notified_cons.
Qed.

Lemma readNotifyLocked_ok B p h l (w : W) :
  opened B p h l w ->
  wp (readNotifyLocked p)
     (fun _ w' => exists evs l', opened B p h l' w' /\ calm w w' /\ notified_all evs l l') w.
Proof.
  intros H. unfold readNotifyLocked. apply wp_bind. eapply wp_ld_handle; [done|]. apply wp_bind, wp_io.
  destruct (io_read_notify (mINotifyFd h) (ienv w)) as [r x] eqn:Er. cbn [fst snd].
  pose proof (q_notify (mINotifyFd h) (ienv w)) as Hb. rewrite Er in Hb.
  set (w1 := set_ienv x w). assert (H1 : opened B p h l w1) by by apply opened_env.
  assert (C1 : calm w w1) by by apply calm_env.
  assert (Hno : exists evs l', opened B p h l' w1 /\ calm w w1 /\ notified_all evs l l')
    by (exists [], l; split; [done|]; split; [done|constructor]).
  destruct r as [buf|]; [|by apply wp_ret].
  destruct (notify_whole _ _ _ _ Er) as (evs & Hok & -> & Hlen).
  destruct (Z.ltb_spec (Z.of_nat (length (concat (map inotify_bytes evs)))) sizeof_inotify_event); [by apply wp_ret|].
  assert (Hn : (16 * length evs <= length (concat (map inotify_bytes evs)))%nat).
  { clear. induction evs as [|ev evs IH]; cbn [map concat length]; [lia|].
    rewrite length_app, length_inotify. lia. }
  apply wp_bind. eapply wp_mono; [|apply (notify_loop_ok B p h evs l w1 33 H1 Hok); lia].
  intros _ w2 (l2 & H2 & C2 & N2). apply wp_ret. exists evs, l2.
  split; [done|]. split; [by eapply calm_trans|done].
Qed.
End Ops.
