(* ===== verification/InputRead.v ===== *)
(** * The input library: what a read delivers

    [read_input_events] returns, whatever devices come and go meanwhile; it stores in
    the caller's buffer exactly the key and switch events the devices gave it, in
    order and within the buffer, and the gesture is the one the events make. *)

From Stdlib Require Import Ascii String.
From stdpp Require Import base gmap list.
From S2P Require Import Prelude CString Bytes CMonad Dll Gesture InputDev InputHot InputProofs.
Open Scope string_scope.
Open Scope list_scope.
Open Scope Z_scope.

(** ** What is delivered *)

Section Delivered.
Context {UL : ULong}.

Definition is_input (iev : input_event) : bool := (i_type iev =? EV_SW) || (i_type iev =? EV_KEY).

(** The events a caller gets, and those the gesture machine sees. *)
Definition delivered (evs : list input_event) : list keyevent := map key_of (List.filter is_input evs).

Definition key_clicks (evs : list input_event) : list (option keyevent) :=
  map (fun iev => Some (key_of iev)) (List.filter (fun iev => i_type iev =? EV_KEY) evs).

(** The machine on a sequence of events that share the caller's gesture. *)
Fixpoint clicks (T : Z) (evs : list (option keyevent)) (s : click_gesture * gesture) : click_gesture * gesture :=
  match evs with
  | [] => s
  | ev :: evs' => clicks T evs' (fst (click_event T ev (fst s) (snd s)))
  end.

Lemma clicks_app T a b s : clicks T (a ++ b) s = clicks T b (clicks T a s).
Proof. revert s. induction a as [|ev a IH]; intros s; [done|]. apply IH. Qed.

Lemma delivered_app a b : delivered (a ++ b) = delivered a ++ delivered b.
Proof. unfold delivered. by rewrite List.filter_app, map_app. Qed.

Lemma key_clicks_app a b : key_clicks (a ++ b) = key_clicks a ++ key_clicks b.
Proof. unfold key_clicks. by rewrite List.filter_app, map_app. Qed.

Lemma delivered_length evs : (length (delivered evs) <= length evs)%nat.
Proof. unfold delivered. rewrite length_map. apply filter_length_le. Qed.

(** No event for the caller, none for the machine. *)
Lemma delivered_nil evs : delivered evs = [] -> key_clicks evs = [].
Proof.
  induction evs as [|iev evs IH]; [done|]. unfold delivered, key_clicks, is_input in *. cbn [List.filter].
  destruct (i_type iev =? EV_KEY); [by rewrite orb_true_r|]. destruct (i_type iev =? EV_SW); [done|]. apply IH.
Qed.
End Delivered.

(** ** One pass *)

(** [epoll_wait] answers with a timeout, or uses up the budget. *)
Class Patient {X} `{!InputEnv X} (budget : X -> nat) : Prop := {
  patient_quiet :: Quiet budget;
  patient_wait t x a x' : io_epoll_wait t x = (a, x') -> a = inr [] \/ (budget x' < budget x)%nat;
}.

(** The switches not yet reported: the two arrays and their number. *)
Definition sw_of (h : input_event_handle) : list Z * list Z * Z := (sw_keycode h, sw_keyvalue h, sw_keynumber h).

Definition sw_fine (s : list Z * list Z * Z) : Prop :=
  let '(codes, values, n) := s in length codes = 8%nat /\ length values = 8%nat /\ 0 <= n <= MAX_SW_KEY.

(** The pending items lie inside the array, and the switches inside theirs. *)
Record ready (h : input_event_handle) : Prop := {
  rd_index : 0 <= mPendingEventIndex h;
  rd_items : mPendingEventCount h <= Z.of_nat (length (mPendingEventItems h));
  rd_max : mPendingEventCount h <= EPOLL_MAX_EVENTS;
  rd_sw : sw_fine (sw_of h);
}.

Section Read.
Context {UL : ULong} {X : Type} {E : InputEnv X} {K : InputKernel X} (budget : X -> nat) {Pt : Patient budget}.
Context (B : base) (p buffersize : Z).
Local Notation W := (input X).

(** The room in the caller's buffer. *)
Definition room (r : reading) : Prop :=
  0 <= r_capacity r /\ Z.of_nat (length (r_out r)) + r_capacity r = buffersize.

Definition progress (h : input_event_handle) (r : reading) (w : W)
    (h' : input_event_handle) (r' : reading) (w' : W) : Prop :=
  exists new, ilog w' = ilog w ++ new /\ r_out r' = r_out r ++ delivered new /\
    (gesture_key h', r_gest r') =
      clicks (double_click_timeout h) (key_clicks new) (gesture_key h, r_gest r) /\
    double_click_timeout h' = double_click_timeout h /\ (budget (ienv w') <= budget (ienv w))%nat.

Lemma progress_trans h1 r1 w1 h2 r2 w2 h3 r3 w3 :
  progress h1 r1 w1 h2 r2 w2 -> progress h2 r2 w2 h3 r3 w3 -> progress h1 r1 w1 h3 r3 w3.
Proof.
  intros (n1 & A1 & A2 & A3 & A4 & A5) (n2 & B1 & B2 & B3 & B4 & B5). exists (n1 ++ n2).
  rewrite B1, A1, B2, A2, delivered_app, key_clicks_app, !app_assoc, clicks_app, <- A3, <- A4.
  split_and!; [done..|congruence|lia].
Qed.

(** A step that reads no event. *)
Lemma progress_calm h h' r r' (w w' : W) :
  calm budget w w' -> r_out r' = r_out r -> r_gest r' = r_gest r ->
  gesture_key h' = gesture_key h -> double_click_timeout h' = double_click_timeout h ->
  progress h r w h' r' w'.
Proof.
  intros [C1 C2] E1 E2 E3 E4. exists []. rewrite !app_nil_r, E1, E2, E3. by split_and!.
Qed.

(** Fields that an item does not touch. *)
Definition same_pending (h h' : input_event_handle) : Prop :=
  mPendingEventItems h' = mPendingEventItems h /\ mPendingEventCount h' = mPendingEventCount h /\
  mPendingEventIndex h' = mPendingEventIndex h /\ mEpollFd h' = mEpollFd h /\ mINotifyFd h' = mINotifyFd h /\
  sw_of h' = sw_of h.

Lemma take_event_ok h l (w : W) iev r :
  opened B p h l w -> room r -> 1 <= r_capacity r ->
  wp (take_event p buffersize iev r)
     (fun r' w' => exists h', opened B p h' l w' /\ same_pending h h' /\ mPendingINotify h' = mPendingINotify h /\
        room r' /\ r_capacity r - 1 <= r_capacity r' /\
        progress h r (set_ilog (ilog w) w) h' r' (set_ilog (ilog w ++ [iev]) w') /\
        ilog w' = ilog w /\ r_changed r' = r_changed r) w.
Proof.
  intros H [Hr1 Hr2] Hc. unfold take_event. fold (is_input iev).
  assert (Hd : delivered [iev] = if is_input iev then [key_of iev] else [])
    by (unfold delivered; cbn [List.filter]; by destruct (is_input iev)).
  assert (Hk : key_clicks [iev] = if i_type iev =? EV_KEY then [Some (key_of iev)] else [])
    by (unfold key_clicks; cbn [List.filter]; by destruct (i_type iev =? EV_KEY)).
  assert (Hlt : (Z.of_nat (length (r_out r)) <? buffersize) = true) by (apply Z.ltb_lt; lia).
  destruct (is_input iev) eqn:Ei.
  - destruct (i_type iev =? EV_KEY) eqn:Ek; apply wp_bind.
    + apply wp_bind. eapply wp_ld_handle; [done|].
      destruct (click_event (double_click_timeout h) (Some (key_of iev)) (gesture_key h) (r_gest r)) as [[g ge] b] eqn:Ec.
      apply wp_bind. eapply (wp_st_handle budget); [done|done|done|]. intros w' H' [C1 C2] _ _. apply wp_ret.
      unfold store_event. rewrite Hlt. apply wp_ret. exists (h_set_gesture g h).
      split; [done|]. split; [done|]. split; [done|]. split; [split; simpl; rewrite ?length_app; simpl; lia|].
      split; [simpl; lia|]. split; [|done]. exists [iev]. simpl. rewrite Hd, Hk. split_and!; [done..| |done|done].
      cbn [clicks fst snd]. by rewrite Ec.
    + apply wp_ret. unfold store_event. rewrite Hlt. apply wp_ret. exists h.
      split; [done|]. split; [done|]. split; [done|]. split; [split; simpl; rewrite ?length_app; simpl; lia|].
      split; [simpl; lia|]. split; [|done]. exists [iev]. simpl. rewrite Hd, Hk. by split_and!.
  - assert (Ek : (i_type iev =? EV_KEY) = false) by (unfold is_input in Ei; by apply orb_false_iff in Ei as [_ ?]).
    apply wp_ret. exists h. split; [done|]. split; [done|]. split; [done|]. split; [done|]. split; [lia|].
    split; [|done]. exists [iev]. simpl. rewrite Hd, Hk, Ek, app_nil_r. by split_and!.
Qed.

Lemma take_events_ok h l (w : W) evs r :
  opened B p h l w -> room r -> Z.of_nat (length evs) <= r_capacity r ->
  wp (take_events p buffersize evs r)
     (fun r' w' => exists h', opened B p h' l w' /\ same_pending h h' /\ mPendingINotify h' = mPendingINotify h /\
        room r' /\ progress h r (set_ilog (ilog w) w) h' r' (set_ilog (ilog w ++ evs) w') /\
        ilog w' = ilog w /\ r_changed r' = r_changed r) w.
Proof.
  revert h w r. induction evs as [|iev evs IH]; intros h w r H Hr Hc; cbn [take_events].
  - apply wp_ret. exists h. split; [done|]. split; [done|]. split; [done|]. split; [done|]. split; [|done].
    exists []. simpl. rewrite !app_nil_r. by split_and!.
  - simpl in Hc. apply wp_bind. eapply wp_mono; [|apply (take_event_ok h l w iev r); [done..|lia]].
    intros r1 w1 (h1 & H1 & S1 & N1 & R1 & C1 & P1 & L1 & G1).
    eapply wp_mono; [|apply (IH h1 w1 r1 H1 R1); lia].
    intros r2 w2 (h2 & H2 & S2 & N2 & R2 & P2 & L2 & G2). exists h2. split; [done|].
    split; [|split; [congruence|split; [done|split; [|split; congruence]]]].
    + destruct S1 as (? & ? & ? & ? & ? & ?), S2 as (? & ? & ? & ? & ? & ?). split_and!; congruence.
    + destruct P1 as (n1 & A1 & A2 & A3 & A4 & A5), P2 as (n2 & B1 & B2 & B3 & B4 & B5). simpl in *.
      apply app_inv_head in A1, B1. subst n1 n2. exists (iev :: evs). simpl.
      change (iev :: evs) with ([iev] ++ evs).
      rewrite delivered_app, key_clicks_app, clicks_app, <- A3, <- A4, B2, A2, !app_assoc.
      split_and!; [done..|congruence|lia].
Qed.

(** What an item leads to. *)
Definition item_done (h : input_event_handle) (r : reading) (w : W) (a : reading * bool) (w' : W) : Prop :=
  exists h' l', opened B p h' l' w' /\ same_pending h h' /\ room (fst a) /\ progress h r w h' (fst a) w' /\
    (snd a = true -> 0 < r_capacity r /\ r_capacity (fst a) = 0).

Lemma item_closed h l1 l2 e r (w w1 : W) :
  opened B p h (l1 ++ e :: l2) w1 -> room r -> calm budget w w1 ->
  wp (closeDeviceLocked p (en_addr e) ;; ret (set_changed true r, false)) (item_done h r w) w1.
Proof.
  intros H Hr C. apply wp_bind. eapply wp_mono; [|by apply (closeDeviceLocked_ok budget)].
  intros _ w2 [H2 C2]. apply wp_ret. exists h, (l1 ++ l2). split; [done|]. split; [done|]. split; [done|].
  split; [|done]. apply progress_calm; try done. by eapply calm_trans.
Qed.

Lemma item_skipped h l r (w w1 : W) :
  opened B p h l w1 -> room r -> calm budget w w1 -> item_done h r w (r, false) w1.
Proof. intros H Hr C. exists h, l. split_and!; try done. by apply progress_calm. Qed.

Lemma read_device_ok h l1 l2 e (w : W) r :
  opened B p h (l1 ++ e :: l2) w -> room r ->
  wp (read_device p buffersize (en_addr e) r) (item_done h r w) w.
Proof.
  intros H Hr. unfold read_device.
  destruct (devlist_in _ _ _ e (op_list _ _ _ _ _ H)) as (pr & nx & Ed); [set_solver|].
  apply wp_bind. eapply wp_ld_dev; [exact Ed|]. cbn [dv_fd]. apply wp_bind. unfold read_events. apply wp_bind, wp_io.
  destruct (io_read (en_fd e) (r_capacity r) (ienv w)) as [res x] eqn:Er. cbn [fst snd].
  pose proof (q_read (en_fd e) (r_capacity r) (ienv w)) as Hb. rewrite Er in Hb. simpl in Hb.
  destruct res as [errno|evs extra].
  - apply wp_ret. assert (H1 : opened B p h (l1 ++ e :: l2) (set_ienv x w)) by by apply opened_env.
    destruct (errno =? ENODEV); [by eapply item_closed|]. by eapply wp_ret, item_skipped.
  - apply wp_bind, wp_modify, wp_ret. destruct (read_bounded _ _ _ _ _ _ (proj1 Hr) Er) as [Hn ->].
    set (w1 := set_ilog _ _).
    assert (H1 : opened B p h (l1 ++ e :: l2) w1) by by destruct H; split.
    rewrite Z.eqb_refl, andb_true_r. cbn [negb].
    destruct (Z.eqb_spec (Z.of_nat (length evs)) 0) as [E0|E0].
    + destruct evs; [|done]. eapply item_closed; [done..|]. split; [simpl; by rewrite app_nil_r|done].
    + apply wp_bind. eapply wp_mono; [|by apply (take_events_ok h (l1 ++ e :: l2) w1 evs r)].
      intros r' w' (h' & H' & S' & _ & R' & P' & L' & _). apply wp_ret.
      exists h', (l1 ++ e :: l2). cbn [fst snd]. split; [done|]. split; [done|]. split; [done|]. split.
      * destruct P' as (n & A1 & A2 & A3 & A4 & A5). simpl in A1, A5. apply app_inv_head in A1. subst n.
        exists evs. split; [by rewrite L'|]. split_and!; done || lia.
      * intros Hfull%Z.eqb_eq. split; [lia|done].
Qed.

Lemma handle_item_ok h l (w : W) item r :
  opened B p h l w -> room r -> wp (handle_item p buffersize item r) (item_done h r w) w.
Proof.
  intros H Hr. pose proof (calm_refl budget w) as C0. unfold handle_item.
  apply wp_bind. eapply wp_ld_handle; [done|]. destruct (fst item =? wrapu32 (mINotifyFd h)).
  - destruct (snd item &? EPOLLIN); cbn [when]; apply wp_bind.
    + eapply (wp_st_handle budget); [done|done|done|]. intros w' H' C' _ _. apply wp_ret.
      exists (h_set_notify true h), l. split_and!; try done. by apply progress_calm.
    + apply wp_ret, wp_ret. by eapply item_skipped.
  - pose proof (op_list _ _ _ _ _ H) as Hl. apply wp_bind. eapply wp_eq; [by apply getDeviceByFd_ok|].
    destruct (List.find _ l) as [e|] eqn:Ef; [|by eapply wp_ret, item_skipped].
    apply find_some in Ef as [Hin _]. apply list_elem_of_In, list_elem_of_split in Hin as (l1 & l2 & ->).
    rewrite (proj2 (Z.eqb_neq _ _)).
    2: { destruct Hl as (hd & q & _ & _ & _ & Hz). intros E0. apply Hz. rewrite <- E0.
         unfold addrs. rewrite map_app. set_solver. }
    destruct (snd item &? EPOLLIN); [by eapply read_device_ok|].
    destruct (snd item &? EPOLLHUP); [by eapply item_closed|]. by eapply wp_ret, item_skipped.
Qed.

(** The loop over the pending items ends at their end, or with the buffer full and
    items left. *)
Lemma pending_loop_ok (fuel : nat) h l (w : W) r :
  opened B p h l w -> ready h -> room r -> (0 < fuel)%nat ->
  mPendingEventCount h - mPendingEventIndex h < Z.of_nat fuel ->
  wp (pending_loop fuel p buffersize r)
     (fun r' w' => exists h' l', opened B p h' l' w' /\ ready h' /\ room r' /\ progress h r w h' r' w' /\
        mPendingEventCount h' = mPendingEventCount h /\ sw_of h' = sw_of h /\
        (mPendingEventCount h' <= mPendingEventIndex h' \/ 0 < r_capacity r /\ r_capacity r' = 0) /\
        (mPendingEventCount h <= mPendingEventIndex h -> r' = r /\ h' = h /\ w' = w)) w.
Proof.
  revert h l w r. induction fuel as [|fuel IH]; intros h l w r H Hh Hr H0 Hf.
  { lia. }
  pose proof Hh as [Hi Hit Hm Hsw].
  cbn [pending_loop]. apply wp_bind. eapply wp_ld_handle; [done|].
  destruct (Z.ltb_spec (mPendingEventIndex h) (mPendingEventCount h)) as [Hlt|Hge].
  - destruct (mPendingEventItems h !! Z.to_nat (mPendingEventIndex h)) as [item|] eqn:Eit.
    2: { apply lookup_ge_None in Eit. lia. }
    apply wp_bind. eapply (wp_st_handle budget); [done|done|done|]. intros w1 H1 C1 _ _.
    set (h1 := h_set_index (mPendingEventIndex h + 1) h) in *.
    assert (P1 : progress h r w h1 r w1) by by apply progress_calm.
    apply wp_bind. eapply wp_mono; [|by apply (handle_item_ok h1 l w1 item r)].
    intros [r2 full] w2 (h2 & l2 & H2 & S2 & R2 & P2 & F2). cbn [fst snd] in *.
    destruct S2 as (S2a & S2b & S2c & S2d & S2e & S2f).
    assert (P12 : progress h r w h2 r2 w2) by by eapply progress_trans.
    destruct full.
    + apply wp_bind. eapply (wp_st_handle budget); [done|done|done|]. intros w3 H3 C3 _ _. apply wp_ret.
      eexists _, l2. split; [exact H3|]. simpl in *. rewrite S2c in *.
      split; [split; simpl; rewrite ?S2a, ?S2b; [lia..|exact (eq_ind_r sw_fine (rd_sw _ Hh : sw_fine (sw_of h1)) S2f)]|]. split; [done|]. split.
      * eapply progress_trans; [exact P12|]. by apply progress_calm.
      * split; [simpl; by rewrite S2b|]. split; [exact S2f|]. split; [|lia]. right. by apply F2.
    + eapply wp_mono; [|apply (IH h2 l2 w2 r2 H2)]; [|split; rewrite ?S2a, ?S2b, ?S2c; simpl; [lia..|exact (eq_ind_r sw_fine (rd_sw _ Hh : sw_fine (sw_of h1)) S2f)]|done|lia|rewrite S2b, S2c; simpl; lia].
      intros r3 w3 (h3 & l3 & H3 & Hh3 & R3 & P3 & N3 & Sw3 & D3 & _). exists h3, l3.
      split; [done|]. split; [done|]. split; [done|]. split; [by eapply progress_trans|].
      split; [by rewrite N3, S2b|]. split; [by rewrite Sw3, S2f|]. split; [|lia]. destruct D3 as [D3|[D3 D4]]; [by left|].
      right. split; [|done]. destruct P2 as (n & _ & Ho & _). destruct Hr as [_ Hr], R2 as [_ R2].
      rewrite Ho, length_app in R2. lia.
  - apply wp_ret. exists h, l. split_and!; try done. { by apply progress_calm. } by left.
Qed.

(** How many passes the items and notifications at hand may still cause. *)
Definition phase (h : input_event_handle) (r : reading) : nat :=
  if mPendingEventIndex h <? mPendingEventCount h then (if r_capacity r =? 0 then 2 else 3)
  else if mPendingINotify h then 1 else 0.

Lemma phase_idle h r :
  mPendingEventCount h <= mPendingEventIndex h -> mPendingINotify h = false -> phase h r = 0%nat.
Proof. intros H Hn. unfold phase. by rewrite (proj2 (Z.ltb_ge _ _)), Hn by lia. Qed.

Lemma phase_busy h r :
  mPendingEventIndex h < mPendingEventCount h -> (2 <= phase h r)%nat /\ (0 < r_capacity r -> phase h r = 3%nat).
Proof.
  intros H. unfold phase. rewrite (proj2 (Z.ltb_lt _ _)) by lia.
  destruct (Z.eqb_spec (r_capacity r) 0); split; lia.
Qed.

Lemma one_pass_ok h l (w : W) r :
  opened B p h l w -> ready h -> room r ->
  wp (one_pass p buffersize r)
     (fun r' w' => exists h' l', opened B p h' l' w' /\ ready h' /\ room r' /\ progress h r w h' r' w' /\
        sw_of h' = sw_of h /\ (r_changed r' = true -> (phase h' r' < phase h r)%nat)) w.
Proof.
  intros H Hh Hr. unfold one_pass. pose proof Hh as [Hi Hit Hm Hsw]. unfold EPOLL_MAX_EVENTS in Hm.
  apply wp_bind. eapply wp_mono; [|apply (pending_loop_ok pending_fuel h l w (set_changed false r));
    [done|done|done|unfold pending_fuel; lia|unfold pending_fuel; lia]].
  intros r1 w1 (h1 & l1 & H1 & Hh1 & R1 & P1 & N1 & Sw1 & D1 & Z1).
  assert (P1' : progress h r w h1 r1 w1) by exact P1.
  apply wp_bind. eapply wp_ld_handle; [done|].
  destruct (Z.leb_spec (mPendingEventCount h1) (mPendingEventIndex h1)) as [Hend|Hleft].
  - destruct (mPendingINotify h1) eqn:En; cbn [andb].
    + apply wp_bind. eapply (wp_st_handle budget); [done|done|done|]. intros w2 H2 C2 _ _.
      apply wp_bind. eapply wp_mono; [|by apply (readNotifyLocked_ok budget)].
      intros _ w3 (evs & l3 & H3 & C3 & _). apply wp_ret. eexists _, l3. split; [exact H3|].
      split; [by destruct Hh1; split|]. split; [done|]. split.
      * eapply progress_trans; [exact P1'|]. apply progress_calm; try done. by eapply calm_trans.
      * split; [done|]. intros _. rewrite phase_idle by done.
        destruct (Z.ltb_spec (mPendingEventIndex h) (mPendingEventCount h)) as [Hb|Hb].
        -- pose proof (phase_busy h r Hb). lia.
        -- destruct (Z1 Hb) as (-> & -> & ->). unfold phase. rewrite (proj2 (Z.ltb_ge _ _)), En by lia. lia.
    + apply wp_ret. exists h1, l1. split_and!; try done. intros Hc. rewrite phase_idle by done.
      destruct (Z.ltb_spec (mPendingEventIndex h) (mPendingEventCount h)) as [Hb|Hb].
      * pose proof (phase_busy h r Hb). lia.
      * destruct (Z1 Hb) as (-> & _). done.
  - rewrite andb_false_r. apply wp_ret. exists h1, l1. split_and!; try done. intros Hc.
    destruct D1 as [D1|[D1 D2]]; [lia|].
    destruct (Z.ltb_spec (mPendingEventIndex h) (mPendingEventCount h)) as [Hb|Hb].
    + rewrite (proj2 (phase_busy h r Hb)) by exact D1. unfold phase.
      rewrite (proj2 (Z.ltb_lt _ _)), D2 by lia. simpl. lia.
    + destruct (Z1 Hb) as (-> & _). done.
Qed.

(** A timeout of [epoll_wait], when nothing was read. *)
Definition timeout_of (out : list keyevent) : list (option keyevent) :=
  match out with [] => [None] | _ => [] end.

Definition read_done (h : input_event_handle) (r : reading) (w : W) (r' : reading) (w' : W) : Prop :=
  exists h' l' new, opened B p h' l' w' /\ ready h' /\ room r' /\
    ilog w' = ilog w ++ new /\ r_out r' = r_out r ++ delivered new /\
    (gesture_key h', r_gest r') =
      clicks (double_click_timeout h) (key_clicks new ++ timeout_of (r_out r')) (gesture_key h, r_gest r).

Lemma read_done_after h r w h1 r1 w1 r2 w2 :
  progress h r w h1 r1 w1 -> read_done h1 r1 w1 r2 w2 -> read_done h r w r2 w2.
Proof.
  intros (n1 & A1 & A2 & A3 & A4 & A5) (h2 & l2 & n2 & H2 & Hh2 & R2 & B1 & B2 & B3).
  exists h2, l2, (n1 ++ n2). rewrite B1, A1, delivered_app, key_clicks_app, <- !app_assoc.
  split_and!; try done; [by rewrite B2, A2, <- app_assoc|]. by rewrite clicks_app, <- A3, <- A4.
Qed.

Lemma read_loop_ok (fuel : nat) h l (w : W) r :
  opened B p h l w -> ready h -> room r -> 0 < buffersize ->
  (4 * budget (ienv w) + phase h r < fuel)%nat ->
  wp (read_loop fuel p buffersize r) (read_done h r w) w.
Proof.
  revert h l w r. induction fuel as [|fuel IH]; intros h l w r H Hh Hr Hbs Hf; [lia|].
  cbn [read_loop]. apply wp_bind. eapply wp_mono; [|by apply (one_pass_ok h l w r)].
  intros r1 w1 (h1 & l1 & H1 & Hh1 & R1 & P1 & Sw1 & D1).
  assert (Hb : (budget (ienv w1) <= budget (ienv w))%nat) by by destruct P1 as (? & ? & ? & ? & ? & ?).
  destruct (r_changed r1) eqn:Ec.
  { eapply wp_mono; [|apply (IH h1 l1 w1 r1); [done..|]].
    - intros r2 w2. by apply read_done_after.
    - specialize (D1 eq_refl). lia. }
  destruct (r_out r1) as [|ev out] eqn:Eo; cbn [length Nat.eqb negb].
  2: { apply wp_ret. eapply read_done_after; [exact P1|]. exists h1, l1, [].
       rewrite Eo, !app_nil_r. by split_and!. }
  apply wp_bind. eapply wp_ld_handle; [done|]. apply wp_bind, wp_io.
  destruct (io_epoll_wait (double_click_timeout h1) (ienv w1)) as [a x] eqn:Ea. cbn [fst snd].
  pose proof (patient_wait _ _ _ _ Ea) as Hp.
  assert (H1x : opened B p h1 l1 (set_ienv x w1)) by by apply opened_env.
  destruct a as [errno|items].
  - destruct Hp as [Hp|Hp]; [done|]. apply wp_bind. eapply (wp_st_handle budget); [done|done|done|].
    intros w2 H2 C2 _ E2.
    eapply wp_mono; [|apply (IH (h_set_pending (mPendingEventItems h1) 0 0 h1) l1 w2 r1); [done| |done|done|]].
    + intros r3 w3. apply read_done_after. eapply progress_trans; [exact P1|].
      apply progress_calm; try done. split; [exact (proj1 C2)|]. rewrite E2. simpl. lia.
    + split; simpl; unfold EPOLL_MAX_EVENTS; [lia..|exact (rd_sw _ Hh1)].
    + rewrite E2. simpl. assert (phase (h_set_pending (mPendingEventItems h1) 0 0 h1) r1 <= 3)%nat; [|lia].
      unfold phase. by repeat case_match; lia.
  - apply wp_bind. eapply (wp_st_handle budget); [done|done|done|]. intros w2 H2 C2 _ E2.
    destruct items as [|item items]; cbn [length Nat.eqb].
    + destruct (click_event (double_click_timeout h1) None (gesture_key h1) (r_gest r1)) as [[g ge] b] eqn:Ec'.
      apply wp_bind. eapply (wp_st_handle budget); [done|done|done|]. intros w3 H3 C3 _ E3. apply wp_ret.
      eapply read_done_after; [exact P1|]. eexists _, l1, []. split; [exact H3|].
      split; [split; simpl; unfold EPOLL_MAX_EVENTS; [lia..|exact (rd_sw _ Hh1)]|].
      split; [unfold room in R1 |- *; simpl; by rewrite Eo in R1|].
      split; [destruct C2 as [C2 _], C3 as [C3 _]; simpl in *; by rewrite C3, C2, app_nil_r|].
      cbn [r_out r_gest]. split; [by rewrite Eo|]. cbn [clicks key_clicks List.filter map app timeout_of fst snd].
      by rewrite Ec'.
    + destruct Hp as [Hp|Hp]; [done|]. pose proof (wait_bounded _ _ _ _ Ea) as Hw.
      eapply wp_mono; [|apply (IH (h_set_pending (item :: items) (Z.of_nat (length (item :: items))) 0 h1) l1 w2 r1);
        [done| |done|done|]].
      * intros r3 w3. apply read_done_after. eapply progress_trans; [exact P1|].
        apply progress_calm; try done. split; [exact (proj1 C2)|]. rewrite E2. simpl. lia.
      * split; cbn [mPendingEventIndex mPendingEventCount mPendingEventItems h_set_pending]; [lia..|exact (rd_sw _ Hh1)].
      * rewrite E2. cbn [ienv set_ienv].
        assert (phase (h_set_pending (item :: items) (Z.of_nat (length (item :: items))) 0 h1) r1 <= 3)%nat; [|lia].
        unfold phase. by repeat case_match; lia.
Qed.

(** ** Switches *)

(** The switches in the order they are reported. *)
Definition switches (s : list Z * list Z * Z) : list (Z * Z) :=
  let '(codes, values, n) := s in rev (firstn (Z.to_nat n) (combine codes values)).

Definition sw_event (t : Z) (s : Z * Z) : keyevent := mk_keyevent EV_SW (fst s) (snd s) t.

Lemma lookup_combine {A C} (a : list A) (b : list C) (k : nat) x y :
  a !! k = Some x -> b !! k = Some y -> combine a b !! k = Some (x, y).
Proof.
  revert b k. induction a as [|x' a IH]; intros [|y' b] [|k] Ea Eb; simpl in *; simplify_eq; [done|]. by apply IH.
Qed.

Lemma switches_last (codes values : list Z) (n : Z) :
  sw_fine (codes, values, n) -> 0 < n -> exists c v,
    codes !! Z.to_nat (n - 1) = Some c /\ values !! Z.to_nat (n - 1) = Some v /\
    switches (codes, values, n) = (c, v) :: switches (codes, values, n - 1).
Proof.
  intros (L1 & L2 & Hn) H0. unfold MAX_SW_KEY in Hn. set (k := Z.to_nat (n - 1)).
  destruct (lookup_lt_is_Some_2 codes k) as [c Ec]; [lia|].
  destruct (lookup_lt_is_Some_2 values k) as [v Ev]; [lia|].
  exists c, v. split_and!; [done..|]. unfold switches. fold k.
  assert (Ez : combine codes values !! k = Some (c, v)) by by apply lookup_combine.
  replace (Z.to_nat n) with (S k) by lia.
  rewrite (take_S_r _ _ _ Ez : firstn (S k) _ = _). by rewrite rev_app_distr.
Qed.

Lemma report_switches_ok (cap : nat) t h (w : W) :
  sw_fine (sw_of h) ->
  report_switches cap t h w =
  Ret (map (sw_event t) (firstn cap (switches (sw_of h))), Z.max 0 (sw_keynumber h - Z.of_nat cap)) w.
Proof.
  revert h. induction cap as [|cap IH]; intros h Hs; cbn [report_switches].
  - destruct Hs as (_ & _ & Hn). unfold ret. do 3 f_equal. lia.
  - pose proof Hs as (L1 & L2 & Hn). destruct (Z.eqb_spec (sw_keynumber h) 0) as [E0|E0].
    + unfold sw_of, switches. rewrite E0. unfold ret. simpl. done.
    + destruct (switches_last _ _ _ Hs) as (c & v & Ec & Ev & Es); [lia|]. rewrite Ec, Ev.
      unfold bind. rewrite IH by (unfold sw_fine, sw_of; simpl; unfold MAX_SW_KEY in *; lia).
      unfold sw_of at 1. cbn [sw_keycode sw_keyvalue sw_keynumber h_set_sw]. unfold ret.
      unfold sw_of. rewrite Es. cbn [firstn map]. do 3 f_equal. lia.
Qed.

Lemma switches_skip (codes values : list Z) (n k : Z) :
  sw_fine (codes, values, n) -> 0 <= k ->
  switches (codes, values, Z.max 0 (n - k)) = skipn (Z.to_nat k) (switches (codes, values, n)).
Proof.
  intros (L1 & L2 & Hn) Hk. unfold switches, MAX_SW_KEY in *.
  assert (Hl : length (combine codes values) = 8%nat) by (rewrite length_combine; lia).
  set (z := combine codes values) in *. replace (Z.to_nat (Z.max 0 (n - k))) with (Z.to_nat n - Z.to_nat k)%nat by lia.
  rewrite <- (firstn_skipn (Z.to_nat n - Z.to_nat k) (firstn (Z.to_nat n) z)).
  rewrite rev_app_distr, skipn_app, length_rev, length_skipn, length_firstn.
  rewrite (skipn_all2 (rev _)) by (rewrite length_rev, length_skipn, length_firstn; lia).
  rewrite firstn_firstn. cbn [app].
  destruct (Nat.le_gt_cases (Z.to_nat k) (Z.to_nat n)) as [Hle|Hgt].
  - replace ((Z.to_nat n - Z.to_nat k) `min` Z.to_nat n)%nat with (Z.to_nat n - Z.to_nat k)%nat by lia.
    replace (Z.to_nat k - _)%nat with 0%nat by lia. done.
  - replace (Z.to_nat n - Z.to_nat k)%nat with 0%nat by lia. simpl. by rewrite skipn_nil.
Qed.
End Read.


(** C17: Reading from an open handle.  As long as [epoll_wait] does not keep answering
    without a timeout, the call returns, whatever devices appear, vanish or fail
    meanwhile, with the handle open and its list, memory and descriptors consistent,
    and with at most [buffersize] events stored.  While switches are to be reported,
    it stores the next of them.  Otherwise it stores exactly the key and switch events
    the devices gave it during the call, each once and in order, and its gesture is
    the one the machine of [click_event] makes of the key events, with a timeout when
    no event came. *)
Theorem read_input_events_spec {UL : ULong} {X : Type} {E : InputEnv X} {K : InputKernel X}
    (budget : X -> nat) {Pt : Patient budget} (B : base) (p buffersize : Z) (fuel : nat)
    (h : input_event_handle) (l : list entry) (w : input X) (gest : gesture) :
  opened B p h l w -> ready h -> 0 < buffersize -> (4 * budget (ienv w) + 3 < fuel)%nat ->
  wp (read_input_events fuel p buffersize gest)
     (fun a w' => exists h' l' new, opened B p h' l' w' /\ ready h' /\
        Z.of_nat (length (fst a)) <= buffersize /\ ilog w' = ilog w ++ new /\
        if 0 <? sw_keynumber h then
          new = [] /\ switches (sw_of h') = skipn (Z.to_nat buffersize) (switches (sw_of h)) /\
          exists t, fst a = map (sw_event t) (firstn (Z.to_nat buffersize) (switches (sw_of h)))
        else
          fst a = delivered new /\
          (gesture_key h', snd a) =
            clicks (double_click_timeout h) (key_clicks new ++ timeout_of (fst a))
              (gesture_key h, no_action gest)) w.
Proof.
  intros H Hh Hbs Hf. unfold read_input_events. rewrite (proj2 (Z.leb_gt _ _)) by lia.
  rewrite (proj2 (Z.eqb_neq p 0)).
  2: { intros ->. destruct (op_list _ _ _ _ _ H) as (hd & q & _ & _ & _ & Hz). set_solver. }
  apply wp_bind. eapply wp_ld_handle; [done|]. destruct (0 <? sw_keynumber h) eqn:Esw.
  - apply wp_bind, wp_io. destruct (fst (io_gettimeofday (ienv w))) as [sec usec].
    apply wp_bind. eapply wp_eq; [apply report_switches_ok, (rd_sw _ Hh)|]. apply wp_bind.
    eapply (wp_st_handle budget); [by apply opened_env|done|done|]. intros w' H' C' _ _. apply wp_ret.
    eexists _, l, []. split; [exact H'|]. pose proof Hh as [Hi Hit Hm (L1 & L2 & Hn)].
    split; [split; [done..|]; simpl; unfold MAX_SW_KEY in *; lia|].
    cbn [fst snd]. rewrite length_map, length_firstn, app_nil_r. split; [lia|]. split; [by apply C'|].
    split; [done|]. split; [|by eexists]. rewrite Z2Nat.id by lia. by apply switches_skip; [apply (rd_sw _ Hh)|lia].
  - apply wp_bind.
    eapply wp_mono; [|apply (read_loop_ok budget B p buffersize fuel h l w); [done|done| |done|]].
    + intros r w' (h' & l' & new & H' & Hh' & [R1 R2] & L' & O' & G'). apply wp_ret.
      exists h', l', new. cbn [fst snd] in *. simpl in O', G'. split_and!; try done. lia.
    + split; simpl; lia.
    + assert (phase h (mk_reading [] buffersize (no_action gest) false) <= 3)%nat; [|lia].
      unfold phase. by repeat case_match; lia.
Qed.
