(* ===== verification/InputLife.v ===== *)
(** * The input library: life of a handle

    [input_event_create] and [input_event_destroy], the switches of the configuration
    file, and a concrete operating system on which the library runs. *)

From Stdlib Require Import Ascii String.
From stdpp Require Import base gmap list.
From S2P Require Import Prelude CString Bytes CMonad Dll Gesture InputDev InputHot InputProofs InputRead.
Open Scope string_scope.
Open Scope list_scope.
Open Scope Z_scope.

(** ** Descriptors of the handle *)

Lemma fds_epoll F0 F h l fd :
  fds_ok F0 F h l -> mEpollFd h < 0 -> 0 <= fd -> fd ∉ F ->
  fds_ok F0 ({[fd]} ∪ F) (h_set_fds fd (mINotifyFd h) (wd h) h) l.
Proof.
  intros [F1 F2 F3 F4] Hh Hfd Hn.
  assert (Ho : own (h_set_fds fd (mINotifyFd h) (wd h) h) l = fd :: own h l).
  { unfold own, owned. simpl. by rewrite (proj2 (Z.leb_le 0 fd)), (proj2 (Z.leb_gt 0 (mEpollFd h))) by lia. }
  subst F. apply not_elem_of_union in Hn as [Hn1 Hn2]. rewrite elem_of_list_to_set in Hn2.
  split; rewrite ?Ho; [rewrite list_to_set_cons; set_solver|by apply NoDup_cons| |done].
  intros x [->|Hx]%elem_of_cons; [done|by apply F3].
Qed.

Lemma fds_inotify F0 F h l fd :
  fds_ok F0 F h l -> mINotifyFd h < 0 -> 0 <= fd -> fd ∉ F ->
  fds_ok F0 ({[fd]} ∪ F) (h_set_fds (mEpollFd h) fd (wd h) h) l.
Proof.
  intros [F1 F2 F3 F4] Hh Hfd Hn.
  assert (Ho : own (h_set_fds (mEpollFd h) fd (wd h) h) l ≡ₚ fd :: own h l).
  { unfold own. simpl. unfold owned at 2 4. rewrite (proj2 (Z.leb_le 0 fd)), (proj2 (Z.leb_gt 0 (mINotifyFd h))) by lia.
    simpl. by rewrite Permutation_middle. }
  subst F. apply not_elem_of_union in Hn as [Hn1 Hn2]. rewrite elem_of_list_to_set in Hn2.
  split; rewrite ?Ho; [rewrite list_to_set_cons; set_solver|by apply NoDup_cons| |done].
  intros x. rewrite Ho. intros [->|Hx]%elem_of_cons; [done|by apply F3].
Qed.

(** A negative number in a field is no descriptor. *)
Lemma fds_same F0 F h h' l :
  fds_ok F0 F h l -> owned (mEpollFd h') = owned (mEpollFd h) -> owned (mINotifyFd h') = owned (mINotifyFd h) ->
  fds_ok F0 F h' l.
Proof. intros [F1 F2 F3 F4] E1 E2. by split; unfold own; rewrite ?E1, ?E2. Qed.

Lemma owned_neg fd : fd < 0 -> owned fd = [].
Proof. intros H. unfold owned. by rewrite (proj2 (Z.leb_gt 0 fd)) by lia. Qed.

Section Life.
Context {UL : ULong} {X : Type} {E : InputEnv X} {K : InputKernel X}.
Local Notation W := (input X).

(** The bookkeeping of [Quiet] is not needed here. *)
#[local] Instance no_budget : Quiet (fun _ : X => 0%nat).
Proof. by split. Qed.

Local Notation calm0 := (calm (fun _ : X => 0%nat)).

(** A change of the handle and of the descriptors. *)
Lemma opened_change B p h h' l F' (w : W) :
  opened B p h l w -> fds_ok (b_fds B) F' h' l ->
  opened B p h' l (set_handles (<[p := h']> (handles w)) (set_ifds F' w)).
Proof.
  intros [H1 H2 H3 H4 H5 H6] HF. split; try done. simpl. rewrite H1. apply insert_insert_eq.
Qed.

(** [handle->f = v] after a call that opened or failed to open a descriptor. *)
Lemma wp_set_fds B p h l F (w : W) f (R : unit -> W -> Prop) :
  opened B p h l (set_ifds F w) -> fds_ok (b_fds B) (ifds w) (f h) l ->
  (opened B p (f h) l (set_handles (<[p := f h]> (handles w)) w) ->
   R tt (set_handles (<[p := f h]> (handles w)) w)) -> wp (st_handle p f) R w.
Proof.
  intros H HF HR. pose proof (op_handle _ _ _ _ _ H) as Eh. simpl in Eh.
  unfold wp, st_handle, bind, ld_handle. rewrite Eh, lookup_insert_eq. apply HR.
  exact (opened_change _ _ _ _ _ _ _ H HF).
Qed.

(** A descriptor that is never closed joins those of the process. *)
Definition leak (S : gset Z) (B : base) : base := mk_base (b_handles B) (b_devs B) (b_fds B ∪ S).

Lemma opened_leak B p h l fd (w : W) :
  opened B p h l w -> fd ∉ ifds w -> opened (leak {[fd]} B) p h l (set_ifds ({[fd]} ∪ ifds w) w).
Proof.
  intros [H1 H2 H3 H4 H5 [F1 F2 F3 F4]] Hn. split; try done. simpl. rewrite F1 in Hn |- *. split; try done.
  - set_solver.
  - intros x Hx. apply not_elem_of_union. split; [by apply F3|]. intros ->%elem_of_singleton. apply Hn.
    apply elem_of_union. right. by apply elem_of_list_to_set.
Qed.

Lemma leak_none B : leak ∅ B = B.
Proof. destruct B. unfold leak. simpl. by rewrite (right_id_L ∅ _). Qed.

Lemma leak_leak S1 S2 B : leak S2 (leak S1 B) = leak (S1 ∪ S2) B.
Proof. unfold leak. simpl. by rewrite (assoc_L _). Qed.

(** ** Destruction *)

Lemma input_event_destroy_ok B p h l (w : W) :
  opened B p h l w ->
  wp (input_event_destroy p)
     (fun _ w' => handles w' = b_handles B /\ devs w' = b_devs B /\ ifds w' = b_fds B) w.
Proof.
  intros H. unfold input_event_destroy. rewrite (proj2 (Z.eqb_neq p 0)).
  2: { intros ->. destruct (op_list _ _ _ _ _ H) as (hd & q & _ & _ & _ & Hz). set_solver. }
  apply wp_bind. eapply wp_mono; [|apply (closeAllDeviceLocked_ok (fun _ => 0%nat) B p h l w H)].
  intros _ w1 [H1 _]. pose proof H1 as [O1 O2 O3 O4 O5 [F1 F2 F3 _]].
  unfold own in F1, F2, F3. simpl in F1, F2, F3. rewrite app_nil_r in F1, F2, F3.
  assert (Hd : delete p (devs w1) = b_devs B).
  { apply map_eq. intros a. destruct (decide (a = p)) as [->|Hne].
    - rewrite lookup_delete_eq. symmetry. apply O5. set_solver.
    - rewrite lookup_delete_ne by done. apply O4. simpl. set_solver. }
  assert (Hh : delete p (handles w1) = b_handles B) by (by rewrite O1, delete_insert_id).
  apply wp_bind. eapply wp_ld_handle; [done|].
  assert (Eh1 : handles w1 !! p = Some h) by by rewrite O1, lookup_insert_eq.
  unfold wp, when, close, st_handle, ld_handle, bind, modify, io, ret. simpl.
  unfold owned in F1, F2, F3.
  destruct (0 <=? mINotifyFd h) eqn:Ei; destruct (0 <=? mEpollFd h) eqn:Ee; simpl in *;
    repeat (destruct (io_epoll_del _ _)); simpl; rewrite ?Eh1; repeat (rewrite ?lookup_insert_eq; simpl);
    rewrite ?insert_insert_eq; (split; [rewrite ?delete_insert_eq; exact Hh|split; [exact Hd|]]); rewrite F1.
  - assert (mEpollFd h ∉ b_fds B) by (apply F3; set_solver). assert (mINotifyFd h ∉ b_fds B) by (apply F3; set_solver).
    set_solver.
  - assert (mINotifyFd h ∉ b_fds B) by (apply F3; set_solver). set_solver.
  - assert (mEpollFd h ∉ b_fds B) by (apply F3; set_solver). set_solver.
  - set_solver.
Qed.

(** ** The configuration of the switches *)

Fixpoint no_char (c : ascii) (s : string) : bool :=
  match s with
  | "" => true
  | String d s' => negb (Ascii.eqb d c) && no_char c s'
  end.

Lemma no_char_before c d s : no_char c s = true -> no_char c (before_char s d) = true.
Proof.
  induction s as [|x s IH]; [done|]. cbn [no_char before_char]. intros [H1 H2]%andb_true_iff.
  destruct (Ascii.eqb x d); [done|]. cbn [no_char]. by rewrite H1, IH.
Qed.

Lemma no_char_cut c s : no_char c (before_char s c) = true.
Proof.
  induction s as [|x s IH]; [done|]. cbn [before_char]. destruct (Ascii.eqb x c) eqn:Ex; [done|].
  cbn [no_char]. by rewrite Ex, IH.
Qed.

Lemma strchr_none c s : no_char c s = true -> strchr s c = None.
Proof.
  induction s as [|x s IH]; [done|]. cbn [no_char strchr]. intros [H1 H2]%andb_true_iff.
  apply negb_true_iff in H1. rewrite H1. by apply IH.
Qed.

Lemma chomp_lf s : chomp (s ++ String LF "")%string = s.
Proof.
  induction s as [|c s IH]; [done|]. change ((String c s ++ String LF "")%string) with (String c (s ++ String LF "")%string).
  destruct s as [|c' s]; [done|]. simpl in *. by rewrite IH.
Qed.

Lemma chomp_id s : no_char LF s = true -> chomp s = s.
Proof.
  induction s as [|c s IH]; [done|]. cbn [no_char]. intros [H1 H2]%andb_true_iff. apply negb_true_iff in H1.
  destruct s as [|c' s]; [cbn [chomp]; by rewrite H1|]. cbn [chomp] in *. by rewrite IH.
Qed.

Lemma fgets_line n l rest :
  no_char LF l = true -> (String.length l < n)%nat ->
  fgets n (l ++ String LF rest)%string = ((l ++ String LF "")%string, rest, false).
Proof.
  revert n. induction l as [|c l IH]; intros [|n] H Hn; try (simpl in Hn; lia); [done|].
  cbn [no_char] in H. apply andb_true_iff in H as [H1 H2]. apply negb_true_iff in H1.
  change (String c l ++ String LF rest)%string with (String c (l ++ String LF rest)%string).
  cbn [fgets]. rewrite H1, IH; [done..|simpl in Hn; lia].
Qed.

(** The device a line names and its key code; and what the line leaves in the buffer. *)
Definition skipped (line : string) : bool := String.eqb line "" || Ascii.eqb (default LF (deref line)) CR.

Definition gpio_of (line : string) : option (Z * string) :=
  if skipped line then None
  else match strchr line ":" with
       | None => None
       | Some colon =>
           let gpio := to_slash (advance 1 colon) in
           if String.eqb gpio "" then None else Some (atoi (before_char line ":"), gpio)
       end.

Definition after_line (line : string) : string :=
  if skipped line then line else match strchr line ":" with None => line | Some _ => before_char line ":" end.

(** One line of the file. *)
Lemma switch_loop_line (fuel : nat) line rest prev j codes values :
  no_char LF line = true -> (String.length line < 1023)%nat ->
  switch_loop (S fuel) (line ++ String LF rest)%string false prev j codes values =
  match gpio_of line with
  | None => switch_loop fuel rest false (Some (after_line line)) j codes values
  | Some (_, gpio) =>
      r <- switch_line (before_char line ":") gpio j codes values ;;
      match r with
      | None => ret (j, codes, values)
      | Some (j, codes, values) => switch_loop fuel rest false (Some (after_line line)) j codes values
      end
  end.
Proof.
  intros H1 H2. cbn [switch_loop]. rewrite fgets_line by done.
  assert (Hne : String.eqb (line ++ String LF "") "" = false) by by destruct line.
  rewrite Hne. assert (Hc : exists c s, (line ++ String LF "")%string = String c s) by (destruct line; simpl; eauto).
  destruct Hc as (c & s & Hc). rewrite Hc, <- Hc, chomp_lf. fold (skipped line).
  unfold gpio_of, after_line. destruct (skipped line); [done|]. destruct (strchr line ":") as [colon|]; [|done].
  by destruct (String.eqb (to_slash (advance 1 colon)) "").
Qed.

(** The end of the file: the last line is looked at again. *)
Lemma switch_loop_end (fuel : nat) line j codes values (w : W) :
  no_char LF line = true -> after_line line <> "" ->
  switch_loop (S (S fuel)) "" false (Some (after_line line)) j codes values w = Ret (j, codes, values) w.
Proof.
  intros H1 H2. cbn [switch_loop fgets String.eqb].
  destruct (after_line line) as [|c s] eqn:Ea; [done|]. rewrite <- Ea.
  assert (Hlf : no_char LF (after_line line) = true).
  { unfold after_line. destruct (skipped line); [done|]. destruct (strchr line ":"); [by apply no_char_before|done]. }
  rewrite (chomp_id _ Hlf). fold (skipped (after_line line)).
  destruct (skipped (after_line line)) eqn:Es; [done|].
  assert (Hn : strchr (after_line line) ":" = None).
  { unfold after_line in *. destruct (skipped line) eqn:E0; [congruence|].
    destruct (strchr line ":") eqn:E1; [apply strchr_none, no_char_cut|done]. }
  by rewrite Hn.
Qed.

(** The answers of the files the lines name: whether a file opens, and its first byte. *)
Context (R : string -> option (option Z) -> Prop)
  (HR : forall path S x fd x', io_open path S x = (fd, x') ->
        R path (if fd <? 0 then None else Some (fst (io_read_byte fd x')))).

(** The switch that a line with these answers stands for. *)
Definition key_list (code : Z) (a : option (option Z)) : list (Z * Z) :=
  match a with
  | Some (Some b) => if b =? ord "0"%char then [(code, 0)] else if b =? ord "1"%char then [(code, 1)] else []
  | _ => []
  end.

Definition line_reads (line : string) (k : list (Z * Z)) : Prop :=
  match gpio_of line with
  | None => k = []
  | Some (code, gpio) => exists a, R gpio a /\ k = key_list code a
  end.

(** The arrays hold [acc]. *)
Definition sw_arr (j : Z) (codes values : list Z) (acc : list (Z * Z)) : Prop :=
  sw_fine (codes, values, j) /\ firstn (Z.to_nat j) (combine codes values) = acc.

Lemma combine_insert (codes values : list Z) (j : nat) c v :
  (j < length codes)%nat -> (j < length values)%nat ->
  firstn (S j) (combine (<[j := c]> codes) (<[j := v]> values)) = firstn j (combine codes values) ++ [(c, v)].
Proof.
  revert values j. induction codes as [|x codes IH]; intros [|y values] [|j] H1 H2; simpl in *; try lia; [done|].
  f_equal. apply IH; lia.
Qed.

Lemma combine_insert_l (codes values : list Z) (j : nat) c :
  firstn j (combine (<[j := c]> codes) values) = firstn j (combine codes values).
Proof.
  revert values j. induction codes as [|x codes IH]; intros [|y values] [|j]; simpl; try done. by rewrite IH.
Qed.

Lemma sw_arr_store j codes values acc c v :
  sw_arr j codes values acc -> j < MAX_SW_KEY ->
  sw_arr (j + 1) (<[Z.to_nat j := c]> codes) (<[Z.to_nat j := v]> values) (acc ++ [(c, v)]).
Proof.
  intros [(L1 & L2 & Hj) <-] Hlt. unfold MAX_SW_KEY in *. split.
  - unfold sw_fine. rewrite !length_insert. unfold MAX_SW_KEY. lia.
  - replace (Z.to_nat (j + 1)) with (S (Z.to_nat j)) by lia. apply combine_insert; lia.
Qed.

Lemma sw_arr_code j codes values acc c :
  sw_arr j codes values acc -> sw_arr j (<[Z.to_nat j := c]> codes) values acc.
Proof.
  intros [(L1 & L2 & Hj) <-]. split; [|apply combine_insert_l]. unfold sw_fine. by rewrite length_insert.
Qed.

Lemma switch_line_ok B p h l (w : W) line gpio j codes values acc :
  opened B p h l w -> sw_arr j codes values acc ->
  wp (switch_line line gpio j codes values)
     (fun r w' => exists S, opened (leak S B) p h l w' /\ ilog w' = ilog w /\
        match r with
        | None => j = MAX_SW_KEY
        | Some (j', codes', values') =>
            exists a, R gpio a /\ sw_arr j' codes' values' (acc ++ key_list (atoi line) a)
        end) w.
Proof.
  intros H Hs. pose proof Hs as [(L1 & L2 & Hj) _]. unfold switch_line.
  apply wp_bind, (wp_new_fd _ _ _ (open_fresh gpio)).
  - intros fd x Ef Hneg. pose proof (HR _ _ _ _ _ Ef) as Hr. rewrite (proj2 (Z.ltb_lt _ _)) in Hr |- * by lia.
    apply wp_ret. exists ∅. split; [|split; [done|]].
    + rewrite leak_none. by apply opened_env.
    + exists None. split; [done|]. simpl. by rewrite app_nil_r.
  - intros fd x Ef Hpos Hfresh. pose proof (HR _ _ _ _ _ Ef) as Hr. rewrite (proj2 (Z.ltb_ge _ _)) in Hr |- * by lia.
    assert (H1 : opened (leak {[fd]} B) p h l (set_ifds ({[fd]} ∪ ifds w) (set_ienv x w)))
      by (apply (opened_leak B p h l fd (set_ienv x w)); [by apply opened_env|done]).
    destruct (Z.leb_spec MAX_SW_KEY j) as [Hmax|Hlt].
    { apply wp_ret. exists {[fd]}. split; [done|]. split; [done|]. lia. }
    apply wp_bind, wp_io. cbn [ienv set_ifds set_ienv]. set (b := fst (io_read_byte fd x)) in *.
    assert (H2 : forall y, opened (leak {[fd]} B) p h l (set_ienv y (set_ifds ({[fd]} ∪ ifds w) (set_ienv x w))))
      by (intros y; by apply opened_env).
    destruct b as [k|].
    + destruct (k =? ord "0"%char) eqn:E0; [|destruct (k =? ord "1"%char) eqn:E1]; apply wp_ret;
        exists {[fd]}; (split; [apply H2|split; [done|]]); exists (Some (Some k)); (split; [done|]);
        unfold key_list; rewrite ?E0, ?E1.
      * by apply sw_arr_store.
      * by apply sw_arr_store.
      * rewrite app_nil_r. by apply sw_arr_code.
    + apply wp_ret. exists {[fd]}. split; [apply H2|]. split; [done|]. exists (Some None). split; [done|].
      simpl. by rewrite app_nil_r.
Qed.

Definition unlines (lines : list string) : string :=
  fold_right (fun l s => (l ++ String LF s)%string) "" lines.

Definition line_ok (line : string) : Prop := no_char LF line = true /\ (String.length line < 1023)%nat.

(** Every line ends, and the last one leaves something in the buffer. *)
Definition config_ok (lines : list string) : Prop :=
  Forall line_ok lines /\ lines <> [] /\ after_line (List.last lines "") <> "".

Definition loop_done B p h l (w : W) lines acc (r : Z * list Z * list Z) (w' : W) : Prop :=
  exists S pre post ks, opened (leak S B) p h l w' /\ ilog w' = ilog w /\ lines = pre ++ post /\
    Forall2 line_reads pre ks /\
    (let '(j, codes, values) := r in sw_arr j codes values (acc ++ concat ks) /\ (post = [] \/ j = MAX_SW_KEY)).

Lemma switch_loop_ok p h l lines (fuel : nat) prev B (w : W) j codes values acc :
  opened B p h l w -> sw_arr j codes values acc -> Forall line_ok lines ->
  match lines with
  | [] => exists line, prev = Some (after_line line) /\ line_ok line /\ after_line line <> ""
  | _ => after_line (List.last lines "") <> ""
  end ->
  (length lines + 2 <= fuel)%nat ->
  wp (switch_loop fuel (unlines lines) false prev j codes values) (loop_done B p h l w lines acc) w.
Proof.
  revert fuel prev B w j codes values acc.
  induction lines as [|line lines IH]; intros fuel prev B w j codes values acc H Hs Hok Hlast Hf;
    (destruct fuel as [|fuel]; [simpl in Hf; lia|]).
  - destruct Hlast as (line & -> & [H1 _] & H2). destruct fuel as [|fuel]; [simpl in Hf; lia|].
    eapply wp_eq; [by apply switch_loop_end|]. exists ∅, [], [], []. cbn [concat].
    rewrite (app_nil_r acc). split_and!; try done.
    + by rewrite leak_none.
    + by left.
  - apply Forall_cons in Hok as [[Hl1 Hl2] Hok]. cbn [unlines fold_right]. fold (unlines lines).
    assert (Hnext : match lines with
      | [] => exists l0, Some (after_line line) = Some (after_line l0) /\ line_ok l0 /\ after_line l0 <> ""
      | _ => after_line (List.last lines "") <> "" end) by (destruct lines; [by exists line|exact Hlast]).
    rewrite switch_loop_line by done. simpl in Hf.
    assert (Hgo : forall k S1 w1 j1 codes1 values1, line_reads line k -> opened (leak S1 B) p h l w1 ->
      ilog w1 = ilog w -> sw_arr j1 codes1 values1 (acc ++ k) ->
      wp (switch_loop fuel (unlines lines) false (Some (after_line line)) j1 codes1 values1)
         (loop_done B p h l w (line :: lines) acc) w1).
    { intros k S1 w1 j1 codes1 values1 Hk H1 L1 Hs1.
      eapply wp_mono; [|apply (IH fuel _ (leak S1 B) w1 j1 codes1 values1 (acc ++ k)); [done|done|done|exact Hnext|lia]].
      intros [[j2 codes2] values2] w2 (S2 & pre & post & ks & H2 & L2 & -> & F2 & Hs2 & D2).
      rewrite leak_leak in H2. exists (S1 ∪ S2), (line :: pre), post, (k :: ks).
      split; [done|]. split; [congruence|]. split; [done|]. split; [by constructor|].
      cbn [concat]. rewrite app_assoc. done. }
    destruct (gpio_of line) as [[code gpio]|] eqn:Eg.
    + assert (Ecode : code = atoi (before_char line ":")).
      { unfold gpio_of in Eg. destruct (skipped line), (strchr line ":") as [colon|]; try done.
        destruct (String.eqb (to_slash (advance 1 colon)) ""); [done|]. by injection Eg. }
      apply wp_bind. eapply wp_mono; [|by apply (switch_line_ok B p h l w _ gpio j codes values acc)].
      intros [[[j1 codes1] values1]|] w1 (S1 & H1 & L1 & D1).
      * destruct D1 as (a & Ha & Hs1). eapply Hgo; [|exact H1|done|exact Hs1].
        unfold line_reads. rewrite Eg. exists a. by subst code.
      * apply wp_ret. exists S1, [], (line :: lines), []. split; [done|]. split; [done|]. split; [done|].
        split; [constructor|]. rewrite app_nil_r. split; [done|]. by right.
    + apply (Hgo [] ∅); [unfold line_reads; by rewrite Eg| |done|by rewrite app_nil_r].
      by rewrite leak_none.
Qed.

Lemma unlines_length lines : (length lines <= String.length (unlines lines))%nat.
Proof.
  induction lines as [|line lines IH]; [done|]. cbn [unlines fold_right length]. fold (unlines lines).
  rewrite string_length_app. simpl. lia.
Qed.

(** The switches of the lines of a configuration file, at most eight of them. *)
Definition config_keys (lines : list string) (keys : list (Z * Z)) : Prop :=
  exists pre post ks, lines = pre ++ post /\ Forall2 line_reads pre ks /\ keys = concat ks /\
    (post = [] \/ length keys = 8%nat).

(** The configuration file, when there is one, has these lines. *)
Definition ConfigIs (lines : list string) : Prop := forall S x fd text x',
  io_fopen SW_CONFIG S x = (Some (fd, text), x') -> text = unlines lines.

Lemma parse_switch_config_ok lines B p h l (w : W) :
  ConfigIs lines -> config_ok lines -> opened B p h l w -> sw_arr 0 (sw_keycode h) (sw_keyvalue h) [] ->
  wp (parse_switch_config p)
     (fun n w' => exists S codes values keys,
        opened (leak S B) p (h_set_sw codes values (sw_keynumber h) h) l w' /\
        sw_arr n codes values keys /\ (config_keys lines keys \/ keys = [] /\ S = ∅)) w.
Proof.
  intros Hcfg (Hok & Hne & Hlast) H Hs. unfold parse_switch_config. apply wp_bind. eapply wp_ld_handle; [done|].
  apply wp_bind. apply (wp_self (fun w => io (io_fopen SW_CONFIG (ifds w)))), wp_io.
  destruct (io_fopen SW_CONFIG (ifds w) (ienv w)) as [[[fd text]|] x] eqn:Ef; cbn [fst snd].
  - rewrite (Hcfg _ _ _ _ _ Ef). destruct (fopen_fresh _ _ _ _ _ _ Ef) as [Hfresh _].
    apply wp_bind, wp_modify. cbn [ifds set_ienv].
    assert (H1 : opened (leak {[fd]} B) p h l (set_ifds ({[fd]} ∪ ifds w) (set_ienv x w)))
      by (apply (opened_leak B p h l fd (set_ienv x w)); [by apply opened_env|done]).
    apply wp_bind. eapply wp_mono; [|apply (switch_loop_ok p h l lines _ None _ _ 0 _ _ [] H1 Hs Hok)].
    + intros [[j codes] values] w2 (S2 & pre & post & ks & H2 & _ & El & F2 & Hs2 & D2).
      rewrite leak_leak in H2. simpl in Hs2.
      apply wp_bind. eapply (wp_st_handle (fun _ => 0%nat)); [exact H2|done|done|].
      intros w3 H3 _ _ _. apply wp_ret. exists ({[fd]} ∪ S2), codes, values, (concat ks).
      split; [exact H3|]. split; [done|]. left. exists pre, post, ks. split; [done|]. split; [done|]. split; [done|].
      destruct D2 as [->|Ej]; [by left|]. right. destruct Hs2 as [(L1 & L2' & _) <-]. subst j.
      rewrite length_firstn, length_combine, L1, L2'. done.
    + by destruct lines.
    + pose proof (unlines_length lines). lia.
  - apply wp_ret. exists ∅, (sw_keycode h), (sw_keyvalue h), []. split; [|split; [done|by right]].
    rewrite leak_none. apply opened_env. by destruct h.
Qed.

(** ** Creation *)

(** A release of Linux begins with two numbers. *)
Definition TwoNumbers : Prop := forall x r x' major minor,
  io_uname x = (Some r, x') -> scan_release r = Some (major, minor) -> minor <> None.

Lemma getLinuxRelease_ok (w : W) :
  TwoNumbers -> exists major minor x, getLinuxRelease w = Ret (major, Some minor) (set_ienv x w).
Proof.
  intros H. unfold getLinuxRelease, bind, io. destruct (io_uname (ienv w)) as [[r|] x] eqn:Eu.
  - destruct (scan_release r) as [[major minor]|] eqn:Es; simpl.
    + pose proof (H _ _ _ _ _ Eu Es) as Hm. destruct minor as [minor|]; [|done]. by exists major, minor, x.
    + by exists 0, 0, x.
  - by exists 0, 0, x.
Qed.

(** The fields that opening does not set. *)
Definition unread (h h' : input_event_handle) : Prop :=
  sw_of h' = sw_of h /\ mPendingEventItems h' = mPendingEventItems h /\
  mPendingEventCount h' = mPendingEventCount h /\ mPendingEventIndex h' = mPendingEventIndex h /\
  double_click_timeout h' = double_click_timeout h /\ gesture_key h' = gesture_key h.

Definition open_done B p h (w : W) (w' : W) : Prop :=
  exists h' l', opened B p h' l' w' /\ unread h h' /\ ilog w' = ilog w.

Lemma open_done_stop B p h h' l (w w' : W) :
  opened B p h' l w' -> unread h h' -> ilog w' = ilog w -> wp (ret (-1)) (fun _ => open_done B p h w) w'.
Proof. intros H1 H2 H3. apply wp_ret. by exists h', l. Qed.

Lemma input_event_open_ok B p h (w : W) :
  TwoNumbers -> opened B p h [] w -> mEpollFd h < 0 -> mINotifyFd h < 0 ->
  wp (input_event_open p) (fun _ => open_done B p h w) w.
Proof.
  intros Hrel H He Hi. unfold input_event_open.
  apply wp_bind, (wp_new_fd _ _ _ epoll_fresh).
  { intros fd x _ Hneg. assert (H0 : opened B p h [] (set_ienv x w)) by by apply opened_env.
    apply wp_bind. eapply (wp_set_fds B p h [] (ifds w)); [exact H0| |].
    - eapply fds_same; [apply (op_fds _ _ _ _ _ H)|simpl; by rewrite !owned_neg|done].
    - intros H1. rewrite (proj2 (Z.ltb_lt _ _)) by lia. by eapply open_done_stop. }
  intros ep x Eep Hep Hfep. assert (H0 : opened B p h [] (set_ienv x w)) by by apply opened_env.
  apply wp_bind. eapply (wp_set_fds B p h [] (ifds w)); [exact H0| |].
  { apply fds_epoll; [apply (op_fds _ _ _ _ _ H)|done|lia|done]. }
  set (h1 := h_set_fds ep (mINotifyFd h) (wd h) h). set (w1 := set_handles _ _). intros H1.
  rewrite (proj2 (Z.ltb_ge _ _)) by lia.
  apply wp_bind, (wp_new_fd _ _ _ inotify_fresh).
  { intros fd x1 _ Hneg. apply wp_bind. eapply (wp_set_fds B p h1 [] (ifds w1)); [exact (opened_env B p h1 [] w1 x1 H1)| |].
    - eapply fds_same; [apply (op_fds _ _ _ _ _ H1)|done|simpl; by rewrite !owned_neg].
    - intros H2. rewrite (proj2 (Z.ltb_lt _ _)) by lia. by eapply open_done_stop. }
  intros ino x1 Eino Hino Hfino. apply wp_bind.
  eapply (wp_set_fds B p h1 [] (ifds w1)); [exact (opened_env B p h1 [] w1 x1 H1)| |].
  { apply fds_inotify; [apply (op_fds _ _ _ _ _ H1)|done|lia|done]. }
  set (h2 := h_set_fds (mEpollFd h1) ino (wd h1) h1). set (w2 := set_handles _ _). intros H2.
  rewrite (proj2 (Z.ltb_ge _ _)) by lia.
  apply wp_bind, wp_io. set (w3 := set_ienv _ w2). set (wdv := fst (io_inotify_add_watch _ _)).
  assert (H3 : opened B p h2 [] w3) by by apply opened_env.
  apply wp_bind. eapply (wp_st_handle (fun _ => 0%nat)); [exact H3|done|done|]. intros w4 H4 [L4 _] _ _.
  destruct (wdv <? 0); [by eapply open_done_stop|].
  apply wp_bind, wp_io, wp_bind. set (w5 := set_ienv _ w4). assert (H5 := opened_env _ _ _ _ _ (snd (io_epoll_add ino EPOLLIN (ienv w4))) H4).
  destruct (getLinuxRelease_ok w5 Hrel) as (major & minor & x5 & E5). unfold wp at 1. rewrite E5.
  apply wp_bind. set (b := if 3 <? major then true else if major =? 3 then 5 <=? minor else false).
  assert (Eb : forall v : W, (if 3 <? major then ret true
              else if major =? 3 then ret (5 <=? minor) else ret false) v = Ret b v).
  { intros v. unfold b. destruct (3 <? major); [done|]. by destruct (major =? 3). }
  eapply wp_eq; [apply Eb|]. apply wp_bind.
  eapply (wp_st_handle (fun _ => 0%nat)); [apply (opened_env _ _ _ _ _ x5 H5)|done|done|]. intros w6 H6 [L6 _] _ _.
  eapply wp_mono; [|apply (scanDirLocked_ok (fun _ => 0%nat) _ _ _ _ _ DEVICE_PATH H6)].
  intros _ w7 (l7 & H7 & [L7 _]). eexists _, _. split; [exact H7|]. split; [done|]. by rewrite L7, L6.
Qed.

Definition restored (w w' : W) : Prop := handles w' = handles w /\ devs w' = devs w /\ ifds w' = ifds w.

Lemma input_event_create_ok lines slide double_click slide_to (w : W) :
  TwoNumbers -> ConfigIs lines -> config_ok lines ->
  wp (input_event_create slide double_click slide_to)
     (fun p w' => p = 0 /\ restored w w' \/
        exists S h l keys, opened (leak S (mk_base (handles w) (devs w) (ifds w))) p h l w' /\ ready h /\
          double_click_timeout h = double_click /\ gesture_key h = mk_click false 0 0 0 0 /\
          sw_arr (sw_keynumber h) (sw_keycode h) (sw_keyvalue h) keys /\
          (config_keys lines keys \/ keys = [] /\ S = ∅)) w.
Proof.
  intros Hrel Hcfg Hok. unfold input_event_create. apply wp_bind, wp_calloc. intros p x Ec Hp Hph Hpd.
  rewrite (proj2 (Z.eqb_neq p 0) Hp). apply wp_bind, wp_modify.
  set (h0 := new_handle slide double_click slide_to). set (B := mk_base (handles w) (devs w) (ifds w)).
  set (w1 := set_devs _ _).
  assert (H1 : opened B p h0 [] w1).
  { split; [done|done|..].
    - exists (mk_device 0 None 0 0), p. split; [apply lookup_insert_eq|]. split; [done|].
      split; [apply NoDup_singleton|set_solver].
    - intros a Ha. simpl. apply lookup_insert_ne. simpl in Ha. set_solver.
    - intros a Ha. simpl in *. apply list_elem_of_singleton in Ha as ->. done.
    - split; simpl; [set_solver|constructor|set_solver|constructor]. }
  apply wp_bind. eapply wp_mono; [|apply (input_event_open_ok B p h0 w1 Hrel H1)]; [|done|done].
  intros r w2 (h2 & l2 & H2 & (U1 & U2 & U3 & U4 & U5 & Hg) & _).
  destruct (r =? 0); cbn [negb].
  2: { apply wp_bind. eapply wp_mono; [|apply (input_event_destroy_ok B p h2 l2 w2 H2)].
       intros ? w3 H3. apply wp_ret. by left. }
  assert (Hs0 : sw_arr 0 (sw_keycode h2) (sw_keyvalue h2) []).
  { unfold sw_of in U1. injection U1 as -> -> _. by split. }
  apply wp_bind. eapply wp_mono; [|apply (parse_switch_config_ok lines B p h2 l2 w2); done].
  intros n w3 (S & codes & values & keys & H3 & Hs3 & D3).
  apply wp_bind. eapply (wp_st_handle (fun _ => 0%nat)); [exact H3|done|done|]. intros w4 H4 _ _ _. apply wp_ret.
  right. eexists S, _, l2, keys. split; [exact H4|].
  split; [split; simpl; rewrite ?U2, ?U3, ?U4; simpl; unfold EPOLL_MAX_EVENTS; [lia..|]; apply Hs3|].
  split; [exact U5|]. split; [exact Hg|]. split; [exact Hs3|done].
Qed.
End Life.

(** ** The switches of a file whose devices answer the same each time *)

Definition line_key (val : string -> option (option Z)) (line : string) : list (Z * Z) :=
  match gpio_of line with None => [] | Some (code, gpio) => key_list code (val gpio) end.

Definition names_gpio (lines : list string) (path : string) : Prop :=
  exists line code, line ∈ lines /\ gpio_of line = Some (code, path).

Lemma config_keys_val (val : string -> option (option Z)) lines keys :
  config_keys (fun path a => names_gpio lines path -> a = val path) lines keys -> (length keys <= 8)%nat ->
  keys = firstn 8 (flat_map (line_key val) lines).
Proof.
  intros (pre & post & ks & El & F & -> & D) Hlen.
  assert (Hpre : forall line, line ∈ pre -> line ∈ lines) by (subst lines; set_solver).
  assert (Ek : concat ks = flat_map (line_key val) pre).
  { clear D Hlen El. induction F as [|line k pre ks Hk F IH]; [done|]. cbn [concat flat_map].
    rewrite IH by set_solver. f_equal. unfold line_reads, line_key in *.
    destruct (gpio_of line) as [[code gpio]|] eqn:Eg; [|done]. destruct Hk as (a & Ha & ->).
    f_equal. apply Ha. exists line, code. split; [apply Hpre; set_solver|done]. }
  rewrite El, flat_map_app, <- Ek, firstn_app. rewrite (firstn_all2 (concat ks)) by done.
  destruct D as [->|D]; [by rewrite firstn_nil, app_nil_r|]. rewrite D. simpl. by rewrite app_nil_r.
Qed.

(** C30: Creating and destroying a handle.  [input_event_create] never faults on a
    system whose configuration file, if there is one, has non-empty lines; when it
    fails it returns NULL with memory and descriptors as they were.  Otherwise the
    handle is open on the devices it found, and its switches are the first eight lines
    of the file whose device reads 0 or 1, in the order of the file (reported from the
    last).  [input_event_destroy] releases all the memory and every descriptor but the
    stream of the file and those of the switches, which stay open. *)
Theorem handle_lifecycle {X : Type} {E : InputEnv X} {K : InputKernel X}
    (val : string -> option (option Z)) (lines : list string) (slide : bool) (double_click slide_to : Z)
    (w : input X) :
  TwoNumbers (X := X) -> ConfigIs (X := X) lines -> config_ok lines ->
  (forall path S (x : X) fd x', names_gpio lines path -> io_open path S x = (fd, x') ->
     val path = if fd <? 0 then None else Some (fst (io_read_byte fd x'))) ->
  wp (input_event_create slide double_click slide_to)
     (fun p w' => p = 0 /\ restored w w' \/
        exists S h l, opened (leak S (mk_base (handles w) (devs w) (ifds w))) p h l w' /\ ready h /\
          double_click_timeout h = double_click /\ gesture_key h = mk_click false 0 0 0 0 /\
          (switches (sw_of h) = rev (firstn 8 (flat_map (line_key val) lines)) \/
           switches (sw_of h) = [] /\ S = ∅) /\
          wp (input_event_destroy p)
             (fun _ w'' => handles w'' = handles w /\ devs w'' = devs w /\ ifds w'' = ifds w ∪ S) w') w.
Proof.
  intros Hrel Hcfg Hok Hval.
  eapply wp_mono; [|apply (input_event_create_ok (fun path a => names_gpio lines path -> a = val path))
    with (lines := lines); [|done|done|done]].
  - intros p w' [H|(S & h & l & keys & H & Hr & H1 & H2 & [Hs <-] & D)]; [by left|]. right.
    exists S, h, l. split; [done|]. split; [done|]. split; [done|]. split; [done|]. split.
    + assert (Esw : switches (sw_of h) = rev (firstn (Z.to_nat (sw_keynumber h)) (combine (sw_keycode h) (sw_keyvalue h))))
        by done. rewrite Esw. destruct D as [D|[D ->]]; [left|right; by rewrite D].
      f_equal. apply config_keys_val; [done|]. rewrite length_firstn. destruct Hs as (_ & _ & ?). unfold MAX_SW_KEY in *. lia.
    + exact (input_event_destroy_ok _ _ _ _ _ H).
  - intros path S x fd x' Ef Hn. symmetry. by eapply Hval.
Qed.

(** ** A concrete operating system *)

(** The answers of [epoll_wait] and the events each descriptor will give are listed;
    the content of the configuration file is fixed. *)
Record demo_kernel := mk_demo_kernel {
  dk_waits : list (Z + list (Z * Z)); dk_queues : list (Z * list input_event) }.

Class DemoConfig := demo_config : option (list string).

Section Demo.
Context {DC : DemoConfig}.

Definition dk_next_fd (S : gset Z) (x : demo_kernel) : Z * demo_kernel :=
  (Z.of_nat (fresh (set_map Z.to_nat S : gset nat)), x).

Fixpoint dk_take (fd : Z) (n : nat) (q : list (Z * list input_event)) : list input_event * list (Z * list input_event) :=
  match q with
  | [] => ([], [])
  | (fd', evs) :: q' =>
      if fd' =? fd then (firstn n evs, (fd, skipn n evs) :: q')
      else let '(r, q'') := dk_take fd n q' in (r, (fd', evs) :: q'')
  end.

#[export] Instance demo_input : InputEnv demo_kernel := {|
  io_calloc S x := (Some (fresh ({[0]} ∪ S)), x);
  io_malloc_name s x := (true, x);
  io_open path S x := dk_next_fd S x;
  io_epoll_create S x := dk_next_fd S x;
  io_inotify_init S x := dk_next_fd S x;
  io_inotify_add_watch fd x := (1, x);
  io_epoll_add fd e x := (0, x);
  io_epoll_del fd x := (0, x);
  io_uname x := (Some "4.9.0", x);
  io_readdir s x := (Some ["."; ".."; "event0"; "event1"], x);
  io_read fd n x :=
    let '(evs, q) := dk_take fd (Z.to_nat n) (dk_queues x) in (ReadEvents evs 0, mk_demo_kernel (dk_waits x) q);
  io_read_byte fd x := (Some 49, x);
  io_read_notify fd x := (None, x);
  io_epoll_wait t x :=
    (match dk_waits x with
     | [] => inr []
     | inl e :: _ => inl e
     | inr items :: _ => inr (firstn 16 items)
     end, mk_demo_kernel (List.tl (dk_waits x)) (dk_queues x));
  io_gettimeofday x := ((12, 345000), x);
  io_fopen path S x := (option_map (fun lines => (fst (dk_next_fd S x), unlines lines)) demo_config, x);
|}.

Lemma dk_next_fd_fresh S x fd x' : dk_next_fd S x = (fd, x') -> fd ∉ S.
Proof.
  intros [= <- <-] Hin. apply (is_fresh (set_map Z.to_nat S : gset nat)).
  apply elem_of_map. eexists. split; [|exact Hin]. by rewrite Nat2Z.id.
Qed.

Lemma dk_take_length fd n q : (length (fst (dk_take fd n q)) <= n)%nat.
Proof.
  induction q as [|[fd' evs] q IH]; simpl; [lia|]. destruct (fd' =? fd); simpl.
  - rewrite length_firstn. lia.
  - by destruct (dk_take fd n q).
Qed.

#[export] Instance demo_input_kernel : InputKernel demo_kernel.
Proof.
  split; simpl.
  - intros S x r x' [= <- <-]. pose proof (is_fresh ({[0]} ∪ S)) as Hf.
    apply not_elem_of_union in Hf as [H1 H2]. exists (fresh ({[0]} ∪ S)). set_solver.
  - done.
  - intros _ S x fd x' Ef _. by eapply dk_next_fd_fresh.
  - intros S x fd x' Ef _. by eapply dk_next_fd_fresh.
  - intros S x fd x' Ef _. by eapply dk_next_fd_fresh.
  - intros _ S x fd text x' Ef. destruct demo_config; [|discriminate]. injection Ef as <- <- <-.
    split; [by apply (dk_next_fd_fresh S x _ x)|lia].
  - intros fd n x evs extra x' Hn Er. pose proof (dk_take_length fd (Z.to_nat n) (dk_queues x)) as Hl.
    destruct (dk_take fd (Z.to_nat n) (dk_queues x)). injection Er as <- <- <-. simpl in Hl. split; [lia|done].
  - done.
  - intros t x items x'. destruct (dk_waits x) as [|[e|i] ws]; intros [= <- <-]; [simpl; unfold EPOLL_MAX_EVENTS; lia|].
    rewrite length_firstn. unfold EPOLL_MAX_EVENTS. lia.
Qed.

Definition dk_budget (x : demo_kernel) : nat := length (dk_waits x).

#[export] Instance demo_patient : Patient dk_budget.
Proof.
  split; [split; simpl; try done|].
  - intros fd n x. destruct (dk_take fd (Z.to_nat n) (dk_queues x)). done.
  - intros t x a x'. simpl. unfold dk_budget. destruct (dk_waits x) as [|[e|i] ws]; intros [= <- <-]; [by left|..];
      right; simpl; lia.
Qed.
End Demo.

Definition demo_world (waits : list (Z + list (Z * Z))) (queues : list (Z * list input_event)) : input demo_kernel :=
  mk_input ∅ ∅ {[0; 1; 2]} [] (mk_demo_kernel waits queues).

Definition key_ev (code v t : Z) : input_event := mk_input_event (t / 1000) (t mod 1000 * 1000) EV_KEY code v.

Definition syn_ev (t : Z) : input_event := mk_input_event (t / 1000) (t mod 1000 * 1000) 0 0 0.

Definition demo_queues : list (Z * list input_event) :=
  [(5, [key_ev 113 1 1000; syn_ev 1000; key_ev 113 0 1050; syn_ev 1050]); (6, [key_ev 116 1 1100])].

(** A handle with one device. *)
Definition demo_handle : input_event_handle := h_set_fds 3 4 1 (new_handle false 400 0).

Definition demo_open : input demo_kernel :=
  mk_input {[1 := demo_handle]}
    (<[1 := mk_device 0 None 0 2]> (<[2 := mk_device 5 (Some "/dev/input/event0") 1 0]> ∅)) {[3; 4; 5]} []
    (mk_demo_kernel [inr [(5, EPOLLIN)]] demo_queues).

Lemma demo_opened :
  opened (mk_base ∅ ∅ ∅) 1 demo_handle [mk_entry 2 5 "/dev/input/event0"] demo_open.
Proof.
  split; [done|done|..].
  - exists (mk_device 0 None 0 2), 2. split; [done|]. split; [|split; [by apply (bool_decide_unpack _)|set_solver]].
    split; [done|]. exists 0. by split.
  - intros a Ha. simpl in *. rewrite !lookup_insert_ne by set_solver. done.
  - done.
  - split; [set_solver|by apply (bool_decide_unpack _)|set_solver|]. constructor; [done|constructor].
Qed.

Lemma demo_ready : ready demo_handle.
Proof. by split; vm_compute. Qed.

Lemma read_input_events_spec_witness :
  wp (@read_input_events lp64 demo_kernel (@demo_input None) 8 1 4 no_gesture)
     (fun a w' => fst a = @delivered lp64 (ilog w') /\ Z.of_nat (length (fst a)) <= 4) demo_open.
Proof.
  eapply wp_mono; [|apply (@read_input_events_spec lp64 demo_kernel (@demo_input None) (@demo_input_kernel None)
    dk_budget (@demo_patient None) (mk_base ∅ ∅ ∅) 1 4 8 demo_handle [mk_entry 2 5 "/dev/input/event0"] demo_open no_gesture);
    [apply demo_opened|apply demo_ready|lia|vm_compute; lia]].
  intros a w' (h' & l' & new & _ & _ & Hlen & Hlog & Hout & _). rewrite Hlog. by split.
Defined.

Definition demo_lines : list string := ["114:/sys/gpio1"; "115:/sys/gpio2"].

Lemma handle_lifecycle_witness :
  wp (p <- @input_event_create demo_kernel (@demo_input (Some demo_lines)) false 400 0 ;;
      @input_event_destroy demo_kernel (@demo_input (Some demo_lines)) p)
     (fun _ w' => handles w' = ∅ /\ devs w' = ∅) (demo_world [] []).
Proof.
  apply wp_bind. eapply wp_mono; [|apply (@handle_lifecycle demo_kernel (@demo_input (Some demo_lines))
    (@demo_input_kernel (Some demo_lines)) (fun _ => Some (Some 49)) demo_lines false 400 0 (demo_world [] []))].
  - intros p w' [(-> & H1 & H2 & _)|(S & h & l & _ & _ & _ & _ & _ & H)]; [by apply wp_ret|].
    eapply wp_mono; [|exact H]. simpl. intros _ w'' (H1 & H2 & _). by split.
  - intros x r x' major minor Hu Hr. injection Hu as <- <-. vm_compute in Hr. by injection Hr as <- <-.
  - intros S x fd text x' Hf. by injection Hf as <- <- <-.
  - split; [repeat constructor; vm_compute; lia|]. split; [done|]. by vm_compute.
  - intros path S x fd x' _ Ho. injection Ho as <- <-. rewrite (proj2 (Z.ltb_ge _ _)) by lia. done.
Defined.

(** ** Runs *)

Definition created_then {A} (lines : option (list string)) (waits : list (Z + list (Z * Z)))
    (m : Z -> M (input demo_kernel) A) : option (A * list (option string)) + fault :=
  match (p <- @input_event_create demo_kernel (@demo_input lines) false 400 0 ;; m p) (demo_world waits demo_queues) with
  | Ret a w => inl (Some (a, map (fun d => dv_name (snd d)) (map_to_list (devs w))))
  | Fault f => inr f
  end.

(** Both switches are reported first, then the keys of both devices; of the two
    gestures of the second call only the last would be told. *)
Example demo_read :
  created_then (Some demo_lines) [inr [(5, EPOLLIN); (6, EPOLLIN)]]
    (fun p => a <- @read_input_events lp64 _ (@demo_input (Some demo_lines)) 8 p 4 no_gesture ;;
              b <- @read_input_events lp64 _ (@demo_input (Some demo_lines)) 8 p 4 no_gesture ;;
              ret (map key_code (fst a), map key_code (fst b), report_of (snd b))) =
  inl (Some ([115; 114], [113; 113; 116], [Single 113],
             [Some "/dev/input/event1"; Some "/dev/input/event0"; None])).
Proof. vm_compute. reflexivity. Qed.

(** One device hangs up and, in the same pass, another fills the buffer: the second pass
    reads the working device with no room left, takes the empty answer for its removal
    and closes it, with its events unread. *)
Theorem full_buffer_closes_device :
  created_then None [inr [(6, EPOLLHUP); (5, EPOLLIN)]]
    (fun p => a <- @read_input_events lp64 _ (@demo_input None) 8 p 1 no_gesture ;;
              ret (map key_code (fst a))) = inl (Some ([113], [None])).
Proof. vm_compute. reflexivity. Qed.

(** A configuration that is empty, or whose last line is, or begins with the colon. *)
Theorem blank_line_faults :
  map (fun lines => created_then (Some lines) [] (fun _ => ret tt)) [[]; ["114:/sys/gpio1"; ""]; [":/sys/gpio1"]] =
  [inr UninitRead; inr OutOfBounds; inr OutOfBounds].
Proof. vm_compute. reflexivity. Qed.
