(* ===== verification/Power.v ===== *)
(** * Power requests

    The variables of [framework/services/power/src/flora_pm.c] and [power.c] and of
    the power HAL [hardware/modules/power/power_hw.c] that [power.c] loads, the heap
    with the wakelock nodes, the open sysfs files, and what the outside answers.

    [framework/services/power/src/power.c] and the HAL it calls through
    [g_power_device], [hardware/modules/power/power_hw.c]: wakelocks, sleep and
    autosleep are texts written to the files of [/sys/power]. *)

From Stdlib Require Import Ascii String.
From stdpp Require Import base gmap list strings.
From S2P Require Import Prelude CString CMonad Timer Dll.
Open Scope string_scope.
Open Scope list_scope.
Open Scope Z_scope.

(** ** Data *)

Record wakelock_node := mk_wakelock_node { wl_name : option string; wl_next : Z }.

(** The variables of the wakelock list. *)
Record wakelocks := mk_wakelocks { wl_nodes : gmap Z wakelock_node; wakelock_list_head : Z; wakelock_count : Z }.

(** The other variables of [flora_pm.c]; [appId] is only ever tested for NULL. *)
Record pm_vars := mk_pm_vars { chg_flag : Z; idle_status : Z; appId : option string; e_power_idle_id : Z }.

(** The variables of [power.c]. *)
Record power_vars := mk_power_vars { g_power_device : bool; partial_lock_total : Z; full_lock_total : Z }.

(** The variables of [power_hw.c]. *)
Record hal_vars := mk_hal_vars { g_initialized : Z; g_fds : list Z; g_error : Z }.

(** What the service does to the outside. *)
Inductive pm_event :=
| Wrote (path text : string) (r : Z)         (* a write to sysfs and its answer *)
| SetIdle (idle : Z)
| TimerStarted (id : Z)
| TimerStopped (id : Z)
| TimerExpired                                (* the time of the idle timer is over *)
| FloraCall (text target : string).

(** ** Outside *)

(** Answers of the calls, from a state [X]: the addresses in use are given to
    [pe_malloc], the open descriptors to [pe_open]; a failed [pe_open] or [pe_write]
    is the negated errno. *)
Class PowerEnv (X : Type) := {
  pe_malloc : gset Z -> X -> option Z * X;
  pe_malloc_name : string -> X -> bool * X;
  pe_malloc_device : X -> bool * X;
  pe_open : string -> gset Z -> X -> Z * X;
  pe_write : string -> string -> X -> Z * X;     (* file, text *)
  pe_hw_get_module : X -> Z * X;
  pe_pthread_create : X -> Z * X;
  pe_flora_connect : X -> Z * X;
  pe_flora_call : string -> string -> X -> Z * X;
}.

Record pm (T X : Type) := mk_pm {
  locks : wakelocks;
  pmv : pm_vars;
  pwr : power_vars;
  hal : hal_vars;
  pfds : gmap Z string;         (* open descriptors and their files *)
  plog : list pm_event;
  ptimers : T;
  penv : X;
}.
Arguments mk_pm {T X}.
Arguments locks {T X}.
Arguments pmv {T X}.
Arguments pwr {T X}.
Arguments hal {T X}.
Arguments pfds {T X}.
Arguments plog {T X}.
Arguments ptimers {T X}.
Arguments penv {T X}.

Section World.
Context {T X : Type} `{!Timers T, !PowerEnv X}.
Local Notation W := (pm T X).

Definition set_locks l (w : W) : W := mk_pm l (pmv w) (pwr w) (hal w) (pfds w) (plog w) (ptimers w) (penv w).
Definition set_pmv v (w : W) : W := mk_pm (locks w) v (pwr w) (hal w) (pfds w) (plog w) (ptimers w) (penv w).
Definition set_pwr v (w : W) : W := mk_pm (locks w) (pmv w) v (hal w) (pfds w) (plog w) (ptimers w) (penv w).
Definition set_hal v (w : W) : W := mk_pm (locks w) (pmv w) (pwr w) v (pfds w) (plog w) (ptimers w) (penv w).
Definition set_pfds f (w : W) : W := mk_pm (locks w) (pmv w) (pwr w) (hal w) f (plog w) (ptimers w) (penv w).
Definition set_plog l (w : W) : W := mk_pm (locks w) (pmv w) (pwr w) (hal w) (pfds w) l (ptimers w) (penv w).
Definition set_ptimers t (w : W) : W := mk_pm (locks w) (pmv w) (pwr w) (hal w) (pfds w) (plog w) t (penv w).
Definition set_penv x (w : W) : W := mk_pm (locks w) (pmv w) (pwr w) (hal w) (pfds w) (plog w) (ptimers w) x.

#[export] Program Instance pm_timers_lens : Lens W T := {| view_of := ptimers; put_view := set_ptimers |}.
Solve All Obligations with by intros; repeat match goal with w : W |- _ => destruct w end.

Definition pe {A} (f : X -> A * X) : M W A :=
  fun w => let '(a, x) := f (penv w) in Ret a (set_penv x w).

Definition plog_add (e : pm_event) : M W unit := modify (fun w => set_plog (plog w ++ [e]) w).

(** ** Assignments *)

Definition set_chg_flag (z : Z) : M W unit :=
  modify (fun w => let v := pmv w in set_pmv (mk_pm_vars z (idle_status v) (appId v) (e_power_idle_id v)) w).
Definition set_idle_status (z : Z) : M W unit :=
  modify (fun w => let v := pmv w in set_pmv (mk_pm_vars (chg_flag v) z (appId v) (e_power_idle_id v)) w).
Definition set_appId (a : option string) : M W unit :=
  modify (fun w => let v := pmv w in set_pmv (mk_pm_vars (chg_flag v) (idle_status v) a (e_power_idle_id v)) w).
Definition set_idle_id (z : Z) : M W unit :=
  modify (fun w => let v := pmv w in set_pmv (mk_pm_vars (chg_flag v) (idle_status v) (appId v) z) w).
Definition set_device (b : bool) : M W unit :=
  modify (fun w => let v := pwr w in set_pwr (mk_power_vars b (partial_lock_total v) (full_lock_total v)) w).
Definition add_partial (d : Z) : M W unit :=
  modify (fun w => let v := pwr w in
    set_pwr (mk_power_vars (g_power_device v) (wraps32 (partial_lock_total v + d)) (full_lock_total v)) w).
Definition set_error (z : Z) : M W unit :=
  modify (fun w => let v := hal w in set_hal (mk_hal_vars (g_initialized v) (g_fds v) z) w).
Definition set_initialized (z : Z) : M W unit :=
  modify (fun w => let v := hal w in set_hal (mk_hal_vars z (g_fds v) (g_error v)) w).
Definition set_hal_fd (i : nat) (fd : Z) : M W unit :=
  modify (fun w => let v := hal w in set_hal (mk_hal_vars (g_initialized v) (<[i := fd]> (g_fds v)) (g_error v)) w).

(** ** Descriptors *)

Definition EBADF : Z := 9.

Definition open (path : string) : M W Z :=
  fd <- (fun w => pe (pe_open path (dom (pfds w))) w) ;;
  (if 0 <=? fd then modify (fun w => set_pfds (<[fd := path]> (pfds w)) w) else ret tt) ;;
  ret fd.

(** [write(fd, s, strlen(s))], or the negated errno. *)
Definition write (fd : Z) (s : string) : M W Z :=
  m <- gets pfds ;;
  match m !! fd with
  | None => ret (- EBADF)
  | Some path => r <- pe (pe_write path s) ;; plog_add (Wrote path s r) ;; ret r
  end.

(** ** Heap of the wakelock nodes *)

Definition set_nodes (m : gmap Z wakelock_node) : M W unit :=
  modify (fun w => let l := locks w in set_locks (mk_wakelocks m (wakelock_list_head l) (wakelock_count l)) w).
Definition set_head (a : Z) : M W unit :=
  modify (fun w => let l := locks w in set_locks (mk_wakelocks (wl_nodes l) a (wakelock_count l)) w).
Definition set_count (n : Z) : M W unit :=
  modify (fun w => let l := locks w in set_locks (mk_wakelocks (wl_nodes l) (wakelock_list_head l) (wraps32 n)) w).

Definition ld_node (a : Z) : M W wakelock_node :=
  fun w => match wl_nodes (locks w) !! a with Some n => Ret n w | None => Fault (bad_pointer a) end.

Definition st_node (a : Z) (f : wakelock_node -> wakelock_node) : M W unit :=
  n <- ld_node a ;; m <- gets (fun w => wl_nodes (locks w)) ;; set_nodes (<[a := f n]> m).
End World.

Definition wl_set_name (s : string) (n : wakelock_node) : wakelock_node := mk_wakelock_node (Some s) (wl_next n).
Definition wl_set_next (a : Z) (n : wakelock_node) : wakelock_node := mk_wakelock_node (wl_name n) a.

(** * Power requests *)

(** ** Constants *)

Definition PARTIAL_WAKE_LOCK : Z := 1.

Definition ACQUIRE_PARTIAL_WAKE_LOCK : nat := 0.
Definition RELEASE_WAKE_LOCK : nat := 1.
Definition SET_AUTO_SLEEP : nat := 2.
Definition SET_SLEEP : nat := 3.

Definition WAKE_LOCK : string := "/sys/power/wake_lock".
Definition WAKE_UNLOCK : string := "/sys/power/wake_unlock".
Definition AUTOSLEEP : string := "/sys/power/autosleep".
Definition STATE : string := "/sys/power/state".

Definition POWER_PATHS : list string := [WAKE_LOCK; WAKE_UNLOCK; AUTOSLEEP; STATE].

Definition EFAULT : Z := 14.
Definition EINVAL : Z := 22.

Definition PMS_WAKELOCK : string := "pm_service".
Definition CHG_WAKELOCK : string := "charger".
Definition SLEEP_ON : string := "mem".
Definition SLEEP_OFF : string := "off".
Definition DEEP_IDLE_ENTER : Z := 2.
Definition IDLE_ENTER : Z := 1.
Definition IDLE_EXIT : Z := 0.
Definition NO_LOCK_STATE : Z := 0.
Definition PART_LOCK_STATE : Z := 1.
Definition FULL_LOCK_STATE : Z := 2.

Section Power.
Context {T X : Type} `{!Timers T, !PowerEnv X}.
Local Notation W := (pm T X).

(** ** The HAL *)

(** The loop from the [i]-th file on. *)
Fixpoint open_paths (i : nat) (paths : list string) : M W Z :=
  match paths with
  | [] => set_error 0 ;; ret 0
  | path :: paths' =>
      fd <- open path ;;
      if fd <? 0 then set_error fd ;; ret (-1)
      else set_hal_fd i fd ;; open_paths (S i) paths'
  end.

Definition open_file_descriptors (paths : list string) : M W Z := open_paths 0 paths.

Definition initialize_fds : M W unit :=
  h <- gets hal ;;
  when (g_initialized h =? 0)
    (r <- open_file_descriptors POWER_PATHS ;; when (r =? 0) (set_initialized 1)).

(** The common tail of the writers: [write] of the name to the file. *)
Definition hal_write (file : nat) (id : string) : M W Z :=
  h <- gets hal ;; write (nth file (g_fds h) 0) id.

Definition acquire_wake_lock (lock : Z) (id : string) : M W Z :=
  initialize_fds ;;
  h <- gets hal ;;
  if negb (g_error h =? 0) then ret (g_error h)
  else if negb (lock =? PARTIAL_WAKE_LOCK) then ret (- EINVAL)
  else hal_write ACQUIRE_PARTIAL_WAKE_LOCK id.

Definition release_wake_lock (id : string) : M W Z :=
  initialize_fds ;;
  h <- gets hal ;;
  if negb (g_error h =? 0) then ret (g_error h) else hal_write RELEASE_WAKE_LOCK id.

Definition set_auto_sleep (id : string) : M W Z :=
  initialize_fds ;;
  h <- gets hal ;;
  if negb (g_error h =? 0) then ret (g_error h) else hal_write SET_AUTO_SLEEP id.

Definition set_sleep (id : string) : M W Z :=
  initialize_fds ;;
  h <- gets hal ;;
  if negb (g_error h =? 0) then ret (g_error h) else hal_write SET_SLEEP id.

(** The platform's part of the function is left to be written; the event stands for
    it. *)
Definition set_idle (idle : Z) : M W Z :=
  initialize_fds ;;
  h <- gets hal ;;
  if negb (g_error h =? 0) then ret (g_error h) else plog_add (SetIdle idle) ;; ret 0.

(** [power_device_open] of the HAL: the device is allocated and its operations are
    the functions above. *)
Definition hal_power_device_open : M W Z :=
  ok <- pe pe_malloc_device ;;
  if negb ok then ret (- EFAULT) else set_device true ;; ret 0.

(** ** [power.c] *)

Definition power_module_init : M W Z :=
  status <- pe pe_hw_get_module ;;
  status <- (if status =? 0 then hal_power_device_open else ret status) ;;
  ret status.

(** A request through a device that may be absent; success is the given test of the
    device's answer. *)
Definition on_device (op : M W Z) (ok : Z -> bool) (done : M W unit) : M W Z :=
  v <- gets pwr ;;
  if g_power_device v then
    status <- op ;;
    if ok status then done ;; ret 0 else ret (-1)
  else ret (-1).

Definition power_wakelock_request (lock : Z) (id : string) : M W Z :=
  on_device (acquire_wake_lock lock id) (fun status => 0 <? status) (add_partial 1).

Definition power_wakelock_release (id : string) : M W Z :=
  on_device (release_wake_lock id) (fun status => 0 <? status) (add_partial (-1)).

Definition power_autosleep_request (id : string) : M W Z :=
  on_device (set_auto_sleep id) (fun status => status =? 0) (ret tt).

Definition power_sleep_request (id : string) : M W Z :=
  on_device (set_sleep id) (fun status => status =? 0) (ret tt).

Definition power_deep_idle_enter : M W Z :=
  on_device (set_idle DEEP_IDLE_ENTER) (fun status => status =? 0) (ret tt).

Definition power_idle_enter : M W Z :=
  on_device (set_idle IDLE_ENTER) (fun status => status =? 0) (ret tt).

Definition power_idle_exit : M W Z :=
  on_device (set_idle IDLE_EXIT) (fun status => status =? 0) (ret tt).

Definition power_lock_state_poll : M W Z :=
  v <- gets pwr ;;
  ret (if 0 <? full_lock_total v then FULL_LOCK_STATE
       else if 0 <? partial_lock_total v then PART_LOCK_STATE
       else NO_LOCK_STATE).
End Power.
