(* ===== verification/PowerMgr.v ===== *)
(** * The power manager

    [framework/services/power/src/flora_pm.c] and [main.c]: the list of wakelock
    names, the handlers of the messages, the idle state with its timer, and the start
    of the service. *)

From Stdlib Require Import Ascii String.
From stdpp Require Import base gmap list strings.
From S2P Require Import Prelude CString CMonad Json Dll Timer Power.
Open Scope string_scope.
Open Scope list_scope.
Open Scope Z_scope.

Definition MSG_SLEEP : string := "power.sleep".
Definition MSG_FORCE_SLEEP : string := "power.force_sleep".
Definition MSG_DEEP_IDLE : string := "power.deep_idle".
Definition MSG_LOCK : string := "power.wakelock".
Definition MSG_ALARM : string := "rtc.alarm".
Definition MSG_BATTERY : string := "battery.info".
Definition MSG_VOICE_COMMING : string := "rokid.turen.voice_coming".
Definition MSG_VOICE_END : string := "rokid.turen.end_voice".
Definition MSG_VOICE_SLEEP : string := "rokid.turen.sleep".
Definition MSG_SYS_STATUS : string := "yodart.vui._private_visibility".

Definition NUM_MSG_SLEEP : Z := 1.
Definition NUM_MSG_FORCE_SLEEP : Z := 2.
Definition NUM_MSG_LOCK : Z := 3.
Definition NUM_MSG_ALARM : Z := 4.
Definition NUM_MSG_BATTERY : Z := 5.
Definition NUM_MSG_VOICE_COMMING : Z := 6.
Definition NUM_MSG_VOICE_END : Z := 7.
Definition NUM_MSG_VOICE_SLEEP : Z := 8.
Definition NUM_MSG_SYS_STATUS : Z := 9.

Definition IDLE_TIMEOUT_S : Z := 60.

(** The callback [power_idle_timeout_func]. *)
Definition IDLE_CB : Z := 1.

Section Manager.
Context {T X : Type} `{!Timers T, !PowerEnv X} {J : JsonC}.
Local Notation W := (pm T X).

(** ** The wakelock list *)

Definition pm_wakelock_init : M W unit := set_count 0 ;; set_head 0.

(** One step per node of the heap is enough for a traversal. *)
Definition locks_fuel (w : W) : nat := S (size (wl_nodes (locks w))).

(** [strcmp(phead->name, name) == 0] *)
Definition same_lock (name : string) (n : wakelock_node) : M W bool :=
  match wl_name n with
  | None => stop NullDeref
  | Some s => ret (String.eqb s name)
  end.

(** The loop [while (phead)] of both operations: the node with the name (0 when there
    is none) and the one before it. *)
Fixpoint find_lock (fuel : nat) (name : string) (ptemp phead : Z) : M W (Z * Z) :=
  match fuel with
  | O => stop Hang
  | S fuel' =>
      if phead =? 0 then ret (ptemp, 0)
      else
        n <- ld_node phead ;;
        b <- same_lock name n ;;
        if b then ret (ptemp, phead) else find_lock fuel' name phead (wl_next n)
  end.

Definition search_lock (name : string) : M W (Z * Z) :=
  h <- gets (fun w => wakelock_list_head (locks w)) ;;
  (fun w => find_lock (locks_fuel w) name h h w).

(** [malloc] of a node and [memset]: a NULL result is written through. *)
Definition new_node : M W Z :=
  r <- (fun w => pe (pe_malloc (dom (wl_nodes (locks w)))) w) ;;
  match r with
  | None => stop NullDeref
  | Some a => m <- gets (fun w => wl_nodes (locks w)) ;; set_nodes (<[a := mk_wakelock_node None 0]> m) ;; ret a
  end.

Definition pm_wakelock_add (wakelock_name : option string) : M W Z :=
  match wakelock_name with
  | None => ret (-1)
  | Some name =>
      '(ptemp, found) <- search_lock name ;;
      if negb (found =? 0) then gets (fun w => wakelock_count (locks w))
      else
        phead <- new_node ;;
        ok <- pe (pe_malloc_name name) ;;
        (if ok then st_node phead (wl_set_name name) else stop NullDeref) ;;
        n <- gets (fun w => wakelock_count (locks w)) ;;
        set_count (n + 1) ;;
        h <- gets (fun w => wakelock_list_head (locks w)) ;;
        when (h =? 0) (set_head phead) ;;
        when (negb (ptemp =? 0)) (st_node ptemp (wl_set_next phead)) ;;
        gets (fun w => wakelock_count (locks w))
  end.

(** The name and its node are released. *)
Definition pm_wakelock_del (wakelock_name : option string) : M W Z :=
  match wakelock_name with
  | None => ret (-1)
  | Some name =>
      '(ptemp, phead) <- search_lock name ;;
      if phead =? 0 then gets (fun w => wakelock_count (locks w))
      else
        n <- ld_node phead ;;
        h <- gets (fun w => wakelock_list_head (locks w)) ;;
        (if phead =? h then set_head (wl_next n) else st_node ptemp (wl_set_next (wl_next n))) ;;
        m <- gets (fun w => wl_nodes (locks w)) ;;
        set_nodes (delete phead m) ;;
        c <- gets (fun w => wakelock_count (locks w)) ;;
        set_count (c - 1) ;;
        gets (fun w => wakelock_count (locks w))
  end.

(** The walk over the list reads the node and its name, which the log prints. *)
Fixpoint scan_locks (fuel : nat) (phead : Z) : M W unit :=
  match fuel with
  | O => stop Hang
  | S fuel' => if phead =? 0 then ret tt else n <- ld_node phead ;; scan_locks fuel' (wl_next n)
  end.

Definition pm_wakelock_scan : M W Z :=
  h <- gets (fun w => wakelock_list_head (locks w)) ;;
  (fun w => scan_locks (locks_fuel w) h w) ;;
  gets (fun w => wakelock_count (locks w)).

(** ** Messages with a JSON text *)

Definition get_field (obj : option jobj) (key : string) : option (option jobj) := json_object_object_get_ex obj key.

(** The text of a field that [strcmp] reads. *)
Definition command_of (v : option jobj) : M W string :=
  match json_object_get_string v with
  | None => stop NullDeref
  | Some s => ret s
  end.

(** [name], NULL without the field. *)
Definition name_of (obj : option jobj) : option string :=
  match get_field obj "name" with
  | Some v => json_object_get_string v
  | None => None
  end.

Definition pm_autosleep_command_handle (obj : option jobj) : M W Z :=
  if (match obj with None => true | Some _ => false end) then ret (-1)
  else
    (match get_field obj "sleep" with
     | Some v =>
         command <- command_of v ;;
         if String.eqb command "ON" then
           pm_wakelock_scan ;;
           power_autosleep_request SLEEP_ON ;; ret tt
         else power_autosleep_request SLEEP_OFF ;; ret tt
     | None => ret tt
     end) ;;
    ret 0.

Definition pm_sleep_command_handle (obj : option jobj) : M W Z :=
  if (match obj with None => true | Some _ => false end) then ret (-1)
  else
    (match get_field obj "sleep" with
     | Some v =>
         command <- command_of v ;;
         when (String.eqb command "ON")
           (s <- power_lock_state_poll ;;
            when (s =? NO_LOCK_STATE) (power_sleep_request SLEEP_ON ;; ret tt))
     | None => ret tt
     end) ;;
    ret 0.

Definition pm_wakelock_command_handle (obj : option jobj) : M W Z :=
  if (match obj with None => true | Some _ => false end) then ret (-1)
  else
    (match get_field obj "wakelock" with
     | Some v =>
         command <- command_of v ;;
         if String.eqb command "ON" then
           n <- pm_wakelock_add (name_of obj) ;;
           when (n =? 1) (power_wakelock_request PART_LOCK_STATE PMS_WAKELOCK ;; ret tt)
         else if String.eqb command "OFF" then
           n <- pm_wakelock_del (name_of obj) ;;
           when (n =? 0) (power_wakelock_release PMS_WAKELOCK ;; ret tt)
         else ret tt
     | None => ret tt
     end) ;;
    ret 0.

Definition pm_battery_command_handle (obj : option jobj) : M W Z :=
  if (match obj with None => true | Some _ => false end) then ret (-1)
  else
    (match get_field obj "batChargingOnline" with
     | Some v =>
         command <- command_of v ;;
         p <- gets pmv ;;
         if String.eqb command "true" && negb (chg_flag p =? 1) then
           set_chg_flag 1 ;;
           power_wakelock_request PART_LOCK_STATE CHG_WAKELOCK ;; ret tt
         else if String.eqb command "false" && (chg_flag p =? 1) then
           set_chg_flag 0 ;;
           power_wakelock_release CHG_WAKELOCK ;; ret tt
         else ret tt
     | None => ret tt
     end) ;;
    ret 0.

(** ** Idle state *)

(** The services told of the deep idle state. *)
Definition idle_services : list string := ["display-service"; "bluetoothservice-agent"; "net_manager"].

Definition flora_cli_call (text target : string) : M W Z :=
  plog_add (FloraCall text target) ;; pe (pe_flora_call text target).

(** An error of a call is only logged. *)
Definition tell_services (text : string) : M W unit :=
  for_each idle_services (fun target => flora_cli_call text target ;; ret tt).

Definition power_idle_timeout_func : M W unit :=
  tell_services "deep-idle enter" ;;
  power_deep_idle_enter ;;
  tell_services "deep-idle exit".

Definition eloop_timer_start (id : Z) : M W unit := zoom (timer_start id) ;; plog_add (TimerStarted id).
Definition eloop_timer_stop (id : Z) : M W unit := zoom (timer_stop id) ;; plog_add (TimerStopped id).

Definition pm_idle_entry (flag : Z) : M W Z :=
  v <- gets pmv ;;
  (if flag =? IDLE_ENTER then
     when (idle_status v =? 0)
       (power_idle_enter ;; set_idle_status 1 ;;
        v <- gets pmv ;; eloop_timer_start (e_power_idle_id v))
   else
     when (negb (idle_status v =? 0))
       (power_idle_exit ;; set_idle_status 0 ;;
        v <- gets pmv ;; eloop_timer_stop (e_power_idle_id v))) ;;
  ret 0.

(** ** Dispatch *)

Definition pm_msg_map_int (name : string) : Z :=
  if String.eqb name MSG_SLEEP then NUM_MSG_SLEEP
  else if String.eqb name MSG_FORCE_SLEEP then NUM_MSG_FORCE_SLEEP
  else if String.eqb name MSG_LOCK then NUM_MSG_LOCK
  else if String.eqb name MSG_ALARM then NUM_MSG_ALARM
  else if String.eqb name MSG_BATTERY then NUM_MSG_BATTERY
  else if String.eqb name MSG_VOICE_COMMING then NUM_MSG_VOICE_COMMING
  else if String.eqb name MSG_VOICE_END then NUM_MSG_VOICE_END
  else if String.eqb name MSG_VOICE_SLEEP then NUM_MSG_VOICE_SLEEP
  else if String.eqb name MSG_SYS_STATUS then NUM_MSG_SYS_STATUS
  else 0.

(** [json_tokener_parse] reads through its argument. *)
Definition parse (buf : option string) : M W (option jobj) :=
  match buf with
  | None => stop NullDeref
  | Some s => ret (json_tokener_parse s)
  end.

(** [buf] is the string of the message, NULL when it has none. *)
Definition pm_service_command_callback (name : string) (buf : option string) : M W unit :=
  let n := pm_msg_map_int name in
  if n =? NUM_MSG_SLEEP then o <- parse buf ;; pm_autosleep_command_handle o ;; ret tt
  else if n =? NUM_MSG_FORCE_SLEEP then o <- parse buf ;; pm_sleep_command_handle o ;; ret tt
  else if n =? NUM_MSG_LOCK then o <- parse buf ;; pm_wakelock_command_handle o ;; ret tt
  else if n =? NUM_MSG_ALARM then ret tt
  else if n =? NUM_MSG_BATTERY then o <- parse buf ;; pm_battery_command_handle o ;; ret tt
  else if n =? NUM_MSG_VOICE_COMMING then pm_idle_entry IDLE_EXIT ;; ret tt
  else if n =? NUM_MSG_VOICE_END then
    v <- gets pmv ;;
    match appId v with
    | None => pm_idle_entry IDLE_ENTER ;; ret tt
    | Some _ => ret tt
    end
  else if n =? NUM_MSG_VOICE_SLEEP then pm_wakelock_scan ;; ret tt
  else if n =? NUM_MSG_SYS_STATUS then
    (match buf with
     | None => pm_idle_entry IDLE_ENTER
     | Some _ => pm_idle_entry IDLE_EXIT
     end) ;;
    set_appId buf
  else ret tt.

(** ** Start *)

(** [while (1)] until the connection to flora is there, one attempt a second. *)
Fixpoint flora_connect (rounds : nat) : M W unit :=
  match rounds with
  | O => stop Hang
  | S rounds' =>
      r <- pe pe_flora_connect ;;
      if r =? 0 then ret tt else flora_connect rounds'
  end.

(** The messages that flora's thread hands to the callback between the subscriptions
    and [pm_wakelock_init] are [early]. *)
Definition pm_flora_handle (rounds : nat) (early : list (string * option string)) : M W unit :=
  flora_connect rounds ;;
  for_each early (fun m => pm_service_command_callback (fst m) (snd m)) ;;
  pm_wakelock_init ;;
  id <- zoom (timer_add IDLE_CB (IDLE_TIMEOUT_S * 1000) 0) ;;
  set_idle_id id ;;
  pm_idle_entry IDLE_ENTER ;;
  ret tt.

(** What happens to the running service: a message, the expiry of the idle timer, which
    is set for one time only, or its callback from the event loop, which runs some time
    after an expiry. *)
Inductive pm_input := Message (name : string) (buf : option string) | IdleExpiry | IdleTimeout.

Definition pm_step (i : pm_input) : M W unit :=
  match i with
  | Message name buf => pm_service_command_callback name buf
  | IdleExpiry => plog_add TimerExpired
  | IdleTimeout => power_idle_timeout_func
  end.

(** [main]: -1 without the device and -2 without the thread.  The service then runs until
    the process is killed; the result 0 is its state after the given inputs. *)
Definition power_main (rounds : nat) (early : list (string * option string)) (inputs : list pm_input) : M W Z :=
  r <- power_module_init ;;
  if r <? 0 then ret (-1)
  else
    zoom loop_init ;;
    r <- pe pe_pthread_create ;;
    if negb (r =? 0) then ret (-2)
    else
      pm_flora_handle rounds early ;;
      for_each inputs pm_step ;;
      ret 0.
End Manager.
