(* ===== verification/PowerProofs.v ===== *)
(** * The power manager serves its requests

    The wakelock list of [flora_pm.c] refines a list of names, the requests of
    [power.c] reach the kernel's locks, and the whole service refines a machine over
    names, charger and idle state. *)

From Stdlib Require Import Ascii String.
From stdpp Require Import base gmap list strings.
From S2P Require Import Prelude CString CMonad Json Dll Timer Power PowerMgr.
Open Scope string_scope.
Open Scope list_scope.
Open Scope Z_scope.

(** ** The kernel *)

(** [kheld x] are the wakelocks the kernel holds under the names this process writes.
    Memory is available and new blocks and descriptors are fresh; a name written to [wake_lock] is taken whole and held,
    one written to [wake_unlock] is not held any more, and the write succeeds when
    it was. *)
Class PowerKernel (X : Type) `{!PowerEnv X} := {
  kheld : X -> gset string;
  k_malloc S x r x' : pe_malloc S x = (r, x') -> kheld x' = kheld x /\ exists a, r = Some a /\ a ∉ S /\ a <> 0;
  k_malloc_name s x r x' : pe_malloc_name s x = (r, x') -> kheld x' = kheld x /\ r = true;
  k_open path S x fd x' : path ∈ POWER_PATHS -> pe_open path S x = (fd, x') ->
    kheld x' = kheld x /\ 0 <= fd /\ fd ∉ S;
  k_lock s x r x' : pe_write WAKE_LOCK s x = (r, x') -> kheld x' = {[s]} ∪ kheld x /\ r = strlen s;
  k_unlock s x r x' : pe_write WAKE_UNLOCK s x = (r, x') ->
    kheld x' = kheld x ∖ {[s]} /\ (s ∈ kheld x -> r = strlen s);
  k_other path s x r x' : path ∈ [AUTOSLEEP; STATE] -> pe_write path s x = (r, x') -> kheld x' = kheld x;
  k_get_module x r x' : pe_hw_get_module x = (r, x') -> kheld x' = kheld x;
  k_device x r x' : pe_malloc_device x = (r, x') -> kheld x' = kheld x;
  k_thread x r x' : pe_pthread_create x = (r, x') -> kheld x' = kheld x;
  k_connect x r x' : pe_flora_connect x = (r, x') -> kheld x' = kheld x;
  k_call s t x r x' : pe_flora_call s t x = (r, x') -> kheld x' = kheld x;
}.

(** ** The wakelock list *)

(** The nodes from [a] on. *)
Fixpoint wlseg (m : gmap Z wakelock_node) (a : Z) (l : list (Z * string)) (z : Z) : Prop :=
  match l with
  | [] => a = z
  | (b, s) :: l' => a = b /\ exists n, m !! a = Some (mk_wakelock_node (Some s) n) /\ wlseg m n l' z
  end.

(** The list owns all the nodes of the heap. *)
Record lock_list (k : wakelocks) (l : list (Z * string)) : Prop := {
  ll_seg : wlseg (wl_nodes k) (wakelock_list_head k) l 0;
  ll_addrs : NoDup l.*1;
  ll_nonnull : 0 ∉ l.*1;
  ll_dom : dom (wl_nodes k) = list_to_set l.*1;
  ll_names : NoDup l.*2;
  ll_count : wakelock_count k = Z.of_nat (length l);
  ll_range : Z.of_nat (length l) < 2 ^ 31;
}.

Lemma wlseg_app (m : gmap Z wakelock_node) a l1 l2 z :
  wlseg m a (l1 ++ l2) z <-> exists n, wlseg m a l1 n /\ wlseg m n l2 z.
Proof.
  revert a. induction l1 as [|[b s] l1 IH]; intros a; simpl.
  - split; [by exists a|]. by intros (n & -> & H).
  - split.
    + intros (-> & n & E & H). apply IH in H as (n1 & H1 & H2). exists n1. eauto 10.
    + intros (n1 & (-> & n & E & H1) & H2). split; [done|]. exists n. split; [done|]. apply IH. eauto.
Qed.

Lemma wlseg_frame (m m' : gmap Z wakelock_node) a l z :
  (forall b, b ∈ l.*1 -> m' !! b = m !! b) -> wlseg m a l z -> wlseg m' a l z.
Proof.
  revert a. induction l as [|[b s] l IH]; intros a Hm; simpl; [done|].
  intros (-> & n & E & H). split; [done|]. exists n. split; [rewrite Hm; [done|set_solver]|].
  apply IH; [|done]. intros c Hc. apply Hm. set_solver.
Qed.

(** The last node now points to [n]. *)
Lemma wlseg_relink (m : gmap Z wakelock_node) a l b s z n :
  NoDup (l ++ [(b, s)]).*1 -> wlseg m a (l ++ [(b, s)]) z ->
  wlseg (<[b := mk_wakelock_node (Some s) n]> m) a (l ++ [(b, s)]) n.
Proof.
  rewrite fmap_app. simpl. intros (_ & Hb & _)%NoDup_app. rewrite !wlseg_app. simpl.
  intros (n1 & H1 & -> & n2 & E & _). exists b. split.
  - eapply wlseg_frame; [|exact H1]. intros c Hc. rewrite lookup_insert_ne; [done|]. intros ->.
    apply (Hb c Hc). set_solver.
  - split; [done|]. exists n. by rewrite lookup_insert_eq.
Qed.

Section Locks.
Context {T X : Type} `{!Timers T, !PowerEnv X, !PowerKernel X}.
Local Notation W := (pm T X).

Lemma lock_list_size (k : wakelocks) l : lock_list k l -> size (wl_nodes k) = length l.
Proof.
  intros [_ Ha _ Hd _ _ _]. rewrite <-(size_dom (D := gset Z)), Hd.
  rewrite (size_list_to_set (C := gset Z)) by done. by rewrite length_fmap.
Qed.

(** The address of the last of some nodes. *)
Definition last_addr (p : Z) (l : list (Z * string)) : Z := default p (last l.*1).

Lemma last_addr_cons p b s l : last_addr p ((b, s) :: l) = last_addr b l.
Proof. unfold last_addr. rewrite fmap_cons, last_cons. simpl. by destruct (last l.*1). Qed.

(** The search stops at the first node with the name. *)
Lemma find_lock_hit (w : W) name p a l1 b l2 z fuel :
  wlseg (wl_nodes (locks w)) a (l1 ++ (b, name) :: l2) z -> name ∉ l1.*2 -> 0 ∉ (l1 ++ (b, name) :: l2).*1 ->
  (length l1 < fuel)%nat -> find_lock fuel name p a w = Ret (last_addr p l1, b) w.
Proof.
  revert p a fuel. induction l1 as [|[c s] l1 IH]; intros p a fuel Hs Hn H0 Hf;
    destruct fuel as [|fuel]; csimpl in *; try lia; destruct Hs as (-> & n & E & Hs).
  - rewrite (proj2 (Z.eqb_neq b 0)) by set_solver. unfold bind, ld_node. rewrite E. simpl.
    by rewrite String.eqb_refl.
  - rewrite (proj2 (Z.eqb_neq c 0)) by set_solver. unfold bind, ld_node. rewrite E. simpl.
    rewrite (proj2 (String.eqb_neq s name)) by set_solver. rewrite last_addr_cons.
    apply IH; [done|clear -Hn; set_solver|by apply not_elem_of_cons in H0 as [_ H0]|lia].
Qed.

Lemma find_lock_miss (w : W) name p a l fuel :
  wlseg (wl_nodes (locks w)) a l 0 -> name ∉ l.*2 -> 0 ∉ l.*1 -> (length l < fuel)%nat ->
  find_lock fuel name p a w = Ret (last_addr p l, 0) w.
Proof.
  revert p a fuel. induction l as [|[c s] l IH]; intros p a fuel Hs Hn H0 Hf;
    destruct fuel as [|fuel]; csimpl in *; try lia.
  - by rewrite Hs.
  - destruct Hs as (-> & n & E & Hs).
    rewrite (proj2 (Z.eqb_neq c 0)) by set_solver. unfold bind, ld_node. rewrite E. simpl.
    rewrite (proj2 (String.eqb_neq s name)) by set_solver. rewrite last_addr_cons.
    apply IH; [done|clear -Hn; set_solver|by apply not_elem_of_cons in H0 as [_ H0]|lia].
Qed.

(** What [search_lock] finds. *)
Lemma search_lock_hit (w : W) l1 b name l2 :
  lock_list (locks w) (l1 ++ (b, name) :: l2) ->
  search_lock name w = Ret (last_addr (wakelock_list_head (locks w)) l1, b) w.
Proof.
  intros H. pose proof (lock_list_size _ _ H) as Hz. destruct H as [Hs _ H0 _ Hn _ _].
  unfold search_lock, bind, gets, locks_fuel. rewrite Hz. eapply find_lock_hit; [done| |done|].
  - rewrite fmap_app in Hn. apply NoDup_app in Hn as (_ & Hn & _). intros Hi. apply (Hn _ Hi). set_solver.
  - rewrite length_app. lia.
Qed.

Lemma search_lock_miss (w : W) l name :
  lock_list (locks w) l -> name ∉ l.*2 ->
  search_lock name w = Ret (last_addr (wakelock_list_head (locks w)) l, 0) w.
Proof.
  intros H Hn. pose proof (lock_list_size _ _ H) as Hz. destruct H as [Hs _ H0 _ _ _ _].
  unfold search_lock, bind, gets, locks_fuel. rewrite Hz. by apply find_lock_miss; [..|lia].
Qed.

Lemma lock_named (l : list (Z * string)) (name : string) :
  name ∈ l.*2 -> exists l1 b l2, l = l1 ++ (b, name) :: l2.
Proof.
  intros ([b s] & -> & Hi)%list_elem_of_fmap. apply list_elem_of_split in Hi as (l1 & l2 & ->).
  by exists l1, b, l2.
Qed.

Lemma wp_pe {A} (f : X -> A * X) (Q : A -> W -> Prop) (w : W) :
  (forall r x, f (penv w) = (r, x) -> Q r (set_penv x w)) -> wp (pe f) Q w.
Proof. intros HQ. unfold wp, pe. destruct (f (penv w)) as [r x] eqn:E. by apply HQ. Qed.

(** Only the lists and the outside change, not the locks the kernel holds. *)
Definition locks_only (w w' : W) : Prop :=
  exists k x, w' = set_locks k (set_penv x w) /\ kheld x = kheld (penv w).

Lemma locks_only_refl w : locks_only w w.
Proof. exists (locks w), (penv w). by destruct w. Qed.

(** The node the new one is linked from. *)
Lemma lock_list_snoc (k : wakelocks) l a name :
  lock_list k l -> name ∉ l.*2 -> a ∉ dom (wl_nodes k) -> a <> 0 -> Z.of_nat (length l) + 1 < 2 ^ 31 ->
  let m := <[a := mk_wakelock_node (Some name) 0]> (wl_nodes k) in
  let h := wakelock_list_head k in
  lock_list (mk_wakelocks
    (if last_addr h l =? 0 then m
     else match m !! last_addr h l with Some n => <[last_addr h l := wl_set_next a n]> m | None => m end)
    (if h =? 0 then a else h) (wakelock_count k + 1)) (l ++ [(a, name)]).
Proof.
  intros [Hs Ha H0 Hd Hn Hc Hr] Hname Hf Ha0 Hlen m h.
  assert (Hal : a ∉ l.*1) by (rewrite Hd in Hf; set_solver).
  assert (Hsm : wlseg m h l 0).
  { eapply wlseg_frame; [|exact Hs]. intros b Hb. apply lookup_insert_ne. set_solver. }
  destruct l as [|[b s] l' _] using rev_ind.
  - simpl in Hs. subst h. rewrite Hs. unfold last_addr. simpl.
    split; simpl; try done.
    + split; [done|]. exists 0. unfold m. by rewrite lookup_insert_eq.
    + constructor; [set_solver|constructor].
    + set_solver.
    + subst m. rewrite dom_insert_L, Hd. simpl. set_solver.
    + constructor; [set_solver|constructor].
    + rewrite Hc. done.
  - assert (Hla : last_addr h (l' ++ [(b, s)]) = b).
    { unfold last_addr. rewrite fmap_app, last_app. done. }
    rewrite Hla. rewrite fmap_app in H0, Hal, Hd. simpl in H0, Hal, Hd.
    rewrite (proj2 (Z.eqb_neq b 0)) by set_solver.
    assert (Hh : h <> 0).
    { intros E. subst h. rewrite E in Hs. destruct l' as [|[c t] l']; simpl in Hs; destruct Hs as (? & _); set_solver. }
    rewrite (proj2 (Z.eqb_neq h 0) Hh).
    pose proof Hsm as Hb. apply wlseg_app in Hb as (n1 & _ & -> & n2 & Eb & _). rewrite Eb. simpl.
    split; simpl.
    + apply wlseg_app. exists a. split; [by eapply wlseg_relink|]. simpl. split; [done|]. exists 0.
      split; [|done]. rewrite lookup_insert_ne by set_solver. unfold m. by rewrite lookup_insert_eq.
    + rewrite !fmap_app. simpl. apply NoDup_app. split_and!; [by rewrite fmap_app in Ha| |constructor; [set_solver|constructor]].
      intros c Hc1 Hc2. set_solver.
    + rewrite !fmap_app. simpl. set_solver.
    + rewrite !fmap_app. simpl. rewrite dom_insert_L. subst m. rewrite dom_insert_L, Hd, !list_to_set_app_L. simpl. set_solver.
    + rewrite fmap_app. simpl. apply NoDup_app. split_and!; [done| |constructor; [set_solver|constructor]].
      intros c Hc1 Hc2. set_solver.
    + rewrite Hc, (length_app (l' ++ [(b, s)])). simpl. lia.
    + rewrite (length_app (l' ++ [(b, s)])). simpl. lia.
Qed.

(** The last node of the list is live; without one the link is NULL. *)
Lemma last_addr_live (k : wakelocks) l :
  lock_list k l -> last_addr (wakelock_list_head k) l <> 0 -> last_addr (wakelock_list_head k) l ∈ dom (wl_nodes k).
Proof.
  intros Hl. rewrite (ll_dom _ _ Hl). unfold last_addr. destruct (last l.*1) as [b|] eqn:Eb; simpl.
  - apply last_Some_elem_of in Eb. set_solver.
  - apply last_None in Eb. destruct l; [|done]. by rewrite (ll_seg _ _ Hl : _ = 0).
Qed.

Lemma link_last_wp (w : W) p a (Q : unit -> W -> Prop) :
  let k := locks w in
  (p <> 0 -> p ∈ dom (wl_nodes k)) ->
  Q tt (set_locks (mk_wakelocks
    (if p =? 0 then wl_nodes k
     else match wl_nodes k !! p with Some n => <[p := wl_set_next a n]> (wl_nodes k) | None => wl_nodes k end)
    (wakelock_list_head k) (wakelock_count k)) w) ->
  wp (when (negb (p =? 0)) (st_node p (wl_set_next a))) Q w.
Proof.
  intros k Hp. destruct (Z.eqb_spec p 0) as [_|Hne]; simpl.
  - intros HQ. apply wp_ret. by destruct w as [[] ? ? ? ? ? ? ?].
  - apply Hp in Hne as [n En]%elem_of_dom. rewrite En. intros HQ.
    apply wp_bind. eapply wp_eq; [unfold ld_node; fold k; by rewrite En|]. by apply wp_bind, wp_gets, wp_modify.
Qed.

(** Adding a name: the list is as it was when the name is in it, and longer by it
    otherwise; the result is the length. *)
Lemma pm_wakelock_add_wp (w : W) l name (Q : Z -> W -> Prop) :
  lock_list (locks w) l -> Z.of_nat (length l) + 1 < 2 ^ 31 ->
  (forall l' w', l'.*2 = (if decide (name ∈ l.*2) then l.*2 else l.*2 ++ [name]) -> lock_list (locks w') l' ->
     locks_only w w' -> Q (Z.of_nat (length l')) w') ->
  wp (pm_wakelock_add (Some name)) Q w.
Proof.
  intros Hl Hsz HQ. unfold pm_wakelock_add. apply wp_bind. destruct (decide (name ∈ l.*2)) as [Hin|Hn].
  - apply lock_named in Hin as (l1 & b & l2 & El). rewrite El in Hl.
    eapply wp_eq; [by eapply search_lock_hit|].
    simpl. rewrite (proj2 (Z.eqb_neq b 0)).
    2: { intros ->. destruct Hl as [_ _ H0 _ _ _ _]. apply H0. rewrite fmap_app. set_solver. }
    simpl. apply wp_gets. rewrite (ll_count _ _ Hl), <-El. rewrite <-El in Hl.
    by apply HQ; [..|apply locks_only_refl].
  - eapply wp_eq; [by apply search_lock_miss|]. simpl.
    apply wp_bind, wp_bind, wp_pe. intros r x Er. apply k_malloc in Er as (Ek & a & -> & Ha & Ha0).
    pose proof (lock_list_snoc _ _ a name Hl Hn Ha Ha0 Hsz) as Hl'. cbv zeta in Hl'.
    apply wp_bind, wp_gets, wp_bind, wp_modify, wp_ret. simpl.
    apply wp_bind, wp_pe. intros r x2 Er. apply k_malloc_name in Er as [Ek2 ->]. simpl in Ek2.
    apply wp_bind, wp_bind. eapply wp_eq; [unfold ld_node; simpl; by rewrite lookup_insert_eq|].
    apply wp_bind, wp_gets, wp_modify. simpl. rewrite insert_insert_eq. unfold wl_set_name. simpl.
    apply wp_bind, wp_gets, wp_bind, wp_modify. simpl.
    apply wp_bind, wp_gets. simpl. set (h := wakelock_list_head (locks w)) in *.
    rewrite wraps32_id by (rewrite (ll_count _ _ Hl); lia).
    set (m := <[a := mk_wakelock_node (Some name) 0]> (wl_nodes (locks w))) in *.
    apply wp_bind.
    eapply (wp_mono _ (fun _ w' => w' = set_locks (mk_wakelocks m (if h =? 0 then a else h) (wakelock_count (locks w) + 1))
                                          (set_penv x2 w))).
    2: { destruct (h =? 0) eqn:Eh; simpl; [by apply wp_modify|apply wp_ret; reflexivity]. }
    intros _ w' ->. apply wp_bind, link_last_wp; simpl.
    { intros Hp. unfold m. rewrite dom_insert_L. apply elem_of_union_r. by apply last_addr_live. }
    apply wp_gets. simpl. rewrite (ll_count _ _ Hl') at 1. simpl. apply HQ; [by rewrite fmap_app|done|].
    eexists _, x2. split; [reflexivity|congruence].
Qed.

(** The names without one of them. *)
Definition del_name (name : string) (names : list string) : list string := filter (fun s => s <> name) names.

Lemma del_name_absent name names : name ∉ names -> del_name name names = names.
Proof.
  unfold del_name. induction names as [|s names IH]; [done|]. intros Hn. rewrite filter_cons_True by set_solver.
  by rewrite IH by set_solver.
Qed.

Lemma del_name_here name l1 l2 : NoDup (l1 ++ name :: l2) -> del_name name (l1 ++ name :: l2) = l1 ++ l2.
Proof.
  intros (H1 & H2 & [H3 H4]%NoDup_cons)%NoDup_app. unfold del_name.
  rewrite filter_app, filter_cons_False by tauto. fold (del_name name l1) (del_name name l2).
  rewrite !del_name_absent; [done|done|]. intros Hi. apply (H2 _ Hi). set_solver.
Qed.

(** The list without one of its nodes. *)
Lemma lock_list_del (k : wakelocks) l1 b name l2 n :
  lock_list k (l1 ++ (b, name) :: l2) -> wl_nodes k !! b = Some n ->
  let h := wakelock_list_head k in
  let m := match last_addr h l1 =? b, wl_nodes k !! last_addr h l1 with
           | false, Some p => <[last_addr h l1 := wl_set_next (wl_next n) p]> (wl_nodes k)
           | _, _ => wl_nodes k
           end in
  lock_list (mk_wakelocks (delete b m) (if b =? h then wl_next n else h) (wakelock_count k - 1)) (l1 ++ l2).
Proof.
  intros [Hs Ha H0 Hd Hn Hc Hr] En h m.
  rewrite length_app in Hc, Hr. rewrite fmap_app in Ha, H0, Hd. rewrite fmap_app in Hn. simpl in Ha, H0, Hd, Hn, Hc, Hr.
  pose proof Ha as (Ha1 & Ha2 & [Ha3 Ha4]%NoDup_cons)%NoDup_app.
  pose proof Hn as (Hn1 & Hn2 & [Hn3 Hn4]%NoDup_cons)%NoDup_app.
  assert (Hb1 : b ∉ l1.*1) by (intros Hi; apply (Ha2 _ Hi); set_solver).
  assert (HA : NoDup (l1 ++ l2).*1).
  { rewrite fmap_app. apply NoDup_app. split_and!; [done| |done]. intros c Hc1 Hc2. apply (Ha2 _ Hc1). set_solver. }
  assert (HN : NoDup (l1 ++ l2).*2).
  { rewrite fmap_app. apply NoDup_app. split_and!; [done| |done]. intros c Hc1 Hc2. apply (Hn2 _ Hc1). set_solver. }
  assert (HL : wakelock_count k - 1 = Z.of_nat (length (l1 ++ l2)) /\ Z.of_nat (length (l1 ++ l2)) < 2 ^ 31)
    by (rewrite length_app; lia).
  assert (HZ : 0 ∉ (l1 ++ l2).*1) by (rewrite fmap_app; set_solver).
  assert (HD : dom m = dom (wl_nodes k)).
  { subst m. destruct (_ =? _); [done|]. destruct (wl_nodes k !! last_addr h l1) eqn:Ep; [|done].
    rewrite dom_insert_lookup_L; [done|eauto]. }
  apply wlseg_app in Hs as (c & Hs1 & -> & n' & En' & Hs2). simplify_eq. simpl in *.
  split; simpl; [|done|done| |done|apply HL|apply HL].
  - assert (Hs2' : forall m', (forall a, a ∈ l2.*1 -> m' !! a = wl_nodes k !! a) -> wlseg (delete b m') n' l2 0).
    { intros m' Hm. eapply wlseg_frame; [|exact Hs2]. intros a Hi. rewrite lookup_delete_ne; [by apply Hm|]. set_solver. }
    destruct l1 as [|[a s] l1' _] using rev_ind.
    + simpl in Hs1. subst m h. unfold last_addr. simpl. rewrite Hs1, Z.eqb_refl. by apply Hs2'.
    + assert (El : last_addr h (l1' ++ [(a, s)]) = a) by (unfold last_addr; rewrite fmap_app, last_app; done).
      subst m. rewrite El. rewrite fmap_app in Hb1, Ha2. simpl in Hb1, Ha2.
      rewrite (proj2 (Z.eqb_neq a b)) by set_solver.
      assert (Hh : b <> h).
      { destruct l1' as [|[a' s'] ?]; simpl in Hs1; destruct Hs1 as (<- & _); set_solver. }
      rewrite (proj2 (Z.eqb_neq b h) Hh).
      pose proof Hs1 as (n2 & _ & -> & n3 & Ea & _)%wlseg_app. rewrite Ea. unfold wl_set_next. simpl.
      apply wlseg_app. exists n'. split.
      * eapply wlseg_frame; [|by eapply (wlseg_relink _ _ _ _ _ _ n')]. rewrite fmap_app. simpl.
        intros d Hi. apply lookup_delete_ne. set_solver.
      * apply Hs2'. intros d Hi. apply lookup_insert_ne. intros ->. apply (Ha2 d); set_solver.
  - rewrite dom_delete_L, HD, Hd, fmap_app, !list_to_set_app_L. simpl. set_solver.
Qed.

(** The node before the first is the head itself. *)
Lemma before_node (k : wakelocks) l1 b name l2 :
  lock_list k (l1 ++ (b, name) :: l2) -> let p := last_addr (wakelock_list_head k) l1 in
  (b =? wakelock_list_head k) = (p =? b) /\ exists n, wl_nodes k !! p = Some n.
Proof.
  intros Hl p. pose proof (ll_seg _ _ Hl) as (c & Hs1 & -> & n & En & _)%wlseg_app.
  destruct l1 as [|[a s] l1 _] using rev_ind.
  - unfold p, last_addr. simpl in *. rewrite Hs1, Z.eqb_refl. eauto.
  - assert (El : p = a) by (unfold p, last_addr; rewrite fmap_app, last_app; done). rewrite El.
    pose proof Hs1 as (n2 & Hs2 & -> & n3 & Ea & _)%wlseg_app. split; [|eauto].
    pose proof (ll_addrs _ _ Hl) as HA. rewrite !fmap_app in HA. apply NoDup_app in HA as (_ & HA & _).
    assert (Hab : a <> b) by (intros ->; apply (HA b); set_solver).
    rewrite (proj2 (Z.eqb_neq a b) Hab). apply Z.eqb_neq. intros Eh.
    destruct l1 as [|[a' s'] l1]; simpl in Hs2; [congruence|]. destruct Hs2 as [-> _]. apply (HA b); set_solver.
Qed.

(** Removing a name. *)
Lemma pm_wakelock_del_wp (w : W) l name (Q : Z -> W -> Prop) :
  lock_list (locks w) l ->
  (forall l' w', l'.*2 = del_name name l.*2 -> lock_list (locks w') l' -> locks_only w w' ->
     Q (Z.of_nat (length l')) w') ->
  wp (pm_wakelock_del (Some name)) Q w.
Proof.
  intros Hl HQ. unfold pm_wakelock_del. apply wp_bind. destruct (decide (name ∈ l.*2)) as [Hin|Hn].
  - apply lock_named in Hin as (l1 & b & l2 & ->). eapply wp_eq; [by eapply search_lock_hit|]. simpl.
    assert (Hb : b <> 0).
    { intros ->. apply (ll_nonnull _ _ Hl). rewrite fmap_app. set_solver. }
    rewrite (proj2 (Z.eqb_neq b 0) Hb).
    pose proof (ll_seg _ _ Hl) as (c & Hs1 & -> & n & En & _)%wlseg_app.
    apply wp_bind. eapply wp_eq; [unfold ld_node; by rewrite En|].
    pose proof (lock_list_del _ _ _ _ _ _ Hl En) as Hl'. cbv zeta in Hl'.
    apply wp_bind, wp_gets. set (h := wakelock_list_head (locks w)) in *.
    set (m := match _ =? _ with true => _ | false => _ end) in Hl'. simpl in Hl'.
    apply wp_bind.
    eapply (wp_mono _ (fun _ w' => w' = set_locks (mk_wakelocks m (if b =? h then n else h) (wakelock_count (locks w))) w)).
    2: { pose proof (before_node _ _ _ _ _ Hl) as [E [p Ep]]. fold h in E, Ep. subst m. rewrite E.
         destruct (_ =? b); [by apply wp_modify|]. rewrite Ep.
         apply wp_bind. eapply wp_eq; [unfold ld_node; by rewrite Ep|]. by apply wp_bind, wp_gets, wp_modify. }
    intros _ w' ->. apply wp_bind, wp_gets, wp_bind, wp_modify. simpl.
    apply wp_bind, wp_gets, wp_bind, wp_modify. simpl.
    rewrite wraps32_id by (pose proof (ll_count _ _ Hl'); simpl in *; pose proof (ll_range _ _ Hl'); lia).
    apply wp_gets. simpl. rewrite (ll_count _ _ Hl' : wakelock_count _ - 1 = _) at 1.
    apply HQ; [|done|].
    + rewrite !fmap_app. symmetry. apply del_name_here. pose proof (ll_names _ _ Hl) as HN. by rewrite fmap_app in HN.
    + exists (mk_wakelocks (delete b m) (if b =? h then n else h) (wakelock_count (locks w) - 1)), (penv w).
      split; [|done]. by destruct w.
  - eapply wp_eq; [by apply search_lock_miss|]. simpl. apply wp_gets. rewrite (ll_count _ _ Hl).
    apply HQ; [by rewrite del_name_absent|done|apply locks_only_refl].
Qed.
End Locks.
