(* ===== verification/PowerSpec.v ===== *)
(** * What the power manager promises

    A machine over the names of the wakelocks, the charger and the idle state, and the
    proof that the service refines it on every sequence of inputs. *)

From Stdlib Require Import Ascii String.
From stdpp Require Import base gmap list strings.
From S2P Require Import Prelude CString CMonad Json Dll Timer Power PowerMgr PowerProofs.
Open Scope string_scope.
Open Scope list_scope.
Open Scope Z_scope.

(** ** Requests *)

Inductive pm_request :=
| ReqAutosleep (on : bool)
| ReqSleep
| ReqLock (name : string)
| ReqUnlock (name : string)
| ReqCharging (online : bool)
| ReqIdle (on : bool)
| ReqVoiceEnd
| ReqApp (shown : bool)
| ReqExpire
| ReqNone
| ReqCrash.        (* the message makes the service read through NULL *)

Section Requests.
Context {J : JsonC}.

(** The command of a JSON text, under its key. *)
Definition on_command (buf : option string) (key : string) (k : string -> option jobj -> pm_request) : pm_request :=
  match buf with
  | None => ReqCrash
  | Some text =>
      match json_tokener_parse text with
      | None => ReqNone
      | Some o =>
          match json_object_object_get_ex (Some o) key with
          | None => ReqNone
          | Some v => match json_object_get_string v with None => ReqCrash | Some c => k c (Some o) end
          end
      end
  end.

Definition lock_request (command : string) (o : option jobj) : pm_request :=
  match name_of o with
  | None => ReqNone
  | Some name =>
      if String.eqb command "ON" then ReqLock name
      else if String.eqb command "OFF" then ReqUnlock name else ReqNone
  end.

Definition request_of (i : pm_input) : pm_request :=
  match i with
  | IdleExpiry => ReqExpire
  | IdleTimeout => ReqNone
  | Message name buf =>
      if String.eqb name MSG_SLEEP then on_command buf "sleep" (fun c _ => ReqAutosleep (String.eqb c "ON"))
      else if String.eqb name MSG_FORCE_SLEEP then
        on_command buf "sleep" (fun c _ => if String.eqb c "ON" then ReqSleep else ReqNone)
      else if String.eqb name MSG_LOCK then on_command buf "wakelock" lock_request
      else if String.eqb name MSG_BATTERY then
        on_command buf "batChargingOnline" (fun c _ =>
          if String.eqb c "true" then ReqCharging true
          else if String.eqb c "false" then ReqCharging false else ReqNone)
      else if String.eqb name MSG_VOICE_COMMING then ReqIdle false
      else if String.eqb name MSG_VOICE_END then ReqVoiceEnd
      else if String.eqb name MSG_SYS_STATUS then ReqApp (match buf with Some _ => true | None => false end)
      else ReqNone
  end.
End Requests.

(** ** The machine *)

(** [s_timer] while the idle timer runs: from the entry into the idle state until the
    state is left or the time is over.  [s_auto] and [s_slept] are what was written to [autosleep], and how often the
    system was sent to sleep; [s_exact] while the clients locked no name again that
    was the only one, and released none when none was locked. *)
Record pms := mk_pms {
  s_names : list string;
  s_charging : bool;
  s_idle : bool;
  s_timer : bool;
  s_app : bool;
  s_auto : list string;
  s_slept : nat;
  s_exact : bool;
}.

Definition no_locks (s : pms) : bool := bool_decide (s_names s = []) && negb (s_charging s).

(** The locks the kernel is to hold. *)
Definition locks_of (s : pms) : gset string :=
  (if bool_decide (s_names s = []) then ∅ else {[PMS_WAKELOCK]}) ∪ (if s_charging s then {[CHG_WAKELOCK]} else ∅).

Definition b2z (b : bool) : Z := if b then 1 else 0.

Definition lock_total (s : pms) : Z := b2z (negb (bool_decide (s_names s = []))) + b2z (s_charging s).

Definition s_set_names (n : list string) (exact : bool) (s : pms) : pms :=
  mk_pms n (s_charging s) (s_idle s) (s_timer s) (s_app s) (s_auto s) (s_slept s) (s_exact s && exact).

(** Entering the idle state starts the timer, leaving it stops the timer; a request for
    the state the service is in does nothing. *)
Definition s_set_idle (b : bool) (s : pms) : pms :=
  mk_pms (s_names s) (s_charging s) b (if Bool.eqb b (s_idle s) then s_timer s else b) (s_app s) (s_auto s)
    (s_slept s) (s_exact s).

Definition spec_step (r : pm_request) (s : pms) : pms :=
  match r with
  | ReqAutosleep on =>
      mk_pms (s_names s) (s_charging s) (s_idle s) (s_timer s) (s_app s) (s_auto s ++ [if on then SLEEP_ON else SLEEP_OFF])
        (s_slept s) (s_exact s)
  | ReqSleep =>
      mk_pms (s_names s) (s_charging s) (s_idle s) (s_timer s) (s_app s) (s_auto s)
        (if no_locks s then S (s_slept s) else s_slept s) (s_exact s)
  | ReqLock name =>
      s_set_names (if decide (name ∈ s_names s) then s_names s else s_names s ++ [name])
        (negb (bool_decide (s_names s = [name]))) s
  | ReqUnlock name => s_set_names (del_name name (s_names s)) (negb (bool_decide (s_names s = []))) s
  | ReqCharging b => mk_pms (s_names s) b (s_idle s) (s_timer s) (s_app s) (s_auto s) (s_slept s) (s_exact s)
  | ReqIdle b => s_set_idle b s
  | ReqVoiceEnd => if s_app s then s else s_set_idle true s
  | ReqApp b =>
      let s := s_set_idle (negb b) s in
      mk_pms (s_names s) (s_charging s) (s_idle s) (s_timer s) b (s_auto s) (s_slept s) (s_exact s)
  | ReqExpire =>
      mk_pms (s_names s) (s_charging s) (s_idle s) false (s_app s) (s_auto s) (s_slept s) (s_exact s)
  | ReqNone | ReqCrash => s
  end.

(** ** The log *)

(** The texts written to a file. *)
Definition texts (path : string) (log : list pm_event) : list string :=
  omap (fun e => match e with Wrote p t _ => if String.eqb p path then Some t else None | _ => None end) log.

(** Was the timer started, and neither stopped nor over since? *)
Definition timer_on (log : list pm_event) : bool :=
  default false (last (omap (fun e =>
    match e with TimerStarted _ => Some true | TimerStopped _ | TimerExpired => Some false | _ => None end) log)).

Lemma texts_app path l1 l2 : texts path (l1 ++ l2) = texts path l1 ++ texts path l2.
Proof. apply omap_app. Qed.

Lemma timer_on_snoc l e :
  timer_on (l ++ [e]) =
    match e with TimerStarted _ => true | TimerStopped _ | TimerExpired => false | _ => timer_on l end.
Proof.
  unfold timer_on. rewrite omap_app. destruct e; simpl; rewrite ?app_nil_r; try done; by rewrite last_app.
Qed.

(** ** The HAL *)

(** The four files are open. *)
Definition hal_up (h : hal_vars) (f : gmap Z string) : Prop :=
  g_initialized h = 1 /\ g_error h = 0 /\
  forall i path, POWER_PATHS !! i = Some path -> f !! nth i (g_fds h) 0 = Some path.

Definition hal_wf (h : hal_vars) (f : gmap Z string) : Prop :=
  g_initialized h = 0 /\ length (g_fds h) = 4%nat \/ hal_up h f.

Section Hal.
Context {T X : Type} `{!Timers T, !PowerEnv X, !PowerKernel X}.
Local Notation W := (pm T X).

Lemma open_wp (w : W) path (Q : Z -> W -> Prop) :
  path ∈ POWER_PATHS ->
  (forall fd x, 0 <= fd -> fd ∉ dom (pfds w) -> kheld x = kheld (penv w) ->
     Q fd (set_pfds (<[fd := path]> (pfds w)) (set_penv x w))) -> wp (open path) Q w.
Proof.
  intros Hp HQ. apply wp_bind, wp_pe. intros fd x E. apply k_open in E as (Ek & H0 & Hf); [|done].
  rewrite (proj2 (Z.leb_le 0 fd) H0). apply wp_bind, wp_modify, wp_ret. by apply HQ.
Qed.

(** One file of the loop. *)
Lemma open_paths_step (w : W) i path paths (Q : Z -> W -> Prop) :
  path ∈ POWER_PATHS ->
  (forall fd x, fd ∉ dom (pfds w) -> kheld x = kheld (penv w) ->
     let v := hal w in
     wp (open_paths (S i) paths) Q
       (set_hal (mk_hal_vars (g_initialized v) (<[i := fd]> (g_fds v)) (g_error v))
          (set_pfds (<[fd := path]> (pfds w)) (set_penv x w)))) ->
  wp (open_paths i (path :: paths)) Q w.
Proof.
  intros Hp HQ. apply wp_bind, open_wp; [done|]. intros fd x H0 Hf Ek.
  rewrite (proj2 (Z.ltb_ge fd 0) H0). apply wp_bind, wp_modify. by apply HQ.
Qed.

Lemma initialize_fds_wp (w : W) (Q : unit -> W -> Prop) :
  hal_wf (hal w) (pfds w) ->
  (forall h f x, hal_up h f -> kheld x = kheld (penv w) -> Q tt (set_hal h (set_pfds f (set_penv x w)))) ->
  wp initialize_fds Q w.
Proof.
  intros Hw HQ. apply wp_bind, wp_gets. destruct Hw as [[Hi Hl]|Hu].
  - rewrite Hi. simpl. apply wp_bind.
    apply open_paths_step; [set_solver|]; intros fd0 x0 F0 K0; cbv zeta.
    apply open_paths_step; [set_solver|]; intros fd1 x1 F1 K1; cbv zeta.
    apply open_paths_step; [set_solver|]; intros fd2 x2 F2 K2; cbv zeta.
    apply open_paths_step; [set_solver|]; intros fd3 x3 F3 K3; cbv zeta.
    apply wp_bind, wp_modify, wp_ret. simpl. apply wp_modify.
    destruct (g_fds (hal w)) as [|z0 [|z1 [|z2 [|z3 [|z4 l]]]]]; try discriminate. clear Hl. simpl in *.
    assert (D : fd0 <> fd1 /\ fd0 <> fd2 /\ fd0 <> fd3 /\ fd1 <> fd2 /\ fd1 <> fd3 /\ fd2 <> fd3).
    { clear -F1 F2 F3. set_solver. }
    destruct D as (D1 & D2 & D3 & D4 & D5 & D6).
    match goal with |- Q tt ?w2 => refine (HQ (hal w2) (pfds w2) (penv w2) _ _) end; [|simpl in *; congruence].
    split_and!; [done|done|]. intros i path. simpl.
    destruct i as [|[|[|[|i]]]]; simpl; intros [= <-]; rewrite ?lookup_insert_ne by congruence; apply lookup_insert_eq.
  - pose proof Hu as (E & _). rewrite E. simpl. apply wp_ret.
    assert (Ew : w = set_hal (hal w) (set_pfds (pfds w) (set_penv (penv w) w))) by by destruct w.
    rewrite Ew. by apply HQ.
Qed.

Lemma hal_write_wp (w : W) file path id (Q : Z -> W -> Prop) :
  hal_up (hal w) (pfds w) -> POWER_PATHS !! file = Some path ->
  (forall r x, pe_write path id (penv w) = (r, x) ->
     Q r (set_plog (plog w ++ [Wrote path id r]) (set_penv x w))) -> wp (hal_write file id) Q w.
Proof.
  intros (_ & _ & Hf) Hp HQ. apply wp_bind, wp_gets, wp_bind, wp_gets. rewrite (Hf _ _ Hp).
  apply wp_bind, wp_pe. intros r x E. by apply wp_bind, wp_modify, wp_ret, HQ.
Qed.

(** A function of the device opens the files first. *)
Lemma on_device_wp (w : W) (op : M W Z) (ok : Z -> bool) (done_ : M W unit) (Q : Z -> W -> Prop) :
  g_power_device (pwr w) = true -> hal_wf (hal w) (pfds w) ->
  (forall h f x, hal_up h f -> kheld x = kheld (penv w) ->
     wp op (fun status => wp (if ok status then done_ ;; ret 0 else ret (-1)) Q)
       (set_hal h (set_pfds f (set_penv x w)))) ->
  wp (on_device (initialize_fds ;; op) ok done_) Q w.
Proof.
  intros Hd Hw HQ. apply wp_bind, wp_gets. rewrite Hd. apply wp_bind, wp_bind, initialize_fds_wp; [done|].
  intros h f x Hu Ek. by apply HQ.
Qed.

(** The state after a request: the files are open, an event is logged. *)
Definition asked (w : W) (h : hal_vars) (f : gmap Z string) (x : X) (e : pm_event) (total : Z) : W :=
  set_pwr (mk_power_vars true total (full_lock_total (pwr w)))
    (set_hal h (set_pfds f (set_plog (plog w ++ [e]) (set_penv x w)))).

Lemma asked_same (w : W) h f x e :
  g_power_device (pwr w) = true ->
  set_plog (plog w ++ [e]) (set_hal h (set_pfds f (set_penv x w))) = asked w h f x e (partial_lock_total (pwr w)).
Proof. destruct w as [? ? [] ? ? ? ? ?]. simpl. by intros ->. Qed.

Section Asked.
Context (w : W) (Hd : g_power_device (pwr w) = true) (Hw : hal_wf (hal w) (pfds w)).

Lemma power_wakelock_request_wp id (Q : Z -> W -> Prop) :
  0 < strlen id ->
  (forall h f x, hal_wf h f -> kheld x = {[id]} ∪ kheld (penv w) ->
     Q 0 (asked w h f x (Wrote WAKE_LOCK id (strlen id)) (wraps32 (partial_lock_total (pwr w) + 1)))) ->
  wp (power_wakelock_request PART_LOCK_STATE id) Q w.
Proof.
  intros Hs HQ. apply on_device_wp; [done..|]. intros h f x Hu Ek. pose proof Hu as (_ & He & _).
  apply wp_bind, wp_gets. simpl. rewrite He. simpl. apply (hal_write_wp _ _ WAKE_LOCK); [done..|].
  intros r x' E. apply k_lock in E as [Ek' ->]. rewrite (proj2 (Z.ltb_lt 0 (strlen id)) Hs).
  apply wp_bind, wp_modify, wp_ret. simpl in *. rewrite Hd, Ek in *.
  apply (HQ h f x'); [by right|done].
Qed.

Lemma power_wakelock_release_wp id (Q : Z -> W -> Prop) :
  (forall h f x r, hal_wf h f -> kheld x = kheld (penv w) ∖ {[id]} -> (id ∈ kheld (penv w) -> r = strlen id) ->
     Q (if 0 <? r then 0 else -1)
       (asked w h f x (Wrote WAKE_UNLOCK id r)
          (if 0 <? r then wraps32 (partial_lock_total (pwr w) - 1) else partial_lock_total (pwr w)))) ->
  wp (power_wakelock_release id) Q w.
Proof.
  intros HQ. apply on_device_wp; [done..|]. intros h f x Hu Ek. pose proof Hu as (_ & He & _).
  apply wp_bind, wp_gets. simpl. rewrite He. simpl. apply (hal_write_wp _ _ WAKE_UNLOCK); [done..|].
  intros r x' E. apply k_unlock in E as [Ek' Hr]. simpl in Ek', Hr. rewrite Ek in *.
  assert (HQ' := HQ h f x' r (or_intror Hu) Ek' Hr). destruct (0 <? r).
  - apply wp_bind, wp_modify, wp_ret. simpl. by rewrite Hd.
  - apply wp_ret. rewrite <-asked_same in HQ' by done. exact HQ'.
Qed.

(** Writes to the two files that hold no locks. *)
Lemma power_sleep_wp file path id (Q : Z -> W -> Prop) :
  path ∈ [AUTOSLEEP; STATE] -> POWER_PATHS !! file = Some path ->
  (forall h f x r v, hal_wf h f -> kheld x = kheld (penv w) ->
     Q v (asked w h f x (Wrote path id r) (partial_lock_total (pwr w)))) ->
  wp (on_device (initialize_fds ;; h <- gets hal ;; if negb (g_error h =? 0) then ret (g_error h) else hal_write file id)
        (fun status => status =? 0) (ret tt)) Q w.
Proof.
  intros Hp Hf HQ. apply on_device_wp; [done..|]. intros h f x Hu Ek. pose proof Hu as (_ & He & _).
  apply wp_bind, wp_gets. simpl. rewrite He. simpl. apply (hal_write_wp _ _ path); [done..|].
  intros r x' E. apply k_other in E; [|done]. simpl in E.
  assert (HQ' : forall v, Q v (asked w h f x' (Wrote path id r) (partial_lock_total (pwr w)))).
  { intros v. apply HQ; [by right|congruence]. }
  rewrite <-asked_same in HQ' by done. destruct (r =? 0); [apply wp_bind|]; apply wp_ret; apply HQ'.
Qed.

Lemma power_idle_wp idle (Q : Z -> W -> Prop) :
  (forall h f x, hal_wf h f -> kheld x = kheld (penv w) ->
     Q 0 (asked w h f x (SetIdle idle) (partial_lock_total (pwr w)))) ->
  wp (on_device (set_idle idle) (fun status => status =? 0) (ret tt)) Q w.
Proof.
  intros HQ. apply on_device_wp; [done..|]. intros h f x Hu Ek. pose proof Hu as (_ & He & _).
  apply wp_bind, wp_gets. simpl. rewrite He. simpl. apply wp_bind, wp_modify, wp_ret. simpl.
  apply wp_bind, wp_ret, wp_ret. pose proof (HQ h f x (or_intror Hu) Ek) as HQ'. by rewrite <-asked_same in HQ'.
Qed.
End Asked.
End Hal.

(** ** Refinement *)

Section Serving.
Context {T X : Type} `{!Timers T, TO : !TimersOk T, !PowerEnv X, !PowerKernel X} {J : JsonC}.
Local Notation W := (pm T X).

Record serving (w : W) (s : pms) : Prop := {
  sv_locks : exists l, lock_list (locks w) l /\ l.*2 = s_names s;
  sv_chg : (chg_flag (pmv w) =? 1) = s_charging s;
  sv_idle : idle_status (pmv w) = b2z (s_idle s);
  sv_app : appId (pmv w) = None <-> s_app s = false;
  sv_dev : g_power_device (pwr w) = true;
  sv_full : full_lock_total (pwr w) = 0;
  sv_hal : hal_wf (hal w) (pfds w);
  sv_timer : exists L, timers_up L (ptimers w) /\ e_power_idle_id (pmv w) ∈ L;
  sv_held : kheld (penv w) = locks_of s;
  sv_auto : texts AUTOSLEEP (plog w) = s_auto s;
  sv_on : timer_on (plog w) = s_timer s;
  sv_arm : s_timer s = true -> s_idle s = true;
  sv_total : s_exact s = true -> partial_lock_total (pwr w) = lock_total s;
  sv_slept : s_exact s = true -> texts STATE (plog w) = replicate (s_slept s) SLEEP_ON;
}.

(** The parts of [serving] that an event does not touch. *)
Ltac serve :=
  split; simpl; rewrite ?texts_app, ?timer_on_snoc; simpl; rewrite ?app_nil_r; try done;
  try (by etrans; [eassumption|]); try congruence.

Lemma lock_total_range s : 0 <= lock_total s <= 2.
Proof. unfold lock_total. by destruct (bool_decide _), (s_charging s). Qed.

Lemma replicate_snoc {A} n (x : A) : replicate n x ++ [x] = replicate (S n) x.
Proof. rewrite <-replicate_cons_app. done. Qed.

(** The counter says whether there are locks, as long as it is exact. *)
Lemma lock_state_wp w s (Q : Z -> W -> Prop) :
  serving w s -> (forall v, (s_exact s = true -> (v =? NO_LOCK_STATE) = no_locks s) -> Q v w) ->
  wp power_lock_state_poll Q w.
Proof.
  intros Hs HQ. apply wp_bind, wp_gets, wp_ret, HQ. intros He. rewrite (sv_full _ _ Hs), (sv_total _ _ Hs He).
  unfold lock_total, no_locks. by destruct (bool_decide _), (s_charging s).
Qed.

Lemma autosleep_serves w s (on : bool) :
  serving w s ->
  wp (power_autosleep_request (if on then SLEEP_ON else SLEEP_OFF)) (fun _ w' => serving w' (spec_step (ReqAutosleep on) s)) w.
Proof.
  intros [Hl Hc Hi Ha Hd Hf Hh Ht Hk Hau Hon Har Hto Hsl]. apply (power_sleep_wp _ Hd Hh _ AUTOSLEEP); [set_solver|done|].
  intros h f x r v Hh' Ek. serve.
Qed.

Lemma sleep_serves w s :
  serving w s ->
  wp (W := W) (st <- power_lock_state_poll ;; when (st =? NO_LOCK_STATE) (power_sleep_request SLEEP_ON ;; ret tt))
     (fun _ w' => serving w' (spec_step ReqSleep s)) w.
Proof.
  intros Hs. apply wp_bind, (lock_state_wp _ _ _ Hs). intros v Hv.
  destruct Hs as [Hl Hc Hi Ha Hd Hf Hh Ht Hk Hau Hon Har Hto Hsl]. destruct (v =? NO_LOCK_STATE); simpl.
  - apply wp_bind, (power_sleep_wp _ Hd Hh _ STATE); [set_solver|done|]. intros h f x r v' Hh' Ek. apply wp_ret.
    serve.
    intros He. rewrite (Hsl He), <-(Hv He). apply replicate_snoc.
  - apply wp_ret. split; simpl; try done. intros He. by rewrite <-(Hv He), (Hsl He).
Qed.

Lemma idle_serves w s flag :
  serving w s -> flag = IDLE_ENTER \/ flag = IDLE_EXIT ->
  wp (pm_idle_entry flag) (fun _ w' => serving w' (s_set_idle (flag =? IDLE_ENTER) s) /\ appId (pmv w') = appId (pmv w)) w.
Proof.
  intros [Hl Hc Hi Ha Hd Hf Hh (L & Ht & Hin) Hk Hau Hon Har Hto Hsl] Hflag. apply wp_bind, wp_gets, wp_bind.
  assert (Hsame : forall b, s_idle s = b ->
     wp (W := W) (ret tt) (fun _ => wp (ret 0) (fun _ w' => serving w' (s_set_idle b s) /\ appId (pmv w') = appId (pmv w))) w).
  { intros b Eb. apply wp_ret, wp_ret. split; [|done]. split; simpl; rewrite ?Eb, ?eqb_reflx; try done;
      [by rewrite <-Eb|eauto|by rewrite <-Eb]. }
  destruct Hflag as [-> | ->]; simpl; rewrite Hi; destruct (s_idle s) eqn:Es; simpl.
  - by apply Hsame.
  - apply wp_bind, (power_idle_wp _ Hd Hh). intros h f x Hh' Ek. apply wp_bind, wp_modify, wp_bind, wp_gets. simpl.
    apply wp_bind, wp_zoom. eapply wp_mono; [|by apply (timer_start_ok L)]. simpl. intros _ t Ht'.
    apply wp_modify, wp_ret. split; [|done].
    serve; rewrite ?Es; eauto.
  - apply wp_bind, (power_idle_wp _ Hd Hh). intros h f x Hh' Ek. apply wp_bind, wp_modify, wp_bind, wp_gets. simpl.
    apply wp_bind, wp_zoom. eapply wp_mono; [|by apply (timer_stop_ok L)]. simpl. intros _ t Ht'.
    apply wp_modify, wp_ret. split; [|done].
    serve; rewrite ?Es; eauto.
  - by apply Hsame.
Qed.

(** Locking a name: the kernel's lock is taken with the first one. *)
Lemma lock_serves w s name :
  serving w s -> Z.of_nat (length (s_names s)) + 1 < 2 ^ 31 ->
  wp (W := W) (n <- pm_wakelock_add (Some name) ;; when (n =? 1) (power_wakelock_request PART_LOCK_STATE PMS_WAKELOCK ;; ret tt))
     (fun _ w' => serving w' (spec_step (ReqLock name) s)) w.
Proof.
  intros [(l & Hl & El) Hc Hi Ha Hd Hf Hh Ht Hk Hau Hon Har Hto Hsl] Hsz.
  apply wp_bind, (pm_wakelock_add_wp _ l); [done|by rewrite <-El, length_fmap in Hsz|]. intros l' w' El' Hl' (k & x & -> & Ex). rewrite El in El'. simpl in *.
  assert (Hlen : length l' = length (s_names (spec_step (ReqLock name) s))) by (simpl; rewrite <-El'; by rewrite length_fmap).
  destruct (Z.eqb_spec (Z.of_nat (length l')) 1) as [E1|E1]; simpl.
  - apply wp_bind, power_wakelock_request_wp; [done|done|done|]. intros h f x' Hh' Ek. apply wp_ret. simpl in Ek.
    rewrite Ex, Hk in Ek.
    assert (Hn : s_names (spec_step (ReqLock name) s) = [name] /\ (s_names s = [] \/ s_names s = [name])).
    { simpl in *. destruct (decide (name ∈ s_names s)) as [Hi'|Hi'].
      - destruct (s_names s) as [|n [|]]; simpl in *; try lia. apply list_elem_of_singleton in Hi' as ->. auto.
      - rewrite length_app in Hlen. destruct (s_names s); simpl in *; [auto|lia]. }
    destruct Hn as [Hn Hs]. simpl in Hn. serve; rewrite ?Hn.
    + exists l'. split; [done|congruence].
    + rewrite Ek. unfold locks_of. simpl. destruct Hs as [-> | ->]; simpl; set_solver.
    + intros [He Hb]%andb_prop. rewrite (Hto He). unfold lock_total. simpl.
      destruct Hs as [Hs|Hs]; rewrite Hs in *; [|by rewrite bool_decide_eq_true_2 in Hb].
      simpl. by destruct (s_charging s).
    + intros [He _]%andb_prop. auto.
  - apply wp_ret. assert (Hn : s_names (spec_step (ReqLock name) s) <> [] /\ s_names s <> []).
    { simpl in *. destruct (decide (name ∈ s_names s)) as [Hi'|Hi'].
      - destruct (s_names s); [by apply not_elem_of_nil in Hi'|by split].
      - rewrite length_app in Hlen. destruct (s_names s); simpl in *; [lia|done]. }
    destruct Hn as [Hn Hs]. simpl in Hn. serve.
    + eauto.
    + rewrite Ex, Hk. unfold locks_of. simpl. by rewrite !bool_decide_eq_false_2.
    + intros [He _]%andb_prop. rewrite (Hto He). unfold lock_total. simpl. by rewrite !bool_decide_eq_false_2.
    + intros [He _]%andb_prop. auto.
Qed.

(** Releasing a name: the kernel's lock goes with the last one. *)
Lemma unlock_serves w s name :
  serving w s ->
  wp (W := W) (n <- pm_wakelock_del (Some name) ;; when (n =? 0) (power_wakelock_release PMS_WAKELOCK ;; ret tt))
     (fun _ w' => serving w' (spec_step (ReqUnlock name) s)) w.
Proof.
  intros [(l & Hl & El) Hc Hi Ha Hd Hf Hh Ht Hk Hau Hon Har Hto Hsl].
  apply wp_bind, (pm_wakelock_del_wp _ l); [done|]. intros l' w' El' Hl' (k & x & -> & Ex). rewrite El in El'. simpl in *.
  assert (Hlen : length l' = length (del_name name (s_names s))) by (rewrite <-El'; by rewrite length_fmap).
  destruct (Z.eqb_spec (Z.of_nat (length l')) 0) as [E0|E0]; simpl.
  - apply wp_bind, power_wakelock_release_wp; [done|done|]. intros h f x' r Hh' Ek Hr. apply wp_ret. simpl in Ek, Hr.
    rewrite Ex, Hk in Ek, Hr.
    assert (Hn : del_name name (s_names s) = []) by (apply nil_length_inv; lia).
    serve; rewrite ?Hn.
    + exists l'. split; [done|congruence].
    + rewrite Ek. unfold locks_of. simpl.
      assert (PMS_WAKELOCK <> CHG_WAKELOCK) by done. destruct (bool_decide (s_names s = [])), (s_charging s); set_solver.
    + intros [He Hb]%andb_prop. apply negb_true_iff, bool_decide_eq_false in Hb.
      rewrite Hr.
      2: { unfold locks_of. rewrite bool_decide_eq_false_2 by done. set_solver. }
      simpl. rewrite (Hto He). unfold lock_total. simpl. rewrite bool_decide_eq_false_2 by done. by destruct (s_charging s).
    + intros [He _]%andb_prop. auto.
  - apply wp_ret. assert (Hn : del_name name (s_names s) <> [] /\ s_names s <> []).
    { split; intros E; rewrite ?E in *; simpl in *; lia. }
    destruct Hn as [Hn Hs]. serve.
    + eauto.
    + rewrite Ex, Hk. unfold locks_of. simpl. by rewrite !bool_decide_eq_false_2.
    + intros [He _]%andb_prop. rewrite (Hto He). unfold lock_total. simpl. by rewrite !bool_decide_eq_false_2.
    + intros [He _]%andb_prop. auto.
Qed.

(** The charger comes and goes. *)
Lemma charging_serves w s (b : bool) :
  serving w s ->
  wp (W := W) (if b then
        if negb (chg_flag (pmv w) =? 1) then set_chg_flag 1 ;; power_wakelock_request PART_LOCK_STATE CHG_WAKELOCK ;; ret tt else ret tt
      else if chg_flag (pmv w) =? 1 then set_chg_flag 0 ;; power_wakelock_release CHG_WAKELOCK ;; ret tt else ret tt)
     (fun _ w' => serving w' (spec_step (ReqCharging b) s)) w.
Proof.
  intros [Hl Hc Hi Ha Hd Hf Hh Ht Hk Hau Hon Har Hto Hsl]. rewrite Hc.
  assert (Hne : PMS_WAKELOCK <> CHG_WAKELOCK) by done.
  assert (Hr : forall s', s_charging s' = b -> s_charging s = b ->
     locks_of (spec_step (ReqCharging b) s) = locks_of s /\ lock_total (spec_step (ReqCharging b) s) = lock_total s).
  { intros _ _ Eb. unfold locks_of, lock_total. simpl. by rewrite Eb. }
  destruct b, (s_charging s) eqn:Eb; simpl.
  - apply wp_ret. destruct (Hr s Eb eq_refl) as [E1 E2]. simpl in E1, E2. serve. by rewrite E2.
  - apply wp_bind, wp_modify, wp_bind, power_wakelock_request_wp; [done..|]. intros h f x Hh' Ek. simpl in Ek. apply wp_ret. serve.
    + rewrite Ek, Hk. unfold locks_of. simpl. rewrite Eb. set_solver.
    + intros He. rewrite (Hto He). unfold lock_total. simpl. rewrite Eb. by destruct (bool_decide _).
  - apply wp_bind, wp_modify, wp_bind, power_wakelock_release_wp; [done..|]. intros h f x r Hh' Ek Hrr. simpl in Ek, Hrr. apply wp_ret.
    rewrite Hk in Ek, Hrr. serve.
    + rewrite Ek. unfold locks_of. simpl. rewrite Eb. destruct (bool_decide _); set_solver.
    + intros He. rewrite Hrr by (unfold locks_of; rewrite Eb; set_solver). simpl. rewrite (Hto He). unfold lock_total. simpl. rewrite Eb.
      by destruct (bool_decide _).
  - apply wp_ret. destruct (Hr s Eb eq_refl) as [E1 E2]. simpl in E1, E2. serve. by rewrite E2.
Qed.

(** The scan reads the list and changes nothing. *)
Lemma scan_locks_eq (w : W) a l fuel :
  wlseg (wl_nodes (locks w)) a l 0 -> 0 ∉ l.*1 -> (length l < fuel)%nat -> scan_locks fuel a w = Ret tt w.
Proof.
  revert a fuel. induction l as [|[b n] l IH]; intros a fuel Hs H0 Hf; destruct fuel as [|fuel]; csimpl in *; try lia.
  - by rewrite Hs.
  - destruct Hs as (-> & m & E & Hs). apply not_elem_of_cons in H0 as [Hb H0].
    rewrite (proj2 (Z.eqb_neq b 0)) by done. unfold bind, ld_node. rewrite E. apply IH; [done|done|lia].
Qed.

Lemma scan_eq (w : W) l : lock_list (locks w) l -> pm_wakelock_scan w = Ret (Z.of_nat (length l)) w.
Proof.
  intros H. pose proof (lock_list_size _ _ H) as Hz. unfold pm_wakelock_scan, bind, gets, locks_fuel.
  rewrite Hz, (scan_locks_eq _ _ l); [by rewrite (ll_count _ _ H)|apply H|apply H|lia].
Qed.

(** Telling the services changes only the outside. *)
Lemma tell_serves w s text : serving w s -> wp (tell_services text) (fun _ w' => serving w' s) w.
Proof.
  intros Hs. apply (wp_for_each (fun w => serving w s)); [|done]. clear w Hs.
  intros target w [Hl Hc Hi Ha Hd Hf Hh Ht Hk Hau Hon Har Hto Hsl].
  apply wp_bind, wp_bind, wp_modify, wp_pe. simpl. intros r x E. apply k_call in E. apply wp_ret. serve.
Qed.

Lemma timeout_serves w s : serving w s -> wp power_idle_timeout_func (fun _ w' => serving w' s) w.
Proof.
  intros Hs. apply wp_bind. eapply wp_mono; [|by apply tell_serves].
  intros _ w1 [Hl Hc Hi Ha Hd Hf Hh Ht Hk Hau Hon Har Hto Hsl]. apply wp_bind, (power_idle_wp _ Hd Hh).
  intros h f x Hh' Ek. apply tell_serves. serve.
Qed.

Lemma expiry_serves w s :
  serving w s -> wp (W := W) (plog_add TimerExpired) (fun _ w' => serving w' (spec_step ReqExpire s)) w.
Proof. intros [Hl Hc Hi Ha Hd Hf Hh Ht Hk Hau Hon Har Hto Hsl]. apply wp_modify. serve. Qed.

(** A handler reads the command under its key and runs its body. *)
Lemma on_command_wp w s buf key k (body : option jobj -> string -> M W unit) :
  serving w s -> on_command buf key k <> ReqCrash ->
  (forall c o, wp (body o c) (fun _ w' => serving w' (spec_step (k c o) s)) w) ->
  wp (o <- parse buf ;;
      (if (match o with None => true | Some _ => false end) then ret (-1)
       else (match get_field o key with Some v => c <- command_of v ;; body o c | None => ret tt end) ;; ret 0) ;;
      ret tt)
     (fun _ w' => serving w' (spec_step (on_command buf key k) s)) w.
Proof.
  intros Hs Hc Hb. unfold on_command in *. destruct buf as [text|]; [|done].
  apply wp_bind, wp_ret, wp_bind. destruct (json_tokener_parse text) as [o|]; [|by apply wp_ret, wp_ret].
  apply wp_bind. unfold get_field. destruct (json_object_object_get_ex (Some o) key) as [v|]; [|by apply wp_ret, wp_ret, wp_ret].
  apply wp_bind. unfold command_of. destruct (json_object_get_string v) as [c|]; [|done].
  apply wp_ret. eapply wp_mono; [|apply Hb]. intros ? w' Hw. by apply wp_ret, wp_ret.
Qed.

Lemma wp_drop {A} (m : M W A) (Q : W -> Prop) w : wp m (fun _ => Q) w -> wp (m ;; ret tt) (fun _ => Q) w.
Proof. intros H. apply wp_bind. eapply wp_mono; [|exact H]. intros a w' Hw. by apply wp_ret. Qed.

Lemma message_serves w s name buf :
  serving w s -> request_of (Message name buf) <> ReqCrash -> Z.of_nat (length (s_names s)) + 1 < 2 ^ 31 ->
  wp (pm_service_command_callback name buf) (fun _ w' => serving w' (spec_step (request_of (Message name buf)) s)) w.
Proof.
  intros Hs Hc Hsz. unfold pm_service_command_callback, pm_msg_map_int.
  destruct (String.eqb_spec name MSG_SLEEP) as [->|N1].
  { apply (on_command_wp w s buf "sleep"); [done..|]. intros c o. destruct (String.eqb c "ON").
    - destruct (sv_locks _ _ Hs) as (l & Hl & _). apply wp_bind. eapply wp_eq; [by apply scan_eq|].
      apply wp_drop, (autosleep_serves w s true Hs).
    - apply wp_drop, (autosleep_serves w s false Hs). }
  destruct (String.eqb_spec name MSG_FORCE_SLEEP) as [->|N2].
  { apply (on_command_wp w s buf "sleep" _ (fun _ c => when (String.eqb c "ON") _)); [done..|].
    intros c o. destruct (String.eqb c "ON"); [by apply sleep_serves|by apply wp_ret]. }
  destruct (String.eqb_spec name MSG_LOCK) as [->|N3].
  { apply (on_command_wp w s buf "wakelock" lock_request); [done..|]. intros c o. unfold lock_request.
    destruct (name_of o) as [n|].
    - destruct (String.eqb c "ON"); [by apply lock_serves|]. destruct (String.eqb c "OFF"); [by apply unlock_serves|by apply wp_ret].
    - destruct (String.eqb c "ON"); [by apply wp_bind, wp_ret, wp_ret|].
      destruct (String.eqb c "OFF"); [by apply wp_bind, wp_ret, wp_ret|by apply wp_ret]. }
  destruct (String.eqb_spec name MSG_ALARM) as [->|N4]; [by apply wp_ret|].
  destruct (String.eqb_spec name MSG_BATTERY) as [->|N5].
  { apply (on_command_wp w s buf "batChargingOnline"); [done..|]. intros c o. apply wp_bind, wp_gets.
    pose proof (charging_serves w s true Hs) as Ht. pose proof (charging_serves w s false Hs) as Hf. simpl in Ht, Hf.
    destruct (String.eqb_spec c "true") as [->|Hc1]; simpl; [exact Ht|].
    destruct (String.eqb_spec c "false") as [->|Hc2]; simpl; [exact Hf|by apply wp_ret]. }
  destruct (String.eqb_spec name MSG_VOICE_COMMING) as [->|N6].
  { apply wp_drop. eapply wp_mono; [|apply (idle_serves w s IDLE_EXIT); auto]. intros r w' [Hw _]. exact Hw. }
  destruct (String.eqb_spec name MSG_VOICE_END) as [->|N7].
  { apply wp_bind, wp_gets. pose proof (sv_app _ _ Hs) as Ha. simpl. destruct (appId (pmv w)) as [a|] eqn:Ea.
    - apply wp_ret. destruct (s_app s); [done|]. by destruct Ha as [_ Ha]; specialize (Ha eq_refl).
    - rewrite (proj1 Ha eq_refl). apply wp_drop. eapply wp_mono; [|apply (idle_serves w s IDLE_ENTER); auto].
      intros r w' [Hw _]. exact Hw. }
  destruct (String.eqb_spec name MSG_VOICE_SLEEP) as [->|N8].
  { destruct (sv_locks _ _ Hs) as (l & Hl & _). apply wp_bind. eapply wp_eq; [by apply scan_eq|]. by apply wp_ret. }
  destruct (String.eqb_spec name MSG_SYS_STATUS) as [->|N9].
  { apply wp_bind. destruct buf as [a|]; simpl.
    - eapply wp_mono; [|apply (idle_serves w s IDLE_EXIT); auto]. intros r w' [[Hl Hc' Hi Ha Hd Hf Hh Ht Hk Hau Hon Har Hto Hsl] _].
      apply wp_modify. serve.
    - eapply wp_mono; [|apply (idle_serves w s IDLE_ENTER); auto]. intros r w' [[Hl Hc' Hi Ha Hd Hf Hh Ht Hk Hau Hon Har Hto Hsl] _].
      apply wp_modify. serve. }
  apply wp_ret. simpl. by rewrite !(proj2 (String.eqb_neq _ _)).
Qed.

(** ** Runs *)

(** A step adds at most one name. *)
Lemma spec_step_names r s : (length (s_names (spec_step r s)) <= S (length (s_names s)))%nat.
Proof.
  destruct r; simpl; try lia.
  - destruct (decide _); [lia|]. rewrite length_app. simpl. lia.
  - unfold del_name. rewrite length_filter. lia.
  - destruct (s_app s); simpl; lia.
Qed.

Definition spec_run (inputs : list pm_input) (s : pms) : pms := fold_left (fun s i => spec_step (request_of i) s) inputs s.

Lemma run_serves inputs w s :
  serving w s -> Forall (fun i => request_of i <> ReqCrash) inputs ->
  Z.of_nat (length (s_names s)) + Z.of_nat (length inputs) < 2 ^ 31 ->
  wp (for_each inputs pm_step) (fun _ w' => serving w' (spec_run inputs s)) w.
Proof.
  revert w s. induction inputs as [|i inputs IH]; intros w s Hs Hc Hsz; simpl in *; [by apply wp_ret|].
  apply Forall_cons in Hc as [Hi Hc]. apply wp_bind. eapply (wp_mono _ (fun _ w' => serving w' (spec_step (request_of i) s))).
  - intros _ w' Hw. apply IH; [done|done|]. pose proof (spec_step_names (request_of i) s). lia.
  - destruct i as [name buf| |]; [apply message_serves; [done|done|lia]|by apply expiry_serves|by apply timeout_serves].
Qed.

(** ** Start *)

(** The process at its start. *)
Record booting (w : W) : Prop := {
  bt_nodes : wl_nodes (locks w) = ∅;
  bt_pmv : pmv w = mk_pm_vars (-1) 0 None 0;
  bt_pwr : pwr w = mk_power_vars false 0 0;
  bt_hal : hal w = mk_hal_vars 0 [0; 0; 0; 0] (-1);
  bt_log : plog w = [];
  bt_held : kheld (penv w) = ∅;
  bt_timers : timers_down (ptimers w);
}.

(** The state of the machine when the service is ready: idle, and nothing held. *)
Definition s_start : pms := mk_pms [] false true true false [] 0 true.
End Serving.
