(* ===== verification/PowerLife.v ===== *)
(** * The power manager at work

    From the start of the process: the timers of the event loop discharge the
    interface the service uses, the service refines its machine, and runs on a
    concrete kernel show what clients can do to it. *)

From Stdlib Require Import Ascii String.
From stdpp Require Import base gmap list strings.
From S2P Require Import Prelude CString CMonad Json Dll Timer LoopWorld EventLoop LoopLife LoopTimers.
From S2P Require Import Power PowerMgr PowerProofs PowerSpec.
Open Scope string_scope.
Open Scope list_scope.
Open Scope Z_scope.

(** ** The service from its start *)

(** The HAL loads, the thread starts and flora is there. *)
Class PowerUp (X : Type) `{!PowerEnv X} : Prop := {
  up_module x : fst (pe_hw_get_module x) = 0;
  up_device x : fst (pe_malloc_device x) = true;
  up_thread x : fst (pe_pthread_create x) = 0;
  up_connect x : fst (pe_flora_connect x) = 0;
}.

Section Start.
Context {T X : Type} {TI : Timers T} {TO : TimersOk T} {PE : PowerEnv X} {PK : PowerKernel X} {PU : PowerUp X} {J : JsonC}.
Local Notation W := (pm T X).

(** The timer for the idle state can be made. *)
Definition loop_starts (t : T) : Prop :=
  wp loop_init (fun r t' => r = 0 /\ wp (timer_add IDLE_CB (IDLE_TIMEOUT_S * 1000) 0) (fun id _ => id <> INVALID_ID) t') t.

Lemma flora_handle_serves (w : W) rounds :
  lock_list (mk_wakelocks (wl_nodes (locks w)) 0 0) [] -> pmv w = mk_pm_vars (-1) 0 None 0 -> pwr w = mk_power_vars true 0 0 ->
  hal_wf (hal w) (pfds w) -> plog w = [] -> kheld (penv w) = ∅ -> timers_up [] (ptimers w) ->
  wp (timer_add IDLE_CB (IDLE_TIMEOUT_S * 1000) 0) (fun id _ => id <> INVALID_ID) (ptimers w) ->
  wp (pm_flora_handle (S rounds) []) (fun _ w' => serving w' s_start) w.
Proof.
  intros Hn Hv Hp Hh Hl Hk Ht Ha. apply wp_bind. simpl. apply wp_bind, wp_pe. intros r x E.
  pose proof (up_connect (penv w)) as Er. rewrite E in Er. simpl in Er. subst r. apply k_connect in E. simpl.
  apply wp_ret, wp_bind, wp_ret, wp_bind, wp_bind, wp_modify, wp_modify. simpl.
  apply wp_bind, wp_zoom. simpl. pose proof (timer_add_ok [] (ptimers w) IDLE_CB (IDLE_TIMEOUT_S * 1000) 0 Ht) as Ht'.
  eapply wp_mono; [|exact (wp_and _ _ _ _ Ha Ht')]. simpl. intros id t [Hid [[-> _]|[_ Hup]]]; [done|].
  apply wp_bind, wp_modify, wp_drop. simpl.
  eapply wp_mono; [|apply (idle_serves _ (mk_pms [] false false false false [] 0 true) IDLE_ENTER); auto].
  - intros ? w' [Hw _]. exact Hw.
  - split; simpl; rewrite ?Hv, ?Hp, ?Hl; simpl; try done.
    + exists []. by split.
    + exists [id]. split; [done|set_solver].
    + rewrite E, Hk. done.
Qed.

(** The service from the start of its process to the last input. *)
Lemma power_main_serves (w : W) (rounds : nat) (inputs : list pm_input) :
  booting w -> loop_starts (ptimers w) ->
  Forall (fun i => request_of i <> ReqCrash) inputs -> Z.of_nat (length inputs) < 2 ^ 31 ->
  wp (power_main (S rounds) [] inputs) (fun r w' => r = 0 /\ serving w' (spec_run inputs s_start)) w.
Proof.
  intros [Bn Bv Bp Bh Bl Bk Bt] Hst Hc Hsz.
  apply wp_bind, wp_bind, wp_pe. intros r x E. pose proof (up_module (penv w)) as Er. rewrite E in Er. simpl in Er. subst r.
  apply k_get_module in E. apply wp_bind. simpl. apply wp_bind, wp_pe. intros b x2 E2. simpl in E2.
  pose proof (up_device x) as Eb. rewrite E2 in Eb. simpl in Eb. subst b. apply k_device in E2. simpl.
  apply wp_bind, wp_modify, wp_ret, wp_ret. simpl.
  apply wp_bind, wp_zoom. simpl. pose proof (loop_init_ok _ Bt) as Hi.
  eapply wp_mono; [|exact (wp_and _ _ _ _ Hst Hi)]. simpl. intros r t [[-> Ha] Hup].
  apply wp_bind, wp_pe. simpl. intros r x3 E3. pose proof (up_thread x2) as Er. rewrite E3 in Er. simpl in Er. subst r.
  apply k_thread in E3. simpl. apply wp_bind. eapply wp_mono; [|apply flora_handle_serves; simpl; try done; auto].
  - intros ? w' Hw. apply wp_bind. eapply wp_mono; [|apply (run_serves inputs w' s_start); [done|done|simpl; lia]].
    intros ? w'' Hs. apply wp_ret. by split.
  - rewrite Bn. split; simpl; try done; try constructor; set_solver.
  - by rewrite Bp.
  - rewrite Bh. by left.
  - by rewrite E3, E2, E.
Qed.

(** C6: A power manager that starts, with a HAL, a thread, flora and a timer to be had
    and no message before its start-up is over, then serves every sequence of
    messages, expiries of the idle timer and idle timeouts that carries no unreadable
    text (fewer than 2^31 inputs): it never faults and its state refines the machine
    [spec_run].  The wakelock list is the names locked and not released, in order,
    with nothing leaked; the kernel holds the lock [pm_service] exactly while there is
    a name and [charger] exactly while the charger is online; the idle timer runs
    exactly from the entry into the idle state until that state is left or the time
    of the timer is over; the autosleep texts are those asked for; and, as long as no client locked a sole name
    again or released one when none was locked, the system is sent to sleep exactly
    by the forced-sleep requests that find no lock. *)
Theorem power_service_refines (w : W) (rounds : nat) (inputs : list pm_input) :
  booting w -> loop_starts (ptimers w) ->
  Forall (fun i => request_of i <> ReqCrash) inputs -> Z.of_nat (length inputs) < 2 ^ 31 ->
  wp (power_main (S rounds) [] inputs) (fun r w' => r = 0 /\ serving w' (spec_run inputs s_start)) w.
Proof. apply power_main_serves. Qed.
End Start.

(** ** Messages that cannot be read *)

Section Crash.
Context {T X : Type} {TI : Timers T} {PE : PowerEnv X} {J : JsonC}.
Local Notation W := (pm T X).

Lemma on_command_crash (w : W) buf key k (body : option jobj -> string -> M W unit) :
  on_command buf key k = ReqCrash -> (forall c o, k c o <> ReqCrash) ->
  (o <- parse buf ;;
   (if (match o with None => true | Some _ => false end) then ret (-1)
    else (match get_field o key with Some v => c <- command_of v ;; body o c | None => ret tt end) ;; ret 0) ;;
   ret tt) w = Fault NullDeref.
Proof.
  unfold on_command, bind. intros H Hk. destruct buf as [text|]; [|done]. simpl.
  destruct (json_tokener_parse text) as [o|]; [|done]. simpl. unfold get_field.
  destruct (json_object_object_get_ex (Some o) key) as [v|]; [|done]. unfold command_of.
  destruct (json_object_get_string v) as [c|]; [|done]. by apply Hk in H.
Qed.

(** The power manager dies on exactly the texts that [request_of] calls unreadable:
    a sleep, wakelock or battery message without a string, or whose command is a JSON
    null, makes the callback read through a NULL pointer, whatever the state. *)
Theorem unreadable_message_faults (w : W) (name : string) (buf : option string) :
  request_of (Message name buf) = ReqCrash -> pm_service_command_callback name buf w = Fault NullDeref.
Proof.
  unfold pm_service_command_callback, pm_msg_map_int. simpl.
  destruct (String.eqb_spec name MSG_SLEEP) as [->|N1].
  { intros H. by eapply (on_command_crash w buf "sleep"). }
  destruct (String.eqb_spec name MSG_FORCE_SLEEP) as [->|N2].
  { intros H. eapply (on_command_crash w buf "sleep" _ (fun _ c => when (String.eqb c "ON") _)); [exact H|].
    intros c o. simpl. by destruct (String.eqb c "ON"). }
  destruct (String.eqb_spec name MSG_LOCK) as [->|N3].
  { intros H. eapply (on_command_crash w buf "wakelock"); [exact H|]. intros c o. unfold lock_request.
    destruct (name_of o); [|done]. by destruct (String.eqb c "ON"), (String.eqb c "OFF"). }
  destruct (String.eqb_spec name MSG_BATTERY) as [->|N5].
  { intros H. eapply (on_command_crash w buf "batChargingOnline"); [exact H|]. intros c o. simpl.
    by destruct (String.eqb c "true"), (String.eqb c "false"). }
  by destruct (String.eqb name MSG_VOICE_COMMING), (String.eqb name MSG_VOICE_END), (String.eqb name MSG_SYS_STATUS).
Qed.
End Crash.

(** ** A concrete kernel *)

(** The names written so far and those held. *)
Record demo_kernel := mk_demo_kernel { dk_known : gset string; dk_held : gset string }.

(** Above all numbers in use. *)
Definition above (S : gset Z) : Z := 1 + foldr Z.max 0 (elements S).

Lemma above_fresh S : above S ∉ S /\ 0 < above S.
Proof.
  assert (H : forall l a, a ∈ l -> a <= foldr Z.max 0 l /\ 0 <= foldr Z.max 0 l).
  { induction l as [|b l IH]; intros a Ha; [by apply not_elem_of_nil in Ha|]. simpl.
    apply elem_of_cons in Ha as [->|Ha]; [|destruct (IH a Ha); lia].
    destruct l as [|c l]; simpl; [lia|]. destruct (IH c) as [_ H]; [left|]. simpl in H. lia. }
  unfold above. split.
  - intros Hi. apply elem_of_elements, H in Hi. lia.
  - destruct (elements S) as [|b l]; simpl; [lia|]. destruct (H (b :: l) b) as [_ H1]; [left|]. simpl in H1. lia.
Qed.

(** [missing]: the kernel has no such file. *)
Definition demo_power_env (missing : string) : PowerEnv demo_kernel := {|
  pe_malloc S x := (Some (above S), x);
  pe_malloc_name _ x := (true, x);
  pe_malloc_device x := (true, x);
  pe_open path S x := (if String.eqb path missing then -2 else above S, x);
  pe_write path s x :=
    if String.eqb path WAKE_LOCK then (strlen s, mk_demo_kernel ({[s]} ∪ dk_known x) ({[s]} ∪ dk_held x))
    else if String.eqb path WAKE_UNLOCK then
      (if bool_decide (s ∈ dk_known x) then strlen s else - EINVAL, mk_demo_kernel (dk_known x) (dk_held x ∖ {[s]}))
    else (strlen s, x);
  pe_hw_get_module x := (0, x);
  pe_pthread_create x := (0, x);
  pe_flora_connect x := (0, x);
  pe_flora_call _ _ x := (0, x);
|}.

#[export] Instance demo_power : PowerEnv demo_kernel := demo_power_env "".

(** The names held are among those known, so that releasing one succeeds. *)
Definition dk_locks (x : demo_kernel) : gset string := dk_held x ∩ dk_known x.

#[export] Program Instance demo_power_kernel : PowerKernel demo_kernel := {| kheld := dk_locks |}.
Next Obligation.
  intros S x r x' [= <- <-]. split; [done|]. exists (above S). pose proof (above_fresh S). split; [done|]. split; [apply H|lia].
Qed.
Next Obligation. by intros s x r x' [= <- <-]. Qed.
Next Obligation.
  intros path S x fd x' Hp. simpl. destruct (String.eqb_spec path "") as [->|_]; [set_solver|]. intros [= <- <-].
  pose proof (above_fresh S). split; [done|]. split; [lia|apply H].
Qed.
Next Obligation. intros s x r x' [= <- <-]. unfold dk_locks. simpl. split; [set_solver|done]. Qed.
Next Obligation.
  intros s x r x' [= <- <-]. unfold dk_locks. simpl. split; [set_solver|]. intros H. rewrite bool_decide_eq_true_2; [done|set_solver].
Qed.
Next Obligation.
  intros path s x r x' Hp. simpl.
  assert (H : path = AUTOSLEEP \/ path = STATE) by set_solver. by destruct H as [-> | ->]; intros [= <- <-].
Qed.
Next Obligation. by intros x r x' [= <- <-]. Qed.
Next Obligation. by intros x r x' [= <- <-]. Qed.
Next Obligation. by intros x r x' [= <- <-]. Qed.
Next Obligation. by intros x r x' [= <- <-]. Qed.
Next Obligation. by intros s t x r x' [= <- <-]. Qed.

#[export] Instance demo_power_up : PowerUp demo_kernel.
Proof. by split. Qed.

(** Texts ["KEY VALUE NAME"] in place of JSON. *)
Fixpoint words (acc s : string) : list string :=
  match s with
  | EmptyString => [acc]
  | String c s' => if Ascii.eqb c " " then acc :: words "" s' else words (acc ++ String c "") s'
  end.

#[export] Instance words_json : JsonC := {|
  jobj := list (string * string);
  json_tokener_parse s :=
    match words "" s with
    | [k; v; n] => Some [(k, v); ("name", n)]
    | [k; v] => Some [(k, v)]
    | _ => None
    end;
  json_object_object_get_ex o k :=
    match o with
    | Some l => match List.find (fun p => String.eqb (fst p) k) l with Some p => Some (Some [p]) | None => None end
    | None => None
    end;
  json_object_get_string o :=
    match o with Some [(_, v)] => if String.eqb v "null" then None else Some v | _ => None end;
|}.

(** A process with its standard descriptors open. *)
Definition demo_pm : pm (loop demo_os) demo_kernel :=
  mk_pm (mk_wakelocks ∅ 0 0) (mk_pm_vars (-1) 0 None 0) (mk_power_vars false 0 0) (mk_hal_vars 0 [0; 0; 0; 0] (-1))
    ∅ [] (demo_boot 100 []) (mk_demo_kernel ∅ ∅).

Lemma demo_pm_boots : booting demo_pm /\ loop_starts (ptimers demo_pm).
Proof.
  split; [|vm_compute; done].
  by split.
Qed.

Definition lock (n : string) : pm_input := Message MSG_LOCK (Some ("wakelock ON " ++ n)%string).
Definition unlock (n : string) : pm_input := Message MSG_LOCK (Some ("wakelock OFF " ++ n)%string).
Definition force_sleep : pm_input := Message MSG_FORCE_SLEEP (Some "sleep ON").

(** Runs of the service from its start. *)
Definition demo_run (inputs : list pm_input) : outcome (pm (loop demo_os) demo_kernel) Z :=
  power_main 1 [] inputs demo_pm.

Definition demo_inputs : list pm_input :=
  [lock "a"; lock "b"; force_sleep; unlock "a"; Message MSG_BATTERY (Some "batChargingOnline true"); unlock "b";
   force_sleep; Message MSG_BATTERY (Some "batChargingOnline false"); force_sleep; IdleExpiry; IdleTimeout].

Lemma power_service_refines_witness :
  spec_run demo_inputs s_start = mk_pms [] false true false false [] 1 true /\
  wp (power_main 1 [] demo_inputs) (fun r w' => r = 0 /\ serving w' (spec_run demo_inputs s_start)) demo_pm.
Proof.
  split; [vm_compute; reflexivity|].
  apply (power_service_refines demo_pm 0 demo_inputs).
  - exact (proj1 demo_pm_boots).
  - exact (proj2 demo_pm_boots).
  - unfold demo_inputs. repeat (apply List.Forall_cons; [vm_compute; discriminate|]). apply List.Forall_nil.
  - vm_compute. reflexivity.
Defined.

Lemma unreadable_message_faults_witness :
  pm_service_command_callback MSG_LOCK (Some "wakelock null a") demo_pm = Fault NullDeref.
Proof. apply unreadable_message_faults. vm_compute. reflexivity. Defined.

(** ** Clients that are not exact *)

(** The counter, the kernel's locks and the texts sent to [/sys/power/state] after a
    run. *)
Definition seen (r : outcome (pm (loop demo_os) demo_kernel) Z) : option (Z * list string * list string) :=
  match r with
  | Ret _ w => Some (partial_lock_total (pwr w), elements (dk_locks (penv w)), texts STATE (plog w))
  | Fault _ => None
  end.

(** A client that locks its name twice and releases it once: the kernel holds nothing,
    but the counter stays at 1 and no forced sleep happens any more. *)
Theorem relock_blocks_sleep :
  seen (demo_run [lock "a"; lock "a"; unlock "a"; force_sleep]) = Some (1, [], []).
Proof. vm_compute. reflexivity. Qed.

(** A name released twice: the counter is -1 then, and the next client that locks
    does not keep the system from being sent to sleep with its lock held. *)
Theorem double_release_sleeps_locked :
  seen (demo_run [lock "a"; unlock "a"; unlock "a"; lock "b"; force_sleep]) =
  Some (0, [PMS_WAKELOCK], [SLEEP_ON]).
Proof. vm_compute. reflexivity. Qed.

(** A message of the end of a voice session that arrives between the subscription and
    the creation of the timer starts a timer that does not exist. *)
Theorem early_message_faults :
  power_main 1 [(MSG_VOICE_END, None)] [] demo_pm = Fault NullDeref.
Proof. vm_compute. reflexivity. Qed.

(** A sleep request that the kernel took, by its 3 bytes, is reported as failed. *)
Theorem sleep_request_reports_failure :
  match power_sleep_request SLEEP_ON (set_pwr (mk_power_vars true 0 0) demo_pm) with
  | Ret r w => Some (r, plog w)
  | Fault _ => None
  end = Some (-1, [Wrote STATE SLEEP_ON 3]).
Proof. vm_compute. reflexivity. Qed.

(** On a kernel without one of the files, each request opens the files before it in
    the table again: three descriptors are lost per request. *)
Theorem missing_file_leaks :
  match for_each [1; 2; 3; 4] (fun _ => power_wakelock_request (PowerEnv0 := demo_power_env STATE) PART_LOCK_STATE PMS_WAKELOCK ;; ret tt)
          (set_pwr (mk_power_vars true 0 0) demo_pm) with
  | Ret _ w => Some (size (pfds w), plog w)
  | Fault _ => None
  end = Some (12%nat, []).
Proof. vm_compute. reflexivity. Qed.
