(* ===== verification/BatteryWorld.v ===== *)
(** * The state of the battery service

    The variables of [framework/services/battery/src]: the properties of the battery,
    the paths of the power-supply files, the chargers, and what the outside answers. *)

From Stdlib Require Import Ascii String.
From stdpp Require Import base gmap list.
From S2P Require Import Prelude CString Bytes CMonad Json.
Open Scope string_scope.
Open Scope list_scope.
Open Scope Z_scope.

(** ** Data *)

(** The fields of [struct BatteryProperties] that it has twice, for the current values
    and, with the suffix [Last], for those of the round before. *)
Record readings := mk_readings {
  chargerAcOnline : bool;
  chargerUsbOnline : bool;
  chargerWirelessOnline : bool;
  maxChargingCurrent : Z;
  maxChargingVoltage : Z;
  batteryStatus : Z;
  batteryHealth : Z;
  batteryPresent : bool;
  batteryLevel : Z;
  batteryVoltage : Z;
  batteryTemperature : Z;
  batteryCurrent : Z;
  batteryCycleCount : Z;
  batteryFullCharge : Z;
  batteryChargeCounter : Z;
}.

Record BatteryProperties := mk_props {
  cur : readings;
  last_ : readings;
  batteryChargingCurrent : Z;
  batteryTimetoFull : Z;
  batteryTimetoEmpty : Z;
  batterySleepTimetoEmpty : Z;
}.

Record healthd_config := mk_config {
  batteryStatusPath : string;
  batteryHealthPath : string;
  batteryPresentPath : string;
  batteryCapacityPath : string;
  batteryVoltagePath : string;
  batteryTemperaturePath : string;
  batteryTechnologyPath : string;
  batteryCurrentNowPath : string;
  batteryChargeCounterPath : string;
  batteryChargingCurrentPath : string;
}.

Definition maxChargerNum : nat := 6.
Definition maxChargerNameSize : Z := 64.
Definition POWER_SUPPLY_SYSFS_PATH : string := "/sys/class/power_supply".

Definition ANDROID_POWER_SUPPLY_TYPE_UNKNOWN : Z := 0.
Definition ANDROID_POWER_SUPPLY_TYPE_AC : Z := 1.
Definition ANDROID_POWER_SUPPLY_TYPE_USB : Z := 2.
Definition ANDROID_POWER_SUPPLY_TYPE_WIRELESS : Z := 3.
Definition ANDROID_POWER_SUPPLY_TYPE_BATTERY : Z := 4.

Definition BATTERY_STATUS_UNKNOWN : Z := 1.
Definition BATTERY_HEALTH_UNKNOWN : Z := 1.
Definition INT_MIN : Z := - 2 ^ 31.

Definition LED_CHARGER_OFF : Z := 0.
Definition LED_CHARGER_LOW : Z := 1.
Definition LED_CHARGER_ON : Z := 2.
Definition LED_CHARGER_FULL : Z := 3.

Definition BOOT_MODE_NORMAL : Z := 0.
Definition BOOT_MODE_CHARGING : Z := 1.

(** [struct input_event] as far as it is read. *)
Record key_event := mk_key_event { ke_type : Z; ke_code : Z; ke_value : Z }.

(** ** Outside *)

Inductive file_read := NoFile | ReadFailed | ReadBytes (l : list Z).

Inductive bat_event :=
| Posted (msg : json)
| LedWrote (bytes : list Z)
| ModeWrote (c : Z)
| System (cmd : string).

(** Answers of the calls from a state [X].  [be_read] opens a file and reads at most so
    many bytes; [be_select] is the number of readable descriptors (-1 for an error) and
    those of them that are set. *)
Class BatEnv (X : Type) := {
  be_read : string -> Z -> X -> file_read * X;
  be_access : string -> X -> bool * X;
  be_readdir : string -> X -> option (list string) * X;
  be_malloc : X -> bool * X;
  be_open_led : X -> bool * X;
  be_fopen_mode : X -> bool * X;
  be_fgetc_mode : X -> option Z * X;
  be_pthread_create : X -> Z * X;
  be_flora_connect : X -> Z * X;
  be_open_event : string -> X -> Z * X;
  be_select : list Z -> X -> (Z * list Z) * X;
  be_read_event : Z -> X -> option key_event * X;
  be_clock : X -> (Z * Z) * X;         (* tv_sec, tv_nsec *)
}.

Record bat (X : Type) := mk_bat {
  mHealthdConfig : option healthd_config;
  props : BatteryProperties;
  mChargerNames : list string;
  mChargerNum : Z;
  mNeedSendMsg : bool;
  mLedPresent : bool;
  mBatCapacityDecrease : bool;
  low_count : Z;
  blog : list bat_event;
  benv : X;
}.
Arguments mk_bat {X}.
Arguments mHealthdConfig {X}.
Arguments props {X}.
Arguments mChargerNames {X}.
Arguments mChargerNum {X}.
Arguments mNeedSendMsg {X}.
Arguments mLedPresent {X}.
Arguments mBatCapacityDecrease {X}.
Arguments low_count {X}.
Arguments blog {X}.
Arguments benv {X}.

Section World.
Context {X : Type} {E : BatEnv X}.
Local Notation W := (bat X).

Definition set_mHealthdConfig v (w : W) : W :=
  mk_bat v (props w) (mChargerNames w) (mChargerNum w) (mNeedSendMsg w) (mLedPresent w) (mBatCapacityDecrease w) (low_count w) (blog w) (benv w).
Definition set_props v (w : W) : W :=
  mk_bat (mHealthdConfig w) v (mChargerNames w) (mChargerNum w) (mNeedSendMsg w) (mLedPresent w) (mBatCapacityDecrease w) (low_count w) (blog w) (benv w).
Definition set_mChargerNames v (w : W) : W :=
  mk_bat (mHealthdConfig w) (props w) v (mChargerNum w) (mNeedSendMsg w) (mLedPresent w) (mBatCapacityDecrease w) (low_count w) (blog w) (benv w).
Definition set_mChargerNum v (w : W) : W :=
  mk_bat (mHealthdConfig w) (props w) (mChargerNames w) v (mNeedSendMsg w) (mLedPresent w) (mBatCapacityDecrease w) (low_count w) (blog w) (benv w).
Definition set_mNeedSendMsg v (w : W) : W :=
  mk_bat (mHealthdConfig w) (props w) (mChargerNames w) (mChargerNum w) v (mLedPresent w) (mBatCapacityDecrease w) (low_count w) (blog w) (benv w).
Definition set_mLedPresent v (w : W) : W :=
  mk_bat (mHealthdConfig w) (props w) (mChargerNames w) (mChargerNum w) (mNeedSendMsg w) v (mBatCapacityDecrease w) (low_count w) (blog w) (benv w).
Definition set_mBatCapacityDecrease v (w : W) : W :=
  mk_bat (mHealthdConfig w) (props w) (mChargerNames w) (mChargerNum w) (mNeedSendMsg w) (mLedPresent w) v (low_count w) (blog w) (benv w).
Definition set_low_count v (w : W) : W :=
  mk_bat (mHealthdConfig w) (props w) (mChargerNames w) (mChargerNum w) (mNeedSendMsg w) (mLedPresent w) (mBatCapacityDecrease w) v (blog w) (benv w).
Definition set_blog v (w : W) : W :=
  mk_bat (mHealthdConfig w) (props w) (mChargerNames w) (mChargerNum w) (mNeedSendMsg w) (mLedPresent w) (mBatCapacityDecrease w) (low_count w) v (benv w).
Definition set_benv v (w : W) : W :=
  mk_bat (mHealthdConfig w) (props w) (mChargerNames w) (mChargerNum w) (mNeedSendMsg w) (mLedPresent w) (mBatCapacityDecrease w) (low_count w) (blog w) v.

Definition be {A} (f : X -> A * X) : M W A :=
  fun w => let '(a, x) := f (benv w) in Ret a (set_benv x w).

Definition blog_add (e : bat_event) : M W unit := modify (fun w => set_blog (blog w ++ [e]) w).

(** Assignments to the current values, and to a path. *)
Definition set_cur (f : readings -> readings) : M W unit :=
  modify (fun w => let p := props w in
    set_props (mk_props (f (cur p)) (last_ p) (batteryChargingCurrent p) (batteryTimetoFull p) (batteryTimetoEmpty p)
                 (batterySleepTimetoEmpty p)) w).

Definition set_last (f : readings -> readings) : M W unit :=
  modify (fun w => let p := props w in
    set_props (mk_props (cur p) (f (last_ p)) (batteryChargingCurrent p) (batteryTimetoFull p) (batteryTimetoEmpty p)
                 (batterySleepTimetoEmpty p)) w).

Definition set_charging_current (z : Z) : M W unit :=
  modify (fun w => let p := props w in
    set_props (mk_props (cur p) (last_ p) z (batteryTimetoFull p) (batteryTimetoEmpty p) (batterySleepTimetoEmpty p)) w).

Definition set_times (full empty sleep : Z) : M W unit :=
  modify (fun w => let p := props w in
    set_props (mk_props (cur p) (last_ p) (batteryChargingCurrent p) full empty sleep) w).

(** [mHealthdConfig->...] *)
Definition config : M W healthd_config :=
  c <- gets mHealthdConfig ;;
  match c with None => stop NullDeref | Some c => ret c end.

Definition set_config (f : healthd_config -> healthd_config) : M W unit :=
  c <- config ;; modify (set_mHealthdConfig (Some (f c))).
End World.

(** ** Assignments to fields *)

Definition set_chargerAcOnline (v : bool) (r : readings) : readings :=
  mk_readings v (chargerUsbOnline r) (chargerWirelessOnline r) (maxChargingCurrent r) (maxChargingVoltage r)
    (batteryStatus r) (batteryHealth r) (batteryPresent r) (batteryLevel r) (batteryVoltage r)
    (batteryTemperature r) (batteryCurrent r) (batteryCycleCount r) (batteryFullCharge r)
    (batteryChargeCounter r).

Definition set_chargerUsbOnline (v : bool) (r : readings) : readings :=
  mk_readings (chargerAcOnline r) v (chargerWirelessOnline r) (maxChargingCurrent r) (maxChargingVoltage r)
    (batteryStatus r) (batteryHealth r) (batteryPresent r) (batteryLevel r) (batteryVoltage r)
    (batteryTemperature r) (batteryCurrent r) (batteryCycleCount r) (batteryFullCharge r)
    (batteryChargeCounter r).

Definition set_chargerWirelessOnline (v : bool) (r : readings) : readings :=
  mk_readings (chargerAcOnline r) (chargerUsbOnline r) v (maxChargingCurrent r) (maxChargingVoltage r)
    (batteryStatus r) (batteryHealth r) (batteryPresent r) (batteryLevel r) (batteryVoltage r)
    (batteryTemperature r) (batteryCurrent r) (batteryCycleCount r) (batteryFullCharge r)
    (batteryChargeCounter r).

Definition set_maxChargingCurrent (v : Z) (r : readings) : readings :=
  mk_readings (chargerAcOnline r) (chargerUsbOnline r) (chargerWirelessOnline r) v (maxChargingVoltage r)
    (batteryStatus r) (batteryHealth r) (batteryPresent r) (batteryLevel r) (batteryVoltage r)
    (batteryTemperature r) (batteryCurrent r) (batteryCycleCount r) (batteryFullCharge r)
    (batteryChargeCounter r).

Definition set_maxChargingVoltage (v : Z) (r : readings) : readings :=
  mk_readings (chargerAcOnline r) (chargerUsbOnline r) (chargerWirelessOnline r) (maxChargingCurrent r) v
    (batteryStatus r) (batteryHealth r) (batteryPresent r) (batteryLevel r) (batteryVoltage r)
    (batteryTemperature r) (batteryCurrent r) (batteryCycleCount r) (batteryFullCharge r)
    (batteryChargeCounter r).

Definition set_batteryStatus (v : Z) (r : readings) : readings :=
  mk_readings (chargerAcOnline r) (chargerUsbOnline r) (chargerWirelessOnline r) (maxChargingCurrent r)
    (maxChargingVoltage r) v (batteryHealth r) (batteryPresent r) (batteryLevel r) (batteryVoltage r)
    (batteryTemperature r) (batteryCurrent r) (batteryCycleCount r) (batteryFullCharge r)
    (batteryChargeCounter r).

Definition set_batteryHealth (v : Z) (r : readings) : readings :=
  mk_readings (chargerAcOnline r) (chargerUsbOnline r) (chargerWirelessOnline r) (maxChargingCurrent r)
    (maxChargingVoltage r) (batteryStatus r) v (batteryPresent r) (batteryLevel r) (batteryVoltage r)
    (batteryTemperature r) (batteryCurrent r) (batteryCycleCount r) (batteryFullCharge r)
    (batteryChargeCounter r).

Definition set_batteryPresent (v : bool) (r : readings) : readings :=
  mk_readings (chargerAcOnline r) (chargerUsbOnline r) (chargerWirelessOnline r) (maxChargingCurrent r)
    (maxChargingVoltage r) (batteryStatus r) (batteryHealth r) v (batteryLevel r) (batteryVoltage r)
    (batteryTemperature r) (batteryCurrent r) (batteryCycleCount r) (batteryFullCharge r)
    (batteryChargeCounter r).

Definition set_batteryLevel (v : Z) (r : readings) : readings :=
  mk_readings (chargerAcOnline r) (chargerUsbOnline r) (chargerWirelessOnline r) (maxChargingCurrent r)
    (maxChargingVoltage r) (batteryStatus r) (batteryHealth r) (batteryPresent r) v (batteryVoltage r)
    (batteryTemperature r) (batteryCurrent r) (batteryCycleCount r) (batteryFullCharge r)
    (batteryChargeCounter r).

Definition set_batteryVoltage (v : Z) (r : readings) : readings :=
  mk_readings (chargerAcOnline r) (chargerUsbOnline r) (chargerWirelessOnline r) (maxChargingCurrent r)
    (maxChargingVoltage r) (batteryStatus r) (batteryHealth r) (batteryPresent r) (batteryLevel r) v
    (batteryTemperature r) (batteryCurrent r) (batteryCycleCount r) (batteryFullCharge r)
    (batteryChargeCounter r).

Definition set_batteryTemperature (v : Z) (r : readings) : readings :=
  mk_readings (chargerAcOnline r) (chargerUsbOnline r) (chargerWirelessOnline r) (maxChargingCurrent r)
    (maxChargingVoltage r) (batteryStatus r) (batteryHealth r) (batteryPresent r) (batteryLevel r)
    (batteryVoltage r) v (batteryCurrent r) (batteryCycleCount r) (batteryFullCharge r)
    (batteryChargeCounter r).

Definition set_batteryCurrent (v : Z) (r : readings) : readings :=
  mk_readings (chargerAcOnline r) (chargerUsbOnline r) (chargerWirelessOnline r) (maxChargingCurrent r)
    (maxChargingVoltage r) (batteryStatus r) (batteryHealth r) (batteryPresent r) (batteryLevel r)
    (batteryVoltage r) (batteryTemperature r) v (batteryCycleCount r) (batteryFullCharge r)
    (batteryChargeCounter r).

Definition set_batteryCycleCount (v : Z) (r : readings) : readings :=
  mk_readings (chargerAcOnline r) (chargerUsbOnline r) (chargerWirelessOnline r) (maxChargingCurrent r)
    (maxChargingVoltage r) (batteryStatus r) (batteryHealth r) (batteryPresent r) (batteryLevel r)
    (batteryVoltage r) (batteryTemperature r) (batteryCurrent r) v (batteryFullCharge r)
    (batteryChargeCounter r).

Definition set_batteryFullCharge (v : Z) (r : readings) : readings :=
  mk_readings (chargerAcOnline r) (chargerUsbOnline r) (chargerWirelessOnline r) (maxChargingCurrent r)
    (maxChargingVoltage r) (batteryStatus r) (batteryHealth r) (batteryPresent r) (batteryLevel r)
    (batteryVoltage r) (batteryTemperature r) (batteryCurrent r) (batteryCycleCount r) v
    (batteryChargeCounter r).

Definition set_batteryChargeCounter (v : Z) (r : readings) : readings :=
  mk_readings (chargerAcOnline r) (chargerUsbOnline r) (chargerWirelessOnline r) (maxChargingCurrent r)
    (maxChargingVoltage r) (batteryStatus r) (batteryHealth r) (batteryPresent r) (batteryLevel r)
    (batteryVoltage r) (batteryTemperature r) (batteryCurrent r) (batteryCycleCount r) (batteryFullCharge r) v.

Definition set_batteryStatusPath (v : string) (c : healthd_config) : healthd_config :=
  mk_config v (batteryHealthPath c) (batteryPresentPath c) (batteryCapacityPath c) (batteryVoltagePath c)
    (batteryTemperaturePath c) (batteryTechnologyPath c) (batteryCurrentNowPath c)
    (batteryChargeCounterPath c) (batteryChargingCurrentPath c).

Definition set_batteryHealthPath (v : string) (c : healthd_config) : healthd_config :=
  mk_config (batteryStatusPath c) v (batteryPresentPath c) (batteryCapacityPath c) (batteryVoltagePath c)
    (batteryTemperaturePath c) (batteryTechnologyPath c) (batteryCurrentNowPath c)
    (batteryChargeCounterPath c) (batteryChargingCurrentPath c).

Definition set_batteryPresentPath (v : string) (c : healthd_config) : healthd_config :=
  mk_config (batteryStatusPath c) (batteryHealthPath c) v (batteryCapacityPath c) (batteryVoltagePath c)
    (batteryTemperaturePath c) (batteryTechnologyPath c) (batteryCurrentNowPath c)
    (batteryChargeCounterPath c) (batteryChargingCurrentPath c).

Definition set_batteryCapacityPath (v : string) (c : healthd_config) : healthd_config :=
  mk_config (batteryStatusPath c) (batteryHealthPath c) (batteryPresentPath c) v (batteryVoltagePath c)
    (batteryTemperaturePath c) (batteryTechnologyPath c) (batteryCurrentNowPath c)
    (batteryChargeCounterPath c) (batteryChargingCurrentPath c).

Definition set_batteryVoltagePath (v : string) (c : healthd_config) : healthd_config :=
  mk_config (batteryStatusPath c) (batteryHealthPath c) (batteryPresentPath c) (batteryCapacityPath c) v
    (batteryTemperaturePath c) (batteryTechnologyPath c) (batteryCurrentNowPath c)
    (batteryChargeCounterPath c) (batteryChargingCurrentPath c).

Definition set_batteryTemperaturePath (v : string) (c : healthd_config) : healthd_config :=
  mk_config (batteryStatusPath c) (batteryHealthPath c) (batteryPresentPath c) (batteryCapacityPath c)
    (batteryVoltagePath c) v (batteryTechnologyPath c) (batteryCurrentNowPath c) (batteryChargeCounterPath c)
    (batteryChargingCurrentPath c).

Definition set_batteryTechnologyPath (v : string) (c : healthd_config) : healthd_config :=
  mk_config (batteryStatusPath c) (batteryHealthPath c) (batteryPresentPath c) (batteryCapacityPath c)
    (batteryVoltagePath c) (batteryTemperaturePath c) v (batteryCurrentNowPath c) (batteryChargeCounterPath c)
    (batteryChargingCurrentPath c).

Definition set_batteryCurrentNowPath (v : string) (c : healthd_config) : healthd_config :=
  mk_config (batteryStatusPath c) (batteryHealthPath c) (batteryPresentPath c) (batteryCapacityPath c)
    (batteryVoltagePath c) (batteryTemperaturePath c) (batteryTechnologyPath c) v (batteryChargeCounterPath c)
    (batteryChargingCurrentPath c).

Definition set_batteryChargeCounterPath (v : string) (c : healthd_config) : healthd_config :=
  mk_config (batteryStatusPath c) (batteryHealthPath c) (batteryPresentPath c) (batteryCapacityPath c)
    (batteryVoltagePath c) (batteryTemperaturePath c) (batteryTechnologyPath c) (batteryCurrentNowPath c) v
    (batteryChargingCurrentPath c).

Definition set_batteryChargingCurrentPath (v : string) (c : healthd_config) : healthd_config :=
  mk_config (batteryStatusPath c) (batteryHealthPath c) (batteryPresentPath c) (batteryCapacityPath c)
    (batteryVoltagePath c) (batteryTemperaturePath c) (batteryTechnologyPath c) (batteryCurrentNowPath c)
    (batteryChargeCounterPath c) v.
