(* ===== verification/Battery.v ===== *)
(** * The battery service

    [framework/services/battery/src/battery_monitor.c]: the search for the files of
    the power supplies, the readings taken from them, and what is derived from the
    readings.

    [framework/services/battery/src/flora_bat.c], [charger.c] and [main.c]: the round
    that posts the battery's state, the power key in the charging mode, and the start
    of the service. *)

From Stdlib Require Import Ascii String.
From stdpp Require Import base gmap list.
From S2P Require Import Prelude CString Bytes CMonad Json BatteryWorld.
Open Scope string_scope.
Open Scope list_scope.
Open Scope Z_scope.

(** ** Tables *)

(** [mapSysfsString]: -1 for a string that is not in the table. *)
Fixpoint mapSysfsString (str : string) (map : list (string * Z)) : Z :=
  match map with
  | [] => -1
  | (s, val) :: map' => if String.eqb str s then val else mapSysfsString str map'
  end.

Definition batteryStatusMap : list (string * Z) :=
  [("Unknown", 1); ("Charging", 2); ("Discharging", 3); ("Not charging", 4); ("Full", 5)].

Definition getBatteryStatus (status : string) : Z :=
  let r := mapSysfsString status batteryStatusMap in
  if r <? 0 then BATTERY_STATUS_UNKNOWN else r.

Definition batteryHealthMap : list (string * Z) :=
  [("Unknown", 1); ("Good", 2); ("Overheat", 3); ("Dead", 4); ("Over voltage", 5); ("Unspecified failure", 6); ("Cold", 7)].

Definition getBatteryHealth (status : string) : Z :=
  let r := mapSysfsString status batteryHealthMap in
  if r <? 0 then BATTERY_HEALTH_UNKNOWN else r.

Definition supplyTypeMap : list (string * Z) :=
  [("Unknown", ANDROID_POWER_SUPPLY_TYPE_UNKNOWN); ("Battery", ANDROID_POWER_SUPPLY_TYPE_BATTERY);
   ("UPS", ANDROID_POWER_SUPPLY_TYPE_AC); ("Mains", ANDROID_POWER_SUPPLY_TYPE_AC);
   ("USB", ANDROID_POWER_SUPPLY_TYPE_USB); ("USB_DCP", ANDROID_POWER_SUPPLY_TYPE_AC);
   ("USB_CDP", ANDROID_POWER_SUPPLY_TYPE_AC); ("USB_ACA", ANDROID_POWER_SUPPLY_TYPE_AC);
   ("Wireless", ANDROID_POWER_SUPPLY_TYPE_WIRELESS)].

(** [chargeTime]: minutes of the constant-voltage phase by level. *)
Definition chargeTime : list (Z * Z) :=
  [(86, 61); (87, 59); (88, 57); (89, 55); (90, 52); (91, 49); (92, 46); (93, 42); (94, 38); (95, 33); (96, 28);
   (97, 22); (98, 15); (99, 8); (100, 0)].

Fixpoint cv_lookup (level : Z) (t : list (Z * Z)) : Z :=
  match t with
  | [] => 0
  | (l, m) :: t' => if l =? level then m else cv_lookup level t'
  end.

Definition mBatteryGetCvTimeByLevel (level : Z) : Z := cv_lookup level chargeTime.

(** ** [strlcat] *)

(** The first loop: the end of the string, or of the buffer. *)
Fixpoint end_of (n : nat) (d : list Z) : nat :=
  match n, d with
  | S n', c :: d' => if c =? 0 then 0%nat else S (end_of n' d')
  | _, _ => 0%nat
  end.

(** The second loop: what it writes from [d] on, while [n] is not 1. *)
Fixpoint copy_while (n : nat) (s : list Z) : list Z :=
  match s with
  | [] => []
  | c :: s' => if Nat.eqb n 1 then copy_while n s' else c :: copy_while (n - 1) s'
  end.

(** The result and the buffer [dst]. *)
Definition strlcat (dst : list Z) (src : string) (siz : nat) : Z * list Z :=
  let dlen := end_of siz dst in
  let n := (siz - dlen)%nat in
  if Nat.eqb n 0 then (Z.of_nat dlen + strlen src, dst)
  else
    let out := copy_while n (str_bytes src) in
    (Z.of_nat dlen + strlen src, take dlen dst ++ out ++ 0 :: drop (dlen + length out + 1) dst).

(** ** Reading *)

(** The string a buffer holds after [readFromFile]: up to the last newline of what was
    read, and empty without one. *)
Definition line_of (bytes : list Z) : string :=
  match list_find (fun c => c = 10) (rev bytes) with
  | Some (i, _) => cstr (take (length bytes - S i) bytes ++ [0])
  | None => ""
  end.

Section Monitor.
Context {X : Type} {E : BatEnv X}.
Local Notation W := (bat X).

(** The count of bytes, -1 on a failure, and the string in the buffer. *)
Definition readFromFile (path : string) (size : Z) : M W (Z * string) :=
  r <- be (be_read path size) ;;
  match r with
  | NoFile => ret (-1, "")
  | ReadFailed => ret (-1, "")
  | ReadBytes l => ret (Z.of_nat (length l), line_of l)
  end.

(** The enumeration is an unsigned type: the -1 of an unknown name is its largest
    value, which the test [ret < 0] does not catch. *)
Definition readPowerSupplyType (path : string) : M W Z :=
  '(length, buf) <- readFromFile path 128 ;;
  if length <=? 0 then ret ANDROID_POWER_SUPPLY_TYPE_UNKNOWN
  else
    let r := wrapu32 (mapSysfsString buf supplyTypeMap) in
    ret (if r <? 0 then ANDROID_POWER_SUPPLY_TYPE_UNKNOWN else r).

(** [buf[0] != '0'] *)
Definition not_zero_char (buf : string) : bool :=
  match buf with String c _ => negb (Ascii.eqb c "0") | EmptyString => true end.

Definition getBooleanField (path : string) : M W bool :=
  '(n, buf) <- readFromFile path 16 ;;
  ret ((0 <? n) && not_zero_char buf).

Definition getIntField (path : string) : M W Z :=
  '(n, buf) <- readFromFile path 128 ;;
  ret (if 0 <? n then wraps32 (strtol0 buf) else 0).

(** [snprintf(path, 128, "%s/%s/<file>", ...)] *)
Definition supply_path (name file : string) : string :=
  substring 0 127 (POWER_SUPPLY_SYSFS_PATH ++ "/" ++ name ++ "/" ++ file)%string.

Definition given (path : string) : bool := negb (String.eqb path "").

(** ** Readings *)

(** The loop over the chargers: one that is online sets the flag of its type. *)
Definition read_charger (name : string) : M W unit :=
  '(n, buf) <- readFromFile (supply_path name "online") 128 ;;
  when ((0 <? n) && not_zero_char buf)
    (t <- readPowerSupplyType (supply_path name "type") ;;
     if t =? ANDROID_POWER_SUPPLY_TYPE_AC then set_cur (set_chargerAcOnline true)
     else if t =? ANDROID_POWER_SUPPLY_TYPE_USB then set_cur (set_chargerUsbOnline true)
     else if t =? ANDROID_POWER_SUPPLY_TYPE_WIRELESS then set_cur (set_chargerWirelessOnline true)
     else ret tt).

(** [mChargerNames[i]] for [i] from [i] on, [n] times. *)
Fixpoint read_chargers (n i : nat) : M W unit :=
  match n with
  | O => ret tt
  | S n' =>
      names <- gets mChargerNames ;;
      match names !! i with
      | None => stop OutOfBounds
      | Some name => read_charger name ;; read_chargers n' (S i)
      end
  end.

Definition online (r : readings) : bool := chargerAcOnline r || chargerUsbOnline r || chargerWirelessOnline r.

(** The line for the log, in a buffer of 256 bytes with the stale ones after it; it is
    only printed in a debug build. *)
Definition dmesgline (stale : list Z) (c : healthd_config) (p : BatteryProperties) : list Z :=
  let t := batteryTemperature (cur p) in
  let line := substring 0 255
    ("battery l=" ++ itoa (batteryLevel (cur p)) ++ " v=" ++ itoa (batteryVoltage (cur p)) ++
     " t=" ++ (if (t <? 0)%Z then "-" else "") ++ itoa (Z.abs (Z.quot t 10)) ++ "." ++ itoa (Z.abs (Z.rem t 10)) ++
     " h=" ++ itoa (batteryHealth (cur p)) ++ " st=" ++ itoa (batteryStatus (cur p)) ++
     " cc=" ++ itoa (batteryChargingCurrent p))%string in
  let buf := str_bytes line ++ 0 :: drop (S (String.length line)) stale in
  if given (batteryCurrentNowPath c)
  then snd (strlcat buf (substring 0 19 (" c=" ++ itoa (Z.quot (batteryCurrent (cur p)) 1000))%string) 256)
  else buf.

Definition mBatteryPropertiesUpdate : M W bool :=
  set_cur (set_chargerAcOnline false) ;;
  set_cur (set_chargerUsbOnline false) ;;
  set_cur (set_chargerWirelessOnline false) ;;
  set_cur (set_batteryStatus BATTERY_STATUS_UNKNOWN) ;;
  set_cur (set_batteryHealth BATTERY_HEALTH_UNKNOWN) ;;
  set_cur (set_batteryCurrent INT_MIN) ;;
  set_cur (set_batteryChargeCounter INT_MIN) ;;
  c <- config ;;
  (if given (batteryPresentPath c)
   then v <- getBooleanField (batteryPresentPath c) ;; set_cur (set_batteryPresent v)
   else set_cur (set_batteryPresent true)) ;;
  when (given (batteryCapacityPath c))
    (v <- getIntField (batteryCapacityPath c) ;; set_cur (set_batteryLevel v)) ;;
  when (given (batteryVoltagePath c))
    (v <- getIntField (batteryVoltagePath c) ;; set_cur (set_batteryVoltage (Z.quot v 1000))) ;;
  when (given (batteryCurrentNowPath c))
    (v <- getIntField (batteryCurrentNowPath c) ;; set_cur (set_batteryCurrent v)) ;;
  when (given (batteryChargingCurrentPath c))
    (v <- getIntField (batteryChargingCurrentPath c) ;; set_charging_current (Z.quot v 1000)) ;;
  when (given (batteryChargeCounterPath c))
    (v <- getIntField (batteryChargeCounterPath c) ;; set_cur (set_batteryChargeCounter v)) ;;
  when (given (batteryTemperaturePath c))
    (v <- getIntField (batteryTemperaturePath c) ;; set_cur (set_batteryTemperature v)) ;;
  when (given (batteryStatusPath c))
    ('(n, buf) <- readFromFile (batteryStatusPath c) 128 ;;
     when (0 <? n) (set_cur (set_batteryStatus (getBatteryStatus buf)))) ;;
  when (given (batteryHealthPath c))
    ('(n, buf) <- readFromFile (batteryHealthPath c) 128 ;;
     when (0 <? n) (set_cur (set_batteryHealth (getBatteryHealth buf)))) ;;
  n <- gets mChargerNum ;;
  read_chargers (Z.to_nat n) 0 ;;
  p <- gets props ;;
  ret (online (cur p)).

(** [int] arithmetic: products wrap, quotients round toward zero. *)
Definition imul (a b : Z) : Z := wraps32 (a * b).

Definition fullEnergy : Z := 3800.
Definition cvChargingBegin : Z := 85.
Definition cvCostTime : Z := 61.

(** Minutes until the level is 5, at a current in mA. *)
Definition time_to_empty (level ma : Z) : Z :=
  Z.quot (imul (imul fullEnergy (wraps32 (level - 5))) 60) (ma * 100).

Definition time_to_full (level current : Z) : Z :=
  wraps32 (Z.quot (imul (imul (wraps32 (cvChargingBegin - level)) fullEnergy) 60) (imul current 100) + cvCostTime).

Definition mBatteryUseTimeReport : M W unit :=
  p <- gets props ;;
  let level := batteryLevel (cur p) in
  let cc := batteryChargingCurrent p in
  let empty := if level <? 5 then -1 else time_to_empty level 450 in
  let sleep := if level <? 5 then -1 else time_to_empty level 18 in
  let full :=
    if negb (online (cur p)) then -1
    else if (level <=? cvChargingBegin) && (0 <? cc) then time_to_full level cc
    else if (cvChargingBegin <? level) && (level <=? 100) && (0 <? cc) then mBatteryGetCvTimeByLevel level
    else -1 in
  set_times full empty sleep.

(** The state shown by the LED. *)
Definition led_state (p : BatteryProperties) : Z :=
  if batteryLevel (cur p) <? 20 then LED_CHARGER_LOW
  else if online (cur p) then (if batteryLevel (cur p) =? 100 then LED_CHARGER_FULL else LED_CHARGER_ON)
  else LED_CHARGER_OFF.

Definition mBatteryWriteChargerLeds : M W Z :=
  b <- gets mLedPresent ;;
  if negb b then ret 0
  else
    ok <- be be_open_led ;;
    if negb ok then modify (set_mLedPresent false) ;; ret (-1)
    else
      p <- gets props ;;
      blog_add (LedWrote (str_bytes (itoa (led_state p)) ++ [0])) ;;
      ret 0.

Definition capAlert : Z := 6.
Definition curAlert : Z := 30.
Definition retryCount : Z := 15.

Definition mBatteryLowPowerCheck : M W Z :=
  p <- gets props ;;
  let level := batteryLevel (cur p) in
  when (online (cur p))
    (if (level <? capAlert) && (0 <? level) then
       d <- gets mBatCapacityDecrease ;;
       when d (blog_add (System "rokid_reboot charging"))
     else if level =? 0 then
       if batteryChargingCurrent p <? curAlert then
         n <- gets low_count ;;
         modify (set_low_count (wraps32 (n + 1))) ;;
         when (retryCount <? wraps32 (n + 1)) (blog_add (System "rokid_reboot charging"))
       else modify (set_low_count 0)
     else ret tt) ;;
  ret 0.

(** ** Changes *)

(** [if (bp->xLast != bp->x) { bp->xLast = bp->x; mNeedSendMsg = true; }], the last
    assignment only when [tell]. *)
Definition track {A} (eqb : A -> A -> bool) (get : readings -> A) (set : A -> readings -> readings) (tell : bool) : M W unit :=
  p <- gets props ;;
  when (negb (eqb (get (last_ p)) (get (cur p))))
    (set_last (set (get (cur p))) ;; when tell (modify (set_mNeedSendMsg true))).

Definition mLastBatteryPropertiesUpdate : M W bool :=
  track Bool.eqb chargerAcOnline set_chargerAcOnline true ;;
  track Bool.eqb chargerUsbOnline set_chargerUsbOnline true ;;
  track Bool.eqb chargerWirelessOnline set_chargerWirelessOnline true ;;
  track Z.eqb maxChargingCurrent set_maxChargingCurrent false ;;
  track Z.eqb maxChargingVoltage set_maxChargingVoltage false ;;
  track Z.eqb batteryStatus set_batteryStatus true ;;
  track Z.eqb batteryHealth set_batteryHealth true ;;
  track Bool.eqb batteryPresent set_batteryPresent true ;;
  p <- gets props ;;
  when (negb (batteryLevel (last_ p) =? batteryLevel (cur p)))
    (modify (set_mBatCapacityDecrease (batteryLevel (cur p) <? batteryLevel (last_ p))) ;;
     set_last (set_batteryLevel (batteryLevel (cur p))) ;;
     modify (set_mNeedSendMsg true)) ;;
  track Z.eqb batteryVoltage set_batteryVoltage false ;;
  track Z.eqb batteryTemperature set_batteryTemperature true ;;
  track Z.eqb batteryCurrent set_batteryCurrent false ;;
  track Z.eqb batteryCycleCount set_batteryCycleCount false ;;
  track Z.eqb batteryFullCharge set_batteryFullCharge true ;;
  track Z.eqb batteryChargeCounter set_batteryChargeCounter false ;;
  gets mNeedSendMsg.

(** ** Search for the files *)

(** [if (strcmp(hc->xPath, "") == 0)]: the first of the files that can be read. *)
Fixpoint first_readable (name : string) (files : list string) (set : string -> healthd_config -> healthd_config) : M W unit :=
  match files with
  | [] => ret tt
  | file :: files' =>
      let path := supply_path name file in
      ok <- be (be_access path) ;;
      if ok then set_config (set path) else first_readable name files' set
  end.

Definition look_for (get : healthd_config -> string) (set : string -> healthd_config -> healthd_config)
    (name : string) (files : list string) : M W unit :=
  c <- config ;;
  when (String.eqb (get c) "") (first_readable name files set).

(** [strcpy(mChargerNames[mChargerNum], name)] *)
Definition store_charger (name : string) : M W unit :=
  n <- gets mChargerNum ;;
  if (0 <=? n) && (n <? Z.of_nat maxChargerNum) && (strlen name <? maxChargerNameSize)
  then modify (fun w => set_mChargerNames (<[Z.to_nat n := name]> (mChargerNames w)) w)
  else stop BufferOverflow.

(** The name is then printed, whether or not it was stored. *)
Definition add_charger (name : string) : M W unit :=
  ok <- be (be_access (supply_path name "online")) ;;
  when ok (store_charger name) ;;
  n <- gets mChargerNum ;;
  names <- gets mChargerNames ;;
  match names !! Z.to_nat n with
  | None => stop OutOfBounds
  | Some _ => modify (set_mChargerNum (n + 1))
  end.

Definition charger_entry (name : string) : M W unit :=
  look_for batteryChargingCurrentPath set_batteryChargingCurrentPath name ["constant_charge_current"] ;;
  look_for batteryTemperaturePath set_batteryTemperaturePath name ["temp"] ;;
  add_charger name.

Definition battery_entry (name : string) : M W unit :=
  look_for batteryStatusPath set_batteryStatusPath name ["status"] ;;
  look_for batteryHealthPath set_batteryHealthPath name ["health"] ;;
  look_for batteryPresentPath set_batteryPresentPath name ["present"] ;;
  look_for batteryCapacityPath set_batteryCapacityPath name ["capacity"] ;;
  look_for batteryVoltagePath set_batteryVoltagePath name ["voltage_now"; "batt_vol"] ;;
  look_for batteryCurrentNowPath set_batteryCurrentNowPath name ["current_now"] ;;
  look_for batteryChargeCounterPath set_batteryChargeCounterPath name ["charge_counter"] ;;
  look_for batteryTemperaturePath set_batteryTemperaturePath name ["temp"; "batt_temp"] ;;
  look_for batteryTechnologyPath set_batteryTechnologyPath name ["technology"].

Definition is_charger (t : Z) : bool :=
  (t =? ANDROID_POWER_SUPPLY_TYPE_AC) || (t =? ANDROID_POWER_SUPPLY_TYPE_USB) || (t =? ANDROID_POWER_SUPPLY_TYPE_WIRELESS).

(** One entry of the directory. *)
Definition supply_entry (name : string) : M W unit :=
  if String.eqb name "." || String.eqb name ".." then ret tt
  else
    t <- readPowerSupplyType (supply_path name "type") ;;
    if is_charger t then charger_entry name
    else if t =? ANDROID_POWER_SUPPLY_TYPE_BATTERY then battery_entry name
    else ret tt.

(** The paths are read once more, for the warnings. *)
Definition mHealthdConfigUpdate : M W unit :=
  d <- be (be_readdir POWER_SUPPLY_SYSFS_PATH) ;;
  (match d with
   | None => ret tt
   | Some entries => for_each entries supply_entry
   end) ;;
  config ;; ret tt.

Definition mHealthdConfigInit : M W Z :=
  ok <- be be_malloc ;;
  if negb ok then ret (-1)
  else modify (set_mHealthdConfig (Some (mk_config "" "" "" "" "" "" "" "" "" ""))) ;; ret 0.
End Monitor.

(** * The battery service *)

Definition FD_MAX : nat := 16.
Definition RB_DURATION : Z := 2700.
Definition EV_KEY : Z := 1.
Definition KEY_POWER : Z := 116.

Section Service.
Context {UL : ULong} {X : Type} {E : BatEnv X}.
Local Notation W := (bat X).

(** ** Messages *)

Definition battery_message (charging_on : bool) (p : BatteryProperties) : json :=
  JObj [("batChargingOnline", JBool charging_on);
        ("batSupported", JBool true);
        ("batPresent", JBool true);
        ("batLevel", JInt (batteryLevel (cur p)));
        ("batVoltage", JInt (batteryVoltage (cur p)));
        ("batChargingCurrent", JInt (batteryChargingCurrent p));
        ("batTemp", JInt (Z.quot (batteryTemperature (cur p)) 10));
        ("batTimetoEmpty", JInt (batteryTimetoEmpty p));
        ("batSleepTimetoEmpty", JInt (batterySleepTimetoEmpty p));
        ("batTimetoFull", JInt (batteryTimetoFull p));
        ("proto", JStr "ROKID_BATTERY")].

Definition no_battery_message : json := JObj [("batSupported", JBool false); ("proto", JStr "ROKID_BATTERY")].

Definition post (msg : json) : M W Z :=
  blog_add (Posted msg) ;; modify (set_mNeedSendMsg false) ;; ret 0.

Definition bat_service_msg_send : M W Z :=
  n <- gets mChargerNum ;;
  if negb (n =? 0) then
    charging_on <- mBatteryPropertiesUpdate ;;
    need <- mLastBatteryPropertiesUpdate ;;
    modify (set_mNeedSendMsg need) ;;
    mBatteryUseTimeReport ;;
    mBatteryWriteChargerLeds ;;
    mBatteryLowPowerCheck ;;
    need <- gets mNeedSendMsg ;;
    if negb need then ret 0
    else p <- gets props ;; post (battery_message charging_on p)
  else
    need <- gets mNeedSendMsg ;;
    if negb need then ret 0 else post no_battery_message.

(** [rounds] rounds of the endless loop. *)
Fixpoint bat_service_loop_run (rounds : nat) : M W unit :=
  match rounds with
  | O => ret tt
  | S rounds' => bat_service_msg_send ;; bat_service_loop_run rounds'
  end.

Fixpoint bat_flora_connect (tries : nat) : M W unit :=
  match tries with
  | O => stop Hang
  | S tries' =>
      r <- be be_flora_connect ;;
      if r =? 0 then ret tt else bat_flora_connect tries'
  end.

Definition bat_flora_handle (tries rounds : nat) : M W unit :=
  bat_flora_connect tries ;; bat_service_loop_run rounds.

(** ** The charging mode *)

Definition mBatterySetChgMode (enable : bool) : M W Z :=
  ok <- be be_fopen_mode ;;
  if ok then blog_add (ModeWrote (if enable then 49 else 48)) ;; ret 0 else ret (-1).

Definition mBatteryGetChgMode : M W Z :=
  r <- be be_fgetc_mode ;;
  match r with
  | Some ch => ret (if ch =? 49 then BOOT_MODE_CHARGING else BOOT_MODE_NORMAL)
  | None => ret (-1)
  end.

Definition mBootModeUpdate : M W Z :=
  m <- mBatteryGetChgMode ;;
  ret (if m =? BOOT_MODE_CHARGING then BOOT_MODE_CHARGING else BOOT_MODE_NORMAL).

(** Milliseconds; the arithmetic is that of [long]. *)
Definition curr_time_ms : M W Z :=
  '(tv_sec, tv_nsec) <- be be_clock ;;
  ret (wrapsl (tv_sec * 1000 + Z.quot tv_nsec 1000000)).

(** The variables [down], [now] and [duration] of the poll. *)
Record poll_state := mk_poll { pl_down : bool; pl_now : Z; pl_duration : Z }.

(** The event files, up to the first that does not open. *)
Fixpoint open_events (n : nat) (i : Z) : M W (list Z) :=
  match n with
  | O => ret []
  | S n' =>
      fd <- be (be_open_event (substring 0 31 ("/dev/input/event" ++ itoa i)%string)) ;;
      if fd <? 0 then ret [] else l <- open_events n' (i + 1) ;; ret (fd :: l)
  end.

(** One event of a readable descriptor. *)
Definition poll_fd (ready : list Z) (s : poll_state) (fd : Z) : M W poll_state :=
  if negb (bool_decide (fd ∈ ready)) then ret s
  else
    t <- be (be_read_event fd) ;;
    match t with
    | None => ret s
    | Some t =>
        if (ke_type t =? EV_KEY) && (ke_code t =? KEY_POWER) then
          if negb (ke_value t =? 0) then
            now <- (if pl_down s then ret (pl_now s) else curr_time_ms) ;;
            ret (mk_poll true now (pl_duration s))
          else ret (mk_poll false (pl_now s) (pl_duration s))
        else ret s
    end.

Fixpoint poll_fds (ready : list Z) (s : poll_state) (fds : list Z) : M W poll_state :=
  match fds with
  | [] => ret s
  | fd :: fds' => s' <- poll_fd ready s fd ;; poll_fds ready s' fds'
  end.

(** The body of [while (1)]. *)
Definition poll_round (fds : list Z) (s : poll_state) : M W poll_state :=
  (match last fds with None => stop OutOfBounds | Some _ => ret tt end) ;;
  '(retval, ready) <- be (be_select fds) ;;
  s <- (if (retval =? 0) || (retval =? -1) then ret s else poll_fds ready s fds) ;;
  s <- (if pl_down s then t <- curr_time_ms ;; ret (mk_poll true (pl_now s) (t - pl_now s)) else ret s) ;;
  when (RB_DURATION <? pl_duration s) (mBatterySetChgMode false ;; blog_add (System "reboot -f")) ;;
  p <- gets props ;;
  when (negb (online (cur p))) (mBatterySetChgMode false ;; blog_add (System "poweroff -f")) ;;
  ret s.

(** The poll, with the number of rounds of the service's thread before each of its own. *)
Fixpoint poll_loop (fds : list Z) (s : poll_state) (others : list nat) : M W unit :=
  match others with
  | [] => ret tt
  | n :: others' =>
      bat_service_loop_run n ;;
      s' <- poll_round fds s ;;
      poll_loop fds s' others'
  end.

Definition mPowerOffChargingPoll (others : list nat) : M W unit :=
  mBatteryPropertiesUpdate ;;
  fds <- open_events FD_MAX 0 ;;
  mBootModeUpdate ;;
  poll_loop fds (mk_poll false 0 0) others.

(** ** Start *)

(** [main], with the threads run in turns: [rounds] of the service, then, in the charging
    mode, the poll with the service's rounds [others]. *)
Definition battery_main (tries rounds : nat) (others : list nat) : M W Z :=
  r <- mHealthdConfigInit ;;
  if negb (r =? 0) then ret (-2)
  else
    mHealthdConfigUpdate ;;
    r <- be be_pthread_create ;;
    if negb (r =? 0) then ret (-2)
    else
      bat_flora_handle tries rounds ;;
      m <- mBootModeUpdate ;;
      if m =? BOOT_MODE_CHARGING then
        r <- be be_pthread_create ;;
        if negb (r =? 0) then ret (-2) else mPowerOffChargingPoll others ;; ret 0
      else ret 0.
End Service.
