(* ===== verification/BatteryProofs.v ===== *)
(** * The battery service reports changes

    A round of the service posts exactly when a value that clients are told of has
    changed, and leaves the state ready for the next; the times it reports, the texts
    it reads and [strlcat]. *)

From Stdlib Require Import Ascii String.
From stdpp Require Import base gmap list.
From S2P Require Import Prelude CString Bytes CMonad Json BatteryWorld Battery.
Open Scope string_scope.
Open Scope list_scope.
Open Scope Z_scope.

(** ** Tracking of changes *)

(** Two sets of readings agree on what clients are told of. *)
Definition same_report (a b : readings) : bool :=
  Bool.eqb (chargerAcOnline a) (chargerAcOnline b) && Bool.eqb (chargerUsbOnline a) (chargerUsbOnline b) &&
  Bool.eqb (chargerWirelessOnline a) (chargerWirelessOnline b) && (batteryStatus a =? batteryStatus b) &&
  (batteryHealth a =? batteryHealth b) && Bool.eqb (batteryPresent a) (batteryPresent b) &&
  (batteryLevel a =? batteryLevel b) && (batteryTemperature a =? batteryTemperature b) &&
  (batteryFullCharge a =? batteryFullCharge b).

Lemma same_report_online a b : same_report a b = true -> online a = online b.
Proof.
  unfold same_report, online. intros H. repeat apply andb_prop in H as [H ?].
  repeat match goal with H : Bool.eqb _ _ = true |- _ => apply eqb_prop in H end. congruence.
Qed.

Section Track.
Context {X : Type} {E : BatEnv X}.
Local Notation W := (bat X).

Definition with_last (r : readings) (p : BatteryProperties) : BatteryProperties :=
  mk_props (cur p) r (batteryChargingCurrent p) (batteryTimetoFull p) (batteryTimetoEmpty p) (batterySleepTimetoEmpty p).

(** Assigning a field is the same whether or not it had changed. *)
Lemma track_wp {A} (eqb : A -> A -> bool) (get : readings -> A) set tell (w : W) (Q : unit -> W -> Prop) :
  (forall a b, eqb a b = true <-> a = b) -> (forall r, set (get r) r = r) ->
  let p := props w in
  Q tt (set_props (with_last (set (get (cur p)) (last_ p)) p)
         (set_mNeedSendMsg (mNeedSendMsg w || (tell && negb (eqb (get (last_ p)) (get (cur p))))) w)) ->
  wp (track eqb get set tell) Q w.
Proof.
  intros He Hg p HQ. apply wp_bind, wp_gets. fold p. destruct (eqb (get (last_ p)) (get (cur p))) eqn:Eb; simpl in *.
  - apply He in Eb. rewrite <-Eb, Hg, andb_false_r, orb_false_r in HQ. apply wp_ret.
    assert (Ew : set_props (with_last (last_ p) p) (set_mNeedSendMsg (mNeedSendMsg w) w) = w).
    { unfold p. by destruct w as [? [] ? ? ? ? ? ? ? ?]. }
    by rewrite Ew in HQ.
  - apply wp_bind, wp_modify. destruct tell; simpl in *; [apply wp_modify|apply wp_ret].
    + rewrite orb_true_r in HQ. exact HQ.
    + rewrite orb_false_r in HQ. by destruct w.
Qed.

(** The level has dropped. *)
Definition level_decrease (p : BatteryProperties) (d : bool) : bool :=
  if batteryLevel (last_ p) =? batteryLevel (cur p) then d else batteryLevel (cur p) <? batteryLevel (last_ p).

Lemma track_level_wp (w : W) (Q : unit -> W -> Prop) :
  let p := props w in
  Q tt (set_props (with_last (set_batteryLevel (batteryLevel (cur p)) (last_ p)) p)
         (set_mNeedSendMsg (mNeedSendMsg w || negb (batteryLevel (last_ p) =? batteryLevel (cur p)))
           (set_mBatCapacityDecrease (level_decrease p (mBatCapacityDecrease w)) w))) ->
  wp (when (negb (batteryLevel (last_ p) =? batteryLevel (cur p)))
       (modify (set_mBatCapacityDecrease (batteryLevel (cur p) <? batteryLevel (last_ p))) ;;
        set_last (set_batteryLevel (batteryLevel (cur p))) ;;
        modify (set_mNeedSendMsg true))) Q w.
Proof.
  intros p HQ. unfold level_decrease in HQ. destruct (Z.eqb_spec (batteryLevel (last_ p)) (batteryLevel (cur p))) as [Eb|Nb]; simpl in *.
  - rewrite <-Eb, orb_false_r in HQ. apply wp_ret. unfold p in HQ. by destruct w as [? [? [] ? ? ? ?] ? ? ? ? ? ? ? ?].
  - rewrite orb_true_r in HQ. by apply wp_bind, wp_modify, wp_bind, wp_modify, wp_modify.
Qed.

(** All the fields of the round before become the current ones. *)
Lemma mLastBatteryPropertiesUpdate_wp (w : W) (Q : bool -> W -> Prop) :
  let p := props w in
  let need := mNeedSendMsg w || negb (same_report (last_ p) (cur p)) in
  Q need (set_props (with_last (cur p) p)
           (set_mNeedSendMsg need (set_mBatCapacityDecrease (level_decrease p (mBatCapacityDecrease w)) w))) ->
  wp mLastBatteryPropertiesUpdate Q w.
Proof.
  destruct w as [c [[a1 a2 a3 a4 a5 a6 a7 a8 a9 a10 a11 a12 a13 a14 a15] [b1 b2 b3 b4 b5 b6 b7 b8 b9 b10 b11 b12 b13 b14 b15] cc tf te ts]
                 names num need led dec cnt log x].
  intros p nd HQ. unfold mLastBatteryPropertiesUpdate.
  do 8 (apply wp_bind, track_wp; [apply eqb_true_iff || apply Z.eqb_eq|by intros []|]; simpl).
  apply wp_bind, wp_gets, wp_bind, track_level_wp; simpl.
  do 6 (apply wp_bind, track_wp; [apply eqb_true_iff || apply Z.eqb_eq|by intros []|]; simpl).
  apply wp_gets. subst nd p. unfold same_report in HQ. simpl in *.
  rewrite !negb_andb, !orb_assoc in HQ. rewrite !orb_false_r. exact HQ.
Qed.
End Track.

(** ** A round of the service *)

Section Round.
Context {X : Type} {E : BatEnv X}.
Local Notation W := (bat X).

(** [m] keeps [I] and does not fault. *)
Definition safe (I : W -> Prop) {A} (m : M W A) : Prop := forall w, I w -> wp m (fun _ => I) w.

Lemma safe_ret I {A} (a : A) : safe I (ret a).
Proof. by intros w H. Qed.

Lemma safe_bind I {A B} (m : M W A) (k : A -> M W B) : safe I m -> (forall a, safe I (k a)) -> safe I (bind m k).
Proof. intros Hm Hk w Hw. apply wp_bind. eapply wp_mono; [|by apply Hm]. intros a w' Hw'. by apply Hk. Qed.

Lemma safe_when I b (m : M W unit) : safe I m -> safe I (when b m).
Proof. intros H. by destruct b; [|apply safe_ret]. Qed.

Lemma safe_gets I {A} (f : W -> A) : safe I (gets f).
Proof. by intros w H. Qed.

Lemma safe_modify (I : W -> Prop) f : (forall w, I w -> I (f w)) -> safe I (modify f).
Proof. intros H w Hw. by apply wp_modify, H. Qed.

Lemma safe_be (I : W -> Prop) {A} (f : X -> A * X) : (forall x w, I w -> I (set_benv x w)) -> safe I (be f).
Proof. intros H w Hw. unfold wp, be. destruct (f (benv w)). by apply H. Qed.

Create HintDb safe discriminated.

Ltac safe_step :=
  match goal with
  | |- safe _ (ret _) => apply safe_ret
  | |- safe _ (gets _) => apply safe_gets
  | |- safe _ (bind _ _) => apply safe_bind; [|intros ?]
  | |- safe _ (when _ _) => apply safe_when
  | |- safe _ (if ?b then _ else _) => destruct b
  | |- safe _ (match ?x with _ => _ end) => destruct x
  end.
Ltac safe := repeat (solve [eauto with safe nocore] || safe_step).

(** Only the current readings, the charging current and the outside change. *)
Definition reads (w0 w : W) : Prop :=
  exists r cc x, let p := props w0 in
    w = set_props (mk_props r (last_ p) cc (batteryTimetoFull p) (batteryTimetoEmpty p) (batterySleepTimetoEmpty p))
          (set_benv x w0).

Lemma reads_refl w : reads w w.
Proof. exists (cur (props w)), (batteryChargingCurrent (props w)), (benv w). by destruct w as [? [] ? ? ? ? ? ? ? ?]. Qed.

Section Reads.
Context (w0 : W) (c : healthd_config).
Context (Hc : mHealthdConfig w0 = Some c) (Hn : length (mChargerNames w0) = maxChargerNum).

Lemma reads_cur f : safe (reads w0) (set_cur f).
Proof. apply safe_modify. intros w (r & cc & x & ->). by exists (f r), cc, x. Qed.

Lemma reads_cc z : safe (reads w0) (set_charging_current z).
Proof. apply safe_modify. intros w (r & cc & x & ->). by exists r, z, x. Qed.

Lemma reads_be {A} (f : X -> A * X) : safe (reads w0) (be f).
Proof. apply safe_be. intros x' w (r & cc & x & ->). by exists r, cc, x'. Qed.

Lemma reads_config : safe (reads w0) config.
Proof. intros w (r & cc & x & ->). apply wp_bind, wp_gets. simpl. rewrite Hc. apply wp_ret. by exists r, cc, x. Qed.
#[local] Hint Resolve reads_cur reads_cc reads_be reads_config : safe.

Lemma reads_file path size : safe (reads w0) (readFromFile path size).
Proof. unfold readFromFile. safe. Qed.
#[local] Hint Resolve reads_file : safe.

Lemma reads_type path : safe (reads w0) (readPowerSupplyType path).
Proof. unfold readPowerSupplyType. safe. Qed.

Lemma reads_bool path : safe (reads w0) (getBooleanField path).
Proof. unfold getBooleanField. safe. Qed.

Lemma reads_int path : safe (reads w0) (getIntField path).
Proof. unfold getIntField. safe. Qed.
#[local] Hint Resolve reads_type reads_bool reads_int : safe.

Lemma reads_charger name : safe (reads w0) (read_charger name).
Proof. unfold read_charger. safe. Qed.

Lemma reads_chargers n i : (n + i <= maxChargerNum)%nat -> safe (reads w0) (read_chargers n i).
Proof.
  revert i. induction n as [|n IH]; intros i Hi; [apply safe_ret|]. simpl. intros w Hw. apply wp_bind, wp_gets.
  assert (En : mChargerNames w = mChargerNames w0) by (destruct Hw as (r & cc & x & ->); done).
  destruct (mChargerNames w !! i) as [name|] eqn:Ei.
  - apply safe_bind; [apply reads_charger|intros _; apply IH; lia|done].
  - apply lookup_ge_None in Ei. rewrite En, Hn in Ei. lia.
Qed.

(** The readings are taken without a fault. *)
Lemma mBatteryPropertiesUpdate_wp (Q : bool -> W -> Prop) :
  0 <= mChargerNum w0 <= Z.of_nat maxChargerNum ->
  (forall w, reads w0 w -> Q (online (cur (props w))) w) -> wp mBatteryPropertiesUpdate Q w0.
Proof.
  intros Hm HQ.
  assert (Hs : safe (reads w0) mBatteryPropertiesUpdate).
  { unfold mBatteryPropertiesUpdate. do 17 (apply safe_bind; [solve [safe]|intros ?]).
    intros w Hw. apply wp_bind, wp_gets. assert (En : mChargerNum w = mChargerNum w0) by (destruct Hw as (r & cc & x & ->); done).
    rewrite En. apply (safe_bind (reads w0)); [apply reads_chargers; lia|intros ?; safe|done]. }
  assert (Hr : wlp mBatteryPropertiesUpdate (fun r w => r = online (cur (props w))) w0).
  { unfold mBatteryPropertiesUpdate. do 19 (apply wlp_skip; intros ? ?). reflexivity. }
  eapply wp_mono; [|exact (wp_wlp_and _ _ _ _ (Hs w0 (reads_refl w0)) Hr)]. simpl. intros r w [Hw ->]. by apply HQ.
Qed.
End Reads.

(** Ready for a round: the paths and the chargers are known, and the last round's
    message, if it was due, was sent. *)
Record bat_ready (w : W) : Prop := {
  br_config : is_Some (mHealthdConfig w);
  br_names : length (mChargerNames w) = maxChargerNum;
  br_num : 0 < mChargerNum w <= Z.of_nat maxChargerNum;
}.

(** What a log has: the messages, and the commands run. *)
Definition posts (log : list bat_event) : list json := omap (fun e => match e with Posted m => Some m | _ => None end) log.
Definition commands (log : list bat_event) : list string := omap (fun e => match e with System c => Some c | _ => None end) log.

(** The reboot into the charging mode, from the round's values: a low level that falls
    with the charger online, or too many rounds at 0 with almost no current. *)
Definition low_reboot (dec : bool) (n : Z) (p : BatteryProperties) : bool :=
  let level := batteryLevel (cur p) in
  online (cur p) &&
  (if (level <? capAlert) && (0 <? level) then dec
   else (level =? 0) && (batteryChargingCurrent p <? curAlert) && (retryCount <? wraps32 (n + 1))).

Definition low_next (n : Z) (p : BatteryProperties) : Z :=
  if online (cur p) && (batteryLevel (cur p) =? 0)
  then (if batteryChargingCurrent p <? curAlert then wraps32 (n + 1) else 0) else n.

(** [w'] is [w] but for the LED, the counter, what is outside and events that are not
    messages. *)
Definition aside (w w' : W) (cmds : list string) : Prop :=
  exists led n log x, w' = set_mLedPresent led (set_low_count n (set_blog log (set_benv x w))) /\
    posts log = posts (blog w) /\ commands log = commands (blog w) ++ cmds.

Lemma leds_wp (w : W) (Q : Z -> W -> Prop) :
  (forall v w', aside w w' [] -> low_count w' = low_count w -> Q v w') -> wp mBatteryWriteChargerLeds Q w.
Proof.
  intros HQ. apply wp_bind, wp_gets. destruct (mLedPresent w) eqn:El; simpl.
  - apply wp_bind. unfold be, wp at 1. destruct (be_open_led (benv w)) as [ok x]. destruct ok; simpl.
    + apply wp_bind, wp_gets, wp_bind, wp_modify, wp_ret, HQ; [|done].
      exists true, (low_count w), (blog w ++ [LedWrote (str_bytes (itoa (led_state (props w))) ++ [0])]), x. split_and!; [|unfold posts|unfold commands]; simpl.
      * destruct w. simpl in *. by subst.
      * by rewrite omap_app, app_nil_r.
      * by rewrite omap_app.
    + apply wp_bind, wp_modify, wp_ret, HQ; [|done]. exists false, (low_count w), (blog w), x.
      split_and!; [by destruct w|done|by rewrite app_nil_r].
  - apply wp_ret, HQ; [|done]. exists false, (low_count w), (blog w), (benv w).
    split_and!; [destruct w; simpl in *; by subst|done|by rewrite app_nil_r].
Qed.

Lemma low_power_wp (w : W) (Q : Z -> W -> Prop) :
  (forall w', aside w w' (if low_reboot (mBatCapacityDecrease w) (low_count w) (props w) then ["rokid_reboot charging"] else []) ->
     low_count w' = low_next (low_count w) (props w) -> Q 0 w') -> wp mBatteryLowPowerCheck Q w.
Proof.
  intros HQ. apply wp_bind, wp_gets, wp_bind.
  assert (Hsame : forall n, low_reboot (mBatCapacityDecrease w) (low_count w) (props w) = false ->
     low_next (low_count w) (props w) = n -> Q 0 (set_low_count n w)).
  { intros n Hr Hn. apply HQ; [|done]. rewrite Hr. exists (mLedPresent w), n, (blog w), (benv w).
    split_and!; [by destruct w|done|by rewrite app_nil_r]. }
  assert (Hboot : forall n, low_reboot (mBatCapacityDecrease w) (low_count w) (props w) = true ->
     low_next (low_count w) (props w) = n -> Q 0 (set_blog (blog w ++ [System "rokid_reboot charging"]) (set_low_count n w))).
  { intros n Hr Hn. apply HQ; [|done]. rewrite Hr. exists (mLedPresent w), n, (blog w ++ [System "rokid_reboot charging"]), (benv w).
    split_and!; [by destruct w|unfold posts; by rewrite omap_app, app_nil_r|unfold commands; by rewrite omap_app]. }
  assert (Hid : low_reboot (mBatCapacityDecrease w) (low_count w) (props w) = false ->
     low_next (low_count w) (props w) = low_count w -> Q 0 w).
  { intros Hr Hn. specialize (Hsame _ Hr Hn). by destruct w. }
  assert (Hid' : low_reboot (mBatCapacityDecrease w) (low_count w) (props w) = true ->
     low_next (low_count w) (props w) = low_count w -> Q 0 (set_blog (blog w ++ [System "rokid_reboot charging"]) w)).
  { intros Hr Hn. specialize (Hboot _ Hr Hn). by destruct w. }
  clear HQ. unfold low_reboot, low_next in *.
  destruct (online (cur (props w))) eqn:Eo; simpl in *; [|by apply wp_ret, wp_ret, Hid].
  destruct ((batteryLevel (cur (props w)) <? capAlert) && (0 <? batteryLevel (cur (props w)))) eqn:El.
  - assert (Hz : (batteryLevel (cur (props w)) =? 0) = false) by lia. rewrite Hz in *.
    apply wp_bind, wp_gets. destruct (mBatCapacityDecrease w); simpl; [apply wp_modify, wp_ret; auto|apply wp_ret, wp_ret; auto].
  - destruct (batteryLevel (cur (props w)) =? 0) eqn:Ez; simpl in *; [|by apply wp_ret, wp_ret, Hid].
    destruct (batteryChargingCurrent (props w) <? curAlert) eqn:Ec; simpl in *.
    + apply wp_bind, wp_gets, wp_bind, wp_modify. destruct (retryCount <? wraps32 (low_count w + 1)) eqn:Er; simpl.
      * apply wp_modify, wp_ret. by apply Hboot.
      * apply wp_ret, wp_ret. by apply Hsame.
    + apply wp_modify, wp_ret. by apply Hsame.
Qed.

(** The times a round reports, from its readings: to full, to empty and to empty
    asleep. *)
Definition times_of (p : BatteryProperties) : Z * Z * Z :=
  let level := batteryLevel (cur p) in
  let cc := batteryChargingCurrent p in
  ((if negb (online (cur p)) then -1
    else if (level <=? cvChargingBegin) && (0 <? cc) then time_to_full level cc
    else if (cvChargingBegin <? level) && (level <=? 100) && (0 <? cc) then mBatteryGetCvTimeByLevel level
    else -1),
   if level <? 5 then -1 else time_to_empty level 450,
   if level <? 5 then -1 else time_to_empty level 18).

(** The outcome of a round. *)
Record round_done (w w' : W) : Prop := {
  rd_ready : bat_ready w';
  rd_last : last_ (props w') = cur (props w');
  rd_need : mNeedSendMsg w' = false;
  rd_chargers : mChargerNum w' = mChargerNum w /\ mChargerNames w' = mChargerNames w /\ mHealthdConfig w' = mHealthdConfig w;
  rd_posts : posts (blog w') = posts (blog w) ++
    (if mNeedSendMsg w || negb (same_report (last_ (props w)) (cur (props w')))
     then [battery_message (online (cur (props w'))) (props w')] else []);
  rd_commands : commands (blog w') = commands (blog w) ++
    (if low_reboot (if batteryLevel (last_ (props w)) =? batteryLevel (cur (props w')) then mBatCapacityDecrease w
                    else batteryLevel (cur (props w')) <? batteryLevel (last_ (props w)))
          (low_count w) (props w') then ["rokid_reboot charging"] else []);
  rd_count : low_count w' = low_next (low_count w) (props w');
  rd_times : times_of (props w') = (batteryTimetoFull (props w'), batteryTimetoEmpty (props w'), batterySleepTimetoEmpty (props w'));
}.

(** A round keeps what is known of the readings it took. *)
Lemma round_wp_gen (P : readings -> Z -> Prop) (w : W) :
  bat_ready w -> wlp mBatteryPropertiesUpdate (fun _ w1 => P (cur (props w1)) (batteryChargingCurrent (props w1))) w ->
  wp bat_service_msg_send
    (fun r w' => r = 0 /\ round_done w w' /\ P (cur (props w')) (batteryChargingCurrent (props w'))) w.
Proof.
  intros [[c Hc] Hn Hm] HP. apply wp_bind, wp_gets. rewrite (proj2 (Z.eqb_neq (mChargerNum w) 0)) by lia. simpl.
  apply wp_bind. eapply wp_mono; [|refine (wp_wlp_and _ _ _ _ _ HP);
    apply (mBatteryPropertiesUpdate_wp w c Hc Hn (fun r w1 => reads w w1 /\ r = online (cur (props w1)))); [lia|done]].
  simpl. intros ? ? [[(r & cc & x & ->) ->] HP1]. simpl in *.
  apply wp_bind, mLastBatteryPropertiesUpdate_wp. simpl.
  set (need := mNeedSendMsg w || _). apply wp_bind, wp_modify, wp_bind, wp_bind, wp_gets, wp_modify. simpl.
  apply wp_bind, leds_wp. intros v w2 (led & n & log & x2 & -> & Hp2 & Hc2) Hn2. simpl in *.
  apply wp_bind, low_power_wp. intros w3 (led3 & n3 & log3 & x3 & -> & Hp3 & Hc3) Hn3. simpl in *.
  rewrite app_nil_r in Hc2. subst n. rewrite Hc2 in Hc3. rewrite Hp2 in Hp3.
  apply wp_bind, wp_gets. simpl. destruct need eqn:En; simpl.
  - apply wp_bind, wp_gets, wp_bind, wp_modify, wp_bind, wp_modify, wp_ret. split; [done|]. split; [|done].
    split; simpl; try done.
    + fold need. rewrite En. unfold posts at 1. rewrite omap_app. fold (posts log3). by rewrite Hp3.
    + unfold commands at 1. rewrite omap_app. fold (commands log3). rewrite Hc3, app_nil_r. done.
  - apply wp_ret. split; [done|]. split; [|done]. split; simpl; try done.
    + fold need. by rewrite En, app_nil_r.
Qed.

Lemma round_wp (w : W) : bat_ready w -> wp bat_service_msg_send (fun r w' => r = 0 /\ round_done w w') w.
Proof.
  intros Hw. eapply wp_mono; [|apply (round_wp_gen (fun _ _ => True) w Hw)].
  - simpl. tauto.
  - unfold wlp. by destruct (mBatteryPropertiesUpdate w).
Qed.
End Round.

(** ** The readings are those of the files *)

(** What the files hold: the answer of a read of at most so many bytes.  Reading does
    not change them; between two rounds they may. *)
Class SysFiles (X : Type) `{!BatEnv X} := {
  sys_file : X -> string -> Z -> file_read;
  sys_file_read path n x : exists x', be_read path n x = (sys_file x path n, x') /\ sys_file x' = sys_file x;
}.

Section Reference.
Context (fs : string -> Z -> file_read).

(** The count of bytes and the line of a file; an integer, a flag and a supply type. *)
Definition line_in (path : string) (size : Z) : Z * string :=
  match fs path size with ReadBytes l => (Z.of_nat (length l), line_of l) | _ => (-1, "") end.

Definition int_in (path : string) : Z :=
  let '(n, s) := line_in path 128 in if 0 <? n then wraps32 (strtol0 s) else 0.

Definition flag_in (path : string) (size : Z) : bool :=
  let '(n, s) := line_in path size in (0 <? n) && not_zero_char s.

Definition type_in (path : string) : Z :=
  let '(n, s) := line_in path 128 in
  if n <=? 0 then ANDROID_POWER_SUPPLY_TYPE_UNKNOWN else wrapu32 (mapSysfsString s supplyTypeMap).

(** The number of the name in a file, with one for no name. *)
Definition name_in (number : string -> Z) (unknown : Z) (path : string) : Z :=
  let '(n, s) := line_in path 128 in if given path && (0 <? n) then number s else unknown.

(** A charger of this type is online. *)
Definition charger_on (type : Z) (name : string) : bool :=
  flag_in (supply_path name "online") 128 && (type_in (supply_path name "type") =? type).

(** The readings a round takes, each from its own file; a value without a file is the
    one before, or the one for unknown. *)
Definition readings_of (c : healthd_config) (chargers : list string) (r0 : readings) : readings := {|
  chargerAcOnline := existsb (charger_on ANDROID_POWER_SUPPLY_TYPE_AC) chargers;
  chargerUsbOnline := existsb (charger_on ANDROID_POWER_SUPPLY_TYPE_USB) chargers;
  chargerWirelessOnline := existsb (charger_on ANDROID_POWER_SUPPLY_TYPE_WIRELESS) chargers;
  maxChargingCurrent := maxChargingCurrent r0;
  maxChargingVoltage := maxChargingVoltage r0;
  batteryStatus := name_in getBatteryStatus BATTERY_STATUS_UNKNOWN (batteryStatusPath c);
  batteryHealth := name_in getBatteryHealth BATTERY_HEALTH_UNKNOWN (batteryHealthPath c);
  batteryPresent := if given (batteryPresentPath c) then flag_in (batteryPresentPath c) 16 else true;
  batteryLevel := if given (batteryCapacityPath c) then int_in (batteryCapacityPath c) else batteryLevel r0;
  batteryVoltage := if given (batteryVoltagePath c) then Z.quot (int_in (batteryVoltagePath c)) 1000 else batteryVoltage r0;
  batteryTemperature := if given (batteryTemperaturePath c) then int_in (batteryTemperaturePath c) else batteryTemperature r0;
  batteryCurrent := if given (batteryCurrentNowPath c) then int_in (batteryCurrentNowPath c) else INT_MIN;
  batteryCycleCount := batteryCycleCount r0;
  batteryFullCharge := batteryFullCharge r0;
  batteryChargeCounter := if given (batteryChargeCounterPath c) then int_in (batteryChargeCounterPath c) else INT_MIN;
|}.

(** In mA. *)
Definition charging_current_of (c : healthd_config) (cc0 : Z) : Z :=
  if given (batteryChargingCurrentPath c) then Z.quot (int_in (batteryChargingCurrentPath c)) 1000 else cc0.

(** The flags after the chargers of a list. *)
Definition with_chargers (l : list string) (r : readings) : readings :=
  set_chargerAcOnline (chargerAcOnline r || existsb (charger_on ANDROID_POWER_SUPPLY_TYPE_AC) l)
    (set_chargerUsbOnline (chargerUsbOnline r || existsb (charger_on ANDROID_POWER_SUPPLY_TYPE_USB) l)
      (set_chargerWirelessOnline (chargerWirelessOnline r || existsb (charger_on ANDROID_POWER_SUPPLY_TYPE_WIRELESS) l) r)).

Lemma with_chargers_nil r : with_chargers [] r = r.
Proof. unfold with_chargers. simpl. rewrite !orb_false_r. by destruct r. Qed.

Lemma with_chargers_cons name l r : with_chargers l (with_chargers [name] r) = with_chargers (name :: l) r.
Proof. unfold with_chargers, set_chargerAcOnline. simpl. by rewrite !orb_false_r, !orb_assoc. Qed.
End Reference.

Section FileReadings.
Context {X : Type} {E : BatEnv X} {SF : SysFiles X}.
Local Notation W := (bat X).
Context (w0 : W) (c : healthd_config).
Context (Hc : mHealthdConfig w0 = Some c) (Hn : length (mChargerNames w0) = maxChargerNum).
Local Notation fs := (sys_file (benv w0)).

(** A state within the readings of [w0]: these values so far, the files as they were. *)
Definition at_readings (r : readings) (cc : Z) (w : W) : Prop :=
  exists x, let p := props w0 in sys_file x = fs /\
    w = set_props (mk_props r (last_ p) cc (batteryTimetoFull p) (batteryTimetoEmpty p) (batterySleepTimetoEmpty p))
          (set_benv x w0).

(** [m] gives [a] and takes the readings from [r] and [cc] to [r'] and [cc']. *)
Definition takes {A} (m : M W A) (r : readings) (cc : Z) (a : A) (r' : readings) (cc' : Z) : Prop :=
  forall w, at_readings r cc w -> wp m (fun b w' => b = a /\ at_readings r' cc' w') w.

Lemma takes_bind {A B} (m : M W A) (k : A -> M W B) r cc a r1 cc1 b r2 cc2 :
  takes m r cc a r1 cc1 -> takes (k a) r1 cc1 b r2 cc2 -> takes (bind m k) r cc b r2 cc2.
Proof. intros Hm Hk w Hw. apply wp_bind. eapply wp_mono; [|by apply Hm]. intros ? w1 [-> H1]. by apply Hk. Qed.

Lemma takes_eq {A} (m : M W A) r cc a r1 r2 cc' : takes m r cc a r1 cc' -> r1 = r2 -> takes m r cc a r2 cc'.
Proof. by intros ? <-. Qed.

Lemma takes_ret {A} (a : A) r cc : takes (ret a) r cc a r cc.
Proof. by intros w Hw. Qed.

Lemma takes_cur f r cc : takes (set_cur f) r cc tt (f r) cc.
Proof. intros w (x & Hx & ->). apply wp_modify. split; [done|]. by exists x. Qed.

Lemma takes_cc z r cc : takes (set_charging_current z) r cc tt r z.
Proof. intros w (x & Hx & ->). apply wp_modify. split; [done|]. by exists x. Qed.

Lemma takes_config r cc : takes config r cc c r cc.
Proof. intros w (x & Hx & ->). apply wp_bind, wp_gets. simpl. rewrite Hc. apply wp_ret. split; [done|]. by exists x. Qed.

Lemma takes_line path size r cc : takes (readFromFile path size) r cc (line_in fs path size) r cc.
Proof.
  intros w (x & Hx & ->). apply wp_bind. unfold be, wp at 1. simpl.
  destruct (sys_file_read path size x) as (x' & -> & Hx'). unfold line_in. rewrite <-Hx.
  assert (Ha : at_readings r cc (set_benv x' (set_props (mk_props r (last_ (props w0)) cc (batteryTimetoFull (props w0))
    (batteryTimetoEmpty (props w0)) (batterySleepTimetoEmpty (props w0))) (set_benv x w0)))).
  { exists x'. split; [congruence|done]. }
  by destruct (sys_file x path size).
Qed.

Lemma takes_flag path r cc : takes (getBooleanField path) r cc (flag_in fs path 16) r cc.
Proof. unfold flag_in. eapply takes_bind; [apply takes_line|]. destruct (line_in fs path 16). apply takes_ret. Qed.

Lemma takes_int path r cc : takes (getIntField path) r cc (int_in fs path) r cc.
Proof. unfold int_in. eapply takes_bind; [apply takes_line|]. destruct (line_in fs path 128). apply takes_ret. Qed.

Lemma takes_type path r cc : takes (readPowerSupplyType path) r cc (type_in fs path) r cc.
Proof.
  unfold type_in. eapply takes_bind; [apply takes_line|]. destruct (line_in fs path 128) as [n s].
  destruct (n <=? 0); [apply takes_ret|]. cbv zeta. rewrite (proj2 (Z.ltb_ge (wrapu32 _) 0)); [apply takes_ret|]. unfold wrapu32. by apply Z.mod_pos_bound.
Qed.

(** An integer into a field, where its file is known. *)
Lemma takes_field b path (set : Z -> readings -> readings) (get : readings -> Z) g r cc :
  (forall r, set (get r) r = r) ->
  takes (when b (v <- getIntField path ;; set_cur (set (g v)))) r cc tt (set (if b then g (int_in fs path) else get r) r) cc.
Proof.
  intros Hg. destruct b; simpl; [|rewrite Hg; apply takes_ret]. eapply takes_bind; [apply takes_int|]. apply takes_cur.
Qed.

Lemma takes_present path r cc :
  takes (if given path then v <- getBooleanField path ;; set_cur (set_batteryPresent v) else set_cur (set_batteryPresent true))
    r cc tt (set_batteryPresent (if given path then flag_in fs path 16 else true) r) cc.
Proof. destruct (given path); [eapply takes_bind; [apply takes_flag|]|]; apply takes_cur. Qed.

Lemma takes_current r cc :
  takes (when (given (batteryChargingCurrentPath c))
           (v <- getIntField (batteryChargingCurrentPath c) ;; set_charging_current (Z.quot v 1000)))
    r cc tt r (charging_current_of fs c cc).
Proof.
  unfold charging_current_of. destruct (given _); simpl; [|apply takes_ret]. eapply takes_bind; [apply takes_int|]. apply takes_cc.
Qed.

(** A name into a field that has the value for unknown. *)
Lemma takes_name path (set : Z -> readings -> readings) (get : readings -> Z) number unknown r cc :
  (forall r, set (get r) r = r) -> get r = unknown ->
  takes (when (given path) ('(n, buf) <- readFromFile path 128 ;; when (0 <? n) (set_cur (set (number buf))))) r cc
    tt (set (name_in fs number unknown path) r) cc.
Proof.
  intros Hg Hu. unfold name_in. destruct (given path); simpl.
  - eapply takes_bind; [apply takes_line|]. destruct (line_in fs path 128) as [n s]. destruct (0 <? n); simpl; [apply takes_cur|].
    rewrite <-Hu, Hg. apply takes_ret.
  - destruct (line_in fs path 128). rewrite <-Hu, Hg. apply takes_ret.
Qed.

Lemma takes_charger name r cc : takes (read_charger name) r cc tt (with_chargers fs [name] r) cc.
Proof.
  unfold with_chargers, charger_on, flag_in. simpl. rewrite !orb_false_r. eapply takes_bind; [apply takes_line|].
  destruct (line_in fs (supply_path name "online") 128) as [n s]. simpl. destruct ((0 <? n) && not_zero_char s); simpl.
  - eapply takes_bind; [apply takes_type|]. set (t := type_in _ _).
    destruct (Z.eqb_spec t ANDROID_POWER_SUPPLY_TYPE_AC) as [->|H1]; [|destruct (Z.eqb_spec t ANDROID_POWER_SUPPLY_TYPE_USB) as [->|H2];
      [|destruct (Z.eqb_spec t ANDROID_POWER_SUPPLY_TYPE_WIRELESS)]]; simpl; rewrite ?orb_true_r, ?orb_false_r;
      (eapply takes_eq; [apply takes_cur || apply takes_ret|by destruct r]).
  - rewrite !orb_false_r. eapply takes_eq; [apply takes_ret|by destruct r].
Qed.

Lemma takes_chargers n i r cc : (n + i <= maxChargerNum)%nat ->
  takes (read_chargers n i) r cc tt (with_chargers fs (take n (drop i (mChargerNames w0))) r) cc.
Proof.
  revert i r. induction n as [|n IH]; intros i r Hi; [rewrite with_chargers_nil; apply takes_ret|]. simpl. intros w Hw. apply wp_bind, wp_gets.
  assert (En : mChargerNames w = mChargerNames w0) by (destruct Hw as (x & Hx & ->); done). rewrite En.
  destruct (mChargerNames w0 !! i) as [name|] eqn:Ei; [|apply lookup_ge_None in Ei; lia].
  rewrite (drop_S _ name i Ei). simpl. rewrite <-with_chargers_cons.
  refine (takes_bind _ _ _ _ _ _ _ _ _ _ (takes_charger name r cc) _ w Hw). apply IH. lia.
Qed.

(** The loop over the chargers, and the result. *)
Lemma takes_loop r cc : 0 <= mChargerNum w0 <= Z.of_nat maxChargerNum ->
  let r' := with_chargers fs (take (Z.to_nat (mChargerNum w0)) (mChargerNames w0)) r in
  takes (n <- gets mChargerNum ;; read_chargers (Z.to_nat n) 0 ;; p <- gets props ;; ret (online (cur p))) r cc (online r') r' cc.
Proof.
  intros Hm r' w Hw. apply wp_bind, wp_gets.
  assert (En : mChargerNum w = mChargerNum w0) by (destruct Hw as (x & Hx & ->); done). rewrite En.
  refine (takes_bind _ _ _ _ _ _ _ _ _ _ (takes_chargers _ 0 r cc _) _ w Hw); [lia|].
  intros w1 (x & Hx & ->). apply wp_bind, wp_gets, wp_ret. split; [done|]. by exists x.
Qed.

(** The readings of a round are the reference ones. *)
Lemma update_takes : 0 <= mChargerNum w0 <= Z.of_nat maxChargerNum ->
  wp mBatteryPropertiesUpdate (fun _ w =>
    cur (props w) = readings_of fs c (take (Z.to_nat (mChargerNum w0)) (mChargerNames w0)) (cur (props w0)) /\
    batteryChargingCurrent (props w) = charging_current_of fs c (batteryChargingCurrent (props w0))) w0.
Proof.
  intros Hm.
  assert (Hstart : at_readings (cur (props w0)) (batteryChargingCurrent (props w0)) w0).
  { exists (benv w0). split; [done|]. by destruct w0 as [? [] ? ? ? ? ? ? ? ?]. }
  assert (Ht : exists b, takes mBatteryPropertiesUpdate (cur (props w0)) (batteryChargingCurrent (props w0)) b
    (readings_of fs c (take (Z.to_nat (mChargerNum w0)) (mChargerNames w0)) (cur (props w0)))
    (charging_current_of fs c (batteryChargingCurrent (props w0)))).
  { eexists. unfold mBatteryPropertiesUpdate.
    do 7 (eapply takes_bind; [apply takes_cur|]). eapply takes_bind; [apply takes_config|].
    eapply takes_bind; [apply takes_present|].
    eapply takes_bind; [by apply (takes_field _ _ set_batteryLevel batteryLevel (fun v => v)); intros []|].
    eapply takes_bind; [by apply (takes_field _ _ set_batteryVoltage batteryVoltage (fun v => Z.quot v 1000)); intros []|].
    eapply takes_bind; [by apply (takes_field _ _ set_batteryCurrent batteryCurrent (fun v => v)); intros []|].
    eapply takes_bind; [apply takes_current|].
    eapply takes_bind; [by apply (takes_field _ _ set_batteryChargeCounter batteryChargeCounter (fun v => v)); intros []|].
    eapply takes_bind; [by apply (takes_field _ _ set_batteryTemperature batteryTemperature (fun v => v)); intros []|].
    eapply takes_bind; [apply (takes_name _ set_batteryStatus batteryStatus); [by intros []|reflexivity]|].
    eapply takes_bind; [apply (takes_name _ set_batteryHealth batteryHealth); [by intros []|reflexivity]|].
    apply takes_loop. done. }
  destruct Ht as [b Ht]. eapply wp_mono; [|exact (Ht w0 Hstart)]. simpl. intros _ w [_ (x & _ & ->)]. done.
Qed.
End FileReadings.

(** ** Texts *)

(** A value of sysfs: a line. *)
Lemma line_of_line (s : string) : no_nul s = true -> line_of (str_bytes s ++ [10]) = s.
Proof.
  intros Hs. unfold line_of. rewrite rev_unit. simpl. rewrite length_app. simpl.
  rewrite Nat.add_sub, take_app_length. by apply cstr_bytes.
Qed.

Lemma itoa_no_nul (z : Z) : no_nul (itoa z) = true.
Proof.
  assert (Ha : forall a b, no_nul (a ++ b)%string = no_nul a && no_nul b).
  { induction a as [|c a IH]; intros b; simpl; [done|]. by rewrite IH, andb_assoc. }
  assert (Hd : forall d, 0 <= d < 10 -> negb (ord (digit d) =? 0) = true).
  { intros d Hd. unfold digit. rewrite ord_chr by lia. apply negb_true_iff, Z.eqb_neq. lia. }
  assert (Hp : forall fuel n, 0 <= n -> no_nul (print_nat fuel n) = true).
  { induction fuel as [|f IH]; intros n Hn; simpl; [done|]. destruct (Z.ltb_spec n 10); simpl.
    - by rewrite Hd by lia.
    - rewrite Ha, IH by (apply Z.div_pos; lia). simpl. rewrite Hd; [done|]. apply Z.mod_pos_bound. lia. }
  unfold itoa. destruct (Z.ltb_spec z 0); [|apply Hp; lia].
  change (no_nul (print_nat 20 (- z)) = true). apply Hp. lia.
Qed.

Lemma copy_while_take (n : nat) (s : list Z) : (1 <= n)%nat -> copy_while n s = take (n - 1) s.
Proof.
  revert n. induction s as [|c s IH]; intros n Hn; simpl; [by rewrite take_nil|].
  destruct (Nat.eqb_spec n 1) as [->|Hne]; [rewrite IH by lia; by destruct s|].
  destruct n as [|[|n]]; [lia|lia|]. simpl. rewrite IH by lia. simpl. by rewrite Nat.sub_0_r.
Qed.

Lemma end_of_bytes (siz : nat) (a : string) (rest : list Z) :
  no_nul a = true -> (String.length a < siz)%nat -> end_of siz (str_bytes a ++ 0 :: rest) = String.length a.
Proof.
  revert siz. induction a as [|c a IH]; intros siz Hn Hs; destruct siz as [|siz]; simpl in *; try lia.
  apply andb_prop in Hn as [Hc Hn]. apply negb_true_iff in Hc. rewrite Hc. f_equal. apply IH; [done|lia].
Qed.

Lemma str_bytes_app (a b : string) : str_bytes (a ++ b)%string = str_bytes a ++ str_bytes b.
Proof. induction a as [|c a IH]; simpl; [done|]. unfold str_bytes in *. simpl. by f_equal. Qed.

Lemma str_bytes_take (n : nat) (s : string) : str_bytes (substring 0 n s) = take n (str_bytes s).
Proof.
  revert n. induction s as [|c s IH]; intros n; destruct n as [|n]; simpl; try done.
  unfold str_bytes in *. simpl. f_equal. apply IH.
Qed.

(** ** Times *)

(** The quotients of the exact numbers: for what is left of a charge at a current, and for
    what is missing. *)
Definition charge_left (level ma : Z) : Z := fullEnergy * (level - 5) * 60 / (ma * 100).

Definition charge_missing (on : bool) (level current : Z) : Z :=
  if negb on || (current <=? 0) then -1
  else if level <=? cvChargingBegin then (cvChargingBegin - level) * fullEnergy * 60 / (current * 100) + cvCostTime
  else mBatteryGetCvTimeByLevel level.

Lemma time_to_empty_exact level ma :
  5 <= level <= 100 -> 0 < ma -> time_to_empty level ma = charge_left level ma /\ 0 <= charge_left level ma <= 21660000 / (ma * 100).
Proof.
  intros Hl Hm. unfold time_to_empty, charge_left, imul, fullEnergy. rewrite (wraps32_id (level - 5)) by lia.
  rewrite (wraps32_id (3800 * (level - 5))) by lia. rewrite (wraps32_id (3800 * (level - 5) * 60)) by lia.
  rewrite Z.quot_div_nonneg by lia. split; [done|]. split; [apply Z.div_pos; lia|apply Z.div_le_mono; lia].
Qed.

Lemma time_to_full_exact level current :
  0 <= level <= 85 -> 0 < current <= 2147483 ->
  time_to_full level current = (cvChargingBegin - level) * fullEnergy * 60 / (current * 100) + cvCostTime /\
  61 <= time_to_full level current <= 193861.
Proof.
  intros Hl Hc. unfold time_to_full, imul, cvChargingBegin, fullEnergy, cvCostTime.
  rewrite (wraps32_id (85 - level)) by lia. rewrite (wraps32_id ((85 - level) * 3800)) by lia.
  rewrite (wraps32_id ((85 - level) * 3800 * 60)) by lia. rewrite (wraps32_id (current * 100)) by lia.
  rewrite Z.quot_div_nonneg by lia.
  assert (0 <= (85 - level) * 3800 * 60 / (current * 100) <= 193800).
  { split; [apply Z.div_pos; lia|]. apply Z.div_le_upper_bound; [lia|]. nia. }
  rewrite wraps32_id by lia. split; [done|lia].
Qed.
