(* ===== verification/BatteryLife.v ===== *)
(** * The battery service at work

    What the service promises: the search for the power supplies, its rounds, the
    values it reads and reports; and the power manager that hears of the charger
    through its messages. *)

From Stdlib Require Import Ascii String.
From stdpp Require Import base gmap list.
From S2P Require Import Prelude CString Bytes CMonad Json BatteryWorld Battery BatteryProofs.
Open Scope string_scope.
Open Scope list_scope.
Open Scope Z_scope.

(** ** Search for the power supplies *)

(** The files of sysfs do not change while the directory is walked. *)
Class StaticFiles (X : Type) `{!BatEnv X} := {
  files : string -> file_read;
  readable : string -> bool;
  static_read path n x : be_read path n x = (files path, x);
  static_access path x : be_access path x = (readable path, x);
}.

Section Search.
Context {X : Type} {E : BatEnv X} {SF : StaticFiles X}.
Local Notation W := (bat X).

(** The type of an entry, as [readPowerSupplyType] gives it. *)
Definition supply_type (name : string) : Z :=
  match files (supply_path name "type") with
  | ReadBytes ((_ :: _) as l) => wrapu32 (mapSysfsString (line_of l) supplyTypeMap)
  | _ => ANDROID_POWER_SUPPLY_TYPE_UNKNOWN
  end.

Definition charger_name (name : string) : bool :=
  negb (String.eqb name "." || String.eqb name "..") && is_charger (supply_type name).

Lemma read_type_eq (w : W) name : readPowerSupplyType (supply_path name "type") w = Ret (supply_type name) w.
Proof.
  unfold readPowerSupplyType, readFromFile, bind, be, supply_type. rewrite static_read.
  assert (Ew : set_benv (benv w) w = w) by by destruct w. rewrite Ew.
  destruct (files _) as [| |[|c l]]; simpl; try done. unfold ret. f_equal.
  assert (0 <= wrapu32 (mapSysfsString (line_of (c :: l)) supplyTypeMap)) by (apply Z.mod_pos_bound; done).
  by rewrite (proj2 (Z.ltb_ge _ _)).
Qed.

(** Only the paths have changed. *)
Definition paths_only (w w' : W) : Prop := exists c, w' = set_mHealthdConfig (Some c) w.

Lemma first_readable_wp (w : W) name fs set :
  is_Some (mHealthdConfig w) -> wp (first_readable name fs set) (fun _ => paths_only w) w.
Proof.
  intros [c Hc]. induction fs as [|f fs IH]; simpl.
  - apply wp_ret. exists c. rewrite <-Hc. by destruct w.
  - apply wp_bind. unfold wp at 1, be. rewrite static_access.
    assert (Ew : set_benv (benv w) w = w) by by destruct w. rewrite Ew. destruct (readable _); [|exact IH].
    apply wp_bind, wp_bind, wp_gets. rewrite Hc. apply wp_ret, wp_modify. by eexists.
Qed.

Lemma look_for_wp (w : W) get set name fs :
  is_Some (mHealthdConfig w) -> wp (look_for get set name fs) (fun _ => paths_only w) w.
Proof.
  intros [c Hc]. apply wp_bind, wp_bind, wp_gets. rewrite Hc. apply wp_ret. destruct (String.eqb _ _); simpl.
  - by apply first_readable_wp.
  - apply wp_ret. exists c. rewrite <-Hc. by destruct w.
Qed.

(** A chain of searches. *)
Lemma look_bind_wp {A} (w : W) get set name fs (k : M W A) (Q : A -> W -> Prop) :
  is_Some (mHealthdConfig w) ->
  (forall w', paths_only w w' -> wp k Q w') -> wp (look_for get set name fs ;; k) Q w.
Proof. intros Hc Hk. apply wp_bind. eapply wp_mono; [|by apply look_for_wp]. intros ? w' Hw. by apply Hk. Qed.

Lemma paths_only_trans w1 w2 w3 : paths_only w1 w2 -> paths_only w2 w3 -> paths_only w1 w3.
Proof. intros [c ->] [c' ->]. by exists c'. Qed.

Lemma paths_only_config w w' : paths_only w w' -> is_Some (mHealthdConfig w').
Proof. intros [c ->]. by eexists. Qed.

Lemma battery_entry_wp (w : W) name : is_Some (mHealthdConfig w) -> wp (battery_entry name) (fun _ => paths_only w) w.
Proof.
  intros Hc. unfold battery_entry.
  do 8 (apply look_bind_wp; [eauto using paths_only_config|]; intros ? ?).
  eapply wp_mono; [|apply look_for_wp; eauto using paths_only_config]. intros ? w'' Hw. eauto 20 using paths_only_trans.
Qed.

(** The chargers found so far. *)
Record found (w : W) (l : list string) : Prop := {
  fo_config : is_Some (mHealthdConfig w);
  fo_len : length (mChargerNames w) = maxChargerNum;
  fo_num : mChargerNum w = Z.of_nat (length l);
  fo_fit : (length l <= maxChargerNum)%nat;
  fo_names : forall i name, l !! i = Some name -> readable (supply_path name "online") = true -> mChargerNames w !! i = Some name;
}.

Lemma found_paths w w' l : found w l -> paths_only w w' -> found w' l.
Proof. intros [Hc Hl Hn Hf Hs] [c ->]. split; simpl; [by eexists|done..]. Qed.

(** A charger is stored, or there is no room for it. *)
Lemma add_charger_wp (w : W) l name :
  found w l -> strlen name < maxChargerNameSize ->
  match add_charger name w with
  | Ret _ w' => (length l < maxChargerNum)%nat /\ found w' (l ++ [name])
  | Fault f => length l = maxChargerNum /\ (f = BufferOverflow \/ f = OutOfBounds)
  end.
Proof.
  intros [Hc Hl Hn Hf Hs] Hlen. unfold add_charger, bind, be. rewrite static_access.
  assert (Ew : set_benv (benv w) w = w) by by destruct w. rewrite Ew.
  destruct (decide (length l < maxChargerNum)%nat) as [Hlt|Hge].
  - assert (Hlk : is_Some (mChargerNames w !! length l)) by (apply lookup_lt_is_Some; lia).
    destruct (readable (supply_path name "online")) eqn:Er; simpl.
    + unfold store_charger, bind, gets. rewrite Hn.
      rewrite (proj2 (Z.leb_le 0 _)), (proj2 (Z.ltb_lt _ (Z.of_nat maxChargerNum))), (proj2 (Z.ltb_lt _ maxChargerNameSize)) by lia.
      simpl. rewrite Nat2Z.id. unfold modify. simpl. rewrite Hn, Nat2Z.id, list_lookup_insert_eq by (rewrite Hl; lia).
      split; [done|]. split; simpl; [done|by rewrite length_insert|rewrite length_app; simpl; lia|rewrite length_app; simpl; lia|].
      intros i s Hi Hr. destruct (decide (i = length l)) as [->|Hne].
      * rewrite lookup_app_r, Nat.sub_diag in Hi by lia. simplify_eq/=. rewrite list_lookup_insert_eq; [done|lia].
      * rewrite list_lookup_insert_ne by done. apply Hs; [|done]. rewrite lookup_app_l in Hi; [done|].
        apply lookup_lt_Some in Hi. rewrite length_app in Hi. simpl in Hi. lia.
    + unfold ret, gets. rewrite Hn, Nat2Z.id. destruct Hlk as [s0 ->]. unfold modify. split; [done|].
      split; simpl; [done|done|rewrite length_app; simpl; lia|rewrite length_app; simpl; lia|].
      intros i s Hi Hr. destruct (decide (i = length l)) as [->|Hne].
      * rewrite lookup_app_r, Nat.sub_diag in Hi by lia. simplify_eq/=. congruence.
      * apply Hs; [|done]. rewrite lookup_app_l in Hi; [done|].
        apply lookup_lt_Some in Hi. rewrite length_app in Hi. simpl in Hi. lia.
  - assert (length l = maxChargerNum) as Heq by lia. destruct (readable _); simpl.
    + unfold store_charger, bind, gets. rewrite Hn, Heq. simpl. auto.
    + unfold ret, gets. rewrite Hn, Nat2Z.id, (lookup_ge_None_2 (mChargerNames w)) by lia. simpl. auto.
Qed.

(** One entry of the directory. *)
Lemma supply_entry_wp (w : W) l name :
  found w l -> strlen name < maxChargerNameSize ->
  match supply_entry name w with
  | Ret _ w' => found w' (if charger_name name then l ++ [name] else l)
  | Fault f => charger_name name = true /\ length l = maxChargerNum /\ (f = BufferOverflow \/ f = OutOfBounds)
  end.
Proof.
  intros Hf Hlen. unfold supply_entry, charger_name. destruct (String.eqb name "." || String.eqb name ".."); [done|]. simpl.
  unfold bind. rewrite read_type_eq. destruct (is_charger (supply_type name)) eqn:Ec.
  - assert (Hp : wp (look_for batteryChargingCurrentPath set_batteryChargingCurrentPath name ["constant_charge_current"] ;;
                     look_for batteryTemperaturePath set_batteryTemperaturePath name ["temp"]) (fun _ => paths_only w) w).
    { apply look_bind_wp; [apply Hf|]. intros w1 H1. eapply wp_mono; [|apply look_for_wp; eauto using paths_only_config].
      intros ? w2 H2. by eapply paths_only_trans. }
    unfold wp, charger_entry, bind in *. destruct (look_for _ _ _ _ w) as [[] w1|]; [|done].
    destruct (look_for _ _ _ _ w1) as [[] w2|]; [|done].
    pose proof (add_charger_wp w2 l name (found_paths _ _ _ Hf Hp) Hlen) as Ha.
    destruct (add_charger name w2) as [[] w3|f]; [apply Ha|by split].
  - destruct (_ =? _); [|done]. pose proof (battery_entry_wp w name (fo_config _ _ Hf)) as Hb. unfold wp in Hb.
    destruct (battery_entry name w); [by eapply found_paths|done].
Qed.

Lemma entries_wp entries (w : W) l :
  found w l -> Forall (fun n => strlen n < maxChargerNameSize) entries ->
  match for_each entries supply_entry w with
  | Ret _ w' => found w' (l ++ List.filter charger_name entries)
  | Fault f => (maxChargerNum < length l + length (List.filter charger_name entries))%nat /\ (f = BufferOverflow \/ f = OutOfBounds)
  end.
Proof.
  revert w l. induction entries as [|n entries IH]; intros w l Hf Hlen; simpl; [by rewrite app_nil_r|].
  apply Forall_cons in Hlen as [Hn Hlen]. unfold bind. pose proof (supply_entry_wp w l n Hf Hn) as Hs.
  destruct (supply_entry n w) as [[] w'|f].
  - specialize (IH w' _ Hs Hlen). destruct (charger_name n); [|exact IH]. rewrite <-app_assoc, length_app in IH. simpl in *.
    destruct (for_each _ _ w') as [u w''|f]; [exact IH|]. split; [lia|apply IH].
  - destruct Hs as (-> & Heq & Hf'). simpl. split; [lia|done].
Qed.
End Search.

Section Claims.
Context {X : Type} {E : BatEnv X}.
Local Notation W := (bat X).

(** C35: The search for the power supplies, over files that do not change and with
    names that fit: with at most six chargers in the directory it does not fault,
    counts them all and stores, at its place, the name of each whose [online] file can
    be read; with a seventh it leaves the array of names. *)
Theorem supply_search_spec `{!StaticFiles X} (w : W) (entries : list string) :
  is_Some (mHealthdConfig w) -> length (mChargerNames w) = maxChargerNum -> mChargerNum w = 0 ->
  be_readdir POWER_SUPPLY_SYSFS_PATH (benv w) = (Some entries, benv w) ->
  Forall (fun n => strlen n < maxChargerNameSize) entries ->
  let chargers := List.filter charger_name entries in
  match mHealthdConfigUpdate w with
  | Ret _ w' => (length chargers <= maxChargerNum)%nat /\ mChargerNum w' = Z.of_nat (length chargers) /\
      (forall i name, chargers !! i = Some name -> readable (supply_path name "online") = true ->
         mChargerNames w' !! i = Some name)
  | Fault f => (maxChargerNum < length chargers)%nat /\ (f = BufferOverflow \/ f = OutOfBounds)
  end.
Proof.
  intros Hc Hl Hn Hd Hs chargers. unfold mHealthdConfigUpdate, bind, be. rewrite Hd.
  assert (Ew : set_benv (benv w) w = w) by by destruct w. rewrite Ew.
  assert (Hf : found w []) by (split; [done|done|done|simpl; lia|by intros i name Hi]).
  pose proof (entries_wp entries w [] Hf Hs) as H. simpl in H. fold chargers in H.
  destruct (for_each entries supply_entry w) as [[] w'|f]; [|done].
  destruct H as [[c Hc'] Hl' Hn' Hf' Hs']. unfold config, bind, gets. rewrite Hc'. simpl. done.
Qed.


(** C37: The arithmetic of [mBatteryUseTimeReport] is exact: with a level of 0 to 100 and
    a charging current of at most 2147483 (an [int] divided by 1000), no product of [int]s
    overflows and each of the three values stored is the one that its formula has over the
    integers: from -1 to 481 for the discharge at 450 mA, to 12033 for that at 18 mA, and
    to 193861 for the charge. *)
Theorem use_time_report_spec (w : W) :
  0 <= batteryLevel (cur (props w)) <= 100 -> batteryChargingCurrent (props w) <= 2147483 ->
  let level := batteryLevel (cur (props w)) in
  let empty := if level <? 5 then -1 else charge_left level 450 in
  let sleep := if level <? 5 then -1 else charge_left level 18 in
  let full := charge_missing (online (cur (props w))) level (batteryChargingCurrent (props w)) in
  mBatteryUseTimeReport w = set_times full empty sleep w /\
  -1 <= empty <= 481 /\ -1 <= sleep <= 12033 /\ -1 <= full <= 193861.
Proof.
  intros Hl Hc level empty sleep full. unfold mBatteryUseTimeReport, bind, gets. fold level.
  assert (He : (if level <? 5 then -1 else time_to_empty level 450) = empty /\ -1 <= empty <= 481).
  { unfold empty. destruct (Z.ltb_spec level 5); [lia|].
    destruct (time_to_empty_exact level 450) as [-> Hb]; [unfold level; lia|lia|]. split; [done|].
    change (21660000 / (450 * 100)) with 481 in Hb. lia. }
  assert (Hs : (if level <? 5 then -1 else time_to_empty level 18) = sleep /\ -1 <= sleep <= 12033).
  { unfold sleep. destruct (Z.ltb_spec level 5); [lia|].
    destruct (time_to_empty_exact level 18) as [-> Hb]; [unfold level; lia|lia|]. split; [done|].
    change (21660000 / (18 * 100)) with 12033 in Hb. lia. }
  destruct He as [-> He], Hs as [-> Hs]. set (cc := batteryChargingCurrent (props w)) in *.
  assert (Hf : (if negb (online (cur (props w))) then -1
    else if (level <=? cvChargingBegin) && (0 <? cc) then time_to_full level cc
    else if (cvChargingBegin <? level) && (level <=? 100) && (0 <? cc) then mBatteryGetCvTimeByLevel level else -1) = full /\
    -1 <= full <= 193861).
  { unfold full, charge_missing. destruct (online _); simpl; [|lia]. unfold cvChargingBegin in *.
    destruct (Z.leb_spec cc 0) as [Hc0|Hc0]; [rewrite (proj2 (Z.ltb_ge 0 cc)), !andb_false_r by lia; lia|].
    rewrite (proj2 (Z.ltb_lt 0 cc)) by lia. destruct (Z.leb_spec level 85) as [H85|H85]; simpl.
    - destruct (time_to_full_exact level cc) as [E1 E2]; [unfold level; lia|lia|]. unfold cvChargingBegin in E1. rewrite <-E1. lia.
    - rewrite (proj2 (Z.ltb_lt 85 level)), (proj2 (Z.leb_le level 100)) by (unfold level in *; lia). simpl. split; [done|].
      assert (Hv : level ∈ seqZ 86 15) by (apply elem_of_seqZ; unfold level in *; lia).
      assert (Ht : Forall (fun l => 0 <= mBatteryGetCvTimeByLevel l <= 61) (seqZ 86 15)) by (vm_compute; repeat constructor; discriminate).
      rewrite Forall_forall in Ht. specialize (Ht level Hv). lia. }
  destruct Hf as [-> Hf]. done.
Qed.

(** An integer that the kernel prints into a file of sysfs is the one read from
    it. *)
Theorem int_field_roundtrip (w : W) (path : string) (z : Z) (x : X) :
  - 2 ^ 31 <= z < 2 ^ 31 -> be_read path 128 (benv w) = (ReadBytes (str_bytes (itoa z) ++ [10]), x) ->
  getIntField path w = Ret z (set_benv x w).
Proof.
  intros Hz Hr. unfold getIntField, readFromFile, bind, be. rewrite Hr. unfold ret.
  rewrite line_of_line by apply itoa_no_nul. rewrite strtol0_itoa, wraps32_id by lia.
  rewrite length_app. simpl. by rewrite (proj2 (Z.ltb_lt 0 _)) by lia.
Qed.
End Claims.

(** [strlcat] on a string in its buffer, which ends within the given size: the
    result is the length that was asked for, and the buffer holds the concatenation
    cut to the size, with the rest of the bytes untouched. *)
Theorem strlcat_spec (a src : string) (rest : list Z) (siz : nat) :
  no_nul a = true -> (String.length a < siz)%nat ->
  let s := substring 0 (siz - 1) (a ++ src)%string in
  strlcat (str_bytes a ++ 0 :: rest) src siz =
  (strlen a + strlen src, str_bytes s ++ 0 :: drop (String.length s - String.length a) rest).
Proof.
  intros Ha Hs s. unfold strlcat. rewrite end_of_bytes by done.
  rewrite (proj2 (Nat.eqb_neq _ 0)) by lia. f_equal. rewrite copy_while_take by lia.
  assert (Es : str_bytes s = str_bytes a ++ take (siz - String.length a - 1) (str_bytes src)).
  { unfold s. rewrite str_bytes_take, str_bytes_app, take_app, length_str_bytes.
    rewrite take_ge by (rewrite length_str_bytes; lia). do 2 f_equal. lia. }
  assert (El : String.length s = (String.length a + length (take (siz - String.length a - 1) (str_bytes src)))%nat).
  { rewrite <-length_str_bytes, Es, length_app, length_str_bytes. done. }
  rewrite Es, El, <-!app_assoc. rewrite take_app_length' by (by rewrite length_str_bytes). do 3 f_equal.
  rewrite drop_app_ge by (rewrite length_str_bytes; lia). rewrite length_str_bytes.
  replace (_ + _ + 1 - _)%nat with (S (length (take (siz - String.length a - 1) (str_bytes src)))) by lia.
  replace (_ + _ - _)%nat with (length (take (siz - String.length a - 1) (str_bytes src))) by lia. done.
Qed.

(** ** A concrete system *)

(** Sysfs as a table of files; the event files of the keys are [db_events]. *)
Record demo_board := mk_demo_board { db_files : list (string * string); db_events : nat }.

Definition demo_file (b : demo_board) (path : string) : option string :=
  option_map snd (List.find (fun p => String.eqb (fst p) path) (db_files b)).

Definition demo_entries (b : demo_board) : list string :=
  omap (fun p => let rest := substring 24 (String.length (fst p) - 29) (fst p) in
                 if String.eqb (fst p) (supply_path rest "type") then Some rest else None) (db_files b).

(** The files are shorter than the buffers, and do not change. *)
Definition demo_bat_env (b : demo_board) : BatEnv unit := {|
  be_read path n x :=
    (match demo_file b path with Some s => ReadBytes (str_bytes s) | None => NoFile end, x);
  be_access path x := (match demo_file b path with Some _ => true | None => false end, x);
  be_readdir path x := (Some (demo_entries b), x);
  be_malloc x := (true, x);
  be_open_led x := (true, x);
  be_fopen_mode x := (true, x);
  be_fgetc_mode x := (Some 48, x);
  be_pthread_create x := (0, x);
  be_flora_connect x := (0, x);
  be_open_event path x := (if Nat.eqb (db_events b) 0 then -1 else 5, x);
  be_select fds x := ((0, []), x);
  be_read_event fd x := (None, x);
  be_clock x := ((0, 0), x);
|}.

Definition newline : string := String LF "".

Definition entry_files (name type : string) (l : list (string * string)) : list (string * string) :=
  (supply_path name "type", (type ++ newline)%string) :: map (fun p => (supply_path name (fst p), (snd p ++ newline)%string)) l.

Definition demo_bat_board : demo_board :=
  mk_demo_board (entry_files "ac" "Mains" [("online", "1"); ("constant_charge_current", "500000")] ++
                 entry_files "bat" "Battery" [("capacity", "50"); ("status", "Charging"); ("temp", "253")]) 0.

#[export] Instance demo_bat : BatEnv unit := demo_bat_env demo_bat_board.

#[export] Instance demo_bat_static : StaticFiles unit.
Proof.
  refine {| files path := fst (be_read path 0 tt); readable path := fst (be_access path tt) |}; by intros ? [] || intros ? ? [].
Defined.

Definition demo_config : healthd_config := mk_config "" "" "" "" "" "" "" "" "" "".

Definition no_readings : readings := mk_readings false false false 0 0 0 0 false 0 0 0 0 0 0 0.

(** The process after [mHealthdConfigInit]. *)
Definition demo_bat_start : bat unit :=
  mk_bat (Some demo_config) (mk_props no_readings no_readings 0 0 0 0) (repeat "" maxChargerNum) 0 true true false 0 [] tt.

Definition run_state {A} (r : outcome (bat unit) A) : bat unit :=
  match r with Ret _ w => w | Fault _ => demo_bat_start end.

(** And after the search. *)
Definition demo_bat_ready : bat unit := run_state (mHealthdConfigUpdate demo_bat_start).

Lemma supply_search_spec_witness :
  List.filter charger_name ["ac"; "bat"] = ["ac"] /\
  match mHealthdConfigUpdate demo_bat_start with
  | Ret _ w' => (length (List.filter charger_name ["ac"; "bat"]) <= maxChargerNum)%nat /\
      mChargerNum w' = Z.of_nat (length (List.filter charger_name ["ac"; "bat"])) /\
      (forall i name, List.filter charger_name ["ac"; "bat"] !! i = Some name -> readable (supply_path name "online") = true ->
         mChargerNames w' !! i = Some name)
  | Fault f => (maxChargerNum < length (List.filter charger_name ["ac"; "bat"]))%nat /\ (f = BufferOverflow \/ f = OutOfBounds)
  end.
Proof.
  split; [vm_compute; reflexivity|].
  apply (supply_search_spec demo_bat_start ["ac"; "bat"]); [by eexists|reflexivity|reflexivity|vm_compute; reflexivity|].
  repeat (apply List.Forall_cons; [vm_compute; reflexivity|]). apply List.Forall_nil.
Defined.

Lemma demo_bat_ready_ok : bat_ready demo_bat_ready.
Proof. vm_compute. split; [by eexists|reflexivity|split; [reflexivity|discriminate]]. Qed.

#[export] Instance demo_bat_files : SysFiles unit.
Proof. refine {| sys_file x path n := fst (be_read path n x) |}. intros path n []. by exists tt. Defined.


(** A charging battery at 50 percent. *)
Definition demo_half : bat unit :=
  set_props (mk_props (set_batteryLevel 50 (set_chargerAcOnline true no_readings)) no_readings 500 0 0 0) demo_bat_start.

Lemma use_time_report_spec_witness :
  charge_left 50 450 = 228 /\ charge_left 50 18 = 5700 /\ charge_missing true 50 500 = 220 /\
  mBatteryUseTimeReport demo_half = set_times 220 228 5700 demo_half.
Proof.
  do 3 (split; [vm_compute; reflexivity|]).
  refine (proj1 (use_time_report_spec demo_half _ _)); vm_compute; [split; discriminate|discriminate].
Defined.

Lemma int_field_roundtrip_witness :
  getIntField (supply_path "bat" "capacity") demo_bat_start = Ret 50 demo_bat_start.
Proof.
  apply (int_field_roundtrip demo_bat_start (supply_path "bat" "capacity") 50 tt); [lia|vm_compute; reflexivity].
Defined.

Lemma strlcat_spec_witness :
  strlcat (str_bytes "abc" ++ [0; 7; 7; 7; 7]) "defgh" 6 = (8, str_bytes "abcde" ++ [0; 7; 7]).
Proof. apply (strlcat_spec "abc" "defgh" [7; 7; 7; 7] 6); [reflexivity|simpl; lia]. Defined.

(** ** Boards that the service does not expect *)

(** A seventh charger is written past the array of names. *)
Theorem seven_chargers_fault :
  mHealthdConfigUpdate
    (E := demo_bat_env (mk_demo_board (concat (map (fun n => entry_files n "USB" [("online", "0")]) ["a"; "b"; "c"; "d"; "e"; "f"; "g"])) 0))
    demo_bat_start = Fault BufferOverflow.
Proof. vm_compute. reflexivity. Qed.

(** Without an event file the poll reads before its array of descriptors. *)
Theorem no_keys_fault : mPowerOffChargingPoll (UL := lp64) [0%nat] demo_bat_ready = Fault OutOfBounds.
Proof. vm_compute. reflexivity. Qed.

(** A [present] file whose 0 is not followed by a newline reads as true. *)
Theorem no_newline_is_true :
  getBooleanField (E := demo_bat_env (mk_demo_board [("present", "0")] 0)) "present" demo_bat_start = Ret true demo_bat_start.
Proof. vm_compute. reflexivity. Qed.

(** A supply type that is not in the table is not mapped to the unknown one. *)
Theorem unknown_type_not_caught :
  readPowerSupplyType (E := demo_bat_env (mk_demo_board [("type", ("BMS" ++ newline)%string)] 0)) "type" demo_bat_start =
  Ret (2 ^ 32 - 1) demo_bat_start.
Proof. vm_compute. reflexivity. Qed.
