(* ===== verification/BatteryPower.v ===== *)
(** * Battery and power together

    The power manager learns of the charger from the messages of the battery service:
    both at work, with whatever other messages in between, keep the kernel's charger
    lock in step with the charger.  And the services on a concrete system. *)

From Stdlib Require Import Ascii String.
From stdpp Require Import base gmap list strings.
From S2P Require Import Prelude CString Bytes CMonad Json Dll Timer LoopWorld LoopLife LoopTimers.
From S2P Require Import Power PowerMgr PowerProofs PowerSpec PowerLife.
From S2P Require Import BatteryWorld Battery BatteryProofs BatteryLife.
Open Scope string_scope.
Open Scope list_scope.
Open Scope Z_scope.

(** ** The last word on the charger *)

Definition charging_flag (m : json) : option bool :=
  match m with JObj ((_, JBool b) :: _) => Some b | _ => None end.

Definition is_battery_message (m : json) : Prop := exists b p, m = battery_message b p.

Section Rounds.
Context {X : Type} {E : BatEnv X}.
Local Notation W := (bat X).

(** The last message says whether a charger is online. *)
Record informed (w : W) : Prop := {
  in_ready : bat_ready w;
  in_last : last_ (props w) = cur (props w);
  in_need : mNeedSendMsg w = false;
  in_posts : Forall is_battery_message (posts (blog w));
  in_told : exists m, last (posts (blog w)) = Some m /\ charging_flag m = Some (online (cur (props w)));
}.

(** Nothing was said yet. *)
Record silent (w : W) : Prop := {
  si_ready : bat_ready w;
  si_need : mNeedSendMsg w = true;
  si_posts : posts (blog w) = [];
}.

Lemma first_round (w : W) : silent w -> wp bat_service_msg_send (fun _ => informed) w.
Proof.
  intros [Hr Hn Hp]. eapply wp_mono; [|by apply round_wp]. simpl. intros r w' [_ [Hr' Hl Hn' _ Hp' _ _]].
  rewrite Hn, Hp in Hp'. simpl in Hp'. split; [done..| |]; rewrite Hp'.
  - constructor; [|constructor]. by eexists _, _.
  - by eexists.
Qed.

Lemma next_round (w : W) : informed w -> wp bat_service_msg_send (fun _ => informed) w.
Proof.
  intros [Hr Hl Hn Hp (m & Hm & Hf)]. eapply wp_mono; [|by apply round_wp]. simpl. intros r w' [_ [Hr' Hl' Hn' _ Hp' _ _]].
  rewrite Hn, Hl in Hp'. simpl in Hp'. split; [done..| |]; rewrite Hp'.
  - apply Forall_app. split; [done|]. destruct (negb _); [|constructor]. constructor; [|constructor]. by eexists _, _.
  - destruct (same_report (cur (props w)) (cur (props w'))) eqn:Es; simpl.
    + exists m. rewrite app_nil_r. split; [done|]. by rewrite <-(same_report_online _ _ Es).
    + eexists. rewrite last_snoc. by split.
Qed.

Lemma rounds_inform n (w : W) : silent w -> wp (bat_service_loop_run (S n)) (fun _ => informed) w.
Proof.
  intros Hs. apply wp_bind. eapply wp_mono; [|by apply first_round]. intros ? w' Hw. clear w Hs.
  revert w' Hw. induction n as [|n IH]; intros w Hw; [by apply wp_ret|].
  apply wp_bind. eapply wp_mono; [|by apply next_round]. intros ? w' Hw'. by apply IH.
Qed.
End Rounds.

(** ** Messages on their way *)

(** json-c: the text of a message of the battery service reads back as an object whose
    charger field is the boolean's name. *)
Class JsonText {J : JsonC} := {
  json_object_to_json_string : json -> string;
  print_charging b p : exists o v,
    json_tokener_parse (json_object_to_json_string (battery_message b p)) = Some o /\
    json_object_object_get_ex (Some o) "batChargingOnline" = Some v /\
    json_object_get_string v = Some (if b then "true" else "false");
}.

Section Messages.
Context {J : JsonC} {JT : JsonText}.

(** The texts among the inputs of the power manager that come from the battery service. *)
Definition battery_text (i : pm_input) : option string :=
  match i with
  | Message name (Some text) => if String.eqb name MSG_BATTERY then Some text else None
  | _ => None
  end.

Lemma battery_request b p :
  request_of (Message MSG_BATTERY (Some (json_object_to_json_string (battery_message b p)))) = ReqCharging b.
Proof.
  destruct (print_charging b p) as (o & v & E1 & E2 & E3). simpl. unfold on_command. rewrite E1, E2, E3. by destruct b.
Qed.

(** Other inputs do not concern the charger. *)
Lemma other_request i s :
  request_of i <> ReqCrash -> battery_text i = None -> s_charging (spec_step (request_of i) s) = s_charging s.
Proof.
  intros Hc Hb.
  assert (Hr : forall b, request_of i <> ReqCharging b).
  { intros b. destruct i as [name buf| |]; [|done|done]. simpl in *. unfold on_command in *.
    destruct (String.eqb_spec name MSG_BATTERY) as [->|Hne]; [by destruct buf|].
    repeat case_match; try done; unfold lock_request in *; repeat case_match; done. }
  destruct (request_of i) as [| | | |b| | | | | |]; try done; [by destruct (Hr b)|]. simpl. by destruct (s_app s).
Qed.

Lemma run_charging inputs msgs s m b :
  Forall (fun i => request_of i <> ReqCrash) inputs -> Forall is_battery_message msgs ->
  omap battery_text inputs = map json_object_to_json_string msgs ->
  last msgs = Some m -> charging_flag m = Some b -> s_charging (spec_run inputs s) = b.
Proof.
  intros Hc Hm Ht Hl Hf.
  assert (H : forall msgs s, Forall is_battery_message msgs -> omap battery_text inputs = map json_object_to_json_string msgs ->
     s_charging (spec_run inputs s) = default (s_charging s) (m ← last msgs; charging_flag m)).
  { clear msgs s Hm Ht Hl. induction inputs as [|i inputs IH]; intros msgs s Hm Ht; simpl in *.
    - by destruct msgs.
    - apply Forall_cons in Hc as [Hi Hc]. destruct (battery_text i) as [t|] eqn:Et.
      + destruct msgs as [|m0 msgs]; [done|]. simpl in Ht. injection Ht as -> Ht. apply Forall_cons in Hm as [(b0 & p0 & ->) Hm].
        assert (Ei : request_of i = ReqCharging b0).
        { destruct i as [name [text|]| |]; try done. simpl in Et. destruct (String.eqb_spec name MSG_BATTERY) as [->|]; [|done].
          injection Et as ->. apply battery_request. }
        rewrite (IH Hc msgs _ Hm Ht), Ei. rewrite last_cons. simpl. destruct (last msgs) as [m1|] eqn:Em; simpl; [|done].
        apply last_Some_elem_of in Em. rewrite Forall_forall in Hm. destruct (Hm _ Em) as (b1 & p1 & ->). done.
      + rewrite (IH Hc msgs _ Hm Ht), other_request by done. done. }
  rewrite (H msgs s Hm Ht), Hl. simpl. by rewrite Hf.
Qed.
End Messages.

(** ** Both services *)

Section System.
Context {B : Type} {BE : BatEnv B}.
Context {T X : Type} {TI : Timers T} {TO : TimersOk T} {PE : PowerEnv X} {PK : PowerKernel X} {PU : PowerUp X}.
Context {J : JsonC} {JT : JsonText}.

(** C7: After any number of rounds of the battery service, a power manager that has
    received its messages in their order, among any readable others, makes the kernel
    hold the [charger] wakelock exactly when the last round saw a charger online: no
    change of the charger goes unreported, and no other message disturbs the lock. *)
Theorem charger_lock_follows (wb : bat B) (w : pm T X) (n rounds : nat) :
  silent wb -> booting w -> loop_starts (ptimers w) ->
  wp (bat_service_loop_run (S n))
     (fun _ wb' => forall inputs,
        omap battery_text inputs = map json_object_to_json_string (posts (blog wb')) ->
        Forall (fun i => request_of i <> ReqCrash) inputs -> Z.of_nat (length inputs) < 2 ^ 31 ->
        wp (power_main (S rounds) [] inputs)
           (fun r w' => r = 0 /\ (CHG_WAKELOCK ∈ kheld (penv w') <-> online (cur (props wb')) = true)) w) wb.
Proof.
  intros Hs Hb Hst. eapply wp_mono; [|by apply rounds_inform]. simpl.
  intros _ wb' [_ _ _ Hp (m & Hl & Hf)] inputs Ht Hc Hz. eapply wp_mono; [|by apply power_main_serves].
  simpl. intros r w' [-> Hw]. split; [done|]. rewrite (sv_held _ _ Hw). unfold locks_of.
  rewrite (run_charging inputs _ _ _ _ Hc Hp Ht Hl Hf). assert (CHG_WAKELOCK <> PMS_WAKELOCK) by done.
  destruct (online _), (bool_decide _); set_solver.
Qed.
End System.

(** ** A concrete system *)

Definition words_text (m : json) : string :=
  match m with
  | JObj ((k, JBool b) :: _) => (k ++ " " ++ (if b then "true" else "false"))%string
  | _ => ""
  end.

#[export] Instance words_json_text : JsonText (J := words_json).
Proof.
  refine {| json_object_to_json_string := words_text |}. intros b p.
  exists [("batChargingOnline", if b then "true" else "false")], (Some [("batChargingOnline", if b then "true" else "false")]).
  by destruct b.
Defined.

Lemma demo_silent : silent demo_bat_ready.
Proof. split; [exact demo_bat_ready_ok|vm_compute; reflexivity|vm_compute; reflexivity]. Qed.

Lemma charger_lock_follows_witness :
  wp (bat_service_loop_run 3)
     (fun _ wb' => forall inputs,
        omap battery_text inputs = map json_object_to_json_string (posts (blog wb')) ->
        Forall (fun i => request_of i <> ReqCrash) inputs -> Z.of_nat (length inputs) < 2 ^ 31 ->
        wp (power_main 1 [] inputs)
           (fun r w' => r = 0 /\ (CHG_WAKELOCK ∈ kheld (penv w') <-> online (cur (props wb')) = true)) demo_pm) demo_bat_ready.
Proof.
  apply (charger_lock_follows demo_bat_ready demo_pm 2 0); [exact demo_silent|exact (proj1 demo_pm_boots)|exact (proj2 demo_pm_boots)].
Defined.

(** The same system, run: the charger is online and its lock is held. *)
Example demo_system_runs :
  let wb := run_state (bat_service_loop_run 3 demo_bat_ready) in
  let inputs := lock "a" :: map (fun m => Message MSG_BATTERY (Some (words_text m))) (posts (blog wb)) ++ [unlock "a"; force_sleep] in
  length (posts (blog wb)) = 1%nat /\ online (cur (props wb)) = true /\
  seen (demo_run inputs) = Some (1, [CHG_WAKELOCK], []).
Proof. vm_compute. split_and!; reflexivity. Qed.
