(* ===== verification/BtWorld.v ===== *)
(** * The state of the Bluetooth service

    The handle of [framework/services/bluetooth] with the profiles' states, the devices
    to connect again, the calls of the Bluetooth HAL with what they answer, and the
    messages the service posts. *)

From Stdlib Require Import Ascii String.
From stdpp Require Import base gmap list strings.
From S2P Require Import Prelude CString Bytes CMonad Json Dll Timer.
Open Scope string_scope.
Open Scope list_scope.
Open Scope Z_scope.

(** ** Constants *)

Definition BLE_STATUS_MASK : Z := 1.
Definition BLE_CLIENT_STATUS_MASK : Z := 2.
Definition A2DP_SOURCE_STATUS_MASK : Z := 4.
Definition A2DP_SINK_STATUS_MASK : Z := 8.
Definition HFP_STATUS_MASK : Z := 16.
Definition HID_HOST_STATUS_MASK : Z := 32.

Definition BLUETOOTH_FUNCTION_COMMON : Z := 0.
Definition BLUETOOTH_FUNCTION_BLE : Z := 1.
Definition BLUETOOTH_FUNCTION_BLE_CLIENT : Z := 2.
Definition BLUETOOTH_FUNCTION_A2DPSINK : Z := 3.
Definition BLUETOOTH_FUNCTION_A2DPSOURCE : Z := 4.
Definition BLUETOOTH_FUNCTION_HFP : Z := 5.
Definition BLUETOOTH_FUNCTION_HH : Z := 6.
Definition BLUETOOTH_FUNCTION_BLE_CLI_NOTIFY : Z := 7.
Definition BLUETOOTH_FUNCTION_BLE_CLI_READ : Z := 8.

Definition ROKIDOS_BT_AUTOCONNECT_BY_SCANRESULTS : Z := 0.
Definition ROKIDOS_BT_AUTOCONNECT_BY_HISTORY : Z := 1.
Definition ROKIDOS_BT_AUTOCONNECT_MODE : Z := ROKIDOS_BT_AUTOCONNECT_BY_HISTORY.
Definition ROKIDOS_BT_AUTOCONNECT_DEVICES_MAX_NUM : Z := 3.
Definition ROKIDOS_BT_A2DPSINK_AUTOCONNECT_NUM : Z := 2.
Definition ROKIDOS_BT_A2DPSOURCE_AUTOCONNECT_NUM : Z := 1.
Definition ROKIDOS_BT_A2DPSINK_AUTOCONNECT_FILE : string := "/data/bluetooth/bt_a2dpsink.json".
Definition ROKIDOS_BT_A2DPSOURCE_AUTOCONNECT_FILE : string := "/data/bluetooth/bt_a2dpsource.json".

Definition AUTOCONNECT_BY_HISTORY_INIT : Z := 99.
Definition AUTOCONNECT_BY_HISTORY_WORK : Z := 100.
Definition AUTOCONNECT_BY_HISTORY_OVER : Z := 101.

Definition BT_A2DP_SOURCE : Z := 0.
Definition BT_A2DP_SINK : Z := 1.
Definition BT_ALL : Z := 7.
Definition BT_DISC_NB_DEVICES : nat := 30.

Definition BT_NAME_LEN : nat := 249.
Definition BT_ADDR_LEN : nat := 6.
Definition MAX_LEN_UUID_STR : nat := 37.

(** ** Devices to connect again *)

Record bt_autoconnect_device := mk_autoconnect_device { b_name : list Z; b_addr : list Z }.

#[export] Instance autoconnect_device_eq_dec : EqDecision bt_autoconnect_device.
Proof. solve_decision. Defined.

Definition zero_addr : list Z := repeat 0 BT_ADDR_LEN.
Definition zero_dev : bt_autoconnect_device := mk_autoconnect_device (repeat 0 BT_NAME_LEN) zero_addr.

(** [struct bt_autoconnect_config]; [dev] is NULL, or the array of [calloc]. *)
Record bt_autoconnect_config := mk_autoconnect_config {
  autoconnect_index : Z;
  autoconnect_mode : Z;
  autoconnect_num : Z;
  autoconnect_flag : Z;
  autoconnect_linknum : Z;
  autoconnect_filename : string;
  dev : option (list bt_autoconnect_device);
}.

(** ** Profiles *)

Record a2dpsink_state := mk_a2dpsink_state {
  sk_discoverable : bool;
  sk_open_state : Z;
  sk_connect_state : Z;
  sk_play_state : Z;
  sk_broadcast_state : Z;
  sk_rc_open : Z;
}.

Record a2dpsink_timer := mk_a2dpsink_timer {
  sk_auto_connect_id : Z;
  sk_play_command_id : Z;
  sk_connect_over_id : Z;
  sk_play_state_id : Z;
}.

(** [struct a2dpsink_handle], with the variable [index] of [bt_a2dp_sink_play]. *)
Record a2dpsink_handle := mk_a2dpsink_handle {
  get_play_status : Z;
  subsequent : Z;
  last_stop_time : Z;
  sk_config : bt_autoconnect_config;
  sk_timer : a2dpsink_timer;
  sk_state : a2dpsink_state;
  play_index : Z;
}.

Record a2dpsource_state := mk_a2dpsource_state {
  sr_open_state : Z;
  sr_connect_state : Z;
  sr_broadcast_state : Z;
}.

Record a2dpsource_timer := mk_a2dpsource_timer {
  sr_auto_connect_id : Z;
  sr_connect_over_id : Z;
}.

Record a2dpsource_handle := mk_a2dpsource_handle {
  sr_config : bt_autoconnect_config;
  sr_timer : a2dpsource_timer;
  sr_state : a2dpsource_state;
}.

(** [struct ble_handle], with the variables of [ble.c] and of its two receiving functions. *)
Record ble_handle := mk_ble_handle {
  ble_open_state : Z;
  msgid : Z;
  sendbuf : list Z;
  recv_index_len : Z;
  cmcc_index_len : Z;
  cmcc_pkgs : Z;
}.

Record ble_client_handle := mk_ble_client_handle {
  bc_open_state : Z;
  bc_connect_state : Z;
  bc_dev : bt_autoconnect_device;
}.

Record hh_handle := mk_hh_handle {
  hh_open_state : Z;
  hh_connect_state : Z;
  hh_dev : bt_autoconnect_device;
}.

(** The owners of the mutexes [state_mutex]. *)
Inductive profile := PBle | PBleClient | PSource | PSink | PHh.

#[export] Instance profile_eq_dec : EqDecision profile.
Proof. solve_decision. Defined.

(** ** Outside *)

(** [struct BTDevice] as far as it is read. *)
Record BTDevice := mk_btdevice { bd_addr : list Z; bd_name : list Z }.

(** The calls that answer with a status: those of the start, and those of
    [struct rk_bluetooth]. *)
Inductive bt_call :=
| HwGetModule
| DeviceOpen
| DeviceCreate
| DeviceClose
| PthreadCreate
| BtOpen
| BtClose
| SetName (name : option string)
| SetVisibility (discoverable connectable : bool)
| StartDiscovery (type : Z)
| CancelDiscovery
| RemoveDev (addr : list Z)
| ConfigClear
| SinkSetListener
| SinkEnable
| SinkDisable
| SinkConnect (addr : list Z)
| SinkDisconnect (addr : list Z)
| SinkAvrc (command : Z)
| SinkGetPlaystatus
| SinkMute (mute : bool)
| SinkVolume (vol : Z)
| SinkGetPlaying
| SinkElementAttrs
| SourceSetListener
| SourceEnable
| SourceDisable
| SourceConnect (addr : list Z)
| SourceDisconnect (addr : list Z)
| BleSetListener
| BleEnable
| BleDisable
| BleSend (uuid : Z) (buf : list Z)
| BleVisibility (discoverable connectable : bool)
| BlecSetListener
| BlecEnable
| BlecDisable
| BlecConnect (addr : list Z)
| BlecDisconnect (addr : list Z)
| BlecNotify (service character : option string)
| BlecRead (service character : option string)
| BlecWrite (service character : string) (buf : list Z)
| HhSetListener
| HhEnable
| HhDisable
| HhConnect (addr : list Z)
| HhDisconnect (addr : list Z).

(** The calls that fill an array of devices. *)
Inductive bt_query := QDisc | QBonded | QSink | QSource | QBlec | QHh.

Inductive bt_event :=
| Called (c : bt_call) (r : Z)
| Posted (topic : string) (msg : json)
| PostedData (topic text : string)            (* {"data": the parsed text} *)
| PostedBytes (topic : string) (bytes : list Z)
| Replied (msg : json)
| PropertySet (key value : string)
| System (cmd : string)
| TimerStarted (id : Z)
| TimerStopped (id : Z).

(** Answers of the calls from a state [X].  [te_devices q n] is the count that the call
    returns for an array of [n] elements and those it filled; [te_write] is the number
    of bytes of the text that are written. *)
Class BtEnv (X : Type) := {
  te_call : bt_call -> X -> Z * X;
  te_devices : bt_query -> nat -> X -> (Z * list BTDevice) * X;
  te_module_addr : X -> (Z * option (list Z)) * X;
  te_time : X -> (Z * Z) * X;               (* tv_sec, tv_usec *)
  te_calloc : X -> bool * X;
  te_malloc : X -> bool * X;
  te_create : string -> X -> bool * X;
  te_write : string -> X -> nat * X;
  te_open : string -> X -> bool * X;        (* a file that is there *)
  te_read : string -> X -> bool * X;
}.

Record bts (T X : Type) := mk_bts {
  bt_status : Z;
  bt_opened : Z;
  scanning : Z;
  sink : a2dpsink_handle;
  source : a2dpsource_handle;
  ble : ble_handle;
  blec : ble_client_handle;
  hh : hh_handle;
  held : list profile;
  files : gmap string string;
  tlog : list bt_event;
  ttimers : T;
  tenv : X;
}.
Arguments mk_bts {T X}.
Arguments bt_status {T X}.
Arguments bt_opened {T X}.
Arguments scanning {T X}.
Arguments sink {T X}.
Arguments source {T X}.
Arguments ble {T X}.
Arguments blec {T X}.
Arguments hh {T X}.
Arguments held {T X}.
Arguments files {T X}.
Arguments tlog {T X}.
Arguments ttimers {T X}.
Arguments tenv {T X}.

Section World.
Context {T X : Type} `{!Timers T, !BtEnv X}.
Local Notation W := (bts T X).

Definition set_bt_status v (w : W) : W :=
    mk_bts v (bt_opened w) (scanning w) (sink w) (source w) (ble w) (blec w) (hh w) (held w) (files w) (tlog w)
      (ttimers w) (tenv w).
Definition set_bt_opened v (w : W) : W :=
    mk_bts (bt_status w) v (scanning w) (sink w) (source w) (ble w) (blec w) (hh w) (held w) (files w) (tlog w)
      (ttimers w) (tenv w).
Definition set_scanning v (w : W) : W :=
    mk_bts (bt_status w) (bt_opened w) v (sink w) (source w) (ble w) (blec w) (hh w) (held w) (files w) (tlog
      w) (ttimers w) (tenv w).
Definition set_sink v (w : W) : W :=
    mk_bts (bt_status w) (bt_opened w) (scanning w) v (source w) (ble w) (blec w) (hh w) (held w) (files w)
      (tlog w) (ttimers w) (tenv w).
Definition set_source v (w : W) : W :=
    mk_bts (bt_status w) (bt_opened w) (scanning w) (sink w) v (ble w) (blec w) (hh w) (held w) (files w) (tlog
      w) (ttimers w) (tenv w).
Definition set_ble v (w : W) : W :=
    mk_bts (bt_status w) (bt_opened w) (scanning w) (sink w) (source w) v (blec w) (hh w) (held w) (files w)
      (tlog w) (ttimers w) (tenv w).
Definition set_blec v (w : W) : W :=
    mk_bts (bt_status w) (bt_opened w) (scanning w) (sink w) (source w) (ble w) v (hh w) (held w) (files w)
      (tlog w) (ttimers w) (tenv w).
Definition set_hh v (w : W) : W :=
    mk_bts (bt_status w) (bt_opened w) (scanning w) (sink w) (source w) (ble w) (blec w) v (held w) (files w)
      (tlog w) (ttimers w) (tenv w).
Definition set_held v (w : W) : W :=
    mk_bts (bt_status w) (bt_opened w) (scanning w) (sink w) (source w) (ble w) (blec w) (hh w) v (files w)
      (tlog w) (ttimers w) (tenv w).
Definition set_files v (w : W) : W :=
    mk_bts (bt_status w) (bt_opened w) (scanning w) (sink w) (source w) (ble w) (blec w) (hh w) (held w) v
      (tlog w) (ttimers w) (tenv w).
Definition set_tlog v (w : W) : W :=
    mk_bts (bt_status w) (bt_opened w) (scanning w) (sink w) (source w) (ble w) (blec w) (hh w) (held w) (files
      w) v (ttimers w) (tenv w).
Definition set_ttimers v (w : W) : W :=
    mk_bts (bt_status w) (bt_opened w) (scanning w) (sink w) (source w) (ble w) (blec w) (hh w) (held w) (files
      w) (tlog w) v (tenv w).
Definition set_tenv v (w : W) : W :=
    mk_bts (bt_status w) (bt_opened w) (scanning w) (sink w) (source w) (ble w) (blec w) (hh w) (held w) (files
      w) (tlog w) (ttimers w) v.

#[export] Program Instance bts_timers_lens : Lens W T := {| view_of := ttimers; put_view := set_ttimers |}.
Solve All Obligations with by intros; repeat match goal with w : W |- _ => destruct w end.

Definition te {A} (f : X -> A * X) : M W A :=
  fun w => let '(a, x) := f (tenv w) in Ret a (set_tenv x w).

Definition tlog_add (e : bt_event) : M W unit := modify (fun w => set_tlog (tlog w ++ [e]) w).

(** A call of the HAL. *)
Definition call (c : bt_call) : M W Z :=
  r <- te (te_call c) ;; tlog_add (Called c r) ;; ret r.

(** An element of an array that a call filled up to [l]: one that is not filled is zero
    or has no value. *)
Definition dev_at (n : nat) (zeroed : bool) (l : list BTDevice) (i : nat) : M W BTDevice :=
  match take n l !! i with
  | Some d => ret d
  | None =>
      if bool_decide (i < n)%nat
      then if zeroed then ret (mk_btdevice zero_addr (repeat 0 BT_NAME_LEN)) else stop UninitRead
      else stop OutOfBounds
  end.

(** [state_mutex]: a thread that has it stops at it. *)
Definition lock (p : profile) : M W unit :=
  h <- gets held ;; if bool_decide (p ∈ h) then stop Hang else modify (set_held (p :: h)).
Definition unlock (p : profile) : M W unit :=
  modify (fun w => set_held (List.filter (fun q => negb (bool_decide (q = p))) (held w)) w).

Definition eloop_timer_start (id : Z) : M W unit := zoom (timer_start id) ;; tlog_add (TimerStarted id).
Definition eloop_timer_stop (id : Z) : M W unit := zoom (timer_stop id) ;; tlog_add (TimerStopped id).

(** Assignments to a handle. *)
Definition upd_sink (f : a2dpsink_handle -> a2dpsink_handle) : M W unit := modify (fun w => set_sink (f (sink w)) w).
Definition upd_source (f : a2dpsource_handle -> a2dpsource_handle) : M W unit := modify (fun w => set_source (f (source w)) w).
Definition upd_ble (f : ble_handle -> ble_handle) : M W unit := modify (fun w => set_ble (f (ble w)) w).
Definition upd_blec (f : ble_client_handle -> ble_client_handle) : M W unit := modify (fun w => set_blec (f (blec w)) w).
Definition upd_hh (f : hh_handle -> hh_handle) : M W unit := modify (fun w => set_hh (f (hh w)) w).

Definition status_or (mask : Z) : M W unit := modify (fun w => set_bt_status (Z.lor (bt_status w) mask) w).
Definition status_clear (mask : Z) : M W unit := modify (fun w => set_bt_status (Z.land (bt_status w) (Z.lnot mask)) w).

(** ** Strings in arrays *)

(** A [char] array read as a string: past its end without a NUL. *)
Definition read_str (a : list Z) : M W string :=
  if bool_decide (0 ∈ a) then ret (cstr a) else stop OutOfBounds.

(** [strncpy(dst, s, strlen(s))] *)
Definition copy_str (dst : list Z) (s : string) : M W (list Z) :=
  match strncpy_arr dst s (String.length s) with
  | Some a => ret a
  | None => stop BufferOverflow
  end.

(** [snprintf(dst, sizeof(dst), "%s", s)] *)
Definition print_str (dst : list Z) (s : string) : list Z :=
  let b := take (length dst - 1) (str_bytes s) in b ++ 0 :: drop (S (length b)) dst.
End World.

(** ** Addresses *)

Definition join_colon (f : Z -> string) (a : list Z) : string :=
  match a with
  | [] => ""
  | b :: a' => foldl (fun s x => s ++ ":" ++ f x) (f b) a'
  end%string.

Definition HEXdigit (v : Z) : ascii := if v <? 10 then chr (48 + v) else chr (55 + v).
Definition HEXpair (b : Z) : string := String (HEXdigit (b / 16)) (String (HEXdigit (b mod 16)) "").

(** "%02x:%02x:%02x:%02x:%02x:%02x" and "%02X:...". *)
Definition print_addr (a : list Z) : string := join_colon hexpair a.
Definition print_ADDR (a : list Z) : string := join_colon HEXpair a.

(** ** Assignments to fields *)

Definition set_autoconnect_index (v : Z) (r : bt_autoconnect_config) : bt_autoconnect_config :=
  mk_autoconnect_config v (autoconnect_mode r) (autoconnect_num r) (autoconnect_flag r) (autoconnect_linknum r)
    (autoconnect_filename r) (dev r).
Definition set_autoconnect_mode (v : Z) (r : bt_autoconnect_config) : bt_autoconnect_config :=
  mk_autoconnect_config (autoconnect_index r) v (autoconnect_num r) (autoconnect_flag r) (autoconnect_linknum
    r) (autoconnect_filename r) (dev r).
Definition set_autoconnect_num (v : Z) (r : bt_autoconnect_config) : bt_autoconnect_config :=
  mk_autoconnect_config (autoconnect_index r) (autoconnect_mode r) v (autoconnect_flag r) (autoconnect_linknum
    r) (autoconnect_filename r) (dev r).
Definition set_autoconnect_flag (v : Z) (r : bt_autoconnect_config) : bt_autoconnect_config :=
  mk_autoconnect_config (autoconnect_index r) (autoconnect_mode r) (autoconnect_num r) v (autoconnect_linknum
    r) (autoconnect_filename r) (dev r).
Definition set_autoconnect_linknum (v : Z) (r : bt_autoconnect_config) : bt_autoconnect_config :=
  mk_autoconnect_config (autoconnect_index r) (autoconnect_mode r) (autoconnect_num r) (autoconnect_flag r) v
    (autoconnect_filename r) (dev r).
Definition set_autoconnect_filename (v : string) (r : bt_autoconnect_config) : bt_autoconnect_config :=
  mk_autoconnect_config (autoconnect_index r) (autoconnect_mode r) (autoconnect_num r) (autoconnect_flag r)
    (autoconnect_linknum r) v (dev r).
Definition set_dev (v : option (list bt_autoconnect_device)) (r : bt_autoconnect_config) : bt_autoconnect_config :=
  mk_autoconnect_config (autoconnect_index r) (autoconnect_mode r) (autoconnect_num r) (autoconnect_flag r)
    (autoconnect_linknum r) (autoconnect_filename r) v.

Definition set_sk_discoverable (v : bool) (r : a2dpsink_state) : a2dpsink_state :=
  mk_a2dpsink_state v (sk_open_state r) (sk_connect_state r) (sk_play_state r) (sk_broadcast_state r)
    (sk_rc_open r).
Definition set_sk_open_state (v : Z) (r : a2dpsink_state) : a2dpsink_state :=
  mk_a2dpsink_state (sk_discoverable r) v (sk_connect_state r) (sk_play_state r) (sk_broadcast_state r)
    (sk_rc_open r).
Definition set_sk_connect_state (v : Z) (r : a2dpsink_state) : a2dpsink_state :=
  mk_a2dpsink_state (sk_discoverable r) (sk_open_state r) v (sk_play_state r) (sk_broadcast_state r)
    (sk_rc_open r).
Definition set_sk_play_state (v : Z) (r : a2dpsink_state) : a2dpsink_state :=
  mk_a2dpsink_state (sk_discoverable r) (sk_open_state r) (sk_connect_state r) v (sk_broadcast_state r)
    (sk_rc_open r).
Definition set_sk_broadcast_state (v : Z) (r : a2dpsink_state) : a2dpsink_state :=
  mk_a2dpsink_state (sk_discoverable r) (sk_open_state r) (sk_connect_state r) (sk_play_state r) v (sk_rc_open
    r).
Definition set_sk_rc_open (v : Z) (r : a2dpsink_state) : a2dpsink_state :=
  mk_a2dpsink_state (sk_discoverable r) (sk_open_state r) (sk_connect_state r) (sk_play_state r)
    (sk_broadcast_state r) v.

Definition set_sk_auto_connect_id (v : Z) (r : a2dpsink_timer) : a2dpsink_timer :=
  mk_a2dpsink_timer v (sk_play_command_id r) (sk_connect_over_id r) (sk_play_state_id r).
Definition set_sk_play_command_id (v : Z) (r : a2dpsink_timer) : a2dpsink_timer :=
  mk_a2dpsink_timer (sk_auto_connect_id r) v (sk_connect_over_id r) (sk_play_state_id r).
Definition set_sk_connect_over_id (v : Z) (r : a2dpsink_timer) : a2dpsink_timer :=
  mk_a2dpsink_timer (sk_auto_connect_id r) (sk_play_command_id r) v (sk_play_state_id r).
Definition set_sk_play_state_id (v : Z) (r : a2dpsink_timer) : a2dpsink_timer :=
  mk_a2dpsink_timer (sk_auto_connect_id r) (sk_play_command_id r) (sk_connect_over_id r) v.

Definition set_get_play_status (v : Z) (r : a2dpsink_handle) : a2dpsink_handle :=
  mk_a2dpsink_handle v (subsequent r) (last_stop_time r) (sk_config r) (sk_timer r) (sk_state r) (play_index r).
Definition set_subsequent (v : Z) (r : a2dpsink_handle) : a2dpsink_handle :=
  mk_a2dpsink_handle (get_play_status r) v (last_stop_time r) (sk_config r) (sk_timer r) (sk_state r)
    (play_index r).
Definition set_last_stop_time (v : Z) (r : a2dpsink_handle) : a2dpsink_handle :=
  mk_a2dpsink_handle (get_play_status r) (subsequent r) v (sk_config r) (sk_timer r) (sk_state r) (play_index
    r).
Definition set_sk_config (v : bt_autoconnect_config) (r : a2dpsink_handle) : a2dpsink_handle :=
  mk_a2dpsink_handle (get_play_status r) (subsequent r) (last_stop_time r) v (sk_timer r) (sk_state r)
    (play_index r).
Definition set_sk_timer (v : a2dpsink_timer) (r : a2dpsink_handle) : a2dpsink_handle :=
  mk_a2dpsink_handle (get_play_status r) (subsequent r) (last_stop_time r) (sk_config r) v (sk_state r)
    (play_index r).
Definition set_sk_state (v : a2dpsink_state) (r : a2dpsink_handle) : a2dpsink_handle :=
  mk_a2dpsink_handle (get_play_status r) (subsequent r) (last_stop_time r) (sk_config r) (sk_timer r) v
    (play_index r).
Definition set_play_index (v : Z) (r : a2dpsink_handle) : a2dpsink_handle :=
  mk_a2dpsink_handle (get_play_status r) (subsequent r) (last_stop_time r) (sk_config r) (sk_timer r) (sk_state
    r) v.

Definition set_sr_open_state (v : Z) (r : a2dpsource_state) : a2dpsource_state :=
  mk_a2dpsource_state v (sr_connect_state r) (sr_broadcast_state r).
Definition set_sr_connect_state (v : Z) (r : a2dpsource_state) : a2dpsource_state :=
  mk_a2dpsource_state (sr_open_state r) v (sr_broadcast_state r).
Definition set_sr_broadcast_state (v : Z) (r : a2dpsource_state) : a2dpsource_state :=
  mk_a2dpsource_state (sr_open_state r) (sr_connect_state r) v.

Definition set_sr_auto_connect_id (v : Z) (r : a2dpsource_timer) : a2dpsource_timer :=
  mk_a2dpsource_timer v (sr_connect_over_id r).
Definition set_sr_connect_over_id (v : Z) (r : a2dpsource_timer) : a2dpsource_timer :=
  mk_a2dpsource_timer (sr_auto_connect_id r) v.

Definition set_sr_config (v : bt_autoconnect_config) (r : a2dpsource_handle) : a2dpsource_handle :=
  mk_a2dpsource_handle v (sr_timer r) (sr_state r).
Definition set_sr_timer (v : a2dpsource_timer) (r : a2dpsource_handle) : a2dpsource_handle :=
  mk_a2dpsource_handle (sr_config r) v (sr_state r).
Definition set_sr_state (v : a2dpsource_state) (r : a2dpsource_handle) : a2dpsource_handle :=
  mk_a2dpsource_handle (sr_config r) (sr_timer r) v.

Definition set_ble_open_state (v : Z) (r : ble_handle) : ble_handle :=
  mk_ble_handle v (msgid r) (sendbuf r) (recv_index_len r) (cmcc_index_len r) (cmcc_pkgs r).
Definition set_msgid (v : Z) (r : ble_handle) : ble_handle :=
  mk_ble_handle (ble_open_state r) v (sendbuf r) (recv_index_len r) (cmcc_index_len r) (cmcc_pkgs r).
Definition set_sendbuf (v : list Z) (r : ble_handle) : ble_handle :=
  mk_ble_handle (ble_open_state r) (msgid r) v (recv_index_len r) (cmcc_index_len r) (cmcc_pkgs r).
Definition set_recv_index_len (v : Z) (r : ble_handle) : ble_handle :=
  mk_ble_handle (ble_open_state r) (msgid r) (sendbuf r) v (cmcc_index_len r) (cmcc_pkgs r).
Definition set_cmcc_index_len (v : Z) (r : ble_handle) : ble_handle :=
  mk_ble_handle (ble_open_state r) (msgid r) (sendbuf r) (recv_index_len r) v (cmcc_pkgs r).
Definition set_cmcc_pkgs (v : Z) (r : ble_handle) : ble_handle :=
  mk_ble_handle (ble_open_state r) (msgid r) (sendbuf r) (recv_index_len r) (cmcc_index_len r) v.

Definition set_bc_open_state (v : Z) (r : ble_client_handle) : ble_client_handle :=
  mk_ble_client_handle v (bc_connect_state r) (bc_dev r).
Definition set_bc_connect_state (v : Z) (r : ble_client_handle) : ble_client_handle :=
  mk_ble_client_handle (bc_open_state r) v (bc_dev r).
Definition set_bc_dev (v : bt_autoconnect_device) (r : ble_client_handle) : ble_client_handle :=
  mk_ble_client_handle (bc_open_state r) (bc_connect_state r) v.

Definition set_hh_open_state (v : Z) (r : hh_handle) : hh_handle :=
  mk_hh_handle v (hh_connect_state r) (hh_dev r).
Definition set_hh_connect_state (v : Z) (r : hh_handle) : hh_handle :=
  mk_hh_handle (hh_open_state r) v (hh_dev r).
Definition set_hh_dev (v : bt_autoconnect_device) (r : hh_handle) : hh_handle :=
  mk_hh_handle (hh_open_state r) (hh_connect_state r) v.
