(* ===== verification/BtConfig.v ===== *)
(** * Devices to connect again

    [framework/services/bluetooth/src/config.c]: addresses as text, the list of the
    devices that were connected last, most recent first, and its file. *)

From Stdlib Require Import Ascii String.
From stdpp Require Import base gmap list strings.
From S2P Require Import Prelude CString Bytes CMonad Json Dll Timer BtWorld.
Open Scope string_scope.
Open Scope list_scope.
Open Scope Z_scope.

(** ** Addresses *)

Definition starts_hex (s : string) : bool :=
  match s with String c _ => bool_decide (is_Some (hexval c)) | EmptyString => false end.

Fixpoint read_hex (acc : Z) (s : string) : Z * string :=
  match s with
  | String c s' =>
      match hexval c with
      | Some d => read_hex (16 * acc + d) s'
      | None => (acc, s)
      end
  | EmptyString => (acc, s)
  end.

(** [strtoul(s, &end, 16)]: the value and what [end] points at. *)
Definition strtoul16 {UL : ULong} (s : string) : Z * string :=
  let '(sg, s1) := read_sign (skip_space s) in
  let s2 :=
    match s1 with
    | String "0"%char (String x s') =>
        if (Ascii.eqb x "x"%char || Ascii.eqb x "X"%char) && starts_hex s' then s' else s1
    | _ => s1
    end in
  if starts_hex s2 then
    let '(v, rest) := read_hex 0 s2 in
    (if 2 ^ ulong_bits <=? v then 2 ^ ulong_bits - 1 else wrapul (sg * v), rest)
  else (0, s).

(** The loop of [bd_strtoba] from the index [i], with the bytes written so far: the index
    it ends with and the bytes; [None] at a character that is not a colon. *)
Fixpoint strtoba_loop {UL : ULong} (n : nat) (i : Z) (begin : string) (dest : list Z) : option (Z * list Z) :=
  match n with
  | O => Some (i, dest)
  | S n' =>
      let '(v, end_ptr) := strtoul16 begin in
      let dest := dest ++ [v mod 256] in
      match end_ptr with
      | EmptyString => Some (i, dest)
      | String c rest => if Ascii.eqb c ":"%char then strtoba_loop n' (i + 1) rest dest else None
      end
  end.

Definition strtoba {UL : ULong} (address : string) : option (list Z) :=
  if negb (strlen address =? 17) then None
  else
    match strtoba_loop 6 0 address [] with
    | Some (i, dest) => if negb (i =? 5) then None else Some dest
    | None => None
    end.

Section Config.
Context {UL : ULong} {T X : Type} `{!Timers T, !BtEnv X} {J : JsonC} {V : JsonValues J}.
Local Notation W := (bts T X).

(** The bytes of the address, [None] for the result -1; [strlen] comes before the test
    for NULL. *)
Definition bd_strtoba (address : option string) : M W (option (list Z)) :=
  match address with
  | None => stop NullDeref
  | Some s => ret (strtoba s)
  end.

(** ** Arrays *)

Definition arr_get {A} (l : list A) (i : nat) : M W A :=
  match l !! i with Some x => ret x | None => stop OutOfBounds end.

Definition arr_set {A} (l : list A) (i : nat) (x : A) : M W (list A) :=
  if bool_decide (i < length l)%nat then ret (<[i := x]> l) else stop BufferOverflow.

Definition devs (c : bt_autoconnect_config) : M W (list bt_autoconnect_device) :=
  match dev c with None => stop NullDeref | Some l => ret l end.

Definition get_dev (c : bt_autoconnect_config) (i : nat) : M W bt_autoconnect_device :=
  l <- devs c ;; arr_get l i.

(** ** The list *)

Fixpoint index_loop (c : bt_autoconnect_config) (addr : list Z) (n i : nat) : M W Z :=
  match n with
  | O => ret (-1)
  | S n' =>
      d <- get_dev c i ;;
      if bool_decide (b_addr d = addr) then ret (Z.of_nat i) else index_loop c addr n' (S i)
  end.

Definition bt_autoconnect_get_index (c : bt_autoconnect_config) (d : bt_autoconnect_device) : M W Z :=
  index_loop c (b_addr d) (Z.to_nat (autoconnect_num c)) 0.

(** [for (; i > 0; i--) dev[i] = dev[i - 1]] *)
Fixpoint shift_up {A} (l : list A) (i : nat) : M W (list A) :=
  match i with
  | O => ret l
  | S i' => x <- arr_get l i' ;; l <- arr_set l i x ;; shift_up l i'
  end.

(** [for (; i < num - 1; i++) dev[i] = dev[i + 1]], in [n] rounds. *)
Fixpoint shift_down {A} (l : list A) (i n : nat) : M W (list A) :=
  match n with
  | O => ret l
  | S n' => x <- arr_get l (S i) ;; l <- arr_set l i x ;; shift_down l (S i) n'
  end.

(** The device comes first; the result and the new configuration. *)
Definition bt_autoconnect_update (c : bt_autoconnect_config) (d : bt_autoconnect_device) :
    M W (Z * bt_autoconnect_config) :=
  index <- bt_autoconnect_get_index c d ;;
  if index <? 0 then
    if autoconnect_num c <? 1 then ret (-1, c)
    else
      l <- devs c ;;
      l <- shift_up l (Z.to_nat (autoconnect_num c - 1)) ;;
      l <- arr_set l 0 d ;;
      let c := set_dev (Some l) c in
      ret (0, if autoconnect_linknum c <? autoconnect_num c
              then set_autoconnect_linknum (autoconnect_linknum c + 1) c else c)
  else
    l <- devs c ;;
    l <- shift_up l (Z.to_nat index) ;;
    l <- arr_set l 0 d ;;
    ret (0, set_dev (Some l) c).

Definition bt_autoconnect_remove (c : bt_autoconnect_config) (d : bt_autoconnect_device) :
    M W (Z * bt_autoconnect_config) :=
  index <- bt_autoconnect_get_index c d ;;
  if 0 <=? index then
    l <- devs c ;;
    l <- shift_down l (Z.to_nat index) (Z.to_nat (autoconnect_num c - 1 - index)) ;;
    l <- arr_set l (Z.to_nat (autoconnect_num c - 1)) zero_dev ;;
    let c := set_dev (Some l) c in
    ret (0, if 0 <? autoconnect_linknum c then set_autoconnect_linknum (autoconnect_linknum c - 1) c else c)
  else ret (-1, c).

(** ** The file *)

(** The items of the array [devices]; [item] has three elements. *)
Fixpoint sync_items (c : bt_autoconnect_config) (n i : nat) : M W (list json) :=
  match n with
  | O => ret []
  | S n' =>
      (if ROKIDOS_BT_AUTOCONNECT_DEVICES_MAX_NUM <=? Z.of_nat i then stop BufferOverflow else ret tt) ;;
      d <- get_dev c i ;;
      name <- read_str (b_name d) ;;
      rest <- sync_items c n' (S i) ;;
      ret (JObj [("addr", JStr (print_addr (b_addr d))); ("name", JStr name)] :: rest)
  end.

Definition bt_autoconnect_sync (c : bt_autoconnect_config) : M W Z :=
  items <- sync_items c (Z.to_nat (autoconnect_num c)) 0 ;;
  let root := JObj [("autoconnect_num", JInt (autoconnect_num c));
                    ("autoconnect_mode", JInt (autoconnect_mode c));
                    ("devices", JArr items)] in
  modify (fun w => set_files (delete (autoconnect_filename c) (files w)) w) ;;
  ok <- te (te_create (autoconnect_filename c)) ;;
  if negb ok then ret (-2)
  else
    let buf := json_object_to_json_string root in
    n <- te (te_write buf) ;;
    modify (fun w => set_files (<[autoconnect_filename c := substring 0 n buf]> (files w)) w) ;;
    ret 0.

(** [calloc] of the devices, on both ways to a configuration. *)
Definition new_devs (c : bt_autoconnect_config) : M W (option bt_autoconnect_config) :=
  ok <- te te_calloc ;;
  ret (if ok then Some (set_dev (Some (repeat zero_dev (Z.to_nat (autoconnect_num c)))) c) else None).

Definition bt_config_newinit (c : bt_autoconnect_config) : M W (Z * bt_autoconnect_config) :=
  let c := set_autoconnect_linknum 0 (set_autoconnect_mode ROKIDOS_BT_AUTOCONNECT_MODE c) in
  r <- new_devs c ;;
  match r with
  | None => ret (-1, set_dev None c)
  | Some c => ret (0, c)
  end.

(** [dev[i] = f(dev[i])], written past the array for an index too large. *)
Definition upd_dev (c : bt_autoconnect_config) (i : nat) (f : bt_autoconnect_device -> bt_autoconnect_device) :
    M W bt_autoconnect_config :=
  l <- devs c ;;
  match l !! i with
  | None => stop BufferOverflow
  | Some d => ret (set_dev (Some (<[i := f d]> l)) c)
  end.

Definition text_of (v : option jobj) : M W string :=
  match json_object_get_string v with None => stop NullDeref | Some s => ret s end.

(** One element of the array [devices]. *)
Definition parse_device (c : bt_autoconnect_config) (i : nat) (bt_dev : option jobj) : M W bt_autoconnect_config :=
  match bt_dev with
  | None => ret c
  | Some _ =>
      match json_object_object_get_ex bt_dev "addr" with
      | None => ret c
      | Some addr =>
          r <- bd_strtoba (json_object_get_string addr) ;;
          match r with
          | None => upd_dev c i (fun d => mk_autoconnect_device (b_name d) zero_addr)
          | Some a =>
              c <- upd_dev c i (fun d => mk_autoconnect_device (b_name d) a) ;;
              let c := if bool_decide (a = zero_addr) then c
                       else set_autoconnect_linknum (autoconnect_linknum c + 1) c in
              match json_object_object_get_ex bt_dev "name" with
              | None => ret c
              | Some name =>
                  bt_name <- text_of name ;;
                  d <- get_dev c i ;;
                  n <- copy_str (b_name d) bt_name ;;
                  upd_dev c i (fun d => mk_autoconnect_device n (b_addr d))
              end
          end
      end
  end.

Fixpoint parse_devices (c : bt_autoconnect_config) (devices : option jobj) (n i : nat) : M W bt_autoconnect_config :=
  match n with
  | O => ret c
  | S n' =>
      c <- parse_device c i (json_object_array_get_idx devices (Z.of_nat i)) ;;
      parse_devices c devices n' (S i)
  end.

Definition bt_config_parse (c : bt_autoconnect_config) (root : option jobj) : M W (Z * bt_autoconnect_config) :=
  let c := set_autoconnect_mode ROKIDOS_BT_AUTOCONNECT_MODE c in
  let c := if ROKIDOS_BT_AUTOCONNECT_DEVICES_MAX_NUM <=? autoconnect_num c
           then set_autoconnect_num ROKIDOS_BT_AUTOCONNECT_DEVICES_MAX_NUM c else c in
  r <- new_devs c ;;
  match r with
  | None => ret (-1, set_dev None c)
  | Some c =>
      match json_object_object_get_ex root "devices" with
      | None => ret (0, c)
      | Some devices =>
          match json_object_array_length devices with
          | None => stop AssertFailed
          | Some device_num => c <- parse_devices c devices (Z.to_nat device_num) 0 ;; ret (0, c)
          end
      end
  end.

(** What is in the buffer of 1024 bytes after [read], as a string. *)
Definition file_text (content : string) : string := cstr (str_bytes (substring 0 1023 content)).

Definition bt_autoconnect_config_init (c : bt_autoconnect_config) : M W (Z * bt_autoconnect_config) :=
  m <- gets files ;;
  match m !! autoconnect_filename c with
  | None => bt_config_newinit c
  | Some content =>
      ok <- te (te_open (autoconnect_filename c)) ;;
      if negb ok then bt_config_newinit c
      else
        ok <- te (te_read (autoconnect_filename c)) ;;
        if negb ok || String.eqb content "" then bt_config_newinit c
        else
          match json_tokener_parse (file_text content) with
          | None => bt_config_newinit c
          | Some bt_config => bt_config_parse c (Some bt_config)
          end
  end.

Definition bt_autconnect_config_uninit (c : bt_autoconnect_config) : bt_autoconnect_config := set_dev None c.
End Config.
