(* ===== verification/BtConfigProofs.v ===== *)
(** * The history of connected devices and its file

    What [config.c] promises: addresses survive printing and reading, the array of
    devices is the list of the last ones without repetition, most recent first, and the
    file gives back what was saved.

    What [bt_autoconnect_sync] writes, [bt_autoconnect_config_init] reads back; and what
    the reader does with other files. *)

From Stdlib Require Import Ascii String.
From stdpp Require Import base gmap list strings.
From S2P Require Import Prelude CString Bytes CMonad Json Timer Dll BtWorld BtConfig.
Open Scope string_scope.
Open Scope list_scope.
Open Scope Z_scope.

(** ** Addresses *)

Lemma hex_char_plain (c : ascii) :
  is_Some (hexval c) ->
  isspace c = false /\ Ascii.eqb c "-"%char = false /\ Ascii.eqb c "+"%char = false /\
  Ascii.eqb c "x"%char = false /\ Ascii.eqb c "X"%char = false.
Proof. destruct c as [[] [] [] [] [] [] [] []]; vm_compute; intros [? ?]; try discriminate; repeat split. Qed.

Lemma hexval_HEXdigit v : 0 <= v < 16 -> hexval (HEXdigit v) = Some v.
Proof.
  intros H. assert (Hv : In v (map Z.of_nat (seq 0 16))).
  { apply in_map_iff. exists (Z.to_nat v). split; [lia|]. apply in_seq. lia. }
  cbn in Hv. repeat destruct Hv as [<-|Hv]; try reflexivity. contradiction.
Qed.

(** Where a number of two digits ends. *)
Definition after_byte (rest : string) : Prop :=
  match rest with EmptyString => True | String c _ => c = ":"%char end.

Lemma ulong_byte {UL : ULong} (v : Z) : 0 <= v < 256 -> (2 ^ ulong_bits <=? v) = false /\ wrapul (1 * v) = v.
Proof.
  intros Hv. pose proof ulong_wide. assert (2 ^ 32 <= 2 ^ ulong_bits) by (apply Z.pow_le_mono_r; lia).
  split; [apply Z.leb_gt; lia|]. unfold wrapul. rewrite Z.mul_1_l. apply Z.mod_small. lia.
Qed.

Lemma strtoul16_byte {UL : ULong} c1 c2 v1 v2 rest :
  hexval c1 = Some v1 -> hexval c2 = Some v2 -> 0 <= v1 < 16 -> 0 <= v2 < 16 -> after_byte rest ->
  strtoul16 (String c1 (String c2 rest)) = (16 * v1 + v2, rest).
Proof.
  intros H1 H2 B1 B2 Hr.
  destruct (hex_char_plain c1 ltac:(by rewrite H1)) as (S1 & M1 & P1 & _ & _).
  destruct (hex_char_plain c2 ltac:(by rewrite H2)) as (_ & _ & _ & X2 & Y2).
  destruct (ulong_byte (16 * v1 + v2) ltac:(lia)) as [E1 E2].
  assert (Hh : read_hex 0 (String c1 (String c2 rest)) = (16 * v1 + v2, rest)).
  { cbn [read_hex]. rewrite H1. cbn [read_hex]. rewrite H2.
    destruct rest as [|c rest]; [f_equal; lia|]. cbn in Hr. subst c. cbn. f_equal; lia. }
  unfold strtoul16. cbn [skip_space]. rewrite S1. cbn [read_sign]. rewrite M1, P1.
  set (s2 := match c1 with Ascii _ _ _ _ _ _ _ _ => _ end).
  assert (Es : s2 = String c1 (String c2 rest)).
  { unfold s2. rewrite X2, Y2. cbn. by destruct c1 as [[] [] [] [] [] [] [] []]. }
  rewrite Es. cbn [starts_hex]. rewrite H1, bool_decide_eq_true_2 by eauto. rewrite Hh, E1, E2. done.
Qed.

(** What prints a byte as two digits. *)
Definition prints_byte (f : Z -> string) : Prop :=
  forall b, byte b -> exists c1 c2, f b = String c1 (String c2 "") /\ hexval c1 = Some (b / 16) /\ hexval c2 = Some (b mod 16).

Lemma nibbles b : byte b -> 0 <= b / 16 < 16 /\ 0 <= b mod 16 < 16 /\ (16 * (b / 16) + b mod 16) mod 256 = b.
Proof.
  unfold byte. intros H. pose proof (Z.div_mod b 16). pose proof (Z.mod_pos_bound b 16).
  assert (0 <= b / 16 < 16) by (split; [apply Z.div_pos; lia|apply Z.div_lt_upper_bound; lia]).
  split; [done|]. split; [lia|]. rewrite Z.mod_small; lia.
Qed.

Lemma hexpair_prints : prints_byte hexpair.
Proof.
  intros b H. destruct (nibbles b H) as (? & ? & _). eexists _, _.
  split; [reflexivity|]. by split; apply hexval_hexdigit.
Qed.

Lemma HEXpair_prints : prints_byte HEXpair.
Proof.
  intros b H. destruct (nibbles b H) as (? & ? & _). eexists _, _.
  split; [reflexivity|]. by split; apply hexval_HEXdigit.
Qed.

Lemma strtoba_step {UL : ULong} n i c1 c2 b rest dest :
  hexval c1 = Some (b / 16) -> hexval c2 = Some (b mod 16) -> byte b -> after_byte rest ->
  strtoba_loop (S n) i (String c1 (String c2 rest)) dest =
  match rest with EmptyString => Some (i, dest ++ [b]) | String _ r => strtoba_loop n (i + 1) r (dest ++ [b]) end.
Proof.
  intros H1 H2 Hb Hr. destruct (nibbles b Hb) as (? & ? & E). cbn [strtoba_loop].
  rewrite (strtoul16_byte c1 c2 (b / 16) (b mod 16)) by done. rewrite E.
  destruct rest as [|c rest]; [done|]. cbn in Hr. by subst c.
Qed.

Lemma strtoba_join {UL : ULong} (f : Z -> string) (a : list Z) :
  prints_byte f -> Forall byte a -> length a = BT_ADDR_LEN -> strtoba (join_colon f a) = Some a.
Proof.
  intros Hf Ha Hl. destruct a as [|b1 [|b2 [|b3 [|b4 [|b5 [|b6 [|]]]]]]]; try discriminate Hl.
  decompose_Forall.
  repeat match goal with H : byte ?b |- _ =>
    lazymatch goal with E : f b = _ |- _ => fail | _ => destruct (Hf b H) as (? & ? & ? & ? & ?) end end.
  cbn [join_colon foldl]. repeat match goal with H : f ?b = _ |- _ => rewrite H; clear H end.
  cbv beta iota delta [String.append].
  unfold strtoba. replace (strlen _ =? 17) with true by reflexivity. cbn [negb].
  repeat (erewrite strtoba_step by (first [eassumption|exact I|reflexivity]); cbn [app]). done.
Qed.

Lemma strtoba_print {UL : ULong} (a : list Z) :
  Forall byte a -> length a = BT_ADDR_LEN -> strtoba (print_addr a) = Some a /\ strtoba (print_ADDR a) = Some a.
Proof. intros Ha Hl. split; apply strtoba_join; auto using hexpair_prints, HEXpair_prints. Qed.

(** ** The array is the list of the last devices *)

Definition addrs (l : list bt_autoconnect_device) : list (list Z) := b_addr <$> l.

(** The array has the devices [l], then empty places. *)
Record holds (c : bt_autoconnect_config) (l : list bt_autoconnect_device) : Prop := {
  h_num : 1 <= autoconnect_num c;
  h_room : (length l <= Z.to_nat (autoconnect_num c))%nat;
  h_dev : dev c = Some (l ++ repeat zero_dev (Z.to_nat (autoconnect_num c) - length l));
  h_once : NoDup (addrs l);
  h_real : zero_addr ∉ addrs l;
  h_link : autoconnect_linknum c = Z.of_nat (length l);
}.

(** The devices but one. *)
Definition others (d : bt_autoconnect_device) (l : list bt_autoconnect_device) : list bt_autoconnect_device :=
  filter (fun x => b_addr x <> b_addr d) l.

(** [d] becomes the most recent of at most [n] devices. *)
Definition mru_update (n : nat) (d : bt_autoconnect_device) (l : list bt_autoconnect_device) : list bt_autoconnect_device :=
  take n (d :: others d l).

(** The rest of a configuration. *)
Definition same_but_devices (c c' : bt_autoconnect_config) : Prop :=
  autoconnect_index c' = autoconnect_index c /\ autoconnect_mode c' = autoconnect_mode c /\
  autoconnect_num c' = autoconnect_num c /\ autoconnect_flag c' = autoconnect_flag c /\
  autoconnect_filename c' = autoconnect_filename c.

Lemma others_none d l : b_addr d ∉ addrs l -> others d l = l.
Proof.
  unfold addrs, others. induction l as [|x l IH]; intros H; [done|]. rewrite fmap_cons in H.
  apply not_elem_of_cons in H as [H1 H2]. rewrite filter_cons_True by done. f_equal. by apply IH.
Qed.

Lemma others_found d l1 x l2 :
  NoDup (addrs (l1 ++ x :: l2)) -> b_addr x = b_addr d -> others d (l1 ++ x :: l2) = l1 ++ l2.
Proof.
  intros Hn E. unfold addrs in Hn. rewrite fmap_app, fmap_cons in Hn. apply NoDup_app in Hn as (_ & H1 & H2).
  apply NoDup_cons in H2 as [H2 _]. unfold others. rewrite filter_app, filter_cons_False by tauto. f_equal.
  - apply (others_none d). intros Hd. apply (H1 _ Hd). rewrite E. set_solver.
  - apply (others_none d). by rewrite <- E.
Qed.

Lemma addrs_others d l a : a ∈ addrs (others d l) -> a ∈ addrs l /\ a <> b_addr d.
Proof.
  unfold addrs, others. rewrite !list_elem_of_fmap. intros (x & -> & Hx).
  apply list_elem_of_filter in Hx as [? Hx]. eauto.
Qed.

Lemma addrs_take n l a : a ∈ addrs (take n l) -> a ∈ addrs l.
Proof.
  unfold addrs. rewrite !list_elem_of_fmap. intros (x & -> & Hx). exists x. split; [done|].
  by eapply elem_of_take in Hx as (? & ? & ?); apply list_elem_of_lookup_2 in H.
Qed.

Lemma NoDup_mru n d l : NoDup (addrs l) -> NoDup (addrs (mru_update n d l)).
Proof.
  intros H. unfold mru_update, addrs. rewrite fmap_take. eapply sublist_NoDup; [|apply sublist_take].
  rewrite fmap_cons. apply NoDup_cons. split.
  - intros Hd. by apply addrs_others in Hd as [].
  - eapply sublist_NoDup; [exact H|]. apply fmap_sublist, sublist_filter.
Qed.

Section Array.
Context {UL : ULong} {T X : Type} `{!Timers T, !BtEnv X} {J : JsonC} {V : JsonValues J}.
Local Notation W := (bts T X).
Implicit Types w : W.

Lemma arr_get_eq {A} (l : list A) i x w : l !! i = Some x -> arr_get l i w = Ret x w.
Proof. intros E. unfold arr_get. by rewrite E. Qed.

Lemma arr_set_eq {A} (l : list A) i x w : (i < length l)%nat -> arr_set l i x w = Ret (<[i := x]> l) w.
Proof. intros H. unfold arr_set. by rewrite bool_decide_eq_true_2. Qed.

(** The places before [i] move up by one. *)
Lemma shift_up_eq {A} (l : list A) i w :
  (i < length l)%nat -> shift_up l i w = Ret (take 1 l ++ take i l ++ drop (S i) l) w.
Proof.
  revert l. induction i as [|i IH]; intros l Hi.
  - simpl. by rewrite (take_drop 1).
  - destruct (lookup_lt_is_Some_2 l i ltac:(lia)) as [x E]. cbn [shift_up]. unfold bind at 1.
    rewrite (arr_get_eq l i x) by done. unfold bind. rewrite arr_set_eq by done.
    rewrite IH by (rewrite length_insert; lia). f_equal. f_equal.
    + destruct l; [simpl in Hi; lia|]. done.
    + rewrite take_insert_ge by lia. rewrite (take_S_r l i x) by done. rewrite <- app_assoc. f_equal.
      rewrite drop_insert_ge, Nat.sub_diag by lia.
      destruct (lookup_lt_is_Some_2 l (S i) ltac:(lia)) as [y Ey]. by rewrite (drop_S l y (S i)).
Qed.

(** The places after [i] move down by one. *)
Lemma shift_down_eq {A} (l : list A) i n w :
  (i + n < length l)%nat -> shift_down l i n w = Ret (take i l ++ take n (drop (S i) l) ++ drop (i + n) l) w.
Proof.
  revert l i. induction n as [|n IH]; intros l i Hi.
  - simpl. by rewrite Nat.add_0_r, take_drop.
  - destruct (lookup_lt_is_Some_2 l (S i) ltac:(lia)) as [x E]. cbn [shift_down]. unfold bind at 1.
    rewrite (arr_get_eq l (S i) x) by done. unfold bind. rewrite arr_set_eq by lia.
    rewrite IH by (rewrite length_insert; lia). f_equal.
    rewrite (take_S_r _ i x) by (by rewrite list_lookup_insert_eq by lia).
    rewrite take_insert_ge by lia. rewrite !drop_insert_lt by lia. rewrite (drop_S l x (S i)) by done.
    rewrite <- app_assoc. by replace (i + S n)%nat with (S i + n)%nat by lia.
Qed.
(** The search. *)
Lemma index_step c a n i l x w :
  dev c = Some l -> l !! i = Some x ->
  index_loop c a (S n) i w =
  (if bool_decide (b_addr x = a) then Ret (Z.of_nat i) w else index_loop c a n (S i) w).
Proof.
  intros Hd Hx. cbn [index_loop]. unfold bind at 1, get_dev, bind, devs. rewrite Hd. cbn [ret].
  rewrite (arr_get_eq l i x) by done. by case_bool_decide.
Qed.

Lemma index_found c a l1 x l2 l0 n w :
  dev c = Some (l0 ++ l1 ++ x :: l2) -> a ∉ addrs l1 -> b_addr x = a -> (length l1 < n)%nat ->
  index_loop c a n (length l0) w = Ret (Z.of_nat (length l0 + length l1)) w.
Proof.
  revert l0 n. induction l1 as [|y l1 IH]; intros l0 n Hd Ha Hx Hn; (destruct n as [|n]; [lia|]).
  - erewrite index_step; [|exact Hd|by simpl; apply list_lookup_middle]. rewrite bool_decide_eq_true_2 by done.
    do 2 f_equal. simpl. lia.
  - unfold addrs in Ha. rewrite fmap_cons in Ha. apply not_elem_of_cons in Ha as [Ha1 Ha2].
    erewrite index_step; [|exact Hd|by simpl; apply list_lookup_middle]. rewrite bool_decide_eq_false_2 by done.
    change (l0 ++ (y :: l1) ++ x :: l2) with (l0 ++ [y] ++ l1 ++ x :: l2) in Hd.
    rewrite (app_assoc l0 [y]) in Hd. replace (S (length l0)) with (length (l0 ++ [y])) by (rewrite length_app; simpl; lia).
    rewrite IH; [|done..|simpl in Hn; lia]. do 2 f_equal. rewrite length_app. simpl. lia.
Qed.

Lemma index_absent c a l1 l0 w :
  dev c = Some (l0 ++ l1) -> a ∉ addrs l1 -> index_loop c a (length l1) (length l0) w = Ret (-1) w.
Proof.
  revert l0. induction l1 as [|y l1 IH]; intros l0 Hd Ha; [done|].
  unfold addrs in Ha. rewrite fmap_cons in Ha. apply not_elem_of_cons in Ha as [Ha1 Ha2].
  simpl length. erewrite index_step; [|exact Hd|by simpl; apply list_lookup_middle]. rewrite bool_decide_eq_false_2 by done.
  replace (S (length l0)) with (length (l0 ++ [y])) by (rewrite length_app; simpl; lia).
  apply IH; [|done]. by rewrite <- app_assoc.
Qed.

Lemma addrs_zeros a n : a <> zero_addr -> a ∉ addrs (repeat zero_dev n).
Proof.
  intros Ha H. unfold addrs in H. apply list_elem_of_fmap in H as (x & -> & Hx). apply Ha.
  apply list_elem_of_In, repeat_spec in Hx. by subst x.
Qed.

(** The search in a history. *)
Lemma holds_length c l d : holds c l -> dev c = Some d -> length d = Z.to_nat (autoconnect_num c).
Proof.
  intros [? Hr Hd _ _ _] E. rewrite Hd in E. injection E as <-. rewrite length_app, repeat_length. lia.
Qed.

Lemma get_index_found c l1 x l2 d w :
  holds c (l1 ++ x :: l2) -> b_addr x = b_addr d ->
  bt_autoconnect_get_index c d w = Ret (Z.of_nat (length l1)) w.
Proof.
  intros H E. pose proof (h_dev _ _ H) as Hd. rewrite <- app_assoc in Hd.
  pose proof (h_once _ _ H) as Hn. unfold addrs in Hn. rewrite fmap_app, fmap_cons in Hn. apply NoDup_app in Hn as (_ & Hn & _).
  unfold bt_autoconnect_get_index. apply (index_found c (b_addr d) l1 x _ [] _ w Hd).
  - intros Hi. apply (Hn _ Hi). rewrite <- E. set_solver.
  - done.
  - pose proof (h_room _ _ H) as Hr. rewrite length_app in Hr. simpl in Hr. lia.
Qed.

Lemma take_zeros n m : take n (repeat zero_dev m) = repeat zero_dev (n `min` m).
Proof. revert n. induction m as [|m IH]; intros [|n]; simpl; [done..|]. by rewrite IH. Qed.

Lemma front_eq {A} (L R : list A) d : (0 < length L)%nat -> <[0%nat := d]> (take 1 L ++ R) = d :: R.
Proof. by destruct L; simpl; [lia|]. Qed.

Lemma get_index_absent c l d w :
  holds c l -> b_addr d ∉ addrs l -> b_addr d <> zero_addr -> bt_autoconnect_get_index c d w = Ret (-1) w.
Proof.
  intros H Hl Hz. pose proof (h_dev _ _ H) as Hd. unfold bt_autoconnect_get_index.
  rewrite <- (holds_length c l _ H Hd). apply (index_absent c (b_addr d) _ [] w Hd).
  unfold addrs. rewrite fmap_app, elem_of_app. intros [Hi|Hi]; [by apply Hl|]. by apply addrs_zeros in Hi.
Qed.
Lemma drop_past {A} (l1 : list A) x r : drop (S (length l1)) (l1 ++ x :: r) = r.
Proof. by induction l1. Qed.

(** ** Update *)

(** The device comes first, the ones before its place and after it follow. *)
Lemma to_front c l L d i w :
  holds c l -> dev c = Some L -> (i < length L)%nat ->
  bind (devs c) (fun l => bind (shift_up l i) (fun l => arr_set l 0 d)) w = Ret (d :: take i L ++ drop (S i) L) w.
Proof.
  intros H Hd Hi. unfold bind, devs. rewrite Hd. cbn [ret]. rewrite shift_up_eq by done.
  rewrite arr_set_eq.
  - by rewrite front_eq by lia.
  - rewrite !length_app, !length_take. lia.
Qed.

Lemma update_found c l1 x l2 d w :
  holds c (l1 ++ x :: l2) -> b_addr x = b_addr d ->
  exists c', bt_autoconnect_update c d w = Ret (0, c') w /\ same_but_devices c c' /\ holds c' (d :: l1 ++ l2).
Proof.
  intros H E. pose proof (h_dev _ _ H) as Hd. pose proof (h_room _ _ H) as Hr.
  rewrite length_app in Hr. simpl in Hr.
  exists (set_dev (Some ((d :: l1 ++ l2) ++ repeat zero_dev (Z.to_nat (autoconnect_num c) - length (d :: l1 ++ l2)))) c).
  split; [|split; [done|]].
  - unfold bt_autoconnect_update, bind at 1. rewrite (get_index_found c l1 x l2) by done.
    rewrite (proj2 (Z.ltb_ge _ _)) by lia. rewrite Nat2Z.id.
    assert (Hi : (length l1 < length ((l1 ++ x :: l2) ++ repeat zero_dev (Z.to_nat (autoconnect_num c) - length (l1 ++ x :: l2))))%nat)
      by (rewrite !length_app; simpl; lia).
    pose proof (to_front c _ _ d (length l1) w H Hd Hi) as Ef. unfold bind in Ef |- *.
    destruct (devs c w) as [L w1|]; [|done]. destruct (shift_up L (length l1) w1) as [L' w2|]; [|done].
    rewrite Ef. unfold ret. do 4 f_equal. simpl. rewrite <- !app_assoc.
    rewrite take_app_length. do 2 f_equal.
    rewrite <- app_comm_cons, drop_past. do 2 f_equal. rewrite !length_app. simpl. lia.
  - destruct H as [? ? ? Hn Hz Hl]. unfold addrs in *. rewrite fmap_app, fmap_cons in Hn, Hz.
    split; try done.
    + simpl. rewrite length_app. lia.
    + unfold addrs. rewrite fmap_cons, fmap_app, <- E. by rewrite Permutation_middle.
    + unfold addrs. rewrite fmap_cons, fmap_app, <- E. set_solver.
    + simpl. rewrite Hl, !length_app. simpl. lia.
Qed.
Lemma update_absent c l d w :
  holds c l -> b_addr d ∉ addrs l -> b_addr d <> zero_addr ->
  exists c', bt_autoconnect_update c d w = Ret (0, c') w /\ same_but_devices c c' /\
             holds c' (take (Z.to_nat (autoconnect_num c)) (d :: l)).
Proof.
  intros H Hd Hz. pose proof (h_num _ _ H) as Hn. pose proof (h_room _ _ H) as Hr. pose proof (h_link _ _ H) as Hl.
  set (n := Z.to_nat (autoconnect_num c)). set (l' := take n (d :: l)).
  assert (El : length l' = (S (length l) `min` n)%nat) by (unfold l'; rewrite length_take; cbn [length]; lia).
  exists (set_autoconnect_linknum (Z.of_nat (length l')) (set_dev (Some (l' ++ repeat zero_dev (n - length l'))) c)).
  split; [|split; [done|]].
  - unfold bt_autoconnect_update, bind at 1. rewrite (get_index_absent c l) by done. cbn [Z.ltb Z.compare].
    rewrite (proj2 (Z.ltb_ge _ _)) by lia.
    pose proof (to_front c l _ d (Z.to_nat (autoconnect_num c - 1)) w H (h_dev _ _ H)) as Ef.
    pose proof (holds_length c l _ H (h_dev _ _ H)) as EL. rewrite EL in Ef. specialize (Ef ltac:(lia)).
    unfold bind in Ef |- *.
    destruct (devs c w) as [L w1|]; [|done]. destruct (shift_up L _ w1) as [L' w2|]; [|done]. rewrite Ef.
    rewrite (drop_ge _ (S _)) by lia. rewrite app_nil_r. unfold ret. simpl. fold n.
    assert (Ea : d :: take (Z.to_nat (autoconnect_num c - 1)) (l ++ repeat zero_dev (n - length l)) = l' ++ repeat zero_dev (n - length l')).
    { unfold l'. destruct n as [|m] eqn:En; [lia|]. replace (Z.to_nat (autoconnect_num c - 1)) with m by lia.
      simpl. f_equal. rewrite take_app, take_zeros. do 2 f_equal. rewrite length_take. lia. }
    rewrite Ea, Hl. unfold set_dev. simpl.
    destruct (Z.of_nat (length l) <? autoconnect_num c) eqn:E; unfold set_autoconnect_linknum; simpl; do 3 f_equal.
    + f_equal. apply Z.ltb_lt in E. lia.
    + rewrite Hl. f_equal. apply Z.ltb_ge in E. lia.
  - assert (El' : l' = mru_update n d l) by (unfold l', mru_update; by rewrite others_none).
    split; try done.
    + simpl. lia.
    + rewrite El'. apply NoDup_mru, H.
    + intros Ha. unfold l' in Ha. apply addrs_take in Ha. unfold addrs in Ha. rewrite fmap_cons in Ha.
      apply elem_of_cons in Ha as [Ha|Ha]; [by apply Hz|]. by apply (h_real _ _ H).
Qed.

(** ** Remove *)

Lemma drop_last_place {A} (L : list A) i n z :
  length L = n -> (i < n)%nat ->
  <[(n - 1)%nat := z]> (take i L ++ take (n - 1 - i) (drop (S i) L) ++ drop (n - 1) L) = take i L ++ drop (S i) L ++ [z].
Proof.
  intros EL Hi. rewrite (take_ge (drop _ L)) by (rewrite length_drop; lia).
  rewrite (app_assoc (take i L)), insert_app_r_alt by (rewrite length_app, length_take, length_drop; lia).
  rewrite <- app_assoc. do 2 f_equal. rewrite length_app, length_take, length_drop.
  replace (_ - _)%nat with 0%nat by lia.
  destruct (drop (n - 1) L) as [|y [|]] eqn:Ed; apply (f_equal length) in Ed; rewrite length_drop in Ed; simpl in Ed; try lia.
  done.
Qed.

Lemma remove_found c l1 x l2 d w :
  holds c (l1 ++ x :: l2) -> b_addr x = b_addr d ->
  exists c', bt_autoconnect_remove c d w = Ret (0, c') w /\ same_but_devices c c' /\ holds c' (l1 ++ l2).
Proof.
  intros H E. pose proof (h_dev _ _ H) as Hd. pose proof (h_room _ _ H) as Hr. pose proof (h_link _ _ H) as Hl.
  pose proof (holds_length _ _ _ H Hd) as HL. rewrite length_app in Hr, Hl. simpl in Hr, Hl.
  set (n := Z.to_nat (autoconnect_num c)) in *.
  exists (set_autoconnect_linknum (Z.of_nat (length (l1 ++ l2)))
            (set_dev (Some ((l1 ++ l2) ++ repeat zero_dev (n - length (l1 ++ l2)))) c)).
  split; [|split; [done|]].
  - unfold bt_autoconnect_remove, bind at 1. rewrite (get_index_found c l1 x l2) by done.
    rewrite (proj2 (Z.leb_le _ _)) by lia. rewrite Nat2Z.id.
    replace (Z.to_nat (autoconnect_num c - 1 - Z.of_nat (length l1))) with (n - 1 - length l1)%nat by lia.
    replace (Z.to_nat (autoconnect_num c - 1)) with (n - 1)%nat by lia.
    unfold bind, devs. rewrite Hd. cbn [ret].
    assert (EL : take (length l1) ((l1 ++ x :: l2) ++ repeat zero_dev (n - length (l1 ++ x :: l2))) ++
                 drop (S (length l1)) ((l1 ++ x :: l2) ++ repeat zero_dev (n - length (l1 ++ x :: l2))) ++ [zero_dev] =
                 (l1 ++ l2) ++ repeat zero_dev (n - length (l1 ++ l2))).
    { rewrite <- !app_assoc. rewrite take_app_length. f_equal. rewrite <- app_comm_cons, drop_past. rewrite <- app_assoc.
      f_equal. replace [zero_dev] with (repeat zero_dev 1) by done. rewrite <- repeat_app. f_equal.
      rewrite !length_app. simpl. lia. }
    rewrite <- EL. clear EL. revert HL. generalize ((l1 ++ x :: l2) ++ repeat zero_dev (n - length (l1 ++ x :: l2))). intros L HL.
    rewrite shift_down_eq by lia. rewrite arr_set_eq by (rewrite !length_app, !length_take, !length_drop; lia).
    replace (length l1 + (n - 1 - length l1))%nat with (n - 1)%nat by lia.
    rewrite drop_last_place by lia. unfold ret, set_dev. simpl. rewrite Hl, (proj2 (Z.ltb_lt _ _)) by lia.
    unfold set_autoconnect_linknum. simpl. do 3 f_equal. rewrite length_app. lia.
  - destruct H as [? ? ? Hn Hz Hk]. unfold addrs in *. rewrite fmap_app, fmap_cons in Hn, Hz.
    split; try done.
    + simpl. rewrite length_app. lia.
    + unfold addrs. rewrite fmap_app. apply NoDup_app in Hn as (? & Hn & [? ?]%NoDup_cons). apply NoDup_app. set_solver.
    + unfold addrs. rewrite fmap_app. set_solver.
Qed.
Lemma in_addrs a l : a ∈ addrs l -> exists l1 x l2, l = l1 ++ x :: l2 /\ b_addr x = a.
Proof.
  unfold addrs. intros H. apply list_elem_of_fmap in H as (x & -> & Hx).
  apply list_elem_of_split in Hx as (l1 & l2 & ->). by exists l1, x, l2.
Qed.

Lemma update_holds c l d w :
  holds c l -> b_addr d <> zero_addr ->
  exists c', bt_autoconnect_update c d w = Ret (0, c') w /\ same_but_devices c c' /\
             holds c' (mru_update (Z.to_nat (autoconnect_num c)) d l).
Proof.
  intros H Hz. unfold mru_update. destruct (decide (b_addr d ∈ addrs l)) as [Hi|Hi].
  - destruct (in_addrs _ _ Hi) as (l1 & x & l2 & -> & E). rewrite (others_found d l1 x l2 (h_once _ _ H) E).
    rewrite take_ge; [by apply (update_found c l1 x l2 d w)|].
    pose proof (h_room _ _ H) as Hr. rewrite length_app in Hr. simpl in *. rewrite length_app. lia.
  - rewrite others_none by done. by apply update_absent.
Qed.

Lemma remove_holds c l d w :
  holds c l -> b_addr d <> zero_addr ->
  exists c', bt_autoconnect_remove c d w = Ret (if decide (b_addr d ∈ addrs l) then 0 else -1, c') w /\
             same_but_devices c c' /\ holds c' (others d l).
Proof.
  intros H Hz. destruct (decide (b_addr d ∈ addrs l)) as [Hi|Hi].
  - destruct (in_addrs _ _ Hi) as (l1 & x & l2 & -> & E). rewrite (others_found d l1 x l2 (h_once _ _ H) E).
    by apply (remove_found c l1 x l2 d w).
  - exists c. rewrite others_none by done. split; [|done]. unfold bt_autoconnect_remove, bind.
    by rewrite (get_index_absent c l).
Qed.

(** ** Histories *)

Inductive hist_op := Connected (d : bt_autoconnect_device) | Removed (d : bt_autoconnect_device).

Definition op_dev (o : hist_op) : bt_autoconnect_device := match o with Connected d | Removed d => d end.

Definition hist_step (c : bt_autoconnect_config) (o : hist_op) : M W bt_autoconnect_config :=
  '(_, c') <- (match o with Connected d => bt_autoconnect_update c d | Removed d => bt_autoconnect_remove c d end) ;;
  ret c'.

Fixpoint hist_run (ops : list hist_op) (c : bt_autoconnect_config) : M W bt_autoconnect_config :=
  match ops with
  | [] => ret c
  | o :: ops' => c' <- hist_step c o ;; hist_run ops' c'
  end.

(** What the devices are to be. *)
Definition mru_step (n : nat) (l : list bt_autoconnect_device) (o : hist_op) : list bt_autoconnect_device :=
  match o with Connected d => mru_update n d l | Removed d => others d l end.

Lemma same_devices_trans c1 c2 c3 : same_but_devices c1 c2 -> same_but_devices c2 c3 -> same_but_devices c1 c3.
Proof. unfold same_but_devices. intuition congruence. Qed.

Lemma hist_run_holds ops c l w :
  holds c l -> Forall (fun o => b_addr (op_dev o) <> zero_addr) ops ->
  exists c', hist_run ops c w = Ret c' w /\ same_but_devices c c' /\
             holds c' (foldl (mru_step (Z.to_nat (autoconnect_num c))) l ops).
Proof.
  revert c l. induction ops as [|o ops IH]; intros c l H Ho; [by exists c|]. apply Forall_cons in Ho as [Hz Ho].
  assert (Hs : exists c', hist_step c o w = Ret c' w /\ same_but_devices c c' /\
                          holds c' (mru_step (Z.to_nat (autoconnect_num c)) l o)).
  { destruct o as [d|d]; simpl in Hz |- *; unfold hist_step, bind.
    - destruct (update_holds c l d w H Hz) as (c' & -> & ? & ?). by exists c'.
    - destruct (remove_holds c l d w H Hz) as (c' & -> & ? & ?). by exists c'. }
  destruct Hs as (c1 & E1 & S1 & H1). destruct (IH c1 _ H1 Ho) as (c2 & E2 & S2 & H2). exists c2.
  cbn [hist_run]. unfold bind at 1. rewrite E1. split; [done|]. split; [by eapply same_devices_trans|].
  destruct S1 as (_ & _ & En & _). rewrite En in H2. done.
Qed.

(** C11: The history of connected devices is the list of the last ones: from a history
    that is well formed, after any sequence of connections and removals of devices whose
    address is not all zero, the array has the devices of the specification in its first
    places and empty ones after them.  A device that connects is first and is there
    once, the oldest is dropped when there is no place, the removed one is not there, and
    [autoconnect_linknum] counts them; no step faults and nothing else changes.  (The
    address of all zeros is that of an empty place: removing it is taken for the removal
    of a device.) *)
Theorem history_is_mru (ops : list hist_op) (c : bt_autoconnect_config) (l : list bt_autoconnect_device) (w : W) :
  holds c l -> Forall (fun o => b_addr (op_dev o) <> zero_addr) ops ->
  exists c', hist_run ops c w = Ret c' w /\ same_but_devices c c' /\
             holds c' (foldl (mru_step (Z.to_nat (autoconnect_num c))) l ops).
Proof. apply hist_run_holds. Qed.
End Array.

(** * The file of a history *)

(** ** Reading a tree *)

Section Reading.
Context {J : JsonC} {V : JsonValues J}.

(** json-c's readers give the tree [j] for [o]. *)
Fixpoint json_reads (o : option jobj) (j : json) : Prop :=
  match j with
  | JStr s => json_object_get_string o = Some s
  | JInt z => json_object_get_int o = z
  | JBool b => json_object_get_boolean o = b
  | JArr l =>
      json_object_array_length o = Some (Z.of_nat (length l)) /\
      (fix elems (i : nat) (l : list json) : Prop :=
         match l with
         | [] => True
         | x :: l' => json_reads (json_object_array_get_idx o (Z.of_nat i)) x /\ elems (S i) l'
         end) 0%nat l
  | JObj l =>
      is_Some o /\
      (fix fields (l : list (string * json)) : Prop :=
         match l with
         | [] => True
         | (k, x) :: l' =>
             (exists v, json_object_object_get_ex o k = Some v /\ json_reads v x) /\ fields l'
         end) l
  end.

(** The text of [j] fits the reader's buffer and is parsed to [j]. *)
Definition reads_back (j : json) : Prop :=
  let text := json_object_to_json_string j in
  text <> "" /\ no_nul text = true /\ (String.length text <= 1023)%nat /\
  exists o, json_tokener_parse text = Some o /\ json_reads (Some o) j.

(** The elements of an array from the index [i]. *)
Definition elems_read (o : option jobj) : nat -> list json -> Prop :=
  fix elems (i : nat) (l : list json) : Prop :=
    match l with
    | [] => True
    | x :: l' => json_reads (json_object_array_get_idx o (Z.of_nat i)) x /\ elems (S i) l'
    end.
End Reading.

(** ** What is saved *)

(** A name in its array, with zeros after it; an address of six bytes. *)
Definition pad_name (s : string) : list Z := str_bytes s ++ repeat 0 (BT_NAME_LEN - String.length s).

Record dev_ok (d : bt_autoconnect_device) : Prop := {
  do_name : exists s, no_nul s = true /\ (String.length s < BT_NAME_LEN)%nat /\ b_name d = pad_name s;
  do_bytes : Forall byte (b_addr d);
  do_addr : length (b_addr d) = BT_ADDR_LEN;
}.

Definition dev_json (d : bt_autoconnect_device) : json :=
  JObj [("addr", JStr (print_addr (b_addr d))); ("name", JStr (cstr (b_name d)))].

Definition history_json (c : bt_autoconnect_config) : json :=
  JObj [("autoconnect_num", JInt (autoconnect_num c));
        ("autoconnect_mode", JInt (autoconnect_mode c));
        ("devices", JArr (dev_json <$> default [] (dev c)))].

(** The disk and the memory do their work. *)
Class BtDisk (X : Type) `{!BtEnv X} : Prop := {
  disk_create f x : fst (te_create f x) = true;
  disk_write s x : (String.length s <= fst (te_write s x))%nat;
  disk_open f x : fst (te_open f x) = true;
  disk_read f x : fst (te_read f x) = true;
  disk_calloc x : fst (te_calloc x) = true;
}.

Lemma pad_name_string s : no_nul s = true -> (String.length s < BT_NAME_LEN)%nat -> 0 ∈ pad_name s /\ cstr (pad_name s) = s.
Proof.
  intros Hs Hl. unfold pad_name. destruct (BT_NAME_LEN - String.length s)%nat as [|n] eqn:E; [lia|]. simpl repeat.
  split; [|by apply cstr_bytes]. apply elem_of_app. right. apply elem_of_cons. by left.
Qed.

Lemma zero_dev_ok : dev_ok zero_dev.
Proof. split; [by exists ""; vm_compute; repeat split; lia| |done]. repeat constructor; unfold byte; lia. Qed.

Section File.
Context {UL : ULong} {T X : Type} `{!Timers T, !BtEnv X} {J : JsonC} {V : JsonValues J}.
Local Notation W := (bts T X).
Implicit Types w : W.

Lemma wp_te {A} (f : X -> A * X) (Q : A -> W -> Prop) w :
  (forall r x, f (tenv w) = (r, x) -> Q r (set_tenv x w)) -> wp (te f) Q w.
Proof. intros HQ. unfold wp, te. destruct (f (tenv w)) as [r x] eqn:E. by apply HQ. Qed.

Lemma read_name d w : dev_ok d -> read_str (b_name d) w = Ret (cstr (b_name d)) w.
Proof.
  intros [(s & Hs & Hl & ->) _ _]. unfold read_str. destruct (pad_name_string s Hs Hl) as [H _].
  by rewrite bool_decide_eq_true_2.
Qed.

Lemma sync_items_eq c L w i :
  dev c = Some L -> Forall dev_ok L -> (length L <= 3)%nat -> (i <= length L)%nat ->
  sync_items c (length L - i) i w = Ret (dev_json <$> drop i L) w.
Proof.
  intros Hd Hok H3 Hi. remember (length L - i)%nat as n eqn:En. revert i Hi En.
  induction n as [|n IH]; intros i Hi En.
  - by rewrite drop_ge by lia.
  - destruct (lookup_lt_is_Some_2 L i ltac:(lia)) as [d Ed]. cbn [sync_items].
    unfold bind at 1. rewrite (proj2 (Z.leb_gt _ _)) by (unfold ROKIDOS_BT_AUTOCONNECT_DEVICES_MAX_NUM; lia).
    cbn [ret]. unfold bind at 1, get_dev, bind at 1, devs. rewrite Hd. cbn [ret]. rewrite (arr_get_eq L i d) by done.
    unfold bind. rewrite read_name by by eapply Forall_lookup_1.
    rewrite IH by lia. rewrite (drop_S L d i) by done. done.
Qed.

(** ** Reading a device back *)

Lemma copy_pad s w : (String.length s <= BT_NAME_LEN)%nat -> copy_str (repeat 0 BT_NAME_LEN) s w = Ret (pad_name s) w.
Proof.
  intros H. unfold copy_str, strncpy_arr. rewrite repeat_length, (proj2 (Nat.leb_le _ _)) by done.
  unfold ret, pad_name. do 2 f_equal.
  - rewrite firstn_app, length_str_bytes, Nat.sub_diag. simpl. rewrite app_nil_r. apply firstn_all2.
    by rewrite length_str_bytes.
  - clear. generalize BT_NAME_LEN. induction (String.length s) as [|n IH]; intros [|m]; simpl; try done.
Qed.

Lemma upd_dev_eq c P d R f w :
  dev c = Some (P ++ d :: R) -> upd_dev c (length P) f w = Ret (set_dev (Some (P ++ f d :: R)) c) w.
Proof.
  intros Hd. unfold upd_dev, bind, devs. rewrite Hd. cbn [ret]. rewrite list_lookup_middle by done.
  by rewrite insert_app_r_alt, Nat.sub_diag by lia.
Qed.

Definition counted (d : bt_autoconnect_device) : Z := if bool_decide (b_addr d = zero_addr) then 0 else 1.

Lemma parse_device_eq c P R d o w :
  dev c = Some (P ++ zero_dev :: R) -> dev_ok d -> json_reads o (dev_json d) ->
  parse_device c (length P) o w =
  Ret (set_autoconnect_linknum (autoconnect_linknum c + counted d) (set_dev (Some (P ++ d :: R)) c)) w.
Proof.
  intros Hd Hok (Ho & (va & Ea & Ra) & (vn & En & Rn) & _). simpl in Ra, Rn.
  destruct Hok as [(s & Hs & Hl & Hn) Hb Hla]. destruct o as [o|]; [|by destruct Ho].
  cbn [parse_device]. rewrite Ea. unfold bind at 1. rewrite Ra. cbn [bd_strtoba ret].
  destruct (strtoba_print (b_addr d) Hb Hla) as [-> _].
  unfold bind at 1. rewrite (upd_dev_eq c P zero_dev R) by done. rewrite En.
  set (c1 := set_dev _ c). set (c2 := if bool_decide _ then _ else _).
  assert (Hc2 : dev c2 = Some (P ++ mk_autoconnect_device (repeat 0 BT_NAME_LEN) (b_addr d) :: R))
    by (unfold c2; by case_bool_decide).
  unfold bind at 1, text_of. rewrite Rn. cbn [ret]. unfold bind at 1, get_dev, bind at 1, devs. rewrite Hc2. cbn [ret].
  rewrite (arr_get_eq _ (length P) (mk_autoconnect_device (repeat 0 BT_NAME_LEN) (b_addr d))) by by apply list_lookup_middle.
  unfold bind. cbn [b_name]. rewrite Hn, (proj2 (pad_name_string s Hs Hl)), copy_pad by lia.
  rewrite (upd_dev_eq c2 P _ R _ w Hc2). cbn [b_addr]. f_equal.
  replace (mk_autoconnect_device (pad_name s) (b_addr d)) with d by (destruct d; simpl in *; by subst).
  unfold c2, c1, counted, set_dev, set_autoconnect_linknum. case_bool_decide; simpl; f_equal; lia.
Qed.

Lemma parse_devices_eq c P D o w :
  dev c = Some (P ++ repeat zero_dev (length D)) -> Forall dev_ok D -> elems_read o (length P) (dev_json <$> D) ->
  parse_devices c o (length D) (length P) w =
  Ret (set_autoconnect_linknum (autoconnect_linknum c + foldr (fun d n => counted d + n) 0 D) (set_dev (Some (P ++ D)) c)) w.
Proof.
  revert c P. induction D as [|d D IH]; intros c P Hd Hok Hr.
  - cbn. unfold ret. f_equal. destruct c; unfold set_autoconnect_linknum, set_dev; simpl in *. f_equal; [lia|done].
  - apply Forall_cons in Hok as [Hk Hok]. rewrite fmap_cons in Hr. destruct Hr as [H1 H2].
    cbn [parse_devices length]. unfold bind. rewrite (parse_device_eq c P (repeat zero_dev (length D)) d) by done.
    replace (S (length P)) with (length (P ++ [d])) in * by (rewrite length_app; simpl; lia).
    rewrite IH; [|simpl; by rewrite <- app_assoc|done|done]. f_equal.
    unfold set_autoconnect_linknum, set_dev. simpl. rewrite <- app_assoc. simpl. f_equal. lia.
Qed.

Lemma counted_history l n : zero_addr ∉ addrs l ->
  foldr (fun d n => counted d + n) 0 (l ++ repeat zero_dev n) = Z.of_nat (length l).
Proof.
  intros Hz. induction l as [|d l IH].
  - simpl. induction n; [done|]. simpl. rewrite IHn. done.
  - unfold addrs in Hz. rewrite fmap_cons in Hz. apply not_elem_of_cons in Hz as [H1 H2]. simpl. rewrite IH by done.
    unfold counted. rewrite bool_decide_eq_false_2 by done. lia.
Qed.

(** ** Saving and reading *)

Context {D : BtDisk X}.

(** Only the files and the outside change. *)
Definition same_service (w w' : W) : Prop := exists m x, w' = set_tenv x (set_files m w).

Lemma sync_saves c L w :
  dev c = Some L -> length L = Z.to_nat (autoconnect_num c) -> autoconnect_num c <= 3 -> Forall dev_ok L ->
  wp (bt_autoconnect_sync c)
    (fun r w' => r = 0 /\ same_service w w' /\
                 files w' !! autoconnect_filename c = Some (json_object_to_json_string (history_json c))) w.
Proof.
  intros Hd HL H3 Hok. unfold bt_autoconnect_sync. apply wp_bind.
  rewrite <- HL, <- (Nat.sub_0_r (length L)). eapply wp_eq; [apply sync_items_eq; [done|done|lia|lia]|].
  rewrite drop_0. unfold history_json. rewrite Hd. simpl default. set (root := JObj _).
  apply wp_bind, wp_modify, wp_bind, wp_te. intros r x Er. pose proof (disk_create (autoconnect_filename c) (tenv w)) as Hc.
  simpl in Er. rewrite Er in Hc. simpl in Hc. subst r. simpl.
  apply wp_bind, wp_te. intros n x' En. simpl in En. pose proof (disk_write (json_object_to_json_string root) x) as Hw.
  rewrite En in Hw. simpl in Hw. apply wp_bind, wp_modify, wp_ret. split; [done|]. split.
  - eexists _, x'. by destruct w.
  - simpl. rewrite lookup_insert_eq. f_equal. by apply substring_all.
Qed.

Lemma init_reads c c0 L w :
  dev c = Some L -> length L = Z.to_nat (autoconnect_num c) -> autoconnect_num c <= 3 -> Forall dev_ok L ->
  autoconnect_num c0 = autoconnect_num c -> autoconnect_linknum c0 = 0 ->
  reads_back (history_json c) ->
  files w !! autoconnect_filename c0 = Some (json_object_to_json_string (history_json c)) ->
  wp (bt_autoconnect_config_init c0)
    (fun r w' => same_service w w' /\ r = (0, set_autoconnect_linknum (foldr (fun d n => counted d + n) 0 L)
       (set_dev (Some L) (set_autoconnect_mode ROKIDOS_BT_AUTOCONNECT_MODE c0)))) w.
Proof.
  intros Hd HL H3 Hok En El (Hne & Hnn & Hlen & o & Ho & Hr) Hf.
  unfold bt_autoconnect_config_init. apply wp_bind, wp_gets. rewrite Hf.
  apply wp_bind, wp_te. intros r x Er. pose proof (disk_open (autoconnect_filename c0) (tenv w)) as E.
  rewrite Er in E. simpl in E. subst r. simpl. apply wp_bind, wp_te. intros r x2 Er2. simpl in Er2.
  pose proof (disk_read (autoconnect_filename c0) x) as E. rewrite Er2 in E. simpl in E. subst r. simpl.
  destruct (String.eqb_spec (json_object_to_json_string (history_json c)) ""); [done|].
  assert (Et : file_text (json_object_to_json_string (history_json c)) = json_object_to_json_string (history_json c)).
  { unfold file_text. rewrite substring_all by done. rewrite <- (app_nil_r (str_bytes _)).
    generalize dependent Hnn. clear. induction (json_object_to_json_string _) as [|a s IH]; [done|]. intros H. cbn in H |- *. bool_hyps.
    rewrite (proj2 (Z.eqb_neq _ _)) by assumption. rewrite chr_ord. f_equal. now apply IH. }
  rewrite Et, Ho. unfold bt_config_parse.
  set (c1 := if ROKIDOS_BT_AUTOCONNECT_DEVICES_MAX_NUM <=? _ then _ else _).
  assert (Ec1 : c1 = set_autoconnect_mode ROKIDOS_BT_AUTOCONNECT_MODE c0).
  { unfold c1. destruct (_ <=? _) eqn:E; [|done]. apply Z.leb_le in E. unfold ROKIDOS_BT_AUTOCONNECT_DEVICES_MAX_NUM in E.
    simpl in E. destruct c0; unfold set_autoconnect_num, set_autoconnect_mode; simpl in *. f_equal. unfold ROKIDOS_BT_AUTOCONNECT_DEVICES_MAX_NUM. lia. }
  rewrite Ec1. clear c1 Ec1. apply wp_bind, wp_bind, wp_te. intros r x3 Er3. simpl in Er3.
  pose proof (disk_calloc x2) as E. rewrite Er3 in E. simpl in E. subst r. apply wp_ret.
  cbn -[json_reads] in Hr. destruct Hr as (_ & _ & _ & (v & Ev & Rv) & _). rewrite Ev. destruct Rv as [Rl Re].
  rewrite Rl. rewrite Hd in *. simpl default in *. rewrite length_fmap. rewrite Nat2Z.id.
  apply wp_bind. eapply wp_eq.
  { apply (parse_devices_eq _ [] L); [|done|exact Re]. simpl. rewrite En, HL. done. }
  apply wp_ret. split; [exists (files w), x3; by destruct w|]. simpl. rewrite El. done.
Qed.
Lemma history_reads c l c0 w :
  holds c l -> autoconnect_num c <= 3 -> Forall dev_ok l ->
  autoconnect_filename c0 = autoconnect_filename c -> autoconnect_num c0 = autoconnect_num c ->
  autoconnect_linknum c0 = 0 -> reads_back (history_json c) ->
  wp (r <- bt_autoconnect_sync c ;; rc <- bt_autoconnect_config_init c0 ;; ret (r, rc))
    (fun a w' => a.1 = 0 /\ a.2.1 = 0 /\ dev a.2.2 = dev c /\ holds a.2.2 l /\ same_service w w') w.
Proof.
  intros H H3 Hok Ef En El Hr. destruct H as [H1 Hroom Hd Hn Hz Hl].
  set (L := l ++ repeat zero_dev _) in Hd.
  assert (HL : length L = Z.to_nat (autoconnect_num c)) by (unfold L; rewrite length_app, repeat_length; lia).
  assert (Hok' : Forall dev_ok L).
  { apply Forall_app. split; [done|]. apply Forall_forall. intros d Hd'. apply list_elem_of_In, repeat_spec in Hd' as ->. apply zero_dev_ok. }
  apply wp_bind. eapply wp_mono; [|by apply (sync_saves c L)]. intros r w1 (-> & (m1 & x1 & ->) & Hf).
  apply wp_bind. eapply wp_mono; [|apply (init_reads c c0 L); try done]; [|by rewrite Ef].
  intros rc w2 ((m2 & x2 & ->) & ->). apply wp_ret. simpl. split; [done|]. split; [done|]. split; [done|]. split.
  - assert (Ec : foldr (fun d n => counted d + n) 0 L = Z.of_nat (length l)) by by apply counted_history.
    rewrite Ec. split; try done; simpl; rewrite En; done.
  - eexists m2, x2. by destruct w.
Qed.

(** C22: Saving a history and reading its file gives the history back: with a disk that
    works, names of at most 248 bytes without NUL, at most three places, and a text that
    fits the reader's 1023 bytes and that json-c parses to what was printed, both calls
    answer 0 and the new configuration has the same devices in the same places. *)
Theorem history_roundtrip (c : bt_autoconnect_config) (l : list bt_autoconnect_device) (c0 : bt_autoconnect_config) (w : W) :
  holds c l -> autoconnect_num c <= 3 -> Forall dev_ok l ->
  autoconnect_filename c0 = autoconnect_filename c -> autoconnect_num c0 = autoconnect_num c ->
  autoconnect_linknum c0 = 0 -> reads_back (history_json c) ->
  wp (r <- bt_autoconnect_sync c ;; rc <- bt_autoconnect_config_init c0 ;; ret (r, rc))
    (fun a w' => a.1 = 0 /\ a.2.1 = 0 /\ dev a.2.2 = dev c /\ holds a.2.2 l /\ same_service w w') w.
Proof. apply history_reads. Qed.
End File.
