(* ===== verification/BtCommon.v ===== *)
(** * The Bluetooth service: common functions

    [framework/services/bluetooth/src/bt/common.c] and [src/ipc/ipc.c]: opening and
    closing the stack, the searches for devices, the removal of a device, and the
    reports. *)

From Stdlib Require Import Ascii String.
From stdpp Require Import base gmap list strings.
From S2P Require Import Prelude CString Bytes CMonad Json Dll Timer BtWorld BtConfig.
Open Scope string_scope.
Open Scope list_scope.
Open Scope Z_scope.

Definition FLORA_BT_COMMON_EVT : string := "bluetooth.common.event".
Definition FLORA_BT_BLE_EVT : string := "bluetooth.ble.event".
Definition FLORA_BT_BLE_CLI_EVT : string := "bluetooth.ble.client.event".
Definition FLORA_BT_A2DPSINK_EVT : string := "bluetooth.a2dpsink.event".
Definition FLORA_BT_A2DPSOURCE_EVT : string := "bluetooth.a2dpsource.event".
Definition FLORA_BT_HFP_EVT : string := "bluetooth.hfp.event".
Definition FLORA_BT_HH_EVT : string := "bluetooth.hh.event".
Definition FLORA_BT_BLE_CLI_READ : string := "bluetooth.ble.client.read".
Definition FLORA_BT_BLE_CLI_NOTIFY : string := "bluetooth.ble.client.notify".

(** The topic of [bt_flora_send_msg]. *)
Definition event_topic (element : Z) : option string :=
  if element =? BLUETOOTH_FUNCTION_COMMON then Some FLORA_BT_COMMON_EVT
  else if element =? BLUETOOTH_FUNCTION_BLE then Some FLORA_BT_BLE_EVT
  else if element =? BLUETOOTH_FUNCTION_BLE_CLIENT then Some FLORA_BT_BLE_CLI_EVT
  else if element =? BLUETOOTH_FUNCTION_A2DPSINK then Some FLORA_BT_A2DPSINK_EVT
  else if element =? BLUETOOTH_FUNCTION_A2DPSOURCE then Some FLORA_BT_A2DPSOURCE_EVT
  else if element =? BLUETOOTH_FUNCTION_HFP then Some FLORA_BT_HFP_EVT
  else if element =? BLUETOOTH_FUNCTION_HH then Some FLORA_BT_HH_EVT
  else None.

(** The topic of [bt_flora_send_binary_msg]. *)
Definition binary_topic (element : Z) : option string :=
  if element =? BLUETOOTH_FUNCTION_BLE_CLI_NOTIFY then Some FLORA_BT_BLE_CLI_NOTIFY
  else if element =? BLUETOOTH_FUNCTION_BLE_CLI_READ then Some FLORA_BT_BLE_CLI_READ
  else None.

Section Common.
Context {UL : ULong} {T X : Type} `{!Timers T, !BtEnv X} {J : JsonC} {V : JsonValues J}.
Local Notation W := (bts T X).

(** ** Reports *)

Definition report_bluetooth_information (element : Z) (msg : json) : M W unit :=
  match event_topic element with Some t => tlog_add (Posted t msg) | None => ret tt end.

Definition report_bluetooth_binary_information (element : Z) (buf : list Z) : M W unit :=
  match binary_topic element with Some t => tlog_add (PostedBytes t buf) | None => ret tt end.

Definition method_report_reply (msg : json) : M W unit := tlog_add (Replied msg).

(** To the caller of a method, or posted. *)
Definition answer (element : Z) (reply : bool) (msg : json) : M W unit :=
  if reply then method_report_reply msg else report_bluetooth_information element msg.

(** ** The stack *)

Definition bt_open : M W Z :=
  o <- gets bt_opened ;;
  if negb (o =? 0) then ret 0
  else
    r <- call BtOpen ;;
    if negb (r =? 0) then ret r
    else modify (set_bt_opened 1) ;; ret 0.

Definition bt_close : M W Z :=
  o <- gets bt_opened ;;
  s <- gets bt_status ;;
  when (negb (o =? 0) && (s =? 0)) (call BtClose ;; modify (set_bt_opened 0)) ;;
  ret 0.

Definition bt_get_mac_addr (reply : bool) : M W Z :=
  '(r, a) <- te te_module_addr ;;
  bd_addr <- (match a with Some a => ret a | None => stop UninitRead end) ;;
  answer BLUETOOTH_FUNCTION_COMMON reply (JObj [("module_address", JStr (print_ADDR bd_addr))]) ;;
  ret r.

Definition bt_set_discoveryable (discoverable reply : bool) : M W Z :=
  call (SetVisibility discoverable true) ;;
  answer BLUETOOTH_FUNCTION_COMMON reply
    (JObj [("broadcast_state", JStr (if discoverable then "opened" else "closed"))]) ;;
  ret 0.

(** ** Devices *)

Definition device_item (d : BTDevice) : M W json :=
  name <- read_str (bd_name d) ;;
  ret (JObj [("address", JStr (print_addr (bd_addr d))); ("name", JStr name)]).

Fixpoint device_items (zeroed : bool) (l : list BTDevice) (n i : nat) : M W (list json) :=
  match n with
  | O => ret []
  | S n' =>
      d <- dev_at BT_DISC_NB_DEVICES zeroed l i ;;
      x <- device_item d ;;
      rest <- device_items zeroed l n' (S i) ;;
      ret (x :: rest)
  end.

(** The devices of an array that a call filled, when there are any. *)
Definition device_list (zeroed : bool) (count : Z) (l : list BTDevice) : M W (list (string * json)) :=
  if 0 <? count then
    items <- device_items zeroed l (Z.to_nat count) 0 ;;
    ret [("deviceList", JArr items)]
  else ret [].

Definition bt_get_paired_list (reply : bool) : M W Z :=
  '(dev_count, devices) <- te (te_devices QBonded BT_DISC_NB_DEVICES) ;;
  list <- device_list false dev_count devices ;;
  answer BLUETOOTH_FUNCTION_COMMON reply
    (JObj (("action", JStr "pairedList") :: (if 0 <? dev_count then [("results", JObj list)] else []))) ;;
  ret 0.

Definition broadcast_remove_dev (addr : string) (status : Z) : M W unit :=
  report_bluetooth_information BLUETOOTH_FUNCTION_COMMON
    (JObj ([("action", JStr "remove_dev"); ("address", JStr addr)] ++
           (if status =? 99 then [("empty", JBool true)] else []) ++
           [("status", JInt (if status =? 99 then 0 else status))])).

(** The history of a profile, emptied or without one device, and its file. *)
Definition clear_history (c : bt_autoconnect_config) : M W bt_autoconnect_config :=
  l <- (if 0 <? autoconnect_num c then devs c else ret []) ;;
  let n := Z.to_nat (autoconnect_num c) in
  (if bool_decide (n <= length l)%nat then ret tt else stop BufferOverflow) ;;
  let c := if 0 <? autoconnect_num c then set_dev (Some (repeat zero_dev n ++ drop n l)) c else c in
  let c := set_autoconnect_linknum 0 c in
  bt_autoconnect_sync c ;;
  ret c.

Definition remove_history (c : bt_autoconnect_config) (d : bt_autoconnect_device) :
    M W (Z * bt_autoconnect_config) :=
  '(r, c) <- bt_autoconnect_remove c d ;;
  when (r =? 0) (bt_autoconnect_sync c ;; ret tt) ;;
  ret (r, c).

Definition bt_remove_dev (address : option string) : M W Z :=
  bt_open ;;
  s <- (match address with None => stop NullDeref | Some s => ret s end) ;;
  r <-
    (if String.eqb s "*" then
       r <- call ConfigClear ;;
       when (negb (r =? 0)) (broadcast_remove_dev s r) ;;
       k <- gets sink ;;
       c <- clear_history (sk_config k) ;;
       upd_sink (set_sk_config c) ;;
       k <- gets source ;;
       c <- clear_history (sr_config k) ;;
       upd_source (set_sr_config c) ;;
       ret r
     else
       a <- bd_strtoba (Some s) ;;
       match a with
       | None => broadcast_remove_dev s (-1) ;; ret (-1)
       | Some a =>
           r <- call (RemoveDev a) ;;
           when (negb (r =? 0)) (broadcast_remove_dev s r) ;;
           let d := mk_autoconnect_device [] a in
           k <- gets sink ;;
           '(r, c) <- remove_history (sk_config k) d ;;
           upd_sink (set_sk_config c) ;;
           k <- gets source ;;
           '(r, c) <- remove_history (sr_config k) d ;;
           upd_source (set_sr_config c) ;;
           ret r
       end) ;;
  bt_close ;;
  ret r.

(** ** Searches *)

Definition bt_upload_scan_results (is_completed : Z) : M W unit :=
  sc <- gets scanning ;;
  if sc =? 0 then ret tt
  else
    '(n, l) <- te (te_devices QDisc BT_DISC_NB_DEVICES) ;;
    list <- device_list true n l ;;
    report_bluetooth_information BLUETOOTH_FUNCTION_COMMON
      (JObj [("action", JStr "discovery");
             ("results", JObj (("is_completed", JBool (negb (is_completed =? 0))) :: list))]).

Definition bt_discovery (type : Z) : M W Z :=
  if (type <? BT_A2DP_SOURCE) || (BT_ALL <? type) then ret (-1)
  else
    o <- gets bt_opened ;;
    if negb (o =? 1) then ret (-1)
    else
      sc <- gets scanning ;;
      if negb (sc =? 0) then ret 0
      else
        r <- call (StartDiscovery type) ;;
        when (r =? 0) (modify (set_scanning 1)) ;;
        ret r.

Definition bt_cancel_discovery : M W Z :=
  o <- gets bt_opened ;;
  if negb (o =? 1) then ret 0
  else
    sc <- gets scanning ;;
    if sc =? 0 then ret 0
    else
      r <- call CancelDiscovery ;;
      modify (set_scanning 0) ;;
      ret r.

(** ** Commands *)

Definition get_ex (obj : option jobj) (key : string) : option (option jobj) := json_object_object_get_ex obj key.

(** The handlers' test [is_error(obj)], and their field "command". *)
Definition on_command (obj : option jobj) (body : string -> M W unit) (otherwise : M W unit) : M W Z :=
  match obj with
  | None => ret (-1)
  | Some _ =>
      (match get_ex obj "command" with
       | Some bt_cmd => command <- text_of bt_cmd ;; body command
       | None => otherwise
       end) ;;
      ret 0
  end.

(** A field of the message, used when it is there. *)
Definition with_field (obj : option jobj) (key : string) (body : option jobj -> M W unit) : M W unit :=
  match get_ex obj key with Some v => body v | None => ret tt end.

Definition handle_common_handle (obj : option jobj) (reply : bool) : M W Z :=
  on_command obj (fun command =>
    if String.eqb command "MODULE_ADDRESS" then bt_get_mac_addr reply ;; ret tt
    else if String.eqb command "VISIBILITY" then
      with_field obj "discoverable" (fun v => bt_set_discoveryable (json_object_get_boolean v) reply ;; ret tt)
    else if String.eqb command "PAIREDLIST" then bt_get_paired_list reply ;; ret tt
    else if String.eqb command "REMOVE_DEV" then
      with_field obj "address" (fun v => bt_remove_dev (json_object_get_string v) ;; ret tt)
    else if String.eqb command "DISCOVERY" then
      let type := match get_ex obj "type" with Some v => json_object_get_int v | None => BT_ALL end in
      bt_discovery type ;; ret tt
    else if String.eqb command "CANCEL_DISCOVERY" then bt_cancel_discovery ;; ret tt
    else ret tt) (ret tt).
End Common.
