(* ===== verification/BtHh.v ===== *)
(** * The Bluetooth service: HID host

    [framework/services/bluetooth/src/bt/hh.c]. *)

From Stdlib Require Import Ascii String.
From stdpp Require Import base gmap list strings.
From S2P Require Import Prelude CString Bytes CMonad Json Dll Timer BtWorld BtConfig BtCommon.
Open Scope string_scope.
Open Scope list_scope.
Open Scope Z_scope.

Definition HH_STATE_OPEN : Z := 1.
Definition HH_STATE_OPENING : Z := 2.
Definition HH_STATE_OPENFAILED : Z := 3.
Definition HH_STATE_OPENED : Z := 4.
Definition HH_STATE_CLOSE : Z := 5.
Definition HH_STATE_CLOSING : Z := 6.
Definition HH_STATE_CLOSED : Z := 7.

Definition HH_STATE_CONNECTING : Z := 100.
Definition HH_STATE_CONNECTED : Z := 101.
Definition HH_STATE_CONNECTFAILED : Z := 102.
Definition HH_STATE_DISCONNECTED : Z := 103.

Definition DEFAULT_NAME : string := "ROKID-BT-9999zz".

(** [struct BT_HH_OPEN_MSG] as far as it is read. *)
Record hh_open_msg := mk_hh_open_msg { ho_status : Z; ho_name : list Z; ho_addr : list Z }.

Inductive hh_evt :=
| BT_HH_REPORT_EVT
| BT_HH_OPEN_EVT (msg : option hh_open_msg)
| BT_HH_CLOSE_EVT
| BT_HH_OTHER_EVT.

Definition hh_open_text (s : Z) : string :=
  if s =? HH_STATE_OPEN then "open"
  else if s =? HH_STATE_OPENING then "opening"
  else if s =? HH_STATE_OPENED then "opened"
  else if s =? HH_STATE_OPENFAILED then "openfailed"
  else if s =? HH_STATE_CLOSE then "close"
  else if s =? HH_STATE_CLOSING then "closing"
  else if s =? HH_STATE_CLOSED then "closed"
  else "invalid".

Definition hh_connect_text (s : Z) : string :=
  if s =? HH_STATE_CONNECTING then "conncting"
  else if s =? HH_STATE_CONNECTED then "connected"
  else if s =? HH_STATE_CONNECTFAILED then "connectfailed"
  else if s =? HH_STATE_DISCONNECTED then "disconnected"
  else "invalid".

Section Hh.
Context {UL : ULong} {T X : Type} `{!Timers T, !BtEnv X} {J : JsonC} {V : JsonValues J}.
Local Notation W := (bts T X).

(** A device with its address, in a report. *)
Definition named_device (d : bt_autoconnect_device) : M W (list (string * json)) :=
  name <- read_str (b_name d) ;;
  ret [("name", JStr name); ("address", JStr (print_addr (b_addr d)))].

Definition broadcast_hh_state (reply : bool) : M W unit :=
  h <- gets hh ;;
  who <- (if (hh_connect_state h =? HH_STATE_CONNECTED) || (hh_connect_state h =? HH_STATE_DISCONNECTED)
          then named_device (hh_dev h) else ret []) ;;
  answer BLUETOOTH_FUNCTION_HH reply
    (JObj ([("action", JStr "stateupdate");
            ("state", JStr (hh_open_text (hh_open_state h)));
            ("connect_state", JStr (hh_connect_text (hh_connect_state h)))] ++ who)).

Definition hh_listener (event : hh_evt) : M W unit :=
  match event with
  | BT_HH_OPEN_EVT None => stop NullDeref
  | BT_HH_OPEN_EVT (Some msg) =>
      upd_hh (set_hh_connect_state (if negb (ho_status msg =? 0) then HH_STATE_CONNECTFAILED else HH_STATE_CONNECTED)) ;;
      name <- read_str (ho_name msg) ;;
      upd_hh (fun h => set_hh_dev (mk_autoconnect_device (print_str (b_name (hh_dev h)) name) (ho_addr msg)) h) ;;
      broadcast_hh_state false
  | BT_HH_CLOSE_EVT =>
      upd_hh (set_hh_connect_state HH_STATE_DISCONNECTED) ;;
      broadcast_hh_state false
  | BT_HH_REPORT_EVT | BT_HH_OTHER_EVT => ret tt
  end.

Definition bt_hh_on (name : option string) : M W unit :=
  h <- gets hh ;;
  if hh_open_state h =? HH_STATE_OPENED then broadcast_hh_state false
  else
    lock PHh ;;
    r <- bt_open ;;
    if negb (r =? 0) then
      upd_hh (set_hh_open_state HH_STATE_OPENFAILED) ;;
      broadcast_hh_state false ;;
      unlock PHh
    else
      call HhSetListener ;;
      call (SetName name) ;;
      r <- call HhEnable ;;
      if negb (r =? 0) then
        upd_hh (set_hh_open_state HH_STATE_OPENFAILED) ;;
        broadcast_hh_state false ;;
        unlock PHh
      else
        status_or HID_HOST_STATUS_MASK ;;
        upd_hh (fun h => set_hh_open_state 0 (set_hh_connect_state 0 h)) ;;
        upd_hh (set_hh_open_state HH_STATE_OPENED) ;;
        broadcast_hh_state false ;;
        unlock PHh.

Definition bt_hh_off : M W unit :=
  h <- gets hh ;;
  if HH_STATE_CLOSE <=? hh_open_state h then broadcast_hh_state false
  else
    lock PHh ;;
    upd_hh (set_hh_open_state HH_STATE_CLOSE) ;;
    call HhDisable ;;
    status_clear HID_HOST_STATUS_MASK ;;
    bt_close ;;
    upd_hh (set_hh_open_state HH_STATE_CLOSED) ;;
    broadcast_hh_state false ;;
    unlock PHh.

Definition get_hh_connected_devices_num : M W Z :=
  '(n, _) <- te (te_devices QHh 20) ;; ret n.

Definition bt_hh_connect (addr : option string) : M W unit :=
  h <- gets hh ;;
  busy <- (if negb (hh_open_state h =? HH_STATE_OPENED) then ret true
           else n <- get_hh_connected_devices_num ;; ret (negb (n =? 0))) ;;
  if busy then broadcast_hh_state false
  else
    a <- bd_strtoba addr ;;
    match a with
    | None => ret tt
    | Some bd_addr =>
        r <- call (HhConnect bd_addr) ;;
        when (negb (r =? 0)) (broadcast_hh_state false)
    end.

(** [disconnect] of the first [n] devices of an array of 20. *)
Fixpoint disconnect_all (c : list Z -> bt_call) (l : list BTDevice) (n i : nat) : M W unit :=
  match n with
  | O => ret tt
  | S n' =>
      d <- dev_at 20 true l i ;;
      call (c (bd_addr d)) ;;
      disconnect_all c l n' (S i)
  end.

Definition bt_hh_disconnect (address : option string) : M W unit :=
  '(num, l) <- te (te_devices QHh 20) ;;
  if negb (num =? 0) then
    match address with
    | Some s =>
        match strtoba s with
        | None => ret tt
        | Some bd_addr =>
            r <- call (HhDisconnect bd_addr) ;;
            when (negb (r =? 0)) (broadcast_hh_state false)
        end
    | None => disconnect_all HhDisconnect l (Z.to_nat num) 0
    end
  else broadcast_hh_state false.

(** The name of a message, or the default one. *)
Definition name_or_default (obj : option jobj) : option string :=
  match get_ex obj "name" with Some v => json_object_get_string v | None => Some DEFAULT_NAME end.

Definition handle_hh_handle (obj : option jobj) (reply : bool) : M W Z :=
  on_command obj (fun command =>
    if String.eqb command "ON" then bt_hh_on (name_or_default obj)
    else if String.eqb command "OFF" then bt_hh_off
    else if String.eqb command "GETSTATE" then broadcast_hh_state reply
    else if String.eqb command "CONNECT" then
      with_field obj "address" (fun v => bt_hh_connect (json_object_get_string v))
    else if String.eqb command "DISCONNECT" then
      match get_ex obj "address" with
      | Some v => bt_hh_disconnect (json_object_get_string v)
      | None => bt_hh_disconnect None
      end
    else ret tt) (ret tt).
End Hh.
