(* ===== verification/BtBle.v ===== *)
(** * The Bluetooth service: BLE server

    [framework/services/bluetooth/src/bt/ble.c] without its command handler: the frames
    that carry a message in both directions, the events, and opening and closing. *)

From Stdlib Require Import Ascii String.
From stdpp Require Import base gmap list strings.
From S2P Require Import Prelude CString Bytes CMonad Json Dll Timer BtWorld BtConfig BtCommon.
Open Scope string_scope.
Open Scope list_scope.
Open Scope Z_scope.

Definition BLE_STATE_OPEN : Z := 1.
Definition BLE_STATE_OPENING : Z := 2.
Definition BLE_STATE_OPENFAILED : Z := 3.
Definition BLE_STATE_OPENED : Z := 4.
Definition BLE_STATE_CONNECTED : Z := 5.
Definition BLE_STATE_HANDSHAKED : Z := 6.
Definition BLE_STATE_DISCONNECTED : Z := 7.
Definition BLE_STATE_CLOSE : Z := 8.
Definition BLE_STATE_CLOSING : Z := 9.
Definition BLE_STATE_CLOSED : Z := 10.

Definition BLE_DATA_LEN : nat := 20.
Definition ROKID_BLE_DATA_LEN : nat := 17.
Definition BLE_DATA_CHARACTER_CMCC : Z := 10758.      (* 0x2a06 *)
Definition BLE_DATA_CHARACTER : Z := 10759.           (* 0x2a07 *)
Definition SENDBUF_LEN : nat := 512.

(** [sizeof(struct rokid_ble_format)] and the bytes of [struct rokid_ble_handshake]. *)
Definition BLE_FORMAT_LEN : nat := 20.
Definition handshake : list Z := [82; 75; 2; 0; 0; 0; 0; 0].

(** [struct BT_BLE_SE_WRITE_MSG] as far as it is read. *)
Record ble_write_msg := mk_ble_write_msg { bw_uuid : Z; bw_offset : Z; bw_len : Z; bw_value : list Z }.

Inductive ble_evt :=
| BT_BLE_SE_WRITE_EVT (msg : option ble_write_msg)
| BT_BLE_SE_OPEN_EVT
| BT_BLE_SE_CLOSE_EVT
| BT_BLE_SE_OTHER_EVT.

Definition ble_open_text (s : Z) : option string :=
  if s =? BLE_STATE_OPEN then Some "open"
  else if s =? BLE_STATE_OPENING then Some "opening"
  else if s =? BLE_STATE_OPENED then Some "opened"
  else if s =? BLE_STATE_OPENFAILED then Some "openfailed"
  else if s =? BLE_STATE_CONNECTED then Some "connected"
  else if s =? BLE_STATE_HANDSHAKED then Some "handshaked"
  else if s =? BLE_STATE_DISCONNECTED then Some "disconnected"
  else if s =? BLE_STATE_CLOSE then Some "close"
  else if s =? BLE_STATE_CLOSING then Some "closing"
  else if s =? BLE_STATE_CLOSED then Some "closed"
  else None.

Section Ble.
Context {T X : Type} `{!Timers T, !BtEnv X}.
Local Notation W := (bts T X).

(** [json_object_new_string] reads through its argument. *)
Definition broadcast_ble_state (reply : bool) : M W unit :=
  b <- gets ble ;;
  match ble_open_text (ble_open_state b) with
  | None => stop NullDeref
  | Some s => answer BLUETOOTH_FUNCTION_BLE reply (JObj [("state", JStr s)])
  end.

(** ** Sending *)

(** The chunks of [buf], each given to [send]; a round takes at least one byte. *)
Fixpoint send_chunks (send : list Z -> M W unit) (fuel : nat) (buf : list Z) : M W unit :=
  match fuel, buf with
  | _, [] => ret tt
  | O, _ => stop Hang
  | S fuel', _ => send (take BLE_DATA_LEN buf) ;; send_chunks send fuel' (drop BLE_DATA_LEN buf)
  end.

Definition ble_send_raw_data (buf : list Z) : M W unit :=
  b <- gets ble ;;
  if (BLE_STATE_OPENED <? ble_open_state b) && (ble_open_state b <? BLE_STATE_DISCONNECTED) then
    send_chunks (fun d => call (BleSend BLE_DATA_CHARACTER d) ;; ret tt) (length buf) buf
  else broadcast_ble_state false.

(** A frame: the message's identifier, [last_index] and the data. *)
Definition ble_frame (id : Z) (last : bool) (data : list Z) : list Z :=
  id mod 256 :: le 2 (if last then 128 else 0) ++ data.

Fixpoint send_frames (id : Z) (fuel : nat) (buf : list Z) : M W unit :=
  match fuel, buf with
  | _, [] => ret tt
  | O, _ => stop Hang
  | S fuel', _ =>
      call (BleSend BLE_DATA_CHARACTER
              (ble_frame id (bool_decide (length buf <= ROKID_BLE_DATA_LEN)%nat) (take ROKID_BLE_DATA_LEN buf))) ;;
      send_frames id fuel' (drop ROKID_BLE_DATA_LEN buf)
  end.

Definition rokid_send_ble_data (buf : list Z) : M W unit :=
  lock PBle ;;
  b <- gets ble ;;
  send_frames (msgid b) (length buf) buf ;;
  unlock PBle.

(** ** Receiving *)

(** [memcpy(sendbuf + index, data, n)] *)
Definition put_sendbuf (index n : Z) (data : list Z) : M W unit :=
  if (n <? 0) || (index <? 0) || (Z.of_nat SENDBUF_LEN <? index + n) then stop BufferOverflow
  else
    let i := Z.to_nat index in
    let d := take (Z.to_nat n) data in
    upd_ble (fun b => set_sendbuf (take i (sendbuf b) ++ d ++ drop (i + length d) (sendbuf b)) b).

Definition clear_sendbuf : M W unit := upd_ble (set_sendbuf (repeat 0 SENDBUF_LEN)).

Definition report_recv_data : M W unit :=
  b <- gets ble ;;
  text <- read_str (sendbuf b) ;;
  tlog_add (PostedData FLORA_BT_BLE_EVT text) ;;
  clear_sendbuf.

(** [buf] is the array of 255 bytes with [len] bytes of the packet. *)
Definition rokid_recv_ble_data (buf : list Z) (len : Z) : M W unit :=
  if Z.of_nat BLE_FORMAT_LEN <? len then stop BufferOverflow
  else
    let format := take BLE_FORMAT_LEN (take (Z.to_nat len) buf ++ repeat 0 BLE_FORMAT_LEN) in
    let id := nth 0 format 0 in
    let last_index := unle (field 1 2 format) in
    let data := drop 3 format in
    b <- gets ble ;;
    when (negb (msgid b =? id))
      (clear_sendbuf ;; upd_ble (set_recv_index_len 0) ;; upd_ble (set_msgid id)) ;;
    if Z.land last_index 128 =? 0 then
      b <- gets ble ;;
      when (255 <? recv_index_len b + len - 3) (upd_ble (set_recv_index_len 0)) ;;
      b <- gets ble ;;
      put_sendbuf (recv_index_len b) (len - 3) data ;;
      upd_ble (fun b => set_recv_index_len (recv_index_len b + (len - 3)) b)
    else
      b <- gets ble ;;
      put_sendbuf (recv_index_len b) (len - 3) data ;;
      upd_ble (set_recv_index_len 0) ;;
      report_recv_data.

(** The packets of a message come after one that tells their number. *)
Definition rokid_recv_ble_data_cmcc (buf : list Z) (len : Z) : M W unit :=
  if bool_decide (take 5 buf = str_bytes "size:") then
    clear_sendbuf ;;
    upd_ble (set_cmcc_index_len 0) ;;
    s <- read_str (drop 5 buf) ;;
    upd_ble (set_cmcc_pkgs (atoi s))
  else
    b <- gets ble ;;
    if 0 <? cmcc_pkgs b then
      put_sendbuf (cmcc_index_len b) len buf ;;
      upd_ble (fun b => set_cmcc_pkgs (cmcc_pkgs b - 1) b) ;;
      upd_ble (fun b => set_cmcc_index_len (cmcc_index_len b + len) b) ;;
      b <- gets ble ;;
      when (cmcc_pkgs b =? 0) (report_recv_data ;; upd_ble (set_cmcc_index_len 0))
    else
      upd_ble (set_cmcc_index_len 0) ;;
      upd_ble (set_cmcc_pkgs 0).

(** ** Events *)

(** The array [buf] of the listener and the length it uses. *)
Definition ble_write_buf (msg : ble_write_msg) : M W (list Z * Z) :=
  let len := if 255 <? bw_len msg then 255 else bw_len msg in
  if Z.of_nat (length (bw_value msg)) <? bw_offset msg + len then stop OutOfBounds
  else
    let b := take (Z.to_nat len) (drop (Z.to_nat (bw_offset msg)) (bw_value msg)) in
    ret (take 254 (b ++ repeat 0 255) ++ [0], len).

Definition ble_listener (event : ble_evt) : M W unit :=
  match event with
  | BT_BLE_SE_WRITE_EVT msg =>
      b <- gets ble ;;
      if ble_open_state b <? BLE_STATE_CLOSE then
        match msg with
        | None => ret tt
        | Some msg =>
            '(buf, len) <- ble_write_buf msg ;;
            if negb (bw_uuid msg =? BLE_DATA_CHARACTER) && negb (bw_uuid msg =? BLE_DATA_CHARACTER_CMCC) then ret tt
            else
              when (0 <? bw_len msg)
                (if bool_decide (take 8 buf = handshake) then
                   upd_ble (set_ble_open_state BLE_STATE_HANDSHAKED) ;;
                   call (BleSend (bw_uuid msg) handshake) ;;
                   broadcast_ble_state false
                 else if bw_uuid msg =? BLE_DATA_CHARACTER then rokid_recv_ble_data buf len
                 else if bw_uuid msg =? BLE_DATA_CHARACTER_CMCC then rokid_recv_ble_data_cmcc buf len
                 else ret tt)
        end
      else ret tt
  | BT_BLE_SE_OPEN_EVT =>
      upd_ble (set_ble_open_state BLE_STATE_CONNECTED) ;;
      broadcast_ble_state false
  | BT_BLE_SE_CLOSE_EVT =>
      upd_ble (set_ble_open_state BLE_STATE_DISCONNECTED) ;;
      broadcast_ble_state false
  | BT_BLE_SE_OTHER_EVT => ret tt
  end.

(** ** On and off *)

Definition bt_ble_on (name : option string) : M W unit :=
  b <- gets ble ;;
  if (ble_open_state b =? BLE_STATE_OPENED) || (ble_open_state b =? BLE_STATE_CONNECTED) ||
     (ble_open_state b =? BLE_STATE_HANDSHAKED) then broadcast_ble_state false
  else
    lock PBle ;;
    r <- bt_open ;;
    if negb (r =? 0) then
      upd_ble (set_ble_open_state BLE_STATE_OPENFAILED) ;;
      broadcast_ble_state false ;;
      unlock PBle
    else
      call BleDisable ;;
      call BleSetListener ;;
      call (SetName name) ;;
      r <- call BleEnable ;;
      if negb (r =? 0) then
        upd_ble (set_ble_open_state BLE_STATE_OPENFAILED) ;;
        broadcast_ble_state false ;;
        unlock PBle
      else
        status_or BLE_STATUS_MASK ;;
        call (BleVisibility true true) ;;
        upd_ble (set_ble_open_state 0) ;;
        upd_ble (set_ble_open_state BLE_STATE_OPENED) ;;
        broadcast_ble_state false ;;
        unlock PBle.

Definition bt_ble_off : M W unit :=
  lock PBle ;;
  b <- gets ble ;;
  if BLE_STATE_CLOSE <=? ble_open_state b then
    broadcast_ble_state false ;;
    unlock PBle
  else
    upd_ble (set_ble_open_state BLE_STATE_CLOSE) ;;
    call BleDisable ;;
    status_clear BLE_STATUS_MASK ;;
    bt_close ;;
    upd_ble (set_ble_open_state BLE_STATE_CLOSED) ;;
    broadcast_ble_state false ;;
    unlock PBle.
End Ble.
