(* ===== verification/BtBleProofs.v ===== *)
(** * Messages over BLE

    A message cut into frames by [rokid_send_ble_data] is put together again by
    [rokid_recv_ble_data], and which packets the receiver survives. *)

From Stdlib Require Import Ascii String.
From stdpp Require Import base gmap list strings.
From S2P Require Import Prelude CString Bytes CMonad Json Dll Timer BtWorld BtConfig BtConfigProofs BtCommon BtBle.
Open Scope string_scope.
Open Scope list_scope.
Open Scope Z_scope.

(** ** Frames *)

Fixpoint frames (id : Z) (fuel : nat) (buf : list Z) : list (list Z) :=
  match fuel, buf with
  | _, [] => []
  | O, _ => []
  | S fuel', _ =>
      ble_frame id (bool_decide (length buf <= ROKID_BLE_DATA_LEN)%nat) (take ROKID_BLE_DATA_LEN buf) ::
      frames id fuel' (drop ROKID_BLE_DATA_LEN buf)
  end.

(** What was sent to the peer. *)
Definition payloads (log : list bt_event) : list (list Z) :=
  omap (fun e => match e with Called (BleSend _ b) _ => Some b | _ => None end) log.

(** A frame as the peer's packet. *)
Definition packet (f : list Z) : ble_evt :=
  BT_BLE_SE_WRITE_EVT (Some (mk_ble_write_msg BLE_DATA_CHARACTER 0 (Z.of_nat (length f)) (f ++ repeat 0 (600 - length f)))).

(** The message is put together from [p]. *)
Record assembling (b : ble_handle) (id : Z) (p : list Z) : Prop := {
  as_id : msgid b = id;
  as_buf : sendbuf b = p ++ repeat 0 (SENDBUF_LEN - length p);
  as_index : recv_index_len b = Z.of_nat (length p);
  as_room : (length p <= 255)%nat;
}.

(** The receiver can begin with a message [id]. *)
Definition can_receive (b : ble_handle) (id : Z) : Prop :=
  ble_open_state b < BLE_STATE_CLOSE /\ (msgid b = id -> assembling b id []).

Section Ble.
Context {T X : Type} `{!Timers T, !BtEnv X}.
Local Notation W := (bts T X).
Implicit Types w : W.

(** ** Sending *)

Lemma wp_call (c : bt_call) (Q : Z -> W -> Prop) w :
  (forall r x, te_call c (tenv w) = (r, x) -> Q r (set_tlog (tlog w ++ [Called c r]) (set_tenv x w))) -> wp (call c) Q w.
Proof. intros H. apply wp_bind, wp_te. intros r x E. apply wp_bind, wp_modify, wp_ret. by apply H. Qed.

(** Only the log and the outside change. *)
Definition only_logs (w w' : W) (l : list bt_event) : Prop := exists x, w' = set_tlog (tlog w ++ l) (set_tenv x w).

Lemma only_logs_trans w1 w2 w3 l1 l2 : only_logs w1 w2 l1 -> only_logs w2 w3 l2 -> only_logs w1 w3 (l1 ++ l2).
Proof. intros [x ->] [y ->]. exists y. destruct w1; unfold set_tlog, set_tenv; simpl. by rewrite app_assoc. Qed.

Lemma send_frames_wp id fuel buf w :
  (length buf <= fuel)%nat ->
  wp (send_frames id fuel buf) (fun _ w' => exists l, only_logs w w' l /\ payloads l = frames id fuel buf) w.
Proof.
  revert buf w. induction fuel as [|fuel IH]; intros buf w Hf; destruct buf as [|b buf]; try (simpl in Hf; lia).
  - exists []. split; [exists (tenv w); destruct w; unfold set_tlog, set_tenv; simpl; by rewrite app_nil_r|done].
  - exists []. split; [exists (tenv w); destruct w; unfold set_tlog, set_tenv; simpl; by rewrite app_nil_r|done].
  - cbn [send_frames]. apply wp_bind, wp_call. intros r x E.
    eapply wp_mono; [|apply IH; rewrite length_drop; simpl in *; unfold ROKID_BLE_DATA_LEN; lia].
    intros _ w' (l & Hl & Hp). eexists. split; [eapply only_logs_trans; [|exact Hl]; by exists x|].
    unfold payloads in *. rewrite omap_app, Hp. done.
Qed.

Lemma wp_lock p (Q : unit -> W -> Prop) w : p ∉ held w -> Q tt (set_held (p :: held w) w) -> wp (lock p) Q w.
Proof. intros H HQ. unfold lock, wp, bind, gets. by rewrite bool_decide_eq_false_2. Qed.

(** The mutexes that are held after [p] is released. *)
Definition release (p : profile) (h : list profile) : list profile := List.filter (fun q => negb (bool_decide (q = p))) h.

Lemma release_held p h : p ∉ h -> release p (p :: h) = h.
Proof.
  intros H. unfold release. simpl. rewrite bool_decide_eq_true_2 by done. simpl.
  induction h as [|q h IH]; [done|]. apply not_elem_of_cons in H as [H1 H2]. simpl.
  rewrite bool_decide_eq_false_2 by done. simpl. by rewrite IH.
Qed.

Lemma rokid_send_wp buf w :
  PBle ∉ held w ->
  wp (rokid_send_ble_data buf)
    (fun _ w' => exists l, only_logs w w' l /\ payloads l = frames (msgid (ble w)) (length buf) buf) w.
Proof.
  intros Hh. apply wp_bind, wp_lock; [done|]. apply wp_bind, wp_gets, wp_bind.
  eapply wp_mono; [|by apply send_frames_wp]. intros _ w' (l & [x ->] & Hp). apply wp_modify.
  exists l. split; [|done]. exists x. pose proof (release_held PBle (held w) Hh) as E. unfold release in E.
  destruct w; unfold set_held, set_tlog, set_tenv in *; simpl in *. by rewrite E.
Qed.
(** ** Receiving *)

(** Only the receiver and the log change. *)
Definition receives (w : W) (b : ble_handle) (l : list bt_event) : W := set_ble b (set_tlog (tlog w ++ l) w).

Lemma receives_nil w : receives w (ble w) [] = w.
Proof. unfold receives. destruct w; unfold set_ble, set_tlog; simpl. by rewrite app_nil_r. Qed.

Lemma receives_receives w b1 l1 b2 l2 : receives (receives w b1 l1) b2 l2 = receives w b2 (l1 ++ l2).
Proof. destruct w; unfold receives, set_ble, set_tlog; simpl. by rewrite app_assoc. Qed.

Lemma wp_upd_ble f (Q : unit -> W -> Prop) w : Q tt (receives w (f (ble w)) []) -> wp (upd_ble f) Q w.
Proof.
  intros H. apply wp_modify. unfold receives in H. destruct w; unfold set_ble, set_tlog in *; simpl in *. by rewrite app_nil_r in H.
Qed.

Lemma wp_tlog_add e (Q : unit -> W -> Prop) w : Q tt (receives w (ble w) [e]) -> wp (tlog_add e) Q w.
Proof. intros H. apply wp_modify. unfold receives in H. by destruct w. Qed.

Lemma ble_receives w b l : ble (receives w b l) = b.
Proof. done. Qed.

(** The format of a frame in its 20 bytes. *)
Lemma frame_buf f : (length f <= 20)%nat ->
  take (length f) (take 254 ((f ++ repeat 0 (600 - length f)) ++ repeat 0 255) ++ [0]) = f.
Proof.
  intros H. rewrite take_app_le by (rewrite length_take, !length_app, !repeat_length; lia).
  rewrite take_take, (Nat.min_l _ 254) by lia. rewrite <- app_assoc. apply take_app_length.
Qed.

Definition frame_code (last : bool) : Z := if last then 128 else 0.

Lemma frame_fields id last d :
  (length d <= 17)%nat ->
  let f := ble_frame id last d in
  let format := take BLE_FORMAT_LEN (f ++ repeat 0 BLE_FORMAT_LEN) in
  nth 0 format 0 = id mod 256 /\ unle (field 1 2 format) = frame_code last /\ take (length d) (drop 3 format) = d.
Proof.
  intros Hd. cbv zeta. unfold ble_frame.
  assert (E : take BLE_FORMAT_LEN ((id mod 256 :: le 2 (frame_code last) ++ d) ++ repeat 0 BLE_FORMAT_LEN) =
              id mod 256 :: le 2 (frame_code last) ++ take 17 (d ++ repeat 0 BLE_FORMAT_LEN)) by by destruct last.
  fold (frame_code last). rewrite E. split; [done|]. split.
  - by destruct last.
  - replace (drop 3 _) with (take 17 (d ++ repeat 0 BLE_FORMAT_LEN)) by by destruct last.
    rewrite take_take, Nat.min_l by lia. apply take_app_length.
Qed.

(** A frame of another message starts anew. *)
Lemma recv_start w id p (Q : unit -> W -> Prop) :
  (msgid (ble w) = id -> assembling (ble w) id p) -> (msgid (ble w) <> id -> p = []) ->
  (forall b, assembling b id p -> ble_open_state b = ble_open_state (ble w) -> Q tt (receives w b [])) ->
  wp (when (negb (msgid (ble w) =? id))
        (clear_sendbuf ;; upd_ble (set_recv_index_len 0) ;; upd_ble (set_msgid id))) Q w.
Proof.
  intros H1 H2 HQ. destruct (Z.eqb_spec (msgid (ble w)) id) as [E|E]; simpl.
  - apply wp_ret. rewrite <- (receives_nil w). apply HQ; [|done]. by apply H1.
  - rewrite (H2 E) in HQ. apply wp_bind, wp_upd_ble, wp_bind, wp_upd_ble, wp_upd_ble. rewrite !receives_receives. simpl.
    apply HQ; [|done]. split; simpl; try done. lia.
Qed.

Lemma put_wp w id p d data (Q : unit -> W -> Prop) :
  assembling (ble w) id p -> take (length d) data = d -> (length d <= 17)%nat ->
  (forall b, msgid b = id -> sendbuf b = (p ++ d) ++ repeat 0 (SENDBUF_LEN - length (p ++ d)) ->
     recv_index_len b = Z.of_nat (length p) -> ble_open_state b = ble_open_state (ble w) -> Q tt (receives w b [])) ->
  wp (put_sendbuf (recv_index_len (ble w)) (Z.of_nat (length d)) data) Q w.
Proof.
  intros [E1 E2 E3 E4] Hd H17 HQ. unfold put_sendbuf. rewrite E3, Nat2Z.id.
  unfold SENDBUF_LEN in *. rewrite !(proj2 (Z.ltb_ge _ _)) by lia. cbn [orb]. rewrite Nat2Z.id, Hd.
  apply wp_upd_ble, HQ; simpl; try done. rewrite E2, take_app_length, <- app_assoc. do 2 f_equal.
  rewrite drop_app_ge by lia. rewrite length_app. clear -E4 H17.
  replace (length p + length d - length p)%nat with (length d) by lia.
  assert (G : forall n m, drop n (repeat 0 m) = repeat 0 (m - n)) by (induction n; intros [|m]; simpl; auto).
  rewrite G. f_equal. lia.
Qed.
Lemma cstr_zeros l n : cstr (l ++ repeat 0 n) = cstr l.
Proof.
  induction l as [|b l IH]; cbn [app cstr]; [by destruct n|]. destruct (b =? 0); [done|by rewrite IH].
Qed.

Lemma length_frame id last d : length (ble_frame id last d) = (3 + length d)%nat.
Proof. done. Qed.

(** The buffer of the listener for a frame. *)
Definition frame_array (f : list Z) : list Z := take 254 ((f ++ repeat 0 (600 - length f)) ++ repeat 0 255) ++ [0].

Lemma recv_frame w id last d p :
  (msgid (ble w) = id mod 256 -> assembling (ble w) (id mod 256) p) -> (msgid (ble w) <> id mod 256 -> p = []) ->
  (length d <= 17)%nat -> (last = false -> (length p + length d <= 255)%nat) ->
  let f := ble_frame id last d in
  wp (rokid_recv_ble_data (frame_array f) (Z.of_nat (length f)))
    (fun _ w' => exists b, ble_open_state b = ble_open_state (ble w) /\
       if last then w' = receives w b [PostedData FLORA_BT_BLE_EVT (cstr (p ++ d))] /\ assembling b (id mod 256) []
       else w' = receives w b [] /\ assembling b (id mod 256) (p ++ d)) w.
Proof.
  intros H1 H2 H17 H255 f. unfold rokid_recv_ble_data.
  assert (Hf : length f = (3 + length d)%nat) by apply length_frame.
  rewrite (proj2 (Z.ltb_ge _ _)) by (unfold BLE_FORMAT_LEN; lia). rewrite Nat2Z.id.
  unfold frame_array. rewrite frame_buf by lia. destruct (frame_fields id last d H17) as (E1 & E2 & E3). fold f in E1, E2, E3.
  rewrite E1, E2. clear E1 E2. replace (Z.of_nat (length f) - 3) with (Z.of_nat (length d)) by lia.
  apply wp_bind, wp_gets, wp_bind. apply (recv_start w (id mod 256) p); [done|done|]. intros b Hb Ho.
  destruct last; cbn [frame_code Z.land Pos.land Z.eqb].
  - apply wp_bind, wp_gets, wp_bind. rewrite ble_receives.
    apply (put_wp (receives w b []) (id mod 256) p d); [done|done|done|]. intros b2 F1 F2 F3 F4.
    apply wp_bind, wp_upd_ble. rewrite !receives_receives. cbn [app].
    unfold report_recv_data. apply wp_bind, wp_gets, wp_bind. cbn [ble receives]. unfold read_str.
    assert (Hp : (length p <= 255)%nat) by apply Hb.
    rewrite bool_decide_eq_true_2.
    + apply wp_ret, wp_bind, wp_tlog_add, wp_upd_ble. rewrite !receives_receives. eexists. split; [|split].
      2: { rewrite !ble_receives. cbn [app sendbuf set_recv_index_len]. by rewrite F2, cstr_zeros. }
      * simpl. by rewrite F4.
      * split; simpl; try done. lia.
    + simpl. rewrite F2. apply elem_of_app. right. rewrite length_app. unfold SENDBUF_LEN.
      destruct (512 - (length p + length d))%nat eqn:E; [lia|]. by left.
  - specialize (H255 eq_refl). apply wp_bind, wp_gets. apply wp_bind. rewrite ble_receives.
    rewrite (proj2 (Z.ltb_ge _ _)) by (rewrite (as_index _ _ _ Hb); lia).
    apply wp_ret, wp_bind, wp_gets, wp_bind. rewrite ble_receives.
    apply (put_wp (receives w b []) (id mod 256) p d); [done|done|done|]. intros b2 F1 F2 F3 F4.
    apply wp_upd_ble. rewrite !receives_receives. cbn [app]. eexists. split; [|split; [done|]].
    + simpl. by rewrite F4.
    + split; simpl; try done.
      * rewrite F3, length_app. lia.
      * rewrite length_app. lia.
Qed.

(** The listener hands a frame to the receiver. *)
Lemma listener_frame w id last d (Q : unit -> W -> Prop) :
  (length d <= 17)%nat -> ble_open_state (ble w) < BLE_STATE_CLOSE ->
  wp (rokid_recv_ble_data (frame_array (ble_frame id last d)) (Z.of_nat (length (ble_frame id last d)))) Q w ->
  wp (ble_listener (packet (ble_frame id last d))) Q w.
Proof.
  intros H17 Ho HQ. set (f := ble_frame id last d) in *.
  assert (Hf : length f = (3 + length d)%nat) by apply length_frame.
  cbn [ble_listener packet]. apply wp_bind, wp_gets. rewrite (proj2 (Z.ltb_lt _ _)) by done.
  apply wp_bind. unfold ble_write_buf. cbn [bw_len bw_offset bw_value bw_uuid].
  rewrite (proj2 (Z.ltb_ge 255 _)) by lia. rewrite (proj2 (Z.ltb_ge _ _)) by (rewrite length_app, repeat_length; lia).
  apply wp_ret. cbn [negb andb Z.eqb Pos.eqb BLE_DATA_CHARACTER BLE_DATA_CHARACTER_CMCC].
  rewrite (proj2 (Z.ltb_lt 0 _)) by lia. cbn [when]. rewrite Nat2Z.id, drop_0.
  replace (take (length f) (f ++ repeat 0 (600 - length f))) with f by by rewrite take_app_length.
  assert (Ea : take 254 (f ++ repeat 0 255) ++ [0] = frame_array f).
  { unfold frame_array. f_equal. rewrite <- app_assoc, <- repeat_app, !(take_app f). f_equal.
    assert (G : forall n m, take n (repeat 0 m) = repeat 0 (n `min` m)) by (induction n; intros [|m]; simpl; f_equal; auto).
    rewrite !G. f_equal. lia. }
  rewrite Ea, bool_decide_eq_false_2; [exact HQ|]. intros E. apply (f_equal (fun l => nth 1 l 0)) in E. by destruct last.
Qed.

(** The frames of [buf], one after the other, when [p] of the message has arrived. *)
Lemma deliver_wp id fuel buf p j w :
  (length buf <= fuel)%nat -> buf <> [] -> length p = (17 * j)%nat -> (length p + length buf <= 272)%nat ->
  ble_open_state (ble w) < BLE_STATE_CLOSE ->
  (msgid (ble w) = id mod 256 -> assembling (ble w) (id mod 256) p) -> (msgid (ble w) <> id mod 256 -> p = []) ->
  wp (for_each (frames id fuel buf) (fun f => ble_listener (packet f)))
    (fun _ w' => exists b, w' = receives w b [PostedData FLORA_BT_BLE_EVT (cstr (p ++ buf))] /\
       assembling b (id mod 256) [] /\ ble_open_state b = ble_open_state (ble w)) w.
Proof.
  revert buf p j w. induction fuel as [|fuel IH]; intros buf p j w Hf Hb Hj H272 Ho H1 H2.
  { destruct buf; [done|simpl in Hf; lia]. }
  destruct buf as [|x buf']; [done|]. cbn [frames]. set (buf := x :: buf') in *.
  assert (Hd : (length (take ROKID_BLE_DATA_LEN buf) <= 17)%nat) by (rewrite length_take; unfold ROKID_BLE_DATA_LEN; lia).
  apply wp_bind, listener_frame; [done|done|].
  assert (Hl : length buf = S (length buf')) by done.
  eapply wp_mono; [|apply (recv_frame w id _ (take ROKID_BLE_DATA_LEN buf) p H1 H2 Hd)].
  2: { rewrite bool_decide_eq_false, length_take. unfold ROKID_BLE_DATA_LEN. intros Hn. lia. }
  intros _ w1 (b & Hob & Hw1). case_bool_decide as Hlast.
  - rewrite take_ge in Hw1 by done. rewrite drop_ge by done. destruct Hw1 as [-> Hb1].
    destruct fuel; apply wp_ret; by exists b.
  - destruct Hw1 as [-> Hb1]. unfold ROKID_BLE_DATA_LEN in *.
    assert (Hpl : length (p ++ take 17 buf) = (17 * S j)%nat) by (rewrite length_app, length_take; lia).
    eapply wp_mono; [|apply (IH _ (p ++ take 17 buf) (S j))].
    + intros _ w2 (b2 & -> & Hb2 & Ho2). exists b2. rewrite receives_receives, <- app_assoc, take_drop. cbn [app].
      split; [done|]. split; [done|]. by rewrite Ho2.
    + rewrite length_drop. lia.
    + intros E. apply (f_equal length) in E. rewrite length_drop in E. simpl in E. lia.
    + done.
    + rewrite Hpl, length_drop. lia.
    + cbn. by rewrite Hob.
    + done.
    + intros E. exfalso. apply E, Hb1.
Qed.

Lemma str_bytes_length s : length (str_bytes s) = String.length s.
Proof. unfold str_bytes. rewrite length_map. induction s; simpl; congruence. Qed.

(** A receiver that ended with a message can begin with the next. *)
Lemma assembling_can_receive b id id' : ble_open_state b < BLE_STATE_CLOSE -> assembling b id [] -> can_receive b id'.
Proof. intros Ho [E1 E2 E3 E4]. split; [done|]. intros E. by split; [|rewrite E2|rewrite E3|]. Qed.

Lemma message_roundtrip w1 w2 s :
  no_nul s = true -> (0 < String.length s <= 272)%nat -> PBle ∉ held w1 -> can_receive (ble w2) (msgid (ble w1) mod 256) ->
  wp (rokid_send_ble_data (str_bytes s))
    (fun _ w1' => exists l, only_logs w1 w1' l /\
       wp (for_each (payloads l) (fun f => ble_listener (packet f)))
         (fun _ w2' => exists b, w2' = receives w2 b [PostedData FLORA_BT_BLE_EVT s] /\
            forall id', can_receive b id') w2) w1.
Proof.
  intros Hs [Hl1 Hl2] Hh [Ho Hr]. eapply wp_mono; [|by apply rokid_send_wp].
  intros _ w1' (l & Hl & Hp). exists l. split; [done|]. rewrite Hp.
  eapply wp_mono; [|apply (deliver_wp _ _ _ [] 0)]; rewrite ?str_bytes_length; try done; try (simpl; lia).
  - intros _ w2' (b & -> & Hb & Hob). exists b. cbn [app]. split.
    + do 3 f_equal. rewrite <- (cstr_zeros _ 1). by apply cstr_bytes.
    + intros id'. eapply assembling_can_receive; [|done]. by rewrite Hob.
  - intros E. apply (f_equal length) in E. rewrite str_bytes_length in E. simpl in E. lia.
Qed.

(** ** What the receiver survives *)

Record recv_ok (b : ble_handle) : Prop := {
  ro_length : length (sendbuf b) = SENDBUF_LEN;
  ro_index : 0 <= recv_index_len b <= 255;
  ro_end : 0 ∈ drop 272 (sendbuf b);
}.

Lemma recv_ok_clear b : 0 <= recv_index_len b <= 255 -> recv_ok (set_sendbuf (repeat 0 SENDBUF_LEN) b).
Proof.
  intros H. split; [done|done|].
  by apply (bool_decide_unpack _); vm_compute.
Qed.

Lemma put_ok w i n data (Q : unit -> W -> Prop) :
  recv_ok (ble w) -> 0 <= i <= 255 -> 0 <= n <= 17 -> (forall b, recv_ok b -> recv_index_len b = recv_index_len (ble w) -> Q tt (receives w b [])) ->
  wp (put_sendbuf i n data) Q w.
Proof.
  intros [R1 R2 R3] Hi Hn HQ. unfold put_sendbuf, SENDBUF_LEN in *. rewrite !(proj2 (Z.ltb_ge _ _)) by lia. cbn [orb].
  apply wp_upd_ble, HQ; [|done]. set (d := take (Z.to_nat n) data).
  assert (Hd : (length d <= 17)%nat) by (unfold d; rewrite length_take; lia).
  split; simpl; [|done|].
  - rewrite !length_app, length_take, length_drop. unfold SENDBUF_LEN. lia.
  - rewrite app_assoc, drop_app_ge by (rewrite length_app, length_take; lia).
    rewrite drop_drop, length_app, length_take.
    replace (_ + _)%nat with 272%nat by lia. done.
Qed.

Lemma recv_safe w buf len :
  recv_ok (ble w) -> 3 <= len <= 20 -> wp (rokid_recv_ble_data buf len) (fun _ w' => recv_ok (ble w')) w.
Proof.
  intros R Hlen. unfold rokid_recv_ble_data. rewrite (proj2 (Z.ltb_ge _ _)) by (unfold BLE_FORMAT_LEN; lia).
  set (format := take _ _). apply wp_bind, wp_gets, wp_bind.
  assert (forall b, recv_ok b -> recv_ok (set_recv_index_len 0 b)) as H0 by (intros b [? ? ?]; by split; simpl; try lia).
  apply (wp_mono _ (fun _ w' => recv_ok (ble w'))).
  2: { unfold when. destruct (negb _); [|by apply wp_ret]. apply wp_bind, wp_upd_ble, wp_bind, wp_upd_ble, wp_upd_ble. simpl.
       destruct (recv_ok_clear (ble w)) as [? ? ?]; [apply R|]. by split; simpl; try lia. }
  intros _ w1 R1. destruct (_ =? 0).
  - apply wp_bind, wp_gets, wp_bind.
    apply (wp_mono _ (fun _ w' => recv_ok (ble w') /\ recv_index_len (ble w') + (len - 3) <= 255)).
    2: { pose proof (ro_index _ R1). unfold when. destruct (Z.ltb_spec 255 (recv_index_len (ble w1) + len - 3));
         [apply wp_upd_ble|apply wp_ret]; simpl; (split; [auto|simpl; lia]). }
    intros _ w2 [R2 Hi]. apply wp_bind, wp_gets, wp_bind, put_ok; [done|apply R2|lia|]. intros b Rb Eb.
    apply wp_upd_ble. simpl. destruct Rb as [? ? ?]. split; simpl; try done. lia.
  - apply wp_bind, wp_gets, wp_bind, put_ok; [done|apply R1|lia|]. intros b Rb Eb.
    apply wp_bind, wp_upd_ble. unfold report_recv_data. apply wp_bind, wp_gets, wp_bind. unfold read_str.
    rewrite bool_decide_eq_true_2.
    + apply wp_ret, wp_bind, wp_tlog_add, wp_upd_ble. simpl. apply recv_ok_clear. simpl. lia.
    + simpl. rewrite <- (take_drop 272 (sendbuf b)). apply elem_of_app. right. apply Rb.
Qed.

Lemma recv_faults w buf len :
  len < 3 \/ 20 < len -> rokid_recv_ble_data buf len w = Fault BufferOverflow.
Proof.
  intros H. unfold rokid_recv_ble_data. destruct (Z.ltb_spec (Z.of_nat BLE_FORMAT_LEN) len) as [|Hle]; [done|].
  unfold BLE_FORMAT_LEN in Hle. unfold bind, gets, when. set (format := take _ _).
  destruct (negb _); destruct (_ =? 0); cbn; repeat (destruct (255 <? _); cbn);
    unfold put_sendbuf; by rewrite (proj2 (Z.ltb_lt (len - 3) 0)) by lia.
Qed.

(** C10: A text of at most 272 bytes that one service sends over BLE is what the other one
    posts, exactly once, when the frames arrive in order; and the receiver is then ready
    for a message with any identifier. *)
Theorem ble_message_roundtrip w1 w2 s :
  no_nul s = true -> (0 < String.length s <= 272)%nat -> PBle ∉ held w1 -> can_receive (ble w2) (msgid (ble w1) mod 256) ->
  wp (rokid_send_ble_data (str_bytes s))
    (fun _ w1' => exists l, tlog w1' = tlog w1 ++ l /\ ble w1' = ble w1 /\ held w1' = held w1 /\
       wp (for_each (payloads l) (fun f => ble_listener (packet f)))
         (fun _ w2' => tlog w2' = tlog w2 ++ [PostedData FLORA_BT_BLE_EVT s] /\ forall id', can_receive (ble w2') id') w2) w1.
Proof.
  intros Hs Hl Hh Hr. eapply wp_mono; [|by apply (message_roundtrip w1 w2 s)].
  intros _ w1' (l & [x ->] & H). exists l. split; [done|]. split; [done|]. split; [done|].
  eapply wp_mono; [|exact H]. intros _ w2' (b & -> & Hb). done.
Qed.

(** C36: A frame of the server's characteristic is received safely exactly when it has 3 to
    20 bytes: then the receiver returns with its index within 255 and a buffer that ends,
    whatever the frame holds; any other length writes past a buffer. *)
Theorem frame_bounds w buf len :
  recv_ok (ble w) ->
  (3 <= len <= 20 <-> exists w', rokid_recv_ble_data buf len w = Ret tt w') /\
  (3 <= len <= 20 -> wp (rokid_recv_ble_data buf len) (fun _ w' => recv_ok (ble w')) w).
Proof.
  intros Hr. split; [|by apply recv_safe]. split.
  - intros Hl. pose proof (recv_safe w buf len Hr Hl) as H. unfold wp in H. destruct (rokid_recv_ble_data buf len w) as [[] w'|]; [eauto|done].
  - intros [w' E]. destruct (decide (3 <= len <= 20)) as [|Hn]; [done|]. rewrite (recv_faults w buf len) in E; [done|lia].
Qed.
End Ble.
