(* ===== verification/BtBleClient.v ===== *)
(** * The Bluetooth service: BLE client

    [framework/services/bluetooth/src/bt/ble_client.c]. *)

From Stdlib Require Import Ascii String.
From stdpp Require Import base gmap list strings.
From S2P Require Import Prelude CString Bytes CMonad Json Dll Timer BtWorld BtConfig BtCommon BtHh BtBle.
Open Scope string_scope.
Open Scope list_scope.
Open Scope Z_scope.

Definition BLE_CLI_STATE_OPENING : Z := 1.
Definition BLE_CLI_STATE_OPENFAILED : Z := 2.
Definition BLE_CLI_STATE_OPENED : Z := 3.
Definition BLE_CLI_STATE_CLOSE : Z := 4.
Definition BLE_CLI_STATE_CLOSING : Z := 5.
Definition BLE_CLI_STATE_CLOSED : Z := 6.

Definition BLE_CLI_STATE_CONNECTING : Z := 100.
Definition BLE_CLI_STATE_CONNECTED : Z := 101.
Definition BLE_CLI_STATE_CONNECTFAILED : Z := 102.
Definition BLE_CLI_STATE_DISCONNECTED : Z := 103.

(** [struct rokid_ble_client_header]: the offsets of its fields and its size. *)
Definition HEADER_ADDRESS_LEN : nat := 18.
Definition HEADER_SERVICE : nat := 22.
Definition HEADER_CHARACTER : nat := 59.
Definition HEADER_LEN : nat := 133.

Record bc_open_msg := mk_bc_open_msg { co_status : Z; co_name : list Z; co_addr : list Z }.

(** [struct BT_BLE_CL_NOTIF_MSG] and [struct BT_BLE_CL_READ_MSG]. *)
Record bc_data_msg := mk_bc_data_msg { cd_bda : list Z; cd_service : list Z; cd_char_id : list Z; cd_len : Z; cd_value : list Z }.

Inductive blec_evt :=
| BT_BLE_CL_OPEN_EVT (msg : option bc_open_msg)
| BT_BLE_CL_CLOSE_EVT (msg : option unit)
| BT_BLE_CL_NOTIF_EVT (msg : option bc_data_msg)
| BT_BLE_CL_READ_EVT (msg : option bc_data_msg)
| BT_BLE_CL_OTHER_EVT.

Definition bc_open_text (s : Z) : string :=
  if s =? BLE_CLI_STATE_OPENING then "opening"
  else if s =? BLE_CLI_STATE_OPENED then "opened"
  else if s =? BLE_CLI_STATE_OPENFAILED then "openfailed"
  else if s =? BLE_CLI_STATE_CLOSE then "close"
  else if s =? BLE_CLI_STATE_CLOSING then "closing"
  else if s =? BLE_CLI_STATE_CLOSED then "closed"
  else "invalid".

Definition bc_connect_text (s : Z) : string :=
  if s =? BLE_CLI_STATE_CONNECTING then "connecting"
  else if s =? BLE_CLI_STATE_CONNECTED then "connected"
  else if s =? BLE_CLI_STATE_CONNECTFAILED then "connectfailed"
  else if s =? BLE_CLI_STATE_DISCONNECTED then "disconnected"
  else "invalid".

Section BleClient.
Context {UL : ULong} {T X : Type} `{!Timers T, !BtEnv X} {J : JsonC} {V : JsonValues J}.
Local Notation W := (bts T X).

Definition broadcast_ble_client_state (reply : bool) : M W unit :=
  b <- gets blec ;;
  who <- (if (bc_connect_state b =? BLE_CLI_STATE_CONNECTED) || (bc_connect_state b =? BLE_CLI_STATE_CONNECTFAILED)
          then named_device (bc_dev b) else ret []) ;;
  answer BLUETOOTH_FUNCTION_BLE_CLIENT reply
    (JObj ([("action", JStr "stateupdate");
            ("state", JStr (bc_open_text (bc_open_state b)));
            ("connect_state", JStr (bc_connect_text (bc_connect_state b)))] ++ who)).

(** ** Data *)

(** [memcpy] of [n] bytes from an array. *)
Definition mem_read (a : list Z) (n : nat) : M W (list Z) :=
  if bool_decide (n <= length a)%nat then ret (take n a) else stop OutOfBounds.

(** The header that goes before the data, with the address as text. *)
Definition client_header (addr : string) (service character : list Z) : list Z :=
  le 4 (Z.of_nat HEADER_LEN) ++ (str_bytes addr ++ [0]) ++ service ++ character ++ repeat 0 MAX_LEN_UUID_STR.

Definition rokid_ble_client_receive_data (type : Z) (msg : bc_data_msg) : M W unit :=
  ok <- te te_malloc ;;
  if negb ok then ret tt
  else
    service <- mem_read (cd_service msg) MAX_LEN_UUID_STR ;;
    character <- mem_read (cd_char_id msg) MAX_LEN_UUID_STR ;;
    buf <- mem_read (cd_value msg) (Z.to_nat (cd_len msg)) ;;
    report_bluetooth_binary_information type (client_header (print_ADDR (cd_bda msg)) service character ++ buf).

Definition ble_client_listener (event : blec_evt) : M W unit :=
  match event with
  | BT_BLE_CL_OPEN_EVT (Some msg) =>
      upd_blec (set_bc_connect_state
                  (if negb (co_status msg =? 0) then BLE_CLI_STATE_CONNECTFAILED else BLE_CLI_STATE_CONNECTED)) ;;
      name <- read_str (co_name msg) ;;
      upd_blec (fun b => set_bc_dev (mk_autoconnect_device (print_str (b_name (bc_dev b)) name) (co_addr msg)) b) ;;
      broadcast_ble_client_state false
  | BT_BLE_CL_CLOSE_EVT (Some _) =>
      upd_blec (set_bc_connect_state BLE_CLI_STATE_DISCONNECTED) ;;
      broadcast_ble_client_state false
  | BT_BLE_CL_NOTIF_EVT (Some msg) => rokid_ble_client_receive_data BLUETOOTH_FUNCTION_BLE_CLI_NOTIFY msg
  | BT_BLE_CL_READ_EVT (Some msg) => rokid_ble_client_receive_data BLUETOOTH_FUNCTION_BLE_CLI_READ msg
  | _ => ret tt
  end.

(** ** On and off *)

Definition bt_ble_client_on (name : option string) : M W unit :=
  b <- gets blec ;;
  if bc_open_state b =? BLE_CLI_STATE_OPENED then broadcast_ble_client_state false
  else
    lock PBleClient ;;
    r <- bt_open ;;
    if negb (r =? 0) then
      upd_blec (set_bc_open_state BLE_CLI_STATE_OPENFAILED) ;;
      broadcast_ble_client_state false ;;
      unlock PBleClient
    else
      call BlecSetListener ;;
      call (SetName name) ;;
      r <- call BlecEnable ;;
      if negb (r =? 0) then
        upd_blec (set_bc_open_state BLE_CLI_STATE_OPENFAILED) ;;
        broadcast_ble_client_state false ;;
        unlock PBleClient
      else
        status_or BLE_CLIENT_STATUS_MASK ;;
        upd_blec (fun b => set_bc_open_state 0 (set_bc_connect_state 0 b)) ;;
        upd_blec (set_bc_open_state BLE_CLI_STATE_OPENED) ;;
        broadcast_ble_client_state false ;;
        unlock PBleClient.

Definition bt_ble_client_off : M W unit :=
  lock PBleClient ;;
  b <- gets blec ;;
  if BLE_CLI_STATE_CLOSE <=? bc_open_state b then
    broadcast_ble_client_state false ;;
    unlock PBleClient
  else
    upd_blec (set_bc_open_state BLE_CLI_STATE_CLOSE) ;;
    call BlecDisable ;;
    status_clear BLE_CLIENT_STATUS_MASK ;;
    bt_close ;;
    upd_blec (set_bc_open_state BLE_CLI_STATE_CLOSED) ;;
    broadcast_ble_client_state false ;;
    unlock PBleClient.

(** ** Connections *)

Definition get_ble_client_connected_device_num : M W Z :=
  '(n, _) <- te (te_devices QBlec 20) ;; ret n.

Definition bt_ble_client_connect (address : option string) : M W unit :=
  b <- gets blec ;;
  busy <- (if negb (bc_open_state b =? BLE_CLI_STATE_OPENED) || (bc_connect_state b =? BLE_CLI_STATE_CONNECTING)
           then ret true else n <- get_ble_client_connected_device_num ;; ret (negb (n =? 0))) ;;
  if busy then broadcast_ble_client_state false
  else
    a <- bd_strtoba address ;;
    match a with
    | None => ret tt
    | Some bd_addr =>
        r <- call (BlecConnect bd_addr) ;;
        if negb (r =? 0) then
          upd_blec (set_bc_connect_state BLE_CLI_STATE_CONNECTFAILED) ;;
          broadcast_ble_client_state false
        else upd_blec (set_bc_connect_state BLE_CLI_STATE_CONNECTING)
    end.

Definition bt_ble_client_disconnect (address : option string) : M W unit :=
  '(num, l) <- te (te_devices QBlec 20) ;;
  if negb (num =? 0) then
    match address with
    | Some s =>
        match strtoba s with
        | None => ret tt
        | Some bd_addr => call (BlecDisconnect bd_addr) ;; ret tt
        end
    | None => disconnect_all BlecDisconnect l (Z.to_nat num) 0
    end
  else broadcast_ble_client_state false.

(** ** Requests to the peer *)

(** [service] and [character] point into the message [buff], the data starts at [off]. *)
Definition ble_client_write_data (buff : list Z) (off len : Z) : M W unit :=
  n <- get_ble_client_connected_device_num ;;
  when (negb (n =? 0))
    (if len <=? 0 then ret tt
     else if Z.of_nat (length buff) <? off + len then stop OutOfBounds
     else
       send_chunks (fun d =>
         service <- read_str (drop HEADER_SERVICE buff) ;;
         character <- read_str (drop HEADER_CHARACTER buff) ;;
         call (BlecWrite service character d) ;; ret tt)
         (Z.to_nat len) (field (Z.to_nat off) (Z.to_nat len) buff)).

(** [head->len] is unsigned, and so is the difference of the lengths. *)
Definition handle_ble_client_write (buff : list Z) : M W Z :=
  h <- mem_read buff 4 ;;
  let head_len := unle h in
  ble_client_write_data buff head_len (wraps32 (Z.of_nat (length buff) - head_len)) ;;
  ret 0.

Definition ble_client_register_notify (service character : option string) : M W unit :=
  n <- get_ble_client_connected_device_num ;;
  if negb (n =? 0) then call (BlecNotify service character) ;; ret tt else broadcast_ble_client_state false.

Definition ble_client_read (service character : option string) : M W unit :=
  n <- get_ble_client_connected_device_num ;;
  if negb (n =? 0) then call (BlecRead service character) ;; ret tt else broadcast_ble_client_state false.

Definition handle_ble_client_handle (obj : option jobj) (reply : bool) : M W Z :=
  on_command obj (fun command =>
    if String.eqb command "ON" then bt_ble_client_on (name_or_default obj)
    else if String.eqb command "OFF" then bt_ble_client_off
    else if String.eqb command "GETSTATE" then broadcast_ble_client_state reply
    else if String.eqb command "REGISTER_NOTIFY" then
      with_field obj "service" (fun s => with_field obj "character" (fun c =>
        ble_client_register_notify (json_object_get_string s) (json_object_get_string c)))
    else if String.eqb command "READ" then
      with_field obj "service" (fun s => with_field obj "character" (fun c =>
        ble_client_read (json_object_get_string s) (json_object_get_string c)))
    else if String.eqb command "CONNECT" then
      with_field obj "address" (fun v => bt_ble_client_connect (json_object_get_string v))
    else if String.eqb command "DISCONNECT" then
      match get_ex obj "address" with
      | Some v => bt_ble_client_disconnect (json_object_get_string v)
      | None => bt_ble_client_disconnect None
      end
    else ret tt) (ret tt).
End BleClient.
