(* ===== verification/BtSource.v ===== *)
(** * The Bluetooth service: A2DP source

    [framework/services/bluetooth/src/bt/a2dpsource.c] without its command handler. *)

From Stdlib Require Import Ascii String.
From stdpp Require Import base gmap list strings.
From S2P Require Import Prelude CString Bytes CMonad Json Dll Timer BtWorld BtConfig BtCommon.
Open Scope string_scope.
Open Scope list_scope.
Open Scope Z_scope.

Definition A2DP_SOURCE_STATE_OPEN : Z := 1.
Definition A2DP_SOURCE_STATE_OPENED : Z := 2.
Definition A2DP_SOURCE_STATE_OPENFAILED : Z := 3.
Definition A2DP_SOURCE_STATE_CLOSE : Z := 4.
Definition A2DP_SOURCE_STATE_CLOSING : Z := 5.
Definition A2DP_SOURCE_STATE_CLOSED : Z := 6.

Definition A2DP_SOURCE_STATE_CONNECT_INVALID : Z := 0.
Definition A2DP_SOURCE_STATE_CONNECTING : Z := 100.
Definition A2DP_SOURCE_STATE_CONNECTED : Z := 101.
Definition A2DP_SOURCE_STATE_CONNECTEFAILED : Z := 102.
Definition A2DP_SOURCE_STATE_CONNECTEOVER : Z := 103.
Definition A2DP_SOURCE_STATE_DISCONNECTED : Z := 104.

Definition A2DP_SOURCE_BROADCAST_OPENED : Z := 400.
Definition A2DP_SOURCE_BROADCAST_CLOSED : Z := 401.

Definition BLUETOOTH_A2DPSOURCE_AUTOCONNECT_LIMIT_TIME : Z := 60 * 1000 * 5.

(** The callbacks of the timers. *)
Definition SOURCE_AUTO_CB : Z := 11.
Definition SOURCE_OVER_CB : Z := 12.

(** [struct BT_A2DP_OPEN_MSG] and, for the sink, [struct BT_AVK_OPEN_MSG]. *)
Record a2dp_open_msg := mk_a2dp_open_msg { om_status : Z; om_addr : list Z; om_name : list Z }.

Inductive source_evt :=
| BT_A2DP_OPEN_EVT (msg : option a2dp_open_msg)
| BT_A2DP_CLOSE_EVT
| BT_A2DP_OTHER_EVT.

Definition sr_open_text (s : Z) : string :=
  if s =? A2DP_SOURCE_STATE_OPEN then "open"
  else if s =? A2DP_SOURCE_STATE_OPENED then "opened"
  else if s =? A2DP_SOURCE_STATE_OPENFAILED then "open failed"
  else if s =? A2DP_SOURCE_STATE_CLOSE then "close"
  else if s =? A2DP_SOURCE_STATE_CLOSING then "closing"
  else if s =? A2DP_SOURCE_STATE_CLOSED then "closed"
  else "invalid".

Definition sr_connect_text (s : Z) : string :=
  if s =? A2DP_SOURCE_STATE_CONNECTED then "connected"
  else if s =? A2DP_SOURCE_STATE_CONNECTEFAILED then "connect failed"
  else if s =? A2DP_SOURCE_STATE_DISCONNECTED then "disconnected"
  else if s =? A2DP_SOURCE_STATE_CONNECTEOVER then "connect over"
  else "invalid".

(** The field "broadcast_state" of both A2DP profiles. *)
Definition broadcast_field (s : Z) : list (string * json) :=
  if s =? A2DP_SOURCE_BROADCAST_OPENED then [("broadcast_state", JStr "opened")]
  else if s =? A2DP_SOURCE_BROADCAST_CLOSED then [("broadcast_state", JStr "closed")]
  else [].

Section Source.
Context {UL : ULong} {T X : Type} `{!Timers T, !BtEnv X} {J : JsonC} {V : JsonValues J}.
Local Notation W := (bts T X).

Definition upd_source_state (f : a2dpsource_state -> a2dpsource_state) : M W unit :=
  upd_source (fun k => set_sr_state (f (sr_state k)) k).
Definition upd_source_config (f : bt_autoconnect_config -> bt_autoconnect_config) : M W unit :=
  upd_source (fun k => set_sr_config (f (sr_config k)) k).
Definition source_timer (f : a2dpsource_timer -> Z) : M W Z := gets (fun w => f (sr_timer (source w))).

(** The first device of the history, in a report. *)
Definition first_device (c : bt_autoconnect_config) : M W (list (string * json)) :=
  d <- get_dev c 0 ;;
  name <- read_str (b_name d) ;;
  ret [("connect_name", JStr name); ("connect_address", JStr (print_addr (b_addr d)))].

Definition broadcast_a2dpsource_state (reply : bool) : M W unit :=
  k <- gets source ;;
  let s := sr_state k in
  who <- (if (sr_connect_state s =? A2DP_SOURCE_STATE_CONNECTED) || (sr_connect_state s =? A2DP_SOURCE_STATE_CONNECTEOVER)
          then first_device (sr_config k) else ret []) ;;
  answer BLUETOOTH_FUNCTION_A2DPSOURCE reply
    (JObj ([("linknum", JInt (autoconnect_linknum (sr_config k)));
            ("a2dpstate", JStr (sr_open_text (sr_open_state s)));
            ("connect_state", JStr (sr_connect_text (sr_connect_state s)))] ++ who ++
           broadcast_field (sr_broadcast_state s) ++ [("action", JStr "stateupdate")])).

Definition get_a2dpsource_connected_device_num : M W Z :=
  '(n, _) <- te (te_devices QSource 1) ;; ret n.

(** The device of an event, with its name or, when it has none, the one of the history. *)
Definition connected_device (c : bt_autoconnect_config) (msg : a2dp_open_msg) : M W bt_autoconnect_device :=
  let d := mk_autoconnect_device (repeat 0 BT_NAME_LEN) (om_addr msg) in
  index <- bt_autoconnect_get_index c d ;;
  d <- (if 0 <=? index then
          x <- get_dev c (Z.to_nat index) ;;
          old <- read_str (b_name x) ;;
          n <- copy_str (b_name d) old ;;
          ret (mk_autoconnect_device n (b_addr d))
        else ret d) ;;
  name <- read_str (om_name msg) ;;
  if negb (strlen name =? 0) then
    n <- copy_str (repeat 0 BT_NAME_LEN) name ;;
    ret (mk_autoconnect_device n (b_addr d))
  else ret d.

(** Whether the address is one of the history. *)
Definition in_history (c : bt_autoconnect_config) (addr : list Z) : M W bool :=
  i <- index_loop c addr (Z.to_nat (autoconnect_num c)) 0 ;; ret (0 <=? i).

Definition a2dp_source_listener (event : source_evt) : M W unit :=
  match event with
  | BT_A2DP_OPEN_EVT None => ret tt
  | BT_A2DP_OPEN_EVT (Some msg) =>
      k <- gets source ;;
      if om_status msg =? 0 then
        d <- connected_device (sr_config k) msg ;;
        id <- source_timer sr_connect_over_id ;;
        eloop_timer_stop id ;;
        '(_, c) <- bt_autoconnect_update (sr_config k) d ;;
        upd_source (set_sr_config c) ;;
        bt_autoconnect_sync c ;;
        call (SetVisibility false false) ;;
        when (negb (sr_open_state (sr_state k) =? A2DP_SOURCE_STATE_CLOSED))
          (upd_source_state (set_sr_connect_state A2DP_SOURCE_STATE_CONNECTED) ;;
           upd_source_state (set_sr_broadcast_state A2DP_SOURCE_BROADCAST_CLOSED) ;;
           broadcast_a2dpsource_state false)
      else
        known <- (if autoconnect_flag (sr_config k) =? AUTOCONNECT_BY_HISTORY_WORK then
                    id <- source_timer sr_auto_connect_id ;;
                    eloop_timer_start id ;;
                    in_history (sr_config k) (om_addr msg)
                  else ret false) ;;
        if known then ret tt
        else
          when ((autoconnect_flag (sr_config k) =? AUTOCONNECT_BY_HISTORY_OVER) &&
                negb (sr_open_state (sr_state k) =? A2DP_SOURCE_STATE_CLOSED))
            (upd_source_state (set_sr_connect_state A2DP_SOURCE_STATE_CONNECTEFAILED) ;;
             upd_source_state (set_sr_broadcast_state A2DP_SOURCE_BROADCAST_OPENED) ;;
             broadcast_a2dpsource_state false)
  | BT_A2DP_CLOSE_EVT =>
      upd_source_state (set_sr_connect_state A2DP_SOURCE_STATE_DISCONNECTED) ;;
      call (SetVisibility true true) ;;
      k <- gets source ;;
      let s := sr_open_state (sr_state k) in
      when (s <? A2DP_SOURCE_STATE_CLOSED)
        (upd_source_state (set_sr_broadcast_state A2DP_SOURCE_BROADCAST_OPENED) ;;
         broadcast_a2dpsource_state false) ;;
      when ((s <? A2DP_SOURCE_STATE_CLOSE) && (A2DP_SOURCE_STATE_OPENED <=? s))
        (id <- source_timer sr_connect_over_id ;; eloop_timer_start id)
  | BT_A2DP_OTHER_EVT => ret tt
  end.

(** ** On and off *)

Definition bt_a2dpsource_enable (name : string) : M W Z :=
  call SourceDisable ;;
  r <- call SourceSetListener ;;
  if negb (r =? 0) then ret (-2)
  else
    call (SetName (Some name)) ;;
    r <- call SourceEnable ;;
    if negb (r =? 0) then ret (-2)
    else
      r <- call (SetVisibility true true) ;;
      if negb (r =? 0) then ret (-3)
      else upd_source_state (set_sr_broadcast_state A2DP_SOURCE_BROADCAST_OPENED) ;; ret 0.

Definition a2dpsource_bluetooth_autoconnect : M W unit :=
  n <- get_a2dpsource_connected_device_num ;;
  if negb (n =? 0) then upd_source_config (set_autoconnect_index 0)
  else
    upd_source_config (set_autoconnect_flag AUTOCONNECT_BY_HISTORY_WORK) ;;
    upd_source_config (set_autoconnect_index 0) ;;
    id <- source_timer sr_auto_connect_id ;;
    eloop_timer_start id.

(** The timer's callback: the next device of the history. *)
Definition auto_connect_a2dpsource_by_history_index : M W unit :=
  n <- get_a2dpsource_connected_device_num ;;
  id <- source_timer sr_auto_connect_id ;;
  if negb (n =? 0) then
    upd_source_config (set_autoconnect_index 0) ;;
    upd_source_config (set_autoconnect_flag AUTOCONNECT_BY_HISTORY_OVER) ;;
    eloop_timer_stop id
  else
    k <- gets source ;;
    let c := sr_config k in
    if negb (autoconnect_flag c =? AUTOCONNECT_BY_HISTORY_WORK) then upd_source_config (set_autoconnect_index 0)
    else
      let next := upd_source_config (fun c => set_autoconnect_index (wraps32 (autoconnect_index c + 1)) c) in
      if autoconnect_index c <? 0 then next
      else if autoconnect_index c <? autoconnect_num c then
        d <- get_dev c (Z.to_nat (autoconnect_index c)) ;;
        read_str (b_name d) ;;
        if bool_decide (b_addr d = zero_addr) then next
        else
          r <- call (SourceConnect (b_addr d)) ;;
          if negb (r =? 0) then next ;; eloop_timer_start id
          else upd_source_state (set_sr_connect_state A2DP_SOURCE_STATE_CONNECTING) ;; next
      else
        upd_source_config (set_autoconnect_index 0) ;;
        upd_source_config (set_autoconnect_flag AUTOCONNECT_BY_HISTORY_OVER) ;;
        when (negb (sr_connect_state (sr_state k) =? A2DP_SOURCE_STATE_CONNECTED) && (0 <? autoconnect_linknum c))
          (upd_source_state (set_sr_connect_state A2DP_SOURCE_STATE_CONNECTEOVER) ;;
           broadcast_a2dpsource_state false) ;;
        eloop_timer_stop id.

Definition bt_a2dpsource_on (name : string) : M W unit :=
  k <- gets source ;;
  if sr_open_state (sr_state k) =? A2DP_SOURCE_STATE_OPENED then
    broadcast_a2dpsource_state false ;;
    a2dpsource_bluetooth_autoconnect
  else
    lock PSource ;;
    r <- bt_open ;;
    if negb (r =? 0) then
      upd_source_state (set_sr_open_state A2DP_SOURCE_STATE_OPENFAILED) ;;
      broadcast_a2dpsource_state false ;;
      unlock PSource
    else
      upd_source_state (fun _ => mk_a2dpsource_state 0 0 0) ;;
      r <- bt_a2dpsource_enable name ;;
      if r =? 0 then
        upd_source_state (set_sr_open_state A2DP_SOURCE_STATE_OPENED) ;;
        status_or A2DP_SOURCE_STATUS_MASK ;;
        broadcast_a2dpsource_state false ;;
        upd_source_config (set_autoconnect_flag AUTOCONNECT_BY_HISTORY_INIT) ;;
        a2dpsource_bluetooth_autoconnect ;;
        id <- source_timer sr_connect_over_id ;;
        eloop_timer_start id ;;
        unlock PSource
      else
        upd_source_state (set_sr_open_state A2DP_SOURCE_STATE_OPENFAILED) ;;
        broadcast_a2dpsource_state false ;;
        unlock PSource.

Definition bt_a2dpsource_off : M W unit :=
  k <- gets source ;;
  if sr_open_state (sr_state k) =? A2DP_SOURCE_STATE_CLOSED then broadcast_a2dpsource_state false
  else
    lock PSource ;;
    call CancelDiscovery ;;
    call SourceDisable ;;
    status_clear A2DP_SOURCE_STATUS_MASK ;;
    bt_close ;;
    id <- source_timer sr_connect_over_id ;;
    eloop_timer_stop id ;;
    id <- source_timer sr_auto_connect_id ;;
    eloop_timer_stop id ;;
    upd_source_state (fun _ => mk_a2dpsource_state 0 0 0) ;;
    upd_source_state (set_sr_broadcast_state A2DP_SOURCE_BROADCAST_CLOSED) ;;
    upd_source_state (set_sr_open_state A2DP_SOURCE_STATE_CLOSED) ;;
    broadcast_a2dpsource_state false ;;
    unlock PSource.

(** The timer's callback after five minutes without a connection. *)
Definition a2dpsource_autoconnect_over : M W unit :=
  n <- get_a2dpsource_connected_device_num ;;
  if negb (n =? 0) then ret tt else bt_a2dpsource_off.

Definition bt_a2dpsource_timer_init : M W Z :=
  a <- zoom (timer_add SOURCE_AUTO_CB 1000 0) ;;
  upd_source (fun k => set_sr_timer (set_sr_auto_connect_id a (sr_timer k)) k) ;;
  o <- zoom (timer_add SOURCE_OVER_CB BLUETOOTH_A2DPSOURCE_AUTOCONNECT_LIMIT_TIME 0) ;;
  upd_source (fun k => set_sr_timer (set_sr_connect_over_id o (sr_timer k)) k) ;;
  ret (if (a <=? 0) || (o <=? 0) then -1 else 0).

(** ** Connections *)

Definition bt_a2dpsource_disconnect_device : M W unit :=
  '(count, l) <- te (te_devices QSource 1) ;;
  if negb (count =? 0) then
    d <- dev_at 1 true l 0 ;;
    call (SourceDisconnect (bd_addr d)) ;; ret tt
  else
    upd_source_state (set_sr_connect_state A2DP_SOURCE_STATE_DISCONNECTED) ;;
    broadcast_a2dpsource_state false.

Definition a2dpsource_upload_scan_results (is_completed : Z) : M W unit :=
  sc <- gets scanning ;;
  if sc =? 0 then ret tt
  else
    k <- gets source ;;
    if negb (sr_open_state (sr_state k) =? A2DP_SOURCE_STATE_OPENED) then ret tt
    else
      '(n, l) <- te (te_devices QDisc BT_DISC_NB_DEVICES) ;;
      list <- device_list true n l ;;
      '(n, l) <- te (te_devices QSource 1) ;;
      current <- (if negb (n =? 0) then
                    d <- dev_at 1 true l 0 ;;
                    name <- read_str (bd_name d) ;;
                    ret [("currentDevice", JObj [("name", JStr name); ("address", JStr (print_addr (bd_addr d)))])]
                  else ret []) ;;
      report_bluetooth_information BLUETOOTH_FUNCTION_A2DPSOURCE
        (JObj [("action", JStr "discovery");
               ("results", JObj ((("is_completed", JBool (negb (is_completed =? 0))) :: list) ++ current))]).

Definition bt_a2dpsource_discovery : M W unit :=
  k <- gets source ;;
  if negb (sr_open_state (sr_state k) =? A2DP_SOURCE_STATE_OPENED) then broadcast_a2dpsource_state false
  else
    r <- bt_discovery BT_A2DP_SINK ;;
    when (negb (r =? 0)) (broadcast_a2dpsource_state false).

Definition bt_a2dpsource_connect (addr : option string) : M W unit :=
  k <- gets source ;;
  busy <- (if negb (sr_open_state (sr_state k) =? A2DP_SOURCE_STATE_OPENED) then ret true
           else n <- get_a2dpsource_connected_device_num ;; ret (negb (n =? 0))) ;;
  if busy then broadcast_a2dpsource_state false
  else
    a <- bd_strtoba addr ;;
    match a with
    | None => ret tt
    | Some bd_addr =>
        r <- call (SourceConnect bd_addr) ;;
        when (negb (r =? 0))
          (upd_source_state (set_sr_connect_state A2DP_SOURCE_STATE_CONNECTEFAILED) ;;
           broadcast_a2dpsource_state false)
    end.
End Source.
