(* ===== verification/BtSink.v ===== *)
(** * The Bluetooth service: A2DP sink

    [framework/services/bluetooth/src/bt/a2dpsink.c] without its command handler. *)

From Stdlib Require Import Ascii String.
From stdpp Require Import base gmap list strings.
From S2P Require Import Prelude CString Bytes CMonad Json Dll Timer BtWorld BtConfig BtCommon BtSource.
Open Scope string_scope.
Open Scope list_scope.
Open Scope Z_scope.

Definition A2DP_SINK_STATE_OPEN : Z := 1.
Definition A2DP_SINK_STATE_OPENED : Z := 2.
Definition A2DP_SINK_STATE_OPENFAILED : Z := 3.
Definition A2DP_SINK_STATE_CLOSE : Z := 4.
Definition A2DP_SINK_STATE_CLOSING : Z := 5.
Definition A2DP_SINK_STATE_CLOSED : Z := 6.

Definition A2DP_SINK_STATE_CONNECT_INVALID : Z := 0.
Definition A2DP_SINK_STATE_CONNECTING : Z := 100.
Definition A2DP_SINK_STATE_CONNECTED : Z := 101.
Definition A2DP_SINK_STATE_CONNECTEFAILED : Z := 102.
Definition A2DP_SINK_STATE_DISCONNECTED : Z := 103.

Definition A2DP_SINK_STATE_PLAY_INVALID : Z := 0.
Definition A2DP_SINK_STATE_PLAYED : Z := 202.
Definition A2DP_SINK_STATE_STOPED : Z := 203.

Definition A2DP_SINK_COMMAND_PLAY : Z := 300.
Definition A2DP_SINK_COMMAND_PAUSE : Z := 301.
Definition A2DP_SINK_COMMAND_STOP : Z := 302.

Definition A2DP_SINK_BROADCAST_OPENED : Z := 400.
Definition A2DP_SINK_BROADCAST_CLOSED : Z := 401.

Definition BLUETOOTH_A2DPSINK_AUTOCONNECT_LIMIT_TIME : Z := 5 * 60 * 1000.
Definition BLUETOOTH_A2DPSINK_CHECK_PLAY_INDEX : Z := 5.

Definition BT_AVRC_EVT_PLAY_STATUS_CHANGE : Z := 1.
Definition BT_AVRC_PLAY : Z := 68.
Definition BT_AVRC_STOP : Z := 69.
Definition BT_AVRC_PAUSE : Z := 70.
Definition BT_AVRC_FORWARD : Z := 75.
Definition BT_AVRC_BACKWARD : Z := 76.
Definition BT_AVRC_PLAYSTATE_STOPPED : Z := 0.
Definition BT_AVK_ELEMENT_ATTR_MAX : nat := 7.

(** The callbacks of the timers. *)
Definition SINK_AUTO_CB : Z := 21.
Definition SINK_PLAY_CB : Z := 22.
Definition SINK_OVER_CB : Z := 23.
Definition SINK_STATE_CB : Z := 24.

(** The messages of the events as far as they are read. *)
Record elem_attr_msg := mk_elem_attr_msg { ea_num : Z; ea_entries : list (Z * list Z) }.

Inductive sink_evt :=
| BT_AVK_OPEN_EVT (msg : option a2dp_open_msg)
| BT_AVK_STR_OPEN_EVT (msg : option a2dp_open_msg)
| BT_AVK_CLOSE_EVT
| BT_AVK_START_EVT (status : option Z)
| BT_AVK_STOP_EVT
| BT_AVK_RC_OPEN_EVT
| BT_AVK_RC_CLOSE_EVT
| BT_AVK_GET_PLAY_STATUS_EVT (play_status : option Z)
| BT_AVK_SET_ABS_VOL_CMD_EVT (volume : option Z)
| BT_AVK_GET_ELEM_ATTR_EVT (msg : option elem_attr_msg)
| BT_AVK_REGISTER_NOTIFICATION_EVT (msg : option (Z * Z))      (* event_id, play_status *)
| BT_AVK_OTHER_EVT.

Definition sk_open_text (s : Z) : string :=
  if s =? A2DP_SINK_STATE_OPEN then "open"
  else if s =? A2DP_SINK_STATE_OPENED then "opened"
  else if s =? A2DP_SINK_STATE_OPENFAILED then "open failed"
  else if s =? A2DP_SINK_STATE_CLOSE then "close"
  else if s =? A2DP_SINK_STATE_CLOSING then "closing"
  else if s =? A2DP_SINK_STATE_CLOSED then "closed"
  else "invalid".

Definition sk_connect_text (s : Z) : string :=
  if s =? A2DP_SINK_STATE_CONNECTED then "connected"
  else if s =? A2DP_SINK_STATE_CONNECTEFAILED then "connect failed"
  else if s =? A2DP_SINK_STATE_DISCONNECTED then "disconnected"
  else "invalid".

Definition sk_play_text (s : Z) : string :=
  if s =? A2DP_SINK_STATE_PLAYED then "played"
  else if s =? A2DP_SINK_STATE_STOPED then "stopped"
  else "invalid".

(** The key of an attribute of the song. *)
Definition attr_key (id : Z) : option string :=
  nth (Z.to_nat id) [None; Some "title"; Some "artist"; Some "album"; Some "track_num"; Some "track_nums";
                     Some "genre"; Some "time"] None.

(** The volume of the peer, from 0 to 127, in per cent; and back. *)
Definition volume_percent (volume : Z) : Z :=
  if volume <? 0 then 0 else if 127 <? volume then 100 else volume * 100 / 127.

Definition volume_abs (volume : Z) : Z :=
  let v := if volume <? 0 then 0 else if 100 <? volume then 100 else volume in
  (v * 127 + 99) / 100.

Section Sink.
Context {UL : ULong} {T X : Type} `{!Timers T, !BtEnv X} {J : JsonC} {V : JsonValues J}.
Local Notation W := (bts T X).

Definition upd_sink_state (f : a2dpsink_state -> a2dpsink_state) : M W unit :=
  upd_sink (fun k => set_sk_state (f (sk_state k)) k).
Definition upd_sink_config (f : bt_autoconnect_config -> bt_autoconnect_config) : M W unit :=
  upd_sink (fun k => set_sk_config (f (sk_config k)) k).
Definition sink_timer (f : a2dpsink_timer -> Z) : M W Z := gets (fun w => f (sk_timer (sink w))).
Definition stop_sink_timer (f : a2dpsink_timer -> Z) : M W unit := id <- sink_timer f ;; eloop_timer_stop id.
Definition start_sink_timer (f : a2dpsink_timer -> Z) : M W unit := id <- sink_timer f ;; eloop_timer_start id.

Definition get_a2dpsink_connected_device_num : M W Z :=
  '(n, _) <- te (te_devices QSink 1) ;; ret n.

Definition get_current_micro_time : M W Z :=
  '(sec, usec) <- te te_time ;; ret (sec * 1000 + Z.quot usec 1000).

(** ** Reports *)

Definition broadcast_a2dpsink_state (reply : bool) : M W unit :=
  k <- gets sink ;;
  let s := sk_state k in
  who <- (if sk_connect_state s =? A2DP_SINK_STATE_CONNECTED then first_device (sk_config k) else ret []) ;;
  answer BLUETOOTH_FUNCTION_A2DPSINK reply
    (JObj ([("linknum", JInt (autoconnect_linknum (sk_config k)));
            ("a2dpstate", JStr (sk_open_text (sk_open_state s)));
            ("connect_state", JStr (sk_connect_text (sk_connect_state s)))] ++ who ++
           [("play_state", JStr (sk_play_text (sk_play_state s)))] ++
           broadcast_field (sk_broadcast_state s) ++ [("action", JStr "stateupdate")])).

Fixpoint element_attrs (entries : list (Z * list Z)) (n i : nat) (root : list (string * json)) :
    M W (list (string * json)) :=
  match n with
  | O => ret root
  | S n' =>
      '(id, data) <- arr_get (take BT_AVK_ELEMENT_ATTR_MAX entries) i ;;
      root <- (match attr_key id with
               | Some key => s <- read_str data ;; ret (obj_add key (JStr s) root)
               | None => ret root
               end) ;;
      element_attrs entries n' (S i) root
  end.

Definition broadcast_a2dpsink_element_attrs (msg : elem_attr_msg) : M W unit :=
  root <- element_attrs (ea_entries msg) (Z.to_nat (ea_num msg)) 0 [("action", JStr "element_attrs")] ;;
  report_bluetooth_information BLUETOOTH_FUNCTION_A2DPSINK (JObj root).

Definition broadcast_a2dpsink_volume (volume : Z) : M W unit :=
  report_bluetooth_information BLUETOOTH_FUNCTION_A2DPSINK
    (JObj [("action", JStr "volumechange"); ("value", JInt (volume_percent volume))]).

Definition broadcast_a2dpsink_init_volume : M W unit :=
  report_bluetooth_information BLUETOOTH_FUNCTION_A2DPSINK (JObj [("action", JStr "volumechange")]).

(** ** Connecting again *)

(** The timer's callback: the next device of the history. *)
Definition auto_connect_by_history_index : M W unit :=
  n <- get_a2dpsink_connected_device_num ;;
  if negb (n =? 0) then
    upd_sink_config (set_autoconnect_index 0) ;;
    upd_sink_config (set_autoconnect_flag AUTOCONNECT_BY_HISTORY_OVER) ;;
    stop_sink_timer sk_auto_connect_id
  else
    k <- gets sink ;;
    let c := sk_config k in
    if negb (autoconnect_flag c =? AUTOCONNECT_BY_HISTORY_WORK) then upd_sink_config (set_autoconnect_index 0)
    else
      let next := upd_sink_config (fun c => set_autoconnect_index (wraps32 (autoconnect_index c + 1)) c) in
      if autoconnect_index c <? 0 then next
      else if autoconnect_index c <? autoconnect_num c then
        d <- get_dev c (Z.to_nat (autoconnect_index c)) ;;
        read_str (b_name d) ;;
        if bool_decide (b_addr d = zero_addr) then next
        else
          r <- call (SinkConnect (b_addr d)) ;;
          if negb (r =? 0) then next ;; start_sink_timer sk_auto_connect_id
          else upd_sink_state (set_sk_connect_state A2DP_SINK_STATE_CONNECTING) ;; next
      else
        upd_sink_config (set_autoconnect_index 0) ;;
        upd_sink_config (set_autoconnect_flag AUTOCONNECT_BY_HISTORY_OVER) ;;
        stop_sink_timer sk_auto_connect_id.

(** The loop over the bonded devices for one that was found: true when it connects. *)
Fixpoint connect_bonded (d : BTDevice) (bonded : list BTDevice) (n j : nat) : M W bool :=
  match n with
  | O => ret false
  | S n' =>
      h <- dev_at 20 true bonded j ;;
      read_str (bd_name h) ;;
      if bool_decide (bd_addr d = bd_addr h) then
        r <- call (SinkConnect (bd_addr d)) ;;
        if r =? 0 then upd_sink_state (set_sk_connect_state A2DP_SINK_STATE_CONNECTING) ;; ret true
        else connect_bonded d bonded n' (S j)
      else connect_bonded d bonded n' (S j)
  end.

Fixpoint connect_found (found : list BTDevice) (n i : nat) (bonded : list BTDevice) (m : nat) : M W unit :=
  match n with
  | O => ret tt
  | S n' =>
      d <- dev_at 20 true found i ;;
      read_str (bd_name d) ;;
      r <- connect_bonded d bonded m 0 ;;
      if r then ret tt else connect_found found n' (S i) bonded m
  end.

Definition auto_connect_by_scan_results : M W unit :=
  k <- gets sink ;;
  if negb (sk_open_state (sk_state k) =? A2DP_SINK_STATE_OPENED) then ret tt
  else
    n <- get_a2dpsink_connected_device_num ;;
    if negb (n =? 0) then ret tt
    else if negb (autoconnect_mode (sk_config k) =? ROKIDOS_BT_AUTOCONNECT_BY_SCANRESULTS) then ret tt
    else
      '(n, found) <- te (te_devices QDisc 20) ;;
      '(m, bonded) <- te (te_devices QBonded 20) ;;
      connect_found found (Z.to_nat n) 0 bonded (Z.to_nat m).

Definition bluetooth_autoconnect : M W unit :=
  n <- get_a2dpsink_connected_device_num ;;
  if negb (n =? 0) then upd_sink_config (set_autoconnect_index 0)
  else
    k <- gets sink ;;
    let mode := autoconnect_mode (sk_config k) in
    if mode =? ROKIDOS_BT_AUTOCONNECT_BY_SCANRESULTS then bt_discovery BT_A2DP_SOURCE ;; ret tt
    else if mode =? ROKIDOS_BT_AUTOCONNECT_BY_HISTORY then
      upd_sink_config (set_autoconnect_flag AUTOCONNECT_BY_HISTORY_WORK) ;;
      upd_sink_config (set_autoconnect_index 0) ;;
      start_sink_timer sk_auto_connect_id
    else ret tt.

(** ** Playing *)

(** [first] for a NULL context: the attempts are counted from 0. *)
Definition bt_a2dp_sink_play (first : bool) : M W unit :=
  when first (upd_sink (set_play_index 0)) ;;
  n <- get_a2dpsink_connected_device_num ;;
  if n =? 0 then ret tt
  else
    call SinkGetPlaystatus ;;
    is_playing <- call SinkGetPlaying ;;
    now <- get_current_micro_time ;;
    k <- gets sink ;;
    let current_diff_time := now - last_stop_time k in
    if (current_diff_time <? 2000) && negb (is_playing =? 0) then
      stop_sink_timer sk_play_command_id ;;
      start_sink_timer sk_play_command_id
    else if negb (is_playing =? 0) && (get_play_status k =? 1) then stop_sink_timer sk_play_command_id
    else if play_index k <? BLUETOOTH_A2DPSINK_CHECK_PLAY_INDEX then
      (if negb (is_playing =? 0) && (get_play_status k =? 1) then upd_sink (fun k => set_play_index (play_index k + 1) k)
       else call (SinkAvrc BT_AVRC_PLAY) ;; upd_sink (fun k => set_play_index (play_index k + 1) k)) ;;
      start_sink_timer sk_play_command_id
    else stop_sink_timer sk_play_command_id.

(** [bt_a2dp_sink_stop] and [bt_a2dp_sink_pause]. *)
Definition quiet (command : Z) : M W unit :=
  stop_sink_timer sk_play_command_id ;;
  n <- get_a2dpsink_connected_device_num ;;
  if n =? 0 then ret tt
  else
    is_playing <- call SinkGetPlaying ;;
    if is_playing =? 0 then ret tt else call (SinkAvrc command) ;; ret tt.

Definition bt_a2dp_sink_stop : M W unit := quiet BT_AVRC_STOP.
Definition bt_a2dp_sink_pause : M W unit := quiet BT_AVRC_PAUSE.

Definition bt_a2dpsink_playstate_check : M W unit :=
  k <- gets sink ;;
  let last_playing := if sk_play_state (sk_state k) =? A2DP_SINK_STATE_PLAYED then 1 else 0 in
  now_playing <- call SinkGetPlaying ;;
  when (negb (last_playing =? now_playing))
    (if negb (now_playing =? 0) then
       upd_sink_state (set_sk_play_state A2DP_SINK_STATE_PLAYED) ;;
       broadcast_a2dpsink_state false ;;
       tlog_add (PropertySet "audio.bluetooth.playing" "true")
     else
       upd_sink_state (set_sk_play_state A2DP_SINK_STATE_STOPED) ;;
       broadcast_a2dpsink_state false ;;
       tlog_add (PropertySet "audio.bluetooth.playing" "false")).

Definition handle_a2dpsink_connect_subsequent : M W unit :=
  n <- get_a2dpsink_connected_device_num ;;
  if n =? 0 then ret tt
  else
    k <- gets sink ;;
    (if subsequent k =? A2DP_SINK_COMMAND_PLAY then
       stop_sink_timer sk_play_command_id ;; bt_a2dp_sink_play true
     else if subsequent k =? A2DP_SINK_COMMAND_PAUSE then bt_a2dp_sink_pause
     else if subsequent k =? A2DP_SINK_COMMAND_STOP then bt_a2dp_sink_stop
     else ret tt) ;;
    upd_sink (set_subsequent 0).

(** ** Sound *)

Definition bt_a2dpsink_set_mute : M W unit :=
  k <- gets sink ;;
  when (sk_open_state (sk_state k) =? A2DP_SINK_STATE_OPENED)
    (n <- get_a2dpsink_connected_device_num ;;
     when (negb (n =? 0)) (call (SinkMute true) ;; ret tt)).

Definition bt_a2dpsink_set_unmute : M W unit :=
  k <- gets sink ;;
  when (sk_open_state (sk_state k) =? A2DP_SINK_STATE_OPENED) (call (SinkMute false) ;; ret tt).

Definition bt_a2dpsink_set_abs_volume (volume : Z) : M W unit :=
  n <- get_a2dpsink_connected_device_num ;;
  when (negb (n =? 0)) (call (SinkVolume (volume_abs volume)) ;; ret tt).

Definition bt_a2dpsink_get_element_attrs : M W unit :=
  n <- get_a2dpsink_connected_device_num ;;
  when (negb (n =? 0)) (call SinkElementAttrs ;; ret tt).

(** ** Events *)

(** The events of the connection. *)
Definition sink_open_failed (msg : a2dp_open_msg) : M W unit :=
  k <- gets sink ;;
  known <- (if autoconnect_flag (sk_config k) =? AUTOCONNECT_BY_HISTORY_WORK then
              start_sink_timer sk_auto_connect_id ;;
              in_history (sk_config k) (om_addr msg)
            else ret false) ;;
  if known then upd_sink_state (set_sk_connect_state A2DP_SINK_STATE_CONNECT_INVALID)
  else
    upd_sink_state (set_sk_connect_state A2DP_SINK_STATE_CONNECTEFAILED) ;;
    broadcast_a2dpsink_state false.

Definition sink_stream_opened (msg : a2dp_open_msg) : M W unit :=
  k <- gets sink ;;
  d <- connected_device (sk_config k) msg ;;
  when (autoconnect_mode (sk_config k) =? ROKIDOS_BT_AUTOCONNECT_BY_SCANRESULTS) (call CancelDiscovery ;; ret tt) ;;
  stop_sink_timer sk_connect_over_id ;;
  '(_, c) <- bt_autoconnect_update (sk_config k) d ;;
  upd_sink (set_sk_config c) ;;
  bt_autoconnect_sync c ;;
  call (SetVisibility false false) ;;
  when (negb (sk_open_state (sk_state k) =? A2DP_SINK_STATE_CLOSED))
    (upd_sink_state (set_sk_connect_state A2DP_SINK_STATE_CONNECTED) ;;
     upd_sink_state (set_sk_play_state A2DP_SINK_STATE_PLAY_INVALID) ;;
     upd_sink_state (set_sk_broadcast_state A2DP_SINK_BROADCAST_CLOSED) ;;
     broadcast_a2dpsink_state false) ;;
  when (negb (sk_rc_open (sk_state k) =? 0)) handle_a2dpsink_connect_subsequent.

Definition sink_closed : M W unit :=
  stop_sink_timer sk_play_command_id ;;
  stop_sink_timer sk_play_state_id ;;
  upd_sink_state (set_sk_play_state A2DP_SINK_STATE_PLAY_INVALID) ;;
  upd_sink (set_get_play_status BT_AVRC_PLAYSTATE_STOPPED) ;;
  upd_sink_state (set_sk_rc_open 0) ;;
  bt_a2dpsink_set_unmute ;;
  k <- gets sink ;;
  let s := sk_state k in
  when ((sk_open_state s <? A2DP_SINK_STATE_CLOSED) && (sk_connect_state s =? A2DP_SINK_STATE_CONNECTED))
    (when (sk_discoverable s) (call (SetVisibility true true) ;; ret tt) ;;
     upd_sink_state (set_sk_connect_state A2DP_SINK_STATE_DISCONNECTED) ;;
     upd_sink_state (set_sk_broadcast_state
       (if sk_discoverable s then A2DP_SINK_BROADCAST_OPENED else A2DP_SINK_BROADCAST_CLOSED)) ;;
     broadcast_a2dpsink_state false) ;;
  when ((sk_open_state s <? A2DP_SINK_STATE_CLOSE) && (A2DP_SINK_STATE_OPENED <=? sk_open_state s))
    (start_sink_timer sk_connect_over_id).

Definition a2dp_sink_listener (event : sink_evt) : M W unit :=
  match event with
  | BT_AVK_OPEN_EVT None => stop NullDeref
  | BT_AVK_OPEN_EVT (Some msg) => if om_status msg =? 0 then ret tt else sink_open_failed msg
  | BT_AVK_STR_OPEN_EVT None => stop NullDeref
  | BT_AVK_STR_OPEN_EVT (Some msg) => when (om_status msg =? 0) (sink_stream_opened msg)
  | BT_AVK_CLOSE_EVT => sink_closed
  | BT_AVK_START_EVT None => stop NullDeref
  | BT_AVK_START_EVT (Some status) =>
      when (status =? 0) (broadcast_a2dpsink_init_volume ;; start_sink_timer sk_play_state_id)
  | BT_AVK_STOP_EVT =>
      stop_sink_timer sk_play_state_id ;;
      bt_a2dpsink_playstate_check ;;
      upd_sink (set_get_play_status BT_AVRC_PLAYSTATE_STOPPED)
  | BT_AVK_RC_OPEN_EVT =>
      upd_sink_state (set_sk_rc_open 1) ;;
      k <- gets sink ;;
      when (sk_connect_state (sk_state k) =? A2DP_SINK_STATE_CONNECTED) handle_a2dpsink_connect_subsequent
  | BT_AVK_RC_CLOSE_EVT => upd_sink_state (set_sk_rc_open 0)
  | BT_AVK_GET_PLAY_STATUS_EVT (Some s) => upd_sink (set_get_play_status s)
  | BT_AVK_SET_ABS_VOL_CMD_EVT (Some v) => broadcast_a2dpsink_volume v
  | BT_AVK_GET_ELEM_ATTR_EVT (Some msg) => broadcast_a2dpsink_element_attrs msg
  | BT_AVK_REGISTER_NOTIFICATION_EVT (Some (event_id, play_status)) =>
      when (event_id =? BT_AVRC_EVT_PLAY_STATUS_CHANGE)
        (upd_sink (set_get_play_status play_status) ;;
         stop_sink_timer sk_play_state_id ;;
         bt_a2dpsink_playstate_check)
  | _ => ret tt
  end.

(** ** On and off *)

Definition bt_a2dpsink_enable (name : option string) (discoverable : bool) : M W Z :=
  call SinkDisable ;;
  r <- call SinkSetListener ;;
  if negb (r =? 0) then ret (-2)
  else
    (match name with Some _ => call (SetName name) ;; ret tt | None => ret tt end) ;;
    r <- call SinkEnable ;;
    if negb (r =? 0) then ret (-2)
    else
      r <- call (SetVisibility discoverable true) ;;
      if negb (r =? 0) then ret (-3)
      else
        upd_sink_state (set_sk_broadcast_state
          (if discoverable then A2DP_SINK_BROADCAST_OPENED else A2DP_SINK_BROADCAST_CLOSED)) ;;
        ret 0.

Definition bt_a2dpsink_on (name : option string) (auto_conn discoverable : bool) : M W unit :=
  k <- gets sink ;;
  if sk_open_state (sk_state k) =? A2DP_SINK_STATE_OPENED then
    if sk_connect_state (sk_state k) =? A2DP_SINK_STATE_CONNECTED then
      broadcast_a2dpsink_state false ;;
      handle_a2dpsink_connect_subsequent
    else
      call (SetVisibility discoverable true) ;;
      upd_sink_state (set_sk_discoverable discoverable) ;;
      upd_sink_state (set_sk_broadcast_state
        (if discoverable then A2DP_SINK_BROADCAST_OPENED else A2DP_SINK_BROADCAST_CLOSED)) ;;
      broadcast_a2dpsink_state false ;;
      when auto_conn bluetooth_autoconnect
  else
    lock PSink ;;
    r <- bt_open ;;
    if negb (r =? 0) then
      upd_sink_state (set_sk_open_state A2DP_SINK_STATE_OPENFAILED) ;;
      broadcast_a2dpsink_state false ;;
      unlock PSink
    else
      upd_sink_state (fun _ => mk_a2dpsink_state false 0 0 0 0 0) ;;
      upd_sink_state (set_sk_discoverable discoverable) ;;
      r <- bt_a2dpsink_enable name discoverable ;;
      if r =? 0 then
        upd_sink_state (set_sk_open_state A2DP_SINK_STATE_OPENED) ;;
        status_or A2DP_SINK_STATUS_MASK ;;
        broadcast_a2dpsink_state false ;;
        upd_sink_config (set_autoconnect_flag AUTOCONNECT_BY_HISTORY_INIT) ;;
        when auto_conn bluetooth_autoconnect ;;
        start_sink_timer sk_connect_over_id ;;
        unlock PSink
      else
        upd_sink_state (set_sk_open_state A2DP_SINK_STATE_OPENFAILED) ;;
        broadcast_a2dpsink_state false ;;
        unlock PSink.

Definition bt_a2dpsink_off : M W unit :=
  k <- gets sink ;;
  if sk_open_state (sk_state k) =? A2DP_SINK_STATE_CLOSED then broadcast_a2dpsink_state false
  else
    lock PSink ;;
    when (autoconnect_mode (sk_config k) =? ROKIDOS_BT_AUTOCONNECT_BY_SCANRESULTS) (call CancelDiscovery ;; ret tt) ;;
    call SinkDisable ;;
    status_clear A2DP_SINK_STATUS_MASK ;;
    bt_close ;;
    stop_sink_timer sk_play_state_id ;;
    stop_sink_timer sk_connect_over_id ;;
    stop_sink_timer sk_auto_connect_id ;;
    stop_sink_timer sk_play_command_id ;;
    upd_sink (set_get_play_status BT_AVRC_PLAYSTATE_STOPPED) ;;
    upd_sink_state (fun _ => mk_a2dpsink_state false 0 0 0 0 0) ;;
    upd_sink_state (set_sk_broadcast_state A2DP_SINK_BROADCAST_CLOSED) ;;
    upd_sink_state (set_sk_open_state A2DP_SINK_STATE_CLOSED) ;;
    broadcast_a2dpsink_state false ;;
    tlog_add (PropertySet "audio.bluetooth.playing" "false") ;;
    unlock PSink.

(** The variables of the timers are written one after the other, and tested last. *)
Definition add_sink_timer (cb expire period : Z) (set : Z -> a2dpsink_timer -> a2dpsink_timer) : M W Z :=
  id <- zoom (timer_add cb expire period) ;;
  upd_sink (fun k => set_sk_timer (set id (sk_timer k)) k) ;;
  ret id.

Definition bt_a2dpsink_timer_init : M W Z :=
  a <- add_sink_timer SINK_AUTO_CB 1000 0 set_sk_auto_connect_id ;;
  p <- add_sink_timer SINK_PLAY_CB 1500 0 set_sk_play_command_id ;;
  o <- add_sink_timer SINK_OVER_CB BLUETOOTH_A2DPSINK_AUTOCONNECT_LIMIT_TIME 0 set_sk_connect_over_id ;;
  s <- add_sink_timer SINK_STATE_CB 500 500 set_sk_play_state_id ;;
  ret (if (a <=? 0) || (p <=? 0) || (o <=? 0) || (s <=? 0) then -1 else 0).

(** ** Connections *)

Definition bt_a2dpsink_disconnect_device : M W unit :=
  '(count, l) <- te (te_devices QSink 1) ;;
  if negb (count =? 0) then
    d <- dev_at 1 true l 0 ;;
    call (SinkDisconnect (bd_addr d)) ;; ret tt
  else
    upd_sink_state (set_sk_connect_state A2DP_SINK_STATE_DISCONNECTED) ;;
    broadcast_a2dpsink_state false.

Definition bt_a2dpsink_connect (addr : option string) : M W unit :=
  upd_sink_config (set_autoconnect_index 0) ;;
  upd_sink_config (set_autoconnect_flag AUTOCONNECT_BY_HISTORY_OVER) ;;
  stop_sink_timer sk_auto_connect_id ;;
  k <- gets sink ;;
  busy <- (if negb (sk_open_state (sk_state k) =? A2DP_SINK_STATE_OPENED) then ret true
           else n <- get_a2dpsink_connected_device_num ;; ret (negb (n =? 0))) ;;
  if busy then broadcast_a2dpsink_state false
  else if sk_connect_state (sk_state k) =? A2DP_SINK_STATE_CONNECTING then ret tt
  else
    a <- bd_strtoba addr ;;
    match a with
    | None => ret tt
    | Some bd_addr =>
        r <- call (SinkConnect bd_addr) ;;
        if negb (r =? 0) then
          upd_sink_state (set_sk_connect_state A2DP_SINK_STATE_CONNECTEFAILED) ;;
          broadcast_a2dpsink_state false
        else upd_sink_state (set_sk_connect_state A2DP_SINK_STATE_CONNECTING)
    end.
End Sink.
