(* ===== verification/BtService.v ===== *)
(** * The Bluetooth service

    The command handlers of the profiles, [framework/services/bluetooth/src/main.c] and
    [src/ipc/flora.c]: closing several profiles, the messages and events of the running
    service, and its start. *)

From Stdlib Require Import Ascii String.
From stdpp Require Import base gmap list strings.
From S2P Require Import Prelude CString Bytes CMonad Json Dll Timer BtWorld BtConfig BtCommon BtHh BtBle BtBleClient BtSource BtSink.
Open Scope string_scope.
Open Scope list_scope.
Open Scope Z_scope.

Definition FLORA_BT_COMMON_CMD : string := "bluetooth.common.command".
Definition FLORA_BT_BLE_CMD : string := "bluetooth.ble.command".
Definition FLORA_BT_BLE_CLI_CMD : string := "bluetooth.ble.client.command".
Definition FLORA_BT_A2DPSINK_CMD : string := "bluetooth.a2dpsink.command".
Definition FLORA_BT_A2DPSOURCE_CMD : string := "bluetooth.a2dpsource.command".
Definition FLORA_BT_HH_CMD : string := "bluetooth.hh.command".
Definition FLORA_BT_BLE_CLI_WRITE : string := "bluetooth.ble.client.write".
Definition FLORA_MODULE_SLEEP : string := "module.sleep".
Definition FLORA_POWER_SLEEP : string := "power.sleep".
Definition FLORA_VOICE_COMING : string := "rokid.turen.voice_coming".

Definition RESTART_BSA_SERVER : string := "/etc/init.d/bsa restart".

(** The events of the manager, with the address and the status of a removal. *)
Inductive mgr_evt :=
| BT_EVENT_MGR_CONNECT
| BT_EVENT_MGR_DISCONNECT
| BT_EVENT_MGR_REMOVE_DEVICE (msg : option (option string * Z)).

(** What happens to the running service: a message of flora (its string is NULL when it
    cannot be read), a call of a method, a binary message, the events of the HAL, and
    the callbacks of timers. *)
Inductive bt_input :=
| Message (name : string) (buf : option string)
| Method (name : string) (buf : option string)
| Binary (name : string) (buf : option (list Z))
| Discovered (is_completed : Z)
| Managed (event : mgr_evt)
| SinkEvent (event : sink_evt)
| SourceEvent (event : source_evt)
| BleEvent (event : ble_evt)
| BlecEvent (event : blec_evt)
| HhEvent (event : hh_evt)
| TimerFired (cb : Z).

Section Service.
Context {UL : ULong} {T X : Type} `{!Timers T, !BtEnv X} {J : JsonC} {V : JsonValues J}.
Local Notation W := (bts T X).

(** ** Several profiles *)

Definition bt_close_mask_profile (mask_status : Z) : M W Z :=
  s <- gets bt_status ;;
  let status := Z.land s mask_status in
  when (negb (Z.land status HID_HOST_STATUS_MASK =? 0)) bt_hh_off ;;
  when (negb (Z.land status A2DP_SINK_STATUS_MASK =? 0)) bt_a2dpsink_off ;;
  when (negb (Z.land status A2DP_SOURCE_STATUS_MASK =? 0)) bt_a2dpsource_off ;;
  when (negb (Z.land status BLE_CLIENT_STATUS_MASK =? 0)) bt_ble_client_off ;;
  when (negb (Z.land status BLE_STATUS_MASK =? 0)) bt_ble_off ;;
  ret 0.

Definition bt_close_all : M W unit := bt_close_mask_profile (Z.lnot 0) ;; ret tt.

(** The field "unique" of a command that opens a profile. *)
Definition close_others (obj : option jobj) (mask : Z) : M W unit :=
  with_field obj "unique" (fun v =>
    when (json_object_get_boolean v) (bt_close_mask_profile (Z.lnot mask) ;; ret tt)).

(** ** BLE server *)

Definition bt_ble_on_prepare (obj : option jobj) : M W unit := close_others obj BLE_STATUS_MASK.

Definition handle_ble_handle (obj : option jobj) (reply : bool) : M W Z :=
  on_command obj (fun command =>
    if String.eqb command "ON" then
      bt_ble_on_prepare obj ;;
      bt_ble_on (name_or_default obj)
    else if String.eqb command "OFF" then bt_ble_off
    else if String.eqb command "GETSTATE" then broadcast_ble_state reply
    else ret tt)
  (match get_ex obj "data" with
   | Some v => data <- text_of v ;; rokid_send_ble_data (str_bytes data)
   | None => with_field obj "rawdata" (fun v => data <- text_of v ;; ble_send_raw_data (str_bytes data))
   end).

(** ** A2DP source *)

Definition bt_a2dpsource_on_prepare (obj : option jobj) : M W unit := close_others obj A2DP_SOURCE_STATUS_MASK.

(** The name of the message or one made of the module's address, in 128 bytes. *)
Definition source_name (obj : option jobj) : M W string :=
  match get_ex obj "name" with
  | Some v => s <- text_of v ;; ret (substring 0 127 s)
  | None =>
      '(_, a) <- te te_module_addr ;;
      ret ("rokidsource_" ++ print_addr (default zero_addr a))%string
  end.

Definition handle_a2dpsource_handle (obj : option jobj) (reply : bool) : M W Z :=
  on_command obj (fun command =>
    if String.eqb command "ON" then
      k <- gets source ;;
      when ((sr_open_state (sr_state k) =? A2DP_SOURCE_STATE_OPENED) &&
            negb (sr_connect_state (sr_state k) =? A2DP_SOURCE_STATE_CONNECTED))
        (upd_source_state (set_sr_connect_state A2DP_SOURCE_STATE_CONNECT_INVALID) ;;
         id <- source_timer sr_connect_over_id ;;
         eloop_timer_stop id ;;
         eloop_timer_start id) ;;
      name <- source_name obj ;;
      bt_a2dpsource_on_prepare obj ;;
      bt_a2dpsource_on name
    else if String.eqb command "OFF" then bt_a2dpsource_off
    else if String.eqb command "GETSTATE" then broadcast_a2dpsource_state reply
    else if String.eqb command "DISCOVERY" then bt_a2dpsource_discovery
    else if String.eqb command "DISCONNECT" then bt_a2dpsource_disconnect_device
    else if String.eqb command "DISCONNECT_PEER" then bt_a2dpsource_disconnect_device
    else if String.eqb command "CONNECT" then
      with_field obj "address" (fun v => bt_a2dpsource_connect (json_object_get_string v))
    else ret tt) (ret tt).

(** ** A2DP sink *)

(** The timer's callback after five minutes without a connection. *)
Definition a2dpsink_autoconnect_over : M W unit :=
  n <- get_a2dpsink_connected_device_num ;;
  if negb (n =? 0) then ret tt
  else bt_close_mask_profile (Z.lor A2DP_SINK_STATUS_MASK HFP_STATUS_MASK) ;; ret tt.

(** [strncmp(s, word, strlen(s)) == 0] *)
Definition begins (s word : string) : bool := strncmp_eq (String.length s) s word.

Definition subsequent_of (s : string) : Z :=
  if begins s "PLAY" then A2DP_SINK_COMMAND_PLAY
  else if begins s "STOP" then A2DP_SINK_COMMAND_STOP
  else if begins s "PAUSE" then A2DP_SINK_COMMAND_PAUSE
  else 0.

Definition bt_a2dpsink_on_prepare (obj : option jobj) : M W unit :=
  upd_sink (set_subsequent 0) ;;
  with_field obj "subsequent" (fun v => s <- text_of v ;; upd_sink (set_subsequent (subsequent_of s))) ;;
  close_others obj (Z.lor A2DP_SINK_STATUS_MASK HFP_STATUS_MASK).

Definition bool_field (obj : option jobj) (key : string) (d : bool) : bool :=
  match get_ex obj key with Some v => json_object_get_boolean v | None => d end.

Definition set_stop_time : M W unit := t <- get_current_micro_time ;; upd_sink (set_last_stop_time t).

Definition handle_a2dpsink_handle (obj : option jobj) (reply : bool) : M W Z :=
  on_command obj (fun command =>
    if String.eqb command "ON" then
      k <- gets sink ;;
      when ((sk_open_state (sk_state k) =? A2DP_SINK_STATE_OPENED) &&
            negb (sk_connect_state (sk_state k) =? A2DP_SINK_STATE_CONNECTED))
        (upd_sink_state (set_sk_connect_state A2DP_SINK_STATE_CONNECT_INVALID) ;;
         stop_sink_timer sk_connect_over_id ;;
         start_sink_timer sk_connect_over_id) ;;
      bt_a2dpsink_on_prepare obj ;;
      bt_a2dpsink_on (name_or_default obj) (bool_field obj "auto_connect" true) (bool_field obj "discoverable" true)
    else if String.eqb command "OFF" then bt_a2dpsink_off
    else if String.eqb command "GETSTATE" then broadcast_a2dpsink_state reply
    else if String.eqb command "PLAY" then stop_sink_timer sk_play_command_id ;; bt_a2dp_sink_play true
    else if String.eqb command "STOP" then set_stop_time ;; bt_a2dp_sink_stop
    else if String.eqb command "PAUSE" then set_stop_time ;; bt_a2dp_sink_pause
    else if String.eqb command "PLAY_UNMUTE" then
      stop_sink_timer sk_play_command_id ;; bt_a2dp_sink_play true ;; bt_a2dpsink_set_unmute
    else if String.eqb command "PAUSE_MUTE" then set_stop_time ;; bt_a2dp_sink_pause ;; bt_a2dpsink_set_mute
    else if String.eqb command "NEXT" then call (SinkAvrc BT_AVRC_FORWARD) ;; ret tt
    else if String.eqb command "PREV" then call (SinkAvrc BT_AVRC_BACKWARD) ;; ret tt
    else if String.eqb command "SEND_KEY" then
      with_field obj "key" (fun v =>
        let key := json_object_get_int v in
        when ((key <? 255) && (0 <=? key)) (call (SinkAvrc key) ;; ret tt))
    else if String.eqb command "DISCONNECT" then bt_a2dpsink_disconnect_device
    else if String.eqb command "DISCONNECT_PEER" then bt_a2dpsink_disconnect_device
    else if String.eqb command "MUTE" then bt_a2dpsink_set_mute
    else if String.eqb command "UNMUTE" then bt_a2dpsink_set_unmute
    else if String.eqb command "VOLUME" then
      with_field obj "value" (fun v => bt_a2dpsink_set_abs_volume (json_object_get_int v))
    else if String.eqb command "GETSONG_ATTRS" then bt_a2dpsink_get_element_attrs
    else if String.eqb command "CONNECT" then
      with_field obj "address" (fun v => bt_a2dpsink_connect (json_object_get_string v))
    else ret tt) (ret tt).

(** ** The events of the stack *)

Definition discovery_callback (is_completed : Z) : M W unit :=
  a2dpsource_upload_scan_results is_completed ;;
  bt_upload_scan_results is_completed ;;
  when (negb (is_completed =? 0)) (auto_connect_by_scan_results ;; modify (set_scanning 0)).

(** False when the process exits. *)
Definition manage_listener (event : mgr_evt) : M W bool :=
  match event with
  | BT_EVENT_MGR_DISCONNECT => ret false
  | BT_EVENT_MGR_REMOVE_DEVICE (Some (Some address, status)) => broadcast_remove_dev address status ;; ret true
  | BT_EVENT_MGR_REMOVE_DEVICE (Some (None, _)) => stop NullDeref
  | _ => ret true
  end.

(** ** Sleep *)

Definition on_sleep (obj : option jobj) (word : string) (body : M W unit) : M W Z :=
  match obj with
  | None => ret (-1)
  | Some _ =>
      with_field obj "sleep" (fun v => command <- text_of v ;; when (String.eqb command word) body) ;;
      ret 0
  end.

Definition handle_module_sleep (obj : option jobj) : M W Z := on_sleep obj "ON" bt_close_all.

Definition handle_power_sleep (obj : option jobj) : M W Z := on_sleep obj "OFF" (tlog_add (System RESTART_BSA_SERVER)).

(** ** Messages *)

(** [json_tokener_parse] reads through its argument. *)
Definition bt_parse (buf : option string) : M W (option jobj) :=
  match buf with None => stop NullDeref | Some s => ret (json_tokener_parse s) end.

(** The commands that messages and methods share. *)
Definition command_handler (name : string) : option (option jobj -> bool -> M W Z) :=
  if String.eqb name FLORA_BT_COMMON_CMD then Some handle_common_handle
  else if String.eqb name FLORA_BT_BLE_CMD then Some handle_ble_handle
  else if String.eqb name FLORA_BT_BLE_CLI_CMD then Some handle_ble_client_handle
  else if String.eqb name FLORA_BT_A2DPSINK_CMD then Some handle_a2dpsink_handle
  else if String.eqb name FLORA_BT_A2DPSOURCE_CMD then Some handle_a2dpsource_handle
  else if String.eqb name FLORA_BT_HH_CMD then Some handle_hh_handle
  else None.

Definition bt_service_command_callback (name : string) (buf : option string) : M W unit :=
  if String.eqb name FLORA_VOICE_COMING then bt_a2dpsink_set_mute
  else if String.eqb name FLORA_MODULE_SLEEP then o <- bt_parse buf ;; handle_module_sleep o ;; ret tt
  else if String.eqb name FLORA_POWER_SLEEP then o <- bt_parse buf ;; handle_power_sleep o ;; ret tt
  else
    match command_handler name with
    | Some h => o <- bt_parse buf ;; h o false ;; ret tt
    | None => ret tt
    end.

Definition bt_service_command_method_callback (name : string) (buf : option string) : M W unit :=
  match command_handler name with
  | Some h => o <- bt_parse buf ;; h o true ;; ret tt
  | None => ret tt
  end.

Definition bt_service_binary_callback (name : string) (buf : option (list Z)) : M W unit :=
  when (String.eqb name FLORA_BT_BLE_CLI_WRITE)
    (b <- (match buf with None => stop NullDeref | Some b => ret b end) ;;
     handle_ble_client_write b ;; ret tt).

(** ** Timers *)

Definition timer_fired (cb : Z) : M W unit :=
  if cb =? SINK_AUTO_CB then auto_connect_by_history_index
  else if cb =? SINK_PLAY_CB then bt_a2dp_sink_play false
  else if cb =? SINK_OVER_CB then a2dpsink_autoconnect_over
  else if cb =? SINK_STATE_CB then bt_a2dpsink_playstate_check
  else if cb =? SOURCE_AUTO_CB then auto_connect_a2dpsource_by_history_index
  else if cb =? SOURCE_OVER_CB then a2dpsource_autoconnect_over
  else ret tt.

(** ** The running service *)

(** False when the process exits. *)
Definition bt_step (i : bt_input) : M W bool :=
  match i with
  | Message name buf => bt_service_command_callback name buf ;; ret true
  | Method name buf => bt_service_command_method_callback name buf ;; ret true
  | Binary name buf => bt_service_binary_callback name buf ;; ret true
  | Discovered c => discovery_callback c ;; ret true
  | Managed e => manage_listener e
  | SinkEvent e => a2dp_sink_listener e ;; ret true
  | SourceEvent e => a2dp_source_listener e ;; ret true
  | BleEvent e => ble_listener e ;; ret true
  | BlecEvent e => ble_client_listener e ;; ret true
  | HhEvent e => hh_listener e ;; ret true
  | TimerFired cb => timer_fired cb ;; ret true
  end.

Fixpoint bt_run (inputs : list bt_input) : M W bool :=
  match inputs with
  | [] => ret true
  | i :: inputs' => go <- bt_step i ;; if go then bt_run inputs' else ret false
  end.

(** ** Start *)

(** [while (1)] until the stack opens once, with a restart of its server from the fourth
    attempt on. *)
Fixpoint try_open (attempts : nat) (times : Z) : M W Z :=
  match attempts with
  | O => stop Hang
  | S attempts' =>
      when (2 <? times) (tlog_add (System RESTART_BSA_SERVER)) ;;
      r <- bt_open ;;
      if negb (r =? 0) then try_open attempts' (times + 1)
      else bt_close ;; ret 0
  end.

Definition bluetooth_device_create (attempts : nat) : M W Z :=
  r <- call DeviceCreate ;;
  if negb (r =? 0) then ret (-2) else try_open attempts 0.

Definition bluetooth_device_init (attempts : nat) : M W Z :=
  r <- call HwGetModule ;;
  if negb (r =? 0) then ret (-1)
  else
    r <- call DeviceOpen ;;
    if negb (r =? 0) then ret (-1)
    else
      r <- bluetooth_device_create attempts ;;
      if negb (r =? 0) then call DeviceClose ;; ret r else ret 0.

(** The file name and the number of devices of a history, and the file. *)
Definition init_history (c : bt_autoconnect_config) (file : string) (num : Z) : M W (Z * bt_autoconnect_config) :=
  bt_autoconnect_config_init (set_autoconnect_num num (set_autoconnect_filename file c)).

Definition bt_handle_init : M W Z :=
  k <- gets sink ;;
  '(r, c) <- init_history (sk_config k) ROKIDOS_BT_A2DPSINK_AUTOCONNECT_FILE ROKIDOS_BT_A2DPSINK_AUTOCONNECT_NUM ;;
  upd_sink (set_sk_config c) ;;
  if r <? 0 then ret (-1)
  else
    k <- gets source ;;
    '(r, c) <- init_history (sr_config k) ROKIDOS_BT_A2DPSOURCE_AUTOCONNECT_FILE ROKIDOS_BT_A2DPSOURCE_AUTOCONNECT_NUM ;;
    upd_source (set_sr_config c) ;;
    if r <? 0 then ret (-1)
    else
      zoom loop_init ;;
      r <- bt_a2dpsink_timer_init ;;
      if r <? 0 then ret (-2)
      else
        r <- bt_a2dpsource_timer_init ;;
        if r <? 0 then ret (-2) else ret 0.

(** [main] up to the given inputs: its result when it ends before, and otherwise 0 for a
    service that runs and -2 for one that exited. *)
Definition bt_main (attempts : nat) (inputs : list bt_input) : M W Z :=
  ok <- te te_calloc ;;
  if negb ok then ret (-1)
  else
    r <- bluetooth_device_init attempts ;;
    if r <? 0 then ret (-2)
    else
      r <- bt_handle_init ;;
      if r <? 0 then ret (-3)
      else
        r <- call PthreadCreate ;;
        if negb (r =? 0) then ret (-4)
        else go <- bt_run inputs ;; ret (if go then 0 else -2).
End Service.
