(* ===== verification/BtCore.v ===== *)
(** * The profiles of the Bluetooth service as an abstract machine

    What the service keeps of its profiles, seen through [core_of]: the bits of
    [status], whether the stack is open, and the state of each profile.  The abstract
    machine [bstep] says how they may change; [core_ok] is its invariant. *)

From Stdlib Require Import Ascii String.
From stdpp Require Import base gmap list strings relations.
From S2P Require Import Prelude CString Bytes CMonad Json Dll Timer BtWorld BtConfig BtCommon BtHh BtBle BtBleClient BtSource BtSink.
Open Scope string_scope.
Open Scope list_scope.
Open Scope Z_scope.

(** ** The state *)

Record core := mk_core {
  c_status : Z;
  c_opened : Z;
  c_sink : Z;
  c_source : Z;
  c_ble : Z;
  c_blec : Z;
  c_hh : Z;
}.

Definition mask_of (p : profile) : Z :=
  match p with
  | PBle => BLE_STATUS_MASK
  | PBleClient => BLE_CLIENT_STATUS_MASK
  | PSource => A2DP_SOURCE_STATUS_MASK
  | PSink => A2DP_SINK_STATUS_MASK
  | PHh => HID_HOST_STATUS_MASK
  end.

Definition bit_of (p : profile) : Z :=
  match p with PBle => 0 | PBleClient => 1 | PSource => 2 | PSink => 3 | PHh => 5 end.

Definition opened_of (p : profile) : Z :=
  match p with
  | PBle => BLE_STATE_OPENED
  | PBleClient => BLE_CLI_STATE_OPENED
  | PSource => A2DP_SOURCE_STATE_OPENED
  | PSink => A2DP_SINK_STATE_OPENED
  | PHh => HH_STATE_OPENED
  end.

Definition failed_of (p : profile) : Z :=
  match p with
  | PBle => BLE_STATE_OPENFAILED
  | PBleClient => BLE_CLI_STATE_OPENFAILED
  | PSource => A2DP_SOURCE_STATE_OPENFAILED
  | PSink => A2DP_SINK_STATE_OPENFAILED
  | PHh => HH_STATE_OPENFAILED
  end.

Definition closed_of (p : profile) : Z :=
  match p with
  | PBle => BLE_STATE_CLOSED
  | PBleClient => BLE_CLI_STATE_CLOSED
  | PSource => A2DP_SOURCE_STATE_CLOSED
  | PSink => A2DP_SINK_STATE_CLOSED
  | PHh => HH_STATE_CLOSED
  end.

Definition state_of (p : profile) (c : core) : Z :=
  match p with PBle => c_ble c | PBleClient => c_blec c | PSource => c_source c | PSink => c_sink c | PHh => c_hh c end.

Definition put_state (p : profile) (v : Z) (c : core) : core :=
  match p with
  | PBle => mk_core (c_status c) (c_opened c) (c_sink c) (c_source c) v (c_blec c) (c_hh c)
  | PBleClient => mk_core (c_status c) (c_opened c) (c_sink c) (c_source c) (c_ble c) v (c_hh c)
  | PSource => mk_core (c_status c) (c_opened c) (c_sink c) v (c_ble c) (c_blec c) (c_hh c)
  | PSink => mk_core (c_status c) (c_opened c) v (c_source c) (c_ble c) (c_blec c) (c_hh c)
  | PHh => mk_core (c_status c) (c_opened c) (c_sink c) (c_source c) (c_ble c) (c_blec c) v
  end.

Definition put_status (v : Z) (c : core) : core :=
  mk_core v (c_opened c) (c_sink c) (c_source c) (c_ble c) (c_blec c) (c_hh c).
Definition put_opened (v : Z) (c : core) : core :=
  mk_core (c_status c) v (c_sink c) (c_source c) (c_ble c) (c_blec c) (c_hh c).

Definition on_of (p : profile) (c : core) : core := put_state p (opened_of p) (put_status (Z.lor (c_status c) (mask_of p)) c).
Definition off_of (p : profile) (c : core) : core :=
  put_state p (closed_of p) (put_status (Z.land (c_status c) (Z.lnot (mask_of p))) c).

(** The stack is closed when no profile is left. *)
Definition close_of (c : core) : core :=
  if negb (c_opened c =? 0) && (c_status c =? 0) then put_opened 0 c else c.

(** ** The machine *)

Inductive bstep : core -> core -> Prop :=
| s_open c : c_opened c = 0 -> bstep c (put_opened 1 c)
| s_close c : c_status c = 0 -> bstep c (put_opened 0 c)
| s_on p c : c_opened c <> 0 -> bstep c (on_of p c)
| s_fail p c : (p <> PBle -> state_of p c <> opened_of p) -> bstep c (put_state p (failed_of p) c)
| s_off p c : bstep c (off_of p c)
| s_ble c v : v ∈ [BLE_STATE_CONNECTED; BLE_STATE_HANDSHAKED; BLE_STATE_DISCONNECTED] -> bstep c (put_state PBle v c).

(** The bit of a profile other than BLE is set exactly while it is open; the bit of BLE
    only until it is closed; and the stack is open under a profile that is. *)
Record core_ok (c : core) : Prop := {
  ok_bits : forall i, 0 <= i -> Z.testbit (c_status c) i = true -> exists p, bit_of p = i;
  ok_profile : forall p, p <> PBle -> Z.testbit (c_status c) (bit_of p) = true <-> state_of p c = opened_of p;
  ok_ble : Z.testbit (c_status c) (bit_of PBle) = true -> 0 < c_ble c < BLE_STATE_CLOSE;
  ok_opened : c_status c <> 0 -> c_opened c <> 0;
}.

Lemma testbit_mask p i : 0 <= i -> Z.testbit (mask_of p) i = (i =? bit_of p).
Proof.
  intros Hi. replace (mask_of p) with (2 ^ bit_of p) by by destruct p.
  rewrite Z.pow2_bits_eqb by (by destruct p). apply Z.eqb_sym.
Qed.

Lemma bit_of_nonneg p : 0 <= bit_of p.
Proof. by destruct p. Qed.

Lemma bit_of_inj p q : bit_of p = bit_of q -> p = q.
Proof. by destruct p, q. Qed.

Lemma testbit_on p q s : Z.testbit (Z.lor s (mask_of p)) (bit_of q) = Z.testbit s (bit_of q) || bool_decide (q = p).
Proof.
  rewrite Z.lor_spec, testbit_mask by apply bit_of_nonneg. f_equal. case_bool_decide as E.
  - by rewrite E, Z.eqb_refl.
  - apply Z.eqb_neq. intros H. by apply E, bit_of_inj.
Qed.

Lemma testbit_off p q s :
  Z.testbit (Z.land s (Z.lnot (mask_of p))) (bit_of q) = Z.testbit s (bit_of q) && negb (bool_decide (q = p)).
Proof.
  rewrite Z.land_spec, Z.lnot_spec, testbit_mask by apply bit_of_nonneg. do 2 f_equal. case_bool_decide as E.
  - by rewrite E, Z.eqb_refl.
  - apply Z.eqb_neq. intros H. by apply E, bit_of_inj.
Qed.

Lemma state_put p q v c : state_of q (put_state p v c) = if bool_decide (q = p) then v else state_of q c.
Proof. by destruct p, q. Qed.

Lemma status_put p v c : c_status (put_state p v c) = c_status c.
Proof. by destruct p. Qed.

Lemma opened_put p v c : c_opened (put_state p v c) = c_opened c.
Proof. by destruct p. Qed.

Lemma state_of_status p v c : state_of p (put_status v c) = state_of p c.
Proof. by destruct p. Qed.

Lemma state_of_opened p v c : state_of p (put_opened v c) = state_of p c.
Proof. by destruct p. Qed.

Lemma core_ok_ble c : core_ok c <->
  (forall i, 0 <= i -> Z.testbit (c_status c) i = true -> exists p, bit_of p = i) /\
  (forall p, (p <> PBle -> Z.testbit (c_status c) (bit_of p) = true <-> state_of p c = opened_of p) /\
             (p = PBle -> Z.testbit (c_status c) (bit_of p) = true -> 0 < state_of p c < BLE_STATE_CLOSE)) /\
  (c_status c <> 0 -> c_opened c <> 0).
Proof.
  split.
  - intros [H1 H2 H3 H4]. split; [done|]. split; [|done]. intros p. split; [apply H2|by intros ->].
  - intros (H1 & H2 & H3). split; try done; [intros p; apply H2|by apply (proj2 (H2 PBle))].
Qed.

(** A change of one profile's bit and state. *)
Lemma core_ok_change c c' p :
  core_ok c -> (forall q, q <> p -> state_of q c' = state_of q c) ->
  (forall q, q <> p -> Z.testbit (c_status c') (bit_of q) = Z.testbit (c_status c) (bit_of q)) ->
  (forall i, 0 <= i -> Z.testbit (c_status c') i = true -> Z.testbit (c_status c) i = true \/ i = bit_of p) ->
  (p <> PBle -> Z.testbit (c_status c') (bit_of p) = true <-> state_of p c' = opened_of p) ->
  (p = PBle -> Z.testbit (c_status c') (bit_of p) = true -> 0 < state_of p c' < BLE_STATE_CLOSE) ->
  (c_status c' <> 0 -> c_opened c' <> 0) -> core_ok c'.
Proof.
  rewrite !core_ok_ble. intros (H1 & H2 & H3) Hs Hb Hi Hp Hble Ho. split; [|split; [|done]].
  - intros i Hi0 E. destruct (Hi i Hi0 E) as [E'| ->]; [by apply H1|by exists p].
  - intros q. destruct (decide (q = p)) as [->|Hq]; [done|]. rewrite Hs, Hb by done. apply H2.
Qed.

Lemma bstep_ok c c' : bstep c c' -> core_ok c -> core_ok c'.
Proof.
  intros H Hc. pose proof Hc as Hc'. rewrite core_ok_ble in Hc'. destruct Hc' as (H1 & H2 & H3).
  destruct H as [c E|c E|p c E|p c E|p c|c v E].
  - rewrite core_ok_ble. setoid_rewrite state_of_opened. by split; [|split].
  - rewrite core_ok_ble. setoid_rewrite state_of_opened. by split; [|split].
  - apply (core_ok_change c _ p Hc); unfold on_of; intros; rewrite ?state_put, ?status_put, ?opened_put in *;
    cbn [c_status c_opened put_status] in *; rewrite ?testbit_on in *.
    + by rewrite bool_decide_eq_false_2, state_of_status.
    + by rewrite bool_decide_eq_false_2, orb_false_r.
    + rewrite Z.lor_spec, testbit_mask in * by done. apply orb_true_iff in H0 as [?|?%Z.eqb_eq]; auto.
    + by rewrite bool_decide_eq_true_2, orb_true_r.
    + subst p. by rewrite bool_decide_eq_true_2.
    + done.
  - apply (core_ok_change c _ p Hc); intros; rewrite ?state_put, ?status_put, ?opened_put in *; simpl in *; auto.
    + by rewrite bool_decide_eq_false_2.
    + rewrite bool_decide_eq_true_2 by done. split; intros F; [|by destruct p].
      exfalso. apply E, H2; done.
    + subst p. by rewrite bool_decide_eq_true_2.
  - apply (core_ok_change c _ p Hc); unfold off_of; intros; rewrite ?state_put, ?status_put, ?opened_put in *;
    cbn [c_status c_opened put_status] in *; rewrite ?testbit_off in *.
    + by rewrite bool_decide_eq_false_2, state_of_status.
    + by rewrite bool_decide_eq_false_2, andb_true_r.
    + rewrite Z.land_spec in *. apply andb_true_iff in H0 as [? _]; auto.
    + rewrite bool_decide_eq_true_2, andb_false_r by done. split; [done|by destruct p].
    + rewrite bool_decide_eq_true_2, andb_false_r in * by done. done.
    + apply H3. intros E. by rewrite E in H.
  - apply (core_ok_change c _ PBle Hc); intros; rewrite ?state_put, ?status_put, ?opened_put in *; simpl in *; auto.
    + by rewrite bool_decide_eq_false_2.
    + done.
    + rewrite !elem_of_cons in E. destruct E as [->|[->|[->|E]]]; try done. by apply elem_of_nil in E.
Qed.

Lemma bsteps_ok c c' : rtc bstep c c' -> core_ok c -> core_ok c'.
Proof. induction 1; eauto using bstep_ok. Qed.

Lemma close_of_steps c : rtc bstep c (close_of c).
Proof.
  unfold close_of. destruct (negb _ && _) eqn:E; [|done]. apply andb_true_iff in E as [_ E%Z.eqb_eq].
  by apply rtc_once, s_close.
Qed.
