(* ===== verification/BtRefine.v ===== *)
(** * The Bluetooth service refines its abstract machine

    Everything the service does moves its profiles along [bstep], releases the mutexes
    it takes and never stops at one that it holds.

    Turning each profile on and off, in terms of the abstract machine; and that all that
    the service does moves along it. *)

From Stdlib Require Import Ascii String.
From stdpp Require Import base gmap list strings relations.
From S2P Require Import Prelude CString Bytes CMonad Json Timer Dll BtWorld BtConfig BtCommon BtHh BtBle BtBleClient BtSource BtSink BtService BtCore.
Open Scope string_scope.
Open Scope list_scope.
Open Scope Z_scope.

Create HintDb calm.

Section Refine.
Context {UL : ULong} {T X : Type} `{!Timers T, !TimersLive T, !BtEnv X} {J : JsonC} {V : JsonValues J}.
Local Notation W := (bts T X).
Implicit Types w : W.

Definition core_of (w : W) : core :=
  mk_core (bt_status w) (bt_opened w) (sk_open_state (sk_state (sink w))) (sr_open_state (sr_state (source w)))
    (ble_open_state (ble w)) (bc_open_state (blec w)) (hh_open_state (hh w)).

(** [m] does not hang, and its result satisfies [Q] when it returns. *)
Definition live {A} (m : M W A) (Q : A -> W -> Prop) (w : W) : Prop :=
  match m w with Ret a w' => Q a w' | Fault f => f <> Hang end.

(** What the rest of the service sees of [w]. *)
Definition view (w : W) : core * list profile := (core_of w, held w).

(** [m] leaves the profiles and the mutexes as they are, and does not hang. *)
Definition calm {A} (m : M W A) : Prop := forall w, live m (fun _ w' => view w' = view w) w.

Lemma live_bind {A B} (m : M W A) (k : A -> M W B) Q w : live m (fun a => live (k a) Q) w -> live (bind m k) Q w.
Proof. unfold live, bind. destruct (m w); auto. Qed.

Lemma live_mono {A} (m : M W A) (Q R : A -> W -> Prop) w : (forall a w', Q a w' -> R a w') -> live m Q w -> live m R w.
Proof. unfold live. destruct (m w); auto. Qed.

Lemma live_ret {A} (a : A) (Q : A -> W -> Prop) w : Q a w -> live (ret a) Q w.
Proof. exact (fun H => H). Qed.

Lemma live_gets {A} (f : W -> A) (Q : A -> W -> Prop) w : Q (f w) w -> live (gets f) Q w.
Proof. exact (fun H => H). Qed.

Lemma live_modify (f : W -> W) (Q : unit -> W -> Prop) w : Q tt (f w) -> live (modify f) Q w.
Proof. exact (fun H => H). Qed.

(** A part that is calm. *)
Lemma live_calm {A B} (m : M W A) (k : A -> M W B) Q w :
  calm m -> (forall a w', view w' = view w -> live (k a) Q w') -> live (bind m k) Q w.
Proof. intros H HQ. apply live_bind. eapply live_mono; [|apply H]. simpl. auto. Qed.

Lemma live_calm_last {A} (m : M W A) (Q : A -> W -> Prop) w :
  calm m -> (forall a w', view w' = view w -> Q a w') -> live m Q w.
Proof. intros H HQ. eapply live_mono; [|apply H]. simpl. auto. Qed.

(** ** What is calm *)

Lemma calm_ret {A} (a : A) : calm (ret a).
Proof. done. Qed.

Lemma calm_stop {A} (f : fault) : f <> Hang -> calm (stop (A := A) f).
Proof. by intros H w. Qed.

Lemma calm_gets {A} (f : W -> A) : calm (gets f).
Proof. done. Qed.

Lemma calm_bind {A B} (m : M W A) (k : A -> M W B) : calm m -> (forall a, calm (k a)) -> calm (bind m k).
Proof. intros Hm Hk w. apply live_calm; [done|]. intros a w' E. eapply live_mono; [|apply Hk]. simpl. congruence. Qed.

Lemma calm_when b (m : M W unit) : calm m -> calm (when b m).
Proof. by destruct b. Qed.

Lemma calm_modify (f : W -> W) : (forall w, view (f w) = view w) -> calm (modify f).
Proof. intros H w. apply H. Qed.

Lemma calm_te {A} (f : X -> A * X) : calm (te f).
Proof. intros w. unfold live, te. by destruct (f (tenv w)). Qed.

Lemma calm_tlog_add e : calm (tlog_add e).
Proof. by apply calm_modify. Qed.

Lemma calm_timer_start id : calm (eloop_timer_start id).
Proof.
  apply calm_bind; [|intros; apply calm_tlog_add]. intros w. unfold live, zoom.
  pose proof (timer_start_live id (view_of w)) as H. destruct (timer_start id (view_of w)); [done|congruence].
Qed.

Lemma calm_timer_stop id : calm (eloop_timer_stop id).
Proof.
  apply calm_bind; [|intros; apply calm_tlog_add]. intros w. unfold live, zoom.
  pose proof (timer_stop_live id (view_of w)) as H. destruct (timer_stop id (view_of w)); [done|congruence].
Qed.

Lemma calm_upd_sink f : (forall k, sk_open_state (sk_state (f k)) = sk_open_state (sk_state k)) -> calm (upd_sink f).
Proof. intros H. apply calm_modify. intros w. unfold view, core_of. simpl. by rewrite H. Qed.

Lemma calm_upd_source f : (forall k, sr_open_state (sr_state (f k)) = sr_open_state (sr_state k)) -> calm (upd_source f).
Proof. intros H. apply calm_modify. intros w. unfold view, core_of. simpl. by rewrite H. Qed.

Lemma calm_upd_ble f : (forall k, ble_open_state (f k) = ble_open_state k) -> calm (upd_ble f).
Proof. intros H. apply calm_modify. intros w. unfold view, core_of. simpl. by rewrite H. Qed.

Lemma calm_upd_blec f : (forall k, bc_open_state (f k) = bc_open_state k) -> calm (upd_blec f).
Proof. intros H. apply calm_modify. intros w. unfold view, core_of. simpl. by rewrite H. Qed.

Lemma calm_upd_hh f : (forall k, hh_open_state (f k) = hh_open_state k) -> calm (upd_hh f).
Proof. intros H. apply calm_modify. intros w. unfold view, core_of. simpl. by rewrite H. Qed.
End Refine.

#[export] Hint Resolve calm_ret calm_gets calm_te calm_tlog_add calm_timer_start calm_timer_stop : calm.

(** Structural steps; the leaves are the lemmas in [calm]. *)
Ltac calm_step :=
  match goal with
  | |- calm (stop _) => by apply calm_stop
  | |- calm (bind _ _) => apply calm_bind; [|intros ?]
  | |- calm (when _ _) => apply calm_when
  | |- calm (upd_sink _) => by apply calm_upd_sink
  | |- calm (upd_source _) => by apply calm_upd_source
  | |- calm (upd_ble _) => by apply calm_upd_ble
  | |- calm (upd_blec _) => by apply calm_upd_blec
  | |- calm (upd_hh _) => by apply calm_upd_hh
  | |- calm (modify _) => by apply calm_modify
  | |- calm (if ?b then _ else _) => destruct b
  | |- calm (match ?x with _ => _ end) => destruct x
  end.

(** Definitions that have no lemma are unfolded. *)
Ltac unfold_head m :=
  match m with
  | ?f _ => unfold_head f
  | _ => unfold m
  end.

Ltac calm := repeat (solve [auto with calm nocore] || calm_step || match goal with |- calm ?m => unfold_head m end; cbv zeta).

Section Calm.
Context {UL : ULong} {T X : Type} `{!Timers T, !TimersLive T, !BtEnv X} {J : JsonC} {V : JsonValues J}.
Local Notation W := (bts T X).
Implicit Types w : W.

(** ** Loops *)

Lemma calm_index_loop c addr n i : calm (index_loop (T := T) (X := X) c addr n i).
Proof. revert i. induction n; intros i; cbn [index_loop]; calm. Qed.

Lemma calm_shift_up {A} (l : list A) i : calm (shift_up (T := T) (X := X) l i).
Proof. revert l. induction i; intros l; cbn [shift_up]; calm. Qed.

Lemma calm_shift_down {A} (l : list A) i n : calm (shift_down (T := T) (X := X) l i n).
Proof. revert l i. induction n; intros l i; cbn [shift_down]; calm. Qed.

Lemma calm_sync_items c n i : calm (sync_items (T := T) (X := X) c n i).
Proof. revert i. induction n; intros i; cbn [sync_items]; calm. Qed.

Lemma calm_device_items z l n i : calm (device_items (T := T) (X := X) z l n i).
Proof. revert i. induction n; intros i; cbn [device_items]; calm. Qed.

Lemma calm_disconnect_all c l n i : calm (disconnect_all (T := T) (X := X) c l n i).
Proof. revert i. induction n; intros i; cbn [disconnect_all]; calm. Qed.

Lemma calm_send_chunks send fuel buf :
  (forall d, calm (send d)) -> (length buf <= fuel)%nat -> calm (send_chunks (T := T) (X := X) send fuel buf).
Proof.
  intros Hs. revert buf. induction fuel as [|fuel IH]; intros [|b buf] Hf; cbn [send_chunks]; simpl in Hf; try lia; calm.
  apply IH. rewrite length_drop. unfold BLE_DATA_LEN. simpl. lia.
Qed.

Lemma calm_send_frames id fuel buf : (length buf <= fuel)%nat -> calm (send_frames (T := T) (X := X) id fuel buf).
Proof.
  revert buf. induction fuel as [|fuel IH]; intros [|b buf] Hf; cbn [send_frames]; simpl in Hf; try lia; calm.
  apply IH. rewrite length_drop. unfold ROKID_BLE_DATA_LEN. simpl. lia.
Qed.

Lemma calm_element_attrs e n i root : calm (element_attrs (T := T) (X := X) e n i root).
Proof. revert i root. induction n; intros i root; cbn [element_attrs]; calm. Qed.

Lemma calm_connect_bonded d bonded n j : calm (connect_bonded (T := T) (X := X) d bonded n j).
Proof. revert j. induction n; intros j; cbn [connect_bonded]; calm. Qed.

Lemma calm_connect_found found n i bonded m : calm (connect_found (T := T) (X := X) found n i bonded m).
Proof. revert i. induction n; intros i; cbn [connect_found]; calm. apply calm_connect_bonded. Qed.
End Calm.

#[export] Hint Resolve calm_index_loop calm_shift_up calm_shift_down calm_sync_items calm_device_items calm_disconnect_all
  calm_element_attrs calm_connect_bonded calm_connect_found : calm.

(** * What the profiles of the Bluetooth service do *)

(** ** Effects *)

(** The stack opened. *)
Definition open_of (c : core) : core := if c_opened c =? 0 then put_opened 1 c else c.

(** Turning a profile on: it is on already; or it fails with the stack, or by itself; or
    it is on. *)
Definition turned_on (p : profile) (c c' : core) : Prop :=
  c' = c \/
  (p <> PBle -> state_of p c <> opened_of p) /\
  c' ∈ [put_state p (failed_of p) c; put_state p (failed_of p) (open_of c); on_of p (open_of c)].

Lemma open_of_steps c : rtc bstep c (open_of c).
Proof. unfold open_of. destruct (Z.eqb_spec (c_opened c) 0); [|done]. by apply rtc_once, s_open. Qed.

Lemma open_of_opened c : c_opened (open_of c) <> 0.
Proof. unfold open_of. by destruct (Z.eqb_spec (c_opened c) 0). Qed.

Lemma state_of_open p c : state_of p (open_of c) = state_of p c.
Proof. unfold open_of. destruct (_ =? _); [by destruct p|done]. Qed.

Lemma turned_on_steps p c c' : turned_on p c c' -> rtc bstep c c'.
Proof.
  intros [->|[Hn H]]; [done|]. rewrite !elem_of_cons, elem_of_nil in H. destruct H as [->|[->|[->|[]]]].
  - by apply rtc_once, s_fail.
  - eapply rtc_r; [apply open_of_steps|]. apply s_fail. by rewrite state_of_open.
  - eapply rtc_r; [apply open_of_steps|]. apply s_on, open_of_opened.
Qed.

(** Turning a profile off: nothing when it is closed. *)
Definition closed_already (p : profile) (c : core) : bool :=
  match p with
  | PBle => BLE_STATE_CLOSE <=? c_ble c
  | PBleClient => BLE_CLI_STATE_CLOSE <=? c_blec c
  | PSource => c_source c =? A2DP_SOURCE_STATE_CLOSED
  | PSink => c_sink c =? A2DP_SINK_STATE_CLOSED
  | PHh => HH_STATE_CLOSE <=? c_hh c
  end.

Definition turn_off (p : profile) (c : core) : core := if closed_already p c then c else close_of (off_of p c).

Lemma turn_off_steps p c : rtc bstep c (turn_off p c).
Proof.
  unfold turn_off. destruct (closed_already p c); [done|].
  eapply rtc_l; [apply (s_off p)|apply close_of_steps].
Qed.

Lemma put_close_of p v c : put_state p v (close_of c) = close_of (put_state p v c).
Proof. unfold close_of. rewrite status_put, opened_put. destruct (_ && _); [by destruct p|done]. Qed.

Section Moves.
Context {UL : ULong} {T X : Type} `{!Timers T, !TimersLive T, !BtEnv X} {J : JsonC} {V : JsonValues J}.
Local Notation W := (bts T X).
Implicit Types w : W.

Lemma view_inv w c h : view w = (c, h) -> core_of w = c /\ held w = h.
Proof. by injection 1 as <- <-. Qed.

(** [m] changes the view as [f] says, and does not hang. *)
Definition does {A} (m : M W A) (f : core * list profile -> core * list profile) : Prop :=
  forall w, live m (fun _ w' => view w' = f (view w)) w.

Lemma live_does {A B} (m : M W A) f (k : A -> M W B) Q w v :
  view w = v -> does m f -> (forall a w', view w' = f v -> live (k a) Q w') -> live (bind m k) Q w.
Proof. intros E H HQ. apply live_bind. eapply live_mono; [|apply H]. simpl. rewrite E. auto. Qed.

Lemma live_does_last {A} (m : M W A) f (Q : A -> W -> Prop) w v :
  view w = v -> does m f -> (forall a w', view w' = f v -> Q a w') -> live m Q w.
Proof. intros E H HQ. eapply live_mono; [|apply H]. simpl. rewrite E. auto. Qed.

Lemma does_upd_sink f v : (forall k, sk_open_state (sk_state (f k)) = v) ->
  does (upd_sink f) (fun '(c, h) => (put_state PSink v c, h)).
Proof. intros H w. unfold live, view, core_of. simpl. by rewrite H. Qed.

Lemma does_upd_source f v : (forall k, sr_open_state (sr_state (f k)) = v) ->
  does (upd_source f) (fun '(c, h) => (put_state PSource v c, h)).
Proof. intros H w. unfold live, view, core_of. simpl. by rewrite H. Qed.

Lemma does_upd_ble f v : (forall k, ble_open_state (f k) = v) -> does (upd_ble f) (fun '(c, h) => (put_state PBle v c, h)).
Proof. intros H w. unfold live, view, core_of. simpl. by rewrite H. Qed.

Lemma does_upd_blec f v : (forall k, bc_open_state (f k) = v) ->
  does (upd_blec f) (fun '(c, h) => (put_state PBleClient v c, h)).
Proof. intros H w. unfold live, view, core_of. simpl. by rewrite H. Qed.

Lemma does_upd_hh f v : (forall k, hh_open_state (f k) = v) -> does (upd_hh f) (fun '(c, h) => (put_state PHh v c, h)).
Proof. intros H w. unfold live, view, core_of. simpl. by rewrite H. Qed.

Lemma does_status_or m : does (status_or m) (fun '(c, h) => (put_status (Z.lor (c_status c) m) c, h)).
Proof. done. Qed.

Lemma does_status_clear m : does (status_clear m) (fun '(c, h) => (put_status (Z.land (c_status c) (Z.lnot m)) c, h)).
Proof. done. Qed.

Lemma does_unlock p : does (unlock p) (fun '(c, h) => (c, List.filter (fun q => negb (bool_decide (q = p))) h)).
Proof. done. Qed.

Lemma does_calm {A} (m : M W A) : calm m -> does m (fun v => v).
Proof. done. Qed.

Lemma live_lock {B} p (k : unit -> M W B) Q w c h :
  view w = (c, h) -> p ∉ h -> (forall w', view w' = (c, p :: h) -> live (k tt) Q w') -> live (bind (lock p) k) Q w.
Proof.
  intros E Hp HQ. injection E as <- <-. unfold lock, live, bind, gets.
  rewrite bool_decide_eq_false_2 by done. by apply HQ.
Qed.

Lemma does_bt_close : does bt_close (fun '(c, h) => (close_of c, h)).
Proof.
  intros w. unfold bt_close, close_of. apply live_bind, live_gets, live_bind, live_gets. cbn [view core_of c_opened c_status].
  destruct (negb (bt_opened w =? 0) && (bt_status w =? 0)) eqn:E; [|done].
  cbn [when]. apply live_bind, live_calm; [calm|]. intros r w' Ew. apply live_modify, live_ret.
  injection Ew as E1 E2 E3 E4 E5 E6 E7 E8. unfold view, core_of, put_opened. simpl. congruence.
Qed.

Lemma live_bt_open {B} (k : Z -> M W B) Q w c h :
  view w = (c, h) ->
  (forall r w', r <> 0 -> view w' = (c, h) -> live (k r) Q w') ->
  (forall w', view w' = (open_of c, h) -> c_opened (open_of c) <> 0 -> live (k 0) Q w') ->
  live (bind bt_open k) Q w.
Proof.
  intros E H1 H2. apply live_bind. apply live_bind, live_gets.
  assert (Eo : c_opened c = bt_opened w) by (by injection E as <- _). unfold open_of in H2. rewrite Eo in H2.
  destruct (bt_opened w =? 0) eqn:Ez; cbn [negb].
  - apply live_calm; [calm|]. intros r w' Ew. rewrite E in Ew. destruct (Z.eqb_spec r 0) as [->|Hr]; cbn [negb].
    + apply live_bind, live_modify, live_ret. apply H2; [|done].
      unfold view, core_of in *. simpl. injection Ew as E1 E2. subst c. by rewrite <- E2.
    + apply live_ret. by apply H1.
  - apply live_ret, H2; [done|]. rewrite Eo. by apply Z.eqb_neq.
Qed.
End Moves.

(** A step of the code, with the view of the state in [E]. *)
Ltac does_step E :=
  first
    [ eapply live_does; [exact E|apply does_status_or|]
    | eapply live_does; [exact E|apply does_status_clear|]
    | eapply live_does; [exact E|apply does_bt_close|]
    | eapply live_does; [exact E|eapply does_upd_hh; intros ?; simpl; reflexivity|]
    | eapply live_does; [exact E|eapply does_upd_blec; intros ?; simpl; reflexivity|]
    | eapply live_does; [exact E|eapply does_upd_ble; intros ?; simpl; reflexivity|]
    | eapply live_does; [exact E|eapply does_upd_source; intros ?; simpl; reflexivity|]
    | eapply live_does; [exact E|eapply does_upd_sink; intros ?; simpl; reflexivity|]
    | eapply live_does; [exact E|apply does_calm; solve [calm]|] ];
  clear E; intros ? ? E; cbv beta iota in E.

(** A calm step whose result is used. *)
Ltac value_step E r :=
  eapply live_does; [exact E|apply does_calm; solve [calm]|]; clear E; intros r ? E; cbv beta iota in E.

(** The last step is the release of the mutex. *)
Ltac unlock_step E :=
  eapply live_does_last; [exact E|apply does_unlock|]; clear E; intros ? ? E; apply view_inv in E as [-> ->]; split; [done|].

(** A profile that is on, after [destruct] of the test with the equation [Eo]. *)
Ltac already E :=
  eapply live_does_last; [exact E|apply does_calm; solve [calm]|]; clear E; intros ? ? E;
  apply view_inv in E as [-> ->]; split; [done|by left].

(** One that is not: its mutex, and the stack that opens or does not. *)
Ltac turn_on E Eo p c :=
  assert (Hn : p <> PBle -> state_of p c <> opened_of p)
    by (injection E as <- _; intros ?; first [done | by apply Z.eqb_neq in Eo]);
  eapply live_lock; [exact E|by apply not_elem_of_nil|]; clear E; intros ? E;
  eapply live_bt_open; [exact E|..]; clear E;
  [ intros ? ? ? E; rewrite (proj2 (Z.eqb_neq _ 0)) by done; cbn [negb]; do 2 does_step E; unlock_step E;
    right; split; [exact Hn|by left]
  | intros ? E ?; cbn [negb Z.eqb] ].

Section OnOff.
Context {UL : ULong} {T X : Type} `{!Timers T, !TimersLive T, !BtEnv X} {J : JsonC} {V : JsonValues J}.
Local Notation W := (bts T X).
Implicit Types w : W.

Lemma bt_hh_on_live name w c :
  view w = (c, []) -> live (bt_hh_on name) (fun _ w' => held w' = [] /\ turned_on PHh c (core_of w')) w.
Proof.
  intros E. unfold bt_hh_on. apply live_bind, live_gets. destruct (_ =? _) eqn:Eo; [already E|turn_on E Eo PHh c].
  do 2 does_step E. value_step E r. destruct (negb (r =? 0)).
  - do 2 does_step E. unlock_step E. right; split; [exact Hn|right; by left].
  - do 4 does_step E. unlock_step E. right; split; [exact Hn|do 2 right; by left].
Qed.

Lemma bt_ble_on_live name w c :
  view w = (c, []) -> live (bt_ble_on name) (fun _ w' => held w' = [] /\ turned_on PBle c (core_of w')) w.
Proof.
  intros E. unfold bt_ble_on. apply live_bind, live_gets. destruct (_ || _ || _) eqn:Eo; [already E|turn_on E Eo PBle c].
  do 3 does_step E. value_step E r. destruct (negb (r =? 0)).
  - do 2 does_step E. unlock_step E. right; split; [exact Hn|right; by left].
  - do 5 does_step E. unlock_step E. right; split; [exact Hn|do 2 right; by left].
Qed.

Lemma bt_ble_client_on_live name w c :
  view w = (c, []) -> live (bt_ble_client_on name) (fun _ w' => held w' = [] /\ turned_on PBleClient c (core_of w')) w.
Proof.
  intros E. unfold bt_ble_client_on. apply live_bind, live_gets. destruct (_ =? _) eqn:Eo; [already E|turn_on E Eo PBleClient c].
  do 2 does_step E. value_step E r. destruct (negb (r =? 0)).
  - do 2 does_step E. unlock_step E. right; split; [exact Hn|right; by left].
  - do 4 does_step E. unlock_step E. right; split; [exact Hn|do 2 right; by left].
Qed.

Lemma bt_a2dpsource_on_live name w c :
  view w = (c, []) -> live (bt_a2dpsource_on name) (fun _ w' => held w' = [] /\ turned_on PSource c (core_of w')) w.
Proof.
  intros E. unfold bt_a2dpsource_on. apply live_bind, live_gets. destruct (_ =? _) eqn:Eo; [already E|turn_on E Eo PSource c].
  does_step E. value_step E r. destruct (r =? 0).
  - do 5 does_step E. value_step E i. does_step E. unlock_step E. right; split; [exact Hn|do 2 right; by left].
  - do 2 does_step E. unlock_step E. right; split; [exact Hn|right; by left].
Qed.

Lemma bt_a2dpsink_on_live name auto_conn discoverable w c :
  view w = (c, []) -> live (bt_a2dpsink_on name auto_conn discoverable) (fun _ w' => held w' = [] /\ turned_on PSink c (core_of w')) w.
Proof.
  intros E. unfold bt_a2dpsink_on. apply live_bind, live_gets. destruct (_ =? _) eqn:Eo; [already E|turn_on E Eo PSink c].
  do 2 does_step E. value_step E r. destruct (r =? 0).
  - do 6 does_step E. unlock_step E. right; split; [exact Hn|do 2 right; by left].
  - do 2 does_step E. unlock_step E. right; split; [exact Hn|right; by left].
Qed.
(** The end of each [off]: the view is the one of [turn_off]. *)
Lemma off_end p c s : closed_already p c = false ->
  put_state p (closed_of p) (close_of (put_status (Z.land (c_status c) (Z.lnot (mask_of p))) (put_state p s c))) = turn_off p c.
Proof.
  intros E. unfold turn_off. rewrite E, put_close_of. unfold off_of. f_equal. by destruct p.
Qed.

Lemma bt_hh_off_live w c :
  view w = (c, []) -> live bt_hh_off (fun _ w' => held w' = [] /\ core_of w' = turn_off PHh c) w.
Proof.
  intros E. unfold bt_hh_off. apply live_bind, live_gets.
  replace (hh_open_state (hh w)) with (c_hh c) by (by injection E as <-). destruct (HH_STATE_CLOSE <=? c_hh c) eqn:Eo.
  - unfold turn_off. simpl. rewrite Eo. eapply live_does_last; [exact E|apply does_calm; calm|].
    intros ? ? E'. by apply view_inv in E' as [-> ->].
  - eapply live_lock; [exact E|by apply not_elem_of_nil|]. clear E. intros ? E. do 6 does_step E. unlock_step E.
    by rewrite <- (off_end PHh c HH_STATE_CLOSE).
Qed.

Lemma bt_ble_off_live w c :
  view w = (c, []) -> live bt_ble_off (fun _ w' => held w' = [] /\ core_of w' = turn_off PBle c) w.
Proof.
  intros E. unfold bt_ble_off. eapply live_lock; [exact E|by apply not_elem_of_nil|]. clear E. intros w1 E. apply live_bind, live_gets.
  replace (ble_open_state (ble w1)) with (c_ble c) by (by injection E as <-). destruct (BLE_STATE_CLOSE <=? c_ble c) eqn:Eo.
  - unfold turn_off. simpl. rewrite Eo. does_step E. by unlock_step E.
  - do 6 does_step E. unlock_step E. by rewrite <- (off_end PBle c BLE_STATE_CLOSE).
Qed.

Lemma bt_ble_client_off_live w c :
  view w = (c, []) -> live bt_ble_client_off (fun _ w' => held w' = [] /\ core_of w' = turn_off PBleClient c) w.
Proof.
  intros E. unfold bt_ble_client_off. eapply live_lock; [exact E|by apply not_elem_of_nil|]. clear E. intros w1 E. apply live_bind, live_gets.
  replace (bc_open_state (blec w1)) with (c_blec c) by (by injection E as <-). destruct (BLE_CLI_STATE_CLOSE <=? c_blec c) eqn:Eo.
  - unfold turn_off. simpl. rewrite Eo. does_step E. by unlock_step E.
  - do 6 does_step E. unlock_step E. by rewrite <- (off_end PBleClient c BLE_CLI_STATE_CLOSE).
Qed.

Lemma bt_a2dpsource_off_live w c :
  view w = (c, []) -> live bt_a2dpsource_off (fun _ w' => held w' = [] /\ core_of w' = turn_off PSource c) w.
Proof.
  intros E. unfold bt_a2dpsource_off. apply live_bind, live_gets.
  replace (sr_open_state (sr_state (source w))) with (c_source c) by (by injection E as <-).
  destruct (c_source c =? A2DP_SOURCE_STATE_CLOSED) eqn:Eo.
  - unfold turn_off. simpl. rewrite Eo. eapply live_does_last; [exact E|apply does_calm; calm|].
    intros ? ? E'. by apply view_inv in E' as [-> ->].
  - eapply live_lock; [exact E|by apply not_elem_of_nil|]. clear E. intros ? E. do 4 does_step E.
    value_step E i. does_step E. value_step E i2. do 5 does_step E. unlock_step E.
    by rewrite <- (off_end PSource c (c_source c)); [rewrite !put_close_of|].
Qed.

Lemma bt_a2dpsink_off_live w c :
  view w = (c, []) -> live bt_a2dpsink_off (fun _ w' => held w' = [] /\ core_of w' = turn_off PSink c) w.
Proof.
  intros E. unfold bt_a2dpsink_off. apply live_bind, live_gets.
  replace (sk_open_state (sk_state (sink w))) with (c_sink c) by (by injection E as <-).
  destruct (c_sink c =? A2DP_SINK_STATE_CLOSED) eqn:Eo.
  - unfold turn_off. simpl. rewrite Eo. eapply live_does_last; [exact E|apply does_calm; calm|].
    intros ? ? E'. by apply view_inv in E' as [-> ->].
  - eapply live_lock; [exact E|by apply not_elem_of_nil|]. clear E. intros ? E. do 14 does_step E. unlock_step E.
    by rewrite <- (off_end PSink c (c_sink c)); [rewrite !put_close_of|].
Qed.
End OnOff.

(** ** Everything moves along the machine *)

Create HintDb mover.

Section Mover.
Context {UL : ULong} {T X : Type} `{!Timers T, !TimersLive T, !BtEnv X} {J : JsonC} {V : JsonValues J}.
Local Notation W := (bts T X).
Implicit Types w : W.

Definition mover {A} (m : M W A) : Prop :=
  forall w, held w = [] -> live m (fun _ w' => held w' = [] /\ rtc bstep (core_of w) (core_of w')) w.

Lemma mover_calm {A} (m : M W A) : calm m -> mover m.
Proof.
  intros H w Hw. eapply live_mono; [|apply H]. intros a w' E. apply (view_inv w') in E as [-> ->]. by split.
Qed.

Lemma mover_bind {A B} (m : M W A) (k : A -> M W B) : mover m -> (forall a, mover (k a)) -> mover (bind m k).
Proof.
  intros Hm Hk w Hw. apply live_bind. eapply live_mono; [|by apply Hm]. intros a w1 [H1 R1].
  eapply live_mono; [|by apply Hk]. intros b w2 [H2 R2]. split; [done|]. by transitivity (core_of w1).
Qed.

Lemma mover_when b (m : M W unit) : mover m -> mover (when b m).
Proof. destruct b; [done|]. intros _. by apply mover_calm, calm_ret. Qed.

(** What is known of the view after is enough. *)
Lemma mover_view {A} (m : M W A) (R : core -> core -> Prop) :
  (forall w c, view w = (c, []) -> live m (fun _ w' => held w' = [] /\ R c (core_of w')) w) ->
  (forall c c', R c c' -> rtc bstep c c') -> mover m.
Proof.
  intros H HR w Hw. assert (E : view w = (core_of w, [])) by (unfold view; by rewrite Hw).
  eapply live_mono; [|apply (H w _ E)]. intros a w' [H1 H2]. auto.
Qed.

Lemma mover_hh_on name : mover (bt_hh_on name).
Proof. eapply mover_view; [apply bt_hh_on_live|apply turned_on_steps]. Qed.
Lemma mover_ble_on name : mover (bt_ble_on name).
Proof. eapply mover_view; [apply bt_ble_on_live|apply turned_on_steps]. Qed.
Lemma mover_ble_client_on name : mover (bt_ble_client_on name).
Proof. eapply mover_view; [apply bt_ble_client_on_live|apply turned_on_steps]. Qed.
Lemma mover_source_on name : mover (bt_a2dpsource_on name).
Proof. eapply mover_view; [apply bt_a2dpsource_on_live|apply turned_on_steps]. Qed.
Lemma mover_sink_on name a d : mover (bt_a2dpsink_on name a d).
Proof. eapply mover_view; [apply bt_a2dpsink_on_live|apply turned_on_steps]. Qed.

Lemma mover_off {A} (m : M W A) p :
  (forall w c, view w = (c, []) -> live m (fun _ w' => held w' = [] /\ core_of w' = turn_off p c) w) -> mover m.
Proof. intros H. apply (mover_view m (fun c c' => c' = turn_off p c) H). intros c c' ->. apply turn_off_steps. Qed.

Lemma mover_hh_off : mover bt_hh_off.
Proof. apply (mover_off _ PHh), bt_hh_off_live. Qed.
Lemma mover_ble_off : mover bt_ble_off.
Proof. apply (mover_off _ PBle), bt_ble_off_live. Qed.
Lemma mover_ble_client_off : mover bt_ble_client_off.
Proof. apply (mover_off _ PBleClient), bt_ble_client_off_live. Qed.
Lemma mover_source_off : mover bt_a2dpsource_off.
Proof. apply (mover_off _ PSource), bt_a2dpsource_off_live. Qed.
Lemma mover_sink_off : mover bt_a2dpsink_off.
Proof. apply (mover_off _ PSink), bt_a2dpsink_off_live. Qed.

Lemma mover_ble_event v :
  v ∈ [BLE_STATE_CONNECTED; BLE_STATE_HANDSHAKED; BLE_STATE_DISCONNECTED] -> mover (upd_ble (set_ble_open_state v)).
Proof. intros Hv w Hw. apply live_modify. split; [done|]. by apply rtc_once, (s_ble (core_of w)). Qed.

Lemma mover_bt_open : mover bt_open.
Proof.
  apply (mover_view bt_open (rtc bstep)); [|done]. intros w c E.
  assert (L : live (bind bt_open ret) (fun _ w' => held w' = [] /\ rtc bstep c (core_of w')) w).
  { eapply live_bt_open; [exact E|..]; intros; apply live_ret.
    - by apply view_inv in H0 as [-> ->].
    - apply view_inv in H as [-> ->]. split; [done|apply open_of_steps]. }
  clear E. unfold live, bind in *. by destruct (bt_open w).
Qed.

Lemma mover_bt_close : mover bt_close.
Proof.
  apply (mover_view bt_close (fun c c' => c' = close_of c)); [|intros c c' ->; apply close_of_steps].
  intros w c E. eapply live_does_last; [exact E|apply does_bt_close|]. intros a w' E'. by apply view_inv in E' as [-> ->].
Qed.

Lemma mover_rokid_send buf : mover (rokid_send_ble_data buf).
Proof.
  apply (mover_view _ eq); [|by intros c c' ->]. intros w c E. unfold rokid_send_ble_data.
  eapply live_lock; [exact E|by apply not_elem_of_nil|]. clear E. intros w1 E. apply live_bind, live_gets.
  eapply live_does; [exact E|by apply does_calm, calm_send_frames|]. clear E. intros ? ? E. by unlock_step E.
Qed.

Lemma mover_ble_raw buf : mover (ble_send_raw_data buf).
Proof.
  apply mover_calm. unfold ble_send_raw_data. calm. apply calm_send_chunks; [intros d; calm|done].
Qed.

Lemma mover_client_write buff : mover (handle_ble_client_write buff).
Proof.
  apply mover_calm. unfold handle_ble_client_write, ble_client_write_data. cbv zeta. calm. apply calm_send_chunks; [intros d; calm|].
  unfold field. rewrite length_take. lia.
Qed.
End Mover.

#[export] Hint Resolve mover_hh_on mover_ble_on mover_ble_client_on mover_source_on mover_sink_on mover_hh_off mover_ble_off
  mover_ble_client_off mover_source_off mover_sink_off mover_bt_open mover_bt_close mover_rokid_send mover_ble_raw
  mover_client_write : mover.

Ltac mover_step :=
  match goal with
  | |- mover (stop _) => by apply mover_calm, calm_stop
  | |- mover (bind _ _) => apply mover_bind; [|intros ?]
  | |- mover (when _ _) => apply mover_when
  | |- mover (upd_sink _) => by apply mover_calm, calm_upd_sink
  | |- mover (upd_source _) => by apply mover_calm, calm_upd_source
  | |- mover (upd_ble (set_ble_open_state _)) => by apply mover_ble_event; set_solver +
  | |- mover (upd_ble _) => by apply mover_calm, calm_upd_ble
  | |- mover (upd_blec _) => by apply mover_calm, calm_upd_blec
  | |- mover (upd_hh _) => by apply mover_calm, calm_upd_hh
  | |- mover (modify _) => by apply mover_calm, calm_modify
  | |- mover (if ?b then _ else _) => destruct b
  | |- mover (match ?x with _ => _ end) => destruct x
  end.

Ltac mover := repeat (solve [auto with mover nocore] || solve [apply mover_calm; auto with calm nocore] || mover_step ||
                      match goal with |- mover ?m => unfold_head m end; cbv zeta).

Section Steps.
Context {UL : ULong} {T X : Type} `{!Timers T, !TimersLive T, !BtEnv X} {J : JsonC} {V : JsonValues J}.
Local Notation W := (bts T X).
Implicit Types w : W.

Lemma mover_command name h : command_handler (T := T) (X := X) name = Some h -> forall o r, mover (h o r).
Proof.
  unfold command_handler. intros E o r. repeat case_match; simplify_eq.
  - unfold handle_common_handle. mover.
  - unfold handle_ble_handle. mover.
  - unfold handle_ble_client_handle. mover.
  - unfold handle_a2dpsink_handle. mover.
  - unfold handle_a2dpsource_handle. mover.
  - unfold handle_hh_handle. mover.
Qed.
End Steps.
