(* ===== verification/BtInvariant.v ===== *)
(** * The Bluetooth service as a whole

    The invariant of the running service, and that it closes every profile when the
    module sleeps.

    Turning each profile off returns, and so does closing all of them when the module
    sleeps. *)

From Stdlib Require Import Ascii String.
From stdpp Require Import base gmap list strings relations.
From S2P Require Import Prelude CString Bytes CMonad Json Timer Dll BtWorld BtConfig BtConfigProofs BtCommon BtHh BtBle BtBleProofs BtBleClient BtSource BtSink BtService BtCore BtRefine.
Open Scope string_scope.
Open Scope list_scope.
Open Scope Z_scope.

(** ** Closing several profiles *)

Definition close_order : list profile := [PHh; PSink; PSource; PBleClient; PBle].

Definition close_step (s : Z) (c : core) (p : profile) : core := if Z.testbit s (bit_of p) then turn_off p c else c.

Definition close_mask (mask : Z) (c : core) : core := foldl (close_step (Z.land (c_status c) mask)) c close_order.

Lemma land_mask s p : negb (Z.land s (mask_of p) =? 0) = Z.testbit s (bit_of p).
Proof.
  replace (mask_of p) with (2 ^ bit_of p) by by destruct p.
  assert (Hb := bit_of_nonneg p). destruct (Z.testbit s (bit_of p)) eqn:E.
  - apply negb_true_iff, Z.eqb_neq. intros F. apply (f_equal (fun z => Z.testbit z (bit_of p))) in F.
    by rewrite Z.land_spec, E, Z.pow2_bits_true, Z.bits_0 in F.
  - apply negb_false_iff, Z.eqb_eq, Z.bits_inj'. intros i Hi. rewrite Z.land_spec, Z.bits_0, Z.pow2_bits_eqb by done.
    destruct (Z.eqb_spec (bit_of p) i) as [<-|]; [by rewrite E|apply andb_false_r].
Qed.

Lemma state_close p c : state_of p (close_of c) = state_of p c.
Proof. unfold close_of. destruct (_ && _); [by destruct p|done]. Qed.

Lemma status_close c : c_status (close_of c) = c_status c.
Proof. unfold close_of. by destruct (_ && _). Qed.

Lemma closed_already_state p c c' : state_of p c = state_of p c' -> closed_already p c = closed_already p c'.
Proof. intros E. by destruct p; simpl in *; rewrite E. Qed.

Lemma turn_off_profile p q c : closed_already p c = false ->
  state_of q (turn_off p c) = (if bool_decide (q = p) then closed_of p else state_of q c) /\
  Z.testbit (c_status (turn_off p c)) (bit_of q) = Z.testbit (c_status c) (bit_of q) && negb (bool_decide (q = p)).
Proof.
  intros E. unfold turn_off. rewrite E, state_close, status_close. unfold off_of.
  rewrite state_put, status_put, state_of_status. split; [done|apply testbit_off].
Qed.

Lemma close_fold s l c :
  NoDup l -> (forall p, p ∈ l -> Z.testbit s (bit_of p) = true -> closed_already p c = false) ->
  forall q, let off := bool_decide (q ∈ l) && Z.testbit s (bit_of q) in
  state_of q (foldl (close_step s) c l) = (if off then closed_of q else state_of q c) /\
  Z.testbit (c_status (foldl (close_step s) c l)) (bit_of q) = Z.testbit (c_status c) (bit_of q) && negb off.
Proof.
  revert c. induction l as [|p l IH]; intros c Hn Hc q; cbn [foldl].
  { rewrite bool_decide_eq_false_2 by apply not_elem_of_nil. simpl. by rewrite andb_true_r. }
  apply NoDup_cons in Hn as [Hp Hn].
  assert (H1 : forall q, state_of q (close_step s c p) = (if bool_decide (q = p) && Z.testbit s (bit_of q) then closed_of q else state_of q c) /\
    Z.testbit (c_status (close_step s c p)) (bit_of q) = Z.testbit (c_status c) (bit_of q) && negb (bool_decide (q = p) && Z.testbit s (bit_of q))).
  { intros r. unfold close_step. destruct (Z.testbit s (bit_of p)) eqn:Es.
    - destruct (turn_off_profile p r c) as [-> ->]; [by apply Hc; [left|]|]. case_bool_decide as E; [subst r; by rewrite Es|done].
    - case_bool_decide as E; [subst r; rewrite Es|]; simpl; by rewrite andb_true_r. }
  destruct (IH (close_step s c p) Hn) with (q := q) as [E1 E2].
  { intros r Hr Hs. rewrite <- (Hc r (proj2 (elem_of_cons _ _ _) (or_intror Hr)) Hs). apply closed_already_state.
    rewrite (proj1 (H1 r)), bool_decide_eq_false_2; [done|]. by intros ->. }
  rewrite E1, E2, (proj1 (H1 q)), (proj2 (H1 q)). clear.
  repeat case_bool_decide; destruct (Z.testbit s (bit_of q)), (Z.testbit (c_status c) (bit_of q)); set_solver.
Qed.

(** The stack is closed with the last profile. *)
Lemma turn_off_keeps_closed p c : c_status c = 0 -> c_opened c = 0 -> c_status (turn_off p c) = 0 /\ c_opened (turn_off p c) = 0.
Proof.
  intros H1 H2. unfold turn_off. destruct (closed_already p c); [done|]. rewrite status_close. unfold off_of, close_of.
  rewrite status_put, opened_put. cbn [c_status c_opened put_status]. rewrite H1, H2. simpl. by rewrite opened_put.
Qed.

Lemma turn_off_closes p c : c_status c <> 0 -> c_status (turn_off p c) = 0 -> c_opened (turn_off p c) = 0.
Proof.
  unfold turn_off. destruct (closed_already p c); [done|]. rewrite status_close. unfold close_of. intros _ ->.
  destruct (Z.eqb_spec (c_opened (off_of p c)) 0); simpl; [done|]. done.
Qed.

Lemma close_fold_opened s l c :
  c_status c <> 0 -> c_status (foldl (close_step s) c l) = 0 -> c_opened (foldl (close_step s) c l) = 0.
Proof.
  assert (G : forall l c, c_status c = 0 -> c_opened c = 0 -> c_opened (foldl (close_step s) c l) = 0).
  { induction l0 as [|p l0 IH]; intros c0 H1 H2; [done|]. cbn [foldl]. unfold close_step at 2.
    destruct (Z.testbit s (bit_of p)); [|by apply IH]. destruct (turn_off_keeps_closed p c0 H1 H2). by apply IH. }
  revert c. induction l as [|p l IH]; intros c Hc H0; [done|]. cbn [foldl] in *.
  assert (E : close_step s c p = c \/ close_step s c p = turn_off p c) by (unfold close_step; destruct (Z.testbit s (bit_of p)); auto).
  destruct E as [E|E]; rewrite E in *; [by apply IH|].
  destruct (decide (c_status (turn_off p c) = 0)) as [Ez|]; [|by apply IH]. apply G; [done|]. by apply turn_off_closes.
Qed.

Lemma open_profile_not_closed p c : core_ok c -> Z.testbit (c_status c) (bit_of p) = true -> closed_already p c = false.
Proof.
  intros [H1 H2 H3 H4] Hb. destruct p; simpl.
  - apply Z.leb_gt, H3, Hb.
  - apply H2 in Hb; [simpl in Hb; by rewrite Hb|done].
  - apply H2 in Hb; [simpl in Hb; by rewrite Hb|done].
  - apply H2 in Hb; [simpl in Hb; by rewrite Hb|done].
  - apply H2 in Hb; [simpl in Hb; by rewrite Hb|done].
Qed.

Lemma close_order_all p : p ∈ close_order.
Proof. destruct p; set_solver +. Qed.

Lemma close_order_nodup : NoDup close_order.
Proof. apply (bool_decide_unpack _). by vm_compute. Qed.

(** Closing the profiles of a mask, from a state that satisfies the invariant. *)
Lemma close_mask_spec mask c :
  core_ok c ->
  (forall p, let off := Z.testbit (c_status c) (bit_of p) && Z.testbit mask (bit_of p) in
     state_of p (close_mask mask c) = (if off then closed_of p else state_of p c) /\
     Z.testbit (c_status (close_mask mask c)) (bit_of p) = Z.testbit (c_status c) (bit_of p) && negb (Z.testbit mask (bit_of p))) /\
  (c_status c <> 0 -> c_status (close_mask mask c) = 0 -> c_opened (close_mask mask c) = 0).
Proof.
  intros Hc. split; [|apply close_fold_opened]. intros p. cbv zeta. unfold close_mask.
  destruct (close_fold (Z.land (c_status c) mask) close_order c close_order_nodup) with (q := p) as [E1 E2].
  { intros q _ Hq. rewrite Z.land_spec in Hq. apply andb_true_iff in Hq as [Hq _]. by apply open_profile_not_closed. }
  rewrite bool_decide_eq_true_2, Z.land_spec in E1, E2 by apply close_order_all. cbn [andb] in E1, E2. rewrite E1, E2.
  split; [done|]. by destruct (Z.testbit (c_status c) (bit_of p)), (Z.testbit mask (bit_of p)).
Qed.

Lemma close_mask_steps mask c : rtc bstep c (close_mask mask c).
Proof.
  unfold close_mask. generalize (Z.land (c_status c) mask) close_order. intros s l. revert c.
  induction l as [|p l IH]; intros c; [done|]. cbn [foldl]. etrans; [|apply IH]. unfold close_step.
  destruct (Z.testbit s (bit_of p)); [apply turn_off_steps|done].
Qed.

(** Only the bits of profiles are ever set. *)
Lemma status_zero c : core_ok c -> (forall p, Z.testbit (c_status c) (bit_of p) = false) -> c_status c = 0.
Proof.
  intros Hc H. apply Z.bits_inj'. intros i Hi. rewrite Z.bits_0. destruct (Z.testbit (c_status c) i) eqn:E; [|done].
  destruct (ok_bits c Hc i Hi E) as [p <-]. by rewrite H in E.
Qed.

Section Service.
Context {UL : ULong} {T X : Type} `{!Timers T, !TimersLive T, !BtEnv X} {J : JsonC} {V : JsonValues J}.
Local Notation W := (bts T X).
Implicit Types w : W.

Lemma close_when_live p s (m : M W unit) w c :
  (forall w c, view w = (c, []) -> live m (fun _ w' => held w' = [] /\ core_of w' = turn_off p c) w) ->
  view w = (c, []) ->
  live (when (negb (Z.land s (mask_of p) =? 0)) m) (fun _ w' => view w' = (close_step s c p, [])) w.
Proof.
  intros H E. unfold when, close_step. rewrite land_mask. destruct (Z.testbit s (bit_of p)); [|done].
  eapply live_mono; [|by apply H]. intros _ w' [H1 H2]. unfold view. by rewrite H1, H2.
Qed.

Lemma close_mask_live mask w c :
  view w = (c, []) -> live (bt_close_mask_profile mask) (fun _ w' => view w' = (close_mask mask c, [])) w.
Proof.
  intros E. unfold bt_close_mask_profile. apply live_bind, live_gets. cbv zeta.
  assert (Es : bt_status w = c_status c) by (by injection E as <-). rewrite Es.
  apply live_bind. eapply live_mono; [|apply (close_when_live PHh _ _ w c bt_hh_off_live E)]. intros ? w1 E1.
  apply live_bind. eapply live_mono; [|apply (close_when_live PSink _ _ w1 _ bt_a2dpsink_off_live E1)]. intros ? w2 E2.
  apply live_bind. eapply live_mono; [|apply (close_when_live PSource _ _ w2 _ bt_a2dpsource_off_live E2)]. intros ? w3 E3.
  apply live_bind. eapply live_mono; [|apply (close_when_live PBleClient _ _ w3 _ bt_ble_client_off_live E3)]. intros ? w4 E4.
  apply live_bind. eapply live_mono; [|apply (close_when_live PBle _ _ w4 _ bt_ble_off_live E4)]. intros ? w5 E5.
  by apply live_ret.
Qed.

(** ** The invariant *)

Lemma mover_close_mask mask : mover (bt_close_mask_profile (T := T) (X := X) mask).
Proof.
  apply (mover_view _ (fun c c' => c' = close_mask mask c)); [|intros c c' ->; apply close_mask_steps].
  intros w c E. eapply live_mono; [|by apply close_mask_live]. intros a w' E'. by apply view_inv in E' as [-> ->].
Qed.

Lemma bt_step_moves i : mover (bt_step (T := T) (X := X) i).
Proof.
  destruct i as [name buf|name buf|name buf|c|e|e|e|e|e|e|cb]; cbn [bt_step].
  - unfold bt_service_command_callback, bt_parse, handle_module_sleep, bt_close_all, on_sleep.
    pose proof mover_close_mask. pose proof (mover_command (T := T) (X := X) name) as Hc.
    destruct (command_handler name) as [h|]; [specialize (Hc h eq_refl)|]; mover.
  - unfold bt_service_command_method_callback, bt_parse. pose proof (mover_command (T := T) (X := X) name) as Hc.
    destruct (command_handler name) as [h|]; [specialize (Hc h eq_refl)|]; mover.
  - unfold bt_service_binary_callback. mover.
  - mover.
  - mover.
  - unfold a2dp_sink_listener. mover.
  - unfold a2dp_source_listener. mover.
  - unfold ble_listener. mover.
  - unfold ble_client_listener. mover.
  - unfold hh_listener. mover.
  - unfold timer_fired, a2dpsink_autoconnect_over. pose proof mover_close_mask. mover.
Qed.

Lemma bt_run_moves inputs : mover (bt_run (T := T) (X := X) inputs).
Proof.
  induction inputs as [|i inputs IH]; cbn [bt_run]; [by apply mover_calm, calm_ret|].
  apply mover_bind; [apply bt_step_moves|]. intros [|]; [done|]. by apply mover_calm, calm_ret.
Qed.
End Service.

(** * Closing the profiles of the Bluetooth service *)

Section Sleep.
Context {UL : ULong} {T X : Type} `{!Timers T, !TimersOk T, !TimersLive T, !BtEnv X} {J : JsonC} {V : JsonValues J}.
Local Notation W := (bts T X).
Implicit Types w : W.

(** The service after its start: its timers are in the loop, and the names that its
    reports read end. *)
Record ready (L : list Z) (w : W) : Prop := {
  rd_timers : timers_up L (ttimers w);
  rd_sink : forall f, f ∈ [sk_auto_connect_id; sk_play_command_id; sk_connect_over_id; sk_play_state_id] -> f (sk_timer (sink w)) ∈ L;
  rd_source : forall f, f ∈ [sr_auto_connect_id; sr_connect_over_id] -> f (sr_timer (source w)) ∈ L;
  rd_hh : 0 ∈ b_name (hh_dev (hh w));
  rd_blec : 0 ∈ b_name (bc_dev (blec w));
}.

(** What [ready] looks at. *)
Definition kept (w w' : W) : Prop :=
  ttimers w' = ttimers w /\ sk_timer (sink w') = sk_timer (sink w) /\ sr_timer (source w') = sr_timer (source w) /\
  hh_dev (hh w') = hh_dev (hh w) /\ bc_dev (blec w') = bc_dev (blec w).

Lemma ready_kept L w w' : ready L w -> kept w w' -> ready L w'.
Proof. intros [? ? ? ? ?] (E1 & E2 & E3 & E4 & E5). split; by rewrite ?E1, ?E2, ?E3, ?E4, ?E5. Qed.

(** [m] returns, and the service is still ready. *)
Definition sure {A} (L : list Z) (m : M W A) : Prop := forall w, ready L w -> wp m (fun _ => ready L) w.

Lemma sure_wp {A} L (m : M W A) w : sure L m -> ready L w -> wp m (fun _ => ready L) w.
Proof. auto. Qed.

Lemma sure_bind {A B} L (m : M W A) (k : A -> M W B) : sure L m -> (forall a, sure L (k a)) -> sure L (bind m k).
Proof. intros Hm Hk w Hw. apply wp_bind. eapply wp_mono; [|by apply Hm]. intros a w' Hw'. by apply Hk. Qed.

Lemma sure_then {A B} L (m : M W A) (k : A -> M W B) Q w :
  sure L m -> ready L w -> (forall a w', ready L w' -> wp (k a) Q w') -> wp (bind m k) Q w.
Proof. intros Hm Hw HQ. apply wp_bind. eapply wp_mono; [|by apply Hm]. auto. Qed.

Lemma sure_modify L (f : W -> W) : (forall w, kept w (f w)) -> sure L (modify f).
Proof. intros H w Hw. apply wp_modify. by eapply ready_kept. Qed.

Lemma sure_when L b (m : M W unit) : sure L m -> sure L (when b m).
Proof. intros H. destruct b; [done|by intros w Hw; apply wp_ret]. Qed.

Lemma sure_call L c : sure L (call c).
Proof. intros w Hw. apply wp_call. intros r x _. by apply (ready_kept L w). Qed.

Lemma sure_tlog_add L e : sure L (tlog_add e).
Proof. by apply sure_modify. Qed.

Lemma sure_stop L (id : M W Z) :
  (forall w, exists i, id w = Ret i w /\ (ready L w -> i ∈ L)) -> sure L (bind id eloop_timer_stop).
Proof.
  intros Hid w Hw. destruct (Hid w) as (i & E & Hi). specialize (Hi Hw). apply wp_bind. eapply wp_eq; [exact E|].
  apply wp_bind, wp_zoom. eapply wp_mono; [|apply (timer_stop_ok L); [apply Hw|done]].
  intros ? t Ht. apply sure_tlog_add. destruct Hw. by split.
Qed.

Lemma sure_sink_stop L f : f ∈ [sk_auto_connect_id; sk_play_command_id; sk_connect_over_id; sk_play_state_id] ->
  sure L (stop_sink_timer f).
Proof. intros Hf. apply sure_stop. intros w. eexists. split; [done|]. intros Hw. by apply (rd_sink L w Hw). Qed.

Lemma sure_bt_close L : sure L bt_close.
Proof.
  apply sure_bind; [by intros w Hw; apply wp_gets|]. intros o. apply sure_bind; [by intros w Hw; apply wp_gets|]. intros s.
  apply sure_bind; [|by intros _ w Hw; apply wp_ret].
  apply sure_when, sure_bind; [apply sure_call|]. intros _. by apply sure_modify.
Qed.

Lemma sure_answer L e r msg : sure L (answer e r msg).
Proof.
  unfold answer, report_bluetooth_information, method_report_reply. repeat case_match; try apply sure_tlog_add.
  intros w Hw. by apply wp_ret.
Qed.

(** The reports that read a name. *)
Lemma sure_named {A} L (f : W -> A) (d : A -> bt_autoconnect_device) (b : A -> bool) e reply (msg : A -> list (string * json) -> json) :
  (forall w, ready L w -> 0 ∈ b_name (d (f w))) ->
  sure L (h <- gets f ;; who <- (if b h then named_device (d h) else ret []) ;; answer e reply (msg h who)).
Proof.
  intros Hd w Hw. apply wp_bind, wp_gets, wp_bind. destruct (b (f w)); [|apply wp_ret; by apply sure_answer].
  unfold named_device. apply wp_bind. unfold read_str. rewrite bool_decide_eq_true_2 by by apply Hd.
  apply wp_ret, wp_ret. by apply sure_answer.
Qed.

Lemma sure_hh_report L r : sure L (broadcast_hh_state r).
Proof. apply (sure_named L hh hh_dev). apply rd_hh. Qed.

Lemma sure_blec_report L r : sure L (broadcast_ble_client_state r).
Proof. apply (sure_named L blec bc_dev). apply rd_blec. Qed.

(** ** Each profile *)

Lemma wp_lock_ready {B} p L (k : unit -> M W B) Q w :
  ready L w -> held w = [] ->
  (forall w', ready L w' -> core_of w' = core_of w -> wp (k tt) Q w') -> wp (bind (lock p) k) Q w.
Proof.
  intros Hw Hh HQ. apply wp_bind, wp_lock; [rewrite Hh; by apply not_elem_of_nil|]. apply HQ; [|done].
  by apply (ready_kept L w).
Qed.

Lemma hh_off_ready L w :
  ready L w -> held w = [] -> closed_already PHh (core_of w) = false -> wp bt_hh_off (fun _ => ready L) w.
Proof.
  intros Hw Hh Hc. unfold bt_hh_off. apply wp_bind, wp_gets. simpl in Hc. rewrite Hc.
  eapply wp_lock_ready; [done|done|]. intros w1 Hw1 _. apply (sure_wp L); [|done].
  repeat (apply sure_bind; [|intros _]); try (by apply sure_modify).
  - apply sure_call.
  - apply sure_bt_close.
  - apply sure_hh_report.
Qed.

Lemma blec_off_ready L w :
  ready L w -> held w = [] -> closed_already PBleClient (core_of w) = false -> wp bt_ble_client_off (fun _ => ready L) w.
Proof.
  intros Hw Hh Hc. unfold bt_ble_client_off. eapply wp_lock_ready; [done|done|]. intros w1 Hw1 E1.
  apply wp_bind, wp_gets. rewrite <- E1 in Hc. simpl in Hc. rewrite Hc. apply (sure_wp L); [|done].
  repeat (apply sure_bind; [|intros _]); try (by apply sure_modify).
  - apply sure_call.
  - apply sure_bt_close.
  - apply sure_blec_report.
Qed.

Lemma ble_off_ready L w :
  ready L w -> held w = [] -> closed_already PBle (core_of w) = false -> wp bt_ble_off (fun _ => ready L) w.
Proof.
  intros Hw Hh Hc. unfold bt_ble_off. eapply wp_lock_ready; [done|done|]. intros w1 Hw1 E1.
  apply wp_bind, wp_gets. rewrite <- E1 in Hc. simpl in Hc. rewrite Hc.
  eapply sure_then; [by apply sure_modify|done|]. intros ? w2 H2. eapply sure_then; [apply sure_call|done|]. intros ? w3 H3.
  eapply sure_then; [by apply sure_modify|done|]. intros ? w4 H4. eapply sure_then; [apply sure_bt_close|done|]. intros ? w5 H5.
  apply wp_bind, wp_modify, wp_bind, wp_bind, wp_gets. cbn. by apply (ready_kept L w5).
Qed.

Lemma source_off_ready L w :
  ready L w -> held w = [] -> closed_already PSource (core_of w) = false -> wp bt_a2dpsource_off (fun _ => ready L) w.
Proof.
  intros Hw Hh Hc. unfold bt_a2dpsource_off. apply wp_bind, wp_gets. simpl in Hc. rewrite Hc.
  eapply wp_lock_ready; [done|done|]. intros w1 H1 _.
  eapply sure_then; [apply sure_call|done|]. intros ? w2 H2. eapply sure_then; [apply sure_call|done|]. intros ? w3 H3.
  eapply sure_then; [by apply sure_modify|done|]. intros ? w4 H4. eapply sure_then; [apply sure_bt_close|done|]. intros ? w5 H5.
  assert (Hstop : forall f, f ∈ [sr_auto_connect_id; sr_connect_over_id] -> sure L (bind (source_timer f) eloop_timer_stop)).
  { intros f Hf. apply sure_stop. intros w0. eexists. split; [done|]. intros H0. by apply (rd_source L w0 H0). }
  apply wp_assoc. eapply sure_then; [apply Hstop; set_solver +|done|]. intros ? w6 H6.
  apply wp_assoc. eapply sure_then; [apply Hstop; set_solver +|done|]. intros ? w7 H7.
  do 3 apply wp_bind, wp_modify. apply wp_bind, wp_bind, wp_gets. cbn. by apply (ready_kept L w7).
Qed.

Lemma sink_off_ready L w :
  ready L w -> held w = [] -> closed_already PSink (core_of w) = false -> wp bt_a2dpsink_off (fun _ => ready L) w.
Proof.
  intros Hw Hh Hc. unfold bt_a2dpsink_off. apply wp_bind, wp_gets. simpl in Hc. rewrite Hc.
  eapply wp_lock_ready; [done|done|]. intros w1 H1 _.
  eapply sure_then; [apply sure_when, sure_bind; [apply sure_call|by intros ? w0 H0; apply wp_ret]|done|]. intros ? w2 H2.
  eapply sure_then; [apply sure_call|done|]. intros ? w3 H3. eapply sure_then; [by apply sure_modify|done|]. intros ? w4 H4.
  eapply sure_then; [apply sure_bt_close|done|]. intros ? w5 H5.
  eapply sure_then; [apply sure_sink_stop; set_solver +|done|]. intros ? w6 H6.
  eapply sure_then; [apply sure_sink_stop; set_solver +|done|]. intros ? w7 H7.
  eapply sure_then; [apply sure_sink_stop; set_solver +|done|]. intros ? w8 H8.
  eapply sure_then; [apply sure_sink_stop; set_solver +|done|]. intros ? w9 H9.
  do 4 apply wp_bind, wp_modify. apply wp_bind, wp_bind, wp_gets. cbn. by apply (ready_kept L w9).
Qed.

(** ** All of them *)

Lemma wp_live {A} (m : M W A) (Q R : A -> W -> Prop) w : wp m Q w -> live m R w -> wp m (fun a w' => Q a w' /\ R a w') w.
Proof. unfold wp, live. by destruct (m w). Qed.

Lemma close_when_wp p s L (m : M W unit) w c :
  (forall w, ready L w -> held w = [] -> closed_already p (core_of w) = false -> wp m (fun _ => ready L) w) ->
  (forall w c, view w = (c, []) -> live m (fun _ w' => held w' = [] /\ core_of w' = turn_off p c) w) ->
  ready L w -> view w = (c, []) -> (Z.testbit s (bit_of p) = true -> closed_already p c = false) ->
  wp (when (negb (Z.land s (mask_of p) =? 0)) m) (fun _ w' => ready L w' /\ view w' = (close_step s c p, [])) w.
Proof.
  intros Hm Hl Hw E Hc. pose proof (close_when_live p s m w c Hl E) as Hlive. apply wp_live; [|done].
  unfold when in *. rewrite land_mask in *. destruct (Z.testbit s (bit_of p)); [|by apply wp_ret].
  apply view_inv in E as [E1 E2]. apply Hm; [done|done|]. rewrite E1. by apply Hc.
Qed.

(** The profiles that are still to be closed are open. *)
Definition pending (s : Z) (l : list profile) (c : core) : Prop :=
  forall p, p ∈ l -> Z.testbit s (bit_of p) = true -> closed_already p c = false.

Lemma pending_next s p l c : NoDup (p :: l) -> pending s (p :: l) c -> pending s l (close_step s c p).
Proof.
  intros Hn%NoDup_cons Hp q Hq Hs. rewrite <- (Hp q (proj2 (elem_of_cons _ _ _) (or_intror Hq)) Hs).
  apply closed_already_state. unfold close_step. destruct (Z.testbit s (bit_of p)) eqn:E; [|done].
  rewrite (proj1 (turn_off_profile p q c (Hp p (proj2 (elem_of_cons _ _ _) (or_introl eq_refl)) E))).
  rewrite bool_decide_eq_false_2; [done|]. intros ->. by apply Hn.
Qed.

Lemma close_mask_wp mask L w c :
  core_ok c -> ready L w -> view w = (c, []) ->
  wp (bt_close_mask_profile mask) (fun _ w' => ready L w' /\ view w' = (close_mask mask c, [])) w.
Proof.
  intros Hc Hw E. unfold bt_close_mask_profile. apply wp_bind, wp_gets. cbv zeta.
  assert (Es : bt_status w = c_status c) by (by injection E as <-). rewrite Es.
  set (s := Z.land (c_status c) mask).
  assert (P0 : pending s close_order c).
  { intros q _ Hq. unfold s in Hq. rewrite Z.land_spec in Hq. apply andb_true_iff in Hq as [Hq _]. by apply open_profile_not_closed. }
  pose proof close_order_nodup as N0. unfold close_order in *.
  assert (P1 := pending_next _ _ _ _ N0 P0). assert (N1 := N0). apply NoDup_cons in N1 as [_ N1].
  assert (P2 := pending_next _ _ _ _ N1 P1). assert (N2 := N1). apply NoDup_cons in N2 as [_ N2].
  assert (P3 := pending_next _ _ _ _ N2 P2). assert (N3 := N2). apply NoDup_cons in N3 as [_ N3].
  assert (P4 := pending_next _ _ _ _ N3 P3).
  apply wp_bind. eapply wp_mono; [|apply (close_when_wp PHh s L _ w c (hh_off_ready L) bt_hh_off_live Hw E), P0; by left].
  intros ? w1 [H1 E1].
  apply wp_bind. eapply wp_mono; [|apply (close_when_wp PSink s L _ w1 _ (sink_off_ready L) bt_a2dpsink_off_live H1 E1), P1; by left].
  intros ? w2 [H2 E2].
  apply wp_bind. eapply wp_mono; [|apply (close_when_wp PSource s L _ w2 _ (source_off_ready L) bt_a2dpsource_off_live H2 E2), P2; by left].
  intros ? w3 [H3 E3].
  apply wp_bind. eapply wp_mono; [|apply (close_when_wp PBleClient s L _ w3 _ (blec_off_ready L) bt_ble_client_off_live H3 E3), P3; by left].
  intros ? w4 [H4 E4].
  apply wp_bind. eapply wp_mono; [|apply (close_when_wp PBle s L _ w4 _ (ble_off_ready L) bt_ble_off_live H4 E4), P4; by left].
  intros ? w5 [H5 E5]. by apply wp_ret.
Qed.

Lemma close_all_wp L w :
  core_ok (core_of w) -> held w = [] -> ready L w ->
  wp bt_close_all (fun _ w' => ready L w' /\ held w' = [] /\ core_of w' = close_mask (-1) (core_of w)) w.
Proof.
  intros Hc Hh Hw. apply wp_bind. eapply wp_mono; [|apply (close_mask_wp _ L w (core_of w) Hc Hw); unfold view; by rewrite Hh].
  intros ? w' [H1 E1]. apply view_inv in E1 as [E1 E2]. by apply wp_ret.
Qed.

(** C9: When the module goes to sleep every profile that is on is closed, in that no bit
    of the status is left, the stack is closed if a profile was on, and no mutex stays
    locked; and the handler returns. *)
Theorem sleep_closes_all L w msg v :
  json_object_object_get_ex (Some msg) "sleep" = Some v ->
  json_object_get_string v = Some "ON" ->
  core_ok (core_of w) -> held w = [] -> ready L w ->
  wp (handle_module_sleep (Some msg))
    (fun r w' => r = 0 /\ bt_status w' = 0 /\ (bt_status w <> 0 -> bt_opened w' = 0) /\ held w' = [] /\
       (forall p, p <> PBle -> state_of p (core_of w') <> opened_of p) /\
       (forall p, Z.testbit (bt_status w) (bit_of p) = true -> state_of p (core_of w') = closed_of p)) w.
Proof.
  intros Ev Es Hc Hh Hw. unfold handle_module_sleep, on_sleep, with_field, get_ex. rewrite Ev. apply wp_bind, wp_bind.
  unfold text_of. rewrite Es. apply wp_ret. cbn [String.eqb Ascii.eqb Bool.eqb when].
  eapply wp_mono; [|by apply (close_all_wp L)]. intros ? w' (H1 & H2 & E). apply wp_ret.
  destruct (close_mask_spec (-1) (core_of w) Hc) as [Hp Ho]. rewrite <- E in Hp, Ho.
  assert (Hc' : core_ok (core_of w')) by (rewrite E; eapply bsteps_ok; [apply close_mask_steps|done]).
  assert (Hb : forall p, Z.testbit (-1) (bit_of p) = true) by by intros [].
  assert (Hz : forall p, Z.testbit (bt_status w') (bit_of p) = false).
  { intros p. destruct (Hp p) as [_ Hp2]. rewrite Hb, andb_false_r in Hp2. exact Hp2. }
  assert (E0 : bt_status w' = 0) by by apply (status_zero (core_of w')).
  split; [done|]. split; [done|]. split; [|split; [done|split]].
  - intros Hn. by apply Ho.
  - intros p Hn Hs. apply (ok_profile _ Hc' p Hn) in Hs. by rewrite Hz in Hs.
  - intros p Hs. destruct (Hp p) as [Hp1 _]. rewrite Hb, andb_true_r in Hp1. simpl in Hp1. by rewrite Hs in Hp1.
Qed.
End Sleep.
