(* ===== verification/BtReady.v ===== *)
(** * The Bluetooth service from its start on

    Whatever comes, the timers stay in the loop and the names that reports read end; so
    the service can always close its profiles.

    A service that starts is in the state its invariant speaks of, so the invariant holds
    from the start of the process on. *)

From Stdlib Require Import Ascii String.
From stdpp Require Import base gmap list strings relations.
From S2P Require Import Prelude CString Bytes CMonad Json Timer Dll BtWorld BtConfig BtConfigProofs BtCommon BtHh BtBle BtBleProofs BtBleClient BtSource BtSink BtService BtCore BtRefine BtInvariant.
Open Scope string_scope.
Open Scope list_scope.
Open Scope Z_scope.

Create HintDb stays.

Section Stays.
Context {UL : ULong} {T X : Type} `{!Timers T, !TimersOk T, !BtEnv X} {J : JsonC} {V : JsonValues J}.
Local Notation W := (bts T X).
Implicit Types w : W.

(** If [m] returns, the service is still ready. *)
Definition stays (L : list Z) {A} (m : M W A) : Prop := keeps (ready L) m.

Lemma stays_ret L {A} (a : A) : stays L (ret a).
Proof. apply keeps_ret. Qed.

Lemma stays_gets L {A} (f : W -> A) : stays L (gets f).
Proof. apply keeps_gets. Qed.

Lemma stays_stop L {A} f : stays L (stop (A := A) f).
Proof. apply keeps_stop. Qed.

Lemma stays_bind L {A B} (m : M W A) (k : A -> M W B) : stays L m -> (forall a, stays L (k a)) -> stays L (bind m k).
Proof. apply keeps_bind. Qed.

Lemma stays_when L b (m : M W unit) : stays L m -> stays L (when b m).
Proof. apply keeps_when. Qed.

Lemma stays_modify L (f : W -> W) : (forall w, kept w (f w)) -> stays L (modify f).
Proof. intros H. apply keeps_modify. intros w Hw. by eapply ready_kept. Qed.

Lemma stays_te L {A} (f : X -> A * X) : stays L (te f).
Proof. intros w Hw. unfold te. destruct (f (tenv w)). by apply (ready_kept L w). Qed.

Lemma stays_tlog_add L e : stays L (tlog_add e).
Proof. by apply stays_modify. Qed.

Lemma stays_sure L {A} (m : M W A) : sure L m -> stays L m.
Proof. intros H w Hw. specialize (H w Hw). unfold wp in H. by destruct (m w). Qed.

Lemma stays_timer_start L id : id ∈ L -> stays L (eloop_timer_start id).
Proof.
  intros Hi. apply stays_sure. intros w Hw. apply wp_bind, wp_zoom. eapply wp_mono; [|apply (timer_start_ok L); [apply Hw|done]].
  intros ? t Ht. apply sure_tlog_add. destruct Hw. by split.
Qed.

Lemma stays_timer_stop L id : id ∈ L -> stays L (eloop_timer_stop id).
Proof.
  intros Hi. apply stays_sure. intros w Hw. apply wp_bind, wp_zoom. eapply wp_mono; [|apply (timer_stop_ok L); [apply Hw|done]].
  intros ? t Ht. apply sure_tlog_add. destruct Hw. by split.
Qed.

(** The identifiers of the timers are those of the loop. *)
Lemma stays_sink_timer L {B} f (k : Z -> M W B) :
  f ∈ [sk_auto_connect_id; sk_play_command_id; sk_connect_over_id; sk_play_state_id] ->
  (forall id, id ∈ L -> stays L (k id)) -> stays L (bind (sink_timer f) k).
Proof. intros Hf Hk w Hw. apply (Hk (f (sk_timer (sink w)))); [by apply Hw|done]. Qed.

Lemma stays_source_timer L {B} f (k : Z -> M W B) :
  f ∈ [sr_auto_connect_id; sr_connect_over_id] -> (forall id, id ∈ L -> stays L (k id)) -> stays L (bind (source_timer f) k).
Proof. intros Hf Hk w Hw. apply (Hk (f (sr_timer (source w)))); [by apply Hw|done]. Qed.

Lemma stays_upd_sink L f : (forall k, sk_timer (f k) = sk_timer k) -> stays L (upd_sink f).
Proof. intros H. apply stays_modify. intros w. unfold kept. simpl. by rewrite H. Qed.

Lemma stays_upd_source L f : (forall k, sr_timer (f k) = sr_timer k) -> stays L (upd_source f).
Proof. intros H. apply stays_modify. intros w. unfold kept. simpl. by rewrite H. Qed.

Lemma stays_upd_hh L f : (forall k, hh_dev (f k) = hh_dev k) -> stays L (upd_hh f).
Proof. intros H. apply stays_modify. intros w. unfold kept. simpl. by rewrite H. Qed.

Lemma stays_upd_blec L f : (forall k, bc_dev (f k) = bc_dev k) -> stays L (upd_blec f).
Proof. intros H. apply stays_modify. intros w. unfold kept. simpl. by rewrite H. Qed.

Lemma print_str_ends dst s : 0 ∈ print_str dst s.
Proof. unfold print_str. apply elem_of_app. right. by left. Qed.

(** A printed name ends. *)
Lemma stays_hh_dev L n a : stays L (upd_hh (fun h => set_hh_dev (mk_autoconnect_device (print_str (b_name (hh_dev h)) n) (a h)) h)).
Proof. apply keeps_modify. intros w [? ? ? ? ?]. split; try done. apply print_str_ends. Qed.

Lemma stays_bc_dev L n a : stays L (upd_blec (fun b => set_bc_dev (mk_autoconnect_device (print_str (b_name (bc_dev b)) n) (a b)) b)).
Proof. apply keeps_modify. intros w [? ? ? ? ?]. split; try done. apply print_str_ends. Qed.

Lemma stays_lock L p : stays L (lock p).
Proof. apply stays_bind; [apply stays_gets|]. intros h. case_bool_decide; [apply stays_stop|]. by apply stays_modify. Qed.
End Stays.

#[export] Hint Resolve stays_ret stays_gets stays_stop stays_te stays_tlog_add stays_timer_start stays_timer_stop stays_hh_dev
  stays_bc_dev stays_lock : stays.

Ltac stays_step :=
  match goal with
  | |- stays _ (bind (sink_timer _) _) => apply stays_sink_timer; [set_solver +|intros ? ?]
  | |- stays _ (bind (source_timer _) _) => apply stays_source_timer; [set_solver +|intros ? ?]
  | |- stays _ (bind _ _) => apply stays_bind; [|intros ?]
  | |- stays _ (when _ _) => apply stays_when
  | |- stays _ (upd_sink _) => by apply stays_upd_sink
  | |- stays _ (upd_source _) => by apply stays_upd_source
  | |- stays _ (upd_blec _) => by apply stays_upd_blec
  | |- stays _ (upd_hh _) => by apply stays_upd_hh
  | |- stays _ (modify _) => by apply stays_modify
  | |- stays _ (if ?b then _ else _) => destruct b
  | |- stays _ (match ?x with _ => _ end) => destruct x
  end.

Ltac stays := repeat (solve [auto with stays nocore] || stays_step ||
                      match goal with |- stays _ ?m => unfold_head m end; cbv zeta).

Section Loops.
Context {UL : ULong} {T X : Type} `{!Timers T, !TimersOk T, !BtEnv X} {J : JsonC} {V : JsonValues J}.

Lemma stays_index_loop L c addr n i : stays L (index_loop (T := T) (X := X) c addr n i).
Proof. revert i. induction n; intros i; cbn [index_loop]; stays. Qed.

Lemma stays_shift_up L {A} (l : list A) i : stays L (shift_up (T := T) (X := X) l i).
Proof. revert l. induction i; intros l; cbn [shift_up]; stays. Qed.

Lemma stays_shift_down L {A} (l : list A) i n : stays L (shift_down (T := T) (X := X) l i n).
Proof. revert l i. induction n; intros l i; cbn [shift_down]; stays. Qed.

Lemma stays_sync_items L c n i : stays L (sync_items (T := T) (X := X) c n i).
Proof. revert i. induction n; intros i; cbn [sync_items]; stays. Qed.

Lemma stays_device_items L z l n i : stays L (device_items (T := T) (X := X) z l n i).
Proof. revert i. induction n; intros i; cbn [device_items]; stays. Qed.

Lemma stays_disconnect_all L c l n i : stays L (disconnect_all (T := T) (X := X) c l n i).
Proof. revert i. induction n; intros i; cbn [disconnect_all]; stays. Qed.

Lemma stays_send_chunks L send fuel buf : (forall d, stays L (send d)) -> stays L (send_chunks (T := T) (X := X) send fuel buf).
Proof. intros Hs. revert buf. induction fuel; intros [|b buf]; cbn [send_chunks]; stays. Qed.

Lemma stays_send_frames L id fuel buf : stays L (send_frames (T := T) (X := X) id fuel buf).
Proof. revert buf. induction fuel; intros [|b buf]; cbn [send_frames]; stays. Qed.

Lemma stays_element_attrs L e n i root : stays L (element_attrs (T := T) (X := X) e n i root).
Proof. revert i root. induction n; intros i root; cbn [element_attrs]; stays. Qed.

Lemma stays_connect_bonded L d bonded n j : stays L (connect_bonded (T := T) (X := X) d bonded n j).
Proof. revert j. induction n; intros j; cbn [connect_bonded]; stays. Qed.

Lemma stays_connect_found L found n i bonded m : stays L (connect_found (T := T) (X := X) found n i bonded m).
Proof. revert i. induction n; intros i; cbn [connect_found]; stays. apply stays_connect_bonded. Qed.
End Loops.

#[export] Hint Resolve stays_index_loop stays_shift_up stays_shift_down stays_sync_items stays_device_items stays_disconnect_all
  stays_send_frames stays_element_attrs stays_connect_bonded stays_connect_found : stays.

Section Service.
Context {UL : ULong} {T X : Type} `{!Timers T, !TimersOk T, !TimersLive T, !BtEnv X} {J : JsonC} {V : JsonValues J}.
Local Notation W := (bts T X).
Implicit Types w : W.

Lemma stays_client_write L buff : stays L (handle_ble_client_write (T := T) (X := X) buff).
Proof. unfold handle_ble_client_write, ble_client_write_data. cbv zeta. stays. apply stays_send_chunks. intros d. stays. Qed.

Lemma stays_raw L buf : stays L (ble_send_raw_data (T := T) (X := X) buf).
Proof. unfold ble_send_raw_data. stays. apply stays_send_chunks. intros d. stays. Qed.

Lemma stays_command L name h : command_handler (T := T) (X := X) name = Some h -> forall o r, stays L (h o r).
Proof.
  pose proof (stays_raw L). unfold command_handler. intros E o r. repeat case_match; simplify_eq.
  - unfold handle_common_handle. stays.
  - unfold handle_ble_handle. stays.
  - unfold handle_ble_client_handle. stays.
  - unfold handle_a2dpsink_handle. stays.
  - unfold handle_a2dpsource_handle. stays.
  - unfold handle_hh_handle. stays.
Qed.

Lemma bt_step_stays L i : stays L (bt_step (T := T) (X := X) i).
Proof.
  pose proof (stays_client_write L).
  destruct i as [name buf|name buf|name buf|c|e|e|e|e|e|e|cb]; cbn [bt_step].
  - unfold bt_service_command_callback. pose proof (stays_command L name) as Hc. destruct (command_handler name) as [h|]; [specialize (Hc h eq_refl)|]; stays.
  - unfold bt_service_command_method_callback. pose proof (stays_command L name) as Hc. destruct (command_handler name) as [h|]; [specialize (Hc h eq_refl)|]; stays.
  - stays.
  - stays.
  - stays.
  - unfold a2dp_sink_listener. stays.
  - unfold a2dp_source_listener. stays.
  - unfold ble_listener. stays.
  - unfold ble_client_listener. stays.
  - unfold hh_listener. stays.
  - stays.
Qed.

Lemma bt_run_stays L inputs : stays L (bt_run (T := T) (X := X) inputs).
Proof.
  induction inputs as [|i inputs IH]; cbn [bt_run]; [apply stays_ret|].
  apply stays_bind; [apply bt_step_stays|]. intros [|]; [done|apply stays_ret].
Qed.

(** C8: From a service that is set up, the profiles move only along the abstract machine,
    whatever messages, method calls, events of the stack and timers come, as long as the
    process lives.  The bit of a profile other than BLE is set exactly while the profile
    is open; the bit of BLE only while its state is not a closed one (a late event can
    leave BLE looking connected with its bit clear); the stack is open while a bit is
    set, no mutex is left locked, and the timers stay in the loop.  A message or an event
    that the code reads through a NULL pointer or past an array ends the process; no run
    ends because the service waits for a mutex that it holds itself. *)
Theorem bt_service_invariant L inputs w :
  core_ok (core_of w) -> held w = [] -> ready L w ->
  match bt_run inputs w with
  | Ret _ w' => rtc bstep (core_of w) (core_of w') /\ core_ok (core_of w') /\ held w' = [] /\ ready L w'
  | Fault f => f <> Hang
  end.
Proof.
  intros Hc Hh Hw. pose proof (bt_run_moves inputs w Hh) as H. pose proof (bt_run_stays L inputs w Hw) as Hs.
  unfold live in H. destruct (bt_run inputs w); [|done]. destruct H as [H1 H2]. split; [done|]. split; [by eapply bsteps_ok|done].
Qed.
End Service.

(** * The Bluetooth service from its start *)

Definition zero_core : core := mk_core 0 0 0 0 0 0 0.

Lemma zero_core_ok : core_ok zero_core.
Proof.
  split; simpl.
  - intros i _ H. by rewrite Z.bits_0 in H.
  - intros p _. rewrite Z.bits_0. split; [done|by destruct p].
  - done.
  - done.
Qed.

Section Start.
Context {UL : ULong} {T X : Type} `{!Timers T, !TimersOk T, !TimersLive T, !BtEnv X} {J : JsonC} {V : JsonValues J}.
Local Notation W := (bts T X).
Implicit Types w : W.

(** The profiles' part of the invariant. *)
Definition profiles_ok (w : W) : Prop := core_ok (core_of w) /\ held w = [].

Lemma mover_keeps {A} (m : M W A) : mover m -> keeps profiles_ok m.
Proof.
  intros H w [H1 H2]. specialize (H w H2). unfold live in H. destruct (m w); [|done].
  destruct H as [H3 H4]. split; [by eapply bsteps_ok|done].
Qed.

Lemma keeps_zoom_profiles {A} (m : M T A) : keeps profiles_ok (zoom (W := W) m).
Proof. intros w Hw. unfold zoom. by destruct (m (view_of w)). Qed.

(** The memory of a process that starts, of [calloc]. *)
Record fresh (t : T) (w : W) : Prop := {
  fr_timers : ttimers w = t;
  fr_hh : 0 ∈ b_name (hh_dev (hh w));
  fr_blec : 0 ∈ b_name (bc_dev (blec w));
}.

(** The event loop can be set up. *)
Definition loop_runs (t : T) : Prop := timers_down t /\ wlp loop_init (fun r _ => r = 0) t.

Definition kept_fresh (w w' : W) : Prop :=
  ttimers w' = ttimers w /\ hh_dev (hh w') = hh_dev (hh w) /\ bc_dev (blec w') = bc_dev (blec w).

Lemma fresh_modify t (f : W -> W) : (forall w, kept_fresh w (f w)) -> keeps (fresh t) (modify f).
Proof. intros H. apply keeps_modify. intros w [? ? ?]. destruct (H w) as (E1 & E2 & E3). split; by rewrite ?E1, ?E2, ?E3. Qed.

Lemma fresh_te t {A} (f : X -> A * X) : keeps (fresh t) (te f).
Proof. intros w [? ? ?]. unfold te. destruct (f (tenv w)). by split. Qed.
End Start.

Ltac both_step :=
  match goal with
  | |- keeps _ (te _) => first [apply fresh_te | by apply mover_keeps, mover_calm, calm_te]
  | |- keeps (fresh _) (modify _) => by apply fresh_modify
  | |- keeps profiles_ok (modify _) => by apply mover_keeps, mover_calm, calm_modify
  | |- keeps profiles_ok (upd_sink _) => by apply mover_keeps, mover_calm, calm_upd_sink
  | |- keeps profiles_ok (upd_source _) => by apply mover_keeps, mover_calm, calm_upd_source
  | |- keeps profiles_ok (zoom _) => apply keeps_zoom_profiles
  | |- keeps profiles_ok bt_open => apply mover_keeps, mover_bt_open
  | |- keeps profiles_ok bt_close => apply mover_keeps, mover_bt_close
  | |- keeps _ ?m => unfold_head m; cbv zeta
  end.

Ltac both := repeat (solve [auto with nocore] || keeps_step || both_step).

Section Start2.
Context {UL : ULong} {T X : Type} `{!Timers T, !TimersOk T, !TimersLive T, !BtEnv X} {J : JsonC} {V : JsonValues J}.
Local Notation W := (bts T X).
Implicit Types w : W.

Lemma try_open_keeps t n times : keeps profiles_ok (try_open (T := T) (X := X) n times) /\ keeps (fresh t) (try_open (T := T) (X := X) n times).
Proof. revert times. induction n as [|n IH]; intros times; cbn [try_open]; split; both; apply IH. Qed.

Lemma device_init_keeps t n :
  keeps profiles_ok (bluetooth_device_init (T := T) (X := X) n) /\ keeps (fresh t) (bluetooth_device_init (T := T) (X := X) n).
Proof. destruct (try_open_keeps t n 0). split; unfold bluetooth_device_init, bluetooth_device_create; both. Qed.

Lemma parse_devices_keeps t c o n i :
  keeps profiles_ok (parse_devices (T := T) (X := X) c o n i) /\ keeps (fresh t) (parse_devices (T := T) (X := X) c o n i).
Proof. revert c i. induction n as [|n IH]; intros c i; cbn [parse_devices]; split; both; apply IH. Qed.

Lemma init_history_keeps t c file num :
  keeps profiles_ok (init_history (T := T) (X := X) c file num) /\ keeps (fresh t) (init_history (T := T) (X := X) c file num).
Proof. split; both; apply (parse_devices_keeps t). Qed.

(** The loop has the timers [L] so far. *)
Record growing (L : list Z) (w : W) : Prop := {
  gr_timers : timers_up L (ttimers w);
  gr_hh : 0 ∈ b_name (hh_dev (hh w));
  gr_blec : 0 ∈ b_name (bc_dev (blec w));
}.

(** One more timer, kept in a variable of a profile. *)
Definition added (id : Z) (L : list Z) (w' : W) : Prop :=
  exists L', growing L' w' /\ L ⊆ L' /\ (id <> 0 -> id ∈ L').

Lemma add_timer_wp cb e p L w :
  growing L w ->
  wp (zoom (timer_add cb e p)) (fun id w' => added id L w' /\ sink w' = sink w /\ source w' = source w) w.
Proof.
  intros [G1 G2 G3]. apply wp_zoom. eapply wp_mono; [|by apply (timer_add_ok L)].
  intros id t [[-> Ht]|[Hid Ht]]; (split; [|done]).
  - exists L. split; [by split|]. set_solver.
  - exists (L ++ [id]). split; [by split|]. set_solver.
Qed.

Lemma add_sink_wp cb e p set L w :
  growing L w ->
  wp (add_sink_timer cb e p set)
    (fun id w' => added id L w' /\ sk_timer (sink w') = set id (sk_timer (sink w)) /\ source w' = source w) w.
Proof.
  intros G. apply wp_bind. eapply wp_mono; [|by apply (add_timer_wp _ _ _ L)].
  intros id w' ((L' & [? ? ?] & ?) & E1 & E2). apply wp_bind, wp_modify, wp_ret. simpl. rewrite E1, E2.
  split; [|done]. exists L'. split; [by split|done].
Qed.

Lemma add_source_wp {B} cb e p set L (k : Z -> M W B) Q w :
  growing L w ->
  (forall id w', added id L w' -> sr_timer (source w') = set id (sr_timer (source w)) -> sink w' = sink w -> wp (k id) Q w') ->
  wp (id <- zoom (timer_add cb e p) ;; upd_source (fun k => set_sr_timer (set id (sr_timer k)) k) ;; k id) Q w.
Proof.
  intros G HQ. apply wp_bind. eapply wp_mono; [|by apply (add_timer_wp _ _ _ L)].
  intros id w' ((L' & [? ? ?] & ?) & E1 & E2). apply wp_bind, wp_modify. apply HQ; simpl; [|by rewrite E2|done].
  exists L'. split; [by split|done].
Qed.

(** The timers of both profiles, when all were made. *)
Lemma timers_wp w :
  growing [] w ->
  wp (a <- bt_a2dpsink_timer_init ;; if a <? 0 then ret (-2) else b <- bt_a2dpsource_timer_init ;; if b <? 0 then ret (-2) else ret 0)
    (fun r w' => r < 0 \/ exists L', ready L' w') w.
Proof.
  intros G. apply wp_bind, wp_bind. eapply wp_mono; [|by eapply add_sink_wp]. intros a w1 ((L1 & G1 & S1 & M1) & T1 & R1).
  apply wp_bind. eapply wp_mono; [|by eapply add_sink_wp]. intros p w2 ((L2 & G2 & S2 & M2) & T2 & R2).
  apply wp_bind. eapply wp_mono; [|by eapply add_sink_wp]. intros o w3 ((L3 & G3 & S3 & M3) & T3 & R3).
  apply wp_bind. eapply wp_mono; [|by eapply add_sink_wp]. intros s w4 ((L4 & G4 & S4 & M4) & T4 & R4). apply wp_ret.
  destruct ((a <=? 0) || (p <=? 0) || (o <=? 0) || (s <=? 0)) eqn:E1; [apply wp_ret; by left|].
  cbn [Z.ltb Z.compare]. apply wp_bind. unfold bt_a2dpsource_timer_init.
  apply (add_source_wp _ _ _ _ L4); [done|]. intros c w5 (L5 & G5 & S5 & M5) T5 R5.
  apply (add_source_wp _ _ _ _ L5); [done|]. intros d w6 (L6 & [? ? ?] & S6 & M6) T6 R6. apply wp_ret.
  destruct ((c <=? 0) || (d <=? 0)) eqn:E2; [apply wp_ret; by left|]. apply wp_ret. right. exists L6.
  apply orb_false_iff in E1 as [E1 A4%Z.leb_gt]. apply orb_false_iff in E1 as [E1 A3%Z.leb_gt].
  apply orb_false_iff in E1 as [A1%Z.leb_gt A2%Z.leb_gt]. apply orb_false_iff in E2 as [A5%Z.leb_gt A6%Z.leb_gt].
  split; [done| | |done|done].
  - rewrite R6, R5, T4, T3, T2, T1. intros f Hf. repeat (apply elem_of_cons in Hf as [->|Hf]; [simpl|]); [..|by apply elem_of_nil in Hf].
    + apply S6, S5, S4, S3, S2, M1. lia.
    + apply S6, S5, S4, S3, M2. lia.
    + apply S6, S5, S4, M3. lia.
    + apply S6, S5, M4. lia.
  - rewrite T6, T5. intros f Hf. repeat (apply elem_of_cons in Hf as [->|Hf]; [simpl|]); [..|by apply elem_of_nil in Hf].
    + apply S6, M5. lia.
    + apply M6. lia.
Qed.

Lemma wlp_keeps {A B} (I : W -> Prop) (m : M W A) (k : A -> M W B) Q w :
  keeps I m -> I w -> (forall a w', I w' -> wlp (k a) Q w') -> wlp (bind m k) Q w.
Proof. intros Hm Hw HQ. apply wlp_bind. unfold wlp at 1. specialize (Hm w Hw). destruct (m w); [by apply HQ|done]. Qed.

(** The part of [bt_handle_init] after the histories. *)
Lemma loop_start_wp t w :
  loop_runs t -> ttimers w = t -> 0 ∈ b_name (hh_dev (hh w)) -> 0 ∈ b_name (bc_dev (blec w)) ->
  wp (zoom loop_init ;; a <- bt_a2dpsink_timer_init ;; if a <? 0 then ret (-2) else b <- bt_a2dpsource_timer_init ;; if b <? 0 then ret (-2) else ret 0)
    (fun r w' => r < 0 \/ exists L', ready L' w') w.
Proof.
  intros [Hd H0] F1 F2 F3. apply wp_bind, wp_zoom. cbn [view_of bts_timers_lens]. rewrite F1.
  pose proof (loop_init_ok t Hd) as Hi. unfold wp at 1. unfold wp, wlp in Hi, H0. destruct (loop_init t) as [r0 t'|]; [|done]. specialize (Hi H0).
  apply timers_wp. by split.
Qed.

Lemma handle_init_ready t w : loop_runs t -> fresh t w -> wlp bt_handle_init (fun r w' => r < 0 \/ exists L, ready L w') w.
Proof.
  intros Hl Hw. apply (wlp_keeps (fresh t)); [apply keeps_gets|done|]. clear w Hw. intros k w Hw.
  apply (wlp_keeps (fresh t)); [apply (init_history_keeps t)|done|]. clear w Hw. intros [r c] w Hw.
  apply (wlp_keeps (fresh t)); [by apply fresh_modify|done|]. clear w Hw. intros _ w Hw. destruct (r <? 0); [by left|].
  apply (wlp_keeps (fresh t)); [apply keeps_gets|done|]. clear w Hw. intros k' w Hw.
  apply (wlp_keeps (fresh t)); [apply (init_history_keeps t)|done|]. clear w Hw. intros [r' c'] w Hw.
  apply (wlp_keeps (fresh t)); [by apply fresh_modify|done|]. clear w Hw. intros _ w Hw. destruct (r' <? 0); [by left|].
  destruct Hw as [F1 F2 F3]. by apply wp_wlp, (loop_start_wp t).
Qed.

Lemma handle_init_profiles (t : T) : keeps profiles_ok (bt_handle_init (T := T) (X := X)).
Proof.
  pose proof (fun c f n => proj1 (init_history_keeps t c f n)). unfold bt_handle_init. both.
Qed.

(** The life of the service from its start. *)
Lemma main_life attempts inputs w :
  loop_runs (ttimers w) -> core_of w = zero_core -> held w = [] -> fresh (ttimers w) w ->
  wlp (bt_main attempts inputs)
    (fun r w' => r = 0 -> core_ok (core_of w') /\ held w' = [] /\ exists L, ready L w') w.
Proof.
  set (t := ttimers w). intros Hl Hc Hh Hf. clearbody t. assert (Hp : profiles_ok w) by (split; [rewrite Hc; apply zero_core_ok|done]). clear Hc Hh.
  set (both := fun w => profiles_ok w /\ fresh t w). assert (Hb : both w) by done. clear Hp Hf.
  apply (wlp_keeps both); [apply keeps_and; [by apply mover_keeps, mover_calm, calm_te|apply fresh_te]|done|]. clear w Hb.
  intros ok w Hb. destruct ok; [|done]. cbn [negb].
  apply (wlp_keeps both); [apply keeps_and; apply (device_init_keeps t)|done|]. clear w Hb. intros r w [Hp Hf]. destruct (r <? 0); [done|].
  apply wlp_bind. pose proof (handle_init_profiles t w Hp) as H1. pose proof (handle_init_ready t w Hl Hf) as H2.
  unfold wlp at 1. unfold wlp in H2. destruct (bt_handle_init w) as [r1 w1|]; [|done]. clear w Hp Hf.
  destruct (Z.ltb_spec r1 0) as [|Hr]; [done|]. destruct H2 as [H2|[L H2]]; [lia|].
  apply (wlp_keeps (fun w => profiles_ok w /\ ready L w)); [|done|].
  { apply keeps_and; [by apply mover_keeps, mover_calm; calm|apply stays_sure, sure_call]. }
  clear w1 H1 H2. intros r2 w [H1 H2]. destruct (negb (r2 =? 0)); [done|].
  apply (wlp_keeps (fun w => profiles_ok w /\ ready L w)); [|done|].
  { apply keeps_and; [apply mover_keeps, bt_run_moves|apply bt_run_stays]. }
  intros go w2 [[H3 H4] H5]. cbv. intros _. by eauto.
Qed.

(** ** The start returns *)

(** The stack can be opened, in every state [P] that the calls before lead to. *)
Record stack_opens (P : X -> Prop) : Prop := {
  so_call c x : P x -> P (te_call c x).2;
  so_calloc x : P x -> P (te_calloc x).2;
  so_open x : P x -> (te_call BtOpen x).1 = 0;
}.

(** The stack is in such a state and the files are [m]. *)
Definition openable (P : X -> Prop) (m : gmap string string) (w : W) : Prop := P (tenv w) /\ files w = m.

Lemma openable_call P m c w :
  stack_opens P -> openable P m w -> wp (call c) (fun r w' => openable P m w' /\ (c = BtOpen -> r = 0)) w.
Proof.
  intros Ho [H1 H2]. unfold wp, call, bind, te. pose proof (so_call _ Ho c _ H1) as Hp. pose proof (so_open _ Ho _ H1) as H0.
  destruct (te_call c (tenv w)) as [r x] eqn:E. simpl in *. split; [done|]. intros ->. by rewrite E in H0.
Qed.

Lemma openable_calloc P m w : stack_opens P -> openable P m w -> wp (te te_calloc) (fun _ => openable P m) w.
Proof. intros Ho [H1 H2]. unfold wp, te. pose proof (so_calloc _ Ho _ H1) as Hp. by destruct (te_calloc (tenv w)). Qed.

Lemma openable_open P m w : stack_opens P -> openable P m w -> wp bt_open (fun r w' => r = 0 /\ openable P m w') w.
Proof.
  intros Ho Hw. unfold bt_open. apply wp_bind, wp_gets. destruct (negb (bt_opened w =? 0)); [by apply wp_ret|].
  apply wp_bind. eapply wp_mono; [|by apply (openable_call P m)]. intros r w' [Hw' Hr]. by rewrite (Hr eq_refl).
Qed.

Lemma openable_close P m w : stack_opens P -> openable P m w -> wp bt_close (fun _ => openable P m) w.
Proof.
  intros Ho Hw. unfold bt_close. apply wp_bind, wp_gets, wp_bind, wp_gets, wp_bind. destruct (_ && _); [|by apply wp_ret].
  apply wp_bind. eapply wp_mono; [|by apply (openable_call P m)]. by intros r w' [Hw' _].
Qed.

Lemma try_open_wp P m n times w :
  stack_opens P -> (0 < n)%nat -> openable P m w -> wp (try_open n times) (fun _ => openable P m) w.
Proof.
  intros Ho Hn Hw. destruct n as [|n]; [lia|]. cbn [try_open]. apply wp_bind.
  assert (H1 : wp (when (2 <? times) (tlog_add (System RESTART_BSA_SERVER))) (fun _ => openable P m) w) by by destruct (2 <? times).
  eapply wp_mono; [|exact H1]. clear w Hw H1. intros u w Hw. simpl in Hw. clear u. apply wp_bind. eapply wp_mono; [|by apply (openable_open P m)].
  clear w Hw. intros r w [-> Hw]. cbn [negb Z.eqb]. apply wp_bind. eapply wp_mono; [|by apply (openable_close P m)].
  intros u w' Hw'. by apply wp_ret.
Qed.

Lemma device_init_wp P m n w :
  stack_opens P -> (0 < n)%nat -> openable P m w -> wp (bluetooth_device_init n) (fun _ => openable P m) w.
Proof.
  intros Ho Hn Hw. unfold bluetooth_device_init, bluetooth_device_create.
  apply wp_bind. eapply wp_mono; [|by apply (openable_call P m)]. clear w Hw. intros r1 w [Hw _]. destruct (negb (r1 =? 0)); [by apply wp_ret|].
  apply wp_bind. eapply wp_mono; [|by apply (openable_call P m)]. clear w Hw. intros r2 w [Hw _]. destruct (negb (r2 =? 0)); [by apply wp_ret|].
  apply wp_bind, wp_bind. eapply wp_mono; [|by apply (openable_call P m)]. clear w Hw. intros r3 w [Hw _].
  eapply (wp_mono _ (fun _ => openable P m)).
  - clear w Hw. intros r w Hw. destruct (negb (r =? 0)); [|by apply wp_ret].
    apply wp_bind. eapply wp_mono; [|by apply (openable_call P m)]. intros r4 w' [Hw' _]. by apply wp_ret.
  - destruct (negb (r3 =? 0)); [by apply wp_ret|by apply try_open_wp].
Qed.

(** ** Nothing in the start waits for ever *)

Lemma calm_parse_devices c o n i : calm (parse_devices (T := T) (X := X) c o n i).
Proof. revert c i. induction n; intros c i; cbn [parse_devices]; calm. Qed.

Lemma calm_init_history c file num : calm (init_history (T := T) (X := X) c file num).
Proof. calm. apply calm_parse_devices. Qed.

Lemma live_keeps {A B} (I : W -> Prop) (c : M W A) (k : A -> M W B) Q w :
  calm c -> keeps I c -> I w -> (forall a w', I w' -> live (k a) Q w') -> live (bind c k) Q w.
Proof.
  intros Hc Hk Hw HQ. apply live_bind. specialize (Hc w). specialize (Hk w Hw). unfold live in Hc |- * at 1.
  destruct (c w); [by apply HQ|done].
Qed.

Lemma live_of_wp {A} (c : M W A) Q w : wp c Q w -> live c Q w.
Proof. unfold wp, live. by destruct (c w). Qed.

Lemma handle_init_live t w : loop_runs t -> fresh t w -> live bt_handle_init (fun _ _ => True) w.
Proof.
  intros Hl Hw. unfold bt_handle_init. apply (live_keeps (fresh t)); [apply calm_gets|apply keeps_gets|done|]. clear w Hw. intros k w Hw.
  apply (live_keeps (fresh t)); [apply calm_init_history|apply (init_history_keeps t)|done|]. clear w Hw. intros [r c] w Hw.
  apply (live_keeps (fresh t)); [by apply calm_upd_sink|by apply fresh_modify|done|]. clear w Hw. intros _ w Hw. destruct (r <? 0); [done|].
  apply (live_keeps (fresh t)); [apply calm_gets|apply keeps_gets|done|]. clear w Hw. intros k' w Hw.
  apply (live_keeps (fresh t)); [apply calm_init_history|apply (init_history_keeps t)|done|]. clear w Hw. intros [r' c'] w Hw.
  apply (live_keeps (fresh t)); [by apply calm_upd_source|by apply fresh_modify|done|]. clear w Hw. intros _ w [F1 F2 F3]. destruct (r' <? 0); [done|].
  eapply live_mono; [|by apply live_of_wp, (loop_start_wp t)]. done.
Qed.

Lemma main_live P attempts inputs w :
  stack_opens P -> P (tenv w) -> (0 < attempts)%nat ->
  loop_runs (ttimers w) -> profiles_ok w -> fresh (ttimers w) w -> live (bt_main attempts inputs) (fun _ _ => True) w.
Proof.
  set (t := ttimers w). intros Ho HP Hn Hl Hp Hf. clearbody t. assert (Hw : openable P (files w) w) by done. set (m := files w) in Hw. clearbody m.
  apply live_bind, live_of_wp. eapply wp_mono; [|by apply wp_keeps; [apply fresh_te|done|]; apply (wp_keeps profiles_ok); [by apply mover_keeps, mover_calm, calm_te|done|]; apply (openable_calloc P m)].
  clear w HP Hp Hf Hw. intros ok w (Hf & Hp & Hw). destruct ok; [|done]. cbn [negb].
  apply live_bind, live_of_wp. destruct (device_init_keeps t attempts) as [K1 K2].
  eapply wp_mono; [|eapply wp_keeps; [exact K2|exact Hf|]; eapply wp_keeps; [exact K1|exact Hp|]; by apply (device_init_wp P m)].
  clear w Hp Hf Hw K1 K2. intros r w (Hf & Hp & Hw). destruct (r <? 0); [done|].
  apply live_bind. pose proof (handle_init_live t w Hl Hf) as H1. pose proof (handle_init_profiles t w Hp) as H2.
  unfold live at 1. unfold live in H1. destruct (bt_handle_init w) as [r1 w1|]; [|done]. destruct (r1 <? 0); [done|].
  apply (live_keeps profiles_ok); [calm|by apply mover_keeps, mover_calm; calm|done|]. intros r2 w2 [_ Hh].
  destruct (negb (r2 =? 0)); [done|]. apply live_bind. by eapply live_mono; [|apply bt_run_moves].
Qed.

(** Without a file the history is empty, unless memory is short. *)
Lemma no_file_wp c file num w :
  files w !! file = None ->
  wp (init_history c file num) (fun _ w' => exists x, w' = set_tenv x w) w.
Proof.
  intros Hf. unfold init_history, bt_autoconnect_config_init. apply wp_bind, wp_gets. cbn [autoconnect_filename set_autoconnect_num set_autoconnect_filename].
  rewrite Hf. unfold bt_config_newinit, new_devs. apply wp_bind, wp_bind. unfold wp at 1, te. destruct (te_calloc (tenv w)) as [ok x].
  apply wp_ret. destruct ok; apply wp_ret; by exists x.
Qed.

Lemma handle_init_wp t w :
  loop_runs t -> fresh t w -> files w !! ROKIDOS_BT_A2DPSINK_AUTOCONNECT_FILE = None ->
  files w !! ROKIDOS_BT_A2DPSOURCE_AUTOCONNECT_FILE = None -> wp bt_handle_init (fun _ _ => True) w.
Proof.
  intros Hl [F1 F2 F3] N1 N2. unfold bt_handle_init. apply wp_bind, wp_gets, wp_bind. eapply wp_mono; [|by apply no_file_wp].
  intros [r c] w1 [x ->]. apply wp_bind. unfold wp at 1. cbn -[wp Z.ltb]. destruct (r <? 0); [done|].
  apply wp_bind, wp_gets, wp_bind. eapply wp_mono; [|by apply no_file_wp]. intros [r' c'] w2 [x' ->]. apply wp_bind. unfold wp at 1. cbn -[wp Z.ltb].
  destruct (r' <? 0); [done|]. by eapply wp_mono; [|by apply (loop_start_wp t)].
Qed.

Lemma main_returns P attempts w :
  stack_opens P -> P (tenv w) -> (0 < attempts)%nat -> loop_runs (ttimers w) -> fresh (ttimers w) w ->
  files w !! ROKIDOS_BT_A2DPSINK_AUTOCONNECT_FILE = None -> files w !! ROKIDOS_BT_A2DPSOURCE_AUTOCONNECT_FILE = None ->
  wp (bt_main attempts []) (fun _ _ => True) w.
Proof.
  set (t := ttimers w). intros Ho HP Hn Hl Hf N1 N2. clearbody t. assert (Hw : openable P (files w) w) by done. set (m := files w) in *. clearbody m.
  apply wp_bind. eapply wp_mono; [|by apply wp_keeps; [apply fresh_te|done|]; apply (openable_calloc P m)].
  clear w HP Hf Hw. intros ok w (Hf & Hw). destruct ok; [|done]. cbn [negb].
  apply wp_bind. destruct (device_init_keeps t attempts) as [_ K2].
  eapply wp_mono; [|eapply wp_keeps; [exact K2|exact Hf|]; by apply (device_init_wp P m)].
  clear w Hf Hw K2. intros r w (Hf & _ & Hw). destruct (r <? 0); [done|]. rewrite <- Hw in N1, N2.
  apply wp_bind. eapply wp_mono; [|by apply (handle_init_wp t)]. intros r1 w1 _. destruct (r1 <? 0); [done|].
  apply wp_bind, wp_bind. unfold wp at 1, te. destruct (te_call PthreadCreate (tenv w1)) as [r2 x]. cbn -[Z.eqb].
  by destruct (negb (r2 =? 0)).
Qed.

(** C21: The start of a process with cleared memory, whose event loop and stack can be set
    up, does not wait for ever, and neither does the service then; when it succeeds the
    service has its invariant, after whatever comes.  Without files of earlier devices
    the start returns. *)
Theorem bt_main_invariant P attempts inputs w :
  stack_opens P -> P (tenv w) -> (0 < attempts)%nat ->
  loop_runs (ttimers w) -> core_of w = zero_core -> held w = [] -> fresh (ttimers w) w ->
  match bt_main attempts inputs w with
  | Ret r w' => r = 0 -> core_ok (core_of w') /\ held w' = [] /\ exists L, ready L w'
  | Fault f => f <> Hang
  end /\
  (files w !! ROKIDOS_BT_A2DPSINK_AUTOCONNECT_FILE = None -> files w !! ROKIDOS_BT_A2DPSOURCE_AUTOCONNECT_FILE = None ->
   exists r w', bt_main attempts [] w = Ret r w').
Proof.
  intros Ho HP Hn Hl Hc Hh Hf. split.
  - assert (Hp : profiles_ok w) by (split; [rewrite Hc; apply zero_core_ok|done]).
    pose proof (main_life attempts inputs w Hl Hc Hh Hf) as H1. pose proof (main_live P attempts inputs w Ho HP Hn Hl Hp Hf) as H2.
    unfold wlp in H1. unfold live in H2. by destruct (bt_main attempts inputs w).
  - intros N1 N2. pose proof (main_returns P attempts w Ho HP Hn Hl Hf N1 N2) as H. unfold wp in H.
    destruct (bt_main attempts [] w) as [r w'|]; [by exists r, w'|done].
Qed.
End Start2.
