(* ===== verification/BtDemo.v ===== *)
(** * The Bluetooth service in examples

    A Bluetooth stack, a disk and a JSON library that are computed; the theorems of the
    service at concrete inputs; and runs in which the service does not do what it should. *)

From Stdlib Require Import Ascii String.
From stdpp Require Import base gmap list strings relations.
From S2P Require Import Prelude CString Bytes CMonad Json Dll Timer LoopWorld LoopLife LoopTimers BtWorld BtConfig BtConfigProofs BtCommon BtHh BtBle BtBleProofs BtBleClient BtSource BtSink BtService BtCore BtRefine BtInvariant BtReady.
Open Scope string_scope.
Open Scope list_scope.
Open Scope Z_scope.

(** ** Outside *)

(** What the calls answer and the devices they find. *)
Record demo_stack := mk_demo_stack {
  ds_answer : bt_call -> Z;
  ds_devices : bt_query -> list BTDevice;
}.

(** [creates]: a file can be made. *)
Definition demo_stack_env (creates : bool) : BtEnv demo_stack := {|
  te_call c x := (ds_answer x c, x);
  te_devices q n x := ((Z.of_nat (n `min` length (ds_devices x q)), take n (ds_devices x q)), x);
  te_module_addr x := ((0, Some [1; 2; 3; 4; 5; 6]), x);
  te_time x := ((100, 0), x);
  te_calloc x := (true, x);
  te_malloc x := (true, x);
  te_create _ x := (creates, x);
  te_write s x := (String.length s, x);
  te_open _ x := (true, x);
  te_read _ x := (true, x);
|}.

#[export] Instance demo_bt_env : BtEnv demo_stack := demo_stack_env true.

(** Trees as text. *)
Definition quoted (s : string) : string := (String (chr 34) s ++ String (chr 34) EmptyString)%string.

Fixpoint print_json (j : json) : string :=
  match j with
  | JStr s => quoted s
  | JInt z => itoa z
  | JBool b => if b then "true" else "false"
  | JArr l => "[" ++ (fix go (l : list json) := match l with [] => "]" | x :: l' => print_json x ++ "," ++ go l' end) l
  | JObj l =>
      "{" ++ (fix go (l : list (string * json)) :=
                match l with [] => "}" | (k, x) :: l' => quoted k ++ ":" ++ print_json x ++ "," ++ go l' end) l
  end%string.

Definition demo_dev (n : Z) (name : string) : bt_autoconnect_device := mk_autoconnect_device (pad_name name) [n; 0; 0; 0; 0; 1].

Definition demo_file : string := ROKIDOS_BT_A2DPSINK_AUTOCONNECT_FILE.

Definition demo_history (l : list bt_autoconnect_device) : bt_autoconnect_config :=
  mk_autoconnect_config 0 1 2 0 (Z.of_nat (length l)) demo_file (Some (l ++ repeat zero_dev (2 - length l))).

Definition command (c : string) : json := JObj [("command", JStr c)].
Definition ON : json := command "ON".
Definition OFF : json := command "OFF".
Definition GETSTATE : json := command "GETSTATE".
Definition SLEEP : json := JObj [("sleep", JStr "ON")].

Definition three_devices : json :=
  JObj [("devices", JArr (dev_json <$> [demo_dev 1 "a"; demo_dev 2 "b"; demo_dev 3 "c"]))].

(** The trees that the parser knows, by their text. *)
Definition demo_trees : list json :=
  [ON; OFF; GETSTATE; SLEEP; three_devices; history_json (demo_history [demo_dev 1 "car"; demo_dev 2 "home"]);
   history_json (demo_history [demo_dev 1 "car"])].

#[export] Instance demo_json : JsonC := {|
  jobj := json;
  json_tokener_parse s := List.find (fun j => String.eqb (print_json j) s) demo_trees;
  json_object_object_get_ex o k :=
    match o with
    | Some (JObj l) => match List.find (fun p => String.eqb (fst p) k) l with Some (_, v) => Some (Some v) | None => None end
    | _ => None
    end;
  json_object_get_string o := match o with Some (JStr s) => Some s | Some j => Some (print_json j) | None => None end;
|}.

#[export] Instance demo_values : JsonValues demo_json := {|
  json_object_get_boolean o := match o with Some (JBool b) => b | _ => false end;
  json_object_get_int o := match o with Some (JInt z) => z | _ => 0 end;
  json_object_array_length o := match o with Some (JArr l) => Some (Z.of_nat (length l)) | _ => None end;
  json_object_array_get_idx o i := match o with Some (JArr l) => nth_error l (Z.to_nat i) | _ => None end;
  json_object_to_json_string := print_json;
|}.

#[export] Instance demo_ulong : ULong := lp64.

Definition demo_stack_ok : demo_stack := mk_demo_stack (fun _ => 0) (fun _ => []).

#[export] Instance demo_disk : BtDisk demo_stack.
Proof. by split. Qed.

(** A process before its start, with its memory cleared. *)
Definition demo_blank (m : gmap string string) (x : demo_stack) : bts (loop demo_os) demo_stack :=
  mk_bts 0 0 0
    (mk_a2dpsink_handle 0 0 0 (mk_autoconnect_config 0 0 0 0 0 "" None) (mk_a2dpsink_timer 0 0 0 0)
       (mk_a2dpsink_state false 0 0 0 0 0) 0)
    (mk_a2dpsource_handle (mk_autoconnect_config 0 0 0 0 0 "" None) (mk_a2dpsource_timer 0 0) (mk_a2dpsource_state 0 0 0))
    (mk_ble_handle 0 0 (repeat 0 SENDBUF_LEN) 0 0 0)
    (mk_ble_client_handle 0 0 zero_dev) (mk_hh_handle 0 0 zero_dev)
    [] m [] (demo_boot 100 []) x.

Definition say (name : string) (j : json) : bt_input := Message name (Some (print_json j)).

(** The service from its start through the given inputs. *)
Definition demo_service (m : gmap string string) (x : demo_stack) (inputs : list bt_input) :
    outcome (bts (loop demo_os) demo_stack) Z :=
  bt_main 1 inputs (demo_blank m x).

Definition state_after (r : outcome (bts (loop demo_os) demo_stack) Z) : bts (loop demo_os) demo_stack :=
  match r with Ret _ w => w | Fault _ => demo_blank ∅ demo_stack_ok end.

(** A service with four profiles on. *)
Definition demo_inputs : list bt_input :=
  [say FLORA_BT_HH_CMD ON; say FLORA_BT_A2DPSINK_CMD ON; say FLORA_BT_BLE_CMD ON; say FLORA_BT_BLE_CLI_CMD ON;
   BleEvent BT_BLE_SE_OPEN_EVT].

Definition demo_on : bts (loop demo_os) demo_stack := state_after (demo_service ∅ demo_stack_ok demo_inputs).

(** ** The theorems at these inputs *)

Lemma history_is_mru_witness :
  exists c', hist_run [Connected (demo_dev 1 "a"); Connected (demo_dev 2 "b"); Connected (demo_dev 3 "c"); Connected (demo_dev 2 "b")]
               (demo_history []) demo_on = Ret c' demo_on /\
    same_but_devices (demo_history []) c' /\ holds c' [demo_dev 2 "b"; demo_dev 3 "c"].
Proof.
  apply (history_is_mru [Connected (demo_dev 1 "a"); Connected (demo_dev 2 "b"); Connected (demo_dev 3 "c"); Connected (demo_dev 2 "b")]
           (demo_history []) [] demo_on).
  - split; simpl; try done; try lia; try apply NoDup_nil_2. apply not_elem_of_nil.
  - repeat (apply List.Forall_cons; [vm_compute; discriminate|]). apply List.Forall_nil.
Defined.

Definition demo_two : list bt_autoconnect_device := [demo_dev 1 "car"; demo_dev 2 "home"].

Lemma demo_two_ok : Forall dev_ok demo_two.
Proof.
  repeat (apply List.Forall_cons; [|]); [..|apply List.Forall_nil]; split.
  all: first [eexists; split; [|split]; [..|reflexivity]; vm_compute; (reflexivity || lia) | reflexivity | idtac].
  all: repeat (apply List.Forall_cons; [unfold byte; lia|]); apply List.Forall_nil.
Qed.

Lemma demo_two_reads : reads_back (history_json (demo_history demo_two)).
Proof.
  split; [discriminate|]. split; [by vm_compute|]. split; [by apply (bool_decide_unpack _); vm_compute|].
  exists (history_json (demo_history demo_two)). split; [by vm_compute|].
  cbn. repeat split; try done; repeat (eexists; split; [reflexivity|]); repeat split; try done; repeat (eexists; split; [reflexivity|]); done.
Qed.

Lemma history_roundtrip_witness :
  wp (r <- bt_autoconnect_sync (demo_history demo_two) ;; rc <- bt_autoconnect_config_init (set_autoconnect_linknum 0 (demo_history [])) ;;
      ret (r, rc))
    (fun a w' => a.1 = 0 /\ a.2.1 = 0 /\ dev a.2.2 = Some demo_two /\ holds a.2.2 demo_two /\ same_service demo_on w') demo_on.
Proof.
  apply (history_roundtrip (demo_history demo_two) demo_two (set_autoconnect_linknum 0 (demo_history [])) demo_on).
  - split; simpl; try done; try lia; apply (bool_decide_unpack _); by vm_compute.
  - simpl. lia.
  - exact demo_two_ok.
  - reflexivity.
  - reflexivity.
  - reflexivity.
  - exact demo_two_reads.
Defined.

Definition demo_text : string := "a message that needs three frames to be sent".

Lemma ble_message_roundtrip_witness :
  wp (rokid_send_ble_data (str_bytes demo_text))
    (fun _ w1' => exists l, tlog w1' = tlog demo_on ++ l /\ ble w1' = ble demo_on /\ held w1' = held demo_on /\
       wp (for_each (payloads l) (fun f => ble_listener (packet f)))
         (fun _ w2' => tlog w2' = tlog demo_on ++ [PostedData FLORA_BT_BLE_EVT demo_text] /\
                       forall id', can_receive (ble w2') id') demo_on) demo_on.
Proof.
  apply (ble_message_roundtrip demo_on demo_on demo_text).
  - reflexivity.
  - split; apply (bool_decide_unpack _); vm_compute; reflexivity.
  - apply (bool_decide_unpack _). vm_compute. reflexivity.
  - split; [vm_compute; reflexivity|]. intros _. split; try (vm_compute; reflexivity). apply Nat.le_0_l.
Defined.

Lemma frame_bounds_witness :
  (3 <= 20 <= 20 <-> exists w', rokid_recv_ble_data (repeat 7 255) 20 demo_on = Ret tt w') /\
  (3 <= 20 <= 20 -> wp (rokid_recv_ble_data (repeat 7 255) 20) (fun _ w' => recv_ok (ble w')) demo_on).
Proof.
  apply (frame_bounds demo_on (repeat 7 255) 20).
  split; [vm_compute; reflexivity|vm_compute; split; discriminate|]. apply (bool_decide_unpack _). vm_compute. reflexivity.
Defined.

Lemma demo_boots (m : gmap string string) (x : demo_stack) :
  loop_runs (ttimers (demo_blank m x)) /\ core_of (demo_blank m x) = zero_core /\ held (demo_blank m x) = [] /\
  fresh (ttimers (demo_blank m x)) (demo_blank m x).
Proof.
  split; [|split; [done|split; [done|]]].
  - split; [by split|vm_compute; done].
  - split; [done|..]; apply (bool_decide_unpack _); by vm_compute.
Qed.

Lemma demo_opens : stack_opens (fun x => x = demo_stack_ok).
Proof. split; intros; by subst. Qed.

Lemma bt_main_invariant_witness :
  match demo_service ∅ demo_stack_ok demo_inputs with
  | Ret r w' => r = 0 /\ bt_status w' = 43 /\ core_ok (core_of w') /\ held w' = [] /\ exists L, ready L w'
  | Fault _ => False
  end /\
  exists r w', demo_service ∅ demo_stack_ok [] = Ret r w'.
Proof.
  destruct (demo_boots ∅ demo_stack_ok) as (H1 & H2 & H3 & H4).
  destruct (bt_main_invariant (fun x => x = demo_stack_ok) 1 demo_inputs (demo_blank ∅ demo_stack_ok) demo_opens eq_refl Nat.lt_0_1 H1 H2 H3 H4) as [H H'].
  split; [|exact (H' eq_refl eq_refl)]. unfold demo_service.
  assert (E : match bt_main 1 demo_inputs (demo_blank ∅ demo_stack_ok) with Ret r w => r = 0 /\ bt_status w = 43 | Fault _ => False end)
    by (vm_compute; split; reflexivity).
  destruct (bt_main 1 demo_inputs (demo_blank ∅ demo_stack_ok)) as [r w|]; [|exact E]. destruct E as [E1 E2].
  split; [exact E1|]. split; [exact E2|]. exact (H E1).
Defined.

(** The service that runs satisfies the invariant. *)
Lemma demo_run_ok m x inputs w :
  demo_service m x inputs = Ret 0 w -> core_ok (core_of w) /\ held w = [] /\ exists L, ready L w.
Proof.
  intros E. destruct (demo_boots m x) as (H1 & H2 & H3 & H4).
  pose proof (main_life 1 inputs (demo_blank m x) H1 H2 H3 H4) as H. unfold wlp in H. unfold demo_service in E.
  rewrite E in H. by apply H.
Qed.

Lemma demo_on_ok : core_ok (core_of demo_on) /\ held demo_on = [] /\ exists L, ready L demo_on.
Proof. apply (demo_run_ok ∅ demo_stack_ok demo_inputs). vm_compute. reflexivity. Qed.

Definition more_inputs : list bt_input :=
  [say FLORA_BT_HH_CMD OFF; HhEvent (BT_HH_OPEN_EVT (Some (mk_hh_open_msg 0 [104; 0] [1; 2; 3; 4; 5; 6])));
   BleEvent BT_BLE_SE_CLOSE_EVT; say FLORA_BT_A2DPSOURCE_CMD ON; TimerFired SOURCE_OVER_CB].

Lemma bt_service_invariant_witness :
  exists L, match bt_run more_inputs demo_on with
            | Ret _ w' => rtc bstep (core_of demo_on) (core_of w') /\ core_ok (core_of w') /\ held w' = [] /\ ready L w' /\
                          bt_status w' = 11
            | Fault _ => False
            end.
Proof.
  destruct demo_on_ok as (H1 & H2 & L & H3). exists L.
  pose proof (bt_service_invariant L more_inputs demo_on H1 H2 H3) as H.
  assert (E : match bt_run more_inputs demo_on with Ret _ w => bt_status w = 11 | Fault _ => False end) by (vm_compute; reflexivity).
  destruct (bt_run more_inputs demo_on) as [go w|]; [|exact E].
  destruct H as (K1 & K2 & K3 & K4). exact (conj K1 (conj K2 (conj K3 (conj K4 E)))).
Defined.

Lemma sleep_closes_all_witness :
  bt_status demo_on = 43 /\
  wp (handle_module_sleep (Some SLEEP))
    (fun r w' => r = 0 /\ bt_status w' = 0 /\ (bt_status demo_on <> 0 -> bt_opened w' = 0) /\ held w' = [] /\
       (forall p, p <> PBle -> state_of p (core_of w') <> opened_of p) /\
       (forall p, Z.testbit (bt_status demo_on) (bit_of p) = true -> state_of p (core_of w') = closed_of p)) demo_on.
Proof.
  split; [vm_compute; reflexivity|]. destruct demo_on_ok as (H1 & H2 & L & H3).
  apply (sleep_closes_all (J := demo_json) L demo_on SLEEP (Some (JStr "ON"))); [reflexivity|reflexivity|exact H1|exact H2|exact H3].
Defined.

(** ** What goes wrong *)

(** What a run leaves: the status, whether the stack is open, the calls it made. *)
Definition calls (w : bts (loop demo_os) demo_stack) : list bt_call :=
  omap (fun e => match e with Called c _ => Some c | _ => None end) (tlog w).

Definition seen (r : outcome (bts (loop demo_os) demo_stack) Z) : (Z * Z * Z) + fault :=
  match r with
  | Ret r w => inl (r, bt_status w, bt_opened w)
  | Fault f => inr f
  end.

(** Before BLE was on, its state has no name, and asking for it ends the service. *)
Theorem ble_state_unnamed : seen (demo_service ∅ demo_stack_ok [say FLORA_BT_BLE_CMD GETSTATE]) = inr NullDeref.
Proof. vm_compute. reflexivity. Qed.

(** A message that cannot be read ends the service. *)
Theorem bt_unreadable_message : seen (demo_service ∅ demo_stack_ok [Message FLORA_BT_HH_CMD None]) = inr NullDeref.
Proof. vm_compute. reflexivity. Qed.

(** When the profile cannot be enabled the stack stays open, and no later sleep closes
    it. *)
Theorem failed_enable_leaves_stack :
  seen (demo_service ∅ (mk_demo_stack (fun c => match c with HhEnable => -1 | _ => 0 end) (fun _ => []))
          [say FLORA_BT_HH_CMD ON; say FLORA_MODULE_SLEEP SLEEP]) = inl (0, 0, 1).
Proof. vm_compute. reflexivity. Qed.

(** A connection that is reported after BLE was turned off makes it look open: turning it
    on does nothing any more. *)
Theorem late_event_blocks_ble :
  seen (demo_service ∅ demo_stack_ok
          [say FLORA_BT_BLE_CMD ON; say FLORA_BT_BLE_CMD OFF; BleEvent BT_BLE_SE_OPEN_EVT; say FLORA_BT_BLE_CMD ON]) = inl (0, 0, 0).
Proof. vm_compute. reflexivity. Qed.

(** Removing the address of all zeros finds the first empty place: it succeeds and takes
    one off the number of devices, although no device goes. *)
Theorem zero_address_miscounts :
  match bt_autoconnect_remove (demo_history [demo_dev 1 "a"]) zero_dev demo_on with
  | Ret (r, c) _ => r = 0 /\ dev c = dev (demo_history [demo_dev 1 "a"]) /\
      autoconnect_linknum (demo_history [demo_dev 1 "a"]) = 1 /\ autoconnect_linknum c = 0
  | Fault _ => False
  end.
Proof. vm_compute. repeat split. Qed.

(** A history file with more devices than the profile keeps is written past the array. *)
Theorem long_history_overflows :
  seen (demo_service {[ROKIDOS_BT_A2DPSINK_AUTOCONNECT_FILE := print_json three_devices]} demo_stack_ok []) = inr BufferOverflow.
Proof. vm_compute. reflexivity. Qed.

(** The history's file is removed before the new one is made: when that fails, both are
    gone. *)
Theorem sync_loses_history :
  match bt_autoconnect_sync (BtEnv0 := demo_stack_env false) (demo_history demo_two)
          (set_files {[demo_file := print_json (history_json (demo_history demo_two))]} demo_on) with
  | Ret r w => (r, files w !! demo_file)
  | Fault _ => (0, None)
  end = (-2, None).
Proof. vm_compute. reflexivity. Qed.

(** Every beginning of a word counts as the word, and no word at all as the first. *)
Theorem subsequent_prefixes : map subsequent_of [""; "P"; "PA"; "PLAY"; "PLAYED"; "pause"] =
  [A2DP_SINK_COMMAND_PLAY; A2DP_SINK_COMMAND_PLAY; A2DP_SINK_COMMAND_PAUSE; A2DP_SINK_COMMAND_PLAY; 0; 0].
Proof. vm_compute. reflexivity. Qed.

(** A message of 300 bytes does not arrive. *)
Definition long_text : string := string_of_list_ascii (repeat "x"%char 300).

Definition posted_texts (w : bts (loop demo_os) demo_stack) : list string :=
  omap (fun e => match e with PostedData _ s => Some s | _ => None end) (tlog w).

Definition delivered (s : string) : list string :=
  match for_each (frames 5 (String.length s) (str_bytes s)) (fun f => ble_listener (packet f)) demo_on with
  | Ret _ w => posted_texts w
  | Fault _ => []
  end.

Theorem long_message_lost : map String.length (delivered long_text) = [255%nat] /\ delivered demo_text = [demo_text].
Proof. split; vm_compute; reflexivity. Qed.

(** The packets of the other characteristic are not limited: the 26th of 20 bytes is
    written past the buffer. *)
Definition cmcc_packet (b : list Z) : ble_evt :=
  BT_BLE_SE_WRITE_EVT (Some (mk_ble_write_msg BLE_DATA_CHARACTER_CMCC 0 (Z.of_nat (length b)) (b ++ repeat 0 600))).

Definition cmcc_run (n : nat) : outcome (bts (loop demo_os) demo_stack) unit :=
  for_each (cmcc_packet (str_bytes "size:99") :: repeat (cmcc_packet (repeat 65 20)) n) ble_listener demo_on.

Theorem cmcc_overflows :
  (match cmcc_run 25 with Ret _ w => Some (cmcc_index_len (ble w)) | Fault _ => None end) = Some 500 /\
  cmcc_run 26 = Fault BufferOverflow.
Proof. split; vm_compute; reflexivity. Qed.

(** The devices of a history are tried in their order, then the search is over; but an
    empty place ends it without the flag that says so. *)
Definition autoconnect_run (l : list bt_autoconnect_device) : option (list bt_call * Z) :=
  match demo_service {[ROKIDOS_BT_A2DPSINK_AUTOCONNECT_FILE := print_json (history_json (demo_history l))]}
          (mk_demo_stack (fun c => match c with SinkConnect _ => -1 | _ => 0 end) (fun _ => []))
          [say FLORA_BT_A2DPSINK_CMD ON; TimerFired SINK_AUTO_CB; TimerFired SINK_AUTO_CB; TimerFired SINK_AUTO_CB] with
  | Ret _ w => Some (List.filter (fun c => match c with SinkConnect _ => true | _ => false end) (calls w),
                     autoconnect_flag (sk_config (sink w)))
  | Fault _ => None
  end.

Theorem autoconnect_in_order :
  autoconnect_run demo_two =
  Some ([SinkConnect [1; 0; 0; 0; 0; 1]; SinkConnect [2; 0; 0; 0; 0; 1]], AUTOCONNECT_BY_HISTORY_OVER).
Proof. vm_compute. reflexivity. Qed.

(** With one device and an empty place: after the empty place the timer is not started
    again. *)
Definition started_after_empty : option (list Z * Z) :=
  match demo_service {[ROKIDOS_BT_A2DPSINK_AUTOCONNECT_FILE := print_json (history_json (demo_history [demo_dev 1 "car"]))]}
          (mk_demo_stack (fun c => match c with SinkConnect _ => -1 | _ => 0 end) (fun _ => []))
          [say FLORA_BT_A2DPSINK_CMD ON; TimerFired SINK_AUTO_CB] with
  | Ret _ w =>
      match timer_fired SINK_AUTO_CB w with
      | Ret _ w' => Some (omap (fun e => match e with TimerStarted i => Some i | _ => None end) (drop (length (tlog w)) (tlog w')),
                          autoconnect_flag (sk_config (sink w')))
      | Fault _ => None
      end
  | Fault _ => None
  end.

Theorem empty_place_stalls : started_after_empty = Some ([], AUTOCONNECT_BY_HISTORY_WORK).
Proof. vm_compute. reflexivity. Qed.
