(* ===== verification/NetEnv.v ===== *)
(** * State and environment of the network manager

    The global variables of [framework/services/networking/manager] and of
    [framework/libs/wifi], grouped by the C file that declares them, and the
    interface to what lies outside the sources: the device HALs, the kernel,
    wpa_supplicant, flora and json-c.  Each external call is a constructor of
    [call]; an environment answers it from a hidden state, and every call is
    recorded in a log. *)

From Stdlib Require Import ZArith List Bool Lia Ascii String.
From S2P Require Import Prelude CString CMonad Json.
Import ListNotations.
Open Scope string_scope.
Open Scope Z_scope.

(** ** Constants of the headers *)

(** [common.h]: capacities. *)
Definition NET_CAPACITY_MODEM : Z := 1.
Definition NET_CAPACITY_WIFI : Z := 2.
Definition NET_CAPACITY_ETHERENT : Z := 4.

(** [network_switch.h]: modes. *)
Definition WIFI : Z := 1.
Definition WIFI_AP : Z := 2.
Definition MODEM : Z := 4.
Definition ETHERENT : Z := 8.

Definition START : Z := 1.
Definition STOP : Z := 2.

Definition MAX_SIZE : nat := 64.

(** [common.h]: connection states of [struct network_service]. *)
Inductive conn_state :=
| WIFI_STATE_CLOSE
| WIFI_STATION_PRE_JOIN
| WIFI_STATION_JOINING
| WIFI_STATION_JOIN_FAILED
| WIFI_STATION_CONNECTED
| WIFI_STATION_UNCONNECTED
| WIFI_AP_CLOSE
| WIFI_AP_PRE_JOIN
| WIFI_AP_JOINING
| WIFI_AP_CONNECTED
| WIFI_AP_UNCONNECTED
| MODEM_CONNECTED
| MODEM_UNCONNECTED
| ETHERENT_CONNECTED
| ETHERENT_UNCONNECTED.

Definition conn_state_eq_dec (a b : conn_state) : {a = b} + {a <> b}.
Proof. decide equality. Defined.

Definition conn_eqb (a b : conn_state) : bool := if conn_state_eq_dec a b then true else false.

(** [common.h]: results and reasons of a command. *)
Definition COMMAND_OK : Z := 0.
Definition COMMAND_NOK : Z := 1.

Definition eREASON_NONE : Z := 0.
Definition eREASON_WIFI_NOT_CONNECT : Z := 1.
Definition eREASON_WIFI_NOT_FOUND : Z := 2.
Definition eREASON_WIFI_WRONG_KEY : Z := 3.
Definition eREASON_WIFI_TIMEOUT : Z := 4.
Definition eREASON_WIFI_CFGNET_FAIL : Z := 5.
Definition eREASON_OUT_OF_CAPACITY : Z := 6.
Definition eREASON_WPA_SUPLICANT_ENABLE_FAIL : Z := 7.
Definition eREASON_HOSTAPD_ENABLE_FAIL : Z := 8.
Definition eREASON_COMMAND_FORMAT_ERROR : Z := 9.
Definition eREASON_COMMAND_RESPOND_ERROR : Z := 10.
Definition eREASON_WIFI_MONITOR_ENABLE_FAIL : Z := 11.
Definition eREASON_WIFI_SSID_PSK_SET_FAIL : Z := 12.

(** [network_report.h] *)
Definition REPORT_UNCONNECT : Z := 0.
Definition REPORT_CONNECT : Z := 1.

(** [wifi_event.h] *)
Definition WIFI_FAILED_TIMES : Z := 3.
Definition WIFI_ROAM_LIMIT_SIGNAL : Z := -65.
Definition WIFI_SWITCH_LIMIT_SIGNAL : Z := -80.

(** [wpa_command.h]: key management and link states. *)
Definition WIFI_KEY_WPA2PSK : Z := 0.
Definition WIFI_KEY_WPAPSK : Z := 1.
Definition WIFI_KEY_WEP : Z := 2.
Definition WIFI_KEY_NONE : Z := 3.
Definition WIFI_KEY_OTHER : Z := 4.

Definition WIFI_INIVATE : Z := 0.
Definition WIFI_SCANING : Z := 1.
Definition WIFI_CONNECTED : Z := 2.
Definition WIFI_UNCONNECTED : Z := 3.
Definition NETSERVER_CONNECTED : Z := 4.
Definition NETSERVER_UNCONNECTED : Z := 5.

Definition WPA_ALL_NETWORK : Z := -1.

(** ** External calls *)

(** A piece of work of another thread that may run while a command waits. *)
Inductive tstep :=
| StepConnect        (* the eloop thread runs wifi_connecting_network *)
| StepScan           (* the eloop thread runs wifi_trigger_scan *)
| StepModem          (* the eloop thread runs modem_event_monitor *)
| StepMonitorStart   (* the monitor thread starts *)
| StepMonitorRound   (* the monitor thread receives a message *)
| StepRoamStart      (* the roam thread starts *)
| StepSignal         (* the roam thread polls the signal *)
| StepJudge.         (* the link monitor pings *)

Inductive call :=
(* wifi_device_t, modemtty_device_t, eth_device_t *)
| WifiOn | WifiOff | WifiGetStatus | WifiStartStation | WifiStopStation
| WifiStartAp (ssid psk ip : string) | WifiStopAp
| ModemOn | ModemOff | ModemGetStatus | ModemStartDhcpcd | ModemStopDhcpcd
| ModemGetSignalStrength | ModemGetSignalType
| EthOn | EthOff | EthGetStatus | EthStartDhcpcd | EthStopDhcpcd
| HwGetModule (id : string) | HwDeviceOpen (id : string) | HwDeviceClose (id : string)
(* libc and the kernel *)
| System (cmd : string) | PopenFgets (cmd : string)
| Sleep (sec : Z) | Usleep (us : Z) | Access (path : string)
| ReadLines (path : string) | ResInit
| Malloc | PthreadAttrInit | PthreadAttrSetdetach | PthreadAttrDestroy
| PthreadCreate (fn : string) | PthreadCancel (fn : string) | PthreadJoin (fn : string)
| TimerCreate | TimerSettime (id : Z) (val_s val_ns int_s int_ns : Z) | TimerDelete (id : Z)
(* threads interleaved before and inside pthread_cond_timedwait *)
| Interleave | CondTimedwait (ms : Z)
(* wpa_supplicant control interface *)
| WpaCtrlOpen (path : string) | WpaCtrlRequest (cmd : string) | WpaCtrlClose
| WpaCtrlAttach | Socketpair | PollMonitor | WpaCtrlRecv
(* system properties *)
| SysPropGet (key : string) | SysPropSet (key value : string)
(* flora *)
| FloraAgentStart | FloraAgentClose
| FloraPost (msg : json) | FloraReply (msg : json).

(** What a wait ends with when nobody signalled the condition. *)
Inductive wait_end := TimedOut | Spurious.

(** The answer of each call. *)
Definition ans (c : call) : Type :=
  match c with
  | ModemGetSignalStrength | ModemGetSignalType => (Z * Z)%type
  | Sleep _ | Usleep _ | WpaCtrlClose | FloraAgentStart | FloraAgentClose
  | FloraPost _ | FloraReply _
  | PthreadAttrDestroy | TimerDelete _ | HwDeviceClose _ => unit
  | PopenFgets _ | SysPropGet _ => string
  | ReadLines _ => option (list string)
  | Malloc | WpaCtrlOpen _ => bool
  | WpaCtrlRequest _ => option string
  | WpaCtrlRecv => (Z * string)%type
  | PollMonitor => (Z * bool)%type
  | Interleave => list tstep
  | CondTimedwait _ => (list tstep * wait_end)%type
  | _ => Z
  end.

(** An environment: answers a call from its own state. *)
Class Env (X : Type) := ext : forall c : call, X -> ans c * X.

(** ** Records of the sources and their field updates *)

(** [struct wifi_network] of [wpa_command.h]. *)
Record wifi_network := mk_wifi_network {
  nw_id : Z;
  nw_ssid : string;
  nw_psk : string;
  nw_key_mgmt : Z
}.

Definition set_nw_id (v : Z) (r : wifi_network) : wifi_network :=
  mk_wifi_network v (nw_ssid r) (nw_psk r) (nw_key_mgmt r).
Definition set_nw_ssid (v : string) (r : wifi_network) : wifi_network :=
  mk_wifi_network (nw_id r) v (nw_psk r) (nw_key_mgmt r).
Definition set_nw_psk (v : string) (r : wifi_network) : wifi_network :=
  mk_wifi_network (nw_id r) (nw_ssid r) v (nw_key_mgmt r).
Definition set_nw_key_mgmt (v : Z) (r : wifi_network) : wifi_network :=
  mk_wifi_network (nw_id r) (nw_ssid r) (nw_psk r) v.

(** [tNETWORK_MODE_INFO] of [network_switch.h]. *)
Record mode_info := mk_mode_info {
  mi_ssid : string;
  mi_psk : string;
  mi_ip : string;
  mi_timeout : Z;
  mi_reason : Z
}.

Definition set_mi_ssid (v : string) (r : mode_info) : mode_info :=
  mk_mode_info v (mi_psk r) (mi_ip r) (mi_timeout r) (mi_reason r).
Definition set_mi_psk (v : string) (r : mode_info) : mode_info :=
  mk_mode_info (mi_ssid r) v (mi_ip r) (mi_timeout r) (mi_reason r).
Definition set_mi_ip (v : string) (r : mode_info) : mode_info :=
  mk_mode_info (mi_ssid r) (mi_psk r) v (mi_timeout r) (mi_reason r).
Definition set_mi_timeout (v : Z) (r : mode_info) : mode_info :=
  mk_mode_info (mi_ssid r) (mi_psk r) (mi_ip r) v (mi_reason r).
Definition set_mi_reason (v : Z) (r : mode_info) : mode_info :=
  mk_mode_info (mi_ssid r) (mi_psk r) (mi_ip r) (mi_timeout r) v.

(** [tRESULT] of [wifi_event.h]. *)
Record tRESULT := mk_tRESULT {
  r_flag : Z;
  r_result : Z;
  r_reason : Z
}.

Definition set_r_flag (v : Z) (r : tRESULT) : tRESULT :=
  mk_tRESULT v (r_result r) (r_reason r).
Definition set_r_result (v : Z) (r : tRESULT) : tRESULT :=
  mk_tRESULT (r_flag r) v (r_reason r).
Definition set_r_reason (v : Z) (r : tRESULT) : tRESULT :=
  mk_tRESULT (r_flag r) (r_result r) v.

(** [tWIFI_STATUS] of [network_report.h]. *)
Record tWIFI_STATUS := mk_tWIFI_STATUS {
  ws_state : Z;
  ws_signal : Z
}.

Definition set_ws_state (v : Z) (r : tWIFI_STATUS) : tWIFI_STATUS :=
  mk_tWIFI_STATUS v (ws_signal r).
Definition set_ws_signal (v : Z) (r : tWIFI_STATUS) : tWIFI_STATUS :=
  mk_tWIFI_STATUS (ws_state r) v.

(** [tMODEM_STATUS] of [network_report.h]. *)
Record tMODEM_STATUS := mk_tMODEM_STATUS {
  ms_state : Z;
  ms_type : Z;
  ms_signal : Z
}.

Definition set_ms_state (v : Z) (r : tMODEM_STATUS) : tMODEM_STATUS :=
  mk_tMODEM_STATUS v (ms_type r) (ms_signal r).
Definition set_ms_type (v : Z) (r : tMODEM_STATUS) : tMODEM_STATUS :=
  mk_tMODEM_STATUS (ms_state r) v (ms_signal r).
Definition set_ms_signal (v : Z) (r : tMODEM_STATUS) : tMODEM_STATUS :=
  mk_tMODEM_STATUS (ms_state r) (ms_type r) v.

(** [struct schd_timer] of [libeloop/src/scheduler.c], with the state of its system timer. *)
Record schd_timer := mk_schd_timer {
  timeout_ms : Z;
  period_ms : Z;
  st_cb : string;
  st_armed : bool
}.

Definition set_timeout_ms (v : Z) (r : schd_timer) : schd_timer :=
  mk_schd_timer v (period_ms r) (st_cb r) (st_armed r).
Definition set_period_ms (v : Z) (r : schd_timer) : schd_timer :=
  mk_schd_timer (timeout_ms r) v (st_cb r) (st_armed r).
Definition set_st_cb (v : string) (r : schd_timer) : schd_timer :=
  mk_schd_timer (timeout_ms r) (period_ms r) v (st_armed r).
Definition set_st_armed (v : bool) (r : schd_timer) : schd_timer :=
  mk_schd_timer (timeout_ms r) (period_ms r) (st_cb r) v.

(** [struct network_service] of [common.h] ([g_network_service] in [main.c]). *)
Record network_service := mk_network_service {
  wifi_scan : Z;
  wifi_connect : Z;
  modem_monitor : Z;
  wifi_ap_timeout : Z;
  wpa_network_id : Z;
  p_ssid : string;
  wifi_state : conn_state;
  modem_state : conn_state;
  etherent_state : conn_state
}.

Definition set_wifi_scan (v : Z) (r : network_service) : network_service :=
  mk_network_service v (wifi_connect r) (modem_monitor r) (wifi_ap_timeout r) (wpa_network_id r) (p_ssid r) (wifi_state r) (modem_state r) (etherent_state r).
Definition set_wifi_connect (v : Z) (r : network_service) : network_service :=
  mk_network_service (wifi_scan r) v (modem_monitor r) (wifi_ap_timeout r) (wpa_network_id r) (p_ssid r) (wifi_state r) (modem_state r) (etherent_state r).
Definition set_modem_monitor (v : Z) (r : network_service) : network_service :=
  mk_network_service (wifi_scan r) (wifi_connect r) v (wifi_ap_timeout r) (wpa_network_id r) (p_ssid r) (wifi_state r) (modem_state r) (etherent_state r).
Definition set_wifi_ap_timeout (v : Z) (r : network_service) : network_service :=
  mk_network_service (wifi_scan r) (wifi_connect r) (modem_monitor r) v (wpa_network_id r) (p_ssid r) (wifi_state r) (modem_state r) (etherent_state r).
Definition set_wpa_network_id (v : Z) (r : network_service) : network_service :=
  mk_network_service (wifi_scan r) (wifi_connect r) (modem_monitor r) (wifi_ap_timeout r) v (p_ssid r) (wifi_state r) (modem_state r) (etherent_state r).
Definition set_p_ssid (v : string) (r : network_service) : network_service :=
  mk_network_service (wifi_scan r) (wifi_connect r) (modem_monitor r) (wifi_ap_timeout r) (wpa_network_id r) v (wifi_state r) (modem_state r) (etherent_state r).
Definition set_wifi_state (v : conn_state) (r : network_service) : network_service :=
  mk_network_service (wifi_scan r) (wifi_connect r) (modem_monitor r) (wifi_ap_timeout r) (wpa_network_id r) (p_ssid r) v (modem_state r) (etherent_state r).
Definition set_modem_state (v : conn_state) (r : network_service) : network_service :=
  mk_network_service (wifi_scan r) (wifi_connect r) (modem_monitor r) (wifi_ap_timeout r) (wpa_network_id r) (p_ssid r) (wifi_state r) v (etherent_state r).
Definition set_etherent_state (v : conn_state) (r : network_service) : network_service :=
  mk_network_service (wifi_scan r) (wifi_connect r) (modem_monitor r) (wifi_ap_timeout r) (wpa_network_id r) (p_ssid r) (wifi_state r) (modem_state r) v.

(** Flags of [wifi_hal.c], [modem_hal.c] and [etherent_hal.c]. *)
Record hal_state := mk_hal_state {
  g_start_station_flag : Z;
  g_start_ap_flag : Z;
  g_start_modem_flag : Z;
  g_start_etherent_flag : Z
}.

Definition set_g_start_station_flag (v : Z) (r : hal_state) : hal_state :=
  mk_hal_state v (g_start_ap_flag r) (g_start_modem_flag r) (g_start_etherent_flag r).
Definition set_g_start_ap_flag (v : Z) (r : hal_state) : hal_state :=
  mk_hal_state (g_start_station_flag r) v (g_start_modem_flag r) (g_start_etherent_flag r).
Definition set_g_start_modem_flag (v : Z) (r : hal_state) : hal_state :=
  mk_hal_state (g_start_station_flag r) (g_start_ap_flag r) v (g_start_etherent_flag r).
Definition set_g_start_etherent_flag (v : Z) (r : hal_state) : hal_state :=
  mk_hal_state (g_start_station_flag r) (g_start_ap_flag r) (g_start_modem_flag r) v.

(** Globals of [wifi_event.c], with [w_signalled] for a signal of [wifi_cond] and
    [roam_signal] for the local of the roam thread, and [monitor_conn] of
    [wpa_command.c]. *)
Record wifi_ev := mk_wifi_ev {
  g_wifi_status : tWIFI_STATUS;
  g_result : tRESULT;
  g_wifi_monitor_flag : Z;
  g_wifi_monitor_open : Z;
  g_wifi_thread_start : Z;
  wifi_faild_time : Z;
  w_signalled : bool;
  roam_signal : Z;
  monitor_conn : bool
}.

Definition set_g_wifi_status (v : tWIFI_STATUS) (r : wifi_ev) : wifi_ev :=
  mk_wifi_ev v (g_result r) (g_wifi_monitor_flag r) (g_wifi_monitor_open r) (g_wifi_thread_start r) (wifi_faild_time r) (w_signalled r) (roam_signal r) (monitor_conn r).
Definition set_g_result (v : tRESULT) (r : wifi_ev) : wifi_ev :=
  mk_wifi_ev (g_wifi_status r) v (g_wifi_monitor_flag r) (g_wifi_monitor_open r) (g_wifi_thread_start r) (wifi_faild_time r) (w_signalled r) (roam_signal r) (monitor_conn r).
Definition set_g_wifi_monitor_flag (v : Z) (r : wifi_ev) : wifi_ev :=
  mk_wifi_ev (g_wifi_status r) (g_result r) v (g_wifi_monitor_open r) (g_wifi_thread_start r) (wifi_faild_time r) (w_signalled r) (roam_signal r) (monitor_conn r).
Definition set_g_wifi_monitor_open (v : Z) (r : wifi_ev) : wifi_ev :=
  mk_wifi_ev (g_wifi_status r) (g_result r) (g_wifi_monitor_flag r) v (g_wifi_thread_start r) (wifi_faild_time r) (w_signalled r) (roam_signal r) (monitor_conn r).
Definition set_g_wifi_thread_start (v : Z) (r : wifi_ev) : wifi_ev :=
  mk_wifi_ev (g_wifi_status r) (g_result r) (g_wifi_monitor_flag r) (g_wifi_monitor_open r) v (wifi_faild_time r) (w_signalled r) (roam_signal r) (monitor_conn r).
Definition set_wifi_faild_time (v : Z) (r : wifi_ev) : wifi_ev :=
  mk_wifi_ev (g_wifi_status r) (g_result r) (g_wifi_monitor_flag r) (g_wifi_monitor_open r) (g_wifi_thread_start r) v (w_signalled r) (roam_signal r) (monitor_conn r).
Definition set_w_signalled (v : bool) (r : wifi_ev) : wifi_ev :=
  mk_wifi_ev (g_wifi_status r) (g_result r) (g_wifi_monitor_flag r) (g_wifi_monitor_open r) (g_wifi_thread_start r) (wifi_faild_time r) v (roam_signal r) (monitor_conn r).
Definition set_roam_signal (v : Z) (r : wifi_ev) : wifi_ev :=
  mk_wifi_ev (g_wifi_status r) (g_result r) (g_wifi_monitor_flag r) (g_wifi_monitor_open r) (g_wifi_thread_start r) (wifi_faild_time r) (w_signalled r) v (monitor_conn r).
Definition set_monitor_conn (v : bool) (r : wifi_ev) : wifi_ev :=
  mk_wifi_ev (g_wifi_status r) (g_result r) (g_wifi_monitor_flag r) (g_wifi_monitor_open r) (g_wifi_thread_start r) (wifi_faild_time r) (w_signalled r) (roam_signal r) v.

(** Globals of [modem_event.c]. *)
Record modem_ev := mk_modem_ev {
  g_modem_status : tMODEM_STATUS;
  g_modem_start_monitor : Z;
  unconnect_cnts : Z
}.

Definition set_g_modem_status (v : tMODEM_STATUS) (r : modem_ev) : modem_ev :=
  mk_modem_ev v (g_modem_start_monitor r) (unconnect_cnts r).
Definition set_g_modem_start_monitor (v : Z) (r : modem_ev) : modem_ev :=
  mk_modem_ev (g_modem_status r) v (unconnect_cnts r).
Definition set_unconnect_cnts (v : Z) (r : modem_ev) : modem_ev :=
  mk_modem_ev (g_modem_status r) (g_modem_start_monitor r) v.

(** Globals of [etherent_event.c]. *)
Record eth_ev := mk_eth_ev {
  g_etherent_status : Z;
  g_etherent_start_monitor : Z
}.

Definition set_g_etherent_status (v : Z) (r : eth_ev) : eth_ev :=
  mk_eth_ev v (g_etherent_start_monitor r).
Definition set_g_etherent_start_monitor (v : Z) (r : eth_ev) : eth_ev :=
  mk_eth_ev (g_etherent_status r) v.

(** Globals of [network_monitor.c]. *)
Record net_mon := mk_net_mon {
  g_network_status : Z;
  unconnect_times : Z
}.

Definition set_g_network_status (v : Z) (r : net_mon) : net_mon :=
  mk_net_mon v (unconnect_times r).
Definition set_unconnect_times (v : Z) (r : net_mon) : net_mon :=
  mk_net_mon (g_network_status r) v.

(** Globals of [network_mode.c]. *)
Record net_mode := mk_net_mode {
  g_network_mode : Z;
  wifi_init_mode_flag : Z
}.

Definition set_g_network_mode (v : Z) (r : net_mode) : net_mode :=
  mk_net_mode v (wifi_init_mode_flag r).
Definition set_wifi_init_mode_flag (v : Z) (r : net_mode) : net_mode :=
  mk_net_mode (g_network_mode r) v.

(** Globals of [network_ctrl.c]. *)
Record net_ctrl := mk_net_ctrl {
  g_ap_info : mode_info;
  g_ap_timeout_flag : Z
}.

Definition set_g_ap_info (v : mode_info) (r : net_ctrl) : net_ctrl :=
  mk_net_ctrl v (g_ap_timeout_flag r).
Definition set_g_ap_timeout_flag (v : Z) (r : net_ctrl) : net_ctrl :=
  mk_net_ctrl (g_ap_info r) v.

(** Globals and static locals of [network_sched.c]. *)
Record net_sched := mk_net_sched {
  network_sched_enable : Z;
  network_wifi2modem_threshold : Z;
  network_modem2wifi_threshold : Z;
  g_wifi_enable_flag : Z;
  wait_wifi_init_cnt : Z;
  sched_state : Z
}.

Definition set_network_sched_enable (v : Z) (r : net_sched) : net_sched :=
  mk_net_sched v (network_wifi2modem_threshold r) (network_modem2wifi_threshold r) (g_wifi_enable_flag r) (wait_wifi_init_cnt r) (sched_state r).
Definition set_network_wifi2modem_threshold (v : Z) (r : net_sched) : net_sched :=
  mk_net_sched (network_sched_enable r) v (network_modem2wifi_threshold r) (g_wifi_enable_flag r) (wait_wifi_init_cnt r) (sched_state r).
Definition set_network_modem2wifi_threshold (v : Z) (r : net_sched) : net_sched :=
  mk_net_sched (network_sched_enable r) (network_wifi2modem_threshold r) v (g_wifi_enable_flag r) (wait_wifi_init_cnt r) (sched_state r).
Definition set_g_wifi_enable_flag (v : Z) (r : net_sched) : net_sched :=
  mk_net_sched (network_sched_enable r) (network_wifi2modem_threshold r) (network_modem2wifi_threshold r) v (wait_wifi_init_cnt r) (sched_state r).
Definition set_wait_wifi_init_cnt (v : Z) (r : net_sched) : net_sched :=
  mk_net_sched (network_sched_enable r) (network_wifi2modem_threshold r) (network_modem2wifi_threshold r) (g_wifi_enable_flag r) v (sched_state r).
Definition set_sched_state (v : Z) (r : net_sched) : net_sched :=
  mk_net_sched (network_sched_enable r) (network_wifi2modem_threshold r) (network_modem2wifi_threshold r) (g_wifi_enable_flag r) (wait_wifi_init_cnt r) v.

(** All of them, with [g_capacity] and [g_wifi_network] of [main.c] and the timers the
    scheduler of libeloop holds, by id. *)
Record globals := mk_globals {
  net : network_service;
  hal : hal_state;
  wev : wifi_ev;
  mev : modem_ev;
  eev : eth_ev;
  mon : net_mon;
  nmode : net_mode;
  ctrl : net_ctrl;
  sched : net_sched;
  timers : list (Z * schd_timer);
  next_timer : Z;
  g_capacity : Z;
  g_wifi_network : wifi_network
}.

Definition set_net (v : network_service) (r : globals) : globals :=
  mk_globals v (hal r) (wev r) (mev r) (eev r) (mon r) (nmode r) (ctrl r) (sched r) (timers r) (next_timer r) (g_capacity r) (g_wifi_network r).
Definition set_hal (v : hal_state) (r : globals) : globals :=
  mk_globals (net r) v (wev r) (mev r) (eev r) (mon r) (nmode r) (ctrl r) (sched r) (timers r) (next_timer r) (g_capacity r) (g_wifi_network r).
Definition set_wev (v : wifi_ev) (r : globals) : globals :=
  mk_globals (net r) (hal r) v (mev r) (eev r) (mon r) (nmode r) (ctrl r) (sched r) (timers r) (next_timer r) (g_capacity r) (g_wifi_network r).
Definition set_mev (v : modem_ev) (r : globals) : globals :=
  mk_globals (net r) (hal r) (wev r) v (eev r) (mon r) (nmode r) (ctrl r) (sched r) (timers r) (next_timer r) (g_capacity r) (g_wifi_network r).
Definition set_eev (v : eth_ev) (r : globals) : globals :=
  mk_globals (net r) (hal r) (wev r) (mev r) v (mon r) (nmode r) (ctrl r) (sched r) (timers r) (next_timer r) (g_capacity r) (g_wifi_network r).
Definition set_mon (v : net_mon) (r : globals) : globals :=
  mk_globals (net r) (hal r) (wev r) (mev r) (eev r) v (nmode r) (ctrl r) (sched r) (timers r) (next_timer r) (g_capacity r) (g_wifi_network r).
Definition set_nmode (v : net_mode) (r : globals) : globals :=
  mk_globals (net r) (hal r) (wev r) (mev r) (eev r) (mon r) v (ctrl r) (sched r) (timers r) (next_timer r) (g_capacity r) (g_wifi_network r).
Definition set_ctrl (v : net_ctrl) (r : globals) : globals :=
  mk_globals (net r) (hal r) (wev r) (mev r) (eev r) (mon r) (nmode r) v (sched r) (timers r) (next_timer r) (g_capacity r) (g_wifi_network r).
Definition set_sched (v : net_sched) (r : globals) : globals :=
  mk_globals (net r) (hal r) (wev r) (mev r) (eev r) (mon r) (nmode r) (ctrl r) v (timers r) (next_timer r) (g_capacity r) (g_wifi_network r).
Definition set_timers (v : list (Z * schd_timer)) (r : globals) : globals :=
  mk_globals (net r) (hal r) (wev r) (mev r) (eev r) (mon r) (nmode r) (ctrl r) (sched r) v (next_timer r) (g_capacity r) (g_wifi_network r).
Definition set_next_timer (v : Z) (r : globals) : globals :=
  mk_globals (net r) (hal r) (wev r) (mev r) (eev r) (mon r) (nmode r) (ctrl r) (sched r) (timers r) v (g_capacity r) (g_wifi_network r).
Definition set_g_capacity (v : Z) (r : globals) : globals :=
  mk_globals (net r) (hal r) (wev r) (mev r) (eev r) (mon r) (nmode r) (ctrl r) (sched r) (timers r) (next_timer r) v (g_wifi_network r).
Definition set_g_wifi_network (v : wifi_network) (r : globals) : globals :=
  mk_globals (net r) (hal r) (wev r) (mev r) (eev r) (mon r) (nmode r) (ctrl r) (sched r) (timers r) (next_timer r) (g_capacity r) v.

(** Updates of one field of [g_network_service]. *)
Definition put_wifi_state (v : conn_state) (g : globals) := set_net (set_wifi_state v (net g)) g.
Definition put_modem_state (v : conn_state) (g : globals) := set_net (set_modem_state v (net g)) g.
Definition put_etherent_state (v : conn_state) (g : globals) := set_net (set_etherent_state v (net g)) g.
Definition put_wpa_network_id (v : Z) (g : globals) := set_net (set_wpa_network_id v (net g)) g.
Definition put_p_ssid (v : string) (g : globals) := set_net (set_p_ssid v (net g)) g.
Definition put_wifi_ap_timeout (v : Z) (g : globals) := set_net (set_wifi_ap_timeout v (net g)) g.

(** The zero-initialised [tNETWORK_MODE_INFO] and [tRESULT]. *)
Definition zero_info : mode_info := mk_mode_info "" "" "" 0 0.
Definition zero_result : tRESULT := mk_tRESULT 0 0 0.

(** ** The state of a run *)

(** The globals, the state of the environment and the calls made so far,
    the latest first. *)
Record world (X : Type) := mk_world { wg : globals; wx : X; wlog : list call }.
Arguments mk_world {X}. Arguments wg {X}. Arguments wx {X}. Arguments wlog {X}.

Section World.
Context {X : Type} {E : Env X}.

(** Reads a global. *)
Definition get {A} (f : globals -> A) : M (world X) A := gets (fun w => f (wg w)).

(** Updates the globals. *)
Definition upd (f : globals -> globals) : M (world X) unit :=
  modify (fun w => mk_world (f (wg w)) (wx w) (wlog w)).

(** Makes an external call. *)
Definition exec (c : call) : M (world X) (ans c) :=
  fun w => let '(r, x) := ext c (wx w) in Ret r (mk_world (wg w) x (c :: wlog w)).

(** Makes an external call whose answer is ignored. *)
Definition exec_ (c : call) : M (world X) unit := bind (exec c) (fun _ => ret tt).

Definition PROPERTY_VALUE_MAX : nat := 92.

(** [property_get] of libcutils ([properties.c]) into an array of [cap]
    bytes: the stored value, or the default when it is empty. *)
Definition property_get (cap : Z) (key : string) (default : option string)
  : M (world X) (Z * string) :=
  value <- exec (SysPropGet key) ;;
  let len := strlen value in
  if 0 <? len then
    if cap <=? len then stop BufferOverflow else ret (len, value)
  else match default with
       | Some d => let d := strncpy (PROPERTY_VALUE_MAX - 1) d in ret (strlen d, d)
       | None => ret (len, value)
       end.
End World.

(** ** Footprints

    A preservation lemma of an operation speaks of any predicate [I] on the
    globals and the log that does not depend on what the operation does:
    [Ignores set I] when [I] does not read what [set] writes, [Quiet I] when
    only a reply to a command can change it in the log.  One lemma per
    operation then gives every frame condition. *)

(** The calls that answer a command. *)
Definition is_reply (c : call) : bool :=
  match c with FloraReply _ => true | _ => false end.

Definition view := globals -> list call -> Prop.

Class Ignores {T} (set : T -> globals -> globals) (I : view) : Prop :=
  ignores : forall v g l, I g l -> I (set v g) l.

Class Quiet (I : view) : Prop :=
  quiet : forall c g l, is_reply c = false -> I g l -> I g (c :: l).

(** The components that report a connection state: [I] may depend on it, as
    long as it tolerates any new state that is 0 or 1. *)
Definition state_or (new old : Z) : Prop := new = old \/ new = 0 \/ new = 1.

Class KeepsWev (I : view) : Prop := keeps_wev : forall v g l,
  state_or (ws_state (g_wifi_status v)) (ws_state (g_wifi_status (wev g))) ->
  I g l -> I (set_wev v g) l.
Class KeepsMev (I : view) : Prop := keeps_mev : forall v g l,
  state_or (ms_state (g_modem_status v)) (ms_state (g_modem_status (mev g))) ->
  I g l -> I (set_mev v g) l.
Class KeepsEev (I : view) : Prop := keeps_eev : forall v g l,
  state_or (g_etherent_status v) (g_etherent_status (eev g)) -> I g l -> I (set_eev v g) l.
Class KeepsMon (I : view) : Prop := keeps_mon : forall v g l,
  state_or (g_network_status v) (g_network_status (mon g)) -> I g l -> I (set_mon v g) l.

#[export] Hint Extern 5 (Ignores _ _) =>
  (let H := fresh in intros ? ? ? H; exact H) : typeclass_instances.

Section KeepsG.
Context {X : Type} {E : Env X}.

Definition keepsg (I : view) {A} (m : M (world X) A) : Prop :=
  keeps (fun w => I (wg w) (wlog w)) m.

Context (I : view).

Lemma keepsg_ret {A} (a : A) : keepsg I (ret a).
Proof. apply keeps_ret. Qed.

Lemma keepsg_stop {A} (f : fault) : keepsg I (stop (A := A) f).
Proof. apply keeps_stop. Qed.

Lemma keepsg_get {A} (f : globals -> A) : keepsg I (get f).
Proof. apply keeps_gets. Qed.

Lemma keepsg_bind {A B} (m : M (world X) A) (k : A -> M (world X) B) :
  keepsg I m -> (forall a, keepsg I (k a)) -> keepsg I (bind m k).
Proof. apply keeps_bind. Qed.

Lemma keepsg_assoc {A B C} (m : M (world X) A) (f : A -> M (world X) B) (k : B -> M (world X) C) :
  keepsg I (a <- m ;; b <- f a ;; k b) -> keepsg I (b <- (a <- m ;; f a) ;; k b).
Proof. intros H w Hw. specialize (H w Hw). unfold bind in *. destruct (m w); exact H. Qed.

Lemma keepsg_bind_ret {A B} (a : A) (k : A -> M (world X) B) :
  keepsg I (k a) -> keepsg I (b <- ret a ;; k b).
Proof. exact (fun H => H). Qed.

Lemma keepsg_when (b : bool) (m : M (world X) unit) : keepsg I m -> keepsg I (when b m).
Proof. apply keeps_when. Qed.

Lemma keepsg_for_each {A} (l : list A) (body : A -> M (world X) unit) :
  (forall a, keepsg I (body a)) -> keepsg I (for_each l body).
Proof. apply keeps_for_each. Qed.

Lemma keepsg_retry {A} n (body : M (world X) A) again last :
  keepsg I body -> keepsg I (retry n body again last).
Proof. apply keeps_retry. Qed.

Lemma keepsg_upd (f : globals -> globals) :
  (forall g l, I g l -> I (f g) l) -> keepsg I (upd f).
Proof. intros H. apply keeps_modify. intros w. apply H. Qed.

Lemma keepsg_upd_set {T} (set : T -> globals -> globals) `{!Ignores set I} (v : globals -> T) :
  keepsg I (upd (fun g => set (v g) g)).
Proof. apply keepsg_upd. intros g l. apply ignores. Qed.

Lemma keepsg_upd_put {T} (set : T -> globals -> globals) `{!Ignores set I} (v : T) :
  keepsg I (upd (set v)).
Proof. apply keepsg_upd. intros g l. apply ignores. Qed.

Lemma keepsg_wev `{!KeepsWev I} (v : globals -> wifi_ev) :
  (forall g, state_or (ws_state (g_wifi_status (v g))) (ws_state (g_wifi_status (wev g)))) ->
  keepsg I (upd (fun g => set_wev (v g) g)).
Proof. intros H. apply keepsg_upd. intros g l. apply keeps_wev, H. Qed.

Lemma keepsg_mev `{!KeepsMev I} (v : globals -> modem_ev) :
  (forall g, state_or (ms_state (g_modem_status (v g))) (ms_state (g_modem_status (mev g)))) ->
  keepsg I (upd (fun g => set_mev (v g) g)).
Proof. intros H. apply keepsg_upd. intros g l. apply keeps_mev, H. Qed.

Lemma keepsg_eev `{!KeepsEev I} (v : globals -> eth_ev) :
  (forall g, state_or (g_etherent_status (v g)) (g_etherent_status (eev g))) ->
  keepsg I (upd (fun g => set_eev (v g) g)).
Proof. intros H. apply keepsg_upd. intros g l. apply keeps_eev, H. Qed.

Lemma keepsg_mon `{!KeepsMon I} (v : globals -> net_mon) :
  (forall g, state_or (g_network_status (v g)) (g_network_status (mon g))) ->
  keepsg I (upd (fun g => set_mon (v g) g)).
Proof. intros H. apply keepsg_upd. intros g l. apply keeps_mon, H. Qed.

(** A field is read and written back through a function. *)
Lemma keepsg_get_upd {A B} (f : globals -> A) (u : A -> globals -> globals) (k : A -> M (world X) B) :
  (forall g l, I g l -> I (u (f g) g) l) -> (forall a, keepsg I (k a)) ->
  keepsg I (a <- get f ;; upd (u a) ;; k a).
Proof.
  intros Hu Hk w Hw. cbn. apply (Hk (f (wg w)) (mk_world _ _ _)), Hu, Hw.
Qed.

Context `{!Quiet I}.

Lemma keepsg_exec (c : call) : is_reply c = false -> keepsg I (exec c).
Proof. intros Hc w H. unfold exec. destruct (ext c (wx w)). apply quiet; assumption. Qed.

Lemma keepsg_exec_ (c : call) : is_reply c = false -> keepsg I (exec_ c).
Proof. intros Hc. apply keepsg_bind; [apply keepsg_exec, Hc|intros; apply keepsg_ret]. Qed.

Lemma keepsg_property_get cap key default : keepsg I (property_get cap key default).
Proof.
  apply keepsg_bind; [now apply keepsg_exec|]. intros v. cbv zeta.
  repeat break_match; first [apply keepsg_ret|apply keepsg_stop].
Qed.
End KeepsG.

#[export] Hint Resolve keepsg_get keepsg_exec keepsg_exec_ keepsg_property_get : keeps.
#[export] Hint Extern 0 (is_reply _ = false) => reflexivity : keeps.
#[export] Hint Extern 0 (_ = 0 \/ _ = 1) => (left; reflexivity) || (right; reflexivity) : keeps.
#[export] Hint Extern 0 (Quiet _) => solve [typeclasses eauto] : keeps.
#[export] Hint Extern 0 (Ignores _ _) => solve [typeclasses eauto] : keeps.
#[export] Hint Extern 0 (KeepsWev _) => solve [typeclasses eauto] : keeps.
#[export] Hint Extern 0 (KeepsMev _) => solve [typeclasses eauto] : keeps.
#[export] Hint Extern 0 (KeepsEev _) => solve [typeclasses eauto] : keeps.
#[export] Hint Extern 0 (KeepsMon _) => solve [typeclasses eauto] : keeps.

(** Structural steps of a preservation proof; leaves are closed by the
    component lemmas registered in [keeps], updates by the footprint. *)
Ltac keep_state :=
  first [left; reflexivity | right; left; reflexivity | right; right; reflexivity | right; assumption].

Ltac keepsg_step :=
  lazymatch goal with
  | |- keepsg _ (ret _) => apply keepsg_ret
  | |- keepsg _ (stop _) => apply keepsg_stop
  | |- keepsg _ (bind _ _) => apply keepsg_bind; [|intros ?]
  | |- keepsg _ (when _ _) => apply keepsg_when
  | |- keepsg _ (for_each _ _) => apply keepsg_for_each; intros ?
  | |- keepsg _ (retry _ _ _ _) => apply keepsg_retry
  | |- keepsg _ (if ?b then _ else _) => destruct b
  | |- keepsg _ (match ?x with _ => _ end) => destruct x
  | |- keepsg _ (upd (fun g => set_wev _ g)) => apply keepsg_wev; [typeclasses eauto|intros ?; keep_state]
  | |- keepsg _ (upd (fun g => set_mev _ g)) => apply keepsg_mev; [typeclasses eauto|intros ?; keep_state]
  | |- keepsg _ (upd (fun g => set_eev _ g)) => apply keepsg_eev; [typeclasses eauto|intros ?; keep_state]
  | |- keepsg _ (upd (fun g => set_mon _ g)) => apply keepsg_mon; [typeclasses eauto|intros ?; keep_state]
  | |- keepsg _ (upd (fun g => _)) => apply keepsg_upd_set
  | |- keepsg _ (upd _) => apply keepsg_upd_put
  | |- keepsg _ (exec ?c) => exact (keepsg_exec _ c eq_refl)
  | |- Ignores _ _ => typeclasses eauto
  end.

(** Unfolds the operation a goal is about. *)
Ltac unfold_op m :=
  lazymatch m with
  | ?f _ => unfold_op f
  | _ => unfold m
  end.

Ltac keepsg_open := lazymatch goal with |- keepsg _ ?m => unfold_op m end.

Ltac keepsg := cbv zeta; repeat first [solve [auto with keeps nocore] | keepsg_step].

(** The same, unfolding the operations that have no lemma. *)
Ltac keepsg_deep :=
  cbv zeta; repeat first [solve [auto with keeps nocore] | keepsg_step | progress keepsg_open; cbv zeta].
