(* ===== verification/Demo.v ===== *)
(** * Concrete environments

    A stateless environment described by a script, and a small JSON reader,
    on which the definitions of the development can be run. *)

From Stdlib Require Import ZArith List Bool Ascii String.
From S2P Require Import Prelude CString CMonad Json NetEnv.
Import ListNotations.
Open Scope string_scope.
Open Scope Z_scope.

Record script := mk_script {
  sc_int : call -> Z;                       (* calls that answer a number *)
  sc_wpa : string -> option string;         (* replies of wpa_supplicant *)
  sc_event : Z * string;                    (* what the event socket delivers *)
  sc_steps : list tstep;                    (* other threads, when interleaved *)
  sc_wait : list tstep * wait_end;          (* and while a connect waits *)
  sc_read : string -> option (list string)  (* files *)
}.

(** The call of an index, as a function of the script. *)
Definition scripted_ans (sc : script) (c : call) : ans c :=
  match c as c0 return ans c0 with
  | ModemGetSignalStrength => (0, 20)
  | ModemGetSignalType => (0, 4)
  | Sleep _ | Usleep _ | WpaCtrlClose | FloraAgentStart | FloraAgentClose
  | FloraPost _ | FloraReply _ | PthreadAttrDestroy | TimerDelete _ | HwDeviceClose _ => tt
  | PopenFgets _ => ""
  | SysPropGet _ => ""
  | ReadLines p => sc_read sc p
  | Malloc => true
  | WpaCtrlOpen _ => true
  | WpaCtrlRequest r => sc_wpa sc r
  | WpaCtrlRecv => sc_event sc
  | PollMonitor => (1, true)
  | Interleave => sc_steps sc
  | CondTimedwait _ => sc_wait sc
  | WifiOn => sc_int sc WifiOn | WifiOff => sc_int sc WifiOff
  | WifiGetStatus => sc_int sc WifiGetStatus | WifiStartStation => sc_int sc WifiStartStation
  | WifiStopStation => sc_int sc WifiStopStation
  | WifiStartAp a b d => sc_int sc (WifiStartAp a b d) | WifiStopAp => sc_int sc WifiStopAp
  | ModemOn => sc_int sc ModemOn | ModemOff => sc_int sc ModemOff
  | ModemGetStatus => sc_int sc ModemGetStatus | ModemStartDhcpcd => sc_int sc ModemStartDhcpcd
  | ModemStopDhcpcd => sc_int sc ModemStopDhcpcd
  | EthOn => sc_int sc EthOn | EthOff => sc_int sc EthOff | EthGetStatus => sc_int sc EthGetStatus
  | EthStartDhcpcd => sc_int sc EthStartDhcpcd | EthStopDhcpcd => sc_int sc EthStopDhcpcd
  | HwGetModule i => sc_int sc (HwGetModule i) | HwDeviceOpen i => sc_int sc (HwDeviceOpen i)
  | System s => sc_int sc (System s) | Access p => sc_int sc (Access p) | ResInit => sc_int sc ResInit
  | PthreadAttrInit => sc_int sc PthreadAttrInit | PthreadAttrSetdetach => sc_int sc PthreadAttrSetdetach
  | PthreadCreate f => sc_int sc (PthreadCreate f) | PthreadCancel f => sc_int sc (PthreadCancel f)
  | PthreadJoin f => sc_int sc (PthreadJoin f)
  | TimerCreate => sc_int sc TimerCreate
  | TimerSettime i a b d e => sc_int sc (TimerSettime i a b d e)
  | WpaCtrlAttach => sc_int sc WpaCtrlAttach | Socketpair => sc_int sc Socketpair
  | SysPropSet k v => sc_int sc (SysPropSet k v)
  end.

Definition scripted (sc : script) : Env unit := fun c _ => (scripted_ans sc c, tt).

(** Every device works and wpa_supplicant joins at once. *)
Definition wpa_works (r : string) : option string :=
  if String.eqb r "STATUS" then Some ("wpa_state=COMPLETED" ++ String LF ("id=0" ++ String LF "ssid=home"))
  else if String.eqb r "ADD_NETWORK" then Some ("0" ++ String LF "")
  else if String.eqb r "SIGNAL_POLL" then Some ("RSSI=-50" ++ String LF "FREQUENCY=2412")
  else Some "OK".

Definition all_works : script :=
  mk_script (fun _ => 0) wpa_works (0, "<3>CTRL-EVENT-CONNECTED - Connection completed")
    [StepMonitorStart; StepMonitorRound] ([StepConnect; StepMonitorRound], TimedOut) (fun _ => None).

(** A device that cannot start the access point. *)
Definition no_ap : script :=
  mk_script (fun c => match c with WifiStartAp _ _ _ => -1 | _ => 0 end) wpa_works (1, "") []
    ([], TimedOut) (fun _ => None).

(** No modem, nor Ethernet. *)
Definition wifi_only : script :=
  mk_script (fun c => match c with ModemGetStatus | HwGetModule _ => -1 | _ => 0 end) wpa_works (1, "") []
    ([], TimedOut) (fun _ => None).

(** ** JSON values as parsed documents

    [json_tokener_parse] reads ["DEVICE/COMMAND/SSID/PASSWD/IP/TIMEOUT"]. *)

Fixpoint split_slash (s : string) : list string :=
  match s with
  | EmptyString => [""]
  | String c s' =>
      if Ascii.eqb c "/"%char then "" :: split_slash s'
      else match split_slash s' with
           | h :: t => String c h :: t
           | [] => [String c ""]
           end
  end.

Fixpoint zip_fields (ks vs : list string) : list (string * json) :=
  match ks, vs with
  | k :: ks', v :: vs' => (k, JStr v) :: zip_fields ks' vs'
  | _, _ => []
  end.

Fixpoint assoc_json (k : string) (l : list (string * json)) : option json :=
  match l with
  | [] => None
  | (k', v) :: l' => if String.eqb k k' then Some v else assoc_json k l'
  end.

#[export] Instance slash_json : JsonC := {
  jobj := json;
  json_tokener_parse := fun s =>
    match split_slash s with
    | d :: c :: ps =>
        Some (JObj [("device", JStr d); ("command", JStr c);
                    ("params", JObj (zip_fields ["SSID"; "PASSWD"; "IP"; "TIMEOUT"] ps))])
    | _ => None
    end;
  json_object_object_get_ex := fun o k =>
    match o with
    | Some (JObj l) => match assoc_json k l with Some v => Some (Some v) | None => None end
    | _ => None
    end;
  json_object_get_string := fun o => match o with Some (JStr s) => Some s | _ => None end
}.
