(* ===== verification/ScanList.v ===== *)
(** * Lines of a reply and the scan list

    [get_line_from_buf], which [libs/wifi/wpa_command.c] and
    [net/network_ctrl.c] both define with the same body, and the
    [for (i = k; !get_line_from_buf(i, line, reply); i++)] loops around it.
    The byte loop is proved equal to picking an element of [lines], the list
    of lines of the buffer.

    Parsing of the [SCAN_RESULTS] reply ([wpa_get_scan_r]) and merging of the
    access points of one network ([wpa_reduce_repeat_ssid]): the list holds one
    entry per (ssid, key management) pair, the strongest one seen, and never
    outgrows the [ssid_list] buffer. *)

From Stdlib Require Import ZArith List Bool Lia Ascii String.
From S2P Require Import Prelude CString Json NetEnv.
Import ListNotations.
Open Scope string_scope.
Open Scope Z_scope.

(** ** The C code *)

Definition is_eol (c : ascii) : bool := Ascii.eqb c LF || Ascii.eqb c CR.

(** [buf[i] == '\n' || buf[i] == '\r' || buf[i] == '\0'] *)
Definition at_eol (p : string) : bool :=
  match p with EmptyString => true | String c _ => is_eol c end.

(** The inner [for (j = i + 1; buf[j]; )] loop, from the pointer it starts at. *)
Fixpoint skip_eol (p : string) : string :=
  match p with
  | String c p' => if is_eol c then skip_eol p' else p
  | EmptyString => EmptyString
  end.

(** What a call leaves: the line, [return -1], or a write past [line]. *)
Inductive line_result :=
| Line (s : string)
| NoLine
| LineOverflow.

(** The [while (1)] loop: [linestart] and [p] point into a zero-filled
    buffer, [cap] is the size of the caller's [line] array. *)
Fixpoint get_line_loop (fuel : nat) (cap index endcnt : Z) (linestart p : string)
  : option line_result :=
  match fuel with
  | O => None
  | S f =>
      if at_eol p then
        let endcnt := endcnt + 1 in
        if index =? endcnt then
          let len := strlen linestart - strlen p in
          if len <? cap then Some (Line (substring 0 (Z.to_nat len) linestart))
          else Some LineOverflow
        else
          let j := skip_eol (advance 1 p) in
          match j with
          | EmptyString => Some NoLine
          | String _ rest => get_line_loop f cap index endcnt j rest
          end
      else
        match p with
        | EmptyString => Some NoLine
        | String _ rest => get_line_loop f cap index endcnt linestart rest
        end
  end.

Definition get_line_from_buf (cap index : Z) (buf : string) : option line_result :=
  get_line_loop (S (String.length buf)) cap index (-1) buf buf.

(** ** Loops over the lines *)

(** What the body of a loop does with a line. *)
Inductive line_step (S R : Type) :=
| Next (s : S)
| Break (r : R).
Arguments Next {S R} s. Arguments Break {S R} r.

Inductive loop_end (S R : Type) :=
| Done (s : S)          (* no more lines *)
| Broke (r : R)         (* the body left the loop *)
| Overflowed.           (* a line did not fit the array *)
Arguments Done {S R} s. Arguments Broke {S R} r. Arguments Overflowed {S R}.

Fixpoint line_loop {S R} (fuel : nat) (cap i : Z) (buf : string)
    (body : string -> S -> line_step S R) (s : S) : option (loop_end S R) :=
  match fuel with
  | O => None
  | Datatypes.S f =>
      match get_line_from_buf cap i buf with
      | None => None
      | Some NoLine => Some (Done s)
      | Some LineOverflow => Some Overflowed
      | Some (Line l) =>
          match body l s with
          | Next s' => line_loop f cap (i + 1) buf body s'
          | Break r => Some (Broke r)
          end
      end
  end.

(** [for (i = start; !get_line_from_buf(i, line, buf); i++) body] *)
Definition for_lines {S R} (cap start : Z) (buf : string)
    (body : string -> S -> line_step S R) (s : S) : option (loop_end S R) :=
  line_loop (Datatypes.S (Datatypes.S (String.length buf))) cap start buf body s.

(** ** Reference: the lines of a buffer *)

Fixpoint split_eol (s : string) : list string :=
  match s with
  | EmptyString => [""]
  | String c s' =>
      if is_eol c then "" :: split_eol s'
      else match split_eol s' with
           | h :: t => String c h :: t
           | [] => [String c ""]
           end
  end.

Definition nonempty (s : string) : bool :=
  match s with EmptyString => false | _ => true end.

(** The first line, possibly empty, then the non-empty ones. *)
Definition lines (s : string) : list string :=
  match split_eol s with
  | h :: t => h :: filter nonempty t
  | [] => []
  end.

(** A loop over a list of lines. *)
Fixpoint fold_lines {S R} (cap : Z) (ls : list string)
    (body : string -> S -> line_step S R) (s : S) : loop_end S R :=
  match ls with
  | [] => Done s
  | l :: ls' =>
      if strlen l <? cap then
        match body l s with
        | Next s' => fold_lines cap ls' body s'
        | Break r => Broke r
        end
      else Overflowed
  end.

Definition line_at (cap index : Z) (ls : list string) : line_result :=
  match nth_error ls (Z.to_nat index) with
  | Some l => if strlen l <? cap then Line l else LineOverflow
  | None => NoLine
  end.

(** ** Proofs *)

Lemma split_eol_cons (s : string) : exists h t, split_eol s = h :: t.
Proof.
  induction s as [|c s (h & t & E)]; cbn; [eauto|].
  destruct (is_eol c); [eauto|]. rewrite E. eauto.
Qed.

Lemma split_eol_app (cur p : string) :
  (forall a b c, cur = a ++ String c b -> is_eol c = false) ->
  split_eol (cur ++ p) =
  match split_eol p with h :: t => (cur ++ h) :: t | [] => [] end.
Proof.
  induction cur as [|c cur IH]; intros H; cbn [append].
  - destruct (split_eol_cons p) as (h & t & E). rewrite E. reflexivity.
  - cbn [split_eol]. rewrite (H "" cur c eq_refl), IH.
    + destruct (split_eol_cons p) as (h & t & E). rewrite E. reflexivity.
    + intros a b d ->. apply (H (String c a) b d). reflexivity.
Qed.

Lemma skip_eol_length (p : string) : (String.length (skip_eol p) <= String.length p)%nat.
Proof. induction p; cbn; [lia|]. destruct (is_eol a); cbn; lia. Qed.

Lemma skip_eol_head (p : string) (c : ascii) (r : string) :
  skip_eol p = String c r -> is_eol c = false.
Proof.
  induction p as [|d p IH]; cbn; [discriminate|].
  destruct (is_eol d) eqn:E; [exact IH|]. intros [= <- <-]. exact E.
Qed.

Lemma filter_split_skip (p : string) :
  filter nonempty (split_eol p) =
  match skip_eol p with EmptyString => [] | j => lines j end.
Proof.
  induction p as [|c p IH]; cbn; [reflexivity|].
  destruct (is_eol c) eqn:E; [exact IH|].
  unfold lines. cbn [split_eol]. rewrite E.
  destruct (split_eol_cons p) as (h & t & ->). reflexivity.
Qed.

Definition no_eol (cur : string) : Prop :=
  forall a b c, cur = a ++ String c b -> is_eol c = false.

Lemma no_eol_snoc (cur : string) (c : ascii) :
  no_eol cur -> is_eol c = false -> no_eol (cur ++ String c "").
Proof.
  intros H Hc. induction cur as [|d cur IH].
  - intros [|x a] b e E; cbn in E.
    + injection E as <- <-. exact Hc.
    + injection E as _ E. destruct a; discriminate.
  - intros [|x a] b e E; cbn in E.
    + injection E as <- _. apply (H "" cur d). reflexivity.
    + injection E as _ E. apply IH with (a := a) (b := b); [|exact E].
      intros a' b' c' ->. apply (H (String d a') b' c'). reflexivity.
Qed.

Lemma lines_cut (cur p : string) :
  no_eol cur -> at_eol p = true ->
  lines (cur ++ p) =
  cur :: match skip_eol (advance 1 p) with EmptyString => [] | j => lines j end.
Proof.
  intros Hc He. unfold lines at 1. rewrite split_eol_app by exact Hc.
  destruct p as [|c p]; cbn in He |- *.
  - rewrite string_app_nil_r. reflexivity.
  - rewrite He, string_app_nil_r, filter_split_skip. reflexivity.
Qed.

Lemma get_line_loop_spec (fuel : nat) (cap index endcnt : Z) (cur p : string) :
  (String.length p < fuel)%nat -> endcnt < index -> no_eol cur ->
  get_line_loop fuel cap index endcnt (cur ++ p) p =
  Some (line_at cap (index - endcnt - 1) (lines (cur ++ p))).
Proof.
  revert endcnt cur p. induction fuel as [|f IH]; intros endcnt cur p Hf Hi Hc; [lia|].
  cbn [get_line_loop]. destruct (at_eol p) eqn:Ea.
  - rewrite lines_cut by assumption.
    destruct (Z.eqb_spec index (endcnt + 1)) as [->|Hne].
    + unfold line_at. replace (endcnt + 1 - endcnt - 1) with 0 by lia. cbn [Z.to_nat nth_error].
      unfold strlen. rewrite string_length_app, Nat2Z.inj_add.
      replace (Z.of_nat (String.length cur) + Z.of_nat (String.length p) - Z.of_nat (String.length p))
        with (Z.of_nat (String.length cur)) by lia.
      rewrite Nat2Z.id, substring_app. now destruct (_ <? cap).
    + destruct (skip_eol (advance 1 p)) as [|c rest] eqn:Ej.
      * unfold line_at. replace (Z.to_nat (index - endcnt - 1)) with (S (Z.to_nat (index - endcnt - 2))) by lia.
        cbn [nth_error]. destruct (Z.to_nat (index - endcnt - 2)); reflexivity.
      * assert (Hl : (String.length rest < f)%nat).
        { pose proof (skip_eol_length (advance 1 p)) as Hl. rewrite Ej in Hl.
          destruct p as [|d p]; cbn in *; [lia|]. destruct p; cbn in *; lia. }
        change (String c rest) with (String c "" ++ rest).
        rewrite (IH (endcnt + 1) (String c "") rest); [|exact Hl|lia|].
        -- f_equal. unfold line_at.
           replace (Z.to_nat (index - endcnt - 1)) with (S (Z.to_nat (index - (endcnt + 1) - 1))) by lia.
           reflexivity.
        -- intros [|x a] b e E; cbn in E; injection E as <- E.
           ++ eapply skip_eol_head; exact Ej.
           ++ destruct a; discriminate.
  - destruct p as [|c rest]; [discriminate|]. cbn in Ea, Hf.
    replace (cur ++ String c rest) with ((cur ++ String c "") ++ rest)
      by (rewrite string_app_assoc; reflexivity).
    apply IH; [lia|exact Hi|apply no_eol_snoc; assumption].
Qed.

(** The byte loop of [get_line_from_buf] always ends and gives the
    [index]-th line of the buffer. *)
Lemma get_line_from_buf_lines (cap index : Z) (buf : string) :
  0 <= index -> get_line_from_buf cap index buf = Some (line_at cap index (lines buf)).
Proof.
  intros Hi. unfold get_line_from_buf.
  change buf with ("" ++ buf) at 2.
  rewrite get_line_loop_spec; [|lia|lia|intros [|] b c; discriminate].
  do 2 f_equal. lia.
Qed.

Lemma split_eol_length (s : string) :
  (List.length (split_eol s) <= S (String.length s))%nat.
Proof.
  induction s as [|c s IH]; cbn; [lia|].
  destruct (is_eol c); cbn; [lia|].
  destruct (split_eol s); cbn in *; lia.
Qed.

Lemma lines_length (s : string) : (List.length (lines s) <= S (String.length s))%nat.
Proof.
  unfold lines. pose proof (split_eol_length s). destruct (split_eol s) as [|h t]; cbn in *; [lia|].
  pose proof (filter_length_le nonempty t). lia.
Qed.

Lemma line_loop_fold {S R} (fuel : nat) (cap i : Z) buf (body : string -> S -> line_step S R) s :
  0 <= i -> (List.length (lines buf) < fuel + Z.to_nat i)%nat ->
  (Z.to_nat i <= List.length (lines buf) \/ 0 < fuel)%nat ->
  line_loop fuel cap i buf body s = Some (fold_lines cap (skipn (Z.to_nat i) (lines buf)) body s).
Proof.
  revert i s. induction fuel as [|f IH]; intros i s Hi Hf Ho; [lia|].
  cbn [line_loop]. rewrite get_line_from_buf_lines by lia. unfold line_at.
  destruct (nth_error (lines buf) (Z.to_nat i)) as [l|] eqn:En.
  - assert (Hs : skipn (Z.to_nat i) (lines buf) = l :: skipn (Datatypes.S (Z.to_nat i)) (lines buf)).
    { clear -En. revert En. generalize (Z.to_nat i) as n, (lines buf) as ls.
      induction n as [|n IH]; intros [|x ls] E; cbn in *; try discriminate.
      - now injection E as ->.
      - apply IH, E. }
    rewrite Hs. cbn [fold_lines]. destruct (strlen l <? cap); [|reflexivity].
    destruct (body l s); [|reflexivity].
    assert ((Z.to_nat i < List.length (lines buf))%nat)
      by (apply nth_error_Some; rewrite En; discriminate).
    replace (Datatypes.S (Z.to_nat i)) with (Z.to_nat (i + 1)) by lia.
    rewrite IH; [reflexivity|lia|lia|lia].
  - apply nth_error_None in En. rewrite skipn_all2 by exact En. reflexivity.
Qed.

(** A [for] loop over the lines of a buffer is a fold over [lines], cut short
    by a break or by a line that does not fit. *)
Lemma for_lines_fold {S R} (cap start : Z) buf (body : string -> S -> line_step S R) s :
  0 <= start ->
  for_lines cap start buf body s = Some (fold_lines cap (skipn (Z.to_nat start) (lines buf)) body s).
Proof.
  intros. unfold for_lines. apply line_loop_fold; [lia| |right; lia].
  pose proof (lines_length buf). lia.
Qed.

Lemma lines_nonempty_tail (s l : string) : In l (tl (lines s)) -> l <> "".
Proof.
  unfold lines. destruct (split_eol s); cbn; [tauto|].
  intros H ->. apply filter_In in H as [_ H]. discriminate.
Qed.

Lemma nonempty_spec (s : string) : nonempty s = true <-> s <> "".
Proof. destruct s; cbn; split; congruence. Qed.

(** * The scan list of libs/wifi/wpa_command.c *)

(** ** Data *)

(** [struct wifi_scan_res] of [wpa_command.h]. *)
Record wifi_scan_res := mk_scan_res {
  mac_addr : string;
  freq : Z;
  sig : Z;
  key_mgmt : Z;
  ssid : string
}.

(** [sizeof(struct wifi_scan_res)]: 18 bytes padded to 20, three [int]s, 128. *)
Definition sizeof_scan_res : Z := 160.

(** [sizeof(ssid_list)]. *)
Definition sizeof_ssid_list : Z := 40960.

(** ** [sscanf(line, "%s\t%d\t%d\t%s\t%[^\n]s", ...)] *)

Fixpoint take_word (s : string) : string * string :=
  match s with
  | String c s' =>
      if isspace c then ("", s)
      else let '(w, r) := take_word s' in (String c w, r)
  | EmptyString => ("", "")
  end.

(** [%s]: a non-empty run of non-blanks; [None] when there is none. *)
Definition scan_s (s : string) : option (string * string) :=
  match take_word (skip_space s) with
  | (EmptyString, _) => None
  | wr => Some wr
  end.

(** [%d] *)
Definition scan_d (s : string) : option (Z * string) :=
  let '(sg, s1) := read_sign (skip_space s) in
  match s1 with
  | String c _ =>
      if isdigit c then let '(v, r) := read_digits 0 s1 in Some (wraps32 (sg * v), r)
      else None
  | EmptyString => None
  end.

Fixpoint take_line (s : string) : string :=
  match s with
  | String c s' => if Ascii.eqb c LF then "" else String c (take_line s')
  | EmptyString => ""
  end.

(** The key management of an access point from its flags. *)
Definition key_of_flags (key_type : string) : Z :=
  if strstr_b key_type "WPA2" then WIFI_KEY_WPA2PSK
  else if strstr_b key_type "WPA" then WIFI_KEY_WPAPSK
  else if strstr_b key_type "WEP" then WIFI_KEY_WEP
  else if strncmp_eq 5 key_type "[ESS]" then WIFI_KEY_NONE
  else WIFI_KEY_OTHER.

(** One line: the fields scanned into a zeroed [ap] and the flags, which keep
    their previous value when the scan stops before them; [None] when a field
    does not fit [mac_addr[18]], [key_type[64]] or [ssid[128]]. *)
Definition scan_ap (key_type line : string) : option (wifi_scan_res * string) :=
  match scan_s line with
  | None => Some (mk_scan_res "" 0 0 0 "", key_type)
  | Some (mac, r1) =>
      if 18 <=? strlen mac then None else
      match scan_d (skip_space r1) with
      | None => Some (mk_scan_res mac 0 0 0 "", key_type)
      | Some (f, r2) =>
          match scan_d (skip_space r2) with
          | None => Some (mk_scan_res mac f 0 0 "", key_type)
          | Some (sg, r3) =>
              match scan_s (skip_space r3) with
              | None => Some (mk_scan_res mac f sg 0 "", key_type)
              | Some (kt, r4) =>
                  if 64 <=? strlen kt then None else
                  let name := take_line (skip_space r4) in
                  if 128 <=? strlen name then None
                  else Some (mk_scan_res mac f sg 0 name, kt)
              end
          end
      end
  end.

Definition set_key_mgmt (k : Z) (ap : wifi_scan_res) : wifi_scan_res :=
  mk_scan_res (mac_addr ap) (freq ap) (sig ap) k (ssid ap).

(** ** Merging *)

Definition same_net (a b : wifi_scan_res) : bool :=
  String.eqb (ssid a) (ssid b) && (key_mgmt a =? key_mgmt b).

(** The [for] loop of [wpa_reduce_repeat_ssid] and the append after it. *)
Fixpoint reduce_loop (l : list wifi_scan_res) (res : wifi_scan_res) : list wifi_scan_res :=
  match l with
  | [] => [res]
  | x :: l' =>
      if same_net x res then (if sig x <? sig res then res else x) :: l'
      else x :: reduce_loop l' res
  end.

Definition wpa_reduce_repeat_ssid (l : list wifi_scan_res) (res : wifi_scan_res)
  : list wifi_scan_res :=
  if 100 <? Z.of_nat (List.length l) then l else reduce_loop l res.

(** The body of the loop of [wpa_get_scan_r]. *)
Definition scan_r_body (line : string) (st : list wifi_scan_res * string)
  : line_step (list wifi_scan_res * string) unit :=
  let '(l, key_type) := st in
  match scan_ap key_type line with
  | None => Break tt
  | Some (ap, kt) =>
      let ap := set_key_mgmt (key_of_flags kt) ap in
      if strlen (ssid ap) =? 0 then Next (l, kt)
      else Next (wpa_reduce_repeat_ssid l ap, kt)
  end.

(** [None] when a line or a field overflows its array. *)
Definition wpa_get_scan_r (reply : string) (l : list wifi_scan_res)
  : option (list wifi_scan_res) :=
  match for_lines 512 1 reply scan_r_body (l, "") with
  | Some (Done (l', _)) => Some l'
  | _ => None
  end.

(** ** The specification of the list *)

Definition net_key (a : wifi_scan_res) : string * Z := (ssid a, key_mgmt a).

(** The access point of a line, when the line names one. *)
Definition ap_of_line (line : string) : option wifi_scan_res :=
  match scan_ap "" line with
  | Some (ap, kt) =>
      if strlen (ssid ap) =? 0 then None else Some (set_key_mgmt (key_of_flags kt) ap)
  | None => None
  end.

(** One entry per network and the size of the buffer. *)
Definition scan_list_ok (l : list wifi_scan_res) : Prop :=
  NoDup (map net_key l) /\ (List.length l <= 101)%nat /\ Forall (fun a => ssid a <> "") l.

(** [l] lists the networks of [aps], each by a strongest access point. *)
Definition strongest_of (aps l : list wifi_scan_res) : Prop :=
  Forall (fun e => In e aps) l /\
  Forall (fun a => exists e, In e l /\ net_key e = net_key a /\ sig a <= sig e) aps.

(** ** Lemmas *)

Lemma same_net_spec (a b : wifi_scan_res) : same_net a b = true <-> net_key a = net_key b.
Proof.
  unfold same_net, net_key. rewrite andb_true_iff, String.eqb_eq, Z.eqb_eq.
  split; [intros [-> ->]; reflexivity|intros [= -> ->]; auto].
Qed.

Lemma reduce_loop_keys (l : list wifi_scan_res) (res : wifi_scan_res) :
  map net_key (reduce_loop l res) =
  if existsb (fun x => same_net x res) l then map net_key l else (map net_key l ++ [net_key res])%list.
Proof.
  induction l as [|x l IH]; cbn; [reflexivity|].
  destruct (same_net x res) eqn:E; cbn.
  - f_equal. apply same_net_spec in E. destruct (sig x <? sig res); congruence.
  - rewrite IH. destruct (existsb _ l); reflexivity.
Qed.

Lemma reduce_loop_nodup (l : list wifi_scan_res) (res : wifi_scan_res) :
  NoDup (map net_key l) -> NoDup (map net_key (reduce_loop l res)).
Proof.
  intros H. rewrite reduce_loop_keys. destruct (existsb _ l) eqn:E; [exact H|].
  apply NoDup_app; [exact H|repeat constructor; intros []|].
  intros k Hk [<-|[]]. apply in_map_iff in Hk as (x & Hx & Hin).
  apply same_net_spec in Hx.
  assert (existsb (fun x => same_net x res) l = true) by (apply existsb_exists; eauto).
  congruence.
Qed.

Lemma reduce_loop_length (l : list wifi_scan_res) (res : wifi_scan_res) :
  (List.length l <= List.length (reduce_loop l res) <= S (List.length l))%nat.
Proof.
  induction l as [|x l IH]; cbn; [lia|]. destruct (same_net x res); cbn; lia.
Qed.

Lemma reduce_loop_in (l : list wifi_scan_res) (res e : wifi_scan_res) :
  In e (reduce_loop l res) -> In e l \/ e = res.
Proof.
  induction l as [|x l IH]; cbn; [intros [<-|[]]; auto|].
  destruct (same_net x res); cbn.
  - destruct (sig x <? sig res); intros [<-|]; auto.
  - intros [<-|H]; [auto|]. destruct (IH H); auto.
Qed.

(** No entry is lost or weakened, and the new one is represented. *)
Lemma reduce_loop_covers (l : list wifi_scan_res) (res a : wifi_scan_res) :
  In a l \/ a = res ->
  exists e, In e (reduce_loop l res) /\ net_key e = net_key a /\ sig a <= sig e.
Proof.
  induction l as [|x l IH]; cbn; intros H.
  - destruct H as [[]| ->]. exists res. repeat split; auto; lia.
  - destruct (same_net x res) eqn:E; cbn.
    + apply same_net_spec in E. destruct (Z.ltb_spec (sig x) (sig res)) as [Hlt|Hge].
      * destruct H as [[->|H]| ->]; [exists res|exists a|exists res];
          repeat split; auto; try congruence; lia.
      * destruct H as [[->|H]| ->]; [exists a|exists a|exists x];
          repeat split; auto; try congruence; lia.
    + destruct H as [[->|H]|H];
        [exists a; repeat split; auto; lia| |];
        (destruct IH as (e & He & Hk & Hs); [auto|]; exists e; auto).
Qed.

Lemma reduce_ok (l : list wifi_scan_res) (res : wifi_scan_res) :
  scan_list_ok l -> ssid res <> "" -> scan_list_ok (wpa_reduce_repeat_ssid l res).
Proof.
  intros (Hn & Hl & Hf) Hs. unfold wpa_reduce_repeat_ssid.
  destruct (Z.ltb_spec 100 (Z.of_nat (List.length l))); [split; auto|].
  split; [apply reduce_loop_nodup, Hn|]. split.
  - pose proof (reduce_loop_length l res). lia.
  - apply Forall_forall. intros e He. apply reduce_loop_in in He as [He| ->]; [|exact Hs].
    rewrite Forall_forall in Hf. auto.
Qed.

Lemma reduce_strongest (aps l : list wifi_scan_res) (res : wifi_scan_res) :
  (List.length l <= 100)%nat -> strongest_of aps l ->
  strongest_of (aps ++ [res]) (wpa_reduce_repeat_ssid l res).
Proof.
  intros Hl [H1 H2]. unfold wpa_reduce_repeat_ssid.
  destruct (Z.ltb_spec 100 (Z.of_nat (List.length l))); [lia|]. split.
  - apply Forall_forall. intros e He. rewrite Forall_forall in H1.
    apply in_or_app. apply reduce_loop_in in He as [He| ->]; cbn; auto.
  - apply Forall_snoc. split; [|apply reduce_loop_covers; auto].
    eapply Forall_impl; [|exact H2]. intros a (e & He & Hk & Hs).
    destruct (reduce_loop_covers l res e (or_introl He)) as (e' & He' & Hk' & Hs').
    exists e'. repeat split; [exact He'|congruence|lia].
Qed.

(** The flags left over from an earlier line never reach an entry. *)
Lemma scan_ap_stale (kt line : string) :
  match scan_ap kt line, scan_ap "" line with
  | Some (a, k1), Some (b, k2) => a = b /\ (ssid a <> "" -> k1 = k2)
  | None, None => True
  | _, _ => False
  end.
Proof. unfold scan_ap. repeat break_match; cbn; auto; tauto. Qed.

Lemma strlen_zero (s : string) : (strlen s =? 0) = negb (nonempty s).
Proof. destruct s; [reflexivity|]. apply Z.eqb_neq. unfold strlen. cbn [String.length]. lia. Qed.

Lemma scan_r_body_spec (line kt : string) (l : list wifi_scan_res) :
  match scan_r_body line (l, kt) with
  | Break _ => ap_of_line line = None
  | Next (l', _) =>
      match ap_of_line line with
      | Some ap => l' = wpa_reduce_repeat_ssid l ap /\ ssid ap <> ""
      | None => l' = l
      end
  end.
Proof.
  unfold scan_r_body, ap_of_line. pose proof (scan_ap_stale kt line) as H.
  destruct (scan_ap kt line) as [[a k1]|], (scan_ap "" line) as [[b k2]|]; try contradiction; [|reflexivity].
  destruct H as [-> Hk]. cbn. rewrite strlen_zero.
  destruct (nonempty (ssid b)) eqn:E; cbn; [|reflexivity].
  apply nonempty_spec in E. rewrite (Hk E). auto.
Qed.

Fixpoint filter_map {A B} (f : A -> option B) (l : list A) : list B :=
  match l with
  | [] => []
  | a :: l' => match f a with Some b => b :: filter_map f l' | None => filter_map f l' end
  end.

Definition scan_inv (aps l : list wifi_scan_res) : Prop :=
  scan_list_ok l /\ ((List.length l <= 100)%nat -> strongest_of aps l).

Lemma wpa_reduce_length (l : list wifi_scan_res) (ap : wifi_scan_res) :
  (List.length l <= List.length (wpa_reduce_repeat_ssid l ap))%nat.
Proof.
  unfold wpa_reduce_repeat_ssid. destruct (_ <? _); [lia|].
  pose proof (reduce_loop_length l ap). lia.
Qed.

Lemma scan_fold_inv (ls : list string) (aps l l' : list wifi_scan_res) (kt kt' : string) :
  scan_inv aps l ->
  fold_lines 512 ls scan_r_body (l, kt) = Done (l', kt') ->
  scan_inv (aps ++ filter_map ap_of_line ls) l'.
Proof.
  revert aps l kt. induction ls as [|s ls IH]; cbn -[scan_r_body]; intros aps l kt Hi E.
  - injection E as -> _. rewrite app_nil_r. exact Hi.
  - destruct (strlen s <? 512); [|discriminate].
    pose proof (scan_r_body_spec s kt l) as Hb.
    destruct (scan_r_body s (l, kt)) as [[l1 kt1]|]; [|discriminate].
    destruct (ap_of_line s) as [ap|].
    + destruct Hb as [-> Hne].
      replace (aps ++ ap :: filter_map ap_of_line ls)%list
        with ((aps ++ [ap]) ++ filter_map ap_of_line ls)%list by (rewrite <- app_assoc; reflexivity).
      eapply IH; [|exact E]. destruct Hi as [Hok Hst]. split; [apply reduce_ok; assumption|].
      intros Hl. pose proof (wpa_reduce_length l ap).
      apply reduce_strongest; [lia|apply Hst; lia].
    + subst l1. eapply IH; eassumption.
Qed.

Lemma scan_inv_nil : scan_inv [] [].
Proof.
  split; [split; [constructor|split; [cbn; lia|constructor]]|].
  intros _. split; constructor.
Qed.

(** The entries of a result fit [ssid_list]. *)
Lemma scan_list_fits (l : list wifi_scan_res) :
  scan_list_ok l -> Z.of_nat (List.length l) * sizeof_scan_res <= sizeof_ssid_list.
Proof. intros (_ & H & _). unfold sizeof_scan_res, sizeof_ssid_list. lia. Qed.

Lemma wpa_get_scan_r_inv (reply : string) (l : list wifi_scan_res) :
  wpa_get_scan_r reply [] = Some l ->
  scan_inv (filter_map ap_of_line (tl (lines reply))) l.
Proof.
  unfold wpa_get_scan_r. rewrite for_lines_fold by lia.
  destruct (fold_lines _ _ _ _) as [[l' kt]| |] eqn:E; [|discriminate|discriminate].
  intros [= ->].
  replace (skipn (Z.to_nat 1) (lines reply)) with (tl (lines reply)) in E
    by (destruct (lines reply); reflexivity).
  apply (scan_fold_inv _ [] _ _ _ _ scan_inv_nil E).
Qed.
