(* ===== verification/WpaCommand.v ===== *)
(** * The wpa_supplicant client, libs/wifi/wpa_command.c

    The text of each request ([command_text]), the analysis of each reply
    ([wifi_reply_analyse]), the request/reply exchange ([wifi_send_command])
    and the API built on it.  wpa_supplicant itself is the environment: it
    answers [WpaCtrlRequest]. *)

From Stdlib Require Import ZArith List Bool Lia Ascii String.
From S2P Require Import Prelude CString CMonad Json NetEnv ScanList.
Import ListNotations.
Open Scope string_scope.
Open Scope Z_scope.

(** ** Commands and values *)

(** [enum WIFI_COMMAND] *)
Inductive wifi_cmd :=
| WIFI_COMMAND_SCAN | WIFI_COMMAND_ADDNETWORK | WIFI_COMMAND_SETNETWORK_SSID
| WIFI_COMMAND_SETNETWORK_SCANSSID | WIFI_COMMAND_SETNETWORK_PSK
| WIFI_COMMAND_SETNETWORK_KEYMETH | WIFI_COMMAND_SETNETWORK_AUTHALG
| WIFI_COMMAND_SETNETWORK_WEPKEY0 | WIFI_COMMAND_SETNETWORK_WEPTXKEYID
| WIFI_COMMAND_ENABLENETWORK | WIFI_COMMAND_SELECTNETWORK | WIFI_COMMAND_RECONFIGURE
| WIFI_COMMAND_REATTACH | WIFI_COMMAND_GET_STATUS | WIFI_COMMAND_GET_SIGNAL
| WIFI_COMMAND_SAVECONFIG | WIFI_COMMAND_SCAN_R | WIFI_COMMAND_LIST_ENABLED_NETWORK
| WIFI_COMMAND_DISABLENETWORK | WIFI_COMMAND_GET_CHANNEL | WIFI_COMMAND_DISCONNCET
| WIFI_COMMAND_RECONNCET | WIFI_COMMAND_REMOVENETWORK | WIFI_COMMAND_GET_CURRENT_SSID
| WIFI_COMMAND_BLACKLIST_CLEAR | WIFI_COMMAND_BSSFLUSH | WIFI_COMMAND_ABORT_SCAN
| WIFI_COMMAND_GET_DEVICE_MAC | WIFI_COMMAND_GET_APP_BSSID | WIFI_COMMAND_GET_CURRENT_ID
| WIFI_COMMAND_GET_CURRENT_PSK | WIFI_COMMAND_LIST_CONFIGED_NETWORK.

(** [enum WIFI_COMMAND_ACK] *)
Inductive wifi_ack := WIFI_COMMAND_ACK_INT | WIFI_COMMAND_ACK_OK | WIFI_COMMAND_ACK_STRING.

(** The table [wifi_command_pack_sum]; every command has a row. *)
Definition wifi_command_pack_sum (c : wifi_cmd) : wifi_ack :=
  match c with
  | WIFI_COMMAND_ADDNETWORK | WIFI_COMMAND_GET_STATUS | WIFI_COMMAND_GET_SIGNAL
  | WIFI_COMMAND_LIST_ENABLED_NETWORK | WIFI_COMMAND_GET_CHANNEL
  | WIFI_COMMAND_GET_CURRENT_ID | WIFI_COMMAND_LIST_CONFIGED_NETWORK => WIFI_COMMAND_ACK_INT
  | WIFI_COMMAND_SCAN_R | WIFI_COMMAND_GET_CURRENT_SSID | WIFI_COMMAND_GET_DEVICE_MAC
  | WIFI_COMMAND_GET_APP_BSSID | WIFI_COMMAND_GET_CURRENT_PSK => WIFI_COMMAND_ACK_STRING
  | _ => WIFI_COMMAND_ACK_OK
  end.

(** The [void *value] of a request. *)
Inductive wpa_val := VNull | VStr (s : string) | VInt (z : Z) | VNet (n : wifi_network).

(** The object [void *res] points to; an [int] may be uninitialised. *)
Inductive wpa_res :=
| RInt (z : option Z) | RStr (s : string) | RList (l : list wifi_scan_res) | RMac (m : list Z).

(** The result of building a request: its text, an early [return], or an
    undefined operation. *)
Inductive text_result := Text (s : string) | Return (z : Z) | Bad (f : fault).

Definition PSK_WPA_HEX_LEN : Z := 64.
Definition SSID_DEFAULT_LEN : Z := 128.

(** [sprintf(command, ...)] into [command[128]]. *)
Definition into_command (s : string) : text_result :=
  if 128 <=? strlen s then Bad BufferOverflow else Text s.

(** ["%d+%s"] split at the plus sign through [wep_command[36]] and
    [wep_params[35]], then printed after [mid]. *)
Definition wep_text (mid value : string) : text_result :=
  if 36 <=? strlen value then Bad BufferOverflow else
  match strstr value "+" with
  | None => Bad NullDeref
  | Some wep_index =>
      let before := substring 0 (String.length value - String.length wep_index) value in
      let after := advance 1 wep_index in
      if (35 <=? strlen before) || (35 <=? strlen after) then Bad BufferOverflow
      else into_command ("SET_NETWORK " ++ itoa (atoi before) ++ mid ++ after)
  end.

(** The [switch (cmd)] of [wifi_send_command]. *)
Definition command_text (cmd : wifi_cmd) (value : wpa_val) : text_result :=
  match cmd with
  | WIFI_COMMAND_SCAN =>
      match value with
      | VNull => Text "SCAN"
      | VStr s => into_command ("SCAN " ++ s)
      | _ => Bad OutOfBounds
      end
  | WIFI_COMMAND_ADDNETWORK => Text "ADD_NETWORK"
  | WIFI_COMMAND_ABORT_SCAN => Text "ABORT_SCAN"
  | WIFI_COMMAND_SETNETWORK_SSID =>
      match value with
      | VNet n => into_command ("SET_NETWORK " ++ itoa (nw_id n) ++ " ssid " ++ quote ++ nw_ssid n ++ quote)
      | _ => Bad NullDeref
      end
  | WIFI_COMMAND_SETNETWORK_SCANSSID =>
      match value with
      | VNet n => into_command ("SET_NETWORK " ++ itoa (nw_id n) ++ " scan_ssid 1")
      | _ => Bad NullDeref
      end
  | WIFI_COMMAND_SETNETWORK_PSK =>
      match value with
      | VNet n =>
          if strlen (nw_psk n) <? PSK_WPA_HEX_LEN
          then into_command ("SET_NETWORK " ++ itoa (nw_id n) ++ " psk " ++ quote ++ nw_psk n ++ quote)
          else into_command ("SET_NETWORK " ++ itoa (nw_id n) ++ " psk " ++ nw_psk n)
      | _ => Bad NullDeref
      end
  | WIFI_COMMAND_SETNETWORK_AUTHALG =>
      match value with VStr s => wep_text " auth_alg " s | _ => Bad NullDeref end
  | WIFI_COMMAND_SETNETWORK_WEPKEY0 =>
      match value with
      | VNet n =>
          let len := strlen (nw_psk n) in
          if (len =? 5) || (len =? 13)
          then into_command ("SET_NETWORK " ++ itoa (nw_id n) ++ " wep_key0 " ++ quote ++ nw_psk n ++ quote)
          else if (len =? 10) || (len =? 26)
          then into_command ("SET_NETWORK " ++ itoa (nw_id n) ++ " wep_key0 " ++ nw_psk n)
          else Text ""
      | _ => Bad NullDeref
      end
  | WIFI_COMMAND_SETNETWORK_WEPTXKEYID =>
      match value with VStr s => wep_text " wep_tx_keyidx " s | _ => Bad NullDeref end
  | WIFI_COMMAND_SETNETWORK_KEYMETH =>
      match value with
      | VNet n =>
          if negb (nw_key_mgmt n =? WIFI_KEY_NONE) && negb (nw_key_mgmt n =? WIFI_KEY_WEP)
          then Return (-4)
          else into_command ("SET_NETWORK " ++ itoa (nw_id n) ++ " key_mgmt NONE")
      | _ => Bad NullDeref
      end
  | WIFI_COMMAND_ENABLENETWORK =>
      match value with
      | VInt i => if negb (i =? WPA_ALL_NETWORK) then into_command ("ENABLE_NETWORK  " ++ itoa i)
                  else Text "ENABLE_NETWORK all"
      | _ => Bad NullDeref
      end
  | WIFI_COMMAND_SELECTNETWORK =>
      match value with VInt i => into_command ("SELECT_NETWORK " ++ itoa i) | _ => Bad NullDeref end
  | WIFI_COMMAND_REATTACH => Text "REATTACH"
  | WIFI_COMMAND_RECONFIGURE => Text "RECONFIGURE"
  | WIFI_COMMAND_GET_SIGNAL | WIFI_COMMAND_GET_CHANNEL => Text "SIGNAL_POLL"
  | WIFI_COMMAND_GET_CURRENT_ID | WIFI_COMMAND_GET_CURRENT_SSID | WIFI_COMMAND_GET_STATUS
  | WIFI_COMMAND_GET_DEVICE_MAC | WIFI_COMMAND_GET_APP_BSSID => Text "STATUS"
  | WIFI_COMMAND_GET_CURRENT_PSK =>
      match value with VInt i => into_command ("GET_NETWORK " ++ itoa i ++ " psk") | _ => Bad NullDeref end
  | WIFI_COMMAND_SAVECONFIG => Text "SAVE_CONFIG"
  | WIFI_COMMAND_SCAN_R => Text "SCAN_RESULTS"
  | WIFI_COMMAND_LIST_ENABLED_NETWORK | WIFI_COMMAND_LIST_CONFIGED_NETWORK => Text "LIST_NETWORKS"
  | WIFI_COMMAND_DISABLENETWORK =>
      match value with
      | VInt i => if negb (i =? WPA_ALL_NETWORK) then into_command ("DISABLE_NETWORK " ++ itoa i)
                  else Text "DISABLE_NETWORK all"
      | _ => Bad NullDeref
      end
  | WIFI_COMMAND_DISCONNCET => Text "DISCONNCET"
  | WIFI_COMMAND_RECONNCET => Text "RECONNCET"
  | WIFI_COMMAND_REMOVENETWORK =>
      match value with
      | VInt i => if negb (i =? WPA_ALL_NETWORK) then into_command ("REMOVE_NETWORK " ++ itoa i)
                  else Text "REMOVE_NETWORK all"
      | _ => Bad NullDeref
      end
  | WIFI_COMMAND_BLACKLIST_CLEAR => Text "BLACKLIST clear"
  | WIFI_COMMAND_BSSFLUSH => Text "BSS_FLUSH 0"
  end.

(** ** Replies *)

(** Result of the analysis: the value [*res] afterwards, or a fault.  The
    returned code is 0, since every command is in the table. *)
Inductive analysis := AOk (r : wpa_res) | ABad (f : fault).

Definition from_loop {S} (o : option (loop_end S analysis)) (k : S -> analysis) : analysis :=
  match o with
  | None => ABad Hang
  | Some (Done s) => k s
  | Some (Broke r) => r
  | Some Overflowed => ABad BufferOverflow
  end.

(** [GET_SIGNAL] and [GET_CHANNEL]: the number [off] bytes into the first
    line that contains [word]. *)
Definition poll_value (word : string) (off : nat) (reply : string) : analysis :=
  from_loop
    (for_lines 256 0 reply
      (fun line (_ : unit) =>
         if strstr_b line word then
           if strlen line <? Z.of_nat off then Break (ABad OutOfBounds)
           else Break (AOk (RInt (Some (atoi (advance off line)))))
         else Next tt) tt)
    (fun _ => AOk (RInt (Some 0))).

Definition status_value (reply : string) (old : option Z) : analysis :=
  from_loop
    (for_lines 256 0 reply
      (fun line (_ : option Z) =>
         if strstr_b line "wpa_state=COMPLETED" then Break (AOk (RInt (Some WIFI_CONNECTED)))
         else if strstr_b line "wpa_state=SCANNING" then Break (AOk (RInt (Some WIFI_SCANING)))
         else Next (Some WIFI_UNCONNECTED)) old)
    (fun v => AOk (RInt v)).

(** [strncpy(res, new, strlen(new))] over the old contents of [res]. *)
Definition overlay (new old : string) : string := new ++ advance (String.length new) old.

(** [wpa_command.h]: [a2x] and [COPY_STR2MAC]. *)
Definition a2x (c : option ascii) : Z :=
  match c with
  | Some c => match hexval c with Some v => v | None => 0 end
  | None => 0
  end.

Definition COPY_STR2MAC (str : string) : list Z :=
  map (fun i => (a2x (deref (advance (i * 3) str)) * 16 + a2x (deref (advance (i * 3 + 1) str))) mod 256)
      [0; 1; 2; 3; 4; 5]%nat.

(** [GET_DEVICE_MAC] and [GET_APP_BSSID] through [string_mac[18]].  The array
    keeps its tail from an earlier line. *)
Definition mac_value (key reply : string) (old : wpa_res) : analysis :=
  from_loop
    (for_lines 256 0 reply
      (fun line (st : wpa_res * string) =>
         if strncmp_eq (String.length key) line key then
           let rest := advance (String.length key) line in
           if 18 <? strlen rest then Break (ABad BufferOverflow)
           else let s := overlay rest (snd st) in Next (RMac (COPY_STR2MAC s), s)
         else Next st) (old, ""))
    (fun st => AOk (fst st)).

Definition wifi_reply_analyse (cmd : wifi_cmd) (reply : string) (res_len : Z) (res : wpa_res)
  : analysis :=
  match wifi_command_pack_sum cmd with
  | WIFI_COMMAND_ACK_OK =>
      if strncmp_eq (Z.to_nat (if 2 <? res_len then 2 else res_len)) reply "OK"
      then AOk (RInt (Some 0)) else AOk (RInt (Some (-1)))
  | WIFI_COMMAND_ACK_INT =>
      match cmd with
      | WIFI_COMMAND_GET_SIGNAL => poll_value "RSSI" 5 reply
      | WIFI_COMMAND_GET_CHANNEL => poll_value "FREQUENCY" 10 reply
      | WIFI_COMMAND_GET_STATUS =>
          status_value reply (match res with RInt z => z | _ => None end)
      | WIFI_COMMAND_LIST_ENABLED_NETWORK =>
          from_loop
            (for_lines 256 1 reply
              (fun line (_ : unit) =>
                 if strstr_b line "[DISABLED]" then Next tt else Break (AOk (RInt (Some 1)))) tt)
            (fun _ => AOk (RInt (Some 0)))
      | WIFI_COMMAND_LIST_CONFIGED_NETWORK =>
          from_loop (for_lines 256 1 reply (fun _ n => Next (n + 1)) 0)
            (fun n => AOk (RInt (Some n)))
      | WIFI_COMMAND_GET_CURRENT_ID =>
          from_loop
            (for_lines 256 0 reply
              (fun line v => if strncmp_eq 3 line "id=" then Next (atoi (advance 3 line)) else Next v) (-1))
            (fun v => AOk (RInt (Some v)))
      | _ =>
          match skip_space reply with
          | EmptyString => AOk res
          | _ => match scan_d reply with
                 | Some (v, _) => AOk (RInt (Some v))
                 | None => AOk (RInt (Some (-1)))
                 end
          end
      end
  | WIFI_COMMAND_ACK_STRING =>
      match cmd, res with
      | WIFI_COMMAND_SCAN_R, RList l =>
          match wpa_get_scan_r reply l with
          | Some l' => AOk (RList l')
          | None => ABad BufferOverflow
          end
      | WIFI_COMMAND_GET_CURRENT_SSID, RStr old =>
          from_loop
            (for_lines 256 0 reply
              (fun line s =>
                 if strncmp_eq 5 line "ssid=" then
                   let name := advance 5 line in
                   if SSID_DEFAULT_LEN <=? strlen name then Break (ABad BufferOverflow)
                   else Next (overlay name s)
                 else Next s) old)
            (fun s => AOk (RStr s))
      | WIFI_COMMAND_GET_CURRENT_PSK, RStr old =>
          let word :=
            match reply with
            | String c r => if Ascii.eqb c DQUOTE then scan_s r else None
            | EmptyString => None
            end in
          match word with
          | Some (w, _) =>
              if PSK_WPA_HEX_LEN <=? strlen w then ABad BufferOverflow
              else AOk (RStr (substring 0 (String.length w - 1) w))
          | None =>
              if strlen old =? 0 then ABad BufferOverflow
              else AOk (RStr (substring 0 (String.length old - 1) old))
          end
      | WIFI_COMMAND_GET_DEVICE_MAC, _ => mac_value "address=" reply res
      | WIFI_COMMAND_GET_APP_BSSID, _ => mac_value "bssid=" reply res
      | _, _ => AOk res
      end
  end.

(** [is_str_gbk]: the byte loop, [n] is [nBytes]. *)
Fixpoint gbk_loop (s : string) (n : Z) : bool :=
  match s with
  | EmptyString => n =? 0
  | String c s' =>
      let chr := ord c in
      if n =? 0 then
        if 128 <=? chr then
          if (129 <=? chr) && (chr <=? 254) then gbk_loop s' (2 - 1) else false
        else gbk_loop s' n
      else if (chr <? 64) || (254 <? chr) then false
      else gbk_loop s' (n - 1)
  end.

Definition is_str_gbk (s : string) : bool := gbk_loop s 0.

(** ** Exchange and API *)

(** How many rounds a [while (1)] that waits for wpa_supplicant is followed. *)
Class Fuel := fuel : nat.

Section Client.
Context {X : Type} {E : Env X} {F : Fuel}.

Local Notation Mw := (M (world X)).

Definition WIFI_WPA_CTRL_PATH : string := "/var/run/wpa_supplicant/wlan0".

(** A reply of 4095 bytes or more leaves [reply[4096]] without the two
    trailing NULs the readers rely on. *)
Definition wifi_send_command (cmd : wifi_cmd) (value : wpa_val) (res_len : Z) (res : wpa_res)
  : Mw (Z * wpa_res) :=
  match command_text cmd value with
  | Bad f => stop f
  | Return z => ret (z, res)
  | Text command =>
      opened <- exec (WpaCtrlOpen WIFI_WPA_CTRL_PATH) ;;
      if negb opened then ret (-1, res)
      else
        answer <- exec (WpaCtrlRequest command) ;;
        res' <- match answer with
                | None => ret res
                | Some reply =>
                    if 4095 <=? strlen reply then stop OutOfBounds
                    else match wifi_reply_analyse cmd reply res_len res with
                         | AOk r => ret r
                         | ABad f => stop f
                         end
                end ;;
        exec_ WpaCtrlClose ;;
        ret (0, res')
  end.

Definition read_int (r : wpa_res) : Mw Z :=
  match r with
  | RInt (Some z) => ret z
  | _ => stop UninitRead
  end.

(** A command answered by [OK] or not, with [int res = 0] and
    [ret < 0 || res != 0] as the failure test. *)
Definition send_ok (cmd : wifi_cmd) (value : wpa_val) : Mw (Z * Z) :=
  '(r, o) <- wifi_send_command cmd value 4 (RInt (Some 0)) ;;
  res <- read_int o ;;
  ret (r, res).

Definition failed (rr : Z * Z) : bool := (fst rr <? 0) || negb (snd rr =? 0).

Definition wifi_save_network : Mw Z :=
  '(_, res) <- send_ok WIFI_COMMAND_SAVECONFIG VNull ;;
  ret (if res =? 0 then 0 else -1).

(** The getters return the code and the object they were given, updated. *)
Definition get_int (cmd : wifi_cmd) (old : option Z) : Mw (Z * option Z) :=
  '(r, o) <- wifi_send_command cmd VNull 4 (RInt old) ;;
  ret (if r <? 0 then -1 else 0, match o with RInt z => z | _ => None end).

Definition wifi_get_signal (sig : option Z) : Mw (Z * option Z) := get_int WIFI_COMMAND_GET_SIGNAL sig.
Definition wifi_get_current_channel (ch : option Z) : Mw (Z * option Z) := get_int WIFI_COMMAND_GET_CHANNEL ch.
Definition wifi_get_status (st : option Z) : Mw (Z * option Z) := get_int WIFI_COMMAND_GET_STATUS st.
Definition wifi_get_config_network (n : option Z) : Mw (Z * option Z) :=
  get_int WIFI_COMMAND_LIST_CONFIGED_NETWORK n.
Definition wifi_get_enable_network (n : option Z) : Mw (Z * option Z) :=
  get_int WIFI_COMMAND_LIST_ENABLED_NETWORK n.
Definition wifi_get_listnetwork (n : option Z) : Mw (Z * option Z) := wifi_get_enable_network n.

Definition get_mac (cmd : wifi_cmd) (mac : list Z) : Mw (Z * list Z) :=
  '(r, o) <- wifi_send_command cmd VNull 6 (RMac mac) ;;
  ret (if r <? 0 then -1 else 0, match o with RMac m => m | _ => mac end).

Definition wifi_get_device_mac (mac : list Z) : Mw (Z * list Z) := get_mac WIFI_COMMAND_GET_DEVICE_MAC mac.
Definition wifi_get_ap_bssid (mac : list Z) : Mw (Z * list Z) := get_mac WIFI_COMMAND_GET_APP_BSSID mac.

(** [ret == 0 && res == 0] commands. *)
Definition simple_ok (cmd : wifi_cmd) (value : wpa_val) : Mw Z :=
  rr <- send_ok cmd value ;;
  ret (if (fst rr =? 0) && (snd rr =? 0) then 0 else -1).

Definition wifi_scan : Mw Z := simple_ok WIFI_COMMAND_SCAN VNull.
Definition wifi_abort_scan : Mw Z := simple_ok WIFI_COMMAND_ABORT_SCAN VNull.
Definition wifi_reconfigure : Mw Z := simple_ok WIFI_COMMAND_RECONFIGURE VNull.
Definition wifi_blacklist_clear : Mw Z := simple_ok WIFI_COMMAND_BLACKLIST_CLEAR VNull.
Definition wifi_disconnect_network : Mw Z := simple_ok WIFI_COMMAND_DISCONNCET VNull.
Definition wifi_reconnect_network : Mw Z := simple_ok WIFI_COMMAND_RECONNCET VNull.
Definition wifi_clear_scan_results : Mw Z := simple_ok WIFI_COMMAND_BSSFLUSH VNull.

(** [ret < 0 || res != 0] commands on a network id. *)
Definition network_cmd (cmd : wifi_cmd) (id : Z) : Mw Z :=
  rr <- send_ok cmd (VInt id) ;;
  ret (if failed rr then -1 else 0).

Definition wifi_disable_network (id : Z) : Mw Z := network_cmd WIFI_COMMAND_DISABLENETWORK id.
Definition wifi_remove_network (id : Z) : Mw Z := network_cmd WIFI_COMMAND_REMOVENETWORK id.
Definition wifi_enable_network (id : Z) : Mw Z := network_cmd WIFI_COMMAND_ENABLENETWORK id.
Definition wifi_remove_all_network : Mw Z := wifi_remove_network WPA_ALL_NETWORK.
Definition wifi_enable_all_network : Mw Z := wifi_enable_network WPA_ALL_NETWORK.

(** The [while (1)] of [wifi_disable_all_network]. *)
Fixpoint abort_scan_loop (n : nat) : Mw unit :=
  match n with
  | O => stop Hang
  | S n' =>
      r <- wifi_abort_scan ;;
      if r <? 0 then exec_ (Sleep 1) ;; abort_scan_loop n' else ret tt
  end.

Definition wifi_disable_all_network : Mw Z :=
  abort_scan_loop fuel ;;
  wifi_disable_network WPA_ALL_NETWORK.

(** [wifi_scan_channel(num, freq)] for a non-NULL array of [num] entries. *)
Fixpoint channel_list (fs : list Z) : option string :=
  match fs with
  | [] => Some ""
  | f :: fs' =>
      if 6 <=? strlen (itoa f ++ ",") then None
      else match channel_list fs' with
           | Some r => Some ((itoa f ++ ",") ++ r)
           | None => None
           end
  end.

Definition wifi_scan_channel (freq : list Z) : Mw Z :=
  if 21 <? Z.of_nat (List.length freq) then ret (-1)
  else match freq with
       | [] => wifi_scan
       | _ =>
           match channel_list freq with
           | None => stop BufferOverflow
           | Some l =>
               let params := "freq=" ++ l in
               simple_ok WIFI_COMMAND_SCAN (VStr (substring 0 (String.length params - 1) params))
           end
       end.

Definition wifi_get_scan_result : Mw (Z * list wifi_scan_res) :=
  '(r, o) <- wifi_send_command WIFI_COMMAND_SCAN_R VNull 40960 (RList []) ;;
  ret (if r <? 0 then -1 else 0, match o with RList l => l | _ => [] end).

(** [wifi_get_block_scan_result(list, timeout)]; [l0] is the list before. *)
Fixpoint block_scan_loop (timeout : nat) (status : option Z) (l0 : list wifi_scan_res)
  : Mw (Z * list wifi_scan_res) :=
  '(r, st) <- wifi_get_status status ;;
  if r <? 0 then ret (-1, l0)
  else
    s <- read_int (RInt st) ;;
    match timeout with
    | O => '(r2, l) <- wifi_get_scan_result ;; ret (if r2 <? 0 then -1 else 0, l)
    | S t =>
        if negb (s =? WIFI_SCANING)
        then '(r2, l) <- wifi_get_scan_result ;; ret (if r2 <? 0 then -1 else 0, l)
        else exec_ (Sleep 1) ;; block_scan_loop t st l0
    end.

Definition wifi_get_block_scan_result (timeout : nat) (l0 : list wifi_scan_res)
  : Mw (Z * list wifi_scan_res) :=
  wifi_scan ;;
  block_scan_loop timeout (Some 0) l0.

Definition dhcp_reset : Mw unit := exec_ (System ("/etc/init.d/dhcpcd restart" ++ String LF "")).

(** The lengths of WEP keys, for which the scan list decides. *)
Definition wep_length (n : Z) : bool :=
  (n =? 5) || (n =? 13) || (n =? 16) || (n =? 10) || (n =? 26) || (n =? 32).

Definition is_wep_ap (net : wifi_network) (a : wifi_scan_res) : bool :=
  (key_mgmt a =? WIFI_KEY_WEP) && strncmp_eq (String.length (nw_ssid net)) (ssid a) (nw_ssid net).

(** A [SET_NETWORK]-like step of [wifi_join_network]: goes on with [k] or
    returns -2. *)
Definition join_step (cmd : wifi_cmd) (v : wpa_val) (net : wifi_network)
    (k : Mw (Z * wifi_network)) : Mw (Z * wifi_network) :=
  rr <- send_ok cmd v ;;
  if failed rr then ret (-2, net) else k.

(** The steps after the credentials are set. *)
Definition join_finish (net : wifi_network) : Mw (Z * wifi_network) :=
  join_step WIFI_COMMAND_SETNETWORK_SCANSSID (VNet net) net
    (join_step WIFI_COMMAND_SELECTNETWORK (VInt (nw_id net)) net
      (join_step WIFI_COMMAND_ENABLENETWORK (VInt (nw_id net)) net
        (dhcp_reset ;; ret (0, net)))).

(** The credentials: none, WEP or a pre-shared key. *)
Definition join_keys (net : wifi_network) (k : Mw (Z * wifi_network)) : Mw (Z * wifi_network) :=
  if nw_key_mgmt net =? WIFI_KEY_NONE then
    join_step WIFI_COMMAND_SETNETWORK_KEYMETH (VNet net) net k
  else if nw_key_mgmt net =? WIFI_KEY_WEP then
    join_step WIFI_COMMAND_SETNETWORK_KEYMETH (VNet net) net
      (join_step WIFI_COMMAND_SETNETWORK_AUTHALG (VStr (itoa (nw_id net) ++ "+SHARED OPEN")) net
        (join_step WIFI_COMMAND_SETNETWORK_WEPKEY0 (VNet net) net
          (join_step WIFI_COMMAND_SETNETWORK_WEPTXKEYID (VStr (itoa (nw_id net) ++ "+0")) net k)))
  else join_step WIFI_COMMAND_SETNETWORK_PSK (VNet net) net k.

(** The part of [wifi_join_network] after the WEP detection. *)
Definition join_configure (net : wifi_network) : Mw (Z * wifi_network) :=
  r <- wifi_blacklist_clear ;;
  if r <? 0 then ret (-1, net)
  else
    '(r, o) <- wifi_send_command WIFI_COMMAND_ADDNETWORK VNull 4 (RInt (Some (nw_id net))) ;;
    id <- read_int o ;;
    let net := set_nw_id id net in
    if r <? 0 then ret (-1, net)
    else join_step WIFI_COMMAND_SETNETWORK_SSID (VNet net) net
           (join_keys net (join_finish net)).

(** Returns the code and [*net] as it is left. *)
Definition wifi_join_network (net : wifi_network) : Mw (Z * wifi_network) :=
  if wep_length (strlen (nw_psk net)) then
    '(_, l) <- wifi_get_block_scan_result 3 [] ;;
    join_configure (if existsb (is_wep_ap net) l then set_nw_key_mgmt WIFI_KEY_WEP net else net)
  else join_configure net.

Definition SERVER_ADDRESS : string := "www.taobao.com".
Definition SERVER_ADDRESS_PUB_DNS : string := "180.76.76.76".

Definition ping_net_address (addr : string) : Mw Z :=
  r <- exec (System ("/bin/ping -c 1 -W 3  " ++ addr ++ " > /dev/null")) ;;
  if r =? 0 then ret 0
  else
    buffer <- exec (PopenFgets ("curl --connect-timeout 3 -s " ++ addr ++ " | grep " ++
                                quote ++ "html>" ++ quote ++ " | wc -l")) ;;
    ret (if strncmp_eq 1 buffer "2" then 0 else -2).

Definition network_get_status (status : option Z) : Mw (Z * option Z) :=
  '(r, st) <- wifi_get_status status ;;
  if r <? 0 then ret (-1, st)
  else
    s <- read_int (RInt st) ;;
    if s =? WIFI_CONNECTED then
      r1 <- ping_net_address SERVER_ADDRESS_PUB_DNS ;;
      if r1 =? 0 then ret (0, Some NETSERVER_CONNECTED)
      else
        r2 <- ping_net_address SERVER_ADDRESS ;;
        ret (0, Some (if r2 =? 0 then NETSERVER_CONNECTED else NETSERVER_UNCONNECTED))
    else ret (0, st).

Definition wifi_get_current_ssid : Mw (Z * string) :=
  '(r, o) <- wifi_send_command WIFI_COMMAND_GET_CURRENT_SSID VNull SSID_DEFAULT_LEN (RStr "") ;;
  ret (if r =? 0 then 0 else -1, match o with RStr s => s | _ => "" end).

Definition wifi_get_current_id : Mw (Z * Z) :=
  '(r, o) <- wifi_send_command WIFI_COMMAND_GET_CURRENT_ID VNull 4 (RInt (Some 0)) ;;
  id <- read_int o ;;
  ret (if r =? 0 then 0 else -1, id).

Definition wifi_get_current_password : Mw (Z * string) :=
  '(r, st) <- wifi_get_status (Some 0) ;;
  if r <? 0 then ret (-1, "")
  else
    s <- read_int (RInt st) ;;
    if s =? WIFI_CONNECTED then
      '(r1, id) <- wifi_get_current_id ;;
      if r1 <? 0 then ret (-3, "")
      else
        '(r2, o) <- wifi_send_command WIFI_COMMAND_GET_CURRENT_PSK (VInt id) PSK_WPA_HEX_LEN (RStr "") ;;
        let p := match o with RStr s => s | _ => "" end in
        if r2 <? 0 then ret (-4, p) else ret (0, p)
    else ret (-2, "").

Definition wifi_connect_moni_socket (path : string) : Mw Z :=
  opened <- exec (WpaCtrlOpen path) ;;
  upd (fun g => set_wev (set_monitor_conn opened (wev g)) g) ;;
  if negb opened then ret (-1)
  else
    a <- exec WpaCtrlAttach ;;
    if negb (a =? 0) then
      exec_ WpaCtrlClose ;;
      upd (fun g => set_wev (set_monitor_conn false (wev g)) g) ;; ret (-1)
    else
      s <- exec Socketpair ;;
      if s =? -1 then
        exec_ WpaCtrlClose ;;
        upd (fun g => set_wev (set_monitor_conn false (wev g)) g) ;; ret (-1)
      else ret 0.

(** [PollMonitor] answers the result of [poll] and whether the control
    socket is readable. *)
Definition wifi_ctrl_recv : Mw (Z * string) :=
  conn <- get (fun g => monitor_conn (wev g)) ;;
  if negb conn then ret (-1, "")
  else
    '(res, readable) <- exec PollMonitor ;;
    if res <? 0 then ret (res, "")
    else if 0 <? res then
      if (readable : bool) then exec WpaCtrlRecv else ret (-2, "")
    else ret (1, "").

Definition wifi_monitor_release : Mw unit :=
  exec_ WpaCtrlClose ;;
  upd (fun g => set_wev (set_monitor_conn false (wev g)) g).

(** The wait for [service.rokid.netmode.return], [ret] being the last value. *)
Fixpoint netmode_wait (cnts : nat) (r : Z) : Mw Z :=
  match cnts with
  | O => ret r
  | S n =>
      '(_, v) <- property_get 64 "service.rokid.netmode.return" (Some "2") ;;
      let r := atoi v in
      if negb (r =? 2) then ret r
      else exec_ (Sleep 1) ;; netmode_wait n r
  end.

(** [None] is a NULL argument. *)
Definition wifi_change_station_to_ap (ssid psk ip : option string) : Mw Z :=
  match ssid, psk, ip with
  | Some s, Some p, Some i =>
      exec_ (SysPropSet "ro.rokid.apssid" s) ;;
      exec_ (SysPropSet "ro.rokid.appsk" p) ;;
      exec_ (SysPropSet "ro.rokid.hostapdip" i)
  | _, _, _ => ret tt
  end ;;
  exec_ (SysPropSet "service.rokid.netmode.return" "2") ;;
  exec_ (SysPropSet "service.rokid.netmode" "1") ;;
  r <- netmode_wait 10 2 ;;
  exec_ (Sleep 1) ;;
  ret (if r =? 2 then -1 else r).

Definition wifi_change_ap_to_station : Mw Z :=
  exec_ (SysPropSet "service.rokid.netmode.return" "2") ;;
  exec_ (SysPropSet "service.rokid.netmode" "0") ;;
  r <- netmode_wait 10 2 ;;
  exec_ (Sleep 1) ;;
  ret (if r =? 2 then -1 else r).

Definition wifi_goto_lowermode (state : Z) : Mw unit :=
  if negb (state =? 0) then
    exec_ (System "iptables -A OUTPUT  -j DROP -o wlan0") ;;
    exec_ (System "iptables -A INPUT -j DROP -i wlan0")
  else exec_ (System "iptables -F").
End Client.

(** ** Footprint

    The client only talks to wpa_supplicant; the event socket is the one
    global it writes. *)

Section ClientKeeps.
Context {X : Type} {E : Env X} {F : Fuel} (I : view) `{!Quiet I}.
Local Notation K m := (keepsg (X := X) I m).

Lemma wifi_send_command_keeps cmd v n r : K (wifi_send_command cmd v n r).
Proof. unfold wifi_send_command. keepsg. Qed.
#[local] Hint Resolve wifi_send_command_keeps : keeps.

Lemma read_int_keeps r : K (read_int r).
Proof. unfold read_int. keepsg. Qed.
#[local] Hint Resolve read_int_keeps : keeps.

Lemma wifi_save_network_keeps : K (wifi_save_network).
Proof. keepsg_deep. Qed.

Lemma wifi_get_signal_keeps s : K (wifi_get_signal s).
Proof. keepsg_deep. Qed.

Lemma wifi_get_status_keeps s : K (wifi_get_status s).
Proof. keepsg_deep. Qed.

Lemma wifi_scan_keeps : K (wifi_scan).
Proof. keepsg_deep. Qed.

Lemma wifi_abort_scan_keeps : K (wifi_abort_scan).
Proof. keepsg_deep. Qed.

Lemma wifi_blacklist_clear_keeps : K (wifi_blacklist_clear).
Proof. keepsg_deep. Qed.

Lemma wifi_clear_scan_results_keeps : K (wifi_clear_scan_results).
Proof. keepsg_deep. Qed.

Lemma wifi_disable_network_keeps id : K (wifi_disable_network id).
Proof. keepsg_deep. Qed.

Lemma wifi_remove_network_keeps id : K (wifi_remove_network id).
Proof. keepsg_deep. Qed.

Lemma wifi_enable_network_keeps id : K (wifi_enable_network id).
Proof. keepsg_deep. Qed.

Lemma wifi_get_scan_result_keeps : K (wifi_get_scan_result).
Proof. keepsg_deep. Qed.

Lemma wifi_get_current_ssid_keeps : K (wifi_get_current_ssid).
Proof. keepsg_deep. Qed.

Lemma wifi_get_current_id_keeps : K (wifi_get_current_id).
Proof. keepsg_deep. Qed.

Lemma ping_net_address_keeps a : K (ping_net_address a).
Proof. keepsg_deep. Qed.

#[local] Hint Resolve wifi_get_status_keeps wifi_scan_keeps wifi_abort_scan_keeps
  wifi_blacklist_clear_keeps wifi_disable_network_keeps wifi_get_scan_result_keeps : keeps.

Lemma abort_scan_loop_keeps n : K (abort_scan_loop n).
Proof. induction n; cbn; keepsg. Qed.
#[local] Hint Resolve abort_scan_loop_keeps : keeps.

Lemma wifi_disable_all_network_keeps : K wifi_disable_all_network.
Proof. unfold wifi_disable_all_network. keepsg. Qed.

Lemma block_scan_loop_keeps n st l : K (block_scan_loop n st l).
Proof. revert st. induction n; intros; cbn; keepsg. Qed.
#[local] Hint Resolve block_scan_loop_keeps : keeps.

Lemma wifi_get_block_scan_result_keeps n l : K (wifi_get_block_scan_result n l).
Proof. unfold wifi_get_block_scan_result. keepsg. Qed.
#[local] Hint Resolve wifi_get_block_scan_result_keeps : keeps.

Lemma join_step_keeps cmd v n k : K k -> K (join_step cmd v n k).
Proof. intros. unfold join_step, send_ok. keepsg. Qed.
#[local] Hint Resolve join_step_keeps : keeps.

Lemma join_finish_keeps n : K (join_finish n).
Proof. unfold join_finish. repeat apply join_step_keeps. unfold dhcp_reset. keepsg. Qed.
#[local] Hint Resolve join_finish_keeps : keeps.

Lemma join_keys_keeps n k : K k -> K (join_keys n k).
Proof. intros. unfold join_keys. keepsg. Qed.
#[local] Hint Resolve join_keys_keeps : keeps.

Lemma wifi_join_network_keeps n : K (wifi_join_network n).
Proof. unfold wifi_join_network, join_configure. keepsg. Qed.

Lemma wifi_ctrl_recv_keeps : K wifi_ctrl_recv.
Proof. unfold wifi_ctrl_recv. keepsg. Qed.

Lemma wifi_connect_moni_socket_keeps `{!KeepsWev I} p : K (wifi_connect_moni_socket p).
Proof. unfold wifi_connect_moni_socket. keepsg. Qed.

Lemma wifi_monitor_release_keeps `{!KeepsWev I} : K wifi_monitor_release.
Proof. unfold wifi_monitor_release. keepsg. Qed.
End ClientKeeps.

#[export] Hint Resolve wifi_send_command_keeps read_int_keeps wifi_save_network_keeps wifi_get_signal_keeps wifi_get_status_keeps wifi_scan_keeps wifi_abort_scan_keeps wifi_blacklist_clear_keeps wifi_clear_scan_results_keeps wifi_disable_network_keeps wifi_remove_network_keeps wifi_enable_network_keeps wifi_get_scan_result_keeps wifi_get_current_ssid_keeps wifi_get_current_id_keeps ping_net_address_keeps
  wifi_disable_all_network_keeps wifi_get_block_scan_result_keeps wifi_join_network_keeps
  wifi_ctrl_recv_keeps wifi_connect_moni_socket_keeps wifi_monitor_release_keeps : keeps.
