(* ===== verification/WpaProofs.v ===== *)
(** * Theorems about the wpa_supplicant client

    Lines and scan results, the text of the requests and the bounds of their
    buffers, the parsing of replies, and the exchanges of the API. *)

From Stdlib Require Import ZArith List Bool Lia Ascii String.
From S2P Require Import Prelude CString CMonad Json NetEnv Demo ScanList WpaCommand.
Import ListNotations.
Open Scope string_scope.
Open Scope Z_scope.

(** ** Lines *)

(** [get_line_from_buf] ends on every buffer and gives the [index]-th line:
    the first line, then the non-empty ones; it reports the end of the lines and,
    in the model, a line that does not fit the caller's array. *)
Theorem get_line_from_buf_spec (cap index : Z) (buf : string) :
  0 <= index ->
  get_line_from_buf cap index buf =
    Some (match nth_error (lines buf) (Z.to_nat index) with
          | Some l => if strlen l <? cap then Line l else LineOverflow
          | None => NoLine
          end).
Proof. intros H. rewrite (get_line_from_buf_lines cap index buf H). reflexivity. Qed.

Lemma get_line_from_buf_spec_witness :
  0 <= 1 /\ get_line_from_buf 16 1 ("a" ++ String LF (String LF "bc")) = Some (Line "bc").
Proof.
  split; [lia|]. rewrite (get_line_from_buf_spec 16 1); [|lia]. vm_compute. reflexivity.
Defined.

(** ** Scan results *)

(** A line of [SCAN_RESULTS] whose fields fit their arrays. *)
Definition scan_line_fits (line : string) : Prop := strlen line < 512 /\ scan_ap "" line <> None.

Lemma scan_fold_total (ls : list string) (l : list wifi_scan_res) (kt : string) :
  Forall scan_line_fits ls ->
  exists l' kt', fold_lines 512 ls scan_r_body (l, kt) = Done (l', kt').
Proof.
  intros H. revert l kt. induction H as [|s ls [Hl Hs] _ IH]; intros l kt; cbn -[scan_r_body]; [eauto|].
  destruct (Z.ltb_spec (strlen s) 512) as [_|]; [|lia].
  unfold scan_r_body at 1. pose proof (scan_ap_stale kt s) as Hst.
  destruct (scan_ap kt s) as [[a k]|]; [|destruct (scan_ap "" s); [contradiction|congruence]].
  destruct (strlen _ =? 0); apply IH.
Qed.

(** C27: The scan list.  When the fields of the reply fit their arrays,
    [wpa_get_scan_r] succeeds; its list has one entry per (ssid, key management)
    pair, none without a name, at most 101 entries, which fit [ssid_list]; and
    unless it is full, each entry is an access point of the reply and each access
    point of the reply is represented by an entry at least as strong. *)
Theorem wpa_get_scan_r_spec (reply : string) :
  Forall scan_line_fits (tl (lines reply)) ->
  exists l, wpa_get_scan_r reply [] = Some l /\ scan_list_ok l /\
    Z.of_nat (List.length l) * sizeof_scan_res <= sizeof_ssid_list /\
    ((List.length l <= 100)%nat -> strongest_of (filter_map ap_of_line (tl (lines reply))) l).
Proof.
  intros H. destruct (scan_fold_total _ [] "" H) as (l & kt & E).
  assert (Hl : wpa_get_scan_r reply [] = Some l).
  { unfold wpa_get_scan_r. rewrite for_lines_fold by lia.
    replace (skipn (Z.to_nat 1) (lines reply)) with (tl (lines reply)) by (destruct (lines reply); reflexivity).
    rewrite E. reflexivity. }
  exists l. destruct (wpa_get_scan_r_inv _ _ Hl) as [Hok Hst].
  repeat split; try apply Hok; auto; try (now apply Hst). now apply scan_list_fits.
Qed.

Definition scan_reply : string :=
  "bssid / frequency / signal level / flags / ssid" ++ String LF (
  "00:11:22:33:44:55" ++ String TAB "2412" ++ String TAB "-60" ++ String TAB "[WPA2-PSK-CCMP][ESS]" ++
  String TAB "home" ++ String LF (
  "00:11:22:33:44:66" ++ String TAB "5180" ++ String TAB "-40" ++ String TAB "[WPA2-PSK-CCMP][ESS]" ++
  String TAB "home")).

Lemma wpa_get_scan_r_spec_witness :
  exists l, wpa_get_scan_r scan_reply [] = Some l /\ map (fun a => (ssid a, sig a)) l = [("home", -40)].
Proof.
  destruct (wpa_get_scan_r_spec scan_reply) as (l & Hl & _).
  - repeat constructor; vm_compute; congruence.
  - exists l. split; [exact Hl|]. vm_compute in Hl. injection Hl as <-. reflexivity.
Defined.

(** ** GBK *)

(** Strings of one-byte (ASCII) and two-byte (lead 0x81-0xFE, trail 0x40-0xFE)
    characters. *)
Inductive gbk : string -> Prop :=
| gbk_nil : gbk ""
| gbk_ascii c s : ord c < 128 -> gbk s -> gbk (String c s)
| gbk_pair c d s : 129 <= ord c <= 254 -> 64 <= ord d <= 254 -> gbk s -> gbk (String c (String d s)).

Lemma gbk_loop_sound n : forall s, (String.length s <= n)%nat -> gbk_loop s 0 = true -> gbk s.
Proof.
  induction n as [|n IH]; intros [|c s] Hl H; [constructor|cbn in Hl; lia|constructor|].
  cbn in H, Hl. destruct (Z.leb_spec 128 (ord c)).
  - destruct ((129 <=? ord c) && (ord c <=? 254)) eqn:Hc; [|discriminate].
    destruct s as [|d s]; [discriminate|]. cbn in H.
    destruct ((ord d <? 64) || (254 <? ord d)) eqn:Hd; [discriminate|]. bool_hyps.
    apply gbk_pair; [lia|lia|]. apply IH; [cbn in Hl; lia|exact H].
  - apply gbk_ascii; [lia|]. apply IH; [lia|exact H].
Qed.

(** [is_str_gbk] accepts exactly the strings of one- and two-byte GBK
    characters. *)
Theorem is_str_gbk_spec (s : string) : is_str_gbk s = true <-> gbk s.
Proof.
  split; [apply (gbk_loop_sound (String.length s)); lia|].
  unfold is_str_gbk. induction 1 as [|c s Hc _ IH|c d s Hc Hd _ IH]; [reflexivity| |]; cbn.
  - destruct (Z.leb_spec 128 (ord c)); [lia|exact IH].
  - destruct (Z.leb_spec 128 (ord c)); [|lia].
    destruct (Z.leb_spec 129 (ord c)), (Z.leb_spec (ord c) 254); try lia. cbn.
    destruct (Z.ltb_spec (ord d) 64), (Z.ltb_spec 254 (ord d)); try lia. exact IH.
Qed.

(** ** Requests *)

Definition int32 (z : Z) : Prop := - 2 ^ 31 <= z < 2 ^ 31.

(** The values the API passes with each command: a network whose name and key
    fit [ssid[36]] and [psk[68]], a network id, the WEP strings built from an id,
    a frequency list. *)
Definition net_fits (n : wifi_network) : Prop :=
  int32 (nw_id n) /\ strlen (nw_ssid n) < 36 /\ strlen (nw_psk n) < 68.

Definition value_fits (cmd : wifi_cmd) (v : wpa_val) : Prop :=
  match cmd with
  | WIFI_COMMAND_SETNETWORK_SSID | WIFI_COMMAND_SETNETWORK_SCANSSID | WIFI_COMMAND_SETNETWORK_PSK
  | WIFI_COMMAND_SETNETWORK_WEPKEY0 | WIFI_COMMAND_SETNETWORK_KEYMETH => exists n, v = VNet n /\ net_fits n
  | WIFI_COMMAND_SETNETWORK_AUTHALG => exists id, v = VStr (itoa id ++ "+SHARED OPEN") /\ int32 id
  | WIFI_COMMAND_SETNETWORK_WEPTXKEYID => exists id, v = VStr (itoa id ++ "+0") /\ int32 id
  | WIFI_COMMAND_ENABLENETWORK | WIFI_COMMAND_SELECTNETWORK | WIFI_COMMAND_DISABLENETWORK
  | WIFI_COMMAND_REMOVENETWORK | WIFI_COMMAND_GET_CURRENT_PSK => exists id, v = VInt id /\ int32 id
  | WIFI_COMMAND_SCAN => v = VNull \/ exists s, v = VStr s /\ strlen s <= 122
  | _ => v = VNull
  end.

Lemma strlen_app a b : strlen (a ++ b) = strlen a + strlen b.
Proof. unfold strlen. rewrite string_length_app. lia. Qed.

Lemma strlen_itoa z : int32 z -> strlen (itoa z) <= 11.
Proof. intros H. pose proof (itoa_length z H). unfold strlen. lia. Qed.

Lemma strlen_cons c s : strlen (String c s) = 1 + strlen s.
Proof. unfold strlen. cbn [String.length]. lia. Qed.

Lemma strlen_nonneg s : 0 <= strlen s.
Proof. unfold strlen. lia. Qed.

Lemma into_command_fits s : strlen s < 128 -> into_command s = Text s.
Proof. intros H. unfold into_command. destruct (Z.leb_spec 128 (strlen s)); [lia|reflexivity]. Qed.

(** A printed number contains no plus sign. *)
Lemma strstr_digit d r : 0 <= d < 10 -> strstr (String (digit d) r) "+" = strstr r "+".
Proof.
  intros Hd. cbn [strstr prefix]. destruct (ascii_dec "+" (digit d)) as [E|]; [|reflexivity].
  destruct (digit_not_sign d Hd) as [_ H]. rewrite <- E in H. discriminate.
Qed.

Lemma strstr_print_nat k m s : 0 <= m -> strstr (print_nat k m ++ s) "+" = strstr s "+".
Proof.
  revert m s. induction k as [|k IH]; intros m s Hm; [reflexivity|]. cbn [print_nat].
  destruct (Z.ltb_spec m 10); [cbn [append]; apply strstr_digit; lia|].
  rewrite string_app_assoc, IH by (apply Z.div_pos; lia). cbn [append].
  apply strstr_digit, Z.mod_pos_bound. lia.
Qed.

Lemma strstr_itoa z p : strstr (itoa z ++ String "+" p) "+" = Some (String "+" p).
Proof.
  unfold itoa. destruct (Z.ltb_spec z 0); cbn [append strstr prefix].
  - destruct (ascii_dec "+" "-") as [E|_]; [discriminate E|].
    rewrite strstr_print_nat by lia. destruct p; reflexivity.
  - rewrite strstr_print_nat by lia. destruct p; reflexivity.
Qed.

Lemma wep_text_spec mid id p : int32 id -> strlen p <= 20 -> strlen mid <= 40 ->
  wep_text mid (itoa id ++ String "+" p) = Text ("SET_NETWORK " ++ itoa id ++ mid ++ p).
Proof.
  intros Hid Hp Hm. pose proof (strlen_itoa id Hid). unfold wep_text.
  rewrite strlen_app, strlen_cons. destruct (Z.leb_spec 36 (strlen (itoa id) + (1 + strlen p))); [lia|].
  rewrite strstr_itoa, string_length_app.
  replace (String.length (itoa id) + String.length (String "+" p) - String.length (String "+" p))%nat
    with (String.length (itoa id)) by lia.
  rewrite substring_app. replace (advance 1 (String "+" p)) with p by (destruct p; reflexivity).
  destruct (Z.leb_spec 35 (strlen (itoa id))); [lia|]. destruct (Z.leb_spec 35 (strlen p)); [lia|]. cbn [orb].
  rewrite atoi_itoa by exact Hid. apply into_command_fits. rewrite !strlen_app.
  change (strlen "SET_NETWORK ") with 12. lia.
Qed.

(** The WEP parameters survive their detour.  [wifi_join_network] prints the
    network id and the parameter into one string at a plus sign and
    [wifi_send_command] splits it again; the request carries the same id and
    parameter. *)
Theorem wep_commands_spec (id : Z) :
  int32 id ->
  command_text WIFI_COMMAND_SETNETWORK_AUTHALG (VStr (itoa id ++ "+SHARED OPEN")) =
    Text ("SET_NETWORK " ++ itoa id ++ " auth_alg SHARED OPEN") /\
  command_text WIFI_COMMAND_SETNETWORK_WEPTXKEYID (VStr (itoa id ++ "+0")) =
    Text ("SET_NETWORK " ++ itoa id ++ " wep_tx_keyidx 0").
Proof.
  intros H. split; cbn [command_text].
  - rewrite wep_text_spec; [reflexivity|exact H|vm_compute; discriminate..].
  - rewrite wep_text_spec; [reflexivity|exact H|vm_compute; discriminate..].
Qed.

Lemma wep_commands_spec_witness :
  int32 7 /\ command_text WIFI_COMMAND_SETNETWORK_WEPTXKEYID (VStr "7+0") = Text "SET_NETWORK 7 wep_tx_keyidx 0".
Proof.
  assert (H : int32 7) by (unfold int32; lia). split; [exact H|].
  destruct (wep_commands_spec 7 H) as [_ E]. exact E.
Defined.

(** Lengths of the constant parts of the requests. *)
Ltac strlens :=
  rewrite ?strlen_app; change (strlen quote) with 1;
  repeat match goal with |- context [strlen (String ?c ?s)] =>
    let n := eval vm_compute in (strlen (String c s)) in change (strlen (String c s)) with n end; lia.

(** No request overflows [command[128]].  For every command and every value
    the API passes with it, building the request does not fault, and its text,
    unless the function returns early, has fewer than 128 characters. *)
Theorem command_text_fits (cmd : wifi_cmd) (v : wpa_val) :
  value_fits cmd v ->
  match command_text cmd v with
  | Text s => strlen s < 128
  | Return _ => True
  | Bad _ => False
  end.
Proof.
  assert (Hin : forall s, strlen s < 128 ->
    match into_command s with Text s => strlen s < 128 | Return _ => True | Bad _ => False end)
    by (intros s Hs; rewrite into_command_fits by exact Hs; exact Hs).
  destruct cmd; cbn [value_fits command_text]; intros H;
    try (subst v; reflexivity);
    try (destruct H as (n & -> & (Hi & Hs & Hp)); pose proof (strlen_itoa _ Hi));
    try (destruct H as (id & -> & Hi); pose proof (strlen_itoa _ Hi)).
  1: destruct H as [-> |(s & -> & Hs)]; [reflexivity|apply Hin; strlens].
  all: try (rewrite wep_text_spec; [strlens|exact Hi|vm_compute; discriminate..]).
  all: repeat match goal with |- context [if ?b then _ else _] => destruct b end.
  all: try exact Logic.I; try reflexivity; apply Hin; strlens.
Qed.

Lemma command_text_fits_witness :
  let n := mk_wifi_network 3 "home" "secret-key" WIFI_KEY_WPA2PSK in
  value_fits WIFI_COMMAND_SETNETWORK_PSK (VNet n) /\
  match command_text WIFI_COMMAND_SETNETWORK_PSK (VNet n) with
  | Text s => strlen s < 128 | Return _ => True | Bad _ => False
  end.
Proof.
  cbv zeta. assert (H : value_fits WIFI_COMMAND_SETNETWORK_PSK (VNet (mk_wifi_network 3 "home" "secret-key" 0))).
  { eexists. split; [reflexivity|]. repeat split; cbn; try lia. }
  split; [exact H|]. exact (command_text_fits WIFI_COMMAND_SETNETWORK_PSK _ H).
Defined.

(** ** Replies *)

(** Every line of the reply fits [line[256]]. *)
Definition lines_fit (reply : string) : Prop := Forall (fun l => strlen l < 256) (lines reply).

(** The link state a [STATUS] reply tells: the first line with a state that is
    COMPLETED or SCANNING decides. *)
Definition tells_state (line : string) : bool :=
  strstr_b line "wpa_state=COMPLETED" || strstr_b line "wpa_state=SCANNING".

Definition link_state (ls : list string) : Z :=
  match find tells_state ls with
  | Some l => if strstr_b l "wpa_state=COMPLETED" then WIFI_CONNECTED else WIFI_SCANING
  | None => WIFI_UNCONNECTED
  end.

Lemma status_fold ls old : Forall (fun l => strlen l < 256) ls -> ls <> [] ->
  match fold_lines 256 ls
      (fun line (_ : option Z) =>
         if strstr_b line "wpa_state=COMPLETED" then Break (AOk (RInt (Some WIFI_CONNECTED)))
         else if strstr_b line "wpa_state=SCANNING" then Break (AOk (RInt (Some WIFI_SCANING)))
         else Next (Some WIFI_UNCONNECTED)) old with
  | Done v => AOk (RInt v)
  | Broke r => r
  | Overflowed => ABad BufferOverflow
  end = AOk (RInt (Some (link_state ls))).
Proof.
  intros H Hne. unfold link_state.
  revert old Hne. induction H as [|l ls Hl H IH]; intros old Hne; [congruence|]. clear Hne. cbn.
  destruct (Z.ltb_spec (strlen l) 256) as [_|]; [|lia]. unfold tells_state at 1.
  destruct (strstr_b l "wpa_state=COMPLETED") eqn:E1; cbn [orb]; [rewrite E1; reflexivity|].
  destruct (strstr_b l "wpa_state=SCANNING") eqn:E2; [rewrite E1; reflexivity|].
  destruct ls as [|l' ls]; [reflexivity|]. apply IH. discriminate.
Qed.

Lemma lines_cons s : lines s <> [].
Proof. unfold lines. destruct (split_eol_cons s) as (h & t & ->). discriminate. Qed.

(** The reply to [STATUS].  On every reply whose lines fit the line array,
    the analysis gives the link state: connected or scanning according to the
    first line that carries one of the two states, unconnected when none does. *)
Theorem status_reply_spec (reply : string) (old : option Z) :
  lines_fit reply ->
  wifi_reply_analyse WIFI_COMMAND_GET_STATUS reply 4 (RInt old) = AOk (RInt (Some (link_state (lines reply)))).
Proof.
  intros H. cbn [wifi_reply_analyse wifi_command_pack_sum]. unfold status_value, from_loop.
  rewrite for_lines_fold by lia. change (Z.to_nat 0) with 0%nat. cbn [skipn].
  rewrite <- (status_fold (lines reply) old H (lines_cons reply)).
  now destruct (fold_lines _ _ _ _).
Qed.

Lemma status_reply_spec_witness :
  let reply := "bssid=00:11" ++ String LF ("wpa_state=SCANNING" ++ String LF "address=0") in
  lines_fit reply /\ wifi_reply_analyse WIFI_COMMAND_GET_STATUS reply 4 (RInt None) = AOk (RInt (Some WIFI_SCANING)).
Proof.
  cbv zeta. match goal with |- lines_fit ?r /\ _ => assert (H : lines_fit r) end.
  { repeat constructor. }
  split; [exact H|]. rewrite (status_reply_spec _ None H). vm_compute. reflexivity.
Defined.

(** ** Hardware addresses *)

Definition mac_text (m : list Z) : string := String.concat ":" (map hexpair m).

Lemma byte_digits b : 0 <= b < 256 ->
  (a2x (Some (hexdigit (b / 16))) * 16 + a2x (Some (hexdigit (b mod 16)))) mod 256 = b.
Proof.
  intros H. unfold a2x. rewrite !hexval_hexdigit.
  - pose proof (Z.div_mod b 16). rewrite Z.mod_small; lia.
  - apply Z.mod_pos_bound. lia.
  - split; [apply Z.div_pos; lia|apply Z.div_lt_upper_bound; lia].
Qed.

(** Hardware addresses round-trip: [COPY_STR2MAC] reads back the six bytes
    of a printed address. *)
Theorem mac_roundtrip (b0 b1 b2 b3 b4 b5 : Z) :
  Forall (fun b => 0 <= b < 256) [b0; b1; b2; b3; b4; b5] ->
  COPY_STR2MAC (mac_text [b0; b1; b2; b3; b4; b5]) = [b0; b1; b2; b3; b4; b5].
Proof.
  intros H. repeat match goal with H : Forall _ (_ :: _) |- _ => inversion H; clear H; subst end.
  unfold COPY_STR2MAC, mac_text. cbn [map String.concat].
  unfold hexpair. cbn -[hexdigit Z.div Z.modulo a2x Z.mul Z.add].
  repeat f_equal; apply byte_digits; assumption.
Qed.

Lemma mac_roundtrip_witness :
  COPY_STR2MAC "02:1a:ff:00:9c:7e" = [2; 26; 255; 0; 156; 126].
Proof. apply (mac_roundtrip 2 26 255 0 156 126). repeat constructor; lia. Defined.

(** ** Exchanges *)

(** The requests in a log, the latest first. *)
Definition requests (l : list call) : list string :=
  flat_map (fun c => match c with WpaCtrlRequest r => [r] | _ => [] end) l.

Lemma scan_d_itoa id t : 0 <= id < 2 ^ 31 -> ends_number t -> exists r, scan_d (itoa id ++ t) = Some (id, r).
Proof.
  intros Hid Ht. pose proof (atoi_itoa_app id t ltac:(lia) Ht) as Ha. unfold atoi, scan_d, itoa in *.
  destruct (Z.ltb_spec id 0); [lia|].
  destruct (print_nat_first 20 id) as (d & s & E & Hd); [lia|lia|]. rewrite E in *.
  cbn [append skip_space] in *. rewrite digit_not_space in * by lia. cbn [read_sign] in *.
  destruct (digit_not_sign d Hd) as [H1 H2]. rewrite H1, H2 in *. rewrite digit_isdigit by lia.
  destruct (read_digits 0 _) as [v r] eqn:Ev. cbn [fst] in Ha. rewrite Ha. eauto.
Qed.

Section Exchange.
Context {X : Type} {E : Env X} {F : Fuel}.

(** [m] makes the requests [rs], the latest first, returns [a] and writes no
    global. *)
Definition asks (rs : list string) {A} (m : M (world X) A) (a : A) : Prop :=
  forall w, exists w', m w = Ret a w' /\ wg w' = wg w /\
    requests (wlog w') = (rs ++ requests (wlog w))%list.

Lemma asks_ret {A} (a : A) : asks [] (ret a) a.
Proof. intros w. exists w. auto. Qed.

Lemma asks_bind {A B} rs1 rs2 (m : M (world X) A) (k : A -> M (world X) B) a b :
  asks rs1 m a -> asks rs2 (k a) b -> asks (rs2 ++ rs1) (bind m k) b.
Proof.
  intros Hm Hk w. destruct (Hm w) as (w1 & E1 & G1 & R1). destruct (Hk w1) as (w2 & E2 & G2 & R2).
  exists w2. unfold bind. rewrite E1, E2. repeat split; [congruence|].
  rewrite R2, R1, app_assoc. reflexivity.
Qed.

(** wpa_supplicant is there and answers [r] with [reply]. *)
Definition answers (r reply : string) : Prop :=
  (forall p x, fst (ext (WpaCtrlOpen p) x) = true) /\
  (forall x, fst (ext (WpaCtrlRequest r) x) = Some reply) /\ strlen reply < 4095.

Lemma asks_command cmd v n res r reply res' :
  command_text cmd v = Text r -> answers r reply ->
  wifi_reply_analyse cmd reply n res = AOk res' ->
  asks [r] (wifi_send_command cmd v n res) (0, res').
Proof.
  intros Ht (Ho & Ha & Hl) Hr w. unfold wifi_send_command, exec_, bind, exec. rewrite Ht.
  pose proof (Ho WIFI_WPA_CTRL_PATH (wx w)) as H1.
  destruct (ext (WpaCtrlOpen WIFI_WPA_CTRL_PATH) (wx w)) as [o x1]. cbn in H1. subst o. cbn.
  pose proof (Ha x1) as H2. destruct (ext (WpaCtrlRequest r) x1) as [o x2]. cbn in H2. subst o.
  destruct (Z.leb_spec 4095 (strlen reply)); [lia|]. rewrite Hr. cbn.
  destruct (ext WpaCtrlClose x2) as [u x3]. cbn. eexists. split; [reflexivity|]. split; reflexivity.
Qed.

(** A command answered by [OK]. *)
Lemma asks_ok cmd v r t :
  wifi_command_pack_sum cmd = WIFI_COMMAND_ACK_OK -> command_text cmd v = Text r ->
  answers r ("OK" ++ t) -> asks [r] (send_ok cmd v) (0, 0).
Proof.
  intros Hack Ht Ha. unfold send_ok.
  apply (asks_bind [r] [] _ _ (0, RInt (Some 0))).
  - eapply asks_command; [exact Ht|exact Ha|]. unfold wifi_reply_analyse. rewrite Hack. reflexivity.
  - apply (asks_bind [] [] _ _ 0); apply asks_ret.
Qed.

Lemma asks_join_step cmd v r t net rs (k : M (world X) (Z * wifi_network)) b :
  wifi_command_pack_sum cmd = WIFI_COMMAND_ACK_OK -> command_text cmd v = Text r ->
  answers r ("OK" ++ t) -> asks rs k b -> asks (rs ++ [r]) (join_step cmd v net k) b.
Proof.
  intros Hack Ht Ha Hk. unfold join_step. eapply asks_bind; [eapply asks_ok; eassumption|exact Hk].
Qed.

(** wpa_supplicant answers each of the requests by [OK]. *)
Definition accepts (rs : list string) : Prop := forall r, In r rs -> exists t, answers r ("OK" ++ t).

(** The requests that configure a network with a pre-shared key, in order. *)
Definition join_settings (id : Z) (ssid psk_arg : string) : list string :=
  ["SET_NETWORK " ++ itoa id ++ " ssid " ++ quote ++ ssid ++ quote;
   "SET_NETWORK " ++ itoa id ++ " psk " ++ psk_arg;
   "SET_NETWORK " ++ itoa id ++ " scan_ssid 1";
   "SELECT_NETWORK " ++ itoa id;
   "ENABLE_NETWORK  " ++ itoa id].

(** The key as the request carries it: quoted when it is a passphrase, bare
    when it is a 64-digit key. *)
Definition psk_argument (psk : string) : string :=
  if strlen psk <? PSK_WPA_HEX_LEN then quote ++ psk ++ quote else psk.

Lemma psk_text n : net_fits n ->
  command_text WIFI_COMMAND_SETNETWORK_PSK (VNet n) =
  Text ("SET_NETWORK " ++ itoa (nw_id n) ++ " psk " ++ psk_argument (nw_psk n)).
Proof.
  intros (Hi & Hs & Hp). pose proof (strlen_itoa _ Hi). cbn [command_text]. unfold psk_argument.
  destruct (_ <? _); apply into_command_fits; strlens.
Qed.

Lemma ssid_text n : net_fits n ->
  command_text WIFI_COMMAND_SETNETWORK_SSID (VNet n) =
  Text ("SET_NETWORK " ++ itoa (nw_id n) ++ " ssid " ++ quote ++ nw_ssid n ++ quote).
Proof.
  intros (Hi & Hs & Hp). pose proof (strlen_itoa _ Hi). apply into_command_fits. strlens.
Qed.

Lemma scan_ssid_text n : net_fits n ->
  command_text WIFI_COMMAND_SETNETWORK_SCANSSID (VNet n) =
  Text ("SET_NETWORK " ++ itoa (nw_id n) ++ " scan_ssid 1").
Proof. intros (Hi & _). pose proof (strlen_itoa _ Hi). apply into_command_fits. strlens. Qed.

Lemma select_text i : int32 i ->
  command_text WIFI_COMMAND_SELECTNETWORK (VInt i) = Text ("SELECT_NETWORK " ++ itoa i).
Proof. intros Hi. pose proof (strlen_itoa _ Hi). apply into_command_fits. strlens. Qed.

Lemma enable_text i : int32 i -> i <> WPA_ALL_NETWORK ->
  command_text WIFI_COMMAND_ENABLENETWORK (VInt i) = Text ("ENABLE_NETWORK  " ++ itoa i).
Proof.
  intros Hi Ha. pose proof (strlen_itoa _ Hi). cbn [command_text].
  destruct (Z.eqb_spec i WPA_ALL_NETWORK); [contradiction|]. apply into_command_fits. strlens.
Qed.

Lemma asks_exec_ c : requests [c] = [] -> asks [] (exec_ c) tt.
Proof.
  intros Hc w. unfold exec_, exec, bind, ret. destruct (ext c (wx w)) as [o x]. eexists.
  split; [reflexivity|]. split; [reflexivity|]. destruct c; try discriminate Hc; reflexivity.
Qed.

Lemma asks_join_finish n : net_fits n -> 0 <= nw_id n ->
  accepts (join_settings (nw_id n) (nw_ssid n) (psk_argument (nw_psk n))) ->
  asks ["ENABLE_NETWORK  " ++ itoa (nw_id n); "SELECT_NETWORK " ++ itoa (nw_id n);
        "SET_NETWORK " ++ itoa (nw_id n) ++ " scan_ssid 1"] (join_finish n) (0, n).
Proof.
  intros Hn H0 Ha. assert (Hi : int32 (nw_id n)) by apply Hn.
  destruct (Ha ("SET_NETWORK " ++ itoa (nw_id n) ++ " scan_ssid 1")) as [t1 H1]; [cbn; auto|].
  destruct (Ha ("SELECT_NETWORK " ++ itoa (nw_id n))) as [t2 H2]; [cbn; auto|].
  destruct (Ha ("ENABLE_NETWORK  " ++ itoa (nw_id n))) as [t3 H3]; [cbn; auto 6|].
  unfold join_finish.
  eapply (asks_join_step _ _ _ t1 n [_; _]); [reflexivity|now apply scan_ssid_text|exact H1|].
  eapply (asks_join_step _ _ _ t2 n [_]); [reflexivity|now apply select_text|exact H2|].
  eapply (asks_join_step _ _ _ t3 n []); [reflexivity|apply enable_text; [exact Hi|unfold WPA_ALL_NETWORK; lia]|exact H3|].
  apply (asks_bind [] [] _ _ tt); [now apply asks_exec_|apply asks_ret].
Qed.

Lemma asks_add_network id rest old : 0 <= id < 2 ^ 31 -> ends_number rest -> answers "ADD_NETWORK" (itoa id ++ rest) ->
  asks ["ADD_NETWORK"] (wifi_send_command WIFI_COMMAND_ADDNETWORK VNull 4 (RInt (Some old))) (0, RInt (Some id)).
Proof.
  intros Hid He Ha. eapply asks_command; [reflexivity|exact Ha|]. cbn -[itoa scan_d skip_space String.append].
  destruct (scan_d_itoa id rest Hid He) as [r Hr]. rewrite Hr.
  unfold scan_d in Hr. destruct (skip_space (itoa id ++ rest)); [discriminate Hr|reflexivity].
Qed.

Lemma asks_blacklist t : answers "BLACKLIST clear" ("OK" ++ t) -> asks ["BLACKLIST clear"] wifi_blacklist_clear 0.
Proof.
  intros Ha. unfold wifi_blacklist_clear, simple_ok.
  apply (asks_bind ["BLACKLIST clear"] [] _ _ (0, 0)); [eapply asks_ok; [reflexivity|reflexivity|exact Ha]|apply asks_ret].
Qed.

(** C26: Joining a WPA network: the name has less than 36 characters, the key less
    than 68 and not 5, 10, 13, 16, 26 or 32, for which the networks in reach are
    asked for first, and the key management is neither none nor WEP.  When
    wpa_supplicant answers ADD_NETWORK with a number that the end of the text or
    another character, its newline, follows, and accepts the other requests,
    [wifi_join_network] returns 0 with that id recorded, and its requests are
    exactly: clear the blacklist, add a network, set its name, its key and
    scan_ssid, select it and enable it. *)
Theorem wifi_join_network_spec (net : wifi_network) (id : Z) (rest : string) (w : world X) :
  0 <= id < 2 ^ 31 -> strlen (nw_ssid net) < 36 -> strlen (nw_psk net) < 68 ->
  wep_length (strlen (nw_psk net)) = false ->
  nw_key_mgmt net <> WIFI_KEY_NONE -> nw_key_mgmt net <> WIFI_KEY_WEP ->
  ends_number rest -> answers "ADD_NETWORK" (itoa id ++ rest) ->
  accepts ("BLACKLIST clear" :: join_settings id (nw_ssid net) (psk_argument (nw_psk net))) ->
  exists w', wifi_join_network net w = Ret (0, set_nw_id id net) w' /\ wg w' = wg w /\
    requests (wlog w') =
      (rev ("BLACKLIST clear" :: "ADD_NETWORK" :: join_settings id (nw_ssid net) (psk_argument (nw_psk net)))
       ++ requests (wlog w))%list.
Proof.
  intros Hid Hs Hp Hw Hn1 Hn2 He Hadd Hok. set (n := set_nw_id id net).
  assert (Hn : net_fits n) by (repeat split; cbn; try assumption; lia).
  destruct (Hok "BLACKLIST clear") as [t0 H0]; [now left|].
  assert (Ha : accepts (join_settings (nw_id n) (nw_ssid n) (psk_argument (nw_psk n))))
    by (intros r Hr; apply Hok; now right).
  destruct (Ha ("SET_NETWORK " ++ itoa id ++ " ssid " ++ quote ++ nw_ssid net ++ quote)) as [t1 H1]; [now left|].
  destruct (Ha ("SET_NETWORK " ++ itoa id ++ " psk " ++ psk_argument (nw_psk net))) as [t2 H2]; [right; now left|].
  unfold wifi_join_network. rewrite Hw. unfold join_configure. revert w.
  change (asks (rev ("BLACKLIST clear" :: "ADD_NETWORK" :: join_settings id (nw_ssid net) (psk_argument (nw_psk net))))
    (join_configure net) (0, n)).
  apply (asks_bind ["BLACKLIST clear"] [_; _; _; _; _; _] _ _ 0); [exact (asks_blacklist t0 H0)|]. cbn [Z.ltb].
  apply (asks_bind ["ADD_NETWORK"] [_; _; _; _; _] _ _ (0, RInt (Some id))); [now apply (asks_add_network id rest)|].
  apply (asks_bind [] [_; _; _; _; _] _ _ id); [apply asks_ret|]. fold n. change (0 <? 0) with false. cbv iota.
  apply (asks_join_step _ _ _ t1 n [_; _; _; _]); [reflexivity|exact (ssid_text n Hn)|exact H1|].
  unfold join_keys. change (nw_key_mgmt n) with (nw_key_mgmt net).
  destruct (Z.eqb_spec (nw_key_mgmt net) WIFI_KEY_NONE); [contradiction|].
  destruct (Z.eqb_spec (nw_key_mgmt net) WIFI_KEY_WEP); [contradiction|].
  apply (asks_join_step _ _ _ t2 n [_; _; _]); [reflexivity|exact (psk_text n Hn)|exact H2|].
  apply (asks_join_finish n Hn); [cbn; lia|exact Ha].
Qed.

(** Disabling the networks.  When wpa_supplicant accepts ABORT_SCAN,
    [wifi_disable_all_network] aborts the scan, disables every network and
    returns 0; when it keeps refusing ABORT_SCAN, the loop does not end however
    long it is followed. *)
Theorem wifi_disable_all_network_spec (w : world X) :
  (0 < F)%nat ->
  (forall t1 t2, answers "ABORT_SCAN" ("OK" ++ t1) -> answers "DISABLE_NETWORK all" ("OK" ++ t2) ->
     exists w', wifi_disable_all_network w = Ret 0 w' /\
       requests (wlog w') = "DISABLE_NETWORK all" :: "ABORT_SCAN" :: requests (wlog w)) /\
  (forall reply, strncmp_eq 2 reply "OK" = false -> answers "ABORT_SCAN" reply ->
     wifi_disable_all_network w = Fault Hang).
Proof.
  intros Hf. split.
  - intros t1 t2 H1 H2. destruct F as [|f] eqn:EF; [lia|].
    assert (Ha : asks ["ABORT_SCAN"] (abort_scan_loop (S f)) tt).
    { cbn. apply (asks_bind ["ABORT_SCAN"] [] _ _ 0); [|apply asks_ret].
      apply (asks_bind ["ABORT_SCAN"] [] _ _ (0, 0)); [eapply asks_ok; [reflexivity|reflexivity|exact H1]|apply asks_ret]. }
    assert (Hd : asks ["DISABLE_NETWORK all"] (wifi_disable_network WPA_ALL_NETWORK) 0).
    { apply (asks_bind ["DISABLE_NETWORK all"] [] _ _ (0, 0)); [eapply asks_ok; [reflexivity|reflexivity|exact H2]|apply asks_ret]. }
    destruct (asks_bind _ _ _ (fun _ => wifi_disable_network WPA_ALL_NETWORK) _ _ Ha Hd w) as (w' & E1 & _ & R).
    exists w'. split; [|exact R]. unfold wifi_disable_all_network, fuel. exact E1.
  - intros reply Hr Ha.
    assert (Habort : asks ["ABORT_SCAN"] wifi_abort_scan (-1)).
    { apply (asks_bind ["ABORT_SCAN"] [] _ _ (0, -1)); [|apply asks_ret].
      apply (asks_bind ["ABORT_SCAN"] [] _ _ (0, RInt (Some (-1)))).
      - eapply asks_command; [reflexivity|exact Ha|]. unfold wifi_reply_analyse.
        cbn [wifi_command_pack_sum]. change (Z.to_nat (if 2 <? 4 then 2 else 4)) with 2%nat.
        rewrite Hr. reflexivity.
      - apply (asks_bind [] [] _ _ (-1)); apply asks_ret. }
    assert (Hl : forall n w, abort_scan_loop n w = Fault Hang).
    { induction n as [|n IH]; intros v; [reflexivity|]. cbn [abort_scan_loop]. unfold bind.
      destruct (Habort v) as (v1 & -> & _). cbn.
      destruct (asks_exec_ (Sleep 1) eq_refl v1) as (v2 & E2 & _). unfold bind in E2. rewrite E2. apply IH. }
    unfold wifi_disable_all_network, bind. now rewrite Hl.
Qed.

(** An unreachable wpa_supplicant goes unnoticed.  When the control socket
    cannot be opened, [wifi_save_network] still returns success, and when a
    request fails [wifi_get_signal] returns success without a value. *)
Theorem wpa_unreachable_is_success (w : world X) (sig : option Z) :
  ((forall p x, fst (ext (WpaCtrlOpen p) x) = false) -> exists w', wifi_save_network w = Ret 0 w') /\
  ((forall p x, fst (ext (WpaCtrlOpen p) x) = true) ->
   (forall r x, fst (ext (WpaCtrlRequest r) x) = None) ->
   exists w', wifi_get_signal sig w = Ret (0, sig) w').
Proof.
  split.
  - intros Ho. unfold wifi_save_network, send_ok, wifi_send_command, bind, exec. cbn [command_text].
    pose proof (Ho WIFI_WPA_CTRL_PATH (wx w)) as H1.
    destruct (ext (WpaCtrlOpen WIFI_WPA_CTRL_PATH) (wx w)) as [o x1]. cbn in H1. subst o. cbn.
    eexists. reflexivity.
  - intros Ho Hr. unfold wifi_get_signal, get_int, wifi_send_command, bind, exec, exec_. cbn [command_text].
    pose proof (Ho WIFI_WPA_CTRL_PATH (wx w)) as H1.
    destruct (ext (WpaCtrlOpen WIFI_WPA_CTRL_PATH) (wx w)) as [o x1]. cbn in H1. subst o. cbn.
    pose proof (Hr "SIGNAL_POLL" x1) as H2. destruct (ext (WpaCtrlRequest "SIGNAL_POLL") x1) as [o x2].
    cbn in H2. subst o. cbn. unfold bind, exec. cbn. destruct (ext WpaCtrlClose x2) as [u x3].
    eexists. reflexivity.
Qed.
End Exchange.

Section ExchangeRuns.
Definition nothing : world unit :=
  mk_world (mk_globals
    (mk_network_service 0 0 0 0 0 "" WIFI_STATE_CLOSE WIFI_STATE_CLOSE WIFI_STATE_CLOSE)
    (mk_hal_state 0 0 0 0) (mk_wifi_ev (mk_tWIFI_STATUS 0 0) zero_result 0 0 0 0 false 0 false)
    (mk_modem_ev (mk_tMODEM_STATUS 0 0 0) 0 0) (mk_eth_ev 0 0) (mk_net_mon 0 0) (mk_net_mode 0 0)
    (mk_net_ctrl zero_info 0) (mk_net_sched 0 0 0 0 0 0) [] 1 0 (mk_wifi_network 0 "" "" 0)) tt [].

#[local] Instance x_env : Env unit := scripted all_works.
#[local] Instance x_fuel : Fuel := 3%nat.

Lemma all_works_answers r : answers r (match wpa_works r with Some a => a | None => "" end).
Proof.
  split; [reflexivity|]. split.
  - intros x. cbn. unfold wpa_works. now repeat destruct (String.eqb r _).
  - unfold wpa_works. now repeat destruct (String.eqb r _).
Qed.

Lemma wifi_join_network_spec_witness :
  let net := mk_wifi_network 0 "home" "12345678" WIFI_KEY_WPA2PSK in
  exists w', wifi_join_network net nothing = Ret (0, net) w' /\
    requests (wlog w') =
      ["ENABLE_NETWORK  0"; "SELECT_NETWORK 0"; "SET_NETWORK 0 scan_ssid 1";
       "SET_NETWORK 0 psk " ++ quote ++ "12345678" ++ quote;
       "SET_NETWORK 0 ssid " ++ quote ++ "home" ++ quote; "ADD_NETWORK"; "BLACKLIST clear"].
Proof.
  cbv zeta. destruct (wifi_join_network_spec (mk_wifi_network 0 "home" "12345678" WIFI_KEY_WPA2PSK) 0 (String LF "") nothing)
    as (w' & H1 & _ & H2); try (vm_compute; reflexivity); try discriminate.
  - lia.
  - apply (all_works_answers "ADD_NETWORK").
  - intros r Hr. exists "". vm_compute in Hr.
    repeat (destruct Hr as [Hr|Hr]; [subst r; exact (all_works_answers _)|]). contradiction.
  - exists w'. split; [exact H1|exact H2].
Defined.

Lemma wifi_disable_all_network_spec_witness :
  exists w', wifi_disable_all_network nothing = Ret 0 w' /\
    requests (wlog w') = ["DISABLE_NETWORK all"; "ABORT_SCAN"].
Proof.
  destruct (wifi_disable_all_network_spec nothing) as [H _]; [unfold x_fuel; lia|].
  apply (H "" ""); [apply (all_works_answers "ABORT_SCAN")|apply (all_works_answers "DISABLE_NETWORK all")].
Defined.

(** The socket opens, no request is answered. *)
Definition mute : script := mk_script (fun _ => 0) (fun _ => None) (1, "") [] ([], TimedOut) (fun _ => None).

Lemma wpa_unreachable_is_success_witness :
  exists w', wifi_get_signal (E := scripted mute) None nothing = Ret (0, None) w'.
Proof.
  destruct (wpa_unreachable_is_success (E := scripted mute) nothing None) as [_ H].
  apply H; intros; reflexivity.
Defined.
End ExchangeRuns.
