(* ===== verification/Hostapd.v ===== *)
(** * The access point of the Wi-Fi library

    [framework/libs/wifi/hostapd_command.c]: the library's own switch between the
    station and the access point.  It writes the configuration of hostapd, gives the
    address of the interface and runs the daemons through the shell; [global_mode] is
    what it remembers. *)

From Stdlib Require Import Ascii String ZArith List Bool Lia.
From S2P Require Import Prelude CString CMonad.
Import ListNotations.
Open Scope list_scope.
Open Scope string_scope.
Open Scope Z_scope.
Open Scope nm_scope.

Record hostapd_network := mk_hostapd_network { net_ssid : string; net_psk : string; net_ip : string }.

Definition WIFI_STATION_MODE : Z := 0.
Definition WIFI_SOFTAP_MODE : Z := 1.
Definition WIFI_NONE_MODE : Z := 3.

Definition IFF_UP : Z := 1.
Definition IFF_RUNNING : Z := 64.
Definition AF_INET : Z := 2.

(** What the library asks of the system, as far as it changes it. *)
Inductive action :=
| Shell (cmd : string)
| SetAddr (ip : string)     (* SIOCSIFADDR with inet_addr(ip) *)
| SetFlags (flags : Z).     (* SIOCSIFFLAGS *)

(** The calls of the C library and what the system answers; [open] and [write] are those
    of the configuration file. *)
Class HostapdEnv (X : Type) := {
  he_system : string -> X -> Z * X;
  he_unlink : X -> bool * X;
  he_open : X -> Z * X;
  he_write : string -> X -> Z * X;
  he_socket : X -> Z * X;
  he_set_addr : string -> X -> Z * X;
  he_get_flags : X -> option Z * X;
  he_set_flags : Z -> X -> Z * X;
}.

(** The mode, the configuration file, the open descriptors and what was asked so far. *)
Record ap_state (X : Type) := mk_ap_state {
  global_mode : Z;
  conf_file : option string;
  ap_fds : list Z;
  actions : list action;
  ap_sys : X;
}.
Arguments mk_ap_state {X}.
Arguments global_mode {X}.
Arguments conf_file {X}.
Arguments ap_fds {X}.
Arguments actions {X}.
Arguments ap_sys {X}.

(** The text up to the last [c], with it; [None] without one: [strrchr]. *)
Fixpoint up_to_last (c : ascii) (s : string) : option string :=
  match s with
  | "" => None
  | String a s' =>
      match up_to_last c s' with
      | Some r => Some (String a r)
      | None => if Ascii.eqb a c then Some (String a "") else None
      end
  end.

Fixpoint forget (fd : Z) (l : list Z) : list Z :=
  match l with
  | [] => []
  | x :: l' => if x =? fd then l' else x :: forget fd l'
  end.

Definition conf_head (ssid : string) (channel : Z) : string :=
  "interface=wlan0" ++ String LF "driver=nl80211" ++ String LF "ctrl_interface=/var/run/hostapd" ++
  String LF "ssid=" ++ ssid ++ String LF "channel=" ++ itoa channel ++
  String LF "ieee80211n=1" ++ String LF "ieee80211ac=1" ++ String LF "hw_mode=g" ++
  String LF "ignore_broadcast_ssid=0" ++ String LF "".

Definition conf_text (ssid psk : string) (channel : Z) : string :=
  if 0 <? strlen psk then
    conf_head ssid channel ++ "wpa=3" ++ String LF "wpa_passphrase=" ++ psk ++
    String LF "wpa_key_mgmt=WPA-PSK" ++ String LF "wpa_pairwise=TKIP CCMP" ++ String LF "rsn_pairwise=CCMP" ++ String LF ""
  else
    conf_head ssid channel ++ "#wpa=3" ++ String LF "#wpa_passphrase=" ++
    String LF "#wpa_key_mgmt=WPA-PSK" ++ String LF "#wpa_pairwise=TKIP CCMP" ++ String LF "#rsn_pairwise=CCMP" ++ String LF "".

Definition dnsmasq_text (ip cur : string) : string :=
  "dnsmasq -iwlan0  --dhcp-option=3," ++ ip ++ " --dhcp-range=" ++ cur ++ "50," ++ cur ++ "200,12h -p100 -D".

Section Hostapd.
Context {X : Type} `{!HostapdEnv X}.
Local Notation W := (ap_state X).

Definition ap_ask {A} (f : X -> A * X) : M W A :=
  fun w => let '(a, x) := f (ap_sys w) in Ret a (mk_ap_state (global_mode w) (conf_file w) (ap_fds w) (actions w) x).

Definition set_fds (f : list Z -> list Z) : M W unit :=
  modify (fun w => mk_ap_state (global_mode w) (conf_file w) (f (ap_fds w)) (actions w) (ap_sys w)).

Definition set_conf (f : option string -> option string) : M W unit :=
  modify (fun w => mk_ap_state (global_mode w) (f (conf_file w)) (ap_fds w) (actions w) (ap_sys w)).

Definition did (a : action) : M W unit :=
  modify (fun w => mk_ap_state (global_mode w) (conf_file w) (ap_fds w) (actions w ++ [a])%list (ap_sys w)).

Definition ap_system (cmd : string) : M W Z := did (Shell cmd) ;; ap_ask (he_system cmd).

Definition ap_opened (fd : Z) : M W unit := when (0 <=? fd) (set_fds (cons fd)).

Definition ap_close (fd : Z) : M W unit := set_fds (forget fd).

(** A call that returns a descriptor. *)
Definition new_fd (f : X -> Z * X) : M W Z := fd <- ap_ask f ;; ap_opened fd ;; ret fd.

Definition socket : M W Z := new_fd he_socket.

(** ** The mode *)

Definition get_wifi_current_mode : M W Z := gets global_mode.

Definition set_wifi_mode (mode : Z) : M W unit :=
  modify (fun w => mk_ap_state mode (conf_file w) (ap_fds w) (actions w) (ap_sys w)).

Definition wifi_mode_init (mode : Z) : M W Z := set_wifi_mode mode ;; ret 0.

(** ** The configuration and the interface *)

(** [write] puts its bytes over the beginning of the file. *)
Definition write_conf (buf : string) : M W Z :=
  n <- ap_ask (he_write buf) ;;
  when (0 <=? n)
    (set_conf (fun o => match o with
                        | Some old => Some (substring 0 (Z.to_nat n) buf ++ advance (Z.to_nat n) old)
                        | None => None
                        end)) ;;
  ret n.

Definition softap_prepare_configure (ssid psk : string) : M W Z :=
  gone <- ap_ask he_unlink ;;
  when gone (set_conf (fun _ => None)) ;;
  ap_system "mkdir -p /data/system" ;;
  fd <- new_fd he_open ;;
  if fd <? 0 then ret (-1)
  else
    set_conf (fun o => match o with Some old => Some old | None => Some "" end) ;;
    let buf := conf_text ssid psk 6 in
    if 1024 <=? strlen buf then stop BufferOverflow
    else
      n <- write_conf buf ;;
      if n <? 0 then ret n else ap_close fd ;; ret 0.

(** [ifr_flags] shares its place with the family of [ifr_addr]. *)
Definition set_current_ip (ipaddr : option string) : M W Z :=
  match ipaddr with
  | None => ret (-1)
  | Some ip =>
      sock <- socket ;;
      if sock <? 0 then ret (-1)
      else
        did (SetAddr ip) ;;
        r <- ap_ask (he_set_addr ip) ;;
        if r <? 0 then ret (-1)
        else
          let flags := Z.lor AF_INET (Z.lor IFF_UP IFF_RUNNING) in
          did (SetFlags flags) ;;
          r <- ap_ask (he_set_flags flags) ;;
          if r <? 0 then ret (-1) else ap_close sock ;; ret 0
  end.

Definition set_wifi_adapter_state (state : bool) : M W Z :=
  sock <- socket ;;
  if sock <? 0 then ret (-1)
  else
    f <- ap_ask he_get_flags ;;
    let f := match f with Some f => f | None => 0 end in
    let flags := if state then Z.lor f (Z.lor IFF_UP IFF_RUNNING) else Z.land f (Z.lnot IFF_UP) in
    did (SetFlags flags) ;;
    ap_ask (he_set_flags flags) ;;
    ret 0.

Definition softap_set_ip (ip : option string) : M W Z :=
  r <- set_current_ip ip ;;
  if r <? 0 then ret (-1)
  else
    match ip with
    | None => stop NullDeref
    | Some ip =>
        match up_to_last "."%char ip with
        | None => ret (-2)
        | Some cur =>
            if 36 <? strlen cur then stop BufferOverflow
            else if strlen cur =? 36 then stop OutOfBounds
            else
              ap_system "mkdir -p /var/lib/misc" ;;
              let cmd := dnsmasq_text ip cur in
              if 256 <=? strlen cmd then stop BufferOverflow
              else r <- ap_system cmd ;; if negb (r =? 0) then ret r else ret 0
        end
    end.

(** ** Changing the mode *)

Definition hostapd_enable (net : option hostapd_network) : M W Z :=
  mode <- get_wifi_current_mode ;;
  if mode =? WIFI_SOFTAP_MODE then ret 1
  else
    match net with
    | None => ret (-1)
    | Some net =>
        ap_system "killall wpa_supplicant" ;;
        ap_system "/etc/init.d/dhcpcd stop" ;;
        r <- softap_prepare_configure (net_ssid net) (net_psk net) ;;
        if r <? 0 then ret r
        else
          r <- set_wifi_adapter_state false ;;
          if r <? 0 then ret r
          else
            r <- ap_system "hostapd /data/system/hostapd.conf &" ;;
            if negb (r =? 0) then ret (-2)
            else
              r <- softap_set_ip (Some (net_ip net)) ;;
              if r <? 0 then ret r else set_wifi_mode WIFI_SOFTAP_MODE ;; ret 0
    end.

Definition hostapd_disable : M W Z :=
  mode <- get_wifi_current_mode ;;
  if negb (mode =? WIFI_SOFTAP_MODE) then ret (-1)
  else
    ap_system "killall dnsmasq" ;;
    ap_system "killall hostapd" ;;
    set_wifi_mode WIFI_NONE_MODE ;;
    ret 0.

Definition supplicant_enable : M W Z :=
  mode <- get_wifi_current_mode ;;
  if mode =? WIFI_STATION_MODE then ret 1
  else
    ap_system "killall dnsmasq" ;;
    ap_system "killall hostapd" ;;
    r <- set_wifi_adapter_state false ;;
    if r <? 0 then ret r
    else
      r <- set_current_ip (Some "0.0.0.0") ;;
      if r <? 0 then ret r
      else
        r <- ap_system "wpa_supplicant -D nl80211 -c /data/system/wpa_supplicant.conf -iwlan0 -B -d -d -d " ;;
        if r <? 0 then ret (-2)
        else
          r <- ap_system "/etc/init.d/dhcpcd restart" ;;
          if r <? 0 then ret (-3) else set_wifi_mode WIFI_STATION_MODE ;; ret 0.

(** ** Sequences of calls *)

Inductive ap_call :=
| CallEnable (net : option hostapd_network)
| CallDisable
| CallSupplicant
| CallSetIp (ip : option string).

Definition run_call (c : ap_call) : M W Z :=
  match c with
  | CallEnable net => hostapd_enable net
  | CallDisable => hostapd_disable
  | CallSupplicant => supplicant_enable
  | CallSetIp ip => softap_set_ip ip
  end.

Fixpoint run_calls (cs : list ap_call) : M W (list Z) :=
  match cs with
  | [] => ret []
  | c :: cs' => r <- run_call c ;; rs <- run_calls cs' ;; ret (r :: rs)
  end.
End Hostapd.

(** ** What the calls promise *)

(** The texts fit the arrays of [struct hostapd_network]. *)
Definition ap_net_fits (n : hostapd_network) : Prop :=
  strlen (net_ssid n) < 36 /\ strlen (net_psk n) < 68 /\ strlen (net_ip n) < 32.

Definition call_fits (c : ap_call) : Prop :=
  match c with
  | CallEnable (Some n) => ap_net_fits n
  | CallSetIp (Some ip) => strlen ip < 32
  | _ => True
  end.

(** The library as a machine on the mode: call, mode before, result, mode after, and
    how many descriptors the call leaves open. *)
Inductive ap_step : ap_call -> Z -> Z -> Z -> nat -> Prop :=
| enable_again net : ap_step (CallEnable net) WIFI_SOFTAP_MODE 1 WIFI_SOFTAP_MODE 0
| enable_done net m : m <> WIFI_SOFTAP_MODE -> ap_step (CallEnable (Some net)) m 0 WIFI_SOFTAP_MODE 1
| enable_failed net m r k : m <> WIFI_SOFTAP_MODE -> r < 0 -> (k <= 2)%nat -> ap_step (CallEnable net) m r m k
| disable_done : ap_step CallDisable WIFI_SOFTAP_MODE 0 WIFI_NONE_MODE 0
| disable_refused m : m <> WIFI_SOFTAP_MODE -> ap_step CallDisable m (-1) m 0
| station_again : ap_step CallSupplicant WIFI_STATION_MODE 1 WIFI_STATION_MODE 0
| station_done m : m <> WIFI_STATION_MODE -> ap_step CallSupplicant m 0 WIFI_STATION_MODE 1
| station_failed m r k : m <> WIFI_STATION_MODE -> r < 0 -> (k <= 2)%nat -> ap_step CallSupplicant m r m k
| set_ip_done ip m : ap_step (CallSetIp (Some ip)) m 0 m 0
| set_ip_failed ip m r k : r <> 0 -> (k <= 1)%nat -> (0 < r -> k = 0%nat) -> ap_step (CallSetIp ip) m r m k.

Inductive ap_trace : list ap_call -> Z -> list Z -> Z -> nat -> Prop :=
| trace_nil m : ap_trace [] m [] m 0
| trace_cons c cs m r m1 k rs m2 n :
    ap_step c m r m1 k -> ap_trace cs m1 rs m2 n -> ap_trace (c :: cs) m (r :: rs) m2 (k + n).

Lemma up_to_last_length c s t : up_to_last c s = Some t -> (String.length t <= String.length s)%nat.
Proof.
  revert t. induction s as [|a s IH]; intros t; cbn; [discriminate|]. destruct (up_to_last c s) as [r|].
  - intros [= <-]. cbn. specialize (IH r eq_refl). lia.
  - destruct (Ascii.eqb a c); [|discriminate]. intros [= <-]. cbn. lia.
Qed.

Lemma conf_text_fits ssid psk : strlen ssid < 36 -> strlen psk < 68 -> strlen (conf_text ssid psk 6) < 1024.
Proof.
  unfold conf_text, conf_head, strlen. intros Hs Hp.
  destruct (0 <? Z.of_nat (String.length psk)); repeat (rewrite string_length_app || cbn [String.length append]);
    change (String.length (itoa 6)) with 1%nat; lia.
Qed.

Lemma dnsmasq_fits ip cur : strlen ip < 32 -> strlen cur < 32 -> strlen (dnsmasq_text ip cur) < 256.
Proof. unfold dnsmasq_text, strlen. intros Hi Hc. repeat (rewrite string_length_app || cbn [String.length append]). lia. Qed.

Section HostapdProofs.
Context {X : Type} `{!HostapdEnv X}.
Local Notation W := (ap_state X).

(** The mode is as it was and [n] more descriptors are open. *)
Definition left_open (n : nat) (w w' : W) : Prop :=
  global_mode w' = global_mode w /\ exists l, ap_fds w' = (l ++ ap_fds w)%list /\ length l = n.

Definition unchanged (w w' : W) : Prop := global_mode w' = global_mode w /\ ap_fds w' = ap_fds w.

Lemma unchanged_open w w' : unchanged w w' -> left_open 0 w w'.
Proof. intros [E1 E2]. split; [exact E1|]. exists []. now split. Qed.

Lemma left_open_trans n m w1 w2 w3 : left_open n w1 w2 -> left_open m w2 w3 -> left_open (m + n) w1 w3.
Proof.
  intros [E1 (l1 & F1 & L1)] [E2 (l2 & F2 & L2)]. split; [congruence|]. exists (l2 ++ l1)%list.
  rewrite F2, F1, app_assoc, length_app. now split; [|lia].
Qed.

(** What [ap_ask], [did] and the shell change does not matter here. *)
Lemma wp_ask {A} (f : X -> A * X) Q (w : W) : (forall a w', unchanged w w' -> Q a w') -> wp (ap_ask f) Q w.
Proof. intros H. unfold wp, ap_ask. destruct (f (ap_sys w)). now apply H. Qed.

Lemma wp_did a Q (w : W) : (forall w', unchanged w w' -> Q tt w') -> wp (did a) Q w.
Proof. intros H. now apply H. Qed.

Lemma wp_set_conf f Q (w : W) : (forall w', unchanged w w' -> Q tt w') -> wp (set_conf f) Q w.
Proof. intros H. now apply H. Qed.

Lemma wp_system c Q (w : W) : (forall r w', unchanged w w' -> Q r w') -> wp (ap_system c) Q w.
Proof. intros H. apply wp_bind, wp_did. intros w1 [E1 E2]. apply wp_ask. intros r w2 [F1 F2]. apply H. split; congruence. Qed.

Lemma wp_when_conf b f Q (w : W) : (forall w', unchanged w w' -> Q tt w') -> wp (when b (set_conf f)) Q w.
Proof. intros H. destruct b; now apply H. Qed.

Lemma wp_ap_new_fd f Q (w : W) :
  (forall fd w', fd < 0 -> unchanged w w' -> Q fd w') ->
  (forall fd w', 0 <= fd -> global_mode w' = global_mode w /\ ap_fds w' = fd :: ap_fds w -> Q fd w') ->
  wp (new_fd f) Q w.
Proof.
  intros H1 H2. apply wp_bind, wp_ask. intros fd w1 [E1 E2]. unfold ap_opened. apply wp_bind.
  destruct (Z.leb_spec 0 fd); apply wp_ret.
  - apply H2; [assumption|]. cbn. now rewrite E1, E2.
  - apply H1; [lia|]. now split.
Qed.

Lemma wp_close fd l Q (w : W) :
  ap_fds w = fd :: l ->
  (forall w', global_mode w' = global_mode w /\ ap_fds w' = l -> Q tt w') -> wp (ap_close fd) Q w.
Proof. intros E H. apply H. split; cbn; [reflexivity|]. rewrite E. cbn. now rewrite Z.eqb_refl. Qed.
End HostapdProofs.

(** One step of a run whose mode and descriptors are followed. *)
Ltac ap_next :=
  lazymatch goal with
  | |- wp (bind _ _) _ _ => apply wp_bind
  | |- wp (ap_ask _) _ _ => apply wp_ask; intros ? ? [? ?]
  | |- wp (did _) _ _ => apply wp_did; intros ? [? ?]
  | |- wp (set_conf _) _ _ => apply wp_set_conf; intros ? [? ?]
  | |- wp (ap_system _) _ _ => apply wp_system; intros ? ? [? ?]
  | |- wp (ret _) _ _ => apply wp_ret
  | |- wp (when _ (set_conf _)) _ _ => apply wp_when_conf; intros ? [? ?]
  | |- wp socket _ _ => unfold socket
  | |- wp (new_fd _) _ _ => let fd := fresh "fd" in apply wp_ap_new_fd; intros fd ? ? [? ?]
  | |- wp (ap_close _) _ _ => eapply wp_close; [repeat match goal with H : ap_fds ?x = _ |- ap_fds ?x = _ => rewrite H end; reflexivity|]; intros ? [? ?]
  | |- wp (if ?a <? ?b then _ else _) _ _ => destruct (Z.ltb_spec a b)
  | |- wp (if ?a <=? ?b then _ else _) _ _ => destruct (Z.leb_spec a b)
  | |- wp (if ?a =? ?b then _ else _) _ _ => destruct (Z.eqb_spec a b)
  | |- wp (if negb (?a =? ?b) then _ else _) _ _ => destruct (Z.eqb_spec a b); cbn [negb]
  end.

(** The descriptors that are still open at the end of a branch. *)
Ltac ap_end l := split; [congruence|]; exists l; split; [cbn; congruence|reflexivity].

Section Calls.
Context {X : Type} `{!HostapdEnv X}.
Local Notation W := (ap_state X).

Lemma prepare_spec ssid psk (w : W) :
  strlen ssid < 36 -> strlen psk < 68 ->
  wp (softap_prepare_configure ssid psk)
    (fun r w' => (r = 0 /\ left_open 0 w w') \/ (r < 0 /\ exists k, (k <= 1)%nat /\ left_open k w w')) w.
Proof.
  intros Hs Hp. pose proof (conf_text_fits ssid psk Hs Hp) as Hf.
  unfold softap_prepare_configure, write_conf. repeat ap_next; try lia.
  - right. split; [lia|]. exists 0%nat. split; [lia|]. ap_end (@nil Z).
  - right. split; [lia|]. exists 1%nat. split; [lia|]. ap_end [fd].
  - left. split; [reflexivity|]. ap_end (@nil Z).
Qed.

Lemma adapter_spec b (w : W) :
  wp (set_wifi_adapter_state b) (fun r w' => (r = 0 /\ left_open 1 w w') \/ (r = -1 /\ left_open 0 w w')) w.
Proof.
  unfold set_wifi_adapter_state. repeat ap_next; try lia.
  - right. split; [reflexivity|]. ap_end (@nil Z).
  - left. split; [reflexivity|]. ap_end [fd].
Qed.

Lemma current_ip_spec ip (w : W) :
  wp (set_current_ip ip)
    (fun r w' => (r = 0 /\ ip <> None /\ left_open 0 w w') \/ (r = -1 /\ exists k, (k <= 1)%nat /\ left_open k w w')) w.
Proof.
  destruct ip as [ip|]; unfold set_current_ip; repeat ap_next; try lia.
  - right. split; [reflexivity|]. exists 0%nat. split; [lia|]. ap_end (@nil Z).
  - right. split; [reflexivity|]. exists 1%nat. split; [lia|]. ap_end [fd].
  - right. split; [reflexivity|]. exists 1%nat. split; [lia|]. ap_end [fd].
  - left. split; [reflexivity|]. split; [discriminate|]. ap_end (@nil Z).
  - right. split; [reflexivity|]. exists 0%nat. split; [lia|]. ap_end (@nil Z).
Qed.

Lemma set_ip_spec ip (w : W) :
  match ip with Some ip => strlen ip < 32 | None => True end ->
  wp (softap_set_ip ip)
    (fun r w' => exists k, left_open k w w' /\ (k <= 1)%nat /\ (0 <= r -> k = 0%nat /\ ip <> None)) w.
Proof.
  intros Hi. unfold softap_set_ip. apply wp_bind. eapply wp_mono; [|apply current_ip_spec].
  intros r w1 [(-> & Hn & H1)|(-> & k & Hk & H1)]; cbn [Z.ltb Z.compare].
  2: { apply wp_ret. exists k. split; [exact H1|]. now split; [|lia]. }
  destruct ip as [ip|]; [|contradiction].
  assert (Hr : forall (r : Z) w', unchanged w1 w' ->
            exists k, left_open k w w' /\ (k <= 1)%nat /\ (0 <= r -> k = 0%nat /\ Some ip <> None)).
  { intros r w' Hu. exists 0%nat. split; [exact (left_open_trans 0 0 w w1 w' H1 (unchanged_open _ _ Hu))|]. split; [lia|now split]. }
  destruct (up_to_last "."%char ip) as [cur|] eqn:Ec; [|now apply wp_ret, Hr].
  apply up_to_last_length in Ec. assert (Hc : strlen cur < 32) by (unfold strlen in *; lia).
  pose proof (dnsmasq_fits ip cur Hi Hc) as Hd. repeat ap_next; try lia; apply Hr; split; congruence.
Qed.

(** The mode and the descriptors of a call are as the machine says. *)
Definition as_machine (c : ap_call) (w : W) (r : Z) (w' : W) : Prop :=
  exists k l, ap_step c (global_mode w) r (global_mode w') k /\ ap_fds w' = (l ++ ap_fds w)%list /\ length l = k.

Lemma as_machine_same c r k w w' : ap_step c (global_mode w) r (global_mode w) k -> left_open k w w' -> as_machine c w r w'.
Proof. intros Hs [E (l & H)]. exists k, l. now rewrite E. Qed.

(** A call that ends by setting the mode. *)
Lemma as_machine_set c m k (w w1 : W) :
  ap_step c (global_mode w) 0 m k -> left_open k w w1 -> wp (set_wifi_mode m ;; ret 0) (as_machine c w) w1.
Proof. intros Hs [E (l & H)]. exists k, l. now split. Qed.

Lemma enable_spec net (w : W) : call_fits (CallEnable net) -> wp (hostapd_enable net) (as_machine (CallEnable net) w) w.
Proof.
  intros Hf. unfold hostapd_enable, get_wifi_current_mode. apply wp_bind, wp_gets.
  destruct (Z.eqb_spec (global_mode w) WIFI_SOFTAP_MODE) as [E|E].
  { apply wp_ret, (as_machine_same _ _ 0); [rewrite E; constructor|apply unchanged_open; now split]. }
  assert (Hr : forall r k w', r < 0 -> (k <= 2)%nat -> left_open k w w' -> as_machine (CallEnable net) w r w').
  { intros r k w' Hr Hk. apply as_machine_same. now constructor. }
  destruct net as [net|]; [|apply wp_ret, (Hr (-1) 0%nat); [lia|lia|apply unchanged_open; now split]].
  destruct Hf as (Hs & Hp & Hi). do 4 ap_next. assert (H3 : left_open 0 w w'0) by (apply unchanged_open; split; congruence).
  apply wp_bind. eapply wp_mono; [|apply prepare_spec; assumption]. intros r1 w1 [[-> H4]|(H4 & k & Hk & H5)].
  2: { rewrite (proj2 (Z.ltb_lt r1 0) H4). apply wp_ret, (Hr r1 (k + 0)%nat); [exact H4|lia|]. now apply (left_open_trans 0 k w w'0). }
  cbn [Z.ltb Z.compare]. apply wp_bind. eapply wp_mono; [|apply adapter_spec].
  pose proof (left_open_trans _ _ _ _ _ H3 H4) as H5. intros r2 w2 [[-> H6]|[-> H6]];
    pose proof (left_open_trans _ _ _ _ _ H5 H6) as H7; cbn [Z.ltb Z.compare].
  2: { now apply wp_ret, (Hr (-1) 0%nat); [lia|lia|]. }
  do 2 ap_next. assert (H10 : left_open 1 w w'1) by (refine (left_open_trans 1 0 w w2 _ H7 (unchanged_open _ _ _)); split; congruence).
  ap_next. 2: { ap_next. now apply (Hr (-2) 1%nat); [lia|lia|]. }
  apply wp_bind. eapply wp_mono; [|apply set_ip_spec; exact Hi]. intros r3 w3 (k & H11 & Hk & H12).
  pose proof (left_open_trans _ _ _ _ _ H10 H11) as H13. destruct (Z.ltb_spec r3 0).
  - apply wp_ret, (Hr r3 (k + 1)%nat); [assumption|lia|exact H13].
  - destruct (H12 ltac:(lia)) as [-> _]. apply (as_machine_set _ _ 1); [now constructor|exact H13].
Qed.

Lemma disable_spec (w : W) : wp hostapd_disable (as_machine CallDisable w) w.
Proof.
  unfold hostapd_disable, get_wifi_current_mode. apply wp_bind, wp_gets.
  destruct (Z.eqb_spec (global_mode w) WIFI_SOFTAP_MODE) as [E|E]; cbn [negb].
  - do 4 ap_next. apply (as_machine_set _ _ 0); [rewrite E; constructor|apply unchanged_open; split; congruence].
  - apply wp_ret, (as_machine_same _ _ 0); [now constructor|apply unchanged_open; now split].
Qed.

Lemma supplicant_spec (w : W) : wp supplicant_enable (as_machine CallSupplicant w) w.
Proof.
  unfold supplicant_enable, get_wifi_current_mode. apply wp_bind, wp_gets.
  destruct (Z.eqb_spec (global_mode w) WIFI_STATION_MODE) as [E|E].
  { apply wp_ret, (as_machine_same _ _ 0); [rewrite E; constructor|apply unchanged_open; now split]. }
  assert (Hr : forall r k w', r < 0 -> (k <= 2)%nat -> left_open k w w' -> as_machine CallSupplicant w r w').
  { intros r k w' Hr Hk. apply as_machine_same. now constructor. }
  do 4 ap_next. assert (H3 : left_open 0 w w'0) by (apply unchanged_open; split; congruence).
  apply wp_bind. eapply wp_mono; [|apply adapter_spec]. intros r1 w1 [[-> H4]|[-> H4]];
    pose proof (left_open_trans _ _ _ _ _ H3 H4) as H5; cbn [Z.ltb Z.compare].
  2: { now apply wp_ret, (Hr (-1) 0%nat); [lia|lia|]. }
  apply wp_bind. eapply wp_mono; [|apply current_ip_spec]. intros r2 w2 [(-> & _ & H6)|(-> & k & Hk & H6)];
    pose proof (left_open_trans _ _ _ _ _ H5 H6) as H7; cbn [Z.ltb Z.compare].
  2: { now apply wp_ret, (Hr (-1) (k + (1 + 0))%nat); [lia|lia|]. }
  do 2 ap_next. assert (H10 : left_open 1 w w'1) by (refine (left_open_trans 1 0 w w2 _ H7 (unchanged_open _ _ _)); split; congruence).
  ap_next; [ap_next; now apply (Hr (-2) 1%nat); [lia|lia|]|]. do 2 ap_next.
  assert (H14 : left_open 1 w w'2) by (refine (left_open_trans 1 0 w w'1 _ H10 (unchanged_open _ _ _)); split; congruence).
  ap_next; [ap_next; now apply (Hr (-3) 1%nat); [lia|lia|]|]. apply (as_machine_set _ _ 1); [now constructor|exact H14].
Qed.

Lemma call_spec c (w : W) : call_fits c -> wp (run_call c) (as_machine c w) w.
Proof.
  destruct c as [net| | |ip]; cbn [run_call]; intros Hf.
  - now apply enable_spec.
  - apply disable_spec.
  - apply supplicant_spec.
  - eapply wp_mono; [|apply set_ip_spec; destruct ip; exact Hf]. intros r w' (k & H & Hk & Hr).
    apply (as_machine_same _ _ k); [|exact H]. destruct (Z.eq_dec r 0) as [->|Hn].
    + destruct (Hr ltac:(lia)) as [-> Hi]. destruct ip; [constructor|contradiction].
    + constructor; [exact Hn|exact Hk|]. intros H0. now apply Hr; lia.
Qed.

(** C39: Any sequence of calls, with texts that fit their arrays and whatever the system
    answers, returns; results and mode are those of the machine: a call that reports
    success has set its mode and one that fails has not.  Every successful change to the
    access point or to the station leaves one socket open; turning the access point off
    leaves none, a repeated or refused call none, and a failing one at most two. *)
Theorem hostapd_calls (cs : list ap_call) (w : W) :
  Forall call_fits cs ->
  wp (run_calls cs)
    (fun rs w' => exists l, ap_trace cs (global_mode w) rs (global_mode w') (length l) /\ ap_fds w' = (l ++ ap_fds w)%list) w.
Proof.
  intros H. revert w. induction H as [|c cs Hc _ IH]; intros w; cbn [run_calls].
  { apply wp_ret. exists []. split; [constructor|reflexivity]. }
  apply wp_bind. eapply wp_mono; [|apply call_spec; exact Hc]. intros r w1 (k & l & Hs & E & Hl).
  apply wp_bind. eapply wp_mono; [|apply IH]. intros rs w2 (l2 & Ht & E2). apply wp_ret. exists (l2 ++ l)%list.
  rewrite length_app, Hl, Nat.add_comm, E2, E, app_assoc. split; [|reflexivity]. econstructor; eassumption.
Qed.
End Calls.

(** ** A system that does what it is asked *)

Class ApWorks (X : Type) `{!HostapdEnv X} := {
  works_system c x : fst (he_system c x) = 0;
  works_unlink x : fst (he_unlink x) = true;
  works_open x : 0 <= fst (he_open x);
  works_write b x : fst (he_write b x) = strlen b;
  works_socket x : 0 <= fst (he_socket x);
  works_set_addr ip x : 0 <= fst (he_set_addr ip x);
  works_set_flags f x : 0 <= fst (he_set_flags f x);
}.

Section Works.
Context {X : Type} `{!HostapdEnv X, !ApWorks X}.
Local Notation W := (ap_state X).

(** What was asked and the file, after a step. *)
Definition now (c : option string) (l : list action) (w : W) : Prop := conf_file w = c /\ actions w = l.

Lemma wp_asked {A} (f : X -> A * X) Q c l (w : W) :
  now c l w -> (forall x w', now c l w' -> Q (fst (f x)) w') -> wp (ap_ask f) Q w.
Proof. intros [E1 E2] H. unfold wp, ap_ask. specialize (H (ap_sys w)). destruct (f (ap_sys w)) as [a x]. now apply H. Qed.

Lemma wp_system_works cmd Q c l (w : W) :
  now c l w -> (forall w', now c (l ++ [Shell cmd])%list w' -> Q 0 w') -> wp (ap_system cmd) Q w.
Proof.
  intros [E1 E2] H. apply wp_bind. unfold wp at 1. cbn. eapply wp_asked; [split; cbn; [exact E1|now rewrite E2]|].
  intros x w' Hw. rewrite works_system. now apply H.
Qed.

Lemma wp_new_fd_works f Q c l (w : W) :
  now c l w -> (forall x, 0 <= fst (f x)) -> (forall fd w', 0 <= fd -> now c l w' -> Q fd w') -> wp (new_fd f) Q w.
Proof.
  intros Hn Hf H. apply wp_bind. eapply wp_asked; [exact Hn|]. intros x w' [E1 E2]. apply wp_bind. unfold ap_opened.
  specialize (Hf x). rewrite (proj2 (Z.leb_le _ _) Hf). apply wp_ret. now apply H.
Qed.

Lemma wp_prepare_works ssid psk Q c l (w : W) :
  strlen ssid < 36 -> strlen psk < 68 -> now c l w ->
  (forall w', now (Some (conf_text ssid psk 6)) (l ++ [Shell "mkdir -p /data/system"])%list w' -> Q 0 w') ->
  wp (softap_prepare_configure ssid psk) Q w.
Proof.
  intros Hs Hp Hn H. pose proof (conf_text_fits ssid psk Hs Hp) as Hf. unfold softap_prepare_configure, write_conf.
  apply wp_bind. eapply wp_asked; [exact Hn|]. intros x w1 [_ E1]. rewrite works_unlink. apply wp_bind. unfold wp at 1. cbn.
  apply wp_bind. eapply wp_system_works; [split; [reflexivity|exact E1]|]. intros w2 H2.
  apply wp_bind. eapply wp_new_fd_works; [exact H2|apply works_open|]. intros fd w3 Hfd [E3 F3].
  rewrite (proj2 (Z.ltb_ge fd 0) Hfd). apply wp_bind. unfold wp at 1. cbn -[conf_text]. rewrite E3.
  rewrite (proj2 (Z.leb_gt _ _) Hf). apply wp_bind, wp_bind. eapply wp_asked; [split; [reflexivity|exact F3]|].
  intros x2 w4 [E4 F4]. rewrite works_write. assert (H0 : 0 <= strlen (conf_text ssid psk 6)) by (unfold strlen; lia).
  rewrite (proj2 (Z.leb_le _ _) H0). apply wp_bind. unfold wp at 1. cbn -[conf_text]. rewrite E4.
  unfold wp at 1. cbn -[conf_text]. rewrite (proj2 (Z.ltb_ge _ _) H0). apply H. split; cbn -[conf_text]; [|exact F4].
  unfold strlen. rewrite Nat2Z.id, substring_all by lia.
  assert (Ha : forall n, advance n "" = "") by now intros []. now rewrite Ha, string_app_nil_r.
Qed.

Lemma wp_did_works a Q c l (w : W) : now c l w -> (forall w', now c (l ++ [a])%list w' -> Q tt w') -> wp (did a) Q w.
Proof. intros [E1 E2] H. apply H. split; cbn; [exact E1|now rewrite E2]. Qed.

Lemma wp_current_ip_works ip Q c l (w : W) :
  now c l w -> (forall w', now c (l ++ [SetAddr ip; SetFlags 67])%list w' -> Q 0 w') -> wp (set_current_ip (Some ip)) Q w.
Proof.
  intros Hn H. unfold set_current_ip. apply wp_bind. eapply wp_new_fd_works; [exact Hn|apply works_socket|].
  intros fd w1 Hfd H1. rewrite (proj2 (Z.ltb_ge fd 0) Hfd). apply wp_bind. eapply wp_did_works; [exact H1|]. intros w2 H2.
  apply wp_bind. eapply wp_asked; [exact H2|]. intros x w3 H3. rewrite (proj2 (Z.ltb_ge _ _) (works_set_addr ip x)).
  apply wp_bind. eapply wp_did_works; [exact H3|]. intros w4 H4. apply wp_bind. eapply wp_asked; [exact H4|]. intros x2 w5 [E5 F5].
  rewrite (proj2 (Z.ltb_ge _ _) (works_set_flags _ x2)). apply H. split; cbn; [exact E5|]. rewrite F5, <- app_assoc. reflexivity.
Qed.

Lemma wp_adapter_works Q c l (w : W) :
  now c l w -> (forall f w', Z.testbit f 0 = false -> now c (l ++ [SetFlags f])%list w' -> Q 0 w') ->
  wp (set_wifi_adapter_state false) Q w.
Proof.
  intros Hn H. unfold set_wifi_adapter_state. apply wp_bind. eapply wp_new_fd_works; [exact Hn|apply works_socket|].
  intros fd w1 Hfd H1. rewrite (proj2 (Z.ltb_ge fd 0) Hfd). apply wp_bind. eapply wp_asked; [exact H1|]. intros x w2 H2.
  set (f := Z.land _ _). apply wp_bind. eapply wp_did_works; [exact H2|]. intros w3 H3. apply wp_bind. eapply wp_asked; [exact H3|].
  intros x2 w4 H4. apply wp_ret. apply (H f); [|exact H4]. unfold f. now rewrite Z.land_spec, andb_false_r.
Qed.

(** On a system that works, turning the access point on leaves the configuration of the
    network in the file, and has stopped the station, taken the interface down, started
    hostapd, and only then given the address and started the DHCP server. *)
Theorem access_point_comes_up net cur (w : W) :
  ap_net_fits net -> global_mode w <> WIFI_SOFTAP_MODE -> up_to_last "."%char (net_ip net) = Some cur ->
  wp (hostapd_enable (Some net))
    (fun r w' => r = 0 /\ conf_file w' = Some (conf_text (net_ssid net) (net_psk net) 6) /\
       exists f, Z.testbit f 0 = false /\ actions w' = (actions w ++
         [Shell "killall wpa_supplicant"; Shell "/etc/init.d/dhcpcd stop"; Shell "mkdir -p /data/system"; SetFlags f;
          Shell "hostapd /data/system/hostapd.conf &"; SetAddr (net_ip net); SetFlags 67; Shell "mkdir -p /var/lib/misc";
          Shell (dnsmasq_text (net_ip net) cur)])%list) w.
Proof.
  intros (Hs & Hp & Hi) Hm Ec. unfold hostapd_enable, get_wifi_current_mode. apply wp_bind, wp_gets.
  rewrite (proj2 (Z.eqb_neq _ _) Hm). apply wp_bind. eapply wp_system_works; [split; reflexivity|]. intros w1 H1.
  apply wp_bind. eapply wp_system_works; [exact H1|]. intros w2 H2. apply wp_bind.
  eapply wp_prepare_works; [exact Hs|exact Hp|exact H2|]. intros w3 H3. apply wp_bind.
  eapply wp_adapter_works; [exact H3|]. intros f w4 Hf H4. apply wp_bind. eapply wp_system_works; [exact H4|]. intros w5 H5.
  apply wp_bind, wp_bind. eapply wp_current_ip_works; [exact H5|]. intros w6 H6. rewrite Ec.
  apply up_to_last_length in Ec. assert (Hc : strlen cur < 32) by (unfold strlen in *; lia).
  pose proof (dnsmasq_fits _ cur Hi Hc) as Hd. cbn [Z.ltb Z.compare].
  rewrite (proj2 (Z.ltb_ge 36 (strlen cur))), (proj2 (Z.eqb_neq (strlen cur) 36)), (proj2 (Z.leb_gt _ _) Hd) by lia.
  apply wp_bind. eapply wp_system_works; [exact H6|]. intros w7 H7. apply wp_bind. eapply wp_system_works; [exact H7|].
  intros w8 [E8 F8]. split; [reflexivity|]. cbn -[conf_text]. split; [exact E8|]. exists f. split; [exact Hf|].
  rewrite F8. now rewrite <- !app_assoc.
Qed.
End Works.

(** ** Concrete systems *)

(** The state of the system is what the shell answers to a command; the rest works. *)
#[global] Instance demo_ap : HostapdEnv (string -> Z) := {|
  he_system c x := (x c, x); he_unlink x := (true, x); he_open x := (5, x); he_write b x := (strlen b, x);
  he_socket x := (6, x); he_set_addr _ x := (0, x); he_get_flags x := (Some 4099, x); he_set_flags _ x := (0, x) |}.

Definition demo_net : hostapd_network := mk_hostapd_network "yodaos" "12345678" "192.168.2.1".

Definition demo_ap_state (shell : string -> Z) : ap_state (string -> Z) := mk_ap_state WIFI_NONE_MODE None [] [] shell.

Lemma hostapd_calls_witness :
  Forall call_fits [CallEnable (Some demo_net); CallSupplicant; CallDisable] /\
  wp (run_calls [CallEnable (Some demo_net); CallSupplicant; CallDisable])
    (fun rs w' => exists l, ap_trace [CallEnable (Some demo_net); CallSupplicant; CallDisable] WIFI_NONE_MODE rs (global_mode w') (length l) /\
                            ap_fds w' = (l ++ [])%list) (demo_ap_state (fun _ => 0)).
Proof.
  assert (H : Forall call_fits [CallEnable (Some demo_net); CallSupplicant; CallDisable]).
  { repeat constructor; vm_compute; reflexivity. }
  split; [exact H|]. exact (hostapd_calls _ (demo_ap_state (fun _ => 0)) H).
Defined.

(** A system that works. *)
#[global] Instance working_ap : HostapdEnv unit := {|
  he_system _ x := (0, x); he_unlink x := (true, x); he_open x := (5, x); he_write b x := (strlen b, x);
  he_socket x := (6, x); he_set_addr _ x := (0, x); he_get_flags x := (Some 4099, x); he_set_flags _ x := (0, x) |}.

#[global] Instance working_ap_works : ApWorks unit.
Proof. split; intros; cbn; reflexivity || lia. Qed.

Example demo_ap_comes_up :
  wp (hostapd_enable (Some demo_net)) (fun r w' => r = 0 /\ conf_file w' = Some (conf_text "yodaos" "12345678" 6))
    (mk_ap_state WIFI_NONE_MODE None [] [] tt).
Proof.
  eapply wp_mono; [|apply (access_point_comes_up demo_net "192.168.2.")].
  - intros r w' (H1 & H2 & _). now split.
  - repeat split; vm_compute; reflexivity.
  - discriminate.
  - reflexivity.
Qed.

(** The result, the mode and the number of open descriptors of a run. *)
Definition outcome_of {A} (o : outcome (ap_state (string -> Z)) A) : option (A * Z * nat) :=
  match o with Ret a w => Some (a, global_mode w, length (ap_fds w)) | Fault _ => None end.

Example ap_roundtrip :
  outcome_of (run_calls [CallEnable (Some demo_net); CallSupplicant; CallDisable] (demo_ap_state (fun _ => 0))) =
  Some ([0; 0; -1], WIFI_STATION_MODE, 2%nat).
Proof. vm_compute. reflexivity. Qed.

(** When the DHCP server cannot be started the access point is reported as running. *)
Theorem dhcp_failure_is_success :
  outcome_of (hostapd_enable (Some demo_net)
    (demo_ap_state (fun c => if String.prefix "dnsmasq" c then 256 else 0))) = Some (0, WIFI_SOFTAP_MODE, 1%nat).
Proof. vm_compute. reflexivity. Qed.

(** A wpa_supplicant that does not start is reported as running. *)
Theorem supplicant_failure_is_success :
  outcome_of (supplicant_enable (demo_ap_state (fun c => if String.prefix "wpa_supplicant" c then 65280 else 0))) =
  Some (0, WIFI_STATION_MODE, 1%nat).
Proof. vm_compute. reflexivity. Qed.
