(* ===== verification/Eloop.v ===== *)
(** * Timers of libeloop

    [libs/libeloop/src/scheduler.c] and the timer half of [eloop.c], the
    event-loop library the network manager runs on: a timer is allocated,
    linked in the scheduler's list, armed and disarmed through the kernel, and
    freed.  A timer id is the address of its [struct schd_timer]. *)

From Stdlib Require Import ZArith List Bool Lia String.
From S2P Require Import Prelude CMonad Json NetEnv.
Import ListNotations.
Open Scope Z_scope.

(** [.tv_sec = ms / 1e3] *)
Definition ms_sec (ms : Z) : Z := ms / 1000.

(** [.tv_nsec = (ms % 1000) * 1e6] *)
Definition ms_nsec (ms : Z) : Z := (ms mod 1000) * 1000000.

Fixpoint find_timer (id : Z) (l : list (Z * schd_timer)) : option schd_timer :=
  match l with
  | [] => None
  | (i, t) :: l' => if i =? id then Some t else find_timer id l'
  end.

Fixpoint update_timer (id : Z) (f : schd_timer -> schd_timer) (l : list (Z * schd_timer))
  : list (Z * schd_timer) :=
  match l with
  | [] => []
  | (i, t) :: l' => if i =? id then (i, f t) :: l' else (i, t) :: update_timer id f l'
  end.

Definition remove_timer (id : Z) (l : list (Z * schd_timer)) : list (Z * schd_timer) :=
  filter (fun p => negb (fst p =? id)) l.

(** The timer is allocated / armed. *)
Definition live (id : Z) (g : globals) : bool :=
  match find_timer id (timers g) with Some _ => true | None => false end.

Definition armed (id : Z) (g : globals) : bool :=
  match find_timer id (timers g) with Some t => st_armed t | None => false end.

(** Arms or disarms the timer: [(id, armed)]. *)
Definition arm_timer (p : Z * bool) (g : globals) : globals :=
  set_timers (update_timer (fst p) (set_st_armed (snd p)) (timers g)) g.

Section Scheduler.
Context {X : Type} {E : Env X}.

(** The writes of this file: the list of timers and the allocator. *)
Definition put_timers (l : list (Z * schd_timer)) : M (world X) unit :=
  upd (fun g => set_timers l g).

(** Dereferences a timer id: the NULL id, a freed timer or its fields. *)
Definition deref_timer (id : Z) : M (world X) schd_timer :=
  if id =? INVALID_ID then stop NullDeref
  else
    l <- get timers ;;
    match find_timer id l with
    | Some t => ret t
    | None => stop UseAfterFree
    end.

Definition timer_settime (id val_s val_ns int_s int_ns : Z) : M (world X) Z :=
  r <- exec (TimerSettime id val_s val_ns int_s int_ns) ;;
  when (r =? 0) (upd (arm_timer (id, negb ((val_s =? 0) && (val_ns =? 0))))) ;;
  ret r.

Definition scheduler_timer_start (id : Z) : M (world X) Z :=
  t <- deref_timer id ;;
  timer_settime id (ms_sec (timeout_ms t)) (ms_nsec (timeout_ms t))
                   (ms_sec (period_ms t)) (ms_nsec (period_ms t)).

Definition scheduler_timer_stop (id : Z) : M (world X) Z :=
  _ <- deref_timer id ;;
  timer_settime id 0 0 0 0.

Definition schd_timer_init_system_timer_attr : M (world X) Z :=
  r <- exec PthreadAttrInit ;;
  if negb (r =? 0) then ret (-1) else exec PthreadAttrSetdetach.

(** Returns the new id, or [INVALID_ID]. *)
Definition scheduler_timer_new (cb : string) (expires_ms period_ms : Z) : M (world X) Z :=
  ok <- exec Malloc ;;
  if negb ok then ret INVALID_ID
  else
    a <- schd_timer_init_system_timer_attr ;;
    if negb (a =? 0) then ret INVALID_ID
    else
      t <- exec TimerCreate ;;
      if negb (t =? 0) then exec_ PthreadAttrDestroy ;; ret INVALID_ID
      else
        id <- get next_timer ;;
        l <- get timers ;;
        put_timers (l ++ [(id, mk_schd_timer expires_ms period_ms cb false)]) ;;
        upd (fun g => set_next_timer (id + 1) g) ;;
        ret id.

Definition scheduler_timer_delete (id : Z) : M (world X) unit :=
  _ <- deref_timer id ;;
  exec_ (TimerDelete id) ;;
  exec_ PthreadAttrDestroy ;;
  l <- get timers ;;
  put_timers (remove_timer id l).

(** [eloop.c]; the [unsigned int] parameters convert their arguments. *)
Definition eloop_timer_add (cb : string) (expires_ms period_ms : Z) : M (world X) Z :=
  scheduler_timer_new cb (wrapu32 expires_ms) (wrapu32 period_ms).

Definition eloop_timer_delete (id : Z) : M (world X) unit := scheduler_timer_delete id.

Definition eloop_timer_start (id : Z) : M (world X) unit :=
  scheduler_timer_start id ;; ret tt.

Definition eloop_timer_stop (id : Z) : M (world X) unit :=
  scheduler_timer_stop id ;; ret tt.
End Scheduler.

(** ** Footprint *)

Section EloopKeeps.
Context {X : Type} {E : Env X} (I : view) `{!Quiet I}.
Local Notation K m := (keepsg (X := X) I m).

Lemma deref_timer_keeps id : K (deref_timer id).
Proof. unfold deref_timer. keepsg. Qed.
#[local] Hint Resolve deref_timer_keeps : keeps.

Lemma eloop_timer_start_keeps `{!Ignores arm_timer I} id : K (eloop_timer_start id).
Proof. keepsg_deep. Qed.

Lemma eloop_timer_stop_keeps `{!Ignores arm_timer I} id : K (eloop_timer_stop id).
Proof. keepsg_deep. Qed.
End EloopKeeps.

#[export] Hint Resolve deref_timer_keeps eloop_timer_start_keeps eloop_timer_stop_keeps : keeps.
