(* ===== verification/Hal.v ===== *)
(** * Device layers: wifi_hal.c, modem_hal.c, etherent_hal.c

    Each layer guards its device with a start flag, so that starting a started
    device and stopping a stopped one make no device call. *)

From Stdlib Require Import ZArith List Bool Lia String.
From S2P Require Import Prelude CMonad Json NetEnv.
Import ListNotations.
Open Scope string_scope.
Open Scope Z_scope.

Section Hal.
Context {X : Type} {E : Env X}.
Local Notation Mw := (M (world X)).

Definition put_hal (f : hal_state -> hal_state) : Mw unit := upd (fun g => set_hal (f (hal g)) g).

Definition WIFI_HARDWARE_MODULE_ID : string := "wifi_hal".
Definition MODEM_TTY_HW_ID : string := "modem_tty".
Definition ETHNET_HARDWARE_MODULE_ID : string := "ethnet_hal".

(** [hw_get_module], then the module's [open]. *)
Definition hal_init (id : string) : Mw Z :=
  r <- exec (HwGetModule id) ;;
  if negb (r =? 0) then ret (-1)
  else
    o <- exec (HwDeviceOpen id) ;;
    if negb (o =? 0) then ret (-1) else ret 0.

Definition wifi_hal_init : Mw Z := hal_init WIFI_HARDWARE_MODULE_ID.
Definition wifi_hal_exit : Mw unit := exec_ (HwDeviceClose WIFI_HARDWARE_MODULE_ID).
Definition wifi_hal_get_capacity : Mw Z := exec WifiGetStatus.

Definition wifi_hal_start_station : Mw Z :=
  f <- get (fun g => g_start_station_flag (hal g)) ;;
  if f =? 0 then
    put_hal (set_g_start_station_flag 1) ;;
    r1 <- exec WifiStartStation ;;
    r2 <- exec (System "/etc/init.d/dhcpcd restart") ;;
    r3 <- exec WifiOn ;;
    ret (Z.lor (Z.lor r1 r2) r3)
  else ret 0.

Definition wifi_hal_stop_station : Mw unit :=
  f <- get (fun g => g_start_station_flag (hal g)) ;;
  when (negb (f =? 0))
    (exec_ (System "/etc/init.d/dhcpcd stop") ;;
     exec_ WifiStopStation ;;
     exec_ (Sleep 2) ;;
     exec_ WifiOff ;;
     put_hal (set_g_start_station_flag 0)).

Definition wifi_hal_start_ap (ssid psk ip : string) : Mw Z :=
  f <- get (fun g => g_start_ap_flag (hal g)) ;;
  if f =? 0 then
    put_hal (set_g_start_ap_flag 1) ;;
    exec_ WifiOn ;;
    exec (WifiStartAp ssid psk ip)
  else ret 0.

Definition wifi_hal_stop_ap : Mw unit :=
  f <- get (fun g => g_start_ap_flag (hal g)) ;;
  when (negb (f =? 0))
    (put_hal (set_g_start_ap_flag 0) ;;
     exec_ WifiStopAp ;;
     exec_ (Sleep 2) ;;
     exec_ WifiOff).

Definition modem_hal_init : Mw Z := hal_init MODEM_TTY_HW_ID.
Definition modem_hal_exit : Mw unit := exec_ (HwDeviceClose MODEM_TTY_HW_ID).
Definition modem_hal_get_capacity : Mw Z := exec ModemGetStatus.

Definition modem_hal_start_modem : Mw Z :=
  f <- get (fun g => g_start_modem_flag (hal g)) ;;
  if f =? 0 then
    put_hal (set_g_start_modem_flag 1) ;;
    r1 <- exec ModemOn ;;
    r2 <- exec ModemStartDhcpcd ;;
    ret (Z.lor r1 r2)
  else ret 0.

Definition modem_hal_stop_modem : Mw unit :=
  f <- get (fun g => g_start_modem_flag (hal g)) ;;
  when (f =? 1)
    (exec_ ModemStopDhcpcd ;;
     exec_ ModemOff ;;
     exec_ (System "ifconfig eth0 down") ;;
     put_hal (set_g_start_modem_flag 0)).

(** The result and the value written through the pointer. *)
Definition modem_hal_get_signal_type : Mw (Z * Z) := exec ModemGetSignalType.
Definition modem_hal_get_signal_strength : Mw (Z * Z) := exec ModemGetSignalStrength.

Definition etherent_hal_init : Mw Z := hal_init ETHNET_HARDWARE_MODULE_ID.
Definition etherent_hal_exit : Mw unit := exec_ (HwDeviceClose ETHNET_HARDWARE_MODULE_ID).
Definition etherent_hal_get_capacity : Mw Z := exec EthGetStatus.

Definition etherent_hal_start_eth : Mw Z :=
  f <- get (fun g => g_start_etherent_flag (hal g)) ;;
  if f =? 0 then
    put_hal (set_g_start_etherent_flag 1) ;;
    r1 <- exec EthOn ;;
    r2 <- exec EthStartDhcpcd ;;
    ret (Z.lor r1 r2)
  else ret 0.

Definition etherent_hal_stop_eth : Mw unit :=
  f <- get (fun g => g_start_etherent_flag (hal g)) ;;
  when (f =? 1)
    (exec_ EthStopDhcpcd ;;
     exec_ EthOff ;;
     put_hal (set_g_start_etherent_flag 0)).
End Hal.

(** ** Footprint: the start flags *)

Section HalKeeps.
Context {X : Type} {E : Env X} (I : view) `{!Quiet I} `{!Ignores set_hal I}.
Local Notation K m := (keepsg (X := X) I m).

Lemma wifi_hal_start_station_keeps : K wifi_hal_start_station.
Proof. keepsg_deep. Qed.

Lemma wifi_hal_stop_station_keeps : K wifi_hal_stop_station.
Proof. keepsg_deep. Qed.

Lemma wifi_hal_start_ap_keeps s p i : K (wifi_hal_start_ap s p i).
Proof. keepsg_deep. Qed.

Lemma wifi_hal_stop_ap_keeps : K wifi_hal_stop_ap.
Proof. keepsg_deep. Qed.

Lemma modem_hal_start_modem_keeps : K modem_hal_start_modem.
Proof. keepsg_deep. Qed.

Lemma modem_hal_stop_modem_keeps : K modem_hal_stop_modem.
Proof. keepsg_deep. Qed.

Lemma etherent_hal_start_eth_keeps : K etherent_hal_start_eth.
Proof. keepsg_deep. Qed.

Lemma etherent_hal_stop_eth_keeps : K etherent_hal_stop_eth.
Proof. keepsg_deep. Qed.
End HalKeeps.

#[export] Hint Resolve wifi_hal_start_station_keeps
  wifi_hal_stop_station_keeps
  wifi_hal_start_ap_keeps
  wifi_hal_stop_ap_keeps
  modem_hal_start_modem_keeps
  modem_hal_stop_modem_keeps
  etherent_hal_start_eth_keeps
  etherent_hal_stop_eth_keeps : keeps.
