(* ===== verification/Report.v ===== *)
(** * Status messages: network_report.c

    The JSON messages the manager posts on [network.status] and the replies of
    the [GET_STATUS] commands. *)

From Stdlib Require Import ZArith List Bool Lia String.
From S2P Require Import Prelude CString CMonad Json NetEnv.
Import ListNotations.
Open Scope string_scope.
Open Scope Z_scope.

(** [sizeof(net_status)], two pointers of 8 bytes on the aarch64 target: the
    bound the code compares a state with. *)
Definition sizeof_net_status : Z := 16.

(** [signal_mode_map] and the table of [modem_tty.h]. *)
Definition eSIGNAL_SERVICE_NONE : Z := 0.
Definition eSIGNAL_SERVICE_2G : Z := 2.
Definition eSIGNAL_SERVICE_3G : Z := 3.
Definition eSIGNAL_SERVICE_4G : Z := 4.

Definition signal_mode_map : list (Z * string) :=
  [(eSIGNAL_SERVICE_NONE, "none"); (eSIGNAL_SERVICE_2G, "2G");
   (eSIGNAL_SERVICE_3G, "3G"); (eSIGNAL_SERVICE_4G, "4G")].

(** The loop has no break: the last matching row wins. *)
Fixpoint find_mode_loop (val : Z) (rows : list (Z * string)) (found : option string) : option string :=
  match rows with
  | [] => found
  | (v, s) :: rows' => find_mode_loop val rows' (if val =? v then Some s else found)
  end.

Definition find_mode_string (val : Z) : option string :=
  find_mode_loop (wrapu32 val) signal_mode_map None.

Section Report.
Context {X : Type} {E : Env X}.
Local Notation Mw := (M (world X)).

Definition network_ipc_upload (msg : json) : Mw unit := exec_ (FloraPost msg).
Definition network_ipc_return (msg : json) : Mw unit := exec_ (FloraReply msg).

(** [p_status->state >= sizeof(net_status)]: an unsigned comparison. *)
Definition state_too_big (state : Z) : bool := sizeof_net_status <=? state mod 2 ^ 64.

(** [net_status[state]] *)
Definition net_status (state : Z) : Mw string :=
  if state =? 0 then ret "DISCONNECTED"
  else if state =? 1 then ret "CONNECTED"
  else stop OutOfBounds.

Definition wifi_elem (st : tWIFI_STATUS) : Mw json :=
  s <- net_status (ws_state st) ;;
  ret (JObj [("state", JStr s); ("signal", JStr (itoa (ws_signal st)))]).

Definition modem_elem (st : tMODEM_STATUS) : Mw json :=
  s <- net_status (ms_state st) ;;
  let typ := match find_mode_string (ms_type st) with
             | Some t => [("type", JStr t)]
             | None => []
             end in
  ret (JObj (("state", JStr s) :: typ ++ [("signal", JStr (itoa (ms_signal st)))])).

Definition state_elem (state : Z) : Mw json :=
  s <- net_status state ;;
  ret (JObj [("state", JStr s)]).

Definition report_wifi_status (st : tWIFI_STATUS) : Mw Z :=
  if state_too_big (ws_state st) then ret (-1)
  else
    elem <- wifi_elem st ;;
    network_ipc_upload (JObj [("wifi", elem)]) ;;
    ret 0.

Definition report_modem_status (st : tMODEM_STATUS) : Mw Z :=
  if state_too_big (ms_state st) then ret (-1)
  else
    elem <- modem_elem st ;;
    network_ipc_upload (JObj [("modem", elem)]) ;;
    ret 0.

Definition report_etherent_status (state : Z) : Mw Z :=
  if state_too_big state then ret (-1)
  else
    elem <- state_elem state ;;
    network_ipc_upload (JObj [("etherent", elem)]) ;;
    ret 0.

Definition report_network_status (state : Z) : Mw Z :=
  if state_too_big state then ret (-1)
  else
    elem <- state_elem state ;;
    network_ipc_upload (JObj [("network", elem)]) ;;
    ret 0.

Definition respond_wifi_status (st : tWIFI_STATUS) : Mw Z :=
  if state_too_big (ws_state st) then ret (-1)
  else
    elem <- wifi_elem st ;;
    network_ipc_return (JObj [("result", JStr "OK"); ("wifi", elem)]) ;;
    ret 0.

Definition respond_modem_status (st : tMODEM_STATUS) : Mw Z :=
  if state_too_big (ms_state st) then ret (-1)
  else
    elem <- modem_elem st ;;
    network_ipc_return (JObj [("result", JStr "OK"); ("modem", elem)]) ;;
    ret 0.

Definition respond_etherent_status (state : Z) : Mw Z :=
  if state_too_big state then ret (-1)
  else
    elem <- state_elem state ;;
    network_ipc_return (JObj [("result", JStr "OK"); ("etherent", elem)]) ;;
    ret 0.

Definition respond_network_status (state : Z) : Mw Z :=
  if state_too_big state then ret (-1)
  else
    elem <- state_elem state ;;
    network_ipc_return (JObj [("result", JStr "OK"); ("network", elem)]) ;;
    ret 0.
End Report.

(** ** Footprint: a report posts a message and writes nothing *)

Section ReportKeeps.
Context {X : Type} {E : Env X} (I : view) `{!Quiet I}.
Local Notation K m := (keepsg (X := X) I m).

Lemma net_status_keeps s : K (net_status s).
Proof. keepsg_deep. Qed.

Lemma report_wifi_status_keeps st : K (report_wifi_status st).
Proof. keepsg_deep. Qed.

Lemma report_modem_status_keeps st : K (report_modem_status st).
Proof. keepsg_deep. Qed.

Lemma report_etherent_status_keeps st : K (report_etherent_status st).
Proof. keepsg_deep. Qed.

Lemma report_network_status_keeps st : K (report_network_status st).
Proof. keepsg_deep. Qed.
End ReportKeeps.

#[export] Hint Resolve net_status_keeps
  report_wifi_status_keeps
  report_modem_status_keeps
  report_etherent_status_keeps
  report_network_status_keeps : keeps.
