(* ===== verification/WifiEvent.v ===== *)
(** * wifi_event.c: the wpa_supplicant event monitor

    The reported Wi-Fi status, the handling of [CTRL-EVENT-] messages, the two
    monitor threads (one step of each loop is a definition) and the condition
    variable by which a pending connect command learns its result. *)

From Stdlib Require Import ZArith List Bool Lia Ascii String.
From S2P Require Import Prelude CString CMonad Json NetEnv WpaCommand Report.
Import ListNotations.
Open Scope string_scope.
Open Scope Z_scope.

(** [wpa_event_msg] *)
Definition wpa_event_msg : list string :=
  ["CTRL-EVENT-CONNECTED"; "CTRL-EVENT-DISCONNECTED"; "CTRL-EVENT-ASSOC-REJECT";
   "CTRL-EVENT-AUTH-REJECT"; "CTRL-EVENT-TERMINATING"; "CTRL-EVENT-PASSWORD-CHANGED";
   "CTRL-EVENT-EAP-NOTIFICATION"; "CTRL-EVENT-EAP-STARTED"; "CTRL-EVENT-EAP-PROPOSED-METHOD";
   "CTRL-EVENT-EAP-METHOD"; "CTRL-EVENT-EAP-PEER-CERT"; "CTRL-EVENT-EAP-PEER-ALT";
   "CTRL-EVENT-EAP-TLS-CERT-ERROR"; "CTRL-EVENT-EAP-STATUS"; "CTRL-EVENT-EAP-SUCCESS";
   "CTRL-EVENT-EAP-FAILURE"; "CTRL-EVENT-SSID-TEMP-DISABLED"; "CTRL-EVENT-SSID-REENABLED";
   "CTRL-EVENT-SCAN-STARTED"; "CTRL-EVENT-SCAN-RESULTS"; "CTRL-EVENT-SCAN-FAILED";
   "CTRL-EVENT-STATE-CHANGE"; "CTRL-EVENT-BSS-ADDED"; "CTRL-EVENT-BSS-REMOVED";
   "CTRL-EVENT-NETWORK-NOT-FOUND"; "CTRL-EVENT-SIGNAL-CHANGE"; "CTRL-EVENT-REGDOM-CHANGE";
   "CTRL-EVENT-CHANNEL-SWITCH"; "CTRL-EVENT-SUBNET-STATUS-UPDATE"].

(** The indices [wifi_event.h] names, as far as the handler tests them. *)
Definition WPA_EVENT_CONNECTED : Z := 0.
Definition WPA_EVENT_DISCONNECTED : Z := 1.
Definition WPA_EVENT_ASSOC_REJECT : Z := 2.
Definition WPA_EVENT_TEMP_DISABLED : Z := 16.
Definition WPA_EVENT_REENABLED : Z := 17.
Definition WPA_EVENT_NETWORK_NOT_FOUND : Z := 24.

Fixpoint msg_index_loop (msg : string) (l : list string) (i : Z) : Z :=
  match l with
  | [] => -1
  | m :: l' => if String.eqb msg m then i else msg_index_loop msg l' (i + 1)
  end.

Definition get_wifi_msg_index (msg : string) : Z := msg_index_loop msg wpa_event_msg 0.

Section WifiEvent.
Context {X : Type} {E : Env X} {F : Fuel}.
Local Notation Mw := (M (world X)).

Definition put_wev (f : wifi_ev -> wifi_ev) : Mw unit := upd (fun g => set_wev (f (wev g)) g).

(** Splits ["<3>MSG data"] through [msg[48]] and [data[256]]. *)
Definition get_msg_and_data (buf : string) : Mw (string * string) :=
  match strchr (advance 4 buf) SPC with
  | None => stop NullDeref
  | Some p_index =>
      let n := (String.length buf - String.length p_index - 3)%nat in
      let msg := substring 0 n (advance 3 buf) in
      let data := advance 1 p_index in
      if (48 <=? strlen msg) || (256 <=? strlen data) then stop BufferOverflow
      else ret (msg, data)
  end.

Definition wifi_event_get_status : Mw tWIFI_STATUS := get (fun g => g_wifi_status (wev g)).

Definition wifi_event_set_status (st : tWIFI_STATUS) : Mw unit := put_wev (set_g_wifi_status st).

Definition wifi_set_state (state : Z) : Mw unit :=
  st <- wifi_event_get_status ;;
  wifi_event_set_status (set_ws_state state st).

Definition wifi_report_connect_state (state : Z) : Mw unit :=
  st <- wifi_event_get_status ;;
  let st := set_ws_state state st in
  wifi_event_set_status st ;;
  report_wifi_status st ;; ret tt.

Definition wifi_report_signal_strength (strength : Z) : Mw unit :=
  st <- wifi_event_get_status ;;
  let st := set_ws_signal strength st in
  wifi_event_set_status st ;;
  report_wifi_status st ;; ret tt.

Definition wifi_report_status : Mw unit :=
  st <- wifi_event_get_status ;;
  report_wifi_status st ;; ret tt.

Definition wifi_respond_status : Mw Z :=
  st <- wifi_event_get_status ;;
  respond_wifi_status st ;; ret 0.

Definition wifi_wakeup_wait (src : tRESULT) : Mw unit :=
  put_wev (set_g_result src) ;;
  put_wev (set_w_signalled true).

Definition set_conn_state (s : conn_state) : Mw unit := upd (put_wifi_state s).

(** The [switch (index)] of [process_recv_info]; returns [result]. *)
Definition recv_switch (index : Z) (data : string) : Mw tRESULT :=
  st <- get (fun g => wifi_state (net g)) ;;
  if (index =? WPA_EVENT_CONNECTED) || (index =? WPA_EVENT_REENABLED) then
    when (conn_eqb st WIFI_STATION_UNCONNECTED) (set_conn_state WIFI_STATION_CONNECTED) ;;
    wifi_report_connect_state REPORT_CONNECT ;;
    put_wev (set_wifi_faild_time 0) ;;
    ret (if conn_eqb st WIFI_STATION_JOINING
         then mk_tRESULT 1 COMMAND_OK eREASON_NONE else zero_result)
  else if (index =? WPA_EVENT_ASSOC_REJECT) || (index =? WPA_EVENT_DISCONNECTED) then
    n <- get (fun g => wifi_faild_time (wev g)) ;;
    put_wev (set_wifi_faild_time (n + 1)) ;;
    when (conn_eqb st WIFI_STATION_CONNECTED) (set_conn_state WIFI_STATION_UNCONNECTED) ;;
    wifi_report_connect_state REPORT_UNCONNECT ;;
    ret (if (WIFI_FAILED_TIMES <? n + 1) && conn_eqb st WIFI_STATION_JOINING
         then mk_tRESULT 1 COMMAND_NOK eREASON_WIFI_NOT_CONNECT else zero_result)
  else if index =? WPA_EVENT_NETWORK_NOT_FOUND then
    when (conn_eqb st WIFI_STATION_CONNECTED) (set_conn_state WIFI_STATION_UNCONNECTED) ;;
    ret (if conn_eqb st WIFI_STATION_JOINING
         then mk_tRESULT 1 COMMAND_NOK eREASON_WIFI_NOT_FOUND else zero_result)
  else if index =? WPA_EVENT_TEMP_DISABLED then
    when (conn_eqb st WIFI_STATION_CONNECTED) (set_conn_state WIFI_STATION_UNCONNECTED) ;;
    wifi_report_connect_state REPORT_UNCONNECT ;;
    ret (if strstr_b data "WRONG_KEY" && conn_eqb st WIFI_STATION_JOINING
         then mk_tRESULT 1 COMMAND_NOK eREASON_WIFI_WRONG_KEY else zero_result)
  else ret zero_result.

Definition process_recv_info (monitor_buf : string) : Mw Z :=
  '(msg, data) <- get_msg_and_data monitor_buf ;;
  result <- recv_switch (get_wifi_msg_index msg) data ;;
  when (r_flag result =? 1) (wifi_wakeup_wait result) ;;
  ret 0.

(** What the monitor loop does with a received message. *)
Definition monitor_message (buf : string) : Mw unit :=
  when (strstr_b buf "CTRL-EVENT-" && negb (strstr_b buf "CTRL-EVENT-BSS-"))
    (process_recv_info buf ;; ret tt).

(** [wifi_get_monitor_event] up to its loop: true when the loop is entered. *)
Definition monitor_thread_start : Mw bool :=
  '(r, _) <- retry 5 (exec_ (Sleep 1) ;; wifi_get_status (Some (-100)))
                   (fun rs => fst rs <? 0) (-1, Some (-100)) ;;
  if r <? 0 then ret false
  else
    a <- exec (Access WIFI_WPA_CTRL_PATH) ;;
    if negb (a =? 0) then ret false
    else
      c <- wifi_connect_moni_socket WIFI_WPA_CTRL_PATH ;;
      if c <? 0 then ret false
      else put_wev (set_g_wifi_thread_start 1) ;; ret true.

(** One round of its loop: false when the thread returns. *)
Definition monitor_thread_round : Mw bool :=
  open <- get (fun g => g_wifi_monitor_open (wev g)) ;;
  when (open =? 0) (put_wev (set_g_wifi_monitor_open 1)) ;;
  '(r, buf) <- wifi_ctrl_recv ;;
  ok <- (if r =? 0 then monitor_message buf ;; ret true
         else if r =? 1 then ret true
         else
           wifi_monitor_release ;;
           c <- wifi_connect_moni_socket WIFI_WPA_CTRL_PATH ;;
           ret (negb (c <? 0))) ;;
  if negb ok then ret false
  else
    t <- get (fun g => g_wifi_thread_start (wev g)) ;;
    when (t =? 0) wifi_monitor_release ;;
    ret (negb (t =? 0)).

Definition report_signal_strength (signal : Z) : Mw unit := wifi_report_signal_strength signal.

(** [wifi_roam_scan_event], built without [WIFI_ROAMING], up to its loop. *)
Definition roam_thread_start : Mw unit := put_wev (set_g_wifi_thread_start 1).

(** One round of its loop. *)
Definition roam_thread_round : Mw unit :=
  signal <- get (fun g => roam_signal (wev g)) ;;
  '(r, s) <- wifi_get_signal (Some signal) ;;
  s <- read_int (RInt s) ;;
  put_wev (set_roam_signal s) ;;
  when (r =? 0) (report_signal_strength s ;; exec_ (Sleep 3)).

Definition wifi_trigger_scan : Mw unit := wifi_scan ;; ret tt.

Definition wifi_start_monitor : Mw Z :=
  wifi_set_state 0 ;;
  f <- get (fun g => g_wifi_monitor_flag (wev g)) ;;
  if f =? 0 then
    a <- exec PthreadAttrInit ;;
    if negb (a =? 0) then ret (-1)
    else
      e <- exec (PthreadCreate "wifi_get_monitor_event") ;;
      if negb (e =? 0) then ret (-1)
      else
        exec_ PthreadAttrDestroy ;;
        r <- exec (PthreadCreate "wifi_roam_scan_event") ;;
        if negb (r =? 0) then
          put_wev (set_g_wifi_thread_start 0) ;;
          exec_ (PthreadCancel "wifi_get_monitor_event") ;;
          exec_ (PthreadJoin "wifi_get_monitor_event") ;;
          ret (-1)
        else
          put_wev (set_g_wifi_monitor_flag 1) ;;
          ret 0
  else ret 0.

Definition wifi_stop_monitor : Mw unit :=
  f <- get (fun g => g_wifi_monitor_flag (wev g)) ;;
  when (f =? 1)
    (put_wev (set_g_wifi_monitor_flag 0) ;;
     put_wev (set_g_wifi_thread_start 0) ;;
     put_wev (set_g_wifi_monitor_open 0) ;;
     exec_ (PthreadCancel "wifi_roam_scan_event") ;;
     exec_ (PthreadCancel "wifi_get_monitor_event") ;;
     exec_ (PthreadJoin "wifi_roam_scan_event") ;;
     exec_ (PthreadJoin "wifi_get_monitor_event")).
End WifiEvent.

(** ** Footprint: the event state and [wifi_state] *)

Section WifiEventKeeps.
Context {X : Type} {E : Env X} {F : Fuel} (I : view) `{!Quiet I}
  `{!KeepsWev I} `{!Ignores put_wifi_state I}.
Local Notation K m := (keepsg (X := X) I m).

Lemma wifi_event_get_status_keeps : K wifi_event_get_status.
Proof. keepsg_deep. Qed.

Lemma wifi_set_state_keeps s : s = 0 \/ s = 1 -> K (wifi_set_state s).
Proof. intros. keepsg_deep. Qed.

Lemma wifi_report_connect_state_keeps s : s = 0 \/ s = 1 -> K (wifi_report_connect_state s).
Proof. intros. keepsg_deep. Qed.

Lemma wifi_report_signal_strength_keeps s : K (wifi_report_signal_strength s).
Proof.
  apply keepsg_get_upd; [|intros; keepsg].
  intros g l H. apply keeps_wev; [left; reflexivity|exact H].
Qed.
#[local] Hint Resolve wifi_set_state_keeps wifi_report_connect_state_keeps
  wifi_report_signal_strength_keeps : keeps.

Lemma wifi_report_status_keeps : K wifi_report_status.
Proof. keepsg_deep. Qed.

Lemma monitor_thread_start_keeps : K monitor_thread_start.
Proof. keepsg_deep. Qed.

Lemma monitor_thread_round_keeps : K monitor_thread_round.
Proof. keepsg_deep. Qed.

Lemma roam_thread_start_keeps : K roam_thread_start.
Proof. keepsg_deep. Qed.

Lemma roam_thread_round_keeps : K roam_thread_round.
Proof. keepsg_deep. Qed.

Lemma wifi_start_monitor_keeps : K wifi_start_monitor.
Proof. keepsg_deep. Qed.

Lemma wifi_stop_monitor_keeps : K wifi_stop_monitor.
Proof. keepsg_deep. Qed.
End WifiEventKeeps.

#[export] Hint Resolve wifi_event_get_status_keeps
  wifi_set_state_keeps
  wifi_report_connect_state_keeps
  wifi_report_signal_strength_keeps
  wifi_report_status_keeps
  monitor_thread_start_keeps
  monitor_thread_round_keeps
  roam_thread_start_keeps
  roam_thread_round_keeps
  wifi_start_monitor_keeps
  wifi_stop_monitor_keeps : keeps.
