(* ===== verification/LinkEvent.v ===== *)
(** * modem_event.c, etherent_event.c and network_monitor.c

    The status of the modem, of the Ethernet link and of the Internet
    connection, and their periodic monitors. *)

From Stdlib Require Import ZArith List Bool Lia Ascii String.
From S2P Require Import Prelude CString CMonad Json NetEnv WpaCommand Eloop Hal Report.
Import ListNotations.
Open Scope string_scope.
Open Scope Z_scope.

(** ** modem_event.c *)

Module Modem.
Section Modem.
Context {X : Type} {E : Env X}.
Local Notation Mw := (M (world X)).

Definition put_mev (f : modem_ev -> modem_ev) : Mw unit := upd (fun g => set_mev (f (mev g)) g).

(** The [uint32_t] parameters convert their arguments. *)
Definition get_modem_state (type strength : Z) : Z :=
  if (wrapu32 type =? eSIGNAL_SERVICE_NONE) || (wrapu32 strength =? 99)
  then REPORT_UNCONNECT else REPORT_CONNECT.

Definition modem_get_stauts : Mw tMODEM_STATUS := get (fun g => g_modem_status (mev g)).

Definition modem_set_status (st : tMODEM_STATUS) : Mw unit := put_mev (set_g_modem_status st).

Definition modem_report_signal_strength (signal : Z) : Mw unit :=
  st <- modem_get_stauts ;;
  let st := set_ms_signal signal st in
  modem_set_status st ;;
  report_modem_status st ;; ret tt.

Definition modem_report_signal_type (type : Z) : Mw unit :=
  st <- modem_get_stauts ;;
  when (negb (type =? ms_type st))
    (let st := set_ms_type type st in
     modem_set_status st ;;
     report_modem_status st ;; ret tt).

Definition modem_report_connect_state (state : Z) : Mw unit :=
  st <- modem_get_stauts ;;
  when (negb (state =? ms_state st))
    (let st := set_ms_state state st in
     modem_set_status st ;;
     report_modem_status st ;; ret tt).

Definition MAX_UNCONNECT_CNTS : Z := 12.

Definition modem_event_monitor : Mw unit :=
  '(r1, strength) <- modem_hal_get_signal_strength ;;
  if negb (r1 =? 0) then ret tt
  else
    modem_report_signal_strength strength ;;
    '(r2, type) <- modem_hal_get_signal_type ;;
    if negb (r2 =? 0) then ret tt
    else
      modem_report_signal_type type ;;
      let state := get_modem_state type strength in
      modem_report_connect_state state ;;
      when (state =? REPORT_UNCONNECT)
        (upd (fun g => set_mev (set_unconnect_cnts (unconnect_cnts (mev g) + 1) (mev g)) g)) ;;
      n <- get (fun g => unconnect_cnts (mev g)) ;;
      when (MAX_UNCONNECT_CNTS <=? n)
        (put_mev (set_unconnect_cnts 0) ;;
         modem_hal_stop_modem ;;
         exec_ (Usleep 50000) ;;
         modem_hal_start_modem ;; ret tt).

Definition modem_report_status : Mw unit :=
  st <- modem_get_stauts ;;
  report_modem_status st ;; ret tt.

Definition modem_respond_status : Mw Z :=
  st <- modem_get_stauts ;;
  respond_modem_status st ;; ret 0.

Definition modem_start_monitor : Mw Z :=
  f <- get (fun g => g_modem_start_monitor (mev g)) ;;
  when (f =? 0)
    (put_mev (set_g_modem_start_monitor 1) ;;
     id <- get (fun g => modem_monitor (net g)) ;;
     eloop_timer_start id) ;;
  ret 0.

Definition modem_stop_monitor : Mw unit :=
  f <- get (fun g => g_modem_start_monitor (mev g)) ;;
  when (negb (f =? 0))
    (put_mev (set_g_modem_start_monitor 0) ;;
     id <- get (fun g => modem_monitor (net g)) ;;
     eloop_timer_stop id).
End Modem.
End Modem.

(** ** etherent_event.c *)

Module Etherent.
Section Etherent.
Context {X : Type} {E : Env X}.
Local Notation Mw := (M (world X)).

Definition put_eev (f : eth_ev -> eth_ev) : Mw unit := upd (fun g => set_eev (f (eev g)) g).

Definition ETHERENT_UNLINK : Z := 0.
Definition ETHERENT_LINK : Z := 1.

Definition etherent_get_start_flag : Mw Z := get (fun g => g_etherent_start_monitor (eev g)).

Fixpoint carrier_loop (ls : list string) (status : option Z) : option Z :=
  match ls with
  | [] => status
  | l :: ls' =>
      carrier_loop ls'
        (Some (match l with
               | String c _ => if Ascii.eqb c "0"%char then ETHERENT_UNLINK else ETHERENT_LINK
               | EmptyString => ETHERENT_LINK
               end))
  end.

(** The link state through the pointer, [None] when no line was read; when
    the file does not open, [fclose] is called with NULL. *)
Definition etherent_is_link : Mw (Z * option Z) :=
  f <- exec (ReadLines "/sys/class/net/eth0/carrier") ;;
  match f with
  | Some ls => ret (0, carrier_loop ls None)
  | None => stop NullDeref
  end.

Definition etherent_get_stauts : Mw Z := get (fun g => g_etherent_status (eev g)).

Definition etherent_set_status (st : Z) : Mw unit := put_eev (set_g_etherent_status st).

Definition etherent_get_rt_status : Mw Z :=
  '(r, link) <- etherent_is_link ;;
  st <- (if r =? 0 then
           l <- read_int (RInt link) ;;
           ret (if l =? ETHERENT_LINK then REPORT_CONNECT else REPORT_UNCONNECT)
         else ret REPORT_UNCONNECT) ;;
  etherent_set_status st ;;
  ret st.

Definition etherent_report_status : Mw unit :=
  st <- etherent_get_stauts ;;
  report_etherent_status st ;; ret tt.

Definition etherent_respond_status : Mw Z :=
  st <- etherent_get_stauts ;;
  respond_etherent_status st ;; ret 0.

Definition etherent_start_monitor : Mw Z :=
  put_eev (set_g_etherent_start_monitor 1) ;; ret 0.

Definition etherent_stop_monitor : Mw unit := put_eev (set_g_etherent_start_monitor 0).
End Etherent.
End Etherent.

(** ** network_monitor.c *)

Module Monitor.
Section Monitor.
Context {X : Type} {E : Env X} {F : Fuel}.
Local Notation Mw := (M (world X)).

Definition put_mon (f : net_mon -> net_mon) : Mw unit := upd (fun g => set_mon (f (mon g)) g).

Definition monitor_get_status : Mw Z := get (fun g => g_network_status (mon g)).

Definition monitor_set_status (st : Z) : Mw unit := put_mon (set_g_network_status st).

Definition monitor_report_status : Mw unit :=
  st <- monitor_get_status ;;
  report_network_status st ;; ret tt.

Definition monitor_respond_status : Mw Z :=
  st <- monitor_get_status ;;
  respond_network_status st ;; ret 0.

Definition judge_set (state : Z) : Mw unit :=
  monitor_set_status state ;;
  report_network_status state ;; ret tt.

(** One round of the [while (1)] of [judge_network_link]. *)
Definition judge_network_round : Mw unit :=
  r1 <- ping_net_address SERVER_ADDRESS_PUB_DNS ;;
  (if negb (r1 =? 0) then
     r2 <- ping_net_address SERVER_ADDRESS ;;
     if negb (r2 =? 0) then
       n <- get (fun g => unconnect_times (mon g)) ;;
       put_mon (set_unconnect_times (n + 1)) ;;
       when (3 <=? n + 1) (judge_set REPORT_UNCONNECT)
     else
       put_mon (set_unconnect_times 0) ;;
       judge_set REPORT_CONNECT
   else
     put_mon (set_unconnect_times 0) ;;
     judge_set REPORT_CONNECT) ;;
  exec_ (Sleep 2).

Definition network_start_monitor : Mw Z :=
  a <- exec PthreadAttrInit ;;
  if negb (a =? 0) then ret (-1)
  else
    d <- exec PthreadAttrSetdetach ;;
    if negb (d =? 0) then ret (-1)
    else
      c <- exec (PthreadCreate "judge_network_link") ;;
      if negb (c =? 0) then ret (-1)
      else exec_ PthreadAttrDestroy ;; ret 0.
End Monitor.
End Monitor.

(** ** Footprints *)

Section LinkKeeps.
Context {X : Type} {E : Env X} {F : Fuel} (I : view) `{!Quiet I}.
Local Notation K m := (keepsg (X := X) I m).
Import Modem Etherent Monitor.

Lemma modem_report_status_keeps : K modem_report_status.
Proof. keepsg_deep. Qed.

Lemma etherent_report_status_keeps : K etherent_report_status.
Proof. keepsg_deep. Qed.

Lemma monitor_report_status_keeps : K monitor_report_status.
Proof. keepsg_deep. Qed.

Lemma judge_network_round_keeps `{!KeepsMon I} : K judge_network_round.
Proof. keepsg_deep. Qed.

Lemma modem_start_monitor_keeps `{!KeepsMev I} `{!Ignores arm_timer I} : K modem_start_monitor.
Proof. keepsg_deep. Qed.

Lemma modem_stop_monitor_keeps `{!KeepsMev I} `{!Ignores arm_timer I} : K modem_stop_monitor.
Proof. keepsg_deep. Qed.

(** A status read, changed in place and reported. *)
Lemma report_changed_keeps `{!KeepsMev I} (f : tMODEM_STATUS -> tMODEM_STATUS) :
  (forall st, state_or (ms_state (f st)) (ms_state st)) ->
  K (st <- modem_get_stauts ;; modem_set_status (f st) ;; report_modem_status (f st) ;; ret tt).
Proof.
  intros Hf. apply keepsg_get_upd; [|intros; keepsg].
  intros g l H. apply keeps_mev; [apply Hf|exact H].
Qed.

Lemma report_if_changed_keeps `{!KeepsMev I} (c : tMODEM_STATUS -> bool) (f : tMODEM_STATUS -> tMODEM_STATUS) :
  (forall st, state_or (ms_state (f st)) (ms_state st)) ->
  K (st <- modem_get_stauts ;;
     when (c st) (modem_set_status (f st) ;; report_modem_status (f st) ;; ret tt)).
Proof.
  intros Hf w Hw. pose proof (report_changed_keeps f Hf w Hw) as H.
  cbn -[report_modem_status] in H |- *. destruct (c _); [exact H|exact Hw].
Qed.

Lemma modem_report_signal_strength_keeps `{!KeepsMev I} s : K (modem_report_signal_strength s).
Proof. apply (report_changed_keeps (set_ms_signal s)). now left. Qed.

Lemma modem_report_signal_type_keeps `{!KeepsMev I} t : K (modem_report_signal_type t).
Proof. apply (report_if_changed_keeps (fun st => negb (t =? ms_type st)) (set_ms_type t)). now left. Qed.

Lemma modem_report_connect_state_keeps `{!KeepsMev I} s :
  s = 0 \/ s = 1 -> K (modem_report_connect_state s).
Proof.
  intros. apply (report_if_changed_keeps (fun st => negb (s =? ms_state st)) (set_ms_state s)). now right.
Qed.

Lemma get_modem_state_01 t s : get_modem_state t s = 0 \/ get_modem_state t s = 1.
Proof. unfold get_modem_state. destruct (_ || _); auto. Qed.
#[local] Hint Resolve modem_report_signal_strength_keeps modem_report_signal_type_keeps
  modem_report_connect_state_keeps get_modem_state_01 : keeps.

Lemma modem_event_monitor_keeps `{!KeepsMev I} `{!Ignores set_hal I} : K modem_event_monitor.
Proof. unfold modem_event_monitor, put_mev, modem_hal_get_signal_strength, modem_hal_get_signal_type. keepsg. Qed.

Lemma etherent_start_monitor_keeps `{!KeepsEev I} : K etherent_start_monitor.
Proof. keepsg_deep. Qed.

Lemma etherent_stop_monitor_keeps `{!KeepsEev I} : K etherent_stop_monitor.
Proof. keepsg_deep. Qed.

Lemma etherent_get_rt_status_keeps `{!KeepsEev I} : K etherent_get_rt_status.
Proof.
  unfold etherent_get_rt_status. apply keepsg_bind; [keepsg_deep|intros [r link]].
  destruct (r =? 0); [apply keepsg_assoc; apply keepsg_bind; [keepsg|intros n]; destruct (n =? _)|];
    apply keepsg_bind_ret; keepsg_deep.
Qed.
End LinkKeeps.

#[export] Hint Resolve modem_report_status_keeps etherent_report_status_keeps
  monitor_report_status_keeps judge_network_round_keeps modem_start_monitor_keeps
  modem_stop_monitor_keeps modem_event_monitor_keeps etherent_start_monitor_keeps
  etherent_stop_monitor_keeps etherent_get_rt_status_keeps modem_report_signal_strength_keeps
  modem_report_signal_type_keeps modem_report_connect_state_keeps get_modem_state_01 : keeps.
