(* ===== verification/EventProofs.v ===== *)
(** * Theorems about timers, devices and event handling *)

From Stdlib Require Import ZArith List Bool Lia Ascii String.
From S2P Require Import Prelude CString CMonad Json NetEnv Demo ScanList WpaCommand WpaProofs Eloop.
From S2P Require Import Hal Report WifiEvent LinkEvent.
Import ListNotations.
Import Modem Etherent Monitor.
Open Scope string_scope.
Open Scope Z_scope.

(** ** libeloop *)

Lemma find_remove id l : find_timer id (remove_timer id l) = None.
Proof.
  unfold remove_timer. induction l as [|[i t] l IH]; cbn; [reflexivity|].
  destruct (Z.eqb_spec i id) as [->|Hi]; cbn; [exact IH|].
  destruct (Z.eqb_spec i id); [contradiction|exact IH].
Qed.

Section EloopTheorems.
Context {X : Type} {E : Env X}.

(** Starting a timer programs the kernel with its timeout and period.  The
    two [timespec]s are normalised and denote exactly the milliseconds of the
    timer, for every 32-bit value; when the kernel accepts, the timer is armed
    exactly when its timeout is not zero. *)
Theorem scheduler_timer_start_spec (w : world X) (id : Z) (t : schd_timer) :
  id <> INVALID_ID -> find_timer id (timers (wg w)) = Some t ->
  0 <= timeout_ms t < 2 ^ 32 -> 0 <= period_ms t < 2 ^ 32 ->
  exists s ns ps pns r w',
    scheduler_timer_start id w = Ret r w' /\
    wlog w' = TimerSettime id s ns ps pns :: wlog w /\
    s * 1000 + ns / 1000000 = timeout_ms t /\ 0 <= ns < 1000000000 /\ ns mod 1000000 = 0 /\
    ps * 1000 + pns / 1000000 = period_ms t /\ 0 <= pns < 1000000000 /\
    (r = 0 -> armed id (wg w') = negb (timeout_ms t =? 0)).
Proof.
  intros Hid Ht H1 H2.
  exists (ms_sec (timeout_ms t)), (ms_nsec (timeout_ms t)), (ms_sec (period_ms t)), (ms_nsec (period_ms t)).
  assert (Hms : forall m, 0 <= m -> ms_sec m * 1000 + ms_nsec m / 1000000 = m /\
    0 <= ms_nsec m < 1000000000 /\ ms_nsec m mod 1000000 = 0).
  { intros m Hm. unfold ms_sec, ms_nsec. pose proof (Z.mod_pos_bound m 1000 ltac:(lia)).
    rewrite Z.div_mul, Z_mod_mult by lia. pose proof (Z.div_mod m 1000 ltac:(lia)). lia. }
  destruct (Hms (timeout_ms t)) as (A1 & A2 & A3); [lia|]. destruct (Hms (period_ms t)) as (B1 & B2 & _); [lia|].
  unfold scheduler_timer_start, deref_timer, timer_settime, bind, exec.
  destruct (Z.eqb_spec id INVALID_ID); [contradiction|]. cbn. rewrite Ht. cbn.
  destruct (ext (TimerSettime id _ _ _ _) (wx w)) as [r x]. cbn.
  assert (Harm : armed id (arm_timer (id, negb ((ms_sec (timeout_ms t) =? 0) && (ms_nsec (timeout_ms t) =? 0))) (wg w))
                 = negb (timeout_ms t =? 0)).
  { unfold armed, arm_timer. cbn. assert (Hu : find_timer id (update_timer id
      (set_st_armed (negb ((ms_sec (timeout_ms t) =? 0) && (ms_nsec (timeout_ms t) =? 0)))) (timers (wg w)))
      = Some (set_st_armed (negb ((ms_sec (timeout_ms t) =? 0) && (ms_nsec (timeout_ms t) =? 0))) t)).
    { clear -Ht. induction (timers (wg w)) as [|[i u] l IH]; cbn in *; [discriminate|].
      destruct (i =? id) eqn:Ei; cbn; rewrite Ei; [injection Ht as ->; reflexivity|apply IH, Ht]. }
    rewrite Hu. cbn. f_equal. unfold ms_sec, ms_nsec in *.
    destruct (Z.eqb_spec (timeout_ms t) 0) as [->|Hnz]; [reflexivity|]. apply andb_false_iff.
    destruct (Z.eqb_spec (timeout_ms t / 1000) 0); [right|left; reflexivity]. apply Z.eqb_neq.
    pose proof (Z.div_mod (timeout_ms t) 1000 ltac:(lia)). lia. }
  destruct (r =? 0) eqn:Er; cbn; do 2 eexists; (split; [reflexivity|]); (split; [reflexivity|]);
    do 5 (split; [assumption|]); intros Hr; [exact Harm|subst r; discriminate Er].
Qed.

(** A freed timer stays unusable.  After [eloop_timer_delete] has returned,
    starting, stopping or deleting that id again is a use after free, while
    every other timer is as before. *)
Theorem deleted_timer_unusable (w w' : world X) (id : Z) :
  eloop_timer_delete id w = Ret tt w' ->
  eloop_timer_start id w' = Fault UseAfterFree /\
  eloop_timer_stop id w' = Fault UseAfterFree /\
  eloop_timer_delete id w' = Fault UseAfterFree /\
  (forall i, i <> id -> find_timer i (timers (wg w')) = find_timer i (timers (wg w))).
Proof.
  intros H. unfold eloop_timer_delete, scheduler_timer_delete, deref_timer, bind in H.
  destruct (Z.eqb_spec id INVALID_ID) as [|Hid]; [discriminate H|]. cbn in H.
  destruct (find_timer id (timers (wg w))) eqn:Ef; [|discriminate H].
  unfold exec_, exec, bind, ret in H. destruct (ext (TimerDelete id) (wx w)) as [u x]. cbn in H.
  destruct (ext PthreadAttrDestroy x) as [u' x']. cbn -[remove_timer] in H. injection H as <-.
  fold (remove_timer id (timers (wg w))).
  assert (Hd : deref_timer id (mk_world (set_timers (remove_timer id (timers (wg w))) (wg w)) x'
             (PthreadAttrDestroy :: TimerDelete id :: wlog w)) = Fault UseAfterFree).
  { unfold deref_timer. destruct (Z.eqb_spec id INVALID_ID); [contradiction|].
    unfold bind, get, gets. cbn -[remove_timer]. rewrite find_remove. reflexivity. }
  unfold eloop_timer_start, scheduler_timer_start, eloop_timer_stop, scheduler_timer_stop,
    eloop_timer_delete, scheduler_timer_delete, bind. rewrite Hd.
  do 3 (split; [reflexivity|]). intros i Hi. cbn -[remove_timer]. clear -Hi. unfold remove_timer.
  induction (timers (wg w)) as [|[j t] l IH]; cbn; [reflexivity|].
  destruct (Z.eqb_spec j id) as [->|]; cbn.
  - destruct (Z.eqb_spec id i); [congruence|exact IH].
  - destruct (j =? i); [reflexivity|exact IH].
Qed.
End EloopTheorems.

Section EloopRuns.
#[local] Instance e_env : Env unit := scripted all_works.

(** One timer of 1.5 s with a period of 250 ms. *)
Definition one_timer : world unit :=
  mk_world (set_timers [(5, mk_schd_timer 1500 250 "tick" false)] (wg nothing)) tt [].

Lemma scheduler_timer_start_spec_witness :
  exists w', scheduler_timer_start 5 one_timer = Ret 0 w' /\ armed 5 (wg w') = true /\
    wlog w' = [TimerSettime 5 1 500000000 0 250000000].
Proof.
  destruct (scheduler_timer_start_spec one_timer 5 (mk_schd_timer 1500 250 "tick" false))
    as (s & ns & ps & pns & r & w' & H1 & _ & _ & _ & _ & _ & _ & Ha);
    [discriminate|reflexivity|cbn; lia|cbn; lia|].
  exists w'. vm_compute in H1. injection H1 as <- <-. split; [reflexivity|]. split; [|reflexivity].
  apply Ha. reflexivity.
Defined.

Lemma deleted_timer_unusable_witness :
  exists w', eloop_timer_delete 5 one_timer = Ret tt w' /\ eloop_timer_start 5 w' = Fault UseAfterFree.
Proof.
  eexists. split; [reflexivity|].
  apply (deleted_timer_unusable one_timer _ 5). reflexivity.
Defined.
End EloopRuns.

(** ** Device layers *)

(** Opens the device operations of a goal and the answers of their calls. *)
Ltac open_hal :=
  unfold wifi_hal_start_station, wifi_hal_start_ap, modem_hal_start_modem, etherent_hal_start_eth,
    wifi_hal_stop_ap, put_hal, exec_, exec, bind, when, ret, get, gets, upd, modify; cbn.

Ltac run_calls := repeat match goal with |- context [ext ?c ?x] => destruct (ext c x); cbn end.

Ltac start_once flag :=
  open_hal; destruct (flag =? 0) eqn:Hf; cbn; run_calls; do 2 eexists; (split; [reflexivity|]); cbn;
  rewrite ?Hf; reflexivity.

Section HalTheorems.
Context {X : Type} {E : Env X}.

(** The start function makes no call and reports success after [m] ran. *)
Definition starts_once (m : M (world X) Z) : Prop :=
  forall w, exists r w', m w = Ret r w' /\ m w' = Ret 0 w'.

(** Each device is started at most once.  Whatever the device answered to
    the first start, starting again makes no device call and reports success,
    so a retry after a failed start hides the failure; stopping the access
    point re-enables its start. *)
Theorem device_starts_once :
  starts_once wifi_hal_start_station /\
  (forall s p i, starts_once (wifi_hal_start_ap s p i)) /\
  starts_once modem_hal_start_modem /\ starts_once etherent_hal_start_eth /\
  (forall w, exists w', wifi_hal_stop_ap w = Ret tt w' /\
     forall s p i, exists r w'', wifi_hal_start_ap s p i w' = Ret r w'' /\
       wlog w'' = WifiStartAp s p i :: WifiOn :: wlog w').
Proof.
  split; [intros w; start_once (g_start_station_flag (hal (wg w)))|].
  split; [intros s p i w; start_once (g_start_ap_flag (hal (wg w)))|].
  split; [intros w; start_once (g_start_modem_flag (hal (wg w)))|].
  split; [intros w; start_once (g_start_etherent_flag (hal (wg w)))|].
  intros w. open_hal. destruct (g_start_ap_flag (hal (wg w)) =? 0) eqn:Hf; cbn; run_calls;
    eexists; (split; [reflexivity|]); intros s p i; cbn; rewrite ?Hf; cbn; run_calls;
    do 2 eexists; split; reflexivity.
Qed.
End HalTheorems.

(** ** Messages of wpa_supplicant *)

(** A message as wpa_supplicant prints it: a three-character priority, an
    event name and its text. *)
Record wpa_msg := mk_wpa_msg { pm_prio : string; pm_name : string; pm_text : string }.

Definition print_msg (m : wpa_msg) : string := pm_prio m ++ pm_name m ++ " " ++ pm_text m.

Definition ok_msg (m : wpa_msg) : bool :=
  (String.length (pm_prio m) =? 3)%nat && negb (String.eqb (pm_name m) "") &&
  match strchr (pm_name m) SPC with None => true | Some _ => false end &&
  (strlen (pm_name m) <? 48) && (strlen (pm_text m) <? 256).

Lemma strchr_app (a b : string) (c : ascii) :
  strchr a c = None -> strchr (a ++ String c b) c = Some (String c b).
Proof.
  induction a as [|d a IH]; cbn; [intros _; now rewrite Ascii.eqb_refl|].
  destruct (Ascii.eqb d c); [discriminate|exact IH].
Qed.

(** What the station does with an event, from its name. *)
Inductive sta_event := EvUp | EvReject | EvNotFound | EvDisabled (wrong_key : bool) | EvOther.

Definition event_of (m : wpa_msg) : sta_event :=
  let named := String.eqb (pm_name m) in
  if named "CTRL-EVENT-CONNECTED" || named "CTRL-EVENT-SSID-REENABLED" then EvUp
  else if named "CTRL-EVENT-ASSOC-REJECT" || named "CTRL-EVENT-DISCONNECTED" then EvReject
  else if named "CTRL-EVENT-NETWORK-NOT-FOUND" then EvNotFound
  else if named "CTRL-EVENT-SSID-TEMP-DISABLED" then EvDisabled (strstr_b (pm_text m) "WRONG_KEY")
  else EvOther.

Lemma msg_index_absent (msg : string) (l : list string) (i : Z) :
  ~ In msg l -> msg_index_loop msg l i = -1.
Proof.
  revert i. induction l as [|a l IH]; intros i H; cbn; [reflexivity|].
  destruct (String.eqb_spec msg a) as [->|]; [destruct H; now left|].
  apply IH. intros Hl. apply H. now right.
Qed.

(** The event of a message is the case its index selects. *)
Lemma event_of_index (m : wpa_msg) :
  let i := get_wifi_msg_index (pm_name m) in
  event_of m =
    if (i =? WPA_EVENT_CONNECTED) || (i =? WPA_EVENT_REENABLED) then EvUp
    else if (i =? WPA_EVENT_ASSOC_REJECT) || (i =? WPA_EVENT_DISCONNECTED) then EvReject
    else if i =? WPA_EVENT_NETWORK_NOT_FOUND then EvNotFound
    else if i =? WPA_EVENT_TEMP_DISABLED then EvDisabled (strstr_b (pm_text m) "WRONG_KEY")
    else EvOther.
Proof.
  destruct m as [p n d]. cbn [pm_name pm_text]. destruct (in_dec string_dec n wpa_event_msg) as [Hin|Hout].
  - repeat (destruct Hin as [<-|Hin]; [reflexivity|]). contradiction.
  - cbv zeta. unfold get_wifi_msg_index. rewrite msg_index_absent by exact Hout.
    unfold event_of. cbn [pm_name pm_text].
    repeat match goal with |- context [String.eqb n ?s] =>
      destruct (String.eqb_spec n s) as [->|]; [destruct Hout; cbn; tauto|] end.
    reflexivity.
Qed.

(** The verdict on a pending connect command: the first event that decides
    it, a fourth rejection counting as one; [n] rejections came before. *)
Fixpoint verdict (n : Z) (evs : list sta_event) : option tRESULT :=
  match evs with
  | [] => None
  | EvUp :: _ => Some (mk_tRESULT 1 COMMAND_OK eREASON_NONE)
  | EvReject :: evs' =>
      if WIFI_FAILED_TIMES <? n + 1 then Some (mk_tRESULT 1 COMMAND_NOK eREASON_WIFI_NOT_CONNECT)
      else verdict (n + 1) evs'
  | EvNotFound :: _ => Some (mk_tRESULT 1 COMMAND_NOK eREASON_WIFI_NOT_FOUND)
  | EvDisabled true :: _ => Some (mk_tRESULT 1 COMMAND_NOK eREASON_WIFI_WRONG_KEY)
  | EvDisabled false :: evs' | EvOther :: evs' => verdict n evs'
  end.

(** The state of the station after an event, outside a connect command. *)
Definition link_after (st : conn_state) (e : sta_event) : conn_state :=
  match e, st with
  | EvUp, WIFI_STATION_UNCONNECTED => WIFI_STATION_CONNECTED
  | (EvReject | EvNotFound | EvDisabled _), WIFI_STATION_CONNECTED => WIFI_STATION_UNCONNECTED
  | _, _ => st
  end.

(** The reported state after an event. *)
Definition shown_after (s : Z) (e : sta_event) : Z :=
  match e with
  | EvUp => REPORT_CONNECT
  | EvReject | EvDisabled _ => REPORT_UNCONNECT
  | EvNotFound | EvOther => s
  end.

Section EventTheorems.
Context {X : Type} {E : Env X} {F : Fuel}.
Local Notation Mw := (M (world X)).

Lemma get_msg_and_data_print (m : wpa_msg) (w : world X) :
  ok_msg m = true -> get_msg_and_data (print_msg m) w = Ret (pm_name m, pm_text m) w.
Proof.
  destruct m as [p n d]. unfold ok_msg, print_msg. cbn [pm_prio pm_name pm_text]. intros H.
  apply andb_true_iff in H as [H Hd]. apply andb_true_iff in H as [H Hn].
  apply andb_true_iff in H as [H Hc]. apply andb_true_iff in H as [Hp He].
  apply Nat.eqb_eq in Hp. destruct (strchr n SPC) eqn:Es; [discriminate Hc|].
  destruct n as [|c n]; [discriminate He|].
  assert (Ha : advance 4 (p ++ String c n ++ String SPC d) = n ++ String SPC d).
  { replace 4%nat with (String.length (p ++ String c "")) by (rewrite string_length_app, Hp; reflexivity).
    replace (p ++ String c n ++ String SPC d) with ((p ++ String c "") ++ n ++ String SPC d)
      by (rewrite string_app_assoc; reflexivity).
    apply advance_app. }
  assert (Hn0 : strchr n SPC = None) by (cbn in Es; destruct (Ascii.eqb c SPC); [discriminate|exact Es]).
  unfold get_msg_and_data. change (" " ++ d) with (String SPC d). rewrite Ha, strchr_app by exact Hn0.
  replace (String.length (p ++ String c n ++ String SPC d) - String.length (String SPC d) - 3)%nat
    with (String.length (String c n)) by (rewrite !string_length_app, Hp; cbn [String.length]; lia).
  replace (advance 3 (p ++ String c n ++ String SPC d)) with (String c n ++ String SPC d)
    by (rewrite <- Hp; symmetry; apply advance_app).
  rewrite substring_app. cbn [advance].
  replace (48 <=? strlen (String c n)) with false by (symmetry; apply Z.leb_gt; lia).
  replace (256 <=? strlen d) with false by (symmetry; apply Z.leb_gt; lia).
  reflexivity.
Qed.

Lemma wifi_report_connect_state_run (s : Z) (w : world X) :
  s = 0 \/ s = 1 -> exists x l, wifi_report_connect_state s w =
    Ret tt (mk_world (set_wev (set_g_wifi_status
      (set_ws_state s (g_wifi_status (wev (wg w)))) (wev (wg w))) (wg w)) x l).
Proof.
  intros [-> | ->]; unfold wifi_report_connect_state, report_wifi_status, network_ipc_upload, exec_, exec, bind;
    cbn; match goal with |- context [ext ?c ?x] => destruct (ext c x) end; do 2 eexists; reflexivity.
Qed.

(** The switch of the handler, by event. *)
Lemma recv_switch_event (m : wpa_msg) (w : world X) :
  exists w', (result <- recv_switch (get_wifi_msg_index (pm_name m)) (pm_text m) ;;
              when (r_flag result =? 1) (wifi_wakeup_wait result)) w = Ret tt w' /\
    let st := wifi_state (net (wg w)) in
    let e := event_of m in
    let n := wifi_faild_time (wev (wg w)) in
    wifi_state (net (wg w')) = link_after st e /\
    ws_state (g_wifi_status (wev (wg w'))) = shown_after (ws_state (g_wifi_status (wev (wg w)))) e /\
    wifi_faild_time (wev (wg w')) = match e with EvUp => 0 | EvReject => n + 1 | _ => n end /\
    (st = WIFI_STATION_JOINING ->
     match verdict n [e] with
     | Some r => w_signalled (wev (wg w')) = true /\ g_result (wev (wg w')) = r
     | None => w_signalled (wev (wg w')) = w_signalled (wev (wg w)) /\
               g_result (wev (wg w')) = g_result (wev (wg w))
     end) /\
    (st <> WIFI_STATION_JOINING -> w_signalled (wev (wg w')) = w_signalled (wev (wg w))).
Proof.
  rewrite event_of_index. cbv zeta. set (i := get_wifi_msg_index _). clearbody i.
  unfold recv_switch, set_conn_state, wifi_wakeup_wait, put_wev.
  destruct w as [[[t1 t2 t3 t4 t5 t6 st t7 t8] hl [[ss sg] gr f1 f2 f3 n sd rs mc]] x l].
  repeat match goal with
  | |- context [if ?c then EvUp else _] => destruct c
  | |- context [if ?c then EvReject else _] => destruct c
  | |- context [if ?c then EvNotFound else _] => destruct c
  | |- context [if ?c then EvDisabled _ else _] => destruct c
  end.
  all: destruct st; unfold bind; cbn -[wifi_report_connect_state Z.ltb Z.add];
    try match goal with |- context [wifi_report_connect_state ?s ?w] =>
      destruct (wifi_report_connect_state_run s w ltac:(auto)) as (x1 & l1 & ->) end;
    cbn -[Z.ltb Z.add]; try destruct (strstr_b _ _); try destruct (WIFI_FAILED_TIMES <? n + 1);
    cbn -[Z.ltb Z.add]; eexists; (split; [reflexivity|]); cbn -[Z.ltb Z.add];
    repeat split; intros; congruence.
Qed.

Lemma process_recv_info_print (m : wpa_msg) (w : world X) :
  ok_msg m = true ->
  process_recv_info (print_msg m) w =
    ((result <- recv_switch (get_wifi_msg_index (pm_name m)) (pm_text m) ;;
      when (r_flag result =? 1) (wifi_wakeup_wait result)) ;; ret 0) w.
Proof.
  intros H. unfold process_recv_info, bind at 1. rewrite get_msg_and_data_print by exact H.
  unfold bind. destruct (recv_switch _ _ w); reflexivity.
Qed.

(** The monitor thread handles messages until one wakes the waiter. *)
Fixpoint feed (msgs : list wpa_msg) : Mw unit :=
  match msgs with
  | [] => ret tt
  | m :: l =>
      process_recv_info (print_msg m) ;;
      b <- get (fun g => w_signalled (wev g)) ;;
      if b then ret tt else feed l
  end.

(** C25: The result of a pending connect is the verdict of the events.  While the station
    is joining and nobody has been woken yet, handling any sequence of messages of the
    form wpa_supplicant sends (a level of three characters, a name of less than 48, a
    space, a text of less than 256) never faults, leaves the state joining, and wakes the
    waiting command exactly when the events decide: with success on a connection, and
    with the reason on a missing network, a wrong key or a rejection beyond the third,
    where those of earlier joins that failed still count. *)
Theorem join_verdict_spec (msgs : list wpa_msg) (w : world X) :
  forallb ok_msg msgs = true ->
  wifi_state (net (wg w)) = WIFI_STATION_JOINING -> w_signalled (wev (wg w)) = false ->
  exists w', feed msgs w = Ret tt w' /\ wifi_state (net (wg w')) = WIFI_STATION_JOINING /\
    match verdict (wifi_faild_time (wev (wg w))) (map event_of msgs) with
    | Some r => w_signalled (wev (wg w')) = true /\ g_result (wev (wg w')) = r
    | None => w_signalled (wev (wg w')) = false /\ g_result (wev (wg w')) = g_result (wev (wg w))
    end.
Proof.
  revert w. induction msgs as [|m l IH]; intros w Hok Hj Hs; [exists w; repeat split; assumption|].
  cbn in Hok. apply andb_true_iff in Hok as [Hm Hl]. cbn [feed map]. unfold bind at 1.
  rewrite process_recv_info_print by exact Hm. unfold bind at 1.
  destruct (recv_switch_event m w) as (w1 & -> & Hst & _ & Hn & Hv & _). cbv zeta in *.
  specialize (Hv Hj). rewrite Hj in Hst. cbn -[feed verdict].
  assert (Hj1 : wifi_state (net (wg w1)) = WIFI_STATION_JOINING) by (rewrite Hst; destruct (event_of m); reflexivity).
  assert (Hcont : w_signalled (wev (wg w1)) = w_signalled (wev (wg w)) ->
    g_result (wev (wg w1)) = g_result (wev (wg w)) ->
    verdict (wifi_faild_time (wev (wg w))) (event_of m :: map event_of l) =
      verdict (wifi_faild_time (wev (wg w1))) (map event_of l) ->
    exists w', (if w_signalled (wev (wg w1)) then ret tt else feed l) w1 = Ret tt w' /\
      wifi_state (net (wg w')) = WIFI_STATION_JOINING /\
      match verdict (wifi_faild_time (wev (wg w))) (event_of m :: map event_of l) with
      | Some r => w_signalled (wev (wg w')) = true /\ g_result (wev (wg w')) = r
      | None => w_signalled (wev (wg w')) = false /\ g_result (wev (wg w')) = g_result (wev (wg w))
      end).
  { intros H1 H2 H3. rewrite H1, Hs. destruct (IH w1 Hl Hj1) as (w' & R1 & R2 & R3); [congruence|].
    rewrite H3, <- H2. eauto. }
  cbn [verdict] in Hv, Hcont |- *. destruct (event_of m) as [| | |[] |].
  1,3,4: destruct Hv as [Hv1 Hv2]; rewrite Hv1; exists w1; repeat split; assumption.
  2,3: destruct Hv as [Hv1 Hv2]; apply Hcont; [assumption..|rewrite Hn; reflexivity].
  destruct (WIFI_FAILED_TIMES <? _).
  - destruct Hv as [Hv1 Hv2]. rewrite Hv1. exists w1. repeat split; assumption.
  - destruct Hv as [Hv1 Hv2]. apply Hcont; [assumption..|rewrite Hn; reflexivity].
Qed.

(** C38: The station state follows the link.  Outside a join, handling any sequence of
    messages of the form wpa_supplicant sends (a level of three characters, a name of
    less than 48, a space, a text of less than 256) never faults; the connection state
    and the reported state are the ones the events lead to, one after the other, and
    nobody is woken. *)
Theorem link_follows_events (msgs : list wpa_msg) (w : world X) :
  forallb ok_msg msgs = true -> wifi_state (net (wg w)) <> WIFI_STATION_JOINING ->
  exists w', for_each msgs (fun m => process_recv_info (print_msg m) ;; ret tt) w = Ret tt w' /\
    wifi_state (net (wg w')) = fold_left link_after (map event_of msgs) (wifi_state (net (wg w))) /\
    ws_state (g_wifi_status (wev (wg w'))) =
      fold_left shown_after (map event_of msgs) (ws_state (g_wifi_status (wev (wg w)))) /\
    w_signalled (wev (wg w')) = w_signalled (wev (wg w)).
Proof.
  revert w. induction msgs as [|m l IH]; intros w Hok Hj; [exists w; repeat split|].
  cbn in Hok. apply andb_true_iff in Hok as [Hm Hl]. cbn [for_each map fold_left]. unfold bind at 1 2.
  rewrite process_recv_info_print by exact Hm. unfold bind at 1.
  destruct (recv_switch_event m w) as (w1 & -> & Hst & Hsh & _ & _ & Hs). cbv zeta in *.
  destruct (IH w1 Hl) as (w' & R1 & R2 & R3 & R4).
  - rewrite Hst. destruct (event_of m), (wifi_state (net (wg w))); cbn; congruence.
  - exists w'. rewrite <- Hst, <- Hsh, <- Hs by exact Hj. repeat split; assumption.
Qed.
End EventTheorems.

Section EventRuns.
#[local] Instance v_env : Env unit := scripted all_works.
#[local] Instance v_fuel : Fuel := 3%nat.

Definition in_state (st : conn_state) : world unit := mk_world (put_wifi_state st (wg nothing)) tt [].

Definition disconnect_msg : wpa_msg := mk_wpa_msg "<3>" "CTRL-EVENT-DISCONNECTED" "bssid=00:11:22:33:44:55 reason=3".
Definition wrong_key_msg : wpa_msg :=
  mk_wpa_msg "<3>" "CTRL-EVENT-SSID-TEMP-DISABLED" "id=0 ssid=home auth_failures=1 duration=10 reason=WRONG_KEY".

(** Three rejections are tolerated, a wrong key is not. *)
Lemma join_verdict_spec_witness :
  exists w', feed [disconnect_msg; disconnect_msg; disconnect_msg; wrong_key_msg; disconnect_msg]
      (in_state WIFI_STATION_JOINING) = Ret tt w' /\
    w_signalled (wev (wg w')) = true /\
    g_result (wev (wg w')) = mk_tRESULT 1 COMMAND_NOK eREASON_WIFI_WRONG_KEY.
Proof.
  destruct (join_verdict_spec [disconnect_msg; disconnect_msg; disconnect_msg; wrong_key_msg; disconnect_msg]
    (in_state WIFI_STATION_JOINING)) as (w' & H1 & _ & H2); [vm_compute; reflexivity|reflexivity|reflexivity|].
  exists w'. split; [exact H1|]. vm_compute in H2. exact H2.
Defined.

Lemma link_follows_events_witness :
  exists w', for_each [disconnect_msg; mk_wpa_msg "<3>" "CTRL-EVENT-CONNECTED" "- Connection completed"]
      (fun m => process_recv_info (print_msg m) ;; ret tt) (in_state WIFI_STATION_CONNECTED) = Ret tt w' /\
    wifi_state (net (wg w')) = WIFI_STATION_CONNECTED /\ ws_state (g_wifi_status (wev (wg w'))) = 1.
Proof.
  destruct (link_follows_events [disconnect_msg; mk_wpa_msg "<3>" "CTRL-EVENT-CONNECTED" "- Connection completed"]
    (in_state WIFI_STATION_CONNECTED)) as (w' & H1 & H2 & H3 & _); [vm_compute; reflexivity|discriminate|].
  exists w'. split; [exact H1|]. split; [exact H2|exact H3].
Defined.
End EventRuns.

(** ** The modem monitor *)

(** The times the modem was switched off. *)
Definition is_modem_off (c : call) : bool := match c with ModemOff => true | _ => false end.

Definition modem_offs (l : list call) : Z := Z.of_nat (List.length (filter is_modem_off l)).

Section ModemTheorems.
Context {X : Type} {E : Env X}.

(** What the monitor reads and writes: the count, the start flag and the
    reported state, and how often the modem was switched off. *)
Record modem_view := mk_modem_view { v_cnts : Z; v_flag : Z; v_shown : Z; v_offs : Z }.

Definition modem_view_of (w : world X) : modem_view :=
  mk_modem_view (unconnect_cnts (mev (wg w))) (g_start_modem_flag (hal (wg w)))
    (ms_state (g_modem_status (mev (wg w)))) (modem_offs (wlog w)).

Definition with_shown (s : Z) (v : modem_view) : modem_view :=
  mk_modem_view (v_cnts v) (v_flag v) s (v_offs v).

Lemma modem_post_run (st : tMODEM_STATUS) (w : world X) :
  ms_state st = 0 \/ ms_state st = 1 ->
  exists w', (modem_set_status st ;; report_modem_status st ;; ret tt) w = Ret tt w' /\
    modem_view_of w' = with_shown (ms_state st) (modem_view_of w).
Proof.
  intros Hst. unfold modem_set_status, put_mev, report_modem_status, modem_elem, network_ipc_upload, exec_, exec, bind.
  cbn. destruct Hst as [Hst|Hst]; rewrite Hst; cbn; match goal with |- context [ext ?c ?x] => destruct (ext c x) end;
    eexists; (split; [reflexivity|]); unfold modem_view_of, with_shown, modem_offs; cbn; rewrite Hst; reflexivity.
Qed.

Lemma modem_report_signal_strength_run (s : Z) (w : world X) :
  v_shown (modem_view_of w) = 0 \/ v_shown (modem_view_of w) = 1 ->
  exists w', modem_report_signal_strength s w = Ret tt w' /\ modem_view_of w' = modem_view_of w.
Proof.
  intros H. destruct (modem_post_run (set_ms_signal s (g_modem_status (mev (wg w)))) w H) as (w' & H1 & H2).
  exists w'. split; [exact H1|rewrite H2; reflexivity].
Qed.

Lemma modem_report_signal_type_run (t : Z) (w : world X) :
  v_shown (modem_view_of w) = 0 \/ v_shown (modem_view_of w) = 1 ->
  exists w', modem_report_signal_type t w = Ret tt w' /\ modem_view_of w' = modem_view_of w.
Proof.
  intros H. destruct (modem_post_run (set_ms_type t (g_modem_status (mev (wg w)))) w H) as (w' & H1 & H2).
  unfold modem_report_signal_type, modem_get_stauts. unfold bind at 1, get, gets.
  destruct (negb _); [exists w'|exists w; now split]. split; [exact H1|rewrite H2; reflexivity].
Qed.

Lemma modem_report_connect_state_run (s : Z) (w : world X) :
  s = 0 \/ s = 1 ->
  exists w', modem_report_connect_state s w = Ret tt w' /\
    modem_view_of w' = with_shown s (modem_view_of w).
Proof.
  intros H. destruct (modem_post_run (set_ms_state s (g_modem_status (mev (wg w)))) w H) as (w' & H1 & H2).
  unfold modem_report_connect_state, modem_get_stauts. unfold bind at 1, get, gets.
  destruct (Z.eqb_spec s (ms_state (g_modem_status (mev (wg w))))) as [->|]; cbn -[modem_set_status].
  - exists w. split; [reflexivity|]. unfold modem_view_of, with_shown. cbn. reflexivity.
  - exists w'. split; [exact H1|exact H2].
Qed.

(** The last part of a tick: count, and restart at the limit. *)
Definition modem_count (state : Z) : M (world X) unit :=
  when (state =? REPORT_UNCONNECT)
    (upd (fun g => set_mev (set_unconnect_cnts (unconnect_cnts (mev g) + 1) (mev g)) g)) ;;
  n <- get (fun g => unconnect_cnts (mev g)) ;;
  when (MAX_UNCONNECT_CNTS <=? n)
    (put_mev (set_unconnect_cnts 0) ;;
     modem_hal_stop_modem ;;
     exec_ (Usleep 50000) ;;
     modem_hal_start_modem ;; ret tt).

(** The modem is on, the count is below the limit. *)
Definition modem_running (v : modem_view) : Prop :=
  0 <= v_cnts v < MAX_UNCONNECT_CNTS /\ v_flag v = 1 /\ (v_shown v = 0 \/ v_shown v = 1).

(** Twelve units per restart and one per counted tick. *)
Definition charge (v : modem_view) : Z := MAX_UNCONNECT_CNTS * v_offs v + v_cnts v.

Lemma modem_restart_run (w : world X) :
  g_start_modem_flag (hal (wg w)) = 1 ->
  exists w', (put_mev (set_unconnect_cnts 0) ;; modem_hal_stop_modem ;; exec_ (Usleep 50000) ;;
              modem_hal_start_modem ;; ret tt) w = Ret tt w' /\
    modem_view_of w' = mk_modem_view 0 1 (v_shown (modem_view_of w)) (v_offs (modem_view_of w) + 1).
Proof.
  intros Hf. unfold modem_hal_stop_modem, modem_hal_start_modem, put_mev, put_hal, exec_, exec, bind. cbn. rewrite Hf. cbn.
  repeat match goal with |- context [ext ?c ?x] => destruct (ext c x); cbn end.
  eexists. split; [reflexivity|]. unfold modem_view_of, modem_offs. cbn -[Z.of_nat]. f_equal. lia.
Qed.

Lemma modem_count_run (state : Z) (w : world X) :
  modem_running (modem_view_of w) ->
  exists w', modem_count state w = Ret tt w' /\ modem_running (modem_view_of w') /\
    charge (modem_view_of w') = charge (modem_view_of w) + (if state =? REPORT_UNCONNECT then 1 else 0).
Proof.
  intros (Hc & Hf & Hs). unfold modem_count.
  set (w1 := if state =? REPORT_UNCONNECT then
    mk_world (set_mev (set_unconnect_cnts (unconnect_cnts (mev (wg w)) + 1) (mev (wg w))) (wg w)) (wx w) (wlog w) else w).
  assert (H1 : when (state =? REPORT_UNCONNECT)
    (upd (fun g => set_mev (set_unconnect_cnts (unconnect_cnts (mev g) + 1) (mev g)) g)) w = Ret tt w1)
    by (unfold w1; destruct (state =? REPORT_UNCONNECT); reflexivity).
  unfold bind at 1. rewrite H1. unfold bind at 1, get, gets.
  assert (Hv : modem_view_of w1 = mk_modem_view (v_cnts (modem_view_of w) + if state =? REPORT_UNCONNECT then 1 else 0)
    1 (v_shown (modem_view_of w)) (v_offs (modem_view_of w))).
  { unfold w1. destruct (state =? REPORT_UNCONNECT); unfold modem_view_of in *; cbn in *; rewrite Hf; f_equal; lia. }
  clearbody w1. unfold when. destruct (Z.leb_spec MAX_UNCONNECT_CNTS (unconnect_cnts (mev (wg w1)))) as [Hl|Hl].
  - destruct (modem_restart_run w1) as (w' & R1 & R2); [apply (f_equal v_flag) in Hv; exact Hv|].
    exists w'. split; [exact R1|]. rewrite R2. apply (f_equal v_cnts) in Hv as Hn. rewrite Hv. cbn in *.
    unfold modem_running, charge, MAX_UNCONNECT_CNTS in *. cbn -[Z.mul]. destruct (state =? _); repeat split; try assumption; lia.
  - exists w1. split; [reflexivity|]. rewrite Hv. apply (f_equal v_cnts) in Hv. cbn in Hv.
    unfold modem_running, charge, MAX_UNCONNECT_CNTS in *. cbn -[Z.mul] in *. destruct (state =? _); repeat split; try assumption; lia.
Qed.

(** The readings of the modem: result and value of the strength and type. *)
Context (r1 strength r2 type : Z).
Context (Hstrength : forall x, fst (ext ModemGetSignalStrength x) = (r1, strength)).
Context (Htype : forall x, fst (ext ModemGetSignalType x) = (r2, type)).

(** 1 when the readings show the modem without service. *)
Definition no_service : Z :=
  if (r1 =? 0) && (r2 =? 0) && (get_modem_state type strength =? REPORT_UNCONNECT) then 1 else 0.

Lemma modem_tick (w : world X) :
  modem_running (modem_view_of w) ->
  exists w', modem_event_monitor w = Ret tt w' /\ modem_running (modem_view_of w') /\
    charge (modem_view_of w') = charge (modem_view_of w) + no_service.
Proof.
  intros Hr. unfold modem_event_monitor, no_service. unfold bind at 1, modem_hal_get_signal_strength, exec.
  pose proof (Hstrength (wx w)) as H1. destruct (ext ModemGetSignalStrength (wx w)) as [a x1]. cbn in H1. subst a.
  set (w1 := mk_world _ _ _). assert (Hw1 : modem_view_of w1 = modem_view_of w) by reflexivity.
  destruct (r1 =? 0); cbn [negb andb]; [|exists w1; rewrite Hw1, Z.add_0_r; repeat split; apply Hr].
  unfold bind at 1. destruct (modem_report_signal_strength_run strength w1) as (w2 & -> & Hw2);
    [rewrite Hw1; apply Hr|].
  unfold bind at 1, modem_hal_get_signal_type, exec. pose proof (Htype (wx w2)) as H2.
  destruct (ext ModemGetSignalType (wx w2)) as [a x2]. cbn in H2. subst a.
  set (w3 := mk_world _ _ _). assert (Hw3 : modem_view_of w3 = modem_view_of w) by (rewrite <- Hw1, <- Hw2; reflexivity).
  destruct (r2 =? 0); cbn [negb]; [|exists w3; rewrite Hw3, Z.add_0_r; repeat split; apply Hr].
  unfold bind at 1. destruct (modem_report_signal_type_run type w3) as (w4 & -> & Hw4); [rewrite Hw3; apply Hr|].
  cbv zeta. unfold bind at 1.
  destruct (modem_report_connect_state_run (get_modem_state type strength) w4) as (w5 & -> & Hw5);
    [apply get_modem_state_01|].
  destruct (modem_count_run (get_modem_state type strength) w5) as (w' & Ht & Hr' & Hc).
  - rewrite Hw5, Hw4, Hw3. destruct Hr as (H1 & H2 & _). repeat split; [apply H1..|apply H2|].
    apply get_modem_state_01.
  - exists w'. split; [exact Ht|]. split; [exact Hr'|]. rewrite Hc, Hw5, Hw4, Hw3. reflexivity.
Qed.

(** The modem is restarted exactly every twelve ticks without service.
    The monitor never faults; after [n] ticks on the same readings the twelve
    units of each restart and the running count add up to the ticks without
    service, whether or not service came back in between, and the modem is
    left on. *)
Theorem modem_restart_spec (n : nat) (w : world X) :
  modem_running (modem_view_of w) ->
  exists w', for_each (repeat tt n) (fun _ => modem_event_monitor) w = Ret tt w' /\
    modem_running (modem_view_of w') /\
    charge (modem_view_of w') = charge (modem_view_of w) + Z.of_nat n * no_service.
Proof.
  revert w. induction n as [|n IH]; intros w Hr; [exists w; repeat split; [apply Hr..|lia]|].
  cbn [repeat for_each]. unfold bind at 1. destruct (modem_tick w Hr) as (w1 & -> & Hr1 & Hc1).
  destruct (IH w1 Hr1) as (w' & R1 & R2 & R3). exists w'. split; [exact R1|]. split; [exact R2|].
  rewrite R3, Hc1. lia.
Qed.
End ModemTheorems.

Section ModemRuns.
(** A modem that answers but has no signal. *)
#[local] Instance m_env : Env unit := fun c _ =>
  (match c as c0 return ans c0 with
   | ModemGetSignalStrength => (0, 99)
   | c0 => scripted_ans all_works c0
   end, tt).

Definition modem_up : world unit :=
  mk_world (set_hal (set_g_start_modem_flag 1 (hal (wg nothing))) (wg nothing)) tt [].

Lemma modem_restart_spec_witness :
  exists w', for_each (repeat tt 25) (fun _ => modem_event_monitor) modem_up = Ret tt w' /\
    charge (modem_view_of w') = 25 /\ modem_offs (wlog w') = 2.
Proof.
  destruct (modem_restart_spec (X := unit) (E := m_env) 0 99 0 4 (fun _ => eq_refl) (fun _ => eq_refl) 25 modem_up)
    as (w' & H1 & _ & H2); [repeat split; vm_compute; intuition congruence|].
  exists w'. split; [exact H1|]. split; [exact H2|]. vm_compute in H1. injection H1 as <-. reflexivity.
Defined.
End ModemRuns.

(** ** The Internet monitor *)

Section JudgeTheorems.
Context {X : Type} {E : Env X}.

(** Either address answers. *)
Definition probe : M (world X) bool :=
  r1 <- ping_net_address SERVER_ADDRESS_PUB_DNS ;;
  if negb (r1 =? 0) then r2 <- ping_net_address SERVER_ADDRESS ;; ret (r2 =? 0) else ret true.

Definition probe_result (w : world X) : bool := match probe w with Ret b _ => b | Fault _ => false end.

(** Runs [n] rounds; returns what their probes found, the latest first. *)
Fixpoint watch (n : nat) : M (world X) (list bool) :=
  match n with
  | O => ret []
  | S n' => h <- watch n' ;; b <- gets probe_result ;; judge_network_round ;; ret (b :: h)
  end.

(** Failures since the last success. *)
Fixpoint streak (h : list bool) : Z :=
  match h with
  | false :: h' => streak h' + 1
  | _ => 0
  end.

(** The state to report: disconnected after three failures in a row, else
    connected as soon as one probe succeeded. *)
Definition judged (start : Z) (h : list bool) : Z :=
  match h with
  | false :: false :: false :: _ => REPORT_UNCONNECT
  | _ => if existsb (fun b => b) h then REPORT_CONNECT else start
  end.

Lemma ping_runs (a : string) (w : world X) :
  exists r x l, ping_net_address a w = Ret r (mk_world (wg w) x l).
Proof.
  unfold ping_net_address, bind, exec. destruct (ext (System _) (wx w)) as [r x]. cbn. destruct (r =? 0); [do 3 eexists; reflexivity|].
  cbn. match goal with |- context [ext ?c ?y] => destruct (ext c y) end. do 3 eexists. reflexivity.
Qed.

Lemma judge_set_runs (s : Z) (w : world X) :
  s = 0 \/ s = 1 -> exists x l, judge_set s w = Ret tt (mk_world (set_mon (set_g_network_status s (mon (wg w))) (wg w)) x l).
Proof.
  intros [-> | ->]; unfold judge_set, monitor_set_status, put_mon, report_network_status, network_ipc_upload, exec_, exec, bind;
    cbn; match goal with |- context [ext ?c ?x] => destruct (ext c x) end; do 2 eexists; reflexivity.
Qed.

Lemma sleep_runs (w : world X) : exists x l, exec_ (Sleep 2) w = Ret tt (mk_world (wg w) x l).
Proof. unfold exec_, exec, bind. destruct (ext (Sleep 2) (wx w)). do 2 eexists. reflexivity. Qed.

(** A success, and a failure. *)
Lemma judge_up_runs (w : world X) :
  exists w', ((put_mon (set_unconnect_times 0) ;; judge_set REPORT_CONNECT) ;; exec_ (Sleep 2)) w = Ret tt w' /\
    mon (wg w') = mk_net_mon REPORT_CONNECT 0.
Proof.
  unfold put_mon, bind, upd, modify. edestruct (judge_set_runs REPORT_CONNECT) as (x & l & ->); [now right|].
  edestruct sleep_runs as (y & k & ->). eexists. split; reflexivity.
Qed.

Lemma judge_down_runs (w : world X) :
  let n := unconnect_times (mon (wg w)) in
  exists w', ((n <- get (fun g => unconnect_times (mon g)) ;; put_mon (set_unconnect_times (n + 1)) ;;
               when (3 <=? n + 1) (judge_set REPORT_UNCONNECT)) ;; exec_ (Sleep 2)) w = Ret tt w' /\
    mon (wg w') = mk_net_mon (if 3 <=? n + 1 then REPORT_UNCONNECT else g_network_status (mon (wg w))) (n + 1).
Proof.
  cbv zeta. unfold put_mon, bind, get, gets, upd, modify, when. destruct (3 <=? _).
  - edestruct (judge_set_runs REPORT_UNCONNECT) as (x & l & ->); [now left|].
    edestruct sleep_runs as (y & k & ->). eexists. split; reflexivity.
  - unfold ret. edestruct sleep_runs as (y & k & ->). eexists. split; reflexivity.
Qed.

(** One round, by the result of its probe. *)
Lemma judge_round_runs (w : world X) :
  exists w', judge_network_round w = Ret tt w' /\
    let n := unconnect_times (mon (wg w)) in
    mon (wg w') = if probe_result w then mk_net_mon REPORT_CONNECT 0
      else mk_net_mon (if 3 <=? n + 1 then REPORT_UNCONNECT else g_network_status (mon (wg w))) (n + 1).
Proof.
  unfold judge_network_round, probe_result, probe. unfold bind at 1. unfold bind at 7.
  destruct (ping_runs SERVER_ADDRESS_PUB_DNS w) as (r1 & x1 & l1 & ->). cbv iota beta.
  destruct (r1 =? 0); cbn [negb]; [apply judge_up_runs|].
  unfold bind at 1 2. unfold bind at 4.
  destruct (ping_runs SERVER_ADDRESS (mk_world (wg w) x1 l1)) as (r2 & x2 & l2 & ->). cbn [wg].
  unfold ret at 1. destruct (r2 =? 0); cbn [negb].
  - apply judge_up_runs.
  - apply (judge_down_runs (mk_world (wg w) x2 l2)).
Qed.

Lemma streak_judged (s : Z) (h : list bool) :
  judged s (false :: h) = if 3 <=? streak h + 1 then REPORT_UNCONNECT else judged s h.
Proof.
  assert (Hs : forall h, 0 <= streak h) by (intros h'; induction h' as [|[]]; cbn; lia).
  destruct h as [|[] [|[] h]]; try reflexivity. cbn [streak judged].
  replace (3 <=? streak h + 1 + 1 + 1) with true by (symmetry; apply Z.leb_le; specialize (Hs h); lia).
  reflexivity.
Qed.

(** The Internet state is what the last probes say.  The monitor thread
    never faults; after any number of rounds the reported state is
    disconnected after three failed probes in a row, connected if some probe
    succeeded and not, and else what it was at the start: two failures never
    change it and one success restores it. *)
Theorem judge_network_spec (n : nat) (w : world X) :
  unconnect_times (mon (wg w)) = 0 ->
  exists h w', watch n w = Ret h w' /\ List.length h = n /\
    g_network_status (mon (wg w')) = judged (g_network_status (mon (wg w))) h.
Proof.
  intros H0. cut (exists h w', watch n w = Ret h w' /\ List.length h = n /\
    mon (wg w') = mk_net_mon (judged (g_network_status (mon (wg w))) h) (streak h)).
  { intros (h & w' & H1 & H2 & H3). exists h, w'. rewrite H3. auto. }
  induction n as [|n (h & w1 & H1 & H2 & H3)].
  - exists [], w. repeat split. destruct (mon (wg w)). cbn in *. now rewrite H0.
  - destruct (judge_round_runs w1) as (w' & R1 & R2). exists (probe_result w1 :: h), w'.
    cbn [watch]. unfold bind, gets. rewrite H1. rewrite R1. split; [reflexivity|]. split; [cbn; now rewrite H2|].
    cbv zeta in R2. rewrite R2, H3. cbn [unconnect_times g_network_status].
    destruct (probe_result w1); [reflexivity|]. cbn [streak]. now rewrite streak_judged.
Qed.
End JudgeTheorems.

Section JudgeRuns.
(** Nothing answers a ping. *)
#[local] Instance j_env : Env unit :=
  scripted (mk_script (fun _ => -1) wpa_works (1, "") [] ([], TimedOut) (fun _ => None)).

Definition online : world unit := mk_world (set_mon (mk_net_mon REPORT_CONNECT 0) (wg nothing)) tt [].

Lemma judge_network_spec_witness :
  (exists w', watch 2 online = Ret [false; false] w' /\ g_network_status (mon (wg w')) = REPORT_CONNECT) /\
  (exists w', watch 3 online = Ret [false; false; false] w' /\ g_network_status (mon (wg w')) = REPORT_UNCONNECT).
Proof.
  split; [destruct (judge_network_spec 2 online eq_refl) as (h & w' & H1 & _ & H2)
         |destruct (judge_network_spec 3 online eq_refl) as (h & w' & H1 & _ & H2)];
    exists w'; vm_compute in H1; injection H1 as <- <-; split; reflexivity || exact H2.
Defined.
End JudgeRuns.
