(* ===== verification/NetSwitch.v ===== *)
(** * Starting and stopping networks, and the current modes

    [network_configure_net] dispatches on the mode; starting the station
    hands the credentials to the event loop and waits for the monitor thread.
    What the other threads do meanwhile is a sequence of [tstep]s chosen by the
    environment, run one after the other.

    Network_mode.c: the current modes and the initial configuration. *)

From Stdlib Require Import ZArith List Bool Lia Ascii String.
From S2P Require Import Prelude CString CMonad Json NetEnv WpaCommand Eloop Hal Report WifiEvent LinkEvent.
Import ListNotations.
Import Modem Etherent Monitor.
Open Scope string_scope.
Open Scope Z_scope.

Section Switch.
Context {X : Type} {E : Env X} {F : Fuel}.
Local Notation Mw := (M (world X)).

(** ** Other threads *)

(** [wifi_connecting_network] of [main.c]. *)
Definition wifi_connecting_network : Mw unit :=
  n <- get g_wifi_network ;;
  '(_, n') <- wifi_join_network n ;;
  upd (fun g => set_g_wifi_network n' g).

(** The one-shot connect timer expires: its callback runs. *)
Definition connect_timer_fires : Mw unit :=
  id <- get (fun g => wifi_connect (net g)) ;;
  a <- get (armed id) ;;
  when a
    (upd (arm_timer (id, false)) ;; wifi_connecting_network).

(** A periodic timer expires, which leaves it armed. *)
Definition scan_timer_fires : Mw unit :=
  id <- get (fun g => NetEnv.wifi_scan (net g)) ;;
  a <- get (armed id) ;;
  when a wifi_trigger_scan.

Definition modem_timer_fires : Mw unit :=
  id <- get (fun g => modem_monitor (net g)) ;;
  a <- get (armed id) ;;
  when a modem_event_monitor.

(** None of them takes [func_mutex]. *)
Definition run_step (s : tstep) : Mw unit :=
  match s with
  | StepConnect => connect_timer_fires
  | StepScan => scan_timer_fires
  | StepModem => modem_timer_fires
  | StepMonitorStart => monitor_thread_start ;; ret tt
  | StepMonitorRound => monitor_thread_round ;; ret tt
  | StepRoamStart => roam_thread_start
  | StepSignal => roam_thread_round
  | StepJudge => judge_network_round
  end.

Definition interleave : Mw unit :=
  steps <- exec Interleave ;;
  for_each steps run_step.

(** Runs steps until one signals [wifi_cond]. *)
Fixpoint run_until_signal (steps : list tstep) : Mw bool :=
  match steps with
  | [] => ret false
  | s :: l =>
      run_step s ;;
      b <- get (fun g => w_signalled (wev g)) ;;
      if b then ret true else run_until_signal l
  end.

(** [wifi_wait_for_result] of [wifi_event.c]: a signal sent before the wait
    is lost; the wait may also end spuriously. *)
Definition wifi_wait_for_result (ms : Z) : Mw (Z * tRESULT) :=
  put_wev (set_w_signalled false) ;;
  '(steps, e) <- exec (CondTimedwait ms) ;;
  b <- run_until_signal steps ;;
  let timedout := negb b && match e with TimedOut => true | Spurious => false end in
  when timedout
    (upd (fun g => set_wev (set_g_result
       (mk_tRESULT (r_flag (g_result (wev g))) COMMAND_NOK eREASON_WIFI_TIMEOUT) (wev g)) g)) ;;
  r <- get (fun g => g_result (wev g)) ;;
  ret (if timedout then -1 else 0, r).

(** ** Starting and stopping *)

Definition PTHREAD_WAIT_DELAY : Z := 20000.

Definition network_start_wifi_ap (info : mode_info) : Mw (Z * mode_info) :=
  let info := set_mi_reason eREASON_NONE info in
  r <- wifi_hal_start_ap (mi_ssid info) (mi_psk info) (mi_ip info) ;;
  if negb (r =? 0) then ret (-1, set_mi_reason eREASON_HOSTAPD_ENABLE_FAIL info)
  else ret (0, info).

Definition network_stop_wifi_ap : Mw Z := wifi_hal_stop_ap ;; ret 0.

(** [while (--cnts && g_wifi_monitor_open == 0) sleep(1);] *)
Fixpoint wait_monitor_open (cnts : nat) : Mw unit :=
  match cnts with
  | O | S O => ret tt
  | S c =>
      open <- get (fun g => g_wifi_monitor_open (wev g)) ;;
      if open =? 0 then exec_ (Sleep 1) ;; interleave ;; wait_monitor_open c
      else ret tt
  end.

(** [strncpy] of the credentials into [net->ssid[36]] and [net->psk[68]]. *)
Definition store_credentials (info : mode_info) : Mw unit :=
  if (36 <=? strlen (mi_ssid info)) || (68 <=? strlen (mi_psk info)) then stop BufferOverflow
  else upd (fun g => set_g_wifi_network
             (mk_wifi_network 0 (mi_ssid info) (mi_psk info)
                (if strlen (mi_psk info) =? 0 then WIFI_KEY_NONE else 0)) g).

(** After the wait: drop the network that failed, or save it. *)
Definition finish_start_wifi (result : tRESULT) : Mw Z :=
  if negb (r_result result =? COMMAND_OK) then
    '(r, id) <- wifi_get_current_id ;;
    when ((r =? 0) && negb (id =? -1)) (wifi_remove_network id ;; ret tt) ;;
    ret (-1)
  else wifi_save_network ;; ret 0.

Definition network_start_wifi (info : mode_info) : Mw (Z * mode_info) :=
  let info := set_mi_reason eREASON_NONE info in
  r <- wifi_hal_start_station ;;
  if negb (r =? 0) then ret (-1, set_mi_reason eREASON_WPA_SUPLICANT_ENABLE_FAIL info)
  else
  r <- wifi_start_monitor ;;
  if negb (r =? 0) then ret (-1, set_mi_reason eREASON_WIFI_MONITOR_ENABLE_FAIL info)
  else
  wait_monitor_open 10 ;;
  open <- get (fun g => g_wifi_monitor_open (wev g)) ;;
  if open =? 0 then ret (-1, set_mi_reason eREASON_WPA_SUPLICANT_ENABLE_FAIL info)
  else
  r <- wifi_disable_all_network ;;
  if negb (r =? 0) then ret (-1, set_mi_reason eREASON_COMMAND_RESPOND_ERROR info)
  else
  store_credentials info ;;
  id <- get (fun g => wifi_connect (net g)) ;;
  eloop_timer_start id ;;
  interleave ;;
  '(r, result) <- wifi_wait_for_result PTHREAD_WAIT_DELAY ;;
  let info := set_mi_reason (if negb (r =? 0) then eREASON_WIFI_TIMEOUT else r_reason result) info in
  iret <- finish_start_wifi result ;;
  ret (iret, info).

Definition network_stop_wifi : Mw Z :=
  wifi_stop_monitor ;; wifi_hal_stop_station ;; ret 0.

(** [a() || b()] on C results. *)
Definition either_fails (a b : Mw Z) : Mw bool :=
  r <- a ;;
  if negb (r =? 0) then ret true else r2 <- b ;; ret (negb (r2 =? 0)).

Definition network_start_modem (info : mode_info) : Mw (Z * mode_info) :=
  let info := set_mi_reason eREASON_NONE info in
  bad <- either_fails modem_hal_start_modem modem_start_monitor ;;
  if (bad : bool) then ret (-1, set_mi_reason eREASON_COMMAND_RESPOND_ERROR info) else ret (0, info).

Definition network_stop_modem : Mw Z :=
  modem_hal_stop_modem ;; modem_stop_monitor ;; ret 0.

Definition network_start_etherent (info : mode_info) : Mw (Z * mode_info) :=
  let info := set_mi_reason eREASON_NONE info in
  bad <- either_fails etherent_hal_start_eth etherent_start_monitor ;;
  if (bad : bool) then ret (-1, set_mi_reason eREASON_COMMAND_RESPOND_ERROR info) else ret (0, info).

Definition network_stop_etherent : Mw Z :=
  etherent_stop_monitor ;; etherent_hal_stop_eth ;; ret 0.

(** 0 when the mode is in capacity, -1 otherwise. *)
Definition mode_in_capacity (capacity mode : Z) : Z :=
  if (mode =? WIFI) || (mode =? WIFI_AP) then
    if capacity &? NET_CAPACITY_WIFI then 0 else -1
  else if mode =? MODEM then
    if capacity &? NET_CAPACITY_MODEM then 0 else -1
  else if mode =? ETHERENT then
    if capacity &? NET_CAPACITY_ETHERENT then 0 else -1
  else -1.

Definition is_mode_in_capacity (mode : Z) : Mw Z :=
  capacity <- get g_capacity ;;
  ret (mode_in_capacity capacity mode).

(** A start function called with the [info] pointer, which it writes. *)
Definition with_info (info : option mode_info) (f : mode_info -> Mw (Z * mode_info))
  : Mw (Z * option mode_info) :=
  match info with
  | None => stop NullDeref
  | Some i => '(r, i') <- f i ;; ret (r, Some i')
  end.

Definition no_info (info : option mode_info) (m : Mw Z) : Mw (Z * option mode_info) :=
  r <- m ;; ret (r, info).

(** [info = None] is a NULL pointer; returns the code and [*info]. *)
Definition network_configure_net (mode start : Z) (info : option mode_info)
  : Mw (Z * option mode_info) :=
  let info := option_map (set_mi_reason 0) info in
  c <- is_mode_in_capacity mode ;;
  if negb (c =? 0) then
    match info with
    | None => stop NullDeref
    | Some i => ret (-1, Some (set_mi_reason eREASON_OUT_OF_CAPACITY i))
    end
  else if mode =? WIFI then
    if start =? START then with_info info network_start_wifi else no_info info network_stop_wifi
  else if mode =? WIFI_AP then
    if start =? START then with_info info network_start_wifi_ap else no_info info network_stop_wifi_ap
  else if mode =? MODEM then
    if start =? START then with_info info network_start_modem else no_info info network_stop_modem
  else if mode =? ETHERENT then
    if start =? START then with_info info network_start_etherent else no_info info network_stop_etherent
  else ret (0, info).
End Switch.

(** ** Footprint

    What the other threads write while a command waits. *)

Section SwitchKeeps.
Context {X : Type} {E : Env X} {F : Fuel} (I : view) `{!Quiet I}
  `{!KeepsWev I} `{!Ignores put_wifi_state I} `{!KeepsMon I}
  `{!Ignores set_g_wifi_network I} `{!Ignores arm_timer I}.
Local Notation K m := (keepsg (X := X) I m).

Lemma store_credentials_keeps i : K (store_credentials i).
Proof. unfold store_credentials. keepsg. Qed.

Lemma finish_start_wifi_keeps r : K (finish_start_wifi r).
Proof. unfold finish_start_wifi. keepsg. Qed.
#[local] Hint Resolve store_credentials_keeps finish_start_wifi_keeps : keeps.

(** All steps but the one that may restart the modem. *)
Lemma quiet_step_keeps s : s <> StepModem -> K (run_step s).
Proof. intros H. destruct s; [| |contradiction| | | | |]; keepsg_deep. Qed.

Context `{!Ignores set_hal I} `{!KeepsMev I}.

Lemma run_step_keeps s : K (run_step s).
Proof. destruct s; try (apply quiet_step_keeps; discriminate); keepsg_deep. Qed.
#[local] Hint Resolve run_step_keeps : keeps.

Lemma interleave_keeps : K interleave.
Proof. unfold interleave. keepsg. Qed.
#[local] Hint Resolve interleave_keeps : keeps.

Lemma run_until_signal_keeps l : K (run_until_signal l).
Proof. induction l; cbn; keepsg. Qed.
#[local] Hint Resolve run_until_signal_keeps : keeps.

Lemma wait_monitor_open_keeps n : K (wait_monitor_open n).
Proof. induction n as [|[|n] IH]; cbn; keepsg. Qed.

Lemma wifi_wait_for_result_keeps ms : K (wifi_wait_for_result ms).
Proof. unfold wifi_wait_for_result, put_wev. keepsg. Qed.

#[local] Hint Resolve wait_monitor_open_keeps wifi_wait_for_result_keeps : keeps.

Context `{!KeepsEev I}.

Lemma network_start_wifi_keeps i : K (network_start_wifi i).
Proof. unfold network_start_wifi. keepsg. Qed.
#[local] Hint Resolve network_start_wifi_keeps : keeps.

Lemma network_configure_net_keeps m st i : K (network_configure_net m st i).
Proof. keepsg_deep. Qed.
End SwitchKeeps.

#[export] Hint Resolve run_step_keeps interleave_keeps wait_monitor_open_keeps
  wifi_wait_for_result_keeps store_credentials_keeps finish_start_wifi_keeps
  network_configure_net_keeps : keeps.

(** * Network_mode.c: the current modes and the initial configuration *)

(** ** The mode word *)

(** [m |= flag] and [m &= ~flag] on a [uint32_t]. *)
Definition or_flag (m flag : Z) : Z := Z.lor m flag.
Definition and_not_flag (m flag : Z) : Z := Z.land m (wrapu32 (Z.lnot flag)).

Definition set_wifi_station_mode (start m : Z) : Z :=
  if start =? START then and_not_flag (or_flag m WIFI) WIFI_AP else and_not_flag m WIFI.

Definition set_wifi_ap_mode (start m : Z) : Z :=
  if start =? START then or_flag (and_not_flag m WIFI) WIFI_AP else and_not_flag m WIFI_AP.

Definition set_modem_mode (start m : Z) : Z :=
  if start =? START then or_flag m MODEM else and_not_flag m MODEM.

Definition set_etherent_mode (start m : Z) : Z :=
  if start =? START then or_flag m ETHERENT else and_not_flag m ETHERENT.

(** The [switch (mode)] of [network_set_mode]. *)
Definition next_mode (mode start m : Z) : Z :=
  if mode =? WIFI then set_wifi_station_mode start m
  else if mode =? WIFI_AP then set_wifi_ap_mode start m
  else if mode =? MODEM then set_modem_mode start m
  else if mode =? ETHERENT then set_etherent_mode start m
  else m.

Section Mode.
Context {X : Type} {E : Env X} {F : Fuel}.
Local Notation Mw := (M (world X)).

Definition put_nmode (f : net_mode -> net_mode) : Mw unit := upd (fun g => set_nmode (f (nmode g)) g).

Definition get_network_mode : Mw Z := get (fun g => g_network_mode (nmode g)).

(** The [p_info] argument is not used. *)
Definition network_set_mode (mode start : Z) : Mw unit :=
  upd (fun g => set_nmode (set_g_network_mode (next_mode mode start (g_network_mode (nmode g))) (nmode g)) g).

Definition NETWORK_WIFI_MODE_KEY : string := "persist.netmanager.wifi".
Definition NETWORK_WIFI_AP_MODE_KEY : string := "persist.netmanager.wifi.ap".
Definition NETWORK_MODEM_MODE_KEY : string := "persist.netmanager.modem".
Definition NETWORK_ETHERENT_MODE_KEY : string := "persist.netmanager.etherent".

Definition flag_property (key : string) (flag mode : Z) : Mw Z :=
  '(_, val) <- property_get 64 key (Some "0") ;;
  ret (if negb (atoi val =? 0) then or_flag mode flag else mode).

Definition network_get_mode : Mw Z :=
  mode <- flag_property NETWORK_WIFI_MODE_KEY WIFI 0 ;;
  mode <- flag_property NETWORK_WIFI_AP_MODE_KEY WIFI_AP mode ;;
  mode <- flag_property NETWORK_MODEM_MODE_KEY MODEM mode ;;
  flag_property NETWORK_ETHERENT_MODE_KEY ETHERENT mode.

(** [a() == 0 && b() == 0] *)
Definition both_ok (a b : Mw Z) : Mw bool :=
  bad <- either_fails a b ;; ret (negb bad).

Definition wifi_init_start : Mw Z :=
  ok <- both_ok wifi_hal_start_station wifi_start_monitor ;;
  if (ok : bool) then put_nmode (set_wifi_init_mode_flag 1) ;; ret 0 else ret (-1).

Definition wifi_ap_init_start : Mw Z :=
  '(_, ssid) <- property_get 128 "persist.netmanager.ap.ssid" (Some "ROKID.TC") ;;
  '(_, psk) <- property_get 64 "persist.netmanager.ap.psk" (Some "rokidguys") ;;
  '(_, ip) <- property_get 64 "persist.netmanager.ap.hostip" (Some "192.168.2.1") ;;
  r <- wifi_hal_start_ap ssid psk ip ;;
  if r =? 0 then network_set_mode WIFI_AP START ;; ret 0 else ret (-1).

(** True when a line of the configuration file mentions an ssid. *)
Definition is_wifi_configured : Mw bool :=
  f <- exec (ReadLines "/data/system/wpa_supplicant.conf") ;;
  match f with
  | None => ret false
  | Some ls => ret (existsb (fun l => strstr_b l "ssid") ls)
  end.

Definition init_modem (mode : Z) : Mw unit :=
  c <- is_mode_in_capacity MODEM ;;
  when ((mode &? MODEM) && (c =? 0))
    (ok <- both_ok modem_hal_start_modem modem_start_monitor ;;
     when ok (exec_ (Sleep 1) ;; network_set_mode MODEM START)).

Definition init_etherent (mode : Z) : Mw unit :=
  c <- is_mode_in_capacity ETHERENT ;;
  when ((mode &? ETHERENT) && (c =? 0))
    (ok <- both_ok etherent_hal_start_eth etherent_start_monitor ;;
     when ok (network_set_mode ETHERENT START)).

Definition init_wifi (mode : Z) : Mw unit :=
  c <- is_mode_in_capacity WIFI ;;
  if (mode &? WIFI) && negb (mode &? WIFI_AP) && (c =? 0) then wifi_init_start ;; ret tt
  else
  c <- is_mode_in_capacity WIFI_AP ;;
  if negb (mode &? WIFI) && (mode &? WIFI_AP) && (c =? 0) then wifi_ap_init_start ;; ret tt
  else
    conf <- is_wifi_configured ;;
    when conf (wifi_init_start ;; wifi_set_state 1).

Definition network_set_initmode : Mw Z :=
  mode <- network_get_mode ;;
  init_modem mode ;;
  init_etherent mode ;;
  init_wifi mode ;;
  ret 0.
End Mode.

(** ** The mode word as a set of modes *)

Record modes := mk_modes { m_wifi : bool; m_ap : bool; m_modem : bool; m_eth : bool }.

Definition modes_of (m : Z) : modes :=
  mk_modes (m &? WIFI) (m &? WIFI_AP) (m &? MODEM) (m &? ETHERENT).

(** What [network_set_mode] means: the station and the access point exclude
    each other, the modem and Ethernet are independent. *)
Definition next_modes (mode start : Z) (s : modes) : modes :=
  let on := start =? START in
  if mode =? WIFI then mk_modes on (if on then false else m_ap s) (m_modem s) (m_eth s)
  else if mode =? WIFI_AP then mk_modes (if on then false else m_wifi s) on (m_modem s) (m_eth s)
  else if mode =? MODEM then mk_modes (m_wifi s) (m_ap s) on (m_eth s)
  else if mode =? ETHERENT then mk_modes (m_wifi s) (m_ap s) (m_modem s) on
  else s.

Lemma has_or_flag (m f k : Z) : 0 <= k -> or_flag m f &? 2 ^ k = (m &? 2 ^ k) || (f &? 2 ^ k).
Proof. apply has_or. Qed.

Lemma has_and_not_flag (m f k : Z) :
  0 <= k < 32 -> and_not_flag m f &? 2 ^ k = (m &? 2 ^ k) && negb (f &? 2 ^ k).
Proof. apply has_andnot. Qed.

(** The flags of the mode word as powers of two. *)
Ltac flags_as_powers :=
  change WIFI with (2 ^ 0) in *; change WIFI_AP with (2 ^ 1) in *;
  change MODEM with (2 ^ 2) in *; change ETHERENT with (2 ^ 3) in *.

Lemma modes_of_next (mode start m : Z) :
  modes_of (next_mode mode start m) = next_modes mode start (modes_of m).
Proof.
  unfold next_mode, next_modes, modes_of, set_wifi_station_mode, set_wifi_ap_mode, set_modem_mode,
    set_etherent_mode.
  destruct (start =? START); repeat (destruct (mode =? _); [|try reflexivity]); flags_as_powers;
    repeat first [rewrite has_or_flag by lia | rewrite has_and_not_flag by lia];
    cbn [m_wifi m_ap m_modem m_eth];
    repeat match goal with |- context [has (2 ^ ?a) (2 ^ ?b)] =>
      let v := eval vm_compute in (has (2 ^ a) (2 ^ b)) in change (has (2 ^ a) (2 ^ b)) with v end;
    cbn [negb]; rewrite ?orb_true_r, ?orb_false_r, ?andb_true_r, ?andb_false_r; reflexivity.
Qed.

Lemma next_mode_range (mode start m : Z) : 0 <= m < 16 -> 0 <= next_mode mode start m < 16.
Proof.
  intros H. change 16 with (2 ^ 4) in *.
  assert (HA : forall m f, 0 <= m < 2 ^ 4 -> 0 <= and_not_flag m f < 2 ^ 4).
  { intros m' f Hm. apply land_range; [lia|exact Hm|].
    unfold wrapu32. apply Z.mod_pos_bound. lia. }
  assert (HO : forall m f, 0 <= m < 2 ^ 4 -> 0 <= f < 2 ^ 4 -> 0 <= or_flag m f < 2 ^ 4)
    by (intros; apply lor_range; lia).
  unfold next_mode, set_wifi_station_mode, set_wifi_ap_mode, set_modem_mode, set_etherent_mode.
  repeat break_match; repeat first [exact H | apply HA | apply HO]; vm_compute; intuition congruence.
Qed.
