(* ===== verification/NetSched.v ===== *)
(** * network_sched.c: choosing between Ethernet, Wi-Fi and modem

    One call of [network_sched_net] is one decision of the scheduler: Ethernet
    first, Wi-Fi while its signal is usable, the modem otherwise. *)

From Stdlib Require Import ZArith List Bool Lia Ascii String.
From S2P Require Import Prelude CString CMonad Json NetEnv ScanList WpaCommand Eloop Hal Report WifiEvent.
From S2P Require Import LinkEvent NetSwitch.
Import ListNotations.
Import Modem Etherent Monitor.
Open Scope string_scope.
Open Scope Z_scope.

(** [get_wifi_ssid_signal]'s loop: the last entry of that name. *)
Fixpoint ssid_signal_loop (name : string) (l : list wifi_scan_res) (found : option Z) : option Z :=
  match l with
  | [] => found
  | a :: l' => ssid_signal_loop name l' (if String.eqb (ssid a) name then Some (sig a) else found)
  end.

Section Sched.
Context {X : Type} {E : Env X} {F : Fuel}.
Local Notation Mw := (M (world X)).

Definition put_sched (f : net_sched -> net_sched) : Mw unit := upd (fun g => set_sched (f (sched g)) g).

Definition network_get_sched_parms : Mw Z :=
  '(_, value) <- property_get 64 "persist.netmanager.sched.enable" (Some "0") ;;
  when (0 <? atoi value) (put_sched (set_network_sched_enable (atoi value))) ;;
  '(iret, value) <- property_get 64 "persist.netmanager.w2m.threshld" None ;;
  when ((0 <? iret) && (atoi value <? WIFI_SWITCH_LIMIT_SIGNAL))
    (put_sched (set_network_wifi2modem_threshold (atoi value))) ;;
  '(iret, value) <- property_get 64 "persist.netmanager.m2w.threshld" None ;;
  when ((0 <? iret) && (WIFI_ROAM_LIMIT_SIGNAL <? atoi value))
    (put_sched (set_network_modem2wifi_threshold (atoi value))) ;;
  ret 0.

Definition get_current_wifi_ssid_id : Mw Z :=
  upd (put_wpa_network_id (-1)) ;;
  '(r, name) <- wifi_get_current_ssid ;;
  if negb (r =? 0) then ret (-1)
  else
    '(r, id) <- wifi_get_current_id ;;
    if (r =? 0) && (0 <=? id) then
      upd (put_wpa_network_id id) ;;
      upd (put_p_ssid name) ;;
      ret 0
    else ret (-1).

(** The [mode & WIFI] block of the two functions that leave Wi-Fi. *)
Definition leave_wifi : Mw unit :=
  id <- get (fun g => wpa_network_id (net g)) ;;
  when (0 <=? id) (wifi_disable_network id ;; ret tt) ;;
  wifi_set_state REPORT_UNCONNECT ;;
  put_sched (set_g_wifi_enable_flag 0).

Definition stop_and_clear (mode : Z) : Mw unit :=
  network_configure_net mode STOP None ;;
  network_set_mode mode STOP.

Definition network_change_to_etherent : Mw Z :=
  mode <- get_network_mode ;;
  when (mode &? WIFI) leave_wifi ;;
  when (mode &? MODEM) (stop_and_clear MODEM) ;;
  ret 0.

(** The local [info] is only written by the call. *)
Definition network_change_to_modem : Mw Z :=
  mode <- get_network_mode ;;
  when (mode &? WIFI) leave_wifi ;;
  when (mode &? MODEM) (stop_and_clear MODEM) ;;
  network_configure_net MODEM START (Some zero_info) ;;
  network_set_mode MODEM START ;;
  ret 0.

Definition network_change_to_wifi : Mw Z :=
  mode <- get_network_mode ;;
  when (mode &? MODEM) (stop_and_clear MODEM) ;;
  (if mode &? WIFI then
     id <- get (fun g => wpa_network_id (net g)) ;;
     when (0 <=? id)
       (wifi_enable_network id ;;
        wifi_set_state REPORT_CONNECT ;;
        put_sched (set_g_wifi_enable_flag 1))
   else
     when (mode &? WIFI_AP) (stop_and_clear WIFI_AP) ;;
     wifi_init_start ;; ret tt) ;;
  ret 0.

(** The signal of a network by name, [None] when it is not listed. *)
Definition get_wifi_ssid_signal (name : string) : Mw (option Z) :=
  '(_, l) <- wifi_get_block_scan_result 3 [] ;;
  ret (ssid_signal_loop name l None).

(** [g_wifi_enable_flag] from the reported and the connection state. *)
Definition sched_wifi_enable : Mw unit :=
  st <- wifi_event_get_status ;;
  put_sched (set_g_wifi_enable_flag (if ws_state st =? REPORT_CONNECT then 1 else 0)) ;;
  cs <- get (fun g => wifi_state (net g)) ;;
  when (negb (conn_eqb cs WIFI_STATION_CONNECTED)) (put_sched (set_g_wifi_enable_flag 0)).

(** The [wifi_init_mode_flag == 1] block: true when the call returns there. *)
Definition sched_wait_init (mode : Z) : Mw bool :=
  get_current_wifi_ssid_id ;;
  '(_, st) <- wifi_get_status (Some 0) ;;
  st <- read_int (RInt st) ;;
  id <- get (fun g => wpa_network_id (net g)) ;;
  if (0 <=? id) && (st =? 2) then
    put_nmode (set_wifi_init_mode_flag 0) ;;
    wifi_set_state REPORT_CONNECT ;;
    upd (put_wifi_state WIFI_STATION_CONNECTED) ;;
    put_sched (set_g_wifi_enable_flag 1) ;;
    network_set_mode WIFI START ;;
    put_sched (set_wait_wifi_init_cnt 0) ;;
    when (mode &? MODEM) (stop_and_clear MODEM) ;;
    ret false
  else
    n <- get (fun g => wait_wifi_init_cnt (sched g)) ;;
    put_sched (set_wait_wifi_init_cnt (n + 1)) ;;
    when (30 <=? n + 1)
      (put_sched (set_wait_wifi_init_cnt 0) ;;
       put_nmode (set_wifi_init_mode_flag 0)) ;;
    ret true.

(** The change of the Ethernet link, when the scheduler is enabled. *)
Definition sched_eth_change (capacity eth : Z) : Mw unit :=
  if eth =? REPORT_CONNECT then
    network_change_to_etherent ;;
    put_sched (set_sched_state eth)
  else
    when (eth =? REPORT_UNCONNECT)
      (if capacity &? NET_CAPACITY_WIFI then
         network_change_to_wifi ;;
         put_sched (set_sched_state eth)
       else when (capacity &? NET_CAPACITY_MODEM)
         (network_change_to_modem ;;
          put_sched (set_sched_state eth))).

(** The Ethernet block: true when the call returns there. *)
Definition sched_etherent (capacity : Z) : Mw bool :=
  f <- etherent_get_start_flag ;;
  when (f =? 0)
    (ok <- both_ok etherent_hal_start_eth etherent_start_monitor ;;
     when ok (network_set_mode ETHERENT START)) ;;
  f <- etherent_get_start_flag ;;
  if f =? 1 then
    eth <- etherent_get_rt_status ;;
    report_etherent_status eth ;;
    enable <- get (fun g => network_sched_enable (sched g)) ;;
    state <- get (fun g => sched_state (sched g)) ;;
    if (enable =? 1) && negb (eth =? state) then
      sched_eth_change capacity eth ;; ret true
    else ret false
  else ret false.

(** Wi-Fi in use: true when the call returns there. *)
Definition sched_wifi_signal : Mw bool :=
  '(r, s) <- wifi_get_signal None ;;
  if negb (r =? 0) then ret true
  else
    signal <- read_int (RInt s) ;;
    if (signal <? WIFI_SWITCH_LIMIT_SIGNAL) || (signal =? 0) then
      network_change_to_modem ;; ret true
    else ret false.

(** Modem in use and Wi-Fi not: look for the Wi-Fi network. *)
Definition sched_modem_in_use (mode : Z) : Mw unit :=
  init <- get (fun g => wifi_init_mode_flag (nmode g)) ;;
  if negb (mode &? WIFI) && (init =? 0) then wifi_init_start ;; ret tt
  else
    when (mode &? WIFI)
      (name <- get (fun g => p_ssid (net g)) ;;
       s <- get_wifi_ssid_signal name ;;
       match s with
       | Some signal =>
           when ((WIFI_ROAM_LIMIT_SIGNAL <? signal) && (signal <? 0))
             (network_change_to_wifi ;; ret tt)
       | None => ret tt
       end).

Definition sched_wifi_modem (mode : Z) : Mw unit :=
  flag <- get (fun g => g_wifi_enable_flag (sched g)) ;;
  stop1 <- (if (mode &? WIFI) && negb (flag =? 0) then sched_wifi_signal else ret false) ;;
  if (stop1 : bool) then ret tt
  else
    flag <- get (fun g => g_wifi_enable_flag (sched g)) ;;
    when ((mode &? MODEM) && negb (mode &? WIFI_AP) && (flag =? 0)) (sched_modem_in_use mode).

Definition network_sched_net : Mw unit :=
  capacity <- get g_capacity ;;
  mode <- get_network_mode ;;
  network_get_sched_parms ;;
  when (capacity &? NET_CAPACITY_WIFI) sched_wifi_enable ;;
  init <- get (fun g => wifi_init_mode_flag (nmode g)) ;;
  stop0 <- (if init =? 1 then sched_wait_init mode else ret false) ;;
  if (stop0 : bool) then ret tt
  else
  stop1 <- (if capacity &? NET_CAPACITY_ETHERENT then sched_etherent capacity else ret false) ;;
  if (stop1 : bool) then ret tt
  else
  enable <- get (fun g => network_sched_enable (sched g)) ;;
  when ((enable =? 1) && (capacity &? NET_CAPACITY_WIFI) && (capacity &? NET_CAPACITY_MODEM))
    (sched_wifi_modem mode).
End Sched.
