(* ===== verification/NetCtrl.v ===== *)
(** * network_ctrl.c: the commands of the manager

    Each handler of the table [ctrl_cmd], the parsing of a request and
    [handle_net_command].  A handler runs under [func_mutex], as does the
    callback of the access-point timer, so one of them runs at a time. *)

From Stdlib Require Import ZArith List Bool Lia Ascii String.
From S2P Require Import Prelude CString CMonad Json NetEnv ScanList WpaCommand Eloop Hal Report.
From S2P Require Import WifiEvent LinkEvent NetSwitch.
Import ListNotations.
Import Modem Etherent Monitor.
Open Scope string_scope.
Open Scope Z_scope.

(** [cmd_fail_reason] *)
Definition cmd_fail_reason : list string :=
  ["NONE"; "WIFI_NOT_CONNECT"; "WIFI_NOT_FOUND"; "WIFI_WRONG_KEY"; "WIFI_TIMEOUT";
   "WIFI_CFGNET_TIMEOUT"; "NETWORK_OUT_OF_CAPACITY"; "WIFI_WPA_SUPLICANT_ENABLE_FAIL";
   "WIFI_HOSTAPD_ENABLE_FAIL"; "COMMAND_FORMAT_ERROR"; "COMMAND_RESPOND_ERROR";
   "WIFI_MONITOR_ENABLE_FAIL"; "WIFI_SSID_PSK_SET_FAIL"].

Definition NET_MODEM_S : string := "modem".
Definition NET_WIFI_S : string := "wifi".
Definition NET_WIFI_AP_S : string := "wifi_ap".
Definition NET_ETHERENT_S : string := "etherent".

(** The two results a handler answers with. *)
Definition ok_reply : json := JObj [("result", JStr "OK")].
Definition nok_reply (reason : string) : json :=
  JObj [("result", JStr "NOK"); ("reason", JStr reason)].

(** The names of the flags that are set, in the order of the tests. *)
Definition flag_names (m : Z) (l : list (Z * string)) : list json :=
  map (fun p => JStr (snd p)) (filter (fun p => m &? fst p) l).

Section Ctrl.
Context {X : Type} {E : Env X} {F : Fuel} {J : JsonC}.
Local Notation Mw := (M (world X)).

(** [json_object_new_string(NULL)] and an index past the table are faults. *)
Definition netmanger_response_command (state reason : Z) : Mw Z :=
  if state =? COMMAND_OK then network_ipc_return ok_reply ;; ret 0
  else if state =? COMMAND_NOK then
    if reason <? 0 then stop OutOfBounds
    else match nth_error cmd_fail_reason (Z.to_nat reason) with
         | Some s => network_ipc_return (nok_reply s) ;; ret 0
         | None => stop OutOfBounds
         end
  else stop NullDeref.

(** [if (x()) { state = COMMAND_NOK; reason = eREASON_COMMAND_RESPOND_ERROR; }] *)
Definition respond_code (r : Z) : Mw Z :=
  if negb (r =? 0) then netmanger_response_command COMMAND_NOK eREASON_COMMAND_RESPOND_ERROR
  else netmanger_response_command COMMAND_OK eREASON_NONE.

Definition get_wifi_capacity : Mw Z :=
  r <- wifi_hal_get_capacity ;; ret (if r =? 0 then Z.lor 0 NET_CAPACITY_WIFI else 0).
Definition get_modem_capacity : Mw Z :=
  r <- modem_hal_get_capacity ;; ret (if r =? 0 then Z.lor 0 NET_CAPACITY_MODEM else 0).
Definition get_etherent_capacity : Mw Z :=
  r <- etherent_hal_get_capacity ;; ret (if r =? 0 then Z.lor 0 NET_CAPACITY_ETHERENT else 0).

Definition netmanager_get_net_capacity : Mw Z :=
  capacity <- get g_capacity ;;
  network_ipc_return
    (JObj [("result", JStr "OK");
           ("net_capacities",
            JArr (flag_names capacity
              [(NET_CAPACITY_WIFI, NET_WIFI_S); (NET_CAPACITY_MODEM, NET_MODEM_S);
               (NET_CAPACITY_ETHERENT, NET_ETHERENT_S)]))]) ;;
  ret 0.

Definition netmanager_get_net_mode : Mw Z :=
  mode <- get_network_mode ;;
  network_ipc_return
    (JObj [("result", JStr "OK");
           ("net_modes",
            JArr (flag_names mode
              [(WIFI, NET_WIFI_S); (WIFI_AP, NET_WIFI_AP_S); (MODEM, NET_MODEM_S);
               (ETHERENT, NET_ETHERENT_S)]))]) ;;
  ret 0.

Definition netmanager_report_all_status : Mw Z :=
  mode <- get_network_mode ;;
  monitor_report_status ;;
  when (mode &? WIFI) wifi_report_status ;;
  when (mode &? ETHERENT) etherent_report_status ;;
  when (mode &? MODEM) modem_report_status ;;
  netmanger_response_command COMMAND_OK eREASON_NONE ;;
  ret 0.

(** ** Parameters of a request *)

(** The fields are written one by one, so that a failure keeps the earlier
    ones; returns the code and [*mode]. *)
Definition get_wifi_station_info (base : option jobj) (mode : mode_info) : Z * mode_info :=
  match json_object_object_get_ex base "params" with
  | None => (-1, mode)
  | Some obj =>
      match json_object_object_get_ex obj "SSID" with
      | None => (-1, mode)
      | Some elem =>
          match json_object_get_string elem with
          | None => (-1, mode)
          | Some s =>
              let mode := set_mi_ssid (strncpy (MAX_SIZE - 1) s) mode in
              match json_object_object_get_ex obj "PASSWD" with
              | None => (-1, mode)
              | Some elem =>
                  match json_object_get_string elem with
                  | None => (0, set_mi_psk "" mode)
                  | Some p => (0, set_mi_psk (strncpy (MAX_SIZE - 1) p) mode)
                  end
              end
          end
      end
  end.

(** [strncpy(field, json_object_get_string(elem), MAX_SIZE-1)]: copying from NULL
    faults. *)
Definition string_field (obj : option jobj) (key : string) (k : string -> Mw (Z * mode_info))
    (mode : mode_info) : Mw (Z * mode_info) :=
  match json_object_object_get_ex obj key with
  | None => ret (-1, mode)
  | Some elem =>
      match json_object_get_string elem with
      | None => stop NullDeref
      | Some s => k s
      end
  end.

Definition get_wifi_ap_info (base : option jobj) (mode : mode_info) : Mw (Z * mode_info) :=
  match json_object_object_get_ex base "params" with
  | None => ret (-1, mode)
  | Some obj =>
      string_field obj "SSID" (fun s =>
        let mode := set_mi_ssid (strncpy (MAX_SIZE - 1) s) mode in
        string_field obj "PASSWD" (fun p =>
          let mode := set_mi_psk (strncpy (MAX_SIZE - 1) p) mode in
          string_field obj "IP" (fun i =>
            let mode := set_mi_ip (strncpy (MAX_SIZE - 1) i) mode in
            string_field obj "TIMEOUT" (fun t =>
              ret (0, set_mi_timeout (strtol0 t) mode)) mode) mode) mode) mode
  end.

(** ** Wi-Fi *)

Definition put_ctrl (f : net_ctrl -> net_ctrl) : Mw unit := upd (fun g => set_ctrl (f (ctrl g)) g).

(** [network_configure_net(m, STOP, NULL)] followed by
    [network_set_mode(m, STOP, NULL)]. *)
Definition stop_mode (m : Z) : Mw unit :=
  network_configure_net m STOP None ;;
  network_set_mode m STOP.

(** Stops and frees the access-point timer and clears its flag. *)
Definition free_ap_timer : Mw unit :=
  id <- get (fun g => wifi_ap_timeout (net g)) ;;
  eloop_timer_stop id ;;
  eloop_timer_delete id ;;
  put_ctrl (set_g_ap_timeout_flag 0).

Definition netmanager_start_wifi_scan : Mw Z :=
  mode <- get_network_mode ;;
  when (mode &? WIFI_AP)
    (stop_mode WIFI_AP ;; upd (put_wifi_state WIFI_AP_CLOSE)) ;;
  wifi_hal_start_station ;;
  wifi_clear_scan_results ;;
  id <- get (fun g => NetEnv.wifi_scan (net g)) ;;
  eloop_timer_stop id ;;
  eloop_timer_start id ;;
  upd (put_wifi_state WIFI_STATION_PRE_JOIN) ;;
  netmanger_response_command COMMAND_OK eREASON_NONE ;;
  ret 0.

Definition netmanager_stop_wifi_scan : Mw Z :=
  id <- get (fun g => NetEnv.wifi_scan (net g)) ;;
  eloop_timer_stop id ;;
  netmanger_response_command COMMAND_OK eREASON_NONE ;;
  ret 0.

(** The [else] branch of [netmanager_start_wifi_station]: joined. *)
Definition station_joined : Mw unit :=
  network_set_mode WIFI START ;;
  id <- get (fun g => NetEnv.wifi_scan (net g)) ;;
  eloop_timer_stop id ;;
  upd (put_wifi_state WIFI_STATION_CONNECTED) ;;
  n <- get g_wifi_network ;;
  upd (put_wpa_network_id (nw_id n)) ;;
  when (0 <=? nw_id n) (upd (put_p_ssid (strncpy 36 (nw_ssid n)))).

(** From the call of [network_configure_net] on: the state and the reason. *)
Definition station_connect (info : mode_info) : Mw (Z * Z) :=
  '(r, i) <- network_configure_net WIFI START (Some info) ;;
  (if negb (r =? 0) then
     upd (put_wifi_state WIFI_STATION_UNCONNECTED) ;;
     ret (COMMAND_NOK, match i with Some i => mi_reason i | None => 0 end)
   else station_joined ;; ret (COMMAND_OK, eREASON_NONE)).

(** Returns -1 on every path, as [iret] is never set to 0. *)
Definition netmanager_start_wifi_station (base : option jobj) : Mw Z :=
  mode <- get_network_mode ;;
  when (mode &? WIFI_AP)
    (f <- get (fun g => g_ap_timeout_flag (ctrl g)) ;;
     when (f =? 1) free_ap_timer ;;
     stop_mode WIFI_AP ;;
     upd (put_wifi_state WIFI_AP_CLOSE)) ;;
  upd (put_wifi_state WIFI_STATION_JOINING) ;;
  let '(r, info) := get_wifi_station_info base zero_info in
  if negb (r =? 0) then
    netmanger_response_command COMMAND_NOK eREASON_COMMAND_FORMAT_ERROR ;; ret (-1)
  else
    '(state, reason) <- station_connect info ;;
    wifi_enable_all_network ;;
    netmanger_response_command state reason ;;
    ret (-1).

Definition netmanager_stop_wifi_station : Mw Z :=
  upd (put_wifi_state WIFI_STATE_CLOSE) ;;
  id <- get (fun g => NetEnv.wifi_scan (net g)) ;;
  eloop_timer_stop id ;;
  stop_mode WIFI ;;
  netmanger_response_command COMMAND_OK eREASON_NONE ;;
  ret 0.

Definition scan_item (a : wifi_scan_res) : json :=
  JObj [("SSID", JStr (ssid a)); ("SIGNAL", JInt (sig a))].

(** Up to [network_ipc_return]: fills [item[32]] and answers. *)
Definition answer_scan_result : Mw (list wifi_scan_res) :=
  '(_, l) <- wifi_get_scan_result ;;
  if 32 <? Z.of_nat (List.length l) then stop BufferOverflow
  else
    network_ipc_return (JObj [("result", JStr "OK"); ("wifilist", JArr (map scan_item l))]) ;;
    ret l.

(** The items belong to the array since [json_object_array_add]; the loop
    frees each one and [json_object_put(root)] then releases it again. *)
Definition netmanager_get_wifi_scan_result : Mw Z :=
  l <- answer_scan_result ;;
  match l with
  | [] => ret 0
  | _ => stop UseAfterFree
  end.

(** The callback of the access-point timer. *)
Definition wifi_change_to_station : Mw unit :=
  upd (put_wifi_state WIFI_AP_CLOSE) ;;
  stop_mode WIFI_AP ;;
  wifi_hal_start_station ;;
  wifi_start_monitor ;;
  free_ap_timer.

(** [if (mode & WIFI_AP)] of [netmanager_start_wifi_ap] and
    [netmanager_remove_network]. *)
Definition leave_ap (running : Z -> bool) : Mw unit :=
  stop_mode WIFI_AP ;;
  upd (put_wifi_state WIFI_AP_CLOSE) ;;
  f <- get (fun g => g_ap_timeout_flag (ctrl g)) ;;
  when (running f) free_ap_timer.

(** The call of [network_configure_net]: the state, the reason and [*p_info]. *)
Definition ap_connect (info : mode_info) : Mw (Z * Z * mode_info) :=
  '(r, i) <- network_configure_net WIFI_AP START (Some info) ;;
  let i := match i with Some i => i | None => info end in
  if negb (r =? 0) then
    upd (put_wifi_state WIFI_AP_UNCONNECTED) ;;
    ret (COMMAND_NOK, mi_reason i, i)
  else
    upd (put_wifi_state WIFI_AP_CONNECTED) ;;
    put_ctrl (set_g_ap_info i) ;;
    network_set_mode WIFI_AP START ;;
    ret (COMMAND_OK, eREASON_NONE, i).

(** [if (p_info->timeout > 0 && g_ap_timeout_flag == 0)] *)
Definition start_ap_timer (timeout : Z) : Mw unit :=
  f <- get (fun g => g_ap_timeout_flag (ctrl g)) ;;
  when ((0 <? timeout) && (f =? 0))
    (id <- eloop_timer_add "wifi_change_to_station" timeout 0 ;;
     upd (put_wifi_ap_timeout id) ;;
     eloop_timer_start id ;;
     put_ctrl (set_g_ap_timeout_flag 1)).

Definition netmanager_start_wifi_ap (base : option jobj) : Mw Z :=
  mode <- get_network_mode ;;
  id <- get (fun g => NetEnv.wifi_scan (net g)) ;;
  eloop_timer_stop id ;;
  stop_mode WIFI ;;
  upd (put_wifi_state WIFI_STATE_CLOSE) ;;
  when (mode &? WIFI_AP) (leave_ap (fun f => negb (f =? 0))) ;;
  '(r, info) <- get_wifi_ap_info base zero_info ;;
  if negb (r =? 0) then
    netmanger_response_command COMMAND_NOK eREASON_COMMAND_FORMAT_ERROR ;; ret (-1)
  else
    '(state, reason, info) <- ap_connect info ;;
    start_ap_timer (mi_timeout info) ;;
    netmanger_response_command state reason ;;
    ret 0.

Definition netmanager_stop_wifi_ap : Mw Z :=
  upd (put_wifi_state WIFI_AP_CLOSE) ;;
  stop_mode WIFI_AP ;;
  f <- get (fun g => g_ap_timeout_flag (ctrl g)) ;;
  when (negb (f =? 0)) free_ap_timer ;;
  netmanger_response_command COMMAND_OK eREASON_NONE ;;
  ret 0.

(** ** Modem and Ethernet *)

(** [network_configure_net(m, START, p_info)] with the local [info], of which
    only the reason, written by the call, is read. *)
Definition start_local (m : Z) : Mw (Z * Z) :=
  '(r, i) <- network_configure_net m START (Some zero_info) ;;
  ret (r, match i with Some i => mi_reason i | None => 0 end).

(** The restart of the access point in [netmanager_start_modem]; the state
    and the reason so far are replaced on failure. *)
Definition restart_ap (state reason : Z) : Mw (Z * Z) :=
  info <- get (fun g => g_ap_info (ctrl g)) ;;
  '(r, i) <- network_configure_net WIFI_AP START (Some info) ;;
  let i := match i with Some i => i | None => info end in
  put_ctrl (set_g_ap_info i) ;;
  if negb (r =? 0) then network_set_mode WIFI_AP STOP ;; ret (COMMAND_NOK, mi_reason i)
  else upd (put_wifi_state WIFI_AP_CONNECTED) ;; ret (state, reason).

(** Between the stop and the restart of the access point. *)
Definition start_modem_device (mode : Z) : Mw (Z * Z) :=
  when (mode &? MODEM)
    (stop_mode MODEM ;; upd (put_modem_state MODEM_UNCONNECTED)) ;;
  '(r, reason) <- start_local MODEM ;;
  if negb (r =? 0) then
    upd (put_modem_state MODEM_UNCONNECTED) ;; ret (COMMAND_NOK, reason)
  else
    upd (put_modem_state MODEM_CONNECTED) ;;
    network_set_mode MODEM START ;;
    ret (COMMAND_OK, eREASON_NONE).

Definition netmanager_start_modem : Mw Z :=
  mode <- get_network_mode ;;
  when (mode &? WIFI_AP)
    (network_configure_net WIFI_AP STOP None ;;
     upd (put_wifi_state WIFI_AP_CLOSE)) ;;
  '(state, reason) <- start_modem_device mode ;;
  '(state, reason) <- (if mode &? WIFI_AP then restart_ap state reason else ret (state, reason)) ;;
  netmanger_response_command state reason ;;
  ret 0.

Definition netmanager_stop_modem : Mw Z :=
  network_configure_net MODEM STOP None ;;
  upd (put_modem_state MODEM_UNCONNECTED) ;;
  network_set_mode MODEM STOP ;;
  netmanger_response_command COMMAND_OK eREASON_NONE ;;
  ret 0.

Definition netmanager_start_etherent : Mw Z :=
  mode <- get_network_mode ;;
  when (mode &? ETHERENT)
    (stop_mode ETHERENT ;; upd (put_etherent_state ETHERENT_UNCONNECTED)) ;;
  '(r, reason) <- start_local ETHERENT ;;
  '(state, reason) <-
    (if negb (r =? 0) then ret (COMMAND_NOK, reason)
     else
       upd (put_etherent_state ETHERENT_CONNECTED) ;;
       network_set_mode ETHERENT START ;;
       ret (COMMAND_OK, eREASON_NONE)) ;;
  netmanger_response_command state reason ;;
  ret 0.

Definition netmanager_stop_etherent : Mw Z :=
  network_set_mode ETHERENT STOP ;;
  network_configure_net ETHERENT STOP None ;;
  upd (put_etherent_state ETHERENT_UNCONNECTED) ;;
  netmanger_response_command COMMAND_OK eREASON_NONE ;;
  ret 0.

Definition netmanager_get_network_status : Mw Z := monitor_respond_status.
Definition netmanager_get_wifi_status : Mw Z := wifi_respond_status.
Definition netmanager_get_modem_status : Mw Z := modem_respond_status.
Definition netmanager_get_etherent_status : Mw Z := etherent_respond_status.

(** ** Stored networks *)

Definition netmanager_get_config_network : Mw Z :=
  b <- is_wifi_configured ;;
  network_ipc_return (JObj [("wifi_config", JInt (if (b : bool) then 1 else 0))]) ;;
  ret 0.

Definition netmanager_save_config_network : Mw Z :=
  r <- wifi_save_network ;;
  respond_code r ;;
  ret 0.

(** The reply is received into [len] bytes of [wifi_reply]. *)
Definition wpa_sync_send_command (command : string) (len : nat) : Mw (Z * string) :=
  opened <- exec (WpaCtrlOpen WIFI_WPA_CTRL_PATH) ;;
  if negb opened then ret (-1, "")
  else
    answer <- exec (WpaCtrlRequest command) ;;
    exec_ WpaCtrlClose ;;
    ret (match answer with
         | Some r => (0, substring 0 len r)
         | None => (-1, "")
         end).

(** [(c = strstr(line, ssid)) != NULL && *(c + strlen(ssid)) == '\t'] *)
Definition line_names (ssid line : string) : bool :=
  match strstr line ssid with
  | None => false
  | Some c => match deref (advance (String.length ssid) c) with
              | Some t => Ascii.eqb t TAB
              | None => false
              end
  end.

(** The loop over the lines of the list: the ids to remove, in order.  The
    removals themselves do not read the buffer. *)
Definition ids_to_remove (ssid reply : string) : option (loop_end (list Z) fault) :=
  for_lines 512 1 reply
    (fun line ids => if line_names ssid line then Next (ids ++ [atoi line])%list else Next ids) [].

Definition remove_listed (ssid reply : string) : Mw unit :=
  match ids_to_remove ssid reply with
  | Some (Done ids) =>
      for_each ids (fun id => wifi_remove_network id ;; ret tt) ;;
      when (match ids with [] => false | _ => true end) (wifi_save_network ;; ret tt)
  | Some (Broke f) => stop f
  | Some Overflowed => stop BufferOverflow
  | None => stop Hang
  end.

(** The local [info] is not zeroed: an ssid of 63 bytes or more is copied
    without its NUL, and the comparison reads on. *)
Definition netmanager_remove_network (base : option jobj) : Mw Z :=
  mode <- get_network_mode ;;
  when (mode &? WIFI_AP) (leave_ap (fun f => f =? 1)) ;;
  wifi_hal_start_station ;;
  let '(r, info) := get_wifi_station_info base zero_info in
  if negb (r =? 0) then
    netmanger_response_command COMMAND_NOK eREASON_COMMAND_FORMAT_ERROR ;; ret (-1)
  else
    '(r, reply) <- wpa_sync_send_command "LIST_NETWORKS" 100 ;;
    (if r =? 0 then
       if (63 <=? strlen (mi_ssid info)) && (1 <? Z.of_nat (List.length (lines reply)))
       then stop UninitRead
       else
         remove_listed (mi_ssid info) reply ;;
         netmanger_response_command COMMAND_OK eREASON_NONE
     else netmanger_response_command COMMAND_NOK eREASON_COMMAND_FORMAT_ERROR) ;;
    ret 0.

Definition netmanager_enable_all_network : Mw Z :=
  r <- wifi_enable_all_network ;;
  respond_code r ;;
  ret 0.

Definition netmanager_disable_all_network : Mw Z :=
  r <- wifi_disable_all_network ;;
  respond_code r ;;
  ret 0.

Definition netmanager_reset_dns : Mw Z :=
  r <- exec ResInit ;;
  respond_code r ;;
  ret 0.

Definition netmanager_remove_all_network : Mw Z :=
  r <- wifi_remove_all_network ;;
  when (r =? 0) (wifi_save_network ;; ret tt) ;;
  respond_code r ;;
  ret 0.

(** ** Dispatch *)

(** The rows of [ctrl_cmd]: device, command and handler. *)
Definition ctrl_cmd : list (string * string * (option jobj -> Mw Z)) :=
  [("NETWORK", "GET_CAPACITY", fun _ => netmanager_get_net_capacity);
   ("NETWORK", "GET_MODE", fun _ => netmanager_get_net_mode);
   ("NETWORK", "TRIGGER_STATUS", fun _ => netmanager_report_all_status);
   ("WIFI", "START_SCAN", fun _ => netmanager_start_wifi_scan);
   ("WIFI", "STOP_SCAN", fun _ => netmanager_stop_wifi_scan);
   ("WIFI", "GET_WIFILIST", fun _ => netmanager_get_wifi_scan_result);
   ("WIFI", "CONNECT", netmanager_start_wifi_station);
   ("WIFI", "DISCONNECT", fun _ => netmanager_stop_wifi_station);
   ("WIFI_AP", "CONNECT", netmanager_start_wifi_ap);
   ("WIFI_AP", "DISCONNECT", fun _ => netmanager_stop_wifi_ap);
   ("MODEM", "CONNECT", fun _ => netmanager_start_modem);
   ("MODEM", "DISCONNECT", fun _ => netmanager_stop_modem);
   ("ETHERENT", "CONNECT", fun _ => netmanager_start_etherent);
   ("ETHERENT", "DISCONNECT", fun _ => netmanager_stop_etherent);
   ("NETWORK", "GET_STATUS", fun _ => netmanager_get_network_status);
   ("WIFI", "GET_STATUS", fun _ => netmanager_get_wifi_status);
   ("ETHERENT", "GET_STATUS", fun _ => netmanager_get_etherent_status);
   ("MODEM", "GET_STATUS", fun _ => netmanager_get_modem_status);
   ("WIFI", "GET_CFG_NUM", fun _ => netmanager_get_config_network);
   ("WIFI", "SAVE_CFG", fun _ => netmanager_save_config_network);
   ("WIFI", "REMOVE", netmanager_remove_network);
   ("WIFI", "ENABLE", fun _ => netmanager_enable_all_network);
   ("WIFI", "DISABLE", fun _ => netmanager_disable_all_network);
   ("NETWORK", "RESET_DNS", fun _ => netmanager_reset_dns);
   ("WIFI", "REMOVE_ALL", fun _ => netmanager_remove_all_network)].

Definition CMD_MAX_LEN : nat := 64.

(** Outer [None]: return -1.  A JSON [null] gives a NULL string, which
    [strncpy] reads. *)
Definition get_cmd_str (base : option jobj) : Mw (option (string * string)) :=
  match json_object_object_get_ex base "device", json_object_object_get_ex base "command" with
  | Some device, Some command =>
      match json_object_get_string device, json_object_get_string command with
      | Some d, Some c => ret (Some (strncpy (CMD_MAX_LEN - 1) d, strncpy (CMD_MAX_LEN - 1) c))
      | _, _ => stop NullDeref
      end
  | _, _ => ret None
  end.

Fixpoint cmd_idx_loop (device command : string)
    (rows : list (string * string * (option jobj -> Mw Z))) (i : nat) : option nat :=
  match rows with
  | [] => None
  | (d, c, _) :: rows' =>
      if String.eqb d device && String.eqb c command then Some i
      else cmd_idx_loop device command rows' (S i)
  end.

Definition get_ctrl_cmd_idx (cmd : string * string) : option nat :=
  cmd_idx_loop (fst cmd) (snd cmd) ctrl_cmd 0.

Definition handle_net_command (buf : string) : Mw unit :=
  let obj := json_tokener_parse buf in
  cmd <- get_cmd_str obj ;;
  match cmd with
  | None => netmanger_response_command COMMAND_NOK eREASON_COMMAND_FORMAT_ERROR ;; ret tt
  | Some cmd =>
      match get_ctrl_cmd_idx cmd with
      | None => netmanger_response_command COMMAND_NOK eREASON_COMMAND_FORMAT_ERROR ;; ret tt
      | Some idx =>
          match nth_error ctrl_cmd idx with
          | Some (_, _, respond_func) => respond_func obj ;; ret tt
          | None => stop OutOfBounds
          end
      end
  end.
End Ctrl.
