(* ===== verification/NetMain.v ===== *)
(** * main.c and ipc/: start-up and shut-down of the manager *)

From Stdlib Require Import ZArith List Bool Lia Ascii String.
From S2P Require Import Prelude CString CMonad Json NetEnv WpaCommand Eloop Hal Report WifiEvent LinkEvent.
From S2P Require Import NetSwitch NetCtrl.
Import ListNotations.
Import Modem Etherent Monitor.
Open Scope string_scope.
Open Scope Z_scope.

(** [memset(p_net, 0, sizeof(struct network_service))] *)
Definition zero_service : network_service :=
  mk_network_service 0 0 0 0 0 "" WIFI_STATE_CLOSE WIFI_STATE_CLOSE WIFI_STATE_CLOSE.

(** The globals before [main]; the first timer gets id 1. *)
Definition init_globals : globals :=
  mk_globals zero_service
    (mk_hal_state 0 0 0 0)
    (mk_wifi_ev (mk_tWIFI_STATUS 0 0) zero_result 0 0 1 0 false 0 false)
    (mk_modem_ev (mk_tMODEM_STATUS 0 0 0) 0 0)
    (mk_eth_ev 0 0)
    (mk_net_mon 0 0)
    (mk_net_mode 0 0)
    (mk_net_ctrl zero_info 0)
    (mk_net_sched 0 WIFI_SWITCH_LIMIT_SIGNAL WIFI_ROAM_LIMIT_SIGNAL 0 0 REPORT_UNCONNECT)
    [] 1 0
    (mk_wifi_network 0 "" "" 0).

Section Main.
Context {X : Type} {E : Env X} {F : Fuel}.
Local Notation Mw := (M (world X)).

Definition network_flora_init : Mw Z := exec_ FloraAgentStart ;; ret 0.
Definition network_flora_exit : Mw unit := exec_ FloraAgentClose.

Definition network_ipc_init : Mw Z :=
  r <- network_flora_init ;;
  ret (if r <? 0 then -1 else 0).
Definition network_ipc_exit : Mw unit := network_flora_exit.

(** Returns [nm_log_level]. *)
Definition nm_set_bug_level (nm_log_level : Z) : Mw Z :=
  '(_, value) <- property_get 64 "persist.rokid.debug.netmanager" (Some "0") ;;
  ret (if 0 <? atoi value then atoi value else nm_log_level).

Definition add_capacity (c : Z) : Mw unit :=
  upd (fun g => set_g_capacity (Z.lor (g_capacity g) c) g).

Definition put_net (f : network_service -> network_service) : Mw unit :=
  upd (fun g => set_net (f (net g)) g).

Definition network_parm_init : Mw Z :=
  put_net (fun _ => zero_service) ;;
  put_net (set_wpa_network_id (-1)) ;;
  put_net (set_modem_state MODEM_UNCONNECTED) ;;
  put_net (set_etherent_state ETHERENT_UNCONNECTED) ;;
  put_net (set_wifi_state WIFI_STATION_UNCONNECTED) ;;
  scan <- eloop_timer_add "wifi_trigger_scan" (1 * 1000) (5 * 1000) ;;
  put_net (set_wifi_scan scan) ;;
  connect <- eloop_timer_add "wifi_connecting_network" 10 0 ;;
  put_net (set_wifi_connect connect) ;;
  monitor <- eloop_timer_add "modem_event_monitor" 100 (5 * 1000) ;;
  put_net (set_modem_monitor monitor) ;;
  network_start_monitor ;;
  ret 0.

(** The HALs: returns [wifi_hal_flag], [modem_hal_flag] and
    [etherent_hal_flag]. *)
Definition init_hals : Mw (Z * Z * Z) :=
  w <- wifi_hal_init ;;
  when (w =? 0) (c <- get_wifi_capacity ;; add_capacity c) ;;
  m <- modem_hal_init ;;
  if m =? 0 then
    c <- get_modem_capacity ;; add_capacity c ;;
    ret (if w =? 0 then 1 else 0, 1, 0)
  else
    e <- etherent_hal_init ;;
    when (e =? 0) (c <- get_etherent_capacity ;; add_capacity c) ;;
    ret (if w =? 0 then 1 else 0, 0, if e =? 0 then 1 else 0).

(** [main] up to [eloop_run]: the flags of the HALs, or [None] when it
    returns early.  [eloop_init] is taken to succeed. *)
Definition main_init (nm_log_level : Z) : Mw (option (Z * Z * Z)) :=
  nm_set_bug_level nm_log_level ;;
  r <- network_ipc_init ;;
  if r <? 0 then ret None
  else
    flags <- init_hals ;;
    r <- network_parm_init ;;
    if r <? 0 then ret None
    else
      network_set_initmode ;;
      ret (Some flags).

(** [main] after [eloop_run]. *)
Definition main_exit (flags : Z * Z * Z) : Mw Z :=
  let '(wifi_hal_flag, modem_hal_flag, etherent_hal_flag) := flags in
  when (negb (etherent_hal_flag =? 0)) etherent_hal_exit ;;
  when (negb (modem_hal_flag =? 0)) modem_hal_exit ;;
  when (negb (wifi_hal_flag =? 0)) wifi_hal_exit ;;
  network_ipc_exit ;;
  ret 0.
End Main.
