(* ===== verification/NetSpec.v ===== *)
(** * The abstract state of the manager and its logic

    What a command is about: the mode word, the start flags of the devices,
    the access-point timer and the replies sent.  [spec s m q] is a triple over
    this abstraction: from any concrete state whose abstraction is [s], every
    result of [m] satisfies [q], whatever the environment answers and the other
    threads do meanwhile. *)

From Stdlib Require Import ZArith List Bool Lia Ascii String.
From S2P Require Import Prelude CString CMonad Json NetEnv ScanList WpaCommand Eloop Hal Report WifiEvent.
From S2P Require Import LinkEvent NetSwitch.
Import ListNotations.
Import Modem Etherent Monitor.
Open Scope string_scope.
Open Scope Z_scope.

(** ** Abstract states *)

Record abs := mk_abs {
  a_mode : Z;             (* g_network_mode *)
  a_sta : Z;              (* g_start_station_flag *)
  a_ap : Z;               (* g_start_ap_flag *)
  a_modem : Z;            (* g_start_modem_flag *)
  a_eth : Z;              (* g_start_etherent_flag *)
  a_tmo : Z;              (* g_ap_timeout_flag *)
  a_tid : Z;              (* p_net->wifi_ap_timeout *)
  a_ids : list Z;         (* the timers that are allocated *)
  a_next : Z;             (* the next timer id *)
  a_replies : list json   (* replies sent, the latest first *)
}.

Definition replies (l : list call) : list json :=
  flat_map (fun c => match c with FloraReply j => [j] | _ => [] end) l.

Definition abst (g : globals) (l : list call) : abs :=
  mk_abs (g_network_mode (nmode g)) (g_start_station_flag (hal g)) (g_start_ap_flag (hal g))
    (g_start_modem_flag (hal g)) (g_start_etherent_flag (hal g)) (g_ap_timeout_flag (ctrl g))
    (wifi_ap_timeout (net g)) (map fst (timers g)) (next_timer g) (replies l).

Definition set_a_mode v s := mk_abs v (a_sta s) (a_ap s) (a_modem s) (a_eth s) (a_tmo s) (a_tid s) (a_ids s) (a_next s) (a_replies s).
Definition set_a_sta v s := mk_abs (a_mode s) v (a_ap s) (a_modem s) (a_eth s) (a_tmo s) (a_tid s) (a_ids s) (a_next s) (a_replies s).
Definition set_a_ap v s := mk_abs (a_mode s) (a_sta s) v (a_modem s) (a_eth s) (a_tmo s) (a_tid s) (a_ids s) (a_next s) (a_replies s).
Definition set_a_modem v s := mk_abs (a_mode s) (a_sta s) (a_ap s) v (a_eth s) (a_tmo s) (a_tid s) (a_ids s) (a_next s) (a_replies s).
Definition set_a_eth v s := mk_abs (a_mode s) (a_sta s) (a_ap s) (a_modem s) v (a_tmo s) (a_tid s) (a_ids s) (a_next s) (a_replies s).
Definition set_a_timer tmo tid ids next s := mk_abs (a_mode s) (a_sta s) (a_ap s) (a_modem s) (a_eth s) tmo tid ids next (a_replies s).
Definition set_a_replies v s := mk_abs (a_mode s) (a_sta s) (a_ap s) (a_modem s) (a_eth s) (a_tmo s) (a_tid s) (a_ids s) (a_next s) v.

(** A device flag after a start and after a stop. *)
Definition raise (f : Z) : Z := if f =? 0 then 1 else f.
Definition lower (f : Z) : Z := if f =? 1 then 0 else f.

(** Every reported state indexes the table [net_status]. *)
Definition state01 (z : Z) : Prop := z = 0 \/ z = 1.

Definition st_ok (g : globals) : Prop :=
  state01 (ws_state (g_wifi_status (wev g))) /\ state01 (ms_state (g_modem_status (mev g))) /\
  state01 (g_etherent_status (eev g)) /\ state01 (g_network_status (mon g)).

(** Views that read the state through the abstraction, the reported states
    being valid. *)
Definition av (p : abs -> Prop) : view := fun g l => st_ok g /\ p (abst g l).

Lemma state_or_01 new old : state_or new old -> state01 old -> state01 new.
Proof. intros [->|[->| ->]]; unfold state01; auto. Qed.

#[export] Instance av_wev p : KeepsWev (av p).
Proof. intros v g l Hs [(H1 & H2) Hp]. split; [split; [eapply state_or_01; eassumption|exact H2]|exact Hp]. Qed.

#[export] Instance av_mev p : KeepsMev (av p).
Proof. intros v g l Hs [(H1 & H2 & H3) Hp]. split; [repeat split; try tauto; eapply state_or_01; eassumption|exact Hp]. Qed.

#[export] Instance av_eev p : KeepsEev (av p).
Proof. intros v g l Hs [(H1 & H2 & H3 & H4) Hp]. split; [repeat split; try tauto; eapply state_or_01; eassumption|exact Hp]. Qed.

#[export] Instance av_mon p : KeepsMon (av p).
Proof. intros v g l Hs [(H1 & H2 & H3 & H4) Hp]. split; [repeat split; try tauto; eapply state_or_01; eassumption|exact Hp]. Qed.

Lemma update_timer_ids (id : Z) f l : map fst (update_timer id f l) = map fst l.
Proof. induction l as [|[i t] l IH]; cbn; [reflexivity|]. destruct (i =? id); cbn; congruence. Qed.

#[export] Instance av_arm_timer p : Ignores arm_timer (av p).
Proof.
  intros v g l [Hs H]. split; [exact Hs|].
  unfold abst, arm_timer in *. cbn in *. rewrite update_timer_ids. exact H.
Qed.

#[export] Instance av_quiet p : Quiet (av p).
Proof. intros [] g l Hc H; (discriminate Hc || exact H). Qed.

Section Spec.
Context {X : Type} {E : Env X} {F : Fuel}.
Local Notation Mw := (M (world X)).

Definition absw (w : world X) : abs := abst (wg w) (wlog w).

Definition spec (s : abs) {A} (m : Mw A) (q : A -> abs -> Prop) : Prop :=
  forall w, st_ok (wg w) -> absw w = s ->
    match m w with Ret a w' => st_ok (wg w') /\ q a (absw w') | Fault _ => True end.

Lemma spec_ret s {A} (a : A) (q : A -> abs -> Prop) : q a s -> spec s (ret a) q.
Proof. intros H w Hs Hw. cbn. rewrite Hw. auto. Qed.

Lemma spec_stop s {A} f (q : A -> abs -> Prop) : spec s (stop f) q.
Proof. intros w _ _. exact Logic.I. Qed.

Lemma spec_bind s {A B} (m : Mw A) (k : A -> Mw B) (r : A -> abs -> Prop) (q : B -> abs -> Prop) :
  spec s m r -> (forall a s', r a s' -> spec s' (k a) q) -> spec s (bind m k) q.
Proof.
  intros Hm Hk w Hs Hw. unfold bind. specialize (Hm w Hs Hw).
  destruct (m w) as [a w'|f]; [|exact Logic.I].
  destruct Hm as [Hs' Hr]. exact (Hk a _ Hr w' Hs' eq_refl).
Qed.

Lemma spec_assoc s {A B C} (m : Mw A) (f : A -> Mw B) (k : B -> Mw C) (q : C -> abs -> Prop) :
  spec s (a <- m ;; b <- f a ;; k b) q -> spec s (b <- (a <- m ;; f a) ;; k b) q.
Proof. intros H w Hs Hw. specialize (H w Hs Hw). unfold bind in *. destruct (m w); exact H. Qed.

Lemma spec_bind_ret s {A B} (a : A) (k : A -> Mw B) (q : B -> abs -> Prop) :
  spec s (k a) q -> spec s (b <- ret a ;; k b) q.
Proof. exact (fun H => H). Qed.

Lemma spec_mono s {A} (m : Mw A) (r q : A -> abs -> Prop) :
  spec s m r -> (forall a s', r a s' -> q a s') -> spec s m q.
Proof.
  intros Hm H w Hs Hw. specialize (Hm w Hs Hw). destruct (m w); [|exact Logic.I].
  destruct Hm; auto.
Qed.

Lemma spec_keeps s {A} (m : Mw A) :
  (forall p, keepsg (av p) m) -> spec s m (fun _ s' => s' = s).
Proof. intros H w Hs Hw. exact (H (fun s' => s' = s) w (conj Hs Hw)). Qed.

(** A stuttering operation in front of a continuation. *)
Lemma spec_skip s {A B} (m : Mw A) (k : A -> Mw B) (q : B -> abs -> Prop) :
  (forall p, keepsg (av p) m) -> (forall a, spec s (k a) q) -> spec s (bind m k) q.
Proof. intros Hm Hk. eapply spec_bind; [apply spec_keeps, Hm|]. intros a s' ->. apply Hk. Qed.

Lemma spec_when s (b : bool) (m : Mw unit) (q : unit -> abs -> Prop) :
  (b = true -> spec s m q) -> (b = false -> q tt s) -> spec s (when b m) q.
Proof. intros H1 H2. destruct b; [apply H1; reflexivity|apply spec_ret, H2; reflexivity]. Qed.

(** A read of the abstract state, and an update described on it. *)
Lemma spec_get s {A} (f : globals -> A) (f' : abs -> A) :
  (forall g l, f g = f' (abst g l)) -> spec s (get f) (fun a s' => s' = s /\ a = f' s).
Proof. intros H w Hs Hw. cbn. rewrite <- Hw. repeat split; try apply Hs. apply H. Qed.

(** A read of a value the reported states constrain. *)
Lemma spec_get_st s {A} (f : globals -> A) (P : A -> Prop) :
  (forall g, st_ok g -> P (f g)) -> spec s (get f) (fun a s' => s' = s /\ P a).
Proof. intros H w Hs Hw. cbn. auto. Qed.

Lemma spec_upd s (f : globals -> globals) (f' : abs -> abs) :
  (forall g, st_ok g -> st_ok (f g)) ->
  (forall g l, abst (f g) l = f' (abst g l)) -> spec s (upd f) (fun _ s' => s' = f' s).
Proof. intros H1 H2 w Hs Hw. cbn. unfold absw in *. cbn. rewrite H2, Hw. auto. Qed.

Lemma spec_reply s j : spec s (network_ipc_return j) (fun _ s' => s' = set_a_replies (j :: a_replies s) s).
Proof.
  intros w Hs Hw. unfold network_ipc_return, exec_, exec, bind, ret.
  destruct (ext (FloraReply j) (wx w)) as [? x]. subst s. split; [exact Hs|reflexivity].
Qed.
End Spec.

Create HintDb spec.

(** One step of symbolic execution.  A bound operation is closed by its
    [spec] lemma or, when it does not touch the abstraction, by its footprint. *)
Ltac spec_leaf := solve [eauto with spec nocore].
Ltac spec_intro :=
  intros; lazy beta in *;
  repeat match goal with
  | H : exists _, _ |- _ => destruct H
  | H : _ /\ _ |- _ => destruct H
  | H : ?x = _ |- _ => is_var x; subst x
  end.
Ltac spec_step :=
  lazymatch goal with
  | |- spec _ (ret _) _ => apply spec_ret
  | |- spec _ (stop _) _ => apply spec_stop
  | |- spec _ (when _ _) _ => apply spec_when; intros ?
  | |- spec _ (bind (stop _) _) _ => apply spec_stop
  | |- spec _ (bind (ret _) _) _ => apply spec_bind_ret
  | |- spec _ (bind _ _) _ =>
      first [eapply spec_bind; [spec_leaf|spec_intro]
            |apply spec_skip; [intros ?; solve [keepsg_deep]|intros ?]
            |apply spec_assoc
            |match goal with |- spec _ (bind (match ?x with _ => _ end) _) _ => destruct x eqn:? end]
  | |- spec _ (if ?b then _ else _) _ => destruct b eqn:?
  | |- spec _ (let (_, _) := ?x in _) _ => destruct x
  | |- spec _ (match ?x with _ => _ end) _ => destruct x eqn:?
  end.

(** ** Devices and modes *)

Section Devices.
Context {X : Type} {E : Env X} {F : Fuel}.
Local Notation Mw := (M (world X)).

Ltac read_abs f := eapply spec_bind; [apply (spec_get _ _ f); reflexivity|intros ? ? [-> ->]].
Ltac write_abs f := eapply spec_bind; [apply (spec_upd _ _ f); [exact (fun g H => H)|reflexivity]|intros ? ? ->].
Ltac quiet_rest := repeat (apply spec_skip; [intros ?; solve [keepsg]|intros ?]).

Lemma start_station_spec s : spec (X := X) s wifi_hal_start_station
  (fun _ s' => s' = set_a_sta (raise (a_sta s)) s).
Proof.
  unfold wifi_hal_start_station, put_hal. read_abs a_sta. unfold raise.
  destruct (a_sta s =? 0) eqn:Heqb; [|apply spec_ret; now destruct s].
  write_abs (set_a_sta 1). quiet_rest. apply spec_ret; now destruct s.
Qed.

Lemma stop_station_spec s : spec (X := X) s wifi_hal_stop_station
  (fun _ s' => s' = set_a_sta 0 s).
Proof.
  unfold wifi_hal_stop_station, put_hal. read_abs a_sta. apply spec_when; intros Heqb.
  - quiet_rest. apply (spec_upd _ _ (set_a_sta 0)); [exact (fun g H => H)|reflexivity].
  - bool_hyps. destruct s; cbn in *. now subst.
Qed.

Lemma start_ap_spec s n p i : spec (X := X) s (wifi_hal_start_ap n p i)
  (fun _ s' => s' = set_a_ap (raise (a_ap s)) s).
Proof.
  unfold wifi_hal_start_ap, put_hal. read_abs a_ap. unfold raise.
  destruct (a_ap s =? 0) eqn:Heqb; [|apply spec_ret; now destruct s].
  write_abs (set_a_ap 1). quiet_rest.
  eapply spec_mono; [apply spec_keeps; intros; keepsg|]. intros ? ? ->. reflexivity.
Qed.

Lemma stop_ap_spec s : spec (X := X) s wifi_hal_stop_ap (fun _ s' => s' = set_a_ap 0 s).
Proof.
  unfold wifi_hal_stop_ap, put_hal. read_abs a_ap. apply spec_when; intros Heqb.
  - write_abs (set_a_ap 0). quiet_rest. apply spec_keeps; intros; keepsg.
  - bool_hyps. destruct s; cbn in *. now subst.
Qed.

Lemma start_modem_spec s : spec (X := X) s modem_hal_start_modem
  (fun _ s' => s' = set_a_modem (raise (a_modem s)) s).
Proof.
  unfold modem_hal_start_modem, put_hal. read_abs a_modem. unfold raise.
  destruct (a_modem s =? 0) eqn:Heqb; [|apply spec_ret; now destruct s].
  write_abs (set_a_modem 1). quiet_rest. apply spec_ret; now destruct s.
Qed.

Lemma stop_modem_spec s : spec (X := X) s modem_hal_stop_modem
  (fun _ s' => s' = set_a_modem (lower (a_modem s)) s).
Proof.
  unfold modem_hal_stop_modem, put_hal, lower. read_abs a_modem. apply spec_when; intros Heqb; rewrite Heqb.
  - quiet_rest. apply (spec_upd _ _ (set_a_modem 0)); [exact (fun g H => H)|reflexivity].
  - now destruct s.
Qed.

Lemma start_eth_spec s : spec (X := X) s etherent_hal_start_eth
  (fun _ s' => s' = set_a_eth (raise (a_eth s)) s).
Proof.
  unfold etherent_hal_start_eth, put_hal. read_abs a_eth. unfold raise.
  destruct (a_eth s =? 0) eqn:Heqb; [|apply spec_ret; now destruct s].
  write_abs (set_a_eth 1). quiet_rest. apply spec_ret; now destruct s.
Qed.

Lemma stop_eth_spec s : spec (X := X) s etherent_hal_stop_eth
  (fun _ s' => s' = set_a_eth (lower (a_eth s)) s).
Proof.
  unfold etherent_hal_stop_eth, put_hal, lower. read_abs a_eth. apply spec_when; intros Heqb; rewrite Heqb.
  - quiet_rest. apply (spec_upd _ _ (set_a_eth 0)); [exact (fun g H => H)|reflexivity].
  - now destruct s.
Qed.

Lemma read_mode_spec s : spec (X := X) s get_network_mode (fun a s' => s' = s /\ a = a_mode s).
Proof. apply (spec_get _ _ a_mode). reflexivity. Qed.

Lemma set_mode_spec s m st : spec (X := X) s (network_set_mode m st)
  (fun _ s' => s' = set_a_mode (next_mode m st (a_mode s)) s).
Proof. apply (spec_upd _ _ (fun s => set_a_mode (next_mode m st (a_mode s)) s)); [exact (fun g H => H)|reflexivity]. Qed.
End Devices.

#[export] Hint Resolve start_station_spec stop_station_spec start_ap_spec stop_ap_spec
  start_modem_spec stop_modem_spec start_eth_spec stop_eth_spec read_mode_spec set_mode_spec
  spec_reply : spec.

(** ** network_configure_net *)

(** The device flag a mode uses, after a start and after a stop. *)
Definition device_up (m : Z) (s : abs) : abs :=
  if m =? WIFI then set_a_sta (raise (a_sta s)) s
  else if m =? WIFI_AP then set_a_ap (raise (a_ap s)) s
  else if m =? MODEM then set_a_modem (raise (a_modem s)) s
  else if m =? ETHERENT then set_a_eth (raise (a_eth s)) s
  else s.

Definition device_down (m : Z) (s : abs) : abs :=
  if m =? WIFI then set_a_sta 0 s
  else if m =? WIFI_AP then set_a_ap 0 s
  else if m =? MODEM then set_a_modem (lower (a_modem s)) s
  else if m =? ETHERENT then set_a_eth (lower (a_eth s)) s
  else s.

(** ** Other threads

    While a command waits the monitor of the modem may run, and restart it. *)

Definition bounce (f : Z) : Z := raise (lower f).

Lemma bounce_idem f : bounce (bounce f) = bounce f.
Proof.
  unfold bounce, raise, lower. destruct (Z.eqb_spec f 1) as [->|H1]; [reflexivity|].
  destruct (Z.eqb_spec f 0) as [->|H0]; [reflexivity|].
  rewrite (proj2 (Z.eqb_neq f 1)), (proj2 (Z.eqb_neq f 0)) by assumption. reflexivity.
Qed.

Definition jolted (s s' : abs) : Prop := s' = s \/ s' = set_a_modem (bounce (a_modem s)) s.

Lemma jolted_refl s : jolted s s.
Proof. now left. Qed.

Lemma jolted_trans s1 s2 s3 : jolted s1 s2 -> jolted s2 s3 -> jolted s1 s3.
Proof.
  intros [-> | ->] [-> | ->]; unfold jolted; auto. right. cbn. now rewrite bounce_idem.
Qed.

Section Threads.
Context {X : Type} {E : Env X} {F : Fuel}.

Lemma modem_monitor_jolts s : spec (X := X) s modem_event_monitor (fun _ => jolted s).
Proof.
  unfold modem_event_monitor, put_mev, modem_hal_get_signal_strength, modem_hal_get_signal_type.
  repeat spec_step; auto using jolted_refl. now right.
Qed.

Lemma run_step_jolts s t : spec (X := X) s (run_step t) (fun _ => jolted s).
Proof.
  assert (H : t = StepModem \/ t <> StepModem) by (destruct t; auto; now right). destruct H as [->|H].
  - cbn [run_step]. unfold modem_timer_fires. do 2 (apply spec_skip; [intros; keepsg|intros ?]).
    apply spec_when; intros ?; [apply modem_monitor_jolts|apply jolted_refl].
  - eapply spec_mono; [apply spec_keeps; intros p; apply quiet_step_keeps; try typeclasses eauto; exact H|]. intros ? ? ->. apply jolted_refl.
Qed.

(** A computation that jolts after one that did. *)
Lemma jolted_after {A} s s' (m : M (world X) A) :
  jolted s s' -> spec s' m (fun _ => jolted s') -> spec s' m (fun _ => jolted s).
Proof. intros H Hm. eapply spec_mono; [exact Hm|]. intros ? ?. now apply jolted_trans. Qed.

Lemma steps_jolt l : forall s, spec (X := X) s (for_each l run_step) (fun _ => jolted s).
Proof.
  induction l as [|t l IH]; intros s; cbn [for_each]; [apply spec_ret, jolted_refl|].
  eapply spec_bind; [apply run_step_jolts|]. intros ? s1 H. eapply jolted_after; eauto.
Qed.

Lemma interleave_jolts s : spec (X := X) s interleave (fun _ => jolted s).
Proof. unfold interleave. apply spec_skip; [intros; keepsg|]. intros l. apply steps_jolt. Qed.

Lemma until_signal_jolts l : forall s, spec (X := X) s (run_until_signal l) (fun _ => jolted s).
Proof.
  induction l as [|t l IH]; intros s; cbn [run_until_signal]; [apply spec_ret, jolted_refl|].
  eapply spec_bind; [apply run_step_jolts|]. intros ? s1 H. apply spec_skip; [intros; keepsg|]. intros b.
  destruct b; [now apply spec_ret|]. eapply jolted_after; eauto.
Qed.

Lemma wait_open_jolts n : forall s, spec (X := X) s (wait_monitor_open n) (fun _ => jolted s).
Proof.
  induction n as [|[|n] IH]; intros s; try (apply spec_ret, jolted_refl).
  change (wait_monitor_open (S (S n))) with
    (open <- get (fun g => g_wifi_monitor_open (wev g)) ;;
     (if open =? 0 then exec_ (Sleep 1) ;; interleave ;; wait_monitor_open (S n) else ret tt : M (world X) unit)).
  apply spec_skip; [intros; keepsg|]. intros o. destruct (o =? 0); [|apply spec_ret, jolted_refl].
  apply spec_skip; [intros; keepsg|]. intros _. eapply spec_bind; [apply interleave_jolts|].
  intros ? s1 H. eapply jolted_after; eauto.
Qed.

Lemma wait_result_jolts ms s : spec (X := X) s (wifi_wait_for_result ms) (fun _ => jolted s).
Proof.
  unfold wifi_wait_for_result, put_wev. apply spec_skip; [intros; keepsg|]. intros _.
  apply spec_skip; [intros; keepsg|]. intros [l e]. eapply spec_bind; [apply until_signal_jolts|].
  intros b s1 H. apply spec_skip; [intros; keepsg|]. intros _. apply spec_skip; [intros; keepsg|]. intros r.
  now apply spec_ret.
Qed.
End Threads.

Section Configure.
Context {X : Type} {E : Env X} {F : Fuel}.

#[local] Hint Resolve interleave_jolts wait_open_jolts wait_result_jolts : spec.

(** The station is started; the modem may be restarted meanwhile. *)
Lemma start_wifi_spec s i : spec (X := X) s (network_start_wifi i)
  (fun _ => jolted (set_a_sta (raise (a_sta s)) s)).
Proof.
  unfold network_start_wifi. repeat spec_step; eauto using jolted_refl, jolted_trans.
Qed.

Lemma start_wifi_ap_spec s i : spec (X := X) s (network_start_wifi_ap i)
  (fun _ s' => s' = set_a_ap (raise (a_ap s)) s).
Proof. unfold network_start_wifi_ap. repeat spec_step; reflexivity. Qed.

Lemma either_fails_spec s (a b : M (world X) Z) f :
  spec s a (fun _ s' => s' = f s) -> (forall p, keepsg (av p) b) ->
  spec s (either_fails a b) (fun _ s' => s' = f s).
Proof.
  intros Ha Hb. eapply spec_bind; [exact Ha|]. intros r s' ->. repeat spec_step; auto.
Qed.

Lemma start_modem_net_spec s i : spec (X := X) s (network_start_modem i)
  (fun _ s' => s' = set_a_modem (raise (a_modem s)) s).
Proof.
  unfold network_start_modem. eapply spec_bind.
  - apply (either_fails_spec s _ _ (fun s => set_a_modem (raise (a_modem s)) s));
      [apply start_modem_spec|intros; keepsg].
  - intros bad s' ->. destruct bad; now apply spec_ret.
Qed.

Lemma start_eth_net_spec s i : spec (X := X) s (network_start_etherent i)
  (fun _ s' => s' = set_a_eth (raise (a_eth s)) s).
Proof.
  unfold network_start_etherent. eapply spec_bind.
  - apply (either_fails_spec s _ _ (fun s => set_a_eth (raise (a_eth s)) s));
      [apply start_eth_spec|intros; keepsg].
  - intros bad s' ->. destruct bad; now apply spec_ret.
Qed.

Lemma network_stop_wifi_spec s : spec (X := X) s network_stop_wifi (fun _ s' => s' = set_a_sta 0 s).
Proof. unfold network_stop_wifi. repeat spec_step; reflexivity. Qed.

Lemma network_stop_wifi_ap_spec s : spec (X := X) s network_stop_wifi_ap (fun _ s' => s' = set_a_ap 0 s).
Proof. unfold network_stop_wifi_ap. repeat spec_step; reflexivity. Qed.

Lemma network_stop_modem_spec s : spec (X := X) s network_stop_modem (fun _ s' => s' = set_a_modem (lower (a_modem s)) s).
Proof. unfold network_stop_modem. repeat spec_step; reflexivity. Qed.

Lemma network_stop_etherent_spec s : spec (X := X) s network_stop_etherent (fun _ s' => s' = set_a_eth (lower (a_eth s)) s).
Proof. unfold network_stop_etherent. repeat spec_step; reflexivity. Qed.
End Configure.

#[export] Hint Resolve start_wifi_spec start_wifi_ap_spec start_modem_net_spec start_eth_net_spec
  network_stop_wifi_spec network_stop_wifi_ap_spec network_stop_modem_spec
  network_stop_etherent_spec : spec.

Section Configure2.
Context {X : Type} {E : Env X} {F : Fuel}.

(** Starting brings the device of the mode up, or fails out of capacity
    with nothing done. *)
Lemma configure_start_spec s m i : m <> WIFI -> spec (X := X) s (network_configure_net m START (Some i))
  (fun r s' => s' = device_up m s \/ (s' = s /\ fst r = -1)).
Proof.
  intros Hm. apply Z.eqb_neq in Hm.
  unfold network_configure_net, with_info, no_info. cbn [option_map].
  change (START =? START) with true. unfold device_up. rewrite Hm. repeat spec_step; auto.
Qed.

(** Starting the station, while the modem may be restarted. *)
Lemma configure_wifi_spec s i : spec (X := X) s (network_configure_net WIFI START (Some i))
  (fun r s' => jolted (device_up WIFI s) s' \/ (s' = s /\ fst r = -1)).
Proof.
  unfold network_configure_net, with_info, no_info. cbn [option_map].
  change (START =? START) with true. change (WIFI =? WIFI) with true. repeat spec_step; auto.
Qed.

(** Stopping brings it down. *)
Lemma configure_stop_spec s m : spec (X := X) s (network_configure_net m STOP None)
  (fun _ s' => s' = device_down m s).
Proof.
  unfold network_configure_net, with_info, no_info. cbn [option_map].
  change (STOP =? START) with false. unfold device_down. repeat spec_step; reflexivity.
Qed.
End Configure2.

#[export] Hint Resolve configure_start_spec configure_wifi_spec configure_stop_spec : spec.
#[export] Hint Extern 0 (_ <> WIFI) => discriminate : spec.
