(* ===== verification/NetContract.v ===== *)
(** * The contract of the commands

    The invariant that ties the mode word to the devices and to the
    access-point timer, the abstract effect of each command on the set of
    modes, and the proof that every handler of [ctrl_cmd] implements it. *)

From Stdlib Require Import ZArith List Bool Lia Ascii String.
From S2P Require Import Prelude CString CMonad Json NetEnv ScanList WpaCommand Eloop Hal Report.
From S2P Require Import WifiEvent LinkEvent NetSwitch NetCtrl NetSpec.
Import ListNotations.
Import Modem Etherent Monitor.
Open Scope string_scope.
Open Scope Z_scope.

(** ** Invariant *)

(** The modes against the start flags of the devices: a mode is only set
    while its device is started, and the station is down in access-point mode. *)
Record radio_ok (m : modes) (sta ap modem eth : Z) : Prop := {
  ro_sta : state01 sta;
  ro_ap : state01 ap;
  ro_modem : state01 modem;
  ro_eth : state01 eth;
  ro_excl : m_wifi m && m_ap m = false;
  ro_wifi_up : m_wifi m = true -> sta = 1;
  ro_ap_up : m_ap m = true -> ap = 1 /\ sta = 0;
  ro_modem_up : m_modem m = true -> modem = 1;
  ro_eth_up : m_eth m = true -> eth = 1
}.

(** The timers: those created at start-up, and the access-point timer exactly
    while its flag is set. *)
Record timer_ok (base : list Z) (tmo tid : Z) (ids : list Z) (next : Z) : Prop := {
  to_base : Forall (fun i => 0 < i < next) base;
  to_tid : ~ In tid base;
  to_next : 0 < next;
  to_ids : tmo = 0 /\ ids = base \/ tmo = 1 /\ ids = (base ++ [tid])%list
}.

Record inv (base : list Z) (s : abs) : Prop := {
  inv_range : 0 <= a_mode s < 16;
  inv_radio : radio_ok (modes_of (a_mode s)) (a_sta s) (a_ap s) (a_modem s) (a_eth s);
  inv_timer : timer_ok base (a_tmo s) (a_tid s) (a_ids s) (a_next s)
}.

Lemma raise_01 f : state01 f -> raise f = 1.
Proof. intros [->| ->]; reflexivity. Qed.

Lemma lower_01 f : state01 f -> lower f = 0.
Proof. intros [->| ->]; reflexivity. Qed.

Lemma raise_state01 f : state01 f -> state01 (raise f).
Proof. intros H. rewrite (raise_01 f H). now right. Qed.

Lemma lower_state01 f : state01 f -> state01 (lower f).
Proof. intros H. rewrite (lower_01 f H). now left. Qed.

Lemma timer_ok_free base tmo tid ids next :
  timer_ok base tmo tid ids next -> In tid ids ->
  timer_ok base 0 tid (filter (fun i => negb (i =? tid)) ids) next.
Proof.
  intros [Hb Ht Hn Hi] Hin. split; auto. left. split; [reflexivity|].
  destruct Hi as [[_ ->]|[_ ->]]; [contradiction|].
  rewrite filter_app. cbn. rewrite Z.eqb_refl. cbn. rewrite app_nil_r.
  clear Hin Hb. induction base as [|i b IH]; [reflexivity|]. cbn in *.
  destruct (Z.eqb_spec i tid); [tauto|]. cbn. f_equal. tauto.
Qed.

Lemma timer_ok_add base tid ids next :
  timer_ok base 0 tid ids next -> timer_ok base 1 next (ids ++ [next])%list (next + 1).
Proof.
  intros [Hb Ht Hn Hi]. destruct Hi as [[_ ->]|[H _]]; [|discriminate H].
  split; [|intros H|lia|right; split; reflexivity].
  - eapply Forall_impl; [|exact Hb]. cbn. lia.
  - rewrite Forall_forall in Hb. apply Hb in H. lia.
Qed.

Lemma find_timer_in id l t : find_timer id l = Some t -> In id (map fst l).
Proof.
  induction l as [|[i u] l IH]; cbn; [discriminate|].
  destruct (Z.eqb_spec i id); auto.
Qed.

Lemma remove_timer_ids id l :
  map fst (remove_timer id l) = filter (fun i => negb (i =? id)) (map fst l).
Proof.
  unfold remove_timer. induction l as [|[i t] l IH]; cbn; [reflexivity|].
  destruct (i =? id); cbn; congruence.
Qed.

(** ** Timers and replies in the logic *)

Section CtrlSpec.
Context {X : Type} {E : Env X} {F : Fuel} {J : JsonC}.

Lemma deref_timer_spec s id : spec (X := X) s (deref_timer id) (fun _ s' => s' = s /\ id <> 0 /\ In id (a_ids s)).
Proof.
  intros w Hs Hw. unfold deref_timer. destruct (Z.eqb_spec id INVALID_ID) as [|Hid]; [exact Logic.I|].
  cbn. destruct (find_timer id (timers (wg w))) eqn:Ef; [|exact Logic.I].
  cbn. repeat split; try apply Hs; auto. rewrite <- Hw. eapply find_timer_in, Ef.
Qed.

Lemma timer_settime_skip id a b c d p : keepsg (X := X) (av p) (timer_settime id a b c d).
Proof. keepsg_deep. Qed.

(** A timer that can be stopped or started is allocated. *)
Lemma timer_stop_spec s id : spec (X := X) s (eloop_timer_stop id)
  (fun _ s' => s' = s /\ id <> 0 /\ In id (a_ids s)).
Proof.
  unfold eloop_timer_stop, scheduler_timer_stop. apply spec_assoc.
  eapply spec_bind; [apply deref_timer_spec|]. intros t s' (-> & H1 & H2).
  apply spec_skip; [intros; apply timer_settime_skip|]. intros. apply spec_ret. auto.
Qed.

Lemma timer_start_spec s id : spec (X := X) s (eloop_timer_start id)
  (fun _ s' => s' = s /\ id <> 0 /\ In id (a_ids s)).
Proof.
  unfold eloop_timer_start, scheduler_timer_start. apply spec_assoc.
  eapply spec_bind; [apply deref_timer_spec|]. intros t s' (-> & H1 & H2).
  apply spec_skip; [intros; apply timer_settime_skip|]. intros. apply spec_ret. auto.
Qed.

Lemma timer_delete_spec s id : spec (X := X) s (eloop_timer_delete id)
  (fun _ s' => s' = set_a_timer (a_tmo s) (a_tid s) (filter (fun i => negb (i =? id)) (a_ids s)) (a_next s) s).
Proof.
  unfold eloop_timer_delete, scheduler_timer_delete.
  do 3 (apply spec_skip; [intros; keepsg|intros ?]).
  intros w Hs Hw. split; [exact Hs|]. subst s. unfold absw, abst. cbn -[remove_timer].
  rewrite remove_timer_ids. reflexivity.
Qed.

Lemma timer_add_spec s cb t p : spec (X := X) s (eloop_timer_add cb t p)
  (fun id s' => id = 0 /\ s' = s \/
     id = a_next s /\
     s' = set_a_timer (a_tmo s) (a_tid s) (a_ids s ++ [a_next s])%list (a_next s + 1) s).
Proof.
  unfold eloop_timer_add, scheduler_timer_new, schd_timer_init_system_timer_attr.
  repeat lazymatch goal with
    | |- spec _ (bind (get _) _) _ => fail
    | |- spec _ (bind _ _) _ => first [apply spec_skip; [intros; solve [keepsg]|intros ?] | apply spec_assoc]
    | |- spec _ (if ?b then _ else _) _ => destruct b
    | |- spec _ (ret _) _ => apply spec_ret; now left
    end.
  intros w Hs Hw. cbn. split; [exact Hs|]. right. subst s. unfold absw, abst. cbn.
  rewrite map_app. auto.
Qed.

Lemma response_spec s st reason : spec (X := X) s (netmanger_response_command st reason)
  (fun _ s' => exists j, s' = set_a_replies (j :: a_replies s) s /\
     (st = COMMAND_OK /\ j = ok_reply \/ st = COMMAND_NOK /\ exists r, j = nok_reply r)).
Proof.
  unfold netmanger_response_command. repeat spec_step; bool_hyps; subst; eauto 6.
Qed.
End CtrlSpec.

#[export] Hint Resolve timer_stop_spec timer_start_spec timer_delete_spec timer_add_spec
  response_spec : spec.

(** ** The abstract effect of each command *)

(** Does a reply report success? *)
Definition is_ok (j : json) : bool :=
  match j with
  | JObj ((k, JStr v) :: _) => String.eqb k "result" && String.eqb v "OK"
  | _ => false
  end.

(** Modes before, success of the reply, modes after. *)
Definition effect := modes -> bool -> modes -> Prop.

Definition e_same : effect := fun m _ m' => m' = m.

(** The access point is given up. *)
Definition e_leave_ap : effect := fun m _ m' => m' = mk_modes (m_wifi m) false (m_modem m) (m_eth m).

(** [WIFI CONNECT]: the access point is given up in any case; on success the
    station is the mode. *)
Definition e_wifi_connect : effect := fun m ok m' =>
  m' = mk_modes (if (ok : bool) then true else m_wifi m) false (m_modem m) (m_eth m).

Definition e_wifi_disconnect : effect := fun m _ m' => m' = mk_modes false (m_ap m) (m_modem m) (m_eth m).

(** [WIFI_AP CONNECT]: the station is given up; on success the access point is
    the mode. *)
Definition e_ap_connect : effect := fun m ok m' => m' = mk_modes false ok (m_modem m) (m_eth m).

(** [MODEM CONNECT]: a running access point is restarted around the start of
    the modem; a failure of either is reported and drops that mode. *)
Definition e_modem_connect : effect := fun m ok m' =>
  if (ok : bool) then m' = mk_modes (m_wifi m) (m_ap m) true (m_eth m)
  else exists ap modem, m' = mk_modes (m_wifi m) ap modem (m_eth m) /\
         (modem = false /\ (ap = m_ap m \/ ap = false) \/ modem = true /\ m_ap m = true /\ ap = false).

Definition e_modem_disconnect : effect := fun m _ m' => m' = mk_modes (m_wifi m) (m_ap m) false (m_eth m).

Definition e_eth_connect : effect := fun m ok m' => m' = mk_modes (m_wifi m) (m_ap m) (m_modem m) ok.

Definition e_eth_disconnect : effect := fun m _ m' => m' = mk_modes (m_wifi m) (m_ap m) (m_modem m) false.

(** The documented commands and their effects. *)
Definition contracts : list (string * string * effect) :=
  [("NETWORK", "GET_CAPACITY", e_same); ("NETWORK", "GET_MODE", e_same);
   ("NETWORK", "TRIGGER_STATUS", e_same); ("WIFI", "START_SCAN", e_leave_ap);
   ("WIFI", "STOP_SCAN", e_same); ("WIFI", "GET_WIFILIST", e_same);
   ("WIFI", "CONNECT", e_wifi_connect); ("WIFI", "DISCONNECT", e_wifi_disconnect);
   ("WIFI_AP", "CONNECT", e_ap_connect); ("WIFI_AP", "DISCONNECT", e_leave_ap);
   ("MODEM", "CONNECT", e_modem_connect); ("MODEM", "DISCONNECT", e_modem_disconnect);
   ("ETHERENT", "CONNECT", e_eth_connect); ("ETHERENT", "DISCONNECT", e_eth_disconnect);
   ("NETWORK", "GET_STATUS", e_same); ("WIFI", "GET_STATUS", e_same);
   ("ETHERENT", "GET_STATUS", e_same); ("MODEM", "GET_STATUS", e_same);
   ("WIFI", "GET_CFG_NUM", e_same); ("WIFI", "SAVE_CFG", e_same); ("WIFI", "REMOVE", e_leave_ap);
   ("WIFI", "ENABLE", e_same); ("WIFI", "DISABLE", e_same); ("NETWORK", "RESET_DNS", e_same);
   ("WIFI", "REMOVE_ALL", e_same)].

(** What a handler with that effect does: the invariant is kept, exactly one
    reply is sent and the modes change as the effect says. *)
Definition post (base : list Z) (s : abs) (e : effect) {A} (_ : A) (s' : abs) : Prop :=
  inv base s' /\
  exists j, a_replies s' = j :: a_replies s /\ e (modes_of (a_mode s)) (is_ok j) (modes_of (a_mode s')).

(** ** Building blocks *)

Section Blocks.
Context {X : Type} {E : Env X} {F : Fuel} {J : JsonC}.

Lemma stop_mode_spec s m : spec (X := X) s (stop_mode m)
  (fun _ s' => s' = set_a_mode (next_mode m STOP (a_mode s)) (device_down m s)).
Proof.
  unfold stop_mode. repeat spec_step.
  eapply spec_mono; [apply set_mode_spec|]. intros ? ? ->.
  unfold device_down. now repeat break_match.
Qed.

Lemma put_tmo_spec s v : spec (X := X) s (put_ctrl (set_g_ap_timeout_flag v))
  (fun _ s' => s' = set_a_timer v (a_tid s) (a_ids s) (a_next s) s).
Proof.
  apply (spec_upd _ _ (fun s => set_a_timer v (a_tid s) (a_ids s) (a_next s) s));
    [exact (fun g H => H)|reflexivity].
Qed.

Lemma put_tid_spec s v : spec (X := X) s (upd (put_wifi_ap_timeout v))
  (fun _ s' => s' = set_a_timer (a_tmo s) v (a_ids s) (a_next s) s).
Proof.
  apply (spec_upd _ _ (fun s => set_a_timer (a_tmo s) v (a_ids s) (a_next s) s));
    [exact (fun g H => H)|reflexivity].
Qed.

Lemma free_ap_timer_spec s : spec (X := X) s free_ap_timer
  (fun _ s' => In (a_tid s) (a_ids s) /\
     s' = set_a_timer 0 (a_tid s) (filter (fun i => negb (i =? a_tid s)) (a_ids s)) (a_next s) s).
Proof.
  unfold free_ap_timer. eapply spec_bind; [apply (spec_get _ _ a_tid); reflexivity|].
  intros id ? [-> ->]. repeat spec_step.
  eapply spec_mono; [apply put_tmo_spec|]. intros ? ? ->. auto.
Qed.

Lemma tmo_get_spec s : spec (X := X) s (get (fun g => g_ap_timeout_flag (ctrl g)))
  (fun a s' => s' = s /\ a = a_tmo s).
Proof. apply (spec_get _ _ a_tmo). reflexivity. Qed.
End Blocks.

#[export] Hint Resolve stop_mode_spec free_ap_timer_spec tmo_get_spec : spec.

Section Blocks2.
Context {X : Type} {E : Env X} {F : Fuel} {J : JsonC}.

(** Freeing the access-point timer when the flag says it exists. *)
Definition timer_freed (s s' : abs) : Prop :=
  s' = s \/
  In (a_tid s) (a_ids s) /\
  s' = set_a_timer 0 (a_tid s) (filter (fun i => negb (i =? a_tid s)) (a_ids s)) (a_next s) s.

Lemma when_free_spec s b : spec (X := X) s (when b free_ap_timer) (fun _ s' => timer_freed s s').
Proof.
  apply spec_when; intros; [|now left].
  eapply spec_mono; [apply free_ap_timer_spec|]. intros ? ? Hf. now right.
Qed.

Lemma leave_ap_spec s run : spec (X := X) s (leave_ap run)
  (fun _ s' => timer_freed (set_a_mode (next_mode WIFI_AP STOP (a_mode s)) (set_a_ap 0 s)) s').
Proof.
  unfold leave_ap. do 3 spec_step. eapply spec_mono; [apply when_free_spec|]. auto.
Qed.

Lemma station_joined_spec s : spec (X := X) s station_joined
  (fun _ s' => s' = set_a_mode (next_mode WIFI START (a_mode s)) s).
Proof. unfold station_joined. repeat spec_step; [|reflexivity]. apply spec_keeps. intros. keepsg. Qed.
End Blocks2.

#[export] Hint Resolve when_free_spec leave_ap_spec station_joined_spec put_tmo_spec put_tid_spec : spec.

Lemma put_ap_info_keeps {X} p v : keepsg (X := X) (av p) (put_ctrl (set_g_ap_info v)).
Proof. apply keepsg_upd. exact (fun g l H => H). Qed.
#[export] Hint Resolve put_ap_info_keeps : keeps.

Section Blocks3.
Context {X : Type} {E : Env X} {F : Fuel} {J : JsonC}.

Lemma station_connect_spec s info : spec (X := X) s (station_connect info)
  (fun r s' => fst r = COMMAND_OK /\
                 (exists s1, jolted (set_a_sta (raise (a_sta s)) s) s1 /\
                    s' = set_a_mode (next_mode WIFI START (a_mode s1)) s1) \/
               fst r = COMMAND_NOK /\ (s' = s \/ jolted (set_a_sta (raise (a_sta s)) s) s')).
Proof.
  unfold station_connect. spec_step. destruct a as [r i].
  destruct H as [H |[-> Hr]]; cbn in *; repeat spec_step; eauto 6.
  subst. discriminate.
Qed.

Lemma ap_connect_spec s info : spec (X := X) s (ap_connect info)
  (fun r s' => fst (fst r) = COMMAND_OK /\
                 s' = set_a_mode (next_mode WIFI_AP START (a_mode s)) (set_a_ap (raise (a_ap s)) s) \/
               fst (fst r) = COMMAND_NOK /\ (s' = s \/ s' = set_a_ap (raise (a_ap s)) s)).
Proof.
  unfold ap_connect. spec_step. destruct a as [r i].
  destruct H as [-> |[-> Hr]]; cbn in *; repeat spec_step; auto.
  subst. discriminate.
Qed.

Lemma start_ap_timer_spec s t : spec (X := X) s (start_ap_timer t)
  (fun _ s' => s' = s \/
     a_tmo s = 0 /\ s' = set_a_timer 1 (a_next s) (a_ids s ++ [a_next s])%list (a_next s + 1) s).
Proof.
  unfold start_ap_timer. repeat spec_step; auto. bool_hyps.
  destruct H0 as [[-> ->]|[-> ->]]; [contradiction|].
  eapply spec_mono; [apply put_tmo_spec|]. intros ? ? ->. right. split; [assumption|reflexivity].
Qed.

Lemma start_local_spec s m : m <> WIFI -> spec (X := X) s (start_local m)
  (fun r s' => s' = device_up m s \/ (s' = s /\ fst r = -1)).
Proof. intros Hm. unfold start_local. spec_step. destruct a. cbn in *. now apply spec_ret. Qed.

Lemma restart_ap_spec s st reason : spec (X := X) s (restart_ap st reason)
  (fun r s' => fst r = st /\ s' = set_a_ap (raise (a_ap s)) s \/
     fst r = COMMAND_NOK /\
     (s' = set_a_mode (next_mode WIFI_AP STOP (a_mode s)) s \/
      s' = set_a_mode (next_mode WIFI_AP STOP (a_mode s)) (set_a_ap (raise (a_ap s)) s))).
Proof.
  unfold restart_ap. do 2 spec_step. destruct a0 as [r i].
  destruct H as [-> |[-> Hr]]; cbn in *; repeat spec_step; auto.
  subst. discriminate.
Qed.
End Blocks3.

#[export] Hint Resolve station_connect_spec ap_connect_spec start_ap_timer_spec start_local_spec
  restart_ap_spec : spec.

(** ** The invariant across the abstract moves *)

Create HintDb inv.

Ltac radio_solve :=
  repeat match goal with H : radio_ok _ _ _ _ _ |- _ => destruct H end;
  rewrite ?modes_of_next in *;
  repeat match goal with
  | |- context [modes_of ?m] => let q := fresh "q" in set (q := modes_of m) in *; destruct q as [? ? ? ?]
  | H : context [modes_of ?m] |- _ => let q := fresh "q" in set (q := modes_of m) in *; destruct q as [? ? ? ?]
  end;
  cbn in *; unfold state01, raise, lower in *;
  repeat match goal with H : _ = 0 \/ _ = 1 |- _ => destruct H as [-> | ->] end;
  repeat match goal with b : bool |- _ => destruct b end;
  cbn in *; try discriminate; try (constructor; cbn; intuition (congruence || lia)).

Lemma inv_mode_off base s m : inv base s -> inv base (set_a_mode (next_mode m STOP (a_mode s)) s).
Proof.
  intros [Hr Hm Ht]. split; cbn; [now apply next_mode_range| |exact Ht].
  rewrite modes_of_next. unfold next_modes. change (STOP =? START) with false.
  repeat (destruct (m =? _)); destruct Hm; constructor; cbn; auto;
    rewrite ?andb_false_r; auto; discriminate.
Qed.

(** A mode is given up after its device has been stopped. *)
Lemma inv_stop base s m :
  inv base s -> inv base (set_a_mode (next_mode m STOP (a_mode s)) (device_down m s)).
Proof.
  intros [Hr Hm Ht]. split.
  - cbn. now apply next_mode_range.
  - cbn [a_mode a_sta a_ap a_modem a_eth set_a_mode]. rewrite modes_of_next.
    unfold next_modes, device_down. change (STOP =? START) with false.
    repeat (destruct (m =? _)); destruct Hm; constructor; cbn in *; auto;
      rewrite ?andb_false_r; auto using lower_state01; unfold state01; try discriminate; intuition.
  - unfold device_down. repeat break_match; exact Ht.
Qed.

Lemma inv_sta_up base s :
  inv base s -> m_ap (modes_of (a_mode s)) = false -> inv base (set_a_sta (raise (a_sta s)) s).
Proof.
  intros [Hr Hm Ht] Hap. split; cbn; auto. destruct Hm. constructor; auto using raise_state01.
  - intros H. rewrite ro_wifi_up0; auto.
  - rewrite Hap. discriminate.
Qed.

Lemma inv_ap_set base s v :
  inv base s -> state01 v -> (m_ap (modes_of (a_mode s)) = true -> v = 1) -> inv base (set_a_ap v s).
Proof. intros [Hr Hm Ht] Hv Hap. split; cbn; auto. destruct Hm. constructor; auto. intuition. Qed.

Lemma inv_ap_up base s : inv base s -> inv base (set_a_ap (raise (a_ap s)) s).
Proof.
  intros H. pose proof (inv_radio _ _ H) as Hm.
  apply inv_ap_set; [exact H|apply raise_state01, Hm|intros; apply raise_01, Hm].
Qed.

Lemma inv_modem_set base s v :
  inv base s -> state01 v -> (m_modem (modes_of (a_mode s)) = true -> v = 1) -> inv base (set_a_modem v s).
Proof. intros [Hr Hm Ht] Hv Hap. split; cbn; auto. destruct Hm. constructor; auto. Qed.

(** A restart of the modem changes nothing that the invariant says. *)
Lemma inv_jolted base s s' : inv base s -> jolted s s' -> inv base s'.
Proof.
  intros H [-> | ->]; [exact H|]. pose proof (inv_radio _ _ H) as Hm. unfold bounce.
  rewrite (lower_01 (a_modem s)) by apply Hm. apply inv_modem_set; [exact H|now right|reflexivity].
Qed.

Lemma jolted_same s s' : jolted s s' ->
  a_mode s' = a_mode s /\ a_sta s' = a_sta s /\ a_ap s' = a_ap s /\ a_replies s' = a_replies s.
Proof. intros [-> | ->]; auto. Qed.

Lemma inv_modem_up base s : inv base s -> inv base (set_a_modem (raise (a_modem s)) s).
Proof.
  intros H. pose proof (inv_radio _ _ H) as Hm.
  apply inv_modem_set; [exact H|apply raise_state01, Hm|intros; apply raise_01, Hm].
Qed.

Lemma inv_eth_up base s : inv base s -> inv base (set_a_eth (raise (a_eth s)) s).
Proof.
  intros [Hr Hm Ht]. split; cbn; auto. destruct Hm. constructor; auto using raise_state01.
  intros _. now apply raise_01.
Qed.

(** A mode is set while its device is up. *)
Lemma inv_mode_on base s m :
  inv base s ->
  (m = WIFI /\ a_sta s = 1) \/ (m = WIFI_AP /\ a_ap s = 1 /\ a_sta s = 0) \/
  (m = MODEM /\ a_modem s = 1) \/ (m = ETHERENT /\ a_eth s = 1) ->
  inv base (set_a_mode (next_mode m START (a_mode s)) s).
Proof.
  intros [Hr Hm Ht] Hd. split; cbn; [now apply next_mode_range| |exact Ht].
  rewrite modes_of_next.
  destruct Hd as [[-> ?]|[[-> [? ?]]|[[-> ?]|[-> ?]]]]; destruct Hm; constructor; cbn in *; auto;
    rewrite ?andb_false_r; auto; discriminate.
Qed.

Lemma inv_freed base s s' : timer_freed s s' -> inv base s -> inv base s'.
Proof. intros [-> |[Hin ->]] [Hr Hm Ht]; split; cbn; auto. eapply timer_ok_free; eauto. Qed.

Lemma inv_added base s :
  inv base s -> a_tmo s = 0 ->
  inv base (set_a_timer 1 (a_next s) (a_ids s ++ [a_next s])%list (a_next s + 1) s).
Proof. intros [Hr Hm Ht] H0. split; cbn; auto. rewrite H0 in Ht. eapply timer_ok_add; eauto. Qed.

Lemma inv_replies base s l : inv base s -> inv base (set_a_replies l s).
Proof. intros [Hr Hm Ht]. split; cbn; auto. Qed.

#[export] Hint Resolve inv_mode_off inv_stop inv_ap_up inv_modem_up inv_eth_up inv_replies inv_added : inv.

(** ** The handlers *)

Lemma modes_no_ap m : m &? WIFI_AP = false -> modes_of m = mk_modes (m &? WIFI) false (m &? MODEM) (m &? ETHERENT).
Proof. intros H. unfold modes_of. now rewrite H. Qed.

Section Handlers.
Context {X : Type} {E : Env X} {F : Fuel} {J : JsonC} (base : list Z) (s : abs) (Hi : inv base s).

Local Notation does m e := (spec (X := X) s m (post base s e)).

(** The end of a handler that leaves the modes alone. *)
Ltac same := split; [auto with inv|eexists; split; [reflexivity|reflexivity]].

Lemma get_net_capacity_does : does netmanager_get_net_capacity e_same.
Proof using Hi. unfold netmanager_get_net_capacity. repeat spec_step. same. Qed.

Lemma get_net_mode_does : does netmanager_get_net_mode e_same.
Proof using Hi. unfold netmanager_get_net_mode. repeat spec_step. same. Qed.

Lemma report_all_status_does : does netmanager_report_all_status e_same.
Proof using Hi. unfold netmanager_report_all_status. repeat spec_step. same. Qed.

Lemma stop_wifi_scan_does : does netmanager_stop_wifi_scan e_same.
Proof using Hi. unfold netmanager_stop_wifi_scan. repeat spec_step; same. Qed.

Lemma get_config_network_does : does netmanager_get_config_network e_same.
Proof using Hi. unfold netmanager_get_config_network. repeat spec_step; same. Qed.

(** A reported state is answered. *)
Lemma state01_fits st : state01 st -> state_too_big st = false.
Proof. intros [-> | ->]; reflexivity. Qed.

Ltac status_reply P :=
  eapply spec_bind; [apply (spec_get_st _ _ P); unfold st_ok; intros; tauto|];
  intros st ? [-> Hst]; cbv beta in Hst; rewrite state01_fits by exact Hst;
  repeat spec_step; same.

Lemma get_network_status_does : does netmanager_get_network_status e_same.
Proof using Hi.
  unfold netmanager_get_network_status, monitor_respond_status, monitor_get_status, respond_network_status, state_elem.
  status_reply state01.
Qed.

Lemma get_wifi_status_does : does netmanager_get_wifi_status e_same.
Proof using Hi.
  unfold netmanager_get_wifi_status, wifi_respond_status, wifi_event_get_status, respond_wifi_status, wifi_elem.
  status_reply (fun st => state01 (ws_state st)).
Qed.

Lemma get_modem_status_does : does netmanager_get_modem_status e_same.
Proof using Hi.
  unfold netmanager_get_modem_status, modem_respond_status, modem_get_stauts, respond_modem_status, modem_elem.
  status_reply (fun st => state01 (ms_state st)).
Qed.

Lemma get_etherent_status_does : does netmanager_get_etherent_status e_same.
Proof using Hi.
  unfold netmanager_get_etherent_status, etherent_respond_status, etherent_get_stauts, respond_etherent_status, state_elem.
  status_reply state01.
Qed.

Lemma respond_code_spec s' r : spec (X := X) s' (respond_code r)
  (fun _ s'' => exists j, s'' = set_a_replies (j :: a_replies s') s').
Proof.
  unfold respond_code. destruct (negb (r =? 0));
    (eapply spec_mono; [apply response_spec|]); intros ? ? (j & -> & _); eauto.
Qed.
Hint Resolve respond_code_spec : spec.

Lemma save_config_does : does netmanager_save_config_network e_same.
Proof using Hi. unfold netmanager_save_config_network. repeat spec_step; same. Qed.

Lemma enable_all_does : does netmanager_enable_all_network e_same.
Proof using Hi. unfold netmanager_enable_all_network. repeat spec_step; same. Qed.

Lemma disable_all_does : does netmanager_disable_all_network e_same.
Proof using Hi. unfold netmanager_disable_all_network. repeat spec_step; same. Qed.

Lemma reset_dns_does : does netmanager_reset_dns e_same.
Proof using Hi. unfold netmanager_reset_dns. repeat spec_step; same. Qed.

Lemma remove_all_does : does netmanager_remove_all_network e_same.
Proof using Hi. unfold netmanager_remove_all_network. repeat spec_step; same. Qed.

Lemma get_wifi_scan_result_does : does netmanager_get_wifi_scan_result e_same.
Proof using Hi. unfold netmanager_get_wifi_scan_result, answer_scan_result. repeat spec_step; same. Qed.

(** Access-point mode has been left, if it was on. *)
Definition left_ap (s' : abs) : Prop :=
  inv base s' /\ a_replies s' = a_replies s /\
  e_leave_ap (modes_of (a_mode s)) true (modes_of (a_mode s')).

Lemma left_ap_off : (a_mode s &? WIFI_AP) = false -> left_ap s.
Proof using Hi.
  intros H. split; [exact Hi|]. split; [reflexivity|]. unfold e_leave_ap.
  rewrite (modes_no_ap _ H). reflexivity.
Qed.

Lemma left_ap_stop : left_ap (set_a_mode (next_mode WIFI_AP STOP (a_mode s)) (device_down WIFI_AP s)).
Proof using Hi.
  split; [now apply inv_stop|]. split; [reflexivity|]. cbn [a_mode set_a_mode]. now rewrite modes_of_next.
Qed.

Lemma left_ap_freed s1 s2 : left_ap s1 -> timer_freed s1 s2 -> left_ap s2.
Proof.
  intros (H1 & H2 & H3) Hf. split; [eapply inv_freed; eassumption|].
  destruct Hf as [-> |[_ ->]]; cbn; auto.
Qed.

Lemma drop_ap_scan_spec : spec (X := X) s
  (when (a_mode s &? WIFI_AP) (stop_mode WIFI_AP ;; upd (put_wifi_state WIFI_AP_CLOSE)))
  (fun _ s' => left_ap s').
Proof using Hi.
  apply spec_when; [|apply left_ap_off]. intros _. spec_step.
  eapply spec_mono; [apply spec_keeps; intros; keepsg|]. intros ? ? ->. apply left_ap_stop.
Qed.

Lemma drop_ap_leave_spec run : spec (X := X) s (when (a_mode s &? WIFI_AP) (leave_ap run))
  (fun _ s' => left_ap s').
Proof using Hi.
  apply spec_when; [|apply left_ap_off]. intros _.
  eapply spec_mono; [apply leave_ap_spec|]. intros ? s'. apply left_ap_freed, left_ap_stop.
Qed.

Lemma drop_ap_connect_spec : spec (X := X) s
  (when (a_mode s &? WIFI_AP)
    (f <- get (fun g => g_ap_timeout_flag (ctrl g)) ;;
     when (f =? 1) free_ap_timer ;;
     stop_mode WIFI_AP ;;
     upd (put_wifi_state WIFI_AP_CLOSE)))
  (fun _ s' => left_ap s').
Proof using Hi.
  apply spec_when; [|apply left_ap_off]. intros _. do 3 spec_step.
  eapply spec_mono; [apply spec_keeps; intros; keepsg|]. intros ? ? ->.
  eapply left_ap_freed; [apply left_ap_stop|].
  destruct H as [-> |[Hin ->]]; [now left|right; auto].
Qed.

(** The end of a handler that replied from a state where the access point
    was left. *)
Lemma post_left_ap s' j A (a : A) : left_ap s' -> post base s e_leave_ap a (set_a_replies (j :: a_replies s') s').
Proof.
  intros (H1 & H2 & H3). split; [now apply inv_replies|]. exists j. cbn. split; [congruence|exact H3].
Qed.

Lemma left_ap_m_ap s' : left_ap s' -> m_ap (modes_of (a_mode s')) = false.
Proof. intros (_ & _ & H). now rewrite H. Qed.

Lemma left_ap_sta s' : left_ap s' -> left_ap (set_a_sta (raise (a_sta s')) s').
Proof.
  intros H. pose proof (left_ap_m_ap _ H). destruct H as (H1 & H2 & H3).
  split; [now apply inv_sta_up|]. auto.
Qed.

Lemma start_wifi_scan_does : does netmanager_start_wifi_scan e_leave_ap.
Proof using Hi.
  unfold netmanager_start_wifi_scan. spec_step.
  eapply spec_bind; [apply drop_ap_scan_spec|]. intros ? s' Hl. repeat spec_step;
  apply post_left_ap, left_ap_sta, Hl.
Qed.

(** A device was stopped and its mode cleared, then a reply was sent. *)
Lemma post_stop m e j A (a : A) :
  (forall ms ok, e ms ok (next_modes m STOP ms)) ->
  post base s e a
    (set_a_replies (j :: a_replies s) (set_a_mode (next_mode m STOP (a_mode s)) (device_down m s))).
Proof using Hi.
  intros He. split; [now apply inv_replies, inv_stop|]. exists j. split; [reflexivity|].
  cbn [a_mode set_a_replies set_a_mode]. rewrite modes_of_next. apply He.
Qed.

Lemma stop_wifi_station_does : does netmanager_stop_wifi_station e_wifi_disconnect.
Proof using Hi.
  unfold netmanager_stop_wifi_station. repeat spec_step; now apply (post_stop WIFI).
Qed.

Lemma stop_wifi_ap_does : does netmanager_stop_wifi_ap e_leave_ap.
Proof using Hi.
  unfold netmanager_stop_wifi_ap. repeat spec_step;
    apply post_left_ap; (eapply left_ap_freed; [apply left_ap_stop|eassumption]).
Qed.

Lemma stop_modem_does : does netmanager_stop_modem e_modem_disconnect.
Proof using Hi.
  unfold netmanager_stop_modem. repeat spec_step; now apply (post_stop MODEM).
Qed.

Lemma stop_etherent_does : does netmanager_stop_etherent e_eth_disconnect.
Proof using Hi.
  unfold netmanager_stop_etherent. repeat spec_step; now apply (post_stop ETHERENT).
Qed.

Lemma remove_listed_keeps p n r : keepsg (X := X) (av p) (remove_listed n r).
Proof. unfold remove_listed. keepsg. Qed.
Hint Resolve remove_listed_keeps : keeps.

Lemma remove_network_does b : does (netmanager_remove_network b) e_leave_ap.
Proof using Hi.
  unfold netmanager_remove_network. spec_step.
  eapply spec_bind; [apply drop_ap_leave_spec|]. intros ? s' Hl. repeat spec_step;
    apply post_left_ap, left_ap_sta, Hl.
Qed.

(** The reply of a handler tells its state. *)
Lemma reply_kind st j :
  st = COMMAND_OK /\ j = ok_reply \/ st = COMMAND_NOK /\ (exists r, j = nok_reply r) ->
  is_ok j = (st =? COMMAND_OK) /\ (st = COMMAND_OK \/ st = COMMAND_NOK).
Proof. intros [[-> ->]|[-> [r ->]]]; auto. Qed.

Lemma post_replied s' j st e A (a : A) :
  st = COMMAND_OK /\ j = ok_reply \/ st = COMMAND_NOK /\ (exists r, j = nok_reply r) ->
  inv base s' -> a_replies s' = a_replies s ->
  e (modes_of (a_mode s)) (st =? COMMAND_OK) (modes_of (a_mode s')) ->
  post base s e a (set_a_replies (j :: a_replies s') s').
Proof.
  intros Hj H1 H2 H3. split; [now apply inv_replies|]. exists j. cbn.
  split; [congruence|]. destruct (reply_kind _ _ Hj) as [-> _]. exact H3.
Qed.

Lemma left_ap_jolted s1 s2 : left_ap s1 -> jolted s1 s2 -> left_ap s2.
Proof.
  intros (H1 & H2 & H3) Hj. destruct (jolted_same _ _ Hj) as (Em & _ & _ & Er).
  split; [eapply inv_jolted; eassumption|]. rewrite Em, Er. auto.
Qed.

Lemma left_ap_joined s' s1 : left_ap s' -> jolted (set_a_sta (raise (a_sta s')) s') s1 ->
  inv base (set_a_mode (next_mode WIFI START (a_mode s1)) s1).
Proof.
  intros H Hj. pose proof (left_ap_jolted _ _ (left_ap_sta _ H) Hj) as H1. destruct H1 as (H1 & _).
  apply (inv_mode_on _ _ WIFI H1). left. split; [reflexivity|].
  destruct (jolted_same _ _ Hj) as (_ & -> & _). cbn. apply raise_01. destruct H as (H & _). apply H.
Qed.

Lemma start_wifi_station_does b : does (netmanager_start_wifi_station b) e_wifi_connect.
Proof using Hi.
  unfold netmanager_start_wifi_station. spec_step.
  eapply spec_bind; [apply drop_ap_connect_spec|]. intros ? s' Hl. repeat spec_step.
  - eapply post_replied; [eassumption|apply Hl..].
  - destruct H as [[Hz (s1 & Hj & ->)]|[Hz Hs]]; cbn in Hz; subst z0.
    + pose proof (left_ap_jolted _ _ (left_ap_sta _ Hl) Hj) as (_ & Hr & Hm).
      eapply post_replied; [eassumption|eapply left_ap_joined; eassumption|exact Hr|].
      cbn [a_mode set_a_mode]. rewrite modes_of_next, Hm. reflexivity.
    + assert (Hl' : left_ap s'0) by (destruct Hs as [-> | Hs]; eauto using left_ap_sta, left_ap_jolted).
      eapply post_replied; [eassumption|apply Hl'..].
Qed.
End Handlers.

Section Handlers2.
Context {X : Type} {E : Env X} {F : Fuel} {J : JsonC} (base : list Z) (s : abs) (Hi : inv base s).
Local Notation does m e := (spec (X := X) s m (post base s e)).

(** Both Wi-Fi modes have been left and the station is down. *)
Definition left_wifi (s' : abs) : Prop :=
  inv base s' /\ a_replies s' = a_replies s /\ a_sta s' = 0 /\
  modes_of (a_mode s') = mk_modes false false (m_modem (modes_of (a_mode s))) (m_eth (modes_of (a_mode s))).

Lemma left_wifi_stop : (a_mode s &? WIFI_AP) = false ->
  left_wifi (set_a_mode (next_mode WIFI STOP (a_mode s)) (device_down WIFI s)).
Proof using Hi.
  intros H. split; [now apply inv_stop|]. repeat split.
  cbn [a_mode set_a_mode]. rewrite modes_of_next, (modes_no_ap _ H). reflexivity.
Qed.

Lemma left_wifi_both (s1 : abs) :
  s1 = set_a_mode (next_mode WIFI STOP (a_mode s)) (device_down WIFI s) ->
  left_wifi (set_a_mode (next_mode WIFI_AP STOP (a_mode s1)) (device_down WIFI_AP s1)).
Proof using Hi.
  intros ->. split; [now apply inv_stop, inv_stop|]. repeat split.
  cbn [a_mode set_a_mode]. rewrite !modes_of_next. reflexivity.
Qed.

Lemma left_wifi_freed s1 s2 : left_wifi s1 -> timer_freed s1 s2 -> left_wifi s2.
Proof.
  intros (H1 & H2 & H3 & H4) Hf. split; [eapply inv_freed; eassumption|].
  destruct Hf as [-> |[_ ->]]; cbn; auto.
Qed.

Lemma drop_both_spec run s1 : s1 = set_a_mode (next_mode WIFI STOP (a_mode s)) (device_down WIFI s) ->
  spec (X := X) s1 (when (a_mode s &? WIFI_AP) (leave_ap run)) (fun _ s' => left_wifi s').
Proof using Hi.
  intros Hs1. apply spec_when; [|intros H; subst s1; now apply left_wifi_stop]. intros _.
  eapply spec_mono; [apply leave_ap_spec|]. intros ? s'. eapply left_wifi_freed, left_wifi_both, Hs1.
Qed.

(** The result of starting the access point. *)
Definition ap_started (st : Z) (s' : abs) : Prop :=
  inv base s' /\ a_replies s' = a_replies s /\
  e_ap_connect (modes_of (a_mode s)) (st =? COMMAND_OK) (modes_of (a_mode s')).

Lemma ap_connect_started s1 info : left_wifi s1 ->
  spec (X := X) s1 (ap_connect info) (fun r s' => ap_started (fst (fst r)) s').
Proof.
  intros (H1 & H2 & H3 & H4). eapply spec_mono; [apply ap_connect_spec|]. cbv beta.
  intros [[st rs] i] s' [[Hst ->]|[Hst Hs']]; cbn [fst] in Hst |- *; rewrite Hst.
  - split; [|split; [exact H2|]].
    + apply (inv_mode_on base (set_a_ap (raise (a_ap s1)) s1) WIFI_AP); [now apply inv_ap_up|].
      right. left. repeat split; [|exact H3]. cbn. apply raise_01, H1.
    + cbn [a_mode set_a_mode set_a_ap]. unfold e_ap_connect. rewrite modes_of_next, H4. reflexivity.
  - destruct Hs' as [-> | ->]; (split; [auto with inv|split; [exact H2|exact H4]]).
Qed.

Lemma start_ap_timer_started st s1 t : ap_started st s1 ->
  spec (X := X) s1 (start_ap_timer t) (fun _ s' => ap_started st s').
Proof.
  intros (H1 & H2 & H3). eapply spec_mono; [apply start_ap_timer_spec|].
  intros ? s' [-> |[H0 ->]]; [split; auto|]. split; [now apply inv_added|auto].
Qed.

Lemma string_field_keeps p o k f m : (forall x, keepsg (X := X) (av p) (f x)) ->
  keepsg (X := X) (av p) (string_field o k f m).
Proof. intros H. unfold string_field. keepsg. Qed.

Lemma get_wifi_ap_info_keeps p b m : keepsg (X := X) (av p) (get_wifi_ap_info b m).
Proof. unfold get_wifi_ap_info. keepsg. repeat (apply string_field_keeps; intros ?). keepsg. Qed.
Hint Resolve get_wifi_ap_info_keeps : keeps.

Lemma start_wifi_ap_does b : does (netmanager_start_wifi_ap b) e_ap_connect.
Proof using Hi.
  unfold netmanager_start_wifi_ap. do 5 spec_step.
  eapply spec_bind; [now apply drop_both_spec|]. intros ? s1 Hl. do 3 spec_step.
  - repeat spec_step. eapply post_replied; [eassumption|apply Hl..].
  - eapply spec_bind; [now apply ap_connect_started|]. intros [[st rs] i] s2 Hs2.
    eapply spec_bind; [apply start_ap_timer_started, Hs2|]. intros ? s3 Hs3.
    repeat spec_step. eapply post_replied; [eassumption|apply Hs3..].
Qed.

(** A mode has been left, if it was on. *)
Definition dropped (m : Z) (s0 s1 : abs) : Prop :=
  s1 = s0 /\ (a_mode s0 &? m) = false \/
  s1 = set_a_mode (next_mode m STOP (a_mode s0)) (device_down m s0).

Lemma drop_spec m s0 mode f : a_mode s0 = mode -> (forall p, Ignores (fun _ : unit => f) (av p)) ->
  spec (X := X) s0 (when (mode &? m) (stop_mode m ;; upd f)) (fun _ s1 => dropped m s0 s1).
Proof.
  intros <- Hf. apply spec_when; intros H; [|left; auto]. spec_step.
  eapply spec_mono; [apply spec_keeps; intros p; apply (keepsg_upd_put _ (fun _ => f) tt)|].
  intros ? ? ->. right. reflexivity.
Qed.

Lemma dropped_inv m s1 : dropped m s s1 -> inv base s1 /\ a_replies s1 = a_replies s.
Proof using Hi.
  intros [[-> _]| ->]; [auto|]. split; [now apply inv_stop|]. unfold device_down. now repeat break_match.
Qed.

Lemma dropped_eth s1 : dropped ETHERENT s s1 ->
  e_eth_disconnect (modes_of (a_mode s)) true (modes_of (a_mode s1)).
Proof.
  intros [[-> H]| ->]; unfold e_eth_disconnect.
  - unfold modes_of. rewrite H. reflexivity.
  - cbn [a_mode set_a_mode]. rewrite modes_of_next. reflexivity.
Qed.

Lemma dropped_modem s1 : dropped MODEM s s1 ->
  e_modem_disconnect (modes_of (a_mode s)) true (modes_of (a_mode s1)).
Proof.
  intros [[-> H]| ->]; unfold e_modem_disconnect.
  - unfold modes_of. rewrite H. reflexivity.
  - cbn [a_mode set_a_mode]. rewrite modes_of_next. reflexivity.
Qed.

Lemma start_etherent_does : does netmanager_start_etherent e_eth_connect.
Proof using Hi.
  unfold netmanager_start_etherent. spec_step.
  eapply spec_bind; [apply drop_spec; [reflexivity|intros p; exact _]|]. intros ? s1 Hd. cbv beta in Hd.
  destruct (dropped_inv _ _ Hd) as [H1 H2]. apply dropped_eth in Hd. spec_step. destruct a0 as [r rs].
  cbn [fst] in H. change (device_up ETHERENT s1) with (set_a_eth (raise (a_eth s1)) s1) in H.
  destruct (negb (r =? 0)) eqn:Hr.
  - repeat spec_step. eapply post_replied; [eassumption|..];
      destruct H as [-> |[-> _]]; auto with inv.
  - destruct H as [-> |[-> ->]]; [|discriminate Hr]. repeat spec_step.
    eapply post_replied; [eassumption| |exact H2|].
    + apply (inv_mode_on base (set_a_eth (raise (a_eth s1)) s1) ETHERENT); [now apply inv_eth_up|].
      right. right. right. split; [reflexivity|]. cbn. apply raise_01, H1.
    + cbn [a_mode set_a_mode set_a_eth device_up]. rewrite modes_of_next, Hd. reflexivity.
Qed.

Definition modem_moved (st : Z) (t : abs) : Prop :=
  inv base t /\ a_replies t = a_replies s /\ (st = COMMAND_OK \/ st = COMMAND_NOK) /\
  modes_of (a_mode t) = mk_modes (m_wifi (modes_of (a_mode s))) (m_ap (modes_of (a_mode s)))
                          (st =? COMMAND_OK) (m_eth (modes_of (a_mode s))).

Lemma dropped_set_ap m v s1 : (m = MODEM \/ m = ETHERENT) -> dropped m (set_a_ap v s) s1 ->
  exists t, s1 = set_a_ap v t /\ dropped m s t.
Proof.
  intros Hm [[-> H]| ->]; [exists s; split; [reflexivity|left; auto]|].
  eexists. split; [|right; reflexivity]. destruct Hm as [-> | ->]; reflexivity.
Qed.

(** The part between the stop and the restart of the access point does not
    look at its flag [v]. *)
Lemma start_modem_device_spec v : spec (X := X) (set_a_ap v s) (start_modem_device (a_mode s))
  (fun r s' => exists t, s' = set_a_ap v t /\ modem_moved (fst r) t).
Proof using Hi.
  unfold start_modem_device.
  eapply spec_bind; [apply drop_spec; [reflexivity|intros p; exact _]|]. intros ? s1 Hd.
  destruct (dropped_set_ap MODEM v s1 (or_introl eq_refl) Hd) as (t & -> & Ht). clear Hd.
  destruct (dropped_inv _ _ Ht) as [H1 H2]. apply dropped_modem in Ht.
  spec_step. destruct a0 as [r rs]. cbn [fst] in H.
  change (device_up MODEM (set_a_ap v t)) with (set_a_ap v (set_a_modem (raise (a_modem t)) t)) in H.
  destruct (negb (r =? 0)) eqn:Hr; repeat spec_step.
  - destruct H as [-> |[-> _]]; eexists; (split; [reflexivity|]);
      split; [auto with inv|split; [exact H2|split; [now right|exact Ht]]|
              exact H1|split; [exact H2|split; [now right|exact Ht]]].
  - destruct H as [-> |[-> ->]]; [|discriminate Hr].
    exists (set_a_mode (next_mode MODEM START (a_mode t)) (set_a_modem (raise (a_modem t)) t)).
    split; [reflexivity|]. split; [|split; [exact H2|split; [now left|]]].
    + apply (inv_mode_on base (set_a_modem (raise (a_modem t)) t) MODEM); [now apply inv_modem_up|].
      right. right. left. split; [reflexivity|]. cbn. apply raise_01, H1.
    + cbn [a_mode set_a_mode set_a_modem]. rewrite modes_of_next, Ht. reflexivity.
Qed.

(** The access point after the restart: as before, or given up. *)
Lemma restart_moved st reason t : (a_mode s &? WIFI_AP) = true -> modem_moved st t ->
  spec (X := X) (set_a_ap 0 t) (restart_ap st reason)
    (fun r s' => inv base s' /\ a_replies s' = a_replies s /\
       e_modem_connect (modes_of (a_mode s)) (fst r =? COMMAND_OK) (modes_of (a_mode s'))).
Proof.
  intros Hap (H1 & H2 & Hst & H3). eapply spec_mono; [apply restart_ap_spec|]. cbv beta.
  assert (Hoff : forall v, state01 v ->
    inv base (set_a_ap v (set_a_mode (next_mode WIFI_AP STOP (a_mode t)) t))).
  { intros v Hv. apply inv_ap_set; [now apply inv_mode_off|exact Hv|].
    cbn [a_mode set_a_mode]. rewrite modes_of_next. discriminate. }
  intros [st' rs] s' [[Hst' ->]|[Hst' Hs']]; cbn [fst] in Hst' |- *; subst st'.
  - split; [apply (inv_ap_set base t 1 H1); [now right|auto]|]. split; [exact H2|].
    cbn [a_mode set_a_ap]. rewrite H3.
    destruct Hst as [-> | ->]; [reflexivity|]. do 2 eexists. split; [reflexivity|]. auto.
  - assert (Hm : modes_of (next_mode WIFI_AP STOP (a_mode t)) = mk_modes (m_wifi (modes_of (a_mode s))) false
                   (st =? COMMAND_OK) (m_eth (modes_of (a_mode s))))
      by (rewrite modes_of_next, H3; reflexivity).
    split; [destruct Hs' as [-> | ->]; [apply (Hoff 0); now left|apply (Hoff 1); now right]|].
    split; [destruct Hs' as [-> | ->]; exact H2|].
    replace (a_mode s') with (next_mode WIFI_AP STOP (a_mode t)) by (destruct Hs' as [-> | ->]; reflexivity).
    rewrite Hm. do 2 eexists. split; [reflexivity|]. unfold modes_of. cbn. rewrite Hap.
    destruct Hst as [-> | ->]; cbn; auto.
Qed.

Lemma start_modem_does : does netmanager_start_modem e_modem_connect.
Proof using Hi.
  unfold netmanager_start_modem. spec_step.
  eapply spec_bind
    with (r := fun _ s' => s' = set_a_ap (if a_mode s &? WIFI_AP then 0 else a_ap s) s).
  { apply spec_when; intros ->; [|now destruct s]. spec_step. apply spec_keeps; intros; keepsg. }
  intros ? ? ->.
  eapply spec_bind; [apply start_modem_device_spec|]. intros [st rs] s' (t & -> & Ht). cbn [fst] in Ht.
  destruct (a_mode s &? WIFI_AP) eqn:Hap.
  - eapply spec_bind; [now apply restart_moved|]. intros [st' rs'] s2 (H1 & H2 & H3).
    repeat spec_step. eapply post_replied; eassumption.
  - destruct Ht as (H1 & H2 & Hst & H3). repeat spec_step.
    eapply post_replied; [eassumption| |exact H2|].
    + apply inv_ap_set; [exact H1|apply Hi|]. rewrite H3. unfold modes_of. cbn. congruence.
    + cbn [a_mode set_a_ap]. rewrite H3. destruct Hst as [-> | ->]; [reflexivity|].
      do 2 eexists. split; [reflexivity|]. auto.
Qed.
End Handlers2.

(** ** Every row of the table, and the dispatcher *)

(** A request that is refused changes nothing and is answered [NOK]. *)
Definition e_reject : effect := fun m ok m' => ok = false /\ m' = m.

Definition names_eqb (a b : string * string) : bool :=
  String.eqb (fst a) (fst b) && String.eqb (snd a) (snd b).

(** The effect of the request that names a device and a command. *)
Definition effect_of (cmd : option (string * string)) : effect :=
  match cmd with
  | None => e_reject
  | Some c => match find (fun row => names_eqb (fst row) c) contracts with
              | Some (_, e) => e
              | None => e_reject
              end
  end.

(** The device and the command a JSON request names, as the code copies them. *)
Definition request_of {J : JsonC} (obj : option jobj) : option (string * string) :=
  match json_object_object_get_ex obj "device", json_object_object_get_ex obj "command" with
  | Some d, Some c =>
      match json_object_get_string d, json_object_get_string c with
      | Some d, Some c => Some (strncpy 63 d, strncpy 63 c)
      | _, _ => None
      end
  | _, _ => None
  end.

Section Table.
Context {X : Type} {E : Env X} {F : Fuel} {J : JsonC}.

Definition implements (row : string * string * (option jobj -> M (world X) Z))
    (c : string * string * effect) : Prop :=
  fst row = fst c /\
  forall obj base s, inv base s -> spec s (snd row obj) (post base s (snd c)).

Lemma table_implements : Forall2 implements ctrl_cmd contracts.
Proof.
  repeat constructor; cbn [snd fst]; intros;
    auto using get_net_capacity_does, get_net_mode_does, report_all_status_does,
      start_wifi_scan_does, stop_wifi_scan_does, get_wifi_scan_result_does, stop_wifi_station_does,
      start_wifi_station_does, start_wifi_ap_does, stop_wifi_ap_does, start_modem_does,
      stop_modem_does, start_etherent_does, stop_etherent_does, get_network_status_does,
      get_wifi_status_does, get_etherent_status_does, get_modem_status_does,
      get_config_network_does, save_config_does, remove_network_does, enable_all_does,
      disable_all_does, reset_dns_does, remove_all_does.
Qed.

(** The dispatcher's search, against a table with the same names. *)
Lemma idx_loop_find rows cs c i :
  Forall2 implements rows cs ->
  match cmd_idx_loop (fst c) (snd c) rows i with
  | None => find (fun row => names_eqb (fst row) c) cs = None
  | Some k => exists row e, (i <= k)%nat /\ nth_error rows (k - i) = Some row /\
                find (fun row => names_eqb (fst row) c) cs = Some e /\ implements row e
  end.
Proof.
  intros H. revert i. induction H as [|[[d n] h] [[d' n'] e] rows cs [Hn Hh] H IH]; intros i; cbn; [reflexivity|].
  cbn in Hn. injection Hn as <- <-.
  change (String.eqb d (fst c) && String.eqb n (snd c)) with (names_eqb (d, n) c).
  destruct (names_eqb (d, n) c).
  - do 2 eexists. rewrite Nat.sub_diag. repeat split; auto.
  - specialize (IH (S i)). destruct (cmd_idx_loop _ _ rows (S i)) as [k|]; [|exact IH].
    destruct IH as (row & e' & Hk & Hnth & Hf & Hi). exists row, e'.
    replace (k - i)%nat with (S (k - S i)) by lia. repeat split; auto; [lia|apply Hi..].
Qed.

Lemma reject_spec base s : inv base s ->
  spec (X := X) s (netmanger_response_command COMMAND_NOK eREASON_COMMAND_FORMAT_ERROR ;; ret tt)
    (post base s e_reject).
Proof.
  intros Hi. repeat spec_step. split; [now apply inv_replies|].
  exists x. split; [reflexivity|]. destruct H0 as [[H _]|[_ [r ->]]]; [discriminate H|]. split; reflexivity.
Qed.

Lemma dispatch_spec base s obj cmd : inv base s ->
  spec (X := X) s
    match get_ctrl_cmd_idx cmd with
    | None => netmanger_response_command COMMAND_NOK eREASON_COMMAND_FORMAT_ERROR ;; ret tt
    | Some idx =>
        match nth_error ctrl_cmd idx with
        | Some (_, _, respond_func) => respond_func obj ;; ret tt
        | None => stop OutOfBounds
        end
    end
    (post base s (effect_of (Some cmd))).
Proof.
  intros Hi. pose proof (idx_loop_find _ _ cmd 0 table_implements) as H.
  unfold get_ctrl_cmd_idx, effect_of. destruct (cmd_idx_loop _ _ ctrl_cmd 0) as [k|].
  - destruct H as ([names h] & [names' e] & _ & Hn & -> & [_ Hh]).
    rewrite Nat.sub_0_r in Hn. rewrite Hn. destruct names.
    eapply spec_bind; [apply (Hh obj base s Hi)|]. intros a s' H. now apply spec_ret.
  - rewrite H. now apply reject_spec.
Qed.

Lemma handle_spec base s buf : inv base s ->
  spec (X := X) s (handle_net_command buf)
    (post base s (effect_of (request_of (json_tokener_parse buf)))).
Proof.
  intros Hi. unfold handle_net_command, request_of, get_cmd_str.
  set (obj := json_tokener_parse buf).
  destruct (json_object_object_get_ex obj "device") as [d|]; [|now apply reject_spec].
  destruct (json_object_object_get_ex obj "command") as [c|]; [|now apply reject_spec].
  destruct (json_object_get_string d), (json_object_get_string c); try apply spec_stop.
  apply spec_bind_ret. now apply dispatch_spec.
Qed.
End Table.
