(* ===== verification/CtrlProofs.v ===== *)
(** * Theorems about the commands and the scheduler

    Behaviour of single operations, on every branch: the mode word, the
    capacity check, dispatch, the stored networks, the scan list, the scheduler
    and start-up.  Several state how the code behaves outside the documented
    use: a request with a JSON null, a device the board does not have, a retry
    after a failed start. *)

From Stdlib Require Import ZArith List Bool Lia Ascii String.
From S2P Require Import Prelude CString CMonad Json NetEnv Demo ScanList WpaCommand WpaProofs Eloop.
From S2P Require Import Hal Report WifiEvent LinkEvent NetSwitch NetSched NetCtrl NetMain.
From S2P Require Import NetSpec NetContract.
Import ListNotations.
Import Modem Etherent Monitor.
Open Scope string_scope.
Open Scope Z_scope.

Section Ctrl.
Context {X : Type} {E : Env X} {F : Fuel} {J : JsonC}.

(** ** Modes and capacity *)

(** The mode word is a set of modes.  [network_set_mode] adds or removes one
    mode, the station and the access point excluding each other, and keeps the
    word in its four bits; it touches nothing else and makes no call. *)
Theorem network_set_mode_spec (mode start : Z) (w : world X) :
  0 <= g_network_mode (nmode (wg w)) < 16 ->
  exists m, network_set_mode mode start w =
      Ret tt (mk_world (set_nmode (set_g_network_mode m (nmode (wg w))) (wg w)) (wx w) (wlog w)) /\
    0 <= m < 16 /\
    modes_of m = next_modes mode start (modes_of (g_network_mode (nmode (wg w)))).
Proof.
  intros H. exists (next_mode mode start (g_network_mode (nmode (wg w)))). split; [reflexivity|].
  split; [now apply next_mode_range|apply modes_of_next].
Qed.

Lemma configure_refused (mode start : Z) (info : option mode_info) (w : world X) :
  mode_in_capacity (g_capacity (wg w)) mode <> 0 ->
  network_configure_net mode start info w =
    match info with
    | Some i => Ret (-1, Some (set_mi_reason eREASON_OUT_OF_CAPACITY i)) w
    | None => Fault NullDeref
    end.
Proof.
  intros H. unfold network_configure_net, is_mode_in_capacity, bind, get, gets, ret.
  apply Z.eqb_neq in H. rewrite H. destruct info; reflexivity.
Qed.

(** A device the board does not have.  Asked to start it, the manager
    refuses without any device call and with the documented reason; asked to
    stop it, it dereferences NULL, so that disconnecting an absent modem or
    Ethernet port crashes it. *)
Theorem absent_device_spec (w : world X) (mode start : Z) (i : mode_info) :
  (mode_in_capacity (g_capacity (wg w)) mode <> 0 ->
   network_configure_net mode start (Some i) w =
     Ret (-1, Some (set_mi_reason eREASON_OUT_OF_CAPACITY i)) w /\
   network_configure_net mode start None w = Fault NullDeref) /\
  (g_capacity (wg w) &? NET_CAPACITY_MODEM = false -> netmanager_stop_modem w = Fault NullDeref) /\
  (g_capacity (wg w) &? NET_CAPACITY_ETHERENT = false -> netmanager_stop_etherent w = Fault NullDeref).
Proof.
  split; [intros H; split; [exact (configure_refused mode start (Some i) w H)|exact (configure_refused mode start None w H)]|].
  split; intros H.
  - unfold netmanager_stop_modem, bind. rewrite configure_refused; [reflexivity|].
    unfold mode_in_capacity. rewrite H. discriminate.
  - unfold netmanager_stop_etherent, network_set_mode, bind, upd, modify. rewrite configure_refused; [reflexivity|].
    cbn -[mode_in_capacity]. unfold mode_in_capacity. rewrite H. discriminate.
Qed.

(** The names of the active modes, in the order of the reply. *)
Definition mode_names (m : modes) : list json :=
  ((if m_wifi m then [JStr "wifi"] else []) ++ (if m_ap m then [JStr "wifi_ap"] else []) ++
   (if m_modem m then [JStr "modem"] else []) ++ (if m_eth m then [JStr "etherent"] else []))%list.

(** [GET_MODE] tells the truth.  The command always answers, with exactly
    the active modes, and changes nothing. *)
Theorem get_mode_spec (w : world X) :
  exists x, netmanager_get_net_mode w =
    Ret 0 (mk_world (wg w) x
      (FloraReply (JObj [("result", JStr "OK");
         ("net_modes", JArr (mode_names (modes_of (g_network_mode (nmode (wg w))))))]) :: wlog w)).
Proof.
  unfold netmanager_get_net_mode, get_network_mode, network_ipc_return, exec_, exec, bind, get, gets. cbn -[has].
  destruct (ext _ (wx w)) as [u x]. exists x. unfold mode_names, modes_of, flag_names. cbn -[has].
  repeat destruct (has _ _); reflexivity.
Qed.

(** ** Dispatch *)

Lemma cmd_idx_find (device command : string) rows (i : nat) (h : option jobj -> M (world X) Z) :
  NoDup (map fst rows) -> In (device, command, h) rows ->
  exists k, cmd_idx_loop device command rows i = Some (i + k)%nat /\ nth_error rows k = Some (device, command, h).
Proof.
  revert i. induction rows as [|[[d c] h'] rows IH]; intros i Hn Hin; [contradiction|].
  inversion Hn as [|? ? Hout Hn']; subst. cbn [cmd_idx_loop]. destruct Hin as [Heq|Hin].
  - injection Heq as -> -> ->. rewrite !String.eqb_refl. exists 0%nat. split; [cbn; f_equal; lia|reflexivity].
  - destruct (String.eqb_spec d device) as [->|], (String.eqb_spec c command) as [->|];
      try (destruct (IH (S i) Hn' Hin) as (k & H1 & H2); exists (S k); split; [cbn; rewrite H1; f_equal; lia|exact H2]).
    destruct Hout. apply (in_map fst) in Hin. exact Hin.
Qed.

Lemma ctrl_cmd_nodup : NoDup (map fst ctrl_cmd).
Proof.
  cbn. repeat (constructor; [cbn; intros H; repeat (destruct H as [H|H]; [discriminate H|]); contradiction|]).
  constructor.
Qed.

Lemma ctrl_cmd_short d c h : In (d, c, h) ctrl_cmd -> (String.length d <= 63 /\ String.length c <= 63)%nat.
Proof. intros H. cbn in H. repeat (destruct H as [H|H]; [injection H as <- <- _; cbn; lia|]). contradiction. Qed.

(** Each command reaches its own handler.  A request whose device and
    command strings are those of a row of the table runs exactly that row's
    handler, on the parsed request. *)
Theorem dispatch_exact (buf d c : string) (h : option jobj -> M (world X) Z) (dev cmd : option jobj) (w : world X) :
  let obj := json_tokener_parse buf in
  json_object_object_get_ex obj "device" = Some dev -> json_object_get_string dev = Some d ->
  json_object_object_get_ex obj "command" = Some cmd -> json_object_get_string cmd = Some c ->
  In (d, c, h) ctrl_cmd ->
  handle_net_command buf w = (h obj ;; ret tt) w.
Proof.
  cbv zeta. intros H1 H2 H3 H4 Hin. destruct (ctrl_cmd_short d c h Hin) as [Hd Hc].
  unfold handle_net_command, get_cmd_str. rewrite H1, H3, H2, H4. unfold strncpy. rewrite !substring_all by exact Hd || exact Hc.
  unfold get_ctrl_cmd_idx. cbn [fst snd].
  destruct (cmd_idx_find d c ctrl_cmd 0 h ctrl_cmd_nodup Hin) as (k & Hk & Hn).
  unfold bind at 1, ret at 1. cbn [fst snd]. rewrite Hk. cbn [Nat.add]. rewrite Hn. reflexivity.
Qed.

(** A JSON null crashes the manager.  When the device or the command of a
    request is a JSON null, [strncpy] reads through a NULL pointer. *)
Theorem null_field_faults (buf : string) (dev cmd : option jobj) (w : world X) :
  let obj := json_tokener_parse buf in
  json_object_object_get_ex obj "device" = Some dev -> json_object_object_get_ex obj "command" = Some cmd ->
  json_object_get_string dev = None \/ json_object_get_string cmd = None ->
  handle_net_command buf w = Fault NullDeref.
Proof.
  cbv zeta. intros H1 H2 H3. unfold handle_net_command, get_cmd_str, bind. rewrite H1, H2.
  destruct H3 as [->| ->]; [reflexivity|]. destruct (json_object_get_string dev); reflexivity.
Qed.

(** ** Stored networks *)

Lemma fold_lines_filter {A R} (cap : Z) (f : string -> bool) (g : string -> A) (ls : list string) (acc : list A) :
  Forall (fun l => strlen l < cap) ls ->
  fold_lines (R := R) cap ls (fun l ids => if f l then Next (ids ++ [g l])%list else Next ids) acc =
    Done (acc ++ map g (filter f ls))%list.
Proof.
  intros H. revert acc. induction H as [|l ls Hl _ IH]; intros acc; cbn; [now rewrite app_nil_r|].
  apply Z.ltb_lt in Hl. rewrite Hl. destruct (f l); rewrite IH; [|reflexivity].
  cbn. now rewrite <- app_assoc.
Qed.

Lemma strstr_suffix (h n c : string) : strstr h n = Some c -> exists r, c = n ++ r.
Proof.
  induction h as [|a h IH]; intros H; cbn [strstr] in H; destruct (prefix n _) eqn:Ep.
  1,3: injection H as <-; apply prefix_spec, Ep.
  - discriminate H.
  - apply IH, H.
Qed.

Lemma line_names_spec (ssid l : string) :
  line_names ssid l = true <-> exists r, strstr l ssid = Some (ssid ++ String TAB r).
Proof.
  unfold line_names. split.
  - destruct (strstr l ssid) as [c|] eqn:Es; [|discriminate]. destruct (strstr_suffix _ _ _ Es) as [r ->].
    rewrite advance_app. destruct r as [|t r]; [discriminate|]. cbn. intros Ht.
    apply Ascii.eqb_eq in Ht as ->. eauto.
  - intros [r ->]. rewrite advance_app. reflexivity.
Qed.

(** Which stored networks [REMOVE] removes.  On a list whose lines fit the
    line buffer the loop ends, and an id is removed exactly when it begins a
    line, after the heading, in which the first occurrence of the given name is
    followed by a tab. *)
Theorem ids_to_remove_spec (ssid reply : string) :
  Forall (fun l => strlen l < 512) (tl (lines reply)) ->
  exists ids, ids_to_remove ssid reply = Some (Done ids) /\
    forall id, In id ids <-> exists l r,
      In l (tl (lines reply)) /\ strstr l ssid = Some (ssid ++ String TAB r) /\ id = atoi l.
Proof.
  intros H. exists (map atoi (filter (line_names ssid) (tl (lines reply)))). split.
  - unfold ids_to_remove. rewrite for_lines_fold by lia.
    change (skipn (Z.to_nat 1) (lines reply)) with (skipn 1 (lines reply)).
    replace (skipn 1 (lines reply)) with (tl (lines reply)) by (destruct (lines reply); reflexivity).
    rewrite fold_lines_filter by exact H. reflexivity.
  - intros id. rewrite in_map_iff. split.
    + intros (l & <- & Hl). apply filter_In in Hl as [Hl Hn]. apply line_names_spec in Hn as [r Hr]. eauto.
    + intros (l & r & Hl & Hr & ->). exists l. split; [reflexivity|]. apply filter_In. split; [exact Hl|].
      apply line_names_spec. eauto.
Qed.

(** ** The scan list *)

(** The scan list can only be fetched while it is empty.  The call returns
    only when the scan found nothing, having answered the empty list; with one
    network or more it releases the items of the array twice, with more than
    32 it first writes past [item]. *)
Theorem wifilist_spec (w w1 : world X) (r : Z) (l : list wifi_scan_res) :
  wifi_get_scan_result w = Ret (r, l) w1 ->
  netmanager_get_wifi_scan_result w =
    (if 32 <? Z.of_nat (List.length l) then Fault BufferOverflow
     else match l with
          | [] => (network_ipc_return (JObj [("result", JStr "OK"); ("wifilist", JArr [])]) ;; ret 0) w1
          | _ => Fault UseAfterFree
          end).
Proof.
  intros H. unfold netmanager_get_wifi_scan_result, answer_scan_result, bind. rewrite H.
  destruct (32 <? _); [reflexivity|]. unfold network_ipc_return, exec_, exec, bind.
  destruct l; cbn [map]; match goal with |- context [ext ?c ?x] => destruct (ext c x) end; reflexivity.
Qed.

(** ** The scheduler *)

(** The modes are in range and exclude each other. *)
Definition modes_ok (g : globals) (l : list call) : Prop :=
  0 <= g_network_mode (nmode g) < 16 /\
  m_wifi (modes_of (g_network_mode (nmode g))) && m_ap (modes_of (g_network_mode (nmode g))) = false.

#[local] Instance modes_ok_quiet : Quiet modes_ok := fun _ _ _ _ H => H.
#[local] Instance modes_ok_wev : KeepsWev modes_ok := fun _ _ _ _ H => H.
#[local] Instance modes_ok_mev : KeepsMev modes_ok := fun _ _ _ _ H => H.
#[local] Instance modes_ok_eev : KeepsEev modes_ok := fun _ _ _ _ H => H.
#[local] Instance modes_ok_mon : KeepsMon modes_ok := fun _ _ _ _ H => H.
Local Notation K m := (keepsg (X := X) modes_ok m).

Lemma network_set_mode_keeps mode start : K (network_set_mode mode start).
Proof.
  apply keepsg_upd. intros g l [H1 H2]. split; [apply next_mode_range, H1|].
  cbn [set_nmode nmode set_g_network_mode g_network_mode]. rewrite modes_of_next. unfold next_modes.
  repeat break_match; cbn [m_wifi m_ap]; rewrite ?andb_false_r; auto.
Qed.

Lemma put_nmode_keeps v : K (put_nmode (set_wifi_init_mode_flag v)).
Proof. apply keepsg_upd. intros g l H. exact H. Qed.
#[local] Hint Resolve network_set_mode_keeps put_nmode_keeps : keeps.

(** The scheduler keeps the modes consistent.  A decision of
    [network_sched_net] that returns, in any environment, leaves the mode word
    in its four bits and never has the station and the access point active at
    once. *)
Theorem sched_keeps_modes (w w' : world X) :
  modes_ok (wg w) (wlog w) -> network_sched_net w = Ret tt w' -> modes_ok (wg w') (wlog w').
Proof.
  intros H Hr. assert (Hk : K network_sched_net) by keepsg_deep.
  exact (keeps_Ret _ _ _ _ _ Hk Hr H).
Qed.

(** The modes other than the modem. *)
Definition others (a b c : bool) (g : globals) (l : list call) : Prop :=
  let m := modes_of (g_network_mode (nmode g)) in m_wifi m = a /\ m_ap m = b /\ m_eth m = c.

#[local] Instance others_quiet a b c : Quiet (others a b c) := fun _ _ _ _ H => H.
#[local] Instance others_wev a b c : KeepsWev (others a b c) := fun _ _ _ _ H => H.
#[local] Instance others_mev a b c : KeepsMev (others a b c) := fun _ _ _ _ H => H.
#[local] Instance others_eev a b c : KeepsEev (others a b c) := fun _ _ _ _ H => H.
#[local] Instance others_mon a b c : KeepsMon (others a b c) := fun _ _ _ _ H => H.

Lemma others_modem a b c start : keepsg (X := X) (others a b c) (network_set_mode MODEM start).
Proof.
  apply keepsg_upd. intros g l H. unfold others in *. cbn [set_nmode nmode set_g_network_mode g_network_mode].
  rewrite modes_of_next. exact H.
Qed.
#[local] Hint Resolve others_modem : keeps.

(** Where a computation leads from the states of a view. *)
Definition leads (I : view) (Q : world X -> Prop) {A} (m : M (world X) A) : Prop :=
  forall w, I (wg w) (wlog w) -> match m w with Ret _ w' => Q w' | Fault _ => True end.

Lemma leads_bind (I : view) (Q : world X -> Prop) {A B} (m : M (world X) A) (k : A -> M (world X) B) :
  keepsg I m -> (forall a, leads I Q (k a)) -> leads I Q (bind m k).
Proof.
  intros Hm Hk w Hw. unfold bind. specialize (Hm w Hw). destruct (m w) as [a w'|]; [apply Hk, Hm|exact Logic.I].
Qed.

(** Switching to the modem always claims the modem.  When
    [network_change_to_modem] returns, the modem is recorded as active whatever
    the device answered to the start, and the other modes are as before. *)
Theorem change_to_modem_spec (w w' : world X) (r : Z) :
  network_change_to_modem w = Ret r w' ->
  modes_of (g_network_mode (nmode (wg w'))) =
    next_modes MODEM START (modes_of (g_network_mode (nmode (wg w)))).
Proof.
  intros Hr. set (m := modes_of (g_network_mode (nmode (wg w)))).
  assert (H : leads (others (m_wifi m) (m_ap m) (m_eth m))
    (fun w => modes_of (g_network_mode (nmode (wg w))) = next_modes MODEM START m) network_change_to_modem).
  { unfold network_change_to_modem.
    do 4 (apply leads_bind; [keepsg_deep|intros ?]). intros w1 (Ha & Hb & Hc).
    unfold network_set_mode, bind, upd, modify, ret. cbn [wg nmode set_nmode set_g_network_mode g_network_mode].
    rewrite modes_of_next. unfold next_modes. cbn -[modes_of]. now rewrite Ha, Hb, Hc. }
  specialize (H w (conj eq_refl (conj eq_refl eq_refl))). rewrite Hr in H. exact H.
Qed.

(** ** Start-up *)

(** A board has a modem or an Ethernet port, not both.  Whatever the
    hardware modules answer, initialising them never faults and the Ethernet
    module is only tried when the modem's failed to open, so that the
    capacities never contain both. *)
Theorem init_hals_spec (w : world X) :
  g_capacity (wg w) = 0 ->
  exists flags w', init_hals w = Ret flags w' /\
    (g_capacity (wg w') &? NET_CAPACITY_MODEM) && (g_capacity (wg w') &? NET_CAPACITY_ETHERENT) = false.
Proof.
  intros H0. unfold init_hals, wifi_hal_init, modem_hal_init, etherent_hal_init, hal_init,
    get_wifi_capacity, get_modem_capacity, get_etherent_capacity, wifi_hal_get_capacity, modem_hal_get_capacity,
    etherent_hal_get_capacity, add_capacity, exec, bind, when, ret, get, gets, upd, modify. cbn -[has].
  repeat (match goal with
    | |- context [ext ?c ?x] => destruct (ext c x)
    | |- context [?z =? 0] => destruct (z =? 0)
    end; cbn -[has]).
  all: do 2 eexists; (split; [reflexivity|]); cbn -[has]; rewrite ?H0; reflexivity.
Qed.

(** A command that arrives during start-up crashes the manager.  The command
    channel is open before the timers exist, and the scan and station commands
    use the scan timer without a check. *)
Theorem early_command_faults (x : X) (l : list call) :
  let w := mk_world init_globals x l in
  netmanager_stop_wifi_scan w = Fault NullDeref /\ netmanager_stop_wifi_station w = Fault NullDeref.
Proof. split; reflexivity. Qed.
End Ctrl.

(** ** Runs *)

Section Runs.
#[local] Instance r_fuel : Fuel := 5%nat.

(** The state a computation returns in. *)
Definition after {A} (o : outcome (world unit) A) : world unit :=
  match o with Ret _ w => w | Fault _ => nothing end.

(** The manager started on the devices of a script, and a command. *)
Definition boot (sc : script) : world unit :=
  after (main_init (E := scripted sc) 3 (mk_world init_globals tt [])).

Definition send (sc : script) (buf : string) (w : world unit) : outcome (world unit) unit :=
  handle_net_command (E := scripted sc) buf w.

Definition last_reply (w : world unit) : option json := hd_error (replies (wlog w)).

Lemma network_set_mode_spec_witness :
  exists m, network_set_mode WIFI_AP START (mk_world (set_nmode (mk_net_mode 13 0) init_globals) tt []) =
    Ret tt (mk_world (set_nmode (mk_net_mode m 0) init_globals) tt []) /\ m = 14.
Proof.
  destruct (network_set_mode_spec WIFI_AP START (mk_world (set_nmode (mk_net_mode 13 0) init_globals) tt []))
    as (m & H1 & _); [cbn; lia|].
  exists m. split; [exact H1|]. vm_compute in H1. now injection H1 as <-.
Defined.

Lemma absent_device_spec_witness :
  netmanager_stop_modem (E := scripted wifi_only) (boot wifi_only) = Fault NullDeref.
Proof. apply (absent_device_spec (boot wifi_only) MODEM START zero_info). vm_compute. reflexivity. Defined.

Lemma dispatch_exact_witness :
  send all_works "NETWORK/GET_MODE" (boot all_works) =
    (netmanager_get_net_mode (E := scripted all_works) ;; ret tt) (boot all_works).
Proof.
  apply (dispatch_exact (E := scripted all_works) (J := slash_json) "NETWORK/GET_MODE" "NETWORK" "GET_MODE"
    (fun _ => netmanager_get_net_mode (E := scripted all_works)) (Some (JStr "NETWORK")) (Some (JStr "GET_MODE"))); try reflexivity.
  right; left; reflexivity.
Defined.

(** A reader whose document has a null device. *)
Definition null_json : JsonC := {|
  jobj := json;
  json_tokener_parse := fun _ => Some (JObj [("command", JStr "GET_MODE")]);
  json_object_object_get_ex := fun o k =>
    match o with
    | Some (JObj l) => if String.eqb k "device" then Some None
                       else match assoc_json k l with Some v => Some (Some v) | None => None end
    | _ => None
    end;
  json_object_get_string := fun o => match o with Some (JStr s) => Some s | _ => None end
|}.

Lemma null_field_faults_witness :
  handle_net_command (E := scripted all_works) (J := null_json) "{}" (boot all_works) = Fault NullDeref.
Proof.
  apply (null_field_faults (E := scripted all_works) (J := null_json) "{}" None (Some (JStr "GET_MODE")));
    [reflexivity|reflexivity|left; reflexivity].
Defined.

(** Two stored networks, one name ending in the other. *)
Definition two_networks : string :=
  "network id / ssid / bssid / flags" ++ String LF
  ("0" ++ String TAB ("home" ++ String TAB ("any" ++ String TAB ("[CURRENT]" ++ String LF
  ("1" ++ String TAB ("myhome" ++ String TAB ("any" ++ String TAB "")))))))%string.

Lemma ids_to_remove_spec_witness :
  exists ids, ids_to_remove "home" two_networks = Some (Done ids) /\ In 1 ids.
Proof.
  destruct (ids_to_remove_spec "home" two_networks) as (ids & H1 & H2);
    [vm_compute; repeat constructor|].
  exists ids. split; [exact H1|]. apply H2. eexists _, _. split; [right; left; reflexivity|].
  split; vm_compute; reflexivity.
Defined.

Lemma wifilist_spec_witness :
  netmanager_get_wifi_scan_result (E := scripted no_ap) (boot no_ap) =
    (network_ipc_return (E := scripted no_ap) (JObj [("result", JStr "OK"); ("wifilist", JArr [])]) ;; ret 0)
      (after (wifi_get_scan_result (E := scripted no_ap) (boot no_ap))).
Proof.
  exact (wifilist_spec (E := scripted no_ap) (boot no_ap)
    (after (wifi_get_scan_result (E := scripted no_ap) (boot no_ap))) _ [] eq_refl).
Defined.

Lemma sched_keeps_modes_witness :
  exists w', network_sched_net (E := scripted all_works) (boot all_works) = Ret tt w' /\ modes_ok (wg w') (wlog w').
Proof.
  eexists. split; [vm_compute; reflexivity|].
  apply (sched_keeps_modes (E := scripted all_works) (boot all_works)); [|vm_compute; reflexivity].
  split; [vm_compute; intuition congruence|reflexivity].
Defined.

(** A modem that cannot be switched on. *)
Definition dead_modem : script :=
  mk_script (fun c => match c with ModemOn => -1 | _ => 0 end) wpa_works (1, "") [] ([], TimedOut) (fun _ => None).

Lemma change_to_modem_spec_witness :
  exists w', network_change_to_modem (E := scripted dead_modem) (boot dead_modem) = Ret 0 w' /\
    m_modem (modes_of (g_network_mode (nmode (wg w')))) = true.
Proof.
  eexists. split; [vm_compute; reflexivity|].
  erewrite (change_to_modem_spec (E := scripted dead_modem) (boot dead_modem)); [|vm_compute; reflexivity].
  reflexivity.
Defined.

Lemma init_hals_spec_witness :
  exists flags w', init_hals (E := scripted all_works) (mk_world init_globals tt []) = Ret flags w' /\
    g_capacity (wg w') = 3.
Proof.
  destruct (init_hals_spec (E := scripted all_works) (mk_world init_globals tt []) eq_refl) as (f & w' & H1 & _).
  exists f, w'. split; [exact H1|]. vm_compute in H1. now injection H1 as <- <-.
Defined.

(** The replies so far, the latest first, and how often a call was made. *)
Definition starts_of_ap (w : world unit) : nat :=
  List.length (filter (fun c => match c with WifiStartAp _ _ _ => true | _ => false end) (wlog w)).

(** A retry hides a failed access point.  On a board whose access point
    does not start, the first [WIFI_AP CONNECT] is answered NOK; the same
    command again is answered OK and records the access-point mode without
    trying the device. *)
Theorem ap_retry_reports_ok :
  let cmd := "WIFI_AP/CONNECT/guest/12345678/192.168.2.1/0" in
  exists w1 w2, send no_ap cmd (boot no_ap) = Ret tt w1 /\ send no_ap cmd w1 = Ret tt w2 /\
    last_reply w1 = Some (nok_reply "WIFI_HOSTAPD_ENABLE_FAIL") /\ last_reply w2 = Some ok_reply /\
    g_network_mode (nmode (wg w2)) = WIFI_AP /\ starts_of_ap w2 = 1%nat.
Proof.
  cbv zeta. exists (after (send no_ap "WIFI_AP/CONNECT/guest/12345678/192.168.2.1/0" (boot no_ap))).
  eexists. do 5 (split; [vm_compute; reflexivity|]). vm_compute. reflexivity.
Qed.

(** wpa_supplicant with the two stored networks. *)
Definition two_stored : script :=
  mk_script (fun _ => 0)
    (fun r => if String.eqb r "LIST_NETWORKS" then Some two_networks else wpa_works r)
    (1, "") [] ([], TimedOut) (fun _ => None).

(** Removing a network also removes those whose name ends in its name.
    With "home" and "myhome" stored, removing "home" removes both. *)
Theorem remove_matches_suffix :
  exists w', send two_stored "WIFI/REMOVE/home/" (boot two_stored) = Ret tt w' /\
    last_reply w' = Some ok_reply /\
    In (WpaCtrlRequest "REMOVE_NETWORK 0") (wlog w') /\ In (WpaCtrlRequest "REMOVE_NETWORK 1") (wlog w').
Proof.
  exists (after (send two_stored "WIFI/REMOVE/home/" (boot two_stored))).
  do 2 (split; [vm_compute; reflexivity|]).
  split; vm_compute; repeat (first [left; reflexivity|right]).
Qed.

(** A long network name overruns the credentials.  A request keeps up to 63
    bytes of the name, and the connect copies them into the 36 bytes of
    [wifi_network.ssid]: a name of 36 bytes overflows, one of 35 connects. *)
Theorem long_ssid_overflows :
  let name := "0123456789012345678901234567890123456" in
  send all_works ("WIFI/CONNECT/" ++ substring 0 36 name ++ "/12345678") (boot all_works) = Fault BufferOverflow /\
  exists w', send all_works ("WIFI/CONNECT/" ++ substring 0 35 name ++ "/12345678") (boot all_works) = Ret tt w' /\
    last_reply w' = Some ok_reply.
Proof.
  cbv zeta. split; [vm_compute; reflexivity|].
  eexists. split; vm_compute; reflexivity.
Qed.
End Runs.
