(* ===== verification/NetSystem.v ===== *)
(** * The running manager as a transition system

    After [main] has initialised it, the manager reacts to commands, to timers
    and to the work of its threads.  A timer expires in two steps, as in
    libeloop: the expiry queues the timer, the event loop later runs its
    callback.  Commands and the access-point callback exclude each other
    through [func_mutex]; the pieces of work other threads do while a command
    waits are part of the command.  A callback and a round of a thread are one
    step each, the restart of the modem with its pause of 50 ms too, and the
    commands that arrive before the end of [network_set_initmode], for which the
    channel is already open, are left out: they find the timers missing
    ([CtrlProofs.early_command_faults]) or run beside the choice of the first mode, which
    takes no mutex, and the invariant is then lost ([early_ap_gets_station]). *)

From Stdlib Require Import ZArith List Bool Lia Ascii String.
From S2P Require Import Prelude CString CMonad Json NetEnv Demo WpaCommand Eloop Hal Report WifiEvent.
From S2P Require Import LinkEvent NetSwitch NetSched NetCtrl NetMain NetSpec NetContract.
Import ListNotations.
Import Modem Etherent Monitor.
Open Scope string_scope.
Open Scope Z_scope.

Section System.
Context {X : Type} {E : Env X} {F : Fuel} {J : JsonC}.
Local Notation Mw := (M (world X)).

(** A world and the timers whose callback is queued. *)
Record system := mk_system { sys_world : world X; sys_queue : list Z }.

(** The callbacks registered with [eloop_timer_add]. *)
Definition run_callback (cb : string) : Mw unit :=
  if String.eqb cb "wifi_trigger_scan" then wifi_trigger_scan
  else if String.eqb cb "wifi_connecting_network" then wifi_connecting_network
  else if String.eqb cb "modem_event_monitor" then modem_event_monitor
  else if String.eqb cb "wifi_change_to_station" then wifi_change_to_station
  else ret tt.

(** [schd_timer_sync_handler]: the queued timer is dereferenced. *)
Definition schd_timer_sync_handler (id : Z) : Mw unit :=
  t <- deref_timer id ;;
  run_callback (st_cb t).

(** The kernel timer of [id] goes off: a one-shot timer is disarmed. *)
Definition timer_goes_off (id : Z) (g : globals) : globals :=
  match find_timer id (timers g) with
  | Some t => if period_ms t =? 0 then arm_timer (id, false) g else g
  | None => g
  end.

Inductive label :=
| Command (buf : string)
| Thread (s : tstep)
| Expire (id : Z)
| RunTimer.

Inductive step : system -> label -> system -> Prop :=
| step_command w q buf w' :
    handle_net_command buf w = Ret tt w' ->
    step (mk_system w q) (Command buf) (mk_system w' q)
| step_thread w q t w' :
    run_step t w = Ret tt w' ->
    step (mk_system w q) (Thread t) (mk_system w' q)
| step_expire g x l q id :
    armed id g = true ->
    step (mk_system (mk_world g x l) q) (Expire id)
         (mk_system (mk_world (timer_goes_off id g) x l) (q ++ [id])%list)
| step_run w id q w' :
    schd_timer_sync_handler id w = Ret tt w' ->
    step (mk_system w (id :: q)) RunTimer (mk_system w' q).

(** States reachable from the end of [main]'s initialisation, without the commands
    that arrive before it. *)
Inductive reachable (x0 : X) (level : Z) : system -> Prop :=
| reach_init flags w :
    main_init level (mk_world init_globals x0 []) = Ret (Some flags) w ->
    reachable x0 level (mk_system w [])
| reach_step s l s' :
    reachable x0 level s -> step s l s' -> reachable x0 level s'.
End System.

(** ** The invariant *)

Section SystemInv.
Context {X : Type} {E : Env X} {F : Fuel} {J : JsonC}.

(** The callback of the access-point timer. *)
Lemma change_to_station_spec base s : inv base s ->
  spec (X := X) s wifi_change_to_station
    (fun _ s' => inv base s' /\ a_replies s' = a_replies s /\ a_tmo s' = 0 /\ a_sta s' = 1 /\ a_ap s' = 0 /\
       m_ap (modes_of (a_mode s')) = false).
Proof.
  intros Hi. unfold wifi_change_to_station. repeat spec_step.
  eapply spec_mono; [apply free_ap_timer_spec|]. cbv beta. intros ? s' [Hin ->].
  destruct (left_ap_stop base s Hi) as (H1 & H2 & H3).
  set (s1 := set_a_mode (next_mode WIFI_AP STOP (a_mode s)) (device_down WIFI_AP s)) in *.
  assert (Hm : m_ap (modes_of (a_mode s1)) = false) by (now rewrite H3).
  pose proof (inv_sta_up base s1 H1 Hm) as H4.
  split; [eapply inv_freed; [right; split; [exact Hin|reflexivity]|exact H4]|].
  repeat split; auto. cbn. apply raise_01, Hi.
Qed.

Lemma modem_monitor_spec base s : inv base s ->
  spec (X := X) s modem_event_monitor (fun _ s' => inv base s' /\ a_replies s' = a_replies s).
Proof.
  intros Hi. eapply spec_mono; [apply modem_monitor_jolts|]. intros ? s' Hj.
  split; [eapply inv_jolted; eassumption|apply (jolted_same _ _ Hj)].
Qed.

(** ** Initialisation *)

(** A state in which no Wi-Fi has been started and no access-point timer
    exists. *)
Definition fresh (s : abs) : Prop :=
  inv (a_ids s) s /\ a_tmo s = 0 /\ a_tid s = 0 /\ a_sta s = 0 /\
  m_ap (modes_of (a_mode s)) = false.

Lemma fresh_inv s : fresh s -> inv (a_ids s) s.
Proof. now intros (H & _). Qed.

Lemma put_net_keeps p f : (forall n, wifi_ap_timeout (f n) = wifi_ap_timeout n) ->
  keepsg (X := X) (av p) (put_net f).
Proof.
  intros Hf. apply keepsg_upd. intros g l H. unfold av, abst in *. cbn. rewrite Hf. exact H.
Qed.

Lemma zero_net_spec s : a_tid s = 0 ->
  spec (X := X) s (put_net (fun _ => zero_service)) (fun _ s' => s' = s).
Proof.
  intros H w Hs Hw. cbn. split; [exact Hs|]. unfold absw, abst in *. cbn.
  rewrite <- Hw in H |- *. cbn in H. now rewrite H.
Qed.

Lemma fresh_add s cb t p : fresh s ->
  spec (X := X) s (eloop_timer_add cb t p)
    (fun _ s' => fresh s' /\ (List.length (a_ids s') <= S (List.length (a_ids s)))%nat).
Proof.
  intros (Hi & H1 & H2 & H3 & H4). eapply spec_mono; [apply timer_add_spec|]. cbv beta.
  intros id s' [[_ ->]|[_ ->]]; [repeat (split; auto)|].
  split; [|cbn; rewrite length_app; cbn; lia]. split; [|repeat split; assumption].
  destruct Hi as [Ha Hb [Hc Hd He Hf]]. split; [exact Ha|exact Hb|]. cbn. split.
  - apply Forall_snoc. split; [eapply Forall_impl; [|exact Hc]; cbn; lia|lia].
  - rewrite in_app_iff. cbn. rewrite H2 in *. intros [H|[H|[]]]; [auto|lia].
  - lia.
  - left. auto.
Qed.

Lemma parm_init_spec s : fresh s ->
  spec (X := X) s network_parm_init
    (fun _ s' => fresh s' /\ (List.length (a_ids s') <= 3 + List.length (a_ids s))%nat).
Proof.
  intros Hf. unfold network_parm_init. eapply spec_bind; [apply zero_net_spec, Hf|].
  intros ? ? ->. do 4 (apply spec_skip; [intros; apply put_net_keeps; reflexivity|intros ?]).
  do 3 (eapply spec_bind; [eapply fresh_add; eassumption|]; intros ? ? [? ?]; cbv beta in *;
        apply spec_skip; [intros; apply put_net_keeps; reflexivity|intros ?]).
  repeat spec_step. split; [assumption|lia].
Qed.

Lemma put_init_flag_keeps p v : keepsg (X := X) (av p) (put_nmode (set_wifi_init_mode_flag v)).
Proof. apply keepsg_upd. exact (fun g l H => H). Qed.

Lemma both_ok_spec s (a b : M (world X) Z) f :
  spec s a (fun _ s' => s' = f s) -> (forall p, keepsg (av p) b) ->
  spec s (both_ok a b) (fun _ s' => s' = f s).
Proof.
  intros Ha Hb. unfold both_ok. eapply spec_bind; [exact (either_fails_spec s a b f Ha Hb)|].
  intros bad s' ->. now apply spec_ret.
Qed.

Lemma fresh_modem s : fresh s ->
  fresh (set_a_modem (raise (a_modem s)) s) /\
  fresh (set_a_mode (next_mode MODEM START (a_mode s)) (set_a_modem (raise (a_modem s)) s)).
Proof.
  intros (Hi & H1 & H2 & H3 & H4). apply inv_modem_up in Hi as Hu.
  split; (split; [|repeat split; auto]); [exact Hu| |].
  - apply (inv_mode_on _ _ MODEM Hu). right. right. left. split; [reflexivity|]. apply raise_01, Hi.
  - cbn [a_mode set_a_mode]. rewrite modes_of_next. exact H4.
Qed.

Lemma fresh_eth s : fresh s ->
  fresh (set_a_eth (raise (a_eth s)) s) /\
  fresh (set_a_mode (next_mode ETHERENT START (a_mode s)) (set_a_eth (raise (a_eth s)) s)).
Proof.
  intros (Hi & H1 & H2 & H3 & H4). apply inv_eth_up in Hi as Hu.
  split; (split; [|repeat split; auto]); [exact Hu| |].
  - apply (inv_mode_on _ _ ETHERENT Hu). right. right. right. split; [reflexivity|]. apply raise_01, Hi.
  - cbn [a_mode set_a_mode]. rewrite modes_of_next. exact H4.
Qed.

Lemma init_modem_spec s mode : fresh s -> spec (X := X) s (init_modem mode) (fun _ s' => fresh s' /\ a_ids s' = a_ids s).
Proof.
  intros Hf. unfold init_modem. spec_step. apply spec_when; [intros _|auto].
  eapply spec_bind; [apply (both_ok_spec s _ _ (fun s => set_a_modem (raise (a_modem s)) s));
                     [apply start_modem_spec|intros; keepsg]|].
  intros ok ? ->. apply spec_when; [intros _|intros; exact (conj (proj1 (fresh_modem s Hf)) eq_refl)].
  spec_step. eapply spec_mono; [apply set_mode_spec|]. intros ? ? ->. exact (conj (proj2 (fresh_modem s Hf)) eq_refl).
Qed.

Lemma init_etherent_spec s mode : fresh s -> spec (X := X) s (init_etherent mode) (fun _ s' => fresh s' /\ a_ids s' = a_ids s).
Proof.
  intros Hf. unfold init_etherent. spec_step. apply spec_when; [intros _|auto].
  eapply spec_bind; [apply (both_ok_spec s _ _ (fun s => set_a_eth (raise (a_eth s)) s));
                     [apply start_eth_spec|intros; keepsg]|].
  intros ok ? ->. apply spec_when; [intros _|intros; exact (conj (proj1 (fresh_eth s Hf)) eq_refl)].
  eapply spec_mono; [apply set_mode_spec|]. intros ? ? ->. exact (conj (proj2 (fresh_eth s Hf)) eq_refl).
Qed.

Lemma wifi_init_start_spec s : spec (X := X) s wifi_init_start
  (fun _ s' => s' = set_a_sta (raise (a_sta s)) s).
Proof.
  unfold wifi_init_start.
  eapply spec_bind; [apply (both_ok_spec s _ _ (fun s => set_a_sta (raise (a_sta s)) s));
                     [apply start_station_spec|intros; keepsg]|].
  intros ok ? ->. destruct ok; [apply spec_skip; [intros; apply put_init_flag_keeps|intros ?]|]; now apply spec_ret.
Qed.

Lemma wifi_ap_init_start_spec s : spec (X := X) s wifi_ap_init_start
  (fun _ s' => s' = set_a_ap (raise (a_ap s)) s \/
               s' = set_a_mode (next_mode WIFI_AP START (a_mode s)) (set_a_ap (raise (a_ap s)) s)).
Proof. unfold wifi_ap_init_start. repeat spec_step; auto. Qed.

Lemma init_wifi_spec s mode : fresh s ->
  spec (X := X) s (init_wifi mode) (fun _ s' => inv (a_ids s) s' /\ a_ids s' = a_ids s).
Proof.
  intros (Hi & H1 & H2 & H3 & H4).
  assert (Hs : inv (a_ids s) (set_a_sta (raise (a_sta s)) s)) by now apply inv_sta_up.
  assert (Ha : inv (a_ids s) (set_a_ap (raise (a_ap s)) s)) by now apply inv_ap_up.
  unfold init_wifi. spec_step. destruct (_ && _ && _).
  { eapply spec_bind; [apply wifi_init_start_spec|]. intros ? ? ->. now apply spec_ret. }
  spec_step. destruct (_ && _ && _).
  { eapply spec_bind; [apply wifi_ap_init_start_spec|]. intros ? ? [-> | ->]; apply spec_ret;
      (split; [|reflexivity]); [exact Ha|].
    apply (inv_mode_on _ _ WIFI_AP Ha). right. left. repeat split; [apply raise_01, Hi|exact H3]. }
  spec_step. apply spec_when; [intros _|auto].
  eapply spec_bind; [apply wifi_init_start_spec|]. intros ? ? ->.
  eapply spec_mono; [apply spec_keeps; intros; keepsg|]. intros ? ? ->. now split.
Qed.

Lemma set_initmode_spec s : fresh s ->
  spec (X := X) s network_set_initmode (fun _ s' => inv (a_ids s) s' /\ a_ids s' = a_ids s).
Proof.
  intros Hs. unfold network_set_initmode. spec_step.
  eapply spec_bind; [now apply init_modem_spec|]. intros ? s2 [Hs2 <-].
  eapply spec_bind; [now apply init_etherent_spec|]. intros ? s3 [Hs3 <-].
  eapply spec_bind; [now apply init_wifi_spec|]. intros ? s4 Hs4. cbv beta in Hs4.
  repeat spec_step. exact Hs4.
Qed.

Lemma add_capacity_keeps p c : keepsg (X := X) (av p) (add_capacity c).
Proof. apply keepsg_upd. exact (fun g l H => H). Qed.
Hint Resolve add_capacity_keeps : keeps.

Lemma main_init_spec s level : fresh s ->
  spec (X := X) s (main_init level)
    (fun _ s' => inv (a_ids s') s' /\ (List.length (a_ids s') <= 3 + List.length (a_ids s))%nat).
Proof.
  intros Hf. unfold main_init. spec_step. spec_step. destruct (_ <? 0).
  { apply spec_ret. split; [apply Hf|lia]. }
  apply spec_skip; [intros; unfold init_hals, get_wifi_capacity, get_modem_capacity, get_etherent_capacity;
    keepsg_deep|intros flags].
  eapply spec_bind; [now apply parm_init_spec|]. intros r s1 [Hs1 Hl].
  destruct (r <? 0). { apply spec_ret. split; [apply Hs1|exact Hl]. }
  eapply spec_bind; [now apply set_initmode_spec|]. intros ? s2 [Hs2 E2].
  repeat spec_step. rewrite E2. now split.
Qed.

(** ** Steps *)

Lemma run_callback_spec base s cb : inv base s ->
  spec (X := X) s (run_callback cb) (fun _ s' => inv base s').
Proof.
  intros Hi. unfold run_callback. repeat spec_step;
    try (eapply spec_mono; [apply spec_keeps; intros; keepsg_deep|]; now intros ? ? ->); auto.
  - eapply spec_mono; [apply (modem_monitor_spec base), Hi|]. now intros ? ? [].
  - eapply spec_mono; [apply (change_to_station_spec base), Hi|]. now intros ? ? [].
Qed.

Definition sys_inv (base : list Z) (s : system (X := X)) : Prop :=
  st_ok (wg (sys_world s)) /\ inv base (absw (sys_world s)).

(** Running a computation whose triple keeps the invariant. *)
Lemma spec_sys_inv {A} base w q q' (m : M (world X) A) a w' :
  (forall s, inv base s -> spec s m (fun _ s' => inv base s')) ->
  m w = Ret a w' -> sys_inv base (mk_system w q) -> sys_inv base (mk_system w' q').
Proof.
  intros Hm Hr [Hs Hi]. specialize (Hm (absw w) Hi w Hs eq_refl). now rewrite Hr in Hm.
Qed.

Lemma goes_off_abst id g l : abst (timer_goes_off id g) l = abst g l.
Proof.
  unfold timer_goes_off, arm_timer. repeat break_match; auto. unfold abst. cbn.
  now rewrite update_timer_ids.
Qed.

Lemma step_inv base s l s' : sys_inv base s -> step s l s' -> sys_inv base s'.
Proof.
  intros Hi Hst. destruct Hst as [w q buf w' Hr|w q t w' Hr|g x l q id Ha|w id q w' Hr].
  - eapply spec_sys_inv; [|exact Hr|exact Hi]. intros s Hs.
    eapply spec_mono; [apply (handle_spec base), Hs|]. now intros ? ? [].
  - eapply spec_sys_inv; [|exact Hr|exact Hi]. intros s Hs.
    eapply spec_mono; [apply run_step_jolts|]. intros ? s' Hj. exact (inv_jolted _ _ _ Hs Hj).
  - destruct Hi as [Hs Hi]. split; cbn in *.
    + unfold timer_goes_off. now repeat break_match.
    + unfold absw in *. cbn in *. now rewrite goes_off_abst.
  - eapply spec_sys_inv; [|exact Hr|exact Hi]. intros s Hs. unfold schd_timer_sync_handler.
    spec_step. now apply run_callback_spec.
Qed.

Lemma init_fresh : fresh (abst init_globals []).
Proof.
  split; [|repeat split]. split; cbn; [lia| |].
  - constructor; try (left; reflexivity); try reflexivity; discriminate.
  - constructor; cbn; auto; lia.
Qed.

(** The timers of the manager that has just been initialised. *)
Definition startup_timers (x0 : X) (level : Z) : list Z :=
  match main_init level (mk_world init_globals x0 []) with
  | Ret _ w => map fst (timers (wg w))
  | Fault _ => []
  end.

Lemma reachable_inv x0 level s : reachable x0 level s ->
  sys_inv (startup_timers x0 level) s /\ (List.length (startup_timers x0 level) <= 3)%nat.
Proof.
  induction 1 as [flags w Hm|s l s' _ [IH Hl] Hs].
  - pose proof (main_init_spec _ level init_fresh (mk_world init_globals x0 [])) as H.
    unfold startup_timers. rewrite Hm in H |- *. destruct H as [Hst (Hi & Hl)];
      [repeat split; now left|reflexivity|].
    split; [split; assumption|exact Hl].
  - split; [eapply step_inv; eassumption|exact Hl].
Qed.
End SystemInv.

(** ** Theorems *)

Section Theorems.
Context {X : Type} {E : Env X} {F : Fuel} {J : JsonC}.

(** C1: Every command implements its contract.  From a state that satisfies
    the invariant, whatever the devices, wpa_supplicant and the other threads
    do meanwhile, a command that returns keeps the invariant, sends exactly one
    reply, and changes the set of active modes as the contract of the device
    and command it names says, according to whether the reply is OK; a request
    that names no known command is answered NOK and changes nothing. *)
Theorem command_contract (base : list Z) (w w' : world X) (buf : string) :
  st_ok (wg w) -> inv base (absw w) ->
  handle_net_command buf w = Ret tt w' ->
  st_ok (wg w') /\ inv base (absw w') /\
  exists j, replies (wlog w') = j :: replies (wlog w) /\
    effect_of (request_of (json_tokener_parse buf))
      (modes_of (g_network_mode (nmode (wg w)))) (is_ok j)
      (modes_of (g_network_mode (nmode (wg w')))).
Proof.
  intros Hs Hi Hr. pose proof (handle_spec base _ buf Hi w Hs eq_refl) as H.
  rewrite Hr in H. destruct H as (H1 & H2 & j & H3 & H4). split; [exact H1|]. split; [exact H2|].
  exists j. auto.
Qed.

(** C2: The modes of the running manager.  In every state reachable from the end of
    [main]'s initialisation (no command having arrived before it), each command, callback
    and thread round taken as a whole: the mode word is in range, the station and the
    access point are never both modes, a mode is only set while the start flag of its
    device layer is set (the device has been asked to start and not to stop since;
    whether it refused is not recorded by the code), and while the access point is a mode
    the start flag of the station is clear. *)
Theorem reachable_modes (x0 : X) (level : Z) (s : system) :
  reachable x0 level s ->
  let g := wg (sys_world s) in
  let m := g_network_mode (nmode g) in
  0 <= m < 16 /\
  (m &? WIFI) && (m &? WIFI_AP) = false /\
  (m &? WIFI = true -> g_start_station_flag (hal g) = 1) /\
  (m &? WIFI_AP = true -> g_start_ap_flag (hal g) = 1 /\ g_start_station_flag (hal g) = 0) /\
  (m &? MODEM = true -> g_start_modem_flag (hal g) = 1) /\
  (m &? ETHERENT = true -> g_start_etherent_flag (hal g) = 1).
Proof.
  intros Hr. destruct (reachable_inv _ _ _ Hr) as ((_ & [Hm Ho _]) & _).
  exact (conj Hm (conj (ro_excl _ _ _ _ _ Ho) (conj (ro_wifi_up _ _ _ _ _ Ho)
    (conj (ro_ap_up _ _ _ _ _ Ho) (conj (ro_modem_up _ _ _ _ _ Ho) (ro_eth_up _ _ _ _ _ Ho)))))).
Qed.

(** C18: Timers do not leak and are not lost.  In every state reachable from the end of
    [main]'s initialisation (no command having arrived before it) the allocated timers are
    exactly those that [main] had created by then, at most three, in their order, and
    behind them the access-point timer exactly while [g_ap_timeout_flag] is set. *)
Theorem reachable_timers (x0 : X) (level : Z) (flags : Z * Z * Z) (w0 : world X) (s : system) :
  main_init level (mk_world init_globals x0 []) = Ret (Some flags) w0 ->
  reachable x0 level s ->
  let g := wg (sys_world s) in
  let created := map fst (timers (wg w0)) in
  (List.length created <= 3)%nat /\
  (g_ap_timeout_flag (ctrl g) = 0 /\ map fst (timers g) = created \/
   g_ap_timeout_flag (ctrl g) = 1 /\ map fst (timers g) = (created ++ [wifi_ap_timeout (net g)])%list /\
   ~ In (wifi_ap_timeout (net g)) created).
Proof.
  intros Hm Hr. destruct (reachable_inv _ _ _ Hr) as ((_ & [_ _ [_ Hn _ Hi]]) & Hl).
  unfold startup_timers in *. rewrite Hm in *. cbn in *. tauto.
Qed.

(** C31: In every reachable state the four reported connection states index the
    table of status names, so that no status report or answer reads outside it. *)
Theorem reachable_states (x0 : X) (level : Z) (s : system) (st : Z) :
  reachable x0 level s ->
  let g := wg (sys_world s) in
  In st [ws_state (g_wifi_status (wev g)); ms_state (g_modem_status (mev g));
         g_etherent_status (eev g); g_network_status (mon g)] ->
  state_too_big st = false /\
  net_status st (sys_world s) =
    Ret (if st =? 0 then "DISCONNECTED" else "CONNECTED") (sys_world s).
Proof.
  intros Hr g Hin. destruct (reachable_inv _ _ _ Hr) as (((H1 & H2 & H3 & H4) & _) & _).
  assert (Hst : state01 st) by (destruct Hin as [<-|[<-|[<-|[<-|[]]]]]; assumption).
  destruct Hst as [-> | ->]; split; reflexivity.
Qed.

(** C32: The callback of the access-point timer.  When it returns, the access
    point is stopped and no longer a mode, the station is started, the timer
    has been freed and no reply was sent. *)
Theorem ap_timeout_callback (base : list Z) (w w' : world X) :
  st_ok (wg w) -> inv base (absw w) ->
  wifi_change_to_station w = Ret tt w' ->
  inv base (absw w') /\
  g_start_ap_flag (hal (wg w')) = 0 /\ g_start_station_flag (hal (wg w')) = 1 /\
  g_network_mode (nmode (wg w')) &? WIFI_AP = false /\
  g_ap_timeout_flag (ctrl (wg w')) = 0 /\ map fst (timers (wg w')) = base /\
  replies (wlog w') = replies (wlog w).
Proof.
  intros Hs Hi Hr. pose proof (change_to_station_spec base _ Hi w Hs eq_refl) as H.
  rewrite Hr in H. destruct H as (_ & H1 & H2 & H3 & H4 & H5 & H6).
  do 5 (split; [assumption|]). split; [|exact H2].
  destruct (inv_timer _ _ H1) as [_ _ _ [[_ Ht]|[Ht _]]]; [exact Ht|]. congruence.
Qed.
End Theorems.

(** ** Runs

    The manager on working devices: booted, then joined to a network or with an
    access point for one minute. *)

Section Runs.
#[local] Instance demo_env : Env unit := scripted all_works.
#[local] Instance demo_fuel : Fuel := 5%nat.

Definition result_world {A} (o : outcome (world unit) A) : world unit :=
  match o with Ret _ w => w | Fault _ => mk_world init_globals tt [] end.

Definition booted : world unit :=
  Eval vm_compute in result_world (main_init 3 (mk_world init_globals tt [])).

Definition joined : world unit :=
  Eval vm_compute in result_world (handle_net_command "WIFI/CONNECT/home/12345678" booted).

Definition ap_up : world unit :=
  Eval vm_compute in
    result_world (handle_net_command "WIFI_AP/CONNECT/yoda/12345678/192.168.2.1/60000" booted).

Lemma booted_reachable : reachable tt 3 (mk_system booted []).
Proof. apply (reach_init tt 3 (1, 1, 0)). vm_compute. reflexivity. Qed.

Lemma joined_reachable : reachable tt 3 (mk_system joined []).
Proof.
  eapply reach_step; [apply booted_reachable|].
  apply step_command with (buf := "WIFI/CONNECT/home/12345678"). vm_compute. reflexivity.
Qed.

Lemma ap_up_reachable : reachable tt 3 (mk_system ap_up []).
Proof.
  eapply reach_step; [apply booted_reachable|].
  apply step_command with (buf := "WIFI_AP/CONNECT/yoda/12345678/192.168.2.1/60000").
  vm_compute. reflexivity.
Qed.

(** The invariant at a booted manager and with an access point. *)
Lemma booted_inv : inv [1; 2; 3] (absw booted).
Proof.
  split; [vm_compute; intuition discriminate| |].
  - constructor; try (left; reflexivity); try reflexivity; discriminate.
  - constructor; [repeat constructor| |reflexivity|left; split; reflexivity].
    cbn. intros H. repeat destruct H as [H|H]; try discriminate; exact H.
Qed.

Lemma ap_up_inv : inv [1; 2; 3] (absw ap_up).
Proof.
  split; [vm_compute; intuition discriminate| |].
  - constructor; try (left; reflexivity); try (right; reflexivity); try reflexivity;
      intros H; try discriminate H. split; reflexivity.
  - constructor; [repeat constructor| |reflexivity|right; split; reflexivity].
    cbn. intros H. repeat destruct H as [H|H]; try discriminate; exact H.
Qed.

Lemma command_contract_witness :
  exists j, replies (wlog joined) = j :: replies (wlog booted) /\ is_ok j = true /\
    e_wifi_connect (modes_of 0) true (modes_of 1).
Proof.
  destruct (command_contract [1; 2; 3] booted joined "WIFI/CONNECT/home/12345678")
    as (_ & _ & j & Hj & He).
  - repeat split; left; reflexivity.
  - exact booted_inv.
  - vm_compute. reflexivity.
  - exists j. split; [exact Hj|]. vm_compute in Hj. injection Hj as <-. split; [reflexivity|exact He].
Defined.

Lemma reachable_modes_witness :
  reachable tt 3 (mk_system joined []) /\ g_network_mode (nmode (wg joined)) = 1 /\
  g_start_station_flag (hal (wg joined)) = 1.
Proof.
  pose proof joined_reachable as H. split; [exact H|]. split; [reflexivity|].
  apply (reachable_modes tt 3 _ H). reflexivity.
Defined.

Lemma reachable_timers_witness :
  reachable tt 3 (mk_system ap_up []) /\ map fst (timers (wg booted)) = [1; 2; 3] /\
  g_ap_timeout_flag (ctrl (wg ap_up)) = 1 /\ map fst (timers (wg ap_up)) = ([1; 2; 3] ++ [4])%list.
Proof.
  pose proof ap_up_reachable as H. split; [exact H|]. split; [reflexivity|]. split; [reflexivity|].
  assert (Hm : main_init 3 (mk_world init_globals tt []) = Ret (Some (1, 1, 0)) booted) by (vm_compute; reflexivity).
  destruct (reachable_timers tt 3 (1, 1, 0) booted _ Hm H) as (_ & [[Hf _]|(_ & Ht & _)]); [discriminate Hf|exact Ht].
Defined.

Lemma reachable_states_witness :
  reachable tt 3 (mk_system joined []) /\ ws_state (g_wifi_status (wev (wg joined))) = 1 /\
  net_status 1 joined = Ret "CONNECTED" joined.
Proof.
  pose proof joined_reachable as H. split; [exact H|]. split; [reflexivity|].
  apply (reachable_states tt 3 _ 1 H). left. reflexivity.
Defined.

Lemma ap_timeout_callback_witness :
  let w' := result_world (wifi_change_to_station ap_up) in
  wifi_change_to_station ap_up = Ret tt w' /\ map fst (timers (wg w')) = [1; 2; 3].
Proof.
  cbv zeta. assert (H : wifi_change_to_station ap_up = Ret tt (result_world (wifi_change_to_station ap_up)))
    by (vm_compute; reflexivity).
  split; [exact H|]. apply (ap_timeout_callback [1; 2; 3] ap_up).
  - repeat split; left; reflexivity.
  - exact ap_up_inv.
  - exact H.
Defined.

(** The access-point timer can be used after it is freed.  In a reachable
    state the timer has expired and its callback is queued, a command has then
    stopped the access point and freed the timer, and running the queue
    dereferences the freed timer. *)
Theorem ap_timer_race :
  exists (s : system) (id : Z) (q : list Z),
    reachable tt 3 s /\ sys_queue s = id :: q /\
    schd_timer_sync_handler id (sys_world s) = Fault UseAfterFree.
Proof.
  set (w1 := mk_world (timer_goes_off 4 (wg ap_up)) tt (wlog ap_up)).
  set (w2 := result_world (handle_net_command "WIFI_AP/DISCONNECT" w1)).
  exists (mk_system w2 [4]), 4, []. split; [|split; [reflexivity|vm_compute; reflexivity]].
  eapply reach_step; [eapply reach_step; [apply ap_up_reachable|]|].
  - apply (step_expire (wg ap_up) tt (wlog ap_up) [] 4). reflexivity.
  - apply step_command with (buf := "WIFI_AP/DISCONNECT"). vm_compute. reflexivity.
Qed.
End Runs.

Section EarlyCommand.
(** A board with a network in its configuration. *)
#[local] Instance configured_env : Env unit :=
  scripted (mk_script (fun _ => 0) wpa_works (1, "") [] ([], TimedOut) (fun _ => Some ["ssid=home"])).
#[local] Instance configured_fuel : Fuel := 5%nat.

(** [network_set_initmode] does not take [func_mutex].  A WIFI_AP CONNECT that is
    executed after it has read the modes brings the access point up, and it then starts
    the station beside it. *)
Theorem early_ap_gets_station :
  let w := result_world ((init_hals ;; network_parm_init) (mk_world init_globals tt [])) in
  let w := result_world ((mode <- network_get_mode ;; init_modem mode ;; init_etherent mode ;;
             handle_net_command "WIFI_AP/CONNECT/yoda/12345678/192.168.2.1/60000" ;; init_wifi mode) w) in
  g_network_mode (nmode (wg w)) = WIFI_AP /\ g_start_ap_flag (hal (wg w)) = 1 /\ g_start_station_flag (hal (wg w)) = 1.
Proof. vm_compute. repeat split. Qed.
End EarlyCommand.
