(* ===== verification/NetLive.v ===== *)
(** * Commands return

    The commands that do not talk to wpa_supplicant return for every
    environment: with the devices in capacity, the timers of the manager
    allocated and the reported states valid, none of their NULL, range or
    use-after-free checks fails. *)

From Stdlib Require Import ZArith List Bool Lia Ascii String.
From S2P Require Import Prelude CString CMonad Json NetEnv Demo WpaCommand Eloop Hal Report WifiEvent.
From S2P Require Import LinkEvent NetSwitch NetCtrl NetMain NetSpec NetContract NetSystem.
Import ListNotations.
Import Modem Etherent Monitor.
Open Scope string_scope.
Open Scope Z_scope.

(** ** Readiness *)

(** The timer [id] may be passed to libeloop. *)
Definition alive (id : Z) (g : globals) : Prop := id <> 0 /\ live id g = true.

(** The modes [ms] are in capacity and the timers a command uses exist. *)
Record ready (ms : list Z) (g : globals) : Prop := {
  rd_states : st_ok g;
  rd_capacity : Forall (fun m => mode_in_capacity (g_capacity g) m = 0) ms;
  rd_scan : alive (NetEnv.wifi_scan (net g)) g;
  rd_modem : alive (modem_monitor (net g)) g;
  rd_flag : state01 (g_ap_timeout_flag (ctrl g));
  rd_ap : g_ap_timeout_flag (ctrl g) = 1 ->
          alive (wifi_ap_timeout (net g)) g /\
          wifi_ap_timeout (net g) <> NetEnv.wifi_scan (net g) /\
          wifi_ap_timeout (net g) <> modem_monitor (net g)
}.

Lemma live_arm id p g : live id (arm_timer p g) = live id g.
Proof.
  unfold live, arm_timer. cbn. induction (timers g) as [|[i t] l IH]; [reflexivity|]. cbn.
  destruct (Z.eqb_spec i (fst p)) as [-> |Hp]; cbn; destruct (_ =? id); auto.
Qed.

Lemma live_remove id id' g l : id <> id' -> timers g = remove_timer id' l ->
  live id g = match find_timer id l with Some _ => true | None => false end.
Proof.
  intros Hne Hl. unfold live. rewrite Hl. clear Hl. induction l as [|[i t] l IH]; [reflexivity|].
  unfold remove_timer in *. cbn. destruct (Z.eqb_spec i id') as [-> |Hi]; cbn.
  - rewrite IH. destruct (Z.eqb_spec id' id); [congruence|reflexivity].
  - destruct (i =? id); auto.
Qed.

(** ** Total triples over a predicate on the globals *)

Section Ok.
Context {X : Type} {E : Env X} {F : Fuel} {J : JsonC} (R : globals -> Prop).
Local Notation Mw := (M (world X)).

(** From a state in [R] the computation returns, in a state in [R], with a
    value in [P]. *)
Definition okp {A} (P : A -> Prop) (m : Mw A) : Prop :=
  forall w, R (wg w) -> wp m (fun a w' => R (wg w') /\ P a) w.

Local Notation ok m := (okp (fun _ => True) m).

Lemma okp_ret {A} (P : A -> Prop) (a : A) : P a -> okp P (ret a).
Proof. intros H w Hw. now split. Qed.

Lemma okp_bind {A B} (P : A -> Prop) (Q : B -> Prop) (m : Mw A) (k : A -> Mw B) :
  okp P m -> (forall a, P a -> okp Q (k a)) -> okp Q (bind m k).
Proof.
  intros Hm Hk w Hw. apply wp_bind. eapply wp_mono; [|apply Hm, Hw].
  intros a w' [Hw' Ha]. apply Hk; assumption.
Qed.

Lemma okp_skip {A B} (Q : B -> Prop) (m : Mw A) (k : A -> Mw B) :
  ok m -> (forall a, okp Q (k a)) -> okp Q (bind m k).
Proof. intros Hm Hk. eapply okp_bind; [exact Hm|auto]. Qed.

Lemma okp_weaken {A} (P Q : A -> Prop) (m : Mw A) : okp P m -> (forall a, P a -> Q a) -> okp Q m.
Proof. intros Hm H w Hw. eapply wp_mono; [|apply Hm, Hw]. intros a w' []. auto. Qed.

Lemma okp_get {A} (P : A -> Prop) (f : globals -> A) :
  (forall g, R g -> P (f g)) -> okp P (get f).
Proof. intros H w Hw. split; [exact Hw|apply H, Hw]. Qed.

Lemma ok_upd (f : globals -> globals) : (forall g, R g -> R (f g)) -> ok (upd f).
Proof. intros H w Hw. split; [apply H, Hw|exact Logic.I]. Qed.

Lemma ok_exec c : ok (exec c).
Proof. intros w Hw. unfold wp, exec. destruct (ext c (wx w)). split; [exact Hw|exact Logic.I]. Qed.

Lemma ok_exec_ c : ok (exec_ c).
Proof. apply okp_skip; [apply ok_exec|]. intros. now apply okp_ret. Qed.

Lemma ok_when (b : bool) (m : Mw unit) : ok m -> ok (when b m).
Proof. intros H. destruct b; [exact H|now apply okp_ret]. Qed.

Lemma ok_get {A} (f : globals -> A) : ok (get f).
Proof. now apply okp_get. Qed.
End Ok.

#[export] Hint Resolve ok_get ok_exec ok_exec_ : ok.

Ltac ready_upd := apply ok_upd; intros ? []; constructor; assumption.

Ltac ok_step :=
  lazymatch goal with
  | |- okp _ _ (ret _) => apply okp_ret; exact Logic.I
  | |- okp _ _ (bind _ _) => apply okp_skip; [|intros ?]
  | |- okp _ _ (when _ _) => apply ok_when
  | |- okp _ _ (if ?b then _ else _) => destruct b
  | |- okp _ _ (match ?x with _ => _ end) => destruct x
  | |- okp _ _ (upd _) => ready_upd
  end.

Ltac ok_open :=
  lazymatch goal with
  | |- okp _ _ (stop _) => fail
  | |- okp _ _ ?m => unfold_op m; cbv zeta
  end.
Ltac ok := repeat first [solve [auto with ok nocore] | ok_step | progress ok_open].

Section OkTimers.
Context {X : Type} {E : Env X} (R : globals -> Prop) (Harm : forall p g, R g -> R (arm_timer p g)).

(** A timer known to be allocated can be started and stopped. *)
Lemma settime_ok id a b c d : okp R (fun _ => True) (timer_settime id a b c d).
Proof.
  unfold timer_settime. apply okp_skip; [apply ok_exec|]. intros r. apply okp_skip; [|intros; ok].
  apply ok_when, ok_upd, Harm.
Qed.

Lemma deref_alive_ok {B} (f : globals -> Z) (k : Z -> schd_timer -> M (world X) B) Q :
  (forall g, R g -> alive (f g) g) -> (forall id t, okp R Q (k id t)) ->
  okp R Q (id <- get f ;; t <- deref_timer id ;; k id t).
Proof.
  intros Hf Hk w Hw. destruct (Hf _ Hw) as [H0 Hl]. unfold wp, bind, deref_timer. cbn.
  destruct (Z.eqb_spec (f (wg w)) INVALID_ID) as [|_]; [contradiction|]. cbn.
  unfold live in Hl. destruct (find_timer (f (wg w)) (timers (wg w))) as [t|] eqn:Ef; [|discriminate Hl].
  apply (Hk (f (wg w)) t w Hw).
Qed.

Lemma timer_stop_ok {B} (f : globals -> Z) (k : M (world X) B) Q :
  (forall g, R g -> alive (f g) g) -> okp R Q k ->
  okp R Q (id <- get f ;; eloop_timer_stop id ;; k).
Proof.
  intros Hf Hk w Hw.
  pose proof (deref_alive_ok f (fun id _ => timer_settime id 0 0 0 0 ;; k) Q Hf) as H.
  specialize (H (fun id t => okp_skip _ _ _ _ (settime_ok _ _ _ _ _) (fun _ => Hk)) w Hw).
  unfold eloop_timer_stop, scheduler_timer_stop, wp, bind in *. cbn in *.
  destruct (deref_timer _ w); [|exact H]. now destruct (timer_settime _ _ _ _ _ _).
Qed.

Lemma timer_start_ok {B} (f : globals -> Z) (k : M (world X) B) Q :
  (forall g, R g -> alive (f g) g) -> okp R Q k ->
  okp R Q (id <- get f ;; eloop_timer_start id ;; k).
Proof.
  intros Hf Hk w Hw.
  pose proof (deref_alive_ok f (fun id t => timer_settime id (ms_sec (timeout_ms t)) (ms_nsec (timeout_ms t))
                   (ms_sec (period_ms t)) (ms_nsec (period_ms t)) ;; k) Q Hf) as H.
  specialize (H (fun id t => okp_skip _ _ _ _ (settime_ok _ _ _ _ _) (fun _ => Hk)) w Hw).
  unfold eloop_timer_start, scheduler_timer_start, wp, bind in *. cbn in *.
  destruct (deref_timer _ w); [|exact H]. now destruct (timer_settime _ _ _ _ _ _).
Qed.

Lemma timer_delete_run id (w : world X) : alive id (wg w) ->
  exists x l, eloop_timer_delete id w =
    Ret tt (mk_world (set_timers (remove_timer id (timers (wg w))) (wg w)) x l).
Proof.
  intros [H0 Hl]. unfold eloop_timer_delete, scheduler_timer_delete, deref_timer, bind.
  destruct (Z.eqb_spec id INVALID_ID); [contradiction|]. cbn. unfold live in Hl.
  destruct (find_timer id (timers (wg w))); [|discriminate Hl].
  unfold exec_, exec, bind, ret. cbn.
  destruct (ext (TimerDelete id) (wx w)) as [u x]. cbn.
  destruct (ext PthreadAttrDestroy x). cbn. do 2 eexists. reflexivity.
Qed.
End OkTimers.

Section OkOps.
Context {X : Type} {E : Env X} {F : Fuel} {J : JsonC} (ms : list Z).
Local Notation ok m := (okp (X := X) (ready ms) (fun _ => True) m).

Lemma wifi_hal_start_ap_ok s p i : ok (wifi_hal_start_ap s p i).
Proof. ok. Qed.

Lemma modem_hal_start_ok : ok modem_hal_start_modem.
Proof. ok. Qed.

Lemma modem_hal_stop_ok : ok modem_hal_stop_modem.
Proof. ok. Qed.

Lemma etherent_hal_start_ok : ok etherent_hal_start_eth.
Proof. ok. Qed.

Lemma etherent_hal_stop_ok : ok etherent_hal_stop_eth.
Proof. ok. Qed.

Lemma set_mode_ok m st : ok (network_set_mode m st).
Proof. ok. Qed.

Lemma wifi_stop_monitor_ok : ok wifi_stop_monitor.
Proof. ok. Qed.

Lemma ready_arm p g : ready ms g -> ready ms (arm_timer p g).
Proof.
  intros []. constructor; auto; unfold alive in *; rewrite ?live_arm; auto.
Qed.

End OkOps.

#[export] Hint Resolve wifi_hal_start_ap_ok modem_hal_start_ok modem_hal_stop_ok etherent_hal_start_ok
  etherent_hal_stop_ok set_mode_ok wifi_stop_monitor_ok : ok.

Section OkCommands.
Context {X : Type} {E : Env X} {F : Fuel} {J : JsonC} (ms : list Z).
Local Notation ok m := (okp (X := X) (ready ms) (fun _ => True) m).

Lemma modem_start_monitor_ok : ok modem_start_monitor.
Proof.
  unfold modem_start_monitor, put_mev. apply okp_skip; [ok|intros f]. apply okp_skip; [|intros; ok].
  apply ok_when. apply okp_skip; [ok|intros ?].
  intros w Hw. pose proof (timer_start_ok (ready ms) (ready_arm ms) (fun g => modem_monitor (net g)) (ret tt) (fun _ => True)
    (rd_modem ms) (okp_ret (ready ms) _ tt Logic.I) w Hw) as H.
  unfold wp, bind in *. cbn in *. now destruct (eloop_timer_start _ w).
Qed.

Lemma modem_stop_monitor_ok : ok modem_stop_monitor.
Proof.
  unfold modem_stop_monitor, put_mev. apply okp_skip; [ok|intros f].
  apply ok_when. apply okp_skip; [ok|intros ?].
  intros w Hw. pose proof (timer_stop_ok (ready ms) (ready_arm ms) (fun g => modem_monitor (net g)) (ret tt) (fun _ => True)
    (rd_modem ms) (okp_ret (ready ms) _ tt Logic.I) w Hw) as H.
  unfold wp, bind in *. cbn in *. now destruct (eloop_timer_stop _ w).
Qed.
Hint Resolve modem_start_monitor_ok modem_stop_monitor_ok : ok.

(** ** network_configure_net *)

Definition reason_ok (r : Z) : Prop := 0 <= r < 13.

Definition good_info (r : Z * option mode_info) : Prop :=
  exists i, snd r = Some i /\ reason_ok (mi_reason i).

Lemma in_capacity_ok m : In m ms -> okp (X := X) (ready ms) (fun c => c = 0) (is_mode_in_capacity m).
Proof.
  intros Hm. unfold is_mode_in_capacity.
  apply okp_bind with (P := fun c => mode_in_capacity c m = 0).
  - apply okp_get. intros g Hg. destruct Hg as [_ Hc _ _ _ _]. rewrite Forall_forall in Hc. now apply Hc.
  - intros c Hc. apply okp_ret. exact Hc.
Qed.

Lemma configure_stop_ok m : In m ms -> ok (network_configure_net m STOP None).
Proof.
  intros Hm. unfold network_configure_net. cbn [option_map].
  apply okp_bind with (P := fun c => c = 0); [now apply in_capacity_ok|]. intros ? ->.
  change (negb (0 =? 0)) with false. change (STOP =? START) with false. cbv iota.
  unfold no_info, network_stop_wifi, network_stop_wifi_ap, network_stop_modem, network_stop_etherent. ok.
Qed.

(** The reasons the start functions leave are valid. *)
Ltac reason := apply okp_ret; vm_compute; split; [discriminate|reflexivity].

Lemma start_ap_reason i :
  okp (X := X) (ready ms) (fun r => reason_ok (mi_reason (snd r))) (network_start_wifi_ap i).
Proof. unfold network_start_wifi_ap. apply okp_skip; [ok|intros r]. destruct (negb (r =? 0)); reason. Qed.

Lemma start_modem_reason i :
  okp (X := X) (ready ms) (fun r => reason_ok (mi_reason (snd r))) (network_start_modem i).
Proof. unfold network_start_modem, either_fails. apply okp_skip; [ok|intros []]; reason. Qed.

Lemma start_eth_reason i :
  okp (X := X) (ready ms) (fun r => reason_ok (mi_reason (snd r))) (network_start_etherent i).
Proof. unfold network_start_etherent, either_fails. apply okp_skip; [ok|intros []]; reason. Qed.

Lemma with_info_ok i f :
  okp (X := X) (ready ms) (fun r => reason_ok (mi_reason (snd r))) (f i) ->
  okp (X := X) (ready ms) good_info (with_info (Some i) f).
Proof.
  intros H. unfold with_info. eapply okp_bind; [exact H|]. intros [r j] Hj.
  apply okp_ret. eexists. split; [reflexivity|exact Hj].
Qed.

Lemma configure_start_ok m i : In m ms -> m <> WIFI ->
  okp (X := X) (ready ms) good_info (network_configure_net m START (Some i)).
Proof.
  intros Hm Hw. unfold network_configure_net. cbn [option_map].
  apply okp_bind with (P := fun c => c = 0); [now apply in_capacity_ok|]. intros ? ->.
  change (negb (0 =? 0)) with false. change (START =? START) with true. cbv iota.
  destruct (Z.eqb_spec m WIFI) as [|_]; [contradiction|].
  destruct (m =? WIFI_AP); [apply with_info_ok, start_ap_reason|].
  destruct (m =? MODEM); [apply with_info_ok, start_modem_reason|].
  destruct (m =? ETHERENT); [apply with_info_ok, start_eth_reason|].
  apply okp_ret. eexists. split; [reflexivity|]. unfold reason_ok. cbn. lia.
Qed.

Hint Resolve configure_stop_ok : ok.

(** ** Replies and reports *)

Lemma response_ok st r : st = COMMAND_OK \/ st = COMMAND_NOK -> reason_ok r ->
  ok (netmanger_response_command st r).
Proof.
  intros Hst Hr. unfold netmanger_response_command, network_ipc_return, reason_ok in *.
  destruct Hst as [-> | ->]; [change (COMMAND_OK =? COMMAND_OK) with true; cbv iota; ok|].
  change (COMMAND_NOK =? COMMAND_OK) with false. change (COMMAND_NOK =? COMMAND_NOK) with true. cbv iota.
  destruct (Z.ltb_spec r 0); [lia|].
  destruct (nth_error cmd_fail_reason (Z.to_nat r)) eqn:En; [ok|].
  apply nth_error_None in En. cbn in En. lia.
Qed.

Lemma respond_code_ok r : ok (respond_code r).
Proof. unfold respond_code. destruct (negb _); apply response_ok; auto; vm_compute; split; discriminate || reflexivity. Qed.

Lemma ok_reply_ok : ok (netmanger_response_command COMMAND_OK eREASON_NONE).
Proof. apply response_ok; [now left|]. vm_compute. split; discriminate || reflexivity. Qed.
Hint Resolve respond_code_ok ok_reply_ok : ok.

Lemma status_ok_intro {A B} (f : globals -> A) (st : A -> Z) (k : A -> M (world X) B) :
  (forall g, st_ok g -> state01 (st (f g))) -> (forall a, state01 (st a) -> ok (k a)) ->
  ok (a <- get f ;; k a).
Proof.
  intros Hf Hk. apply okp_bind with (P := fun a => state01 (st a)); [|exact Hk].
  apply okp_get. intros g Hg. apply Hf, Hg.
Qed.

(** Reports and answers of a valid state. *)
Ltac status sel :=
  apply (status_ok_intro _ sel); [unfold st_ok; intros; tauto|];
  let H := fresh in intros st H; destruct H as [H|H];
  unfold network_ipc_upload, network_ipc_return, wifi_elem, modem_elem, state_elem, net_status,
    state_too_big;
  rewrite ?H; cbn -[exec_]; ok.

Lemma monitor_report_ok : ok monitor_report_status.
Proof. unfold monitor_report_status, monitor_get_status, report_network_status. status (fun z : Z => z). Qed.

Lemma wifi_report_ok : ok wifi_report_status.
Proof. unfold wifi_report_status, wifi_event_get_status, report_wifi_status. status ws_state. Qed.

Lemma modem_report_ok : ok modem_report_status.
Proof. unfold modem_report_status, modem_get_stauts, report_modem_status. status ms_state. Qed.

Lemma etherent_report_ok : ok etherent_report_status.
Proof. unfold etherent_report_status, etherent_get_stauts, report_etherent_status. status (fun z : Z => z). Qed.
Hint Resolve monitor_report_ok wifi_report_ok modem_report_ok etherent_report_ok : ok.

Lemma monitor_respond_ok : ok monitor_respond_status.
Proof. unfold monitor_respond_status, monitor_get_status, respond_network_status. status (fun z : Z => z). Qed.

Lemma wifi_respond_ok : ok wifi_respond_status.
Proof. unfold wifi_respond_status, wifi_event_get_status, respond_wifi_status. status ws_state. Qed.

Lemma modem_respond_ok : ok modem_respond_status.
Proof. unfold modem_respond_status, modem_get_stauts, respond_modem_status. status ms_state. Qed.

Lemma etherent_respond_ok : ok etherent_respond_status.
Proof. unfold etherent_respond_status, etherent_get_stauts, respond_etherent_status. status (fun z : Z => z). Qed.

(** ** The access-point timer *)

(** Removing the access-point timer leaves the other timers alone. *)
Lemma ready_freed g t : g_ap_timeout_flag (ctrl g) = 1 -> ready ms g -> wifi_ap_timeout (net g) = t ->
  ready ms (set_ctrl (set_g_ap_timeout_flag 0 (ctrl g)) (set_timers (remove_timer t (timers g)) g)).
Proof.
  intros Hf [Hs Hc Hsc Hm Hfl Ha] <-. destruct (Ha Hf) as (Hal & Hn1 & Hn2).
  assert (Hk : forall id g', id <> wifi_ap_timeout (net g) ->
    timers g' = remove_timer (wifi_ap_timeout (net g)) (timers g) -> alive id g -> alive id g').
  { intros id g' Hne Hg' [H0 Hl]. split; [exact H0|].
    rewrite (live_remove id _ g' _ Hne Hg'). exact Hl. }
  constructor; [exact Hs|exact Hc| | |now left|discriminate].
  - eapply Hk; [|reflexivity|exact Hsc]. auto.
  - eapply Hk; [|reflexivity|exact Hm]. auto.
Qed.

(** Ready, and the access-point timer exists. *)
Let with_ap (g : globals) : Prop := ready ms g /\ g_ap_timeout_flag (ctrl g) = 1.

Lemma with_ap_arm p g : with_ap g -> with_ap (arm_timer p g).
Proof. intros [H1 H2]. split; [now apply ready_arm|exact H2]. Qed.

Lemma with_ap_alive g : with_ap g -> alive (wifi_ap_timeout (net g)) g.
Proof. intros [H1 H2]. now apply H1. Qed.

Lemma free_ap_timer_ok w : with_ap (wg w) ->
  wp (W := world X) free_ap_timer (fun _ w' => ready ms (wg w')) w.
Proof.
  intros Hw. set (id := wifi_ap_timeout (net (wg w))).
  set (R := fun g => with_ap g /\ wifi_ap_timeout (net g) = id).
  assert (Hstop : wp (W := world X) (eloop_timer_stop id ;; ret tt) (fun _ w' => R (wg w') /\ True) w).
  { apply (timer_stop_ok R) with (f := fun _ => id) (k := ret tt) (Q := fun _ => True).
    - intros p g [H1 H2]. split; [now apply with_ap_arm|exact H2].
    - intros g [H1 <-]. now apply with_ap_alive.
    - now apply okp_ret.
    - split; [exact Hw|reflexivity]. }
  unfold wp, free_ap_timer, bind in *. cbn. fold id.
  destruct (eloop_timer_stop id w) as [u w1|]; [|exact Hstop]. cbn in Hstop. destruct Hstop as [[H1 H2] _].
  destruct (timer_delete_run id w1) as (x & l & ->); [rewrite <- H2; now apply with_ap_alive|].
  cbn. apply ready_freed; [apply H1..|exact H2].
Qed.

Lemma free_ap_ok : ok (f <- get (fun g => g_ap_timeout_flag (ctrl g)) ;; when (negb (f =? 0)) free_ap_timer).
Proof.
  intros w Hw. unfold wp, bind. cbn. destruct (rd_flag _ _ Hw) as [Hf|Hf]; rewrite Hf; cbn; [now split|].
  pose proof (free_ap_timer_ok w (conj Hw Hf)) as H. unfold wp in H.
  change (match free_ap_timer w with Ret _ w' => ready ms (wg w') /\ True | Fault _ => False end).
  destruct (free_ap_timer w); [split; [exact H|exact Logic.I]|exact H].
Qed.

(** ** The commands *)

Lemma stop_mode_ok m : In m ms -> ok (stop_mode m).
Proof. intros. unfold stop_mode. ok. Qed.
Hint Resolve stop_mode_ok : ok.

Lemma get_net_capacity_ok : ok netmanager_get_net_capacity.
Proof. ok. Qed.

Lemma get_net_mode_ok : ok netmanager_get_net_mode.
Proof. ok. Qed.

Lemma report_all_status_ok : ok netmanager_report_all_status.
Proof. ok. Qed.

Lemma get_config_network_ok : ok netmanager_get_config_network.
Proof. ok. Qed.

Lemma reset_dns_ok : ok netmanager_reset_dns.
Proof. ok. Qed.

Lemma stop_wifi_scan_ok : ok netmanager_stop_wifi_scan.
Proof. apply timer_stop_ok; [apply ready_arm|apply rd_scan|]. ok. Qed.

Lemma stop_wifi_station_ok : In WIFI ms -> ok netmanager_stop_wifi_station.
Proof.
  intros. apply okp_skip; [ok|intros ?]. apply timer_stop_ok; [apply ready_arm|apply rd_scan|]. ok.
Qed.

Lemma stop_wifi_ap_ok : In WIFI_AP ms -> ok netmanager_stop_wifi_ap.
Proof.
  intros. unfold netmanager_stop_wifi_ap. do 2 (apply okp_skip; [ok|intros ?]).
  intros w Hw. pose proof (free_ap_ok w Hw) as H1. unfold wp, bind, get, gets in H1 |- *.
  destruct (when _ free_ap_timer w) as [u w1|]; [|exact H1].
  assert (H2 : ok (netmanger_response_command COMMAND_OK eREASON_NONE ;; ret 0)) by ok.
  apply H2, H1.
Qed.

Lemma stop_modem_ok : In MODEM ms -> ok netmanager_stop_modem.
Proof. intros. ok. Qed.

Lemma stop_etherent_ok : In ETHERENT ms -> ok netmanager_stop_etherent.
Proof. intros. ok. Qed.

(** The state and the reason a command answers with. *)
Definition good_answer (r : Z * Z) : Prop :=
  (fst r = COMMAND_OK \/ fst r = COMMAND_NOK) /\ reason_ok (snd r).

Lemma start_local_ok m : In m ms -> m <> WIFI ->
  okp (X := X) (ready ms) (fun r => reason_ok (snd r)) (start_local m).
Proof.
  intros H1 H2. unfold start_local. eapply okp_bind; [now apply configure_start_ok|].
  intros [r [i|]] (j & Hj & Hr); [|discriminate Hj]. apply okp_ret. cbn in *. congruence.
Qed.

Lemma start_etherent_ok : In ETHERENT ms -> ok netmanager_start_etherent.
Proof.
  intros H. unfold netmanager_start_etherent. do 2 (apply okp_skip; [ok|intros ?]).
  eapply okp_bind; [apply start_local_ok; [exact H|discriminate]|]. intros [r rs] Hr. cbn [snd] in Hr.
  eapply okp_bind with (P := good_answer).
  - destruct (negb _); [apply okp_ret; split; [now right|exact Hr]|].
    do 2 (apply okp_skip; [ok|intros ?]). apply okp_ret. split; [now left|]. vm_compute. split; discriminate || reflexivity.
  - intros [st rs'] [H1 H2]. apply okp_skip; [now apply response_ok|]. intros. now apply okp_ret.
Qed.

Lemma start_modem_device_ok mode : In MODEM ms ->
  okp (X := X) (ready ms) good_answer (start_modem_device mode).
Proof.
  intros H. unfold start_modem_device. apply okp_skip; [ok|intros ?].
  eapply okp_bind; [apply start_local_ok; [exact H|discriminate]|]. intros [r rs] Hr. cbn [snd] in Hr.
  destruct (negb _); do 1 (apply okp_skip; [ok|intros ?]).
  - apply okp_ret. split; [now right|exact Hr].
  - apply okp_skip; [ok|intros ?]. apply okp_ret. split; [now left|]. vm_compute. split; discriminate || reflexivity.
Qed.

Lemma restart_ap_ok st rs : In WIFI_AP ms -> good_answer (st, rs) ->
  okp (X := X) (ready ms) good_answer (restart_ap st rs).
Proof.
  intros H Ha. unfold restart_ap. apply okp_skip; [ok|intros info].
  eapply okp_bind; [apply configure_start_ok; [exact H|discriminate]|].
  intros [r [i|]] (j & Hj & Hr); [|discriminate Hj]. cbn in Hj. injection Hj as ->.
  apply okp_skip; [ok|intros ?]. destruct (negb _); apply okp_skip; try ok; intros ?; apply okp_ret.
  - split; [now right|exact Hr].
  - exact Ha.
Qed.

Lemma start_modem_ok : In MODEM ms -> In WIFI_AP ms -> ok netmanager_start_modem.
Proof.
  intros H1 H2. unfold netmanager_start_modem. do 2 (apply okp_skip; [ok|intros ?]).
  eapply okp_bind; [now apply start_modem_device_ok|]. intros [st rs] Ha.
  eapply okp_bind with (P := good_answer).
  - destruct (_ &? _); [now apply restart_ap_ok|now apply okp_ret].
  - intros [st' rs'] [H3 H4]. apply okp_skip; [now apply response_ok|]. intros. now apply okp_ret.
Qed.
End OkCommands.

(** ** Theorem *)

(** The commands that only use the devices, with the modes they need. *)
Definition local_commands : list (string * string * list Z) :=
  [("NETWORK", "GET_CAPACITY", []); ("NETWORK", "GET_MODE", []); ("NETWORK", "TRIGGER_STATUS", []);
   ("WIFI", "STOP_SCAN", []); ("WIFI", "DISCONNECT", [WIFI]); ("WIFI_AP", "DISCONNECT", [WIFI_AP]);
   ("MODEM", "CONNECT", [MODEM; WIFI_AP]); ("MODEM", "DISCONNECT", [MODEM]);
   ("ETHERENT", "CONNECT", [ETHERENT]); ("ETHERENT", "DISCONNECT", [ETHERENT]);
   ("NETWORK", "GET_STATUS", []); ("WIFI", "GET_STATUS", []); ("ETHERENT", "GET_STATUS", []);
   ("MODEM", "GET_STATUS", []); ("WIFI", "GET_CFG_NUM", []); ("NETWORK", "RESET_DNS", [])].

Section LocalCommands.
Context {X : Type} {E : Env X} {F : Fuel} {J : JsonC}.

(** The row the dispatcher finds for a local command returns. *)
Lemma local_row_ok ms (c : string * string) need obj : In (c, need) local_commands -> incl need ms ->
  exists k d n h, get_ctrl_cmd_idx (X := X) c = Some k /\ nth_error ctrl_cmd k = Some (d, n, h) /\
    okp (X := X) (ready ms) (fun _ => True) (h obj).
Proof.
  intros Hin Hms.
  assert (Hm : forall m, In m need -> In m ms) by exact Hms.
  repeat (destruct Hin as [Hin|Hin]; [injection Hin as <- <-|]); [..|contradiction];
    do 4 eexists; (split; [vm_compute; reflexivity|]); (split; [reflexivity|]); cbn beta.
  - apply get_net_capacity_ok.
  - apply get_net_mode_ok.
  - apply report_all_status_ok.
  - apply stop_wifi_scan_ok.
  - apply stop_wifi_station_ok, Hm. now left.
  - apply stop_wifi_ap_ok, Hm. now left.
  - apply start_modem_ok; apply Hm; [now left|now right; left].
  - apply stop_modem_ok, Hm. now left.
  - apply start_etherent_ok, Hm. now left.
  - apply stop_etherent_ok, Hm. now left.
  - apply monitor_respond_ok.
  - apply wifi_respond_ok.
  - apply etherent_respond_ok.
  - apply modem_respond_ok.
  - apply get_config_network_ok.
  - apply reset_dns_ok.
Qed.

Lemma local_handle_ok ms buf c need :
  request_of (json_tokener_parse buf) = Some c -> In (c, need) local_commands -> incl need ms ->
  okp (X := X) (ready ms) (fun _ => True) (handle_net_command buf).
Proof.
  intros Hr Hin Hms. unfold handle_net_command, request_of, get_cmd_str in *.
  set (obj := json_tokener_parse buf) in *. clearbody obj.
  destruct (json_object_object_get_ex obj "device") as [d|]; [|discriminate Hr].
  destruct (json_object_object_get_ex obj "command") as [e|]; [|discriminate Hr].
  destruct (json_object_get_string d) as [ds|], (json_object_get_string e) as [es|]; try discriminate Hr.
  injection Hr as <-. eapply okp_bind; [apply (okp_ret (ready ms) (fun x => x = Some (strncpy 63 ds, strncpy 63 es))); reflexivity|].
  intros ? ->. destruct (local_row_ok ms _ need obj Hin Hms) as (k & dn & n & h & -> & -> & Hh).
  apply okp_skip; [exact Hh|]. intros. now apply okp_ret.
Qed.

End LocalCommands.

Section LocalRun.
#[local] Instance live_env : Env unit := scripted no_ap.
#[local] Instance live_fuel : Fuel := 5%nat.

End LocalRun.
